(* ===== verification/_CoqProject ===== *)
-Q . S2P
Prelude.v
GoStrings.v
GoNumeric.v
Json.v
Codec.v
HttpModel.v
Config.v
KillQuery.v
Lru.v
SingleFlight.v
RouterPb.v
Routing.v
Cookie.v
Forward.v
SqlMeta.v
SqlRefs.v
Engine.v
PipelineCas.v
RsConfig.v
Providers.v
Reload.v
RsServer.v
EndToEnd.v
ClusterStats.v
Monitor.v
Auth.v
AdminAuth.v
Sql.v
Persistence.v
Store.v
StoreProps.v
AdminApi.v
StaticUI.v
AdminServe.v
AdminProps.v
Lifecycle.v
Migrate.v
Gateway.v
DiffHarness.v
GoFlags.v
NumericProps.v
YamlBlock.v
ConfigYaml.v
ConfigMigration.v
MigratedConfig.v
RsTools.v
GwMetrics.v
GaugeRace.v
RsLifecycle.v
RsWiring.v
Wire.v
WireForms.v
TrinoFake.v
Fleet.v
FleetClients.v
OidcServer.v
OidcLogin.v
TestServers.v
MockRouters.v
ScriptSource.v
TickLoops.v
Entry.v
TestTB.v
TestContainers.v
GoTemplate.v
Bootstrap.v
System.v
HarnessConfig.v
E2EHarness.v
HarnessApi.v
GoldenFiles.v
