(* ===== verification/Prelude.v ===== *)
(** * trino-goway: a verification library

    trino-goway is two programs. The gateway (cmd/trino-goway, internal/) is a reverse
    proxy in front of several Trino clusters: it decides for every client request which
    backend serves it, relays the exchange, keeps later requests of a query on the
    backend that runs it, and watches the health of its backends. The routing service
    (routing-service/) is asked by the gateway, over gRPC, which routing group a new
    statement belongs to; it evaluates operator-written rules and can change them while
    running. A request flows

      client -> Forward (proxy) -> Routing (router) -> RsServer (service) -> Engine
             (pipeline) -> Providers (rules), SqlMeta (SQL analysis)

    and back; Monitor and ClusterStats run beside it, Reload swaps the rules, the admin
    plane in RsServer switches them off. The gateway's backends and its query history
    live in a database (Persistence) that the router reads, the proxy writes and
    operators change through the admin API (AdminApi behind AdminAuth); Gateway wires the
    parts together and Lifecycle starts and stops the process.

    ** Conventions

    A Go function that returns an error is a function to [go_result]; code that talks to
    the outside or mutates its receiver is a state transformer [ST]. What is not in the
    repository (HTTP clients, the database, YAML and expression libraries, fsnotify,
    the LRU package) is a parameter or a class, and every theorem that assumes something
    about it has a witness with a concrete instance. Machine integers are [Z] with
    [wrap64] where they can overflow; floats are binary64 through [SpecFloat]. A nil
    slice or map and an empty one are the same value unless a function tells them apart
    ([option] then). Log lines are left out except where the log is the contract
    (decision logs, audit notices); error texts are kept without formatted operands.

    ** Files, and the sources they model

    - Prelude: results, state passing, integers, automation.
    - GoStrings, GoNumeric, Json, Codec, HttpModel: the parts of Go's standard library
      the programs rely on (strings, strconv, time, fmt, encoding/json, encoding/base64,
      crypto/sha256, crypto/hmac, net/http headers, URLs and cookies). SHA-256's
      constants are computed from their definition; [Json.unmarshal_print] is the
      parser/printer round trip.
    - Config: internal/config. RsConfig: routing-service/internal/config.
    - KillQuery, Lru, SingleFlight, Routing: internal/routing. [KillQuery] is the regular
      expression of router.go with a declarative specification; [Lru] the interface of
      the cache package and an instance; [SingleFlight] recovery.go's call coalescing as
      a step relation over goroutines; [Routing.Route] the decision itself.
    - RouterPb: the messages of the .proto file.
    - Cookie, Forward: internal/proxy. [Forward.ServeHTTP] dispatches as chi does, by
      method and by the escaped path when there is one.
    - ClusterStats, Monitor: internal/clusterstats, internal/clusterstatus,
      internal/monitor.
    - SqlMeta, SqlRefs: routing-service/internal/sqlmeta, and statements built from the
      tables they name. Engine: internal/engine (pipeline,
      input, adapter). PipelineCas: the compare-and-swap loop of pipeline.go as a step
      relation. Providers: registry.go and the expr and script providers. Reload:
      internal/reload. RsServer: internal/server, internal/logging, internal/metrics and
      cmd/routing-service/main.go (all under routing-service/).
    - Auth, AdminAuth: internal/auth, and the login handlers and route table of
      internal/admin. The middlewares are instances of [Auth.Authenticates], against
      which access to the routes is proved.
    - Sql, Persistence, Store, StoreProps: internal/persistence (backend.go, history.go).
      [Sql] parses the statement texts the program builds and evaluates them over tables
      of rows whose columns are those of migrations/; [Persistence] has the methods of the
      access objects with both drivers' texts; [Store.StoreOps] and [Store.StoreSpec] are
      the interface the rest of the gateway relies on (BackendStore and HistoryStore of
      internal/admin/router.go) and what it promises over an abstract store, and
      [Store.dao_spec] discharges it. The engine's row order, faults, rounding of times,
      collation and what its INSERT IGNORE makes of values that do not fit are parameters;
      [Sql.EngineOk] asks for an exact collation and for values that fit, and StoreProps has
      engines without either ([collation_merges_backends], [ignore_changes_id]).
    - Migrate: internal/persistence/db.go as a step relation over replicas that boot
      together, fail and crash, and the server's lock; goose is a parameter of which only an
      undisturbed run is specified.
    - AdminApi, StaticUI, AdminServe, AdminProps: the rest of internal/admin: the
      handlers over [StoreOps], the embedded files, all routes over one state, and
      properties proved against [StoreSpec].
    - Lifecycle: internal/lifecycle and the end of run as a step relation in which steps
      of the program and of its surroundings are told apart.
    - Gateway: cmd/trino-goway/main.go: adapters, refresh, start-up stages, with a run
      that may block at its end; and the
      composition of the store with router, monitor and admin API.
    - EndToEnd: the gateway's router with its gRPC stub connected to the service.
    - DiffHarness: internal/diffharness and cmd/goway-diff-harness, the tool that replays
      scenarios at two gateways and compares the answers.
    - GoFlags, NumericProps: flag.FlagSet; exact floats, durations read back.
    - YamlBlock, ConfigYaml: documents in YAML's block style with a reader, and their
      decoding into internal/config by its tags; [ConfigYaml.YamlLibrary] is what the YAML
      library promises of them.
    - ConfigMigration, MigratedConfig: cmd/goway-migrate-config, from Java configurations to
      [Config]'s, and the document written by the tags of its output.go;
      [MigratedConfig.YamlCodec] is what the library promises of what it marshals.
    - RsTools: routing-service/internal/validate, cmd/routing-service-validate and the
      rule-testing tools under tools/, over the loading of [RsServer] and [Providers].
    - RsLifecycle: the listeners and bounded stops of the service's three servers and the
      end of its main as a step relation; internal/tracing.
    - RsWiring: the constructors and options of the service's server, evaluator, admin
      server, decision logger and watcher, over a heap of shared objects;
      [RsWiring.wired_service_refines] simulates what main wires in [RsServer]'s service,
      for calls that do not overlap.
    - GwMetrics: internal/metrics, the collectors of the gateway's events and the gauges
      that observe [Monitor]. GaugeRace: the monitor's notifications as a step relation in
      which every access to shared data is a step.
    - Wire, WireForms: what net/http and net/url do between a client and a handler for
      plain URLs, forms, cookies and redirects. With them the gateway's clients are run
      against the in-process servers of internal/testutil: TrinoFake (trino_fake.go) in
      Fleet (the proxy) and FleetClients (probes, health check, collectors); OidcServer
      (oidc_server.go) in OidcLogin; TestServers (ldap_server.go, backend.go); and
      MockRouters (cmd/mock-external-router, cmd/mock-external-router-grpc).
      [OidcLogin.JWTLibrary] is what the JWT and key-set libraries promise.
    - ScriptSource: the script provider's own copies of the configuration reader.
    - TickLoops: the goroutines around a ticker of internal/monitor and internal/auth with
      their Stop, as one step relation over what a round does.
    - Entry: the proxy's handler chain (setupRoutes), the router's construction, and the
      command lines of the three programs.
    - TestTB: what a test function does with testing.TB (fatal errors, cleanups, what it
      has opened) as a monad with a small logic. On it: TestContainers (postgres.go,
      mysql.go, portalloc.go of internal/testutil), Bootstrap
      (internal/diffharness/bootstrap.go) and E2EHarness (internal/e2e/harness: the gateway,
      the routing service and the mock router as processes of a test).
    - GoTemplate: the subset of text/template the harness's configuration file is written
      in. HarnessConfig: the harness's options, its template, and what the gateway reads.
    - HarnessApi: the harness's AddBackend against the admin API; [HarnessApi.ChiMux] is
      what chi promises of routes without parameters.
    - GoldenFiles: the recordings of the differential harness on disk.
    - System: all of the gateway over one database, as a step relation whose steps are
      whole client and admin requests, refreshes, health rounds and restarts.

    ** What the theorems show

    - Routing: [Route] implements its priority order, selects only vouched-for
      backends, and is sticky for cached queries; the KILL QUERY extraction is the
      leftmost match of its pattern; coalesced lookups run once, return the right result
      and terminate (and block for ever if the lookup panics).
    - Proxy: one response per request (none when the upstream request cannot be built,
      which panics), cache writes before it, byte-exact relaying, the
      size limit, header rewriting; a query's follow-up goes to the backend that answered
      its statement; cookies round trip and forgeries are refused.
    - Engine and providers: first decision wins whatever fails or panics; concurrent
      kill-switch and swap operations linearize and terminate; rules are read back from
      their configuration text and a built method evaluates exactly that source.
    - Service: reloads are all or nothing, as the file decides, and debounced; a running service always
      answers new submissions with a non-empty group, with consistent collectors; the
      gauge of the kill switch follows admin calls but not reloads; after a signal it
      ends by itself with its calls answered, unless the stop's timer fires first.
    - SQL analysis: of statements over tables exactly the catalogs, schemas and tables they
      name are reported, with type and category; comments and literals are invisible,
      results are well formed, the byte cap is exact.
    - Health: a cycle publishes exactly its verdicts, statistics agree with them,
      collectors keep within their request budget and to their backend.
    - Access: backend-changing admin routes run only for principals with the role; a
      login token goes only to the browser that began the login and a begun login
      completes, but as registered the login routes demand a token first; passwords are
      checked by a bind; a key set once loaded is kept; page permissions are the union
      of the roles' pages.
    - Persistence: on either driver, with an exact collation and values that fit, the SQL is
      a run of the abstract store, whichever statements fail; the bucket query cannot be
      read on MySQL; migrations of concurrent replicas are serialised wherever they fail or
      crash, as long as a session that holds the lock lives as long as its replica.
    - Admin API: only a request with the role changes backends and it makes one change;
      callers see their own history; a saved backend is read back; the dashboard's
      numbers are right; asset paths stay in their directory.
    - Gateway: a deactivated backend gets no new statements; recorded queries are found
      again; when run returns it leaves nothing open, and it blocks exactly when it serves
      and no signal comes; a signal ends the process in a
      bounded number of its own steps, but without waiting for requests, and a failed
      server does not end it.
    - System: in every run traffic comes from authenticated clients and goes to URLs an
      operator has registered; records of queries survive restarts, but a poll the cache
      does not know is sent to the default group before the record is looked at.
    - Composition with the test servers: a statement runs through the gateway to its end
      at one backend; an unknown query is found by probing; health check and collectors
      report what the backend shows; the login handlers, reached past the middleware that
      main puts before them, complete a login against the identity
      provider and a rotated key revokes older tokens; LDAP lets a user in exactly with
      the directory's password; a request that is not authenticated does not pass the
      proxy; the mock routers' group is the one the gateway selects.
    - Loops: after cancellation the monitor and the refresher end within five steps of the
      program after a tick, Stop returns without an error only then, the readiness
      callback runs at most once.
    - Test infrastructure: what a test has opened (containers, connections, listeners,
      processes, contexts) is given back at its end however far it came
      ([TestTB.finish_tidy] with the lemmas named tidy); the log shows exactly the complete
      lines of a process whatever the pieces they arrive in; the configuration file the
      harness writes loads as what the options ask for; a backend it adds is stored and
      shown at once; recordings written to disk replay with the same verdicts.
    - EndToEnd: a posted statement reaches a backend of the group the service's rules
      give for the client's own headers and text.
    - Differential harness: two answers pass exactly when they agree up to the order of
      header values and JSON notation, stripping removes exactly the ignored paths,
      replaying stays at its target and within its budget of requests, the exit status
      is zero exactly when every scenario passed, and recordings replay exactly when
      their body is empty or JSON.
    - Tools: a migrated configuration of values the written form carries loads, as
      expected, unless its ports collide; a configuration validates when the service boots
      with it, and shows its answers to new submissions, and fails when it does not although
      tracer and file watch come up; a rule tool builds
      and evaluates what the service does; batches and baselines fail exactly when a
      sample's group differs.
    - Metrics: in any interleaving the gauges show one snapshot of the monitor, the current
      one if it has not changed since, counters are the numbers of reported events, requests in flight are
      those entered and not left, and the registrations of run do not clash.

    ** Bounds and fuel

    Recursion that is not structural takes fuel, and a lemma shows the fuel is enough:
    twice the length of the text plus two for JSON ([Json.parse_fuel_enough]), the length
    of the text for tokens and the number of tokens for references
    ([SqlMeta.tokenize_fuel_enough], [SqlMeta.extract_fuel_enough]), the length of a
    program for its block of lines ([Providers.append_block_lines]), the length of the
    text for replacements ([DiffHarness.replace_fuel_enough]). Retry loops take the
    number of configured attempts; the readiness probe of the containers takes 91 turns
    ([Bootstrap.readiness_probe_ends]), the waiting loops of the harness its deadline over
    its interval and two more ([E2EHarness.turns_enough]); a template is read with the
    length of its text ([GoTemplate.template_parse_ends]); a free port unlike others is drawn
    with any fuel, and none is returned when it ends; a list in a SQL statement has at most sixteen entries,
    and every statement the program builds is parsed in the proofs.

    ** Not modelled

    Generated protobuf code, sockets and TLS, Prometheus exposition, the list of goroutines
    the leak detector of the tests ignores, the YAML tags of the Java configuration the
    migration tool reads (its decoding is a parameter). Of constructors that only store their arguments
    the arguments are the parameters of the models; interfaces that only name methods are
    the classes or parameters their users take. *)

From stdpp Require Export base tactics list gmap strings sorting.
From Stdlib Require Export ZArith Lia.


Declare Scope goway_scope.
Delimit Scope goway_scope with goway.
#[global] Open Scope goway_scope.

(** ** Results of fallible Go code

    A Go function that returns [(T, error)] is modelled by [go_result T]; the
    error value carries the message the code builds. *)
Inductive go_result (A : Type) : Type :=
| Ok (a : A)
| Err (e : string).
Arguments Ok {A} a.
Arguments Err {A} e.

#[global] Instance go_result_eq_dec `{EqDecision A} : EqDecision (go_result A).
Proof. solve_decision. Defined.

#[global] Instance go_result_ret : MRet go_result := @Ok.
#[global] Instance go_result_bind : MBind go_result :=
  λ A B f r, match r with Ok a => f a | Err e => Err e end.
#[global] Instance go_result_fmap : FMap go_result :=
  λ A B f r, match r with Ok a => Ok (f a) | Err e => Err e end.

Definition is_Ok {A} (r : go_result A) : bool :=
  match r with Ok _ => true | Err _ => false end.

(** ** State passing

    Code that talks to the outside world (database, HTTP clients, clock) or
    mutates a receiver is written in a state monad over an explicit state. *)
Definition ST (S A : Type) : Type := S → A * S.

#[global] Instance ST_ret S : MRet (ST S) := λ A a s, (a, s).
#[global] Instance ST_bind S : MBind (ST S) :=
  λ A B f m s, let '(a, s') := m s in f a s'.

Definition st_get {S} : ST S S := λ s, (s, s).
Definition st_put {S} (s : S) : ST S unit := λ _, (tt, s).
Definition st_modify {S} (f : S → S) : ST S unit := λ s, (tt, f s).

Lemma st_bind_ret {S A B} (a : A) (f : A → ST S B) s :
  (mret a ≫= f) s = f a s.
Proof. reflexivity. Qed.

(** ** Machine integers

    Go's [int], [int64] and [time.Duration] are 64-bit two's complement. *)
Definition int64_min : Z := (-9223372036854775808)%Z.
Definition int64_max : Z := 9223372036854775807%Z.

Definition wrap64 (z : Z) : Z := ((z + 2^63) mod 2^64 - 2^63)%Z.
Definition in_int64 (z : Z) : Prop := (int64_min ≤ z ≤ int64_max)%Z.
Definition wrapu64 (z : Z) : Z := (z mod 2^64)%Z.

Lemma wrap64_id z : in_int64 z → wrap64 z = z.
Proof.
  unfold in_int64, wrap64, int64_min, int64_max. intros H.
  rewrite Z.mod_small; lia.
Qed.

Lemma wrap64_range z : in_int64 (wrap64 z).
Proof.
  unfold in_int64, wrap64, int64_min, int64_max.
  pose proof (Z.mod_pos_bound (z + 2^63) (2^64)). lia.
Qed.

Lemma wrap64_add_l a b : wrap64 (wrap64 a + b) = wrap64 (a + b).
Proof.
  unfold wrap64.
  replace ((a + 2 ^ 63) mod 2 ^ 64 - 2 ^ 63 + b + 2 ^ 63)%Z with ((a + 2 ^ 63) mod 2 ^ 64 + b)%Z by ring.
  rewrite Zplus_mod_idemp_l.
  by replace (a + 2 ^ 63 + b)%Z with (a + b + 2 ^ 63)%Z by ring.
Qed.

Lemma wrap64_add_r a b : wrap64 (a + wrap64 b) = wrap64 (a + b).
Proof. by rewrite (Z.add_comm a), wrap64_add_l, (Z.add_comm b). Qed.

(** ** Option and list helpers shared by the components *)
Definition head_opt {A} (l : list A) : option A :=
  match l with [] => None | x :: _ => Some x end.

Definition from_opt {A} (d : A) (o : option A) : A :=
  match o with Some a => a | None => d end.

(** First element that satisfies a boolean test, as a [for] loop with an early
    return finds it. *)
Fixpoint find_first {A} (p : A → bool) (l : list A) : option A :=
  match l with
  | [] => None
  | x :: l => if p x then Some x else find_first p l
  end.

Lemma find_first_Some {A} (p : A → bool) l x :
  find_first p l = Some x → x ∈ l ∧ p x = true.
Proof.
  induction l as [|y l IH]; simpl; [done|].
  destruct (p y) eqn:E; intros H; simplify_eq.
  - split; [left | done].
  - destruct (IH H). split; [by right | done].
Qed.

Lemma find_first_None {A} (p : A → bool) l :
  find_first p l = None ↔ Forall (λ x, p x = false) l.
Proof.
  induction l as [|y l IH]; simpl; [done|].
  rewrite Forall_cons, <- IH. destruct (p y); intuition congruence.
Qed.

(** Strings are compared with [String.eqb]; [decide] and [eqb] agree. *)
Infix "=?s" := String.eqb (at level 70, no associativity) : goway_scope.

Lemma seqb_eq a b : (a =?s b) = true ↔ a = b.
Proof. apply String.eqb_eq. Qed.

Lemma seqb_neq a b : (a =?s b) = false ↔ a ≠ b.
Proof. apply String.eqb_neq. Qed.

Lemma seqb_refl a : (a =?s a) = true.
Proof. apply String.eqb_refl. Qed.

(** ** Automation *)
Create HintDb goway.
#[export] Hint Resolve wrap64_range wrap64_id : goway.
Create Rewrite HintDb goway_rw.
#[export] Hint Rewrite seqb_refl : goway_rw.

(** Case analysis on every boolean test that blocks the goal, keeping the
    equations, and turning string tests into equalities. *)
Ltac seqb_simpl :=
  repeat match goal with
  | H : (_ =?s _) = true |- _ => apply seqb_eq in H
  | H : (_ =?s _) = false |- _ => apply seqb_neq in H
  | H : andb _ _ = true |- _ => apply andb_true_iff in H as [? ?]
  | H : orb _ _ = false |- _ => apply orb_false_iff in H as [? ?]
  | H : negb _ = true |- _ => apply negb_true_iff in H
  | H : negb _ = false |- _ => apply negb_false_iff in H
  end.

Ltac case_bools :=
  repeat match goal with
  | |- context [if ?b then _ else _] =>
      lazymatch type of b with bool => destruct b eqn:? end
  end; seqb_simpl.
