(* ===== verification/GoStrings.v ===== *)
(** * Go's [strings], [strconv] and [unicode/utf8] functions used by the code

    A Go string is a sequence of bytes: [string] of Rocq (an [ascii] is a byte).
    Each definition gives the behaviour of one standard-library function on every
    byte string; functions the sources only apply to ASCII text are marked. *)
From S2P Require Import Prelude.
From Stdlib Require Export NArith Ascii.



Definition byte_n (c : ascii) : N := N_of_ascii c.
Definition chr (n : N) : ascii := ascii_of_N n.

(** A double quote and other bytes that read badly as literals. *)
Definition dquote : ascii := chr 34.
Definition newline : ascii := chr 10.
Definition nl : string := String newline EmptyString.

(** ** Byte classes *)
Definition in_rng (lo hi : N) (c : ascii) : bool :=
  ((lo <=? byte_n c) && (byte_n c <=? hi))%N.
Definition is_digit (c : ascii) : bool := in_rng 48 57 c.
Definition is_upper (c : ascii) : bool := in_rng 65 90 c.
Definition is_lower (c : ascii) : bool := in_rng 97 122 c.
Definition is_ascii (c : ascii) : bool := (byte_n c <? 128)%N.

Definition lower_char (c : ascii) : ascii :=
  if is_upper c then chr (byte_n c + 32) else c.
Definition upper_char (c : ascii) : ascii :=
  if is_lower c then chr (byte_n c - 32) else c.

(** ** Structural operations *)
Fixpoint str_map (f : ascii → ascii) (s : string) : string :=
  match s with
  | EmptyString => EmptyString
  | String c r => String (f c) (str_map f r)
  end.

Fixpoint str_forallb (p : ascii → bool) (s : string) : bool :=
  match s with
  | EmptyString => true
  | String c r => p c && str_forallb p r
  end.

Fixpoint str_rev_app (s acc : string) : string :=
  match s with
  | EmptyString => acc
  | String c r => str_rev_app r (String c acc)
  end.
Definition str_rev (s : string) : string := str_rev_app s EmptyString.

(** [s[:n]] and [s[n:]] for [n <= len(s)]; beyond the end they saturate. *)
Fixpoint str_take (n : nat) (s : string) : string :=
  match n, s with
  | S n, String c r => String c (str_take n r)
  | _, _ => EmptyString
  end.
Fixpoint str_drop (n : nat) (s : string) : string :=
  match n, s with
  | S n, String _ r => str_drop n r
  | _, _ => s
  end.

(** ASCII case mapping ([strings.ToLower]/[ToUpper] on ASCII text). *)
Definition to_lower (s : string) : string := str_map lower_char s.
Definition to_upper (s : string) : string := str_map upper_char s.
Definition all_ascii (s : string) : bool := str_forallb is_ascii s.

(** [strings.IndexByte] and [strings.LastIndexByte]; [None] stands for -1. *)
Fixpoint index_byte (b : ascii) (s : string) : option nat :=
  match s with
  | EmptyString => None
  | String c r => if Ascii.eqb c b then Some 0 else S <$> index_byte b r
  end.

Fixpoint last_index_byte (b : ascii) (s : string) : option nat :=
  match s with
  | EmptyString => None
  | String c r =>
      match last_index_byte b r with
      | Some i => Some (S i)
      | None => if Ascii.eqb c b then Some 0 else None
      end
  end.

(** [strings.HasPrefix], [HasSuffix], [TrimPrefix], [TrimSuffix]. *)
Fixpoint has_prefix (p s : string) : bool :=
  match p, s with
  | EmptyString, _ => true
  | String a p, String b s => Ascii.eqb a b && has_prefix p s
  | String _ _, EmptyString => false
  end.
Definition has_suffix (p s : string) : bool := has_prefix (str_rev p) (str_rev s).
Definition trim_prefix (p s : string) : string :=
  if has_prefix p s then str_drop (String.length p) s else s.
Definition trim_suffix (p s : string) : string :=
  if has_suffix p s then str_take (String.length s - String.length p) s else s.

(** [strings.Contains]. *)
Fixpoint contains (sub s : string) : bool :=
  has_prefix sub s ||
  match s with
  | EmptyString => false
  | String _ r => contains sub r
  end.

(** [strings.ContainsAny(s, chars)] for ASCII [chars]. *)
Fixpoint mem_byte (b : ascii) (s : string) : bool :=
  match s with
  | EmptyString => false
  | String c r => Ascii.eqb b c || mem_byte b r
  end.
Fixpoint contains_any (s chars : string) : bool :=
  match s with
  | EmptyString => false
  | String c r => mem_byte c chars || contains_any r chars
  end.

(** [strings.TrimRight(s, "c")] for one ASCII byte. *)
Fixpoint drop_while (p : ascii → bool) (s : string) : string :=
  match s with
  | EmptyString => EmptyString
  | String c r => if p c then drop_while p r else s
  end.
Definition trim_right_byte (b : ascii) (s : string) : string :=
  str_rev (drop_while (Ascii.eqb b) (str_rev s)).

(** [strings.Split(s, sep)] for a one-byte separator; never empty. *)
Fixpoint split_on (sep : ascii) (s : string) : list string :=
  match s with
  | EmptyString => [EmptyString]
  | String c r =>
      if Ascii.eqb c sep then EmptyString :: split_on sep r
      else match split_on sep r with
           | x :: xs => String c x :: xs
           | [] => [String c EmptyString]
           end
  end.

(** [strings.Join]. *)
Fixpoint join (sep : string) (l : list string) : string :=
  match l with
  | [] => EmptyString
  | [x] => x
  | x :: xs => x +:+ sep +:+ join sep xs
  end.

Fixpoint concat_str (l : list string) : string :=
  match l with [] => "" | x :: l => x +:+ concat_str l end.

(** [strings.Cut(s, sep)] and [strings.SplitN(s, sep, 2)] for a one-byte separator. *)
Fixpoint cut_byte (sep : ascii) (s : string) : option (string * string) :=
  match s with
  | EmptyString => None
  | String c r =>
      if Ascii.eqb c sep then Some (EmptyString, r)
      else match cut_byte sep r with
           | Some (a, b) => Some (String c a, b)
           | None => None
           end
  end.

(** ** [strings.TrimSpace]

    Unicode white space as UTF-8 byte sequences: the ASCII spaces, U+0085, U+00A0,
    U+1680, U+2000-U+200A, U+2028, U+2029, U+202F, U+205F and U+3000. *)
Definition space1 (c : ascii) : bool := in_rng 9 13 c || (byte_n c =? 32)%N.
Definition space2 (a b : ascii) : bool :=
  ((byte_n a =? 194) && ((byte_n b =? 133) || (byte_n b =? 160)))%N.
Definition space3 (a b c : ascii) : bool :=
  let x := byte_n a in let y := byte_n b in let z := byte_n c in
  ((x =? 225) && (y =? 154) && (z =? 128)
   || (x =? 226) && (y =? 128) &&
        ((128 <=? z) && (z <=? 138) || (z =? 168) || (z =? 169) || (z =? 175))
   || (x =? 226) && (y =? 129) && (z =? 159)
   || (x =? 227) && (y =? 128) && (z =? 128))%N.

Fixpoint trim_left_space (s : string) : string :=
  match s with
  | EmptyString => EmptyString
  | String a r =>
      if space1 a then trim_left_space r else
      match r with
      | EmptyString => s
      | String b r2 =>
          if space2 a b then trim_left_space r2 else
          match r2 with
          | EmptyString => s
          | String c r3 => if space3 a b c then trim_left_space r3 else s
          end
      end
  end.

(** The same scan from the right, on the reversed bytes. *)
Fixpoint trim_left_space_rev (s : string) : string :=
  match s with
  | EmptyString => EmptyString
  | String a r =>
      if space1 a then trim_left_space_rev r else
      match r with
      | EmptyString => s
      | String b r2 =>
          if space2 b a then trim_left_space_rev r2 else
          match r2 with
          | EmptyString => s
          | String c r3 => if space3 c b a then trim_left_space_rev r3 else s
          end
      end
  end.

Definition trim_space (s : string) : string :=
  str_rev (trim_left_space_rev (str_rev (trim_left_space s))).

(** [strings.EqualFold(s, t)] for an ASCII [t] without the letters [k] and [s],
    whose Unicode fold orbits leave ASCII. *)
Definition equal_fold_ascii (s t : string) : bool := to_lower s =?s to_lower t.

(** ** Decimal integers ([strconv.Itoa], [%d]) *)
Fixpoint pos_digits (fuel : nat) (n : N) (acc : string) : string :=
  match fuel with
  | O => acc
  | S f =>
      let acc := String (chr (48 + n mod 10)) acc in
      if (n <? 10)%N then acc else pos_digits f (n / 10) acc
  end.
Definition n_to_dec (n : N) : string := pos_digits (S (N.to_nat (N.log2 n))) n EmptyString.
Definition z_to_dec (z : Z) : string :=
  if (z <? 0)%Z then String "-" (n_to_dec (Z.to_N (- z))) else n_to_dec (Z.to_N z).

Definition digit_val (c : ascii) : N := (byte_n c - 48)%N.

(** The value of a run of decimal digits, accumulated left to right. *)
Fixpoint dec_val (acc : N) (s : string) : N :=
  match s with
  | EmptyString => acc
  | String c r => dec_val (acc * 10 + digit_val c) r
  end.

(** [strconv.ParseInt(s, 10, 64)]: an optional sign and at least one digit, in range. *)
Definition parse_int (s : string) : option Z :=
  let num t neg :=
    match t with
    | EmptyString => None
    | _ => if str_forallb is_digit t then
             let v := Z.of_N (dec_val 0 t) in
             let v := if neg : bool then (- v)%Z else v in
             if ((int64_min <=? v) && (v <=? int64_max))%Z then Some v else None
           else None
    end in
  match s with
  | String c r =>
      if Ascii.eqb c "-" then num r true
      else if Ascii.eqb c "+" then num r false else num s false
  | EmptyString => None
  end.

(** ** Hexadecimal digits *)
Definition hex_digit (n : N) : ascii :=
  if (n <? 10)%N then chr (48 + n) else chr (87 + n).
Definition hex_val (c : ascii) : option N :=
  if is_digit c then Some (byte_n c - 48)%N
  else if in_rng 97 102 c then Some (byte_n c - 87)%N
  else if in_rng 65 70 c then Some (byte_n c - 55)%N
  else None.

(** [hex.EncodeToString]. *)
Fixpoint hex_encode (s : string) : string :=
  match s with
  | EmptyString => EmptyString
  | String c r =>
      String (hex_digit (byte_n c / 16)) (String (hex_digit (byte_n c mod 16)) (hex_encode r))
  end.

(** ** UTF-8 *)
Definition rune_error : N := 65533.

(** A continuation byte in the accepted range of the lead byte. *)
Definition cont (lo hi : N) (c : ascii) : bool := in_rng lo hi c.

(** [utf8.DecodeRuneInString]: the rune and its width; an invalid encoding gives
    [(RuneError, 1)], the empty string [(RuneError, 0)]. *)
Definition decode_rune (s : string) : N * nat :=
  let bad := (rune_error, 1%nat) in
  match s with
  | EmptyString => (rune_error, 0%nat)
  | String a r =>
      let x := byte_n a in
      if (x <? 128)%N then (x, 1%nat)
      else if in_rng 194 223 a then
        match r with
        | String b _ => if cont 128 191 b then ((x - 192) * 64 + (byte_n b - 128), 2%nat)%N else bad
        | _ => bad
        end
      else if in_rng 224 239 a then
        match r with
        | String b (String c _) =>
            let lo := if (x =? 224)%N then 160%N else 128%N in
            let hi := if (x =? 237)%N then 159%N else 191%N in
            if cont lo hi b && cont 128 191 c
            then (((x - 224) * 64 + (byte_n b - 128)) * 64 + (byte_n c - 128), 3%nat)%N else bad
        | _ => bad
        end
      else if in_rng 240 244 a then
        match r with
        | String b (String c (String d _)) =>
            let lo := if (x =? 240)%N then 144%N else 128%N in
            let hi := if (x =? 244)%N then 143%N else 191%N in
            if cont lo hi b && cont 128 191 c && cont 128 191 d
            then ((((x - 240) * 64 + (byte_n b - 128)) * 64 + (byte_n c - 128)) * 64
                  + (byte_n d - 128), 4%nat)%N else bad
        | _ => bad
        end
      else bad
  end.

(** [utf8.AppendRune]; surrogates and out-of-range runes become U+FFFD. *)
Definition encode_rune (r : N) : string :=
  let r := if ((55296 <=? r) && (r <=? 57343) || (1114111 <? r))%N then rune_error else r in
  let t k := chr (128 + (r / k) mod 64) in
  if (r <? 128)%N then String (chr r) ""
  else if (r <? 2048)%N then String (chr (192 + r / 64)) (String (t 1%N) "")
  else if (r <? 65536)%N then
    String (chr (224 + r / 4096)) (String (t 64%N) (String (t 1%N) ""))
  else String (chr (240 + r / 262144)) (String (t 4096%N) (String (t 64%N) (String (t 1%N) ""))).

(** ** Lemmas on bytes and strings *)
Lemma chr_byte_n c : chr (byte_n c) = c.
Proof. apply ascii_N_embedding. Qed.

Lemma byte_n_chr n : (n < 256)%N → byte_n (chr n) = n.
Proof. apply N_ascii_embedding. Qed.

Lemma byte_n_lt c : (byte_n c < 256)%N.
Proof. apply N_ascii_bounded. Qed.

#[export] Hint Resolve byte_n_lt : goway.

(** A decidable property of small numbers holds when it holds on each of them. *)
Lemma N_forall_below (k : nat) (p : N → bool) :
  forallb p (map N.of_nat (seq 0 k)) = true → ∀ n, (n < N.of_nat k)%N → p n = true.
Proof.
  intros H n Hn. rewrite forallb_forall in H. apply H.
  apply in_map_iff. exists (N.to_nat n). split; [lia|]. apply in_seq. lia.
Qed.

(** A decidable property of bytes holds when it holds on all 256 of them. *)
Lemma ascii_forall (p : ascii → bool) :
  forallb (λ n, p (chr n)) (map N.of_nat (seq 0 256)) = true → ∀ c, p c = true.
Proof.
  intros H c. rewrite <- (chr_byte_n c).
  apply (N_forall_below 256 (λ n, p (chr n)) H). apply byte_n_lt.
Qed.

Lemma str_app_cons c (a b : string) : String c a +:+ b = String c (a +:+ b).
Proof. done. Qed.

Lemma str_app_nil_l (b : string) : "" +:+ b = b.
Proof. done. Qed.

#[export] Hint Rewrite str_app_cons str_app_nil_l : goway_rw.

Lemma str_app_assoc (a b c : string) : (a +:+ b) +:+ c = a +:+ (b +:+ c).
Proof. induction a as [|x a IH]; [done|]. by rewrite !str_app_cons, IH. Qed.

Lemma str_app_nil_r (a : string) : a +:+ "" = a.
Proof. induction a as [|x a IH]; [done|]. by rewrite str_app_cons, IH. Qed.

Lemma str_length_app (a b : string) :
  String.length (a +:+ b) = String.length a + String.length b.
Proof. induction a as [|x a IH]; [done|]. rewrite str_app_cons. cbn. by rewrite IH. Qed.

Lemma str_forallb_app p (a b : string) :
  str_forallb p (a +:+ b) = str_forallb p a && str_forallb p b.
Proof.
  induction a as [|x a IH]; [done|]. rewrite str_app_cons. cbn.
  by rewrite IH, andb_assoc.
Qed.

Lemma str_drop_app (a b : string) : str_drop (String.length a) (a +:+ b) = b.
Proof. induction a as [|x a IH]; [by destruct b|]. by rewrite str_app_cons. Qed.

Lemma str_take_app (a b : string) : str_take (String.length a) (a +:+ b) = a.
Proof.
  induction a as [|x a IH]; [by destruct b|]. rewrite str_app_cons. cbn. by rewrite IH.
Qed.

Lemma str_drop_length n s : (String.length (str_drop n s) ≤ String.length s)%nat.
Proof. revert s. induction n as [|n IH]; intros [|c s]; cbn; try lia. specialize (IH s). lia. Qed.
Lemma str_drop_0 s : str_drop 0 s = s.
Proof. by destruct s. Qed.

Lemma has_prefix_app (p s : string) : has_prefix p (p +:+ s) = true.
Proof.
  induction p as [|c p IH]; [done|]. rewrite str_app_cons. cbn.
  by rewrite Ascii.eqb_refl.
Qed.

Lemma has_prefix_spec (p s : string) :
  has_prefix p s = true ↔ ∃ r, s = p +:+ r.
Proof.
  split.
  - revert s. induction p as [|c p IH]; intros s; [by exists s|].
    destruct s as [|d s]; cbn; [done|].
    intros [->%Ascii.eqb_eq H]%andb_true_iff.
    destruct (IH _ H) as [r ->]. by exists r.
  - intros [r ->]. apply has_prefix_app.
Qed.

Lemma str_rev_app_spec s acc : str_rev_app s acc = str_rev s +:+ acc.
Proof.
  unfold str_rev. revert acc. induction s as [|c s IH]; intros acc; [done|].
  cbn. rewrite IH, (IH (String c "")), str_app_assoc. done.
Qed.

Lemma str_rev_cons c s : str_rev (String c s) = str_rev s +:+ String c "".
Proof. unfold str_rev at 1. cbn. apply str_rev_app_spec. Qed.

Lemma str_rev_app_distr a b : str_rev (a +:+ b) = str_rev b +:+ str_rev a.
Proof.
  induction a as [|c a IH]; [by rewrite str_app_nil_l, str_app_nil_r|].
  rewrite str_app_cons, !str_rev_cons, IH. apply str_app_assoc.
Qed.

Lemma str_rev_involutive s : str_rev (str_rev s) = s.
Proof.
  induction s as [|c s IH]; [done|].
  by rewrite str_rev_cons, str_rev_app_distr, IH.
Qed.

Lemma app_cancel_l (p a b : string) : p +:+ a = p +:+ b → a = b.
Proof. induction p as [|x p IH]; [done|]. by intros [= ?%IH]. Qed.
Lemma app_cancel_r (q a b : string) : a +:+ q = b +:+ q → a = b.
Proof.
  intros H. apply (f_equal str_rev) in H. rewrite !str_rev_app_distr in H. apply app_cancel_l in H.
  by rewrite <- (str_rev_involutive a), H, str_rev_involutive.
Qed.
Lemma has_suffix_spec (p s : string) :
  has_suffix p s = true ↔ ∃ r, s = r +:+ p.
Proof.
  unfold has_suffix. rewrite has_prefix_spec. split; intros [r Hr].
  - exists (str_rev r). rewrite <- (str_rev_involutive s), Hr, str_rev_app_distr.
    by rewrite str_rev_involutive.
  - exists (str_rev r). by rewrite Hr, str_rev_app_distr.
Qed.

Lemma split_on_nonempty sep s : split_on sep s ≠ [].
Proof. destruct s as [|c s]; cbn; [done|]. case_bools; [done|]. by destruct (split_on sep s). Qed.

(** Splitting is undone by joining with the separator. *)
Lemma join_split_on sep s : join (String sep "") (split_on sep s) = s.
Proof.
  induction s as [|c s IH]; [done|]. cbn.
  pose proof (split_on_nonempty sep s) as Hne.
  destruct (Ascii.eqb c sep) eqn:E.
  - apply Ascii.eqb_eq in E as ->. cbn. destruct (split_on sep s); [done|].
    by rewrite IH.
  - destruct (split_on sep s) as [|x [|y l]]; cbn in *; [done|by subst|].
    by rewrite <- IH.
Qed.

(** Induction three bytes at a time, for base64. *)
Lemma string_ind3 (P : string → Prop) :
  P "" → (∀ a, P (String a "")) → (∀ a b, P (String a (String b ""))) →
  (∀ a b c r, P r → P (String a (String b (String c r)))) → ∀ s, P s.
Proof.
  intros H0 H1 H2 H3.
  fix IH 1. intros [|a [|b [|c r]]]; [done|apply H1|apply H2|apply H3, IH].
Qed.

(** ** Decimal round trip *)
Lemma dec_val_app a x y : dec_val a (x +:+ y) = dec_val (dec_val a x) y.
Proof. revert a. induction x as [|c x IH]; intros a; [done|]. rewrite str_app_cons. cbn. apply IH. Qed.

Lemma digit_chr n :
  (n < 10)%N → is_digit (chr (48 + n)) = true ∧ digit_val (chr (48 + n)) = n.
Proof.
  intros Hn. unfold is_digit, in_rng, digit_val. rewrite byte_n_chr by lia.
  rewrite andb_true_iff, !N.leb_le. lia.
Qed.

(** What [pos_digits] prints: a non-empty run of digits with the value of [n], and
    no leading zero unless [n] is zero. *)
Lemma pos_digits_spec fuel n acc :
  (n < 2 ^ N.of_nat fuel)%N → (0 < fuel)%nat →
  ∃ c d, pos_digits fuel n acc = String c d +:+ acc
       ∧ str_forallb is_digit (String c d) = true ∧ dec_val 0 (String c d) = n
       ∧ (c = "0"%char → n = 0%N ∧ d = "").
Proof.
  revert n acc. induction fuel as [|fuel IH]; intros n acc Hn Hf; [lia|]. cbn [pos_digits].
  assert (Hm : (n mod 10 < 10)%N) by (apply N.mod_lt; lia).
  destruct (digit_chr _ Hm) as [Hd Hv]. set (k := chr (48 + n mod 10)) in *.
  destruct (n <? 10)%N eqn:E.
  - apply N.ltb_lt in E. exists k, "". rewrite N.mod_small in Hv by lia.
    split_and!; [done|cbn; by rewrite Hd|cbn; lia|]. intros Hk. split; [|done].
    rewrite <- Hv, Hk. done.
  - apply N.ltb_ge in E.
    assert (Hq : (n / 10 < 2 ^ N.of_nat fuel)%N).
    { apply N.Div0.div_lt_upper_bound. rewrite Nat2N.inj_succ, N.pow_succ_r' in Hn. lia. }
    destruct fuel as [|fuel].
    { change (2 ^ N.of_nat 0)%N with 1%N in Hq. pose proof (N.div_str_pos n 10 ltac:(lia)). lia. }
    destruct (IH (n / 10)%N (String k acc) Hq ltac:(lia)) as (c & d & -> & Hall & Hval & Hz).
    exists c, (d +:+ String k ""). split_and!.
    + by rewrite !str_app_cons, str_app_assoc, str_app_cons.
    + rewrite <- str_app_cons, str_forallb_app, Hall. cbn. by rewrite Hd.
    + rewrite <- str_app_cons, dec_val_app, Hval. cbn. rewrite Hv.
      rewrite N.mul_comm. symmetry. apply N.Div0.div_mod.
    + intros Hc. destruct (Hz Hc) as [Hz0 _].
      pose proof (N.div_str_pos n 10 ltac:(lia)). lia.
Qed.

Lemma n_to_dec_spec n :
  ∃ c d, n_to_dec n = String c d
       ∧ str_forallb is_digit (String c d) = true ∧ dec_val 0 (String c d) = n
       ∧ (c = "0"%char → n = 0%N ∧ d = "").
Proof.
  unfold n_to_dec.
  destruct (pos_digits_spec (S (N.to_nat (N.log2 n))) n "") as (c & d & Heq & H); [|lia|].
  - rewrite Nat2N.inj_succ, N2Nat.id. destruct (decide (n = 0)%N) as [->|]; [done|].
    apply N.log2_spec. lia.
  - exists c, d. by rewrite Heq, str_app_nil_r.
Qed.

Lemma digit_not_sign c :
  is_digit c = true → c ≠ "-"%char ∧ c ≠ "+"%char.
Proof. intros H. split; intros ->; vm_compute in H; done. Qed.

(** [strconv.ParseInt] reads back what [%d] printed. *)
Lemma parse_int_dec z : in_int64 z → parse_int (z_to_dec z) = Some z.
Proof.
  intros Hz. unfold z_to_dec.
  assert (Hr : ((int64_min <=? z) && (z <=? int64_max))%Z = true).
  { rewrite andb_true_iff, !Z.leb_le. apply Hz. }
  destruct (z <? 0)%Z eqn:Hneg.
  - apply Z.ltb_lt in Hneg. destruct (n_to_dec_spec (Z.to_N (- z))) as (c & d & -> & Hd & Hv & _).
    unfold parse_int. rewrite Ascii.eqb_refl, Hd, Hv, Z2N.id by lia.
    by rewrite Z.opp_involutive, Hr.
  - apply Z.ltb_ge in Hneg. destruct (n_to_dec_spec (Z.to_N z)) as (c & d & -> & Hd & Hv & _).
    destruct (digit_not_sign c) as [Hm Hp].
    { cbn [str_forallb] in Hd. apply andb_true_iff in Hd. tauto. }
    unfold parse_int. apply Ascii.eqb_neq in Hm as ->, Hp as ->.
    rewrite Hd, Hv, Z2N.id by lia. by rewrite Hr.
Qed.

Lemma str_forallb_impl (p q : ascii → bool) s :
  (∀ c, p c = true → q c = true) → str_forallb p s = true → str_forallb q s = true.
Proof.
  intros Hpq. induction s as [|c s IH]; cbn; [done|]. rewrite !andb_true_iff. intros [? ?]. auto.
Qed.

Definition digit_or_minus (c : ascii) : bool := is_digit c || Ascii.eqb c "-".

Lemma n_to_dec_digits n : str_forallb is_digit (n_to_dec n) = true.
Proof. by destruct (n_to_dec_spec n) as (c & d & -> & H & _). Qed.

Lemma z_to_dec_chars z : str_forallb digit_or_minus (z_to_dec z) = true.
Proof.
  assert (Hi : ∀ c, is_digit c = true → digit_or_minus c = true)
    by (intros c H; unfold digit_or_minus; by rewrite H).
  unfold z_to_dec. destruct (z <? 0)%Z; cbn; by eapply str_forallb_impl, n_to_dec_digits.
Qed.

Lemma digit_ascii c : is_digit c = true → is_ascii c = true.
Proof.
  apply implb_true_iff. revert c.
  apply (ascii_forall (λ c, implb (is_digit c) (is_ascii c))). by vm_compute.
Qed.

Lemma hex_digit_ascii n : (n < 16)%N → is_ascii (hex_digit n) = true.
Proof. apply (N_forall_below 16 (λ n, is_ascii (hex_digit n))). by vm_compute. Qed.

Lemma hex_encode_ascii s : all_ascii (hex_encode s) = true.
Proof.
  unfold all_ascii. induction s as [|c s IH]; cbn [hex_encode str_forallb]; [done|].
  pose proof (byte_n_lt c). rewrite !hex_digit_ascii, IH; [done| |].
  - apply N.mod_lt. lia.
  - apply N.Div0.div_lt_upper_bound. lia.
Qed.

Lemma contains_any_none p s chars :
  (∀ c, p c = true → mem_byte c chars = false) → str_forallb p s = true → contains_any s chars = false.
Proof.
  intros Hp. induction s as [|c s IH]; cbn; [done|]. rewrite andb_true_iff. intros [? ?].
  by rewrite Hp, IH.
Qed.

Lemma str_take_length n s : (n ≤ String.length s)%nat → String.length (str_take n s) = n.
Proof.
  revert s. induction n as [|n IH]; intros [|c s] Hn; cbn in *; [done..|lia|]. f_equal. apply IH. lia.
Qed.

Lemma index_byte_app b a r :
  mem_byte b a = false → index_byte b (a +:+ String b "" +:+ r) = Some (String.length a).
Proof.
  induction a as [|c a IH]; intros Hm.
  - rewrite str_app_nil_l, str_app_cons. cbn. by rewrite Ascii.eqb_refl.
  - cbn in Hm. apply orb_false_iff in Hm as [Hc Hm]. rewrite str_app_cons. cbn [index_byte].
    rewrite Ascii.eqb_sym, Hc, IH by done. done.
Qed.

Lemma last_index_byte_none b r : mem_byte b r = false → last_index_byte b r = None.
Proof.
  induction r as [|c r IH]; cbn; [done|]. rewrite orb_false_iff. intros [Hc Hr].
  rewrite IH by done. by rewrite Ascii.eqb_sym, Hc.
Qed.

Lemma last_index_byte_app b a r :
  mem_byte b r = false → last_index_byte b (a +:+ String b "" +:+ r) = Some (String.length a).
Proof.
  intros Hr. induction a as [|c a IH].
  - rewrite str_app_nil_l, str_app_cons, str_app_nil_l. cbn.
    by rewrite last_index_byte_none, Ascii.eqb_refl.
  - rewrite str_app_cons. cbn [last_index_byte]. by rewrite IH.
Qed.

Lemma mem_byte_app b x y : mem_byte b (x +:+ y) = mem_byte b x || mem_byte b y.
Proof. induction x as [|c x IH]; [done|]. rewrite str_app_cons. cbn [mem_byte]. by rewrite IH, orb_assoc. Qed.

Lemma mem_byte_none p b s : p b = false → str_forallb p s = true → mem_byte b s = false.
Proof.
  intros Hb. induction s as [|c s IH]; cbn; [done|]. rewrite andb_true_iff. intros [Hc Hs].
  rewrite IH, orb_false_r by done. apply Ascii.eqb_neq. congruence.
Qed.

Lemma cut_byte_app sep a b : mem_byte sep a = false → cut_byte sep (a +:+ String sep b) = Some (a, b).
Proof.
  induction a as [|c a IH]; intros Hm.
  - rewrite str_app_nil_l. cbn. by rewrite Ascii.eqb_refl.
  - cbn in Hm. apply orb_false_iff in Hm as [Hc Hm]. rewrite str_app_cons. cbn [cut_byte].
    by rewrite Ascii.eqb_sym, Hc, IH.
Qed.

Lemma split_on_app sep a s : mem_byte sep a = false → split_on sep (a +:+ String sep s) = a :: split_on sep s.
Proof.
  induction a as [|c a IH]; intros Hm.
  - rewrite str_app_nil_l. cbn. by rewrite Ascii.eqb_refl.
  - cbn in Hm. apply orb_false_iff in Hm as [Hc Hm]. rewrite str_app_cons. cbn [split_on].
    by rewrite Ascii.eqb_sym, Hc, IH.
Qed.

Lemma split_on_single sep a : mem_byte sep a = false → split_on sep a = [a].
Proof.
  induction a as [|c a IH]; [done|]. cbn. rewrite orb_false_iff. intros [Hc Hm].
  by rewrite Ascii.eqb_sym, Hc, IH.
Qed.

(** Joining pieces free of the separator is undone by splitting. *)
Lemma split_on_join sep l :
  l ≠ [] → Forall (λ s, mem_byte sep s = false) l → split_on sep (join (String sep "") l) = l.
Proof.
  intros Hne Hl. induction Hl as [|x [|y l] Hx Hl IH]; [done| |].
  - by apply split_on_single.
  - change (join (String sep "") (x :: y :: l)) with (x +:+ String sep (join (String sep "") (y :: l))).
    rewrite split_on_app by done. by rewrite IH.
Qed.

(** ** Association lists with string keys *)
Fixpoint assoc_str {A} (k : string) (m : list (string * A)) : option A :=
  match m with [] => None | (k', v) :: m => if k' =?s k then Some v else assoc_str k m end.
Lemma assoc_skip {A} k k' (v : A) m : (k' =?s k) = false → assoc_str k ((k', v) :: m) = assoc_str k m.
Proof. intros Hk. cbn [assoc_str]. by rewrite Hk. Qed.
