(* ===== verification/GoNumeric.v ===== *)
(** * Floating point and durations of the Go runtime

    [float64] is IEEE binary64, computed with the Standard Library's [SpecFloat]
    (round to nearest even): decimal parsing, arithmetic, conversion to [int64] and
    the [%.2f] rendering. [parse_duration] is [time.ParseDuration]. *)
From Stdlib Require Import SpecFloat.
From S2P Require Import Prelude GoStrings.

#[local] Open Scope Z_scope.

(** ** binary64 *)
Definition f64 : Type := spec_float.
Definition prec : Z := 53.
Definition emax : Z := 1024.

Definition f64_of_Z (z : Z) : f64 := binary_normalize prec emax z 0 false.
Definition f64_mul (x y : f64) : f64 := SFmul prec emax x y.
Definition f64_div (x y : f64) : f64 := SFdiv prec emax x y.
Definition f64_add (x y : f64) : f64 := SFadd prec emax x y.
Definition f64_ltb (x y : f64) : bool := SFltb x y.
Definition f64_leb (x y : f64) : bool := SFleb x y.

(** The binary64 nearest to [m * 10^e10]. *)
Definition f64_of_dec (neg : bool) (m : N) (e10 : Z) : f64 :=
  match m with
  | N0 => S754_zero neg
  | Npos p =>
      if 0 <=? e10 then
        binary_normalize prec emax ((if neg then -1 else 1) * (Zpos p * 10 ^ e10)) 0 neg
      else
        match 10 ^ (- e10) with
        | Zpos q =>
            let '(mz, ez, lz) := SFdiv_core_binary prec emax (Zpos p) 0 (Zpos q) 0 in
            binary_round_aux prec emax neg mz ez lz
        | _ => S754_nan
        end
  end.

Definition f64_is_inf (x : f64) : bool := match x with S754_infinity _ => true | _ => false end.

(** The integer part towards zero, [None] for NaN and infinities. *)
Definition f64_trunc (x : f64) : option Z :=
  match x with
  | S754_zero _ => Some 0
  | S754_finite s m e =>
      let a := if 0 <=? e then Zpos m * 2 ^ e else Zpos m / 2 ^ (- e) in
      Some (if s then - a else a)
  | _ => None
  end.

(** [int64(x)]: out of range the result is implementation-defined; this is what the
    amd64 instruction returns. *)
Definition f64_to_int64 (x : f64) : Z :=
  match f64_trunc x with
  | Some z => if (int64_min <=? z) && (z <=? int64_max) then z else int64_min
  | None => int64_min
  end.

(** [%.2f]: hundredths, rounded half to even on the exact value. *)
Definition div_half_even (a b : Z) : Z :=
  let q := a / b in let r := a mod b in
  if 2 * r <? b then q else if b <? 2 * r then q + 1 else if Z.even q then q else q + 1.
Definition fmt_2f (x : f64) : string :=
  let render (s : bool) h :=
    (if s then "-" else "") +:+ n_to_dec (Z.to_N (h / 100)) +:+ "."
    +:+ String (chr (48 + Z.to_N ((h / 10) mod 10))) (String (chr (48 + Z.to_N (h mod 10))) "") in
  match x with
  | S754_zero s => render s 0
  | S754_finite s m e =>
      render s (if 0 <=? e then Zpos m * 100 * 2 ^ e else div_half_even (Zpos m * 100) (2 ^ (- e)))
  | S754_infinity s => if s then "-Inf" else "+Inf"
  | S754_nan => "NaN"
  end.

(** ** [time.ParseDuration] *)
Definition Nanosecond : Z := 1.
Definition Microsecond : Z := 1000.
Definition Millisecond : Z := 1000000.
Definition Second : Z := 1000000000.
Definition Minute : Z := 60 * Second.
Definition Hour : Z := 60 * Minute.

Definition unit_ns (u : string) : option Z :=
  if u =?s "ns" then Some Nanosecond else if u =?s "us" then Some Microsecond
  else if u =?s String (chr 194) (String (chr 181) "s") then Some Microsecond
  else if u =?s String (chr 206) (String (chr 188) "s") then Some Microsecond
  else if u =?s "ms" then Some Millisecond else if u =?s "s" then Some Second
  else if u =?s "m" then Some Minute else if u =?s "h" then Some Hour else None.

(** [leadingInt]: the value, [None] on overflow beyond 2^63. *)
Fixpoint leading_int (x : Z) (s : string) : option (Z * string) :=
  match s with
  | String c r =>
      if is_digit c then
        if 2 ^ 63 / 10 <? x then None
        else let x := x * 10 + Z.of_N (digit_val c) in
             if 2 ^ 63 <? x then None else leading_int x r
      else Some (x, s)
  | EmptyString => Some (x, s)
  end.

(** [leadingFraction]: digits beyond the overflow are skipped. *)
Fixpoint leading_fraction (x : Z) (scale : f64) (over : bool) (s : string) : Z * f64 * string :=
  match s with
  | String c r =>
      if is_digit c then
        if over || ((2 ^ 63 - 1) / 10 <? x) then leading_fraction x scale true r
        else let y := x * 10 + Z.of_N (digit_val c) in
             if 2 ^ 63 <? y then leading_fraction x scale true r
             else leading_fraction y (f64_mul scale (f64_of_Z 10)) false r
      else (x, scale, s)
  | EmptyString => (x, scale, s)
  end.

Fixpoint take_unit (s : string) : string * string :=
  match s with
  | String c r => if Ascii.eqb c "." || is_digit c then (EmptyString, s)
                  else let '(u, t) := take_unit r in (String c u, t)
  | EmptyString => (EmptyString, EmptyString)
  end.

(** One [number unit] group: its nanoseconds and the rest. *)
Definition parse_group (s : string) : option (Z * string) :=
  let '(v, s1) := from_opt (0, s) (leading_int 0 s) in
  match leading_int 0 s with
  | None => None
  | Some _ =>
      let pre := negb (String.length s1 =? String.length s)%nat in
      let '(f, scale, s2, post) :=
        match s1 with
        | String c r =>
            if Ascii.eqb c "." then
              let '(f, sc, s2) := leading_fraction 0 (f64_of_Z 1) false r in
              (f, sc, s2, negb (String.length s2 =? String.length r)%nat)
            else (0, f64_of_Z 1, s1, false)
        | EmptyString => (0, f64_of_Z 1, s1, false)
        end in
      if negb pre && negb post then None else
      let '(u, s3) := take_unit s2 in
      unit ← unit_ns u;
      if 2 ^ 63 / unit <? v then None else
      let v := v * unit in
      let v := if 0 <? f
               then v + from_opt 0 (f64_trunc (f64_mul (f64_of_Z f) (f64_div (f64_of_Z unit) scale)))
               else v in
      if (0 <? f) && (2 ^ 63 <? v) then None else Some (v, s3)
  end.

Fixpoint parse_groups (fuel : nat) (d : Z) (s : string) : option Z :=
  match fuel with
  | O => None
  | S fuel =>
      match s with
      | EmptyString => Some d
      | String c _ =>
          if negb (Ascii.eqb c "." || is_digit c) then None else
          '(v, r) ← parse_group s;
          let d := d + v in
          if 2 ^ 63 <? d then None else parse_groups fuel d r
      end
  end.

(** The duration in nanoseconds, [None] on a parse error. A group consumes at least
    one byte, so the length bounds the rounds. *)
Definition parse_duration (s : string) : option Z :=
  let '(neg, t) := match s with
                   | String c r => if Ascii.eqb c "-" then (true, r)
                                   else if Ascii.eqb c "+" then (false, r) else (false, s)
                   | EmptyString => (false, s)
                   end in
  if t =?s "0" then Some 0 else if t =?s "" then None else
  d ← parse_groups (S (String.length t)) 0 t;
  if neg then Some (wrap64 (- d)) else if 2 ^ 63 - 1 <? d then None else Some d.

(** ** Scanning ([fmt.Sscanf]) *)
Definition skip_blanks (s : string) : string :=
  drop_while (λ c, Ascii.eqb c " " || (byte_n c =? 9)%N || in_rng 11 13 c) s.

Fixpoint digits_run (s : string) : string * string :=
  match s with
  | String c r => if is_digit c then let '(a, b) := digits_run r in (String c a, b) else (EmptyString, s)
  | EmptyString => (EmptyString, EmptyString)
  end.

Definition take_sign (s : string) : string * string :=
  match s with
  | String c r => if Ascii.eqb c "+" || Ascii.eqb c "-" then (String c EmptyString, r) else (EmptyString, s)
  | EmptyString => (EmptyString, s)
  end.

(** [Sscanf(s, "%d", &ns)]: leading blanks, a sign, decimal digits that fit int64;
    what follows is not looked at. *)
Definition sscanf_d (s : string) : option Z :=
  let '(sg, r) := take_sign (skip_blanks s) in
  match digits_run r with
  | (EmptyString, _) => None
  | (ds, _) => parse_int (sg +:+ ds)
  end.

(** ** Checks against the Go toolchain's documented values *)
Example parse_duration_ex :
  parse_duration "1h15m30.918s" = Some 4530918000000 ∧ parse_duration "-1.5h" = Some (-5400000000000)
  ∧ parse_duration "10.00m" = Some 600000000000 ∧ parse_duration "1.00d" = None
  ∧ parse_duration "" = None ∧ parse_duration "0" = Some 0 ∧ parse_duration "300ms" = Some 300000000
  ∧ parse_duration ".5s" = Some 500000000 ∧ parse_duration "3" = None.
Proof. vm_compute. repeat split. Qed.

Example fmt_2f_ex :
  fmt_2f (f64_div (f64_of_Z 100) (f64_of_Z 60)) = "1.67" ∧ fmt_2f (f64_of_Z 10) = "10.00"
  ∧ fmt_2f (f64_of_dec false 2675 (-3)) = "2.67" ∧ fmt_2f (f64_of_dec false 125 (-3)) = "0.12".
Proof. vm_compute. repeat split. Qed.

Lemma digits_run_all s : str_forallb is_digit s = true → digits_run s = (s, EmptyString).
Proof.
  induction s as [|c s IH]; cbn; [done|]. rewrite andb_true_iff. intros [Hc Hs].
  by rewrite Hc, IH.
Qed.

(** [Sscanf] with [%d] reads back what [%d] printed. *)
Lemma sscanf_d_dec z : in_int64 z → sscanf_d (z_to_dec z) = Some z.
Proof.
  intros Hz. pose proof (parse_int_dec z Hz) as Hp. revert Hp. unfold sscanf_d, z_to_dec, skip_blanks.
  destruct (z <? 0).
  - destruct (n_to_dec_spec (Z.to_N (- z))) as (c & d & -> & Hd & _).
    cbn [drop_while]. change (Ascii.eqb "-" " " || _ || _) with false.
    cbn [take_sign]. change (Ascii.eqb "-" "+" || _) with true. cbv beta iota zeta.
    rewrite digits_run_all by done. by rewrite str_app_cons, str_app_nil_l.
  - destruct (n_to_dec_spec (Z.to_N z)) as (c & d & -> & Hd & _).
    assert (Hc : is_digit c = true) by (cbn in Hd; by apply andb_true_iff in Hd as [? _]).
    assert (Hb : ∀ c, implb (is_digit c) (negb (Ascii.eqb c " " || (byte_n c =? 9)%N || in_rng 11 13 c)
                       && negb (Ascii.eqb c "+" || Ascii.eqb c "-")) = true).
    { apply (ascii_forall (λ c, implb (is_digit c) (negb (Ascii.eqb c " " || (byte_n c =? 9)%N || in_rng 11 13 c)
                       && negb (Ascii.eqb c "+" || Ascii.eqb c "-")))). by vm_compute. }
    specialize (Hb c). rewrite Hc in Hb. cbn [implb] in Hb. apply andb_true_iff in Hb as [H1 H2].
    apply negb_true_iff in H1, H2. cbn [drop_while]. rewrite H1. cbn [take_sign]. rewrite H2.
    rewrite digits_run_all by done. by rewrite str_app_nil_l.
Qed.

Lemma fmt_2f_ascii x : all_ascii (fmt_2f x) = true.
Proof.
  assert (Hd : ∀ n, (n < 10)%N → is_ascii (chr (48 + n)) = true).
  { apply (N_forall_below 10 (λ n, is_ascii (chr (48 + n)))). by vm_compute. }
  assert (Hr : ∀ (s : bool) h, all_ascii ((if s then "-" else "") +:+ n_to_dec (Z.to_N (h / 100)) +:+ "."
    +:+ String (chr (48 + Z.to_N ((h / 10) mod 10))) (String (chr (48 + Z.to_N (h mod 10))) "")) = true).
  { intros s h. unfold all_ascii. rewrite !str_forallb_app.
    assert (str_forallb is_ascii (if s then "-" else "") = true) as -> by (by destruct s).
    assert (str_forallb is_ascii (n_to_dec (Z.to_N (h / 100))) = true) as ->
      by (eapply str_forallb_impl, n_to_dec_digits; apply digit_ascii).
    cbn [str_forallb]. pose proof (Z.mod_pos_bound h 10). pose proof (Z.mod_pos_bound (h / 10) 10).
    by rewrite !Hd by lia. }
  destruct x as [s|s| |s m e]; cbn [fmt_2f]; [apply Hr|by destruct s|done|].
  destruct (0 <=? e); apply Hr.
Qed.

(** ** [time.Duration.String] *)

(** [fmtFrac]: [prec] decimals of [v] without trailing zeros, and the integer part. *)
Fixpoint fmt_frac (prec : nat) (print : bool) (acc : string) (v : N) : string * N :=
  match prec with
  | O => (if print then String "." acc else acc, v)
  | S p =>
      let digit := (v mod 10)%N in
      let print := print || negb (digit =? 0)%N in
      fmt_frac p print (if print then String (chr (48 + digit)) acc else acc) (v / 10)%N
  end.

Definition duration_string (d : Z) : string :=
  let u := Z.to_N (Z.abs d) in
  let sign := if d <? 0 then "-" else "" in
  let body :=
    if (u <? 1000000000)%N then
      if (u =? 0)%N then "0s"
      else let '(prec, unit) := if (u <? 1000)%N then (0%nat, "ns")
                                else if (u <? 1000000)%N then (3%nat, "µs") else (6%nat, "ms") in
           let '(frac, i) := fmt_frac prec false unit u in n_to_dec i +:+ frac
    else
      let '(frac, i) := fmt_frac 9 false "s" u in
      let secs := n_to_dec (i mod 60)%N +:+ frac in
      let m := (i / 60)%N in
      if (m =? 0)%N then secs else
      let mins := n_to_dec (m mod 60)%N +:+ "m" +:+ secs in
      let h := (m / 60)%N in
      if (h =? 0)%N then mins else n_to_dec h +:+ "h" +:+ mins in
  sign +:+ body.

Example duration_string_ex :
  duration_string (30 * Second) = "30s" ∧ duration_string (90 * Minute) = "1h30m0s"
  ∧ duration_string 1500000 = "1.5ms" ∧ duration_string 0 = "0s" ∧ duration_string (-1) = "-1ns"
  ∧ duration_string 4530918000000 = "1h15m30.918s" ∧ duration_string 1100 = "1.1µs".
Proof. vm_compute. repeat split. Qed.

(** Bytes that are not control characters. *)
Definition printing (c : ascii) : bool := (32 <? byte_n c)%N.

Lemma digits_printing n : str_forallb printing (n_to_dec n) = true.
Proof.
  eapply str_forallb_impl, n_to_dec_digits. intros c.
  unfold is_digit, in_rng, printing. rewrite andb_true_iff, !N.leb_le, N.ltb_lt. lia.
Qed.

Lemma fmt_frac_printing prec print acc v :
  str_forallb printing acc = true → str_forallb printing (fst (fmt_frac prec print acc v)) = true.
Proof.
  revert print acc v. induction prec as [|p IH]; intros print acc v Ha; cbn [fmt_frac].
  - by destruct print.
  - apply IH. destruct (print || _); [|done]. cbn [str_forallb]. rewrite Ha, andb_true_r.
    unfold printing. assert (v mod 10 < 10)%N as Hm by (by apply N.mod_lt).
    generalize dependent (v mod 10)%N. intros m Hm. rewrite byte_n_chr by lia. apply N.ltb_lt. lia.
Qed.

Lemma duration_string_printing d : str_forallb printing (duration_string d) = true.
Proof.
  unfold duration_string. cbv zeta. rewrite str_forallb_app.
  replace (str_forallb printing (if d <? 0 then "-" else "")) with true by (by destruct (d <? 0)).
  cbn [andb]. set (u := Z.to_N (Z.abs d)).
  assert (Hf : ∀ prec unit, str_forallb printing unit = true →
    str_forallb printing (fst (fmt_frac prec false unit u)) = true) by (intros; by apply fmt_frac_printing).
  destruct (u <? 1000000000)%N.
  - destruct (u =? 0)%N; [done|].
    destruct (u <? 1000)%N; [|destruct (u <? 1000000)%N].
    + specialize (Hf 0%nat "ns" eq_refl). destruct (fmt_frac 0 false "ns" u) as [f i].
      by rewrite str_forallb_app, digits_printing.
    + specialize (Hf 3%nat "µs" eq_refl). destruct (fmt_frac 3 false "µs" u) as [f i].
      by rewrite str_forallb_app, digits_printing.
    + specialize (Hf 6%nat "ms" eq_refl). destruct (fmt_frac 6 false "ms" u) as [f i].
      by rewrite str_forallb_app, digits_printing.
  - specialize (Hf 9%nat "s" eq_refl). destruct (fmt_frac 9 false "s" u) as [f i]. cbn [fst] in Hf.
    destruct (i / 60 =? 0)%N; [|destruct (i / 60 / 60 =? 0)%N];
      by rewrite ?str_forallb_app, ?digits_printing, Hf.
Qed.
