(* ===== verification/Json.v ===== *)
(** * Go's [encoding/json], as the sources use it

    [parse_value] is the scanner and decoder for one JSON text (RFC 8259 with Go's
    nesting limit and its replacement of invalid UTF-8), [print_json] the compact
    encoder with HTML escaping of [json.Marshal], and the [dec_*] functions decode a
    JSON value into a Go field: case-insensitive keys, [null] leaves scalars alone
    and clears pointers, slices and maps, a type mismatch is an error. *)
From S2P Require Import Prelude GoStrings.

#[local] Set Warnings "-register-all".

(** A JSON value; numbers keep their literal, as Go converts them by target type. *)
Inductive json : Type :=
| JNull
| JBool (b : bool)
| JNum (lit : string)
| JStr (s : string)
| JArr (l : list json)
| JObj (kvs : list (string * json)).

(** ** Scanning *)
Definition is_ws (c : ascii) : bool :=
  ((byte_n c =? 32) || (byte_n c =? 9) || (byte_n c =? 10) || (byte_n c =? 13))%N.
Definition skip_ws (s : string) : string := drop_while is_ws s.

Definition is_hex (c : ascii) : bool :=
  match hex_val c with Some _ => true | None => false end.

(** The body of a string literal after its opening quote: the raw bytes up to the
    closing quote and what follows it. *)
Fixpoint scan_string (s : string) : option (string * string) :=
  let push c r := match scan_string r with
                  | Some (raw, rest) => Some (String c raw, rest)
                  | None => None end in
  match s with
  | EmptyString => None
  | String c r =>
      if Ascii.eqb c dquote then Some (EmptyString, r)
      else if (byte_n c <? 32)%N then None
      else if Ascii.eqb c "\" then
        match r with
        | String e r2 =>
            if Ascii.eqb e "u" then
              match r2 with
              | String h1 (String h2 (String h3 (String h4 r3))) =>
                  if is_hex h1 && is_hex h2 && is_hex h3 && is_hex h4 then
                    match scan_string r3 with
                    | Some (raw, rest) =>
                        Some (String c (String e (String h1 (String h2 (String h3 (String h4 raw))))), rest)
                    | None => None
                    end
                  else None
              | _ => None
              end
            else if Ascii.eqb e dquote || mem_byte e "\/bfnrt" then
              match scan_string r2 with
              | Some (raw, rest) => Some (String c (String e raw), rest)
              | None => None
              end
            else None
        | EmptyString => None
        end
      else push c r
  end.

(** [getu4]: the code unit of a [\uXXXX] escape at the start of the text. *)
Definition getu4 (s : string) : option N :=
  match s with
  | String a (String u (String h1 (String h2 (String h3 (String h4 _))))) =>
      if Ascii.eqb a "\" && Ascii.eqb u "u" then
        match hex_val h1, hex_val h2, hex_val h3, hex_val h4 with
        | Some x1, Some x2, Some x3, Some x4 => Some (((x1 * 16 + x2) * 16 + x3) * 16 + x4)%N
        | _, _, _, _ => None
        end
      else None
  | _ => None
  end.

Definition is_surrogate (r : N) : bool := ((55296 <=? r) && (r <=? 57343))%N.

(** [utf16.DecodeRune]; [None] where Go returns U+FFFD. *)
Definition utf16_decode (r1 r2 : N) : option N :=
  if ((55296 <=? r1) && (r1 <? 56320) && (56320 <=? r2) && (r2 <? 57344))%N
  then Some ((r1 - 55296) * 1024 + (r2 - 56320) + 65536)%N else None.

(** The character an escape letter denotes. *)
Definition escape_char (e : ascii) : ascii :=
  if Ascii.eqb e "b" then chr 8 else if Ascii.eqb e "f" then chr 12
  else if Ascii.eqb e "n" then chr 10 else if Ascii.eqb e "r" then chr 13
  else if Ascii.eqb e "t" then chr 9 else e.

(** [unquote] on the raw bytes of a literal; each round consumes at least a byte. *)
Fixpoint unquote_fuel (fuel : nat) (s : string) : string :=
  match fuel with
  | O => EmptyString
  | S f =>
      match s with
      | EmptyString => EmptyString
      | String c r =>
          if Ascii.eqb c "\" then
            match getu4 s with
            | Some rr =>
                let r6 := str_drop 6 s in
                if is_surrogate rr then
                  match getu4 r6 ≫= utf16_decode rr with
                  | Some d => encode_rune d +:+ unquote_fuel f (str_drop 6 r6)
                  | None => encode_rune rune_error +:+ unquote_fuel f r6
                  end
                else encode_rune rr +:+ unquote_fuel f r6
            | None =>
                match r with
                | String e r2 => String (escape_char e) (unquote_fuel f r2)
                | EmptyString => EmptyString
                end
            end
          else if is_ascii c then String c (unquote_fuel f r)
          else let '(rn, w) := decode_rune s in encode_rune rn +:+ unquote_fuel f (str_drop w s)
      end
  end.
Definition unquote (s : string) : string := unquote_fuel (String.length s) s.

(** Numbers: an optional minus, an integer part without leading zeros, an
    optional fraction and an optional exponent. *)
Fixpoint span (p : ascii → bool) (s : string) : string * string :=
  match s with
  | EmptyString => (EmptyString, EmptyString)
  | String c r => if p c then let '(a, b) := span p r in (String c a, b) else (EmptyString, s)
  end.

Definition scan_frac (s : string) : option (string * string) :=
  match s with
  | String "." r =>
      match span is_digit r with
      | (EmptyString, _) => None
      | (ds, r2) => Some (String "." ds, r2)
      end
  | _ => Some (EmptyString, s)
  end.

Definition scan_exp (s : string) : option (string * string) :=
  match s with
  | String e r =>
      if Ascii.eqb e "e" || Ascii.eqb e "E" then
        let '(sg, r1) := match r with
                         | String "+" r1 => ("+", r1)
                         | String "-" r1 => ("-", r1)
                         | _ => (EmptyString, r)
                         end in
        match span is_digit r1 with
        | (EmptyString, _) => None
        | (ds, r2) => Some (String e (sg +:+ ds), r2)
        end
      else Some (EmptyString, s)
  | EmptyString => Some (EmptyString, s)
  end.

Definition scan_unsigned (s : string) : option (string * string) :=
  match s with
  | String c r1 =>
      let int := if Ascii.eqb c "0" then Some ("0", r1)
                 else if is_digit c then Some (span is_digit s) else None in
      '(i, r2) ← int;
      '(fr, r3) ← scan_frac r2;
      '(ex, r4) ← scan_exp r3;
      Some (i +:+ fr +:+ ex, r4)
  | EmptyString => None
  end.

Definition scan_number (s : string) : option (string * string) :=
  match s with
  | String c r =>
      if Ascii.eqb c "-" then '(n, r1) ← scan_unsigned r; Some (String c n, r1)
      else scan_unsigned s
  | EmptyString => None
  end.

(** ** Parsing

    [maxNestingDepth] of the scanner. Fuel bounds the recursion: every call consumes
    a byte, so twice the length of the text plus two is enough ([parse_fuel_enough]). *)
Definition max_nesting_depth : N := 10000.

Fixpoint parse_value (fuel : nat) (depth : N) (s : string) : option (json * string) :=
  match fuel with
  | O => None
  | S f =>
      match skip_ws s with
      | EmptyString => None
      | String c r =>
          if Ascii.eqb c "{" then
            if (max_nesting_depth <=? depth)%N then None else
            match skip_ws r with
            | EmptyString => None
            | String d r1 =>
                if Ascii.eqb d "}" then Some (JObj [], r1) else
                '(kvs, r2) ← parse_members f (depth + 1)%N (String d r1); Some (JObj kvs, r2)
            end
          else if Ascii.eqb c "[" then
            if (max_nesting_depth <=? depth)%N then None else
            match skip_ws r with
            | EmptyString => None
            | String d r1 =>
                if Ascii.eqb d "]" then Some (JArr [], r1) else
                '(l, r2) ← parse_elems f (depth + 1)%N (String d r1); Some (JArr l, r2)
            end
          else if Ascii.eqb c dquote then
            '(raw, r1) ← scan_string r; Some (JStr (unquote raw), r1)
          else if has_prefix "true" (String c r) then Some (JBool true, str_drop 4 (String c r))
          else if has_prefix "false" (String c r) then Some (JBool false, str_drop 5 (String c r))
          else if has_prefix "null" (String c r) then Some (JNull, str_drop 4 (String c r))
          else '(lit, r1) ← scan_number (String c r); Some (JNum lit, r1)
      end
  end
with parse_members (fuel : nat) (depth : N) (s : string)
    : option (list (string * json) * string) :=
  match fuel with
  | O => None
  | S f =>
      match skip_ws s with
      | String c r =>
          if Ascii.eqb c dquote then
            '(raw, r1) ← scan_string r;
            match skip_ws r1 with
            | String d r2 =>
                if negb (Ascii.eqb d ":") then None else
                '(v, r3) ← parse_value f depth r2;
                match skip_ws r3 with
                | String d r4 =>
                    if Ascii.eqb d "," then
                      '(kvs, r5) ← parse_members f depth r4;
                      Some ((unquote raw, v) :: kvs, r5)
                    else if Ascii.eqb d "}" then Some ([(unquote raw, v)], r4)
                    else None
                | EmptyString => None
                end
            | EmptyString => None
            end
          else None
      | EmptyString => None
      end
  end
with parse_elems (fuel : nat) (depth : N) (s : string) : option (list json * string) :=
  match fuel with
  | O => None
  | S f =>
      '(v, r1) ← parse_value f depth s;
      match skip_ws r1 with
      | String d r2 =>
          if Ascii.eqb d "," then '(l, r3) ← parse_elems f depth r2; Some (v :: l, r3)
          else if Ascii.eqb d "]" then Some ([v], r2) else None
      | EmptyString => None
      end
  end.

(** One value from the front of a stream ([Decoder.Decode]); the rest is ignored. *)
Definition decode_ast (s : string) : option json :=
  fst <$> parse_value (2 * String.length s + 2) 0 s.

(** A whole text ([json.Unmarshal], [json.Valid]): only white space may follow. *)
Definition unmarshal_ast (s : string) : option json :=
  '(v, rest) ← parse_value (2 * String.length s + 2) 0 s;
  match skip_ws rest with EmptyString => Some v | _ => None end.

(** ** Encoding ([json.Marshal], HTML escaping on) *)
Definition html_safe (c : ascii) : bool :=
  let n := byte_n c in
  ((32 <=? n) && (n <? 128) && negb (n =? 34) && negb (n =? 92)
   && negb (n =? 38) && negb (n =? 60) && negb (n =? 62))%N.

Definition u00 (n : N) : string :=
  "\u00" +:+ String (hex_digit (n / 16)) (String (hex_digit (n mod 16)) EmptyString).

Definition escape_byte (c : ascii) : string :=
  let n := byte_n c in
  if html_safe c then String c EmptyString
  else if (n =? 34)%N || (n =? 92)%N then String "\" (String c EmptyString)
  else if (n =? 8)%N then "\b" else if (n =? 12)%N then "\f"
  else if (n =? 10)%N then "\n" else if (n =? 13)%N then "\r"
  else if (n =? 9)%N then "\t" else u00 n.

(** [appendString]: ASCII bytes one by one, other text rune by rune. *)
Fixpoint escape_fuel (fuel : nat) (s : string) : string :=
  match fuel with
  | O => EmptyString
  | S f =>
      match s with
      | EmptyString => EmptyString
      | String c r =>
          if is_ascii c then escape_byte c +:+ escape_fuel f r
          else
            let '(rn, w) := decode_rune s in
            if (rn =? rune_error)%N && (w =? 1)%nat then "\ufffd" +:+ escape_fuel f r
            else if (rn =? 8232)%N then "\u2028" +:+ escape_fuel f (str_drop w s)
            else if (rn =? 8233)%N then "\u2029" +:+ escape_fuel f (str_drop w s)
            else str_take w s +:+ escape_fuel f (str_drop w s)
      end
  end.
Definition escape (s : string) : string := escape_fuel (String.length s) s.

Definition quote (s : string) : string :=
  String dquote (escape s +:+ String dquote EmptyString).

Fixpoint print_json (v : json) : string :=
  match v with
  | JNull => "null"
  | JBool true => "true"
  | JBool false => "false"
  | JNum lit => lit
  | JStr s => quote s
  | JArr l =>
      "[" +:+ join "," (map print_json l) +:+ "]"
  | JObj kvs =>
      "{" +:+ join "," (map (λ kv, quote (fst kv) +:+ ":" +:+ print_json (snd kv)) kvs) +:+ "}"
  end.

Definition jint (z : Z) : json := JNum (z_to_dec z).
Definition jopt (o : option string) : json :=
  match o with Some s => JStr s | None => JNull end.
Definition jstrs (l : list string) : json := JArr (map JStr l).

(** ** Decoding into Go fields

    Each decoder takes the field's old value and returns its new value and whether a
    type error was recorded ([true]). *)
Fixpoint fold_name_fuel (fuel : nat) (s : string) : string :=
  match fuel with
  | O => EmptyString
  | S f =>
      match s with
      | EmptyString => EmptyString
      | String c r =>
          if is_ascii c then String (upper_char c) (fold_name_fuel f r)
          else let '(rn, w) := decode_rune s in
               if (rn =? 383)%N then String "S" (fold_name_fuel f (str_drop w s))
               else if (rn =? 8490)%N then String "K" (fold_name_fuel f (str_drop w s))
               else String c (fold_name_fuel f r)
      end
  end.
(** [foldName]: upper-case ASCII, with the two non-ASCII members of ASCII fold
    orbits (U+017F and U+212A); other runes never equal an ASCII field name. *)
Definition fold_name (s : string) : string := fold_name_fuel (String.length s) s.

Definition field_is (name key : string) : bool := fold_name name =?s fold_name key.

Definition dec_string (old : string) (v : json) : string * bool :=
  match v with JStr s => (s, false) | JNull => (old, false) | _ => (old, true) end.
Definition dec_bool (old : bool) (v : json) : bool * bool :=
  match v with JBool b => (b, false) | JNull => (old, false) | _ => (old, true) end.
Definition dec_int (old : Z) (v : json) : Z * bool :=
  match v with
  | JNum lit => match parse_int lit with Some z => (z, false) | None => (old, true) end
  | JNull => (old, false)
  | _ => (old, true)
  end.
Definition dec_ptr_string (old : option string) (v : json) : option string * bool :=
  match v with
  | JNull => (None, false)
  | _ => let '(s, e) := dec_string (from_opt "" old) v in (Some s, e)
  end.
(** [[]string]: [None] is the nil slice. *)
Fixpoint dec_elems (old : list string) (l : list json) : list string * bool :=
  match l with
  | [] => ([], false)
  | v :: l =>
      let '(o, old') := match old with [] => ("", []) | o :: old' => (o, old') end in
      let '(s, e) := dec_string o v in
      let '(rest, e') := dec_elems old' l in (s :: rest, e || e')
  end.
Definition dec_strings (old : option (list string)) (v : json)
    : option (list string) * bool :=
  match v with
  | JNull => (None, false)
  | JArr l => let '(r, e) := dec_elems (from_opt [] old) l in (Some r, e)
  | _ => (old, true)
  end.
(** [map[string]string]: entries are added to the existing map. *)
Fixpoint dec_entries (m : gmap string string) (kvs : list (string * json))
    : gmap string string * bool :=
  match kvs with
  | [] => (m, false)
  | (k, v) :: kvs =>
      let '(s, e) := dec_string "" v in
      let '(m', e') := dec_entries (<[k := s]> m) kvs in (m', e || e')
  end.
Definition dec_string_map (old : option (gmap string string)) (v : json)
    : option (gmap string string) * bool :=
  match v with
  | JNull => (None, false)
  | JObj kvs => let '(m, e) := dec_entries (from_opt ∅ old) kvs in (Some m, e)
  | _ => (old, true)
  end.

(** A struct: every member in order is given to [set], which ignores unknown keys. *)
Definition dec_struct {A} (set : string → json → A → A * bool) (a : A) (v : json) : A * bool :=
  match v with
  | JNull => (a, false)
  | JObj kvs =>
      foldl (λ '(a, e) '(k, v), let '(a', e') := set k v a in (a', e || e')) (a, false) kvs
  | _ => (a, true)
  end.

(** [json.Unmarshal(data, &a)] and [Decoder.Decode(&a)]: the struct and whether an
    error was returned; on a syntax error the target is untouched. *)
Definition unmarshal {A} (set : string → json → A → A * bool) (zero : A) (data : string) : A * bool :=
  match unmarshal_ast data with Some v => dec_struct set zero v | None => (zero, true) end.
Definition decode_stream {A} (set : string → json → A → A * bool) (zero : A) (data : string) : A * bool :=
  match decode_ast data with Some v => dec_struct set zero v | None => (zero, true) end.

(** ** String literals round trip on ASCII text *)
Lemma escape_cons c r : is_ascii c = true → escape (String c r) = escape_byte c +:+ escape r.
Proof. intros Hc. unfold escape at 1. cbn [String.length escape_fuel]. by rewrite Hc. Qed.

(** The three forms of an escaped byte: itself, a two-character escape, [\u00hh]. *)
Lemma escape_byte_cases c :
  is_ascii c = true →
  (escape_byte c = String c "" ∧ Ascii.eqb c dquote = false
     ∧ (byte_n c <? 32)%N = false ∧ Ascii.eqb c "\" = false)
  ∨ (∃ e, escape_byte c = String "\" (String e "") ∧ Ascii.eqb e "u" = false
        ∧ Ascii.eqb e dquote || mem_byte e "\/bfnrt" = true ∧ escape_char e = c)
  ∨ (∃ h1 h2 v1 v2, escape_byte c = "\u00" +:+ String h1 (String h2 "")
        ∧ hex_val h1 = Some v1 ∧ hex_val h2 = Some v2 ∧ (v1 * 16 + v2 = byte_n c)%N).
Proof.
  intros Hc. unfold escape_byte. destruct (html_safe c) eqn:Hs.
  - left. split; [done|]. unfold html_safe in Hs. seqb_simpl.
    rewrite N.ltb_ge, <- N.leb_le. split_and!; try done; apply Ascii.eqb_neq; intros ->; done.
  - right. destruct ((byte_n c =? 34)%N || (byte_n c =? 92)%N) eqn:E1.
    { left. exists c. apply orb_true_iff in E1 as [E|E]; apply N.eqb_eq in E;
        rewrite <- (chr_byte_n c), E; done. }
    repeat match goal with
    | |- context [if (byte_n c =? ?k)%N then _ else _] =>
        let E := fresh "Eb" in destruct (byte_n c =? k)%N eqn:E;
        [left; apply N.eqb_eq in E; rewrite <- (chr_byte_n c), E;
         eexists; split; [reflexivity|done]|]
    end.
    right. assert (Hhex : ∀ n, (n < 16)%N → hex_val (hex_digit n) = Some n).
    { intros n Hn. apply (bool_decide_unpack _). apply Is_true_true.
      revert n Hn. by apply (N_forall_below 16 (λ n, bool_decide (hex_val (hex_digit n) = Some n)));
        vm_compute. }
    pose proof (byte_n_lt c). do 4 eexists. split; [reflexivity|]. rewrite !Hhex;
      [split_and!; [done..|]| |];
      [|apply N.mod_lt; lia|apply N.Div0.div_lt_upper_bound; lia].
    rewrite N.mul_comm. symmetry. apply N.Div0.div_mod.
Qed.

Lemma scan_escape_byte c t raw rest :
  is_ascii c = true → scan_string t = Some (raw, rest) →
  scan_string (escape_byte c +:+ t) = Some (escape_byte c +:+ raw, rest).
Proof.
  intros Hc Ht.
  destruct (escape_byte_cases c Hc) as
    [(-> & H1 & H2 & H3)|[(e & -> & H1 & H2 & _)|(h1 & h2 & v1 & v2 & -> & H1 & H2 & _)]];
    autorewrite with goway_rw; cbn [scan_string].
  - by rewrite H1, H2, H3, Ht.
  - change (Ascii.eqb "\" dquote) with false. change (byte_n "\" <? 32)%N with false.
    rewrite Ascii.eqb_refl, H1, H2, Ht. done.
  - change (Ascii.eqb "\" dquote) with false. change (byte_n "\" <? 32)%N with false.
    rewrite !Ascii.eqb_refl. change (is_hex "0") with true.
    unfold is_hex. by rewrite H1, H2, Ht.
Qed.

Lemma unquote_escape_byte c f raw :
  is_ascii c = true → unquote_fuel (S f) (escape_byte c +:+ raw) = String c (unquote_fuel f raw).
Proof.
  intros Hc.
  destruct (escape_byte_cases c Hc) as
    [(-> & H1 & H2 & H3)|[(e & -> & H1 & H2 & He)|(h1 & h2 & v1 & v2 & -> & H1 & H2 & Hv)]];
    autorewrite with goway_rw; cbn [unquote_fuel].
  - by rewrite H3, Hc.
  - rewrite Ascii.eqb_refl.
    replace (getu4 _) with (@None N); [by rewrite He|].
    unfold getu4. destruct raw as [|? [|? [|? [|? raw]]]]; try done. by rewrite H1, andb_false_r.
  - rewrite Ascii.eqb_refl. cbn [getu4]. rewrite !Ascii.eqb_refl. cbn [andb].
    change (hex_val "0") with (Some 0%N). rewrite H1, H2. cbn [str_drop].
    replace (((0 * 16 + 0) * 16 + v1) * 16 + v2)%N with (byte_n c) by lia.
    unfold is_ascii in Hc. assert (Hlt := Hc). apply N.ltb_lt in Hlt.
    replace (is_surrogate (byte_n c)) with false
      by (symmetry; unfold is_surrogate; apply andb_false_iff; left; apply N.leb_gt; lia).
    unfold encode_rune. rewrite (proj2 (N.leb_gt 55296 _)), (proj2 (N.ltb_ge 1114111 _)) by lia.
    cbn [andb orb]. rewrite Hc. autorewrite with goway_rw. by rewrite chr_byte_n.
Qed.

Lemma escape_byte_length c : (1 ≤ String.length (escape_byte c))%nat.
Proof. by destruct c as [[][][][][][][][]]; vm_compute; lia. Qed.

Lemma scan_escape s rest :
  all_ascii s = true → scan_string (escape s +:+ String dquote rest) = Some (escape s, rest).
Proof.
  induction s as [|c s IH]; [done|]. cbn [all_ascii str_forallb].
  intros [Hc Hs]%andb_true_iff. rewrite escape_cons, str_app_assoc by done.
  apply scan_escape_byte; [done|]. by apply IH.
Qed.

Lemma unquote_escape s : all_ascii s = true → unquote (escape s) = s.
Proof.
  unfold unquote. intros H. generalize (le_n (String.length (escape s))).
  generalize (String.length (escape s)) at 2 3 as fuel. revert H.
  induction s as [|c s IH]; intros H fuel Hf; [by destruct fuel|].
  cbn [all_ascii str_forallb] in H. apply andb_true_iff in H as [Hc Hs].
  rewrite escape_cons in * by done. rewrite str_length_app in Hf.
  pose proof (escape_byte_length c). destruct fuel as [|fuel]; [lia|].
  rewrite unquote_escape_byte by done. f_equal. apply IH; [done|lia].
Qed.

(** ** Values the encoder prints from Go structs: ASCII strings, integer literals *)
Fixpoint wf_json (v : json) : bool :=
  match v with
  | JNull | JBool _ => true
  | JNum lit => match parse_int lit with Some z => lit =?s z_to_dec z | None => false end
  | JStr s => all_ascii s
  | JArr l => forallb wf_json l
  | JObj kvs => forallb (λ kv, all_ascii (fst kv) && wf_json (snd kv)) kvs
  end.

(** Recursion cost and nesting of a value. *)
Fixpoint jsize (v : json) : nat :=
  match v with
  | JArr l => S (foldr (λ v n, S (jsize v + n)) 0 l)
  | JObj kvs => S (foldr (λ kv n, S (jsize (snd kv) + n)) 0 kvs)
  | _ => 1
  end.
Fixpoint jheight (v : json) : nat :=
  match v with
  | JArr l => S (foldr (λ v n, Nat.max (jheight v) n) 0 l)
  | JObj kvs => S (foldr (λ kv n, Nat.max (jheight (snd kv)) n) 0 kvs)
  | _ => 0
  end.

Lemma json_ind' (P : json → Prop) :
  P JNull → (∀ b, P (JBool b)) → (∀ n, P (JNum n)) → (∀ s, P (JStr s)) →
  (∀ l, Forall P l → P (JArr l)) →
  (∀ kvs, Forall (λ kv, P (snd kv)) kvs → P (JObj kvs)) → ∀ v, P v.
Proof.
  intros Hn Hb Hi Hs Ha Ho. fix IH 1. intros [| | | |l|kvs]; [done|apply Hb|apply Hi|apply Hs| |].
  - apply Ha. induction l; constructor; [apply IH|done].
  - apply Ho. induction kvs as [|[k v] kvs]; constructor; [apply IH|done].
Qed.

(** A number literal ends where the rest does not continue it. *)
Definition num_stop (s : string) : bool :=
  match s with
  | EmptyString => true
  | String c _ => negb (is_digit c) && negb (Ascii.eqb c ".")
                  && negb (Ascii.eqb c "e") && negb (Ascii.eqb c "E")
  end.

Lemma span_digits d rest :
  str_forallb is_digit d = true → num_stop rest = true → span is_digit (d +:+ rest) = (d, rest).
Proof.
  intros Hd Hr. induction d as [|c d IH].
  - rewrite str_app_nil_l. destruct rest as [|c rest]; [done|]. cbn in *. seqb_simpl.
    by rewrite H.
  - cbn [str_forallb] in Hd. apply andb_true_iff in Hd as [Hc Hd].
    rewrite str_app_cons. cbn [span]. by rewrite Hc, IH.
Qed.

Lemma num_stop_frac_exp rest :
  num_stop rest = true → scan_frac rest = Some ("", rest) ∧ scan_exp rest = Some ("", rest).
Proof.
  destruct rest as [|c rest]; [done|]. cbn [num_stop]. intros H. seqb_simpl. split.
  - by destruct c as [[][][][][][][][]].
  - cbn [scan_exp]. by rewrite H0, H1.
Qed.

Lemma scan_unsigned_dec n rest :
  num_stop rest = true → scan_unsigned (n_to_dec n +:+ rest) = Some (n_to_dec n, rest).
Proof.
  intros Hr. destruct (n_to_dec_spec n) as (c & d & -> & Hd & _ & Hz).
  destruct (num_stop_frac_exp rest Hr) as [Hf He].
  rewrite str_app_cons. unfold scan_unsigned. destruct (Ascii.eqb c "0") eqn:E.
  - apply Ascii.eqb_eq in E. destruct (Hz E) as [_ ->]. subst c. rewrite str_app_nil_l.
    cbn. rewrite Hf. cbn. by rewrite He.
  - assert (Hcd := Hd). cbn [str_forallb] in Hd. apply andb_true_iff in Hd as [-> _].
    rewrite <- str_app_cons, span_digits by done.
    cbn -[String.append]. rewrite Hf. cbn -[String.append]. rewrite He. cbn -[String.append].
    by rewrite !str_app_nil_r.
Qed.

(** The first byte of a printed integer, and that no other token starts with it. *)
Definition num_head (c : ascii) : bool := is_digit c || Ascii.eqb c "-".

Lemma z_to_dec_head z : ∃ c r, z_to_dec z = String c r ∧ num_head c = true.
Proof.
  unfold z_to_dec, num_head. case_bools; [by do 2 eexists|].
  destruct (n_to_dec_spec (Z.to_N z)) as (c & d & -> & Hd & _).
  exists c, d. split; [done|]. cbn [str_forallb] in Hd.
  apply andb_true_iff in Hd as [-> _]. done.
Qed.

Lemma num_head_plain c :
  num_head c = true →
  is_ws c = false ∧ Ascii.eqb c "{" = false ∧ Ascii.eqb c "[" = false ∧ Ascii.eqb c dquote = false
  ∧ Ascii.eqb "t" c = false ∧ Ascii.eqb "f" c = false ∧ Ascii.eqb "n" c = false
  ∧ Ascii.eqb c "]" = false.
Proof.
  intros H. pose (p := λ c, implb (num_head c) (negb (is_ws c) && (negb (Ascii.eqb c "{")
    && (negb (Ascii.eqb c "[") && (negb (Ascii.eqb c dquote) && (negb (Ascii.eqb "t" c)
    && (negb (Ascii.eqb "f" c) && (negb (Ascii.eqb "n" c) && negb (Ascii.eqb c "]"))))))))).
  assert (Hp : p c = true) by (revert c H; intros c _; revert c; by apply ascii_forall; vm_compute).
  unfold p in Hp. rewrite H in Hp. cbn [implb] in Hp. seqb_simpl. done.
Qed.

Lemma scan_number_dec z rest :
  num_stop rest = true → scan_number (z_to_dec z +:+ rest) = Some (z_to_dec z, rest).
Proof.
  intros Hr. unfold z_to_dec. case_bools.
  - rewrite str_app_cons. cbn [scan_number]. rewrite Ascii.eqb_refl.
    rewrite scan_unsigned_dec by done. done.
  - destruct (n_to_dec_spec (Z.to_N z)) as (c & d & Heq & Hd & _).
    pose proof (scan_unsigned_dec (Z.to_N z) rest Hr) as Hs. rewrite Heq in *.
    rewrite str_app_cons in *. cbn [scan_number].
    assert (Hm : c ≠ "-"%char).
    { apply digit_not_sign. cbn [str_forallb] in Hd. apply andb_true_iff in Hd. tauto. }
    apply Ascii.eqb_neq in Hm as ->. done.
Qed.

Lemma skip_ws_plain c r : is_ws c = false → skip_ws (String c r) = String c r.
Proof. intros H. unfold skip_ws. cbn [drop_while]. by rewrite H. Qed.

Lemma parse_value_int f depth z rest :
  num_stop rest = true →
  parse_value (S f) depth (z_to_dec z +:+ rest) = Some (JNum (z_to_dec z), rest).
Proof.
  intros Hr. pose proof (scan_number_dec z rest Hr) as Hs.
  destruct (z_to_dec_head z) as (c & r & Heq & Hh). rewrite Heq in *.
  destruct (num_head_plain c Hh) as (Hws & H1 & H2 & H3 & H4 & H5 & H6 & _).
  rewrite str_app_cons in *. cbn [parse_value]. rewrite skip_ws_plain, H1, H2, H3 by done. cbn [has_prefix]. by rewrite H4, H5, H6, Hs.
Qed.

Lemma parse_value_str f depth s rest :
  all_ascii s = true → parse_value (S f) depth (quote s +:+ rest) = Some (JStr s, rest).
Proof.
  intros Hs. unfold quote. rewrite str_app_cons, str_app_assoc, str_app_cons, str_app_nil_l.
  cbn [parse_value]. rewrite skip_ws_plain by done. change (Ascii.eqb dquote "{") with false.
  change (Ascii.eqb dquote "[") with false. rewrite Ascii.eqb_refl, scan_escape by done.
  cbn. by rewrite unquote_escape.
Qed.

(** A printed value starts with a byte that is neither white space nor a closing
    bracket. *)
Lemma print_head v :
  wf_json v = true → ∃ c r, print_json v = String c r ∧ is_ws c = false ∧ Ascii.eqb c "]" = false.
Proof.
  destruct v as [|[]|lit|s|l|kvs]; intros Hw; cbn [print_json]; try by do 2 eexists.
  cbn [wf_json] in Hw. destruct (parse_int lit) as [z|]; [|done].
  seqb_simpl. subst lit. destruct (z_to_dec_head z) as (c & r & -> & Hh).
  destruct (num_head_plain c Hh) as (Hws & _ & _ & _ & _ & _ & _ & H7). by exists c, r.
Qed.

(** Element and member lists round trip once their values do. *)
Definition parses (v : json) : Prop :=
  ∀ f depth rest, wf_json v = true → num_stop rest = true →
    (jsize v ≤ f)%nat → (depth + N.of_nat (jheight v) ≤ max_nesting_depth)%N →
    parse_value f depth (print_json v +:+ rest) = Some (v, rest).

Lemma parse_elems_print l f depth rest :
  Forall parses l → l ≠ [] → forallb wf_json l = true →
  (foldr (λ v n, S (jsize v + n)) 0 l ≤ f)%nat →
  (depth + N.of_nat (foldr (λ v n, Nat.max (jheight v) n) 0%nat l) ≤ max_nesting_depth)%N →
  parse_elems f depth (join "," (map print_json l) +:+ "]" +:+ rest) = Some (l, rest).
Proof.
  intros Hl. revert f. induction Hl as [|v l Hv Hl IH]; [done|].
  intros f _ Hw Hf Hd. cbn [forallb] in Hw. apply andb_true_iff in Hw as [Hwv Hwl].
  cbn [foldr] in *.
  destruct f as [|f]; [lia|]. cbn [parse_elems].
  destruct l as [|v' l].
  - cbn [map join]. rewrite Hv; [|done|done|lia|lia].
    autorewrite with goway_rw. done.
  - change (join "," (map print_json (v :: v' :: l)))
      with (print_json v +:+ "," +:+ join "," (map print_json (v' :: l))).
    rewrite !str_app_assoc, Hv; [|done|done|lia|lia].
    cbn [mbind option_bind]. rewrite (str_app_cons "," ""), str_app_nil_l, skip_ws_plain by done.
    rewrite Ascii.eqb_refl, IH; [done|done|done|cbn [foldr] in *; lia|cbn [foldr] in *; lia].
Qed.

Lemma parse_members_print kvs f depth rest :
  Forall (λ kv, parses (snd kv)) kvs → kvs ≠ [] →
  forallb (λ kv, all_ascii (fst kv) && wf_json (snd kv)) kvs = true →
  (foldr (λ kv n, S (jsize (snd kv) + n)) 0 kvs ≤ f)%nat →
  (depth + N.of_nat (foldr (λ kv n, Nat.max (jheight (snd kv)) n) 0%nat kvs) ≤ max_nesting_depth)%N →
  parse_members f depth
    (join "," (map (λ kv, quote (fst kv) +:+ ":" +:+ print_json (snd kv)) kvs) +:+ "}" +:+ rest)
  = Some (kvs, rest).
Proof.
  intros Hl. revert f. induction Hl as [|[k v] l Hv Hl IH]; [done|].
  intros f _ Hw Hf Hd. cbn [forallb fst snd] in *.
  apply andb_true_iff in Hw as [[Hwk Hwv]%andb_true_iff Hwl].
  cbn [foldr fst snd] in *.
  destruct f as [|f]; [lia|].
  set (tl := match l with [] => "}" +:+ rest
             | _ => "," +:+ join "," (map (λ kv, quote (fst kv) +:+ ":" +:+ print_json (snd kv)) l)
                        +:+ "}" +:+ rest end).
  replace (join "," _ +:+ "}" +:+ rest)
    with (quote k +:+ ":" +:+ print_json v +:+ tl)
    by (unfold tl; destruct l; cbn [map join]; by rewrite !str_app_assoc).
  unfold quote. rewrite str_app_cons, str_app_assoc. autorewrite with goway_rw.
  cbn [parse_members]. rewrite skip_ws_plain, Ascii.eqb_refl, scan_escape by done.
  cbn [mbind option_bind]. rewrite skip_ws_plain, Ascii.eqb_refl by done. cbn [negb].
  rewrite unquote_escape, Hv; [|done|by destruct l|lia|lia|done].
  cbn [mbind option_bind]. destruct l as [|kv l]; [done|].
  unfold tl. rewrite (str_app_cons "," ""), str_app_nil_l, skip_ws_plain by done.
  rewrite Ascii.eqb_refl, IH; [done|done|done|cbn [foldr] in *; lia|cbn [foldr] in *; lia].
Qed.

Lemma parses_all v : parses v.
Proof.
  induction v as [| | | |l IH|kvs IH] using json_ind'; intros f depth rest Hw Hr Hf Hd;
    (destruct f as [|f]; [cbn in Hf; lia|]).
  - done.
  - by destruct b.
  - cbn [wf_json] in Hw. destruct (parse_int n) as [z|]; [|done]. seqb_simpl. subst n.
    by apply parse_value_int.
  - by apply parse_value_str.
  - cbn [print_json]. rewrite !str_app_assoc. autorewrite with goway_rw. cbn [parse_value].
    rewrite skip_ws_plain by done.
    change (Ascii.eqb "[" "{") with false. rewrite Ascii.eqb_refl.
    cbn [jheight jsize] in *. rewrite (proj2 (N.leb_gt _ _)) by lia.
    destruct l as [|v l]; [done|].
    cbn [wf_json] in Hw. assert (Hwv := Hw). cbn [forallb] in Hwv.
    apply andb_true_iff in Hwv as [Hwv _].
    destruct (print_head v Hwv) as (c & r & Hp & Hws & Hb).
    pose proof (parse_elems_print (v :: l) f (depth + 1)%N rest IH ltac:(done) Hw
      ltac:(lia) ltac:(lia)) as He.
    replace (join "," (map print_json (v :: l)))
      with (String c (r +:+ match l with [] => "" | _ => "," +:+ join "," (map print_json l) end)) in *
      by (destruct l; cbn [map join]; rewrite Hp, ?str_app_cons; [by rewrite str_app_nil_r|done]).
    autorewrite with goway_rw in *. rewrite skip_ws_plain by done.
    by rewrite Hb, He.
  - cbn [print_json]. rewrite !str_app_assoc. autorewrite with goway_rw. cbn [parse_value].
    rewrite skip_ws_plain, Ascii.eqb_refl by done.
    cbn [jheight jsize] in *. rewrite (proj2 (N.leb_gt _ _)) by lia.
    destruct kvs as [|[k v] kvs]; [done|].
    pose proof (parse_members_print ((k, v) :: kvs) f (depth + 1)%N rest IH ltac:(done) Hw
      ltac:(lia) ltac:(lia)) as He.
    autorewrite with goway_rw in He.
    replace (join "," _ +:+ _) with (String dquote (str_drop 1 (join ","
       (map (λ kv : string * json, quote (fst kv) +:+ ":" +:+ print_json (snd kv)) ((k, v) :: kvs))
        +:+ String "}" rest))) in * by (by destruct kvs).
    rewrite skip_ws_plain by done. change (Ascii.eqb dquote "}") with false. by rewrite He.
Qed.

(** ** The round trip of [Marshal] and [Unmarshal] on such values *)
Lemma jsize_length v : wf_json v = true → (jsize v ≤ String.length (print_json v))%nat.
Proof.
  induction v as [| | | |l IH|kvs IH] using json_ind'; intros Hw.
  - cbn. lia.
  - destruct b; cbn; lia.
  - destruct (print_head (JNum n) Hw) as (c & r & -> & _). cbn. lia.
  - cbn. rewrite str_length_app. lia.
  - cbn [jsize print_json]. rewrite !str_length_app. cbn [String.length].
    cut (l = [] ∨ foldr (λ v n, S (jsize v + n)) 0 l
         ≤ S (String.length (join "," (map print_json l)))); [intros [-> |]; cbn; lia|].
    cbn [wf_json] in Hw. induction IH as [|v l Hv Hl IH]; [by left|right].
    cbn [forallb] in Hw. apply andb_true_iff in Hw as [Hwv Hwl].
    specialize (Hv Hwv). destruct (IH Hwl) as [->|IHl]; [cbn; lia|].
    destruct l as [|v' l]; [cbn; lia|]. cbn [foldr map join] in *.
    rewrite !str_length_app. cbn [String.length] in *. lia.
  - cbn [jsize print_json]. rewrite !str_length_app. cbn [String.length].
    set (p := λ kv : string * json, quote (fst kv) +:+ ":" +:+ print_json (snd kv)).
    cut (kvs = [] ∨ foldr (λ kv n, S (jsize (snd kv) + n)) 0 kvs
         ≤ S (String.length (join "," (map p kvs)))); [intros [-> |]; cbn; lia|].
    cbn [wf_json] in Hw. induction IH as [|[k v] l Hv Hl IH]; [by left|right].
    cbn [forallb fst snd] in *. apply andb_true_iff in Hw as [[_ Hwv]%andb_true_iff Hwl].
    specialize (Hv Hwv).
    assert (Hp : S (String.length (print_json v)) ≤ String.length (p (k, v))).
    { unfold p. cbn [fst snd]. rewrite !str_length_app. cbn [String.length]. lia. }
    destruct (IH Hwl) as [->|IHl]; [cbn -[p]; lia|].
    destruct l as [|kv' l]; [cbn -[p]; lia|].
    change (join "," (map p ((k, v) :: kv' :: l)))
      with (p (k, v) +:+ "," +:+ join "," (map p (kv' :: l))).
    cbn [foldr snd] in *. rewrite !str_length_app. cbn [String.length] in *. lia.
Qed.

Lemma unmarshal_print v :
  wf_json v = true → (N.of_nat (jheight v) ≤ max_nesting_depth)%N →
  unmarshal_ast (print_json v) = Some v.
Proof.
  intros Hw Hh. unfold unmarshal_ast.
  pose proof (jsize_length v Hw).
  rewrite <- (str_app_nil_r (print_json v)) at 2.
  rewrite (parses_all v); [done|done|done|lia|lia].
Qed.

(** ** Fuel: parsing never stops for lack of it

    Every token consumes a byte, so the rest is shorter and twice the length plus two
    is enough fuel for any text, well-formed or not. *)
Lemma skip_ws_length s : (String.length (skip_ws s) ≤ String.length s)%nat.
Proof. unfold skip_ws. induction s as [|c s IH]; cbn; [done|]. case_bools; cbn; lia. Qed.

Lemma span_length p s a b : span p s = (a, b) → String.length s = String.length a + String.length b.
Proof.
  revert a b. induction s as [|c s IH]; intros a b; cbn; [intros; by simplify_eq|].
  case_bools; [|intros; by simplify_eq]. destruct (span p s) as [x y].
  intros. simplify_eq. cbn. by rewrite (IH x b).
Qed.

Lemma scan_string_length s raw rest :
  scan_string s = Some (raw, rest) → (String.length rest < String.length s)%nat.
Proof.
  revert raw rest. induction s as [s IH] using (induction_ltof1 _ String.length).
  unfold ltof in IH. intros raw rest. destruct s as [|c r]; cbn [scan_string]; [done|].
  destruct (Ascii.eqb c dquote); [intros; simplify_eq; cbn; lia|].
  destruct (byte_n c <? 32)%N; [done|].
  destruct (Ascii.eqb c "\").
  - destruct r as [|e r2]; [done|]. destruct (Ascii.eqb e "u").
    + destruct r2 as [|h1 [|h2 [|h3 [|h4 r3]]]]; try done.
      destruct (is_hex h1 && _ && _ && _); [|done].
      destruct (scan_string r3) as [[raw' rest']|] eqn:E; [|done].
      intros. simplify_eq. apply IH in E; cbn in *; lia.
    + destruct (_ || _); [|done].
      destruct (scan_string r2) as [[raw' rest']|] eqn:E; [|done].
      intros. simplify_eq. apply IH in E; cbn in *; lia.
  - destruct (scan_string r) as [[raw' rest']|] eqn:E; [|done].
    intros. simplify_eq. apply IH in E; cbn in *; lia.
Qed.

Lemma scan_frac_length s a r : scan_frac s = Some (a, r) → (String.length r ≤ String.length s)%nat.
Proof.
  unfold scan_frac. intros H.
  assert (Hc : (∃ t, s = String "." t ∧ ∃ ds r2, span is_digit t = (ds, r2) ∧ r = r2) ∨ r = s).
  { destruct s as [|c t]; [right; by simplify_eq|].
    destruct c as [[][][][][][][][]]; try (right; congruence).
    left. exists t. split; [done|]. destruct (span is_digit t) as [[|d ds] r2]; [done|].
    simplify_eq. by do 2 eexists. }
  destruct Hc as [(t & -> & ds & r2 & Hs & ->)| ->]; [|done].
  apply span_length in Hs. cbn. lia.
Qed.

Lemma scan_exp_length s a r : scan_exp s = Some (a, r) → (String.length r ≤ String.length s)%nat.
Proof.
  unfold scan_exp. destruct s as [|e t]; [intros; by simplify_eq|].
  case_bools; [|intros; by simplify_eq].
  set (sg := match t with String "+" r1 => _ | String "-" r1 => _ | _ => _ end).
  assert (Hsg : (String.length (snd sg) ≤ String.length t)%nat).
  { unfold sg. destruct t as [|c t]; [done|].
    destruct c as [[][][][][][][][]]; cbn; lia. }
  destruct sg as [g r1]. cbn [snd] in Hsg.
  destruct (span is_digit r1) as [[|d ds] r2] eqn:E; [done|].
  intros. simplify_eq. apply span_length in E. cbn in *. lia.
Qed.

Lemma scan_number_length s a r : scan_number s = Some (a, r) → (String.length r < String.length s)%nat.
Proof.
  assert (Hu : ∀ s a r, scan_unsigned s = Some (a, r) → (String.length r < String.length s)%nat).
  { clear. intros [|c r1] a r; cbn [scan_unsigned]; [done|].
    set (i := if Ascii.eqb c "0" then _ else _).
    destruct i as [[x r2]|] eqn:Ei; [|done]. cbn.
    assert (Hi : (String.length r2 < S (String.length r1))%nat).
    { unfold i in Ei. destruct (Ascii.eqb c "0"); [simplify_eq; lia|].
      destruct (is_digit c) eqn:Hd; [|done]. cbn in Ei. rewrite Hd in Ei.
      destruct (span is_digit r1) as [y z] eqn:E. simplify_eq.
      apply span_length in E. lia. }
    destruct (scan_frac r2) as [[fr r3]|] eqn:E1; [|done]. cbn.
    destruct (scan_exp r3) as [[ex r4]|] eqn:E2; [|done]. cbn.
    intros. simplify_eq. apply scan_frac_length in E1. apply scan_exp_length in E2. lia. }
  destruct s as [|c t]; [done|]. cbn [scan_number]. case_bools; [|apply Hu].
  destruct (scan_unsigned t) as [[n r1]|] eqn:E; [|done].
  cbn. intros. simplify_eq. apply Hu in E. cbn. lia.
Qed.

Lemma parse_progress f :
  (∀ d s v r, parse_value f d s = Some (v, r) → (String.length r < String.length s)%nat) ∧
  (∀ d s v r, parse_members f d s = Some (v, r) → (String.length r < String.length s)%nat) ∧
  (∀ d s v r, parse_elems f d s = Some (v, r) → (String.length r < String.length s)%nat).
Proof.
  induction f as [|f (IHv & IHm & IHe)]; [done|]. split_and!; intros d s v r.
  - cbn [parse_value]. pose proof (skip_ws_length s) as Hs.
    destruct (skip_ws s) as [|c t]; [done|]. cbn [String.length] in Hs.
    pose proof (skip_ws_length t) as Ht.
    destruct (Ascii.eqb c "{"); [|destruct (Ascii.eqb c "["); [|destruct (Ascii.eqb c dquote)]].
    + destruct (max_nesting_depth <=? d)%N; [done|].
      destruct (skip_ws t) as [|e t1]; [done|]. cbn [String.length] in Ht.
      destruct (Ascii.eqb e "}"); [intros; simplify_eq; lia|].
      destruct (parse_members f (d + 1)%N (String e t1)) as [[kvs r2]|] eqn:E; [|done].
      cbn. intros. simplify_eq. apply IHm in E. cbn in E. lia.
    + destruct (max_nesting_depth <=? d)%N; [done|].
      destruct (skip_ws t) as [|e t1]; [done|]. cbn [String.length] in Ht.
      destruct (Ascii.eqb e "]"); [intros; simplify_eq; lia|].
      destruct (parse_elems f (d + 1)%N (String e t1)) as [[l r2]|] eqn:E; [|done].
      cbn. intros. simplify_eq. apply IHe in E. cbn in E. lia.
    + destruct (scan_string t) as [[raw r1]|] eqn:E; [|done].
      cbn. intros. simplify_eq. apply scan_string_length in E. lia.
    + change (str_drop 4 (String c t)) with (str_drop 3 t).
      change (str_drop 5 (String c t)) with (str_drop 4 t).
      pose proof (str_drop_length 3 t). pose proof (str_drop_length 4 t).
      repeat (destruct (has_prefix _ _); [intros; simplify_eq; lia|]).
      destruct (scan_number (String c t)) as [[lit r1]|] eqn:E; [|done].
      cbn. intros. simplify_eq. apply scan_number_length in E. cbn in E. lia.
  - cbn [parse_members]. pose proof (skip_ws_length s) as Hs.
    destruct (skip_ws s) as [|c t]; [done|]. cbn [String.length] in Hs.
    destruct (Ascii.eqb c dquote); [|done].
    destruct (scan_string t) as [[raw r1]|] eqn:E1; [|done]. cbn.
    apply scan_string_length in E1. pose proof (skip_ws_length r1) as H1.
    destruct (skip_ws r1) as [|e r2]; [done|]. cbn [String.length] in H1.
    destruct (negb _); [done|].
    destruct (parse_value f d r2) as [[w r3]|] eqn:E2; [|done]. cbn.
    apply IHv in E2. pose proof (skip_ws_length r3) as H3.
    destruct (skip_ws r3) as [|g r4]; [done|]. cbn [String.length] in H3.
    destruct (Ascii.eqb g ","); [|destruct (Ascii.eqb g "}"); [intros; simplify_eq; lia|done]].
    destruct (parse_members f d r4) as [[kvs r5]|] eqn:E3; [|done]. cbn.
    intros. simplify_eq. apply IHm in E3. lia.
  - cbn [parse_elems]. destruct (parse_value f d s) as [[w r1]|] eqn:E1; [|done]. cbn.
    apply IHv in E1. pose proof (skip_ws_length r1) as H1.
    destruct (skip_ws r1) as [|g r2]; [done|]. cbn [String.length] in H1.
    destruct (Ascii.eqb g ","); [|destruct (Ascii.eqb g "]"); [intros; simplify_eq; lia|done]].
    destruct (parse_elems f d r2) as [[l r3]|] eqn:E3; [|done]. cbn.
    intros. simplify_eq. apply IHe in E3. lia.
Qed.

Lemma parse_fuel_enough f : ∀ g,
  (∀ d s, (2 * String.length s + 1 ≤ f)%nat → (2 * String.length s + 1 ≤ g)%nat →
     parse_value f d s = parse_value g d s) ∧
  (∀ d s, (2 * String.length s + 1 ≤ f)%nat → (2 * String.length s + 1 ≤ g)%nat →
     parse_members f d s = parse_members g d s) ∧
  (∀ d s, (2 * String.length s + 2 ≤ f)%nat → (2 * String.length s + 2 ≤ g)%nat →
     parse_elems f d s = parse_elems g d s).
Proof.
  induction f as [|f IH]; intros g; [split_and!; intros; lia|].
  destruct g as [|g]; [split_and!; intros; lia|].
  destruct (IH g) as (IHv & IHm & IHe). split_and!; intros d s Hf Hg.
  - cbn [parse_value]. pose proof (skip_ws_length s) as Hs.
    destruct (skip_ws s) as [|c t]; [done|]. cbn [String.length] in Hs.
    pose proof (skip_ws_length t) as Ht. destruct (skip_ws t) as [|e t1]; [done|].
    rewrite IHm by (cbn [String.length] in *; lia).
    rewrite IHe by (cbn [String.length] in *; lia). done.
  - cbn [parse_members]. pose proof (skip_ws_length s) as Hs.
    destruct (skip_ws s) as [|c t]; [done|]. cbn [String.length] in Hs.
    destruct (Ascii.eqb c dquote); [|done].
    destruct (scan_string t) as [[raw r1]|] eqn:E1; [|done]. cbn.
    apply scan_string_length in E1. pose proof (skip_ws_length r1) as H1.
    destruct (skip_ws r1) as [|e r2]; [done|]. cbn [String.length] in H1.
    destruct (negb _); [done|]. rewrite IHv by lia.
    destruct (parse_value g d r2) as [[w r3]|] eqn:E2; [|done]. cbn.
    apply parse_progress in E2. pose proof (skip_ws_length r3) as H3.
    destruct (skip_ws r3) as [|h r4]; [done|]. cbn [String.length] in H3.
    by rewrite IHm by lia.
  - cbn [parse_elems]. rewrite IHv by lia.
    destruct (parse_value g d s) as [[w r1]|] eqn:E1; [|done]. cbn.
    apply parse_progress in E1. pose proof (skip_ws_length r1) as H1.
    destruct (skip_ws r1) as [|h r2]; [done|]. cbn [String.length] in H1.
    by rewrite IHe by lia.
Qed.
