(* ===== verification/Codec.v ===== *)
(** * Go's [encoding/base64], [crypto/sha256] and [crypto/hmac]

    Executable definitions of the codecs and digests the cookie, the collectors and
    the decision log use, with the base64 round trip. SHA-256 follows FIPS 180-4 and
    HMAC RFC 2104; both are checked on published test vectors. *)
From S2P Require Import Prelude GoStrings.

Local Open Scope N_scope.

(** ** Base64 *)
Definition b64_char (url : bool) (d : N) : ascii :=
  if d <? 26 then chr (65 + d)
  else if d <? 52 then chr (71 + d)
  else if d <? 62 then chr (d - 4)
  else if d =? 62 then (if url then chr 45 else chr 43)
  else (if url then chr 95 else chr 47).

Definition b64_val (url : bool) (c : ascii) : option N :=
  let n := byte_n c in
  if is_upper c then Some (n - 65)
  else if is_lower c then Some (n - 71)
  else if is_digit c then Some (n + 4)
  else if n =? (if url then 45 else 43) then Some 62
  else if n =? (if url then 95 else 47) then Some 63
  else None.

Definition pad_char : ascii := chr 61.

(** [EncodeToString]; [pad] selects the padded alphabet. *)
Fixpoint b64_encode (url pad : bool) (s : string) : string :=
  let e := b64_char url in
  match s with
  | EmptyString => EmptyString
  | String a EmptyString =>
      let n := byte_n a * 16 in
      String (e (n / 64)) (String (e (n mod 64))
        (if pad then String pad_char (String pad_char EmptyString) else EmptyString))
  | String a (String b EmptyString) =>
      let n := (byte_n a * 256 + byte_n b) * 4 in
      String (e (n / 4096)) (String (e ((n / 64) mod 64)) (String (e (n mod 64))
        (if pad then String pad_char EmptyString else EmptyString)))
  | String a (String b (String c r)) =>
      let n := (byte_n a * 256 + byte_n b) * 256 + byte_n c in
      String (e (n / 262144)) (String (e ((n / 4096) mod 64))
        (String (e ((n / 64) mod 64)) (String (e (n mod 64)) (b64_encode url pad r))))
  end.

(** Decoding skips carriage returns and newlines anywhere. *)
Fixpoint strip_crlf (s : string) : string :=
  match s with
  | EmptyString => EmptyString
  | String c r =>
      if ((byte_n c =? 10) || (byte_n c =? 13))%N then strip_crlf r else String c (strip_crlf r)
  end.

Fixpoint b64_decode_go (url pad : bool) (s : string) : option string :=
  let v := b64_val url in
  match s with
  | EmptyString => Some EmptyString
  | String c0 (String c1 EmptyString) =>
      if pad then None else
      d0 ← v c0; d1 ← v c1;
      Some (String (chr ((d0 * 64 + d1) / 16)) EmptyString)
  | String c0 (String c1 (String c2 EmptyString)) =>
      if pad then None else
      d0 ← v c0; d1 ← v c1; d2 ← v c2;
      let n := ((d0 * 64 + d1) * 64 + d2) / 4 in
      Some (String (chr (n / 256)) (String (chr (n mod 256)) EmptyString))
  | String c0 (String c1 (String c2 (String c3 r))) =>
      d0 ← v c0; d1 ← v c1;
      if pad && Ascii.eqb c2 pad_char then
        if Ascii.eqb c3 pad_char then
          match r with
          | EmptyString => Some (String (chr ((d0 * 64 + d1) / 16)) EmptyString)
          | _ => None
          end
        else None
      else
        d2 ← v c2;
        if pad && Ascii.eqb c3 pad_char then
          match r with
          | EmptyString =>
              let n := ((d0 * 64 + d1) * 64 + d2) / 4 in
              Some (String (chr (n / 256)) (String (chr (n mod 256)) EmptyString))
          | _ => None
          end
        else
          d3 ← v c3;
          let n := ((d0 * 64 + d1) * 64 + d2) * 64 + d3 in
          rest ← b64_decode_go url pad r;
          Some (String (chr (n / 65536)) (String (chr ((n / 256) mod 256)) (String (chr (n mod 256)) rest)))
  | String _ EmptyString => None
  end.

(** [DecodeString]. *)
Definition b64_decode (url pad : bool) (s : string) : option string :=
  b64_decode_go url pad (strip_crlf s).

(** ** SHA-256 *)
Definition w32 (n : N) : N := n mod 4294967296.
Definition rotr (k x : N) : N := N.lor (N.shiftr x k) (w32 (N.shiftl x (32 - k))).
Definition not32 (x : N) : N := 4294967295 - x.

(** The first [n] primes, by trial division. *)
Definition is_prime (p : N) : bool :=
  forallb (λ d, negb (p mod N.of_nat d =? 0)) (seq 2 (N.to_nat (N.sqrt p) - 1)).
Definition first_primes (n : nat) : list N :=
  take n (List.filter is_prime (map N.of_nat (seq 2 400))).

(** The integer cube root, by bisection on its bits from the highest down. *)
Fixpoint cbrt_bits (k : nat) (r n : N) : N :=
  match k with
  | O => r
  | S k => let t := r + 2 ^ N.of_nat k in cbrt_bits k (if t * t * t <=? n then t else r) n
  end.

(** The round constants are the first 32 bits of the fractional parts of the cube
    roots of the first 64 primes, the initial state those of the square roots of the
    first eight. *)
Definition sha_k : list N :=
  Eval vm_compute in map (λ p, w32 (cbrt_bits 36 0 (p * 2 ^ 96))) (first_primes 64).
Definition sha_iv : list N :=
  Eval vm_compute in map (λ p, w32 (N.sqrt (p * 2 ^ 64))) (first_primes 8).

Fixpoint bytes_of (s : string) : list N :=
  match s with EmptyString => [] | String c r => byte_n c :: bytes_of r end.
Fixpoint string_of (l : list N) : string :=
  match l with [] => EmptyString | n :: l => String (chr n) (string_of l) end.

Fixpoint be_bytes (k : nat) (n : N) : list N :=
  match k with O => [] | S k => be_bytes k (n / 256) ++ [n mod 256] end.

(** Padding: a one bit, zeros up to 56 modulo 64, the bit length on 8 bytes. *)
Definition sha_pad (m : list N) : list N :=
  let l := N.of_nat (length m) in
  let z := (119 - l mod 64) mod 64 in
  m ++ [128] ++ replicate (N.to_nat z) 0 ++ be_bytes 8 (8 * l).

Fixpoint words_of (l : list N) : list N :=
  match l with
  | a :: b :: c :: d :: r => (((a * 256 + b) * 256 + c) * 256 + d) :: words_of r
  | _ => []
  end.

Definition ssig0 x := N.lxor (N.lxor (rotr 7 x) (rotr 18 x)) (N.shiftr x 3).
Definition ssig1 x := N.lxor (N.lxor (rotr 17 x) (rotr 19 x)) (N.shiftr x 10).
Definition bsig0 x := N.lxor (N.lxor (rotr 2 x) (rotr 13 x)) (rotr 22 x).
Definition bsig1 x := N.lxor (N.lxor (rotr 6 x) (rotr 11 x)) (rotr 25 x).

(** The message schedule, newest word first. *)
Fixpoint schedule (n : nat) (rw : list N) : list N :=
  match n with
  | O => rw
  | S n =>
      let g i := nth i rw 0 in
      schedule n (w32 (ssig1 (g 1%nat) + g 6%nat + ssig0 (g 14%nat) + g 15%nat) :: rw)
  end.

Definition sha_round (st : list N) (kw : N * N) : list N :=
  match st with
  | [a; b; c; d; e; f; g; h] =>
      let ch := N.lxor (N.land e f) (N.land (not32 e) g) in
      let maj := N.lxor (N.lxor (N.land a b) (N.land a c)) (N.land b c) in
      let t1 := h + bsig1 e + ch + fst kw + snd kw in
      let t2 := bsig0 a + maj in
      [w32 (t1 + t2); a; b; c; w32 (d + t1); e; f; g]
  | _ => st
  end.

Definition sha_block (st : list N) (block : list N) : list N :=
  let w := rev (schedule 48 (rev (words_of block))) in
  zip_with (λ x y, w32 (x + y)) st (foldl sha_round st (zip sha_k w)).

Fixpoint sha_blocks (fuel : nat) (st m : list N) : list N :=
  match fuel, m with
  | S f, _ :: _ => sha_blocks f (sha_block st (take 64 m)) (drop 64 m)
  | _, _ => st
  end.

(** [sha256.Sum256] on bytes. *)
Definition sha256_bytes (m : list N) : list N :=
  let p := sha_pad m in
  concat (map (be_bytes 4) (sha_blocks (length p) sha_iv p)).

Definition sha256 (s : string) : string := string_of (sha256_bytes (bytes_of s)).

(** [hmac.New(sha256.New, key)]: keys longer than a block are hashed first. *)
Definition hmac_sha256 (key msg : string) : string :=
  let k := bytes_of key in
  let k := if (64 <? length k)%nat then sha256_bytes k else k in
  let k := k ++ replicate (64 - length k) 0 in
  let x v := map (λ b, N.lxor b v) k in
  string_of (sha256_bytes (x 0x5c ++ sha256_bytes (x 0x36 ++ bytes_of msg))).

Example sha256_abc :
  hex_encode (sha256 "abc") = "ba7816bf8f01cfea414140de5dae2223b00361a396177a9cb410ff61f20015ad".
Proof. vm_compute. reflexivity. Qed.

Example hmac_rfc4231_2 :
  hex_encode (hmac_sha256 "Jefe" "what do ya want for nothing?")
  = "5bdcc146bf60754e6a042426089575c75a003f089d2739839dec58b964ec3843".
Proof. vm_compute. reflexivity. Qed.

(** ** Base64 round trip *)
Lemma b64_val_char url d : (d < 64)%N → b64_val url (b64_char url d) = Some d.
Proof.
  intros Hd.
  assert (H : (match b64_val url (b64_char url d) with
               | Some x => (x =? d)%N | None => false end) = true).
  { revert d Hd. apply (N_forall_below 64 (λ d, match b64_val url (b64_char url d) with
               | Some x => (x =? d)%N | None => false end)).
    by destruct url; vm_compute. }
  destruct (b64_val _ _); [|done]. apply N.eqb_eq in H. by subst.
Qed.

Lemma b64_char_plain url d :
  (d < 64)%N → Ascii.eqb (b64_char url d) pad_char = false
             ∧ ((byte_n (b64_char url d) =? 10) || (byte_n (b64_char url d) =? 13))%N = false.
Proof.
  intros Hd.
  assert (H : (negb (Ascii.eqb (b64_char url d) pad_char)
     && negb ((byte_n (b64_char url d) =? 10) || (byte_n (b64_char url d) =? 13)))%N = true).
  { revert d Hd. apply (N_forall_below 64 (λ d, (negb (Ascii.eqb (b64_char url d) pad_char)
     && negb ((byte_n (b64_char url d) =? 10) || (byte_n (b64_char url d) =? 13)))%N)).
    by destruct url; vm_compute. }
  seqb_simpl. by rewrite orb_false_iff.
Qed.

Lemma strip_crlf_char url d s :
  (d < 64)%N → strip_crlf (String (b64_char url d) s) = String (b64_char url d) (strip_crlf s).
Proof. intros Hd. cbn [strip_crlf]. by rewrite (proj2 (b64_char_plain url d Hd)). Qed.

Lemma b64_char_pad url d : (d < 64)%N → Ascii.eqb (b64_char url d) pad_char = false.
Proof. intros Hd. apply (b64_char_plain url d Hd). Qed.

(** Every sextet the encoder emits is below 64. *)
Ltac bytes_bound :=
  repeat match goal with
  | |- context [byte_n ?a] =>
      lazymatch goal with
      | H : (byte_n a < 256)%N |- _ => fail
      | _ => pose proof (byte_n_lt a)
      end
  end.
Ltac sextet :=
  bytes_bound;
  first [apply N.mod_lt; lia | apply N.Div0.div_lt_upper_bound; lia].

Lemma strip_crlf_encode url pad s : strip_crlf (b64_encode url pad s) = b64_encode url pad s.
Proof.
  induction s as [|a|a b|a b c r IH] using string_ind3; [done|..];
    cbn [b64_encode]; rewrite !strip_crlf_char by sextet; rewrite ?IH; by destruct pad.
Qed.

Lemma recompose n : (n / 64 * 64 + n mod 64 = n)%N.
Proof. rewrite N.mul_comm. symmetry. apply N.Div0.div_mod. Qed.

(** Recombining the sextets of one, two or three bytes gives the bytes back. *)
Lemma sextets1 x : (x < 256)%N → ((x * 16 / 64 * 64 + (x * 16) mod 64) / 16 = x)%N.
Proof.
  intros. by rewrite recompose, N.div_mul.
Qed.

Lemma sextets2 n :
  (((n * 4 / 4096 * 64 + (n * 4 / 64) mod 64) * 64 + (n * 4) mod 64) / 4 = n)%N.
Proof.
  replace (n * 4 / 4096)%N with (n * 4 / 64 / 64)%N by (rewrite N.Div0.div_div; done).
  by rewrite !recompose, N.div_mul.
Qed.

Lemma sextets3 n :
  ((((n / 262144 * 64 + (n / 4096) mod 64) * 64) + (n / 64) mod 64) * 64 + n mod 64 = n)%N.
Proof.
  replace (n / 262144)%N with (n / 64 / 64 / 64)%N by (rewrite !N.Div0.div_div; done).
  replace (n / 4096)%N with (n / 64 / 64)%N by (rewrite !N.Div0.div_div; done).
  by rewrite !recompose.
Qed.

Lemma two_bytes a b :
  chr ((byte_n a * 256 + byte_n b) / 256) = a ∧ chr ((byte_n a * 256 + byte_n b) mod 256) = b.
Proof.
  bytes_bound. rewrite N.div_add_l, N.div_small, N.add_0_r by lia.
  rewrite N.add_comm, N.Div0.mod_add, N.mod_small by lia.
  by rewrite !chr_byte_n.
Qed.

Lemma three_bytes a b c :
  let n := ((byte_n a * 256 + byte_n b) * 256 + byte_n c)%N in
  chr (n / 65536) = a ∧ chr ((n / 256) mod 256) = b ∧ chr (n mod 256) = c.
Proof.
  bytes_bound. cbn zeta.
  replace 65536%N with (256 * 256)%N by done. rewrite <- N.Div0.div_div.
  rewrite (N.div_add_l _ 256 (byte_n c)), (N.div_small (byte_n c)), N.add_0_r by lia.
  destruct (two_bytes a b) as [-> ->].
  rewrite N.add_comm, N.Div0.mod_add, N.mod_small by lia.
  by rewrite !chr_byte_n.
Qed.

(** Decoding inverts encoding, with and without padding, on either alphabet. *)
Lemma b64_roundtrip url pad s : b64_decode url pad (b64_encode url pad s) = Some s.
Proof.
  unfold b64_decode. rewrite strip_crlf_encode.
  induction s as [|a|a b|a b c r IH] using string_ind3; [done|..]; cbn [b64_encode].
  - destruct pad; cbn [b64_decode_go andb];
      rewrite !b64_val_char by sextet; cbn -[b64_val N.div N.modulo chr];
      by rewrite sextets1, chr_byte_n by apply byte_n_lt.
  - destruct pad; cbn [b64_decode_go andb];
      rewrite ?b64_char_pad by sextet;
      rewrite !b64_val_char by sextet; cbn -[b64_val N.div N.modulo chr];
      rewrite sextets2; by destruct (two_bytes a b) as [-> ->].
  - cbn [b64_decode_go]. rewrite !b64_char_pad, !andb_false_r by sextet.
    rewrite !b64_val_char by sextet. cbn -[b64_val N.div N.modulo chr b64_encode b64_decode_go].
    rewrite IH. cbn -[N.div N.modulo chr]. rewrite sextets3.
    by destruct (three_bytes a b c) as (-> & -> & ->).
Qed.
