(* ===== verification/HttpModel.v ===== *)
(** * The part of [net/http] and [net/url] the sources rely on

    Header maps with canonical keys, requests as a server hands them to a handler,
    outgoing requests, cookies, and the response writer's observable events. *)
From S2P Require Import Prelude GoStrings.

(** ** Header keys ([http.CanonicalHeaderKey]) *)
Definition is_token_byte (c : ascii) : bool :=
  is_digit c || is_upper c || is_lower c || mem_byte c "!#$%&'*+-.^_`|~".

Fixpoint canon_go (up : bool) (s : string) : string :=
  match s with
  | EmptyString => EmptyString
  | String c r =>
      String (if up then upper_char c else lower_char c) (canon_go (Ascii.eqb c "-") r)
  end.

(** A key with a byte that is no token byte is returned unchanged. *)
Definition canonical_header_key (s : string) : string :=
  if str_forallb is_token_byte s then canon_go true s else s.

(** ** [http.Header]: a map from key to its values *)
Abbreviation header := (gmap string (list string)).

Definition hdr_get (h : header) (k : string) : string :=
  match h !! canonical_header_key k with
  | Some (v :: _) => v
  | _ => ""
  end.
Definition hdr_set (k v : string) (h : header) : header := <[canonical_header_key k := [v]]> h.
Definition hdr_add (k v : string) (h : header) : header :=
  <[canonical_header_key k := from_opt [] (h !! canonical_header_key k) ++ [v]]> h.

(** ** URLs ([net/url])

    A URL as [url.Parse] splits it; [url_user] is the encoded userinfo. *)
Record url : Type := Url {
  url_scheme : string;
  url_opaque : string;
  url_user : string;
  url_host : string;
  url_path : string;
  url_rawpath : string;
  url_rawquery : string;
  url_forcequery : bool;
  url_fragment : string }.

Definition is_alnum (c : ascii) : bool := is_digit c || is_upper c || is_lower c.

(** [shouldEscape] for a path. *)
Definition should_escape_path (c : ascii) : bool :=
  negb (is_alnum c || mem_byte c "-_.~$&+,/:;=@").

Definition upper_hex (n : N) : ascii := if (n <? 10)%N then chr (48 + n) else chr (55 + n).

Fixpoint escape_path (s : string) : string :=
  match s with
  | EmptyString => EmptyString
  | String c r =>
      if should_escape_path c
      then String "%" (String (upper_hex (byte_n c / 16)) (String (upper_hex (byte_n c mod 16)) (escape_path r)))
      else String c (escape_path r)
  end.

(** [unescape] of a path: every percent sign starts two hex digits. *)
Fixpoint unescape_path (s : string) : option string :=
  match s with
  | EmptyString => Some EmptyString
  | String c r =>
      if Ascii.eqb c "%" then
        match r with
        | String h1 (String h2 r2) =>
            match hex_val h1, hex_val h2 with
            | Some x, Some y => t ← unescape_path r2; Some (String (chr (x * 16 + y)%N) t)
            | _, _ => None
            end
        | _ => None
        end
      else t ← unescape_path r; Some (String c t)
  end.

(** [validEncoded] for a path. *)
Definition valid_encoded_path (s : string) : bool :=
  str_forallb (λ c, mem_byte c "!$&'()*+,;=:@[]%" || negb (should_escape_path c)) s.

(** [URL.EscapedPath] *)
Definition escaped_path (u : url) : string :=
  if negb (url_rawpath u =?s "") && valid_encoded_path (url_rawpath u)
     && match unescape_path (url_rawpath u) with Some p => p =?s url_path u | None => false end
  then url_rawpath u
  else if url_path u =?s "*" then "*" else escape_path (url_path u).

(** [URL.RequestURI] *)
Definition request_uri (u : url) : string :=
  let r := if url_opaque u =?s "" then
             (if escaped_path u =?s "" then "/" else escaped_path u)
           else if has_prefix "//" (url_opaque u) then url_scheme u +:+ ":" +:+ url_opaque u
           else url_opaque u in
  if url_forcequery u || negb (url_rawquery u =?s "") then r +:+ "?" +:+ url_rawquery u else r.

(** [URL.String] of a URL with a scheme or a host. *)
Definition url_string (u : url) : string :=
  let scheme := if url_scheme u =?s "" then "" else url_scheme u +:+ ":" in
  let body :=
    if negb (url_opaque u =?s "") then url_opaque u else
    let authority :=
      if (url_scheme u =?s "") && (url_host u =?s "") && (url_user u =?s "") then ""
      else if (url_host u =?s "") && (url_path u =?s "") && (url_user u =?s "") then ""
      else "//" +:+ (if url_user u =?s "" then "" else url_user u +:+ "@") +:+ url_host u in
    let p := escaped_path u in
    authority +:+ (if negb (p =?s "") && negb (has_prefix "/" p) && negb (url_host u =?s "") then "/" else "")
    +:+ p in
  scheme +:+ body
  +:+ (if url_forcequery u || negb (url_rawquery u =?s "") then "?" +:+ url_rawquery u else "")
  +:+ (if url_fragment u =?s "" then "" else "#" +:+ url_fragment u).

(** A request a server receives. [req_body] is what reading the body gives: its
    bytes, or a read error. [req_cookies] are the parsed [Cookie] pairs in order and
    [req_form] the parsed form ([ParseForm] has run only where the code calls it). *)
Record request : Type := Request {
  req_method : string;
  req_url : url;
  req_host : string;
  req_remote_addr : string;
  req_tls : bool;
  req_header : header;
  req_form : gmap string (list string);
  req_cookies : list (string * string);
  req_body : go_result string }.

(** [Request.Cookie]: the value of the first cookie with the name. *)
Definition req_cookie (r : request) (name : string) : option string :=
  snd <$> find_first (λ c, fst c =?s name) (req_cookies r).

(** An outgoing request; its body is what reading it gives. *)
Record out_request : Type := OutRequest {
  or_method : string;
  or_url : string;
  or_header : header;
  or_body : go_result string }.

(** A response as a client's [Do] returns it. [resp_body] is what reading the body
    gives: the bytes read and, when the stream breaks, the error. *)
Record response : Type := Response {
  resp_status : Z;
  resp_header : header;
  resp_body : string;
  resp_body_err : option string }.

(** [io.ReadAll(io.LimitReader(body, limit))]: at most [limit] bytes (none when the
    limit is not positive); the error surfaces only if it is reached before the
    limit. *)
Definition read_limited (limit : Z) (r : response) : go_result string :=
  if (limit <=? Z.of_nat (String.length (resp_body r)))%Z
  then Ok (str_take (Z.to_nat limit) (resp_body r))
  else match resp_body_err r with Some e => Err e | None => Ok (resp_body r) end.

Inductive same_site : Type := SameSiteDefault | SameSiteLax | SameSiteStrict.
#[global] Instance same_site_eq_dec : EqDecision same_site.
Proof. solve_decision. Defined.

(** [http.Cookie], the fields the sources set. *)
Record set_cookie : Type := SetCookie {
  sc_name : string;
  sc_value : string;
  sc_path : string;
  sc_maxage : Z;
  sc_httponly : bool;
  sc_secure : bool;
  sc_samesite : same_site }.
#[global] Instance set_cookie_eq_dec : EqDecision set_cookie.
Proof. solve_decision. Defined.

(** ** Lemmas *)
Lemma token_upper c : is_token_byte c = true → is_token_byte (upper_char c) = true.
Proof.
  apply implb_true_iff. revert c.
  apply (ascii_forall (λ c, implb (is_token_byte c) (is_token_byte (upper_char c)))). by vm_compute.
Qed.
Lemma token_lower c : is_token_byte c = true → is_token_byte (lower_char c) = true.
Proof.
  apply implb_true_iff. revert c.
  apply (ascii_forall (λ c, implb (is_token_byte c) (is_token_byte (lower_char c)))). by vm_compute.
Qed.
Lemma dash_case c u :
  Ascii.eqb (if u : bool then upper_char c else lower_char c) "-" = Ascii.eqb c "-".
Proof.
  apply eqb_prop.
  destruct u; revert c;
    [apply (ascii_forall (λ c, Bool.eqb (Ascii.eqb (upper_char c) "-") (Ascii.eqb c "-")))
    |apply (ascii_forall (λ c, Bool.eqb (Ascii.eqb (lower_char c) "-") (Ascii.eqb c "-")))];
    by vm_compute.
Qed.
Lemma case_idem c (u : bool) :
  (if u then upper_char (if u then upper_char c else lower_char c)
   else lower_char (if u then upper_char c else lower_char c))
  = if u then upper_char c else lower_char c.
Proof.
  apply Ascii.eqb_eq. destruct u; revert c;
    [apply (ascii_forall (λ c, Ascii.eqb (upper_char (upper_char c)) (upper_char c)))
    |apply (ascii_forall (λ c, Ascii.eqb (lower_char (lower_char c)) (lower_char c)))];
    by vm_compute.
Qed.

Lemma canon_go_token u s :
  str_forallb is_token_byte s = true → str_forallb is_token_byte (canon_go u s) = true.
Proof.
  revert u. induction s as [|c s IH]; intros u; cbn; [done|].
  rewrite !andb_true_iff. intros [Hc Hs].
  split; [destruct u; auto using token_upper, token_lower | auto].
Qed.

Lemma canon_go_idem u s : canon_go u (canon_go u s) = canon_go u s.
Proof.
  revert u. induction s as [|c s IH]; intros u; cbn; [done|].
  by rewrite case_idem, dash_case, IH.
Qed.

Lemma canonical_idem s : canonical_header_key (canonical_header_key s) = canonical_header_key s.
Proof.
  unfold canonical_header_key. destruct (str_forallb is_token_byte s) eqn:E.
  - by rewrite canon_go_token, canon_go_idem.
  - by rewrite E.
Qed.

Lemma hex_val_upper n : (n < 16)%N → hex_val (upper_hex n) = Some n.
Proof.
  intros Hn. apply (bool_decide_eq_true _). revert n Hn.
  by apply (N_forall_below 16 (λ n, bool_decide (hex_val (upper_hex n) = Some n))); vm_compute.
Qed.

Lemma hdr_get_set k v h : hdr_get (hdr_set k v h) k = v.
Proof. unfold hdr_get, hdr_set. by rewrite lookup_insert_eq. Qed.

Lemma hdr_get_set_ne k k' v h :
  canonical_header_key k ≠ canonical_header_key k' → hdr_get (hdr_set k v h) k' = hdr_get h k'.
Proof. intros H. unfold hdr_get, hdr_set. by rewrite lookup_insert_ne. Qed.

#[export] Hint Rewrite canonical_idem hdr_get_set : goway_rw.
