(* ===== verification/Config.v ===== *)
(** * Gateway configuration (internal/config/config.go)

    The configuration records, the defaults, validation, and the [DataSize] and
    [Duration] scalars. YAML decoding itself is [gopkg.in/yaml.v3]: [load] takes the
    decoder as a parameter that merges a file into the default configuration. Error
    messages are kept up to their formatted operands. *)
From S2P Require Import Prelude GoStrings GoNumeric.

#[local] Open Scope Z_scope.

(** ** Records. A [Duration] is its nanoseconds, a [DataSize] its bytes; [None] is a
    nil map. *)
Record ProxyConfig : Type := mkProxyConfig {
  px_Port : Z; ResponseSize : Z; RequestTimeout : Z; PropagateErrors : bool }.
Record AdminConfig : Type := mkAdminConfig { ad_Port : Z }.
Record MonitorConfig : Type := mkMonitorConfig {
  Interval : Z; CheckTimeout : Z; RefreshInterval : Z; StatsTimeout : Z; Retries : Z;
  MetricsEndpoint : string; RunningQueriesMetricName : string; QueuedQueriesMetricName : string;
  MetricMinimumValues : option (gmap string f64); MetricMaximumValues : option (gmap string f64) }.
Record DBConfig : Type := mkDBConfig { Driver : string; DSN : string; AutoMigrate : bool }.
Record ExternalConfig : Type := mkExternalConfig {
  ext_URL : string; GRPCAddr : string; Timeout : Z; ExcludeHeaders : list string }.
Record RoutingConfig : Type := mkRoutingConfig {
  DefaultGroup : string; rt_Type : string; External : ExternalConfig }.
Record AuthorizationConfig : Type := mkAuthorizationConfig {
  AdminRegex : string; UserRegex : string; APIRegex : string;
  PagePermissions : gmap string string }.
Record OIDCConfig : Type := mkOIDCConfig {
  IssuerURL : string; ClientID : string; ClientSecret : string; JWKSURL : string; JWKSTTLSecs : Z;
  Scopes : list string; RedirectURL : string; AuthorizationEndpoint : string; TokenEndpoint : string }.
Record LDAPConfig : Type := mkLDAPConfig {
  ldap_URL : string; BindDN : string; BindPass : string; UserBase : string; UserAttr : string }.
Record AuthConfig : Type := mkAuthConfig {
  au_Type : string; OIDC : OIDCConfig; LDAP : LDAPConfig; Authorization : AuthorizationConfig }.
Record CookieConfig : Type := mkCookieConfig { Secret : string; TTL : Z; WireCompat : bool }.
Record MetricsConfig : Type := mkMetricsConfig { Enabled : bool; mt_Path : string }.
Record UIConfig : Type := mkUIConfig { DisablePages : list string }.
Record ClusterStatsConfig : Type := mkClusterStatsConfig { MonitorType : string }.
Record BackendStateConfig : Type := mkBackendStateConfig {
  Username : string; Password : string; SSL : bool; XForwardedProtoHeader : bool }.
Record Config : Type := mkConfig {
  Proxy : ProxyConfig; Admin : AdminConfig; Monitor : MonitorConfig; DB : DBConfig;
  Routing : RoutingConfig; Auth : AuthConfig; Cookie : CookieConfig; Metrics : MetricsConfig;
  UI : UIConfig; ClusterStats : ClusterStatsConfig; BackendState : BackendStateConfig }.

(** ** Scalars *)

(** [Duration.UnmarshalYAML] on the decoded scalar. *)
Definition Duration_UnmarshalYAML (s : string) : go_result Z :=
  match parse_duration s with
  | Some d => Ok d
  | None => Err "config: duration: parse"
  end.

(** The groups of [dataSizePattern]: digits with an optional fraction, blanks, letters. *)
Definition is_alpha (c : ascii) : bool := is_upper c || is_lower c.
Definition is_re_space (c : ascii) : bool :=
  ((byte_n c =? 9) || (byte_n c =? 10) || (byte_n c =? 12) || (byte_n c =? 13) || (byte_n c =? 32))%N.

Definition dataSizePattern (s : string) : option (string * string * string) :=
  match digits_run s with
  | (EmptyString, _) => None
  | (int, r) =>
      let '(frac, r) :=
        match r with
        | String c r1 =>
            if Ascii.eqb c "." then
              match digits_run r1 with
              | (EmptyString, _) => (EmptyString, r)
              | fr => fr
              end
            else (EmptyString, r)
        | EmptyString => (EmptyString, r)
        end in
      let unit := drop_while is_re_space r in
      if str_forallb is_alpha unit then Some (int, frac, unit) else None
  end.

Definition unit_multiplier (unit : string) : option Z :=
  if (unit =?s "") || (unit =?s "B") then Some 1
  else if unit =?s "KB" then Some 1000
  else if unit =?s "KiB" then Some 1024
  else if unit =?s "MB" then Some 1000000
  else if unit =?s "MiB" then Some 1048576
  else if unit =?s "GB" then Some 1000000000
  else if unit =?s "GiB" then Some 1073741824
  else None.

(** [DataSize.UnmarshalYAML] on the decoded scalar: the size in bytes. *)
Definition DataSize_UnmarshalYAML (s : string) : go_result Z :=
  match dataSizePattern (trim_space s) with
  | None => Err "config: dataSize: invalid format"
  | Some (int, frac, unit) =>
      let num := f64_of_dec false (dec_val 0 (int +:+ frac)) (- Z.of_nat (String.length frac)) in
      if f64_is_inf num then Err "config: dataSize: parse number"
      else match unit_multiplier unit with
           | None => Err "config: dataSize: unknown unit"
           | Some m => Ok (f64_to_int64 (f64_mul num (f64_of_Z m)))
           end
  end.

(** ** Defaults *)
Definition defaultRunningQueriesMetricName := "trino_execution_name_QueryManager_RunningQueries".
Definition defaultQueuedQueriesMetricName := "trino_execution_name_QueryManager_QueuedQueries".
Definition defaultActiveNodeCountMetric := "trino_metadata_name_DiscoveryNodeManager_ActiveNodeCount".

Definition defaultConfig : Config :=
  mkConfig
    (mkProxyConfig 8080 1048576 (30 * Second) false)
    (mkAdminConfig 8090)
    (mkMonitorConfig (30 * Second) (5 * Second) (15 * Second) (10 * Second) 0 "/metrics"
       defaultRunningQueriesMetricName defaultQueuedQueriesMetricName None None)
    (mkDBConfig "" "" true)
    (mkRoutingConfig "" "EXTERNAL" (mkExternalConfig "" "" (1 * Second) []))
    (mkAuthConfig "NOOP" (mkOIDCConfig "" "" "" "" 300 [] "" "" "") (mkLDAPConfig "" "" "" "" "uid")
       (mkAuthorizationConfig "" "" "" ∅))
    (mkCookieConfig "" (10 * Minute) true)
    (mkMetricsConfig true "/metrics")
    (mkUIConfig [])
    (mkClusterStatsConfig "INFO_API")
    (mkBackendStateConfig "" "" false false).

(** A zero field takes its default. *)
Definition zor (d z : Z) : Z := if z =? 0 then d else z.
Definition sor (d s : string) : string := if s =?s "" then d else s.
Definition oor {A} (d : A) (o : option A) : option A :=
  match o with None => Some d | Some _ => o end.

Definition applyDefaults (c : Config) : Config :=
  let p := Proxy c in let m := Monitor c in let r := Routing c in let e := External r in
  let a := Auth c in let o := OIDC a in let l := LDAP a in
  mkConfig
    (mkProxyConfig (zor 8080 (px_Port p)) (zor 1048576 (ResponseSize p))
       (zor (30 * Second) (RequestTimeout p)) (PropagateErrors p))
    (mkAdminConfig (zor 8090 (ad_Port (Admin c))))
    (mkMonitorConfig (zor (30 * Second) (Interval m)) (zor (5 * Second) (CheckTimeout m))
       (zor (15 * Second) (RefreshInterval m)) (zor (10 * Second) (StatsTimeout m)) (Retries m)
       (sor "/metrics" (MetricsEndpoint m))
       (sor defaultRunningQueriesMetricName (RunningQueriesMetricName m))
       (sor defaultQueuedQueriesMetricName (QueuedQueriesMetricName m))
       (oor {[defaultActiveNodeCountMetric := f64_of_Z 1]} (MetricMinimumValues m))
       (oor ∅ (MetricMaximumValues m)))
    (DB c)
    (mkRoutingConfig (DefaultGroup r) (sor "EXTERNAL" (rt_Type r))
       (mkExternalConfig (ext_URL e) (GRPCAddr e) (zor (1 * Second) (Timeout e)) (ExcludeHeaders e)))
    (mkAuthConfig (sor "NOOP" (au_Type a))
       (mkOIDCConfig (IssuerURL o) (ClientID o) (ClientSecret o) (JWKSURL o) (zor 300 (JWKSTTLSecs o))
          (Scopes o) (RedirectURL o) (AuthorizationEndpoint o) (TokenEndpoint o))
       (mkLDAPConfig (ldap_URL l) (BindDN l) (BindPass l) (UserBase l) (sor "uid" (UserAttr l)))
       (Authorization a))
    (mkCookieConfig (Secret (Cookie c)) (zor (10 * Minute) (TTL (Cookie c))) (WireCompat (Cookie c)))
    (mkMetricsConfig (Enabled (Metrics c)) (sor "/metrics" (mt_Path (Metrics c))))
    (UI c)
    (mkClusterStatsConfig (sor "INFO_API" (MonitorType (ClusterStats c))))
    (BackendState c).

(** ** Validation *)
Definition validateClusterStats (c : Config) : go_result unit :=
  let t := MonitorType (ClusterStats c) in
  let rest :=
    if StatsTimeout (Monitor c) <? 0 then Err "config: validate: monitor.statsTimeout must be > 0, got"
    else if RefreshInterval (Monitor c) <? 0 then Err "config: validate: monitor.refreshInterval must be > 0, got"
    else if Retries (Monitor c) <? 0 then Err "config: validate: monitor.retries must be >= 0, got"
    else Ok tt in
  if (t =?s "") || (t =?s "NOOP") || (t =?s "INFO_API") then rest
  else if (t =?s "UI_API") || (t =?s "METRICS") then
    if Username (BackendState c) =?s ""
    then Err "config: validate: backendState.username must be non-empty when clusterStats.monitorType is"
    else rest
  else if (t =?s "JDBC") || (t =?s "JMX") then Err "config: validate: clusterStats.monitorType not supported in v1"
  else Err "config: validate: clusterStats.monitorType must be one of NOOP, INFO_API, UI_API, METRICS, got".

Definition Validate (c : Config) : go_result unit :=
  if px_Port (Proxy c) =? ad_Port (Admin c) then
    Err "config: validate: proxy.port and admin.port must differ, both are"
  else if ResponseSize (Proxy c) <=? 0 then Err "config: validate: proxy.responseSize must be > 0, got"
  else if negb (Driver (DB c) =?s "") && negb (Driver (DB c) =?s "postgres")
          && negb (Driver (DB c) =?s "mysql") then Err "config: validate: db.driver must be postgres or mysql, got"
  else if negb (rt_Type (Routing c) =?s "EXTERNAL") then Err "config: validate: routing.type must be EXTERNAL, got"
  else if (au_Type (Auth c) =?s "OIDC") && (JWKSURL (OIDC (Auth c)) =?s "") then
    Err "config: validate: auth.oidc.jwksUrl must be non-empty when auth.type is OIDC"
  else if Enabled (Metrics c) && negb (has_prefix "/" (mt_Path (Metrics c))) then
    Err "config: validate: metrics.path must start with /, got"
  else if (au_Type (Auth c) =?s "LDAP") && (ldap_URL (LDAP (Auth c)) =?s "") then
    Err "config: validate: auth.ldap.url must be non-empty when auth.type is LDAP"
  else if (au_Type (Auth c) =?s "LDAP") && (UserBase (LDAP (Auth c)) =?s "") then
    Err "config: validate: auth.ldap.userBase must be non-empty when auth.type is LDAP"
  else validateClusterStats c.

(** [Load]: read, decode over the defaults, apply defaults, validate. *)
Section load.
Context (read_file : string → go_result string) (yaml_unmarshal : string → Config → go_result Config).

Definition Load (path : string) : go_result Config :=
  match read_file path with
  | Err e => Err ("config: read: " +:+ e)
  | Ok data =>
      match yaml_unmarshal data defaultConfig with
      | Err e => Err ("config: unmarshal: " +:+ e)
      | Ok cfg => let cfg := applyDefaults cfg in '_ ← Validate cfg; Ok cfg
      end
  end.
End load.

(** ** What a loaded configuration guarantees *)
Record config_ok (c : Config) : Prop := {
  co_ports : px_Port (Proxy c) ≠ ad_Port (Admin c);
  co_size : 0 < ResponseSize (Proxy c);
  co_driver : Driver (DB c) ∈ [""; "postgres"; "mysql"];
  co_routing : rt_Type (Routing c) = "EXTERNAL";
  co_oidc : au_Type (Auth c) = "OIDC" → JWKSURL (OIDC (Auth c)) ≠ "";
  co_metrics : Enabled (Metrics c) = true → has_prefix "/" (mt_Path (Metrics c)) = true;
  co_ldap : au_Type (Auth c) = "LDAP" → ldap_URL (LDAP (Auth c)) ≠ "" ∧ UserBase (LDAP (Auth c)) ≠ "";
  co_monitor : MonitorType (ClusterStats c) ∈ [""; "NOOP"; "INFO_API"; "UI_API"; "METRICS"];
  co_backend_state : MonitorType (ClusterStats c) ∈ ["UI_API"; "METRICS"] →
    Username (BackendState c) ≠ "";
  co_stats : 0 ≤ StatsTimeout (Monitor c);
  co_refresh : 0 ≤ RefreshInterval (Monitor c);
  co_retries : 0 ≤ Retries (Monitor c) }.

Lemma validateClusterStats_spec c :
  validateClusterStats c = Ok tt ↔
  MonitorType (ClusterStats c) ∈ [""; "NOOP"; "INFO_API"; "UI_API"; "METRICS"]
  ∧ (MonitorType (ClusterStats c) ∈ ["UI_API"; "METRICS"] → Username (BackendState c) ≠ "")
  ∧ 0 ≤ StatsTimeout (Monitor c) ∧ 0 ≤ RefreshInterval (Monitor c) ∧ 0 ≤ Retries (Monitor c).
Proof.
  unfold validateClusterStats. set (t := MonitorType _). set (rest := if StatsTimeout _ <? 0 then _ else _).
  assert (Hrest : rest = Ok tt ↔ 0 ≤ StatsTimeout (Monitor c) ∧ 0 ≤ RefreshInterval (Monitor c)
                               ∧ 0 ≤ Retries (Monitor c)).
  { unfold rest. case_bools; split; try done; intros; try lia. }
  clearbody rest t. rewrite <- Hrest. set_unfold.
  case_bools; subst; split; intros; destruct_and?; split_and?; try done;
    repeat match goal with
    | H : (_ || _) = true |- _ => apply orb_true_iff in H as [H|H]
    end; seqb_simpl; subst; try set_solver; try naive_solver.
Qed.

Lemma Validate_ok c : Validate c = Ok tt ↔ config_ok c.
Proof.
  unfold Validate.
  destruct (px_Port (Proxy c) =? ad_Port (Admin c)) eqn:H1;
    [split; [done|intros []; lia]|].
  destruct (ResponseSize (Proxy c) <=? 0) eqn:H2; [split; [done|intros []; lia]|].
  destruct (negb (Driver (DB c) =?s "") && _ && _) eqn:H3.
  { split; [done|]. intros []. seqb_simpl. set_solver. }
  destruct (negb (rt_Type (Routing c) =?s "EXTERNAL")) eqn:H4.
  { split; [done|]. intros []. seqb_simpl. done. }
  destruct ((au_Type (Auth c) =?s "OIDC") && _) eqn:H5.
  { split; [done|]. intros []. seqb_simpl. naive_solver. }
  destruct (Enabled (Metrics c) && _) eqn:H6.
  { split; [done|]. intros []. seqb_simpl. naive_solver congruence. }
  destruct ((au_Type (Auth c) =?s "LDAP") && (ldap_URL _ =?s "")) eqn:H7.
  { split; [done|]. intros []. seqb_simpl. naive_solver. }
  destruct ((au_Type (Auth c) =?s "LDAP") && (UserBase _ =?s "")) eqn:H8.
  { split; [done|]. intros []. seqb_simpl. naive_solver. }
  rewrite validateClusterStats_spec. split; [|by intros []].
  intros (? & ? & ? & ? & ?). split; try done; try lia.
  - apply andb_false_iff in H3 as [[H3|H3]%andb_false_iff|H3]; seqb_simpl; rewrite H3; set_solver.
  - by seqb_simpl.
  - apply andb_false_iff in H5 as [H5|H5]; seqb_simpl; naive_solver.
  - apply andb_false_iff in H6 as [H6|H6]; [congruence|]. by apply negb_false_iff in H6.
  - apply andb_false_iff in H7 as [H7|H7], H8 as [H8|H8]; seqb_simpl; naive_solver.
Qed.

Lemma zor_idem d z : d ≠ 0 → zor d (zor d z) = zor d z.
Proof. unfold zor. intros. case_bools; lia. Qed.
Lemma sor_idem d s : d ≠ "" → sor d (sor d s) = sor d s.
Proof. unfold sor. intros. case_bools; congruence. Qed.
Lemma oor_idem {A} (d : A) o : oor d (oor d o) = oor d o.
Proof. by destruct o. Qed.

(** Defaults that are applied once are applied. *)
Lemma applyDefaults_idem c : applyDefaults (applyDefaults c) = applyDefaults c.
Proof.
  unfold applyDefaults. cbn -[zor sor oor].
  rewrite !zor_idem, !sor_idem, !oor_idem by (vm_compute; discriminate). done.
Qed.

(** Everything [Load] returns has passed validation, has its defaults filled in,
    and so satisfies what the other components rely on: distinct ports, a positive
    buffer limit, a supported driver and monitor, and the credentials each needs. *)
Theorem load_ok read_file yaml_unmarshal path c :
  Load read_file yaml_unmarshal path = Ok c →
  config_ok c ∧ applyDefaults c = c
  ∧ Interval (Monitor c) ≠ 0 ∧ CheckTimeout (Monitor c) ≠ 0 ∧ Timeout (External (Routing c)) ≠ 0
  ∧ TTL (Cookie c) ≠ 0 ∧ MetricMinimumValues (Monitor c) ≠ None.
Proof.
  unfold Load. destruct (read_file path) as [data|]; [|done].
  destruct (yaml_unmarshal data defaultConfig) as [cfg|]; [|done].
  destruct (Validate (applyDefaults cfg)) as [[]|] eqn:E; [|done]. intros H. cbn in H. simplify_eq.
  split; [by apply Validate_ok|]. split; [apply applyDefaults_idem|].
  assert (Hz : ∀ d z, d ≠ 0 → zor d z ≠ 0) by (intros d z Hd; unfold zor; case_bools; lia).
  split_and!; cbn -[zor oor]; [apply Hz; vm_compute; discriminate..|]. by destruct MetricMinimumValues.
Qed.

(** The shipped defaults load as they are. *)
Lemma load_ok_witness :
  let c := applyDefaults defaultConfig in
  config_ok c ∧ applyDefaults c = c
  ∧ Interval (Monitor c) ≠ 0 ∧ CheckTimeout (Monitor c) ≠ 0 ∧ Timeout (External (Routing c)) ≠ 0
  ∧ TTL (Cookie c) ≠ 0 ∧ MetricMinimumValues (Monitor c) ≠ None.
Proof.
  exact (load_ok (λ _, Ok "") (λ _ c, Ok c) "config.yaml" (applyDefaults defaultConfig) eq_refl).
Defined.

Example data_size_ex :
  DataSize_UnmarshalYAML "1MiB" = Ok 1048576 ∧ DataSize_UnmarshalYAML " 1.5 KB " = Ok 1500
  ∧ DataSize_UnmarshalYAML "512" = Ok 512 ∧ DataSize_UnmarshalYAML "-1B" = Err "config: dataSize: invalid format"
  ∧ DataSize_UnmarshalYAML "1kb" = Err "config: dataSize: unknown unit".
Proof. vm_compute. repeat split. Qed.
