(* ===== verification/KillQuery.v ===== *)
(** * KILL QUERY detection (internal/routing/router.go, [killQueryRE])

    The regular expression
    [(?i)KILL\s+QUERY\s+'([0-9]+_[0-9]+_[0-9]+_\w+)'] as a byte-level matcher with
    the engine's leftmost match. Case folding adds U+212A to [K] and, inside [\w],
    U+017F and U+212A; every repetition is followed by a byte outside its class, so
    the greedy match is the only one. [KillStmt] is the declarative reading. *)
From S2P Require Import Prelude GoStrings.

Definition is_space_re (c : ascii) : bool :=
  ((byte_n c =? 9) || (byte_n c =? 10) || (byte_n c =? 12) || (byte_n c =? 13) || (byte_n c =? 32))%N.
Definition is_word_re (c : ascii) : bool :=
  is_digit c || is_upper c || is_lower c || Ascii.eqb c "_".

(** UTF-8 of U+212A (Kelvin sign) and U+017F (long s). *)
Definition kelvin : string := String (chr 226) (String (chr 132) (String (chr 170) "")).
Definition long_s : string := String (chr 197) (String (chr 191) "").

(** One literal letter under [(?i)] (upper-case pattern letter [p]). *)
Definition match_letter (p : ascii) (s : string) : option string :=
  match s with
  | String c r =>
      if Ascii.eqb (upper_char c) p then Some r
      else if Ascii.eqb p "K" && has_prefix kelvin s then Some (str_drop 3 s)
      else None
  | EmptyString => None
  end.

Fixpoint match_word (w s : string) : option string :=
  match w with
  | EmptyString => Some s
  | String p w => r ← match_letter p s; match_word w r
  end.

(** A maximal run of bytes of a class. *)
Fixpoint run (p : ascii → bool) (s : string) : string * string :=
  match s with
  | String c r => if p c then let '(a, b) := run p r in (String c a, b) else (EmptyString, s)
  | EmptyString => (EmptyString, EmptyString)
  end.

Definition run1 (p : ascii → bool) (s : string) : option (string * string) :=
  match run p s with
  | (EmptyString, _) => None
  | ar => Some ar
  end.

(** A maximal run of [\w] under [(?i)]. *)
Fixpoint word_run (s : string) : string * string :=
  match s with
  | EmptyString => (EmptyString, EmptyString)
  | String c r =>
      if is_word_re c then let '(a, b) := word_run r in (String c a, b)
      else if Ascii.eqb c (chr 197) then
        match r with
        | String d r2 =>
            if Ascii.eqb d (chr 191) then let '(a, b) := word_run r2 in (long_s +:+ a, b)
            else (EmptyString, s)
        | EmptyString => (EmptyString, s)
        end
      else if Ascii.eqb c (chr 226) then
        match r with
        | String d (String e r3) =>
            if Ascii.eqb d (chr 132) && Ascii.eqb e (chr 170)
            then let '(a, b) := word_run r3 in (kelvin +:+ a, b)
            else (EmptyString, s)
        | _ => (EmptyString, s)
        end
      else (EmptyString, s)
  end.

Definition expect (b : ascii) (s : string) : option string :=
  match s with
  | String c r => if Ascii.eqb c b then Some r else None
  | EmptyString => None
  end.

(** The captured group: [[0-9]+_[0-9]+_[0-9]+_\w+]. *)
Definition match_id (s : string) : option (string * string) :=
  '(d1, r1) ← run1 is_digit s; r1 ← expect "_" r1;
  '(d2, r2) ← run1 is_digit r1; r2 ← expect "_" r2;
  '(d3, r3) ← run1 is_digit r2; r3 ← expect "_" r3;
  match word_run r3 with
  | (EmptyString, _) => None
  | (w, r4) => Some (d1 +:+ "_" +:+ d2 +:+ "_" +:+ d3 +:+ "_" +:+ w, r4)
  end.

(** A match that starts at the first byte: the captured group. *)
Definition match_here (s : string) : option string :=
  r1 ← match_word "KILL" s; '(_, r2) ← run1 is_space_re r1;
  r3 ← match_word "QUERY" r2; '(_, r4) ← run1 is_space_re r3;
  r5 ← expect "'" r4; '(id, r6) ← match_id r5;
  _ ← expect "'" r6; Some id.

(** [FindStringSubmatch]: the leftmost match. *)
Fixpoint find_kill (s : string) : option string :=
  match match_here s with
  | Some id => Some id
  | None => match s with String _ r => find_kill r | EmptyString => None end
  end.

(** [extractKillQueryID] *)
Definition extractKillQueryID (body : string) : string := from_opt "" (find_kill body).

(** ** Declarative reading of the pattern *)

(** Text equal to a word letter by letter, up to the folding of [(?i)]. *)
Inductive CiWord : string → string → Prop :=
| ci_nil : CiWord "" ""
| ci_letter p c w t : upper_char c = p → CiWord w t → CiWord (String p w) (String c t)
| ci_kelvin w t : CiWord w t → CiWord (String "K" w) (kelvin +:+ t).

Definition Run1 (p : ascii → bool) (s : string) : Prop := s ≠ "" ∧ str_forallb p s = true.

Inductive WordText : string → Prop :=
| wt_nil : WordText ""
| wt_word c t : is_word_re c = true → WordText t → WordText (String c t)
| wt_long_s t : WordText t → WordText (long_s +:+ t)
| wt_kelvin t : WordText t → WordText (kelvin +:+ t).

Definition QueryIdText (id : string) : Prop :=
  ∃ d1 d2 d3 w, id = d1 +:+ "_" +:+ d2 +:+ "_" +:+ d3 +:+ "_" +:+ w
    ∧ Run1 is_digit d1 ∧ Run1 is_digit d2 ∧ Run1 is_digit d3 ∧ w ≠ "" ∧ WordText w.

(** The text matches the whole pattern and captures the id. *)
Definition KillStmt (t id : string) : Prop :=
  ∃ kill s1 query s2, t = kill +:+ s1 +:+ query +:+ s2 +:+ "'" +:+ id +:+ "'"
    ∧ CiWord "KILL" kill ∧ Run1 is_space_re s1 ∧ CiWord "QUERY" query ∧ Run1 is_space_re s2
    ∧ QueryIdText id.

(** ** Soundness of the matcher *)
Lemma match_word_sound w s r : match_word w s = Some r → ∃ t, s = t +:+ r ∧ CiWord w t.
Proof.
  revert s r. induction w as [|p w IH]; intros s r; cbn.
  { intros. simplify_eq. exists "". split; [done | constructor]. }
  destruct (match_letter p s) as [r'|] eqn:E; [|done]. cbn. intros H.
  destruct (IH _ _ H) as (t & -> & Ht). unfold match_letter in E.
  destruct s as [|c s]; [done|]. destruct (Ascii.eqb (upper_char c) p) eqn:Hc.
  { apply Ascii.eqb_eq in Hc. simplify_eq. exists (String c t). split; [done | by constructor]. }
  destruct (Ascii.eqb p "K") eqn:Hp; [|done]. apply Ascii.eqb_eq in Hp as ->.
  destruct (has_prefix kelvin (String c s)) eqn:Hk; [|done].
  apply has_prefix_spec in Hk as [q Hq]. rewrite Hq in *.
  change 3%nat with (String.length kelvin) in E. cbn [andb] in E. rewrite str_drop_app in E.
  simplify_eq. exists (kelvin +:+ t). by rewrite str_app_assoc; split; [|constructor].
Qed.

Lemma run_sound p s a b : run p s = (a, b) →
  s = a +:+ b ∧ str_forallb p a = true ∧ match b with String c _ => p c = false | "" => True end.
Proof.
  revert a b. induction s as [|c s IH]; intros a b; cbn; [intros; by simplify_eq|].
  destruct (p c) eqn:Hp.
  - destruct (run p s) as [x y]. intros. simplify_eq. destruct (IH x b eq_refl) as (-> & ? & ?).
    cbn. by rewrite Hp.
  - intros. by simplify_eq.
Qed.

Lemma run1_sound p s a b : run1 p s = Some (a, b) → s = a +:+ b ∧ Run1 p a.
Proof.
  unfold run1. destruct (run p s) as [[|c x] y] eqn:E; [done|]. intros. simplify_eq.
  apply run_sound in E as (-> & H & _). done.
Qed.

Lemma expect_sound b s r : expect b s = Some r → s = String b "" +:+ r.
Proof. destruct s as [|c s]; cbn; [done|]. destruct (Ascii.eqb c b) eqn:E; [|done].
  apply Ascii.eqb_eq in E. intros. by simplify_eq. Qed.

Lemma word_run_sound s a b : word_run s = (a, b) → s = a +:+ b ∧ WordText a.
Proof.
  revert a b. induction s as [s IH] using (induction_ltof1 _ String.length). unfold ltof in IH.
  assert (Hnil : ∀ a b, ("", s) = (a, b) → s = a +:+ b ∧ WordText a)
    by (intros; simplify_eq; split; [done|constructor]).
  intros a b. destruct s as [|c r]; cbn [word_run]; [apply Hnil|].
  destruct (is_word_re c) eqn:Hw.
  { destruct (word_run r) as [x y] eqn:E. intros. simplify_eq.
    apply IH in E as [-> ?]; [|cbn; lia]. split; [done | by constructor]. }
  destruct (Ascii.eqb c (chr 197)) eqn:H1.
  { apply Ascii.eqb_eq in H1 as ->. destruct r as [|d r]; [apply Hnil|].
    destruct (Ascii.eqb d (chr 191)) eqn:H2; [|apply Hnil]. apply Ascii.eqb_eq in H2 as ->.
    destruct (word_run r) as [x y] eqn:E. intros. simplify_eq.
    apply IH in E as [-> ?]; [|cbn; lia]. split; [done | by constructor]. }
  destruct (Ascii.eqb c (chr 226)) eqn:H3; [|apply Hnil].
  apply Ascii.eqb_eq in H3 as ->. destruct r as [|d [|e r]]; [apply Hnil..|].
  destruct (Ascii.eqb d (chr 132)) eqn:H2; [|apply Hnil]. apply Ascii.eqb_eq in H2 as ->.
  destruct (Ascii.eqb e (chr 170)) eqn:H4; [|apply Hnil]. apply Ascii.eqb_eq in H4 as ->.
  cbn [andb]. destruct (word_run r) as [x y] eqn:E. intros. simplify_eq.
  apply IH in E as [-> ?]; [|cbn; lia]. split; [done | by constructor].
Qed.

(** Destructs the next monadic step of a hypothesis [H]. *)
Ltac bind_step H := let E := fresh "E" in let v := fresh "v" in
  match type of H with
  | (?m ≫= _) = Some _ => destruct m as [v|] eqn:E; [cbn [mbind option_bind] in H | discriminate H]
  end.
Ltac bind_pair H a b := let E := fresh "E" in
  match type of H with
  | (?m ≫= _) = Some _ =>
      destruct m as [[a b]|] eqn:E; [cbn [mbind option_bind] in H | discriminate H]
  end.

Lemma match_id_sound s id r : match_id s = Some (id, r) → s = id +:+ r ∧ QueryIdText id.
Proof.
  unfold match_id. intros H.
  bind_pair H d1 r1. bind_step H. bind_pair H d2 r2. bind_step H.
  bind_pair H d3 r3. bind_step H.
  destruct (word_run _) as [[|c w] r4] eqn:Ew; [done|]. simplify_eq.
  repeat match goal with
  | X : run1 _ _ = Some _ |- _ => apply run1_sound in X as [-> ?]
  | X : expect _ _ = Some _ |- _ => apply expect_sound in X as ->
  | X : word_run _ = _ |- _ => apply word_run_sound in X as [-> ?]
  end.
  split; [by rewrite !str_app_assoc|]. by exists d1, d2, d3, (String c w).
Qed.

Lemma match_here_sound s id : match_here s = Some id → ∃ t post, s = t +:+ post ∧ KillStmt t id.
Proof.
  unfold match_here. intros H.
  bind_step H. bind_pair H s1 r2. bind_step H. bind_pair H s2 r4.
  bind_step H. bind_pair H i r6. bind_step H. simplify_eq.
  apply match_word_sound in E as (k & -> & ?). apply match_word_sound in E1 as (q & -> & ?).
  repeat match goal with
  | X : run1 _ _ = Some _ |- _ => apply run1_sound in X as [-> ?]
  | X : expect _ _ = Some _ |- _ => apply expect_sound in X as ->
  | X : match_id _ = _ |- _ => apply match_id_sound in X as [-> ?]
  end.
  exists (k +:+ s1 +:+ q +:+ s2 +:+ "'" +:+ id +:+ "'"), v2.
  split; [by rewrite !str_app_assoc | by exists k, s1, q, s2].
Qed.

(** ** Completeness: every text that matches is found *)
Lemma match_word_complete w t r : CiWord w t → match_word w (t +:+ r) = Some r.
Proof.
  induction 1 as [|p c w t Hc _ IH|w t _ IH]; [done| |].
  - rewrite str_app_cons. cbn. by rewrite Hc, Ascii.eqb_refl.
  - rewrite str_app_assoc. cbn [match_word]. unfold match_letter. cbn [kelvin].
    change (upper_char (chr 226)) with (chr 226).
    change (Ascii.eqb (chr 226) "K") with false. done.
Qed.

Lemma run_complete p a b :
  str_forallb p a = true → match b with String c _ => p c = false | "" => True end →
  run p (a +:+ b) = (a, b).
Proof.
  intros Ha Hb. induction a as [|c a IH]; cbn in Ha.
  - rewrite str_app_nil_l. destruct b as [|c b]; [done|]. cbn. by rewrite Hb.
  - apply andb_true_iff in Ha as [Hc Ha]. rewrite str_app_cons. cbn. by rewrite Hc, IH.
Qed.

Lemma run1_complete p a b :
  Run1 p a → match b with String c _ => p c = false | "" => True end →
  run1 p (a +:+ b) = Some (a, b).
Proof. intros [Hn Ha] Hb. unfold run1. rewrite run_complete by done. by destruct a. Qed.

Lemma word_run_complete w r : WordText w → word_run (w +:+ String "'" r) = (w, String "'" r).
Proof.
  induction 1 as [|c t Hc _ IH|t _ IH|t _ IH]; [done| | |].
  - rewrite str_app_cons. cbn [word_run]. by rewrite Hc, IH.
  - rewrite str_app_assoc. change (long_s +:+ ?x) with (String (chr 197) (String (chr 191) x)).
    cbn [word_run]. change (is_word_re (chr 197)) with false.
    rewrite !Ascii.eqb_refl. by rewrite IH.
  - rewrite str_app_assoc.
    change (kelvin +:+ ?x) with (String (chr 226) (String (chr 132) (String (chr 170) x))).
    cbn [word_run]. change (is_word_re (chr 226)) with false.
    change (Ascii.eqb (chr 226) (chr 197)) with false. rewrite !Ascii.eqb_refl. by rewrite IH.
Qed.

(** A text that starts with [Q] up to case does not start with a space. *)
Lemma query_head t r : CiWord "QUERY" t →
  match t +:+ r with String c _ => is_space_re c = false | "" => True end.
Proof.
  inversion 1 as [|p c w t' Hq Hw|]; subst. rewrite str_app_cons.
  destruct (is_space_re c) eqn:E; [|done]. exfalso.
  assert (Hs : implb (is_space_re c) (negb (Ascii.eqb (upper_char c) "Q")) = true).
  { clear. revert c. apply (ascii_forall
      (λ c, implb (is_space_re c) (negb (Ascii.eqb (upper_char c) "Q")))). by vm_compute. }
  by rewrite E, Hq in Hs.
Qed.

Lemma expect_complete b r : expect b (String b "" +:+ r) = Some r.
Proof. rewrite str_app_cons. cbn. by rewrite Ascii.eqb_refl. Qed.

(** Runs the next steps of a matcher on a text that matches. *)
Ltac match_steps :=
  repeat (cbn [mbind option_bind];
          first [ rewrite run1_complete by (done || by apply query_head)
                | rewrite expect_complete
                | rewrite match_word_complete by done ]);
  cbn [mbind option_bind].

Lemma match_id_complete id r : QueryIdText id → match_id (id +:+ String "'" r) = Some (id, String "'" r).
Proof.
  intros (d1 & d2 & d3 & w & -> & H1 & H2 & H3 & Hn & Hw). unfold match_id.
  rewrite !str_app_assoc. match_steps. rewrite word_run_complete by done. by destruct w.
Qed.

Lemma match_here_complete t id post : KillStmt t id → match_here (t +:+ post) = Some id.
Proof.
  intros (k & s1 & q & s2 & -> & Hk & H1 & Hq & H2 & Hid). unfold match_here.
  rewrite !str_app_assoc. match_steps.
  change ("'" +:+ post) with (String "'" post). rewrite match_id_complete by done. done.
Qed.

Lemma find_kill_sound s id : find_kill s = Some id →
  ∃ pre t post, s = pre +:+ t +:+ post ∧ KillStmt t id
    ∧ ∀ pre' t' post' id', s = pre' +:+ t' +:+ post' → KillStmt t' id' →
        (String.length pre ≤ String.length pre')%nat.
Proof.
  induction s as [|c s IH]; [done|]. cbn [find_kill].
  destruct (match_here (String c s)) as [i|] eqn:E.
  - intros. simplify_eq. apply match_here_sound in E as (t & post & -> & Ht).
    exists "", t, post. split_and!; [done..|cbn; lia].
  - intros H. destruct (IH H) as (pre & t & post & -> & Ht & Hmin).
    exists (String c pre), t, post. split_and!; [done..|].
    intros [|c' pre'] t' post' id' Heq Ht'.
    + rewrite str_app_nil_l in Heq. rewrite Heq, (match_here_complete _ id') in E; done.
    + rewrite str_app_cons in Heq. simplify_eq. cbn. apply le_n_S. by eapply Hmin.
Qed.

Lemma find_kill_complete pre t post id : KillStmt t id → is_Some (find_kill (pre +:+ t +:+ post)).
Proof.
  intros Ht. induction pre as [|c pre IH].
  - rewrite str_app_nil_l. assert (Hm := match_here_complete t id post Ht).
    destruct (t +:+ post); cbn [find_kill]; by rewrite Hm.
  - rewrite str_app_cons. cbn [find_kill]. by destruct (match_here _).
Qed.

Lemma QueryIdText_nonempty id : QueryIdText id → id ≠ "".
Proof.
  intros (d1 & d2 & d3 & w & -> & [Hd _] & _) H. by destruct d1.
Qed.

(** C32: The extracted id is the captured group of the leftmost match of the pattern,
    and is empty exactly when the pattern matches nowhere in the body. *)
Theorem kill_query_spec body :
  if extractKillQueryID body =?s "" then
    ∀ pre t post id, body = pre +:+ t +:+ post → ¬ KillStmt t id
  else
    ∃ pre t post, body = pre +:+ t +:+ post ∧ KillStmt t (extractKillQueryID body)
      ∧ ∀ pre' t' post' id', body = pre' +:+ t' +:+ post' → KillStmt t' id' →
          (String.length pre ≤ String.length pre')%nat.
Proof.
  unfold extractKillQueryID. destruct (find_kill body) as [id|] eqn:E; cbn.
  - assert (Hs := find_kill_sound body id E). destruct Hs as (pre & t & post & Hb & Ht & Hm).
    assert (id ≠ "") as Hn by (destruct Ht as (? & ? & ? & ? & _ & _ & _ & _ & _ & ?);
      by apply QueryIdText_nonempty).
    apply seqb_neq in Hn. rewrite Hn. by exists pre, t, post.
  - intros pre t post id -> Ht. apply (find_kill_complete pre t post) in Ht.
    rewrite E in Ht. by destruct Ht.
Qed.
