(* ===== verification/Lru.v ===== *)
(** * The query cache's LRU (internal/routing/cache.go)

    [github.com/hashicorp/golang-lru] is a third-party package: the cache is a
    parameter of the router, an instance of the class [LRU] whose laws state the
    package's documented behaviour. [lru_items] observes the entries from the most
    to the least recently used. [ListLru] is a concrete instance. *)
From S2P Require Import Prelude.

Abbreviation entries := (list (string * string)).

Definition drop_key (k : string) (l : entries) : entries :=
  List.filter (λ e, negb (fst e =?s k)) l.
Definition assoc (k : string) (l : entries) : option string :=
  snd <$> find_first (λ e, fst e =?s k) l.

(** [Get] promotes the entry it finds; [Add] inserts in front and evicts the oldest
    entry beyond the capacity; [Remove] deletes. *)
Class LRU (C : Type) := {
  lru_new : nat → option C;
  lru_get : string → C → option string * C;
  lru_add : string → string → C → C;
  lru_remove : string → C → C;
  lru_cap : C → nat;
  lru_items : C → entries;
  lru_new_spec n : match lru_new n with
                   | Some c => (0 < n)%nat ∧ lru_cap c = n ∧ lru_items c = []
                   | None => n = 0%nat
                   end;
  lru_get_res k c : fst (lru_get k c) = assoc k (lru_items c);
  lru_get_items k c :
    lru_items (snd (lru_get k c)) =
      match assoc k (lru_items c) with
      | Some v => (k, v) :: drop_key k (lru_items c)
      | None => lru_items c
      end;
  lru_get_cap k c : lru_cap (snd (lru_get k c)) = lru_cap c;
  lru_add_items k v c :
    lru_items (lru_add k v c) = take (lru_cap c) ((k, v) :: drop_key k (lru_items c));
  lru_add_cap k v c : lru_cap (lru_add k v c) = lru_cap c;
  lru_remove_items k c : lru_items (lru_remove k c) = drop_key k (lru_items c);
  lru_remove_cap k c : lru_cap (lru_remove k c) = lru_cap c }.

(** ** A concrete instance: the list of entries itself *)
Record list_lru : Type := ListLru { ll_cap : nat; ll_items : entries }.

Definition ll_new (n : nat) : option list_lru :=
  match n with O => None | _ => Some (ListLru n []) end.
Definition ll_get (k : string) (c : list_lru) : option string * list_lru :=
  match assoc k (ll_items c) with
  | Some v => (Some v, ListLru (ll_cap c) ((k, v) :: drop_key k (ll_items c)))
  | None => (None, c)
  end.
Definition ll_add (k v : string) (c : list_lru) : list_lru :=
  ListLru (ll_cap c) (take (ll_cap c) ((k, v) :: drop_key k (ll_items c))).
Definition ll_remove (k : string) (c : list_lru) : list_lru :=
  ListLru (ll_cap c) (drop_key k (ll_items c)).

#[global] Instance list_lru_LRU : LRU list_lru.
Proof.
  refine {| lru_new := ll_new; lru_get := ll_get; lru_add := ll_add; lru_remove := ll_remove;
            lru_cap := ll_cap; lru_items := ll_items |}; try done.
  - intros [|n]; cbn; [done|]. split; [lia|done].
  - intros k c. unfold ll_get. by destruct (assoc k (ll_items c)).
  - intros k c. unfold ll_get. by destruct (assoc k (ll_items c)).
  - intros k c. unfold ll_get. by destruct (assoc k (ll_items c)).
Defined.

(** ** The cache of the router *)
Section query_cache.
Context {C : Type} `{LRU C}.

(** [newQueryCache] and its default size. *)
Definition defaultCacheSize : nat := 4096.
Definition newQueryCache (size : Z) : option C :=
  let size := if (size <=? 0)%Z then Z.of_nat defaultCacheSize else size in
  lru_new (Z.to_nat size).

Definition cache_get (queryID : string) (c : C) : option string * C := lru_get queryID c.
Definition cache_set (queryID backendURL : string) (c : C) : C := lru_add queryID backendURL c.
Definition cache_remove (queryID : string) (c : C) : C := lru_remove queryID c.

(** What other requests may do to the cache. *)
Inductive cache_op : Type :=
| OpGet (k : string)
| OpSet (k v : string)
| OpRemove (k : string).

Definition op_key (o : cache_op) : string :=
  match o with OpGet k | OpSet k _ | OpRemove k => k end.

Definition run_op (c : C) (o : cache_op) : C :=
  match o with
  | OpGet k => snd (cache_get k c)
  | OpSet k v => cache_set k v c
  | OpRemove k => cache_remove k c
  end.
Definition run_ops (c : C) (os : list cache_op) : C := foldl run_op c os.

(** ** Lemmas *)
Lemma assoc_cons k k' v l : assoc k ((k', v) :: l) = if k' =?s k then Some v else assoc k l.
Proof. unfold assoc. cbn. by destruct (k' =?s k). Qed.

Lemma drop_key_cons k k' v l :
  drop_key k ((k', v) :: l) = if k' =?s k then drop_key k l else (k', v) :: drop_key k l.
Proof. unfold drop_key. cbn. by destruct (k' =?s k). Qed.

Lemma assoc_drop_ne k k' l : k ≠ k' → assoc k (drop_key k' l) = assoc k l.
Proof.
  intros Hk. induction l as [|[a v] l IH]; [done|]. rewrite assoc_cons, drop_key_cons.
  destruct (a =?s k') eqn:E1.
  - apply seqb_eq in E1 as ->. rewrite IH. destruct (k' =?s k) eqn:E; [|done].
    apply seqb_eq in E. congruence.
  - rewrite assoc_cons, IH. done.
Qed.

(** Entries used more recently than [k]: how far [k] is from eviction. *)
Fixpoint depth (k : string) (l : entries) : nat :=
  match l with
  | [] => 0
  | e :: l => if fst e =?s k then 0 else S (depth k l)
  end.

Lemma assoc_take k v n l : assoc k l = Some v → (depth k l < n)%nat → assoc k (take n l) = Some v.
Proof.
  revert n. induction l as [|[a w] l IH]; intros [|n]; cbn [depth take fst];
    try (done || lia).
  rewrite !assoc_cons. destruct (a =?s k); [done|]. intros. apply IH; [done|lia].
Qed.

Lemma depth_take k n l : (depth k (take n l) ≤ depth k l)%nat.
Proof.
  revert n. induction l as [|[a w] l IH]; intros [|n]; cbn; [lia..|].
  destruct (a =?s k); [lia|]. specialize (IH n). lia.
Qed.

Lemma depth_drop k k' l : k ≠ k' → (depth k (drop_key k' l) ≤ depth k l)%nat.
Proof.
  intros Hk. induction l as [|[a w] l IH]; [done|]. rewrite drop_key_cons.
  destruct (a =?s k') eqn:E; cbn [depth fst].
  - apply seqb_eq in E as ->. destruct (k' =?s k) eqn:E2; [apply seqb_eq in E2; congruence|]. lia.
  - destruct (a =?s k); lia.
Qed.

(** One operation on another key keeps the entry and moves it at most one step
    towards eviction. *)
Lemma run_op_keeps k v o c :
  op_key o ≠ k → assoc k (lru_items c) = Some v →
  (S (depth k (lru_items c)) < lru_cap c)%nat →
  assoc k (lru_items (run_op c o)) = Some v
  ∧ (depth k (lru_items (run_op c o)) ≤ S (depth k (lru_items c)))%nat
  ∧ lru_cap (run_op c o) = lru_cap c.
Proof.
  intros Hk Ha Hd.
  assert (Hcons : ∀ k' w, k' ≠ k → assoc k ((k', w) :: drop_key k' (lru_items c)) = Some v
    ∧ (depth k ((k', w) :: drop_key k' (lru_items c)) ≤ S (depth k (lru_items c)))%nat).
  { intros k' w Hne. rewrite assoc_cons. cbn [depth fst]. destruct (k' =?s k) eqn:E.
    { apply seqb_eq in E. congruence. }
    rewrite assoc_drop_ne by congruence. split; [done|].
    apply le_n_S, depth_drop. congruence. }
  destruct o as [k'|k' w|k']; cbn [run_op op_key] in *; unfold cache_get, cache_set, cache_remove.
  - rewrite lru_get_items, lru_get_cap. destruct (assoc k' (lru_items c)) as [x|]; [|auto].
    destruct (Hcons k' x Hk). auto.
  - rewrite lru_add_items, lru_add_cap. destruct (Hcons k' w Hk) as [H1 H2]. split_and!; [|..].
    + apply assoc_take; [done|]. by eapply Nat.le_lt_trans.
    + etrans; [apply depth_take|done].
    + done.
  - rewrite lru_remove_items, lru_remove_cap, assoc_drop_ne by congruence.
    split_and!; [done| |done]. etrans; [apply depth_drop; congruence|lia].
Qed.

Lemma run_ops_keeps k v os c :
  Forall (λ o, op_key o ≠ k) os → assoc k (lru_items c) = Some v →
  (depth k (lru_items c) + length os < lru_cap c)%nat →
  assoc k (lru_items (run_ops c os)) = Some v.
Proof.
  revert c. induction os as [|o os IH]; intros c Hf Ha Hd; cbn in *; [done|].
  apply Forall_cons in Hf as [Ho Hf].
  destruct (run_op_keeps k v o c) as (A1 & A2 & A3); [done..|lia|].
  apply IH; [done|done|lia].
Qed.

(** A query id that was written stays cached for as long as fewer than [capacity]
    operations on other ids follow. *)
Lemma cache_set_get k v os c :
  (length os < lru_cap c)%nat → Forall (λ o, op_key o ≠ k) os →
  fst (cache_get k (run_ops (cache_set k v c) os)) = Some v.
Proof.
  intros Hl Hf. unfold cache_get. rewrite lru_get_res.
  assert (Hi : lru_items (cache_set k v c)
               = (k, v) :: take (pred (lru_cap c)) (drop_key k (lru_items c))).
  { unfold cache_set. rewrite lru_add_items. destruct (lru_cap c); [lia|done]. }
  apply run_ops_keeps; [done|..]; rewrite Hi, ?assoc_cons; cbn; rewrite seqb_refl; [done|].
  unfold cache_set. rewrite lru_add_cap. lia.
Qed.
End query_cache.
