(* ===== verification/SingleFlight.v ===== *)
(** * Coalescing of concurrent lookups (internal/routing/recovery.go, [singleFlightGroup])

    [do] runs in any number of goroutines at once, so it is a step relation: a state
    holds the shared map of calls in flight, every call made so far, and the program
    point of every goroutine. The regions under [g.mu] are one step each. [fn] is the
    caller's function; what it returns (or that it panics) is chosen by the step. *)
From S2P Require Import Prelude.

Section single_flight.
Context {A : Type}.

(** A [call]: its key, [val]/[err] once [fn] has returned, and whether [wg.Done] ran. *)
Record call : Type := Call { c_key : string; c_val : option A; c_done : bool }.

(** Where a goroutine is inside [do]. *)
Inductive pc : Type :=
| PStart (key : string)           (* about to take the lock *)
| PRun (key : string) (c : nat)   (* leader, registered, running fn *)
| PSet (key : string) (c : nat)   (* leader, fn returned and c.val is set *)
| PSignal (key : string) (c : nat) (* leader, wg.Done has run *)
| PWait (key : string) (c : nat)  (* follower, in wg.Wait *)
| PRet (key : string) (v : A)     (* returned *)
| PPanic (key : string) (c : nat). (* leader, fn panicked out of do *)

Record sf_state : Type := SfState {
  inflight : gmap string nat;
  calls : list call;
  threads : list pc }.

Inductive step : sf_state → sf_state → Prop :=
| step_join s i k c :
    threads s !! i = Some (PStart k) → inflight s !! k = Some c →
    step s (SfState (inflight s) (calls s) (<[i := PWait k c]> (threads s)))
| step_lead s i k :
    threads s !! i = Some (PStart k) → inflight s !! k = None →
    step s (SfState (<[k := length (calls s)]> (inflight s)) (calls s ++ [Call k None false])
                    (<[i := PRun k (length (calls s))]> (threads s)))
| step_fn s i k c v :
    threads s !! i = Some (PRun k c) →
    step s (SfState (inflight s) (<[c := Call k (Some v) false]> (calls s))
                    (<[i := PSet k c]> (threads s)))
| step_done s i k c v d :
    threads s !! i = Some (PSet k c) → calls s !! c = Some (Call k v d) →
    step s (SfState (inflight s) (<[c := Call k v true]> (calls s))
                    (<[i := PSignal k c]> (threads s)))
| step_cleanup s i k c v d :
    threads s !! i = Some (PSignal k c) → calls s !! c = Some (Call k (Some v) d) →
    step s (SfState (delete k (inflight s)) (calls s) (<[i := PRet k v]> (threads s)))
| step_wake s i k c v :
    threads s !! i = Some (PWait k c) → calls s !! c = Some (Call k (Some v) true) →
    step s (SfState (inflight s) (calls s) (<[i := PRet k v]> (threads s))).

(** [fn] panics: the deferred work does not exist, so nothing is undone. *)
Inductive step_panic : sf_state → sf_state → Prop :=
| panic_fn s i k c :
    threads s !! i = Some (PRun k c) →
    step_panic s (SfState (inflight s) (calls s) (<[i := PPanic k c]> (threads s))).

Definition init (keys : list string) : sf_state := SfState ∅ [] (PStart <$> keys).

Definition any_step (s t : sf_state) : Prop := step s t ∨ step_panic s t.
Definition reachable (keys : list string) (s : sf_state) : Prop := rtc any_step (init keys) s.
Definition reachable_no_panic (keys : list string) (s : sf_state) : Prop := rtc step (init keys) s.

(** The call a goroutine owns as leader. *)
Definition owns (p : pc) : option (string * nat) :=
  match p with PRun k c | PSet k c | PSignal k c | PPanic k c => Some (k, c) | _ => None end.

(** ** Invariant *)

(** How far the call of a goroutine has come. *)
Definition pc_ok (fl : gmap string nat) (cs : list call) (p : pc) : Prop :=
  match p with
  | PStart _ => True
  | PRun k c | PPanic k c => cs !! c = Some (Call k None false)
  | PSet k c => ∃ v, cs !! c = Some (Call k (Some v) false)
  | PSignal k c => ∃ v, cs !! c = Some (Call k (Some v) true)
  | PWait k c => (∃ v, cs !! c = Some (Call k (Some v) true)) ∨ fl !! k = Some c
  | PRet k v => ∃ c, cs !! c = Some (Call k (Some v) true)
  end.

Record sf_inv (s : sf_state) : Prop := {
  (* a registered call exists under its key and is owned by a goroutine *)
  inv_call k c : inflight s !! k = Some c → ∃ v d, calls s !! c = Some (Call k v d);
  inv_led k c : inflight s !! k = Some c → ∃ i p, threads s !! i = Some p ∧ owns p = Some (k, c);
  (* a leader's call is registered, and a key has one leader *)
  inv_owner i p k c : threads s !! i = Some p → owns p = Some (k, c) → inflight s !! k = Some c;
  inv_uniq i j p q k c c' : threads s !! i = Some p → owns p = Some (k, c) →
    threads s !! j = Some q → owns q = Some (k, c') → i = j;
  inv_pc i p : threads s !! i = Some p → pc_ok (inflight s) (calls s) p }.

Lemma inv_init keys : sf_inv (init keys).
Proof.
  assert (Hs : ∀ i p, (PStart <$> keys) !! i = Some p → ∃ k, p = PStart k).
  { intros i p. rewrite list_lookup_fmap. destruct (keys !! i); cbn; [|done].
    intros. simplify_eq. eauto. }
  split; cbn.
  - intros k c. by rewrite lookup_empty.
  - intros k c. by rewrite lookup_empty.
  - intros i p k c H. by destruct (Hs _ _ H) as [? ->].
  - intros i j p q k c c' H. by destruct (Hs _ _ H) as [? ->].
  - intros i p H. by destruct (Hs _ _ H) as [? ->].
Qed.

(** A step of goroutine [i] touches no other goroutine. *)
Lemma lookup_upd (l : list pc) i p q j r :
  l !! i = Some p → <[i := q]> l !! j = Some r → (j = i ∧ r = q) ∨ (j ≠ i ∧ l !! j = Some r).
Proof.
  intros Hi. destruct (decide (j = i)) as [->|Hne].
  - rewrite list_lookup_insert_eq by (by eapply lookup_lt_Some). intros. simplify_eq. by left.
  - rewrite list_lookup_insert_ne by done. by right.
Qed.

Lemma lookup_upd_same (l : list pc) i p q : l !! i = Some p → <[i := q]> l !! i = Some q.
Proof. intros. apply list_lookup_insert_eq. by eapply lookup_lt_Some. Qed.

(** Moving within the same ownership keeps the ownership clauses. *)
Lemma owns_upd (l : list pc) i p q j r :
  l !! i = Some p → owns p = owns q → <[i := q]> l !! j = Some r →
  ∃ r', l !! j = Some r' ∧ owns r' = owns r.
Proof. intros Hi Ho Hj. destruct (lookup_upd _ _ _ _ _ _ Hi Hj) as [[-> ->]|[_ ?]]; eauto. Qed.

Lemma owns_upd_back (l : list pc) i p q j r :
  l !! i = Some p → owns p = owns q → l !! j = Some r →
  ∃ r', <[i := q]> l !! j = Some r' ∧ owns r' = owns r.
Proof.
  intros Hi Ho Hj. destruct (decide (j = i)) as [->|Hne].
  - exists q. simplify_eq. split; [by eapply lookup_upd_same | done].
  - exists r. by rewrite list_lookup_insert_ne.
Qed.

(** The step lemma for steps that keep the map and the ownership. *)
Lemma inv_local s i p q cs :
  sf_inv s → threads s !! i = Some p → owns p = owns q →
  (∀ k c v d, calls s !! c = Some (Call k v d) → ∃ v d, cs !! c = Some (Call k v d)) →
  (∀ j r, j ≠ i → threads s !! j = Some r → pc_ok (inflight s) cs r) →
  pc_ok (inflight s) cs q →
  sf_inv (SfState (inflight s) cs (<[i := q]> (threads s))).
Proof.
  intros Inv Hi Ho Hcs Hpcs Hq. split; cbn.
  - intros k c Hk. destruct (inv_call s Inv k c Hk) as (v & d & Hc). eauto.
  - intros k c Hk. destruct (inv_led s Inv k c Hk) as (j & r & Hj & Hr).
    destruct (owns_upd_back _ _ _ q _ _ Hi Ho Hj) as (r' & ? & Hr').
    exists j, r'. split; [done|congruence].
  - intros j r k c Hj Hr. destruct (owns_upd _ _ _ _ _ _ Hi Ho Hj) as (r' & ? & Hr').
    eapply (inv_owner s Inv); [done|congruence].
  - intros j j' r r' k c c' Hj Hr Hj' Hr'.
    destruct (owns_upd _ _ _ _ _ _ Hi Ho Hj) as (x & ? & Hx).
    destruct (owns_upd _ _ _ _ _ _ Hi Ho Hj') as (x' & ? & Hx').
    eapply (inv_uniq s Inv); [done| |done|]; [rewrite Hx|rewrite Hx']; done.
  - intros j r Hj. destruct (lookup_upd _ _ _ _ _ _ Hi Hj) as [[-> ->]|[? ?]]; eauto.
Qed.

(** Changing a call that is not done is invisible to goroutines that do not own it. *)
Lemma pc_ok_upd fl cs q c k v x :
  pc_ok fl cs q → cs !! c = Some (Call k v false) →
  (∀ k' c', owns q = Some (k', c') → c' ≠ c) → pc_ok fl (<[c := x]> cs) q.
Proof.
  intros Hq Hc Ho.
  destruct q as [k'|k' c'|k' c'|k' c'|k' c'|k' v'|k' c']; cbn in *;
    try (rewrite list_lookup_insert_ne by (specialize (Ho k' c' eq_refl); done); done); [done| |].
  - destruct Hq as [[w Hw]|]; [left; exists w|by right].
    rewrite list_lookup_insert_ne; [done|]. intros ->. congruence.
  - destruct Hq as [c' Hw]. exists c'. rewrite list_lookup_insert_ne; [done|]. intros ->. congruence.
Qed.

(** The owner of a call finds it in the table, so no other goroutine owns it. *)
Lemma other_owner s i j p q k c k' c' :
  sf_inv s → j ≠ i → threads s !! i = Some p → owns p = Some (k, c) →
  threads s !! j = Some q → owns q = Some (k', c') → c' ≠ c.
Proof.
  intros Inv Hne Hi Hp Hj Hq ->.
  destruct (inv_call s Inv k c (inv_owner s Inv _ _ _ _ Hi Hp)) as (v & d & Hc).
  destruct (inv_call s Inv k' c (inv_owner s Inv _ _ _ _ Hj Hq)) as (v' & d' & Hc').
  simplify_eq. exact (Hne (inv_uniq s Inv _ _ _ _ _ _ _ Hj Hq Hi Hp)).
Qed.

Lemma keys_upd (cs : list call) c0 k0 v0 d0 v1 d1 :
  cs !! c0 = Some (Call k0 v0 d0) →
  ∀ k c v d, cs !! c = Some (Call k v d) →
    ∃ v d, <[c0 := Call k0 v1 d1]> cs !! c = Some (Call k v d).
Proof.
  intros H0 k c v d Hc. destruct (decide (c0 = c)) as [->|Hne].
  - simplify_eq. do 2 eexists. apply list_lookup_insert_eq. by eapply lookup_lt_Some.
  - rewrite list_lookup_insert_ne by done. eauto.
Qed.

Lemma inv_leader_upd s i p q k c v v1 d1 :
  sf_inv s → threads s !! i = Some p → owns p = Some (k, c) → owns q = Some (k, c) →
  calls s !! c = Some (Call k v false) →
  pc_ok (inflight s) (<[c := Call k v1 d1]> (calls s)) q →
  sf_inv (SfState (inflight s) (<[c := Call k v1 d1]> (calls s)) (<[i := q]> (threads s))).
Proof.
  intros Inv Hi Hp Hq Hc Hok.
  eapply inv_local; [done..|congruence| | |done].
  - eapply keys_upd. done.
  - intros j r Hne Hj. eapply pc_ok_upd; [by eapply inv_pc|done|].
    intros k' c' Hr. by eapply other_owner.
Qed.

Lemma inv_lead s i k :
  sf_inv s → threads s !! i = Some (PStart k) → inflight s !! k = None →
  sf_inv (SfState (<[k := length (calls s)]> (inflight s)) (calls s ++ [Call k None false])
                  (<[i := PRun k (length (calls s))]> (threads s))).
Proof.
  intros Inv Hi Hk. split; cbn.
  - intros k' c. rewrite lookup_insert_Some. intros [[-> <-]|[Hne Hc]].
    + do 2 eexists. by rewrite lookup_app_r, Nat.sub_diag by done.
    + destruct (inv_call s Inv _ _ Hc) as (v & d & H). do 2 eexists. by apply lookup_app_l_Some.
  - intros k' c. rewrite lookup_insert_Some. intros [[-> <-]|[Hne Hc]].
    + eexists i, _. split; [by eapply lookup_upd_same|done].
    + destruct (inv_led s Inv _ _ Hc) as (j & p & Hj & Hp). exists j, p. split; [|done].
      rewrite list_lookup_insert_ne; [done|]. intros ->. by simplify_eq.
  - intros j p k' c Hj Hp. destruct (lookup_upd _ _ _ _ _ _ Hi Hj) as [[-> ->]|[? Hj']].
    + cbn in Hp. simplify_eq. apply lookup_insert_eq.
    + pose proof (inv_owner s Inv _ _ _ _ Hj' Hp). rewrite lookup_insert_ne by congruence. done.
  - intros j j' p p' k' c c' Hj Hp Hj' Hp'.
    destruct (lookup_upd _ _ _ _ _ _ Hi Hj) as [[-> ->]|[? Hj1]],
      (lookup_upd _ _ _ _ _ _ Hi Hj') as [[-> ->]|[? Hj2]]; [done|..|exact (inv_uniq s Inv _ _ _ _ _ _ _ Hj1 Hp Hj2 Hp')].
    + cbn in Hp. simplify_eq. pose proof (inv_owner s Inv _ _ _ _ Hj2 Hp'). congruence.
    + cbn in Hp'. simplify_eq. pose proof (inv_owner s Inv _ _ _ _ Hj1 Hp). congruence.
  - intros j p Hj. destruct (lookup_upd _ _ _ _ _ _ Hi Hj) as [[-> ->]|[? Hj']].
    + cbn. by rewrite lookup_app_r, Nat.sub_diag by done.
    + pose proof (inv_pc s Inv _ _ Hj') as Hok.
      destruct p as [k'|k' c'|k' c'|k' c'|k' c'|k' v'|k' c']; cbn in *; try done;
        try (by apply lookup_app_l_Some);
        try (destruct Hok as [w ?]; exists w; by apply lookup_app_l_Some).
      destruct Hok as [[w ?]|Hw]; [left; exists w; by apply lookup_app_l_Some|right].
      by rewrite lookup_insert_ne by congruence.
Qed.

Lemma inv_cleanup s i k c v :
  sf_inv s → threads s !! i = Some (PSignal k c) → calls s !! c = Some (Call k (Some v) true) →
  sf_inv (SfState (delete k (inflight s)) (calls s) (<[i := PRet k v]> (threads s))).
Proof.
  intros Inv Hi Hc.
  assert (Hk : inflight s !! k = Some c) by (exact (inv_owner s Inv _ _ _ _ Hi eq_refl)).
  split; cbn.
  - intros k' c'. rewrite lookup_delete_Some. intros [_ H]. by eapply (inv_call s Inv).
  - intros k' c'. rewrite lookup_delete_Some. intros [Hne H].
    destruct (inv_led s Inv _ _ H) as (j & p & Hj & Hp). exists j, p. split; [|done].
    rewrite list_lookup_insert_ne; [done|]. intros ->. simplify_eq. cbn in Hp. congruence.
  - intros j p k' c' Hj Hp. destruct (lookup_upd _ _ _ _ _ _ Hi Hj) as [[-> ->]|[Hne Hj']]; [done|].
    rewrite lookup_delete_ne; [exact (inv_owner s Inv _ _ _ _ Hj' Hp)|]. intros ->.
    exact (Hne (inv_uniq s Inv _ _ _ _ _ _ _ Hj' Hp Hi eq_refl)).
  - intros j j' p p' k' c1 c2 Hj Hp Hj' Hp'.
    destruct (lookup_upd _ _ _ _ _ _ Hi Hj) as [[-> ->]|[? Hj1]]; [done|].
    destruct (lookup_upd _ _ _ _ _ _ Hi Hj') as [[-> ->]|[? Hj2]]; [done|].
    exact (inv_uniq s Inv _ _ _ _ _ _ _ Hj1 Hp Hj2 Hp').
  - intros j p Hj. destruct (lookup_upd _ _ _ _ _ _ Hi Hj) as [[-> ->]|[? Hj']].
    { cbn. eauto. }
    pose proof (inv_pc s Inv _ _ Hj') as Hok. destruct p as [|k' c'|k' c'|k' c'|k' c'| |k' c']; try done.
    cbn in *. destruct Hok as [?|Hw]; [by left|]. destruct (decide (k' = k)) as [->|Hne].
    + left. simplify_eq. eauto.
    + right. by rewrite lookup_delete_ne.
Qed.

Lemma step_inv s t : sf_inv s → step s t → sf_inv t.
Proof.
  intros Inv Hst. destruct Hst as [s i k c Hi Hk|s i k Hi Hk|s i k c v Hi|s i k c v d Hi Hc
    |s i k c v d Hi Hc|s i k c v Hi Hc].
  - eapply inv_local; eauto using inv_pc. by right.
  - by apply inv_lead.
  - pose proof (inv_pc s Inv _ _ Hi) as Hok. cbn in Hok. eapply inv_leader_upd; eauto.
    cbn. eexists. apply list_lookup_insert_eq. by eapply lookup_lt_Some.
  - pose proof (inv_pc s Inv _ _ Hi) as [w Hok]. simplify_eq. eapply inv_leader_upd; eauto.
    cbn. eexists. apply list_lookup_insert_eq. by eapply lookup_lt_Some.
  - pose proof (inv_pc s Inv _ _ Hi) as [w Hok]. simplify_eq. by eapply inv_cleanup.
  - eapply inv_local; eauto using inv_pc. cbn. eauto.
Qed.

Lemma panic_inv s t : sf_inv s → step_panic s t → sf_inv t.
Proof.
  intros Inv Hst. destruct Hst as [s i k c Hi]. eapply inv_local; eauto using inv_pc.
  exact (inv_pc s Inv _ _ Hi).
Qed.

Lemma reachable_inv keys s : reachable keys s → sf_inv s.
Proof.
  intros H. eapply (rtc_ind_r sf_inv); [apply inv_init| |exact H].
  intros y z _ [Hs|Hs] IH; [by eapply step_inv | by eapply panic_inv].
Qed.

Lemma no_panic_reachable keys s : reachable_no_panic keys s → reachable keys s.
Proof. intros H. eapply rtc_subrel; [|done]. intros x y ?. by left. Qed.

(** Without panics no goroutine is ever past a panic. *)
Definition no_panic_pc (p : pc) : Prop := match p with PPanic _ _ => False | _ => True end.

Lemma no_panic_pcs keys s : reachable_no_panic keys s → Forall no_panic_pc (threads s).
Proof.
  intros H. eapply (rtc_ind_r (λ s, Forall no_panic_pc (threads s))); [| |exact H].
  - apply Forall_fmap, Forall_true. done.
  - intros y z _ Hs IH. destruct Hs; cbn; by apply Forall_insert.
Qed.

(** ** The key of a goroutine never changes *)
Definition pc_key (p : pc) : string :=
  match p with
  | PStart k | PRun k _ | PSet k _ | PSignal k _ | PWait k _ | PRet k _ | PPanic k _ => k
  end.

Lemma any_step_pc s t : any_step s t →
  ∃ i p q, threads s !! i = Some p ∧ threads t = <[i := q]> (threads s) ∧ pc_key q = pc_key p
    ∧ match p with PRet _ _ | PPanic _ _ => False | _ => True end.
Proof. intros [H|H]; destruct H; by do 3 eexists. Qed.

Lemma reachable_keys keys s : reachable keys s → pc_key <$> threads s = keys.
Proof.
  intros H. eapply (rtc_ind_r (λ s, pc_key <$> threads s = keys)); [| |exact H].
  - cbn. rewrite <- list_fmap_compose. by apply list_fmap_id.
  - intros y z _ Hs IH. destruct (any_step_pc _ _ Hs) as (i & p & q & Hi & -> & Hq & _).
    rewrite list_fmap_insert, Hq, <- IH. apply list_insert_id. by rewrite list_lookup_fmap, Hi.
Qed.

(** ** Termination measure: the steps a goroutine has left *)
Definition pc_rank (p : pc) : nat :=
  match p with
  | PStart _ => 4 | PRun _ _ => 3 | PSet _ _ => 2 | PSignal _ _ => 1 | PWait _ _ => 1
  | PRet _ _ | PPanic _ _ => 0
  end.
Definition rank (s : sf_state) : nat := sum_list_with pc_rank (threads s).

Lemma rank_upd (l : list pc) i p q :
  l !! i = Some p → (pc_rank q < pc_rank p)%nat →
  (sum_list_with pc_rank (<[i := q]> l) < sum_list_with pc_rank l)%nat.
Proof.
  revert i. induction l as [|x l IH]; intros [|i] Hi Hr; [done|done|..].
  - simplify_eq/=. lia.
  - specialize (IH i Hi Hr).
    change (<[S i := q]> (x :: l)) with (x :: <[i := q]> l). cbn [sum_list_with]. lia.
Qed.

Lemma step_rank s t : step s t → (rank t < rank s)%nat.
Proof. intros H. unfold rank. destruct H; eapply rank_upd; try done; cbn; lia. Qed.

Definition returned (p : pc) : Prop := match p with PRet _ _ => True | _ => False end.
#[local] Instance returned_dec p : Decision (returned p).
Proof. destruct p; [right|right|right|right|right|left|right]; cbn; tauto. Defined.

(** An owner that did not panic can move, given a value for [fn]. *)
Lemma owner_moves (v0 : A) s i p k c :
  sf_inv s → threads s !! i = Some p → owns p = Some (k, c) → no_panic_pc p → ∃ t, step s t.
Proof.
  intros Inv Hi Hp Hn. pose proof (inv_pc s Inv _ _ Hi) as Hok.
  destruct p; cbn in *; simplify_eq; try done.
  - eexists. by eapply (step_fn s i k c v0).
  - destruct Hok as [w ?]. eexists. by eapply step_done.
  - destruct Hok as [w ?]. eexists. by eapply step_cleanup.
Qed.

Lemma sf_progress (v0 : A) s :
  sf_inv s → Forall no_panic_pc (threads s) → Forall returned (threads s) ∨ ∃ t, step s t.
Proof.
  intros Inv Hn. destruct (decide (Forall returned (threads s))) as [|Hex]; [by left|right].
  apply not_Forall_Exists in Hex; [|apply _].
  apply Exists_exists in Hex as (p & Hin & Hp). apply list_elem_of_lookup in Hin as [i Hi].
  rewrite Forall_forall in Hn.
  assert (Hown : ∀ k c, inflight s !! k = Some c → ∃ t, step s t).
  { intros k c Hk. destruct (inv_led s Inv _ _ Hk) as (j & q & Hj & Hq).
    eapply owner_moves; [done..|]. apply Hn. by eapply list_elem_of_lookup_2. }
  pose proof (Hn p (list_elem_of_lookup_2 _ _ _ Hi)) as Hnp.
  pose proof (inv_pc s Inv _ _ Hi) as Hok.
  destruct p as [k|k c|k c|k c|k c|k w|k c]; cbn in Hp, Hnp, Hok; try tauto;
    try (by eapply owner_moves).
  - destruct (inflight s !! k) as [c|] eqn:E; [by eapply Hown|]. eexists. by eapply step_lead.
  - destruct Hok as [[w ?]|?]; [|by eapply Hown]. eexists. by eapply step_wake.
Qed.

(** ** A leader whose [fn] panicked *)
Lemma panic_stays s t i k c :
  rtc any_step s t → threads s !! i = Some (PPanic k c) → threads t !! i = Some (PPanic k c).
Proof.
  induction 1 as [|x y z Hs _ IH]; [done|]. intros Hi. apply IH.
  destruct (any_step_pc _ _ Hs) as (j & p & q & Hj & -> & _ & Hp).
  rewrite list_lookup_insert_ne; [done|]. intros ->. simplify_eq. done.
Qed.

Lemma blocked_step s t i j k c :
  sf_inv s → any_step s t → threads s !! i = Some (PPanic k c) →
  threads s !! j = Some (PStart k) ∨ threads s !! j = Some (PWait k c) →
  threads t !! j = Some (PStart k) ∨ threads t !! j = Some (PWait k c).
Proof.
  intros Inv Hs Hi Hj.
  assert (Hfl : inflight s !! k = Some c) by exact (inv_owner s Inv _ _ _ _ Hi eq_refl).
  pose proof (inv_pc s Inv _ _ Hi) as Hc. cbn in Hc.
  assert (Hmv : ∀ i' p q, threads s !! i' = Some p →
    (∀ k', p = PStart k' → k' = k → q = PWait k c) → (p ≠ PWait k c) →
    <[i' := q]> (threads s) !! j = Some (PStart k) ∨ <[i' := q]> (threads s) !! j = Some (PWait k c)).
  { intros i' p q Hi' H1 H2. destruct (decide (j = i')) as [->|Hne].
    - rewrite (lookup_upd_same _ _ p) by done. destruct Hj as [Hj|Hj]; simplify_eq.
      right. f_equal. by eapply H1.
    - by rewrite !list_lookup_insert_ne. }
  destruct Hs as [Hs|Hs]; destruct Hs; cbn; eapply Hmv; try done; intros; simplify_eq; try done.
  intros Heq. simplify_eq.
Qed.

(** ** Theorems *)

(** C25: Coalescing: at any moment at most one goroutine runs [fn] for a key, and that
    run is the registered call every later caller of the key joins. *)
Theorem single_flight_coalesces keys s i j k c c' :
  reachable keys s → threads s !! i = Some (PRun k c) → threads s !! j = Some (PRun k c') →
  i = j ∧ c = c' ∧ inflight s !! k = Some c.
Proof.
  intros Hr Hi Hj. pose proof (reachable_inv _ _ Hr) as Inv.
  assert (i = j) as -> by exact (inv_uniq s Inv _ _ _ _ _ _ _ Hi eq_refl Hj eq_refl).
  simplify_eq. split_and!; [done..|]. exact (inv_owner s Inv _ _ _ _ Hi eq_refl).
Qed.

(** Whatever a caller gets back is the result of a finished run of [fn] for the very
    key it asked for. *)
Theorem single_flight_result keys s i k v :
  reachable keys s → threads s !! i = Some (PRet k v) →
  keys !! i = Some k ∧ ∃ c, calls s !! c = Some (Call k (Some v) true).
Proof.
  intros Hr Hi. split; [|exact (inv_pc s (reachable_inv _ _ Hr) _ _ Hi)].
  by rewrite <- (reachable_keys _ _ Hr), list_lookup_fmap, Hi.
Qed.

(** C26: While [fn] returns, no schedule blocks: a run makes at most four steps per
    goroutine, and one that cannot continue has returned everywhere. *)
Theorem single_flight_terminates (v0 : A) keys n s :
  nsteps step n (init keys) s →
  (n ≤ 4 * length keys)%nat ∧ (Forall returned (threads s) ∨ ∃ t, step s t).
Proof.
  intros Hn. assert (Hr : reachable_no_panic keys s) by (eapply rtc_nsteps_2; done). split.
  - assert (Hb : ∀ s, nsteps step n (init keys) s → (n + rank s ≤ rank (init keys))%nat).
    { clear. induction n as [|n IH]; intros s H.
      - inversion H. subst. lia.
      - apply nsteps_inv_r in H as (y & Hy & Hs). specialize (IH y Hy).
        apply step_rank in Hs. lia. }
    specialize (Hb s Hn). assert (Hi : rank (init keys) = (4 * length keys)%nat).
    { unfold rank. cbn. clear. induction keys as [|k keys IH]; cbn; [done|]. rewrite IH. lia. }
    lia.
  - apply (sf_progress v0); [by eapply reachable_inv, no_panic_reachable | by eapply no_panic_pcs].
Qed.

(** If [fn] panics in a leader, the call is never completed nor removed: whatever
    happens next, the key stays in flight and a caller that asks for it afterwards
    never returns. *)
Theorem single_flight_panic_blocks keys s t i j k c :
  reachable keys s → threads s !! i = Some (PPanic k c) → threads s !! j = Some (PStart k) →
  rtc any_step s t → inflight t !! k = Some c ∧ ∀ v, threads t !! j ≠ Some (PRet k v).
Proof.
  intros Hr Hi Hj Hst. split.
  - assert (Inv : sf_inv t) by (eapply reachable_inv; exact (transitivity Hr Hst)).
    exact (inv_owner t Inv _ _ _ _ (panic_stays _ _ _ _ _ Hst Hi) eq_refl).
  - assert (Hb : threads t !! j = Some (PStart k) ∨ threads t !! j = Some (PWait k c)).
    { eapply (rtc_ind_r (λ u, threads u !! j = Some (PStart k) ∨ threads u !! j = Some (PWait k c)));
        [by left| |exact Hst].
      intros y z Hy Hs IH. eapply blocked_step; [|done| |done].
      - eapply reachable_inv. exact (transitivity Hr Hy).
      - by eapply panic_stays. }
    intros v. destruct Hb as [-> | ->]; done.
Qed.
End single_flight.
Arguments call : clear implicits.
Arguments pc : clear implicits.
Arguments sf_state : clear implicits.

(** ** Witnesses *)

(** Two goroutines ask for the same key and one for another: the first leads, the
    second waits for it. *)
Definition w_running : sf_state string :=
  SfState {["q1" := 0%nat]} [Call "q1" None false]
          [PRun "q1" 0; PWait "q1" 0; PStart "q2"].

Lemma w_running_reachable : reachable ["q1"; "q1"; "q2"] w_running.
Proof.
  eapply rtc_l; [left; apply (step_lead _ 0 "q1"); reflexivity|].
  eapply rtc_l; [left; apply (step_join _ 1 "q1" 0); reflexivity|].
  apply rtc_refl.
Qed.

Lemma single_flight_coalesces_witness :
  (0 = 0)%nat ∧ (0 = 0)%nat ∧ inflight w_running !! "q1" = Some 0%nat.
Proof.
  exact (single_flight_coalesces ["q1"; "q1"; "q2"] w_running 0 0 "q1" 0 0
           w_running_reachable eq_refl eq_refl).
Defined.

Definition w_returned : sf_state string :=
  SfState {["q1" := 0%nat]} [Call "q1" (Some "http://b1") true]
          [PSignal "q1" 0; PRet "q1" "http://b1"].

Lemma w_returned_reachable : reachable ["q1"; "q1"] w_returned.
Proof.
  eapply rtc_l; [left; apply (step_lead _ 0 "q1"); reflexivity|].
  eapply rtc_l; [left; apply (step_join _ 1 "q1" 0); reflexivity|].
  eapply rtc_l; [left; apply (step_fn _ 0 "q1" 0 "http://b1"); reflexivity|].
  eapply rtc_l; [left; apply (step_done _ 0 "q1" 0 (Some "http://b1") false); reflexivity|].
  eapply rtc_l; [left; apply (step_wake _ 1 "q1" 0 "http://b1"); reflexivity|].
  apply rtc_refl.
Qed.

Lemma single_flight_result_witness :
  ["q1"; "q1"] !! 1%nat = Some "q1"
  ∧ ∃ c, calls w_returned !! c = Some (Call "q1" (Some "http://b1") true).
Proof.
  exact (single_flight_result ["q1"; "q1"] w_returned 1 "q1" "http://b1"
           w_returned_reachable eq_refl).
Defined.

Lemma single_flight_terminates_witness :
  (0 ≤ 4 * 1)%nat ∧ (Forall returned (threads (@init string ["q1"]))
                      ∨ ∃ t, step (@init string ["q1"]) t).
Proof. apply (single_flight_terminates "v" ["q1"] 0). constructor. Defined.

Definition w_panicked : sf_state string :=
  SfState {["q1" := 0%nat]} [Call "q1" None false] [PPanic "q1" 0; PStart "q1"].

Lemma w_panicked_reachable : reachable ["q1"; "q1"] w_panicked.
Proof.
  eapply rtc_l; [left; apply (step_lead _ 0 "q1"); reflexivity|].
  eapply rtc_l; [right; apply (panic_fn _ 0 "q1" 0); reflexivity|].
  apply rtc_refl.
Qed.

Lemma single_flight_panic_blocks_witness :
  inflight w_panicked !! "q1" = Some 0%nat
  ∧ ∀ v, threads w_panicked !! 1%nat ≠ Some (PRet "q1" v).
Proof.
  exact (single_flight_panic_blocks ["q1"; "q1"] w_panicked w_panicked 0 1 "q1" 0
           w_panicked_reachable eq_refl eq_refl (rtc_refl _ _)).
Defined.
