(* ===== verification/RouterPb.v ===== *)
(** * The messages of the TrinoGatewayRouter service

    Gateway and routing service exchange these; both modules generate them from the
    same .proto file. *)
From S2P Require Import Prelude.

(** The routing messages of routerpb (generated from the service's .proto). *)
Record TrinoQueryProperties : Type := mkTQP {
  qp_Body : string; qp_QueryType : string; qp_ResourceGroupQueryType : string;
  qp_DefaultCatalog : string; qp_DefaultSchema : string; qp_Catalogs : list string;
  qp_Schemas : list string; qp_CatalogSchemas : list string; qp_Tables : list string;
  qp_IsNewQuerySubmission : bool; qp_IsQueryParsingSuccessful : bool; qp_ErrorMessage : string }.
Record RouteRequest : Type := mkRouteRequest {
  pb_Props : option TrinoQueryProperties; pb_User : option string; pb_ContentType : string;
  pb_RemoteUser : string; pb_Method : string; pb_RequestUri : string; pb_QueryString : string;
  pb_RemoteAddr : string; pb_RemoteHost : string; pb_ParameterMap : gmap string string;
  pb_TrinoSource : string; pb_ClientTags : list string }.
Record RouteResponse : Type := mkRouteResponse {
  pb_RoutingGroup : string; pb_Errors : list string; pb_ExternalHeaders : gmap string string }.
