(* ===== verification/Routing.v ===== *)
(** * Routing decisions (internal/routing: router.go, recovery.go, external_http.go,
      external_grpc.go, metrics.go)

    [Router.Route] as a function in a state monad over the router's state: the query
    cache, the outside world and the metric events recorded so far. The outside world
    is reached through the record [services], one field per interface the package
    declares ([BackendLister], [HistoryLookup], the two HTTP clients, the gRPC stub). *)
From S2P Require Import Prelude GoStrings Json HttpModel Config KillQuery Lru RouterPb.

(** ** Data *)
Record ActiveBackend : Type := mkActiveBackend {
  ab_Name : string; ab_URL : string; ab_RoutingGroup : string }.

Record RouteInput : Type := mkRouteInput {
  Method : string; RequestURI : string; QueryString : string; RemoteAddr : string;
  RemoteHost : string; RemoteUser : string; Body : string;
  Parameters : gmap string (list string); headers : header }.

Definition Header (r : RouteInput) (name : string) : string := hdr_get (headers r) name.
Definition Headers (r : RouteInput) : header := headers r.

Definition NewRouteInput (req : request) (body : string) : RouteInput :=
  mkRouteInput (req_method req) (request_uri (req_url req)) (url_rawquery (req_url req))
    (req_remote_addr req) (req_host req) (hdr_get (req_header req) "X-Trino-User") body
    (req_form req) (req_header req).

Record RouteResult : Type := mkRouteResult {
  BackendURL : string; RoutingGroup : string; ExternalHeaders : gmap string string;
  Errors : list string; Outcome : string }.

Definition OutcomeOK := "ok".
Definition OutcomeFallback := "fallback".
Definition OutcomeKillQuery := "kill_query".
Definition OutcomeError := "error".

Definition TransportHTTP := "http".
Definition TransportGRPC := "grpc".
Definition CacheEventHit := "hit".
Definition CacheEventMiss := "miss".
Definition RecoveryStepHistory := "history".
Definition RecoveryStepProbe := "probe".
Definition RecoveryStepDefault := "default".

(** Calls on the [RouterMetrics] recorder (durations are not kept). *)
Inductive metric_event : Type :=
| RouterCall (transport outcome : string)
| CacheEvent (event : string)
| RecoveryStep (step : string)
| KillQueryRoute.

(** An error of an outgoing call; [errors.Is(err, context.DeadlineExceeded)]. *)
Record call_error : Type := mkCallError { ce_msg : string; ce_deadline : bool }.
Inductive call_result (A : Type) : Type := COk (a : A) | CErr (e : call_error).
Arguments COk {A} a.
Arguments CErr {A} e.

(** ** The outside world *)
Record services (W : Type) : Type := mkServices {
  (* [BackendLister.ListActive] *)
  list_active : ST W (go_result (list ActiveBackend));
  (* [HistoryLookup.LookupByQueryID], under [singleFlightGroup.do]: value and error *)
  lookup_by_query_id : string → ST W (string * option string);
  (* whether [http.NewRequestWithContext] accepts a method and URL *)
  new_request_ok : string → string → bool;
  (* [http.Client.Do] of the external client, with the call's timeout *)
  ext_client_do : Z → out_request → ST W (call_result response);
  (* [http.Client.Do] of the probe client *)
  probe_client_do : out_request → ST W (call_result response);
  (* the gRPC stub's [Route], when a gRPC address is configured *)
  grpc_route : option (Z → RouteRequest → ST W (call_result RouteResponse));
  (* the order in which concurrent probes complete *)
  completion_order : list ActiveBackend → list ActiveBackend }.
Arguments list_active {W}.
Arguments lookup_by_query_id {W}.
Arguments new_request_ok {W}.
Arguments ext_client_do {W}.
Arguments probe_client_do {W}.
Arguments grpc_route {W}.
Arguments completion_order {W}.

Section router.
Context {C : Type} `{LRU C} {W : Type} (svc : services W) (cfg : RoutingConfig).

Record router_state : Type := mkRouterState {
  rs_cache : C; rs_world : W; rs_metrics : list metric_event }.

Definition R (A : Type) : Type := ST router_state A.
#[global] Instance R_ret : MRet R := λ A a, λ s, (a, s).
#[global] Instance R_bind : MBind R := λ A B f m, λ s, let '(a, s') := m s in f a s'.

Definition world {A} (m : ST W A) : R A := λ s,
  let '(a, w) := m (rs_world s) in (a, mkRouterState (rs_cache s) w (rs_metrics s)).
Definition record (e : metric_event) : R unit := λ s,
  (tt, mkRouterState (rs_cache s) (rs_world s) (rs_metrics s ++ [e])).
Definition cacheGet (k : string) : R (option string) := λ s,
  let '(v, c) := cache_get k (rs_cache s) in (v, mkRouterState c (rs_world s) (rs_metrics s)).
Definition WriteCache (queryID backendURL : string) : R unit := λ s,
  (tt, mkRouterState (cache_set queryID backendURL (rs_cache s)) (rs_world s) (rs_metrics s)).

(** ** Recovery chain (recovery.go) *)
Definition probeOne (baseURL queryID : string) : R bool :=
  let url := baseURL +:+ "/v1/query/" +:+ queryID in
  if negb (new_request_ok svc "HEAD" url) then mret false else
  r ← world (probe_client_do svc (OutRequest "HEAD" url ∅ (Ok "")));
  match r with
  | CErr _ => mret false
  | COk resp => mret (resp_status resp =? 200)%Z
  end.

(** Probes run concurrently; each sends its URL to the channel when it succeeds, in
    order of completion, and the loop takes the first non-empty URL. *)
Fixpoint probe_all (queryID : string) (bs : list ActiveBackend) : R (list string) :=
  match bs with
  | [] => mret []
  | b :: bs =>
      ok ← probeOne (ab_URL b) queryID;
      urls ← probe_all queryID bs;
      mret (if ok : bool then ab_URL b :: urls else urls)
  end.

Definition headProbeFanOut (queryID : string) (backends : list ActiveBackend) : R string :=
  urls ← probe_all queryID (completion_order svc backends);
  mret (from_opt "" (find_first (λ u, negb (u =?s "")) urls)).

Definition recordStep (step : string) : R unit := record (RecoveryStep step).

Definition recoverBackend (queryID : string) : R string :=
  '(url, _) ← world (lookup_by_query_id svc queryID);
  if negb (url =?s "") then _ ← recordStep RecoveryStepHistory; mret url else
  bs ← world (list_active svc);
  match bs with
  | Err _ | Ok [] => mret ""
  | Ok ((b0 :: _) as backends) =>
      url ← headProbeFanOut queryID backends;
      if negb (url =?s "") then _ ← recordStep RecoveryStepProbe; mret url else
      _ ← recordStep RecoveryStepDefault; mret (ab_URL b0)
  end.

(** ** External selectors *)
Definition nilIfEmpty (s : string) : option string := if s =?s "" then None else Some s.

(** Object keys in the order [json.Marshal] writes a map: sorted. *)
Definition sorted_params (m : gmap string (list string)) : list (string * json) :=
  (λ k, (k, jstrs (from_opt [] (m !! k)))) <$> merge_sort String.le (elements (dom m)).

(** The body of the request, and its JSON form; a nil pointer is null. *)
Record trinoQueryProperties : Type := mkTrinoQueryProperties {
  tq_Body : string; tq_QueryType : string; tq_ResourceGroupQueryType : string; tq_DefaultCatalog : option string;
  tq_DefaultSchema : option string; tq_Catalogs : list string; tq_Schemas : list string; tq_CatalogSchemas : list string;
  tq_Tables : list string; tq_IsNewQuerySubmission : bool; tq_IsQueryParsingSuccessful : bool; tq_ErrorMessage : option string }.
Record trinoRequestUser : Type := mkTrinoRequestUser { tu_User : string; tu_UserInfo : option string }.
Record routingGroupExternalBody : Type := mkExternalBody {
  eb_TrinoQueryProperties : option trinoQueryProperties; eb_TrinoRequestUser : option trinoRequestUser; eb_ContentType : string;
  eb_RemoteUser : option string; eb_Method : string; eb_RequestURI : string; eb_QueryString : option string; eb_Session : json;
  eb_RemoteAddr : option string; eb_RemoteHost : option string; eb_Parameters : gmap string (list string) }.

Definition query_properties_json (q : trinoQueryProperties) : json :=
  JObj [
    ("body", JStr (tq_Body q)); ("queryType", JStr (tq_QueryType q)); ("resourceGroupQueryType", JStr (tq_ResourceGroupQueryType q));
    ("defaultCatalog", jopt (tq_DefaultCatalog q)); ("defaultSchema", jopt (tq_DefaultSchema q));
    ("catalogs", jstrs (tq_Catalogs q)); ("schemas", jstrs (tq_Schemas q)); ("catalogSchemas", jstrs (tq_CatalogSchemas q));
    ("tables", jstrs (tq_Tables q)); ("isNewQuerySubmission", JBool (tq_IsNewQuerySubmission q));
    ("isQueryParsingSuccessful", JBool (tq_IsQueryParsingSuccessful q)); ("errorMessage", jopt (tq_ErrorMessage q))].
Definition request_user_json (u : trinoRequestUser) : json := JObj [("user", JStr (tu_User u)); ("userInfo", jopt (tu_UserInfo u))].
Definition external_body_json (b : routingGroupExternalBody) : json :=
  JObj [
    ("trinoQueryProperties", from_opt JNull (query_properties_json <$> eb_TrinoQueryProperties b));
    ("trinoRequestUser", from_opt JNull (request_user_json <$> eb_TrinoRequestUser b));
    ("contentType", JStr (eb_ContentType b)); ("remoteUser", jopt (eb_RemoteUser b)); ("method", JStr (eb_Method b));
    ("requestURI", JStr (eb_RequestURI b)); ("queryString", jopt (eb_QueryString b)); ("session", eb_Session b);
    ("remoteAddr", jopt (eb_RemoteAddr b)); ("remoteHost", jopt (eb_RemoteHost b)); ("parameters", JObj (sorted_params (eb_Parameters b)))].

Definition buildExternalBody (req : RouteInput) : routingGroupExternalBody :=
  let qp := mkTrinoQueryProperties (Body req) "" "" (nilIfEmpty (Header req "X-Trino-Catalog")) (nilIfEmpty (Header req "X-Trino-Schema"))
              [] [] [] [] (Method req =?s "POST") false (Some "trino-parser not available in Go v1") in
  let u := Header req "X-Trino-User" in
  let rtu := if negb (u =?s "") then Some (mkTrinoRequestUser u None) else None in
  mkExternalBody (Some qp) rtu "application/json" (nilIfEmpty (RemoteUser req)) (Method req) (RequestURI req) (nilIfEmpty (QueryString req)) JNull
    (nilIfEmpty (RemoteAddr req)) (nilIfEmpty (RemoteHost req)) (Parameters req).

Definition buildExcludeSet (hs : list string) : gset string :=
  list_to_set (canonical_header_key <$> hs).

(** [externalRouterResponse] and its decoding. *)
Record externalRouterResponse : Type := mkERR {
  er_RoutingGroup : option string; er_Errors : option (list string);
  er_ExternalHeaders : option (gmap string string) }.

Definition set_err_field (k : string) (v : json) (r : externalRouterResponse)
    : externalRouterResponse * bool :=
  if field_is "routingGroup" k then
    let '(x, e) := dec_ptr_string (er_RoutingGroup r) v in
    (mkERR x (er_Errors r) (er_ExternalHeaders r), e)
  else if field_is "errors" k then
    let '(x, e) := dec_strings (er_Errors r) v in
    (mkERR (er_RoutingGroup r) x (er_ExternalHeaders r), e)
  else if field_is "externalHeaders" k then
    let '(x, e) := dec_string_map (er_ExternalHeaders r) v in
    (mkERR (er_RoutingGroup r) (er_Errors r) x, e)
  else (r, false).

(** Group, external headers, errors. *)
Definition selection : Type := string * gmap string string * list string.
Definition no_selection : selection := ("", ∅, []).

Definition defaultExternalTimeout : Z := 1000000000.
Definition ext_timeout : Z :=
  if (Timeout (External cfg) =? 0)%Z then defaultExternalTimeout else Timeout (External cfg).

(** Copying the inbound headers to the outgoing request with [Header.Add]. *)
Definition forward_headers (excluded : gset string) (src dst : header) : header :=
  foldl (λ h '(k, vv), if decide (canonical_header_key k ∈ excluded) then h
                       else foldl (λ h v, hdr_add k v h) h vv) dst (map_to_list src).

(** Whether the body's stream broke because the call's deadline passed. *)
Definition body_deadline (resp : response) : bool :=
  match resp_body_err resp with Some e => e =?s "context deadline exceeded" | None => false end.

Definition http_selectGroup (req : RouteInput) : R (selection * option call_error) :=
  if ext_URL (External cfg) =?s "" then mret (no_selection, None) else
  let data := print_json (external_body_json (buildExternalBody req)) in
  if negb (new_request_ok svc "POST" (ext_URL (External cfg))) then
    mret (no_selection, Some (mkCallError "routing: http: build request" false))
  else
  let h0 := hdr_set "Content-Type" "application/json; charset=utf-8" ∅ in
  let excluded := {["Content-Length"]} ∪ buildExcludeSet (ExcludeHeaders (External cfg)) in
  let h := forward_headers excluded (Headers req) h0 in
  r ← world (ext_client_do svc ext_timeout (OutRequest "POST" (ext_URL (External cfg)) h (Ok data)));
  match r with
  | CErr e => mret (no_selection, Some e)
  | COk resp =>
      if negb (resp_status resp =? 200)%Z then
        mret (no_selection, Some (mkCallError "routing: http: non-200 status" false))
      else
        let '(result, bad) := decode_stream set_err_field (mkERR None None None) (resp_body resp) in
        if bad : bool then mret (no_selection, Some (mkCallError "routing: http: decode response" (body_deadline resp)))
        else mret ((from_opt "" (er_RoutingGroup result), from_opt ∅ (er_ExternalHeaders result),
                    from_opt [] (er_Errors result)), None)
  end.

(** [splitClientTags] *)
Definition splitClientTags (hdr : string) : list string :=
  if hdr =?s "" then [] else
  List.filter (λ t, negb (t =?s "")) (trim_space <$> split_on "," hdr).

Definition buildProtoRequest (req : RouteInput) : RouteRequest :=
  mkRouteRequest
    (Some (mkTQP (Body req) "" "" (Header req "X-Trino-Catalog") (Header req "X-Trino-Schema")
             [] [] [] [] (Method req =?s "POST") false "trino-parser not available in Go v1"))
    (Some (Header req "X-Trino-User")) "application/json" (RemoteUser req) (Method req)
    (RequestURI req) (QueryString req) (RemoteAddr req) (RemoteHost req)
    (join "," <$> Parameters req)
    (Header req "X-Trino-Source") (splitClientTags (Header req "X-Trino-Client-Tags")).

Definition grpc_selectGroup (call : Z → RouteRequest → ST W (call_result RouteResponse))
    (req : RouteInput) : R (selection * option call_error) :=
  r ← world (call ext_timeout (buildProtoRequest req));
  match r with
  | CErr e => mret (no_selection, Some e)
  | COk resp => mret ((pb_RoutingGroup resp, pb_ExternalHeaders resp, pb_Errors resp), None)
  end.

(** ** Router (router.go) *)
Definition filterExcludedHeaders (hs : gmap string string) : gmap string string :=
  match ExcludeHeaders (External cfg) with
  | [] => hs
  | ex => filter (λ '(k, _), canonical_header_key k ∉ buildExcludeSet ex) hs
  end.

Definition routerOutcome (err : option call_error) : string :=
  match err with
  | None => "ok"
  | Some e => if ce_deadline e then "timeout" else "error"
  end.

Definition filter_selection (s : selection) : selection :=
  let '(g, h, e) := s in (g, filterExcludedHeaders h, e).

Definition call_http (req : RouteInput) : R (selection * option call_error) :=
  '(sel, err) ← http_selectGroup req;
  _ ← record (RouterCall TransportHTTP (routerOutcome err));
  mret (filter_selection sel, err).

Definition callExternal (req : RouteInput) : R (selection * option call_error) :=
  match grpc_route svc with
  | Some call =>
      '(sel, err) ← grpc_selectGroup call req;
      _ ← record (RouterCall TransportGRPC (routerOutcome err));
      match err with
      | None => mret (filter_selection sel, None)
      | Some _ => call_http req
      end
  | None => call_http req
  end.

Definition resolveGroup (group : string) : R (go_result string) :=
  bs ← world (list_active svc);
  match bs with
  | Err e => mret (Err e)
  | Ok backends =>
      mret (Ok (from_opt "" (ab_URL <$> find_first (λ b, ab_RoutingGroup b =?s group) backends)))
  end.

Definition firstActiveBackend : R string :=
  bs ← world (list_active svc);
  match bs with
  | Ok (b :: _) => mret (ab_URL b)
  | _ => mret ""
  end.

(** The text of [rest] before the next [/] or [?]. *)
Fixpoint id_prefix (s : string) : string :=
  match s with
  | String c r => if Ascii.eqb c "/" || Ascii.eqb c "?" then EmptyString else String c (id_prefix r)
  | EmptyString => EmptyString
  end.

Definition queryPrefix := "/v1/query/".
Definition extractQueryID (req : RouteInput) : string :=
  let uri := RequestURI req in
  if (String.length queryPrefix <? String.length uri)%nat && has_prefix queryPrefix uri
  then id_prefix (str_drop (String.length queryPrefix) uri) else "".

(** Step 1 of [Route]: a KILL QUERY statement goes to the backend of its query. *)
Definition route_kill (req : RouteInput) : R (option RouteResult) :=
  let queryID := extractKillQueryID (Body req) in
  if queryID =?s "" then mret None else
  url ← recoverBackend queryID;
  if url =?s "" then mret None else
  _ ← record KillQueryRoute;
  mret (Some (mkRouteResult url "" ∅ [] OutcomeKillQuery)).

(** Step 2: the query cache. *)
Definition route_cached (req : RouteInput) : R (option RouteResult) :=
  let queryID := extractQueryID req in
  if queryID =?s "" then mret None else
  hit ← cacheGet queryID;
  match hit with
  | Some url => _ ← record (CacheEvent CacheEventHit);
                mret (Some (mkRouteResult url "" ∅ [] OutcomeOK))
  | None => _ ← record (CacheEvent CacheEventMiss); mret None
  end.

(** Step 5 and the final fallback: the recovery chain when the request names a
    query, else the first active backend regardless of group. *)
Definition recover_or_first (req : RouteInput) (group : string) (extHeaders : gmap string string)
    (errs : list string) : R RouteResult :=
  let first :=
    url ← firstActiveBackend;
    mret (mkRouteResult url group extHeaders errs OutcomeFallback) in
  let queryID := extractQueryID req in
  if queryID =?s "" then first else
  url ← recoverBackend queryID;
  if negb (url =?s "") then mret (mkRouteResult url "" extHeaders errs OutcomeFallback) else first.

(** Steps 3 to 5: external selection, group resolution, recovery, first active. *)
Definition route_external (req : RouteInput) : R RouteResult :=
  '((group, extHeaders, errs), _) ← callExternal req;
  let outcome := if group =?s "" then OutcomeFallback else OutcomeOK in
  let group := if group =?s "" then DefaultGroup cfg else group in
  resolved ← resolveGroup group;
  let backendURL := match resolved with Ok url => url | Err _ => "" end in
  if negb (backendURL =?s "") then mret (mkRouteResult backendURL group extHeaders errs outcome) else
  recover_or_first req group extHeaders errs.

(** [Route]; its error result is always nil. *)
Definition Route (req : RouteInput) : R RouteResult :=
  k ← route_kill req;
  match k with
  | Some r => mret r
  | None =>
      c ← route_cached req;
      match c with
      | Some r => mret r
      | None => route_external req
      end
  end.

(** ** A Hoare triple for the router monad: an invariant on the state and a
    postcondition on the result *)
Definition triple (I : router_state → Prop) {A} (m : R A) (Q : A → Prop) : Prop :=
  ∀ s, I s → I (snd (m s)) ∧ Q (fst (m s)).

Lemma triple_ret I {A} (a : A) (Q : A → Prop) : Q a → triple I (mret a) Q.
Proof. by intros ? s. Qed.

Lemma triple_bind I {A B} (m : R A) (f : A → R B) (P : A → Prop) (Q : B → Prop) :
  triple I m P → (∀ a, P a → triple I (f a) Q) → triple I (m ≫= f) Q.
Proof.
  intros Hm Hf s Hs. destruct (Hm s Hs) as [HI HP]. unfold mbind, R_bind.
  destruct (m s) as [a s']. by apply Hf.
Qed.

Lemma triple_weaken I {A} (m : R A) (P Q : A → Prop) :
  triple I m P → (∀ a, P a → Q a) → triple I m Q.
Proof. intros Hm Hpq s Hs. destruct (Hm s Hs). auto. Qed.

(** ** Routing keeps the cache's capacity *)
Definition keeps {A} (m : R A) : Prop := ∀ s, lru_cap (rs_cache (snd (m s))) = lru_cap (rs_cache s).

Lemma keeps_ret {A} (a : A) : keeps (mret a).
Proof. by intros s. Qed.
Lemma keeps_bind {A B} (m : R A) (f : A → R B) : keeps m → (∀ a, keeps (f a)) → keeps (m ≫= f).
Proof.
  intros Hm Hf s. specialize (Hm s). unfold mbind, R_bind. destruct (m s) as [a s'].
  rewrite Hf. exact Hm.
Qed.
Lemma keeps_world {A} (m : ST W A) : keeps (world m).
Proof. intros s. unfold world. by destruct (m (rs_world s)). Qed.
Lemma keeps_record e : keeps (record e).
Proof. by intros s. Qed.
Lemma keeps_cacheGet k : keeps (cacheGet k).
Proof.
  intros s. unfold cacheGet, cache_get. pose proof (lru_get_cap k (rs_cache s)) as Hc.
  by destruct (lru_get k (rs_cache s)).
Qed.

Ltac keeps_tac :=
  repeat first
    [ assumption
    | apply keeps_ret | apply keeps_world | apply keeps_record | apply keeps_cacheGet
    | apply keeps_bind; [|intros ?]
    | match goal with
      | |- keeps (let '(_, _) := ?x in _) => destruct x
      | |- keeps (match ?x with _ => _ end) => destruct x
      end ].

Lemma Route_keeps_cap req : keeps (Route req).
Proof.
  assert (Hp : ∀ q bs, keeps (probe_all q bs)).
  { intros q bs. induction bs as [|b bs IH]; cbn [probe_all]; unfold probeOne; keeps_tac. }
  assert (Hr : ∀ q, keeps (recoverBackend q)).
  { intros q. unfold recoverBackend, headProbeFanOut, recordStep. keeps_tac; apply Hp. }
  assert (Hh : keeps (call_http req)) by (unfold call_http, http_selectGroup; keeps_tac).
  unfold Route, route_kill, route_cached, route_external, recover_or_first, callExternal,
    grpc_selectGroup, resolveGroup, firstActiveBackend.
  keeps_tac; first [apply Hr | apply Hp | exact Hh].
Qed.

(** ** Where a selected URL comes from

    The rules are proved for any invariant [I] of the router's state that the outside
    world keeps; [P] is what the listed URLs have in common. *)
Section provenance.
Context (P : string → Prop).

Definition listed_ok (r : go_result (list ActiveBackend)) : Prop :=
  match r with Ok bs => Forall (λ b, P (ab_URL b)) bs | Err _ => True end.
Definition none_or (u : string) : Prop := u = "" ∨ P u.

(** What picking a backend relies on: the invariant is kept, listed URLs satisfy [P],
    and probes complete in some order of the backends probed. *)
Record picks_ok (I : router_state → Prop) : Prop := {
  pk_record e : triple I (record e) (λ _, True);
  pk_list : triple I (world (list_active svc)) listed_ok;
  pk_ext t r : triple I (world (ext_client_do svc t r)) (λ _, True);
  pk_probe r : triple I (world (probe_client_do svc r)) (λ _, True);
  pk_grpc call t r : grpc_route svc = Some call → triple I (world (call t r)) (λ _, True);
  pk_order l : completion_order svc l ≡ₚ l }.
(** What recovering a query's backend relies on besides. *)
Record recovers_ok (I : router_state → Prop) : Prop := {
  rc_history q : triple I (world (lookup_by_query_id svc q)) (λ x, none_or (fst x));
  rc_cache k : triple I (cacheGet k) (λ o, match o with Some u => P u | None => True end) }.

Section rules.
Context (I : router_state → Prop) (PK : picks_ok I).

(** Applies the rules of the monad to a goal [triple I m Q]. *)
Ltac triple_step :=
  match goal with
  | |- triple _ (mret _) _ => apply triple_ret
  | |- triple _ (record _ ≫= _) _ => eapply triple_bind; [apply (pk_record _ PK) | intros ? _]
  | |- triple _ (recordStep _ ≫= _) _ => eapply triple_bind; [apply (pk_record _ PK) | intros ? _]
  | |- triple _ (if ?b then _ else _) _ => destruct b eqn:?
  end.

Lemma first_url : triple I firstActiveBackend none_or.
Proof.
  unfold firstActiveBackend. eapply triple_bind; [apply (pk_list _ PK)|].
  intros [[|b bs]|e] Hbs; triple_step; [by left| |by left]. right. by inversion Hbs.
Qed.

Lemma external_keeps req : triple I (callExternal req) (λ _, True).
Proof.
  unfold callExternal, call_http, grpc_selectGroup, http_selectGroup.
  assert (Hh : triple I (call_http req) (λ _, True)).
  { unfold call_http. eapply triple_bind with (P := λ _, True).
    - unfold http_selectGroup. repeat triple_step; try done.
      eapply triple_bind; [apply (pk_ext _ PK)|]. intros [resp|e] _; [|by triple_step].
      triple_step; [by triple_step|]. destruct (decode_stream _ _ _) as [x []]; by triple_step.
    - intros [sel err] _. by repeat triple_step. }
  destruct (grpc_route svc) as [call|] eqn:Eg; [|exact Hh].
  eapply triple_bind with (P := λ _, True).
  - eapply triple_bind; [by apply (pk_grpc _ PK)|]. intros [resp|e] _; by triple_step.
  - intros [sel [err|]] _; triple_step; [exact Hh|by triple_step].
Qed.

Lemma resolve_url g : triple I (resolveGroup g) (λ r, match r with Ok u => none_or u | _ => True end).
Proof.
  unfold resolveGroup. eapply triple_bind; [apply (pk_list _ PK)|].
  intros [bs|e] Hbs; [|by triple_step]. triple_step.
  destruct (find_first _ bs) as [b|] eqn:E; [right|by left].
  apply find_first_Some in E as [Hin _]. cbn in Hbs. by rewrite Forall_forall in Hbs; apply Hbs.
Qed.

Lemma probe_all_urls q bs :
  Forall (λ b, P (ab_URL b)) bs → triple I (probe_all q bs) (Forall P).
Proof.
  induction bs as [|b bs IH]; intros Hb; cbn [probe_all]; [by triple_step|].
  apply Forall_cons in Hb as [Hb Hbs].
  eapply triple_bind with (P := λ _, True).
  { unfold probeOne. triple_step; [by triple_step|].
    eapply triple_bind; [apply (pk_probe _ PK)|]. intros [a|e] _; by triple_step. }
  intros ok _. eapply triple_bind; [by apply IH|]. intros urls Hu.
  triple_step. destruct ok; [by constructor|done].
Qed.

Lemma headProbeFanOut_url q bs :
  Forall (λ b, P (ab_URL b)) bs → triple I (headProbeFanOut q bs) none_or.
Proof.
  intros Hb. unfold headProbeFanOut. eapply triple_bind.
  { apply probe_all_urls. by rewrite (pk_order _ PK bs). }
  intros urls Hu. triple_step. destruct (find_first _ urls) as [u|] eqn:E; [right|by left].
  apply find_first_Some in E as [Hin _]. by rewrite Forall_forall in Hu; apply Hu.
Qed.

(** A request that names no query: neither the cache nor the history is consulted. *)
Definition names_no_query (req : RouteInput) : Prop := extractKillQueryID (Body req) = "" ∧ extractQueryID req = "".

Lemma first_result_url g h es :
  triple I (url ← firstActiveBackend; mret (mkRouteResult url g h es OutcomeFallback)) (λ r, none_or (BackendURL r)).
Proof. eapply triple_bind; [apply first_url|]. intros u Hu. by triple_step. Qed.

Lemma external_url req (rest : string → gmap string string → list string → R RouteResult) :
  (∀ g h es, triple I (rest g h es) (λ r, none_or (BackendURL r))) →
  (∀ g h es, recover_or_first req g h es = rest g h es) →
  triple I (route_external req) (λ r, none_or (BackendURL r)).
Proof.
  intros Hrest Heq. unfold route_external. eapply triple_bind; [apply external_keeps|].
  intros [[[g h] es] err] _. eapply triple_bind; [apply resolve_url|].
  intros res Hres. triple_step; [triple_step; by destruct res; [|left]|]. rewrite Heq. apply Hrest.
Qed.

Lemma Route_new_url req : names_no_query req → triple I (Route req) (λ r, none_or (BackendURL r)).
Proof.
  intros [Hk Hq] s Hs. unfold Route, route_kill, route_cached, mbind, R_bind. rewrite Hk, Hq, seqb_refl. cbn [mret R_ret].
  revert s Hs. apply (external_url _ _ first_result_url). intros g h es. unfold recover_or_first. by rewrite Hq.
Qed.

Context (RC : recovers_ok I).

Lemma recoverBackend_url q : triple I (recoverBackend q) none_or.
Proof.
  unfold recoverBackend.
  eapply triple_bind; [apply (rc_history _ RC)|].
  intros [u e] Hu. triple_step; [repeat triple_step; done|].
  eapply triple_bind; [apply (pk_list _ PK)|].
  intros [[|b bs]|e'] Hbs; [by triple_step; left| |by triple_step; left].
  eapply triple_bind; [by apply headProbeFanOut_url|]. intros u' Hu'.
  triple_step; repeat triple_step; [done|]. right. by inversion Hbs.
Qed.

Lemma recover_or_first_url req g h es :
  triple I (recover_or_first req g h es) (λ r, none_or (BackendURL r)).
Proof.
  unfold recover_or_first. triple_step; [apply first_result_url|].
  eapply triple_bind; [apply recoverBackend_url|]. intros u' Hu'.
  triple_step; [by triple_step|apply first_result_url].
Qed.

Lemma Route_url req : triple I (Route req) (λ r, none_or (BackendURL r)).
Proof.
  unfold Route.
  eapply triple_bind with (P := λ o, match o with Some r => none_or (BackendURL r) | None => True end).
  { unfold route_kill. triple_step; [by triple_step|].
    eapply triple_bind; [apply recoverBackend_url|]. intros u Hu.
    triple_step; repeat triple_step; done. }
  intros [r|] Hr; [by triple_step|].
  eapply triple_bind with (P := λ o, match o with Some r => none_or (BackendURL r) | None => True end).
  { unfold route_cached. triple_step; [by triple_step|].
    eapply triple_bind; [apply (rc_cache _ RC)|].
    intros [u|] Hu; repeat triple_step; [by right|done]. }
  intros [r|] Hr'; [by triple_step|]. by apply (external_url _ _ (recover_or_first_url req)).
Qed.
End rules.

(** The invariant that every cached URL satisfies [P], for services that promise the
    same of what they list and record. *)
Record good_services : Prop := {
  gs_list w : listed_ok (fst (list_active svc w));
  gs_history q w : let u := fst (fst (lookup_by_query_id svc q w)) in u = "" ∨ P u;
  gs_order l : completion_order svc l ≡ₚ l }.

Definition cache_good (s : router_state) : Prop :=
  Forall (λ e, P (snd e)) (lru_items (rs_cache s)).

Lemma triple_world {A} (m : ST W A) (Q : A → Prop) :
  (∀ w, Q (fst (m w))) → triple cache_good (world m) Q.
Proof.
  intros HQ s Hs. unfold world. specialize (HQ (rs_world s)).
  destruct (m (rs_world s)) as [a w]. done.
Qed.

Lemma assoc_elem (k v : string) l : assoc k l = Some v → (k, v) ∈ l.
Proof.
  unfold assoc. destruct (find_first _ l) as [[k' v']|] eqn:E; [|done].
  intros. simplify_eq/=. apply find_first_Some in E as [? E]. cbn in E. by apply seqb_eq in E as <-.
Qed.

Lemma drop_key_Forall (Q : string * string → Prop) k l : Forall Q l → Forall Q (drop_key k l).
Proof. induction 1 as [|[a b] l]; [done|]. rewrite drop_key_cons. destruct (a =?s k); auto. Qed.

Lemma triple_cacheGet k :
  triple cache_good (cacheGet k) (λ o, match o with Some u => P u | None => True end).
Proof.
  intros s Hs. unfold cacheGet, cache_get, cache_good in *.
  pose proof (lru_get_res k (rs_cache s)) as Hr. pose proof (lru_get_items k (rs_cache s)) as Hi.
  destruct (lru_get k (rs_cache s)) as [v c]. cbn in *. rewrite Hi, Hr.
  destruct (assoc k (lru_items (rs_cache s))) as [u|] eqn:E; [|done].
  apply assoc_elem in E. rewrite Forall_forall in Hs. pose proof (Hs _ E) as Hu. cbn in Hu.
  split; [|done]. constructor; [done|]. apply drop_key_Forall. by apply Forall_forall.
Qed.

Lemma good_picks : good_services → picks_ok cache_good.
Proof.
  intros GS. split; [by intros e s Hs| | | | |apply (gs_order GS)]; intros; apply triple_world; [apply (gs_list GS)|done..].
Qed.
Lemma good_recovers : good_services → recovers_ok cache_good.
Proof. intros GS. split; [intros q; apply triple_world, (gs_history GS)|apply triple_cacheGet]. Qed.
End provenance.
End router.
Arguments router_state : clear implicits.
Arguments mkRouterState {C W}.

(** ** Reference reading of a decision

    For services that answer the same question the same way (world [unit]), the
    decision is a priority list: the first source that has a URL wins. *)
Section reference.
Context {C : Type} `{LRU C} (svc : services unit) (cfg : RoutingConfig).

Definition non_empty (u : string) : bool := negb (u =?s "").
Definition first_non_empty (l : list string) : string := from_opt "" (find_first non_empty l).

Definition actives : list ActiveBackend :=
  match fst (list_active svc tt) with Ok bs => bs | Err _ => [] end.
Definition probe_url (b : ActiveBackend) (q : string) : string := ab_URL b +:+ "/v1/query/" +:+ q.
Definition probe_ok (q : string) (b : ActiveBackend) : bool :=
  new_request_ok svc "HEAD" (probe_url b q)
  && match fst (probe_client_do svc (OutRequest "HEAD" (probe_url b q) ∅ (Ok "")) tt) with
     | COk r => (resp_status r =? 200)%Z
     | CErr _ => false
     end.

(** History, then the first backend whose probe succeeds, then the first active. *)
Definition recover_spec (q : string) : string :=
  first_non_empty
    (fst (fst (lookup_by_query_id svc q tt)) ::
     match actives with
     | [] => []
     | b0 :: _ =>
         [first_non_empty (ab_URL <$> List.filter (probe_ok q) (completion_order svc actives)); ab_URL b0]
     end).

Definition group_spec (group : string) : string :=
  from_opt "" (ab_URL <$> find_first (λ b, ab_RoutingGroup b =?s group) actives).

(** The decision order of [Route], each source with the outcome it is labelled. *)
Definition route_sources (req : RouteInput) (s : router_state C unit) : list (string * string) :=
  let kill := extractKillQueryID (Body req) in
  let qid := extractQueryID req in
  let group := fst (fst (fst (fst (callExternal svc cfg req s)))) in
  [ (if kill =?s "" then "" else recover_spec kill, OutcomeKillQuery);
    (if qid =?s "" then "" else from_opt "" (assoc qid (lru_items (rs_cache s))), OutcomeOK);
    (if group =?s "" then (group_spec (DefaultGroup cfg), OutcomeFallback)
     else (group_spec group, OutcomeOK));
    (if qid =?s "" then "" else recover_spec qid, OutcomeFallback);
    (from_opt "" (ab_URL <$> head_opt actives), OutcomeFallback) ].

Definition decide_source (l : list (string * string)) : string * string :=
  from_opt ("", OutcomeFallback) (find_first (λ x, non_empty (fst x)) l).

(** Same cache: the only part of the state a decision reads. *)
Definition same_cache (s t : router_state C unit) : Prop := rs_cache s = rs_cache t.

Lemma unit_world {A} (m : ST unit A) : m tt = (fst (m tt), tt).
Proof. destruct (m tt) as [a []]. done. Qed.

Lemma world_eq {A} (m : ST unit A) (s : router_state C unit) : world m s = (fst (m tt), s).
Proof. unfold world. destruct s as [c [] ms]. cbn. by rewrite unit_world. Qed.

Lemma probeOne_eq b q (s : router_state C unit) : probeOne svc (ab_URL b) q s = (probe_ok q b, s).
Proof.
  unfold probeOne, probe_ok, probe_url. destruct (new_request_ok _ _ _); cbn [negb andb]; [|done].
  unfold mbind, R_bind. rewrite world_eq. by destruct (fst _).
Qed.

Lemma probe_all_eq q bs (s : router_state C unit) :
  probe_all svc q bs s = (ab_URL <$> List.filter (probe_ok q) bs, s).
Proof.
  induction bs as [|b bs IH]; [done|]. cbn [probe_all]. unfold mbind, R_bind in *.
  rewrite probeOne_eq, IH. cbn. by destruct (probe_ok q b).
Qed.

Lemma recoverBackend_eq q (s : router_state C unit) :
  fst (recoverBackend svc q s) = recover_spec q ∧ rs_cache (snd (recoverBackend svc q s)) = rs_cache s.
Proof.
  unfold recoverBackend, recover_spec, headProbeFanOut, actives. unfold mbind, R_bind. rewrite world_eq.
  destruct (fst (lookup_by_query_id svc q tt)) as [u e]. unfold first_non_empty at 1. cbn [fst find_first].
  fold (non_empty u). destruct (non_empty u); [done|]. rewrite world_eq.
  destruct (fst (list_active svc tt)) as [[|b bs]|e']; [done| |done].
  rewrite probe_all_eq. cbn. unfold first_non_empty, non_empty.
  destruct (find_first _ (ab_URL <$> _)) as [v|] eqn:E; cbn.
  - apply find_first_Some in E as [_ ->]. done.
  - destruct (ab_URL b =?s "") eqn:Eb; [|done]. apply seqb_eq in Eb. rewrite Eb. done.
Qed.

(** The external selection does not depend on the cache or the metrics. *)
Lemma callExternal_indep req (s t : router_state C unit) :
  fst (callExternal svc cfg req s) = fst (callExternal svc cfg req t)
  ∧ rs_cache (snd (callExternal svc cfg req s)) = rs_cache s.
Proof.
  assert (Hh : ∀ s t : router_state C unit, fst (call_http svc cfg req s) = fst (call_http svc cfg req t)
            ∧ rs_cache (snd (call_http svc cfg req s)) = rs_cache s).
  { clear. intros s t. unfold call_http, http_selectGroup, mbind, R_bind.
    destruct (ext_URL _ =?s ""); [done|]. destruct (negb _); [done|]. rewrite !world_eq.
    destruct (fst (ext_client_do _ _ _ _)) as [resp|e]; [|done]. destruct (negb _); [done|].
    destruct (decode_stream _ _ _) as [x []]; done. }
  unfold callExternal, grpc_selectGroup, mbind, R_bind.
  destruct (grpc_route svc) as [call|]; [|apply Hh]. rewrite !world_eq.
  destruct (fst (call _ _ _)) as [resp|e]; [done|]. cbn.
  match goal with |- fst (call_http _ _ _ ?a) = fst (call_http _ _ _ ?b) ∧ _ =>
    destruct (Hh a b) as [? ?] end. done.
Qed.

Lemma resolveGroup_eq g (s : router_state C unit) :
  resolveGroup svc g s =
    (match fst (list_active svc tt) with Ok _ => Ok (group_spec g) | Err e => Err e end, s)
  ∧ (∀ e, fst (list_active svc tt) = Err e → group_spec g = "").
Proof.
  unfold resolveGroup, group_spec, actives, mbind, R_bind. rewrite world_eq.
  by destruct (fst (list_active svc tt)).
Qed.

Lemma firstActiveBackend_eq (s : router_state C unit) :
  firstActiveBackend svc s = (from_opt "" (ab_URL <$> head_opt actives), s).
Proof.
  unfold firstActiveBackend, actives, mbind, R_bind. rewrite world_eq.
  by destruct (fst (list_active svc tt)) as [[|b bs]|e].
Qed.

Lemma recover_or_first_eq req g h es (s : router_state C unit) :
  let r := fst (recover_or_first svc req g h es s) in
  (BackendURL r, Outcome r) = decide_source (drop 3 (route_sources req s)).
Proof.
  assert (Hlast : ∀ u, from_opt ("", OutcomeFallback)
     (if non_empty u then Some (u, OutcomeFallback) else None) = (u, OutcomeFallback)).
  { intros u. unfold non_empty. destruct (u =?s "") eqn:E; [|done]. by apply seqb_eq in E as ->. }
  unfold recover_or_first, route_sources, decide_source, mbind, R_bind. cbn [drop find_first fst].
  destruct (extractQueryID req =?s "").
  - rewrite firstActiveBackend_eq, <- Hlast. done.
  - destruct (recoverBackend_eq (extractQueryID req) s) as [Hr _].
    destruct (recoverBackend svc (extractQueryID req) s) as [a s2]. cbn in Hr. subst a.
    fold (non_empty (recover_spec (extractQueryID req))).
    destruct (non_empty (recover_spec _)); [done|]. by rewrite firstActiveBackend_eq, <- Hlast.
Qed.

Lemma route_sources_cache req (s t : router_state C unit) :
  lru_items (rs_cache s) = lru_items (rs_cache t) → route_sources req s = route_sources req t.
Proof.
  intros Hc. unfold route_sources. destruct (callExternal_indep req s t) as [-> _]. by rewrite Hc.
Qed.

Lemma route_external_eq req (s : router_state C unit) :
  let r := fst (route_external svc cfg req s) in
  (BackendURL r, Outcome r) = decide_source (drop 2 (route_sources req s)).
Proof.
  unfold route_external, mbind, R_bind.
  destruct (callExternal_indep req s s) as [_ Hc].
  destruct (callExternal svc cfg req s) as [[[[g h] es] err] s1] eqn:Ee. cbn in Hc.
  set (grp := if g =?s "" then DefaultGroup cfg else g).
  destruct (resolveGroup_eq grp s1) as [-> Hnone].
  set (u := match _ with Ok url => url | Err _ => "" end).
  assert (Hu : u = group_spec grp).
  { unfold u. destruct (fst (list_active svc tt)) eqn:E; [done|]. symmetry. by eapply Hnone. }
  clearbody u. subst u.
  assert (Hs : drop 2 (route_sources req s) =
    (group_spec grp, if g =?s "" then OutcomeFallback else OutcomeOK) :: drop 3 (route_sources req s)).
  { unfold route_sources. rewrite Ee. cbn [fst drop]. unfold grp. by destruct (g =?s ""). }
  rewrite Hs. unfold decide_source. cbn [find_first fst]. fold (non_empty (group_spec grp)).
  destruct (non_empty (group_spec grp)); [done|].
  rewrite (route_sources_cache req s s1) by (by rewrite Hc). apply recover_or_first_eq.
Qed.

(** The lookup of step 2 finds what the cache holds and, on a miss, changes nothing. *)
Lemma route_cached_eq req (s : router_state C unit) :
  match fst (route_cached req s) with
  | Some r => extractQueryID req ≠ "" ∧ Outcome r = OutcomeOK
              ∧ assoc (extractQueryID req) (lru_items (rs_cache s)) = Some (BackendURL r)
  | None => (extractQueryID req = "" ∨ assoc (extractQueryID req) (lru_items (rs_cache s)) = None)
            ∧ lru_items (rs_cache (snd (route_cached req s))) = lru_items (rs_cache s)
  end.
Proof.
  unfold route_cached, cacheGet, cache_get, mbind, R_bind.
  destruct (extractQueryID req =?s "") eqn:Eq; seqb_simpl; [cbn; auto|].
  pose proof (lru_get_res (extractQueryID req) (rs_cache s)) as Hr.
  pose proof (lru_get_items (extractQueryID req) (rs_cache s)) as Hi.
  destruct (lru_get (extractQueryID req) (rs_cache s)) as [v c]. cbn in Hr, Hi. subst v.
  destruct (assoc _ _) as [u|]; cbn; auto.
Qed.

(** C4: The backend and the outcome label [Route] returns are those of the first source
    in the order of its code that has a URL: the KILL QUERY target, the query cache,
    the external (or default) group, the recovery chain, the first active backend. *)
Theorem route_priority req (s : router_state C unit) :
  cache_good (λ u, u ≠ "") s →
  let r := fst (Route svc cfg req s) in
  (BackendURL r, Outcome r) = decide_source (route_sources req s).
Proof.
  intros Hg. unfold Route.
  assert (Hrest : ∀ s', rs_cache s' = rs_cache s →
    let r := fst ((c ← route_cached req; match c with Some r => mret r
                   | None => route_external svc cfg req end) s') in
    (BackendURL r, Outcome r) = decide_source (drop 1 (route_sources req s))).
  { intros s' Hs'. unfold mbind, R_bind. pose proof (route_cached_eq req s') as Hc. rewrite Hs' in Hc.
    destruct (route_cached req s') as [[r|] s2]; cbn [fst snd] in Hc.
    - destruct Hc as (Hq & Ho & Ha). unfold route_sources, decide_source. cbn [drop find_first fst].
      apply seqb_neq in Hq. rewrite Hq, Ha. cbn [from_opt].
      apply assoc_elem in Ha. unfold cache_good in Hg. rewrite Forall_forall in Hg.
      specialize (Hg _ Ha). cbn in Hg. unfold non_empty. apply seqb_neq in Hg. rewrite Hg. cbn.
      by rewrite Ho.
    - destruct Hc as [Hq Hc]. cbn. rewrite route_external_eq.
      rewrite (route_sources_cache req s2 s) by done.
      unfold route_sources, decide_source. cbn [drop find_first fst].
      destruct Hq as [Hq|Hq]; rewrite Hq; [done|]. by destruct (extractQueryID req =?s ""). }
  unfold route_kill, mbind, R_bind in *.
  assert (Hsrc : decide_source (route_sources req s) =
    let k := extractKillQueryID (Body req) in
    let u := if k =?s "" then "" else recover_spec k in
    if non_empty u then (u, OutcomeKillQuery) else decide_source (drop 1 (route_sources req s))).
  { unfold route_sources, decide_source. cbn [drop find_first fst]. cbv zeta.
    by destruct (non_empty _). }
  rewrite Hsrc. cbv zeta. destruct (extractKillQueryID (Body req) =?s ""); [by apply Hrest|].
  destruct (recoverBackend_eq (extractKillQueryID (Body req)) s) as [Hr Hc].
  destruct (recoverBackend svc _ s) as [u s1]. cbn in Hr, Hc. subst u. unfold non_empty.
  destruct (recover_spec _ =?s ""); [by apply Hrest|done].
Qed.
End reference.

(** ** Query ids in paths *)
Definition id_byte (c : ascii) : bool := negb (Ascii.eqb c "/" || Ascii.eqb c "?").

Lemma id_prefix_app id rest :
  str_forallb id_byte id = true →
  match rest with String c _ => id_byte c = false | "" => True end → id_prefix (id +:+ rest) = id.
Proof.
  intros Hid Hr. induction id as [|c id IH].
  - rewrite str_app_nil_l. destruct rest as [|c r]; [done|]. unfold id_byte in Hr. cbn.
    apply negb_false_iff in Hr. by rewrite Hr.
  - cbn in Hid. apply andb_true_iff in Hid as [Hc Hid]. rewrite str_app_cons. cbn.
    unfold id_byte in Hc. apply negb_true_iff in Hc. by rewrite Hc, IH.
Qed.

Lemma extractQueryID_path req id rest :
  id ≠ "" → str_forallb id_byte id = true →
  match rest with String c _ => id_byte c = false | "" => True end →
  RequestURI req = queryPrefix +:+ id +:+ rest → extractQueryID req = id.
Proof.
  intros Hn Hid Hr Hu. unfold extractQueryID. rewrite Hu, has_prefix_app, str_drop_app.
  rewrite id_prefix_app by done. rewrite str_length_app. destruct id as [|c id]; [done|].
  rewrite str_app_cons. cbn [String.length]. case_bools; [done|].
  exfalso. apply andb_false_iff in Heqb as [Hl|Hl]; [|done]. apply Nat.ltb_ge in Hl.
  destruct (_ +:+ _); cbn in Hl; lia.
Qed.

(** ** Theorems *)
Section router_theorems.
Context {C : Type} `{LRU C} {W : Type} (svc : services W) (cfg : RoutingConfig).

(** C14: Sticky routing: once [WriteCache] has stored a query's backend, a request for
    [/v1/query/<id>] goes to that backend, without any external call, for as long as
    fewer than the cache's capacity of operations on other queries intervene. *)
Theorem sticky_route (s : router_state C W) (os : list cache_op) id b rest req :
  (length os < lru_cap (rs_cache s))%nat → Forall (λ o, op_key o ≠ id) os →
  id ≠ "" → str_forallb id_byte id = true →
  match rest with String c _ => id_byte c = false | "" => True end →
  RequestURI req = queryPrefix +:+ id +:+ rest → extractKillQueryID (Body req) = "" →
  let s1 := snd (WriteCache id b s) in
  let s2 := mkRouterState (run_ops (rs_cache s1) os) (rs_world s1) (rs_metrics s1) in
  let '(r, s3) := Route svc cfg req s2 in
  r = mkRouteResult b "" ∅ [] OutcomeOK ∧ rs_world s3 = rs_world s
  ∧ rs_metrics s3 = rs_metrics s ++ [CacheEvent CacheEventHit].
Proof.
  intros Hl Hos Hn Hid Hr Hu Hk. cbv zeta. unfold WriteCache. cbn [snd rs_cache rs_world rs_metrics].
  pose proof (cache_set_get id b os (rs_cache s) Hl Hos) as Hget.
  unfold Route, route_kill, route_cached, cacheGet, mbind, R_bind. rewrite Hk, seqb_refl. cbn [mret R_ret].
  rewrite (extractQueryID_path req id rest Hn Hid Hr Hu). apply seqb_neq in Hn as ->. cbn [rs_cache].
  destruct (cache_get id _) as [v c]. cbn in Hget. subst v. cbn. done.
Qed.

(** Every backend [Route] selects was vouched for: it is cached, recorded in history
    or listed as active, so any property those share holds of it, and the cache
    keeps the property. *)
Theorem route_provenance (P : string → Prop) (s : router_state C W) req :
  good_services svc P → cache_good P s →
  (let u := BackendURL (fst (Route svc cfg req s)) in u = "" ∨ P u)
  ∧ cache_good P (snd (Route svc cfg req s)).
Proof.
  intros GS Hs. by destruct (Route_url svc cfg P _ (good_picks svc P GS) (good_recovers svc P GS) req s Hs).
Qed.

(** A header of the routing service's answer survives exactly when its name, compared
    case-insensitively, is not in [excludeHeaders]. *)
Theorem external_headers_filtered hs k :
  filterExcludedHeaders cfg hs !! k =
  if decide (canonical_header_key k ∈ canonical_header_key <$> ExcludeHeaders (External cfg))
  then None else hs !! k.
Proof.
  unfold filterExcludedHeaders, buildExcludeSet.
  destruct (ExcludeHeaders (External cfg)) as [|e ex]; [by destruct (decide _) as [X|X]; [inversion X|]|].
  destruct (decide _) as [Hin|Hout].
  - apply map_lookup_filter_None. right. intros v _ Hno. apply Hno. by apply elem_of_list_to_set.
  - apply option_eq. intros v. rewrite map_lookup_filter_Some. split; [by intros []|].
    intros Hv. split; [done|]. by rewrite elem_of_list_to_set.
Qed.

(** A poll of [/v1/statement/...] never names a query: the id is only read from
    [/v1/query/<id>]. *)
Theorem statement_path_has_no_query_id req :
  has_prefix "/v1/statement" (RequestURI req) = true → extractQueryID req = "".
Proof.
  intros Hp. apply has_prefix_spec in Hp as [r Hr]. unfold extractQueryID. rewrite Hr.
  replace (has_prefix queryPrefix _) with false by (by rewrite !str_app_cons).
  by rewrite andb_false_r.
Qed.
End router_theorems.

(** ** Witnesses *)
Definition w_backend (n u g : string) : ActiveBackend := mkActiveBackend n u g.

(** Two active backends, an empty history, no probe answers, an external service
    that selects group etl. *)
Definition w_services : services unit :=
  mkServices unit
    (λ w, (Ok [w_backend "b1" "http://b1" "adhoc"; w_backend "b2" "http://b2" "etl"], w))
    (λ _ w, (("", None), w)) (λ _ _, true)
    (λ _ _ w, (COk (Response 200 ∅ (print_json (JObj [("routingGroup", JStr "etl")])) None), w))
    (λ _ w, (CErr (mkCallError "refused" false), w)) None (λ l, l).
Definition w_cfg : RoutingConfig :=
  mkRoutingConfig "adhoc" "EXTERNAL" (mkExternalConfig "http://router/select" "" 1000000000 ["X-Internal"]).
Definition w_req (uri : string) : RouteInput :=
  mkRouteInput "GET" uri "" "10.0.0.1:5000" "gw" "alice" "" ∅ ∅.
Definition w_state : router_state list_lru unit := mkRouterState (ListLru 4096 []) tt [].

Lemma route_priority_witness :
  let r := fst (Route w_services w_cfg (w_req "/v1/info") w_state) in
  (BackendURL r, Outcome r) = ("http://b2", "ok").
Proof.
  cbv zeta. rewrite (route_priority w_services w_cfg (w_req "/v1/info") w_state); [|constructor].
  vm_compute. reflexivity.
Defined.

Lemma sticky_route_witness :
  let s1 := snd (WriteCache "q_1" "http://b1" w_state) in
  let s2 := mkRouterState (run_ops (rs_cache s1) [OpSet "q_2" "http://b2"]) tt (rs_metrics s1) in
  let '(r, s3) := Route w_services w_cfg (w_req "/v1/query/q_1?pretty") s2 in
  r = mkRouteResult "http://b1" "" ∅ [] OutcomeOK ∧ rs_world s3 = tt
  ∧ rs_metrics s3 = [CacheEvent CacheEventHit].
Proof.
  apply (sticky_route w_services w_cfg w_state [OpSet "q_2" "http://b2"] "q_1" "http://b1" "?pretty").
  - cbn. lia.
  - repeat constructor. discriminate.
  - discriminate.
  - reflexivity.
  - reflexivity.
  - reflexivity.
  - reflexivity.
Defined.

Lemma route_provenance_witness :
  let P u := u = "http://b1" ∨ u = "http://b2" in
  (let u := BackendURL (fst (Route w_services w_cfg (w_req "/v1/info") w_state)) in u = "" ∨ P u)
  ∧ cache_good P (snd (Route w_services w_cfg (w_req "/v1/info") w_state)).
Proof.
  intros P. apply (route_provenance w_services w_cfg P w_state (w_req "/v1/info")); [split|constructor].
  - intros w. constructor; [left; reflexivity|].
    constructor; [right; reflexivity|constructor].
  - intros q w. left. reflexivity.
  - intros l. reflexivity.
Defined.

Lemma statement_path_has_no_query_id_witness :
  extractQueryID (w_req "/v1/statement/executing/20240101_000000_00001_abcde/y/1") = "".
Proof. apply statement_path_has_no_query_id. reflexivity. Defined.
