(* ===== verification/Cookie.v ===== *)
(** * The gateway cookie (internal/proxy/cookie.go)

    Issuing, signing, encoding, validating and deleting the TG.OAUTH2 cookie, with the
    JSON, base64 and HMAC-SHA256 the code calls computed. The wall clock is an
    argument, in nanoseconds since the epoch. *)
From S2P Require Import Prelude GoStrings GoNumeric Json Codec HttpModel Config.

#[local] Open Scope Z_scope.

Definition cookieName := "TG.OAUTH2".

Record UnsignedGatewayCookie : Type := mkUnsigned {
  u_Backend : option string; u_DeletePaths : option (list string); u_Name : string;
  u_Payload : option string; u_Priority : Z; u_RoutingPaths : option (list string);
  u_Ts : Z; u_Ttl : string }.
Record GatewayCookie : Type := mkGatewayCookie {
  Backend : option string; DeletePaths : option (list string); Name : string;
  Payload : option string; Priority : Z; RoutingPaths : option (list string);
  Signature : string; Ts : Z; Ttl : string }.

Definition jstrs_opt (o : option (list string)) : json :=
  match o with Some l => jstrs l | None => JNull end.

(** [json.Marshal] of the two structs: fields in declaration order, nil as null. *)
Definition unsigned_json (u : UnsignedGatewayCookie) : json :=
  JObj [("backend", jopt (u_Backend u)); ("deletePaths", jstrs_opt (u_DeletePaths u));
        ("name", JStr (u_Name u)); ("payload", jopt (u_Payload u)); ("priority", jint (u_Priority u));
        ("routingPaths", jstrs_opt (u_RoutingPaths u)); ("ts", jint (u_Ts u)); ("ttl", JStr (u_Ttl u))].
Definition cookie_json (g : GatewayCookie) : json :=
  JObj [("backend", jopt (Backend g)); ("deletePaths", jstrs_opt (DeletePaths g));
        ("name", JStr (Name g)); ("payload", jopt (Payload g)); ("priority", jint (Priority g));
        ("routingPaths", jstrs_opt (RoutingPaths g)); ("signature", JStr (Signature g));
        ("ts", jint (Ts g)); ("ttl", JStr (Ttl g))].

(** Decoding into [GatewayCookie]. *)
Definition set_cookie_field (k : string) (v : json) (g : GatewayCookie) : GatewayCookie * bool :=
  let '(mkGatewayCookie b dp n pl pr rp sg ts tl) := g in
  if field_is "backend" k then
    let '(x, e) := dec_ptr_string b v in (mkGatewayCookie x dp n pl pr rp sg ts tl, e)
  else if field_is "deletePaths" k then
    let '(x, e) := dec_strings dp v in (mkGatewayCookie b x n pl pr rp sg ts tl, e)
  else if field_is "name" k then
    let '(x, e) := dec_string n v in (mkGatewayCookie b dp x pl pr rp sg ts tl, e)
  else if field_is "payload" k then
    let '(x, e) := dec_ptr_string pl v in (mkGatewayCookie b dp n x pr rp sg ts tl, e)
  else if field_is "priority" k then
    let '(x, e) := dec_int pr v in (mkGatewayCookie b dp n pl x rp sg ts tl, e)
  else if field_is "routingPaths" k then
    let '(x, e) := dec_strings rp v in (mkGatewayCookie b dp n pl pr x sg ts tl, e)
  else if field_is "signature" k then
    let '(x, e) := dec_string sg v in (mkGatewayCookie b dp n pl pr rp x ts tl, e)
  else if field_is "ts" k then
    let '(x, e) := dec_int ts v in (mkGatewayCookie b dp n pl pr rp sg x tl, e)
  else if field_is "ttl" k then
    let '(x, e) := dec_string tl v in (mkGatewayCookie b dp n pl pr rp sg ts x, e)
  else (g, false).
Definition zero_cookie : GatewayCookie := mkGatewayCookie None None "" None 0 None "" 0 "".

Section cookie.
Context (cfg : CookieConfig).

(** ** Signing and encoding *)
Definition sign (u : UnsignedGatewayCookie) : string :=
  hex_encode (hmac_sha256 (Secret cfg) (print_json (unsigned_json u))).

(** [wireCompat] pads. *)
Definition encodeCookie (g : GatewayCookie) : string :=
  b64_encode true (WireCompat cfg) (print_json (cookie_json g)).
Definition decodeCookie (value : string) : option string :=
  b64_decode true (WireCompat cfg) value.

(** ** TTL strings *)
Definition airlift_units : list (Z * string) :=
  [(24 * Hour, "d"); (Hour, "h"); (Minute, "m"); (Second, "s"); (Millisecond, "ms");
   (Microsecond, "us"); (1, "ns")].

Definition airliftDurationString (d : Z) : string :=
  let nanos := f64_of_Z d in
  match find_first (λ u, f64_leb (f64_of_Z 1) (f64_div nanos (f64_of_Z (fst u)))) airlift_units with
  | Some (div, name) => fmt_2f (f64_div nanos (f64_of_Z div)) +:+ name
  | None => fmt_2f nanos +:+ "ns"
  end.

Definition formatTTL (d : Z) : string :=
  if WireCompat cfg then airliftDurationString d else z_to_dec d.

(** [Sscanf(s, "%f", &f)] on a decimal token: sign, digits, fraction, exponent. *)
Definition sscanf_f (s : string) : option f64 :=
  let '(sg, r) := take_sign (skip_blanks s) in
  let '(int, r) := digits_run r in
  let '(frac, r) := match r with
                    | String c r1 => if Ascii.eqb c "." then digits_run r1 else (EmptyString, r)
                    | EmptyString => (EmptyString, r)
                    end in
  let e10 := match r with
             | String c r1 =>
                 if Ascii.eqb c "e" || Ascii.eqb c "E" then
                   let '(es, r2) := take_sign r1 in
                   match digits_run r2 with
                   | (EmptyString, _) => None
                   | (ds, _) => Some (if es =?s "-" then - Z.of_N (dec_val 0 ds) else Z.of_N (dec_val 0 ds))
                   end
                 else Some 0
             | EmptyString => Some 0
             end in
  if (int =?s "") && (frac =?s "") then None else
  e ← e10;
  let x := f64_of_dec (sg =?s "-") (dec_val 0 (int +:+ frac)) (e - Z.of_nat (String.length frac)) in
  if f64_is_inf x then None else Some x.

Definition ttl_suffixes : list (string * Z) :=
  [("d", 24 * Hour); ("h", Hour); ("ms", Millisecond); ("us", Microsecond); ("ns", Nanosecond);
   ("m", Minute); ("s", Second)].

(** The loop over the airlift suffixes. *)
Fixpoint parse_airlift (s : string) (us : list (string * Z)) : Z :=
  match us with
  | [] => 0
  | (suffix, mult) :: us =>
      if has_suffix suffix s then
        match sscanf_f (trim_suffix suffix s) with
        | Some f => f64_to_int64 (f64_mul f (f64_of_Z mult))
        | None => parse_airlift s us
        end
      else parse_airlift s us
  end.

Definition parseTTL (s : string) : Z :=
  match sscanf_d s with
  | Some ns => if contains_any s "dhms" then
                 match parse_duration s with Some d => d | None => parse_airlift s ttl_suffixes end
               else ns
  | None => match parse_duration s with Some d => d | None => parse_airlift s ttl_suffixes end
  end.

(** ** The life cycle *)

(** [time.Since(time.UnixMilli(ts))] at wall clock [now], saturated as [Time.Sub]. *)
Definition since_ms (now ts : Z) : Z := Z.max int64_min (Z.min int64_max (now - ts * 1000000)).

(** Valid, delete paths, tampered. *)
Definition validateCookie (now : Z) (value : string) : bool * list string * bool :=
  match decodeCookie value with
  | None => (false, [], true)
  | Some raw =>
      let '(gc, bad) := unmarshal set_cookie_field zero_cookie raw in
      if bad : bool then (false, [], true) else
      let unsigned := mkUnsigned (Backend gc) (DeletePaths gc) (Name gc) (Payload gc) (Priority gc)
                        (RoutingPaths gc) (Ts gc) (Ttl gc) in
      if negb (sign unsigned =?s Signature gc) then (false, [], true) else
      let ttlDur := parseTTL (Ttl gc) in
      if (0 <? ttlDur) && (ttlDur <? since_ms now (Ts gc)) then (false, [], false)
      else (true, from_opt [] (DeletePaths gc), false)
  end.

Definition unsigned_of (now : Z) (backendURL : string) : UnsignedGatewayCookie :=
  mkUnsigned (Some backendURL) (Some ["/logout"; "/oauth2/logout"]) cookieName None 0
    (Some ["/oauth2"; "/logout"; "/oauth2/logout"]) (now / 1000000) (formatTTL (TTL cfg)).

(** The cookie set on the response; signing and encoding cannot fail. *)
Definition issueCookie (now : Z) (backendURL : string) : set_cookie :=
  let u := unsigned_of now backendURL in
  let gc := mkGatewayCookie (u_Backend u) (u_DeletePaths u) (u_Name u) (u_Payload u) (u_Priority u)
              (u_RoutingPaths u) (sign u) (u_Ts u) (u_Ttl u) in
  SetCookie cookieName (encodeCookie gc) "/" (Z.quot (Z.quot (TTL cfg) 1000000) 1000) true false SameSiteLax.

Definition deleteCookie : set_cookie :=
  SetCookie cookieName "delete" "/" (-1) false false SameSiteDefault.

Definition matchesAny (path : string) (paths : list string) : bool :=
  existsb (λ p, p =?s path) paths.

(** What [applyCookies] adds to the response, [None] when it reports tampering. *)
Definition applyCookies (now : Z) (r : request) (backendURL : string) : option (list set_cookie) :=
  if Secret cfg =?s "" then Some [] else
  match req_cookie r cookieName with
  | Some value =>
      let '(valid, deletePaths, tampered) := validateCookie now value in
      if tampered : bool then None
      else if negb valid then Some [deleteCookie]
      else if matchesAny (url_path (req_url r)) deletePaths then Some [deleteCookie]
      else Some []
  | None =>
      if has_prefix "/oauth2" (url_path (req_url r)) then Some [issueCookie now backendURL] else Some []
  end.

(** ** Lemmas *)
Lemma dec_elems_strs l : dec_elems [] (map JStr l) = (l, false).
Proof. induction l as [|x l IH]; [done|]. cbn. by rewrite IH. Qed.

Lemma dec_strings_opt o : dec_strings None (jstrs_opt o) = (o, false).
Proof. destruct o as [l|]; [|done]. cbn. by rewrite dec_elems_strs. Qed.

Lemma dec_ptr_opt o : dec_ptr_string None (jopt o) = (o, false).
Proof. by destruct o. Qed.

Lemma dec_int_jint old z : in_int64 z → dec_int old (jint z) = (z, false).
Proof. intros Hz. unfold jint, dec_int. by rewrite parse_int_dec. Qed.

Definition ascii_opt (o : option string) : bool := match o with Some s => all_ascii s | None => true end.
Definition ascii_strs (o : option (list string)) : bool :=
  match o with Some l => forallb all_ascii l | None => true end.

(** A cookie whose text is ASCII and whose numbers are machine integers. *)
Definition cookie_wf (g : GatewayCookie) : Prop :=
  ascii_opt (Backend g) = true ∧ ascii_strs (DeletePaths g) = true ∧ all_ascii (Name g) = true
  ∧ ascii_opt (Payload g) = true ∧ in_int64 (Priority g) ∧ ascii_strs (RoutingPaths g) = true
  ∧ all_ascii (Signature g) = true ∧ in_int64 (Ts g) ∧ all_ascii (Ttl g) = true.

Lemma wf_jint z : in_int64 z → wf_json (jint z) = true.
Proof. intros Hz. unfold jint. cbn [wf_json]. by rewrite parse_int_dec, seqb_refl. Qed.

Lemma wf_jopt o : ascii_opt o = true → wf_json (jopt o) = true.
Proof. by destruct o. Qed.

Lemma wf_jstrs o : ascii_strs o = true → wf_json (jstrs_opt o) = true.
Proof.
  destruct o as [l|]; [|done]. cbn. induction l as [|x l IH]; [done|]. cbn.
  rewrite !andb_true_iff. intros [? ?]. auto.
Qed.

Lemma jheight_jstrs o : (jheight (jstrs_opt o) ≤ 1)%nat.
Proof.
  destruct o as [l|]; [|cbn; lia]. cbn. apply le_n_S.
  induction l as [|x l IH]; cbn; [lia|]. exact IH.
Qed.

Lemma cookie_json_wf g : cookie_wf g → wf_json (cookie_json g) = true.
Proof.
  intros (H1 & H2 & H3 & H4 & H5 & H6 & H7 & H8 & H9).
  cbn [wf_json cookie_json forallb fst snd].
  rewrite !wf_jopt, !wf_jstrs, !wf_jint, H3, H7, H9 by done. done.
Qed.

Lemma cookie_json_height g : (jheight (cookie_json g) ≤ 2)%nat.
Proof.
  cbn [jheight cookie_json foldr snd].
  pose proof (jheight_jstrs (DeletePaths g)). pose proof (jheight_jstrs (RoutingPaths g)).
  assert (∀ o, jheight (jopt o) = 0%nat) as Ho by (by intros []). rewrite !Ho. cbn [jheight jint]. lia.
Qed.

(** The JSON of a cookie decodes to the cookie. *)
Lemma cookie_unmarshal g :
  cookie_wf g → unmarshal set_cookie_field zero_cookie (print_json (cookie_json g)) = (g, false).
Proof.
  intros Hw. unfold unmarshal. rewrite unmarshal_print.
  - destruct Hw as (_ & _ & _ & _ & H5 & _ & _ & H8 & _). destruct g as [b dp n pl pr rp sg ts tl].
    cbn in H5, H8. unfold cookie_json. cbn [dec_struct foldl Backend DeletePaths Name Payload Priority
      RoutingPaths Signature Ts Ttl].
    unfold zero_cookie.
    repeat match goal with
    | |- context [set_cookie_field ?k ?v (mkGatewayCookie ?a1 ?a2 ?a3 ?a4 ?a5 ?a6 ?a7 ?a8 ?a9)] =>
        let r := eval cbv beta iota zeta delta [set_cookie_field] in
          (set_cookie_field k v (mkGatewayCookie a1 a2 a3 a4 a5 a6 a7 a8 a9)) in
        change (set_cookie_field k v (mkGatewayCookie a1 a2 a3 a4 a5 a6 a7 a8 a9)) with r;
        repeat match goal with |- context [field_is ?x ?y] =>
          let t := eval vm_compute in (field_is x y) in change (field_is x y) with t end;
        cbv beta iota zeta;
        rewrite ?dec_ptr_opt, ?dec_strings_opt, ?dec_int_jint by done; cbn [dec_string orb]
    end. done.
  - by apply cookie_json_wf.
  - pose proof (cookie_json_height g). unfold max_nesting_depth. lia.
Qed.

Lemma decode_encode g : decodeCookie (encodeCookie g) = Some (print_json (cookie_json g)).
Proof. apply b64_roundtrip. Qed.

(** Validation of an encoded cookie looks only at its fields. *)
Lemma validate_encoded now g :
  cookie_wf g →
  validateCookie now (encodeCookie g) =
    if negb (sign (mkUnsigned (Backend g) (DeletePaths g) (Name g) (Payload g) (Priority g)
                     (RoutingPaths g) (Ts g) (Ttl g)) =?s Signature g) then (false, [], true)
    else if (0 <? parseTTL (Ttl g)) && (parseTTL (Ttl g) <? since_ms now (Ts g)) then (false, [], false)
    else (true, from_opt [] (DeletePaths g), false).
Proof. intros Hw. unfold validateCookie. by rewrite decode_encode, cookie_unmarshal. Qed.

Lemma formatTTL_ascii d : all_ascii (formatTTL d) = true.
Proof.
  unfold formatTTL. destruct (WireCompat cfg).
  - unfold airliftDurationString. unfold all_ascii.
    destruct (find_first _ airlift_units) as [[div name]|] eqn:E.
    + rewrite str_forallb_app. fold (all_ascii (fmt_2f (f64_div (f64_of_Z d) (f64_of_Z div)))).
      rewrite fmt_2f_ascii. apply find_first_Some in E as [Hin _].
      unfold airlift_units in Hin. set_unfold in Hin. naive_solver.
    + rewrite str_forallb_app. fold (all_ascii (fmt_2f (f64_of_Z d))). by rewrite fmt_2f_ascii.
  - eapply str_forallb_impl, z_to_dec_chars. intros c.
    apply implb_true_iff. revert c.
    apply (ascii_forall (λ c, implb (digit_or_minus c) (is_ascii c))). by vm_compute.
Qed.

(** Without wire compatibility a TTL is read back exactly. *)
Lemma ttl_roundtrip d : WireCompat cfg = false → in_int64 d → parseTTL (formatTTL d) = d.
Proof.
  intros Hw Hd. unfold parseTTL, formatTTL. rewrite Hw, sscanf_d_dec by done.
  rewrite (contains_any_none digit_or_minus); [done| |apply z_to_dec_chars].
  assert (Hc : ∀ c, implb (digit_or_minus c) (negb (mem_byte c "dhms")) = true).
  { apply (ascii_forall (λ c, implb (digit_or_minus c) (negb (mem_byte c "dhms")))). by vm_compute. }
  intros c Hm. specialize (Hc c). rewrite Hm in Hc. by apply negb_true_iff in Hc.
Qed.

(** The signed cookie of a backend. *)
Definition issued (now : Z) (backendURL : string) : GatewayCookie :=
  let u := unsigned_of now backendURL in
  mkGatewayCookie (u_Backend u) (u_DeletePaths u) (u_Name u) (u_Payload u) (u_Priority u)
    (u_RoutingPaths u) (sign u) (u_Ts u) (u_Ttl u).

Lemma issued_wf now b :
  all_ascii b = true → in_int64 (now / 1000000) → cookie_wf (issued now b).
Proof.
  intros Hb Hn. unfold cookie_wf, issued. cbn [Backend DeletePaths Name Payload Priority RoutingPaths
    Signature Ts Ttl unsigned_of u_Backend u_DeletePaths u_Name u_Payload u_Priority u_RoutingPaths u_Ts u_Ttl].
  split_and!; try done.
  - apply hex_encode_ascii.
  - apply formatTTL_ascii.
Qed.
End cookie.

(** ** Theorems *)

(** C28: A cookie the gateway issues validates under the same configuration: it is never
    taken for tampered, it carries the two delete paths, and it is valid until its
    encoded TTL has passed. *)
Theorem issued_cookie_validates cfg now now' b :
  all_ascii b = true → in_int64 (now / 1000000) →
  validateCookie cfg now' (sc_value (issueCookie cfg now b)) =
    let ttl := parseTTL (formatTTL cfg (TTL cfg)) in
    if (0 <? ttl) && (ttl <? since_ms now' (now / 1000000)) then (false, [], false)
    else (true, ["/logout"; "/oauth2/logout"], false).
Proof.
  intros Hb Hn. change (sc_value (issueCookie cfg now b)) with (encodeCookie cfg (issued cfg now b)).
  rewrite validate_encoded by (by apply issued_wf).
  replace (sign cfg _ =?s Signature _) with true by (symmetry; apply seqb_refl). done.
Qed.

(** Without wire compatibility the encoded TTL is the configured one, so a cookie is
    accepted exactly while no more than the configured TTL has elapsed. *)
Theorem native_ttl_exact cfg now now' b :
  all_ascii b = true → in_int64 (now / 1000000) → WireCompat cfg = false →
  in_int64 (TTL cfg) → 0 < TTL cfg →
  fst (fst (validateCookie cfg now' (sc_value (issueCookie cfg now b)))) = true
  ↔ since_ms now' (now / 1000000) ≤ TTL cfg.
Proof.
  intros Hb Hn Hw Ht Hp. change (sc_value (issueCookie cfg now b)) with (encodeCookie cfg (issued cfg now b)).
  rewrite validate_encoded by (by apply issued_wf).
  replace (sign cfg _ =?s Signature _) with true by (symmetry; apply seqb_refl).
  cbn [negb Ttl Ts issued unsigned_of u_Ttl u_Ts]. rewrite ttl_roundtrip by done.
  assert ((0 <? TTL cfg) = true) as -> by lia. cbn [andb].
  destruct (TTL cfg <? since_ms now' (now / 1000000)) eqn:E; cbn; split; intros; try done; lia.
Qed.

(** A cookie whose signature is not the HMAC of its other fields is reported as
    tampered, and the response gets no cookie: the caller answers 500. *)
Theorem forged_cookie_rejected cfg now g r b :
  cookie_wf g → Secret cfg ≠ "" →
  Signature g ≠ sign cfg (mkUnsigned (Backend g) (DeletePaths g) (Name g) (Payload g) (Priority g)
                            (RoutingPaths g) (Ts g) (Ttl g)) →
  req_cookie r cookieName = Some (encodeCookie cfg g) →
  applyCookies cfg now r b = None.
Proof.
  intros Hg Hs Hsig Hr. unfold applyCookies. apply seqb_neq in Hs as ->. rewrite Hr.
  rewrite validate_encoded by done. replace (sign cfg _ =?s _) with false; [done|].
  symmetry. apply seqb_neq. congruence.
Qed.

(** A cookie that is not base64 at all is reported as tampered too, not as the
    deletable malformed cookie the comment on [validateCookie] describes. *)
Theorem malformed_cookie_is_tampered cfg now value :
  decodeCookie cfg value = None → validateCookie cfg now value = (false, [], true).
Proof. intros H. unfold validateCookie. by rewrite H. Qed.

(** ** Witnesses *)
Definition w_wire : CookieConfig := mkCookieConfig "s3cret" (10 * Minute) true.
Definition w_native : CookieConfig := mkCookieConfig "s3cret" (10 * Minute) false.

(** The default configuration: valid nine minutes after issue, expired after eleven. *)
Lemma issued_cookie_validates_witness :
  validateCookie w_wire (1700000540 * Second) (sc_value (issueCookie w_wire (1700000000 * Second) "http://b1"))
    = (true, ["/logout"; "/oauth2/logout"], false)
  ∧ validateCookie w_wire (1700000660 * Second) (sc_value (issueCookie w_wire (1700000000 * Second) "http://b1"))
    = (false, [], false).
Proof.
  split; (rewrite issued_cookie_validates; [vm_compute; reflexivity | reflexivity | vm_compute; split; discriminate]).
Defined.

Lemma native_ttl_exact_witness :
  fst (fst (validateCookie w_native (1700000600 * Second)
              (sc_value (issueCookie w_native (1700000000 * Second) "http://b1")))) = true
  ↔ since_ms (1700000600 * Second) (1700000000 * Second / 1000000) ≤ 10 * Minute.
Proof.
  apply (native_ttl_exact w_native); [reflexivity | vm_compute; split; discriminate | reflexivity
    | vm_compute; split; discriminate | vm_compute; reflexivity].
Defined.

Definition w_forged : GatewayCookie :=
  mkGatewayCookie (Some "http://evil") None cookieName None 0 None "00" 1700000000000 "10.00m".
Definition w_cookie_request : request :=
  Request "GET" (Url "" "" "" "" "/ui" "" "" false "") "gw" "10.0.0.1:1" false ∅ ∅
    [(cookieName, encodeCookie w_wire w_forged)] (Ok "").

Lemma forged_cookie_rejected_witness :
  applyCookies w_wire (1700000000 * Second) w_cookie_request "http://b1" = None.
Proof.
  apply (forged_cookie_rejected w_wire (1700000000 * Second) w_forged).
  - repeat split; vm_compute; discriminate.
  - discriminate.
  - vm_compute. discriminate.
  - reflexivity.
Defined.

Lemma malformed_cookie_is_tampered_witness :
  validateCookie w_wire 0 "!!not base64!!" = (false, [], true).
Proof. apply malformed_cookie_is_tampered. vm_compute. reflexivity. Defined.
