(* ===== verification/Forward.v ===== *)
(** * The proxy (internal/proxy: proxy.go, headers.go, forward.go)

    The two handlers in a state monad whose state is the router's, the response
    header map under construction, and the trace of observable events in order:
    upstream calls, cache and history writes, metric calls, response writes. The
    router is used through the class [RouterOps], the [Router] interface of
    proxy.go; [StickyRouter] adds the law the proxy relies on. *)
From S2P Require Import Prelude GoStrings Json HttpModel Config Lru KillQuery Routing Cookie.

(** ** The router interface *)
Class RouterOps (S : Type) : Type := {
  r_Route : RouteInput → ST S (go_result RouteResult);
  r_WriteCache : string → string → ST S unit }.

(** A router that remembers: after [WriteCache id b], a request for [/v1/query/<id>]
    that is no KILL QUERY statement is sent to [b]. *)
Class StickyRouter (S : Type) `{RouterOps S} : Type := {
  r_wf : S → Prop;
  r_wf_route s req : r_wf s → r_wf (snd (r_Route req s));
  r_sticky s id b rest req :
    r_wf s → id ≠ "" → str_forallb id_byte id = true →
    match rest with String c _ => id_byte c = false | "" => True end →
    RequestURI req = queryPrefix +:+ id +:+ rest → extractKillQueryID (Body req) = "" →
    fst (r_Route req (snd (r_WriteCache id b s))) = Ok (mkRouteResult b "" ∅ [] OutcomeOK) }.

(** The gateway's router implements it, with a cache of any positive capacity. *)
#[global] Instance Router_ops {C W} `{LRU C} (svc : services W) (cfg : RoutingConfig)
    : RouterOps (router_state C W) := {
  r_Route req := λ s, let '(r, s') := Route svc cfg req s in (Ok r, s');
  r_WriteCache := WriteCache }.

#[global] Instance Router_sticky {C W} `{LRU C} (svc : services W) (cfg : RoutingConfig)
    : @StickyRouter (router_state C W) (Router_ops svc cfg).
Proof.
  refine (@Build_StickyRouter _ _ (λ s, (0 < lru_cap (rs_cache s))%nat) _ _).
  { intros s req Hs. cbn. pose proof (Route_keeps_cap svc cfg req s) as Hc.
    destruct (Route svc cfg req s) as [r s']. cbn in *. by rewrite Hc. }
  intros s id b rest req Hs Hn Hid Hr Hu Hk. cbn.
  pose proof (cache_set_get id b [] (rs_cache s) Hs (Forall_nil_2 _)) as Hget. cbn in Hget.
  unfold Route, route_kill, route_cached, cacheGet, mbind, R_bind. rewrite Hk, seqb_refl. cbn [mret R_ret].
  rewrite (extractQueryID_path req id rest Hn Hid Hr Hu). apply seqb_neq in Hn as ->. cbn [rs_cache].
  destruct (cache_get id _) as [v c]. cbn in Hget. subst v. done.
Defined.

(** ** Headers (headers.go) *)
Definition hopByHopHeaders : list string :=
  ["Connection"; "Keep-Alive"; "Proxy-Authenticate"; "Proxy-Authorization"; "Te"; "Trailers";
   "Transfer-Encoding"; "Upgrade"].
Definition isHopByHop (name : string) : bool :=
  existsb (String.eqb (canonical_header_key name)) hopByHopHeaders.

(** [dst[k] = vv] for every key that is not hop-by-hop. *)
Definition copyHeaders (dst src : header) : header :=
  filter (λ '(k, _), isHopByHop k = false) src ∪ dst.

Definition hostOnly (hostHeader : string) : string :=
  match hostHeader with
  | EmptyString => hostHeader
  | String c _ =>
      if Ascii.eqb c "[" then
        match index_byte "]" hostHeader with
        | Some e => str_take (e + 1) hostHeader
        | None => hostHeader
        end
      else match last_index_byte ":" hostHeader with
           | Some i => str_take i hostHeader
           | None => hostHeader
           end
  end.

Definition forwardedPort (hostHeader proto : string) : string :=
  let default := if proto =?s "https" then "443" else "80" in
  match hostHeader with
  | EmptyString => default
  | String c _ =>
      if Ascii.eqb c "[" then
        match index_byte "]" hostHeader with
        | Some e =>
            match str_drop (e + 1) hostHeader with
            | String d port => if Ascii.eqb d ":" then port else default
            | EmptyString => default
            end
        | None => default
        end
      else match last_index_byte ":" hostHeader with
           | Some i => str_drop (i + 1) hostHeader
           | None => default
           end
  end.

(** [injectHeaders] on the upstream request's header map. *)
Definition clientIP (r : request) : string :=
  match last_index_byte ":" (req_remote_addr r) with
  | Some i => str_take i (req_remote_addr r)
  | None => req_remote_addr r
  end.
Definition proto (r : request) : string := if req_tls r then "https" else "http".

Definition injectHeaders (up : header) (r : request) (ext : gmap string string) : header :=
  let existing := hdr_get up "X-Forwarded-For" in
  let h := hdr_set "X-Forwarded-For"
             (if existing =?s "" then clientIP r else existing +:+ ", " +:+ clientIP r) up in
  let h := hdr_set "X-Forwarded-Proto" (proto r) h in
  let h := hdr_set "X-Forwarded-Host" (hostOnly (req_host r)) h in
  let h := hdr_set "X-Forwarded-Port" (forwardedPort (req_host r) (proto r)) h in
  foldl (λ h '(k, v), hdr_set k v h) h (map_to_list ext).

(** ** Events and state *)
Inductive event : Type :=
| EvUpstream (req : out_request)
| EvCacheWrite (queryID backendURL : string)
| EvHistoryInsert (queryID backendURL userName source : string)
| EvRequestHandled (backend routingGroup outcome : string)
| EvUpstreamDuration (backend : string)
| EvOversizedResponse
| EvStatementCacheWrite
| EvWriteHeader (status : Z) (h : header) (cookies : list set_cookie)
| EvWrite (body : string)
| EvPanic.

(** What the proxy is constructed with, besides the router. *)
Record proxy_env (V : Type) : Type := mkProxyEnv {
  px_cfg : ProxyConfig;
  px_cookie : CookieConfig;
  (* the proxy client's [Do] *)
  px_client_do : out_request → ST V (go_result response);
  (* [HistoryRecorder.Insert] when wired: its error, if any *)
  px_history : option (string → string → string → string → ST V (option string));
  (* whether a metrics recorder is wired *)
  px_metrics : bool;
  (* [url.Parse], and whether [http.NewRequestWithContext] accepts a method and URL *)
  px_url_parse : string → option url;
  px_new_request_ok : string → string → bool;
  (* the wall clock of the request, nanoseconds since the epoch *)
  px_now : Z;
  (* the methods chi's router knows besides [chi_methods] *)
  px_more_methods : string → bool }.
Arguments px_cfg {V}.
Arguments px_cookie {V}.
Arguments px_client_do {V}.
Arguments px_history {V}.
Arguments px_metrics {V}.
Arguments px_url_parse {V}.
Arguments px_new_request_ok {V}.
Arguments px_now {V}.
Arguments px_more_methods {V}.

Section proxy.
Context {S : Type} `{RouterOps S} {V : Type} (env : proxy_env V).

(** The router, the rest of the world, the response header map, the events. *)
Record proxy_state : Type := mkProxyState {
  ps_router : S; ps_world : V; ps_header : header; ps_events : list event }.

Definition P (A : Type) : Type := ST proxy_state A.
#[global] Instance P_ret : MRet P := λ A a, λ s, (a, s).
#[global] Instance P_bind : MBind P := λ A B f m, λ s, let '(a, s') := m s in f a s'.

Definition emit (e : event) : P unit := λ s,
  (tt, mkProxyState (ps_router s) (ps_world s) (ps_header s) (ps_events s ++ [e])).
Definition lift {A} (m : ST S A) : P A := λ s,
  let '(a, r) := m (ps_router s) in (a, mkProxyState r (ps_world s) (ps_header s) (ps_events s)).
Definition outside {A} (m : ST V A) : P A := λ s,
  let '(a, w) := m (ps_world s) in (a, mkProxyState (ps_router s) w (ps_header s) (ps_events s)).
Definition set_header (f : header → header) : P unit := λ s,
  (tt, mkProxyState (ps_router s) (ps_world s) (f (ps_header s)) (ps_events s)).
Definition respond (status : Z) (cookies : list set_cookie) (body : string) : P unit := λ s,
  (tt, mkProxyState (ps_router s) (ps_world s) (ps_header s)
         (ps_events s ++ [EvWriteHeader status (ps_header s) cookies; EvWrite body])).

(** [http.Error] *)
Definition http_error (msg : string) (code : Z) : P unit :=
  _ ← set_header (λ h, hdr_set "X-Content-Type-Options" "nosniff"
                        (hdr_set "Content-Type" "text/plain; charset=utf-8" (delete "Content-Length" h)));
  respond code [] (msg +:+ nl).

(** The recordX helpers: no-ops without a recorder. *)
Definition metric (e : event) : P unit := if px_metrics env then emit e else mret tt.
Definition recordRequest (backend group outcome : string) : P unit :=
  metric (EvRequestHandled backend group outcome).
Definition recordUpstreamDuration (backend : string) : P unit := metric (EvUpstreamDuration backend).
Definition recordOversized : P unit := metric EvOversizedResponse.
Definition recordCacheWrite : P unit := metric EvStatementCacheWrite.

(** [buildUpstreamRequest]: [None] where a nil URL or request is dereferenced. *)
Definition buildUpstreamRequest (backendURL : string) (r : request) (body : go_result string)
    : option out_request :=
  target ← px_url_parse env backendURL;
  let upURL := Url (url_scheme target) (url_opaque target) (url_user target) (url_host target)
                 (url_path (req_url r)) (url_rawpath target) (url_rawquery (req_url r))
                 (url_forcequery target) (url_fragment target) in
  if px_new_request_ok env (req_method r) (url_string upURL) then
    Some (OutRequest (req_method r) (url_string upURL) (copyHeaders ∅ (req_header r)) body)
  else None.

Definition upstream (u : out_request) : P (go_result response) :=
  _ ← emit (EvUpstream u); outside (px_client_do env u).

Definition write_cache (queryID backendURL : string) : P unit :=
  _ ← emit (EvCacheWrite queryID backendURL); lift (r_WriteCache queryID backendURL).

Definition insert_history (queryID backendURL userName source : string) : P unit :=
  match px_history env with
  | None => mret tt
  | Some ins =>
      _ ← emit (EvHistoryInsert queryID backendURL userName source);
      _ ← outside (ins queryID backendURL userName source); mret tt
  end.

Record trinoStatementResponse : Type := mkTSR { tsr_ID : string; tsr_NextURI : string }.
Definition set_tsr_field (k : string) (v : json) (r : trinoStatementResponse)
    : trinoStatementResponse * bool :=
  if field_is "id" k then let '(x, e) := dec_string (tsr_ID r) v in (mkTSR x (tsr_NextURI r), e)
  else if field_is "nextUri" k then let '(x, e) := dec_string (tsr_NextURI r) v in (mkTSR (tsr_ID r) x, e)
  else (r, false).

Definition extractQueryIDFromBody (body : string) : string :=
  let '(resp, bad) := unmarshal set_tsr_field (mkTSR "" "") body in
  if bad : bool then "" else tsr_ID resp.

Definition outcomeOrOK (outcome : string) : string :=
  if outcome =?s "" then OutcomeOK else outcome.

(** The end of both handlers: copy headers, cookies, metrics, response. *)
Definition finish (r : request) (result : RouteResult) (upResp : response) (body : string) : P unit :=
  _ ← set_header (λ h, copyHeaders h (resp_header upResp));
  match applyCookies (px_cookie env) (px_now env) r (BackendURL result) with
  | None =>
      _ ← recordRequest (BackendURL result) (RoutingGroup result) OutcomeError;
      http_error "invalid gateway cookie" 500
  | Some cookies =>
      _ ← recordRequest (BackendURL result) (RoutingGroup result) (outcomeOrOK (Outcome result));
      respond (resp_status upResp) cookies body
  end.

(** The response part of [handleStatement], once the upstream has answered. *)
Definition statement_response (r : request) (result : RouteResult) (upResp : response) : P unit :=
  _ ← recordUpstreamDuration (BackendURL result);
  let limit := ResponseSize (px_cfg env) in
  match read_limited (wrap64 (limit + 1)) upResp with
  | Err _ =>
      _ ← recordRequest (BackendURL result) (RoutingGroup result) OutcomeError;
      http_error "upstream read error" 502
  | Ok buf =>
      if (limit <? Z.of_nat (String.length buf))%Z then
        _ ← recordOversized;
        _ ← recordRequest (BackendURL result) (RoutingGroup result) OutcomeError;
        http_error "upstream response too large" 502
      else
        let queryID := extractQueryIDFromBody buf in
        _ ← (if queryID =?s "" then mret tt else
             _ ← write_cache queryID (BackendURL result);
             _ ← recordCacheWrite;
             insert_history queryID (BackendURL result) (hdr_get (req_header r) "X-Trino-User")
               (hdr_get (req_header r) "X-Trino-Source"));
        finish r result upResp buf
  end.

Definition handleStatement (r : request) : P unit :=
  match req_body r with
  | Err _ => http_error "bad request" 400
  | Ok reqBody =>
      routed ← lift (r_Route (NewRouteInput r reqBody));
      match routed with
      | Err _ => _ ← recordRequest "" "" OutcomeError; http_error "no backend available" 502
      | Ok result =>
          if BackendURL result =?s "" then
            _ ← recordRequest "" "" OutcomeError; http_error "no backend available" 502
          else match (if PropagateErrors (px_cfg env) then Errors result else []) with
          | e :: _ =>
              _ ← recordRequest (BackendURL result) (RoutingGroup result) OutcomeError;
              http_error e 400
          | [] =>
              match buildUpstreamRequest (BackendURL result) r (Ok reqBody) with
              | None => emit EvPanic
              | Some up =>
                  let up := OutRequest (or_method up) (or_url up)
                              (injectHeaders (or_header up) r (ExternalHeaders result)) (or_body up) in
                  resp ← upstream up;
                  match resp with
                  | Err _ =>
                      _ ← recordRequest (BackendURL result) (RoutingGroup result) OutcomeError;
                      http_error "upstream error" 502
                  | Ok upResp => statement_response r result upResp
                  end
              end
          end
      end
  end.

(** [handleStream]; [io.Copy] writes what can be read of the body. *)
Definition handleStream (r : request) : P unit :=
  routed ← lift (r_Route (NewRouteInput r ""));
  match routed with
  | Err _ => _ ← recordRequest "" "" OutcomeError; http_error "no backend available" 502
  | Ok result =>
      if BackendURL result =?s "" then
        _ ← recordRequest "" "" OutcomeError; http_error "no backend available" 502
      else
        match buildUpstreamRequest (BackendURL result) r (req_body r) with
        | None => emit EvPanic
        | Some up =>
            let up := OutRequest (or_method up) (or_url up)
                        (injectHeaders (or_header up) r (ExternalHeaders result)) (or_body up) in
            resp ← upstream up;
            match resp with
            | Err _ =>
                _ ← recordRequest (BackendURL result) (RoutingGroup result) OutcomeError;
                http_error "upstream error" 502
            | Ok upResp =>
                _ ← recordUpstreamDuration (BackendURL result);
                finish r result upResp (resp_body upResp)
            end
        end
  end.

(** chi's dispatch: on the escaped path where the URL has one, and only for methods it
    knows, among them those its interface names; 404 and 405 are its own. *)
Definition chi_methods : list string :=
  ["CONNECT"; "DELETE"; "GET"; "HEAD"; "OPTIONS"; "PATCH"; "POST"; "PUT"; "TRACE"].
Definition chi_known (method : string) : bool := existsb (String.eqb method) chi_methods || px_more_methods env method.
Definition route_path (u : url) : string :=
  let p := if url_rawpath u =?s "" then url_path u else url_rawpath u in
  if p =?s "" then "/" else p.

(** The route table of [setupRoutes] below its middlewares: POST /v1/statement, and
    everything else. *)
Definition ServeHTTP (r : request) : P unit :=
  let path := route_path (req_url r) in
  if negb (chi_known (req_method r)) then respond 405 [] ""
  else if (req_method r =?s "POST") && (path =?s "/v1/statement") then handleStatement r
  else if has_prefix "/" path then handleStream r
  else http_error "404 page not found" 404.

(** ** Traces *)

(** Events that come before the response: neither a response write nor a panic. *)
Definition quiet (e : event) : Prop :=
  match e with EvWriteHeader _ _ _ | EvWrite _ | EvPanic => False | _ => True end.

(** No upstream request can be built for a backend: its URL does not parse, or the request
    is refused; the handler then dereferences nil. *)
Definition unbuildable (r : request) : Prop := ∃ b body, b ≠ "" ∧ buildUpstreamRequest b r body = None.

(** A finished handler: quiet events, then one complete response, or the panic. *)
Definition one_response (r : request) (es : list event) : Prop :=
  ∃ pre, Forall quiet pre ∧
    ((∃ st h cs b, es = pre ++ [EvWriteHeader st h cs; EvWrite b]) ∨ unbuildable r ∧ es = pre ++ [EvPanic]).

Definition emits {A} (m : P A) (Q : list event → Prop) : Prop :=
  ∀ s, ∃ es, ps_events (snd (m s)) = ps_events s ++ es ∧ Q es.

Lemma emits_ret {A} (a : A) : emits (mret a) (Forall quiet).
Proof. intros s. exists []. split; [by rewrite app_nil_r|constructor]. Qed.
Lemma emits_emit e : quiet e → emits (emit e) (Forall quiet).
Proof. intros He s. exists [e]. split; [done|by repeat constructor]. Qed.
Lemma emits_lift {A} (m : ST S A) : emits (lift m) (Forall quiet).
Proof.
  intros s. exists []. unfold lift. destruct (m (ps_router s)). cbn.
  split; [by rewrite app_nil_r|constructor].
Qed.
Lemma emits_outside {A} (m : ST V A) : emits (outside m) (Forall quiet).
Proof.
  intros s. exists []. unfold outside. destruct (m (ps_world s)). cbn.
  split; [by rewrite app_nil_r|constructor].
Qed.
Lemma emits_set_header f : emits (set_header f) (Forall quiet).
Proof. intros s. exists []. split; [by cbn; rewrite app_nil_r|constructor]. Qed.

Lemma emits_bind {A B} r (m : P A) (f : A → P B) :
  emits m (Forall quiet) → (∀ a, emits (f a) (one_response r)) → emits (m ≫= f) (one_response r).
Proof.
  intros Hm Hf s. destruct (Hm s) as (es & Hes & Hq). unfold mbind, P_bind.
  destruct (m s) as [a s']. cbn in Hes. destruct (Hf a s') as (es' & Hes' & pre & Hpre & Hor).
  exists (es ++ es'). split; [by rewrite Hes', Hes, app_assoc|].
  exists (es ++ pre). split; [by apply Forall_app|].
  destruct Hor as [(st & h & cs & b & ->)|[Hu ->]]; [left; exists st, h, cs, b|right; split; [done|]];
    by rewrite app_assoc.
Qed.

Lemma emits_bind_quiet {A B} (m : P A) (f : A → P B) :
  emits m (Forall quiet) → (∀ a, emits (f a) (Forall quiet)) → emits (m ≫= f) (Forall quiet).
Proof.
  intros Hm Hf s. destruct (Hm s) as (es & Hes & Hq). unfold mbind, P_bind.
  destruct (m s) as [a s']. cbn in Hes. destruct (Hf a s') as (es' & Hes' & Hq').
  exists (es ++ es'). split; [by rewrite Hes', Hes, app_assoc|by apply Forall_app].
Qed.

Lemma emits_respond r st cs b : emits (respond st cs b) (one_response r).
Proof.
  intros s. exists [EvWriteHeader st (ps_header s) cs; EvWrite b]. split; [done|].
  exists []. split; [constructor|]. left. by eexists _, _, _, _.
Qed.
Lemma emits_panic r : unbuildable r → emits (emit EvPanic) (one_response r).
Proof. intros Hu s. exists [EvPanic]. split; [done|]. exists []. split; [constructor|by right]. Qed.

Lemma emits_metric e : quiet e → emits (metric e) (Forall quiet).
Proof. intros. unfold metric. destruct (px_metrics env); [by apply emits_emit|apply emits_ret]. Qed.

Lemma emits_error r msg code : emits (http_error msg code) (one_response r).
Proof. unfold http_error. apply emits_bind; [apply emits_set_header|]. intros. apply emits_respond. Qed.

(** Discharges the shape of a handler's trace by following its code. *)
Ltac emits_tac :=
  repeat first
    [ apply emits_respond | apply emits_error
    | apply emits_metric; done | apply emits_lift | apply emits_outside | apply emits_set_header
    | apply emits_emit; done | apply emits_ret
    | apply emits_bind; [|intros ?]
    | match goal with |- emits (match ?x with _ => _ end) _ => destruct x end ].

Lemma emits_finish r result upResp b : emits (finish r result upResp b) (one_response r).
Proof. unfold finish. emits_tac. Qed.

Lemma emits_cache_block r q b :
  emits (if q =?s "" then mret tt else
         _ ← write_cache q b; _ ← recordCacheWrite;
         insert_history q b (hdr_get (req_header r) "X-Trino-User")
           (hdr_get (req_header r) "X-Trino-Source")) (Forall quiet).
Proof.
  destruct (q =?s ""); [apply emits_ret|]. unfold write_cache, insert_history.
  apply emits_bind_quiet; [apply emits_bind_quiet; [by apply emits_emit|intros; apply emits_lift]|].
  intros _. apply emits_bind_quiet; [by apply emits_metric|]. intros _.
  destruct (px_history env); [|apply emits_ret].
  apply emits_bind_quiet; [by apply emits_emit|]. intros _.
  apply emits_bind_quiet; [apply emits_outside|]. intros. apply emits_ret.
Qed.

Lemma emits_upstream u : emits (upstream u) (Forall quiet).
Proof. apply emits_bind_quiet; [by apply emits_emit|]. intros. apply emits_outside. Qed.

Lemma emits_statement_response r result upResp :
  emits (statement_response r result upResp) (one_response r).
Proof.
  unfold statement_response. apply emits_bind; [by apply emits_metric|]. intros _.
  destruct (read_limited _ _) as [buf|e]; [|emits_tac].
  destruct (_ <? _)%Z; [emits_tac|].
  apply emits_bind; [apply emits_cache_block|]. intros _. apply emits_finish.
Qed.

Lemma emits_handleStatement r : emits (handleStatement r) (one_response r).
Proof.
  unfold handleStatement. destruct (req_body r) as [b|]; [|emits_tac].
  apply emits_bind; [apply emits_lift|]. intros [result|]; [|emits_tac].
  destruct (BackendURL result =?s "") eqn:Eb; [emits_tac|]. apply seqb_neq in Eb.
  destruct (if PropagateErrors _ then _ else _); [|emits_tac].
  destruct (buildUpstreamRequest _ _ _) eqn:Eu; [|apply emits_panic; by eexists _, _].
  apply emits_bind; [apply emits_upstream|]. intros [upResp|]; [|emits_tac].
  apply emits_statement_response.
Qed.

Lemma emits_handleStream r : emits (handleStream r) (one_response r).
Proof.
  unfold handleStream. apply emits_bind; [apply emits_lift|]. intros [result|]; [|emits_tac].
  destruct (BackendURL result =?s "") eqn:Eb; [emits_tac|]. apply seqb_neq in Eb.
  destruct (buildUpstreamRequest _ _ _) eqn:Eu; [|apply emits_panic; by eexists _, _].
  apply emits_bind; [apply emits_upstream|]. intros [upResp|]; [|emits_tac].
  apply emits_bind; [by apply emits_metric|]. intros _. apply emits_finish.
Qed.

(** ** Exact traces *)

(** Metric events, when a recorder is wired. *)
Definition M (es : list event) : list event := if px_metrics env then es else [].
Definition history_events (r : request) (q b : string) : list event :=
  match px_history env with
  | Some _ => [EvHistoryInsert q b (hdr_get (req_header r) "X-Trino-User")
                 (hdr_get (req_header r) "X-Trino-Source")]
  | None => []
  end.

Definition with_injected (up : out_request) (r : request) (result : RouteResult) : out_request :=
  OutRequest (or_method up) (or_url up) (injectHeaders (or_header up) r (ExternalHeaders result)) (or_body up).

(** The request was read, routed, built and answered by the backend. *)
Record answered (r : request) (s : proxy_state) (body : string) (result : RouteResult) (rs1 : S)
    (up : out_request) (upResp : response) (w1 : V) : Prop := {
  an_body : req_body r = Ok body;
  an_route : r_Route (NewRouteInput r body) (ps_router s) = (Ok result, rs1);
  an_backend : BackendURL result ≠ "";
  an_errors : PropagateErrors (px_cfg env) = true → Errors result = [];
  an_up : buildUpstreamRequest (BackendURL result) r (Ok body) = Some up;
  an_resp : px_client_do env (with_injected up r result) (ps_world s) = (Ok upResp, w1) }.

Lemma metric_eq e s :
  metric e s = (tt, mkProxyState (ps_router s) (ps_world s) (ps_header s) (ps_events s ++ M [e])).
Proof. unfold metric, M. destruct (px_metrics env); [done|]. rewrite app_nil_r. by destruct s. Qed.

Lemma handleStatement_answered r s body result rs1 up upResp w1 :
  answered r s body result rs1 up upResp w1 →
  handleStatement r s = statement_response r result upResp
    (mkProxyState rs1 w1 (ps_header s) (ps_events s ++ [EvUpstream (with_injected up r result)])).
Proof.
  intros []. unfold handleStatement, lift, upstream, outside, emit, mbind, P_bind. rewrite an_body0.
  rewrite an_route0. cbn [ps_router ps_world ps_header ps_events].
  apply seqb_neq in an_backend0 as ->.
  replace (if PropagateErrors (px_cfg env) then Errors result else []) with (@nil string)
    by (destruct (PropagateErrors (px_cfg env)); [by rewrite an_errors0|done]).
  rewrite an_up0. fold (with_injected up r result). cbn [ps_router ps_world ps_header ps_events].
  by rewrite an_resp0.
Qed.

(** What the cache block adds to the trace and does to the router. *)
Definition cache_events (r : request) (q b : string) : list event :=
  if q =?s "" then [] else EvCacheWrite q b :: M [EvStatementCacheWrite] ++ history_events r q b.
Definition cached_router (q b : string) (rs : S) : S :=
  if q =?s "" then rs else snd (r_WriteCache q b rs).

(** The cache block changes the world only through the history. *)
Definition history_keeps (J : V → Prop) : Prop :=
  ∀ ins q b u src v, px_history env = Some ins → J v → J (snd (ins q b u src v)).

Lemma cache_block_keeps (J : V → Prop) r q b s : history_keeps J → J (ps_world s) →
  ∃ w, J w ∧ snd ((if q =?s "" then mret tt else
         _ ← write_cache q b; _ ← recordCacheWrite;
         insert_history q b (hdr_get (req_header r) "X-Trino-User")
           (hdr_get (req_header r) "X-Trino-Source")) s)
  = mkProxyState (cached_router q b (ps_router s)) w (ps_header s) (ps_events s ++ cache_events r q b).
Proof.
  intros HJ Hs. unfold cached_router, cache_events. destruct (q =?s "").
  { exists (ps_world s). rewrite app_nil_r. by destruct s. }
  unfold write_cache, recordCacheWrite, insert_history, history_events, lift, outside, emit, mbind, P_bind.
  cbn [ps_router ps_world ps_header ps_events].
  destruct (r_WriteCache q b (ps_router s)) as [[] rs]. rewrite metric_eq.
  cbn [ps_router ps_world ps_header ps_events snd].
  destruct (px_history env) as [ins|] eqn:Eh; cbn [ps_router ps_world ps_header ps_events].
  - pose proof (HJ ins q b (hdr_get (req_header r) "X-Trino-User") (hdr_get (req_header r) "X-Trino-Source") _ Eh Hs) as Hw.
    destruct (ins _ _ _ _ _) as [e w]. exists w. cbn. split; [done|]. f_equal. by rewrite <- !app_assoc.
  - exists (ps_world s). cbn. split; [done|]. f_equal. rewrite <- !app_assoc. cbn. by rewrite app_nil_r.
Qed.

Lemma finish_eq r result upResp b cs s :
  applyCookies (px_cookie env) (px_now env) r (BackendURL result) = Some cs →
  finish r result upResp b s =
    (tt, let h := copyHeaders (ps_header s) (resp_header upResp) in
         mkProxyState (ps_router s) (ps_world s) h
           (ps_events s ++ M [EvRequestHandled (BackendURL result) (RoutingGroup result)
                                (outcomeOrOK (Outcome result))]
                        ++ [EvWriteHeader (resp_status upResp) h cs; EvWrite b])).
Proof.
  intros Hc. unfold finish, set_header, recordRequest, mbind, P_bind. rewrite Hc, metric_eq.
  unfold respond. cbn. by rewrite <- app_assoc.
Qed.
(** A statement answered within the limit: the state in which its handler ends. *)
Lemma statement_run (J : V → Prop) r s body result rs1 up upResp w1 cs :
  answered r s body result rs1 up upResp w1 → resp_body_err upResp = None →
  (Z.of_nat (String.length (resp_body upResp)) ≤ ResponseSize (px_cfg env) < int64_max)%Z →
  applyCookies (px_cookie env) (px_now env) r (BackendURL result) = Some cs → history_keeps J → J w1 →
  let q := extractQueryIDFromBody (resp_body upResp) in
  let b := BackendURL result in
  let h := copyHeaders (ps_header s) (resp_header upResp) in
  ∃ w, J w ∧ snd (handleStatement r s) = mkProxyState (cached_router q b rs1) w h
    (ps_events s ++ [EvUpstream (with_injected up r result)] ++ M [EvUpstreamDuration b]
      ++ cache_events r q b ++ M [EvRequestHandled b (RoutingGroup result) (outcomeOrOK (Outcome result))]
      ++ [EvWriteHeader (resp_status upResp) h cs; EvWrite (resp_body upResp)]).
Proof.
  intros Ha Hn [Hle Hlt] Hc HJ Hw1. cbv zeta. rewrite (handleStatement_answered _ _ _ _ _ _ _ _ Ha).
  unfold statement_response, recordUpstreamDuration, mbind, P_bind. rewrite metric_eq.
  cbn [ps_router ps_world ps_header ps_events]. rewrite wrap64_id by (unfold in_int64, int64_min in *; lia).
  unfold read_limited. rewrite Hn. destruct (_ <=? _)%Z eqn:E1; [lia|]. clear E1.
  destruct (_ <? _)%Z eqn:E2; [lia|]. clear E2. set (s1 := mkProxyState rs1 w1 _ _).
  destruct (cache_block_keeps J r (extractQueryIDFromBody (resp_body upResp)) (BackendURL result) s1 HJ Hw1) as (w & Hw & Heq).
  match type of Heq with snd (?m s1) = _ => destruct (m s1) as [u s2] eqn:Em end. cbn in Heq. subst s2.
  unfold mbind, P_bind in Em. rewrite Em. exists w. split; [done|].
  rewrite (finish_eq _ _ _ _ cs) by done. cbn. rewrite <- !app_assoc. done.
Qed.

(** A streamed request that was routed and answered. *)
Lemma stream_run r s result rs1 up upResp w1 cs :
  r_Route (NewRouteInput r "") (ps_router s) = (Ok result, rs1) → BackendURL result ≠ "" →
  buildUpstreamRequest (BackendURL result) r (req_body r) = Some up →
  px_client_do env (with_injected up r result) (ps_world s) = (Ok upResp, w1) →
  applyCookies (px_cookie env) (px_now env) r (BackendURL result) = Some cs →
  let b := BackendURL result in
  let h := copyHeaders (ps_header s) (resp_header upResp) in
  snd (handleStream r s) = mkProxyState rs1 w1 h
    (ps_events s ++ [EvUpstream (with_injected up r result)] ++ M [EvUpstreamDuration b]
      ++ M [EvRequestHandled b (RoutingGroup result) (outcomeOrOK (Outcome result))]
      ++ [EvWriteHeader (resp_status upResp) h cs; EvWrite (resp_body upResp)]).
Proof.
  intros Hr Hb Hup Hdo Hc. cbv zeta. unfold handleStream, lift, upstream, outside, emit, mbind, P_bind. rewrite Hr.
  cbn [ps_router ps_world ps_header ps_events]. apply seqb_neq in Hb as ->. rewrite Hup. fold (with_injected up r result).
  cbn [ps_router ps_world ps_header ps_events]. rewrite Hdo. unfold recordUpstreamDuration. rewrite metric_eq.
  rewrite (finish_eq _ _ _ _ cs) by done. cbn. rewrite <- !app_assoc. done.
Qed.
End proxy.
Arguments proxy_state : clear implicits.
Arguments mkProxyState {S V}.

(** ** Header maps *)
Lemma foldl_set_other (l : list (string * string)) (h : header) k :
  (∀ k' v, (k', v) ∈ l → canonical_header_key k' ≠ k) →
  foldl (λ h '(k, v), hdr_set k v h) h l !! k = h !! k.
Proof.
  revert h. induction l as [|[k' v] l IH]; intros h Hl; [done|]. cbn.
  rewrite IH by set_solver. unfold hdr_set. apply lookup_insert_ne. apply (Hl k' v). by left.
Qed.

(** ** Theorems *)
Section proxy_theorems.
Context {S : Type} `{RouterOps S} {V : Type} (env : proxy_env V).


(** A statement whose response fits the buffer: the response is the backend's status
    and, byte for byte, its body (Hard Invariant 1); before it the query id found in
    the body is cached for the backend that answered, and recorded in history. *)
Theorem statement_success r s body result rs1 up upResp w1 cs :
  answered env r s body result rs1 up upResp w1 → resp_body_err upResp = None →
  (Z.of_nat (String.length (resp_body upResp)) ≤ ResponseSize (px_cfg env) < int64_max)%Z →
  applyCookies (px_cookie env) (px_now env) r (BackendURL result) = Some cs →
  let q := extractQueryIDFromBody (resp_body upResp) in
  let b := BackendURL result in
  let h := copyHeaders (ps_header s) (resp_header upResp) in
  let s' := snd (handleStatement env r s) in
  ps_events s' = ps_events s ++ [EvUpstream (with_injected up r result)] ++ M env [EvUpstreamDuration b]
    ++ cache_events env r q b ++ M env [EvRequestHandled b (RoutingGroup result) (outcomeOrOK (Outcome result))]
    ++ [EvWriteHeader (resp_status upResp) h cs; EvWrite (resp_body upResp)]
  ∧ ps_router s' = cached_router q b rs1.
Proof.
  intros Ha Hn Hl Hc. cbv zeta.
  destruct (statement_run env (λ _, True) r s body result rs1 up upResp w1 cs) as (w & _ & ->); done.
Qed.

(** C21: A response beyond the buffer limit is answered with 502, is not forwarded, and
    leaves the router, and so the sticky cache, as routing left it. *)
Theorem statement_oversized r s body result rs1 up upResp w1 :
  answered env r s body result rs1 up upResp w1 →
  (0 ≤ ResponseSize (px_cfg env) < int64_max)%Z →
  (ResponseSize (px_cfg env) < Z.of_nat (String.length (resp_body upResp)))%Z →
  let b := BackendURL result in
  let s' := snd (handleStatement env r s) in
  ps_events s' = ps_events s ++ [EvUpstream (with_injected up r result)] ++ M env [EvUpstreamDuration b]
    ++ M env [EvOversizedResponse] ++ M env [EvRequestHandled b (RoutingGroup result) OutcomeError]
    ++ [EvWriteHeader 502 (ps_header s') []; EvWrite ("upstream response too large" +:+ nl)]
  ∧ ps_router s' = rs1.
Proof.
  intros Ha [H0 Hlt] Hgt. cbv zeta. rewrite (handleStatement_answered env _ _ _ _ _ _ _ _ Ha).
  unfold statement_response, recordUpstreamDuration, recordOversized, recordRequest, mbind, P_bind.
  rewrite metric_eq. cbn [ps_router ps_world ps_header ps_events].
  rewrite wrap64_id by (unfold in_int64, int64_min in *; lia).
  unfold read_limited. destruct (_ <=? _)%Z eqn:E1; [|lia]. clear E1.
  assert (Hlen : String.length (str_take (Z.to_nat (ResponseSize (px_cfg env) + 1)) (resp_body upResp))
                 = Z.to_nat (ResponseSize (px_cfg env) + 1)) by (apply str_take_length; lia).
  rewrite Hlen, Z2Nat.id by lia.
  replace (_ <? _)%Z with true by (symmetry; apply Z.ltb_lt; lia).
  rewrite !metric_eq. unfold http_error, set_header, respond, mbind, P_bind.
  cbn [ps_events ps_router ps_world ps_header snd]. rewrite <- !app_assoc. done.
Qed.

(** With the largest configurable limit the size the reader is given overflows: it
    reads nothing and the client gets an empty body. *)
Theorem max_response_size_empties_body r s body result rs1 up upResp w1 cs :
  answered env r s body result rs1 up upResp w1 → ResponseSize (px_cfg env) = int64_max →
  applyCookies (px_cookie env) (px_now env) r (BackendURL result) = Some cs →
  last (ps_events (snd (handleStatement env r s))) = Some (EvWrite "").
Proof.
  intros Ha Hmax Hc. rewrite (handleStatement_answered env _ _ _ _ _ _ _ _ Ha).
  unfold statement_response, recordUpstreamDuration, mbind, P_bind. rewrite metric_eq, Hmax.
  replace (wrap64 (int64_max + 1)) with int64_min by (vm_compute; reflexivity).
  unfold read_limited. destruct (int64_min <=? _)%Z eqn:E1; [clear E1|apply Z.leb_gt in E1; unfold int64_min in E1; lia].
  change (str_take (Z.to_nat int64_min) (resp_body upResp)) with (str_take 0 (resp_body upResp)).
  replace (str_take 0 (resp_body upResp)) with "" by (by destruct (resp_body upResp)).
  change (int64_max <? Z.of_nat (String.length ""))%Z with false. cbn iota.
  change (extractQueryIDFromBody "" =?s "") with true. cbn [mret P_ret].
  rewrite (finish_eq env _ _ _ _ cs) by done. cbn. rewrite !app_assoc. by rewrite last_app.
Qed.

(** The upstream request carries no hop-by-hop header of the client, every other
    header of the client unchanged, and the forwarding headers, each unless the
    routing service sets the same name. *)
Theorem upstream_header_spec r (ext : gmap string string) k :
  canonical_header_key k = k →
  (∀ k' v, ext !! k' = Some v → canonical_header_key k' ≠ k) →
  let h := injectHeaders (copyHeaders ∅ (req_header r)) r ext in
  (isHopByHop k = true → h !! k = None)
  ∧ (isHopByHop k = false →
     k ∉ ["X-Forwarded-For"; "X-Forwarded-Proto"; "X-Forwarded-Host"; "X-Forwarded-Port"] →
     h !! k = req_header r !! k)
  ∧ (k = "X-Forwarded-Proto" → h !! k = Some [proto r])
  ∧ (k = "X-Forwarded-Host" → h !! k = Some [hostOnly (req_host r)])
  ∧ (k = "X-Forwarded-Port" → h !! k = Some [forwardedPort (req_host r) (proto r)])
  ∧ (k = "X-Forwarded-For" → h !! k =
       Some [if hdr_get (req_header r) k =?s "" then clientIP r
             else hdr_get (req_header r) k +:+ ", " +:+ clientIP r]).
Proof.
  intros Hk Hext. cbv zeta. unfold injectHeaders.
  rewrite foldl_set_other.
  2: { intros k' v Hin. eapply Hext. by apply elem_of_map_to_list in Hin. }
  assert (Hcopy : copyHeaders ∅ (req_header r) !! k
                  = if isHopByHop k then None else req_header r !! k).
  { unfold copyHeaders. rewrite (right_id ∅ (∪)). destruct (isHopByHop k) eqn:Eh.
    - apply map_lookup_filter_None. right. intros v _. by rewrite Eh.
    - apply option_eq. intros v. rewrite map_lookup_filter_Some. naive_solver. }
  unfold hdr_set.
  change (canonical_header_key "X-Forwarded-For") with "X-Forwarded-For".
  change (canonical_header_key "X-Forwarded-Proto") with "X-Forwarded-Proto".
  change (canonical_header_key "X-Forwarded-Host") with "X-Forwarded-Host".
  change (canonical_header_key "X-Forwarded-Port") with "X-Forwarded-Port".
  split_and!.
  - intros Hh. assert (k ∉ ["X-Forwarded-For"; "X-Forwarded-Proto"; "X-Forwarded-Host"; "X-Forwarded-Port"]) as Hn.
    { intros Hin. set_unfold in Hin. by destruct_or!; subst k. }
    rewrite !lookup_insert_ne by set_solver. by rewrite Hcopy, Hh.
  - intros Hh Hn. rewrite !lookup_insert_ne by set_solver. by rewrite Hcopy, Hh.
  - intros ->. rewrite !(lookup_insert_ne _ _ "X-Forwarded-Proto") by done. by rewrite lookup_insert_eq.
  - intros ->. rewrite !(lookup_insert_ne _ _ "X-Forwarded-Host") by done. by rewrite lookup_insert_eq.
  - intros ->. by rewrite lookup_insert_eq.
  - intros ->. rewrite !(lookup_insert_ne _ _ "X-Forwarded-For") by done. rewrite lookup_insert_eq.
    unfold hdr_get in *. change (canonical_header_key "X-Forwarded-For") with "X-Forwarded-For".
    by rewrite Hcopy.
Qed.

(** Host headers split: a port after the last colon, or after an IPv6 literal. *)
Theorem host_header_split host port p :
  mem_byte ":" port = false →
  (match host with String c _ => Ascii.eqb c "[" = false | "" => False end →
     hostOnly (host +:+ ":" +:+ port) = host ∧ forwardedPort (host +:+ ":" +:+ port) p = port)
  ∧ (mem_byte "]" host = false →
     hostOnly ("[" +:+ host +:+ "]:" +:+ port) = "[" +:+ host +:+ "]"
     ∧ forwardedPort ("[" +:+ host +:+ "]:" +:+ port) p = port).
Proof.
  intros Hp. split.
  - intros Hh. destruct host as [|c host]; [done|].
    pose proof (last_index_byte_app ":" (String c host) port Hp) as Hl.
    rewrite str_app_cons in *. unfold hostOnly, forwardedPort. rewrite Hh, Hl, <- str_app_cons.
    rewrite str_take_app. split; [done|].
    rewrite <- (str_app_assoc (String c host) ":" port).
    replace (String.length (String c host) + 1)%nat with (String.length (String c host +:+ ":"))
      by (rewrite str_length_app; done). apply str_drop_app.
  - intros Hh. change ("[" +:+ ?x) with (String "[" x).
    assert (Hi : index_byte "]" (String "[" (host +:+ "]" +:+ ":" +:+ port))
                 = Some (String.length (String "[" host)))
      by exact (index_byte_app "]" (String "[" host) (":" +:+ port) Hh).
    unfold hostOnly, forwardedPort. rewrite Ascii.eqb_refl.
    change ("]:" +:+ port) with ("]" +:+ ":" +:+ port). rewrite Hi.
    assert (Hd : ∀ t, String "[" (host +:+ "]" +:+ t) = (String "[" host +:+ "]") +:+ t)
      by (intros; by rewrite str_app_assoc, !str_app_cons).
    rewrite Hd. replace (String.length (String "[" host) + 1)%nat
      with (String.length (String "[" host +:+ "]")) by (rewrite str_length_app; done).
    by rewrite str_take_app, str_drop_app.
Qed.
End proxy_theorems.

(** ** Sticky routing through the proxy *)
Section sticky.
Context {S : Type} `{StickyRouter S} {V : Type} (env : proxy_env V).

Lemma answered_upstream r s body result rs1 up upResp w1 :
  answered env r s body result rs1 up upResp w1 →
  (resp_body_err upResp = None) →
  (Z.of_nat (String.length (resp_body upResp)) ≤ ResponseSize (px_cfg env) < int64_max)%Z →
  ps_router (snd (handleStatement env r s)) =
    cached_router (extractQueryIDFromBody (resp_body upResp)) (BackendURL result) rs1.
Proof.
  intros Ha Hn [Hle Hlt]. rewrite (handleStatement_answered env _ _ _ _ _ _ _ _ Ha).
  unfold statement_response, recordUpstreamDuration, mbind, P_bind. rewrite metric_eq.
  cbn [ps_router ps_world ps_header ps_events]. rewrite wrap64_id by (unfold in_int64, int64_min in *; lia).
  unfold read_limited. rewrite Hn. destruct (_ <=? _)%Z eqn:E1; [lia|]. clear E1.
  destruct (_ <? _)%Z eqn:E2; [lia|]. clear E2. set (s1 := mkProxyState rs1 w1 _ _).
  destruct (cache_block_keeps env (λ _, True) r (extractQueryIDFromBody (resp_body upResp)) (BackendURL result) s1)
    as (w & _ & Hw); [done..|].
  match type of Hw with snd (?m s1) = _ => destruct (m s1) as [u s2] eqn:Em end. cbn in Hw. subst s2.
  unfold mbind, P_bind in Em. rewrite Em.
  unfold finish, set_header, recordRequest, mbind, P_bind.
  destruct (applyCookies _ _ _ _); rewrite metric_eq; done.
Qed.

(** End to end: when a backend answers a statement with a query id, the next request
    for [/v1/query/<id>] is sent to that same backend, at its own path and query. *)
Theorem statement_then_query_same_backend r s body result rs1 up upResp w1 id rest r2 target :
  answered env r s body result rs1 up upResp w1 → r_wf (ps_router s) →
  resp_body_err upResp = None →
  (Z.of_nat (String.length (resp_body upResp)) ≤ ResponseSize (px_cfg env) < int64_max)%Z →
  extractQueryIDFromBody (resp_body upResp) = id → id ≠ "" → str_forallb id_byte id = true →
  match rest with String c _ => id_byte c = false | "" => True end →
  request_uri (req_url r2) = queryPrefix +:+ id +:+ rest →
  px_url_parse env (BackendURL result) = Some target →
  (∀ m u, px_new_request_ok env m u = true) →
  let s1 := snd (handleStatement env r s) in
  ∃ up2 es, ps_events (snd (handleStream env r2 s1)) = ps_events s1 ++ EvUpstream up2 :: es
    ∧ or_url up2 = url_string (Url (url_scheme target) (url_opaque target) (url_user target)
        (url_host target) (url_path (req_url r2)) (url_rawpath target) (url_rawquery (req_url r2))
        (url_forcequery target) (url_fragment target)).
Proof.
  intros Ha Hwf Hn Hl Hid Hne Hb Hrest Huri Hparse Hnew. cbv zeta.
  pose proof (answered_upstream _ _ _ _ _ _ _ _ Ha Hn Hl) as Hr.
  set (s1 := snd (handleStatement env r s)) in *.
  assert (Hwf1 : r_wf rs1).
  { pose proof (r_wf_route (ps_router s) (NewRouteInput r body) Hwf) as Hw.
    by rewrite (an_route env _ _ _ _ _ _ _ _ Ha) in Hw. }
  pose proof (r_sticky rs1 id (BackendURL result) rest (NewRouteInput r2 "") Hwf1 Hne Hb Hrest Huri eq_refl)
    as Hst.
  rewrite Hid in Hr. unfold cached_router in Hr. apply seqb_neq in Hne as Hne'. rewrite Hne' in Hr.
  rewrite <- Hr in Hst.
  unfold handleStream, lift, mbind, P_bind.
  destruct (r_Route (NewRouteInput r2 "") (ps_router s1)) as [res rs2]. cbn in Hst. subst res.
  cbn [BackendURL]. pose proof (an_backend env _ _ _ _ _ _ _ _ Ha) as Hbk. apply seqb_neq in Hbk as ->.
  unfold buildUpstreamRequest. rewrite Hparse. cbn [mbind option_bind]. rewrite Hnew.
  set (up2 := OutRequest _ _ _ _).
  unfold upstream, emit, outside, mbind, P_bind. cbn [ps_router ps_world ps_header ps_events].
  destruct (px_client_do env up2 (ps_world s1)) as [resp w2].
  assert (Hq : ∀ m : P (S := S) (V := V) unit, emits m (one_response env r2) → ∀ st, ps_events st = ps_events s1 ++ [EvUpstream up2] →
     ∃ up2' es, ps_events (snd (m st)) = ps_events s1 ++ EvUpstream up2' :: es
       ∧ or_url up2' = or_url up2).
  { intros m Hm st Hst. destruct (Hm st) as (es & Hes & _). exists up2, es.
    split; [|done]. rewrite Hes, Hst, <- app_assoc. done. }
  set (st := mkProxyState rs2 w2 (ps_header s1) (ps_events s1 ++ [EvUpstream up2])).
  destruct resp as [upResp2|e].
  - refine (Hq (_ ← recordUpstreamDuration env (BackendURL result);
               finish env r2 (mkRouteResult (BackendURL result) "" ∅ [] OutcomeOK) upResp2 (resp_body upResp2))
              _ st eq_refl).
    apply emits_bind; [by apply emits_metric|]. intros _. apply emits_finish.
  - refine (Hq (_ ← recordRequest env (BackendURL result) "" OutcomeError; http_error "upstream error" 502)
              _ st eq_refl).
    apply emits_bind; [by apply emits_metric|]. intros _. apply emits_error.
Qed.
End sticky.

(** ** Witnesses *)
#[local] Instance w_ops : RouterOps (router_state list_lru unit) := Router_ops w_services w_cfg.
#[local] Instance w_sticky : StickyRouter (router_state list_lru unit) := Router_sticky w_services w_cfg.

Definition w_answer : response :=
  Response 200 {["Content-Type" := ["application/json"]; "Connection" := ["close"]]}
    (print_json (JObj [("id", JStr "q_1"); ("nextUri", JStr "http://b2/v1/statement/queued/q_1/y/1")])) None.
Definition w_target : url := Url "http" "" "" "b2" "" "" "" false "".
Definition w_env (limit : Z) : proxy_env unit :=
  mkProxyEnv unit (mkProxyConfig 8080 limit 0 true) (mkCookieConfig "" 0 true)
    (λ _ w, (Ok w_answer, w)) (Some (λ _ _ _ _ w, (None, w))) true
    (λ _, Some w_target) (λ _ _, true) 0 (λ _, false).
Definition w_post : request :=
  Request "POST" (Url "" "" "" "" "/v1/statement" "" "" false "") "gw:8080" "10.0.0.1:5000" false
    {["X-Trino-User" := ["alice"]; "Connection" := ["keep-alive"]]} ∅ [] (Ok "SELECT 1").
Definition w_get : request :=
  Request "GET" (Url "" "" "" "" "/v1/query/q_1" "" "" false "") "gw:8080" "10.0.0.1:5000" false ∅ ∅ [] (Ok "").
Definition w_start : proxy_state (router_state list_lru unit) unit := mkProxyState w_state tt ∅ [].

(** The router's answer to [w_post]: the external service selects group etl. *)
Definition w_result : RouteResult := mkRouteResult "http://b2" "etl" ∅ [] OutcomeOK.
Definition w_routed : router_state list_lru unit :=
  mkRouterState (ListLru 4096 []) tt [RouterCall TransportHTTP "ok"].
Definition w_up : out_request :=
  OutRequest "POST" "http://b2/v1/statement" {["X-Trino-User" := ["alice"]]} (Ok "SELECT 1").

Lemma w_answered limit : answered (w_env limit) w_post w_start "SELECT 1" w_result w_routed w_up w_answer tt.
Proof.
  split; try reflexivity. discriminate.
Qed.

Lemma statement_success_witness :
  let s' := snd (handleStatement (w_env 1048576) w_post w_start) in
  ps_events s' =
    [EvUpstream (with_injected w_up w_post w_result); EvUpstreamDuration "http://b2";
     EvCacheWrite "q_1" "http://b2"; EvStatementCacheWrite; EvHistoryInsert "q_1" "http://b2" "alice" "";
     EvRequestHandled "http://b2" "etl" "ok";
     EvWriteHeader 200 {["Content-Type" := ["application/json"]]} []; EvWrite (resp_body w_answer)]
  ∧ ps_router s' = snd (WriteCache "q_1" "http://b2" w_routed).
Proof.
  destruct (statement_success (w_env 1048576) w_post w_start "SELECT 1" w_result w_routed w_up w_answer tt [])
    as [He Hr].
  - apply w_answered.
  - reflexivity.
  - vm_compute. split; [discriminate|reflexivity].
  - reflexivity.
  - cbv zeta. rewrite He, Hr. split; vm_compute; reflexivity.
Defined.

Lemma statement_oversized_witness :
  let s' := snd (handleStatement (w_env 10) w_post w_start) in
  ps_events s' =
    [EvUpstream (with_injected w_up w_post w_result); EvUpstreamDuration "http://b2"; EvOversizedResponse;
     EvRequestHandled "http://b2" "etl" "error"; EvWriteHeader 502 (ps_header s') [];
     EvWrite ("upstream response too large" +:+ nl)]
  ∧ ps_router s' = w_routed.
Proof.
  apply (statement_oversized (w_env 10) w_post w_start "SELECT 1" w_result w_routed w_up w_answer tt).
  - apply w_answered.
  - vm_compute. split; [discriminate|reflexivity].
  - vm_compute. reflexivity.
Defined.

Lemma max_response_size_empties_body_witness :
  resp_body w_answer ≠ ""
  ∧ last (ps_events (snd (handleStatement (w_env int64_max) w_post w_start))) = Some (EvWrite "").
Proof.
  split; [discriminate|].
  apply (max_response_size_empties_body (w_env int64_max) w_post w_start "SELECT 1" w_result w_routed
           w_up w_answer tt []); [apply w_answered|reflexivity|reflexivity].
Defined.

Lemma upstream_header_spec_witness :
  let h := injectHeaders (copyHeaders ∅ (req_header w_post)) w_post ∅ in
  h !! "Connection" = None ∧ h !! "X-Trino-User" = Some ["alice"] ∧ h !! "X-Forwarded-For" = Some ["10.0.0.1"].
Proof.
  assert (He : ∀ k k' v, (∅ : gmap string string) !! k' = Some v → canonical_header_key k' ≠ k)
    by (intros k k' v Hv; rewrite lookup_empty in Hv; discriminate Hv).
  destruct (upstream_header_spec w_post ∅ "Connection" eq_refl (He _)) as (H1 & _).
  destruct (upstream_header_spec w_post ∅ "X-Trino-User" eq_refl (He _)) as (_ & H2 & _).
  destruct (upstream_header_spec w_post ∅ "X-Forwarded-For" eq_refl (He _)) as (_ & _ & _ & _ & _ & H3).
  split; [apply H1; reflexivity|]. split; [|apply H3; reflexivity].
  apply H2; [reflexivity|]. apply (bool_decide_unpack _). vm_compute. exact I.
Defined.

Lemma host_header_split_witness :
  hostOnly "gw.example.com:8443" = "gw.example.com" ∧ forwardedPort "gw.example.com:8443" "https" = "8443".
Proof. apply (host_header_split "gw.example.com" "8443" "https"); reflexivity. Defined.

Lemma statement_then_query_same_backend_witness :
  let s1 := snd (handleStatement (w_env 1048576) w_post w_start) in
  ∃ up2 es, ps_events (snd (handleStream (w_env 1048576) w_get s1)) = ps_events s1 ++ EvUpstream up2 :: es
    ∧ or_url up2 = "http://b2/v1/query/q_1".
Proof.
  apply (statement_then_query_same_backend (w_env 1048576) w_post w_start "SELECT 1" w_result w_routed w_up
           w_answer tt "q_1" "" w_get w_target).
  - apply w_answered.
  - apply Nat.ltb_lt. vm_compute. reflexivity.
  - reflexivity.
  - vm_compute. split; [discriminate|reflexivity].
  - vm_compute. reflexivity.
  - discriminate.
  - reflexivity.
  - exact I.
  - reflexivity.
  - reflexivity.
  - reflexivity.
Defined.

(** chi matches the escaped path, so a statement posted to an escaped spelling of its path is
    streamed: the backend gets it at /v1/statement, and nothing is remembered of the answer. *)
Example escaped_statement_streamed :
  let r := Request "POST" (Url "" "" "" "" "/v1/statement" "/v1/%73tatement" "" false "") "gw:8080" "10.0.0.1:5000" false
             {["X-Trino-User" := ["alice"]]} ∅ [] (Ok "SELECT 1") in
  let s1 := snd (ServeHTTP (w_env 1048576) r w_start) in
  (∃ up es, ps_events s1 = EvUpstream up :: es ∧ or_url up = "http://b2/v1/statement" ∧ or_method up = "POST")
  ∧ Forall (λ e, match e with EvCacheWrite _ _ | EvHistoryInsert _ _ _ _ => False | _ => True end) (ps_events s1).
Proof. vm_compute. split; [by eexists _, _|repeat constructor]. Qed.
