(* ===== verification/SqlMeta.v ===== *)
(** * SQL metadata (routing-service/internal/sqlmeta: heuristic.go, analyzer.go)

    The comment- and literal-aware tokenizer, statement classification, table
    reference extraction and name qualification. A position in the text or in the
    token slice is the suffix from there on. [strings.ToLower] and [ToUpper] of
    strings the client supplies are section variables that agree with the ASCII
    mapping on ASCII text; bare words are ASCII, so the tokenizer needs neither. *)
From S2P Require Import Prelude GoStrings.

(** ** Data *)
Record token : Type := Tok { text : string; quoted : bool }.
#[global] Instance token_eq_dec : EqDecision token.
Proof. solve_decision. Defined.

Definition CategoryRead := "READ".
Definition CategoryWrite := "WRITE".
Definition CategoryDDL := "DDL".
Definition CategoryDML := "DML".
Definition CategoryExplain := "EXPLAIN".
Definition CategoryOther := "OTHER".

Record QueryMeta : Type := mkQueryMeta {
  QueryType : string; Category : string; Catalogs : list string; Schemas : list string;
  CatalogSchemas : list string; Tables : list string; ParseOK : bool }.

Definition emptyMeta : QueryMeta := mkQueryMeta "" CategoryOther [] [] [] [] false.
Definition Noop_Analyze (sql defaultCatalog defaultSchema : string) : QueryMeta := emptyMeta.

Definition DefaultMaxBodyBytes : Z := 262144.
(** [NewHeuristic]: the byte cap it keeps. *)
Definition NewHeuristic (maxBodyBytes : Z) : Z :=
  if (maxBodyBytes <=? 0)%Z then DefaultMaxBodyBytes else maxBodyBytes.

(** ** Tokenization *)
Definition isIdentChar (c : ascii) : bool :=
  Ascii.eqb c "_" || is_lower c || is_upper c || is_digit c.

(** To the end of the line; the newline is left. *)
Definition skip_line (s : string) : string := drop_while (λ c, negb (Ascii.eqb c newline)) s.

(** Past the closing delimiter of a block comment, or to the end. *)
Fixpoint skip_block (s : string) : string :=
  match s with
  | String a r =>
      match r with
      | String b r2 => if Ascii.eqb a "*" && Ascii.eqb b "/" then r2 else skip_block r
      | EmptyString => EmptyString
      end
  | EmptyString => EmptyString
  end.

Definition squote : ascii := "'".

(** Past the closing quote of a string literal; a doubled quote is an escape. *)
Fixpoint skip_string (s : string) : string :=
  match s with
  | EmptyString => EmptyString
  | String c r =>
      if Ascii.eqb c squote then
        match r with
        | String d r2 => if Ascii.eqb d squote then skip_string r2 else r
        | EmptyString => r
        end
      else skip_string r
  end.

(** [scanDelimited] after the opening delimiter: inner text and the rest. *)
Fixpoint scanDelimited (sym : bool) (close : ascii) (s : string) : string * string :=
  match s with
  | EmptyString => (EmptyString, EmptyString)
  | String c r =>
      if Ascii.eqb c close then
        match r with
        | String d r2 =>
            if sym && Ascii.eqb d close then
              let '(b, t) := scanDelimited sym close r2 in (String close b, t)
            else (EmptyString, r)
        | EmptyString => (EmptyString, r)
        end
      else let '(b, t) := scanDelimited sym close r in (String c b, t)
  end.

(** A maximal run of identifier characters. *)
Fixpoint ident_run (s : string) : string * string :=
  match s with
  | String c r => if isIdentChar c then let '(a, b) := ident_run r in (String c a, b) else (EmptyString, s)
  | EmptyString => (EmptyString, EmptyString)
  end.

Definition backtick : ascii := chr 96.

(** [tokenize]: one round of the loop per unit of fuel. *)
Fixpoint tokenize_fuel (fuel : nat) (s : string) : list token :=
  match fuel with
  | O => []
  | S f =>
      match s with
      | EmptyString => []
      | String c r =>
          if Ascii.eqb c "-" && has_prefix "-" r then tokenize_fuel f (skip_line (str_drop 1 r))
          else if Ascii.eqb c "/" && has_prefix "*" r then tokenize_fuel f (skip_block (str_drop 1 r))
          else if Ascii.eqb c squote then tokenize_fuel f (skip_string r)
          else if Ascii.eqb c dquote then
            let '(id, t) := scanDelimited true dquote r in Tok id true :: tokenize_fuel f t
          else if Ascii.eqb c backtick then
            let '(id, t) := scanDelimited true backtick r in Tok id true :: tokenize_fuel f t
          else if Ascii.eqb c "[" then
            let '(id, t) := scanDelimited false "]" r in Tok id true :: tokenize_fuel f t
          else if mem_byte c ".(),"  then Tok (String c EmptyString) false :: tokenize_fuel f r
          else if isIdentChar c then
            let '(w, t) := ident_run s in Tok w false :: tokenize_fuel f t
          else tokenize_fuel f r
      end
  end.
Definition tokenize (sql : string) : list token := tokenize_fuel (String.length sql) sql.

(** ** Statement classification *)
Definition statementKeywords : list string :=
  ["SELECT"; "INSERT"; "UPDATE"; "DELETE"; "MERGE"; "CREATE"; "DROP"; "ALTER"; "TRUNCATE"; "EXPLAIN";
   "SHOW"; "DESCRIBE"; "USE"; "CALL"; "SET"; "RESET"; "GRANT"; "REVOKE"; "COMMENT"; "ANALYZE"; "REFRESH";
   "VALUES"; "PREPARE"; "EXECUTE"; "DEALLOCATE"; "START"; "COMMIT"; "ROLLBACK"].
Definition isStatementKeyword (kw : string) : bool := existsb (String.eqb kw) statementKeywords.

(** The upper-cased text of the first unquoted token, or empty. *)
Fixpoint keywordAt (toks : list token) : string :=
  match toks with
  | [] => ""
  | t :: ts => if quoted t then keywordAt ts else to_upper (text t)
  end.

(** The loop of [mainAfterWith], at parenthesis depth [depth]. *)
Fixpoint main_scan (depth : nat) (toks : list token) : option string :=
  match toks with
  | [] => None
  | t :: ts =>
      if text t =?s "(" then main_scan (S depth) ts
      else if text t =?s ")" then main_scan (pred depth) ts
      else if negb (depth =? 0)%nat || quoted t then main_scan depth ts
      else let kw := to_upper (text t) in
           if isStatementKeyword kw then Some kw else main_scan depth ts
  end.
Definition mainAfterWith (toks : list token) : option string := main_scan 0 (drop 1 toks).

Definition statementType (toks : list token) : option string :=
  let first := keywordAt toks in
  if first =?s "EXPLAIN" then Some "EXPLAIN"
  else if first =?s "WITH" then Some (from_opt "SELECT" (mainAfterWith toks))
  else if isStatementKeyword first then Some first
  else None.

Definition categoryFor (queryType : string) : string :=
  if existsb (String.eqb queryType) ["SELECT"; "VALUES"; "DESCRIBE"; "SHOW"] then CategoryRead
  else if existsb (String.eqb queryType) ["INSERT"; "UPDATE"; "DELETE"; "MERGE"; "TRUNCATE"] then CategoryWrite
  else if existsb (String.eqb queryType) ["CREATE"; "DROP"; "ALTER"; "COMMENT"; "REFRESH"; "ANALYZE"] then CategoryDDL
  else if queryType =?s "EXPLAIN" then CategoryExplain
  else CategoryOther.

(** ** Table references *)
Definition tableKeywords : list string := ["FROM"; "JOIN"; "INTO"; "UPDATE"; "TABLE"].
Definition refStopKeywords : list string :=
  ["WHERE"; "ON"; "USING"; "GROUP"; "ORDER"; "HAVING"; "LIMIT"; "UNION"; "INTERSECT"; "EXCEPT"; "AS"; "SET";
   "VALUES"; "SELECT"; "WITH"; "LEFT"; "RIGHT"; "INNER"; "OUTER"; "CROSS"; "FULL"; "NATURAL"; "AND"; "OR";
   "OFFSET"; "FETCH"; "WINDOW"; "QUALIFY"; "TABLESAMPLE"].
Definition is_anchor (kw : string) : bool := existsb (String.eqb kw) tableKeywords.
Definition is_stop (kw : string) : bool := existsb (String.eqb kw) refStopKeywords.

Definition partText (t : token) : string := if quoted t then text t else to_lower (text t).

(** The dotted parts after the first. *)
Fixpoint dotted (toks : list token) : list string * list token :=
  match toks with
  | d :: ((p :: ts) as rest) =>
      if text d =?s "." then let '(ps, r) := dotted ts in (partText p :: ps, r) else ([], toks)
  | _ => ([], toks)
  end.

Definition rawRef : Type := list string.
Definition readRef (toks : list token) : option (rawRef * list token) :=
  match toks with
  | [] => None
  | first :: ts =>
      if negb (quoted first)
         && ((text first =?s "(") || (text first =?s ",") || (text first =?s ")")
             || is_stop (to_upper (text first)))
      then None
      else let '(ps, r) := dotted ts in Some (partText first :: ps, r)
  end.

Definition skipAlias (toks : list token) : list token :=
  match toks with
  | [] => []
  | t :: ts =>
      if negb (quoted t) && (to_upper (text t) =?s "AS") then drop 1 ts
      else if (text t =?s ",") || (text t =?s "(") || (text t =?s ")") || (text t =?s ".") then toks
      else if negb (quoted t) && (is_stop (to_upper (text t)) || is_anchor (to_upper (text t))) then toks
      else ts
  end.

Fixpoint skip_only (toks : list token) : list token :=
  match toks with
  | t :: ts => if negb (quoted t) && (to_upper (text t) =?s "ONLY") then skip_only ts else toks
  | [] => []
  end.

Definition starts_with (p : string) (toks : list token) : bool :=
  match toks with t :: _ => text t =?s p | [] => false end.

(** The comma-separated list of references at an anchor. *)
Fixpoint collect (fuel : nat) (toks : list token) : list rawRef * list token :=
  match fuel with
  | O => ([], toks)
  | S f =>
      match readRef toks with
      | None => ([], toks)
      | Some (ref, r) =>
          let r := skipAlias r in
          if starts_with "," r then
            let r := drop 1 r in
            if starts_with "(" r then ([ref], r)
            else let '(refs, r) := collect f r in (ref :: refs, r)
          else ([ref], r)
      end
  end.

Fixpoint extract_fuel (fuel : nat) (toks : list token) : list rawRef :=
  match fuel with
  | O => []
  | S f =>
      match toks with
      | [] => []
      | t :: ts =>
          if quoted t || negb (is_anchor (to_upper (text t))) then extract_fuel f ts
          else
            let r := skip_only ts in
            if starts_with "(" r then extract_fuel f r
            else let '(refs, r') := collect (length r) r in refs ++ extract_fuel f r'
      end
  end.
Definition extractTableRefs (toks : list token) : list rawRef := extract_fuel (length toks) toks.

(** ** Sets of names, sorted *)
Definition sorted (s : gset string) : list string := merge_sort String.le (elements s).
Definition add (v : string) (s : gset string) : gset string := if v =?s "" then s else {[v]} ∪ s.

Definition joinName (catalog schema table : string) : string :=
  join "." ((if catalog =?s "" then [] else [catalog]) ++ (if schema =?s "" then [] else [schema]) ++ [table]).

Section analyze.
Context (ToLower ToUpper : string → string).

Definition CategoryForType (queryType : string) : string := categoryFor (ToUpper (trim_space queryType)).

(** Catalog, schema, table. *)
Definition qualify (ref : rawRef) (defaultCatalog defaultSchema : string) : string * string * string :=
  let dc := ToLower (trim_space defaultCatalog) in
  let ds := ToLower (trim_space defaultSchema) in
  match ref with
  | [t] => (dc, ds, t)
  | [s; t] => (dc, s, t)
  | _ => match rev ref with
         | t :: s :: c :: _ => (c, s, t)
         | _ => ("", "", "")
         end
  end.

(** The sets collected from the references: catalogs, schemas, pairs, tables. *)
Record name_sets : Type := mkSets {
  cats : gset string; schemas : gset string; catSchemas : gset string; tables : gset string }.

Definition add_ref (dc ds : string) (st : name_sets) (ref : rawRef) : name_sets :=
  let '(c, s, t) := qualify ref dc ds in
  if t =?s "" then st else
  mkSets (if c =?s "" then cats st else add c (cats st))
         (if s =?s "" then schemas st else add s (schemas st))
         (if (c =?s "") || (s =?s "") then catSchemas st else add (c +:+ "." +:+ s) (catSchemas st))
         (add (joinName c s t) (tables st)).

Definition collect_sets (dc ds : string) (refs : list rawRef) : name_sets :=
  foldl (add_ref dc ds) (mkSets ∅ ∅ ∅ ∅) refs.

(** [analyze] with the byte cap [maxBodyBytes]: the metadata and the truncation flag. *)
Definition analyze (maxBodyBytes : Z) (sql defaultCatalog defaultSchema : string) : QueryMeta * bool :=
  let limit := if (maxBodyBytes <=? 0)%Z then DefaultMaxBodyBytes else maxBodyBytes in
  let truncated := (limit <? Z.of_nat (String.length sql))%Z in
  let sql := if truncated then str_take (Z.to_nat limit) sql else sql in
  match tokenize sql with
  | [] => (emptyMeta, truncated)
  | toks =>
      match statementType toks with
      | None => (emptyMeta, truncated)
      | Some queryType =>
          let st := collect_sets defaultCatalog defaultSchema (extractTableRefs toks) in
          (mkQueryMeta queryType (categoryFor queryType) (sorted (cats st)) (sorted (schemas st))
             (sorted (catSchemas st)) (sorted (tables st)) true, truncated)
      end
  end.

Definition Analyze (maxBodyBytes : Z) (sql dc ds : string) : QueryMeta := fst (analyze maxBodyBytes sql dc ds).
Definition AnalyzeWithTruncation (maxBodyBytes : Z) (sql dc ds : string) : QueryMeta * bool :=
  analyze maxBodyBytes sql dc ds.
End analyze.

Example analyze_ex :
  let a s := Analyze to_lower 0 s "hive" "web" in
  Tables (a "SELECT * FROM a JOIN b.c x ON a.id = x.id WHERE n = 'from secret.t' -- from d") = ["hive.b.c"; "hive.web.a"]
  ∧ QueryType (a "WITH x AS (SELECT 1 FROM t) INSERT INTO z SELECT * FROM x") = "INSERT"
  ∧ Tables (a "CREATE TABLE IF NOT EXISTS t (x int)") = ["hive.web.if"]
  ∧ ParseOK (a "hello world") = false.
Proof. vm_compute. repeat split. Qed.

(** ** The tokenizer's loop makes progress, so its fuel is enough *)
Lemma drop_while_length p s : (String.length (drop_while p s) ≤ String.length s)%nat.
Proof. induction s as [|c s IH]; cbn; [done|]. destruct (p c); cbn; lia. Qed.

Lemma skip_block_length s : (String.length (skip_block s) ≤ String.length s)%nat.
Proof.
  induction s as [|a r IH]; [done|]. cbn [skip_block]. destruct r as [|b r2]; [cbn; lia|].
  destruct (_ && _); cbn in *; lia.
Qed.

Lemma skip_string_length s : (String.length (skip_string s) ≤ String.length s)%nat.
Proof.
  induction s as [s IH] using (induction_ltof1 _ String.length). unfold ltof in IH.
  destruct s as [|c r]; [done|]. cbn [skip_string]. destruct (Ascii.eqb c squote).
  - destruct r as [|d r2]; [cbn; lia|]. destruct (Ascii.eqb d squote); [|cbn; lia].
    specialize (IH r2). cbn in *. lia.
  - specialize (IH r). cbn in *. lia.
Qed.

Lemma scanDelimited_length sym close s :
  (String.length (snd (scanDelimited sym close s)) ≤ String.length s)%nat.
Proof.
  induction s as [s IH] using (induction_ltof1 _ String.length). unfold ltof in IH.
  destruct s as [|c r]; [done|]. cbn [scanDelimited]. destruct (Ascii.eqb c close).
  - destruct r as [|d r2]; [cbn; lia|]. destruct (_ && _); [|cbn; lia].
    specialize (IH r2). destruct (scanDelimited sym close r2). cbn in *. lia.
  - specialize (IH r). destruct (scanDelimited sym close r). cbn in *. lia.
Qed.

Lemma ident_run_length s : (String.length (snd (ident_run s)) ≤ String.length s)%nat.
Proof.
  induction s as [|c r IH]; [done|]. cbn [ident_run].
  destruct (isIdentChar c); [|done]. destruct (ident_run r). cbn in *. lia.
Qed.

Lemma str_drop1_length s : (String.length (str_drop 1 s) ≤ String.length s)%nat.
Proof. destruct s as [|c [|]]; cbn; lia. Qed.

#[local] Hint Resolve drop_while_length skip_block_length skip_string_length scanDelimited_length
  ident_run_length str_drop1_length : goway.

Lemma tokenize_fuel_enough f g s :
  (String.length s ≤ f)%nat → (String.length s ≤ g)%nat → tokenize_fuel f s = tokenize_fuel g s.
Proof.
  revert g s. induction f as [|f IH]; intros g s Hf Hg.
  { destruct s; [by destruct g|cbn in Hf; lia]. }
  destruct g as [|g]; [destruct s; [done|cbn in Hg; lia]|].
  destruct s as [|c r]; [done|]. cbn [String.length] in Hf, Hg. cbn [tokenize_fuel].
  pose proof (str_drop1_length r). pose proof (drop_while_length (λ c, negb (Ascii.eqb c newline)) (str_drop 1 r)).
  pose proof (skip_block_length (str_drop 1 r)). pose proof (skip_string_length r).
  pose proof (scanDelimited_length true dquote r). pose proof (scanDelimited_length true backtick r).
  pose proof (scanDelimited_length false "]" r). pose proof (ident_run_length r).
  destruct (_ && has_prefix "-" r); [unfold skip_line; apply IH; lia|].
  destruct (_ && has_prefix "*" r); [apply IH; lia|].
  destruct (Ascii.eqb c squote); [apply IH; lia|].
  destruct (Ascii.eqb c dquote).
  { destruct (scanDelimited true dquote r). cbn in *. f_equal. apply IH; lia. }
  destruct (Ascii.eqb c backtick).
  { destruct (scanDelimited true backtick r). cbn in *. f_equal. apply IH; lia. }
  destruct (Ascii.eqb c "[").
  { destruct (scanDelimited false "]" r). cbn in *. f_equal. apply IH; lia. }
  destruct (mem_byte c ".(),"); [f_equal; apply IH; lia|].
  destruct (isIdentChar c) eqn:Hi; [|apply IH; lia].
  cbn [ident_run]. rewrite Hi. destruct (ident_run r). cbn in *. f_equal. apply IH; lia.
Qed.

Lemma tokenize_fuel_eq f s : (String.length s ≤ f)%nat → tokenize_fuel f s = tokenize s.
Proof. intros. by apply tokenize_fuel_enough. Qed.

(** ** Equations of [tokenize] *)

(** Characters that neither open a quoted part nor can start a comment. *)
Definition plain_char (c : ascii) : bool :=
  negb (Ascii.eqb c "-" || Ascii.eqb c "/" || Ascii.eqb c squote || Ascii.eqb c dquote
        || Ascii.eqb c backtick || Ascii.eqb c "[").

Lemma tokenize_plain_cons c r : plain_char c = true →
  tokenize (String c r) =
    if mem_byte c ".()," then Tok (String c "") false :: tokenize r
    else if isIdentChar c then
      let '(w, t) := ident_run (String c r) in Tok w false :: tokenize t
    else tokenize r.
Proof.
  unfold plain_char. rewrite negb_true_iff, !orb_false_iff. intros (((((H1 & H2) & H3) & H4) & H5) & H6).
  unfold tokenize at 1. cbn [String.length tokenize_fuel].
  rewrite H1, H2, H3, H4, H5, H6. cbn [andb].
  destruct (mem_byte c ".(),"); [done|]. destruct (isIdentChar c) eqn:Hi; [|done].
  cbn [ident_run]. rewrite Hi. pose proof (ident_run_length r).
  destruct (ident_run r) as [w t]. f_equal. by apply tokenize_fuel_eq.
Qed.

Definition boundary (x : string) : Prop :=
  match x with String c _ => isIdentChar c = false | "" => True end.

Lemma ident_run_app s x : boundary x →
  ident_run (s +:+ x) = let '(w, t) := ident_run s in (w, t +:+ x) .
Proof.
  intros Hx. induction s as [|c s IH].
  - rewrite str_app_nil_l. cbn. rewrite str_app_nil_l. destruct x as [|c x]; [done|]. cbn in *. by rewrite Hx.
  - rewrite str_app_cons. cbn [ident_run]. destruct (isIdentChar c); [|done].
    rewrite IH. by destruct (ident_run s).
Qed.

Lemma ident_run_plain s : str_forallb plain_char s = true →
  str_forallb plain_char (snd (ident_run s)) = true.
Proof.
  induction s as [|c s IH]; cbn; [done|]. intros Hs. pose proof Hs as [_ Hr]%andb_true_iff.
  destruct (isIdentChar c); [|done]. specialize (IH Hr). by destruct (ident_run s).
Qed.

(** Plain text is tokenized on its own up to a token boundary. *)
Lemma tokenize_plain_app pre x :
  str_forallb plain_char pre = true → boundary x → tokenize (pre +:+ x) = tokenize pre ++ tokenize x.
Proof.
  intros Hp Hx. revert Hp. induction pre as [pre IH] using (induction_ltof1 _ String.length).
  unfold ltof in IH. destruct pre as [|c p]; intros Hp; [by rewrite str_app_nil_l|].
  pose proof Hp as [Hc Hp']%andb_true_iff. rewrite str_app_cons, !tokenize_plain_cons by done.
  destruct (mem_byte c ".(),"). { rewrite IH by (cbn; auto; lia). done. }
  destruct (isIdentChar c) eqn:Hi; [|by rewrite IH by (cbn; auto; lia)].
  rewrite <- str_app_cons, ident_run_app by done. pose proof (ident_run_plain p Hp') as Hpl.
  pose proof (ident_run_length p) as Hl.
  cbn [ident_run]. rewrite Hi. destruct (ident_run p) as [w t]. cbn [snd] in *.
  rewrite IH by (done || cbn; lia). done.
Qed.

(** ** Text the analysis does not see *)

(** A piece of SQL that carries no tokens, before the text [post]. *)
Inductive ignored (post : string) : string → Prop :=
| ign_literal lit :
    mem_byte squote lit = false → has_prefix (String squote "") post = false →
    ignored post (String squote (lit +:+ String squote ""))
| ign_line c : mem_byte newline c = false → ignored post ("--" +:+ c +:+ nl)
| ign_block c : contains "*/" c = false → ignored post ("/*" +:+ c +:+ "*/").

Lemma skip_string_literal lit post :
  mem_byte squote lit = false → has_prefix (String squote "") post = false →
  skip_string (lit +:+ String squote "" +:+ post) = post.
Proof.
  intros Hl Hp. induction lit as [|c lit IH].
  - rewrite str_app_nil_l, str_app_cons, str_app_nil_l. cbn [skip_string]. rewrite Ascii.eqb_refl.
    destruct post as [|d post]; [done|]. cbn [has_prefix] in Hp. rewrite andb_true_r in Hp.
    by rewrite Ascii.eqb_sym, Hp.
  - cbn [mem_byte] in Hl. apply orb_false_iff in Hl as [Hc Hl]. rewrite str_app_cons. cbn [skip_string].
    rewrite Ascii.eqb_sym, Hc. auto.
Qed.

Lemma skip_line_comment c post : mem_byte newline c = false → skip_line (c +:+ nl +:+ post) = nl +:+ post.
Proof.
  intros Hc. induction c as [|a c IH]; [done|].
  cbn [mem_byte] in Hc. apply orb_false_iff in Hc as [Ha Hc]. rewrite str_app_cons.
  unfold skip_line in *. cbn [drop_while]. rewrite Ascii.eqb_sym, Ha. cbn [negb]. auto.
Qed.

Lemma skip_block_comment c post : contains "*/" c = false → skip_block (c +:+ "*/" +:+ post) = post.
Proof.
  intros Hc. induction c as [|a c IH]; [done|]. rewrite str_app_cons. cbn [skip_block].
  cbn [contains] in Hc. apply orb_false_iff in Hc as [Hp Hc]. specialize (IH Hc).
  destruct c as [|b c].
  - rewrite str_app_nil_l in *. change ("*/" +:+ post) with (String "*" (String "/" post)) in *.
    by destruct (Ascii.eqb a "*").
  - rewrite str_app_cons in *. cbn [has_prefix] in Hp. rewrite andb_true_r in Hp.
    rewrite (Ascii.eqb_sym a), (Ascii.eqb_sym b), Hp. done.
Qed.

Lemma tokenize_line r : tokenize ("--" +:+ r) = tokenize (skip_line r).
Proof.
  assert (Hf : ∀ f, (String.length r ≤ f)%nat →
    tokenize_fuel (S f) (String "-" (String "-" r)) = tokenize (skip_line r)).
  { intros f Hf. cbn [tokenize_fuel has_prefix]. rewrite !Ascii.eqb_refl. cbn [andb].
    change (str_drop 1 (String "-" r)) with (str_drop 0 r). rewrite str_drop_0.
    apply tokenize_fuel_eq. etrans; [apply drop_while_length|done]. }
  apply (Hf (S (String.length r))). lia.
Qed.

Lemma tokenize_block r : tokenize ("/*" +:+ r) = tokenize (skip_block r).
Proof.
  assert (Hf : ∀ f, (String.length r ≤ f)%nat →
    tokenize_fuel (S f) (String "/" (String "*" r)) = tokenize (skip_block r)).
  { intros f Hf. cbn [tokenize_fuel has_prefix]. change (Ascii.eqb "/" "-") with false.
    rewrite !Ascii.eqb_refl. cbn [andb].
    change (str_drop 1 (String "*" r)) with (str_drop 0 r). rewrite str_drop_0.
    apply tokenize_fuel_eq. etrans; [apply skip_block_length|done]. }
  apply (Hf (S (String.length r))). lia.
Qed.

Lemma tokenize_quote r : tokenize (String squote r) = tokenize (skip_string r).
Proof.
  unfold tokenize at 1. cbn [String.length tokenize_fuel].
  change (Ascii.eqb squote "-") with false. change (Ascii.eqb squote "/") with false.
  rewrite Ascii.eqb_refl. cbn [andb]. apply tokenize_fuel_eq, skip_string_length.
Qed.

Lemma ignored_tokens post junk : ignored post junk → tokenize (junk +:+ post) = tokenize post.
Proof.
  destruct 1 as [lit Hl Hp|c Hc|c Hc].
  - by rewrite str_app_cons, str_app_assoc, tokenize_quote, skip_string_literal.
  - rewrite !str_app_assoc, tokenize_line, skip_line_comment by done.
    change (nl +:+ post) with (String newline post). by rewrite tokenize_plain_cons.
  - by rewrite !str_app_assoc, tokenize_block, skip_block_comment.
Qed.

Lemma ignored_boundary post junk : ignored post junk → boundary (junk +:+ post).
Proof. by destruct 1. Qed.

(** ** Sorted sets *)
Lemma sorted_spec s : StronglySorted String.le (sorted s) ∧ NoDup (sorted s) ∧ ∀ x, x ∈ sorted s ↔ x ∈ s.
Proof.
  unfold sorted. pose proof (merge_sort_Permutation String.le (elements s)) as Hp. split_and!.
  - apply (StronglySorted_merge_sort String.le).
  - rewrite Hp. apply NoDup_elements.
  - intros x. rewrite Hp. apply elem_of_elements.
Qed.

Lemma add_nonempty v s : "" ∉ s → "" ∉ add v s.
Proof. intros Hs. unfold add. destruct (v =?s "") eqn:E; [done|]. apply seqb_neq in E. set_solver. Qed.

Definition sets_nonempty (st : name_sets) : Prop :=
  ("" ∉ cats st) ∧ ("" ∉ schemas st) ∧ ("" ∉ catSchemas st) ∧ ("" ∉ tables st).

Lemma collect_sets_nonempty lower dc ds refs : sets_nonempty (collect_sets lower dc ds refs).
Proof.
  unfold collect_sets. assert (Hz : sets_nonempty (mkSets ∅ ∅ ∅ ∅)) by (repeat split; set_solver).
  revert Hz. generalize (mkSets ∅ ∅ ∅ ∅). induction refs as [|r refs IH]; intros st Hst; [done|].
  cbn. apply IH. destruct Hst as (H1 & H2 & H3 & H4). unfold add_ref.
  destruct (qualify lower r dc ds) as [[c s] t]. destruct (t =?s ""); [done|].
  repeat split; cbn; repeat case_match; auto using add_nonempty.
Qed.

(** ** Theorems *)
Section theorems.
Context (ToLower : string → string).

(** Comments and string literals never influence the result: text that carries no
    tokens can be cut out after any plain prefix, so nothing inside a literal or a
    comment can add a table or change the statement type. *)
Theorem ignored_text_is_invisible pre junk post :
  str_forallb plain_char pre = true → ignored post junk → boundary post →
  tokenize (pre +:+ junk +:+ post) = tokenize (pre +:+ post).
Proof.
  intros Hp Hj Hb. rewrite (tokenize_plain_app pre (junk +:+ post)) by auto using ignored_boundary.
  by rewrite (tokenize_plain_app pre post), ignored_tokens.
Qed.

(** Every list of a result is sorted, has no duplicates and no empty name; a result
    that did not parse is the empty one, and one that did names a known statement
    and its category. *)
Theorem meta_well_formed m sql dc ds :
  let q := Analyze ToLower m sql dc ds in
  Forall (λ l, StronglySorted String.le l ∧ NoDup l ∧ ("" ∉ l))
    [Catalogs q; Schemas q; CatalogSchemas q; Tables q]
  ∧ if ParseOK q then isStatementKeyword (QueryType q) = true ∧ Category q = categoryFor (QueryType q)
    else q = emptyMeta.
Proof.
  unfold Analyze, analyze. cbv zeta.
  assert (He : Forall (λ l : list string, StronglySorted String.le l ∧ NoDup l ∧ ("" ∉ l)) [[]; []; []; []]).
  { repeat constructor; set_solver. }
  set (txt := if _ : bool then _ else _). destruct (tokenize txt) as [|t ts]; [done|].
  destruct (statementType (t :: ts)) as [qt|] eqn:Est; [|done]. cbn. split.
  - pose proof (collect_sets_nonempty ToLower dc ds (extractTableRefs (t :: ts))) as (H1 & H2 & H3 & H4).
    assert (Hs : ∀ s : gset string, "" ∉ s →
      StronglySorted String.le (sorted s) ∧ NoDup (sorted s) ∧ ("" ∉ sorted s)).
    { intros s Hs. destruct (sorted_spec s) as (? & ? & Hx). by rewrite Hx. }
    repeat constructor; by apply Hs.
  - split; [|done]. revert Est. unfold statementType. generalize (t :: ts). intros toks.
    destruct (keywordAt toks =?s "EXPLAIN"); [intros; by simplify_eq|].
    destruct (keywordAt toks =?s "WITH").
    + unfold mainAfterWith. intros. simplify_eq.
      assert (Hm : ∀ l d k, main_scan d l = Some k → isStatementKeyword k = true).
      { clear. induction l as [|x l IH]; intros d k; cbn [main_scan]; [done|].
        repeat case_match; eauto. intros. by simplify_eq. }
      destruct (main_scan _ _) eqn:E; [by eapply Hm|done].
    + destruct (isStatementKeyword (keywordAt toks)) eqn:E; [|done]. intros. by simplify_eq.
Qed.

(** The analysis reads at most the configured number of bytes: the rest of the body
    cannot matter, and the flag says exactly whether there was a rest. *)
Theorem truncation_bound m sql dc ds :
  let limit := NewHeuristic m in
  fst (analyze ToLower m sql dc ds) = fst (analyze ToLower m (str_take (Z.to_nat limit) sql) dc ds)
  ∧ snd (analyze ToLower m sql dc ds) = (limit <? Z.of_nat (String.length sql))%Z.
Proof.
  unfold analyze, NewHeuristic. cbv zeta.
  set (limit := if (m <=? 0)%Z then DefaultMaxBodyBytes else m).
  assert (Hl : (0 < limit)%Z) by (unfold limit, DefaultMaxBodyBytes; destruct (m <=? 0)%Z eqn:E; lia).
  clearbody limit. split; [|by destruct (tokenize _); [|destruct (statementType _)]].
  destruct (limit <? Z.of_nat (String.length sql))%Z eqn:E.
  - rewrite str_take_length by lia. rewrite Z2Nat.id by lia. rewrite Z.ltb_irrefl.
    by destruct (tokenize _); [|destruct (statementType _)].
  - assert (str_take (Z.to_nat limit) sql = sql) as ->.
    { assert (Hn : (String.length sql ≤ Z.to_nat limit)%nat) by lia. clear E. revert Hn.
      generalize (Z.to_nat limit). induction sql as [|c sql IH]; intros [|n] Hn; cbn in *; [done..|lia|].
      by rewrite IH by lia. }
    by rewrite E.
Qed.
End theorems.

(** ** Words and references *)
Definition ident_word (w : string) : Prop := w ≠ "" ∧ str_forallb isIdentChar w = true.

Lemma ident_char_plain c : isIdentChar c = true → plain_char c = true ∧ mem_byte c ".()," = false.
Proof.
  assert (Hb : implb (isIdentChar c) (plain_char c && negb (mem_byte c ".(),")) = true).
  { revert c. apply (ascii_forall (λ c, implb (isIdentChar c) (plain_char c && negb (mem_byte c ".(),")))).
    by vm_compute. }
  intros Hc. rewrite Hc in Hb. cbn [implb] in Hb. apply andb_true_iff in Hb as [? ?%negb_true_iff]. done.
Qed.

Lemma ident_run_all w x : str_forallb isIdentChar w = true → boundary x → ident_run (w +:+ x) = (w, x).
Proof.
  intros Hw Hx. rewrite ident_run_app by done.
  assert (ident_run w = (w, "")) as ->; [|by rewrite str_app_nil_l].
  induction w as [|c w IH]; cbn in *; [done|]. apply andb_true_iff in Hw as [-> Hw]. by rewrite IH.
Qed.

Lemma tokenize_word w x : ident_word w → boundary x → tokenize (w +:+ x) = Tok w false :: tokenize x.
Proof.
  intros [Hn Hw] Hx. pose proof (ident_run_all w x Hw Hx) as Hr. destruct w as [|c w]; [done|].
  rewrite str_app_cons in *. pose proof Hw as [Hc _]%andb_true_iff.
  destruct (ident_char_plain c Hc) as [Hp Hm].
  by rewrite tokenize_plain_cons, Hm, Hc, Hr.
Qed.

Lemma tokenize_skip c x :
  plain_char c = true → mem_byte c ".()," = false → isIdentChar c = false →
  tokenize (String c x) = tokenize x.
Proof. intros Hp Hm Hi. by rewrite tokenize_plain_cons, Hm, Hi. Qed.

Lemma tokenize_space x : tokenize (" " +:+ x) = tokenize x.
Proof. change (" " +:+ x) with (String " " x). by rewrite tokenize_plain_cons. Qed.
Lemma tokenize_dot x : tokenize ("." +:+ x) = Tok "." false :: tokenize x.
Proof. change ("." +:+ x) with (String "." x). by rewrite tokenize_plain_cons. Qed.

(** Tokens shrink along the loops of the extraction, so their fuel is enough. *)
Lemma dotted_length toks : (length (snd (dotted toks)) ≤ length toks)%nat.
Proof.
  induction toks as [toks IH] using (induction_ltof1 _ (@length token)). unfold ltof in IH.
  destruct toks as [|d [|p ts]]; cbn [dotted snd]; [done..|].
  destruct (text d =?s "."); [|done]. specialize (IH ts). destruct (dotted ts). cbn in *. lia.
Qed.

Lemma readRef_length toks ref r : readRef toks = Some (ref, r) → (length r < length toks)%nat.
Proof.
  destruct toks as [|t ts]; [done|]. cbn [readRef]. destruct (_ && _); [done|].
  pose proof (dotted_length ts). destruct (dotted ts). intros. simplify_eq/=. lia.
Qed.

Lemma skipAlias_length toks : (length (skipAlias toks) ≤ length toks)%nat.
Proof. destruct toks as [|t ts]; [done|]. cbn [skipAlias]. repeat case_match; cbn; rewrite ?length_drop; lia. Qed.

Lemma skip_only_length toks : (length (skip_only toks) ≤ length toks)%nat.
Proof. induction toks as [|t ts IH]; cbn; [done|]. case_match; cbn; lia. Qed.

Lemma collect_length f toks : (length (snd (collect f toks)) ≤ length toks)%nat.
Proof.
  revert toks. induction f as [|f IH]; intros toks; [done|]. cbn [collect].
  destruct (readRef toks) as [[ref r]|] eqn:E; [|done]. apply readRef_length in E.
  pose proof (skipAlias_length r). destruct (starts_with "," (skipAlias r)); [|cbn; lia].
  pose proof (length_drop (skipAlias r) 1). destruct (starts_with "(" _); [cbn; lia|].
  specialize (IH (drop 1 (skipAlias r))). destruct (collect f _). cbn in *. lia.
Qed.

Lemma extract_fuel_enough f g toks :
  (length toks ≤ f)%nat → (length toks ≤ g)%nat → extract_fuel f toks = extract_fuel g toks.
Proof.
  revert g toks. induction f as [|f IH]; intros g toks Hf Hg.
  { destruct toks; [by destruct g|cbn in Hf; lia]. }
  destruct g as [|g]; [destruct toks; [done|cbn in Hg; lia]|].
  destruct toks as [|t ts]; [done|]. cbn [length] in Hf, Hg. cbn [extract_fuel].
  pose proof (skip_only_length ts). pose proof (collect_length (length (skip_only ts)) (skip_only ts)).
  destruct (_ || _); [apply IH; lia|]. destruct (starts_with _ _); [apply IH; lia|].
  destruct (collect _ _) as [refs r']. cbn in *. f_equal. apply IH; lia.
Qed.

Lemma word_not_punct w p : ident_word w → isIdentChar p = false → (w =?s String p "") = false.
Proof.
  intros [_ Hw] Hp. apply seqb_neq. intros ->. cbn in Hw. rewrite Hp in Hw. done.
Qed.

Lemma to_lower_nonempty w : w ≠ "" → to_lower w ≠ "".
Proof. by destruct w. Qed.

Lemma sorted_singleton x : sorted ({[x]} ∪ ∅) = [x].
Proof. unfold sorted. by rewrite (right_id_L ∅ (∪)), elements_singleton. Qed.

Section references.
Context (ToLower : string → string).

(** [Analyze] on a text within the cap whose tokens are known. *)
Lemma analyze_short m sql dc ds t ts :
  (Z.of_nat (String.length sql) ≤ NewHeuristic m)%Z → tokenize sql = t :: ts →
  Analyze ToLower m sql dc ds =
    match statementType (t :: ts) with
    | None => emptyMeta
    | Some qt =>
        let st := collect_sets ToLower dc ds (extractTableRefs (t :: ts)) in
        mkQueryMeta qt (categoryFor qt) (sorted (cats st)) (sorted (schemas st))
          (sorted (catSchemas st)) (sorted (tables st)) true
    end.
Proof.
  intros Hl Ht. unfold Analyze, analyze. fold (NewHeuristic m).
  destruct (NewHeuristic m <? _)%Z eqn:E; [lia|]. rewrite Ht. by destruct (statementType (t :: ts)).
Qed.

(** A fully qualified reference after FROM is reported as written, in lower case,
    whatever the defaults are, and classified as a read. *)
Theorem qualified_reference_found m c s t dc ds :
  ident_word c → ident_word s → ident_word t →
  is_stop (to_upper c) = false → to_upper c ≠ "ONLY" →
  (Z.of_nat (String.length ("SELECT * FROM " +:+ c +:+ "." +:+ s +:+ "." +:+ t)) ≤ NewHeuristic m)%Z →
  Analyze ToLower m ("SELECT * FROM " +:+ c +:+ "." +:+ s +:+ "." +:+ t) dc ds =
    mkQueryMeta "SELECT" CategoryRead [to_lower c] [to_lower s] [to_lower c +:+ "." +:+ to_lower s]
      [to_lower c +:+ "." +:+ to_lower s +:+ "." +:+ to_lower t] true.
Proof.
  intros Hc Hs Ht Hstop Honly Hlen.
  assert (Htok : tokenize ("SELECT * FROM " +:+ c +:+ "." +:+ s +:+ "." +:+ t) =
    [Tok "SELECT" false; Tok "FROM" false; Tok c false; Tok "." false; Tok s false; Tok "." false; Tok t false]).
  { change ("SELECT * FROM " +:+ ?x) with ("SELECT" +:+ String " " (String "*" (" " +:+ ("FROM" +:+ (" " +:+ x))))).
    rewrite tokenize_word, (tokenize_skip " "), (tokenize_skip "*") by done.
    rewrite tokenize_space, tokenize_word by done.
    rewrite tokenize_space, tokenize_word, tokenize_dot, tokenize_word, tokenize_dot by done.
    rewrite <- (str_app_nil_r t) at 1. by rewrite tokenize_word. }
  rewrite (analyze_short _ _ _ _ _ _ Hlen Htok).
  assert (Href : extractTableRefs [Tok "SELECT" false; Tok "FROM" false; Tok c false; Tok "." false;
                   Tok s false; Tok "." false; Tok t false] = [[to_lower c; to_lower s; to_lower t]]).
  { apply seqb_neq in Honly. unfold extractTableRefs.
    cbn -[is_stop to_upper to_lower]. change (is_anchor (to_upper "SELECT")) with false.
    change (is_anchor (to_upper "FROM")) with true. cbn -[is_stop to_upper to_lower].
    rewrite Honly. cbn -[is_stop to_upper to_lower].
    rewrite !word_not_punct, Hstop by (done || discriminate). done. }
  rewrite Href. unfold collect_sets. cbn [foldl]. unfold add_ref, qualify. cbn [rev app].
  destruct Hc as [Hc _], Hs as [Hs _], Ht as [Ht _].
  apply to_lower_nonempty, seqb_neq in Hc, Hs, Ht. unfold joinName. rewrite Hc, Hs, Ht. cbn [orb app join].
  assert (Hne : ∀ x, (to_lower c +:+ "." +:+ x =?s "") = false)
    by (intros x; apply seqb_neq; by destruct (to_lower c)).
  unfold add. rewrite Hc, Hs, !Hne. cbn [cats schemas catSchemas tables]. by rewrite !sorted_singleton.
Qed.

(** The target of DROP TABLE IF EXISTS is not what is captured: whatever the table,
    the reported reference is the word IF. *)
Theorem drop_if_exists_captures_if m t dc ds :
  ident_word t → is_anchor (to_upper t) = false →
  (Z.of_nat (String.length ("DROP TABLE IF EXISTS " +:+ t)) ≤ NewHeuristic m)%Z →
  Tables (Analyze ToLower m ("DROP TABLE IF EXISTS " +:+ t) dc ds) =
    [joinName (ToLower (trim_space dc)) (ToLower (trim_space ds)) "if"].
Proof.
  intros Ht Ha Hlen.
  assert (Htok : tokenize ("DROP TABLE IF EXISTS " +:+ t) =
    [Tok "DROP" false; Tok "TABLE" false; Tok "IF" false; Tok "EXISTS" false; Tok t false]).
  { change ("DROP TABLE IF EXISTS " +:+ ?x)
      with ("DROP" +:+ (" " +:+ ("TABLE" +:+ (" " +:+ ("IF" +:+ (" " +:+ ("EXISTS" +:+ (" " +:+ x)))))))).
    rewrite tokenize_word, tokenize_space, tokenize_word, tokenize_space, tokenize_word, tokenize_space,
      tokenize_word, tokenize_space by done.
    rewrite <- (str_app_nil_r t) at 1. by rewrite tokenize_word. }
  rewrite (analyze_short _ _ _ _ _ _ Hlen Htok).
  assert (Href : extractTableRefs
    [Tok "DROP" false; Tok "TABLE" false; Tok "IF" false; Tok "EXISTS" false; Tok t false] = [["if"]]).
  { assert (Hcomma : starts_with "," [Tok t false] = false)
      by (cbn [starts_with text]; by apply word_not_punct).
    unfold extractTableRefs.
    change (extract_fuel (length _) _) with
      (let '(refs, r') := (if starts_with "," [Tok t false] then
           (if starts_with "(" [] then ([["if"]], []) else let '(refs, r) := collect 2 [] in (["if"] :: refs, r))
         else ([["if"]], [Tok t false])) in refs ++ extract_fuel 3 r').
    rewrite Hcomma. cbn [extract_fuel quoted text orb]. by rewrite Ha. }
  rewrite Href. unfold collect_sets. cbn [foldl statementType keywordAt]. unfold add_ref, qualify.
  change ("if" =?s "") with false. unfold add.
  replace (joinName _ _ "if" =?s "") with false.
  2: { symmetry. apply seqb_neq. unfold joinName.
       destruct (ToLower (trim_space dc) =?s "") eqn:E1, (ToLower (trim_space ds) =?s "") eqn:E2;
         cbn [app join]; try discriminate; apply seqb_neq in E1 || apply seqb_neq in E2;
         (destruct (ToLower (trim_space dc)) || destruct (ToLower (trim_space ds))); try done;
         destruct (ToLower (trim_space ds)); done. }
  cbn [tables Tables]. change (statementType _) with (Some "DROP"). cbn [Tables].
  apply sorted_singleton.
Qed.
End references.

(** ** Witnesses *)
Lemma ignored_text_is_invisible_witness :
  tokenize ("SELECT * FROM t WHERE x = " +:+ "'from secret.t'" +:+ " LIMIT 1")
  = tokenize ("SELECT * FROM t WHERE x = " +:+ " LIMIT 1").
Proof.
  apply ignored_text_is_invisible; [reflexivity| |reflexivity].
  apply (ign_literal " LIMIT 1" "from secret.t"); reflexivity.
Defined.

Lemma qualified_reference_found_witness :
  Analyze to_lower 0 ("SELECT * FROM " +:+ "Hive" +:+ "." +:+ "web" +:+ "." +:+ "Clicks") "x" "y" =
    mkQueryMeta "SELECT" CategoryRead ["hive"] ["web"] ["hive.web"] ["hive.web.clicks"] true.
Proof.
  apply (qualified_reference_found to_lower 0 "Hive" "web" "Clicks");
    [split; [discriminate|reflexivity].. | reflexivity | discriminate | vm_compute; discriminate].
Defined.

Lemma drop_if_exists_captures_if_witness :
  Tables (Analyze to_lower 0 ("DROP TABLE IF EXISTS " +:+ "orders") "hive" "web") = ["hive.web.if"].
Proof.
  apply (drop_if_exists_captures_if to_lower 0 "orders" "hive" "web");
    [split; [discriminate|reflexivity] | reflexivity | vm_compute; discriminate].
Defined.
