(* ===== verification/SqlRefs.v ===== *)
(** * What SQL analysis reports of a statement over tables
      (routing-service/internal/sqlmeta/heuristic.go)

    Statements are built from a leading text, a list of table references with quoted or bare
    names and aliases, and a rest; the analysis of the text is compared with the references
    it was built from. *)
From S2P Require Import Prelude GoStrings SqlMeta.

#[local] Open Scope Z_scope.

(** ** References *)
Inductive part : Type := Bare (w : string) | Quoted (s : string).
(** One to three parts, and an alias, after AS or on its own. *)
Inductive name : Type := NTable (t : part) | NSchema (s t : part) | NFull (c s t : part).
Record table_ref : Type := mkRef { rf_name : name; rf_alias : option (bool * string) }.

Fixpoint double_quotes (s : string) : string :=
  match s with
  | EmptyString => EmptyString
  | String c r => if Ascii.eqb c dquote then String c (String c (double_quotes r)) else String c (double_quotes r)
  end.
Definition part_text (p : part) : string :=
  match p with Bare w => w | Quoted s => String dquote (double_quotes s +:+ String dquote "") end.
(** The name a part stands for: bare names are folded to lower case. *)
Definition part_name (p : part) : string := match p with Bare w => to_lower w | Quoted s => s end.
Definition name_parts (n : name) : part * list part :=
  match n with NTable t => (t, []) | NSchema s t => (s, [t]) | NFull c s t => (c, [s; t]) end.
Fixpoint dots_text (ps : list part) : string := match ps with [] => "" | p :: ps => "." +:+ part_text p +:+ dots_text ps end.
Definition alias_text (a : option (bool * string)) : string :=
  match a with None => "" | Some (true, w) => " AS " +:+ w | Some (false, w) => " " +:+ w end.
Definition ref_text (r : table_ref) : string :=
  let '(p, ps) := name_parts (rf_name r) in part_text p +:+ dots_text ps +:+ alias_text (rf_alias r).
Fixpoint refs_text (rs : list table_ref) : string :=
  match rs with [] => "" | [r] => ref_text r | r :: rs => ref_text r +:+ ", " +:+ refs_text rs end.

Definition part_ok (p : part) : Prop := match p with Bare w => ident_word w | Quoted s => s ≠ "" end.
(** A bare first part is no keyword that ends a list, and not ONLY; a quoted one is no
    parenthesis, which is taken for that of a subquery. *)
Definition first_ok (p : part) : Prop :=
  part_ok p ∧ match p with Bare w => is_stop (to_upper w) = false ∧ to_upper w ≠ "ONLY" | Quoted s => s ≠ "(" end.
Definition alias_ok (a : option (bool * string)) : Prop :=
  match a with
  | None => True
  | Some (true, w) => ident_word w
  | Some (false, w) => ident_word w ∧ is_stop (to_upper w) = false ∧ is_anchor (to_upper w) = false
  end.
Definition ref_ok (r : table_ref) : Prop :=
  let '(p, ps) := name_parts (rf_name r) in first_ok p ∧ Forall part_ok ps ∧ alias_ok (rf_alias r).

(** ** Leading texts and rests *)

(** Texts up to the keyword before the tables, with the type and the category to report. *)
Definition heads : list (string * string * string) :=
  [("SELECT * FROM", "SELECT", "READ"); ("select distinct a, count(b) from", "SELECT", "READ");
   ("DELETE FROM", "DELETE", "WRITE"); ("INSERT INTO", "INSERT", "WRITE");
   ("UPDATE", "UPDATE", "WRITE"); ("MERGE INTO", "MERGE", "WRITE"); ("TRUNCATE TABLE", "TRUNCATE", "WRITE");
   ("CREATE TABLE", "CREATE", "DDL"); ("DROP TABLE", "DROP", "DDL"); ("ALTER TABLE", "ALTER", "DDL");
   ("REFRESH TABLE", "REFRESH", "DDL"); ("ANALYZE TABLE", "ANALYZE", "DDL"); ("SHOW CREATE TABLE", "SHOW", "READ");
   ("SHOW COLUMNS FROM", "SHOW", "READ"); ("EXPLAIN SELECT * FROM", "EXPLAIN", "EXPLAIN"); ("GRANT SELECT ON TABLE", "GRANT", "OTHER")].
Definition not_anchor (t : token) : bool := quoted t || negb (is_anchor (to_upper (text t))).
Definition head_check (x : string * string * string) : bool :=
  let '(h, ty, cat) := x in
  str_forallb plain_char h && bool_decide (statementType (tokenize h) = Some ty) && (categoryFor ty =?s cat)
  && match tokenize h with t :: _ => negb (quoted t) && negb (to_upper (text t) =?s "WITH") | [] => false end
  && match rev (tokenize h) with a :: pre => negb (not_anchor a) && forallb not_anchor pre | [] => false end.
Lemma heads_checked : Forall (λ x, head_check x = true) heads.
Proof. repeat constructor. Qed.

(** What comes after the last reference: nothing, or a word that ends a list, like WHERE, and
    no further keyword that tables follow; comments and literals may hold anything. *)
Definition ends_list (t : token) : Prop := quoted t = false ∧ is_stop (to_upper (text t)) = true ∧ to_upper (text t) ≠ "AS".
Definition tail_ok (tail : string) : Prop :=
  match tail with "" => True | String c _ => c = " "%char end
  ∧ match tokenize tail with [] => True | t :: _ => ends_list t end ∧ forallb not_anchor (tokenize tail) = true.

(** ** Tokens *)
Definition part_token (p : part) : token := match p with Bare w => Tok w false | Quoted s => Tok s true end.
Definition comma : token := Tok "," false.
Definition dots_toks (ps : list part) : list token := ps ≫= λ p, [Tok "." false; part_token p].
Definition alias_toks (a : option (bool * string)) : list token :=
  match a with None => [] | Some (true, w) => [Tok "AS" false; Tok w false] | Some (false, w) => [Tok w false] end.
Definition ref_toks (r : table_ref) : list token :=
  let '(p, ps) := name_parts (rf_name r) in part_token p :: dots_toks ps ++ alias_toks (rf_alias r).
Fixpoint refs_toks (rs : list table_ref) : list token :=
  match rs with [] => [] | [r] => ref_toks r | r :: rs => ref_toks r ++ comma :: refs_toks rs end.

(** Texts that end a word and a quoted part. *)
Definition separated (x : string) : Prop := match x with "" => True | String c _ => isIdentChar c = false ∧ c ≠ dquote end.
Lemma separated_boundary x : separated x → boundary x.
Proof. destruct x; [done|]. by intros [? _]. Qed.

Lemma scan_quoted s x : separated x → scanDelimited true dquote (double_quotes s +:+ String dquote x) = (s, x).
Proof.
  intros Hx. induction s as [|c s IH]; cbn [double_quotes].
  - rewrite str_app_nil_l. cbn [scanDelimited]. rewrite Ascii.eqb_refl. destruct x as [|d x]; [done|]. destruct Hx as [_ Hd].
    by rewrite (proj2 (Ascii.eqb_neq d dquote) Hd).
  - destruct (Ascii.eqb c dquote) eqn:E; rewrite !str_app_cons; cbn [scanDelimited].
    + rewrite E. cbn [andb]. rewrite IH. apply Ascii.eqb_eq in E as ->. done.
    + by rewrite E, IH.
Qed.

Lemma tokenize_dquote r : tokenize (String dquote r) = let '(id, t) := scanDelimited true dquote r in Tok id true :: tokenize t.
Proof.
  unfold tokenize at 1. cbn [String.length tokenize_fuel]. change (Ascii.eqb dquote "-") with false. change (Ascii.eqb dquote "/") with false.
  change (Ascii.eqb dquote squote) with false. rewrite Ascii.eqb_refl. cbn [andb]. pose proof (scanDelimited_length true dquote r).
  destruct (scanDelimited true dquote r) as [id t]. f_equal. by apply tokenize_fuel_eq.
Qed.

Lemma tokenize_part p x : part_ok p → separated x → tokenize (part_text p +:+ x) = part_token p :: tokenize x.
Proof.
  intros Hp Hx. destruct p as [w|s]; cbn [part_text part_token]; [by apply tokenize_word, separated_boundary|].
  rewrite str_app_cons, str_app_assoc, tokenize_dquote. change (String dquote "" +:+ x) with (String dquote x). by rewrite scan_quoted.
Qed.

Lemma separated_dots ps x : separated x → separated (dots_text ps +:+ x).
Proof. by destruct ps. Qed.
Lemma tokenize_dots ps x : Forall part_ok ps → separated x → tokenize (dots_text ps +:+ x) = dots_toks ps ++ tokenize x.
Proof.
  intros Hps Hx. induction Hps as [|p ps Hp _ IH]; [done|]. cbn [dots_text dots_toks mbind list_bind].
  rewrite !str_app_assoc, tokenize_dot, tokenize_part by (done || by apply separated_dots). by rewrite IH.
Qed.

Lemma separated_alias a x : separated x → separated (alias_text a +:+ x).
Proof. by destruct a as [[[] w]|]. Qed.
Lemma tokenize_alias a x : alias_ok a → separated x → tokenize (alias_text a +:+ x) = alias_toks a ++ tokenize x.
Proof.
  intros Ha Hx%separated_boundary. destruct a as [[[] w]|]; cbn [alias_text alias_toks]; [| |done].
  - change (" AS " +:+ w) with (" " +:+ ("AS" +:+ (" " +:+ w))). rewrite !str_app_assoc, tokenize_space, tokenize_word by done.
    by rewrite tokenize_space, tokenize_word.
  - destruct Ha as (Hw & _ & _). by rewrite str_app_assoc, tokenize_space, tokenize_word.
Qed.

Lemma tokenize_ref r x : ref_ok r → separated x → tokenize (ref_text r +:+ x) = ref_toks r ++ tokenize x.
Proof.
  unfold ref_ok, ref_text, ref_toks. destruct (name_parts (rf_name r)) as [p ps]. intros ([Hp _] & Hps & Ha) Hx.
  rewrite !str_app_assoc, tokenize_part, tokenize_dots, tokenize_alias by (done || auto using separated_dots, separated_alias).
  cbn [app]. by rewrite <- app_assoc.
Qed.

Lemma tokenize_refs rs x : Forall ref_ok rs → separated x → tokenize (refs_text rs +:+ x) = refs_toks rs ++ tokenize x.
Proof.
  intros Hrs Hx. induction Hrs as [|r rs Hr Hrs IH]; [done|]. destruct rs as [|r2 rs]; [by apply tokenize_ref|].
  change (refs_text (r :: r2 :: rs)) with (ref_text r +:+ ", " +:+ refs_text (r2 :: rs)).
  change (refs_toks (r :: r2 :: rs)) with (ref_toks r ++ comma :: refs_toks (r2 :: rs)).
  rewrite !str_app_assoc, tokenize_ref, <- app_assoc by done. change (", " +:+ ?y) with (String "," (" " +:+ y)).
  rewrite tokenize_plain_cons by done. change (mem_byte "," ".(),") with true. cbv iota. by rewrite tokenize_space, IH.
Qed.

(** ** Extraction *)
Definition ref_names (r : table_ref) : rawRef := let '(p, ps) := name_parts (rf_name r) in part_name p :: (part_name <$> ps).

Lemma ref_alias_ok r : ref_ok r → alias_ok (rf_alias r).
Proof. unfold ref_ok. destruct (name_parts _). tauto. Qed.

(** What can follow a reference. *)
Definition follows (ts : list token) : Prop := match ts with [] => True | t :: _ => t = comma ∨ ends_list t end.
Lemma stop_not t p : ends_list t → is_stop (to_upper p) = false → (text t =?s p) = false.
Proof. intros (_ & Hs & _) Hp. apply seqb_neq. intros Ht. rewrite Ht in Hs. congruence. Qed.

Lemma partText_token p : partText (part_token p) = part_name p.
Proof. by destruct p. Qed.

Lemma dotted_parts ps ts : match ts with [] => True | t :: _ => (text t =?s ".") = false end →
  dotted (dots_toks ps ++ ts) = (part_name <$> ps, ts).
Proof.
  intros Hts. induction ps as [|p ps IH].
  - destruct ts as [|d [|t ts]]; [done..|]. cbn. by rewrite Hts.
  - change (dots_toks (p :: ps) ++ ts) with (Tok "." false :: part_token p :: (dots_toks ps ++ ts)). cbn [dotted text].
    rewrite seqb_refl, IH, partText_token. done.
Qed.

Lemma alias_no_dot a ts : alias_ok a → follows ts → match alias_toks a ++ ts with [] => True | t :: _ => (text t =?s ".") = false end.
Proof.
  intros Ha Hts. destruct a as [[[] w]|]; cbn.
  - done.
  - apply word_not_punct; [apply Ha|done].
  - destruct ts as [|t ts]; [done|]. destruct Hts as [-> |Ht]; [done|]. by apply stop_not.
Qed.

Lemma readRef_ref r ts : ref_ok r → follows ts → readRef (ref_toks r ++ ts) = Some (ref_names r, alias_toks (rf_alias r) ++ ts).
Proof.
  unfold ref_ok, ref_toks, ref_names. destruct (name_parts (rf_name r)) as [p ps]. intros ([Hp Hf] & Hps & Ha) Hts. cbn [app readRef].
  rewrite <- app_assoc, dotted_parts, partText_token by by apply alias_no_dot.
  destruct p as [w|s]; cbn [part_token quoted text negb andb]; [|done]. destruct Hf as [Hs _].
  by rewrite !word_not_punct, Hs by done.
Qed.

Lemma skipAlias_alias a ts : alias_ok a → follows ts → skipAlias (alias_toks a ++ ts) = ts.
Proof.
  intros Ha Hts. destruct a as [[[] w]|]; cbn [alias_toks app].
  - cbn. by rewrite drop_0.
  - destruct Ha as (Hw & Hs & Hn). cbn [skipAlias quoted text negb andb]. rewrite !word_not_punct, Hs, Hn by done.
    destruct (to_upper w =?s "AS") eqn:E; [|done]. apply seqb_eq in E. by rewrite E in Hs.
  - destruct ts as [|t ts]; [done|]. destruct Hts as [-> |Ht]; [done|]. cbn [skipAlias]. rewrite !(stop_not t) by done.
    destruct Ht as (-> & -> & Has). apply seqb_neq in Has as ->. done.
Qed.

(** No reference is taken for a subquery or for ONLY. *)
Lemma ref_starts r ts : ref_ok r → starts_with "(" (ref_toks r ++ ts) = false ∧ skip_only (ref_toks r ++ ts) = ref_toks r ++ ts.
Proof.
  unfold ref_ok, ref_toks. destruct (name_parts (rf_name r)) as [p ps]. intros ([Hp Hf] & _ & _). cbn [app starts_with skip_only].
  destruct p as [w|s]; cbn [part_token quoted text negb andb].
  - destruct Hf as [_ Ho]. apply seqb_neq in Ho as ->. by rewrite word_not_punct.
  - by apply seqb_neq in Hf as ->.
Qed.

Lemma refs_toks_length rs : Forall ref_ok rs → (length rs ≤ length (refs_toks rs))%nat.
Proof.
  induction 1 as [|r rs Hr _ IH]; [done|]. assert (1 ≤ length (ref_toks r))%nat.
  { unfold ref_toks. destruct (name_parts _) as [p ps]. cbn. lia. }
  destruct rs as [|r2 rs]; [cbn; lia|]. change (refs_toks (r :: r2 :: rs)) with (ref_toks r ++ comma :: refs_toks (r2 :: rs)).
  rewrite length_app. cbn [length] in *. lia.
Qed.

Lemma collect_refs f rs ts : Forall ref_ok rs → rs ≠ [] → (length rs ≤ f)%nat →
  match ts with [] => True | t :: _ => ends_list t end → collect f (refs_toks rs ++ ts) = (ref_names <$> rs, ts).
Proof.
  intros Hrs. revert f. induction Hrs as [|r rs Hr Hrs IH]; intros f Hn Hf Hts; [done|]. destruct f as [|f]; [cbn in Hf; lia|].
  assert (Hfol : follows ts) by (destruct ts; [done|by right]). destruct rs as [|r2 rs].
  - cbn [refs_toks collect]. rewrite readRef_ref, skipAlias_alias by (done || by apply ref_alias_ok). destruct ts as [|t ts]; [done|].
    cbn [starts_with]. by rewrite (stop_not t).
  - change (refs_toks (r :: r2 :: rs) ++ ts) with ((ref_toks r ++ comma :: refs_toks (r2 :: rs)) ++ ts).
    rewrite <- app_assoc. cbn [app collect]. assert (Hc : follows (comma :: refs_toks (r2 :: rs) ++ ts)) by by left.
    rewrite readRef_ref, skipAlias_alias by (done || by apply ref_alias_ok). change (starts_with "," (comma :: ?l)) with true. cbv iota.
    change (drop 1 (comma :: ?l)) with l. assert (starts_with "(" (refs_toks (r2 :: rs) ++ ts) = false) as ->.
    { apply Forall_cons in Hrs as [Hr2 _]. destruct rs as [|r3 rs]; [by apply ref_starts|].
      change (refs_toks (r2 :: r3 :: rs)) with (ref_toks r2 ++ comma :: refs_toks (r3 :: rs)). rewrite <- app_assoc. by apply ref_starts. }
    rewrite IH by (done || cbn in *; lia). done.
Qed.

Lemma skip_only_refs rs ts : Forall ref_ok rs → rs ≠ [] →
  skip_only (refs_toks rs ++ ts) = refs_toks rs ++ ts ∧ starts_with "(" (refs_toks rs ++ ts) = false.
Proof.
  intros Hrs Hn. destruct Hrs as [|r [|r2 rs] Hr _]; [done|by split; apply ref_starts|].
  change (refs_toks (r :: r2 :: rs)) with (ref_toks r ++ comma :: refs_toks (r2 :: rs)). rewrite <- app_assoc. split; by apply ref_starts.
Qed.

Lemma extract_none f toks : forallb not_anchor toks = true → extract_fuel f toks = [].
Proof.
  revert toks. induction f as [|f IH]; intros [|t ts]; cbn [forallb extract_fuel]; try done. unfold not_anchor at 1.
  intros [-> Ht]%andb_true_iff. by apply IH.
Qed.
Lemma extract_skip f pre ts : forallb not_anchor pre = true → extract_fuel (length pre + f) (pre ++ ts) = extract_fuel f ts.
Proof.
  induction pre as [|t pre IH]; [done|]. cbn [forallb length app Nat.add extract_fuel]. unfold not_anchor at 1.
  intros [-> Ht]%andb_true_iff. by apply IH.
Qed.

Lemma extract_statement pre a rs ts :
  forallb not_anchor pre = true → not_anchor a = false → Forall ref_ok rs → rs ≠ [] →
  match ts with [] => True | t :: _ => ends_list t end → forallb not_anchor ts = true →
  extractTableRefs ((pre ++ [a]) ++ refs_toks rs ++ ts) = ref_names <$> rs.
Proof.
  intros Hpre Ha Hrs Hn Hts Hna. unfold extractTableRefs. rewrite <- app_assoc, length_app, extract_skip by done.
  cbn [app length extract_fuel]. unfold not_anchor in Ha. rewrite Ha. destruct (skip_only_refs rs ts Hrs Hn) as [-> ->].
  pose proof (refs_toks_length rs Hrs). rewrite collect_refs by (done || rewrite length_app; lia).
  by rewrite extract_none, app_nil_r.
Qed.

(** ** The names reported *)
Definition dotted_name (c s t : string) : string := join "." (List.filter (λ x, negb (x =?s "")) [c; s; t]).
Lemma part_name_nonempty p : part_ok p → part_name p ≠ "".
Proof. destruct p as [w|s]; cbn; [|done]. intros [Hn _]. by apply to_lower_nonempty. Qed.
Lemma joinName_dotted c s t : t ≠ "" → joinName c s t = dotted_name c s t ∧ joinName c s t ≠ "".
Proof.
  intros Ht. unfold joinName, dotted_name. cbn [List.filter]. apply seqb_neq in Ht as Ht'. rewrite Ht'.
  destruct (c =?s "") eqn:Ec, (s =?s "") eqn:Es; cbn [negb app join]; (split; [done|]); try done; seqb_simpl.
  - by destruct s.
  - by destruct c.
  - by destruct c.
Qed.
Lemma elem_of_add x v (X : gset string) : v ≠ "" → x ∈ add v X ↔ x = v ∨ x ∈ X.
Proof. intros Hv. unfold add. apply seqb_neq in Hv as ->. set_solver. Qed.

Lemma ex_snoc {A} (P : A → Prop) rs r : (∃ x, x ∈ rs ++ [r] ∧ P x) ↔ P r ∨ ∃ x, x ∈ rs ∧ P x.
Proof. setoid_rewrite elem_of_app. setoid_rewrite list_elem_of_singleton. naive_solver. Qed.

Section reported.
Context (ToLower : string → string).
#[local] Abbreviation norm d := (ToLower (trim_space d)).

(** The catalog, schema and table a reference means, with the session's defaults. *)
Definition meant (dc ds : string) (r : table_ref) : string * string * string :=
  match rf_name r with
  | NTable t => (norm dc, norm ds, part_name t)
  | NSchema s t => (norm dc, part_name s, part_name t)
  | NFull c s t => (part_name c, part_name s, part_name t)
  end.
Lemma meant_table dc ds r : ref_ok r → (meant dc ds r).2 ≠ "".
Proof using Type.
  unfold ref_ok, meant. destruct (rf_name r) as [t|s t|c s t]; cbn [name_parts snd]; intros ([Hp _] & Hps & _); rewrite ?Forall_cons in Hps;
    apply part_name_nonempty; naive_solver.
Qed.
Lemma qualify_meant dc ds r : qualify ToLower (ref_names r) dc ds = meant dc ds r.
Proof using Type. unfold ref_names, meant. by destruct (rf_name r). Qed.

Definition sets_of (dc ds : string) (rs : list table_ref) (st : name_sets) : Prop :=
  (∀ x, x ∈ cats st ↔ x ≠ "" ∧ ∃ r, r ∈ rs ∧ (meant dc ds r).1.1 = x)
  ∧ (∀ x, x ∈ schemas st ↔ x ≠ "" ∧ ∃ r, r ∈ rs ∧ (meant dc ds r).1.2 = x)
  ∧ (∀ x, x ∈ catSchemas st ↔ ∃ r, r ∈ rs ∧ let '(c, s, _) := meant dc ds r in c ≠ "" ∧ s ≠ "" ∧ x = c +:+ "." +:+ s)
  ∧ (∀ x, x ∈ tables st ↔ ∃ r, r ∈ rs ∧ let '(c, s, t) := meant dc ds r in x = dotted_name c s t).

Lemma sets_of_refs dc ds rs : Forall ref_ok rs → sets_of dc ds rs (collect_sets ToLower dc ds (ref_names <$> rs)).
Proof using Type.
  induction rs as [|r rs IH] using rev_ind; intros Hrs.
  { unfold sets_of. cbn. split_and!; intros x; (split; [set_solver|]); [intros [_ (r & Hr & _)]..|intros (r & Hr & _)|intros (r & Hr & _)]; set_solver. }
  rewrite Forall_app, Forall_singleton in Hrs. destruct Hrs as [Hrs Hr]. destruct (IH Hrs) as (H1 & H2 & H3 & H4). clear IH.
  rewrite fmap_app. unfold collect_sets in *. rewrite foldl_app. cbn [fmap list_fmap foldl]. set (st := foldl _ _ _) in *.
  unfold add_ref. rewrite qualify_meant. pose proof (meant_table dc ds r Hr) as Ht.
  destruct (meant dc ds r) as [[c s] t] eqn:Em. cbn [snd] in Ht.
  destruct (joinName_dotted c s t Ht) as [Hj Hjn]. apply seqb_neq in Ht as ->.
  assert (Hcs : c ≠ "" → c +:+ "." +:+ s ≠ "") by (by destruct c). split_and!; intros x; cbn [cats schemas catSchemas tables]; rewrite ex_snoc, Em; cbn [fst snd].
  - destruct (c =?s "") eqn:Ec; seqb_simpl; rewrite ?elem_of_add, H1 by done; intuition congruence.
  - destruct (s =?s "") eqn:Es; seqb_simpl; rewrite ?elem_of_add, H2 by done; intuition congruence.
  - destruct (c =?s "") eqn:Ec, (s =?s "") eqn:Es; seqb_simpl; cbn [orb]; rewrite ?elem_of_add, H3 by auto; tauto.
  - rewrite elem_of_add, Hj, H4 by done. tauto.
Qed.
End reported.

Lemma statementType_app h ts : match h with t :: _ => negb (quoted t) && negb (to_upper (text t) =?s "WITH") = true | [] => False end →
  statementType (h ++ ts) = statementType h.
Proof.
  destruct h as [|t h]; [done|]. intros [Hq%negb_true_iff Hw%negb_true_iff]%andb_true_iff. unfold statementType. cbn [app keywordAt].
  by rewrite Hq, Hw.
Qed.

(** C31: The analysis reports what a statement says. Take a leading text of [heads], one or
    more tables named by one to three parts, bare or quoted, with or without an alias, and a
    rest that is empty or starts with a clause keyword such as WHERE and has no further
    keyword that tables follow (inside literals and comments it may), not longer than the
    limit. Then the type and the category are the leading text's, and the catalogs, schemas,
    catalog-schema pairs and tables are exactly those the references mean, bare names folded
    to lower case and missing parts filled in from the session, each once and in order. *)
Theorem references_reported ToLower m h ty cat rs tail dc ds :
  (h, ty, cat) ∈ heads → rs ≠ [] → Forall ref_ok rs → tail_ok tail →
  let sql := h +:+ " " +:+ refs_text rs +:+ tail in
  Z.of_nat (String.length sql) ≤ NewHeuristic m →
  let q := Analyze ToLower m sql dc ds in
  let named f x := ∃ r, r ∈ rs ∧ let '(c, s, t) := meant ToLower dc ds r in f c s t x in
  QueryType q = ty ∧ Category q = cat ∧ ParseOK q = true
  ∧ (∀ x, x ∈ Catalogs q ↔ named (λ c _ _ x, c ≠ "" ∧ x = c) x)
  ∧ (∀ x, x ∈ Schemas q ↔ named (λ _ s _ x, s ≠ "" ∧ x = s) x)
  ∧ (∀ x, x ∈ CatalogSchemas q ↔ named (λ c s _ x, c ≠ "" ∧ s ≠ "" ∧ x = c +:+ "." +:+ s) x)
  ∧ (∀ x, x ∈ Tables q ↔ named (λ c s t x, x = dotted_name c s t) x)
  ∧ Forall (λ l, StronglySorted String.le l ∧ NoDup l) [Catalogs q; Schemas q; CatalogSchemas q; Tables q].
Proof.
  intros Hh Hn Hrs (Htl & Hte & Hta) sql Hlen. cbv zeta.
  pose proof heads_checked as Hck. rewrite Forall_forall in Hck. specialize (Hck _ Hh). cbn [head_check] in Hck.
  rewrite !andb_true_iff, bool_decide_eq_true in Hck. destruct Hck as ((((Hpl & Hst) & Hcat%seqb_eq) & Hfst) & Hlast).
  destruct (rev (tokenize h)) as [|a pre] eqn:Erev; [done|]. apply andb_true_iff in Hlast as [Ha%negb_true_iff Hpre].
  assert (Etok : tokenize h = rev pre ++ [a]) by (rewrite <- (rev_involutive (tokenize h)), Erev; done).
  assert (Htok : tokenize sql = tokenize h ++ refs_toks rs ++ tokenize tail).
  { unfold sql. rewrite tokenize_plain_app by done. f_equal. rewrite tokenize_space. apply tokenize_refs; [done|].
    destruct tail as [|c tail]; [done|]. by rewrite Htl. }
  assert (Href : extractTableRefs (tokenize sql) = ref_names <$> rs).
  { rewrite Htok, Etok. apply extract_statement; try done. rewrite forallb_forall in Hpre |- *. intros t Ht. apply Hpre. by apply in_rev. }
  assert (Hty : statementType (tokenize sql) = Some ty).
  { rewrite Htok, statementType_app; [done|]. by destruct (tokenize h). }
  pose proof (sets_of_refs ToLower dc ds rs Hrs) as (H1 & H2 & H3 & H4). rewrite <- Href in *.
  destruct (tokenize sql) as [|t ts] eqn:Es; [by destruct (tokenize h)|]. rewrite (analyze_short ToLower _ _ _ _ _ _ Hlen Es), Hty.
  cbn [QueryType Category ParseOK Catalogs Schemas CatalogSchemas Tables].
  set (st := collect_sets _ _ _ _) in *. split_and!; [done|done|done|..].
  - intros x. destruct (sorted_spec (cats st)) as (_ & _ & ->). rewrite H1. split.
    + intros (Hx & r & Hr & <-). exists r. split; [done|]. by destruct (meant ToLower dc ds r) as [[c s] n].
    + intros (r & Hr & Hm). destruct (meant ToLower dc ds r) as [[c s] n] eqn:E. destruct Hm as [Hc ->]. split; [done|]. exists r. by rewrite E.
  - intros x. destruct (sorted_spec (schemas st)) as (_ & _ & ->). rewrite H2. split.
    + intros (Hx & r & Hr & <-). exists r. split; [done|]. by destruct (meant ToLower dc ds r) as [[c s] n].
    + intros (r & Hr & Hm). destruct (meant ToLower dc ds r) as [[c s] n] eqn:E. destruct Hm as [Hc ->]. split; [done|]. exists r. by rewrite E.
  - intros x. destruct (sorted_spec (catSchemas st)) as (_ & _ & ->). apply H3.
  - intros x. destruct (sorted_spec (tables st)) as (_ & _ & ->). apply H4.
  - repeat apply Forall_cons_2; [..|apply Forall_nil_2]; by split; apply sorted_spec.
Qed.

Definition sample_refs : list table_ref :=
  [mkRef (NFull (Bare "Hive") (Quoted "My Sales") (Bare "Orders")) (Some (true, "o")); mkRef (NSchema (Bare "web") (Bare "clicks")) (Some (false, "c"));
   mkRef (NTable (Bare "Users")) None].
Definition sample_tail : string := " WHERE o.id = 7 AND note = 'from nowhere' -- from x".
Example sample_text : "SELECT * FROM " +:+ refs_text sample_refs +:+ sample_tail
  = "SELECT * FROM Hive." +:+ String dquote "My Sales" +:+ String dquote ".Orders AS o, web.clicks c, Users WHERE o.id = 7 AND note = 'from nowhere' -- from x".
Proof. reflexivity. Qed.

Lemma references_reported_witness :
  let q := Analyze to_lower 0 ("SELECT * FROM " +:+ refs_text sample_refs +:+ sample_tail) "TPCH" " Tiny " in
  (QueryType q = "SELECT" ∧ Category q = "READ")
  ∧ (∀ x, x ∈ Tables q ↔ ∃ r, r ∈ sample_refs ∧ let '(c, s, t) := meant to_lower "TPCH" " Tiny " r in x = dotted_name c s t)
  ∧ Tables q = ["hive.My Sales.orders"; "tpch.tiny.users"; "tpch.web.clicks"].
Proof.
  cbv zeta.
  destruct (references_reported to_lower 0 "SELECT * FROM" "SELECT" "READ" sample_refs sample_tail "TPCH" " Tiny ")
    as (Hty & Hcat & _ & _ & _ & _ & Ht & _).
  - by left.
  - done.
  - repeat constructor; done.
  - split_and!; [done|vm_compute; by split_and!|vm_compute; done].
  - vm_compute. done.
  - split; [by split|]. split; [exact Ht|]. vm_compute. reflexivity.
Defined.
