(* ===== verification/Engine.v ===== *)
(** * The routing engine (routing-service/internal/engine: method.go, input.go,
      pipeline.go, adapter.go)

    Requests as providers see them, the method pipeline with its kill switch, and the
    adapter that runs SQL analysis. A provider's [Evaluate] is a function from the
    input to its outcome, which may be an error or a panic. *)
From S2P Require Import Prelude GoStrings RouterPb SqlMeta.

(** ** Data (method.go) *)
Record Decision : Type := mkDecision {
  RoutingGroup : string; ExternalHeaders : gmap string string; Errors : list string; Decided : bool }.
Definition no_decision : Decision := mkDecision "" ∅ [] false.

Record RouteInput : Type := mkRouteInput {
  Source : string; ClientTags : list string; User : string; Catalog : string; Schema : string;
  Method : string; URI : string; RemoteAddr : string; Body : string; IsNew : bool;
  ParamMap : gmap string string;
  in_QueryType : string; in_QueryCategory : string; in_Catalogs : list string; in_Schemas : list string;
  in_CatalogSchemas : list string; in_Tables : list string; in_ParseOK : bool }.

(** [HashPct]: FNV-1a on 64 bits, modulo 100. *)
Definition fnvOffset : Z := 14695981039346656037.
Definition fnvPrime : Z := 1099511628211.
Fixpoint fnv1a (h : Z) (s : string) : Z :=
  match s with
  | EmptyString => h
  | String c r => fnv1a (wrapu64 (Z.lxor h (Z.of_N (byte_n c)) * fnvPrime)) r
  end.
Definition HashPct (s : string) : Z := (fnv1a fnvOffset s mod 100)%Z.

(** ** From the wire (input.go). [None] is a nil request. *)
Definition FromProto (req : option RouteRequest) : RouteInput :=
  match req with
  | None => mkRouteInput "" [] "" "" "" "" "" "" "" false ∅ "" "" [] [] [] [] false
  | Some r =>
      let user := from_opt "" (pb_User r) in
      match pb_Props r with
      | None => mkRouteInput (pb_TrinoSource r) (pb_ClientTags r) user "" "" (pb_Method r) (pb_RequestUri r)
                  (pb_RemoteAddr r) "" false (pb_ParameterMap r) "" "" [] [] [] [] false
      | Some qp =>
          mkRouteInput (pb_TrinoSource r) (pb_ClientTags r) user (qp_DefaultCatalog qp) (qp_DefaultSchema qp)
            (pb_Method r) (pb_RequestUri r) (pb_RemoteAddr r) (qp_Body qp) (qp_IsNewQuerySubmission qp)
            (pb_ParameterMap r) (qp_QueryType qp) "" (qp_Catalogs qp) (qp_Schemas qp) (qp_CatalogSchemas qp)
            (qp_Tables qp) (qp_IsQueryParsingSuccessful qp)
      end
  end.

Definition non_nil {A} (l : list A) : bool := match l with [] => false | _ => true end.
Definition HasParsedSQL (i : RouteInput) : bool :=
  in_ParseOK i || negb (in_QueryType i =?s "") || non_nil (in_Catalogs i) || non_nil (in_Schemas i)
  || non_nil (in_CatalogSchemas i) || non_nil (in_Tables i).

(** ** Methods and the pipeline (pipeline.go) *)
Inductive eval_outcome : Type :=
| Evaluated (d : Decision)
| Failed (err : string)
| Panicked (value : string).

(** A [RoutingMethod] that is not the wrapper: its type name and its evaluation. *)
Record provider : Type := mkProvider { p_type : string; p_eval : RouteInput → eval_outcome }.

(** An entry of the slice: a provider, or [disabledMethod] around an entry. *)
Inductive method : Type :=
| Live (p : provider)
| disabledMethod (inner : method).

Fixpoint Type_ (m : method) : string :=
  match m with Live p => p_type p | disabledMethod i => Type_ i end.
Definition m_Evaluate (m : method) (i : RouteInput) : eval_outcome :=
  match m with Live p => p_eval p i | disabledMethod _ => Evaluated no_decision end.
Definition isDisabled (m : method) : bool :=
  match m with disabledMethod _ => true | Live _ => false end.

(** [safeEvaluate]: a panic becomes an error. *)
Definition safeEvaluate (m : method) (i : RouteInput) : go_result Decision :=
  match m_Evaluate m i with
  | Evaluated d => Ok d
  | Failed e => Err e
  | Panicked v => Err ("panic in method " +:+ Type_ m +:+ ": " +:+ v)
  end.

(** [methods] is the atomic pointer's slice, [None] before the first store. *)
Record Pipeline : Type := mkPipeline {
  methods : option (list method); defaultGroup : string; ready : bool }.

Definition load (p : Pipeline) : list method := from_opt [] (methods p).
Definition swap (ms : list method) (p : Pipeline) : Pipeline := mkPipeline (Some ms) (defaultGroup p) (ready p).
Definition Swap (ms : list method) (p : Pipeline) : Pipeline :=
  mkPipeline (Some ms) (defaultGroup p) true.
Definition NewPipeline (ms : list method) (group : string) : Pipeline :=
  let p := swap ms (mkPipeline None group false) in mkPipeline (methods p) (defaultGroup p) true.
Definition Ready (p : Pipeline) : bool := ready p.

Fixpoint evaluate_loop (dg : string) (ms : list method) (i : RouteInput) : string :=
  match ms with
  | [] => dg
  | m :: ms =>
      if isDisabled m then evaluate_loop dg ms i else
      match safeEvaluate m i with
      | Err _ => evaluate_loop dg ms i
      | Ok d => if Decided d then (if RoutingGroup d =?s "" then dg else RoutingGroup d)
                else evaluate_loop dg ms i
      end
  end.
Definition Evaluate (p : Pipeline) (i : RouteInput) : string := evaluate_loop (defaultGroup p) (load p) i.

Record SQLSummary : Type := mkSQLSummary {
  ss_QueryType : string; ss_QueryCategory : string; ss_ParseOK : bool;
  CatalogCount : nat; SchemaCount : nat; TableCount : nat }.
Definition no_summary : SQLSummary := mkSQLSummary "" "" false 0 0 0.
Definition summarize (i : RouteInput) : SQLSummary :=
  mkSQLSummary (in_QueryType i) (in_QueryCategory i) (in_ParseOK i) (length (in_Catalogs i))
    (length (in_Schemas i)) (length (in_Tables i)).

Record EvalResult : Type := mkEvalResult {
  er_RoutingGroup : string; MethodType : string; er_Decided : bool; HadError : bool; SQL : SQLSummary }.

Fixpoint result_loop (dg : string) (hadErr : bool) (ms : list method) (i : RouteInput) : EvalResult :=
  match ms with
  | [] => mkEvalResult dg "" false hadErr no_summary
  | m :: ms =>
      if isDisabled m then result_loop dg hadErr ms i else
      match safeEvaluate m i with
      | Err _ => result_loop dg true ms i
      | Ok d => if Decided d
                then mkEvalResult (if RoutingGroup d =?s "" then dg else RoutingGroup d) (Type_ m) true hadErr no_summary
                else result_loop dg hadErr ms i
      end
  end.
Definition EvaluateResult (p : Pipeline) (i : RouteInput) : EvalResult :=
  result_loop (defaultGroup p) false (load p) i.

Fixpoint full_loop (dg : string) (ms : list method) (i : RouteInput) : Decision :=
  match ms with
  | [] => mkDecision dg ∅ [] false
  | m :: ms =>
      if isDisabled m then full_loop dg ms i else
      match safeEvaluate m i with
      | Err _ => full_loop dg ms i
      | Ok d => if Decided d
                then mkDecision (if RoutingGroup d =?s "" then dg else RoutingGroup d) (ExternalHeaders d) (Errors d) true
                else full_loop dg ms i
      end
  end.
Definition EvaluateFull (p : Pipeline) (i : RouteInput) : Decision := full_loop (defaultGroup p) (load p) i.

(** ** The kill switch *)

(** [fn] applied to the first entry of the type, [None] when there is none. *)
Fixpoint update_first (typeName : string) (fn : method → method) (ms : list method) : option (list method) :=
  match ms with
  | [] => None
  | m :: ms => if Type_ m =?s typeName then Some (fn m :: ms)
               else (m ::.) <$> update_first typeName fn ms
  end.

(** [updateMethod] without interference: the compare-and-swap succeeds at once. *)
Definition updateMethod (typeName : string) (fn : method → method) (p : Pipeline) : Pipeline :=
  match methods p with
  | None => p
  | Some ms => match update_first typeName fn ms with
               | Some ms' => mkPipeline (Some ms') (defaultGroup p) (ready p)
               | None => p
               end
  end.

Definition disable_fn (m : method) : method := if isDisabled m then m else disabledMethod m.
Definition enable_fn (m : method) : method := match m with disabledMethod i => i | Live _ => m end.
Definition DisableMethod (typeName : string) (p : Pipeline) : Pipeline := updateMethod typeName disable_fn p.
Definition EnableMethod (typeName : string) (p : Pipeline) : Pipeline := updateMethod typeName enable_fn p.
Definition DisabledMethods (p : Pipeline) : list string := Type_ <$> List.filter isDisabled (load p).

(** ** The adapter (adapter.go) *)
Section adapter.
Context (ToLower ToUpper : string → string).

Inductive analyzer : Type :=
| ANoop
| AHeuristic (maxBodyBytes : Z)
| AOther (f : string → string → string → QueryMeta).

Definition run_analyzer (a : analyzer) (sql dc ds : string) : QueryMeta * bool :=
  match a with
  | AHeuristic m => AnalyzeWithTruncation ToLower m sql dc ds
  | ANoop => (Noop_Analyze sql dc ds, false)
  | AOther f => (f sql dc ds, false)
  end.

Definition sqlResult (meta : QueryMeta) : string := if ParseOK meta then "ok" else "empty".

(** The new input, and what the observer is told (its duration left out). *)
Definition fillSQLMeta (a : analyzer) (i : RouteInput) : RouteInput * option (string * bool) :=
  if negb (IsNew i) || (Body i =?s "") || HasParsedSQL i then (i, None) else
  let '(meta, truncated) := run_analyzer a (Body i) (Catalog i) (Schema i) in
  (mkRouteInput (Source i) (ClientTags i) (User i) (Catalog i) (Schema i) (Method i) (URI i)
     (RemoteAddr i) (Body i) (IsNew i) (ParamMap i)
     (QueryType meta) (Category meta) (Catalogs meta) (Schemas meta) (CatalogSchemas meta) (Tables meta)
     (ParseOK meta), Some (sqlResult meta, truncated)).

Definition with_category (c : string) (i : RouteInput) : RouteInput :=
  mkRouteInput (Source i) (ClientTags i) (User i) (Catalog i) (Schema i) (Method i) (URI i)
    (RemoteAddr i) (Body i) (IsNew i) (ParamMap i) (in_QueryType i) c (in_Catalogs i) (in_Schemas i)
    (in_CatalogSchemas i) (in_Tables i) (in_ParseOK i).

Definition inputFromProto (a : analyzer) (req : option RouteRequest) : RouteInput * option (string * bool) :=
  let i := FromProto req in
  let i := if HasParsedSQL i && negb (in_QueryType i =?s "") && (in_QueryCategory i =?s "")
           then with_category (CategoryForType ToUpper (in_QueryType i)) i else i in
  fillSQLMeta a i.

Definition PE_Evaluate (a : analyzer) (p : Pipeline) (req : option RouteRequest) : string :=
  Evaluate p (fst (inputFromProto a req)).
Definition PE_EvaluateResult (a : analyzer) (p : Pipeline) (req : option RouteRequest) : EvalResult :=
  let i := fst (inputFromProto a req) in
  let r := EvaluateResult p i in
  mkEvalResult (er_RoutingGroup r) (MethodType r) (er_Decided r) (HadError r) (summarize i).
End adapter.

(** ** Lemmas and theorems *)
Lemma fnv1a_nonneg h s : (0 ≤ h)%Z → (0 ≤ fnv1a h s)%Z.
Proof.
  revert h. induction s as [|c s IH]; intros h Hh; cbn [fnv1a]; [done|].
  apply IH. unfold wrapu64. apply Z.mod_pos_bound. lia.
Qed.

(** Buckets are percentages: always within 0 and 99, whatever the key. *)
Theorem hash_pct_range s : (0 ≤ HashPct s < 100)%Z.
Proof. apply Z.mod_pos_bound. lia. Qed.

(** The specification of a decision: entries that can decide, in order. *)
Definition verdict (i : RouteInput) (m : method) : option Decision :=
  if isDisabled m then None else
  match safeEvaluate m i with
  | Ok d => if Decided d then Some d else None
  | Err _ => None
  end.
Definition effective (dg : string) (d : Decision) : string :=
  if RoutingGroup d =?s "" then dg else RoutingGroup d.
Definition first_verdict (i : RouteInput) (ms : list method) : option (method * Decision) :=
  head_opt (omap (λ m, (λ d, (m, d)) <$> verdict i m) ms).
Definition errs (i : RouteInput) (m : method) : bool :=
  negb (isDisabled m) && negb (is_Ok (safeEvaluate m i)).

Lemma first_verdict_cons i m ms :
  first_verdict i (m :: ms) =
    match verdict i m with Some d => Some (m, d) | None => first_verdict i ms end.
Proof. unfold first_verdict. cbn. by destruct (verdict i m). Qed.

Lemma loops_spec dg ms i hadErr :
  match first_verdict i ms with
  | Some (m, d) =>
      evaluate_loop dg ms i = effective dg d
      ∧ (let r := result_loop dg hadErr ms i in
         er_RoutingGroup r = effective dg d ∧ MethodType r = Type_ m ∧ er_Decided r = true)
      ∧ full_loop dg ms i = mkDecision (effective dg d) (ExternalHeaders d) (Errors d) true
  | None =>
      evaluate_loop dg ms i = dg
      ∧ result_loop dg hadErr ms i = mkEvalResult dg "" false (hadErr || existsb (errs i) ms) no_summary
      ∧ full_loop dg ms i = mkDecision dg ∅ [] false
  end.
Proof.
  revert hadErr. induction ms as [|m ms IH]; intros hadErr; [cbn; by rewrite orb_false_r|].
  rewrite first_verdict_cons. unfold verdict, errs. cbn [evaluate_loop result_loop full_loop existsb].
  destruct (isDisabled m) eqn:Hd; cbn [negb andb]; [apply IH|].
  destruct (safeEvaluate m i) as [d|e] eqn:He; cbn [is_Ok negb orb].
  - destruct (Decided d); [done|apply IH].
  - specialize (IH true). destruct (first_verdict i ms) as [[m' d']|]; [done|].
    cbn [orb] in IH. by rewrite orb_true_r.
Qed.

(** C20: The three evaluators agree: each returns the group of the first enabled method
    that decides without failing, and the default group when there is none; a
    failing, panicking, disabled or undecided method is skipped. *)
Theorem pipeline_first_decision_wins p i :
  let ms := load p in let dg := defaultGroup p in
  match first_verdict i ms with
  | Some (m, d) =>
      Evaluate p i = effective dg d ∧ er_RoutingGroup (EvaluateResult p i) = effective dg d
      ∧ MethodType (EvaluateResult p i) = Type_ m ∧ er_Decided (EvaluateResult p i) = true
      ∧ EvaluateFull p i = mkDecision (effective dg d) (ExternalHeaders d) (Errors d) true
  | None =>
      Evaluate p i = dg ∧ EvaluateResult p i = mkEvalResult dg "" false (existsb (errs i) ms) no_summary
      ∧ EvaluateFull p i = mkDecision dg ∅ [] false
  end.
Proof.
  cbv zeta. pose proof (loops_spec (defaultGroup p) (load p) i false) as Hl.
  unfold Evaluate, EvaluateResult, EvaluateFull. destruct (first_verdict i (load p)) as [[m d]|].
  - destruct Hl as (? & (? & ? & ?) & ?). by split_and!.
  - exact Hl.
Qed.

(** A panic in one method does not change the outcome: the pipeline behaves as if
    the method were not there. *)
Theorem panic_is_isolated dg pre m post i v :
  m_Evaluate m i = Panicked v →
  Evaluate (NewPipeline (pre ++ m :: post) dg) i = Evaluate (NewPipeline (pre ++ post) dg) i.
Proof.
  intros Hp. unfold Evaluate, NewPipeline, load. cbn [methods swap from_opt defaultGroup].
  assert (Hv : verdict i m = None) by (unfold verdict, safeEvaluate; rewrite Hp; by destruct (isDisabled m)).
  assert (Hf : first_verdict i (pre ++ m :: post) = first_verdict i (pre ++ post)).
  { induction pre as [|x pre IH]; cbn [app]; rewrite !first_verdict_cons; [by rewrite Hv|].
    destruct (verdict i x); [done|exact IH]. }
  pose proof (loops_spec dg (pre ++ m :: post) i false) as H1.
  pose proof (loops_spec dg (pre ++ post) i false) as H2. rewrite Hf in H1.
  destruct (first_verdict i (pre ++ post)) as [[m' d]|]; destruct H1 as [-> _], H2 as [-> _]; done.
Qed.

(** With a non-empty default group no evaluation returns an empty group. *)
Theorem evaluate_never_empty p i : defaultGroup p ≠ "" → Evaluate p i ≠ "".
Proof.
  intros Hd. pose proof (loops_spec (defaultGroup p) (load p) i false) as Hl. unfold Evaluate.
  destruct (first_verdict i (load p)) as [[m d]|]; destruct Hl as [-> _]; [|done].
  unfold effective. case_bools; done.
Qed.

(** *** The kill switch *)
Definition wf_method (m : method) : Prop := match m with disabledMethod (disabledMethod _) => False | _ => True end.

Lemma update_first_type t fn ms ms' :
  (∀ m, Type_ (fn m) = Type_ m) → update_first t fn ms = Some ms' → Type_ <$> ms' = Type_ <$> ms.
Proof.
  intros Hfn. revert ms'. induction ms as [|m ms IH]; intros ms'; cbn; [done|].
  destruct (Type_ m =?s t).
  - intros. simplify_eq/=. by rewrite Hfn.
  - destruct (update_first t fn ms) as [x|]; [|done]. intros. simplify_eq/=. by rewrite (IH x).
Qed.

Lemma disable_type m : Type_ (disable_fn m) = Type_ m.
Proof. by destruct m. Qed.
Lemma enable_type m : Type_ (enable_fn m) = Type_ m.
Proof. by destruct m. Qed.

Lemma enable_disable_slice t ms :
  Forall (λ m, isDisabled m = false) ms →
  from_opt (from_opt ms (update_first t disable_fn ms))
    (update_first t enable_fn (from_opt ms (update_first t disable_fn ms))) = ms.
Proof.
  induction 1 as [|m ms Hm Hms IH]; [done|]. cbn. destruct (Type_ m =?s t) eqn:E; cbn.
  - rewrite disable_type, E. cbn. unfold disable_fn. by rewrite Hm.
  - destruct (update_first t disable_fn ms) as [x|] eqn:E1; cbn in *; rewrite E.
    + destruct (update_first t enable_fn x); cbn in *; congruence.
    + destruct (update_first t enable_fn ms); cbn in *; congruence.
Qed.

(** Disabling a method and enabling it again restores the pipeline. *)
Theorem disable_enable_roundtrip t p :
  Forall (λ m, isDisabled m = false) (load p) → EnableMethod t (DisableMethod t p) = p.
Proof.
  intros Hf. unfold EnableMethod, DisableMethod, updateMethod. destruct p as [[ms|] dg rd]; [|done]. cbn in *.
  pose proof (enable_disable_slice t ms Hf) as Hs.
  destruct (update_first t disable_fn ms) as [x|]; cbn in *.
  - destruct (update_first t enable_fn x); cbn in *; by subst.
  - destruct (update_first t enable_fn ms); cbn in *; by subst.
Qed.

(** A disabled method is reported and has no say: the pipeline decides as if the
    first method of the type were absent. *)
Theorem disabled_method_has_no_say t p m pre post i :
  methods p = Some (pre ++ m :: post) → Forall (λ x, Type_ x ≠ t) pre → Type_ m = t → isDisabled m = false →
  t ∈ DisabledMethods (DisableMethod t p)
  ∧ Evaluate (DisableMethod t p) i = Evaluate (mkPipeline (Some (pre ++ post)) (defaultGroup p) (ready p)) i.
Proof.
  intros Hms Hpre Ht Hm. unfold DisableMethod, updateMethod. rewrite Hms.
  assert (Hu : update_first t disable_fn (pre ++ m :: post) = Some (pre ++ disabledMethod m :: post)).
  { clear Hms. induction Hpre as [|x pre Hx _ IH]; cbn.
    - rewrite Ht, seqb_refl. unfold disable_fn. by rewrite Hm.
    - apply seqb_neq in Hx. rewrite Hx. cbn in IH. by rewrite IH. }
  rewrite Hu. split.
  - unfold DisabledMethods, load. cbn [methods from_opt]. apply list_elem_of_fmap.
    exists (disabledMethod m). split; [done|]. apply list_elem_of_In, filter_In. split; [|done].
    apply in_or_app. right. by left.
  - unfold Evaluate, load. cbn [methods from_opt defaultGroup]. clear. induction pre as [|x pre IH]; [done|].
    cbn. repeat case_match; auto.
Qed.

(** ** Witnesses *)
Definition w_input : RouteInput := FromProto None.
Definition w_decide (t g : string) : method := Live (mkProvider t (λ _, Evaluated (mkDecision g ∅ [] true))).
Definition w_panic : method := Live (mkProvider "script" (λ _, Panicked "index out of range")).

Lemma panic_is_isolated_witness :
  Evaluate (NewPipeline ([] ++ w_panic :: [w_decide "expr" "etl"]) "default") w_input
  = Evaluate (NewPipeline ([] ++ [w_decide "expr" "etl"]) "default") w_input.
Proof. apply (panic_is_isolated "default" [] w_panic [w_decide "expr" "etl"] w_input "index out of range"). reflexivity. Defined.

Lemma evaluate_never_empty_witness : Evaluate (NewPipeline [w_panic] "default") w_input ≠ "".
Proof. apply evaluate_never_empty. discriminate. Defined.

Lemma disable_enable_roundtrip_witness :
  let p := NewPipeline [w_decide "expr" "etl"; w_panic] "default" in EnableMethod "script" (DisableMethod "script" p) = p.
Proof. apply disable_enable_roundtrip. repeat constructor. Defined.

Lemma disabled_method_has_no_say_witness :
  let p := NewPipeline [w_panic; w_decide "expr" "etl"] "default" in
  "expr" ∈ DisabledMethods (DisableMethod "expr" p)
  ∧ Evaluate (DisableMethod "expr" p) w_input = Evaluate (mkPipeline (Some [w_panic]) "default" true) w_input.
Proof.
  apply (disabled_method_has_no_say "expr" (NewPipeline [w_panic; w_decide "expr" "etl"] "default")
           (w_decide "expr" "etl") [w_panic] [] w_input); try reflexivity.
  repeat constructor. discriminate.
Defined.
