(* ===== verification/PipelineCas.v ===== *)
(** * Concurrent updates of the method slice (pipeline.go, [updateMethod] and [Swap])

    Any number of goroutines disable, enable and swap at once. The atomic pointer is
    a cell that holds a pointer identity and the slice it points to; [updateMethod]
    loads it, computes, and retries its compare-and-swap until the pointer is still
    the one it loaded. The specification is one atomic update per operation
    ([seq_op]); the invariant says the cell always holds the result of the operations
    that have taken effect, in the order in which they did. *)
From S2P Require Import Prelude Engine.

Inductive op : Type :=
| ODisable (t : string)
| OEnable (t : string)
| OSwap (ms : list method).

Definition op_update (o : op) : option (string * (method → method)) :=
  match o with
  | ODisable t => Some (t, disable_fn)
  | OEnable t => Some (t, enable_fn)
  | OSwap _ => None
  end.

(** One operation as an atomic step on the slice. *)
Definition seq_op (ms : list method) (o : op) : list method :=
  match o with
  | ODisable t => from_opt ms (update_first t disable_fn ms)
  | OEnable t => from_opt ms (update_first t enable_fn ms)
  | OSwap new => new
  end.

Lemma seq_op_pipeline dg rd ms t :
  methods (DisableMethod t (mkPipeline (Some ms) dg rd)) = Some (seq_op ms (ODisable t))
  ∧ methods (EnableMethod t (mkPipeline (Some ms) dg rd)) = Some (seq_op ms (OEnable t)).
Proof.
  unfold DisableMethod, EnableMethod, updateMethod. cbn.
  by destruct (update_first t disable_fn ms), (update_first t enable_fn ms).
Qed.

(** Program points of a goroutine: before its operation, between load and
    compare-and-swap (with the pointer and slice loaded), finished. *)
Inductive pc : Type :=
| Todo (o : op)
| Loaded (o : op) (ptr : nat) (ms : list method)
| Finished (o : op).

Definition pc_op (p : pc) : op := match p with Todo o | Loaded o _ _ | Finished o => o end.

(** [next] is a pointer not allocated yet; [log] the operations in the order in which
    they took effect (a history variable). *)
Record state : Type := mkState {
  ptr : nat; slice : list method; next : nat; threads : list pc; log : list op }.

Inductive step : state → state → Prop :=
(* Swap: one atomic store of a fresh slice *)
| step_swap s i ms :
    threads s !! i = Some (Todo (OSwap ms)) →
    step s (mkState (next s) ms (S (next s)) (<[i := Finished (OSwap ms)]> (threads s)) (log s ++ [OSwap ms]))
(* load, nothing to update: return *)
| step_noop s i o t fn :
    threads s !! i = Some (Todo o) → op_update o = Some (t, fn) → update_first t fn (slice s) = None →
    step s (mkState (ptr s) (slice s) (next s) (<[i := Finished o]> (threads s)) (log s ++ [o]))
(* load *)
| step_load s i o t fn ms' :
    threads s !! i = Some (Todo o) → op_update o = Some (t, fn) → update_first t fn (slice s) = Some ms' →
    step s (mkState (ptr s) (slice s) (next s) (<[i := Loaded o (ptr s) (slice s)]> (threads s)) (log s))
(* compare-and-swap succeeds *)
| step_cas s i o t fn p ms ms' :
    threads s !! i = Some (Loaded o p ms) → op_update o = Some (t, fn) →
    update_first t fn ms = Some ms' → ptr s = p →
    step s (mkState (next s) ms' (S (next s)) (<[i := Finished o]> (threads s)) (log s ++ [o]))
(* compare-and-swap fails: retry *)
| step_retry s i o p ms :
    threads s !! i = Some (Loaded o p ms) → ptr s ≠ p →
    step s (mkState (ptr s) (slice s) (next s) (<[i := Todo o]> (threads s)) (log s)).

Definition init (ms : list method) (ops : list op) : state := mkState 0 ms 1 (Todo <$> ops) [].

(** ** Invariant *)
Definition finished_op (p : pc) : option op := match p with Finished o => Some o | _ => None end.

Record cas_inv (ms0 : list method) (ops : list op) (s : state) : Prop := {
  ci_slice : slice s = foldl seq_op ms0 (log s);
  ci_fresh : (ptr s < next s)%nat;
  (* a loaded pointer is old, and if it is current the loaded slice is current *)
  ci_loaded i o p ms : threads s !! i = Some (Loaded o p ms) →
    (p < next s)%nat ∧ (p = ptr s → ms = slice s);
  ci_ops : pc_op <$> threads s = ops;
  ci_log : log s ≡ₚ omap finished_op (threads s) }.

Lemma cas_init ms ops : cas_inv ms ops (init ms ops).
Proof.
  split; cbn; [done|lia| | |].
  - intros i o p m. rewrite list_lookup_fmap. by destruct (ops !! i).
  - rewrite <- list_fmap_compose. by apply list_fmap_id.
  - induction ops; cbn; [done|]. done.
Qed.

Lemma ops_upd (l : list pc) i p q :
  l !! i = Some p → pc_op q = pc_op p → pc_op <$> <[i := q]> l = pc_op <$> l.
Proof.
  intros Hi Hq. rewrite list_fmap_insert, Hq. apply list_insert_id. by rewrite list_lookup_fmap, Hi.
Qed.

Lemma finished_upd (l : list pc) i p o :
  l !! i = Some p → finished_op p = None →
  omap finished_op (<[i := Finished o]> l) ≡ₚ omap finished_op l ++ [o].
Proof.
  intros Hi Hp. rewrite Permutation_app_comm. cbn.
  revert i Hi. induction l as [|x l IH]; intros [|i] Hi; [done..| |].
  - cbn in Hi. simplify_eq. cbn. by rewrite Hp.
  - cbn in Hi. change (<[S i := Finished o]> (x :: l)) with (x :: <[i := Finished o]> l). cbn.
    destruct (finished_op x); rewrite IH by done; [apply Permutation_swap|done].
Qed.

Lemma unfinished_upd (l : list pc) i p q :
  l !! i = Some p → finished_op p = None → finished_op q = None →
  omap finished_op (<[i := q]> l) = omap finished_op l.
Proof.
  intros Hi Hp Hq. revert i Hi. induction l as [|x l IH]; intros [|i] Hi; [done..| |].
  - cbn in Hi. simplify_eq. cbn. by rewrite Hp, Hq.
  - cbn in Hi. change (<[S i := q]> (x :: l)) with (x :: <[i := q]> l). cbn. by rewrite (IH i).
Qed.

(** A step in which an operation takes effect: the cell now holds its result. *)
Lemma effect_inv ms0 ops s i p o new nptr nnext :
  cas_inv ms0 ops s → threads s !! i = Some p → finished_op p = None → pc_op p = o →
  new = seq_op (slice s) o →
  (nptr = ptr s ∧ nnext = next s ∧ new = slice s ∨ nptr = next s ∧ nnext = S (next s)) →
  cas_inv ms0 ops (mkState nptr new nnext (<[i := Finished o]> (threads s)) (log s ++ [o])).
Proof.
  intros [Hs Hf Hl Ho Hlog] Hi Hp Hop Hnew Hptr. split; cbn.
  - by rewrite foldl_app, <- Hs, Hnew.
  - destruct Hptr as [(-> & -> & _)|[-> ->]]; lia.
  - intros j o' p' ms' Hj. destruct (decide (j = i)) as [->|Hne].
    { rewrite list_lookup_insert_eq in Hj by (by eapply lookup_lt_Some). by simplify_eq. }
    rewrite list_lookup_insert_ne in Hj by done. destruct (Hl _ _ _ _ Hj) as [Hlt Heq].
    destruct Hptr as [(-> & -> & ->)|[-> ->]]; [done|]. split; [lia|]. intros ->. lia.
  - rewrite (ops_upd _ _ p) by done. done.
  - rewrite (finished_upd _ _ p) by done. by rewrite Hlog.
Qed.

(** A step of preparation: the cell and the log stay. *)
Lemma prepare_inv ms0 ops s i p q :
  cas_inv ms0 ops s → threads s !! i = Some p → finished_op p = None → finished_op q = None →
  pc_op q = pc_op p → (∀ o r ms, q = Loaded o r ms → r = ptr s ∧ ms = slice s) →
  cas_inv ms0 ops (mkState (ptr s) (slice s) (next s) (<[i := q]> (threads s)) (log s)).
Proof.
  intros [Hs Hf Hl Ho Hlog] Hi Hp Hq Hop Hload. split; cbn; [done|done| | |].
  - intros j o' p' ms' Hj. destruct (decide (j = i)) as [->|Hne].
    { rewrite list_lookup_insert_eq in Hj by (by eapply lookup_lt_Some). simplify_eq.
      destruct (Hload _ _ _ eq_refl) as [-> ->]. done. }
    rewrite list_lookup_insert_ne in Hj by done. eauto.
  - rewrite (ops_upd _ _ p) by done. done.
  - rewrite (unfinished_upd _ _ p) by done. done.
Qed.

Lemma seq_op_update ms o t fn : op_update o = Some (t, fn) → seq_op ms o = from_opt ms (update_first t fn ms).
Proof. by destruct o; cbn; intros; simplify_eq. Qed.

Lemma step_cas_inv ms0 ops s t : cas_inv ms0 ops s → step s t → cas_inv ms0 ops t.
Proof.
  intros Inv Hst. destruct Hst as [s i ms Hi|s i o t fn Hi Ho Hu|s i o t fn ms' Hi Ho Hu
    |s i o t fn p ms ms' Hi Ho Hu Hp|s i o p ms Hi Hp].
  - eapply effect_inv; eauto.
  - eapply effect_inv; eauto; rewrite (seq_op_update _ _ _ _ Ho), Hu; auto.
  - eapply prepare_inv; eauto. intros ? ? ? [= <- <- <-]. done.
  - destruct (ci_loaded _ _ _ Inv _ _ _ _ Hi) as [_ Heq]. rewrite (Heq (eq_sym Hp)) in Hu.
    eapply effect_inv; eauto. by rewrite (seq_op_update _ _ _ _ Ho), Hu.
  - eapply prepare_inv; eauto. discriminate.
Qed.

Lemma reachable_cas_inv ms ops s : rtc step (init ms ops) s → cas_inv ms ops s.
Proof.
  intros Hr. eapply (rtc_ind_r (cas_inv ms ops)); [apply cas_init| |exact Hr].
  intros y z _ Hs IH. by eapply step_cas_inv.
Qed.

Lemma all_finished (l : list pc) :
  Forall (λ p, ∃ o, p = Finished o) l → omap finished_op l = pc_op <$> l.
Proof. induction 1 as [|x l [o ->] _ IH]; [done|]. cbn. by rewrite IH. Qed.

(** C18: No lost update: when every goroutine is done, the slice is the result of running
    all the operations one after the other, each exactly once, in some order. *)
Theorem concurrent_updates_linearize ms ops s :
  rtc step (init ms ops) s → Forall (λ p, ∃ o, p = Finished o) (threads s) →
  ∃ order, order ≡ₚ ops ∧ slice s = foldl seq_op ms order.
Proof.
  intros Hr Hf. destruct (reachable_cas_inv _ _ _ Hr) as [Hs _ _ Ho Hlog].
  exists (log s). split; [|done]. by rewrite Hlog, all_finished, Ho.
Qed.

(** *** Termination *)

(** Steps a goroutine still needs if nobody interferes; a stale load must be redone. *)
Definition weight (cur : nat) (p : pc) : nat :=
  match p with
  | Finished _ => 0
  | Todo _ => 2
  | Loaded _ q _ => if decide (q = cur) then 1 else 3
  end.
Definition open_pc (p : pc) : nat := match p with Finished _ => 0 | _ => 1 end.
Definition sum_pc (f : pc → nat) (l : list pc) : nat := sum_list_with f l.
Definition measure (s : state) : nat :=
  sum_pc (weight (ptr s)) (threads s) + sum_pc open_pc (threads s) * (2 * length (threads s)).

Lemma sum_pc_insert f l i p q :
  l !! i = Some p → (sum_pc f (<[i := q]> l) + f p = sum_pc f l + f q)%nat.
Proof.
  revert i. induction l as [|x l IH]; intros [|i] Hi; [done..| |]; cbn in Hi.
  - simplify_eq. unfold sum_pc. cbn. lia.
  - specialize (IH i Hi). change (<[S i := q]> (x :: l)) with (x :: <[i := q]> l).
    unfold sum_pc in *. cbn [sum_list_with]. lia.
Qed.

Lemma weight_moves cur cur' l : (sum_pc (weight cur') l ≤ sum_pc (weight cur) l + 2 * sum_pc open_pc l)%nat.
Proof.
  induction l as [|p l IH]; [done|]. unfold sum_pc in *. cbn [sum_list_with].
  enough (weight cur' p ≤ weight cur p + 2 * open_pc p)%nat by lia.
  destruct p as [o|o q m|o]; cbn; [lia| |lia]. destruct (decide _), (decide _); lia.
Qed.

Lemma open_le_length l : (sum_pc open_pc l ≤ length l)%nat.
Proof. induction l as [|[]]; unfold sum_pc in *; cbn; lia. Qed.

(** A step in which an operation takes effect makes other loads stale at most once. *)
Lemma effect_measure s i p o new cur' nxt lg :
  threads s !! i = Some p → open_pc p = 1%nat →
  (measure (mkState cur' new nxt (<[i := Finished o]> (threads s)) lg) < measure s)%nat.
Proof.
  intros Hi Ho. unfold measure. cbn [ptr threads]. rewrite length_insert.
  pose proof (sum_pc_insert (weight (ptr s)) _ _ _ (Finished o) Hi) as Hw.
  pose proof (sum_pc_insert open_pc _ _ _ (Finished o) Hi) as Hop.
  pose proof (weight_moves (ptr s) cur' (<[i := Finished o]> (threads s))) as Hm.
  pose proof (open_le_length (threads s)). cbn [weight open_pc] in *.
  assert (1 ≤ weight (ptr s) p)%nat by (destruct p; cbn in *; try case_decide; lia). nia.
Qed.

Lemma prepare_measure s i p q :
  threads s !! i = Some p → open_pc p = open_pc q → (weight (ptr s) q < weight (ptr s) p)%nat →
  (measure (mkState (ptr s) (slice s) (next s) (<[i := q]> (threads s)) (log s)) < measure s)%nat.
Proof.
  intros Hi Ho Hlt. unfold measure. cbn [ptr threads]. rewrite length_insert.
  pose proof (sum_pc_insert (weight (ptr s)) _ _ _ q Hi).
  pose proof (sum_pc_insert open_pc _ _ _ q Hi). nia.
Qed.

Lemma step_measure s t : step s t → (measure t < measure s)%nat.
Proof.
  destruct 1; try by eapply effect_measure.
  - eapply prepare_measure; [done|done|]. cbn. rewrite decide_True by done. lia.
  - eapply prepare_measure; [done|done|]. cbn. rewrite decide_False by done. lia.
Qed.

Lemma nsteps_measure n s t : nsteps step n s t → (n + measure t ≤ measure s)%nat.
Proof. induction 1 as [|n x y z Hs _ IH]; [done|]. apply step_measure in Hs. lia. Qed.

Lemma measure_init ms ops : measure (init ms ops) = (2 * length ops * (length ops + 1))%nat.
Proof.
  unfold measure, init. cbn [ptr threads]. rewrite length_fmap.
  assert (∀ f c, (∀ o, f (Todo o) = c) → sum_pc f (Todo <$> ops) = (c * length ops)%nat) as H.
  { intros f c Hf. unfold sum_pc. induction ops as [|o l IH]; [by rewrite Nat.mul_0_r|].
    cbn [fmap list_fmap sum_list_with length]. rewrite Hf, IH. lia. }
  rewrite (H _ 2%nat), (H _ 1%nat) by done. lia.
Qed.

Lemma cas_progress ms ops s :
  rtc step (init ms ops) s →
  Forall (λ p, ∃ o, p = Finished o) (threads s) ∨ ∃ t, step s t.
Proof.
  intros Hr. destruct (decide (Forall (λ p, is_Some (finished_op p)) (threads s))) as [Hf|Hf].
  - left. eapply Forall_impl; [exact Hf|]. intros [o|o p m|o] [x Hx]; cbn in Hx; [done|done|eauto].
  - right. apply not_Forall_Exists in Hf; [|apply _]. apply Exists_exists in Hf as (p & Hin & Hp).
    apply list_elem_of_lookup in Hin as [i Hi]. destruct p as [o|o q m|o]; [| |by destruct Hp; eauto].
    + destruct (op_update o) as [[t fn]|] eqn:Ho.
      * destruct (update_first t fn (slice s)) as [ms'|] eqn:Hu; eexists;
          [by eapply step_load|by eapply step_noop].
      * destruct o; try done. eexists. by eapply step_swap.
    + destruct (decide (ptr s = q)) as [Hq|Hq]; [|eexists; by eapply step_retry].
      assert (Hl : ∃ t fn ms', op_update o = Some (t, fn) ∧ update_first t fn m = Some ms').
      { eapply (rtc_ind_r (λ u, ∀ i o q m, threads u !! i = Some (Loaded o q m) →
            ∃ t fn ms', op_update o = Some (t, fn) ∧ update_first t fn m = Some ms')); [| |exact Hr|exact Hi].
        - intros j o' q' m'. cbn. rewrite list_lookup_fmap. by destruct (ops !! j).
        - clear. intros y z _ Hs IH j o q m Hj.
          destruct Hs as [s i ms' Hi|s i o' t fn Hi Ho Hu|s i o' t fn ms' Hi Ho Hu
            |s i o' t fn p ms' ms'' Hi Ho Hu Hp|s i o' p ms' Hi Hp]; cbn in Hj;
            (destruct (decide (j = i)) as [->|Hne];
             [rewrite list_lookup_insert_eq in Hj by (by eapply lookup_lt_Some); simplify_eq
             |rewrite list_lookup_insert_ne in Hj by done]); eauto. }
      destruct Hl as (t & fn & ms' & Ho & Hu). eexists. by eapply step_cas.
Qed.

(** Lock freedom with a bound: however [n] goroutines interleave, they take at most
    [2n(n+1)] steps together, retries included, and a state in which none can move is
    one in which all have returned. *)
Theorem updates_terminate ms ops k s :
  nsteps step k (init ms ops) s →
  (k ≤ 2 * length ops * (length ops + 1))%nat
  ∧ (Forall (λ p, ∃ o, p = Finished o) (threads s) ∨ ∃ t, step s t).
Proof.
  intros Hk. split.
  - apply nsteps_measure in Hk. rewrite measure_init in Hk. lia.
  - eapply cas_progress, rtc_nsteps. eauto.
Qed.

(** ** Witnesses: two goroutines disable different methods at once *)
Definition w_ms : list method := [w_decide "expr" "etl"; w_panic].
Definition w_ops : list op := [ODisable "expr"; ODisable "script"].
Definition w_final : state :=
  mkState 2 [disabledMethod (w_decide "expr" "etl"); disabledMethod w_panic] 3
    [Finished (ODisable "expr"); Finished (ODisable "script")] [ODisable "expr"; ODisable "script"].

(** Both load the same slice; the second one's compare-and-swap fails and retries. *)
Lemma w_run : rtc step (init w_ms w_ops) w_final.
Proof.
  eapply rtc_l; [by eapply (step_load _ 0)|].
  eapply rtc_l; [by eapply (step_load _ 1)|].
  eapply rtc_l; [by eapply (step_cas _ 0)|].
  eapply rtc_l; [by eapply (step_retry _ 1)|].
  eapply rtc_l; [by eapply (step_load _ 1)|].
  eapply rtc_l; [by eapply (step_cas _ 1)|]. apply rtc_refl.
Qed.

Lemma concurrent_updates_linearize_witness :
  ∃ order, order ≡ₚ w_ops ∧ slice w_final = foldl seq_op w_ms order.
Proof.
  apply (concurrent_updates_linearize w_ms w_ops w_final w_run).
  repeat constructor; eexists; reflexivity.
Defined.

Lemma updates_terminate_witness :
  (0 ≤ 2 * length w_ops * (length w_ops + 1))%nat
  ∧ (Forall (λ p, ∃ o, p = Finished o) (threads (init w_ms w_ops)) ∨ ∃ t, step (init w_ms w_ops) t).
Proof. apply (updates_terminate w_ms w_ops 0). constructor. Defined.
