(* ===== verification/RsConfig.v ===== *)
(** * Routing-service configuration (routing-service/internal/config/config.go)

    The records, the defaults, validation and [Load]. YAML decoding is
    [gopkg.in/yaml.v3], a parameter that merges a text into the pre-filled defaults;
    the file system is the world [W] the reads go through. *)
From S2P Require Import Prelude GoStrings GoNumeric.

#[local] Open Scope Z_scope.

(** A [Duration] is its nanoseconds. *)
Definition Duration_UnmarshalYAML (s : string) : go_result Z :=
  match parse_duration s with
  | Some d => Ok d
  | None => Err "config: duration: parse"
  end.

Record MethodConfig : Type := mkMethodConfig {
  mc_Type : string; Refresh : Z; Program : string; File : string }.
Record SQLParsingConfig : Type := mkSQLParsingConfig { sp_Enabled : bool; MaxBodyBytes : Z }.
Record Config : Type := mkConfig {
  Addr : string; MetricsAddr : string; AdminAddr : string; TracingEndpoint : string;
  DefaultRoutingGroup : string; Methods : list MethodConfig; SQLParsing : SQLParsingConfig }.

Definition defaultMaxBodyBytes : Z := 256 * 1024.

Definition defaultConfig : Config :=
  mkConfig ":9001" ":9091" ":9092" "" "" [] (mkSQLParsingConfig true defaultMaxBodyBytes).

Definition applyDefaults (c : Config) : Config :=
  mkConfig (Addr c)
    (if MetricsAddr c =?s "" then ":9091" else MetricsAddr c)
    (if AdminAddr c =?s "" then ":9092" else AdminAddr c)
    (TracingEndpoint c) (DefaultRoutingGroup c) (Methods c)
    (mkSQLParsingConfig (sp_Enabled (SQLParsing c))
       (if MaxBodyBytes (SQLParsing c) =? 0 then defaultMaxBodyBytes else MaxBodyBytes (SQLParsing c))).

(** The loop over the methods, with the index the message names. *)
Fixpoint validate_methods (i : Z) (ms : list MethodConfig) : go_result unit :=
  match ms with
  | [] => Ok tt
  | m :: ms =>
      if negb (Program m =?s "") && negb (File m =?s "") then
        Err ("config: validate: methods[" +:+ z_to_dec i
             +:+ "]: only one of program or file may be set, not both")
      else if (Program m =?s "") && (File m =?s "") then
        Err ("config: validate: methods[" +:+ z_to_dec i
             +:+ "]: exactly one of program or file must be set")
      else validate_methods (i + 1) ms
  end.

Definition Validate (c : Config) : go_result unit :=
  if Addr c =?s "" then Err "config: validate: addr must be non-empty"
  else if DefaultRoutingGroup c =?s "" then Err "config: validate: defaultRoutingGroup must be non-empty"
  else '_ ← validate_methods 0 (Methods c);
  if MaxBodyBytes (SQLParsing c) <? 0 then Err "config: validate: sqlParsing.maxBodyBytes must be non-negative"
  else Ok tt.

Section load.
Context {W : Type} (ReadFile : string → ST W (go_result string)).
Context (yaml_unmarshal : string → Config → go_result Config).

Definition Load (path : string) : ST W (go_result Config) :=
  data ← ReadFile path;
  mret match data with
       | Err e => Err ("config: read: " +:+ e)
       | Ok data =>
           match yaml_unmarshal data defaultConfig with
           | Err e => Err ("config: unmarshal: " +:+ e)
           | Ok cfg => let cfg := applyDefaults cfg in '_ ← Validate cfg; Ok cfg
           end
       end.
End load.

(** ** What a loaded configuration guarantees *)
Definition method_ok (m : MethodConfig) : Prop :=
  (Program m ≠ "" ∧ File m = "") ∨ (Program m = "" ∧ File m ≠ "").
Record rs_config_ok (c : Config) : Prop := {
  rco_addr : Addr c ≠ "";
  rco_group : DefaultRoutingGroup c ≠ "";
  rco_methods : Forall method_ok (Methods c);
  rco_body : 0 < MaxBodyBytes (SQLParsing c);
  rco_metrics : MetricsAddr c ≠ "";
  rco_admin : AdminAddr c ≠ "" }.

Lemma validate_methods_ok i ms : validate_methods i ms = Ok tt ↔ Forall method_ok ms.
Proof.
  revert i. induction ms as [|m ms IH]; intros i; cbn [validate_methods]; [done|].
  rewrite Forall_cons. unfold method_ok at 1.
  destruct (Program m =?s "") eqn:HP, (File m =?s "") eqn:HF; cbn [negb andb]; seqb_simpl;
    rewrite ?IH; intuition congruence.
Qed.

Lemma Validate_defaults_ok c : Validate (applyDefaults c) = Ok tt ↔ rs_config_ok (applyDefaults c).
Proof.
  unfold Validate. set (d := applyDefaults c).
  assert (Hd : MetricsAddr d ≠ "" ∧ AdminAddr d ≠ "" ∧ MaxBodyBytes (SQLParsing d) ≠ 0).
  { unfold d, applyDefaults. cbn. split_and!; case_bools; try done. lia. }
  clearbody d. destruct Hd as (Hm & Ha & Hb).
  destruct (Addr d =?s "") eqn:E1; [split; [done|intros []; by seqb_simpl]|].
  destruct (DefaultRoutingGroup d =?s "") eqn:E2; [split; [done|intros []; by seqb_simpl]|]. seqb_simpl.
  pose proof (validate_methods_ok 0 (Methods d)) as Hms.
  destruct (validate_methods 0 (Methods d)) as [[]|e]; cbn.
  - destruct (MaxBodyBytes (SQLParsing d) <? 0) eqn:E3; [split; [done|intros []; lia]|].
    split; [|done]. intros _. split; try done; [by apply Hms|lia].
  - split; [done|]. intros []. by apply Hms.
Qed.

Lemma applyDefaults_twice c : applyDefaults (applyDefaults c) = applyDefaults c.
Proof.
  unfold applyDefaults. cbn. f_equal; [by case_bools..|].
  f_equal. destruct (MaxBodyBytes (SQLParsing c) =? 0) eqn:E; [done|by rewrite E].
Qed.

Lemma load_validated {W} ReadFile yaml_unmarshal path (w w' : W) c :
  Load ReadFile yaml_unmarshal path w = (Ok c, w') → rs_config_ok c ∧ applyDefaults c = c.
Proof.
  unfold Load. unfold mbind, ST_bind. destruct (ReadFile path w) as [[data|] w1]; [|done].
  destruct (yaml_unmarshal data defaultConfig) as [cfg|]; [|done].
  pose proof (Validate_defaults_ok cfg) as Hv.
  destruct (Validate (applyDefaults cfg)) as [[]|]; [|done]. intros H. unfold mret, ST_ret in H. cbn in H.
  simplify_eq. split; [by apply Hv|apply applyDefaults_twice].
Qed.

(** A configuration [Load] returns has an address, a default group, a source for
    every method that is either inline or a file and never both, a positive bound
    on analysed bytes, and its defaults filled in. *)
Theorem rs_load_ok {W} ReadFile yaml_unmarshal path (w w' : W) c :
  Load ReadFile yaml_unmarshal path w = (Ok c, w') → rs_config_ok c ∧ applyDefaults c = c.
Proof. apply load_validated. Qed.

Definition w_rs_config : Config :=
  mkConfig ":9001" "" "" "" "adhoc" [mkMethodConfig "expr" 0 "request.source" ""] (mkSQLParsingConfig true 0).

Lemma rs_load_ok_witness :
  rs_config_ok (applyDefaults w_rs_config) ∧ applyDefaults (applyDefaults w_rs_config) = applyDefaults w_rs_config.
Proof.
  exact (rs_load_ok (λ _ w, (Ok "", w)) (λ _ _, Ok w_rs_config) "rs.yaml" tt tt
           (applyDefaults w_rs_config) eq_refl).
Defined.
