(* ===== verification/Providers.v ===== *)
(** * Routing methods (routing-service/internal/engine: registry.go,
      providers/expr, providers/script)

    The registry that builds methods from their configuration, the text it hands to
    [LoadConfig], and the two providers. The expression and Starlark libraries are
    parameters: a compiler and an evaluator each. The file system is the world [W].
    [method_config_roundtrip] shows that both providers read back exactly the source the
    configuration holds; [build_evaluates_source] what a built method evaluates. *)
From S2P Require Import Prelude GoStrings GoNumeric SqlMeta Engine RsConfig.

(** ** The provider interface *)

(** [engine.RoutingMethod] with its constructor; [St] is what the receiver holds. *)
Class RoutingMethod (W St : Type) : Type := {
  rm_Type : string;
  rm_New : St;
  rm_LoadConfig : string → St → ST W (go_result unit * St);
  rm_Evaluate : St → RouteInput → eval_outcome }.

(** The documented contract of [LoadConfig]: a failure leaves the receiver as it was. *)
Class KeepLastGood (W St : Type) `{RoutingMethod W St} : Prop :=
  keep_last_good raw (st : St) (w : W) e st' w' :
    rm_LoadConfig raw st w = ((Err e, st'), w') → st' = st.

(** ** The text between registry and providers (registry.go) *)
Definition appendYAMLStr (buf key val : string) : string := buf +:+ key +:+ ": " +:+ val +:+ nl.

(** The loop of [appendYAMLBlock]; the fuel is the length of the text. *)
Fixpoint append_block (fuel : nat) (val : string) : string :=
  match fuel with
  | O => ""
  | S fuel =>
      match val with
      | EmptyString => ""
      | _ => match index_byte newline val with
             | Some i => "  " +:+ str_take (S i) val +:+ append_block fuel (str_drop (S i) val)
             | None => "  " +:+ val +:+ nl
             end
      end
  end.
Definition appendYAMLBlock (buf key val : string) : string :=
  buf +:+ key +:+ ": |" +:+ nl +:+ append_block (String.length val) val.

Definition methodConfigBytes (cfg : MethodConfig) : string :=
  let buf := appendYAMLStr "" "type" (mc_Type cfg) in
  let buf := if Program cfg =?s "" then buf else appendYAMLBlock buf "program" (Program cfg) in
  let buf := if File cfg =?s "" then buf else appendYAMLStr buf "file" (File cfg) in
  if (0 <? Refresh cfg)%Z then appendYAMLStr buf "refresh" (duration_string (Refresh cfg)) else buf.

Fixpoint splitLines (s : string) : list string :=
  match s with
  | EmptyString => []
  | String c r =>
      if Ascii.eqb c newline then "" :: splitLines r
      else match splitLines r with
           | [] => [String c ""]
           | l :: ls => String c l :: ls
           end
  end.
Definition joinLines (lines : list string) : string := join nl lines.

Definition parseYAMLLine (line : string) : string * string :=
  match cut_byte ":" line with
  | None => ("", "")
  | Some (k, v) => (k, match v with
                       | String c r => if Ascii.eqb c " " then r else v
                       | EmptyString => v
                       end)
  end.

(** The variables of [extractSource]'s loop; [Some] block lines while in a block. *)
Record ext_state : Type := mkExt { x_program : string; x_file : string; x_block : option (list string) }.

(** A line outside a block. *)
Definition ext_key (line : string) (st : ext_state) : ext_state :=
  let '(key, val) := parseYAMLLine line in
  if key =?s "program" then
    if val =?s "|" then mkExt (x_program st) (x_file st) (Some [])
    else mkExt val (x_file st) (x_block st)
  else if key =?s "file" then mkExt (x_program st) val (x_block st)
  else st.

Definition indented (line : string) : option string :=
  match line with
  | String a (String b r) => if Ascii.eqb a " " && Ascii.eqb b " " then Some r else None
  | _ => None
  end.

Definition ext_line (line : string) (st : ext_state) : ext_state :=
  match x_block st with
  | Some bl =>
      match indented line with
      | Some r => mkExt (x_program st) (x_file st) (Some (bl ++ [r]))
      | None => ext_key line (mkExt (joinLines bl) (x_file st) None)
      end
  | None => ext_key line st
  end.

Fixpoint ext_loop (lines : list string) (st : ext_state) : ext_state :=
  match lines with [] => st | l :: ls => ext_loop ls (ext_line l st) end.

Definition ext_program (st : ext_state) : string :=
  match x_block st with Some bl => joinLines bl | None => x_program st end.

Section providers.
Context {W : Type} (readFile : string → ST W (go_result string)).

Definition extractSource (raw : string) : ST W (go_result string) :=
  let st := ext_loop (splitLines raw) (mkExt "" "" None) in
  if negb (ext_program st =?s "") then mret (Ok (ext_program st))
  else if negb (x_file st =?s "") then
    r ← readFile (x_file st);
    mret match r with Ok src => Ok src | Err e => Err ("read file: " +:+ e) end
  else mret (Err "config must specify program or file").

(** What an evaluator may hand back. *)
Inductive value : Type :=
| VNone
| VString (s : string)
| VOther (ty : string).
Definition type_name (v : value) : string :=
  match v with VNone => "NoneType" | VString _ => "string" | VOther ty => ty end.
Inductive run_outcome : Type :=
| Returned (v : value)
| RunError (e : string)
| RunPanic (v : string).

(** ** expr *)

(** [requestFields]; a nil slice or map and an empty one are the same list or map. *)
Record requestFields : Type := mkRequestFields {
  rf_Source : string; rf_ClientTags : list string; rf_User : string; rf_Catalog : string;
  rf_Schema : string; rf_Method : string; rf_URI : string; rf_RemoteAddr : string; rf_Body : string;
  rf_IsNew : bool; rf_ParamMap : gmap string string;
  rf_QueryType : string; rf_QueryCategory : string; rf_Catalogs : list string; rf_Schemas : list string;
  rf_CatalogSchemas : list string; rf_Tables : list string; rf_ParseOK : bool }.

Definition buildEnv (i : RouteInput) : requestFields :=
  mkRequestFields (Source i) (ClientTags i) (User i) (Catalog i) (Schema i) (Method i) (URI i)
    (RemoteAddr i) (Body i) (IsNew i) (ParamMap i) (in_QueryType i) (in_QueryCategory i) (in_Catalogs i)
    (in_Schemas i) (in_CatalogSchemas i) (in_Tables i) (in_ParseOK i).

Definition group_decision (s : string) : Decision := mkDecision s ∅ [] true.

Section expr.
Context {Prog : Type} (compile : string → go_result Prog) (Run : Prog → requestFields → run_outcome).

Definition expr_LoadConfig (raw : string) (p : option Prog) : ST W (go_result unit * option Prog) :=
  src ← extractSource raw;
  mret match src with
       | Err e => (Err ("expr: LoadConfig: " +:+ e), p)
       | Ok src => match compile src with
                   | Err e => (Err ("expr: LoadConfig: compile: " +:+ e), p)
                   | Ok prog => (Ok tt, Some prog)
                   end
       end.

Definition expr_Evaluate (p : option Prog) (i : RouteInput) : eval_outcome :=
  match p with
  | None => Evaluated no_decision
  | Some prog =>
      match Run prog (buildEnv i) with
      | RunError e => Failed ("expr: Run: " +:+ e)
      | RunPanic v => Panicked v
      | Returned (VString g) => if g =?s "" then Evaluated no_decision else Evaluated (group_decision g)
      | Returned v => Failed ("expr: result is " +:+ type_name v +:+ ", want string")
      end
  end.

#[global] Instance expr_method : RoutingMethod W (option Prog) := {
  rm_Type := "expr"; rm_New := None; rm_LoadConfig := expr_LoadConfig; rm_Evaluate := expr_Evaluate }.

#[global] Instance expr_keeps : KeepLastGood W (option Prog).
Proof.
  intros raw st w e st' w'. cbn. unfold expr_LoadConfig, mbind, ST_bind, mret, ST_ret.
  destruct (extractSource raw w) as [[src|] w1]; [destruct (compile src)|]; by intros [= <-].
Qed.
End expr.

(** ** script *)

(** The Starlark values a request is made of. *)
Inductive sval : Type :=
| SString (s : string)
| SBool (b : bool)
| SList (l : list string)
| SDict (m : gmap string string).

Definition maxSteps : Z := 10000.
Definition routeFuncName : string := "route".

Definition stringList (ss : list string) : sval := SList ss.

Definition buildReqValue (i : RouteInput) : gmap string sval :=
  list_to_map [
    ("source", SString (Source i)); ("client_tags", SList (ClientTags i)); ("user", SString (User i));
    ("catalog", SString (Catalog i)); ("schema", SString (Schema i)); ("method", SString (Method i));
    ("uri", SString (URI i)); ("remote_addr", SString (RemoteAddr i)); ("body", SString (Body i));
    ("is_new", SBool (IsNew i)); ("param_map", SDict (ParamMap i));
    ("query_type", SString (in_QueryType i)); ("query_category", SString (in_QueryCategory i));
    ("catalogs", stringList (in_Catalogs i)); ("schemas", stringList (in_Schemas i));
    ("catalog_schemas", stringList (in_CatalogSchemas i)); ("tables", stringList (in_Tables i));
    ("parse_ok", SBool (in_ParseOK i)) ].

Section script.
(** [ExecFileOptions] gives the globals, [callable] tests a global, [Call] runs the
    entry point within a step budget; a cancelled thread ends in an error. *)
Context {Fn : Type} (ExecFile : string → go_result (gmap string Fn)) (callable : Fn → bool)
        (fn_type : Fn → string) (Call : Z → Fn → gmap string sval → run_outcome).

Record script_state : Type := mkScript { script : option Fn; stepBudget : Z }.

Definition SetMaxSteps (n : Z) (p : script_state) : script_state := mkScript (script p) n.
Definition effectiveMaxSteps (p : script_state) : Z :=
  if (0 <? stepBudget p)%Z then stepBudget p else maxSteps.

Definition compileAndExec (src : string) : go_result Fn :=
  match ExecFile src with
  | Err e => Err ("compile/exec: " +:+ e)
  | Ok globals =>
      match globals !! routeFuncName with
      | None => Err "script must define a function named route"
      | Some f => if callable f then Ok f else Err ("route is not callable (got " +:+ fn_type f +:+ ")")
      end
  end.

Definition script_LoadConfig (raw : string) (p : script_state) : ST W (go_result unit * script_state) :=
  src ← extractSource raw;
  mret match src with
       | Err e => (Err ("script: LoadConfig: " +:+ e), p)
       | Ok src => match compileAndExec src with
                   | Err e => (Err ("script: LoadConfig: " +:+ e), p)
                   | Ok f => (Ok tt, mkScript (Some f) (stepBudget p))
                   end
       end.

Definition script_Evaluate (p : script_state) (i : RouteInput) : eval_outcome :=
  match script p with
  | None => Evaluated no_decision
  | Some f =>
      match Call (effectiveMaxSteps p) f (buildReqValue i) with
      | RunError e => Failed ("script: route(): " +:+ e)
      | RunPanic v => Panicked v
      | Returned VNone => Evaluated no_decision
      | Returned (VString s) => if s =?s "" then Evaluated no_decision else Evaluated (group_decision s)
      | Returned v => Failed ("script: route() returned " +:+ type_name v +:+ ", want string or None")
      end
  end.

#[global] Instance script_method : RoutingMethod W script_state := {
  rm_Type := "script"; rm_New := mkScript None 0; rm_LoadConfig := script_LoadConfig;
  rm_Evaluate := script_Evaluate }.

#[global] Instance script_keeps : KeepLastGood W script_state.
Proof.
  intros raw st w e st' w'. cbn. unfold script_LoadConfig, mbind, ST_bind, mret, ST_ret.
  destruct (extractSource raw w) as [[src|] w1]; [destruct (compileAndExec src)|]; by intros [= <-].
Qed.
End script.
End providers.

(** [hashPct] as both languages see it: one string argument, a percentage. *)
Definition builtinHashPct (args : list value) (kwargs : list (string * value)) : go_result Z :=
  if non_nil kwargs then Err "hashPct: unexpected keyword argument"
  else match args with
       | [VString s] => Ok (HashPct s)
       | [v] => Err ("hashPct: argument must be string, got " +:+ type_name v)
       | _ => Err ("hashPct: expected 1 positional argument, got " +:+ z_to_dec (Z.of_nat (length args)))
       end.

(** ** The registry *)
Record Factory (W : Type) : Type := mkFactory { fac_St : Type; fac_method : RoutingMethod W fac_St }.
Arguments mkFactory {W} fac_St fac_method.
Arguments fac_St {W} _.
Arguments fac_method {W} _.

Abbreviation Registry W := (gmap string (Factory W)).
Definition NewRegistry {W} : Registry W := ∅.

(** [None] is the panic on a duplicate name. *)
Definition Register {W} (typeName : string) (f : Factory W) (r : Registry W) : option (Registry W) :=
  match r !! typeName with Some _ => None | None => Some (<[typeName := f]> r) end.

Definition Build {W} (r : Registry W) (cfg : MethodConfig) : ST W (go_result method) :=
  match r !! mc_Type cfg with
  | None => mret (Err ("engine: registry: unknown method type " +:+ mc_Type cfg))
  | Some f =>
      let _ := fac_method f in
      '(err, st) ← rm_LoadConfig (methodConfigBytes cfg) (rm_New : fac_St f);
      mret match err with
           | Err e => Err ("engine: registry: LoadConfig for " +:+ mc_Type cfg +:+ ": " +:+ e)
           | Ok _ => Ok (Live (mkProvider (rm_Type (St := fac_St f)) (rm_Evaluate st)))
           end
  end.

(** ** Lines *)

(** A text without its last newline. *)
Fixpoint chomp (s : string) : string :=
  match s with
  | EmptyString => ""
  | String c EmptyString => if Ascii.eqb c newline then "" else s
  | String c r => String c (chomp r)
  end.

Definition one_line (s : string) : Prop := mem_byte newline s = false.

Lemma one_line_app a b : one_line a → one_line b → one_line (a +:+ b).
Proof.
  unfold one_line. induction a as [|c a IH]; [by rewrite str_app_nil_l|].
  rewrite str_app_cons. cbn [mem_byte]. rewrite !orb_false_iff. intros [? ?] ?. auto.
Qed.

Lemma printing_one_line s : str_forallb printing s = true → one_line s.
Proof.
  unfold one_line. induction s as [|c s IH]; cbn [str_forallb mem_byte]; [done|].
  rewrite andb_true_iff, orb_false_iff. intros [Hc Hs]. split; [|auto].
  by destruct (Ascii.eqb_spec newline c) as [<-|].
Qed.

Lemma splitLines_line l rest : one_line l → splitLines (l +:+ nl +:+ rest) = l :: splitLines rest.
Proof.
  unfold one_line. induction l as [|c l IH]; intros Hl.
  - rewrite str_app_nil_l. by change (nl +:+ rest) with (String newline rest).
  - rewrite str_app_cons. cbn [mem_byte splitLines] in *. apply orb_false_iff in Hl as [Hc Hl].
    rewrite Ascii.eqb_sym in Hc. rewrite Hc, IH by done. done.
Qed.

Lemma splitLines_nil s : splitLines s = [] → s = "".
Proof.
  destruct s as [|c s]; [done|]. cbn [splitLines].
  destruct (Ascii.eqb c newline); [done|]. by destruct (splitLines s).
Qed.

Lemma splitLines_last l : one_line l → l ≠ "" → splitLines l = [l].
Proof.
  unfold one_line. induction l as [|c l IH]; [done|]. cbn [mem_byte splitLines]. intros [Hc Hl]%orb_false_iff _.
  rewrite Ascii.eqb_sym in Hc. rewrite Hc. destruct l as [|d l]; [done|]. by rewrite IH.
Qed.

(** Splitting and joining loses one final newline and nothing else. *)
Lemma joinLines_splitLines s : joinLines (splitLines s) = chomp s.
Proof.
  unfold joinLines. induction s as [|c s IH]; [done|]. cbn [splitLines chomp].
  destruct (Ascii.eqb_spec c newline) as [->|].
  - destruct s as [|d s]; [done|]. destruct (splitLines (String d s)) as [|l ls] eqn:E.
    { by apply splitLines_nil in E. }
    change (join nl ("" :: l :: ls)) with ("" +:+ nl +:+ join nl (l :: ls)).
    rewrite str_app_nil_l, IH. done.
  - destruct s as [|d s]; [done|]. destruct (splitLines (String d s)) as [|l ls] eqn:E.
    { by apply splitLines_nil in E. }
    rewrite <- IH. destruct ls as [|l' ls]; [done|].
    change (join nl (String c l :: l' :: ls)) with (String c l +:+ nl +:+ join nl (l' :: ls)).
    by rewrite str_app_cons.
Qed.

Lemma index_byte_split b s :
  match index_byte b s with
  | Some i => ∃ a r, s = a +:+ String b r ∧ mem_byte b a = false ∧ String.length a = i
  | None => mem_byte b s = false
  end.
Proof.
  induction s as [|c s IH]; [done|]. cbn [index_byte mem_byte].
  rewrite (Ascii.eqb_sym b c). destruct (Ascii.eqb_spec c b) as [->|Hn].
  - by exists "", s.
  - destruct (index_byte b s) as [i|]; cbn [fmap option_fmap option_map]; [|done].
    destruct IH as (a & r & -> & Ha & <-). exists (String c a), r. rewrite str_app_cons. split_and!; try done.
    cbn [mem_byte]. rewrite Ha. by destruct (Ascii.eqb_spec b c).
Qed.

Definition indent (l : string) : string := "  " +:+ l +:+ nl.

(** The block is the lines of the text, each indented and ended. *)
Lemma append_block_lines fuel val :
  (String.length val ≤ fuel)%nat → append_block fuel val = concat_str (indent <$> splitLines val).
Proof.
  revert val. induction fuel as [|fuel IH]; intros val Hf.
  { destruct val; [done|cbn in Hf; lia]. }
  destruct val as [|c val]; [done|]. cbn [append_block].
  pose proof (index_byte_split newline (String c val)) as Hi.
  destruct (index_byte newline (String c val)) as [i|].
  - destruct Hi as (a & r & Hs & Ha & Hi). rewrite Hs.
    replace (a +:+ String newline r) with ((a +:+ nl) +:+ r) by (by rewrite str_app_assoc).
    replace (S i) with (String.length (a +:+ nl)) by (rewrite str_length_app; cbn; lia).
    rewrite str_take_app, str_drop_app, (str_app_assoc a nl r), splitLines_line by done. cbn [fmap list_fmap concat_str].
    rewrite IH; [unfold indent; by rewrite !str_app_assoc|].
    assert (String.length (String c val) = String.length a + S (String.length r))%nat
      by (rewrite Hs, str_length_app; done). lia.
  - rewrite splitLines_last by done. cbn [fmap list_fmap concat_str]. unfold indent.
    by rewrite str_app_nil_r.
Qed.

Lemma splitLines_one_line s : Forall one_line (splitLines s).
Proof.
  induction s as [|c s IH]; [done|]. cbn [splitLines]. destruct (Ascii.eqb_spec c newline) as [|Hn].
  - by constructor.
  - destruct (splitLines s) as [|l ls].
    + constructor; [|done]. unfold one_line. cbn [mem_byte].
      destruct (Ascii.eqb_spec newline c); [congruence|done].
    + inversion_clear IH. constructor; [|done]. unfold one_line. cbn [mem_byte].
      destruct (Ascii.eqb_spec newline c); [congruence|done].
Qed.

Lemma splitLines_indented ls rest :
  Forall one_line ls →
  splitLines (concat_str (indent <$> ls) +:+ rest) = ((λ l, "  " +:+ l) <$> ls) ++ splitLines rest.
Proof.
  induction 1 as [|l ls Hl _ IH]; [by rewrite str_app_nil_l|].
  cbn [fmap list_fmap concat_str app]. unfold indent at 1. rewrite !str_app_assoc, <- (str_app_assoc "  ").
  rewrite splitLines_line by (by apply one_line_app). by rewrite IH.
Qed.

Lemma parseYAMLLine_key k v :
  mem_byte ":" k = false → parseYAMLLine (k +:+ ": " +:+ v) = (k, v).
Proof.
  intros Hk. unfold parseYAMLLine.
  change (k +:+ ": " +:+ v) with (k +:+ String ":" (" " +:+ v)). by rewrite cut_byte_app.
Qed.

Lemma ext_loop_app a b st : ext_loop (a ++ b) st = ext_loop b (ext_loop a st).
Proof. revert st. induction a as [|l a IH]; intros st; [done|]. apply IH. Qed.

Lemma ext_loop_block ls p f bl :
  ext_loop ((λ l, "  " +:+ l) <$> ls) (mkExt p f (Some bl)) = mkExt p f (Some (bl ++ ls)).
Proof.
  revert bl. induction ls as [|l ls IH]; intros bl; [by rewrite app_nil_r|].
  cbn [fmap list_fmap ext_loop]. unfold ext_line at 1. cbn [x_block].
  change (indented ("  " +:+ l)) with (Some l). cbn [x_program x_file]. by rewrite IH, <- app_assoc.
Qed.

(** ** What a provider reads back *)

(** The lines of the configuration text. *)
Definition config_lines (cfg : MethodConfig) : list string :=
  ["type: " +:+ mc_Type cfg]
  ++ (if Program cfg =?s "" then [] else "program: |" :: ((λ l, "  " +:+ l) <$> splitLines (Program cfg)))
  ++ (if File cfg =?s "" then [] else ["file: " +:+ File cfg])
  ++ (if (0 <? Refresh cfg)%Z then ["refresh: " +:+ duration_string (Refresh cfg)] else []).

Lemma splitLines_str k v rest :
  one_line k → one_line v → splitLines (appendYAMLStr "" k v +:+ rest) = (k +:+ ": " +:+ v) :: splitLines rest.
Proof.
  intros Hk Hv. unfold appendYAMLStr. rewrite str_app_nil_l, !str_app_assoc, <- (str_app_assoc ": ").
  rewrite <- (str_app_assoc k), splitLines_line; [done|]. by repeat apply one_line_app.
Qed.

Lemma methodConfigBytes_lines cfg :
  one_line (mc_Type cfg) → one_line (File cfg) → splitLines (methodConfigBytes cfg) = config_lines cfg.
Proof.
  intros HT HF. unfold methodConfigBytes, config_lines. cbv zeta.
  set (fl := if File cfg =?s "" then "" else appendYAMLStr "" "file" (File cfg)).
  set (rf := if (0 <? Refresh cfg)%Z then appendYAMLStr "" "refresh" (duration_string (Refresh cfg)) else "").
  set (pg := if Program cfg =?s "" then "" else appendYAMLBlock "" "program" (Program cfg)).
  assert (Hbytes : methodConfigBytes cfg = appendYAMLStr "" "type" (mc_Type cfg) +:+ pg +:+ fl +:+ rf).
  { unfold methodConfigBytes, pg, fl, rf, appendYAMLBlock, appendYAMLStr. cbv zeta.
    destruct (Program cfg =?s ""), (File cfg =?s ""), (0 <? Refresh cfg)%Z;
      by rewrite ?str_app_nil_l, ?str_app_nil_r, ?str_app_assoc. }
  unfold methodConfigBytes in Hbytes. cbv zeta in Hbytes. rewrite Hbytes, splitLines_str by done.
  assert (Hrf : splitLines rf = if (0 <? Refresh cfg)%Z then ["refresh: " +:+ duration_string (Refresh cfg)] else []).
  { unfold rf. destruct (0 <? Refresh cfg)%Z; [|done]. rewrite <- (str_app_nil_r (appendYAMLStr _ _ _)).
    by rewrite splitLines_str by (done || apply printing_one_line, duration_string_printing). }
  assert (Hfl : splitLines (fl +:+ rf) = (if File cfg =?s "" then [] else ["file: " +:+ File cfg]) ++ splitLines rf).
  { unfold fl. destruct (File cfg =?s ""); [by rewrite str_app_nil_l|]. by rewrite splitLines_str. }
  rewrite <- Hrf, <- Hfl. cbn [app]. f_equal. unfold pg. destruct (Program cfg =?s ""); [by rewrite str_app_nil_l|].
  unfold appendYAMLBlock. rewrite str_app_nil_l, append_block_lines, !str_app_assoc by done.
  rewrite <- (str_app_assoc "program" ": |"), splitLines_line by done.
  by rewrite splitLines_indented by apply splitLines_one_line.
Qed.

(** The source a method configuration stands for: the program without its final
    newline, or else the contents of the file. *)
Definition method_source {W} (readFile : string → ST W (go_result string)) (cfg : MethodConfig) :
    ST W (go_result string) :=
  if negb (chomp (Program cfg) =?s "") then mret (Ok (chomp (Program cfg)))
  else if negb (File cfg =?s "") then
    r ← readFile (File cfg);
    mret match r with Ok src => Ok src | Err e => Err ("read file: " +:+ e) end
  else mret (Err "config must specify program or file").

Lemma ext_loop_config cfg :
  let st := ext_loop (config_lines cfg) (mkExt "" "" None) in
  ext_program st = chomp (Program cfg) ∧ x_file st = File cfg.
Proof.
  cbv zeta. unfold config_lines. rewrite !ext_loop_app.
  assert (Htype : ext_loop ["type: " +:+ mc_Type cfg] (mkExt "" "" None) = mkExt "" "" None).
  { cbn [ext_loop]. unfold ext_line, ext_key. cbn [x_block].
    change ("type: " +:+ mc_Type cfg) with ("type" +:+ ": " +:+ mc_Type cfg).
    by rewrite parseYAMLLine_key by done. }
  rewrite Htype. clear Htype.
  assert (Hk : ∀ k v st, mem_byte ":" k = false → indented (k +:+ ": " +:+ v) = None →
    (k =?s "program") = false →
    ext_program (ext_line (k +:+ ": " +:+ v) st) = ext_program st
    ∧ x_block (ext_line (k +:+ ": " +:+ v) st) = None
    ∧ x_file (ext_line (k +:+ ": " +:+ v) st) = if k =?s "file" then v else x_file st).
  { intros k v st Hc Hi Hp. unfold ext_line, ext_program, ext_key.
    destruct (x_block st) as [bl|] eqn:Hb; rewrite ?Hi, parseYAMLLine_key, Hp by done;
      destruct (k =?s "file"); cbn; by rewrite ?Hb. }
  set (s1 := ext_loop (if Program cfg =?s "" then _ else _) _).
  assert (H1 : ext_program s1 = chomp (Program cfg) ∧ x_file s1 = "").
  { unfold s1. destruct (Program cfg =?s "") eqn:E; [by apply seqb_eq in E as ->|].
    cbn [ext_loop]. change (ext_line "program: |" (mkExt "" "" None)) with (mkExt "" "" (Some [])).
    rewrite ext_loop_block. cbn. by rewrite joinLines_splitLines. }
  clearbody s1. destruct H1 as [H1 H1f].
  set (s2 := ext_loop (if File cfg =?s "" then _ else _) _).
  assert (H2 : ext_program s2 = chomp (Program cfg) ∧ x_file s2 = File cfg).
  { unfold s2. destruct (File cfg =?s "") eqn:E; [apply seqb_eq in E as ->; done|]. cbn [ext_loop].
    change ("file: " +:+ File cfg) with ("file" +:+ ": " +:+ File cfg).
    destruct (Hk "file" (File cfg) s1) as (-> & _ & ->); done. }
  clearbody s2. destruct H2 as [H2 H2f]. destruct (0 <? Refresh cfg)%Z; [|done]. cbn [ext_loop].
  change ("refresh: " +:+ ?v) with ("refresh" +:+ ": " +:+ v).
  destruct (Hk "refresh" (duration_string (Refresh cfg)) s2) as (-> & _ & ->); done.
Qed.

(** Both providers read back the source the configuration holds, whatever lines the
    program has: the registry's text loses only one final newline. *)
Theorem method_config_roundtrip {W} (readFile : string → ST W (go_result string)) cfg w :
  one_line (mc_Type cfg) → one_line (File cfg) →
  extractSource readFile (methodConfigBytes cfg) w = method_source readFile cfg w.
Proof.
  intros HT HF. unfold extractSource. rewrite methodConfigBytes_lines by done. cbv zeta.
  destruct (ext_loop_config cfg) as [-> ->]. done.
Qed.

Definition w_method : MethodConfig :=
  mkMethodConfig "expr" (30 * Second)%Z ("request.user == " +:+ nl +:+ nl +:+ "  file: x" +:+ nl) "".
Definition w_fs (path : string) : ST unit (go_result string) := λ w, (Ok ("contents of " +:+ path), w).

(** A program with blank and indented lines that look like keys. *)
Lemma method_config_roundtrip_witness :
  extractSource w_fs (methodConfigBytes w_method) tt
  = (Ok ("request.user == " +:+ nl +:+ nl +:+ "  file: x"), tt).
Proof. rewrite (method_config_roundtrip w_fs w_method tt eq_refl eq_refl). reflexivity. Defined.

(** ** What a built method evaluates *)

(** The registry with the service's two providers (cmd/routing-service/main.go). *)
Section registry.
Context {W : Type} (readFile : string → ST W (go_result string)).
Context {Prog : Type} (compile : string → go_result Prog) (Run : Prog → requestFields → run_outcome).
Context {Fn : Type} (ExecFile : string → go_result (gmap string Fn)) (callable : Fn → bool)
        (fn_type : Fn → string) (Call : Z → Fn → gmap string sval → run_outcome).

Definition service_registry : option (Registry W) :=
  r ← Register "expr" (mkFactory _ (expr_method readFile compile Run)) NewRegistry;
  Register "script" (mkFactory _ (script_method readFile ExecFile callable fn_type Call)) r.

(** What evaluating a source means, for each type. *)
Definition expr_outcome (src : string) (i : RouteInput) : option eval_outcome :=
  match compile src with Ok prog => Some (expr_Evaluate Run (Some prog) i) | Err _ => None end.
Definition script_outcome (src : string) (i : RouteInput) : option eval_outcome :=
  match compileAndExec ExecFile callable fn_type src with
  | Ok f => Some (script_Evaluate Call (mkScript (Some f) 0) i)
  | Err _ => None
  end.
Definition source_outcome (ty src : string) (i : RouteInput) : option eval_outcome :=
  if ty =?s "expr" then expr_outcome src i
  else if ty =?s "script" then script_outcome src i else None.

Lemma service_registry_lookup r ty :
  service_registry = Some r →
  r !! ty = if ty =?s "expr" then Some (mkFactory _ (expr_method readFile compile Run))
            else if ty =?s "script" then Some (mkFactory _ (script_method readFile ExecFile callable fn_type Call))
            else None.
Proof.
  unfold service_registry, Register, NewRegistry. rewrite lookup_empty. cbn [mbind option_bind].
  rewrite lookup_insert_ne, lookup_empty by done. intros [= <-].
  destruct (ty =?s "expr") eqn:E1; seqb_simpl; subst.
  - by rewrite lookup_insert_ne, lookup_insert_eq by done.
  - destruct (ty =?s "script") eqn:E2; seqb_simpl; subst; [by rewrite lookup_insert_eq|].
    rewrite !lookup_insert_ne by congruence. apply lookup_empty.
Qed.

Lemma Build_outcome r cfg w :
  service_registry = Some r → one_line (File cfg) →
  match Build r cfg w with
  | (Ok m, w') =>
      ∃ src, method_source readFile cfg w = (Ok src, w') ∧ Type_ m = mc_Type cfg ∧ isDisabled m = false
           ∧ ∀ i, source_outcome (mc_Type cfg) src i = Some (m_Evaluate m i)
  | (Err _, w') =>
      ((mc_Type cfg ∉ ["expr"; "script"]) ∧ w' = w)
      ∨ (mc_Type cfg ∈ ["expr"; "script"])
        ∧ match method_source readFile cfg w with
          | (Ok src, w1) => w' = w1 ∧ ∀ i, source_outcome (mc_Type cfg) src i = None
          | (Err _, w1) => w' = w1
          end
  end.
Proof.
  intros Hr HF. unfold Build, source_outcome. rewrite (service_registry_lookup r _ Hr).
  destruct (mc_Type cfg =?s "expr") eqn:E1; [|destruct (mc_Type cfg =?s "script") eqn:E2]; seqb_simpl.
  - cbn [fac_St fac_method rm_LoadConfig rm_New rm_Evaluate rm_Type expr_method].
    unfold expr_LoadConfig, expr_outcome, mbind, ST_bind, mret, ST_ret.
    rewrite method_config_roundtrip by (done || by rewrite E1).
    destruct (method_source readFile cfg w) as [[src|e] w1].
    + destruct (compile src) as [prog|e] eqn:Ec.
      * exists src. by rewrite Ec.
      * right. rewrite E1. by split; [left|].
    + right. rewrite E1. by split; [left|].
  - cbn [fac_St fac_method rm_LoadConfig rm_New rm_Evaluate rm_Type script_method].
    unfold script_LoadConfig, script_outcome, mbind, ST_bind, mret, ST_ret.
    rewrite method_config_roundtrip by (done || by rewrite E2).
    destruct (method_source readFile cfg w) as [[src|e] w1].
    + destruct (compileAndExec ExecFile callable fn_type src) as [f|e] eqn:Ec.
      * exists src. by rewrite Ec.
      * right. rewrite E2. split; [right; left|done].
    + right. rewrite E2. split; [right; left|done].
  - left. split; [|done]. set_solver.
Qed.
End registry.

(** C29: A method the service's registry builds evaluates the source its configuration
    holds, in the language its type names; building fails exactly when the type is
    unknown, the source cannot be read, or it does not compile. *)
Theorem build_evaluates_source {W} (readFile : string → ST W (go_result string))
    {Prog} (compile : string → go_result Prog) Run {Fn} (ExecFile : string → go_result (gmap string Fn))
    callable fn_type Call r cfg w :
  service_registry readFile compile Run ExecFile callable fn_type Call = Some r → one_line (File cfg) →
  match Build r cfg w with
  | (Ok m, w') =>
      ∃ src, method_source readFile cfg w = (Ok src, w') ∧ Type_ m = mc_Type cfg ∧ isDisabled m = false
           ∧ ∀ i, source_outcome compile Run ExecFile callable fn_type Call (mc_Type cfg) src i
                  = Some (m_Evaluate m i)
  | (Err _, w') =>
      ((mc_Type cfg ∉ ["expr"; "script"]) ∧ w' = w)
      ∨ (mc_Type cfg ∈ ["expr"; "script"])
        ∧ match method_source readFile cfg w with
          | (Ok src, w1) => w' = w1
             ∧ ∀ i, source_outcome compile Run ExecFile callable fn_type Call (mc_Type cfg) src i = None
          | (Err _, w1) => w' = w1
          end
  end.
Proof. apply Build_outcome. Qed.

(** A toy expression language: a program is the field it returns. *)
Definition w_compile (src : string) : go_result string :=
  if src =?s "request.user" then Ok "user" else Err "unexpected token".
Definition w_run (prog : string) (env : requestFields) : run_outcome := Returned (VString (rf_User env)).
Definition w_registry : Registry unit :=
  from_opt ∅ (service_registry w_fs w_compile w_run (λ _, Err "exec") (λ _ : unit, true) (λ _, "function")
                (λ _ _ _, Returned VNone)).
Definition w_user_method : MethodConfig := mkMethodConfig "expr" 0 ("request.user" +:+ nl) "".

Lemma build_evaluates_source_witness :
  match Build w_registry w_user_method tt with
  | (Ok m, _) => ∃ src, method_source w_fs w_user_method tt = (Ok src, tt)
                      ∧ ∀ i, source_outcome w_compile w_run (λ _, Err "exec") (λ _ : unit, true) (λ _, "function")
                               (λ _ _ _, Returned VNone) "expr" src i = Some (m_Evaluate m i)
  | (Err _, _) => False
  end.
Proof.
  generalize (build_evaluates_source w_fs w_compile w_run (λ _, Err "exec") (λ _ : unit, true) (λ _, "function")
                (λ _ _ _, Returned VNone) w_registry w_user_method tt eq_refl eq_refl).
  set (b := Build w_registry w_user_method tt). vm_compute in b. subst b. cbv iota.
  intros (src & H1 & _ & _ & H2). exists src. split; [exact H1|exact H2].
Defined.

(** ** Both languages see the same request *)

(** The [expr] struct tags. *)
Definition expr_fields (r : requestFields) : gmap string sval :=
  list_to_map [
    ("source", SString (rf_Source r)); ("client_tags", SList (rf_ClientTags r)); ("user", SString (rf_User r));
    ("catalog", SString (rf_Catalog r)); ("schema", SString (rf_Schema r)); ("method", SString (rf_Method r));
    ("uri", SString (rf_URI r)); ("remote_addr", SString (rf_RemoteAddr r)); ("body", SString (rf_Body r));
    ("is_new", SBool (rf_IsNew r)); ("param_map", SDict (rf_ParamMap r));
    ("query_type", SString (rf_QueryType r)); ("query_category", SString (rf_QueryCategory r));
    ("catalogs", SList (rf_Catalogs r)); ("schemas", SList (rf_Schemas r));
    ("catalog_schemas", SList (rf_CatalogSchemas r)); ("tables", SList (rf_Tables r));
    ("parse_ok", SBool (rf_ParseOK r)) ].

(** A script and an expression are given the same fields under the same names. *)
Theorem languages_see_same_request i : expr_fields (buildEnv i) = buildReqValue i.
Proof. reflexivity. Qed.

(** ** Reloading one provider, against the interface *)
Section reload_one.
Context {W St : Type} `{KeepLastGood W St}.

Fixpoint load_seq (raws : list string) (st : St) (w : W) : list (go_result unit) * St :=
  match raws with
  | [] => ([], st)
  | raw :: raws =>
      let '((r, st1), w1) := rm_LoadConfig raw st w in
      let '(rs, st') := load_seq raws st1 w1 in (r :: rs, st')
  end.

(** After any sequence of loads the provider evaluates the last configuration that
    loaded, or what it had before when none did. *)
Lemma load_seq_last_good raws st w :
  let '(rs, st') := load_seq raws st w in
  (Forall (λ r, is_Ok r = false) rs ∧ st' = st)
  ∨ ∃ pre raw st0 w0 w1 post,
      rs = pre ++ Ok tt :: post ∧ raws !! length pre = Some raw
      ∧ rm_LoadConfig raw st0 w0 = ((Ok tt, st'), w1) ∧ Forall (λ r, is_Ok r = false) post.
Proof.
  revert st w. induction raws as [|raw raws IH]; intros st w; cbn [load_seq]; [by left|].
  destruct (rm_LoadConfig raw st w) as [[r st1] w1] eqn:E. specialize (IH st1 w1).
  destruct (load_seq raws st1 w1) as [rs st'].
  destruct IH as [[Hf ->]|(pre & raw' & st0 & w0 & w2 & post & -> & Hl & Hr & Hp)].
  - destruct r as [[]|e].
    + right. by exists [], raw, st, w, w1, rs.
    + left. split; [by constructor|]. by eapply keep_last_good.
  - right. by exists (r :: pre), raw', st0, w0, w2, post.
Qed.
End reload_one.
