(* ===== verification/Reload.v ===== *)
(** * Hot reload (routing-service/internal/reload/watcher.go)

    [reload] validates and builds a whole configuration before it swaps the pipeline;
    [loop] is the watcher goroutine as a step relation with its debounce timer. The
    file is read through a world [W], which may change between two reads: [reload]
    hashes the bytes of its own read and loads the configuration with a second one. *)
From S2P Require Import Prelude GoStrings GoNumeric Codec SqlMeta Engine RsConfig Providers.

#[local] Open Scope Z_scope.

Definition debounceInterval : Z := 100 * Millisecond.

(** [hashBytes]: the first four bytes of the SHA-256, in hexadecimal. *)
Definition hashBytes (data : string) : string := hex_encode (str_take 4 (sha256 data)).

(** What the watcher tells the outside: the audit record, and its two sinks. *)
Inductive notice : Type :=
| Audit (result oldHash newHash summary errMsg : string)
| ReloadSink (ok : bool)
| VersionSink (hash : string).

Record ConfigWatcher : Type := mkWatcher {
  pipeline : Pipeline;
  reloadSuccessTotal : Z; reloadErrorTotal : Z; reloadCount : Z;
  lastHash : option string;
  notices : list notice }.

Definition New (p : Pipeline) : ConfigWatcher := mkWatcher p 0 0 0 None [].
Definition oldHash (s : ConfigWatcher) : string := from_opt "" (lastHash s).

Section reload.
Context {W : Type} (ReadFile : string → ST W (go_result string)).
Context (yaml_unmarshal : string → Config → go_result Config).
Context (registry : Registry W) (configPath : string).
(** Which of the optional sinks are wired. *)
Context (reloadSink versionSink : bool).

Definition sink (b : bool) (n : notice) : list notice := if b then [n] else [].

Definition fail (old new errMsg : string) (s : ConfigWatcher) : ConfigWatcher :=
  mkWatcher (pipeline s) (reloadSuccessTotal s) (wrap64 (reloadErrorTotal s + 1)) (reloadCount s) (lastHash s)
    (notices s ++ [Audit "error" old new "" errMsg] ++ sink reloadSink (ReloadSink false)).

(** The loop that builds every method, up to the first failure. *)
Fixpoint build_all (mcs : list MethodConfig) : ST W (go_result (list method)) :=
  match mcs with
  | [] => mret (Ok [])
  | mc :: mcs =>
      m ← Build registry mc;
      match m with
      | Err e => mret (Err ("method " +:+ mc_Type mc +:+ " build failed: " +:+ e))
      | Ok m => ms ← build_all mcs; mret (cons m <$> ms)
      end
  end.

Definition apply (old new : string) (ms : list method) (s : ConfigWatcher) : ConfigWatcher :=
  mkWatcher (Swap ms (pipeline s)) (wrap64 (reloadSuccessTotal s + 1)) (reloadErrorTotal s) (reloadCount s)
    (Some new)
    (notices s ++ [Audit "ok" old new (z_to_dec (Z.of_nat (length ms)) +:+ " method(s)") ""]
       ++ sink reloadSink (ReloadSink true) ++ sink versionSink (VersionSink new)).

(** The body of [reload], before its deferred count. *)
Definition reload_body (s : ConfigWatcher) : ST W ConfigWatcher :=
  let old := oldHash s in
  data ← ReadFile configPath;
  match data with
  | Err e => mret (fail old "" ("read config: " +:+ e) s)
  | Ok data =>
      let new := hashBytes data in
      cfg ← Load ReadFile yaml_unmarshal configPath;
      match cfg with
      | Err e => mret (fail old new ("config parse failed: " +:+ e) s)
      | Ok cfg =>
          ms ← build_all (Methods cfg);
          match ms with
          | Err e => mret (fail old new e s)
          | Ok ms => mret (apply old new ms s)
          end
      end
  end.

Definition counted (s : ConfigWatcher) : ConfigWatcher :=
  mkWatcher (pipeline s) (reloadSuccessTotal s) (reloadErrorTotal s) (wrap64 (reloadCount s + 1)) (lastHash s)
    (notices s).

Definition reload (s : ConfigWatcher) : ST W ConfigWatcher := s ← reload_body s; mret (counted s).

(** ** The watcher goroutine *)

(** The operations of an [fsnotify] event. *)
Record fs_op : Type := mkOp { op_Create : bool; op_Write : bool; op_Remove : bool; op_Rename : bool; op_Chmod : bool }.
Definition arms (e : fs_op) : bool := op_Write e || op_Create e || op_Rename e.

(** [timer] is [timerC]: [Some] deadline while the debounce timer is armed. *)
Record loop_state : Type := mkLoop {
  watcher : ConfigWatcher; timer : option Z; now : Z; world : W; exited : bool }.

Inductive label : Type :=
| Pass (dt : Z)          (* time goes by *)
| External (w' : W)      (* someone else changes the file system *)
| FsEvent (e : fs_op)
| FsError
| Fire                   (* the timer's channel delivers *)
| Exit.                  (* the context ends or a channel of the watcher closes *)

Inductive lstep : loop_state → label → loop_state → Prop :=
| step_pass s dt : 0 ≤ dt →
    lstep s (Pass dt) (mkLoop (watcher s) (timer s) (now s + dt) (world s) (exited s))
| step_external s w' :
    lstep s (External w') (mkLoop (watcher s) (timer s) (now s) w' (exited s))
| step_event s e : exited s = false →
    lstep s (FsEvent e)
      (mkLoop (watcher s) (if arms e then Some (now s + debounceInterval) else timer s) (now s) (world s) false)
| step_error s : exited s = false → lstep s FsError s
| step_fire s d cw w' : exited s = false → timer s = Some d → d ≤ now s →
    reload (watcher s) (world s) = (cw, w') →
    lstep s Fire (mkLoop cw None (now s) w' false)
| step_exit s : exited s = false →
    lstep s Exit (mkLoop (watcher s) None (now s) (world s) true).

(** An execution, with the instants of its labels, oldest first. *)
Inductive execution (s0 : loop_state) : list (Z * label) → loop_state → Prop :=
| exec_nil : execution s0 [] s0
| exec_snoc tr s l s' : execution s0 tr s → lstep s l s' → execution s0 (tr ++ [(now s, l)]) s'.

Definition start (p : Pipeline) (t : Z) (w : W) : loop_state := mkLoop (New p) None t w false.

(** ** Lemmas *)

(** Every method configuration built, one after the other, each from the world the one before
    it left. *)
Inductive built : list MethodConfig → W → list method → W → Prop :=
| built_nil w : built [] w [] w
| built_cons mc mcs w m w1 ms w2 : Build registry mc w = (Ok m, w1) → built mcs w1 ms w2 → built (mc :: mcs) w (m :: ms) w2.

Lemma build_all_built mcs w ms w' : build_all mcs w = (Ok ms, w') ↔ built mcs w ms w'.
Proof.
  revert w ms w'. induction mcs as [|mc mcs IH]; intros w ms w'; cbn [build_all].
  { split; [intros [= <- <-]; constructor|by inversion 1]. }
  unfold mbind, ST_bind. destruct (Build registry mc w) as [[m|e] w1] eqn:E.
  - destruct (build_all mcs w1) as [[ms'|e] w2] eqn:E2; cbn.
    + apply IH in E2. split; [intros [= <- <-]; by econstructor|]. inversion 1 as [|? ? ? m' w1' ms1 w2' Hb Ht]; subst. rewrite E in Hb.
      injection Hb as <- <-. apply IH in Ht, E2. rewrite E2 in Ht. injection Ht as -> ->. reflexivity.
    + split; [done|]. inversion 1 as [|? ? ? m' w1' ms1 w2' Hb Ht]; subst. rewrite E in Hb. injection Hb as <- <-. apply IH in Ht. by rewrite E2 in Ht.
  - split; [done|]. inversion 1 as [|? ? ? m' w1' ms1 w2' Hb Ht]; subst. by rewrite E in Hb.
Qed.

Lemma build_all_spec mcs w :
  match build_all mcs w with
  | (Ok ms, _) => Forall2 (λ mc m, ∃ w1 w2, Build registry mc w1 = (Ok m, w2)) mcs ms
  | (Err _, _) => ∃ mc w1 w2 e, mc ∈ mcs ∧ Build registry mc w1 = (Err e, w2)
  end.
Proof.
  revert w. induction mcs as [|mc mcs IH]; intros w; [by constructor|].
  cbn [build_all]. unfold mbind, ST_bind. destruct (Build registry mc w) as [[m|e] w1] eqn:E.
  - specialize (IH w1). destruct (build_all mcs w1) as [[ms|e] w2]; cbn.
    + constructor; [by exists w, w1|done].
    + destruct IH as (mc' & ? & ? & ? & ? & ?). exists mc'. repeat eexists; [by right|done].
  - cbn. exists mc, w, w1, e. split; [left|done].
Qed.

Definition failed (s s' : ConfigWatcher) : Prop :=
  pipeline s' = pipeline s ∧ lastHash s' = lastHash s
  ∧ reloadErrorTotal s' = wrap64 (reloadErrorTotal s + 1) ∧ reloadSuccessTotal s' = reloadSuccessTotal s
  ∧ ∃ new msg, notices s' = notices s ++ [Audit "error" (oldHash s) new "" msg]
                              ++ sink reloadSink (ReloadSink false).

Definition applied (s s' : ConfigWatcher) (data : string) (ms : list method) : Prop :=
  pipeline s' = mkPipeline (Some ms) (defaultGroup (pipeline s)) true
  ∧ lastHash s' = Some (hashBytes data)
  ∧ reloadSuccessTotal s' = wrap64 (reloadSuccessTotal s + 1) ∧ reloadErrorTotal s' = reloadErrorTotal s.

Lemma reload_cases s w :
  let s' := fst (reload s w) in
  reloadCount s' = wrap64 (reloadCount s + 1)
  ∧ (failed s s'
     ∨ ∃ data w1 cfg w2 ms w3,
         ReadFile configPath w = (Ok data, w1) ∧ Load ReadFile yaml_unmarshal configPath w1 = (Ok cfg, w2)
         ∧ build_all (Methods cfg) w2 = (Ok ms, w3) ∧ applied s s' data ms).
Proof.
  cbv zeta. unfold reload, reload_body, mbind, ST_bind.
  destruct (ReadFile configPath w) as [[data|e] w1] eqn:E1.
  2: { cbn. split; [done|]. left. split_and!; try done. by eexists _, _. }
  destruct (Load ReadFile yaml_unmarshal configPath w1) as [[cfg|e] w2] eqn:E2.
  2: { cbn. split; [done|]. left. split_and!; try done. by eexists _, _. }
  destruct (build_all (Methods cfg) w2) as [[ms|e] w3] eqn:E3; cbn; (split; [done|]).
  - right. by exists data, w1, cfg, w2, ms, w3.
  - left. split_and!; try done. by eexists _, _.
Qed.
End reload.

Section properties.
Context {W : Type} (ReadFile : string → ST W (go_result string)).
Context (yaml_unmarshal : string → Config → go_result Config).
Context (registry : Registry W) (configPath : string) (reloadSink versionSink : bool).
#[local] Abbreviation go_reload := (reload ReadFile yaml_unmarshal registry configPath reloadSink versionSink).
#[local] Abbreviation exec := (execution ReadFile yaml_unmarshal registry configPath reloadSink versionSink).

(** The configuration that can be loaded from the file in [w], built completely; [data] are
    the bytes hashed. *)
Definition on_file (w : W) (data : string) (cfg : Config) (ms : list method) (w' : W) : Prop :=
  ∃ w1 w2, ReadFile configPath w = (Ok data, w1) ∧ Load ReadFile yaml_unmarshal configPath w1 = (Ok cfg, w2)
    ∧ built registry (Methods cfg) w2 ms w'.
(** Methods of a configuration the file has had. *)
Definition built_from (ms : list method) : Prop := ∃ w data cfg w', on_file w data cfg ms w' ∧ rs_config_ok cfg.

Lemma reload_exact s w :
  let s' := fst (go_reload s w) in
  (∃ data cfg ms w', on_file w data cfg ms w' ∧ applied s s' data ms)
  ∨ (failed reloadSink s s' ∧ ∀ data cfg ms w', ¬ on_file w data cfg ms w').
Proof.
  cbv zeta. unfold reload, reload_body, on_file, mbind, ST_bind.
  destruct (ReadFile configPath w) as [[data|e] w1] eqn:E1.
  2: { right. split; [split_and!; try done; by eexists _, _|]. by intros data cfg ms w' (? & ? & [=] & _). }
  destruct (Load ReadFile yaml_unmarshal configPath w1) as [[cfg|e] w2] eqn:E2.
  2: { right. split; [split_and!; try done; by eexists _, _|]. intros data' cfg ms w' (? & ? & [= <- <-] & Hl & _). by rewrite E2 in Hl. }
  destruct (build_all registry (Methods cfg) w2) as [[ms|e] w3] eqn:E3.
  - left. exists data, cfg, ms, w3. split; [|done]. exists w1, w2. split_and!; [done..|]. by apply build_all_built.
  - right. split; [split_and!; try done; by eexists _, _|]. intros data' cfg' ms w' (w1' & w2' & [= <- <-] & Hl & Hb).
    rewrite E2 in Hl. injection Hl as <- <-. apply build_all_built in Hb. by rewrite E3 in Hb.
Qed.

Lemma reload_outcome s w :
  let s' := fst (go_reload s w) in
  failed reloadSink s s' ∨ ∃ ms data, built_from ms ∧ applied s s' data ms.
Proof.
  cbv zeta. destruct (reload_exact s w) as [(data & cfg & ms & w' & Hf & Ha)|[Hf _]]; [right|by left].
  exists ms, data. split; [|done]. exists w, data, cfg, w'. split; [done|]. destruct Hf as (w1 & w2 & _ & Hl & _). by eapply load_validated.
Qed.

(** ** Executions of the loop *)
Definition is_fire (x : Z * @label W) : bool := match snd x with Fire => true | _ => false end.
Definition is_arm (x : Z * @label W) : bool := match snd x with FsEvent e => arms e | _ => false end.
Definition calm (x : Z * @label W) : Prop := is_fire x = false ∧ is_arm x = false.

(** The timer is armed for the latest relevant event, and nothing fired since. *)
Definition armed_by (tr : list (Z * @label W)) (d : Z) : Prop :=
  ∃ tr0 u e mid, tr = tr0 ++ (u, FsEvent e) :: mid ∧ arms e = true ∧ d = u + debounceInterval ∧ Forall calm mid.

Lemma armed_by_snoc tr d x : armed_by tr d → calm x → armed_by (tr ++ [x]) d.
Proof.
  intros (tr0 & u & e & mid & -> & He & -> & Hm) Hx. exists tr0, u, e, (mid ++ [x]).
  rewrite <- app_assoc. split_and!; try done. apply Forall_app. by split; [|constructor].
Qed.

Lemma timer_armed p t w tr s : exec (start p t w) tr s → ∀ d, timer s = Some d → armed_by tr d.
Proof.
  induction 1 as [|tr s l s' He IH Hs]; [done|]. intros d Hd. destruct Hs; cbn in Hd; simplify_eq.
  - by apply armed_by_snoc; [apply IH|].
  - by apply armed_by_snoc; [apply IH|].
  - destruct (arms e) eqn:Ha.
    + simplify_eq. by exists tr, (now s), e, [].
    + apply armed_by_snoc; [by apply IH|]. by split.
  - by apply armed_by_snoc; [apply IH|].
Qed.

Lemma fire_after_quiet p t0 w tr s :
  exec (start p t0 w) tr s → ∀ tr1 t tr2, tr = tr1 ++ (t, Fire) :: tr2 →
  ∃ d, armed_by tr1 d ∧ d ≤ t.
Proof.
  induction 1 as [|tr s l s' He IH Hs]; intros tr1 t tr2 Htr.
  { symmetry in Htr. by apply app_nil in Htr as [_ ?]. }
  destruct tr2 as [|x tr2 _] using rev_ind.
  - apply app_inj_tail in Htr as [<- [= <- ->]]. inversion Hs; subst.
    eexists. split; [by eapply timer_armed|done].
  - rewrite app_comm_cons, app_assoc in Htr. apply app_inj_tail in Htr as [-> _]. by eapply IH.
Qed.

Lemma exec_counts p t w tr s :
  exec (start p t w) tr s →
  reloadCount (watcher s) = wrap64 (Z.of_nat (length (List.filter is_fire tr)))
  ∧ reloadCount (watcher s) = wrap64 (reloadSuccessTotal (watcher s) + reloadErrorTotal (watcher s))
  ∧ (pipeline (watcher s) = p
     ∨ ∃ ms, built_from ms ∧ pipeline (watcher s) = mkPipeline (Some ms) (defaultGroup p) true).
Proof.
  induction 1 as [|tr s l s' He (IHc & IHs & IHp) Hs]; [by split_and!; [..|left]|].
  rewrite List.filter_app, length_app.
  assert (Hsame : watcher s' = watcher s → is_fire (now s, l) = false →
    reloadCount (watcher s') = wrap64 (Z.of_nat (length (List.filter is_fire tr)
       + length (List.filter is_fire [(now s, l)])))
    ∧ reloadCount (watcher s') = wrap64 (reloadSuccessTotal (watcher s') + reloadErrorTotal (watcher s'))
    ∧ (pipeline (watcher s') = p
       ∨ ∃ ms, built_from ms ∧ pipeline (watcher s') = mkPipeline (Some ms) (defaultGroup p) true)).
  { intros -> Hf. cbn [List.filter]. rewrite Hf, Nat.add_0_r. by split_and!. }
  destruct Hs as [| | | |s d cw w' Hx Ht Hd Hr|]; try by apply Hsame.
  clear Hsame. cbn [watcher List.filter is_fire snd length].
  pose proof (reload_cases ReadFile yaml_unmarshal registry configPath reloadSink versionSink (watcher s) (world s))
    as [Hc Ho].
  pose proof (reload_outcome (watcher s) (world s)) as Hp. rewrite Hr in Hc, Ho, Hp. cbn [fst] in *.
  split_and!.
  - rewrite Hc, IHc, wrap64_add_l. f_equal. lia.
  - rewrite Hc, IHs, wrap64_add_l.
    destruct Hp as [(_ & _ & -> & -> & _)|(ms & data & _ & _ & _ & -> & ->)];
      rewrite ?wrap64_add_l, ?wrap64_add_r; f_equal; lia.
  - destruct Hp as [(-> & _)|(ms & data & Hb & -> & _)]; [done|]. right. exists ms. split; [done|].
    destruct IHp as [->|(ms' & _ & ->)]; done.
Qed.
End properties.

(** ** Theorems *)

(** C15: A reload is all or nothing, and the file decides which: if the configuration loaded
    from the file is valid and each of its methods builds in turn, the pipeline becomes
    exactly those methods, in their order, under the default group of start-up, with the
    hash of the bytes read; otherwise the live pipeline, the applied hash and the success
    count stay as they were and one error is recorded. *)
Theorem reload_all_or_nothing {W} (ReadFile : string → ST W (go_result string)) yaml_unmarshal
    (registry : Registry W) configPath rs vs s w :
  let s' := fst (reload ReadFile yaml_unmarshal registry configPath rs vs s w) in
  let complete := on_file ReadFile yaml_unmarshal registry configPath w in
  reloadCount s' = wrap64 (reloadCount s + 1)
  ∧ ((∃ data cfg ms w', complete data cfg ms w' ∧ applied s s' data ms)
     ∨ (failed rs s s' ∧ ∀ data cfg ms w', ¬ complete data cfg ms w')).
Proof. cbv zeta. split; [by apply reload_cases|apply reload_exact]. Qed.

(** C30: Debouncing: whenever the watcher reloads, the latest relevant event came at least
    the debounce interval earlier and no reload has happened since it, so a burst of
    writes ends in one reload; and an armed timer whose deadline has passed does lead
    to a reload. *)
Theorem debounce_quiet_period {W} ReadFile yaml_unmarshal (registry : Registry W) configPath rs vs p t0 w tr s :
  execution ReadFile yaml_unmarshal registry configPath rs vs (start p t0 w) tr s →
  (∀ tr1 t tr2, tr = tr1 ++ (t, Fire) :: tr2 →
     ∃ tr0 u e mid, tr1 = tr0 ++ (u, FsEvent e) :: mid ∧ arms e = true ∧ u + debounceInterval ≤ t
                  ∧ Forall calm mid)
  ∧ (∀ d, timer s = Some d → exited s = false → d ≤ now s →
     ∃ s', lstep ReadFile yaml_unmarshal registry configPath rs vs s Fire s' ∧ timer s' = None
         ∧ reloadCount (watcher s') = wrap64 (reloadCount (watcher s) + 1)).
Proof.
  intros He. split.
  - intros tr1 t tr2 ->. pose proof (fire_after_quiet _ _ _ _ _ _ _ _ _ _ _ He _ _ _ eq_refl)
      as (d & (tr0 & u & e & mid & -> & Ha & -> & Hm) & Hd). by exists tr0, u, e, mid.
  - intros d Ht Hx Hd.
    destruct (reload ReadFile yaml_unmarshal registry configPath rs vs (watcher s) (world s)) as [cw w'] eqn:Hr.
    eexists. split; [by eapply step_fire|]. split; [done|]. cbn [watcher].
    pose proof (reload_cases ReadFile yaml_unmarshal registry configPath rs vs (watcher s) (world s)) as [Hc _].
    by rewrite Hr in Hc.
Qed.

(** Whatever the watcher sees, the live pipeline is the initial one or was built in
    full from a validated configuration, and the counters account for every reload. *)
Theorem live_pipeline_validated {W} ReadFile yaml_unmarshal (registry : Registry W) configPath rs vs p t0 w tr s :
  execution ReadFile yaml_unmarshal registry configPath rs vs (start p t0 w) tr s →
  (pipeline (watcher s) = p
   ∨ ∃ ms, built_from ReadFile yaml_unmarshal registry configPath ms ∧ pipeline (watcher s) = mkPipeline (Some ms) (defaultGroup p) true)
  ∧ reloadCount (watcher s) = wrap64 (Z.of_nat (length (List.filter is_fire tr)))
  ∧ reloadCount (watcher s) = wrap64 (reloadSuccessTotal (watcher s) + reloadErrorTotal (watcher s)).
Proof. intros He. by destruct (exec_counts _ _ _ _ _ _ _ _ _ _ _ He) as (? & ? & ?). Qed.

(** ** Witnesses: two writes 60ms apart, a reload 100ms after the second *)
Definition w_write : fs_op := mkOp false true false false false.
Definition w_yaml (data : string) (c : Config) : go_result Config :=
  Ok (mkConfig (Addr c) (MetricsAddr c) (AdminAddr c) "" "adhoc" [w_user_method] (SQLParsing c)).
Definition w_p0 : Pipeline := NewPipeline [] "adhoc".
Definition w_trace : list (Z * @label unit) :=
  [(0, FsEvent w_write); (0, Pass (60 * Millisecond)); (60 * Millisecond, FsEvent w_write);
   (60 * Millisecond, Pass (100 * Millisecond)); (160 * Millisecond, Fire)].
Definition w_reloaded : ConfigWatcher :=
  fst (reload w_fs w_yaml w_registry "rs.yaml" true true (New w_p0) tt).
Definition w_end : loop_state := mkLoop w_reloaded None (160 * Millisecond) tt false.

Lemma w_execution : execution w_fs w_yaml w_registry "rs.yaml" true true (start w_p0 0 tt) w_trace w_end.
Proof.
  change w_trace with (((((([] ++ [(0, FsEvent w_write)]) ++ [(0, Pass (60 * Millisecond))])
    ++ [(60 * Millisecond, FsEvent w_write)]) ++ [(60 * Millisecond, Pass (100 * Millisecond))])
    ++ [(160 * Millisecond, @Fire unit)])).
  set (st d t := mkLoop (New w_p0) d t tt false).
  apply (exec_snoc _ _ _ _ _ _ _ _ (st (Some (160 * Millisecond)) (160 * Millisecond))).
  2: { eapply step_fire; [done|done|done|reflexivity]. }
  apply (exec_snoc _ _ _ _ _ _ _ _ (st (Some (160 * Millisecond)) (60 * Millisecond))).
  2: { by refine (step_pass _ _ _ _ _ _ (st (Some (160 * Millisecond)) (60 * Millisecond)) (100 * Millisecond) _). }
  apply (exec_snoc _ _ _ _ _ _ _ _ (st (Some (100 * Millisecond)) (60 * Millisecond))).
  2: { exact (step_event _ _ _ _ _ _ (st (Some (100 * Millisecond)) (60 * Millisecond)) w_write eq_refl). }
  apply (exec_snoc _ _ _ _ _ _ _ _ (st (Some (100 * Millisecond)) 0)).
  2: { by refine (step_pass _ _ _ _ _ _ (st (Some (100 * Millisecond)) 0) (60 * Millisecond) _). }
  apply (exec_snoc _ _ _ _ _ _ _ _ (start w_p0 0 tt)); [constructor|].
  exact (step_event _ _ _ _ _ _ (start w_p0 0 tt) w_write eq_refl).
Qed.

Lemma debounce_quiet_period_witness :
  ∃ tr0 u e mid, take 4 w_trace = tr0 ++ (u, FsEvent e) :: mid ∧ arms e = true
    ∧ u + debounceInterval ≤ 160 * Millisecond ∧ Forall calm mid.
Proof.
  destruct (debounce_quiet_period _ _ _ _ _ _ _ _ _ _ _ w_execution) as [H _].
  exact (H (take 4 w_trace) (160 * Millisecond) [] eq_refl).
Defined.

Lemma live_pipeline_validated_witness :
  (pipeline w_reloaded = w_p0
   ∨ ∃ ms, built_from w_fs w_yaml w_registry "rs.yaml" ms ∧ pipeline w_reloaded = mkPipeline (Some ms) "adhoc" true)
  ∧ reloadCount w_reloaded = 1 ∧ reloadSuccessTotal w_reloaded = 1.
Proof.
  destruct (live_pipeline_validated _ _ _ _ _ _ _ _ _ _ _ w_execution) as (H1 & H2 & _).
  split; [exact H1|]. split; [exact H2|vm_compute; reflexivity].
Defined.
