(* ===== verification/RsServer.v ===== *)
(** * The routing service (routing-service/internal/server, internal/logging,
      internal/metrics, cmd/routing-service/main.go)

    The data-plane [Route], the admin kill switch, decision logs, Prometheus
    collectors, and the start-up and reload wiring of [main]. The gRPC transport is not
    modelled: a handler is a function of the service state. Counters are numbers of
    increments; gauges hold the value last set. *)
From S2P Require Import Prelude GoStrings GoNumeric Codec RouterPb SqlMeta Engine RsConfig Providers Reload.

#[local] Open Scope Z_scope.

(** ** Decision logs (logging/decision.go) *)
Record DecisionFields : Type := mkDecisionFields {
  RuleID : string; df_Source : string; df_User : string; df_Body : string; df_RoutingGroup : string;
  Latency : Z; ConfigVersionHash : string; Fallback : bool;
  df_QueryType : string; df_QueryCategory : string; SQLParseOK : bool;
  df_CatalogCount : nat; df_SchemaCount : nat; df_TableCount : nat }.

Definition BodyHash (body : string) : string :=
  if body =?s "" then "" else str_take 8 (hex_encode (sha256 body)).

(** One record of the log, its attributes in order. *)
Inductive attr : Type :=
| AString (k v : string)
| AInt (k : string) (v : Z)
| ABool (k : string) (v : bool).

Definition decision_attrs (f : DecisionFields) : list attr :=
  [ AString "rule_id" (RuleID f); AString "source" (df_Source f); AString "user" (df_User f);
    AString "body_sha256" (BodyHash (df_Body f)); AString "routing_group" (df_RoutingGroup f);
    AInt "latency_ms" (Z.quot (Latency f) Millisecond);
    AString "config_version_hash" (ConfigVersionHash f); ABool "fallback" (Fallback f);
    AString "query_type" (df_QueryType f); AString "query_category" (df_QueryCategory f);
    ABool "sql_parse_ok" (SQLParseOK f); AInt "catalog_count" (Z.of_nat (df_CatalogCount f));
    AInt "schema_count" (Z.of_nat (df_SchemaCount f)); AInt "table_count" (Z.of_nat (df_TableCount f)) ].

(** [ShouldLog]; [sampled] is what the sampler answers. *)
Definition ShouldLog (sampled isFallback : bool) : bool := if isFallback then true else sampled.
Definition Log (sampled : bool) (f : DecisionFields) (logs : list (list attr)) : list (list attr) :=
  if ShouldLog sampled (Fallback f) then logs ++ [decision_attrs f] else logs.

(** ** Collectors (metrics/metrics.go) *)
Record Metrics : Type := mkMetrics {
  requests : gmap (string * string * string * string) N; fallback : N; decisionDur : gmap string N;
  reloadTotal : gmap string N; configVersion : gmap string N; methodDisabled : gmap string N;
  sqlParseTotal : gmap string N; sqlParseDuration : N; sqlParseTruncated : N }.
Definition metrics_New : Metrics := mkMetrics ∅ 0 ∅ ∅ ∅ ∅ ∅ 0 0.

Definition value_of `{Countable K} (k : K) (m : gmap K N) : N := from_opt 0%N (m !! k).
Definition inc `{Countable K} (k : K) (m : gmap K N) : gmap K N := <[k := (value_of k m + 1)%N]> m.

Definition OutcomeDecided : string := "decided".
Definition OutcomeFallback : string := "fallback".
Definition OutcomeError : string := "error".

Definition RecordSQLParse (result : string) (truncated : bool) (m : Metrics) : Metrics :=
  mkMetrics (requests m) (fallback m) (decisionDur m) (reloadTotal m) (configVersion m) (methodDisabled m)
    (inc result (sqlParseTotal m)) (sqlParseDuration m + 1)
    (if truncated then sqlParseTruncated m + 1 else sqlParseTruncated m)%N.

Definition RecordDecision (source routingGroup methodType outcome : string) (m : Metrics) : Metrics :=
  mkMetrics (inc (source, routingGroup, methodType, outcome) (requests m))
    (if outcome =?s OutcomeFallback then fallback m + 1 else fallback m)%N
    (inc (if methodType =?s "" then "default" else methodType) (decisionDur m))
    (reloadTotal m) (configVersion m) (methodDisabled m) (sqlParseTotal m) (sqlParseDuration m)
    (sqlParseTruncated m).

Definition RecordReload (result : string) (m : Metrics) : Metrics :=
  mkMetrics (requests m) (fallback m) (decisionDur m) (inc result (reloadTotal m)) (configVersion m)
    (methodDisabled m) (sqlParseTotal m) (sqlParseDuration m) (sqlParseTruncated m).

Definition m_SetConfigVersion (hash : string) (m : Metrics) : Metrics :=
  mkMetrics (requests m) (fallback m) (decisionDur m) (reloadTotal m) {[hash := 1%N]} (methodDisabled m)
    (sqlParseTotal m) (sqlParseDuration m) (sqlParseTruncated m).

Definition with_gauge (g : gmap string N) (m : Metrics) : Metrics :=
  mkMetrics (requests m) (fallback m) (decisionDur m) (reloadTotal m) (configVersion m) g
    (sqlParseTotal m) (sqlParseDuration m) (sqlParseTruncated m).
Definition SetMethodDisabled (methodType : string) (disabled : bool) (m : Metrics) : Metrics :=
  with_gauge (<[methodType := (if disabled then 1 else 0)%N]> (methodDisabled m)) m.
Definition SyncDisabled (allTypes disabled : list string) (m : Metrics) : Metrics :=
  let dset : gset string := list_to_set disabled in
  fold_left (λ m t, SetMethodDisabled t (bool_decide (t ∈ dset)) m) allTypes m.

(** ** The service *)

(** [Server], the pipeline it shares with the watcher (in [sv_watcher]), and the health
    status of the service [""]. *)
Record service : Type := mkService {
  sv_watcher : ConfigWatcher; sv_metrics : option Metrics; confVer : option string;
  serving : bool; sv_logs : list (list attr) }.

Definition sv_pipeline (s : service) : Pipeline := pipeline (sv_watcher s).
Definition set_pipeline (p : Pipeline) (cw : ConfigWatcher) : ConfigWatcher :=
  mkWatcher p (reloadSuccessTotal cw) (reloadErrorTotal cw) (reloadCount cw) (lastHash cw) (notices cw).

Definition SetReady (ready : bool) (s : service) : service :=
  mkService (sv_watcher s) (sv_metrics s) (confVer s) ready (sv_logs s).
Definition SetConfigVersion (hash : string) (s : service) : service :=
  mkService (sv_watcher s) (m_SetConfigVersion hash <$> sv_metrics s) (Some hash) (serving s) (sv_logs s).
Definition configVersion_ (s : service) : string := from_opt "" (confVer s).

Definition classifyOutcome (r : EvalResult) : string :=
  if er_Decided r then OutcomeDecided else if HadError r then OutcomeError else OutcomeFallback.

Section service.
Context (ToLower ToUpper : string → string) (a : analyzer) (cfg : Config).
(** Whether [WithSQLObserver] is wired. *)
Context (observed : bool).

(** [Route]; [lat] is the decision's wall time and [sampled] the sampler's answer. *)
Definition Route (lat : Z) (sampled : bool) (req : RouteRequest) (s : service) : RouteResponse * service :=
  let skip := match pb_Props req with None => true | Some qp => negb (qp_IsNewQuerySubmission qp) end in
  if skip then (mkRouteResponse "" [] ∅, s) else
  let '(i, obs) := inputFromProto ToLower ToUpper a (Some req) in
  let r := PE_EvaluateResult ToLower ToUpper a (sv_pipeline s) (Some req) in
  let group := if er_RoutingGroup r =?s "" then DefaultRoutingGroup cfg else er_RoutingGroup r in
  let source := pb_TrinoSource req in
  let outcome := classifyOutcome r in
  let m1 := match obs with
            | Some (result, truncated) =>
                if observed then RecordSQLParse result truncated <$> sv_metrics s else sv_metrics s
            | None => sv_metrics s
            end in
  let m2 := RecordDecision source group (MethodType r) outcome <$> m1 in
  let f := mkDecisionFields (MethodType r) source (from_opt "" (pb_User req))
             (from_opt "" (qp_Body <$> pb_Props req)) group lat (configVersion_ s) (negb (er_Decided r))
             (ss_QueryType (SQL r)) (ss_QueryCategory (SQL r)) (ss_ParseOK (SQL r))
             (CatalogCount (SQL r)) (SchemaCount (SQL r)) (TableCount (SQL r)) in
  (mkRouteResponse group [] ∅,
   mkService (sv_watcher s) m2 (confVer s) (serving s) (Log sampled f (sv_logs s))).

(** ** The admin service (server/admin.go) *)
Definition contains_type (xs : list string) (t : string) : bool := existsb (λ x, x =?s t) xs.

(** [notify], with the hook [main] installs: the gauge for the types of the start-up
    configuration. *)
Definition notify (allTypes disabled : list string) (s : service) : service :=
  mkService (sv_watcher s) (SyncDisabled allTypes disabled <$> sv_metrics s) (confVer s) (serving s) (sv_logs s).

Definition update_pipeline (f : Pipeline → Pipeline) (s : service) : service :=
  mkService (set_pipeline (f (sv_pipeline s)) (sv_watcher s)) (sv_metrics s) (confVer s) (serving s) (sv_logs s).

(** The response is [Ok: true], a message and the disabled set. *)
Definition admin_response : Type := bool * string * list string.

Definition admin_DisableMethod (allTypes : list string) (t : string) (s : service) : admin_response * service :=
  let before := contains_type (DisabledMethods (sv_pipeline s)) t in
  let s := update_pipeline (DisableMethod t) s in
  let disabled := DisabledMethods (sv_pipeline s) in
  let msg := if before then "already disabled"
             else if negb (contains_type disabled t) then "unknown method type" else "disabled" in
  ((true, msg, disabled), notify allTypes disabled s).

Definition admin_EnableMethod (allTypes : list string) (t : string) (s : service) : admin_response * service :=
  let wasDisabled := contains_type (DisabledMethods (sv_pipeline s)) t in
  let s := update_pipeline (EnableMethod t) s in
  let disabled := DisabledMethods (sv_pipeline s) in
  ((true, if wasDisabled then "enabled" else "not disabled", disabled), notify allTypes disabled s).

Definition ListDisabled (s : service) : list string := DisabledMethods (sv_pipeline s).
End service.

(** [panicRecoveryInterceptor]: a handler that panics answers INTERNAL and leaves the
    state it reached. *)
Inductive handled (A : Type) : Type := Answered (a : A) | Internal.
Arguments Answered {A} a.
Arguments Internal {A}.
Definition panicRecoveryInterceptor {A S} (handler : S → option A * S) (s : S) : handled A * S :=
  match handler s with (Some a, s') => (Answered a, s') | (None, s') => (Internal, s') end.

(** What [StartOnListener] returns: the context ends first, or [Serve] returns. [Serve]
    returns nil after a [Stop], and then the closed channel delivers nil. *)
Inductive serve_end : Type := CtxDone | ServeReturned (err : option string).
Definition StartOnListener (e : serve_end) : go_result unit :=
  match e with
  | CtxDone => Ok tt
  | ServeReturned (Some err) => Err ("server: serve: " +:+ err)
  | ServeReturned None => Err "server: serve: %!w(<nil>)"
  end.

(** ** Start-up and reload (cmd/routing-service/main.go) *)
Section main.
Context {W : Type} (ReadFile : string → ST W (go_result string)).
Context (yaml_unmarshal : string → Config → go_result Config) (registry : Registry W).

Definition configHash (path : string) : ST W string :=
  r ← ReadFile path;
  mret match r with Ok data => hashBytes data | Err _ => "unknown" end.

(** [main] up to serving; an error is [os.Exit(1)]. Connecting the tracer and starting the
    watch on the configuration file are parameters, which can fail. *)
Context (tracing_init : Config → ST W (go_result unit)) (watcher_start : string → ST W (go_result unit)).
Definition boot (path : string) : ST W (go_result (Config * service)) :=
  cfg ← Load ReadFile yaml_unmarshal path;
  match cfg with
  | Err e => mret (Err e)
  | Ok cfg =>
      ms ← build_all registry (Methods cfg);
      match ms with
      | Err e => mret (Err e)
      | Ok ms =>
          let p := NewPipeline ms (DefaultRoutingGroup cfg) in
          tp ← tracing_init cfg;
          match tp with
          | Err e => mret (Err e)
          | Ok _ =>
              h ← configHash path;
              let s := mkService (New p) (Some metrics_New) None false [] in
              started ← watcher_start path;
              match started with
              | Err e => mret (Err e)
              | Ok _ => mret (Ok (cfg, SetReady (Ready p) (SetConfigVersion h s)))
              end
          end
      end
  end.

(** The sinks [main] installs. *)
Definition on_notice (s : service) (n : notice) : service :=
  match n with
  | ReloadSink ok =>
      mkService (sv_watcher s) (RecordReload (if ok then "ok" else "error") <$> sv_metrics s) (confVer s)
        (serving s) (sv_logs s)
  | VersionSink hash => SetConfigVersion hash s
  | Audit _ _ _ _ _ => s
  end.

Definition service_reload (path : string) (s : service) : ST W service :=
  cw ← reload ReadFile yaml_unmarshal registry path true true (sv_watcher s);
  let fresh := drop (length (notices (sv_watcher s))) (notices cw) in
  mret (fold_left on_notice fresh (mkService cw (sv_metrics s) (confVer s) (serving s) (sv_logs s))).
End main.

(** The evaluator [main] configures, and whether its observer is wired. *)
Definition main_analyzer (cfg : Config) : analyzer :=
  if sp_Enabled (SQLParsing cfg) then AHeuristic (NewHeuristic (MaxBodyBytes (SQLParsing cfg))) else ANoop.

(** ** Sums over a counter vector *)
Definition total `{Countable K} (P : K → bool) (m : gmap K N) : N :=
  map_fold (λ k v acc, if P k then (v + acc)%N else acc) 0%N m.

Lemma total_insert `{Countable K} (P : K → bool) k v (m : gmap K N) :
  m !! k = None → total P (<[k := v]> m) = ((if P k then v else 0) + total P m)%N.
Proof.
  intros Hk. unfold total. rewrite map_fold_insert_L; [by destruct (P k)| |done].
  intros j1 j2 z1 z2 y _ _ _. destruct (P j1), (P j2); lia.
Qed.

Lemma total_inc `{Countable K} (P : K → bool) k (m : gmap K N) :
  total P (inc k m) = ((if P k then 1 else 0) + total P m)%N.
Proof.
  unfold inc, value_of. rewrite <- insert_delete_eq, total_insert by apply lookup_delete_eq.
  destruct (m !! k) as [v|] eqn:E; cbn [from_opt].
  - rewrite <- (insert_delete_id m k v E) at 2. rewrite total_insert by apply lookup_delete_eq.
    destruct (P k); lia.
  - rewrite delete_id by done. destruct (P k); lia.
Qed.

Lemma evaluate_result_group p i : er_RoutingGroup (EvaluateResult p i) = Evaluate p i.
Proof.
  pose proof (loops_spec (defaultGroup p) (load p) i false) as Hl. unfold EvaluateResult, Evaluate.
  destruct (first_verdict i (load p)) as [[m d]|]; [by destruct Hl as (-> & (-> & _) & _)|].
  by destruct Hl as (-> & -> & _).
Qed.

Lemma evaluate_nonempty p i : defaultGroup p ≠ "" → Evaluate p i ≠ "".
Proof.
  intros Hd. pose proof (loops_spec (defaultGroup p) (load p) i false) as Hl. unfold Evaluate.
  destruct (first_verdict i (load p)) as [[m d]|]; destruct Hl as [-> _]; [|done].
  unfold effective. case_bools; done.
Qed.

(** ** Metrics stay consistent *)
Definition is_outcome (o : string) (k : string * string * string * string) : bool := snd k =?s o.
Record metrics_ok (m : Metrics) : Prop := {
  mo_fallback : fallback m = total (is_outcome OutcomeFallback) (requests m);
  mo_duration : total (λ _, true) (decisionDur m) = total (λ _, true) (requests m);
  mo_parse : sqlParseDuration m = total (λ _, true) (sqlParseTotal m);
  mo_truncated : (sqlParseTruncated m ≤ sqlParseDuration m)%N }.

Lemma metrics_New_ok : metrics_ok metrics_New.
Proof. by split. Qed.

Lemma RecordDecision_ok s g t o m : metrics_ok m → metrics_ok (RecordDecision s g t o m).
Proof.
  intros []. unfold RecordDecision. split; cbn; rewrite ?total_inc; try done; [|congruence].
  unfold is_outcome. cbn [snd]. rewrite mo_fallback0. destruct (o =?s OutcomeFallback); unfold is_outcome; lia.
Qed.

Lemma RecordSQLParse_ok r t m : metrics_ok m → metrics_ok (RecordSQLParse r t m).
Proof.
  intros []. unfold RecordSQLParse. split; cbn; rewrite ?total_inc; try done; [lia|]. destruct t; lia.
Qed.

Lemma SyncDisabled_frame all dis m :
  let m' := SyncDisabled all dis m in
  requests m' = requests m ∧ fallback m' = fallback m ∧ decisionDur m' = decisionDur m
  ∧ reloadTotal m' = reloadTotal m ∧ configVersion m' = configVersion m ∧ sqlParseTotal m' = sqlParseTotal m
  ∧ sqlParseDuration m' = sqlParseDuration m ∧ sqlParseTruncated m' = sqlParseTruncated m.
Proof.
  cbv zeta. unfold SyncDisabled. generalize (list_to_set dis : gset string). intros d. revert m.
  induction all as [|t all IH]; intros m; cbn [fold_left]; [done|].
  destruct (IH (SetMethodDisabled t (bool_decide (t ∈ d)) m)) as (-> & -> & -> & -> & -> & -> & -> & ->). done.
Qed.

Lemma SyncDisabled_ok all dis m : metrics_ok m → metrics_ok (SyncDisabled all dis m).
Proof.
  intros []. destruct (SyncDisabled_frame all dis m) as (? & ? & ? & ? & ? & ? & ? & ?). split; congruence.
Qed.

(** The gauge tells, for each listed type, whether it is in the disabled set. *)
Lemma SyncDisabled_gauge all dis m t :
  t ∈ all → methodDisabled (SyncDisabled all dis m) !! t = Some (if bool_decide (t ∈ dis) then 1 else 0)%N.
Proof.
  unfold SyncDisabled. set (d := list_to_set dis : gset string).
  assert (Hd : bool_decide (t ∈ d) = bool_decide (t ∈ dis)).
  { apply bool_decide_ext. unfold d. by rewrite elem_of_list_to_set. }
  clearbody d. revert m. induction all as [|x all IH] using rev_ind; intros m; [by intros ?%elem_of_nil|].
  rewrite fold_left_app. cbn [fold_left SetMethodDisabled with_gauge methodDisabled].
  intros [Hin|Hx]%elem_of_app.
  - destruct (decide (x = t)) as [->|]; [by rewrite lookup_insert_eq, Hd|].
    rewrite lookup_insert_ne by done. by apply IH.
  - apply list_elem_of_singleton in Hx as ->. by rewrite lookup_insert_eq, Hd.
Qed.

(** ** The running service *)
Section machine.
Context (ToLower ToUpper : string → string).
Context {W : Type} (ReadFile : string → ST W (go_result string)).
Context (yaml_unmarshal : string → Config → go_result Config) (registry : Registry W) (path : string).
Context (cfg : Config).

#[local] Abbreviation go_Route := (Route ToLower ToUpper (main_analyzer cfg) cfg (sp_Enabled (SQLParsing cfg))).
Definition allMethodTypes : list string := mc_Type <$> Methods cfg.

Inductive service_step : service → service → Prop :=
| ss_route lat sampled req s : service_step s (snd (go_Route lat sampled req s))
| ss_disable t s : service_step s (snd (admin_DisableMethod allMethodTypes t s))
| ss_enable t s : service_step s (snd (admin_EnableMethod allMethodTypes t s))
| ss_reload s w : service_step s (fst (service_reload ReadFile yaml_unmarshal registry path s w)).

(** What holds of the service while it runs. *)
Record service_ok (s : service) : Prop := {
  so_group : defaultGroup (sv_pipeline s) = DefaultRoutingGroup cfg;
  so_ready : ready (sv_pipeline s) = true ∧ serving s = true;
  so_metrics : ∃ m h, sv_metrics s = Some m ∧ metrics_ok m ∧ confVer s = Some h
                    ∧ configVersion m = {[h := 1%N]} }.

Lemma updateMethod_frame t fn p :
  defaultGroup (updateMethod t fn p) = defaultGroup p ∧ ready (updateMethod t fn p) = ready p.
Proof. unfold updateMethod. repeat case_match; done. Qed.

Lemma Route_frame lat sampled req s :
  let s' := snd (go_Route lat sampled req s) in
  sv_watcher s' = sv_watcher s ∧ confVer s' = confVer s ∧ serving s' = serving s
  ∧ ∀ m, sv_metrics s = Some m → metrics_ok m →
      ∃ m', sv_metrics s' = Some m' ∧ metrics_ok m' ∧ configVersion m' = configVersion m
          ∧ methodDisabled m' = methodDisabled m.
Proof.
  cbv zeta. unfold Route. destruct (match pb_Props req with None => true | Some qp => _ end) eqn:Hskip.
  { cbn [snd]. split_and!; try done. eauto. }
  destruct (inputFromProto _ _ _ _) as [i obs]. cbn [snd sv_watcher confVer serving sv_metrics].
  split_and!; try done. intros m Hm Hok.
  destruct obs as [[result truncated]|]; [destruct (sp_Enabled (SQLParsing cfg))|];
    rewrite Hm; cbn [fmap option_fmap option_map]; eexists; split; try done;
    (split; [auto using RecordDecision_ok, RecordSQLParse_ok|done]).
Qed.

Lemma admin_frame f t s :
  (f = DisableMethod t ∨ f = EnableMethod t) → service_ok s →
  service_ok (notify allMethodTypes (DisabledMethods (f (sv_pipeline s))) (update_pipeline f s)).
Proof.
  intros Hf [Hg [Hr Hs] (m & h & Hm & Hok & Hc & Hv)].
  assert (defaultGroup (f (sv_pipeline s)) = defaultGroup (sv_pipeline s)
          ∧ ready (f (sv_pipeline s)) = ready (sv_pipeline s)) as [Hg' Hr'].
  { destruct Hf as [-> | ->]; apply updateMethod_frame. }
  split; cbn; [congruence|split; [congruence|done]|].
  rewrite Hm. cbn. eexists _, h. split; [done|]. split; [by apply SyncDisabled_ok|]. split; [done|].
  by destruct (SyncDisabled_frame allMethodTypes (DisabledMethods (f (sv_pipeline s))) m) as (_ & _ & _ & _ & -> & _).
Qed.

Lemma RecordReload_ok r m : metrics_ok m → metrics_ok (RecordReload r m).
Proof. by intros []. Qed.
Lemma m_SetConfigVersion_ok h m : metrics_ok m → metrics_ok (m_SetConfigVersion h m).
Proof. by intros []. Qed.

(** The notices a reload adds, delivered to the sinks. *)
Lemma service_reload_cases s w :
  let s' := fst (service_reload ReadFile yaml_unmarshal registry path s w) in
  let cw := fst (reload ReadFile yaml_unmarshal registry path true true (sv_watcher s) w) in
  sv_watcher s' = cw ∧ serving s' = serving s ∧ sv_logs s' = sv_logs s
  ∧ ((failed true (sv_watcher s) cw ∧ confVer s' = confVer s
      ∧ sv_metrics s' = RecordReload "error" <$> sv_metrics s)
     ∨ ∃ ms data, built_from ReadFile yaml_unmarshal registry path ms ∧ applied (sv_watcher s) cw data ms
        ∧ confVer s' = Some (hashBytes data)
        ∧ sv_metrics s' = (m_SetConfigVersion (hashBytes data) ∘ RecordReload "ok") <$> sv_metrics s).
Proof.
  cbv zeta. unfold service_reload.
  pose proof (reload_cases ReadFile yaml_unmarshal registry path true true (sv_watcher s) w) as [_ Hc].
  unfold mbind, ST_bind, mret, ST_ret.
  destruct (reload ReadFile yaml_unmarshal registry path true true (sv_watcher s) w) as [cw w'] eqn:Hr.
  cbn [fst] in *. destruct Hc as [Hf|(data & w1 & cfg' & w2 & ms & w3 & H1 & H2 & H3 & Ha)].
  - pose proof Hf as (_ & _ & _ & _ & new & msg & Hn). rewrite Hn, drop_app_length.
    cbn [sink app fold_left on_notice sv_watcher serving sv_logs confVer sv_metrics].
    split_and!; try done. by left.
  - assert (Hn : notices cw = notices (sv_watcher s)
        ++ [Audit "ok" (oldHash (sv_watcher s)) (hashBytes data) (z_to_dec (Z.of_nat (length ms)) +:+ " method(s)") "";
            ReloadSink true; VersionSink (hashBytes data)]).
    { revert Hr. unfold reload, reload_body, mbind, ST_bind. rewrite H1, H2, H3. by intros [= <- _]. }
    rewrite Hn, drop_app_length. cbn [fold_left on_notice SetConfigVersion sv_watcher serving sv_logs confVer sv_metrics].
    split_and!; try done. right. exists ms, data. split_and!; try done.
    + exists w, data, cfg', w3. split; [|by eapply load_validated]. exists w1, w2. split_and!; [done..|]. by apply build_all_built.
    + by destruct (sv_metrics s).
Qed.

Lemma service_step_ok s s' : service_step s s' → service_ok s → service_ok s'.
Proof.
  intros Hs Hok. destruct Hs as [lat sampled req s|t s|t s|s w].
  - destruct Hok as [Hg Hr (m & h & Hm & Hmo & Hc & Hv)].
    destruct (Route_frame lat sampled req s) as (Hw & Hcv & Hsv & Hmf).
    destruct (Hmf m Hm Hmo) as (m' & Hm' & Hmo' & Hv' & _).
    split; unfold sv_pipeline in *; rewrite ?Hw, ?Hcv, ?Hsv; [done|done|]. exists m', h. split_and!; congruence.
  - apply (admin_frame (DisableMethod t) t); auto.
  - apply (admin_frame (EnableMethod t) t); auto.
  - destruct Hok as [Hg [Hr Hsv] (m & h & Hm & Hmo & Hc & Hv)].
    destruct (service_reload_cases s w) as (Hw & Hsv' & _ & Hcase). unfold sv_pipeline in *.
    destruct Hcase as [(Hf & Hcv & Hms)|(ms & data & _ & Ha & Hcv & Hms)].
    + destruct Hf as (Hp & _). split; unfold sv_pipeline; rewrite ?Hw, ?Hp, ?Hsv'; [done|done|].
      exists (RecordReload "error" m), h. rewrite Hms, Hm, Hcv. split_and!; try done. by apply RecordReload_ok.
    + destruct Ha as (Hp & _). split; unfold sv_pipeline; rewrite ?Hw, ?Hp, ?Hsv'; [done|done|].
      eexists _, (hashBytes data). rewrite Hms, Hm, Hcv. split_and!; try done.
      by apply m_SetConfigVersion_ok, RecordReload_ok.
Qed.

Lemma boot_ok tracing_init watcher_start w s w' :
  boot ReadFile yaml_unmarshal registry tracing_init watcher_start path w = (Ok (cfg, s), w') → service_ok s ∧ rs_config_ok cfg.
Proof.
  unfold boot, mbind, ST_bind, mret, ST_ret.
  destruct (Load ReadFile yaml_unmarshal path w) as [[cfg'|] w1] eqn:Hl; [|done].
  destruct (build_all registry (Methods cfg') w1) as [[ms|] w2]; [|done].
  destruct (tracing_init cfg' w2) as [[[]|] w3]; [|done]. destruct (configHash ReadFile path w3) as [h w4].
  destruct (watcher_start path w4) as [[[]|] w5]; [|done]. intros [= -> <- _].
  split; [|by eapply load_validated in Hl as [? _]].
  split; [done|done|]. cbn. eexists _, h. by split_and!.
Qed.

(** What [Route] answers: the pipeline's group to a new submission, nothing to others. *)
Lemma route_answer lat sampled req s : service_ok s → rs_config_ok cfg →
  pb_RoutingGroup (go_Route lat sampled req s).1
  = if from_opt false (qp_IsNewQuerySubmission <$> pb_Props req)
    then PE_Evaluate ToLower ToUpper (main_analyzer cfg) (sv_pipeline s) (Some req) else "".
Proof.
  intros Hs Hcfg. unfold Route. destruct (pb_Props req) as [qp|] eqn:Hp; cbn [fmap option_fmap option_map from_opt]; [|done].
  destruct (qp_IsNewQuerySubmission qp); cbn [negb]; [|done]. destruct (inputFromProto _ _ _ _) as [i obs] eqn:Hi. cbv zeta.
  assert (Hg : er_RoutingGroup (PE_EvaluateResult ToLower ToUpper (main_analyzer cfg) (sv_pipeline s) (Some req))
             = PE_Evaluate ToLower ToUpper (main_analyzer cfg) (sv_pipeline s) (Some req)).
  { unfold PE_EvaluateResult, PE_Evaluate. cbn. apply evaluate_result_group. }
  assert (Hne : PE_Evaluate ToLower ToUpper (main_analyzer cfg) (sv_pipeline s) (Some req) ≠ "").
  { apply evaluate_nonempty. rewrite (so_group _ Hs). by apply rco_group. }
  rewrite Hg. destruct (_ =?s "") eqn:He; [by apply seqb_eq in He|]. done.
Qed.
End machine.

(** ** Theorems *)

(** C8: A service that came up stays ready and routes every new submission: to the group
    the pipeline evaluates to, which is never empty, counting it once and logging it
    when it fell back; a request that is no new submission gets an empty answer and
    changes nothing. Its counters stay consistent and one configuration version is
    exported, whatever sequence of requests, kill-switch calls and reloads ran. *)
Theorem service_routes_every_submission ToLower ToUpper {W} (ReadFile : string → ST W (go_result string))
    yaml_unmarshal registry tracing_init watcher_start path cfg w s0 w' s :
  boot ReadFile yaml_unmarshal registry tracing_init watcher_start path w = (Ok (cfg, s0), w') →
  rtc (service_step ToLower ToUpper ReadFile yaml_unmarshal registry path cfg) s0 s →
  service_ok cfg s
  ∧ ∀ lat sampled req,
      let '(resp, s') := Route ToLower ToUpper (main_analyzer cfg) cfg (sp_Enabled (SQLParsing cfg)) lat sampled req s in
      let r := PE_EvaluateResult ToLower ToUpper (main_analyzer cfg) (sv_pipeline s) (Some req) in
      if from_opt false (qp_IsNewQuerySubmission <$> pb_Props req) then
        pb_RoutingGroup resp = PE_Evaluate ToLower ToUpper (main_analyzer cfg) (sv_pipeline s) (Some req)
        ∧ pb_RoutingGroup resp ≠ ""
        ∧ requests <$> sv_metrics s'
          = inc (pb_TrinoSource req, pb_RoutingGroup resp, MethodType r, classifyOutcome r) ∘ requests <$> sv_metrics s
        ∧ (er_Decided r = false → length (sv_logs s') = S (length (sv_logs s)))
      else resp = mkRouteResponse "" [] ∅ ∧ s' = s.
Proof.
  intros Hb Hr. destruct (boot_ok _ _ _ _ _ _ _ _ _ _ Hb) as [H0 Hcfg].
  assert (Hs : service_ok cfg s).
  { clear Hb. induction Hr as [|s1 s2 s3 H12 _ IH]; [done|]. apply IH. by eapply service_step_ok. }
  split; [done|]. intros lat sampled req. unfold Route.
  destruct (pb_Props req) as [qp|] eqn:Hp; cbn [fmap option_fmap option_map from_opt]; [|done].
  destruct (qp_IsNewQuerySubmission qp); cbn [negb]; [|done].
  destruct (inputFromProto _ _ _ _) as [i obs] eqn:Hi. cbv zeta.
  assert (Hg : er_RoutingGroup (PE_EvaluateResult ToLower ToUpper (main_analyzer cfg) (sv_pipeline s) (Some req))
             = PE_Evaluate ToLower ToUpper (main_analyzer cfg) (sv_pipeline s) (Some req)).
  { unfold PE_EvaluateResult, PE_Evaluate. cbn. apply evaluate_result_group. }
  assert (Hne : PE_Evaluate ToLower ToUpper (main_analyzer cfg) (sv_pipeline s) (Some req) ≠ "").
  { apply evaluate_nonempty. rewrite (so_group _ _ Hs). by apply rco_group. }
  rewrite Hg. destruct (_ =?s "") eqn:He; [by apply seqb_eq in He|]. cbn [pb_RoutingGroup sv_metrics sv_logs].
  split_and!; try done.
  - destruct obs as [[? ?]|]; [destruct (sp_Enabled _)|]; by destruct (sv_metrics s).
  - intros Hd. unfold Log, ShouldLog. cbn [Fallback]. rewrite Hd. cbn [negb]. rewrite length_app. cbn. lia.
Qed.

(** After an admin call the exported gauge agrees with the kill switch for every
    configured type, and the answer lists exactly the disabled methods. *)
Theorem gauge_follows_admin cfg t s m resp s' :
  sv_metrics s = Some m →
  (resp, s') ∈ [admin_DisableMethod (allMethodTypes cfg) t s; admin_EnableMethod (allMethodTypes cfg) t s] →
  snd resp = ListDisabled s'
  ∧ ∃ m', sv_metrics s' = Some m'
      ∧ ∀ ty, ty ∈ allMethodTypes cfg →
          methodDisabled m' !! ty = Some (if bool_decide (ty ∈ ListDisabled s') then 1 else 0)%N.
Proof.
  intros Hm [H|[H|[]%elem_of_nil]%elem_of_cons]%elem_of_cons; injection H as -> ->;
    (split; [done|]); cbn; rewrite Hm; cbn; (eexists; split; [done|]); intros ty Hty; by apply SyncDisabled_gauge.
Qed.

Lemma Build_live {W} (r : Registry W) mc w m w' : Build r mc w = (Ok m, w') → isDisabled m = false.
Proof.
  unfold Build. destruct (r !! mc_Type mc) as [f|]; [|done]. unfold mbind, ST_bind, mret, ST_ret.
  destruct (rm_LoadConfig _ _ w) as [[[|] st] w1]; by intros [= <- _].
Qed.

(** A reload that applies drops the kill switch: every method of the new pipeline is
    live again, while the exported gauge still says what it said before. *)
Theorem reload_resets_kill_switch {W} (ReadFile : string → ST W (go_result string)) yaml_unmarshal registry path s w :
  let s' := fst (service_reload ReadFile yaml_unmarshal registry path s w) in
  reloadErrorTotal (sv_watcher s') = reloadErrorTotal (sv_watcher s) →
  ListDisabled s' = []
  ∧ methodDisabled <$> sv_metrics s' = methodDisabled <$> sv_metrics s.
Proof.
  cbv zeta. intros Herr. destruct (service_reload_cases ReadFile yaml_unmarshal registry path s w)
    as (Hw & _ & _ & [((_ & _ & He & _) & _)|(ms & data & (w0 & data0 & cfg & w9 & (w1 & w2 & _ & _ & Hf) & _) & Ha & _ & Hm)]).
  - exfalso. rewrite Hw, He in Herr. revert Herr. unfold wrap64. intros Herr.
    pose proof (Z.mod_pos_bound (reloadErrorTotal (sv_watcher s) + 1 + 2 ^ 63) (2 ^ 64) ltac:(lia)).
    pose proof (Z.div_mod (reloadErrorTotal (sv_watcher s) + 1 + 2 ^ 63) (2 ^ 64) ltac:(lia)). lia.
  - split.
    + unfold ListDisabled, sv_pipeline. rewrite Hw. destruct Ha as [-> _]. unfold DisabledMethods, load. cbn.
      clear -Hf. induction Hf as [|mc mcs w m w1 ms w2 Hb _ IH]; [done|]. cbn. rewrite (Build_live _ _ _ _ _ Hb). done.
    + rewrite Hm. by destruct (sv_metrics s).
Qed.

(** ** Witnesses *)
Definition w_cfg : Config := from_opt w_rs_config
  (match w_yaml "" defaultConfig with Ok c => Some c | Err _ => None end).
Definition w_init {A} (_ : A) : ST unit (go_result unit) := mret (Ok tt).
Definition w_service : service :=
  match fst (boot w_fs w_yaml w_registry w_init w_init "rs.yaml" tt) with
  | Ok (_, s) => s
  | Err _ => mkService (New w_p0) None None false []
  end.
Definition w_killed : service := snd (admin_DisableMethod (allMethodTypes w_cfg) "expr" w_service).
Definition w_submission : RouteRequest :=
  mkRouteRequest (Some (mkTQP "SELECT 1" "" "" "" "" [] [] [] [] true false "")) (Some "alice") "" "" "POST"
    "/v1/statement" "" "" "" ∅ "airflow" [].

Lemma service_routes_every_submission_witness :
  service_ok w_cfg w_killed
  ∧ pb_RoutingGroup (fst (Route id id (main_analyzer w_cfg) w_cfg true 0 false w_submission w_service)) = "alice"
  ∧ pb_RoutingGroup (fst (Route id id (main_analyzer w_cfg) w_cfg true 0 false w_submission w_killed)) = "adhoc".
Proof.
  split; [|split; vm_compute; reflexivity].
  apply (service_routes_every_submission id id w_fs w_yaml w_registry w_init w_init "rs.yaml" w_cfg tt w_service tt w_killed).
  - reflexivity.
  - eapply rtc_l; [apply ss_disable|apply rtc_refl].
Defined.

Lemma gauge_follows_admin_witness :
  ∃ m', sv_metrics w_killed = Some m' ∧ methodDisabled m' !! "expr" = Some 1%N.
Proof.
  destruct (gauge_follows_admin w_cfg "expr" w_service (from_opt metrics_New (sv_metrics w_service))
    (fst (admin_DisableMethod (allMethodTypes w_cfg) "expr" w_service)) w_killed) as (_ & m' & H1 & H2).
  - reflexivity.
  - left.
  - exists m'. split; [exact H1|]. exact (H2 "expr" ltac:(left)).
Defined.

(** Killed, then reloaded from the same file: live again, gauge still at 1. *)
Lemma reload_resets_kill_switch_witness :
  let s' := fst (service_reload w_fs w_yaml w_registry "rs.yaml" w_killed tt) in
  ListDisabled w_killed = ["expr"] ∧ ListDisabled s' = []
  ∧ (m ← sv_metrics s'; methodDisabled m !! "expr") = Some 1%N.
Proof.
  cbv zeta. split; [vm_compute; reflexivity|].
  split; [|vm_compute; reflexivity].
  apply (reload_resets_kill_switch w_fs w_yaml w_registry "rs.yaml" w_killed tt). vm_compute. reflexivity.
Defined.
