(* ===== verification/EndToEnd.v ===== *)
(** * From a client's statement to a backend, through both programs

    The gateway's router ([Routing]) with its gRPC stub connected to the routing
    service ([RsServer]): what a rule of the service sees of a client's request, and
    that the backend the gateway picks is one of the group the rule names. *)
From S2P Require Import Prelude GoStrings HttpModel Config KillQuery Lru RouterPb Routing.
From S2P Require Import SqlMeta Engine RsConfig Providers Reload RsServer.

Section connected.
Context (ToLower ToUpper : string → string) (a : analyzer) (rcfg : RsConfig.Config) (observed : bool).
(** The wall time and the sampler's answer of each call. *)
Context (lat : Z) (sampled : bool).

(** The stub: a call within the deadline answers what the service answers. *)
Definition service_call : Z → RouteRequest → ST service (call_result RouteResponse) :=
  λ _ req st, let '(resp, st') := RsServer.Route ToLower ToUpper a rcfg observed lat sampled req st in (COk resp, st').

(** What a rule sees of a statement: the headers of the client's request, and the
    analysis of its text. *)
Definition statement_input (req : Routing.RouteInput) : Engine.RouteInput :=
  let catalog := Header req "X-Trino-Catalog" in
  let schema := Header req "X-Trino-Schema" in
  let body := Routing.Body req in
  let meta := if body =?s "" then emptyMeta else fst (run_analyzer ToLower a body catalog schema) in
  Engine.mkRouteInput (Header req "X-Trino-Source") (splitClientTags (Header req "X-Trino-Client-Tags"))
    (Header req "X-Trino-User") catalog schema (Routing.Method req) (RequestURI req) (Routing.RemoteAddr req)
    body true (join "," <$> Parameters req)
    (QueryType meta) (if body =?s "" then "" else Category meta) (Catalogs meta) (Schemas meta)
    (CatalogSchemas meta) (Tables meta) (ParseOK meta).

Lemma input_of_statement req :
  Routing.Method req = "POST" →
  fst (inputFromProto ToLower ToUpper a (Some (buildProtoRequest req))) = statement_input req.
Proof.
  intros HM. unfold inputFromProto, statement_input, FromProto, buildProtoRequest.
  cbn [pb_Props pb_User pb_TrinoSource pb_ClientTags pb_Method pb_RequestUri pb_RemoteAddr pb_ParameterMap from_opt
       qp_Body qp_QueryType qp_DefaultCatalog qp_DefaultSchema qp_Catalogs qp_Schemas qp_CatalogSchemas qp_Tables
       qp_IsNewQuerySubmission qp_IsQueryParsingSuccessful].
  unfold HasParsedSQL. cbn. unfold fillSQLMeta, HasParsedSQL. rewrite HM. cbn.
  destruct (Routing.Body req =?s "") eqn:Hb; cbn; [done|].
  destruct (run_analyzer _ _ _ _ _) as [meta tr]. done.
Qed.

Context {C : Type} `{LRU C} (svc : services service) (gcfg : RoutingConfig).
Context (Hgrpc : grpc_route svc = Some service_call).
Context (bs : list ActiveBackend) (Hlist : ∀ st, list_active svc st = (Ok bs, st)).

Lemma external_statement req (s : router_state C service) :
  Routing.Method req = "POST" →
  let g := Evaluate (sv_pipeline (rs_world s)) (statement_input req) in
  let g := if g =?s "" then RsConfig.DefaultRoutingGroup rcfg else g in
  ∃ st', callExternal svc gcfg req s
         = (((g, ∅, []), None), mkRouterState (rs_cache s) st' (rs_metrics s ++ [RouterCall TransportGRPC "ok"]))
       ∧ sv_watcher st' = sv_watcher (rs_world s).
Proof.
  intros HM. cbv zeta. unfold callExternal. rewrite Hgrpc. unfold grpc_selectGroup, mbind, R_bind, Routing.world.
  set (rpc := service_call (ext_timeout gcfg) (buildProtoRequest req) (rs_world s)).
  assert (Hrpc : ∃ st', rpc = (COk (mkRouteResponse
      (let g := Evaluate (sv_pipeline (rs_world s)) (statement_input req) in
       if g =?s "" then RsConfig.DefaultRoutingGroup rcfg else g) [] ∅), st')
      ∧ sv_watcher st' = sv_watcher (rs_world s)).
  { unfold rpc, service_call, RsServer.Route. cbn [buildProtoRequest pb_Props qp_IsNewQuerySubmission]. rewrite HM.
    cbn [String.eqb Ascii.eqb Bool.eqb negb]. destruct (inputFromProto _ _ _ _) as [i obs] eqn:Hi.
    unfold PE_EvaluateResult. cbn [er_RoutingGroup]. rewrite evaluate_result_group, input_of_statement by done.
    eexists. split; done. }
  destruct Hrpc as (st' & -> & Hw). cbn. exists st'. split; [|done].
  unfold filter_selection, filterExcludedHeaders. destruct (ExcludeHeaders (Config.External gcfg)); [done|].
  by rewrite map_filter_empty.
Qed.

Lemma route_statement req (s : router_state C service) b :
  Routing.Method req = "POST" → extractKillQueryID (Routing.Body req) = "" → extractQueryID req = "" →
  defaultGroup (sv_pipeline (rs_world s)) ≠ "" →
  let g := Evaluate (sv_pipeline (rs_world s)) (statement_input req) in
  find_first (λ b, ab_RoutingGroup b =?s g) bs = Some b → ab_URL b ≠ "" →
  ∃ s', Routing.Route svc gcfg req s = (mkRouteResult (ab_URL b) g ∅ [] OutcomeOK, s')
      ∧ rs_cache s' = rs_cache s ∧ sv_watcher (rs_world s') = sv_watcher (rs_world s).
Proof.
  intros HM Hk Hq Hd. cbv zeta. intros Hb Hu.
  assert (Hkill : route_kill svc req s = (None, s)) by (unfold route_kill; by rewrite Hk).
  assert (Hmiss : route_cached req s = (None, s)) by (unfold route_cached; by rewrite Hq).
  unfold Routing.Route, mbind, R_bind. rewrite Hkill, Hmiss.
  unfold route_external, mbind, R_bind. destruct (external_statement req s HM) as (st' & -> & Hw).
  pose proof (evaluate_nonempty (sv_pipeline (rs_world s)) (statement_input req) Hd) as Hne.
  apply seqb_neq in Hne. cbv zeta. rewrite !Hne. unfold resolveGroup, Routing.world, mbind, R_bind. cbn.
  rewrite Hlist. cbn. rewrite Hb. cbn. apply seqb_neq in Hu. rewrite Hu. cbn. eexists. split; done.
Qed.
End connected.

(** C1: A statement a client posts goes to a backend of the group the routing service's
    rules give for that client's headers and for the analysis of its text: the two
    programs agree on what a request is, and neither the fallback nor the cache
    interferes. *)
Theorem statement_follows_service_rule ToLower ToUpper a rcfg observed lat sampled
    {C} `{LRU C} (svc : services service) gcfg bs req (s : router_state C service) b :
  grpc_route svc = Some (service_call ToLower ToUpper a rcfg observed lat sampled) →
  (∀ st, list_active svc st = (Ok bs, st)) →
  Routing.Method req = "POST" → extractKillQueryID (Routing.Body req) = "" → extractQueryID req = "" →
  service_ok rcfg (rs_world s) → rs_config_ok rcfg →
  let g := Evaluate (sv_pipeline (rs_world s)) (statement_input ToLower a req) in
  find_first (λ b, ab_RoutingGroup b =?s g) bs = Some b → ab_URL b ≠ "" →
  ∃ s', Routing.Route svc gcfg req s = (mkRouteResult (ab_URL b) g ∅ [] OutcomeOK, s')
      ∧ ab_RoutingGroup b = g ∧ b ∈ bs ∧ g ≠ ""
      ∧ rs_cache s' = rs_cache s ∧ sv_watcher (rs_world s') = sv_watcher (rs_world s).
Proof.
  intros Hg Hl HM Hk Hq Hs Hc g Hb Hu.
  assert (Hd : defaultGroup (sv_pipeline (rs_world s)) ≠ "") by (rewrite (so_group _ _ Hs); by apply rco_group).
  destruct (route_statement ToLower ToUpper a rcfg observed lat sampled svc gcfg Hg bs Hl req s b HM Hk Hq Hd Hb Hu)
    as (s' & Hr & Hcache & Hw).
  exists s'. apply find_first_Some in Hb as [Hin Hgrp]. apply seqb_eq in Hgrp. split_and!; try done.
  by apply evaluate_nonempty.
Qed.

(** ** Witness: a rule that routes by user *)
Definition w_bs : list ActiveBackend := [mkActiveBackend "b1" "http://b1" "etl"; mkActiveBackend "b2" "http://b2" "alice"].
Definition w_gateway : services service :=
  mkServices service (λ st, (Ok w_bs, st)) (λ _ st, (("", None), st)) (λ _ _, true)
    (λ _ _ st, (CErr (mkCallError "refused" false), st)) (λ _ st, (CErr (mkCallError "refused" false), st))
    (Some (service_call id id (main_analyzer RsServer.w_cfg) RsServer.w_cfg true 0 false)) (λ l, l).
Definition w_post : Routing.RouteInput :=
  Routing.mkRouteInput "POST" "/v1/statement" "" "10.0.0.1:5000" "gw" "alice" "SELECT * FROM t" ∅
    {["X-Trino-User" := ["alice"]]}.
Definition w_gw_state : router_state list_lru service := mkRouterState (ListLru 4096 []) w_service [].

Lemma statement_follows_service_rule_witness :
  ∃ s', Routing.Route w_gateway Routing.w_cfg w_post w_gw_state
        = (mkRouteResult "http://b2" "alice" ∅ [] OutcomeOK, s').
Proof.
  assert (Hok : service_ok RsServer.w_cfg w_service ∧ rs_config_ok RsServer.w_cfg).
  { apply (boot_ok w_fs w_yaml w_registry "rs.yaml" RsServer.w_cfg w_init w_init tt w_service tt). reflexivity. }
  destruct (statement_follows_service_rule id id (main_analyzer RsServer.w_cfg) RsServer.w_cfg true 0 false
    w_gateway Routing.w_cfg w_bs w_post w_gw_state (mkActiveBackend "b2" "http://b2" "alice")) as (s' & Hr & _).
  - reflexivity.
  - reflexivity.
  - reflexivity.
  - vm_compute. reflexivity.
  - reflexivity.
  - apply Hok.
  - apply Hok.
  - vm_compute. reflexivity.
  - discriminate.
  - exists s'. exact Hr.
Defined.
