(* ===== verification/ClusterStats.v ===== *)
(** * Cluster statistics (internal/clusterstats, internal/clusterstatus)

    The per-backend statistics model, its store, and the four collectors. HTTP clients
    are parameters over a world [W]; a cookie jar is an abstract value the client
    updates. The unusual float syntaxes of [strconv.ParseFloat] (hexadecimal, digit
    separators) are a parameter; every decimal text, infinity and NaN is modelled. *)
From Stdlib Require Import SpecFloat.
From S2P Require Import Prelude GoStrings GoNumeric Json Codec HttpModel Config Routing.

#[local] Open Scope Z_scope.

(** ** Status (clusterstatus/status.go) *)
Inductive Status : Type := Unknown | Healthy | Unhealthy | Pending.
#[global] Instance Status_eq_dec : EqDecision Status.
Proof. solve_decision. Defined.

Definition Label (s : Status) : string :=
  match s with Healthy => "HEALTHY" | Unhealthy => "UNHEALTHY" | Pending => "PENDING" | Unknown => "UNKNOWN" end.
Definition Status_String (s : Status) : string :=
  match s with Healthy => "healthy" | Unhealthy => "unhealthy" | Pending => "pending" | Unknown => "unknown" end.

(** ** Statistics and their store (stats.go, store.go) *)
Record Backend : Type := mkBackend {
  bk_Name : string; bk_URL : string; bk_ExternalURL : string; bk_RoutingGroup : string }.

(** [UserQueuedCount] is [None] until a UI_API collection fills it. *)
Record ClusterStats : Type := mkClusterStats {
  ClusterID : string; RunningQueryCount : Z; QueuedQueryCount : Z; NumWorkerNodes : Z; TrinoStatus : Status;
  ProxyTo : string; ExternalURL : string; cs_RoutingGroup : string;
  UserQueuedCount : option (gmap string Z) }.

Definition statsBuilder (b : Backend) : ClusterStats :=
  mkClusterStats (bk_Name b) 0 0 0 Unknown (bk_URL b) (bk_ExternalURL b) (bk_RoutingGroup b) None.

Definition StatsStore : Type := gmap string ClusterStats.
Definition NewStatsStore : StatsStore := (∅ : gmap string ClusterStats).
Definition ObserveStats (stats : gmap string ClusterStats) (_ : StatsStore) : StatsStore := stats.
Definition Stats (s : StatsStore) (name : string) : ClusterStats :=
  from_opt (mkClusterStats name 0 0 0 Unknown "" "" "" None) ((s : gmap string ClusterStats) !! name).

(** ** Text of requests *)

(** [url.QueryEscape]. *)
Fixpoint query_escape (s : string) : string :=
  match s with
  | EmptyString => ""
  | String c r =>
      (if is_alnum c || mem_byte c "-_.~" then String c ""
       else if Ascii.eqb c " " then "+"
       else String "%" (String (upper_hex (byte_n c / 16)) (String (upper_hex (byte_n c mod 16)) "")))
      +:+ query_escape r
  end.

(** [strconv.ParseFloat(s, 64)]; an out-of-range text is an error. *)
Section parse_float.
Context (exotic_float : string → option f64).

Definition parse_float (s : string) : option f64 :=
  let '(sg, r) := take_sign s in
  let neg := sg =?s "-" in
  let low := to_lower r in
  if (low =?s "inf") || (low =?s "infinity") then Some (S754_infinity neg)
  else if (to_lower s =?s "nan") then Some S754_nan
  else if mem_byte "_" s || has_prefix "0x" low then exotic_float s
  else
    let '(int, r) := digits_run r in
    let '(frac, r) := match r with
                      | String c r1 => if Ascii.eqb c "." then digits_run r1 else (EmptyString, r)
                      | EmptyString => (EmptyString, r)
                      end in
    if (int =?s "") && (frac =?s "") then None else
    e ← match r with
        | EmptyString => Some 0
        | String c r1 =>
            if Ascii.eqb c "e" || Ascii.eqb c "E" then
              let '(es, r2) := take_sign r1 in
              match digits_run r2 with
              | (EmptyString, _) => None
              | (ds, EmptyString) => Some (if es =?s "-" then - Z.of_N (dec_val 0 ds) else Z.of_N (dec_val 0 ds))
              | _ => None
              end
            else None
        end;
    let x := f64_of_dec neg (dec_val 0 (int +:+ frac)) (e - Z.of_nat (String.length frac)) in
    if f64_is_inf x then None else Some x.
End parse_float.

(** ** Collectors *)
Section collectors.
Context {W J : Type}.
(** The client with a jar ([None] for no jar): the response and the jar afterwards. *)
Context (Do : option J → out_request → ST W (call_result response * option J)).
Context (new_request_ok : string → string → bool) (new_jar : J).
(** The backoff timer: whether it fires before the context ends. *)
Context (wait : ST W bool) (exotic_float : string → option f64).

(** What is sent, in order, beside the world. *)
Record net : Type := mkNet { net_world : W; net_sent : list (option J * out_request) }.

Definition send (jar : option J) (req : out_request) : ST net (call_result response * option J) := λ n,
  let '(r, w) := Do jar req (net_world n) in (r, mkNet w (net_sent n ++ [(jar, req)])).
Definition net_wait : ST net bool := λ n, let '(b, w) := wait (net_world n) in (b, mkNet w (net_sent n)).

(** [retries + 1], on a machine integer. *)
Definition attempts (r : Z) : Z := wrap64 (r + 1).

(** [backoff] *)
Definition backoff (attempt count : Z) : ST net bool :=
  if count - 1 <=? attempt then mret false else net_wait.

(** noop.go and infoapi.go *)
Definition status_Collect (status : option (string → Status)) (b : Backend) : ClusterStats :=
  let cs := statsBuilder b in
  match status with
  | None => cs
  | Some f => mkClusterStats (ClusterID cs) 0 0 0 (f (bk_URL b)) (ProxyTo cs) (ExternalURL cs) (cs_RoutingGroup cs) None
  end.

(** *** UI_API (uiapi.go) *)
Definition uiLoginPath : string := "/ui/login".
Definition uiAPIStatsPath : string := "/ui/api/stats".
Definition uiAPIQueuedAPIPath : string := "/ui/api/query?state=QUEUED".

Record uiAPICollector : Type := mkUIAPI {
  ui_username : string; ui_password : string; ui_xForwarded : bool; ui_retries : Z;
  ui_jar : option J; loggedIn : bool }.
Definition newUIAPICollector (mon : MonitorConfig) (bs : BackendStateConfig) : uiAPICollector :=
  mkUIAPI (Username bs) (Password bs) (XForwardedProtoHeader bs) (Retries mon) None false.
Definition with_session (jar : option J) (l : bool) (c : uiAPICollector) : uiAPICollector :=
  mkUIAPI (ui_username c) (ui_password c) (ui_xForwarded c) (ui_retries c) jar l.

Record uiStatsResponse : Type := mkUIStats { ActiveWorkers : Z; RunningQueries : Z; QueuedQueries : Z }.
Definition set_ui_stats (k : string) (v : json) (r : uiStatsResponse) : uiStatsResponse * bool :=
  if field_is "activeWorkers" k then
    let '(x, e) := dec_int (ActiveWorkers r) v in (mkUIStats x (RunningQueries r) (QueuedQueries r), e)
  else if field_is "runningQueries" k then
    let '(x, e) := dec_int (RunningQueries r) v in (mkUIStats (ActiveWorkers r) x (QueuedQueries r), e)
  else if field_is "queuedQueries" k then
    let '(x, e) := dec_int (QueuedQueries r) v in (mkUIStats (ActiveWorkers r) (RunningQueries r) x, e)
  else (r, false).

Record uiQueryEntry : Type := mkUIQuery { qe_QueryID : string; SessionUser : string; qe_State : string }.
Definition set_ui_query (k : string) (v : json) (r : uiQueryEntry) : uiQueryEntry * bool :=
  if field_is "queryId" k then let '(x, e) := dec_string (qe_QueryID r) v in (mkUIQuery x (SessionUser r) (qe_State r), e)
  else if field_is "sessionUser" k then
    let '(x, e) := dec_string (SessionUser r) v in (mkUIQuery (qe_QueryID r) x (qe_State r), e)
  else if field_is "state" k then let '(x, e) := dec_string (qe_State r) v in (mkUIQuery (qe_QueryID r) (SessionUser r) x, e)
  else (r, false).

(** [json.Unmarshal] into a slice of entries. *)
Fixpoint dec_queries (l : list json) : list uiQueryEntry * bool :=
  match l with
  | [] => ([], false)
  | v :: l => let '(q, e) := dec_struct set_ui_query (mkUIQuery "" "" "") v in
              let '(qs, e') := dec_queries l in (q :: qs, e || e')
  end.
Definition unmarshal_queries (body : string) : list uiQueryEntry * bool :=
  match unmarshal_ast body with
  | Some (JArr l) => dec_queries l
  | Some JNull => ([], false)
  | _ => ([], true)
  end.

Definition ensureLogin (c : uiAPICollector) (proxyTo : string) : ST net (go_result unit * uiAPICollector) :=
  match (if loggedIn c then ui_jar c else None) with
  | Some _ => mret (Ok tt, c)
  | None =>
      let form := "password=" +:+ query_escape (ui_password c) +:+ "&username=" +:+ query_escape (ui_username c) in
      if negb (new_request_ok "POST" (proxyTo +:+ uiLoginPath)) then mret (Err "build request", c) else
      let h := hdr_set "Content-Type" "application/x-www-form-urlencoded" ∅ in
      '(r, jar) ← send (Some new_jar) (OutRequest "POST" (proxyTo +:+ uiLoginPath) h (Ok form));
      match r with
      | CErr e => mret (Err (ce_msg e), c)
      | COk _ => mret (Ok tt, with_session jar true c)
      end
  end.

Definition invalidateSession (c : uiAPICollector) : uiAPICollector := with_session None false c.

(** The retry loop of [get]: attempt [i], with [fuel] the attempts left. A broken body
    yields the bytes read. *)
Fixpoint get_loop (fuel : nat) (i : Z) (c : uiAPICollector) (target : string) :
    ST net (string * Z * uiAPICollector) :=
  match fuel with
  | O => mret ("", 0, c)
  | S fuel =>
      if negb (new_request_ok "GET" target) then mret ("", 0, c) else
      let h := if ui_xForwarded c then hdr_set "X-Forwarded-Proto" "https" ∅ else ∅ in
      '(r, jar) ← send (ui_jar c) (OutRequest "GET" target h (Ok ""));
      let c := with_session jar (loggedIn c) c in
      match r with
      | CErr _ =>
          go ← backoff i (attempts (ui_retries c));
          if go : bool then get_loop fuel (i + 1) c target else mret ("", 0, c)
      | COk resp => mret (resp_body resp, resp_status resp, c)
      end
  end.
Definition ui_get (c : uiAPICollector) (target : string) : ST net (string * Z * uiAPICollector) :=
  get_loop (Z.to_nat (attempts (ui_retries c))) 0 c target.

Definition count_user (m : gmap string Z) (q : uiQueryEntry) : gmap string Z :=
  <[SessionUser q := wrap64 (from_opt 0 (m !! SessionUser q) + 1)]> m.

Definition ui_Collect (c : uiAPICollector) (b : Backend) : ST net (ClusterStats * uiAPICollector) :=
  let cs := statsBuilder b in
  '(login, c) ← ensureLogin c (bk_URL b);
  match login with
  | Err _ => mret (cs, c)
  | Ok _ =>
      '((body, status), c) ← ui_get c (bk_URL b +:+ uiAPIStatsPath);
      let c := if status =? 401 then invalidateSession c else c in
      if body =?s "" then mret (cs, c) else
      let '(stats, bad) := unmarshal set_ui_stats (mkUIStats 0 0 0) body in
      if bad : bool then mret (cs, c) else
      let cs := mkClusterStats (ClusterID cs) (RunningQueries stats) (QueuedQueries stats) (ActiveWorkers stats)
                  (if 0 <? ActiveWorkers stats then Healthy else Unhealthy) (ProxyTo cs) (ExternalURL cs)
                  (cs_RoutingGroup cs) None in
      '((body, status), c) ← ui_get c (bk_URL b +:+ uiAPIQueuedAPIPath);
      let c := if status =? 401 then invalidateSession c else c in
      if body =?s "" then mret (cs, c) else
      let '(queries, bad) := unmarshal_queries body in
      if bad : bool then mret (cs, c) else
      mret (mkClusterStats (ClusterID cs) (RunningQueryCount cs) (QueuedQueryCount cs) (NumWorkerNodes cs)
              (TrinoStatus cs) (ProxyTo cs) (ExternalURL cs) (cs_RoutingGroup cs)
              (Some (foldl count_user ∅ queries)), c)
  end.

(** *** METRICS (metrics.go) *)
Record metricsCollector : Type := mkMetricsCollector {
  mc_endpoint : string; runningName : string; queuedName : string;
  minimums : gmap string f64; maximums : gmap string f64; metricNames : list string;
  authHeaderName : string; authHeaderValue : string; xForwarded : bool; retries : Z }.

(** [add]: a non-empty name that was not seen. *)
Definition add_name (names : list string) (n : string) : list string :=
  if (n =?s "") || existsb (String.eqb n) names then names else names ++ [n].

(** The threshold names are added in map order, which Go leaves unspecified. *)
Definition newMetricsCollector (mon : MonitorConfig) (bs : BackendStateConfig) : metricsCollector :=
  let mins := from_opt ∅ (MetricMinimumValues mon) in
  let maxs := from_opt ∅ (MetricMaximumValues mon) in
  let basic := negb (Password bs =?s "") in
  mkMetricsCollector (MetricsEndpoint mon) (RunningQueriesMetricName mon) (QueuedQueriesMetricName mon) mins maxs
    (foldl add_name [] ([RunningQueriesMetricName mon; QueuedQueriesMetricName mon]
       ++ (map_to_list mins).*1 ++ (map_to_list maxs).*1))
    (if basic then "Authorization" else "X-Trino-User")
    (if basic then "Basic " +:+ b64_encode false true (Username bs +:+ ":" +:+ Password bs) else Username bs)
    (XForwardedProtoHeader bs) (Retries mon).

(** One line of the body: its name and value. *)
Definition metric_line (line : string) : option (string * f64) :=
  if has_prefix "#" line then None else
  '(name, rest) ← cut_byte " " line;
  v ← parse_float exotic_float (trim_space rest);
  Some (name, v).

Definition parse_lines (body : string) : gmap string f64 :=
  foldl (λ m l, match metric_line l with Some (n, v) => <[n := v]> m | None => m end) ∅ (split_on newline body).

Definition parseMetrics (c : metricsCollector) (body : string) : gmap string f64 :=
  let out := parse_lines body in
  if forallb (λ n, bool_decide (is_Some (out !! n))) (metricNames c) then out else ∅.

Definition metrics_target (c : metricsCollector) (baseURL : string) : string :=
  let q := join "&" ((λ n, "name%5B%5D=" +:+ query_escape n) <$> metricNames c) in
  trim_right_byte "/" baseURL +:+ mc_endpoint c +:+ (if q =?s "" then "" else "?" +:+ q).

Fixpoint getMetrics_loop (fuel : nat) (i : Z) (c : metricsCollector) (target : string) : ST net (gmap string f64) :=
  match fuel with
  | O => mret ∅
  | S fuel =>
      if negb (new_request_ok "GET" target) then mret ∅ else
      let h := hdr_set "Content-Type" "application/openmetrics-text; version=1.0.0; charset=utf-8"
                 (hdr_set (authHeaderName c) (authHeaderValue c) ∅) in
      let h := if xForwarded c then hdr_set "X-Forwarded-Proto" "https" h else h in
      '(r, _) ← send None (OutRequest "GET" target h (Ok ""));
      match r with
      | CErr _ =>
          go ← backoff i (attempts (retries c));
          if go : bool then getMetrics_loop fuel (i + 1) c target else mret ∅
      | COk resp =>
          if negb (resp_status resp =? 200) then mret ∅ else mret (parseMetrics c (resp_body resp))
      end
  end.
Definition getMetrics (c : metricsCollector) (baseURL : string) : ST net (gmap string f64) :=
  getMetrics_loop (Z.to_nat (attempts (retries c))) 0 c (metrics_target c baseURL).

Definition unhealthy (b : Backend) : ClusterStats :=
  let cs := statsBuilder b in
  mkClusterStats (ClusterID cs) 0 0 0 Unhealthy (ProxyTo cs) (ExternalURL cs) (cs_RoutingGroup cs) None.

Definition below (metrics : gmap string f64) (t : string * f64) : bool :=
  match metrics !! fst t with None => true | Some v => f64_ltb v (snd t) end.
Definition above (metrics : gmap string f64) (t : string * f64) : bool :=
  match metrics !! fst t with None => true | Some v => f64_ltb (snd t) v end.

(** The verdict on a set of metrics. *)
Definition gate (c : metricsCollector) (b : Backend) (metrics : gmap string f64) : ClusterStats :=
  if bool_decide (metrics = ∅) then unhealthy b
  else if existsb (below metrics) (map_to_list (minimums c)) then unhealthy b
  else if existsb (above metrics) (map_to_list (maximums c)) then unhealthy b
  else let cs := statsBuilder b in
       let count n := f64_to_int64 (from_opt (S754_zero false) (metrics !! n)) in
       mkClusterStats (ClusterID cs) (count (runningName c)) (count (queuedName c)) 0 Healthy (ProxyTo cs)
         (ExternalURL cs) (cs_RoutingGroup cs) None.

Definition metrics_Collect (c : metricsCollector) (b : Backend) : ST net ClusterStats :=
  m ← getMetrics c (bk_URL b); mret (gate c b m).

(** *** Selection (collector.go) *)
Inductive collector : Type :=
| CNoop (status : option (string → Status))
| CInfoAPI (status : option (string → Status))
| CUIAPI (c : uiAPICollector)
| CMetrics (c : metricsCollector).

Definition NewCollector (cfg : ClusterStatsConfig) (mon : MonitorConfig) (bs : BackendStateConfig)
    (monitorStatus : option (string → Status)) : go_result collector :=
  let t := MonitorType cfg in
  if t =?s "NOOP" then Ok (CNoop monitorStatus)
  else if (t =?s "") || (t =?s "INFO_API") then Ok (CInfoAPI monitorStatus)
  else if t =?s "UI_API" then Ok (CUIAPI (newUIAPICollector mon bs))
  else if t =?s "METRICS" then Ok (CMetrics (newMetricsCollector mon bs))
  else Err ("clusterstats: monitor type " +:+ t +:+ " not supported").

Definition Collect (c : collector) (b : Backend) : ST net (ClusterStats * collector) :=
  match c with
  | CNoop st | CInfoAPI st => mret (status_Collect st b, c)
  | CUIAPI u => '(cs, u) ← ui_Collect u b; mret (cs, CUIAPI u)
  | CMetrics m => cs ← metrics_Collect m b; mret (cs, c)
  end.

(** ** Lemmas: what a collection sends and returns *)

(** A request addressed to the backend, up to trailing slashes of its URL. *)
Definition to_backend (b : Backend) (x : option J * out_request) : Prop :=
  has_prefix (trim_right_byte "/" (bk_URL b)) (or_url (snd x)) = true.

(** [m] sends at most [k] requests, all in [T], and returns a value in [Q]. *)
Definition runs (T : option J * out_request → Prop) (k : nat) {A} (m : ST net A) (Q : A → Prop) : Prop :=
  ∀ n, ∃ l, net_sent (snd (m n)) = net_sent n ++ l ∧ (length l ≤ k)%nat ∧ Forall T l ∧ Q (fst (m n)).

Lemma runs_ret T {A} (a : A) (Q : A → Prop) k : Q a → runs T k (mret a) Q.
Proof. intros Ha n. exists []. rewrite app_nil_r. split_and!; try done. cbn. lia. Qed.

Lemma runs_bind T {A B} k1 k2 k (m : ST net A) (f : A → ST net B) Q R :
  runs T k1 m Q → (∀ a, Q a → runs T k2 (f a) R) → (k1 + k2 ≤ k)%nat → runs T k (m ≫= f) R.
Proof.
  intros Hm Hf Hk n. destruct (Hm n) as (l1 & Hs1 & Hl1 & Hb1 & Ha). unfold mbind, ST_bind.
  destruct (m n) as [a n1]. cbn [fst snd] in *. destruct (Hf a Ha n1) as (l2 & Hs2 & Hl2 & Hb2 & HR).
  exists (l1 ++ l2). rewrite Hs2, Hs1, app_assoc, length_app. split_and!; try done; [lia|].
  by apply Forall_app.
Qed.

Lemma runs_weaken T {A} k k' (m : ST net A) Q : runs T k m Q → (k ≤ k')%nat → runs T k' m Q.
Proof. intros Hm Hk n. destruct (Hm n) as (l & ? & ? & ? & ?). exists l. split_and!; try done. lia. Qed.

Lemma runs_send T jar req : T (jar, req) → runs T 1 (send jar req) (λ _, True).
Proof.
  intros Hb n. unfold send. destruct (Do jar req (net_world n)) as [r w]. exists [(jar, req)].
  split_and!; cbn; try done. by constructor.
Qed.

Lemma runs_backoff T i k : runs T 0 (backoff i k) (λ _, True).
Proof.
  unfold backoff. destruct (_ <=? _); [by apply runs_ret|]. intros n. unfold net_wait.
  destruct (wait (net_world n)) as [x w]. exists []. rewrite app_nil_r. by split_and!.
Qed.

Lemma drop_while_suffix p s : ∃ a, s = a +:+ drop_while p s.
Proof.
  induction s as [|c s [a IH]]; [by exists ""|]. cbn [drop_while]. destruct (p c).
  - exists (String c a). by rewrite str_app_cons, <- IH.
  - by exists "".
Qed.

Lemma trim_right_prefix c s : ∃ r, s = trim_right_byte c s +:+ r.
Proof.
  unfold trim_right_byte. destruct (drop_while_suffix (Ascii.eqb c) (str_rev s)) as [a Ha].
  exists (str_rev a). rewrite <- str_rev_app_distr, <- Ha. by rewrite str_rev_involutive.
Qed.

Lemma to_backend_path b jar m h body path : to_backend b (jar, OutRequest m (bk_URL b +:+ path) h body).
Proof.
  unfold to_backend. cbn [or_url snd]. destruct (trim_right_prefix "/" (bk_URL b)) as [r Hr].
  rewrite Hr at 2. rewrite str_app_assoc. apply has_prefix_app.
Qed.

Lemma runs_get_loop T fuel i c target :
  (∀ jar h, T (jar, OutRequest "GET" target h (Ok ""))) →
  runs T fuel (get_loop fuel i c target) (λ _, True).
Proof.
  intros HT.
  revert i c. induction fuel as [|fuel IH]; intros i c; cbn [get_loop]; [by apply runs_ret|].
  destruct (new_request_ok _ _); cbn [negb]; [|by apply runs_ret].
  eapply (runs_bind T 1 fuel); [apply runs_send, HT| |lia].
  intros [[resp|e] jar] _; [by apply runs_ret|].
  eapply (runs_bind T 0 fuel); [apply runs_backoff| |lia].
  intros [|] _; [apply IH|by apply runs_ret].
Qed.

(** The identity fields every collection keeps. *)
Definition identifies (b : Backend) (cs : ClusterStats) : Prop :=
  ClusterID cs = bk_Name b ∧ ProxyTo cs = bk_URL b ∧ ExternalURL cs = bk_ExternalURL b
  ∧ cs_RoutingGroup cs = bk_RoutingGroup b.

Lemma runs_login b c : runs (to_backend b) 1 (ensureLogin c (bk_URL b)) (λ r, ui_retries (snd r) = ui_retries c).
Proof.
  unfold ensureLogin. destruct (if loggedIn c then ui_jar c else None); [by apply runs_ret|].
  destruct (new_request_ok _ _); cbn [negb]; [|by apply runs_ret].
  eapply (runs_bind (to_backend b) 1 0); [apply runs_send, to_backend_path| |lia].
  intros [[resp|e] jar] _; by apply runs_ret.
Qed.

Lemma get_loop_retries fuel i c target n :
  ui_retries (snd (fst (get_loop fuel i c target n))) = ui_retries c.
Proof.
  revert i c n. induction fuel as [|fuel IH]; intros i c n; cbn [get_loop]; [done|].
  destruct (new_request_ok _ _); cbn [negb]; [|done]. unfold mbind, ST_bind.
  destruct (send _ _ n) as [[[resp|e] jar] n1]; [done|].
  destruct (backoff _ _ n1) as [[|] n2]; [|done]. by rewrite IH.
Qed.

Lemma runs_get T c target :
  (∀ jar h, T (jar, OutRequest "GET" target h (Ok ""))) →
  runs T (Z.to_nat (attempts (ui_retries c))) (ui_get c target) (λ r, ui_retries (snd r) = ui_retries c).
Proof.
  intros HT n. unfold ui_get. destruct (runs_get_loop T (Z.to_nat (attempts (ui_retries c))) 0 c target HT n) as (l & ? & ? & ? & _).
  exists l. split_and!; try done. apply get_loop_retries.
Qed.

(** [ui_Collect] sends what its login sends, and GETs. *)
Lemma runs_ui_Collect T b c k :
  runs T k (ensureLogin c (bk_URL b)) (λ r, ui_retries (snd r) = ui_retries c) →
  (∀ jar path h, T (jar, OutRequest "GET" (bk_URL b +:+ path) h (Ok ""))) →
  runs T (k + 2 * Z.to_nat (attempts (ui_retries c))) (ui_Collect c b) (λ r, identifies b (fst r)).
Proof.
  intros Hlogin HT. unfold ui_Collect. eapply runs_bind; [apply Hlogin| |reflexivity].
  intros [[|e] c1] Hr; cbn [snd] in Hr; [|by apply runs_ret].
  eapply (runs_bind T _ (Z.to_nat (attempts (ui_retries c)))); [by apply runs_get| |rewrite Hr; lia].
  intros [[body st] c2] Hr2. cbn [snd] in Hr2.
  assert (Hinv : ui_retries (if st =? 401 then invalidateSession c2 else c2) = ui_retries c)
    by (destruct (st =? 401); cbn; congruence).
  revert Hinv. generalize (if st =? 401 then invalidateSession c2 else c2). intros c3 Hr3.
  destruct (body =?s ""); [by apply runs_ret|].
  destruct (unmarshal set_ui_stats _ body) as [stats [|]]; [by apply runs_ret|].
  eapply (runs_bind T _ 0); [by apply runs_get| |rewrite Hr3; lia].
  intros [[body2 st2] c4] _. destruct (body2 =?s ""); [by apply runs_ret|].
  destruct (unmarshal_queries body2) as [qs [|]]; by apply runs_ret.
Qed.

Lemma runs_getMetrics b fuel i c path :
  runs (to_backend b) fuel (getMetrics_loop fuel i c (trim_right_byte "/" (bk_URL b) +:+ path)) (λ _, True).
Proof.
  revert i. induction fuel as [|fuel IH]; intros i; cbn [getMetrics_loop]; [by apply runs_ret|].
  destruct (new_request_ok _ _); cbn [negb]; [|by apply runs_ret].
  eapply (runs_bind (to_backend b) 1 fuel); [apply runs_send; unfold to_backend; apply has_prefix_app| |lia].
  intros [[resp|e] jar] _; [destruct (_ =? _); by apply runs_ret|].
  eapply (runs_bind (to_backend b) 0 fuel); [apply runs_backoff| |lia].
  intros [|] _; [apply IH|by apply runs_ret].
Qed.

Lemma gate_identifies c b m : identifies b (gate c b m).
Proof. unfold gate. by repeat case_match. Qed.

(** The requests a collection may send. *)
Definition budget (c : collector) : nat :=
  match c with
  | CNoop _ | CInfoAPI _ => 0
  | CUIAPI u => 1 + 2 * Z.to_nat (attempts (ui_retries u))
  | CMetrics m => Z.to_nat (attempts (retries m))
  end.

Lemma runs_Collect c b : runs (to_backend b) (budget c) (Collect c b) (λ r, identifies b (fst r)).
Proof.
  destruct c as [st|st|u|m]; cbn [Collect budget].
  - apply runs_ret. by destruct st.
  - apply runs_ret. by destruct st.
  - eapply runs_bind; [apply runs_ui_Collect; [apply runs_login|intros; apply to_backend_path]| |rewrite Nat.add_0_r; reflexivity].
    intros [cs u'] Hi. by apply runs_ret.
  - eapply (runs_bind (to_backend b) _ 0 _ (metrics_Collect m b) _ (identifies b)); [|intros cs Hi; by apply runs_ret|rewrite Nat.add_0_r; reflexivity].
    unfold metrics_Collect. eapply (runs_bind (to_backend b) _ 0); [apply runs_getMetrics| |rewrite Nat.add_0_r; reflexivity].
    intros ms _. apply runs_ret, gate_identifies.
Qed.
End collectors.

(** ** Theorems *)

(** C37: Whatever the network does, a collection returns the backend's own identity
    fields, sends no more requests than its collector's budget (none for NOOP and
    INFO_API), and sends them to that backend only. *)
Theorem collect_contract {W J} (Do : option J → out_request → ST W (call_result response * option J))
    new_request_ok new_jar wait exotic_float c b n :
  let '((cs, c'), n') := Collect Do new_request_ok new_jar wait exotic_float c b n in
  identifies b cs
  ∧ ∃ l, net_sent n' = net_sent n ++ l ∧ (length l ≤ budget c)%nat ∧ Forall (to_backend b) l.
Proof.
  destruct (runs_Collect Do new_request_ok new_jar wait exotic_float c b n) as (l & Hs & Hl & Hb & Hi).
  destruct (Collect _ _ _ _ _ c b n) as [[cs c'] n']. split; [exact Hi|]. by exists l.
Qed.

Lemma existsb_map_false {A} (p : string * A → bool) (m : gmap string A) :
  existsb p (map_to_list m) = false ↔ ∀ k v, m !! k = Some v → p (k, v) = false.
Proof.
  rewrite <- not_true_iff_false, existsb_exists. split.
  - intros Hn k v Hk. apply not_true_iff_false. intros Hp. apply Hn. exists (k, v). split; [|done].
    by apply list_elem_of_In, elem_of_map_to_list.
  - intros Hp ([k v] & Hin & Ht). apply list_elem_of_In, elem_of_map_to_list in Hin. by rewrite (Hp k v Hin) in Ht.
Qed.

(** The METRICS verdict is HEALTHY exactly when there are metrics, every metric with a
    minimum is present and not below it, and every metric with a maximum is present
    and not above it; otherwise the counts are zero. *)
Theorem metrics_gate_exact c b metrics :
  let cs := gate c b metrics in
  (TrinoStatus cs = Healthy ↔
     metrics ≠ ∅
     ∧ (∀ k lo, minimums c !! k = Some lo → ∃ v, metrics !! k = Some v ∧ f64_ltb v lo = false)
     ∧ (∀ k hi, maximums c !! k = Some hi → ∃ v, metrics !! k = Some v ∧ f64_ltb hi v = false))
  ∧ (TrinoStatus cs ≠ Healthy → cs = unhealthy b).
Proof.
  cbv zeta. unfold gate. case_bool_decide as Hm; [cbn; split; [split; [done|by intros [? _]]|done]|].
  destruct (existsb (below metrics) _) eqn:Hlo.
  { cbn. split; [|done]. split; [done|]. intros (_ & Hmin & _). exfalso.
    apply not_false_iff_true in Hlo. apply Hlo, existsb_map_false. intros k v Hk.
    destruct (Hmin k v Hk) as (x & Hx & Hlt). unfold below. cbn. by rewrite Hx. }
  destruct (existsb (above metrics) _) eqn:Hhi.
  { cbn. split; [|done]. split; [done|]. intros (_ & _ & Hmax). exfalso.
    apply not_false_iff_true in Hhi. apply Hhi, existsb_map_false. intros k v Hk.
    destruct (Hmax k v Hk) as (x & Hx & Hlt). unfold above. cbn. by rewrite Hx. }
  cbn. split; [|done]. split; [|done]. intros _. split; [done|].
  rewrite existsb_map_false in Hlo, Hhi. split; intros k t Hk.
  - specialize (Hlo k t Hk). unfold below in Hlo. cbn in Hlo. destruct (metrics !! k) as [v|]; [eauto|done].
  - specialize (Hhi k t Hk). unfold above in Hhi. cbn in Hhi. destruct (metrics !! k) as [v|]; [eauto|done].
Qed.

(** The session is the collector's, not the backend's: once logged in anywhere, a
    collection for another backend sends no login there. *)
Theorem ui_session_is_shared {W J} (Do : option J → out_request → ST W (call_result response * option J))
    new_request_ok new_jar wait exotic_float c b j n :
  loggedIn c = true → ui_jar c = Some j →
  let '(_, n') := Collect Do new_request_ok new_jar wait exotic_float (CUIAPI c) b n in
  ∃ l, net_sent n' = net_sent n ++ l ∧ Forall (λ x, or_method (snd x) = "GET") l.
Proof.
  intros Hl Hj. cbn [Collect].
  assert (Hr : runs (λ x, or_method (snd x) = "GET") (0 + 2 * Z.to_nat (attempts (ui_retries c)))
                 (ui_Collect Do new_request_ok new_jar wait c b) (λ r, identifies b (fst r))).
  { apply runs_ui_Collect; [|done]. unfold ensureLogin. rewrite Hl, Hj. by apply runs_ret. }
  destruct (Hr n) as (l & Hs & _ & HT & _). unfold mbind, ST_bind.
  destruct (ui_Collect _ _ _ _ c b n) as [[cs u] n1]. by exists l.
Qed.

Definition w_do (jar : option unit) (req : out_request) : ST unit (call_result response * option unit) :=
  λ w, ((COk (Response 200 ∅ "" None), jar), w).
Definition w_ui : uiAPICollector (J := unit) := mkUIAPI "admin" "secret" false 0 (Some tt) true.

Lemma ui_session_is_shared_witness :
  let '(_, n') := Collect w_do (λ _ _, true) tt (λ w, (true, w)) (λ _, None) (CUIAPI w_ui)
                    (mkBackend "b2" "http://b2" "" "etl") (mkNet tt []) in
  ∃ l, net_sent n' = [] ++ l ∧ Forall (λ x, or_method (snd x) = "GET") l.
Proof.
  exact (ui_session_is_shared w_do (λ _ _, true) tt (λ w, (true, w)) (λ _, None) w_ui
           (mkBackend "b2" "http://b2" "" "etl") tt (mkNet tt []) eq_refl eq_refl).
Defined.

Example parse_float_ex :
  let pf := parse_float (λ _, None) in
  pf "1e+06" = Some (f64_of_Z 1000000) ∧ pf "+Inf" = Some (S754_infinity false) ∧ pf "NaN" = Some S754_nan
  ∧ pf "0.5" = Some (f64_div (f64_of_Z 1) (f64_of_Z 2)) ∧ pf "1e400" = None ∧ pf "1.5x" = None ∧ pf "." = None.
Proof. vm_compute. repeat split. Qed.
