(* ===== verification/Monitor.v ===== *)
(** * The health monitor (internal/monitor/monitor.go)

    Probe cycles over the backend set, the published status map, and the notification
    of observers. One cycle's HTTP answers are an oracle on requests; its goroutines
    finish in any order [order]. Statistics collection is a parameter that is handed
    the monitor's verdicts of the same tick. *)
From S2P Require Import Prelude GoStrings GoNumeric Json HttpModel Config Routing ClusterStats.

#[local] Open Scope Z_scope.

(** What the monitor tells its observers, and the first-tick callback. *)
Inductive observation : Type :=
| ObsStatuses (statuses : gmap string Status) (names : gmap string string)
| ObsStats (snapshot : gmap string ClusterStats)
| FirstTick.

Record Monitor : Type := mkMonitor {
  status : gmap string Status; backends : list Backend; firstTickDone : bool; observed : list observation }.
Definition New : Monitor := mkMonitor ∅ [] false [].

Definition set_status (st : gmap string Status) (m : Monitor) : Monitor :=
  mkMonitor st (backends m) (firstTickDone m) (observed m).
Definition observe (o : observation) (m : Monitor) : Monitor :=
  mkMonitor (status m) (backends m) (firstTickDone m) (observed m ++ [o]).

Section monitor.
(** Which of the optional collaborators are set. *)
Context (has_observer has_stats has_first_tick : bool).

Definition backend_names (bs : list Backend) : gmap string string :=
  foldl (λ m b, <[bk_URL b := bk_Name b]> m) ∅ bs.

Definition notifyObserver (m : Monitor) : Monitor :=
  if has_observer then
    let names := backend_names (backends m) in
    observe (ObsStatuses (map_imap (λ url _, Some (from_opt Pending (status m !! url))) names) names) m
  else m.

Definition SetBackends (bs : list Backend) (m : Monitor) : Monitor :=
  notifyObserver (mkMonitor (status m) bs (firstTickDone m) (observed m)).

Definition m_Status (m : Monitor) (url : string) : Status := from_opt Unknown (status m !! url).

Definition SetBackendStatus (url : string) (s : Status) (m : Monitor) : Monitor :=
  notifyObserver (set_status (<[url := s]> (status m)) m).

Definition AllStatuses (m : Monitor) : gmap string Status := status m.

(** [Start] refuses a zero interval or timeout. *)
Definition Start (cfg : MonitorConfig) : go_result unit :=
  if Interval cfg =? 0 then Err "monitor: start: interval must be > 0"
  else if CheckTimeout cfg =? 0 then Err "monitor: start: checkTimeout must be > 0"
  else Ok tt.

(** ** One probe *)
Context (new_request_ok : string → bool) (Do : out_request → call_result response).

Record trinoInfoResponse : Type := mkInfo { Starting : bool }.
Definition set_info (k : string) (v : json) (r : trinoInfoResponse) : trinoInfoResponse * bool :=
  if field_is "starting" k then let '(x, e) := dec_bool (Starting r) v in (mkInfo x, e) else (r, false).

Definition checkOne (url : string) : Status :=
  let target := url +:+ "/v1/info" in
  if negb (new_request_ok target) then Unhealthy else
  match Do (OutRequest "GET" target ∅ (Ok "")) with
  | CErr _ => Unhealthy
  | COk resp =>
      if negb (resp_status resp =? 200) then Unhealthy else
      let '(info, bad) := decode_stream set_info (mkInfo false) (resp_body resp) in
      if bad : bool then Unhealthy else if Starting info then Pending else Healthy
  end.

(** ** One cycle *)

(** [N] is what collections read and change; they see the verdicts just published. *)
Context {N : Type} (collect : (string → Status) → Backend → ST N ClusterStats).
(** The order in which the goroutines of a cycle store their results. *)
Context (order : list Backend → list Backend).

Fixpoint collect_all (st : string → Status) (bs : list Backend) (acc : gmap string ClusterStats) :
    ST N (gmap string ClusterStats) :=
  match bs with
  | [] => mret acc
  | b :: bs => cs ← collect st b; collect_all st bs (<[bk_Name b := cs]> acc)
  end.

Definition collectStats (bs : list Backend) (m : Monitor) : ST N Monitor :=
  if has_stats then
    snapshot ← collect_all (m_Status m) (order bs) ∅;
    mret (observe (ObsStats snapshot) m)
  else mret m.

Definition probe_results (bs : list Backend) : gmap string Status :=
  foldl (λ m b, <[bk_URL b := checkOne (bk_URL b)]> m) ∅ (order bs).

(** The deferred [firstTickOnce]. *)
Definition first_tick (m : Monitor) : Monitor :=
  if firstTickDone m then m
  else mkMonitor (status m) (backends m) true (observed m ++ (if has_first_tick then [FirstTick] else [])).

Definition probe (m : Monitor) : ST N Monitor :=
  match backends m with
  | [] => mret (first_tick m)
  | bs =>
      let m := notifyObserver (set_status (probe_results bs) m) in
      m ← collectStats bs m;
      mret (first_tick m)
  end.
End monitor.

(** ** Concurrent status updates *)

(** [SetBackendStatus] loads the map, copies it and stores the copy; nothing prevents
    another store in between. *)
Inductive upd_pc : Type :=
| UStart (url : string) (s : Status)
| ULoaded (url : string) (s : Status) (old : gmap string Status)
| UDone.
Record upd_state : Type := mkUpd { cell : gmap string Status; upd_threads : list upd_pc }.

Inductive upd_step : upd_state → upd_state → Prop :=
| upd_load st i url s :
    upd_threads st !! i = Some (UStart url s) →
    upd_step st (mkUpd (cell st) (<[i := ULoaded url s (cell st)]> (upd_threads st)))
| upd_store st i url s old :
    upd_threads st !! i = Some (ULoaded url s old) →
    upd_step st (mkUpd (<[url := s]> old) (<[i := UDone]> (upd_threads st))).

(** ** Lemmas *)
Lemma foldl_insert_notin {A V} (f : A → string) (g : A → V) l (acc : gmap string V) k :
  (∀ b, b ∈ l → f b ≠ k) → foldl (λ m b, <[f b := g b]> m) acc l !! k = acc !! k.
Proof.
  revert acc. induction l as [|b l IH]; intros acc Hn; [done|]. cbn [foldl].
  rewrite IH by (intros; apply Hn; by right). apply lookup_insert_ne, Hn. left.
Qed.

Lemma foldl_insert_in {A V} (f : A → string) (g : A → V) l (acc : gmap string V) k v :
  (∃ b, b ∈ l ∧ f b = k) → (∀ b, b ∈ l → f b = k → g b = v) →
  foldl (λ m b, <[f b := g b]> m) acc l !! k = Some v.
Proof.
  revert acc. induction l as [|b l IH]; intros acc (x & Hx & Hk) Hv; [by apply elem_of_nil in Hx|]. cbn [foldl].
  destruct (decide (k ∈ f <$> l)) as [Hy|Hy].
  - apply list_elem_of_fmap in Hy as (y & -> & Hy). apply IH; [by exists y|]. intros z Hz. apply Hv. by right.
  - rewrite foldl_insert_notin by (intros y Hyl Hyk; apply Hy, list_elem_of_fmap; by exists y).
    apply elem_of_cons in Hx as [->|Hx]; [|exfalso; apply Hy, list_elem_of_fmap; by exists x].
    rewrite Hk, lookup_insert_eq. f_equal. apply Hv; [left|done].
Qed.

Section lemmas.
Context (has_observer has_stats has_first_tick : bool).
Context (new_request_ok : string → bool) (Do : out_request → call_result response).
Context {N : Type} (collect : (string → Status) → Backend → ST N ClusterStats).
Context (order : list Backend → list Backend) (Horder : ∀ l, order l ≡ₚ l).

Lemma probe_results_lookup bs url :
  probe_results new_request_ok Do order bs !! url
  = if decide (url ∈ bk_URL <$> bs) then Some (checkOne new_request_ok Do url) else None.
Proof.
  unfold probe_results. case_decide as Hin.
  - apply list_elem_of_fmap in Hin as (b & -> & Hb).
    apply (foldl_insert_in bk_URL (λ b, checkOne new_request_ok Do (bk_URL b))).
    + exists b. by rewrite Horder.
    + by intros b' _ ->.
  - rewrite (foldl_insert_notin bk_URL (λ b, checkOne new_request_ok Do (bk_URL b))); [apply lookup_empty|].
    intros b Hb <-. apply Hin, list_elem_of_fmap. exists b. by rewrite <- (Horder bs).
Qed.

Lemma backend_names_lookup bs url : is_Some (backend_names bs !! url) ↔ url ∈ bk_URL <$> bs.
Proof.
  unfold backend_names. rewrite list_elem_of_fmap. split.
  - intros [v Hv]. destruct (decide (url ∈ bk_URL <$> bs)) as [Hin|Hn]; [by apply list_elem_of_fmap in Hin|].
    rewrite (foldl_insert_notin bk_URL bk_Name) in Hv; [done|].
    intros b Hb <-. apply Hn, list_elem_of_fmap. by exists b.
  - intros (b & -> & Hb). induction bs as [|x bs IH] using rev_ind; [by apply elem_of_nil in Hb|].
    rewrite foldl_app. cbn [foldl]. destruct (decide (bk_URL x = bk_URL b)) as [-> |Hne].
    + rewrite lookup_insert_eq. eauto.
    + rewrite lookup_insert_ne by done. apply IH. apply elem_of_app in Hb as [Hb|Hb]; [done|].
      apply list_elem_of_singleton in Hb. congruence.
Qed.

(** A status function of the tick, seen by every collection of the tick. *)
Lemma collect_all_lookup st bs acc n :
  NoDup (bk_Name <$> bs) →
  let '(snap, _) := collect_all collect st bs acc n in
  (∀ b, b ∈ bs → ∃ n1 n2 cs, collect st b n1 = (cs, n2) ∧ snap !! bk_Name b = Some cs)
  ∧ (∀ k, k ∉ bk_Name <$> bs → snap !! k = acc !! k).
Proof.
  revert acc n. induction bs as [|b bs IH]; intros acc n Hnd; cbn [collect_all].
  { cbn. split; [by intros b ?%elem_of_nil|done]. }
  cbn in Hnd. apply NoDup_cons in Hnd as [Hb Hnd]. unfold mbind, ST_bind.
  destruct (collect st b n) as [cs n1] eqn:Hc. specialize (IH (<[bk_Name b := cs]> acc) n1 Hnd).
  destruct (collect_all collect st bs (<[bk_Name b := cs]> acc) n1) as [snap n2]. destruct IH as [IH1 IH2]. split.
  - intros x [->|Hx]%elem_of_cons; [|by apply IH1]. exists n, n1, cs. split; [done|].
    by rewrite IH2, lookup_insert_eq.
  - intros k Hk. cbn in Hk. apply not_elem_of_cons in Hk as [Hk1 Hk2]. rewrite IH2 by done.
    by apply lookup_insert_ne.
Qed.
End lemmas.

(** ** Theorems *)
Definition is_first_tick (o : observation) : bool := match o with FirstTick => true | _ => false end.
Definition first_ticks (m : Monitor) : nat := length (List.filter is_first_tick (observed m)).

Lemma first_ticks_app m os :
  first_ticks (mkMonitor (status m) (backends m) (firstTickDone m) (observed m ++ os))
  = (first_ticks m + length (List.filter is_first_tick os))%nat.
Proof. unfold first_ticks. cbn [observed]. by rewrite List.filter_app, length_app. Qed.

Lemma notify_frame ho m :
  let m' := notifyObserver ho m in
  status m' = status m ∧ backends m' = backends m ∧ firstTickDone m' = firstTickDone m
  ∧ first_ticks m' = first_ticks m ∧ ∃ os, observed m' = observed m ++ os.
Proof.
  cbv zeta. unfold notifyObserver. destruct ho; [|by split_and!; [..|exists []; rewrite app_nil_r]].
  split_and!; try done; [|by eexists]. unfold observe. rewrite first_ticks_app. cbn. lia.
Qed.

Lemma first_tick_frame ft m :
  let m' := first_tick ft m in
  status m' = status m ∧ backends m' = backends m ∧ firstTickDone m' = true
  ∧ first_ticks m' = (first_ticks m + (if firstTickDone m then 0 else if ft then 1 else 0))%nat
  ∧ ∃ os, observed m' = observed m ++ os.
Proof.
  cbv zeta. unfold first_tick. destruct (firstTickDone m) eqn:E.
  - split_and!; try done; try lia. exists []. by rewrite app_nil_r.
  - split_and!; try done; [|by eexists]. unfold first_ticks. cbn [observed].
    rewrite List.filter_app, length_app. by destruct ft.
Qed.

(** A probe cycle publishes the verdict of every backend of the set and nothing else:
    a URL outside the set reads as unknown; the observer is told the same verdicts; and
    the readiness callback runs in the first cycle only. *)
Theorem probe_publishes_verdicts ho hs ft new_request_ok Do {N} (collect : _ → Backend → ST N ClusterStats)
    order m n :
  (∀ l, order l ≡ₚ l) → backends m ≠ [] →
  let check := checkOne new_request_ok Do in
  let m' := fst (probe ho hs ft new_request_ok Do collect order m n) in
  backends m' = backends m
  ∧ (∀ url, m_Status m' url = if decide (url ∈ bk_URL <$> backends m) then check url else Unknown)
  ∧ (ho = true → ∃ statuses names, ObsStatuses statuses names ∈ observed m'
       ∧ ∀ url, statuses !! url = if decide (url ∈ bk_URL <$> backends m) then Some (check url) else None)
  ∧ firstTickDone m' = true
  ∧ first_ticks m' = (first_ticks m + (if firstTickDone m then 0 else if ft then 1 else 0))%nat.
Proof.
  intros Ho Hb. cbv zeta. unfold probe. destruct (backends m) as [|b0 bs0] eqn:Hbs; [done|].
  rewrite <- Hbs. set (m1 := set_status (probe_results _ _ _ _) m).
  destruct (notify_frame ho m1) as (Hst & Hbk & Hd & Hf & os1 & Hobs1).
  set (m2 := notifyObserver ho m1) in *. unfold mbind, ST_bind.
  destruct (collectStats hs collect order (backends m) m2 n) as [m3 n3] eqn:Hc.
  assert (H3 : status m3 = status m2 ∧ backends m3 = backends m2 ∧ firstTickDone m3 = firstTickDone m2
               ∧ first_ticks m3 = first_ticks m2 ∧ ∃ os, observed m3 = observed m2 ++ os).
  { unfold collectStats in Hc. destruct hs.
    - unfold mbind, ST_bind in Hc. destruct (collect_all _ _ _ _ n) as [snap n2]. injection Hc as <- <-.
      split_and!; try done; [|by eexists]. unfold observe. rewrite first_ticks_app. cbn. lia.
    - injection Hc as <- <-. split_and!; try done. exists []. by rewrite app_nil_r. }
  destruct H3 as (Hst3 & Hbk3 & Hd3 & Hf3 & os3 & Hobs3).
  destruct (first_tick_frame ft m3) as (Hst4 & Hbk4 & Hd4 & Hf4 & os4 & Hobs4). cbn [fst mret ST_ret].
  split_and!.
  - by rewrite Hbk4, Hbk3, Hbk.
  - intros url. unfold m_Status. rewrite Hst4, Hst3, Hst. unfold m1. cbn [status set_status].
    rewrite probe_results_lookup by done. by case_decide.
  - intros ->. unfold m2, notifyObserver in Hobs3. cbn [observe observed] in Hobs3.
    eexists _, _. split; [rewrite Hobs4, Hobs3; rewrite !elem_of_app; left; left; right; by left|].
    intros url. rewrite map_lookup_imap. unfold m1. cbn [set_status backends status].
    pose proof (backend_names_lookup (backends m) url) as Hn.
    case_decide as Hin.
    + apply Hn in Hin as [v Hv]. rewrite Hv. cbn. rewrite probe_results_lookup by done.
      rewrite decide_True by (apply Hn; eauto). done.
    + destruct (backend_names (backends m) !! url) as [v|] eqn:Hv; [|done]. exfalso. apply Hin, Hn. eauto.
  - done.
  - rewrite Hf4, Hf3, Hf, Hd3, Hd. done.
Qed.

(** With the default collector, the statistics a cycle publishes carry the health
    verdict of the same cycle: what the admin API reads under a backend's name is what
    routing reads under its URL. *)
Theorem tick_stats_match_health ho ft new_request_ok Do order m (n : unit) :
  (∀ l, order l ≡ₚ l) → backends m ≠ [] → NoDup (bk_Name <$> backends m) →
  let m' := fst (probe ho true ft new_request_ok Do (λ st b, mret (status_Collect (Some st) b)) order m n) in
  ∃ snap, ObsStats snap ∈ observed m'
    ∧ ∀ b store, b ∈ backends m →
        let cs := Stats (ObserveStats snap store) (bk_Name b) in
        identifies b cs ∧ TrinoStatus cs = checkOne new_request_ok Do (bk_URL b)
        ∧ TrinoStatus cs = m_Status m' (bk_URL b).
Proof.
  intros Ho Hb Hnd. cbv zeta. unfold probe. destruct (backends m) as [|b0 bs0] eqn:Hbs; [done|].
  rewrite <- Hbs in *. set (m1 := set_status (probe_results _ _ _ _) m).
  destruct (notify_frame ho m1) as (Hst & _). set (m2 := notifyObserver ho m1) in *.
  unfold mbind, ST_bind, collectStats, mbind, ST_bind.
  pose proof (collect_all_lookup (λ st b, mret (status_Collect (Some st) b)) (m_Status m2) (order (backends m)) ∅ n) as Hca.
  destruct (collect_all _ _ _ _ n) as [snap n2]. cbn [fst mret ST_ret].
  destruct (first_tick_frame ft (observe (ObsStats snap) m2)) as (Hst4 & _ & _ & _ & os4 & Hobs4).
  assert (Hnd' : NoDup (bk_Name <$> order (backends m))) by (by rewrite Ho).
  destruct (Hca Hnd') as [Hin _]. exists snap.
  split; [rewrite Hobs4; cbn [observe observed]; rewrite !elem_of_app; left; right; by left|].
  intros b store Hbin. destruct (Hin b) as (n1 & n3 & cs & Hc & Hs); [by rewrite Ho|].
  injection Hc as <- _. unfold Stats, ObserveStats. rewrite Hs. cbn [from_opt status_Collect TrinoStatus].
  assert (Hv : m_Status m2 (bk_URL b) = checkOne new_request_ok Do (bk_URL b)).
  { unfold m_Status. rewrite Hst. unfold m1. cbn [status set_status]. rewrite probe_results_lookup by done.
    rewrite decide_True by (apply list_elem_of_fmap; by exists b). done. }
  split_and!; try done. rewrite Hv. unfold m_Status in *. by rewrite Hst4.
Qed.

(** Two concurrent [SetBackendStatus] calls can lose an update: the one that stores
    last writes back what the other's map said before. *)
Theorem set_backend_status_loses_update u1 u2 s1 s2 :
  u1 ≠ u2 →
  ∃ st, rtc upd_step (mkUpd ∅ [UStart u1 s1; UStart u2 s2]) st ∧ upd_threads st = [UDone; UDone]
      ∧ cell st !! u1 = None ∧ cell st !! u2 = Some s2.
Proof.
  intros Hne. eexists. split.
  - eapply rtc_l; [by eapply (upd_load _ 0)|]. eapply rtc_l; [by eapply (upd_load _ 1)|].
    eapply rtc_l; [by eapply (upd_store _ 0)|]. eapply rtc_l; [by eapply (upd_store _ 1)|]. apply rtc_refl.
  - cbn. split; [done|]. by rewrite lookup_insert_ne, lookup_empty, lookup_insert_eq.
Qed.

(** ** Witnesses: one backend up, one starting *)
Definition w_info (starting : bool) : response :=
  Response 200 ∅ (print_json (JObj [("starting", JBool starting)])) None.
Definition w_oracle (req : out_request) : call_result response :=
  if or_url req =?s "http://b1/v1/info" then COk (w_info false)
  else if or_url req =?s "http://b2/v1/info" then COk (w_info true)
  else CErr (mkCallError "refused" false).
Definition w_set : Monitor :=
  SetBackends true [mkBackend "b1" "http://b1" "" "adhoc"; mkBackend "b2" "http://b2" "" "etl"] New.
Definition w_collect (st : string → Status) (b : Backend) : ST unit ClusterStats := mret (status_Collect (Some st) b).
Definition w_probed : Monitor := fst (probe true true true (λ _, true) w_oracle w_collect reverse w_set tt).

Lemma probe_publishes_verdicts_witness :
  m_Status w_probed "http://b1" = Healthy ∧ m_Status w_probed "http://b2" = Pending
  ∧ m_Status w_probed "http://b3" = Unknown ∧ first_ticks w_probed = 1%nat.
Proof.
  destruct (probe_publishes_verdicts true true true (λ _, true) w_oracle w_collect reverse w_set tt)
    as (_ & Hs & _ & _ & Hf).
  - apply reverse_Permutation.
  - discriminate.
  - fold w_probed in Hs, Hf. rewrite !Hs, Hf. vm_compute. split_and!; reflexivity.
Defined.

Lemma tick_stats_match_health_witness :
  ∃ snap, ObsStats snap ∈ observed w_probed
    ∧ TrinoStatus (Stats (ObserveStats snap NewStatsStore) "b2") = Pending.
Proof.
  destruct (tick_stats_match_health true true (λ _, true) w_oracle reverse w_set tt) as (snap & Hin & Hs).
  - apply reverse_Permutation.
  - discriminate.
  - apply (bool_decide_unpack _). vm_compute. exact I.
  - exists snap. split; [exact Hin|].
    destruct (Hs (mkBackend "b2" "http://b2" "" "etl") NewStatsStore) as (_ & H & _); [right; left|].
    cbn [bk_Name bk_URL] in H. rewrite H. vm_compute. reflexivity.
Defined.

Lemma set_backend_status_loses_update_witness :
  ∃ st, rtc upd_step (mkUpd ∅ [UStart "http://b1" Pending; UStart "http://b2" Unhealthy]) st
      ∧ upd_threads st = [UDone; UDone] ∧ cell st !! "http://b1" = None.
Proof.
  destruct (set_backend_status_loses_update "http://b1" "http://b2" Pending Unhealthy) as (st & H1 & H2 & H3 & _);
    [discriminate|]. exists st. split; [exact H1|]. split; [exact H2|exact H3].
Defined.
