(* ===== verification/Auth.v ===== *)
(** * Authentication and roles (internal/auth)

    The middlewares (none, OIDC bearer tokens, LDAP basic credentials), role checks,
    page permissions, and the client side of the interactive OIDC login. Token verification ([jwt] with a
    key set), the LDAP connection, the HTTP client, the random source and Go's regular
    expressions are parameters. Operands that
    error texts quote (URLs, user names) are left out of them; the texts are only
    logged. A handler gets the principal the context carries. *)
From S2P Require Import Prelude GoStrings Json Codec HttpModel Config Routing ClusterStats.

#[local] Open Scope Z_scope.

Record Principal : Type := mkPrincipal { pr_Name : string; MemberOf : string }.

(** ** Replies *)
Inductive body : Type := BText (s : string) | BJson (j : json).
Record reply : Type := mkReply {
  rp_status : Z; rp_header : header; rp_cookies : list set_cookie; rp_body : body }.

Definition json_header : header := hdr_set "Content-Type" "application/json" ∅.
Definition writeUnauthorized (msg : string) : reply :=
  mkReply 401 (hdr_set "WWW-Authenticate" "Bearer" json_header) [] (BJson (JObj [("error", JStr msg)])).
Definition forbidden : reply := mkReply 403 json_header [] (BJson (JObj [("error", JStr "forbidden")])).

(** What the middlewares count. *)
Inductive auth_event : Type :=
| AuthRequest (authType result : string)
| JWKSRefresh (result : string)
| JWKSKeys (n : nat).
Definition TypeOIDC := "oidc".
Definition TypeLDAP := "ldap".
Definition TypeNoop := "noop".
Definition ResultAllow := "allow".
Definition ResultDeny := "deny".

(** A handler over a state [S]; the events it emits come first. *)
Definition handler (S : Type) : Type := option Principal → request → ST S (reply * list auth_event).
Definition Middleware (S : Type) : Type := handler S → handler S.

Definition count {S} (e : auth_event) (m : ST S (reply * list auth_event)) : ST S (reply * list auth_event) :=
  '(r, es) ← m; mret (r, e :: es).
Definition deny {S} (authType msg : string) : ST S (reply * list auth_event) :=
  mret (writeUnauthorized msg, [AuthRequest authType ResultDeny]).

(** ** Roles (roles.go) *)
Definition RoleAdmin := "ADMIN".
Definition RoleUser := "USER".
Definition RoleAPI := "API".

Section roles.
(** [regexp.MatchString]: [None] for a pattern that does not compile. *)
Context (MatchString : string → string → option bool).

Definition role_pattern (role : string) (cfg : AuthorizationConfig) : string :=
  if role =?s RoleAdmin then AdminRegex cfg
  else if role =?s RoleUser then UserRegex cfg
  else if role =?s RoleAPI then APIRegex cfg else "".

Definition HasRole (p : option Principal) (role : string) (cfg : AuthorizationConfig) : bool :=
  match p with
  | None => false
  | Some p =>
      let pattern := role_pattern role cfg in
      if pattern =?s "" then false else from_opt false (MatchString pattern (MemberOf p))
  end.

Definition RequireRole {S} (role : string) (cfg : AuthorizationConfig) : Middleware S := λ next p r,
  if HasRole p role cfg then next p r else mret (forbidden, []).

(** The loop over the pages of one role. *)
Definition add_page (out : list string) (page : string) : list string :=
  if (page =?s "") || existsb (String.eqb page) out then out else out ++ [page].

Definition ResolvePagePermissions (roles : list string) (perms : gmap string string) : list string :=
  if bool_decide (roles = []) || bool_decide (perms = ∅) then []
  else if existsb (λ role, bool_decide (perms !! role = None)) roles then []
  else foldl (λ out role, foldl add_page out (split_on "_" (from_opt "" (perms !! role)))) [] roles.
End roles.

(** ** No authentication (noop.go) *)
Definition Noop {S} : Middleware S := λ next _ r,
  count (AuthRequest TypeNoop ResultAllow) (next (Some (mkPrincipal "anonymous" "")) r).

(** ** OIDC bearer tokens (oidc.go) *)
Definition bearerToken (r : request) : string :=
  let v := hdr_get (req_header r) "Authorization" in
  if has_prefix "Bearer " v then str_drop 7 v else "".

Definition claims : Type := gmap string json.
Definition str_items (l : list json) : list string :=
  omap (λ v, match v with JStr s => Some s | _ => None end) l.

(** The first of the two claims that has a usable type. *)
Definition groupsClaim (c : gmap string json) : string :=
  let from v := match v with
                | Some (JStr s) => Some s
                | Some (JArr l) => Some (join "," (str_items l))
                | _ => None
                end in
  match from (c !! "groups") with
  | Some s => s
  | None => from_opt "" (from (c !! "memberOf"))
  end.

Definition subject (c : gmap string json) : string := match c !! "sub" with Some (JStr s) => s | _ => "" end.

Section oidc.
(** A key set, and parsing a token against it: its claims when the signature and the
    registered time claims hold. *)
Context {K : Type} (ParseWithClaims : K → string → option (gmap string json)).

Definition OIDC_Handler {S} (jwks : option K) : Middleware S := λ next _ r,
  let raw := bearerToken r in
  if raw =?s "" then deny TypeOIDC "missing Bearer token"
  else match jwks with
       | None => deny TypeOIDC "JWKS not available"
       | Some k =>
           match ParseWithClaims k raw with
           | None => deny TypeOIDC "invalid token"
           | Some c =>
               count (AuthRequest TypeOIDC ResultAllow)
                 (next (Some (mkPrincipal (subject c) (groupsClaim c))) r)
           end
       end.

(** [doRefresh]: what fetching gives is a key set and its number of keys; an empty or
    unreadable one leaves the stored set. *)
Definition doRefresh (fetched : go_result (K * go_result nat)) (jwks : option K) : go_result unit * option K * list auth_event :=
  match fetched with
  | Err e => (Err e, jwks, [])
  | Ok (k, keys) =>
      match keys with
      | Err e => (Err ("read keys: " +:+ e), jwks, [])
      | Ok O => (Err "JWKS returned no keys", jwks, [])
      | Ok n => (Ok tt, Some k, [JWKSKeys n])
      end
  end.

Definition refresh (fetched : go_result (K * go_result nat)) (jwks : option K) : go_result unit * option K * list auth_event :=
  let '(r, jwks', es) := doRefresh fetched jwks in
  match r with
  | Err e => (Err e, jwks', es ++ [JWKSRefresh "error"])
  | Ok _ => (Ok tt, jwks', es ++ [JWKSRefresh "success"])
  end.

(** [NewOIDC]: the first fetch must succeed; the stored pointer of the middleware. *)
Definition NewOIDC (fetched : go_result (K * go_result nat)) : go_result (option K) :=
  match refresh fetched None with
  | (Ok _, jwks, _) => Ok jwks
  | (Err e, _, _) => Err ("auth: oidc: initial JWKS fetch: " +:+ e)
  end.

(** The refresher: one fetch per tick, its error only logged. *)
Definition refresher (fetches : list (go_result (K * go_result nat))) (jwks : option K) : option K :=
  foldl (λ jwks f, (refresh f jwks).1.2) jwks fetches.
End oidc.

(** ** LDAP (ldap.go) *)

(** [Request.BasicAuth]: the scheme is compared without case. *)
Definition BasicAuth (r : request) : option (string * string) :=
  let v := hdr_get (req_header r) "Authorization" in
  if (String.length v <? 6)%nat || negb (to_lower (str_take 6 v) =?s "basic ") then None else
  c ← b64_decode false true (str_drop 6 v);
  cut_byte ":" c.

Section ldap.
(** The directory: dialling, binding and searching, as functions of what is sent. *)
Record entry : Type := mkEntry { e_DN : string; e_memberOf : list string }.
Record directory : Type := mkDirectory {
  DialURL : string → option string;             (* an error, if any *)
  Bind : string → string → option string;       (* an error, if any *)
  Search : string → string → go_result (list entry);
  EscapeFilter : string → string }.
Context (dir : directory) (cfg : LDAPConfig).

Definition user_filter (username : string) : string :=
  let attr := if UserAttr cfg =?s "" then "uid" else UserAttr cfg in
  "(" +:+ attr +:+ "=" +:+ EscapeFilter dir username +:+ ")".

Definition authenticate (username password : string) : go_result string :=
  match DialURL dir (ldap_URL cfg) with
  | Some e => Err ("auth: ldap: dial: " +:+ e)
  | None =>
      match (if BindDN cfg =?s "" then None else Bind dir (BindDN cfg) (BindPass cfg)) with
      | Some e => Err ("auth: ldap: service bind: " +:+ e)
      | None =>
          match Search dir (UserBase cfg) (user_filter username) with
          | Err e => Err ("auth: ldap: search: " +:+ e)
          | Ok [] => Err "auth: ldap: user not found"
          | Ok (e0 :: _) =>
              match Bind dir (e_DN e0) password with
              | Some e => Err ("auth: ldap: user bind: " +:+ e)
              | None => Ok (from_opt "" (head_opt (e_memberOf e0)))
              end
          end
      end
  end.

Definition LDAP_Handler {S} : Middleware S := λ next _ r,
  match BasicAuth r with
  | None => deny TypeLDAP "Basic auth required"
  | Some (username, password) =>
      if (username =?s "") || (password =?s "") then deny TypeLDAP "Basic auth required"
      else match authenticate username password with
           | Err _ => deny TypeLDAP "invalid credentials"
           | Ok memberOf =>
               count (AuthRequest TypeLDAP ResultAllow) (next (Some (mkPrincipal username memberOf)) r)
           end
  end.
End ldap.

(** ** Interactive login (weblogin.go) *)

(** [url.QueryUnescape]. *)
Fixpoint query_unescape (s : string) : option string :=
  match s with
  | EmptyString => Some ""
  | String c r =>
      if Ascii.eqb c "%" then
        match r with
        | String h1 (String h2 r2) =>
            match hex_val h1, hex_val h2 with
            | Some x, Some y => t ← query_unescape r2; Some (String (chr (x * 16 + y)%N) t)
            | _, _ => None
            end
        | _ => None
        end
      else t ← query_unescape r; Some (String (if Ascii.eqb c "+" then " "%char else c) t)
  end.

(** The pairs of [url.ParseQuery] that decode, in order. *)
Definition query_pair (p : string) : option (string * string) :=
  if (p =?s "") || mem_byte ";" p then None else
  let '(k, v) := from_opt (p, "") (cut_byte "=" p) in
  k ← query_unescape k; v ← query_unescape v; Some (k, v).
Definition query_get (rawquery key : string) : string :=
  from_opt "" (snd <$> find_first (λ kv, fst kv =?s key) (omap query_pair (split_on "&" rawquery))).

(** [url.Values.Encode] for pairs given in key order. *)
Definition form_encode (kvs : list (string * string)) : string :=
  join "&" ((λ '(k, v), query_escape k +:+ "=" +:+ query_escape v) <$> kvs).

Record tokenResponse : Type := mkTokenResponse {
  IDToken : string; AccessToken : string; tr_Error : string; ErrorDesc : string }.
Definition set_token_field (k : string) (v : json) (r : tokenResponse) : tokenResponse * bool :=
  if field_is "id_token" k then let '(x, e) := dec_string (IDToken r) v in (mkTokenResponse x (AccessToken r) (tr_Error r) (ErrorDesc r), e)
  else if field_is "access_token" k then let '(x, e) := dec_string (AccessToken r) v in (mkTokenResponse (IDToken r) x (tr_Error r) (ErrorDesc r), e)
  else if field_is "error" k then let '(x, e) := dec_string (tr_Error r) v in (mkTokenResponse (IDToken r) (AccessToken r) x (ErrorDesc r), e)
  else if field_is "error_description" k then let '(x, e) := dec_string (ErrorDesc r) v in (mkTokenResponse (IDToken r) (AccessToken r) (tr_Error r) x, e)
  else (r, false).

Definition errorMessage (t : tokenResponse) : string :=
  if ErrorDesc t =?s "" then tr_Error t else tr_Error t +:+ ": " +:+ ErrorDesc t.

Record discoveryDocument : Type := mkDiscovery { dd_Authorization : string; dd_Token : string }.
Definition set_discovery_field (k : string) (v : json) (r : discoveryDocument) : discoveryDocument * bool :=
  if field_is "authorization_endpoint" k then let '(x, e) := dec_string (dd_Authorization r) v in (mkDiscovery x (dd_Token r), e)
  else if field_is "token_endpoint" k then let '(x, e) := dec_string (dd_Token r) v in (mkDiscovery (dd_Authorization r) x, e)
  else (r, false).

Section weblogin.
Context {K W : Type} (ParseWithClaims : K → string → option (gmap string json)).
Context (new_request_ok : string → string → bool) (Do : out_request → ST W (call_result response)).
Context (cfg : OIDCConfig).

Record OIDCWebLogin : Type := mkWebLogin { authzURL : string; tokenURL : string; wl_jwks : K }.

Definition discover (issuerURL : string) : ST W (go_result discoveryDocument) :=
  if issuerURL =?s "" then mret (Err "auth: oidc weblogin: issuerUrl is required for discovery") else
  let target := trim_right_byte "/" issuerURL +:+ "/.well-known/openid-configuration" in
  if negb (new_request_ok "GET" target) then mret (Err "auth: oidc weblogin: build discovery request") else
  r ← Do (OutRequest "GET" target ∅ (Ok ""));
  mret match r with
       | CErr e => Err ("auth: oidc weblogin: discovery request: " +:+ ce_msg e)
       | COk resp =>
           if negb (resp_status resp =? 200) then Err ("auth: oidc weblogin: discovery returned status " +:+ z_to_dec (resp_status resp))
           else match read_limited (2 ^ 20) resp with
                | Err e => Err ("auth: oidc weblogin: read discovery: " +:+ e)
                | Ok data =>
                    let '(doc, bad) := unmarshal set_discovery_field (mkDiscovery "" "") data in
                    if bad : bool then Err "auth: oidc weblogin: decode discovery" else Ok doc
                end
       end.

(** [load_jwks] is [keyfunc.NewDefaultCtx] on the configured URL. *)
Definition NewOIDCWebLogin (load_jwks : ST W (go_result K)) : ST W (go_result OIDCWebLogin) :=
  if RedirectURL cfg =?s "" then mret (Err "auth: oidc weblogin: redirectUrl is required")
  else if ClientID cfg =?s "" then mret (Err "auth: oidc weblogin: clientId is required")
  else
    let a := AuthorizationEndpoint cfg in let t := TokenEndpoint cfg in
    urls ← (if (a =?s "") || (t =?s "") then
              doc ← discover (IssuerURL cfg);
              mret match doc with
                   | Err e => Err e
                   | Ok doc => Ok ((if a =?s "" then dd_Authorization doc else a), (if t =?s "" then dd_Token doc else t))
                   end
            else mret (Ok (a, t)));
    match urls with
    | Err e => mret (Err e)
    | Ok (a, t) =>
        if (a =?s "") || (t =?s "") then
          mret (Err "auth: oidc weblogin: could not resolve authorization/token endpoints")
        else
          k ← load_jwks;
          mret match k with
               | Err e => Err ("auth: oidc weblogin: load jwks: " +:+ e)
               | Ok k => Ok (mkWebLogin a t k)
               end
    end.

Definition AuthCodeURL (w : OIDCWebLogin) (state nonce : string) : string :=
  let scopes := match Scopes cfg with [] => ["openid"] | l => l end in
  authzURL w +:+ (if mem_byte "?" (authzURL w) then "&" else "?")
  +:+ form_encode [("client_id", ClientID cfg); ("nonce", nonce); ("redirect_uri", RedirectURL cfg);
                   ("response_type", "code"); ("scope", join " " scopes); ("state", state)].

Definition validateIDToken (w : OIDCWebLogin) (idToken nonce : string) : go_result unit :=
  match ParseWithClaims (wl_jwks w) idToken with
  | None => Err "auth: oidc weblogin: validate id_token"
  | Some c =>
      let got := match c !! "nonce" with Some (JStr s) => s | _ => "" end in
      if negb (nonce =?s "") && negb (got =?s nonce) then Err "auth: oidc weblogin: id_token nonce mismatch"
      else Ok tt
  end.

Definition token_form (code : string) : string :=
  form_encode ([("client_id", ClientID cfg)]
    ++ (if ClientSecret cfg =?s "" then [] else [("client_secret", ClientSecret cfg)])
    ++ [("code", code); ("grant_type", "authorization_code"); ("redirect_uri", RedirectURL cfg)]).

Definition Exchange (w : OIDCWebLogin) (code nonce : string) : ST W (go_result string) :=
  if negb (new_request_ok "POST" (tokenURL w)) then mret (Err "auth: oidc weblogin: build token request") else
  let h := hdr_set "Accept" "application/json" (hdr_set "Content-Type" "application/x-www-form-urlencoded" ∅) in
  r ← Do (OutRequest "POST" (tokenURL w) h (Ok (token_form code)));
  mret match r with
       | CErr e => Err ("auth: oidc weblogin: token request: " +:+ ce_msg e)
       | COk resp =>
           match read_limited (2 ^ 20) resp with
           | Err e => Err ("auth: oidc weblogin: read token response: " +:+ e)
           | Ok data =>
               let '(tr, bad) := unmarshal set_token_field (mkTokenResponse "" "" "" "") data in
               if bad : bool then Err "auth: oidc weblogin: decode token response"
               else if negb (resp_status resp =? 200) || negb (tr_Error tr =?s "") then
                 Err ("auth: oidc weblogin: token endpoint failed: status " +:+ z_to_dec (resp_status resp) +:+ ": " +:+ errorMessage tr)
               else if IDToken tr =?s "" then Err "auth: oidc weblogin: token response missing id_token"
               else '_ ← validateIDToken w (IDToken tr) nonce; Ok (IDToken tr)
           end
       end.
End weblogin.

(** [RandomToken]: 32 random bytes; [None] when the source fails. *)
Definition RandomToken (bytes : option string) : option string := b64_encode true false <$> bytes.

(** ** Lemmas *)

(** *** Query strings *)
Lemma query_unescape_escape s : query_unescape (query_escape s) = Some s.
Proof.
  induction s as [|c s IH]; [done|]. cbn [query_escape].
  destruct (is_alnum c || mem_byte c "-_.~") eqn:E1.
  { change (query_unescape (String c (query_escape s)) = Some (String c s)). cbn [query_unescape].
    assert (Hp : Ascii.eqb c "%" = false ∧ Ascii.eqb c "+" = false).
    { assert (H : implb (is_alnum c || mem_byte c "-_.~") (negb (Ascii.eqb c "%") && negb (Ascii.eqb c "+")) = true).
      { revert c E1. intros c _. revert c.
        apply (ascii_forall (λ c, implb (is_alnum c || mem_byte c "-_.~") (negb (Ascii.eqb c "%") && negb (Ascii.eqb c "+")))).
        by vm_compute. }
      rewrite E1 in H. cbn in H. by seqb_simpl. }
    destruct Hp as [-> ->]. by rewrite IH. }
  destruct (Ascii.eqb c " ") eqn:E2.
  { apply Ascii.eqb_eq in E2 as ->. change (query_unescape (String "+" (query_escape s)) = Some (String " " s)).
    cbn [query_unescape]. cbn. by rewrite IH. }
  change (query_unescape (String "%" (String (upper_hex (byte_n c / 16)) (String (upper_hex (byte_n c mod 16)) (query_escape s)))) = Some (String c s)).
  cbn [query_unescape]. change (Ascii.eqb "%" "%") with true. cbv iota.
  rewrite !hex_val_upper by (apply N.mod_lt || apply N.Div0.div_lt_upper_bound; pose proof (byte_n_lt c); lia).
  rewrite IH. cbn [mbind option_bind]. rewrite N.mul_comm, <- N.Div0.div_mod, chr_byte_n. done.
Qed.

Definition form_safe (c : ascii) : bool := is_alnum c || mem_byte c "-_.~+%".

Lemma query_escape_safe s : str_forallb form_safe (query_escape s) = true.
Proof.
  assert (Hu : ∀ n, (n < 16)%N → form_safe (upper_hex n) = true).
  { apply (N_forall_below 16 (λ n, form_safe (upper_hex n))). by vm_compute. }
  assert (Ha : ∀ c, is_alnum c || mem_byte c "-_.~" = true → form_safe c = true).
  { intros c Hc. assert (H : implb (is_alnum c || mem_byte c "-_.~") (form_safe c) = true); [|by rewrite Hc in H].
    clear Hc. revert c. apply (ascii_forall (λ c, implb (is_alnum c || mem_byte c "-_.~") (form_safe c))). by vm_compute. }
  induction s as [|c s IH]; [done|]. cbn [query_escape]. rewrite str_forallb_app, IH, andb_true_r.
  destruct (_ || _) eqn:E; [cbn [str_forallb]; by rewrite Ha|]. destruct (Ascii.eqb c " "); [done|].
  cbn [str_forallb]. change (form_safe "%") with true. pose proof (byte_n_lt c).
  rewrite !Hu; [done|..]; [apply N.mod_lt; lia|apply N.Div0.div_lt_upper_bound; lia].
Qed.

Lemma query_escape_lacks b s : form_safe b = false → mem_byte b (query_escape s) = false.
Proof. intros Hb. apply (mem_byte_none form_safe); [done|apply query_escape_safe]. Qed.

(** What is encoded as a form is read back, key by key. *)
Lemma query_pair_escaped k v : query_pair (query_escape k +:+ "=" +:+ query_escape v) = Some (k, v).
Proof.
  unfold query_pair. change ("=" +:+ query_escape v) with (String "=" (query_escape v)).
  rewrite mem_byte_app. cbn [mem_byte]. rewrite !query_escape_lacks by done.
  replace (query_escape k +:+ _ =?s "") with false.
  2: { symmetry. apply seqb_neq. by destruct (query_escape k). }
  rewrite cut_byte_app by by apply query_escape_lacks. cbn [from_opt orb Ascii.eqb Bool.eqb].
  rewrite !query_unescape_escape. done.
Qed.

Lemma query_get_form kvs k :
  query_get (form_encode kvs) k = from_opt "" (snd <$> find_first (λ kv, fst kv =?s k) kvs).
Proof.
  unfold query_get, form_encode. destruct kvs as [|kv kvs]; [done|].
  rewrite split_on_join; [|done|].
  2: { apply Forall_fmap, Forall_true. intros [k' v]. cbn [compose]. rewrite !mem_byte_app. cbn [mem_byte].
    by rewrite !query_escape_lacks. }
  do 3 f_equal. generalize (kv :: kvs). intros l. induction l as [|[k' v] l IH]; [done|].
  rewrite fmap_cons. cbn [omap list_omap]. rewrite query_pair_escaped. by f_equal.
Qed.

(** *** The token exchange *)
Section exchange_lemmas.
Context {K W : Type} (ParseWithClaims : K → string → option (gmap string json)).

Lemma validateIDToken_Ok (w : OIDCWebLogin (K := K)) tok nonce :
  nonce ≠ "" →
  validateIDToken ParseWithClaims w tok nonce = Ok tt ↔
  ∃ c, ParseWithClaims (wl_jwks w) tok = Some c ∧ c !! "nonce" = Some (JStr nonce).
Proof.
  intros Hn. unfold validateIDToken. destruct (ParseWithClaims _ _) as [c|]; [|naive_solver].
  assert ((nonce =?s "") = false) as -> by by apply seqb_neq. cbn [negb andb].
  destruct (c !! "nonce") as [[]|] eqn:E; case_bools; split; try naive_solver.
  all: intros (c' & [= <-] & Hc); rewrite E in Hc; by simplify_eq.
Qed.

Context (new_request_ok : string → string → bool) (Do : out_request → ST W (call_result response)).
Context (cfg : OIDCConfig).

Lemma Exchange_Ok (w : OIDCWebLogin (K := K)) code nonce tok s s' :
  Exchange ParseWithClaims new_request_ok Do cfg w code nonce s = (Ok tok, s') →
  tok ≠ "" ∧ validateIDToken ParseWithClaims w tok nonce = Ok tt.
Proof.
  unfold Exchange. destruct (negb _); [by intros [=]|]. unfold mbind at 1, ST_bind.
  destruct (Do _ s) as [[resp|e] s1]; [|by intros [=]]. destruct (read_limited _ _) as [data|e]; [|by intros [=]].
  destruct (unmarshal _ _ _) as [tr [|]]; [by intros [=]|]. destruct (_ || _); [by intros [=]|].
  destruct (IDToken tr =?s "") eqn:Et; [by intros [=]|]. destruct (validateIDToken _ _ _ _) as [[]|e] eqn:Ev; [|by intros [=]].
  intros [= <- _]. by apply seqb_neq in Et.
Qed.

(** A 200 answer within the limit whose id_token validates. *)
Lemma Exchange_success (w : OIDCWebLogin (K := K)) code nonce s s' resp data tr :
  let h := hdr_set "Accept" "application/json" (hdr_set "Content-Type" "application/x-www-form-urlencoded" ∅) in
  new_request_ok "POST" (tokenURL w) = true →
  Do (OutRequest "POST" (tokenURL w) h (Ok (token_form cfg code))) s = (COk resp, s') →
  resp_status resp = 200 → read_limited (2 ^ 20) resp = Ok data →
  unmarshal set_token_field (mkTokenResponse "" "" "" "") data = (tr, false) →
  tr_Error tr = "" → IDToken tr ≠ "" → validateIDToken ParseWithClaims w (IDToken tr) nonce = Ok tt →
  Exchange ParseWithClaims new_request_ok Do cfg w code nonce s = (Ok (IDToken tr), s').
Proof.
  intros h Hn Hdo Hst Hrd Hum He Hid Hv. unfold Exchange. rewrite Hn. cbn [negb].
  unfold mbind at 1, ST_bind. fold h. rewrite Hdo, Hrd, Hum, Hst, He. cbn [negb orb Z.eqb Pos.eqb String.eqb].
  apply seqb_neq in Hid as ->. by rewrite Hv.
Qed.
End exchange_lemmas.

(** *** Who a middleware takes a request for *)

(** The interface the role checks and the admin routes rely on: the handler behind the
    middleware runs exactly for the requests [who] identifies, with that principal, and
    any other request gets a 401 without touching the state. *)
Class Authenticates {S} (mw : Middleware S) (who : request → option Principal) : Prop := {
  auth_runs next p r pr s : who r = Some pr →
    ∃ ty, mw next p r s = count (AuthRequest ty ResultAllow) (next (Some pr) r) s;
  auth_denies next p r s : who r = None → ∃ ty msg, mw next p r s = deny ty msg s }.

Definition oidc_principal {K} (ParseWithClaims : K → string → option (gmap string json))
    (jwks : option K) (r : request) : option Principal :=
  k ← jwks;
  c ← ParseWithClaims k (bearerToken r);
  if bearerToken r =?s "" then None else Some (mkPrincipal (subject c) (groupsClaim c)).

Definition ldap_principal (dir : directory) (cfg : LDAPConfig) (r : request) : option Principal :=
  '(u, p) ← BasicAuth r;
  match authenticate dir cfg u p with
  | Ok m => if (u =?s "") || (p =?s "") then None else Some (mkPrincipal u m)
  | Err _ => None
  end.

#[global] Instance noop_authenticates {S} : Authenticates (S := S) Noop (λ _, Some (mkPrincipal "anonymous" "")).
Proof. split; [intros ?????[= <-]; by eexists|done]. Qed.

#[global] Instance oidc_authenticates {S K} P (jwks : option K) :
  Authenticates (S := S) (OIDC_Handler P jwks) (oidc_principal P jwks).
Proof.
  split; intros *; unfold oidc_principal, OIDC_Handler; destruct (bearerToken r =?s "") eqn:Eb;
    destruct jwks as [k|]; cbn [mbind option_bind]; try destruct (P k _) as [c|]; cbn [mbind option_bind]; intros H;
    simplify_eq; eauto.
Qed.

#[global] Instance ldap_authenticates {S} dir cfg :
  Authenticates (S := S) (LDAP_Handler dir cfg) (ldap_principal dir cfg).
Proof.
  split; intros *; unfold ldap_principal, LDAP_Handler; destruct (BasicAuth r) as [[u pw]|]; cbn [mbind option_bind];
    try destruct (authenticate _ _ _ _) as [m|e]; try destruct (_ || _); intros H; simplify_eq; eauto.
Qed.

(** Behind authentication and a role check, the handler runs for principals with the
    role; the others get a 401 or a 403. *)
Lemma role_gate {S} (mw : Middleware S) who `{!Authenticates mw who} M role cfg next p r s :
  match who r with
  | None => ∃ ty msg, mw (RequireRole M role cfg next) p r s = deny ty msg s
  | Some pr =>
      ∃ ty, mw (RequireRole M role cfg next) p r s
            = count (AuthRequest ty ResultAllow)
                (if HasRole M (Some pr) role cfg then next (Some pr) r else mret (forbidden, [])) s
  end.
Proof.
  destruct (who r) as [pr|] eqn:E.
  - destruct (auth_runs (mw := mw) (RequireRole M role cfg next) p r pr s E) as [ty ->]. by exists ty.
  - by apply auth_denies.
Qed.

(** *** Page permissions *)
Lemma add_page_spec out page :
  (∀ q, q ∈ add_page out page ↔ q ∈ out ∨ (q = page ∧ page ≠ "")) ∧ (NoDup out → NoDup (add_page out page)).
Proof.
  unfold add_page. destruct (page =?s "") eqn:E0; seqb_simpl; cbn [orb]; [naive_solver|].
  destruct (existsb _ out) eqn:E1.
  - apply existsb_exists in E1 as (x & Hx & Hxe). apply list_elem_of_In in Hx. seqb_simpl. naive_solver.
  - assert (Hn : page ∉ out).
    { intros H. apply list_elem_of_In in H.
      assert (existsb (String.eqb page) out = true); [|congruence]. apply existsb_exists. exists page. by rewrite seqb_refl. }
    split.
    + intros q. rewrite elem_of_app, list_elem_of_singleton. naive_solver.
    + intros Ho. apply NoDup_app. split; [done|]. split; [|apply NoDup_singleton].
      intros x Hx Hs. apply list_elem_of_singleton in Hs as ->. done.
Qed.

Lemma add_pages_spec pages out :
  (∀ q, q ∈ foldl add_page out pages ↔ q ∈ out ∨ (q ∈ pages ∧ q ≠ ""))
  ∧ (NoDup out → NoDup (foldl add_page out pages)).
Proof.
  revert out. induction pages as [|page pages IH]; intros out; cbn [foldl].
  - split; [|done]. intros q. set_solver.
  - destruct (IH (add_page out page)) as [H1 H2], (add_page_spec out page) as [H3 H4].
    split; [|auto]. intros q. rewrite H1, H3, elem_of_cons. naive_solver.
Qed.

Lemma add_roles_spec (pages : string → list string) roles out :
  let f := foldl (λ out role, foldl add_page out (pages role)) out roles in
  (∀ q, q ∈ f ↔ q ∈ out ∨ (q ≠ "" ∧ ∃ role, role ∈ roles ∧ q ∈ pages role)) ∧ (NoDup out → NoDup f).
Proof.
  cbn zeta. revert out. induction roles as [|role roles IH]; intros out; cbn [foldl].
  - split; [|done]. intros q. set_solver.
  - destruct (IH (foldl add_page out (pages role))) as [H1 H2], (add_pages_spec (pages role) out) as [H3 H4].
    split; [|auto]. intros q. rewrite H1, H3. setoid_rewrite elem_of_cons. naive_solver.
Qed.

(** ** Properties *)

(** The pages a user sees are the non-empty page keys of the user's roles, each once;
    when a role has no entry, or there are no roles, the list is empty, which the web
    UI takes for "no restriction". *)
Theorem page_permissions roles (perms : gmap string string) :
  NoDup (ResolvePagePermissions roles perms)
  ∧ ∀ page, page ∈ ResolvePagePermissions roles perms ↔
      (∀ role, role ∈ roles → is_Some (perms !! role))
      ∧ page ≠ "" ∧ ∃ role pages, role ∈ roles ∧ perms !! role = Some pages ∧ page ∈ split_on "_" pages.
Proof.
  unfold ResolvePagePermissions. case_bool_decide as Hr; cbn [orb].
  { subst. split; [constructor|]. set_solver. }
  case_bool_decide as Hp.
  { subst perms. split; [constructor|]. setoid_rewrite lookup_empty. set_solver. }
  destruct (existsb _ roles) eqn:Ee.
  - apply existsb_exists in Ee as (role & Hin & Hn). apply list_elem_of_In in Hin. case_bool_decide; [|done].
    split; [constructor|]. intros page. split; [set_solver|]. intros (Hall & _). destruct (Hall role Hin). congruence.
  - destruct (add_roles_spec (λ role, split_on "_" (from_opt "" (perms !! role))) roles []) as [H1 H2].
    split; [apply H2; constructor|]. intros page. rewrite H1.
    assert (Hall : ∀ role, role ∈ roles → is_Some (perms !! role)).
    { intros role Hin. apply list_elem_of_In in Hin. destruct (perms !! role) eqn:Er; [done|].
      assert (existsb (λ role, bool_decide (perms !! role = None)) roles = true); [|congruence].
      apply existsb_exists. exists role. split; [done|]. by apply bool_decide_eq_true. }
    split.
    + intros [?|(? & role & Hin & Hpg)]; [set_solver|]. split_and!; [done..|].
      destruct (Hall role Hin) as [pages Epg]. rewrite Epg in Hpg. eauto.
    + intros (_ & ? & role & pages & Hin & Epg & Hpg). right. split; [done|]. exists role. by rewrite Epg.
Qed.

Definition usable {K} (f : go_result (K * go_result nat)) : bool :=
  match f with Ok (_, Ok (S _)) => true | _ => false end.

Lemma refresher_app {K} (l1 l2 : list (go_result (K * go_result nat))) j :
  refresher (l1 ++ l2) j = refresher l2 (refresher l1 j).
Proof. apply foldl_app. Qed.

Lemma refresh_stored {K} (f : go_result (K * go_result nat)) j :
  (refresh f j).1.2 = match f with Ok (k, Ok (S _)) => Some k | _ => j end.
Proof. by destruct f as [[k [[|n]|e]]|e]. Qed.

(** Once the OIDC middleware has started it always has a key set, the one of the
    last fetch that returned keys: a failing or empty refresh never drops it. *)
Theorem jwks_last_good {K} (first : go_result (K * go_result nat)) fetches jwks :
  NewOIDC first = Ok jwks →
  ∃ pre k n post, first :: fetches = pre ++ Ok (k, Ok (S n)) :: post
    ∧ Forall (λ f, usable f = false) post ∧ refresher fetches jwks = Some k.
Proof.
  intros Hf. assert (∃ k n, first = Ok (k, Ok (S n)) ∧ jwks = Some k) as (k0 & n0 & -> & ->).
  { destruct first as [[k [[|n]|e]]|e]; cbn in Hf; simplify_eq. eauto. }
  induction fetches as [|f fetches (pre & k & n & post & Heq & Hpost & Hr)] using rev_ind.
  { exists [], k0, n0, []. split_and!; [done|constructor|done]. }
  rewrite refresher_app, Hr, app_comm_cons, Heq, <- app_assoc. unfold refresher. cbn [foldl]. rewrite refresh_stored.
  destruct f as [[k' [[|m]|e]]|e]; [|exists (pre ++ Ok (k, Ok (S n)) :: post), k', m, []; by rewrite <- app_assoc|..];
    eexists pre, k, n, (post ++ [_]); (split_and!; [done| |done]); apply Forall_app; auto.
Qed.

Lemma jwks_last_good_witness :
  ∃ pre k n post, Ok (1%nat, Ok 2%nat) :: [Err "timeout"; Ok (7%nat, Ok 0%nat)] = pre ++ Ok (k, Ok (S n)) :: post
    ∧ Forall (λ f, usable f = false) post ∧ refresher [Err "timeout"; Ok (7%nat, Ok 0%nat)] (Some 1%nat) = Some k.
Proof. apply (jwks_last_good (Ok (1%nat, Ok 2%nat)) [Err "timeout"; Ok (7%nat, Ok 0%nat)] (Some 1%nat)). reflexivity. Defined.

(** Behind the LDAP middleware a request either gets a 401 and changes nothing, or
    carries a non-empty user and a non-empty password with which the directory let the
    entry found for that user bind; the handler then runs with that user and the entry's
    first group. An empty password, which a directory would accept as an anonymous bind,
    never passes. *)
Theorem ldap_password_checked {S} (dir : directory) cfg (next : handler S) p r s :
  (∃ msg, LDAP_Handler dir cfg next p r s = ((writeUnauthorized msg, [AuthRequest TypeLDAP ResultDeny]), s))
  ∨ ∃ user pw e rest, BasicAuth r = Some (user, pw) ∧ user ≠ "" ∧ pw ≠ ""
      ∧ Search dir (UserBase cfg) (user_filter dir cfg user) = Ok (e :: rest)
      ∧ Bind dir (e_DN e) pw = None
      ∧ LDAP_Handler dir cfg next p r s
        = count (AuthRequest TypeLDAP ResultAllow)
            (next (Some (mkPrincipal user (from_opt "" (head_opt (e_memberOf e))))) r) s.
Proof.
  unfold LDAP_Handler. destruct (BasicAuth r) as [[user pw]|]; [|left; by eexists].
  destruct (_ || _) eqn:Ee; [left; by eexists|]. seqb_simpl. unfold authenticate.
  destruct (DialURL dir _); [left; by eexists|]. destruct (if BindDN cfg =?s "" then _ else _); [left; by eexists|].
  destruct (Search dir _ _) as [[|e rest]|err] eqn:Es; [left; by eexists| |left; by eexists].
  destruct (Bind dir (e_DN e) pw) eqn:Eb; [left; by eexists|].
  right. exists user, pw, e, rest. split_and!; done.
Qed.
