(* ===== verification/AdminAuth.v ===== *)
(** * Login handlers and routes of the admin API (internal/admin/authhandlers.go,
      buildRouter of internal/admin/router.go, writeJSON of backend.go, the result
      envelopes of webapp.go)

    The handlers of the interactive login, and the table of routes with the
    authentication and role each group demands. The handlers of the other routes are a
    parameter of [serve]: what is shown here holds whatever they do. *)
From S2P Require Import Prelude GoStrings Json Codec HttpModel Config Routing ClusterStats Auth.

#[local] Open Scope Z_scope.

(** ** Answers *)
Definition writeJSON (status : Z) (v : json) : reply := mkReply status json_header [] (BJson v).
Definition resultOK (data : json) : json := JObj [("code", jint 200); ("msg", JStr "Successful."); ("data", data)].
Definition resultErr (msg : string) : json := JObj [("code", jint 500); ("msg", JStr msg); ("data", JNull)].
Definition http_Error (msg : string) (code : Z) : reply :=
  mkReply code (hdr_set "X-Content-Type-Options" "nosniff" (hdr_set "Content-Type" "text/plain; charset=utf-8" ∅)) []
    (BText (msg +:+ nl)).

(** [decodeJSON]: at most 1 MiB of the body; the decoded value and whether there was an
    error (what was decoded before the error stays). *)
Definition decode_body {A} (set : string → json → A → A * bool) (zero : A) (r : request) : A * bool :=
  match req_body r with
  | Err _ => (zero, true)
  | Ok b =>
      unmarshal set zero (if (2 ^ 20 <=? Z.of_nat (String.length b)) then str_take (Z.to_nat (2 ^ 20)) b else b)
  end.
Definition decodeJSON {A} (set : string → json → A → A * bool) (zero : A) (r : request) : option A :=
  let '(v, bad) := decode_body set zero r in if bad : bool then None else Some v.

(** ** The interactive login *)
Definition oidcStateCookie : string := "trino-gateway-oidc".
Definition oidcStateMaxAge : Z := 15 * 60.
Definition tokenCookie : string := "token".
Definition tokenCookieMaxAge : Z := 60 * 60 * 24.
Definition uiBasePath : string := "/trino-gateway".

Definition requestIsHTTPS (r : request) : bool :=
  req_tls r || equal_fold_ascii (hdr_get (req_header r) "X-Forwarded-Proto") "https".

Definition readOIDCStateCookie (r : request) : option (string * string) :=
  v ← req_cookie r oidcStateCookie;
  '(state, nonce) ← cut_byte ":" v;
  if (state =?s "") || (nonce =?s "") then None else Some (state, nonce).

Section weblogin.
Context {K W : Type} (ParseWithClaims : K → string → option (gmap string json)).
Context (new_request_ok : string → string → bool) (Do : out_request → ST W (call_result response)).
Context (cfg : OIDCConfig).

(** [authType] is [auth.type], [wl] the flow when it is configured, and the two random
    draws are those of the state and the nonce. *)
Definition handleSSO (authType : string) (wl : option (OIDCWebLogin (K := K))) (draw1 draw2 : option string) (r : request) : reply :=
  match wl with
  | Some w =>
      if negb (authType =?s "OIDC") then writeJSON 200 (resultErr "SSO not configured") else
      match RandomToken draw1, RandomToken draw2 with
      | Some state, Some nonce =>
          let c := SetCookie oidcStateCookie (state +:+ ":" +:+ nonce) "/oidc/callback" oidcStateMaxAge true
                     (requestIsHTTPS r) SameSiteLax in
          let j := writeJSON 200 (resultOK (JStr (AuthCodeURL cfg w state nonce))) in
          mkReply (rp_status j) (rp_header j) [c] (rp_body j)
      | _, _ => writeJSON 200 (resultErr "internal error")
      end
  | None => writeJSON 200 (resultErr "SSO not configured")
  end.

Definition redirect_to_ui : reply :=
  mkReply 303 (hdr_set "Content-Type" "text/html; charset=utf-8" (hdr_set "Location" uiBasePath ∅)) []
    (BText ("<a href=" +:+ String dquote (uiBasePath +:+ String dquote ">See Other</a>.") +:+ nl +:+ nl)).

Definition handleOIDCCallback (authType : string) (wl : option (OIDCWebLogin (K := K))) (r : request) : ST W reply :=
  match wl with
  | Some w =>
      if negb (authType =?s "OIDC") then mret (http_Error "OIDC not configured" 500) else
      let code := query_get (url_rawquery (req_url r)) "code" in
      if code =?s "" then mret (http_Error "missing authorization code" 400) else
      match readOIDCStateCookie r with
      | None => mret (http_Error "missing or malformed login state" 400)
      | Some (state, nonce) =>
          if negb (query_get (url_rawquery (req_url r)) "state" =?s state) then mret (http_Error "state mismatch" 400)
          else
            tok ← Exchange ParseWithClaims new_request_ok Do cfg w code nonce;
            mret match tok with
                 | Err _ => http_Error "login failed" 401
                 | Ok idToken =>
                     let clear := SetCookie oidcStateCookie "" "/oidc/callback" (-1) true (requestIsHTTPS r) SameSiteLax in
                     let token := SetCookie tokenCookie idToken "/" tokenCookieMaxAge false (requestIsHTTPS r) SameSiteLax in
                     mkReply (rp_status redirect_to_ui) (rp_header redirect_to_ui) [clear; token] (rp_body redirect_to_ui)
                 end
      end
  | None => mret (http_Error "OIDC not configured" 500)
  end.
End weblogin.

Definition handleLoginType (authType : string) : reply :=
  writeJSON 200 (resultOK (JStr (if authType =?s "OIDC" then "oauth"
                                 else if authType =?s "LDAP" then "form" else "none"))).

Record loginRequest : Type := mkLoginRequest { lr_Username : string; lr_Password : string }.
Definition set_login_field (k : string) (v : json) (r : loginRequest) : loginRequest * bool :=
  if field_is "username" k then let '(x, e) := dec_string (lr_Username r) v in (mkLoginRequest x (lr_Password r), e)
  else if field_is "password" k then let '(x, e) := dec_string (lr_Password r) v in (mkLoginRequest (lr_Username r) x, e)
  else (r, false).

Definition handleLogin (authType : string) (r : request) : reply :=
  match decodeJSON set_login_field (mkLoginRequest "" "") r with
  | None => writeJSON 200 (resultErr "bad request")
  | Some req =>
      if (authType =?s "NOOP") || (authType =?s "") then
        writeJSON 200 (resultOK (JObj [("token", JStr (lr_Username req))]))
      else writeJSON 200 (resultErr ("login not implemented for auth type: " +:+ authType))
  end.

Definition handleLogout : reply := writeJSON 200 (resultOK JNull).

Record userinfoResponse : Type := mkUserinfo {
  ui_UserID : string; ui_UserName : string; ui_Roles : list string; ui_Permissions : list string }.
Definition userinfo_json (u : userinfoResponse) : json :=
  JObj [("userId", JStr (ui_UserID u)); ("userName", JStr (ui_UserName u));
        ("roles", JArr (JStr <$> ui_Roles u)); ("permissions", JArr (JStr <$> ui_Permissions u))].

Definition userinfo (MatchString : string → string → option bool) (cfg : AuthorizationConfig)
    (p : option Principal) : userinfoResponse :=
  match p with
  | None => mkUserinfo "" "" [] []
  | Some pr =>
      let roles := List.filter (λ role, HasRole MatchString p role cfg) [RoleAdmin; RoleUser; RoleAPI] in
      mkUserinfo (pr_Name pr) (pr_Name pr) roles (ResolvePagePermissions roles (PagePermissions cfg))
  end.
Definition handleUserinfo (MatchString : string → string → option bool) (cfg : AuthorizationConfig)
    (p : option Principal) : reply :=
  writeJSON 200 (resultOK (userinfo_json (userinfo MatchString cfg p))).

(** ** Routes (router.go) *)
Inductive admin_handler : Type :=
| h_rootRedirect | h_handleLivez | h_handleReadyz | h_metricsHandler
| h_serveIndex | h_serveLogoSVG | h_serveAssets
| h_listPublicBackends | h_getPublicBackend | h_getPublicBackendState
| h_handleSSO | h_handleOIDCCallback | h_handleLogin | h_handleLogout | h_handleLoginType
| h_handleGatewayPing | h_listAllBackends | h_listActiveBackends
| h_activateBackend | h_deactivateBackend | h_addBackend | h_updateBackend | h_deleteBackend
| h_listEntityTypes | h_upsertEntity | h_listEntities
| h_handleUserinfo | h_queryHistory | h_legacyActiveBackends | h_queryHistoryDistribution
| h_webappGetAllBackends | h_webappFindQueryHistory | h_webappGetDistribution | h_webappGetUIConfig
| h_webappGetRoutingRules | h_webappUpdateRoutingRules | h_webappSaveBackend | h_webappUpdateBackend | h_webappDeleteBackend.

Inductive access : Type := Public | Authenticated | WithRole (role : string).
Record registration : Type := mkReg {
  reg_method : string; reg_pattern : string; reg_access : access; reg_handler : admin_handler }.

Definition group (acc : access) (l : list (string * string * admin_handler)) : list registration :=
  (λ '(m, p, h), mkReg m p acc h) <$> l.

(** The registrations in order; [metrics] is the path of the metrics route when it is
    enabled. *)
Definition buildRouter (metrics : option string) : list registration :=
  group Public [("GET", "/", h_rootRedirect); ("GET", "/trino-gateway/livez", h_handleLivez);
                ("GET", "/trino-gateway/readyz", h_handleReadyz)]
  ++ group Public (match metrics with Some p => [("GET", p, h_metricsHandler)] | None => [] end)
  ++ group Public [("GET", "/trino-gateway", h_serveIndex); ("GET", "/trino-gateway/logo.svg", h_serveLogoSVG);
                   ("GET", "/trino-gateway/assets/*", h_serveAssets);
                   ("GET", "/api/public/backends", h_listPublicBackends);
                   ("GET", "/api/public/backends/{name}", h_getPublicBackend);
                   ("GET", "/api/public/backends/{name}/state", h_getPublicBackendState)]
  ++ group Authenticated [("POST", "/sso", h_handleSSO); ("GET", "/oidc/callback", h_handleOIDCCallback);
                          ("POST", "/login", h_handleLogin); ("POST", "/logout", h_handleLogout);
                          ("POST", "/loginType", h_handleLoginType)]
  ++ group (WithRole RoleAPI) [("GET", "/gateway", h_handleGatewayPing);
                               ("GET", "/gateway/backend/all", h_listAllBackends);
                               ("GET", "/gateway/backend/active", h_listActiveBackends);
                               ("POST", "/gateway/backend/activate/{name}", h_activateBackend);
                               ("POST", "/gateway/backend/deactivate/{name}", h_deactivateBackend);
                               ("POST", "/gateway/backend/modify/add", h_addBackend);
                               ("POST", "/gateway/backend/modify/update", h_updateBackend);
                               ("POST", "/gateway/backend/modify/delete", h_deleteBackend)]
  ++ group (WithRole RoleAdmin) [("GET", "/entity", h_listEntityTypes); ("POST", "/entity", h_upsertEntity);
                                 ("GET", "/entity/{entityType}", h_listEntities)]
  ++ group (WithRole RoleUser) [("POST", "/userinfo", h_handleUserinfo)]
  ++ group (WithRole RoleUser) [("GET", "/trino-gateway/api/queryHistory", h_queryHistory);
                                ("GET", "/trino-gateway/api/activeBackends", h_legacyActiveBackends);
                                ("GET", "/trino-gateway/api/queryHistoryDistribution", h_queryHistoryDistribution)]
  ++ group (WithRole RoleUser) [("POST", "/webapp/getAllBackends", h_webappGetAllBackends);
                                ("POST", "/webapp/findQueryHistory", h_webappFindQueryHistory);
                                ("POST", "/webapp/getDistribution", h_webappGetDistribution);
                                ("POST", "/webapp/getUIConfiguration", h_webappGetUIConfig)]
  ++ group (WithRole RoleAdmin) [("POST", "/webapp/getRoutingRules", h_webappGetRoutingRules);
                                 ("POST", "/webapp/updateRoutingRules", h_webappUpdateRoutingRules);
                                 ("POST", "/webapp/saveBackend", h_webappSaveBackend);
                                 ("POST", "/webapp/updateBackend", h_webappUpdateBackend);
                                 ("POST", "/webapp/deleteBackend", h_webappDeleteBackend)]
  ++ group Public [("GET", "/trino-gateway/*", h_serveIndex)].

Section serve.
Context {S : Type} (MatchString : string → string → option bool) (authz : AuthorizationConfig).
Context (AuthMW : option (Middleware S)) (handle : admin_handler → handler S).

(** A matched route with the middlewares of its group. *)
Definition serve (reg : registration) : handler S :=
  let mw := from_opt (λ next, next) AuthMW in
  match reg_access reg with
  | Public => handle (reg_handler reg)
  | Authenticated => mw (handle (reg_handler reg))
  | WithRole role => mw (RequireRole MatchString role authz (handle (reg_handler reg)))
  end.
End serve.

(** The handlers that write to the backend store or the monitor. *)
Definition changes_backends (h : admin_handler) : bool :=
  match h with
  | h_activateBackend | h_deactivateBackend | h_addBackend | h_updateBackend | h_deleteBackend
  | h_upsertEntity | h_webappUpdateRoutingRules | h_webappSaveBackend | h_webappUpdateBackend | h_webappDeleteBackend => true
  | _ => false
  end.

(** ** Lemmas *)
Lemma cut_byte_Some sep s a b : cut_byte sep s = Some (a, b) → s = a +:+ String sep b ∧ mem_byte sep a = false.
Proof.
  revert a b. induction s as [|c s IH]; intros a b; cbn [cut_byte]; [done|].
  destruct (Ascii.eqb c sep) eqn:Ec.
  - intros [= <- <-]. apply Ascii.eqb_eq in Ec as ->. done.
  - destruct (cut_byte sep s) as [[a' b']|]; [|done]. intros [= <- <-]. destruct (IH a' b') as [-> Hm]; [done|].
    rewrite str_app_cons. split; [done|]. cbn. by rewrite Ascii.eqb_sym, Ec, Hm.
Qed.

Lemma b64_no_colon s : mem_byte ":" (b64_encode true false s) = false.
Proof.
  assert (Hc : ∀ d, (d < 64)%N → Ascii.eqb ":" (b64_char true d) = false).
  { intros d Hd. apply negb_true_iff. revert d Hd.
    apply (N_forall_below 64 (λ d, negb (Ascii.eqb ":" (b64_char true d)))). by vm_compute. }
  induction s as [|a|a b|a b c r IH] using string_ind3; [done|..];
    cbn [b64_encode mem_byte]; rewrite !Hc by sextet; by rewrite ?IH.
Qed.

Lemma b64_nonempty s : s ≠ "" → b64_encode true false s ≠ "".
Proof. by destruct s as [|a [|b [|c r]]]. Qed.

Lemma readOIDCStateCookie_Some r state nonce :
  readOIDCStateCookie r = Some (state, nonce) →
  req_cookie r oidcStateCookie = Some (state +:+ ":" +:+ nonce)
  ∧ mem_byte ":" state = false ∧ state ≠ "" ∧ nonce ≠ "".
Proof.
  unfold readOIDCStateCookie. destruct (req_cookie r oidcStateCookie) as [v|]; [|done]. cbn [mbind option_bind].
  destruct (cut_byte ":" v) as [[a b]|] eqn:Ec; [|done]. cbn [mbind option_bind].
  apply cut_byte_Some in Ec as [-> Hm]. destruct (_ || _) eqn:E; [done|]. intros [= <- <-]. seqb_simpl. done.
Qed.

Lemma readOIDCStateCookie_tokens r b1 b2 :
  b1 ≠ "" → b2 ≠ "" →
  req_cookie r oidcStateCookie = Some (b64_encode true false b1 +:+ ":" +:+ b64_encode true false b2) →
  readOIDCStateCookie r = Some (b64_encode true false b1, b64_encode true false b2).
Proof.
  intros H1%b64_nonempty H2%b64_nonempty Hr. unfold readOIDCStateCookie. rewrite Hr. cbn [mbind option_bind].
  change (":" +:+ ?x) with (String ":" x). rewrite cut_byte_app by apply b64_no_colon. cbn [mbind option_bind].
  apply seqb_neq in H1 as ->, H2 as ->. done.
Qed.

Section login.
Context {K W : Type} (ParseWithClaims : K → string → option (gmap string json)).
Context (new_request_ok : string → string → bool) (Do : out_request → ST W (call_result response)).
Context (cfg : OIDCConfig).
#[local] Abbreviation callback := (handleOIDCCallback ParseWithClaims new_request_ok Do cfg).

(** The query part of the authorization URL. *)
Lemma AuthCodeURL_query (w : OIDCWebLogin (K := K)) state nonce :
  ∃ q, AuthCodeURL cfg w state nonce = authzURL w +:+ (if mem_byte "?" (authzURL w) then "&" else "?") +:+ q
    ∧ query_get q "state" = state ∧ query_get q "nonce" = nonce
    ∧ query_get q "redirect_uri" = RedirectURL cfg ∧ query_get q "client_id" = ClientID cfg.
Proof. eexists. split; [done|]. by rewrite !query_get_form. Qed.

Ltac no_cookie :=
  unfold mret, ST_ret in *; simplify_eq; match goal with H : _ ∈ rp_cookies _ |- _ => by apply elem_of_nil in H end.

(** C27: The callback hands out a token cookie only to the browser that began the login:
    its state cookie matches the [state] of the query, and the token is one the key set
    verifies and whose [nonce] claim is the one in that cookie. *)
Theorem login_bound_to_browser authType wl r s rep s' c :
  callback authType wl r s = (rep, s') →
  c ∈ rp_cookies rep → sc_name c = tokenCookie →
  ∃ w state nonce claims,
    wl = Some w ∧ authType = "OIDC"
    ∧ req_cookie r oidcStateCookie = Some (state +:+ ":" +:+ nonce) ∧ mem_byte ":" state = false
    ∧ state ≠ "" ∧ nonce ≠ ""
    ∧ query_get (url_rawquery (req_url r)) "state" = state
    ∧ ParseWithClaims (wl_jwks w) (sc_value c) = Some claims ∧ claims !! "nonce" = Some (JStr nonce).
Proof.
  intros Hrun Hc Hn. unfold handleOIDCCallback in Hrun. destruct wl as [w|]; [|no_cookie].
  destruct (negb (authType =?s "OIDC")) eqn:E1; [no_cookie|].
  destruct (query_get (url_rawquery (req_url r)) "code" =?s "") eqn:E2; [no_cookie|].
  destruct (readOIDCStateCookie r) as [[state nonce]|] eqn:E3; [|no_cookie].
  destruct (negb (query_get (url_rawquery (req_url r)) "state" =?s state)) eqn:E4; [no_cookie|]. seqb_simpl.
  apply readOIDCStateCookie_Some in E3 as (? & ? & ? & Hne).
  unfold mbind, ST_bind in Hrun. destruct (Exchange ParseWithClaims new_request_ok Do cfg w _ nonce s) as [[tok|e] s1] eqn:Ex; [|no_cookie].
  unfold mret, ST_ret in Hrun. simplify_eq.
  apply Exchange_Ok in Ex as [_ Hv]. rewrite validateIDToken_Ok in Hv by done. destruct Hv as (claims & Hp & Hnc).
  cbn [rp_cookies] in Hc. apply elem_of_cons in Hc as [-> | ->%list_elem_of_singleton]; [done|].
  exists w, (query_get (url_rawquery (req_url r)) "state"), nonce, claims. split_and!; done.
Qed.

(** A login begun at [/sso] completes: the browser gets the identity provider's URL
    with the client, the redirect URL, a state and a nonce, and one state cookie. When
    it comes back with that cookie, that state and a code, and the token endpoint
    answers with a token the key set verifies for that nonce, the callback sets the
    token cookie and redirects to the UI. *)
Theorem web_login_completes (w : OIDCWebLogin (K := K)) b1 b2 r0 r s s' resp data tr claims :
  b1 ≠ "" → b2 ≠ "" →
  ∃ cookie q,
    rp_cookies (handleSSO cfg "OIDC" (Some w) (Some b1) (Some b2) r0) = [cookie]
    ∧ rp_body (handleSSO cfg "OIDC" (Some w) (Some b1) (Some b2) r0)
      = BJson (resultOK (JStr (authzURL w +:+ (if mem_byte "?" (authzURL w) then "&" else "?") +:+ q)))
    ∧ query_get q "client_id" = ClientID cfg ∧ query_get q "redirect_uri" = RedirectURL cfg
    ∧ let h := hdr_set "Accept" "application/json" (hdr_set "Content-Type" "application/x-www-form-urlencoded" ∅) in
      let form := token_form cfg (query_get (url_rawquery (req_url r)) "code") in
      (req_cookie r oidcStateCookie = Some (sc_value cookie) →
       query_get (url_rawquery (req_url r)) "state" = query_get q "state" →
       query_get (url_rawquery (req_url r)) "code" ≠ "" →
       new_request_ok "POST" (tokenURL w) = true →
       Do (OutRequest "POST" (tokenURL w) h (Ok form)) s = (COk resp, s') →
       resp_status resp = 200 → read_limited (2 ^ 20) resp = Ok data →
       unmarshal set_token_field (mkTokenResponse "" "" "" "") data = (tr, false) →
       tr_Error tr = "" → IDToken tr ≠ "" → ParseWithClaims (wl_jwks w) (IDToken tr) = Some claims →
       claims !! "nonce" = Some (JStr (query_get q "nonce")) →
       ∃ rep, callback "OIDC" (Some w) r s = (rep, s') ∧ rp_status rep = 303
         ∧ hdr_get (rp_header rep) "Location" = uiBasePath
         ∧ (λ c, (sc_name c, sc_value c)) <$> rp_cookies rep = [(oidcStateCookie, ""); (tokenCookie, IDToken tr)]).
Proof.
  intros H1 H2. destruct (AuthCodeURL_query w (b64_encode true false b1) (b64_encode true false b2))
    as (q & Hq & Hqs & Hqn & Hqr & Hqc).
  eexists _, q. split; [done|]. split; [cbn; by rewrite Hq|]. split_and!; [done..|].
  cbn zeta. rewrite Hqs, Hqn. cbn [sc_value]. intros Hck Hst Hcode Hnr Hdo Hrs Hrd Hum He Hid Hp Hnc.
  unfold handleOIDCCallback. rewrite seqb_refl. cbn [negb]. apply seqb_neq in Hcode as ->.
  rewrite (readOIDCStateCookie_tokens r b1 b2) by done. rewrite Hst, seqb_refl. cbn [negb].
  unfold mbind, ST_bind.
  rewrite (Exchange_success ParseWithClaims new_request_ok Do cfg w _ _ s s' resp data tr); [|done..|].
  - eexists. split; [done|]. split_and!; reflexivity.
  - apply validateIDToken_Ok; [by apply b64_nonempty|]. eauto.
Qed.
End login.

(** ** Access to the routes *)

(** What a decidable property of the table says of one registration. *)
Lemma router_check (p : registration → bool) metrics reg :
  (∀ metrics, forallb p (buildRouter metrics) = true) → reg ∈ buildRouter metrics → p reg = true.
Proof. intros Hp Hin. specialize (Hp metrics). rewrite forallb_forall in Hp. apply Hp. by apply list_elem_of_In. Qed.

Definition write_access (reg : registration) : bool :=
  negb (changes_backends (reg_handler reg))
  || match reg_access reg with WithRole role => (role =?s RoleAPI) || (role =?s RoleAdmin) | _ => false end.
Definition is_login (h : admin_handler) : bool :=
  match h with h_handleSSO | h_handleOIDCCallback | h_handleLogin | h_handleLogout | h_handleLoginType => true | _ => false end.
Definition login_access (reg : registration) : bool :=
  negb (is_login (reg_handler reg)) || match reg_access reg with Authenticated => true | _ => false end.

Lemma writes_have_role metrics reg :
  reg ∈ buildRouter metrics → changes_backends (reg_handler reg) = true →
  ∃ role, reg_access reg = WithRole role ∧ role ∈ [RoleAPI; RoleAdmin].
Proof.
  intros Hin Hc. assert (Hw : write_access reg = true).
  { apply (router_check _ metrics); [|done]. by intros []; vm_compute. }
  unfold write_access in Hw. rewrite Hc in Hw. cbn [negb orb] in Hw. destruct (reg_access reg) as [| |role]; [done..|].
  exists role. split; [done|]. apply orb_true_iff in Hw as [->%seqb_eq | ->%seqb_eq]; [left|right; left].
Qed.

(** Whatever the authentication middleware, the routes that change backends let a
    request through only for the principal the middleware identifies, and only if that
    principal has the API role (gateway routes) or the ADMIN role (the others). Any other
    request gets a 401 or a 403 and leaves the state as it was. *)
Theorem admin_writes_gated {S} (mw : Middleware S) who `{!Authenticates mw who} M authz handle metrics reg r s :
  reg ∈ buildRouter metrics → changes_backends (reg_handler reg) = true →
  ∃ role, reg_access reg = WithRole role ∧ role ∈ [RoleAPI; RoleAdmin]
    ∧ let '((rep, es), s') := serve M authz (Some mw) handle reg None r s in
      match who r with
      | None => rp_status rep = 401 ∧ s' = s
      | Some pr =>
          if HasRole M (Some pr) role authz
          then ((rep, drop 1 es), s') = handle (reg_handler reg) (Some pr) r s
          else rep = forbidden ∧ s' = s
      end.
Proof.
  intros Hin Hc. destruct (writes_have_role _ _ Hin Hc) as (role & Ha & Hr).
  exists role. split_and!; [done..|]. unfold serve. rewrite Ha. cbn [from_opt].
  pose proof (role_gate mw who M role authz (handle (reg_handler reg)) None r s) as Hg.
  destruct (who r) as [pr|]; [destruct Hg as [ty ->]|by destruct Hg as (ty & msg & ->)].
  destruct (HasRole _ _ _ _); [|done].
  unfold count, mbind, ST_bind. destruct (handle _ _ _ _) as [[rep es] s']. reflexivity.
Qed.

(** As the routes are registered, the interactive OIDC login cannot be begun: with
    the OIDC middleware, [/sso], [/oidc/callback], [/login] and [/loginType] answer 401 to
    every request without a bearer token, whatever their handlers do. *)
Theorem web_login_needs_token {S K} P (jwks : option K) M authz handle metrics reg r (s : S) :
  reg ∈ buildRouter metrics → is_login (reg_handler reg) = true → bearerToken r = "" →
  serve M authz (Some (OIDC_Handler P jwks)) handle reg None r s
  = ((writeUnauthorized "missing Bearer token", [AuthRequest TypeOIDC ResultDeny]), s).
Proof.
  intros Hin Hl Hb. assert (Hw : login_access reg = true).
  { apply (router_check _ metrics); [|done]. by intros []; vm_compute. }
  unfold login_access in Hw. rewrite Hl in Hw. unfold serve. destruct (reg_access reg); [done| |done].
  cbn [from_opt]. unfold OIDC_Handler. by rewrite Hb.
Qed.

(** ** Witnesses *)
Module Demo.
Definition cfg : OIDCConfig :=
  mkOIDCConfig "https://idp" "goway" "" "https://idp/keys" 300 ["openid"] "https://gw/oidc/callback"
    "https://idp/auth" "https://idp/token".
Definition nonce : string := b64_encode true false "xyz".
Definition verify (_ : unit) (tok : string) : option (gmap string json) :=
  if tok =?s "tok" then Some {["nonce" := JStr nonce]} else None.
Definition login : OIDCWebLogin (K := unit) := mkWebLogin "https://idp/auth" "https://idp/token" tt.
Definition answer : response := Response 200 ∅ (print_json (JObj [("id_token", JStr "tok")])) None.
Definition Do (_ : out_request) : ST unit (call_result response) := mret (COk answer).
Definition request_of (meth path query : string) (cookies : list (string * string)) : request :=
  Request meth (Url "" "" "" "" path "" query false "") "gw" "10.0.0.1:5000" true ∅ ∅ cookies (Ok "").
Definition state : string := b64_encode true false "abc".
Definition back : request :=
  request_of "GET" "/oidc/callback" ("code=c1&state=" +:+ state) [(oidcStateCookie, state +:+ ":" +:+ nonce)].
Definition handle (h : admin_handler) : handler nat := λ _ _ s, ((writeJSON 200 JNull, []), s + 1)%nat.
Definition authz : AuthorizationConfig := mkAuthorizationConfig "admins" "users" "apis" ∅.
Definition same_match (p s : string) : option bool := Some (p =?s s).
End Demo.

Lemma login_bound_to_browser_witness :
  ∃ w state nonce claims,
    Some Demo.login = Some w ∧ "OIDC" = "OIDC"
    ∧ req_cookie Demo.back oidcStateCookie = Some (state +:+ ":" +:+ nonce) ∧ mem_byte ":" state = false
    ∧ state ≠ "" ∧ nonce ≠ ""
    ∧ query_get (url_rawquery (req_url Demo.back)) "state" = state
    ∧ Demo.verify (wl_jwks w) "tok" = Some claims ∧ claims !! "nonce" = Some (JStr nonce).
Proof.
  eapply (login_bound_to_browser Demo.verify (λ _ _, true) Demo.Do Demo.cfg "OIDC" (Some Demo.login) Demo.back tt
    _ tt (SetCookie tokenCookie "tok" "/" tokenCookieMaxAge false true SameSiteLax)).
  - vm_compute. reflexivity.
  - right. left.
  - reflexivity.
Defined.

Lemma web_login_completes_witness :
  ∃ rep, handleOIDCCallback Demo.verify (λ _ _, true) Demo.Do Demo.cfg "OIDC" (Some Demo.login) Demo.back tt = (rep, tt)
    ∧ rp_status rep = 303 ∧ hdr_get (rp_header rep) "Location" = uiBasePath
    ∧ (λ c, (sc_name c, sc_value c)) <$> rp_cookies rep = [(oidcStateCookie, ""); (tokenCookie, "tok")].
Proof.
  destruct (web_login_completes Demo.verify (λ _ _, true) Demo.Do Demo.cfg Demo.login "abc" "xyz"
    (Demo.request_of "POST" "/sso" "" []) Demo.back tt tt Demo.answer (resp_body Demo.answer)
    (mkTokenResponse "tok" "" "" "") {["nonce" := JStr Demo.nonce]}) as (cookie & q & Hc & Hb & _ & _ & H); [done..|].
  assert (q = form_encode [("client_id", "goway"); ("nonce", Demo.nonce); ("redirect_uri", "https://gw/oidc/callback");
                           ("response_type", "code"); ("scope", "openid"); ("state", Demo.state)]) as ->.
  { vm_compute in Hb. injection Hb as Hb. by subst q. }
  apply H; injection Hc as <-; by vm_compute.
Defined.

Lemma admin_writes_gated_witness :
  ∃ role, WithRole RoleAPI = WithRole role ∧ role ∈ [RoleAPI; RoleAdmin]
    ∧ let '((rep, es), s') := serve Demo.same_match Demo.authz (Some Noop) Demo.handle
          (mkReg "POST" "/gateway/backend/modify/delete" (WithRole RoleAPI) h_deleteBackend) None Demo.back 4%nat in
      if HasRole Demo.same_match (Some (mkPrincipal "anonymous" "")) role Demo.authz
      then ((rep, drop 1 es), s') = Demo.handle h_deleteBackend (Some (mkPrincipal "anonymous" "")) Demo.back 4%nat
      else rep = forbidden ∧ s' = 4%nat.
Proof.
  apply (admin_writes_gated Noop (λ _, Some (mkPrincipal "anonymous" "")) Demo.same_match Demo.authz Demo.handle None
    (mkReg "POST" "/gateway/backend/modify/delete" (WithRole RoleAPI) h_deleteBackend) Demo.back 4%nat).
  - do 21 right. left.
  - reflexivity.
Defined.

Lemma web_login_needs_token_witness :
  serve Demo.same_match Demo.authz (Some (OIDC_Handler Demo.verify (Some tt))) Demo.handle
    (mkReg "POST" "/sso" Authenticated h_handleSSO) None (Demo.request_of "POST" "/sso" "" []) 4%nat
  = ((writeUnauthorized "missing Bearer token", [AuthRequest TypeOIDC ResultDeny]), 4%nat).
Proof.
  apply (web_login_needs_token Demo.verify (Some tt) Demo.same_match Demo.authz Demo.handle None).
  - do 9 right. left.
  - reflexivity.
  - reflexivity.
Defined.
