(* ===== verification/Sql.v ===== *)
(** * The SQL the gateway writes (texts of internal/persistence, tables of migrations/)

    The data access objects hand SQL text and arguments to a driver. This file gives
    that text its meaning: a lexer, a parser for the fragment the sources use, and an
    evaluator over tables. A row maps column names to values. What is left to the engine
    and to how the tables were created is a parameter: which strings it takes for equal
    (its collation), the order in which rows come without (or among equals of) an ORDER
    BY, when statements fail, how a timestamp column rounds, and what INSERT IGNORE makes
    of a row that does not fit its columns. *)
From S2P Require Import Prelude GoStrings.

#[local] Open Scope Z_scope.

(** ** Values, rows, tables *)
Inductive sqlval : Type := VStr (s : string) | VBool (b : bool) | VTime (ns : Z) | VInt (z : Z).
#[global] Instance sqlval_eq_dec : EqDecision sqlval.
Proof. solve_decision. Defined.

Abbreviation row := (gmap string sqlval).

(** The order [>=] and ORDER BY use; a column has values of one type only. *)
Definition val_tag (v : sqlval) : Z := match v with VStr _ => 0 | VBool _ => 1 | VTime _ => 2 | VInt _ => 3 end.
Definition val_le (a b : sqlval) : bool :=
  match a, b with
  | VStr x, VStr y => String.leb x y
  | VBool x, VBool y => implb x y
  | VTime x, VTime y | VInt x, VInt y => x <=? y
  | _, _ => val_tag a <=? val_tag b
  end.

(** ** Statements *)
Inductive operand : Type := Pos (n : nat) | Named (x : string) | Lit (v : sqlval).
Inductive sqlop : Type := OpEq | OpGe.
Record cond : Type := mkCond { c_col : string; c_op : sqlop; c_arg : operand }.
(** [EMinute] truncates a time to the minute, [EFormat] formats it, to the minute, as text. *)
Inductive sqlexpr : Type := ECol (c : string) | ECount | EMinute (c : string) | EFormat (c : string).
Record item : Type := mkItem { it_expr : sqlexpr; it_name : string }.
Record select : Type := mkSelect {
  s_items : list item; s_table : string; s_where : list cond; s_group : list sqlexpr;
  s_order : option (string * bool); s_limit : option operand; s_offset : option operand }.
Inductive conflict : Type := CFail | CNothing | CIgnore | CUpdate (cols : list string).
Inductive stmt : Type :=
| SSelect (s : select)
| SInsert (table : string) (cols : list string) (vals : list operand) (c : conflict)
| SUpdate (table : string) (sets : list (string * operand)) (w : list cond)
| SDelete (table : string) (w : list cond).

(** ** Tokens *)
Definition flush (cur : string) (l : list string) : list string := if cur =?s "" then l else cur :: l.

(** [lit] tells whether the position is inside a quoted literal. *)
Fixpoint lex (lit : bool) (cur s : string) : list string :=
  match s with
  | EmptyString => flush cur []
  | String c r =>
      if lit then
        let cur := cur +:+ String c "" in
        if Ascii.eqb c "'" then cur :: lex false "" r else lex true cur r
      else if Ascii.eqb c "'" then flush cur (lex true "'" r)
      else if Ascii.eqb c " " || Ascii.eqb c newline then flush cur (lex false "" r)
      else if Ascii.eqb c "=" && (cur =?s ">") then ">=" :: lex false "" r
      else if mem_byte c "(),=" then flush cur (String c "" :: lex false "" r)
      else lex false (cur +:+ String c "") r
  end.
Definition tokens (s : string) : list string := lex false "" s.

(** ** Parser *)

(** A parser reads tokens and the number of [?] marks already seen. *)
Definition parser (A : Type) : Type := nat → list string → option (A * nat * list string).

#[global] Instance parser_ret : MRet parser := λ A a n ts, Some (a, n, ts).
#[global] Instance parser_bind : MBind parser :=
  λ A B f m n ts, match m n ts with Some (a, n', ts') => f a n' ts' | None => None end.

Definition p_fail {A} : parser A := λ _ _, None.
Definition word : parser string := λ n ts, match ts with t :: ts => Some (t, n, ts) | [] => None end.
Definition expect (w : string) : parser unit := λ n ts,
  match ts with t :: ts => if t =?s w then Some (tt, n, ts) else None | [] => None end.
Fixpoint expects (ws : list string) : parser unit :=
  match ws with [] => mret tt | w :: ws => _ ← expect w; expects ws end.
(** Whether the input starts with the words, which are then read. *)
Definition optional (ws : list string) : parser bool := λ n ts,
  match expects ws n ts with Some (_, n', ts') => Some (true, n', ts') | None => Some (false, n, ts) end.

(** One or more [p] with a separator; the fuel bounds their number. *)
Fixpoint sep_by {A} (fuel : nat) (sep : string) (p : parser A) : parser (list A) :=
  match fuel with
  | O => p_fail
  | S f =>
      x ← p;
      more ← optional [sep];
      if more : bool then xs ← sep_by f sep p; mret (x :: xs) else mret [x]
  end.
Definition list_fuel : nat := 16.

Definition p_operand : parser operand := λ n ts,
  match ts with
  | [] => None
  | t :: ts =>
      if t =?s "?" then Some (Pos n, S n, ts)
      else if t =?s "true" then Some (Lit (VBool true), n, ts)
      else match t with
           | String c r =>
               if Ascii.eqb c "$" then match parse_int r with Some k => Some (Pos (Z.to_nat (k - 1)), n, ts) | None => None end
               else if Ascii.eqb c ":" then Some (Named r, n, ts)
               else None
           | EmptyString => None
           end
  end.

Definition p_cond : parser cond :=
  c ← word; o ← word; a ← p_operand;
  if o =?s "=" then mret (mkCond c OpEq a) else if o =?s ">=" then mret (mkCond c OpGe a) else p_fail.
Definition p_where : parser (list cond) :=
  w ← optional ["WHERE"];
  if w : bool then sep_by list_fuel "AND" p_cond else mret [].

Definition p_expr : parser sqlexpr :=
  t ← word;
  if t =?s "COUNT" then _ ← expect "("; _ ← word; _ ← expect ")"; mret ECount
  else if t =?s "date_trunc" then
    _ ← expects ["("; "'minute'"; ","]; c ← word; _ ← expect ")"; mret (EMinute c)
  else if t =?s "DATE_FORMAT" then
    _ ← expect "("; c ← word; _ ← expects [","; "'%Y-%m-%d %H:%i:00'"; ")"]; mret (EFormat c)
  else mret (ECol t).
Definition p_item : parser item :=
  e ← p_expr;
  named ← optional ["AS"];
  if named : bool then x ← word; mret (mkItem e x)
  else mret (mkItem e (match e with ECol c => c | _ => "" end)).

Definition p_select : parser select :=
  items ← sep_by list_fuel "," p_item;
  _ ← expect "FROM"; table ← word;
  w ← p_where;
  g ← optional ["GROUP"; "BY"];
  group ← (if g : bool then sep_by list_fuel "," p_expr else mret []);
  o ← optional ["ORDER"; "BY"];
  order ← (if o : bool then c ← word; desc ← optional ["DESC"]; mret (Some (c, desc)) else mret None);
  l ← optional ["LIMIT"];
  limit ← (if l : bool then x ← p_operand; mret (Some x) else mret None);
  f ← optional ["OFFSET"];
  offset ← (if f : bool then x ← p_operand; mret (Some x) else mret None);
  mret (mkSelect items table w group order limit offset).

(** [c = EXCLUDED.c] and [c = VALUES(c)]: the column takes the value to be inserted. *)
Definition p_excluded : parser string :=
  c ← word; _ ← expect "="; v ← word;
  if v =?s "EXCLUDED." +:+ c then mret c
  else if v =?s "VALUES" then _ ← expect "("; c' ← word; _ ← expect ")"; if c' =?s c then mret c else p_fail
  else p_fail.

Definition p_conflict : parser conflict :=
  oc ← optional ["ON"; "CONFLICT"; "("];
  if oc : bool then
    _ ← word; _ ← expects [")"; "DO"];
    nothing ← optional ["NOTHING"];
    if nothing : bool then mret CNothing
    else _ ← expects ["UPDATE"; "SET"]; cols ← sep_by list_fuel "," p_excluded; mret (CUpdate cols)
  else
    od ← optional ["ON"; "DUPLICATE"; "KEY"; "UPDATE"];
    if od : bool then cols ← sep_by list_fuel "," p_excluded; mret (CUpdate cols) else mret CFail.

Definition p_insert : parser stmt :=
  ign ← optional ["IGNORE"];
  _ ← expect "INTO"; table ← word;
  _ ← expect "("; cols ← sep_by list_fuel "," word; _ ← expects [")"; "VALUES"; "("];
  vals ← sep_by list_fuel "," p_operand; _ ← expect ")";
  c ← p_conflict;
  mret (SInsert table cols vals (if ign : bool then CIgnore else c)).

Definition p_set : parser (string * operand) := c ← word; _ ← expect "="; a ← p_operand; mret (c, a).

Definition p_stmt : parser stmt :=
  t ← word;
  if t =?s "SELECT" then s ← p_select; mret (SSelect s)
  else if t =?s "INSERT" then p_insert
  else if t =?s "UPDATE" then
    table ← word; _ ← expect "SET"; sets ← sep_by list_fuel "," p_set; w ← p_where; mret (SUpdate table sets w)
  else if t =?s "DELETE" then _ ← expect "FROM"; table ← word; w ← p_where; mret (SDelete table w)
  else p_fail.

Definition parse_sql (s : string) : option stmt :=
  match p_stmt 0%nat (tokens s) with Some (st, _, []) => Some st | _ => None end.

(** ** Evaluation *)

(** The primary keys (migrations/00001, 00002). *)
Definition primary_key (table : string) : string :=
  if table =?s "gateway_backend" then "name" else if table =?s "query_history" then "query_id" else "".
(** The columns after all four migrations. *)
Definition columns (table : string) : list string :=
  if table =?s "gateway_backend" then
    ["name"; "url"; "routing_group"; "active"; "created_at"; "updated_at"; "external_url"]
  else if table =?s "query_history" then
    ["query_id"; "backend_url"; "user_name"; "source"; "created_at"; "external_url"]
  else [].

(** The arguments of a call: positional ones, and the named ones of a struct. *)
Record sqlargs : Type := mkArgs { a_pos : list sqlval; a_named : gmap string sqlval }.
Definition pos_args (l : list sqlval) : sqlargs := mkArgs l ∅.

Definition arg (a : sqlargs) (o : operand) : option sqlval :=
  match o with Pos n => a_pos a !! n | Named x => a_named a !! x | Lit v => Some v end.

(** Equality under a collation, given by the key it compares strings by. *)
Definition collate (coll : string → string) (v : sqlval) : sqlval :=
  match v with VStr s => VStr (coll s) | v => v end.
Definition same_val (coll : string → string) (v w : sqlval) : bool := bool_decide (collate coll v = collate coll w).

Section evaluation.
Context (coll : string → string).

Definition cond_holds (a : sqlargs) (r : row) (c : cond) : bool :=
  match r !! c_col c, arg a (c_arg c) with
  | Some v, Some w => match c_op c with OpEq => same_val coll v w | OpGe => val_le w v end
  | _, _ => false
  end.
Definition where_holds (a : sqlargs) (cs : list cond) (r : row) : bool := forallb (cond_holds a r) cs.

Definition minute_ns : Z := 60 * 1000000000.
Definition minute_of (ns : Z) : Z := ns / minute_ns * minute_ns.

(** The civil date of a day number (days since 1970-01-01). *)
Definition civil_of_days (days : Z) : Z * Z * Z :=
  let z := days + 719468 in
  let era := z / 146097 in
  let doe := z mod 146097 in
  let yoe := (doe - doe / 1460 + doe / 36524 - doe / 146096) / 365 in
  let doy := doe - (365 * yoe + yoe / 4 - yoe / 100) in
  let mp := (5 * doy + 2) / 153 in
  let d := doy - (153 * mp + 2) / 5 + 1 in
  let m := if mp <? 10 then mp + 3 else mp - 9 in
  ((yoe + era * 400 + if m <=? 2 then 1 else 0), m, d).

Fixpoint zeros (n : nat) : string := match n with O => "" | S n => String "0" (zeros n) end.
Definition pad (width : nat) (z : Z) : string := let s := z_to_dec z in zeros (width - String.length s) +:+ s.

(** [DATE_FORMAT(c, '%Y-%m-%d %H:%i:00')]. *)
Definition format_minute (ns : Z) : string :=
  let secs := ns / 1000000000 in
  let '(y, m, d) := civil_of_days (secs / 86400) in
  let s := secs mod 86400 in
  pad 4 y +:+ "-" +:+ pad 2 m +:+ "-" +:+ pad 2 d +:+ " " +:+ pad 2 (s / 3600) +:+ ":" +:+ pad 2 (s / 60 mod 60) +:+ ":00".

Definition eval_expr (n : nat) (r : row) (e : sqlexpr) : option sqlval :=
  match e with
  | ECol c => r !! c
  | ECount => Some (VInt (Z.of_nat n))
  | EMinute c => match r !! c with Some (VTime t) => Some (VTime (minute_of t)) | _ => None end
  | EFormat c => match r !! c with Some (VTime t) => Some (VStr (format_minute t)) | _ => None end
  end.

(** A group: its key, and its rows counted; groups come in the order of their first row. *)
Definition group_key (es : list sqlexpr) (r : row) : list (option sqlval) :=
  (λ e, collate coll <$> eval_expr 0%nat r e) <$> es.
Fixpoint add_to_groups (es : list sqlexpr) (r : row) (gs : list (row * nat)) : list (row * nat) :=
  match gs with
  | [] => [(r, 1%nat)]
  | (r0, n) :: gs =>
      if bool_decide (group_key es r0 = group_key es r) then (r0, S n) :: gs
      else (r0, n) :: add_to_groups es r gs
  end.
Definition groups (es : list sqlexpr) (rs : list row) : list (row * nat) :=
  foldl (λ gs r, add_to_groups es r gs) [] rs.

Definition project (items : list item) (rn : row * nat) : option row :=
  foldr (λ it acc, m ← acc; v ← eval_expr rn.2 rn.1 (it_expr it); Some (<[it_name it := v]> m)) (Some ∅) items.

(** Rows by the order column; descending order puts larger values first. *)
Definition opt_le (a b : option sqlval) : bool :=
  match a, b with Some x, Some y => val_le x y | None, _ => true | Some _, None => false end.
Definition order_le (o : string * bool) (a b : row) : Prop :=
  (if o.2 then opt_le (b !! o.1) (a !! o.1) else opt_le (a !! o.1) (b !! o.1)) = true.
#[global] Instance order_le_dec o a b : Decision (order_le o a b).
Proof. unfold order_le. apply _. Defined.

Definition sort_rows (o : option (string * bool)) (rs : list row) : list row :=
  match o with Some o => merge_sort (order_le o) rs | None => rs end.

(** LIMIT and OFFSET; a negative value is an error. *)
Definition bound (a : sqlargs) (o : option operand) : go_result (option nat) :=
  match o with
  | None => Ok None
  | Some o =>
      match arg a o with
      | Some (VInt z) => if z <? 0 then Err "must not be negative" else Ok (Some (Z.to_nat z))
      | _ => Err "invalid argument"
      end
  end.
Definition slice {A} (limit offset : option nat) (l : list A) : list A :=
  let l := drop (from_opt 0%nat offset) l in
  match limit with Some n => take n l | None => l end.

Definition is_count (it : item) : bool := match it_expr it with ECount => true | _ => false end.

Definition eval_select (a : sqlargs) (s : select) (rs : list row) : go_result (list row) :=
  limit ← bound a (s_limit s);
  offset ← bound a (s_offset s);
  let rs := List.filter (where_holds a (s_where s)) rs in
  let gs := if existsb is_count (s_items s)
            then match s_group s with [] => [(∅, length rs)] | es => groups es rs end
            else (λ r, (r, 1%nat)) <$> rs in
  match s_group s, s_order s with
  | [], Some o =>
      (* the order column may be one that is not selected *)
      let sorted := sort_rows (Some o) (fst <$> gs) in
      match mapM (project (s_items s)) ((λ r, (r, 1%nat)) <$> slice limit offset sorted) with
      | Some out => Ok out
      | None => Err "unknown column"
      end
  | _, o =>
      match mapM (project (s_items s)) gs with
      | Some out => Ok (slice limit offset (sort_rows o out))
      | None => Err "unknown column"
      end
  end.

(** The row an INSERT builds. *)
Definition build_row (a : sqlargs) (cols : list string) (vals : list operand) : option row :=
  vs ← mapM (arg a) vals;
  if bool_decide (length cols = length vs) then Some (list_to_map (zip cols vs)) else None.

Definition same_key (k : string) (r r' : row) : bool := bool_decide (collate coll <$> r !! k = collate coll <$> r' !! k).

Definition eval_insert (k : string) (r : row) (c : conflict) (rs : list row) : go_result (list row) :=
  if existsb (same_key k r) rs then
    match c with
    | CFail => Err "duplicate key"
    | CNothing | CIgnore => Ok rs
    | CUpdate cols =>
        Ok ((λ r', if same_key k r r'
                   then foldr (λ col acc, match r !! col with Some v => <[col := v]> acc | None => acc end) r' cols
                   else r') <$> rs)
    end
  else Ok (rs ++ [r]).

Definition eval_update (a : sqlargs) (sets : list (string * operand)) (w : list cond) (rs : list row) :
    option (list row) :=
  vs ← mapM (λ '(c, o), v ← arg a o; Some (c, v)) sets;
  Some ((λ r, if where_holds a w r then foldr (λ '(c, v) acc, <[c := v]> acc) r vs else r) <$> rs).

End evaluation.

(** ** The engine *)
Record engine : Type := mkEngine {
  (* the driver's name *)
  e_driver : string;
  (* the error of the [n]-th statement, if any *)
  e_fault : nat → string → sqlargs → option string;
  (* the order in which a statement reads rows *)
  e_arrange : string → sqlargs → list row → list row;
  (* what a timestamp column keeps *)
  e_round : Z → Z;
  (* the key by which the collation of the columns compares strings *)
  e_coll : string → string;
  (* the row INSERT IGNORE stores for a row, errors of its values being warnings *)
  e_ignore : string → row → row }.

(** What is relied on: rows are read in some order; the collation tells strings apart, as
    PostgreSQL's do and a binary one of MySQL; and what is inserted with IGNORE fits its
    columns. *)
Class EngineOk (e : engine) : Prop := {
  e_arrange_perm text a rs : e_arrange e text a rs ≡ₚ rs;
  e_exact x y : e_coll e x = e_coll e y → x = y;
  e_fits t r : e_ignore e t r = r }.

Record database : Type := mkDb { d_tables : gmap string (list row); d_tick : nat }.
Definition table (d : database) (t : string) : list row := from_opt [] (d_tables d !! t).
Definition set_table (t : string) (rs : list row) (d : database) : database :=
  mkDb (<[t := rs]> (d_tables d)) (d_tick d).
Definition tick (d : database) : database := mkDb (d_tables d) (S (d_tick d)).

(** Placeholders are [$n] for postgres and [?] for mysql. *)
Definition placeholders_ok (driver text : string) : bool :=
  if driver =?s "mysql" then negb (mem_byte "$" text) else negb (mem_byte "?" text).

Definition round_args (e : engine) (a : sqlargs) : sqlargs :=
  let rv v := match v with VTime t => VTime (e_round e t) | v => v end in
  mkArgs (rv <$> a_pos a) (rv <$> a_named a).

(** One statement: its rows, and its effect. *)
Definition exec_stmt (e : engine) (text : string) (a : sqlargs) (st : stmt) (d : database) :
    go_result (list row) * database :=
  match st with
  | SSelect s =>
      if bool_decide (columns (s_table s) = []) then (Err "no such table", d)
      else (eval_select (e_coll e) a s (e_arrange e text a (table d (s_table s))), d)
  | SInsert t cols vals c =>
      if negb (forallb (λ c, existsb (String.eqb c) (columns t)) cols) then (Err "no such column", d)
      else match build_row (round_args e a) cols vals with
           | None => (Err "missing argument", d)
           | Some r =>
               let r := match c with CIgnore => e_ignore e t r | _ => r end in
               match eval_insert (e_coll e) (primary_key t) r c (table d t) with
               | Ok rs => (Ok [], set_table t rs d)
               | Err m => (Err m, d)
               end
           end
  | SUpdate t sets w =>
      match eval_update (e_coll e) (round_args e a) sets w (table d t) with
      | Some rs => (Ok [], set_table t rs d)
      | None => (Err "missing argument", d)
      end
  | SDelete t w => (Ok [], set_table t (List.filter (λ r, negb (where_holds (e_coll e) a w r)) (table d t)) d)
  end.

Definition exec (e : engine) (text : string) (a : sqlargs) : ST database (go_result (list row)) := λ d,
  let d' := tick d in
  match e_fault e (d_tick d) text a with
  | Some m => (Err m, d')
  | None =>
      if negb (placeholders_ok (e_driver e) text) then (Err "syntax error", d')
      else match parse_sql text with
           | Some st => exec_stmt e text a st d'
           | None => (Err "syntax error", d')
           end
  end.

(** ** Lemmas *)
#[global] Instance filter_perm {A} (p : A → bool) : Proper ((≡ₚ) ==> (≡ₚ)) (List.filter p).
Proof.
  intros l k H. induction H as [|x l k H IH|x y l|l1 l2 l3 _ IH1 _ IH2]; cbn; [done|..].
  - destruct (p x); by rewrite IH.
  - destruct (p x), (p y); try done. constructor.
  - by etrans.
Qed.

Lemma val_le_total a b : val_le a b = true ∨ val_le b a = true.
Proof.
  destruct a as [x|x|x|x], b as [y|y|y|y]; cbn; rewrite ?Z.leb_le; try lia.
  - destruct (String.leb_total x y); auto.
  - destruct x, y; auto.
Qed.

#[global] Instance order_le_total o : Total (order_le o).
Proof.
  intros a b. unfold order_le. destruct (a !! o.1) as [x|], (b !! o.1) as [y|], o.2; cbn; auto using val_le_total.
Qed.

Lemma sort_rows_perm o rs : sort_rows o rs ≡ₚ rs.
Proof. destruct o as [o|]; cbn; [|done]. apply merge_sort_Permutation. Qed.

Lemma sort_rows_sorted o rs : Sorted (order_le o) (sort_rows (Some o) rs).
Proof. cbn. apply Sorted_merge_sort. apply _. Qed.

Lemma slice_sublist {A} l o (xs : list A) : slice l o xs `sublist_of` xs.
Proof.
  unfold slice. destruct l as [n|]; cbn; [etrans; [apply sublist_take|]|]; apply sublist_drop.
Qed.

(** *** Groups *)
Section groups.
Context (coll : string → string).
#[local] Abbreviation group_key := (group_key coll).
#[local] Abbreviation add_to_groups := (add_to_groups coll).
#[local] Abbreviation groups := (groups coll).

Definition in_group (es : list sqlexpr) (r0 r : row) : bool := bool_decide (group_key es r0 = group_key es r).

Definition groups_ok (es : list sqlexpr) (rs : list row) (gs : list (row * nat)) : Prop :=
  NoDup (group_key es ∘ fst <$> gs)
  ∧ (∀ r0 n, (r0, n) ∈ gs → r0 ∈ rs ∧ n = length (List.filter (in_group es r0) rs))
  ∧ (∀ r, r ∈ rs → ∃ r0 n, (r0, n) ∈ gs ∧ group_key es r0 = group_key es r).

Lemma add_to_groups_fresh es r gs :
  (∀ r0 n, (r0, n) ∈ gs → group_key es r0 ≠ group_key es r) → add_to_groups es r gs = gs ++ [(r, 1%nat)].
Proof.
  induction gs as [|[r0 n] gs IH]; intros Hn; [done|]. cbn [Sql.add_to_groups].
  rewrite bool_decide_eq_false_2 by (apply (Hn r0 n); left). cbn. f_equal. apply IH. intros. apply (Hn r1 n0). by right.
Qed.

Lemma add_to_groups_known es r gs r0 n :
  (r0, n) ∈ gs → group_key es r0 = group_key es r → NoDup (group_key es ∘ fst <$> gs) →
  ∃ g1 g2, gs = g1 ++ (r0, n) :: g2 ∧ add_to_groups es r gs = g1 ++ (r0, S n) :: g2.
Proof.
  induction gs as [|[r1 m] gs IH]; intros Hin Hk Hnd; [by apply elem_of_nil in Hin|].
  rewrite fmap_cons in Hnd. apply NoDup_cons in Hnd as [Hn Hnd]. cbn [Sql.add_to_groups].
  apply elem_of_cons in Hin as [[= <- <-] | Hin].
  - rewrite bool_decide_eq_true_2 by done. by exists [], gs.
  - rewrite bool_decide_eq_false_2.
    + destruct (IH Hin Hk Hnd) as (g1 & g2 & -> & ->). by exists ((r1, m) :: g1), g2.
    + intros Hc. apply Hn. apply list_elem_of_fmap. exists (r0, n). split; [|done]. cbn. congruence.
Qed.

Lemma filter_snoc_length (p : row → bool) rs r :
  length (List.filter p (rs ++ [r])) = (length (List.filter p rs) + if p r then 1 else 0)%nat.
Proof. rewrite List.filter_app, length_app. cbn. by destruct (p r). Qed.

(** One more row in a group that exists, and in a new one. *)
Lemma groups_ok_known es rs r g1 g2 r0 n :
  group_key es r0 = group_key es r →
  groups_ok es rs (g1 ++ (r0, n) :: g2) → groups_ok es (rs ++ [r]) (g1 ++ (r0, S n) :: g2).
Proof.
  intros Hk (Hnd & Hgs & Hall). rewrite fmap_app, fmap_cons in Hnd. cbn in Hnd.
  assert (Hother : ∀ r1 m, (r1, m) ∈ g1 ∨ (r1, m) ∈ g2 → in_group es r1 r = false).
  { intros r1 m Hm. apply bool_decide_eq_false. intros Hc. apply NoDup_app in Hnd as (_ & Hd1 & Hd2).
    apply NoDup_cons in Hd2 as [Hd2 _]. destruct Hm as [Hm | Hm].
    - apply (Hd1 (group_key es r1)); [apply list_elem_of_fmap; by exists (r1, m)|]. rewrite Hc, <- Hk. left.
    - apply Hd2, list_elem_of_fmap. exists (r1, m). split; [cbn; congruence|done]. }
  split_and!.
  - by rewrite fmap_app, fmap_cons.
  - intros r1 m Hm. rewrite filter_snoc_length. setoid_rewrite elem_of_app in Hgs. setoid_rewrite elem_of_cons in Hgs.
    apply elem_of_app in Hm as [Hm | [Hm | Hm]%elem_of_cons].
    + rewrite (Hother r1 m) by auto. destruct (Hgs r1 m) as [? ->]; [auto|]. split; [set_solver|lia].
    + injection Hm as -> ->. destruct (Hgs r0 n) as [? ->]; [auto|]. split; [set_solver|].
      unfold in_group at 3. rewrite bool_decide_eq_true_2 by done. lia.
    + rewrite (Hother r1 m) by auto. destruct (Hgs r1 m) as [? ->]; [auto|]. split; [set_solver|lia].
  - intros r1 [Hr1 | ->%list_elem_of_singleton]%elem_of_app; [|exists r0, (S n); split; [set_solver|done]].
    destruct (Hall r1 Hr1) as (r2 & m & Hm & Hk2). apply elem_of_app in Hm as [Hm | [Hm | Hm]%elem_of_cons].
    + exists r2, m. split; [set_solver|done].
    + injection Hm as -> ->. exists r0, (S n). split; [set_solver|done].
    + exists r2, m. split; [set_solver|done].
Qed.

Lemma groups_ok_fresh es rs r gs :
  (∀ r0 n, (r0, n) ∈ gs → group_key es r0 ≠ group_key es r) →
  groups_ok es rs gs → groups_ok es (rs ++ [r]) (gs ++ [(r, 1%nat)]).
Proof.
  intros Hno (Hnd & Hgs & Hall). split_and!.
  - rewrite fmap_app. apply NoDup_app. split_and!; [done| |apply NoDup_singleton].
    intros k ([r0 n] & -> & Hin)%list_elem_of_fmap Hk%list_elem_of_singleton. by apply (Hno r0 n).
  - intros r1 m [Hm | [= -> ->]%list_elem_of_singleton]%elem_of_app; rewrite filter_snoc_length; unfold in_group at 2.
    + destruct (Hgs r1 m Hm) as [? ->]. rewrite bool_decide_eq_false_2 by by apply (Hno r1 (length (List.filter (in_group es r1) rs))).
      split; [set_solver|lia].
    + split; [set_solver|]. rewrite bool_decide_eq_true_2 by done.
      replace (List.filter (in_group es r) rs) with (@nil row); [done|]. symmetry.
      apply elem_of_nil_inv. intros r1 Hr1. apply list_elem_of_In, filter_In in Hr1 as [Hr1 Hg].
      apply bool_decide_eq_true in Hg. apply list_elem_of_In in Hr1. destruct (Hall r1 Hr1) as (r2 & m & Hm & Hk).
      apply (Hno r2 m); [done|]. congruence.
  - intros r1 [Hr1 | ->%list_elem_of_singleton]%elem_of_app; [|exists r, 1%nat; split; [set_solver|done]].
    destruct (Hall r1 Hr1) as (r2 & m & ? & ?). exists r2, m. split; [set_solver|done].
Qed.

Lemma groups_spec es rs : groups_ok es rs (groups es rs).
Proof.
  induction rs as [|r rs IH] using rev_ind.
  { change (groups es []) with (@nil (row * nat)). split_and!; [constructor|by intros ?? ?%elem_of_nil|by intros ? ?%elem_of_nil]. }
  unfold Sql.groups in *. rewrite foldl_app. cbn [foldl]. set (gs := foldl _ [] rs) in *.
  destruct (decide (Exists (λ rn, group_key es rn.1 = group_key es r) gs)) as [([r0 n] & Hin & Hk)%Exists_exists|Hno].
  - destruct (add_to_groups_known es r gs r0 n Hin Hk (proj1 IH)) as (g1 & g2 & Heq & ->).
    rewrite Heq in IH. by apply groups_ok_known.
  - assert (Hn : ∀ r0 n, (r0, n) ∈ gs → group_key es r0 ≠ group_key es r).
    { intros r0 n Hin Hc. apply Hno, Exists_exists. by exists (r0, n). }
    rewrite add_to_groups_fresh by done. by apply groups_ok_fresh.
Qed.
End groups.
