(* ===== verification/Persistence.v ===== *)
(** * Database access (internal/persistence/backend.go, history.go, metrics.go)

    The data access objects over the SQL engine of [Sql], with the texts of the sources.
    A time is nanoseconds since the epoch. [sqlx]'s [Rebind], and its binding of
    [:name] to the struct field tagged [name], are as documented. *)
From S2P Require Import Prelude GoStrings Sql.

#[local] Open Scope Z_scope.

(** [time.Time{}]: the first of January of the year 1. *)
Definition zero_time : Z := -62135596800 * 1000000000.

(** ** Rows *)
Record Backend : Type := mkBackend {
  b_Name : string; b_URL : string; b_ExternalURL : string; b_RoutingGroup : string; b_Active : bool;
  b_CreatedAt : Z; b_UpdatedAt : Z }.
#[global] Instance Backend_eq_dec : EqDecision Backend.
Proof. solve_decision. Defined.

Record QueryRecord : Type := mkQueryRecord {
  q_QueryID : string; q_BackendURL : string; q_ExternalURL : string; q_UserName : string; q_Source : string;
  q_RoutingGroup : string; q_QueryText : string; q_CreatedAt : Z }.
#[global] Instance QueryRecord_eq_dec : EqDecision QueryRecord.
Proof. solve_decision. Defined.

Record HistoryFilter : Type := mkHistoryFilter {
  f_UserName : string; f_BackendURL : string; f_QueryID : string; f_Source : string; f_Page : Z; f_PageSize : Z }.

Record DistributionBucket : Type := mkBucket { MinuteStart : Z; d_BackendURL : string; QueryCount : Z }.

(** The struct tags. *)
Definition backend_row (b : Backend) : row :=
  list_to_map [("name", VStr (b_Name b)); ("url", VStr (b_URL b)); ("external_url", VStr (b_ExternalURL b));
               ("routing_group", VStr (b_RoutingGroup b)); ("active", VBool (b_Active b));
               ("created_at", VTime (b_CreatedAt b)); ("updated_at", VTime (b_UpdatedAt b))].
Definition record_args (q : QueryRecord) : row :=
  list_to_map [("query_id", VStr (q_QueryID q)); ("backend_url", VStr (q_BackendURL q));
               ("external_url", VStr (q_ExternalURL q)); ("user_name", VStr (q_UserName q));
               ("source", VStr (q_Source q)); ("routing_group", VStr (q_RoutingGroup q));
               ("query_text", VStr (q_QueryText q)); ("created_at", VTime (q_CreatedAt q))].

Definition get_str (r : row) (c : string) : option string := match r !! c with Some (VStr s) => Some s | _ => None end.
Definition get_time (r : row) (c : string) : option Z := match r !! c with Some (VTime t) => Some t | _ => None end.
Definition get_bool (r : row) (c : string) : option bool := match r !! c with Some (VBool b) => Some b | _ => None end.
Definition get_int (r : row) (c : string) : option Z := match r !! c with Some (VInt z) => Some z | _ => None end.

Definition scan_backend (r : row) : option Backend :=
  n ← get_str r "name"; u ← get_str r "url"; x ← get_str r "external_url"; g ← get_str r "routing_group";
  a ← get_bool r "active"; c ← get_time r "created_at"; t ← get_time r "updated_at";
  Some (mkBackend n u x g a c t).
(** The columns the queries select: the routing group and the text stay empty. *)
Definition scan_record (r : row) : option QueryRecord :=
  q ← get_str r "query_id"; b ← get_str r "backend_url"; x ← get_str r "external_url";
  u ← get_str r "user_name"; s ← get_str r "source"; t ← get_time r "created_at";
  Some (mkQueryRecord q b x u s "" "" t).
Definition scan_bucket (r : row) : option DistributionBucket :=
  m ← get_time r "minute_start"; b ← get_str r "backend_url"; c ← get_int r "query_count"; Some (mkBucket m b c).

(** ** sqlx *)
Fixpoint rebind_dollar (n : nat) (s : string) : string :=
  match s with
  | EmptyString => ""
  | String c r =>
      if Ascii.eqb c "?" then "$" +:+ z_to_dec (Z.of_nat n) +:+ rebind_dollar (S n) r
      else String c (rebind_dollar n r)
  end.

Section dao.
Context (e : engine).
Abbreviation DB A := (ST database A).

Definition DriverName : string := e_driver e.
Definition Rebind (q : string) : string := if DriverName =?s "postgres" then rebind_dollar 1 q else q.

(** [SelectContext] into a slice. *)
Definition Select {A} (scan : row → option A) (text : string) (a : sqlargs) : DB (go_result (list A)) :=
  r ← exec e text a;
  mret match r with
       | Err m => Err m
       | Ok rows => match mapM scan rows with Some l => Ok l | None => Err "scan error" end
       end.
(** [QueryRowContext(...).Scan]: the first row, [None] for [sql.ErrNoRows]. *)
Definition QueryRow {A} (scan : row → option A) (text : string) (a : sqlargs) : DB (go_result (option A)) :=
  r ← exec e text a;
  mret match r with
       | Err m => Err m
       | Ok [] => Ok None
       | Ok (row :: _) => match scan row with Some x => Ok (Some x) | None => Err "scan error" end
       end.
Definition Exec (text : string) (a : sqlargs) : DB (option string) :=
  r ← exec e text a; mret match r with Ok _ => None | Err m => Some m end.

(** [fmt.Errorf("prefix: %w", err)]. *)
Definition wrap {A} (prefix : string) (r : go_result A) : go_result A :=
  match r with Ok a => Ok a | Err m => Err (prefix +:+ ": " +:+ m) end.

(** ** Backends (backend.go) *)
Definition list_text : string :=
  "SELECT name, url, external_url, routing_group, active, created_at, updated_at FROM gateway_backend".

Definition List_ : DB (go_result (list Backend)) :=
  r ← Select scan_backend list_text (pos_args []); mret (wrap "persistence: backend: list" r).

Definition upsert_text (driver : string) : option string :=
  if driver =?s "postgres" then Some (nl +:+
"INSERT INTO gateway_backend (name, url, external_url, routing_group, active, created_at, updated_at)
VALUES (:name, :url, :external_url, :routing_group, :active, :created_at, :updated_at)
ON CONFLICT (name) DO UPDATE SET
    url           = EXCLUDED.url,
    external_url  = EXCLUDED.external_url,
    routing_group = EXCLUDED.routing_group,
    active        = EXCLUDED.active,
    updated_at    = EXCLUDED.updated_at")
  else if driver =?s "mysql" then Some (nl +:+
"INSERT INTO gateway_backend (name, url, external_url, routing_group, active, created_at, updated_at)
VALUES (:name, :url, :external_url, :routing_group, :active, :created_at, :updated_at)
ON DUPLICATE KEY UPDATE
    url           = VALUES(url),
    external_url  = VALUES(external_url),
    routing_group = VALUES(routing_group),
    active        = VALUES(active),
    updated_at    = VALUES(updated_at)")
  else None.

(** Errors of a statement without rows, as [go_result unit]. *)
Definition done_or (prefix : string) (err : option string) : go_result unit :=
  match err with None => Ok tt | Some m => Err (prefix +:+ ": " +:+ m) end.

Definition Upsert (b : Backend) : DB (go_result unit) :=
  match upsert_text DriverName with
  | None => mret (Err "persistence: backend: upsert: unsupported driver")
  | Some text =>
      err ← Exec text (mkArgs [] (backend_row b)); mret (done_or "persistence: backend: upsert" err)
  end.

Definition Delete (name : string) : DB (go_result unit) :=
  err ← Exec (Rebind "DELETE FROM gateway_backend WHERE name = ?") (pos_args [VStr name]);
  mret (done_or "persistence: backend: delete" err).

(** [now] is the clock. *)
Definition SetActive (now : Z) (name : string) (active : bool) : DB (go_result unit) :=
  err ← Exec (Rebind "UPDATE gateway_backend SET active = ?, updated_at = ? WHERE name = ?")
          (pos_args [VBool active; VTime now; VStr name]);
  mret (done_or "persistence: backend: set active" err).

Definition LookupExternalURL (url : string) : DB (go_result string) :=
  r ← QueryRow (λ r, get_str r "external_url")
        (Rebind "SELECT external_url FROM gateway_backend WHERE url = ?") (pos_args [VStr url]);
  mret match r with
       | Ok None => Ok url
       | Err m => Err ("persistence: backend: lookup external url: " +:+ m)
       | Ok (Some x) => if x =?s "" then Ok url else Ok x
       end.

Definition ListActive : DB (go_result (list Backend)) :=
  r ← Select scan_backend (list_text +:+ " WHERE active = true") (pos_args []);
  mret (wrap "persistence: backend: list active" r).

(** ** History (history.go) *)
Definition ResultOK := "ok".
Definition ResultError := "error".

Definition insert_text (driver : string) : option string :=
  if driver =?s "postgres" then Some (nl +:+
"INSERT INTO query_history (query_id, backend_url, external_url, user_name, source, created_at)
VALUES (:query_id, :backend_url, :external_url, :user_name, :source, :created_at)
ON CONFLICT (query_id) DO NOTHING")
  else if driver =?s "mysql" then Some (nl +:+
"INSERT IGNORE INTO query_history (query_id, backend_url, external_url, user_name, source, created_at)
VALUES (:query_id, :backend_url, :external_url, :user_name, :source, :created_at)")
  else None.

(** The result, and the outcome it counts. *)
Definition Insert (q : QueryRecord) : DB (go_result unit * string) :=
  match insert_text DriverName with
  | None => mret (Err "persistence: history: insert: unsupported driver", ResultError)
  | Some text =>
      err ← Exec text (mkArgs [] (record_args q));
      mret match err with
           | Some m => (Err ("persistence: history: insert: " +:+ m), ResultError)
           | None => (Ok tt, ResultOK)
           end
  end.

Definition LookupByQueryID (queryID : string) : DB (go_result string) :=
  r ← QueryRow (λ r, get_str r "backend_url")
        (Rebind "SELECT backend_url FROM query_history WHERE query_id = ?") (pos_args [VStr queryID]);
  mret match r with
       | Ok None => Ok ""
       | Err m => Err ("persistence: history: lookup by query id: " +:+ m)
       | Ok (Some u) => Ok u
       end.

Definition record_columns : string :=
  "SELECT query_id, backend_url, external_url, user_name, source, created_at FROM query_history".

Definition recent_text (driver : string) : option string :=
  if driver =?s "postgres" then Some (record_columns +:+ " ORDER BY created_at DESC LIMIT $1")
  else if driver =?s "mysql" then Some (record_columns +:+ " ORDER BY created_at DESC LIMIT ?")
  else None.

Definition ListRecent (limit : Z) : DB (go_result (list QueryRecord)) :=
  let limit := if limit <=? 0 then 10 else limit in
  match recent_text DriverName with
  | None => mret (Err "persistence: history: list recent: unsupported driver")
  | Some text =>
      r ← Select scan_record text (pos_args [VInt limit]); mret (wrap "persistence: history: list recent" r)
  end.

Definition distribution_text (driver : string) : option string :=
  if driver =?s "postgres" then Some (nl +:+
"SELECT date_trunc('minute', created_at) AS minute_start,
       backend_url,
       COUNT(1) AS query_count
FROM query_history
WHERE created_at >= $1
GROUP BY date_trunc('minute', created_at), backend_url
ORDER BY minute_start")
  else if driver =?s "mysql" then Some (nl +:+
"SELECT DATE_FORMAT(created_at, '%Y-%m-%d %H:%i:00') AS minute_start,
       backend_url,
       COUNT(1) AS query_count
FROM query_history
WHERE created_at >= ?
GROUP BY DATE_FORMAT(created_at, '%Y-%m-%d %H:%i:00'), backend_url
ORDER BY minute_start")
  else None.

Definition FindDistribution (since : Z) : DB (go_result (list DistributionBucket)) :=
  match distribution_text DriverName with
  | None => mret (Err "persistence: history: find distribution: unsupported driver")
  | Some text =>
      r ← Select scan_bucket text (pos_args [VTime since]); mret (wrap "persistence: history: find distribution" r)
  end.

(** [placeholder] and the counter it advances. *)
Definition placeholder (argIdx : Z) : string * Z :=
  if DriverName =?s "mysql" then ("?", argIdx) else ("$" +:+ z_to_dec argIdx, argIdx + 1).

(** One optional condition: the conditions, the arguments and the counter so far. *)
Definition add_condition (col val : string) (st : list string * list sqlval * Z) : list string * list sqlval * Z :=
  let '(conds, args, argIdx) := st in
  if val =?s "" then st
  else let '(p, argIdx) := placeholder argIdx in (conds ++ [col +:+ " = " +:+ p], args ++ [VStr val], argIdx).

Definition filter_conditions (f : HistoryFilter) : list string * list sqlval * Z :=
  add_condition "source" (f_Source f)
    (add_condition "query_id" (f_QueryID f)
       (add_condition "backend_url" (f_BackendURL f)
          (add_condition "user_name" (f_UserName f) ([], [], 1)))).

Definition filter_where (conds : list string) : string :=
  match conds with [] => "" | _ => " WHERE " +:+ join " AND " conds end.

Definition page_of (f : HistoryFilter) : Z := if f_Page f <? 1 then 1 else f_Page f.
Definition page_size (f : HistoryFilter) : Z := if f_PageSize f <=? 0 then 10 else f_PageSize f.
Definition page_offset (f : HistoryFilter) : Z := wrap64 ((page_of f - 1) * page_size f).

Definition count_text (w : string) : string := "SELECT COUNT(*) FROM query_history" +:+ w.
Definition page_text (w : string) (argIdx : Z) : string :=
  record_columns +:+ w +:+
  (if DriverName =?s "mysql" then " ORDER BY created_at DESC LIMIT ? OFFSET ?"
   else " ORDER BY created_at DESC LIMIT $" +:+ z_to_dec argIdx +:+ " OFFSET $" +:+ z_to_dec (argIdx + 1)).

Definition FindByFilter (f : HistoryFilter) : DB (go_result (list QueryRecord * Z)) :=
  let '(conds, args, argIdx) := filter_conditions f in
  let w := filter_where conds in
  c ← QueryRow (λ r, get_int r "") (count_text w) (pos_args args);
  match c with
  | Err m => mret (Err ("persistence: history: find by filter count: " +:+ m))
  | Ok None => mret (Err "persistence: history: find by filter count: sql: no rows in result set")
  | Ok (Some total) =>
      r ← Select scan_record (page_text w argIdx) (pos_args (args ++ [VInt (page_size f); VInt (page_offset f)]));
      mret match r with
           | Err m => Err ("persistence: history: find by filter: " +:+ m)
           | Ok records => Ok (records, total)
           end
  end.
End dao.
