(* ===== verification/Store.v ===== *)
(** * The store the gateway relies on (BackendStore and HistoryStore of
      internal/admin/router.go), and why the database access objects implement it

    [StoreOps] are the operations other packages call. [StoreSpec] says what they do to
    an abstract store: a list of backends with distinct names and a list of records with
    distinct ids. Clients are verified against the class; [dao_spec] shows that the SQL
    of internal/persistence, on either driver, implements it. *)
From S2P Require Import Prelude GoStrings Sql Persistence.

#[local] Open Scope Z_scope.

Class StoreOps (S : Type) : Type := {
  so_List : ST S (go_result (list Backend));
  so_ListActive : ST S (go_result (list Backend));
  so_Upsert : Backend → ST S (go_result unit);
  so_Delete : string → ST S (go_result unit);
  so_SetActive : Z → string → bool → ST S (go_result unit);
  so_LookupExternalURL : string → ST S (go_result string);
  so_Insert : QueryRecord → ST S (go_result unit * string);
  so_LookupByQueryID : string → ST S (go_result string);
  so_ListRecent : Z → ST S (go_result (list QueryRecord));
  so_FindByFilter : HistoryFilter → ST S (go_result (list QueryRecord * Z));
  so_FindDistribution : Z → ST S (go_result (list DistributionBucket)) }.

(** ** The abstract store *)
Record store : Type := mkStore { st_backends : list Backend; st_history : list QueryRecord }.

(** What the table keeps of a record. *)
Definition kept (round : Z → Z) (q : QueryRecord) : QueryRecord :=
  mkQueryRecord (q_QueryID q) (q_BackendURL q) (q_ExternalURL q) (q_UserName q) (q_Source q) "" "" (round (q_CreatedAt q)).
Definition kept_backend (round : Z → Z) (b : Backend) : Backend :=
  mkBackend (b_Name b) (b_URL b) (b_ExternalURL b) (b_RoutingGroup b) (b_Active b) (round (b_CreatedAt b)) (round (b_UpdatedAt b)).

Definition store_ok (st : store) : Prop :=
  NoDup (b_Name <$> st_backends st) ∧ NoDup (q_QueryID <$> st_history st)
  ∧ Forall (λ q, q = kept id q) (st_history st).

(** An update keeps the creation time. *)
Definition overwrite (b old : Backend) : Backend :=
  mkBackend (b_Name old) (b_URL b) (b_ExternalURL b) (b_RoutingGroup b) (b_Active b) (b_CreatedAt old) (b_UpdatedAt b).
Definition has_name (n : string) (b : Backend) : bool := n =?s b_Name b.
Definition has_id (i : string) (q : QueryRecord) : bool := i =?s q_QueryID q.

Definition st_upsert (b : Backend) (st : store) : store :=
  mkStore (if existsb (has_name (b_Name b)) (st_backends st)
           then (λ old, if has_name (b_Name b) old then overwrite b old else old) <$> st_backends st
           else st_backends st ++ [b]) (st_history st).
Definition st_delete (n : string) (st : store) : store :=
  mkStore (List.filter (λ b, negb (has_name n b)) (st_backends st)) (st_history st).
Definition st_set_active (now : Z) (n : string) (a : bool) (st : store) : store :=
  mkStore ((λ b, if has_name n b
                 then mkBackend (b_Name b) (b_URL b) (b_ExternalURL b) (b_RoutingGroup b) a (b_CreatedAt b) now
                 else b) <$> st_backends st) (st_history st).
Definition st_insert (q : QueryRecord) (st : store) : store :=
  mkStore (st_backends st)
    (if existsb (has_id (q_QueryID q)) (st_history st) then st_history st else st_history st ++ [q]).

(** An empty field of a filter does not restrict. *)
Definition field_matches (want got : string) : bool := (want =?s "") || (got =?s want).
Definition matches (f : HistoryFilter) (q : QueryRecord) : bool :=
  field_matches (f_UserName f) (q_UserName q) && field_matches (f_BackendURL f) (q_BackendURL q)
  && field_matches (f_QueryID f) (q_QueryID q) && field_matches (f_Source f) (q_Source q).

Definition newer (a b : QueryRecord) : Prop := q_CreatedAt b ≤ q_CreatedAt a.
(** A listing of records, newest first; records of the same time come in any order. *)
Definition newest_first (l hist : list QueryRecord) : Prop := l ≡ₚ hist ∧ StronglySorted newer l.

Definition in_bucket (since m : Z) (u : string) (q : QueryRecord) : bool :=
  (since <=? q_CreatedAt q) && (minute_of (q_CreatedAt q) =? m) && (q_BackendURL q =?s u).
Definition buckets_of (since : Z) (hist : list QueryRecord) (bs : list DistributionBucket) : Prop :=
  NoDup ((λ b, (MinuteStart b, d_BackendURL b)) <$> bs)
  ∧ StronglySorted (λ a b, MinuteStart a ≤ MinuteStart b) bs
  ∧ ∀ b, b ∈ bs ↔ QueryCount b = Z.of_nat (length (List.filter (in_bucket since (MinuteStart b) (d_BackendURL b)) hist))
                  ∧ 0 < QueryCount b.

Section spec.
Context {S : Type} (rep : S → store → Prop) (up : Prop).

(** A read leaves the store and its answer satisfies [P]; it fails only when the
    database is not up. *)
Definition reads {A} (m : ST S (go_result A)) (P : A → store → Prop) : Prop :=
  ∀ s st, rep s st →
    match m s with (Ok a, s') => P a st ∧ rep s' st | (Err _, s') => ¬ up ∧ rep s' st end.
Definition writes (m : ST S (go_result unit)) (f : store → store) : Prop :=
  ∀ s st, rep s st →
    match m s with (Ok _, s') => rep s' (f st) | (Err _, s') => ¬ up ∧ rep s' st end.
End spec.

(** [up] says that statements do not fail, [dates] that the minute of a bucket reaches
    the program as a time. *)
Class StoreSpec (S : Type) `{StoreOps S} (rep : S → store → Prop) (up dates : Prop) (round : Z → Z) : Prop := {
  rep_ok s st : rep s st → store_ok st;
  spec_List : reads rep up so_List (λ l st, l ≡ₚ st_backends st);
  spec_ListActive : reads rep up so_ListActive (λ l st, l ≡ₚ List.filter b_Active (st_backends st));
  spec_Upsert b : writes rep up (so_Upsert b) (st_upsert (kept_backend round b));
  spec_Delete n : writes rep up (so_Delete n) (st_delete n);
  spec_SetActive now n a : writes rep up (so_SetActive now n a) (st_set_active (round now) n a);
  (* a backend with the URL, if there is one, gives the answer *)
  spec_LookupExternalURL u : reads rep up (so_LookupExternalURL u) (λ x st,
    (x = u ∧ ∀ b, b ∈ st_backends st → b_URL b ≠ u)
    ∨ ∃ b, b ∈ st_backends st ∧ b_URL b = u ∧ x = if b_ExternalURL b =?s "" then u else b_ExternalURL b);
  spec_Insert q : writes rep up (λ s, let '((r, _), s') := so_Insert q s in (r, s')) (st_insert (kept round q));
  spec_LookupByQueryID i : reads rep up (so_LookupByQueryID i) (λ u st,
    u = from_opt "" (q_BackendURL <$> find_first (has_id i) (st_history st)));
  spec_ListRecent n : reads rep up (so_ListRecent n) (λ l st,
    ∃ sorted, newest_first sorted (st_history st) ∧ l = take (Z.to_nat (if n <=? 0 then 10 else n)) sorted);
  spec_FindByFilter f : 0 ≤ page_offset f → reads rep up (so_FindByFilter f) (λ '(l, total) st,
    total = Z.of_nat (length (List.filter (matches f) (st_history st)))
    ∧ ∃ sorted, newest_first sorted (List.filter (matches f) (st_history st))
        ∧ l = take (Z.to_nat (page_size f)) (drop (Z.to_nat (page_offset f)) sorted));
  spec_FindByFilter_neg f s st : page_offset f < 0 → rep s st →
    match so_FindByFilter f s with (Ok _, _) => False | (Err _, s') => rep s' st end;
  spec_FindDistribution since : reads rep (up ∧ dates) (so_FindDistribution since) (λ bs st,
    buckets_of since (st_history st) bs) }.

(** ** The access objects implement the specification *)
Definition record_row (q : QueryRecord) : row :=
  list_to_map [("query_id", VStr (q_QueryID q)); ("backend_url", VStr (q_BackendURL q));
               ("external_url", VStr (q_ExternalURL q)); ("user_name", VStr (q_UserName q));
               ("source", VStr (q_Source q)); ("created_at", VTime (q_CreatedAt q))].

Definition dao_rep (d : database) (st : store) : Prop :=
  table d "gateway_backend" = backend_row <$> st_backends st
  ∧ table d "query_history" = record_row <$> st_history st ∧ store_ok st.

(** *** Lists *)
Lemma filter_fmap_eq {A B} (f : A → B) (p : B → bool) (q : A → bool) l :
  (∀ x, p (f x) = q x) → List.filter p (f <$> l) = f <$> List.filter q l.
Proof. intros H. induction l as [|x l IH]; [done|]. cbn. rewrite H. destruct (q x); cbn; by rewrite <- IH. Qed.

Lemma existsb_fmap_eq {A B} (f : A → B) (p : B → bool) (q : A → bool) l :
  (∀ x, p (f x) = q x) → existsb p (f <$> l) = existsb q l.
Proof. intros H. induction l as [|x l IH]; [done|]. cbn. by rewrite H, <- IH. Qed.

Lemma mapM_fmap_all {A B C} (f : A → B) (g : B → option C) (h : A → C) l :
  (∀ x, x ∈ l → g (f x) = Some (h x)) → mapM g (f <$> l) = Some (h <$> l).
Proof.
  induction l as [|x l IH]; intros H; [done|]. cbn. rewrite H by left. cbn. rewrite IH; [done|].
  intros y Hy. apply H. by right.
Qed.

Lemma fmap_fmap_eq {A B} (f : A → B) (F : B → B) (g : A → A) (l : list A) :
  (∀ x, F (f x) = f (g x)) → F <$> (f <$> l) = f <$> (g <$> l).
Proof. intros H. rewrite <- !list_fmap_compose. apply list_fmap_ext. intros. apply H. Qed.

Lemma perm_fmap_inv {A B} (f : A → B) (l : list A) (l' : list B) :
  l' ≡ₚ f <$> l → ∃ k, l' = f <$> k ∧ k ≡ₚ l.
Proof. intros H. destruct (Permutation_map_inv f l H) as (k & -> & Hk). by exists k. Qed.

(** *** Rows *)
Ltac vm_refl := match goal with |- _ = ?r => vm_cast_no_check (eq_refl r) end.

Definition cols (l : list string) : list item := (λ c, mkItem (ECol c) c) <$> l.
Definition backend_items : list item :=
  cols ["name"; "url"; "external_url"; "routing_group"; "active"; "created_at"; "updated_at"].
Definition record_items : list item :=
  cols ["query_id"; "backend_url"; "external_url"; "user_name"; "source"; "created_at"].

Lemma project_backend b : project backend_items (backend_row b, 1%nat) = Some (backend_row b).
Proof. destruct b. vm_refl. Qed.
Lemma scan_backend_row b : scan_backend (backend_row b) = Some b.
Proof. destruct b. vm_refl. Qed.
Lemma project_record q : project record_items (record_row q, 1%nat) = Some (record_row q).
Proof. destruct q. vm_refl. Qed.
Lemma scan_record_row q : scan_record (record_row q) = Some (kept id q).
Proof. destruct q. vm_refl. Qed.

Lemma overwrite_row b old :
  foldr (λ col acc, match backend_row b !! col with Some v => <[col := v]> acc | None => acc end) (backend_row old)
    ["url"; "external_url"; "routing_group"; "active"; "updated_at"] = backend_row (overwrite b old).
Proof. destruct b, old. vm_refl. Qed.
Lemma set_active_row now a b :
  foldr (λ '(c, v) acc, <[c := v]> acc) (backend_row b) [("active", VBool a); ("updated_at", VTime now)]
  = backend_row (mkBackend (b_Name b) (b_URL b) (b_ExternalURL b) (b_RoutingGroup b) a (b_CreatedAt b) now).
Proof. destruct b. vm_refl. Qed.

(** Under an exact collation equality is equality of the strings. *)
Section exact.
Context (coll : string → string) (Hexact : ∀ x y, coll x = coll y → x = y).
#[local] Abbreviation same_key := (same_key coll).
#[local] Abbreviation cond_holds := (cond_holds coll).

Lemma same_val_str x y : same_val coll (VStr x) (VStr y) = (x =?s y).
Proof using Hexact.
  unfold same_val, collate. destruct (x =?s y) eqn:E; seqb_simpl; [apply bool_decide_eq_true|apply bool_decide_eq_false]; [congruence|].
  intros [= H]. by apply Hexact in H.
Qed.

Lemma same_name b b' : same_key "name" (backend_row b) (backend_row b') = has_name (b_Name b) b'.
Proof using Hexact.
  unfold Sql.same_key, has_name. change (backend_row ?x !! "name") with (Some (VStr (b_Name x))). cbn [fmap option_fmap option_map].
  rewrite <- same_val_str. unfold same_val. apply bool_decide_ext. split; congruence.
Qed.
Lemma same_id q q' : same_key "query_id" (record_row q) (record_row q') = has_id (q_QueryID q) q'.
Proof using Hexact.
  unfold Sql.same_key, has_id. change (record_row ?x !! "query_id") with (Some (VStr (q_QueryID x))). cbn [fmap option_fmap option_map].
  rewrite <- same_val_str. unfold same_val. apply bool_decide_ext. split; congruence.
Qed.

Lemma cond_str a r c o x v :
  r !! c = Some (VStr x) → arg a o = Some (VStr v) → cond_holds a r (mkCond c OpEq o) = (x =?s v).
Proof using Hexact. intros Hr Ho. unfold Sql.cond_holds. cbn [c_col c_op c_arg]. by rewrite Hr, Ho, same_val_str. Qed.
End exact.

Section selections.
Context (coll : string → string).
#[local] Abbreviation where_holds := (where_holds coll).
#[local] Abbreviation eval_select := (eval_select coll).

(** *** Selections over encoded rows *)
Lemma eval_select_plain {A} a items t w (f : A → row) (q : A → bool) (h : A → row) l :
  existsb is_count items = false → (∀ x, where_holds a w (f x) = q x) →
  (∀ x, project items (f x, 1%nat) = Some (h x)) →
  eval_select a (mkSelect items t w [] None None None) (f <$> l) = Ok (h <$> List.filter q l).
Proof.
  intros Hc Hw Hp. unfold Sql.eval_select. cbn -[existsb]. rewrite Hc, (filter_fmap_eq f _ q) by done.
  rewrite <- list_fmap_compose. rewrite (mapM_fmap_all _ _ h); [done|]. intros x _. apply Hp.
Qed.

Lemma eval_select_sorted {A} a items t w o lim off ln on (f : A → row) (q : A → bool) (h : A → row) l :
  existsb is_count items = false → (∀ x, where_holds a w (f x) = q x) →
  (∀ x, project items (f x, 1%nat) = Some (h x)) → bound a lim = Ok ln → bound a off = Ok on →
  ∃ k, k ≡ₚ List.filter q l ∧ Sorted (order_le o) (f <$> k)
    ∧ eval_select a (mkSelect items t w [] (Some o) lim off) (f <$> l) = Ok (h <$> slice ln on k).
Proof.
  intros Hc Hw Hp Hl Ho. unfold Sql.eval_select. cbn -[existsb bound]. rewrite Hl, Ho. cbn -[existsb].
  rewrite Hc, (filter_fmap_eq f _ q) by done.
  rewrite <- list_fmap_compose. change (fst ∘ (λ r : row, (r, 1%nat))) with (λ r : row, r). rewrite list_fmap_id.
  destruct (perm_fmap_inv f (List.filter q l) (merge_sort (order_le o) (f <$> List.filter q l))) as (k & Hk & Hp').
  { apply merge_sort_Permutation. }
  exists k. split; [done|]. split.
  { rewrite <- Hk. apply Sorted_merge_sort. apply _. }
  rewrite Hk. replace (slice ln on (f <$> k)) with (f <$> slice ln on k).
  2: { unfold slice. destruct ln; by rewrite ?fmap_take, fmap_drop. }
  rewrite <- list_fmap_compose, (mapM_fmap_all _ _ h); [done|]. intros x _. apply Hp.
Qed.

End selections.

Lemma record_created q : record_row q !! "created_at" = Some (VTime (q_CreatedAt q)).
Proof. done. Qed.

Lemma sorted_newer k : Sorted (order_le ("created_at", true)) (record_row <$> k) → StronglySorted newer k.
Proof.
  intros Hs. apply Sorted_StronglySorted; [intros ???; unfold newer; lia|].
  induction k as [|x k IH]; [constructor|]. rewrite fmap_cons in Hs. apply Sorted_inv in Hs as [Hs Hh].
  constructor; [by apply IH|]. destruct k as [|y k]; constructor. apply HdRel_inv in Hh. unfold order_le in Hh. cbn [fst snd] in Hh.
  rewrite !record_created in Hh. by apply Z.leb_le in Hh.
Qed.

(** *** The abstract operations keep the store well formed *)
Lemma upsert_ok b st : store_ok st → store_ok (st_upsert b st).
Proof.
  intros (Hb & Hq & Hk). unfold st_upsert. split_and!; [|done..]. cbn [st_backends]. destruct (existsb _ _) eqn:E.
  - rewrite <- list_fmap_compose. erewrite list_fmap_ext; [apply Hb|]. intros i x _. cbn. by destruct (has_name _ x).
  - rewrite fmap_app. apply NoDup_app. split_and!; [done| |apply NoDup_singleton].
    intros n (x & -> & Hx)%list_elem_of_fmap Hn%list_elem_of_singleton. apply not_true_iff_false in E. apply E.
    apply existsb_exists. exists x. split; [by apply list_elem_of_In|]. unfold has_name. rewrite Hn. apply seqb_refl.
Qed.
Lemma filter_sublist {A} (p : A → bool) l : List.filter p l `sublist_of` l.
Proof. induction l as [|x l IH]; cbn; [done|]. destruct (p x); by constructor. Qed.
Lemma delete_ok n st : store_ok st → store_ok (st_delete n st).
Proof.
  intros (Hb & Hq & Hk). split_and!; [|done..]. cbn. eapply sublist_NoDup; [apply Hb|].
  apply (fmap_sublist b_Name), filter_sublist.
Qed.
Lemma set_active_ok now n a st : store_ok st → store_ok (st_set_active now n a st).
Proof.
  intros (Hb & Hq & Hk). split_and!; [|done..]. cbn. rewrite <- list_fmap_compose.
  erewrite list_fmap_ext; [apply Hb|]. intros i x _. cbn. by destruct (has_name _ x).
Qed.
Lemma insert_ok q st : q = kept id q → store_ok st → store_ok (st_insert q st).
Proof.
  intros Hkq (Hb & Hq & Hk). unfold st_insert. split_and!; [done|..]; cbn [st_history]; destruct (existsb _ _) eqn:E; try done.
  - rewrite fmap_app. apply NoDup_app. split_and!; [done| |apply NoDup_singleton].
    intros n (x & -> & Hx)%list_elem_of_fmap Hn%list_elem_of_singleton. apply not_true_iff_false in E. apply E.
    apply existsb_exists. exists x. split; [by apply list_elem_of_In|]. unfold has_id. rewrite Hn. apply seqb_refl.
  - apply Forall_app. auto.
Qed.

Lemma table_set t rs d : table (set_table t rs d) t = rs.
Proof. unfold table, set_table. cbn. by rewrite lookup_insert_eq. Qed.
Lemma table_set_ne t t' rs d : t ≠ t' → table (set_table t rs d) t' = table d t'.
Proof. intros. unfold table, set_table. cbn. by rewrite lookup_insert_ne. Qed.

Lemma filter_nil_not {A} (p : A → bool) l : List.filter p l = [] → ∀ x, x ∈ l → p x = true → False.
Proof.
  intros Hf x Hx Hp. assert (H : x ∈ List.filter p l) by (apply list_elem_of_In, filter_In; split; [by apply list_elem_of_In|done]).
  rewrite Hf in H. by apply elem_of_nil in H.
Qed.
Lemma filter_true {A} (l : list A) : List.filter (λ _, true) l = l.
Proof. induction l as [|x l IH]; cbn; [done|by rewrite IH]. Qed.

(** With distinct ids, at most one record has a given id, whatever the order. *)
Lemma filter_unique i k l :
  k ≡ₚ l → NoDup (q_QueryID <$> l) →
  List.filter (has_id i) k = match find_first (has_id i) l with Some q => [q] | None => [] end.
Proof.
  intros Hk Hnd. assert (Hl : List.filter (has_id i) l = match find_first (has_id i) l with Some q => [q] | None => [] end).
  { clear Hk. induction l as [|q l IH]; [done|]. rewrite fmap_cons in Hnd. apply NoDup_cons in Hnd as [Hn Hnd]. cbn.
    destruct (has_id i q) eqn:E; [|by apply IH]. f_equal. apply elem_of_nil_inv. intros x Hx.
    apply list_elem_of_In, filter_In in Hx as [Hx E']. unfold has_id in *. seqb_simpl. apply Hn, list_elem_of_fmap.
    exists x. split; [congruence|by apply list_elem_of_In]. }
  rewrite <- Hl. apply (filter_perm (has_id i)) in Hk. rewrite Hl in *.
  destruct (find_first _ l); [by apply Permutation_singleton_r in Hk|by apply Permutation_nil_r in Hk].
Qed.

Lemma kept_id_list (k : list QueryRecord) : Forall (λ q, q = kept id q) k → kept id <$> k = k.
Proof. induction 1 as [|q k Hq _ IH]; [done|]. rewrite fmap_cons, IH. by rewrite <- Hq. Qed.
Lemma kept_slice ln on (k : list QueryRecord) :
  Forall (λ q, q = kept id q) k → kept id <$> slice ln on k = slice ln on k.
Proof.
  intros Hk. apply kept_id_list. unfold slice. destruct ln; auto using Forall_take, Forall_drop.
Qed.

Lemma Forall_List_filter {A} (P : A → Prop) (p : A → bool) l : Forall P l → Forall P (List.filter p l).
Proof. induction 1 as [|x l Hx _ IH]; cbn; [done|]. destruct (p x); auto. Qed.

Lemma eval_count {A} coll args t cs (f : A → row) (q : A → bool) l :
  (∀ x, where_holds coll (pos_args args) cs (f x) = q x) →
  eval_select coll (pos_args args) (mkSelect [mkItem ECount ""] t cs [] None None None) (f <$> l)
  = Ok [{["" := VInt (Z.of_nat (length (List.filter q l)))]}].
Proof. intros Hw. unfold Sql.eval_select. cbn -[length]. by rewrite (filter_fmap_eq f _ q), length_fmap. Qed.

(** *** The distribution *)
Definition bucket_items : list item :=
  [mkItem (EMinute "created_at") "minute_start"; mkItem (ECol "backend_url") "backend_url"; mkItem ECount "query_count"].
Definition bucket_key : list sqlexpr := [EMinute "created_at"; ECol "backend_url"].
Definition bucket_row (b : DistributionBucket) : row :=
  list_to_map [("minute_start", VTime (MinuteStart b)); ("backend_url", VStr (d_BackendURL b)); ("query_count", VInt (QueryCount b))].
Definition bucket_of (g : QueryRecord * nat) : DistributionBucket :=
  mkBucket (minute_of (q_CreatedAt g.1)) (q_BackendURL g.1) (Z.of_nat g.2).
Definition encode (g : QueryRecord * nat) : row * nat := (record_row g.1, g.2).

Lemma project_bucket g : project bucket_items (encode g) = Some (bucket_row (bucket_of g)).
Proof. unfold project, encode, bucket_items. cbn [foldr it_expr it_name mbind option_bind fst snd].
  unfold eval_expr. rewrite record_created. change (record_row g.1 !! "backend_url") with (Some (VStr (q_BackendURL g.1))). done.
Qed.
Lemma scan_bucket_row b : scan_bucket (bucket_row b) = Some b.
Proof. destruct b. vm_refl. Qed.
Section buckets.
Context (coll : string → string) (Hexact : ∀ x y, coll x = coll y → x = y).
#[local] Abbreviation group_key := (group_key coll).
#[local] Abbreviation groups := (groups coll).
#[local] Abbreviation groups_ok := (groups_ok coll).
#[local] Abbreviation in_group := (in_group coll).

Lemma bucket_key_row q : group_key bucket_key (record_row q) = [Some (VTime (minute_of (q_CreatedAt q))); Some (VStr (coll (q_BackendURL q)))].
Proof using Type. unfold Sql.group_key, bucket_key. cbn [fmap list_fmap]. unfold eval_expr. by rewrite record_created. Qed.

Lemma in_group_bucket since q q' :
  (since <=? q_CreatedAt q') && in_group bucket_key (record_row q) (record_row q')
  = in_bucket since (minute_of (q_CreatedAt q)) (q_BackendURL q) q'.
Proof.
  unfold in_bucket, Sql.in_group. rewrite !bucket_key_row. rewrite <- andb_assoc. f_equal.
  destruct ((_ =? _) && _) eqn:E.
  - apply bool_decide_eq_true. seqb_simpl. apply Z.eqb_eq in H. congruence.
  - apply bool_decide_eq_false. intros [= E1 E2%Hexact]. rewrite E1, E2, seqb_refl, Z.eqb_refl in E. done.
Qed.

Lemma groups_encoded es (k : list QueryRecord) :
  ∃ gq, groups es (record_row <$> k) = encode <$> gq ∧ ∀ g, g ∈ gq → g.1 ∈ k.
Proof.
  pose proof (groups_spec coll es (record_row <$> k)) as (_ & Hin & _). revert Hin.
  induction (groups es (record_row <$> k)) as [|[r n] gs IH]; intros Hin.
  { exists []. split; [done|]. by intros ? ?%elem_of_nil. }
  destruct (Hin r n) as [(q & -> & Hq)%list_elem_of_fmap _]; [left|].
  destruct IH as (gq & -> & Hg). { intros r0 n0 H0. apply Hin. by right. }
  exists ((q, n) :: gq). split; [done|]. intros g [-> | Hg']%elem_of_cons; auto.
Qed.

Lemma filter_filter {A} (p q : A → bool) l : List.filter p (List.filter q l) = List.filter (λ x, q x && p x) l.
Proof. induction l as [|x l IH]; [done|]. cbn. destruct (q x); cbn; [destruct (p x)|]; by rewrite <- IH. Qed.

Lemma length_filter_pos {A} (p : A → bool) l x : x ∈ l → p x = true → (0 < length (List.filter p l))%nat.
Proof.
  intros Hx Hp. assert (H : In x (List.filter p l)) by (apply filter_In; split; [by apply list_elem_of_In|done]).
  destruct (List.filter p l); [done|cbn; lia].
Qed.

Lemma bucket_count since k q n (gs : list (row * nat)) :
  groups_ok bucket_key (record_row <$> List.filter (λ q, since <=? q_CreatedAt q) k) gs → encode (q, n) ∈ gs →
  n = length (List.filter (in_bucket since (minute_of (q_CreatedAt q)) (q_BackendURL q)) k).
Proof.
  intros (_ & Hgs & _) Hin. destruct (Hgs (record_row q) n Hin) as [_ ->].
  rewrite (filter_fmap_eq _ _ (λ q', in_group bucket_key (record_row q) (record_row q'))) by done.
  rewrite length_fmap, filter_filter. f_equal. apply List.filter_ext. intros x. apply in_group_bucket.
Qed.

Lemma groups_buckets since k gq :
  groups bucket_key (record_row <$> List.filter (λ q, since <=? q_CreatedAt q) k) = encode <$> gq →
  (∀ g, g ∈ gq → g.1 ∈ List.filter (λ q, since <=? q_CreatedAt q) k) →
  NoDup ((λ b, (MinuteStart b, d_BackendURL b)) <$> (bucket_of <$> gq))
  ∧ ∀ b, b ∈ bucket_of <$> gq ↔
      QueryCount b = Z.of_nat (length (List.filter (in_bucket since (MinuteStart b) (d_BackendURL b)) k)) ∧ 0 < QueryCount b.
Proof.
  intros Hg Hgin. pose proof (groups_spec coll bucket_key (record_row <$> List.filter (λ q, since <=? q_CreatedAt q) k)) as Hok.
  rewrite Hg in Hok. split.
  - destruct Hok as (Hnd & _). revert Hnd. clear.
    induction gq as [|[q n] gq IH]; [constructor|]. rewrite !fmap_cons, !NoDup_cons. intros [Hn Hnd]. split; [|by apply IH].
    intros (b & Heq & ([q' n'] & -> & Hin)%list_elem_of_fmap)%list_elem_of_fmap.
    apply Hn, list_elem_of_fmap. exists (encode (q', n')). split; [|apply list_elem_of_fmap; by exists (q', n')].
    unfold compose, encode. cbn [fst snd]. rewrite !bucket_key_row. injection Heq as E1 E2. by rewrite E1, E2.
  - intros b. rewrite list_elem_of_fmap. split.
    + intros ([q n] & -> & Hin). cbn. pose proof (bucket_count since k q n _ Hok) as Hn.
      rewrite <- Hn by (apply list_elem_of_fmap; by exists (q, n)). split; [done|].
      pose proof (Hgin _ Hin) as Hq%list_elem_of_In. cbn in Hq. apply filter_In in Hq as [Hq Hs].
      apply list_elem_of_In in Hq. rewrite Hn by (apply list_elem_of_fmap; by exists (q, n)).
      pose proof (length_filter_pos (in_bucket since (minute_of (q_CreatedAt q)) (q_BackendURL q)) k q Hq). 
      unfold in_bucket in *. rewrite Hs, Z.eqb_refl, seqb_refl in H. specialize (H eq_refl). lia.
    + intros [Hc Hpos]. destruct (List.filter (in_bucket since (MinuteStart b) (d_BackendURL b)) k) as [|q l] eqn:El; [cbn in Hc; lia|].
      assert (Hq : In q (List.filter (in_bucket since (MinuteStart b) (d_BackendURL b)) k)) by (rewrite El; left; done).
      apply filter_In in Hq as [Hq Hb]. unfold in_bucket in Hb. seqb_simpl. apply Z.eqb_eq in H1.
      destruct Hok as (Hnd & Hgs & Hall).
      destruct (Hall (record_row q)) as (r0 & n & Hin & Hk).
      { apply list_elem_of_fmap. exists q. split; [done|]. apply list_elem_of_In, filter_In. done. }
      apply list_elem_of_fmap in Hin as ([q0 n0] & [= -> ->] & Hin). exists (q0, n0). split; [|done].
      rewrite !bucket_key_row in Hk. injection Hk as Hk1 Hk2%Hexact.
      pose proof (bucket_count since k q0 n0 _ (conj Hnd (conj Hgs Hall))) as Hn.
      rewrite Hk1, Hk2, H1, H0, El in Hn. unfold bucket_of. cbn [fst snd]. rewrite Hk1, Hk2, H1, H0.
      rewrite Hn by (apply list_elem_of_fmap; by exists (q0, n0)). rewrite <- Hc. by destruct b.
Qed.

End buckets.

Lemma sorted_minutes k :
  Sorted (order_le ("minute_start", false)) (bucket_row <$> k) → StronglySorted (λ a b, MinuteStart a ≤ MinuteStart b) k.
Proof.
  assert (Hm : ∀ b, bucket_row b !! "minute_start" = Some (VTime (MinuteStart b))) by done.
  intros Hs. apply Sorted_StronglySorted; [intros ???; lia|].
  induction k as [|x k IH]; [constructor|]. rewrite fmap_cons in Hs. apply Sorted_inv in Hs as [Hs Hh].
  constructor; [by apply IH|]. destruct k as [|y k]; constructor. apply HdRel_inv in Hh. unfold order_le in Hh. cbn [fst snd] in Hh.
  rewrite !Hm in Hh. by apply Z.leb_le in Hh.
Qed.

Lemma eval_select_grouped coll a items t w e0 es o rs :
  existsb is_count items = true →
  eval_select coll a (mkSelect items t w (e0 :: es) o None None) rs
  = match mapM (project items) (groups coll (e0 :: es) (List.filter (where_holds coll a w) rs)) with
    | Some out => Ok (sort_rows o out)
    | None => Err "unknown column"
    end.
Proof. intros Hc. unfold Sql.eval_select. cbn -[groups existsb sort_rows]. by rewrite Hc. Qed.

Section dao_spec.
Context (e : engine) `{!EngineOk e} (Hdrv : e_driver e = "postgres" ∨ e_driver e = "mysql").

Definition dao_up : Prop := ∀ n t a, e_fault e n t a = None.

Lemma exec_parsed text a st d :
  placeholders_ok (e_driver e) text = true → parse_sql text = Some st →
  (¬ dao_up ∧ ∃ m, exec e text a d = (Err m, tick d)) ∨ exec e text a d = exec_stmt e text a st (tick d).
Proof.
  intros Hph Hp. unfold exec. destruct (e_fault e (d_tick d) text a) as [m|] eqn:Ef.
  - left. split; [|eauto]. intros Hup. by rewrite Hup in Ef.
  - right. by rewrite Hph, Hp.
Qed.

Lemma exec_select text a sel d :
  placeholders_ok (e_driver e) text = true → parse_sql text = Some (SSelect sel) → columns (s_table sel) ≠ [] →
  (¬ dao_up ∧ ∃ m, exec e text a d = (Err m, tick d))
  ∨ ∃ rs, rs ≡ₚ table d (s_table sel) ∧ exec e text a d = (eval_select (e_coll e) a sel rs, tick d).
Proof.
  intros Hph Hp Hc. destruct (exec_parsed text a _ d Hph Hp) as [?|He]; [by left|]. right.
  rewrite He. cbn. rewrite bool_decide_eq_false_2 by done. eexists. split; [|done]. apply e_arrange_perm.
Qed.

Lemma dao_rep_tick d st : dao_rep d st → dao_rep (tick d) st.
Proof. done. Qed.

Lemma dao_list : reads dao_rep dao_up (List_ e) (λ l st, l ≡ₚ st_backends st).
Proof.
  intros d st (Hb & Hh & Hok). unfold List_, Select, mbind, ST_bind.
  destruct (exec_select list_text (pos_args []) (mkSelect backend_items "gateway_backend" [] [] None None None) d)
    as [(Hup & m & ->)|(rs & Hrs & ->)]; [by destruct Hdrv as [-> | ->]|vm_refl|done|done|].
  cbn [s_table] in Hrs. rewrite Hb in Hrs. destruct (perm_fmap_inv _ _ _ Hrs) as (k & -> & Hk).
  rewrite (eval_select_plain _ _ _ _ _ backend_row (λ _, true) backend_row); [|done|done|apply project_backend].
  rewrite (mapM_fmap_all _ _ id) by (intros; apply scan_backend_row).
  cbn. rewrite list_fmap_id. split; [|done]. rewrite <- Hk. clear. by induction k as [|x k IH]; cbn; [|f_equiv].
Qed.

Lemma dao_list_active : reads dao_rep dao_up (ListActive e) (λ l st, l ≡ₚ List.filter b_Active (st_backends st)).
Proof.
  intros d st (Hb & Hh & Hok). unfold ListActive, Select, mbind, ST_bind.
  destruct (exec_select (list_text +:+ " WHERE active = true") (pos_args [])
    (mkSelect backend_items "gateway_backend" [mkCond "active" OpEq (Lit (VBool true))] [] None None None) d)
    as [(Hup & m & ->)|(rs & Hrs & ->)]; [by destruct Hdrv as [-> | ->]|vm_refl|done|done|].
  cbn [s_table] in Hrs. rewrite Hb in Hrs. destruct (perm_fmap_inv _ _ _ Hrs) as (k & -> & Hk).
  rewrite (eval_select_plain _ _ _ _ _ backend_row b_Active backend_row); [|done| |apply project_backend].
  2: { intros x. cbn. unfold cond_holds. change (backend_row x !! c_col _) with (Some (VBool (b_Active x))). cbn.
       by destruct (b_Active x). }
  rewrite (mapM_fmap_all _ _ id) by (intros; apply scan_backend_row).
  cbn. rewrite list_fmap_id. split; [|done]. by rewrite Hk.
Qed.

(** A statement without rows that replaces the backends. *)
Lemma dao_rep_backends bs d st :
  dao_rep d st → store_ok (mkStore bs (st_history st)) →
  dao_rep (set_table "gateway_backend" (backend_row <$> bs) d) (mkStore bs (st_history st)).
Proof. intros (Hb & Hh & _) Hok. split_and!; [apply table_set| |done]. by rewrite table_set_ne. Qed.
Lemma dao_rep_history qs d st :
  dao_rep d st → store_ok (mkStore (st_backends st) qs) →
  dao_rep (set_table "query_history" (record_row <$> qs) d) (mkStore (st_backends st) qs).
Proof. intros (Hb & Hh & _) Hok. split_and!; [|apply table_set|done]. by rewrite table_set_ne. Qed.

Lemma dao_upsert b : writes dao_rep dao_up (Upsert e b) (st_upsert (kept_backend (e_round e) b)).
Proof.
  intros d st Hrep. pose proof Hrep as (Hb & Hh & Hok). unfold Upsert, Exec, DriverName, mbind, ST_bind.
  assert (∃ text, upsert_text (e_driver e) = Some text ∧ placeholders_ok (e_driver e) text = true
    ∧ parse_sql text = Some (SInsert "gateway_backend"
        ["name"; "url"; "external_url"; "routing_group"; "active"; "created_at"; "updated_at"]
        (Named <$> ["name"; "url"; "external_url"; "routing_group"; "active"; "created_at"; "updated_at"])
        (CUpdate ["url"; "external_url"; "routing_group"; "active"; "updated_at"]))) as (text & -> & Hph & Hp).
  { destruct Hdrv as [-> | ->]; eexists; (split_and!; [reflexivity|vm_refl|vm_refl]). }
  destruct (exec_parsed text (mkArgs [] (backend_row b)) _ d Hph Hp) as [(Hup & m & ->) | ->]; [done|].
  cbn [exec_stmt]. change (negb (forallb _ _)) with false.
  replace (build_row _ _ _) with (Some (backend_row (kept_backend (e_round e) b))) by vm_refl.
  change (table (tick d)) with (table d). rewrite Hb. unfold eval_insert.
  change (primary_key "gateway_backend") with "name".
  rewrite (existsb_fmap_eq _ _ _ _ (same_name _ e_exact (kept_backend (e_round e) b))).
  pose proof (upsert_ok (kept_backend (e_round e) b) st Hok) as Hok'. unfold st_upsert in *. cbn [b_Name kept_backend] in *.
  destruct (existsb _ _); cbn [done_or].
  - erewrite (fmap_fmap_eq backend_row); [apply dao_rep_backends; done|].
    intros x. cbn beta. rewrite (same_name _ e_exact). cbn [b_Name kept_backend]. destruct (has_name _ _); [apply overwrite_row|done].
  - change ([backend_row ?x]) with (backend_row <$> [x]). rewrite <- fmap_app. by apply dao_rep_backends.
Qed.

Lemma dao_delete n : writes dao_rep dao_up (Delete e n) (st_delete n).
Proof.
  intros d st Hrep. pose proof Hrep as (Hb & Hh & Hok). unfold Delete, Exec, mbind, ST_bind.
  destruct (exec_parsed (Rebind e "DELETE FROM gateway_backend WHERE name = ?") (pos_args [VStr n])
    (SDelete "gateway_backend" [mkCond "name" OpEq (Pos 0)]) d) as [(Hup & m & ->) | ->]; [| |done|].
  1,2: unfold Rebind, DriverName; by destruct Hdrv as [-> | ->]; vm_refl.
  cbn [exec_stmt]. change (table (tick d)) with (table d). rewrite Hb.
  rewrite (filter_fmap_eq _ _ (λ b, negb (has_name n b))); [by apply dao_rep_backends, delete_ok|].
  intros x. cbn [where_holds forallb]. by rewrite (cond_str _ e_exact _ _ _ _ (b_Name x) n), andb_true_r, String.eqb_sym.
Qed.

Lemma dao_set_active now n a : writes dao_rep dao_up (SetActive e now n a) (st_set_active (e_round e now) n a).
Proof.
  intros d st Hrep. pose proof Hrep as (Hb & Hh & Hok). unfold SetActive, Exec, mbind, ST_bind.
  destruct (exec_parsed (Rebind e "UPDATE gateway_backend SET active = ?, updated_at = ? WHERE name = ?")
    (pos_args [VBool a; VTime now; VStr n])
    (SUpdate "gateway_backend" [("active", Pos 0); ("updated_at", Pos 1)] [mkCond "name" OpEq (Pos 2)]) d)
    as [(Hup & m & ->) | ->]; [| |done|].
  1,2: unfold Rebind, DriverName; by destruct Hdrv as [-> | ->]; vm_refl.
  cbn [exec_stmt]. change (table (tick d)) with (table d). rewrite Hb. unfold eval_update.
  change (mapM _ _) with (Some [("active", VBool a); ("updated_at", VTime (e_round e now))]). cbn [mbind option_bind].
  erewrite (fmap_fmap_eq backend_row); [by apply dao_rep_backends, set_active_ok|].
  intros x. cbn beta. cbn [where_holds forallb].
  rewrite (cond_str _ e_exact _ _ _ _ (b_Name x) n), andb_true_r, String.eqb_sym by done. fold (has_name n x). destruct (has_name n x); [apply set_active_row|done].
Qed.

Lemma dao_insert q :
  writes dao_rep dao_up (λ s, let '((r, _), s') := Insert e q s in (r, s')) (st_insert (kept (e_round e) q)).
Proof.
  intros d st Hrep. pose proof Hrep as (Hb & Hh & Hok). unfold Insert, Exec, DriverName, mbind, ST_bind.
  assert (∃ text c, insert_text (e_driver e) = Some text ∧ placeholders_ok (e_driver e) text = true ∧ (c = CIgnore ∨ c = CNothing)
    ∧ parse_sql text = Some (SInsert "query_history"
        ["query_id"; "backend_url"; "external_url"; "user_name"; "source"; "created_at"]
        (Named <$> ["query_id"; "backend_url"; "external_url"; "user_name"; "source"; "created_at"])
        c)) as (text & c & -> & Hph & Hc & Hp).
  { destruct Hdrv as [-> | ->]; [eexists _, CNothing|eexists _, CIgnore]; (split_and!; [reflexivity|vm_refl|auto|vm_refl]). }
  destruct (exec_parsed text (mkArgs [] (record_args q)) _ d Hph Hp) as [(Hup & m & ->) | ->]; [done|].
  cbn [exec_stmt]. change (negb (forallb _ _)) with false.
  replace (build_row _ _ _) with (Some (record_row (kept (e_round e) q))) by vm_refl.
  replace (match c with CIgnore => _ | _ => _ end) with (record_row (kept (e_round e) q)) by (destruct Hc as [-> | ->]; by rewrite ?e_fits).
  change (table (tick d)) with (table d). rewrite Hh. unfold eval_insert.
  change (primary_key "query_history") with "query_id".
  rewrite (existsb_fmap_eq _ _ _ _ (same_id _ e_exact (kept (e_round e) q))).
  pose proof (insert_ok (kept (e_round e) q) st eq_refl Hok) as Hok'. unfold st_insert in *.
  destruct (existsb _ _); [destruct Hc as [-> | ->]; by apply dao_rep_history|].
  change ([record_row ?x]) with (record_row <$> [x]). rewrite <- fmap_app. by apply dao_rep_history.
Qed.

Lemma dao_lookup_external u : reads dao_rep dao_up (LookupExternalURL e u) (λ x st,
  (x = u ∧ ∀ b, b ∈ st_backends st → b_URL b ≠ u)
  ∨ ∃ b, b ∈ st_backends st ∧ b_URL b = u ∧ x = if b_ExternalURL b =?s "" then u else b_ExternalURL b).
Proof.
  intros d st Hrep. pose proof Hrep as (Hb & Hh & Hok). unfold LookupExternalURL, QueryRow, mbind, ST_bind.
  destruct (exec_select (Rebind e "SELECT external_url FROM gateway_backend WHERE url = ?") (pos_args [VStr u])
    (mkSelect (cols ["external_url"]) "gateway_backend" [mkCond "url" OpEq (Pos 0)] [] None None None) d)
    as [(Hup & m & ->)|(rs & Hrs & ->)]; [| |done|done|].
  1,2: unfold Rebind, DriverName; by destruct Hdrv as [-> | ->]; vm_refl.
  cbn [s_table] in Hrs. rewrite Hb in Hrs. destruct (perm_fmap_inv _ _ _ Hrs) as (k & -> & Hk).
  rewrite (eval_select_plain _ _ _ _ _ backend_row (λ b, b_URL b =?s u) (λ b, {["external_url" := VStr (b_ExternalURL b)]}));
    [|done| |intros []; vm_refl].
  2: { intros x. cbn [where_holds forallb]. by rewrite (cond_str _ e_exact _ _ _ _ (b_URL x) u), andb_true_r. }
  destruct (List.filter _ k) as [|b bs] eqn:E1; cbn [mret ST_ret fmap list_fmap].
  - split; [|done]. left. split; [done|]. intros b Hin Hu. rewrite <- Hk in Hin.
    apply (filter_nil_not _ _ E1 b Hin). by apply seqb_eq.
  - assert (Hin : b ∈ List.filter (λ b, b_URL b =?s u) k) by (rewrite E1; left).
    apply list_elem_of_In, filter_In in Hin as [Hin Hu%seqb_eq]. apply list_elem_of_In in Hin.
    rewrite Hk in Hin. unfold get_str. rewrite lookup_singleton_eq.
    destruct (b_ExternalURL b =?s "") eqn:E2; (split; [|done]); right; exists b; by rewrite E2.
Qed.

Lemma dao_lookup_query i : reads dao_rep dao_up (LookupByQueryID e i) (λ u st,
  u = from_opt "" (q_BackendURL <$> find_first (has_id i) (st_history st))).
Proof.
  intros d st Hrep. pose proof Hrep as (Hb & Hh & Hok). unfold LookupByQueryID, QueryRow, mbind, ST_bind.
  destruct (exec_select (Rebind e "SELECT backend_url FROM query_history WHERE query_id = ?") (pos_args [VStr i])
    (mkSelect (cols ["backend_url"]) "query_history" [mkCond "query_id" OpEq (Pos 0)] [] None None None) d)
    as [(Hup & m & ->)|(rs & Hrs & ->)]; [| |done|done|].
  1,2: unfold Rebind, DriverName; by destruct Hdrv as [-> | ->]; vm_refl.
  cbn [s_table] in Hrs. rewrite Hh in Hrs. destruct (perm_fmap_inv _ _ _ Hrs) as (k & -> & Hk).
  rewrite (eval_select_plain _ _ _ _ _ record_row (has_id i) (λ q, {["backend_url" := VStr (q_BackendURL q)]}));
    [|done| |intros []; vm_refl].
  2: { intros x. cbn [where_holds forallb]. by rewrite (cond_str _ e_exact _ _ _ _ (q_QueryID x) i), andb_true_r, String.eqb_sym. }
  rewrite (filter_unique i k (st_history st)); [|done|by destruct Hok as (_ & ? & _)].
  destruct (find_first (has_id i) (st_history st)) as [q|]; cbn [mret ST_ret fmap list_fmap]; [|done].
  unfold get_str. by rewrite lookup_singleton_eq.
Qed.

Lemma dao_list_recent n : reads dao_rep dao_up (ListRecent e n) (λ l st,
  ∃ sorted, newest_first sorted (st_history st) ∧ l = take (Z.to_nat (if n <=? 0 then 10 else n)) sorted).
Proof.
  intros d st Hrep. pose proof Hrep as (Hb & Hh & Hok). unfold ListRecent, Select, DriverName, mbind, ST_bind.
  set (n' := if n <=? 0 then 10 else n). assert (0 < n') by (subst n'; destruct (n <=? 0) eqn:?; lia).
  assert (∃ text, recent_text (e_driver e) = Some text ∧ placeholders_ok (e_driver e) text = true
    ∧ parse_sql text = Some (SSelect (mkSelect record_items "query_history" [] [] (Some ("created_at", true)) (Some (Pos 0)) None)))
    as (text & -> & Hph & Hp).
  { destruct Hdrv as [-> | ->]; eexists; (split_and!; [reflexivity|vm_refl|vm_refl]). }
  destruct (exec_select text (pos_args [VInt n']) _ d Hph Hp) as [(Hup & m & ->)|(rs & Hrs & ->)]; [done|done|].
  cbn [s_table] in Hrs. rewrite Hh in Hrs. destruct (perm_fmap_inv _ _ _ Hrs) as (k & -> & Hk).
  destruct (eval_select_sorted (e_coll e) (pos_args [VInt n']) record_items "query_history" [] ("created_at", true) (Some (Pos 0)) None
    (Some (Z.to_nat n')) None record_row (λ _, true) record_row k) as (k' & Hk' & Hs & ->); [done|done|apply project_record| |done|].
  { cbn. by replace (n' <? 0) with false by lia. }
  rewrite filter_true in Hk'.
  rewrite (mapM_fmap_all _ _ (kept id)) by (intros; apply scan_record_row). cbn.
  split; [|done]. exists k'. split; [|apply (kept_slice (Some (Z.to_nat n')) None); rewrite Hk', Hk; apply Hok].
  split; [by rewrite Hk'|by apply sorted_newer].
Qed.

(** The conditions a filter stands for, and the texts of [FindByFilter] for any
    combination of them. *)
Definition filter_conds (f : HistoryFilter) : list cond :=
  let add col val cs := if val =?s "" then cs else cs ++ [mkCond col OpEq (Pos (length cs))] in
  add "source" (f_Source f) (add "query_id" (f_QueryID f) (add "backend_url" (f_BackendURL f) (add "user_name" (f_UserName f) []))).

Lemma filter_texts f :
  let '(conds, args, argIdx) := filter_conditions e f in
  let cs := filter_conds f in
    placeholders_ok (e_driver e) (count_text (filter_where conds)) = true
    ∧ placeholders_ok (e_driver e) (page_text e (filter_where conds) argIdx) = true
    ∧ parse_sql (count_text (filter_where conds))
      = Some (SSelect (mkSelect [mkItem ECount ""] "query_history" cs [] None None None))
    ∧ parse_sql (page_text e (filter_where conds) argIdx)
      = Some (SSelect (mkSelect record_items "query_history" cs [] (Some ("created_at", true))
                         (Some (Pos (length args))) (Some (Pos (S (length args))))))
    ∧ ∀ q more, where_holds (e_coll e) (pos_args (args ++ more)) cs (record_row q) = matches f q.
Proof.
  unfold filter_conditions, filter_conds, add_condition, placeholder, page_text, DriverName.
  destruct (f_UserName f =?s "") eqn:E1, (f_BackendURL f =?s "") eqn:E2, (f_QueryID f =?s "") eqn:E3, (f_Source f =?s "") eqn:E4;
    destruct Hdrv as [-> | ->]; cbv beta iota zeta; cbn [String.eqb Ascii.eqb Bool.eqb app length].
  all: split_and!; [vm_refl|vm_refl|vm_refl|vm_refl|].
  all: intros q more; unfold matches, field_matches; rewrite E1, E2, E3, E4; cbn [orb andb where_holds forallb app].
  all: repeat first [rewrite (cond_str _ e_exact _ _ "user_name" _ (q_UserName q) (f_UserName f)) by done
                    |rewrite (cond_str _ e_exact _ _ "backend_url" _ (q_BackendURL q) (f_BackendURL f)) by done
                    |rewrite (cond_str _ e_exact _ _ "query_id" _ (q_QueryID q) (f_QueryID f)) by done
                    |rewrite (cond_str _ e_exact _ _ "source" _ (q_Source q) (f_Source f)) by done].
  all: rewrite ?andb_true_r, ?andb_assoc; done.
Qed.

Lemma dao_find_by_filter f : 0 ≤ page_offset f → reads dao_rep dao_up (FindByFilter e f) (λ '(l, total) st,
  total = Z.of_nat (length (List.filter (matches f) (st_history st)))
  ∧ ∃ sorted, newest_first sorted (List.filter (matches f) (st_history st))
      ∧ l = take (Z.to_nat (page_size f)) (drop (Z.to_nat (page_offset f)) sorted)).
Proof.
  intros Hoff d st Hrep. pose proof Hrep as (Hb & Hh & Hok). unfold FindByFilter, QueryRow, Select, mbind, ST_bind.
  pose proof (filter_texts f) as Ht. destruct (filter_conditions e f) as [[conds args] argIdx].
  destruct Ht as (Hp1 & Hp2 & Hs1 & Hs2 & Hw).
  destruct (exec_select _ (pos_args args) _ d Hp1 Hs1) as [(Hup & m & ->)|(rs & Hrs & ->)]; [done|done|].
  cbn [s_table] in Hrs. rewrite Hh in Hrs. destruct (perm_fmap_inv _ _ _ Hrs) as (k & -> & Hk).
  rewrite (eval_count _ args _ _ record_row (matches f)); [|intros q; rewrite <- (Hw q []); by rewrite app_nil_r].
  cbn [get_int mret ST_ret]. unfold get_int. rewrite lookup_singleton_eq.
  set (a2 := pos_args (args ++ _)).
  destruct (exec_select _ a2 _ (tick d) Hp2 Hs2) as [(Hup & m & ->)|(rs2 & Hrs2 & ->)]; [done|done|].
  cbn [s_table] in Hrs2. change (table (tick d)) with (table d) in Hrs2. rewrite Hh in Hrs2.
  destruct (perm_fmap_inv _ _ _ Hrs2) as (k2 & -> & Hk2).
  assert (0 < page_size f) by (unfold page_size; destruct (f_PageSize f <=? 0) eqn:?; lia).
  destruct (eval_select_sorted (e_coll e) a2 record_items "query_history" (filter_conds f) ("created_at", true)
    (Some (Pos (length args))) (Some (Pos (S (length args)))) (Some (Z.to_nat (page_size f))) (Some (Z.to_nat (page_offset f)))
    record_row (matches f) record_row k2) as (k' & Hk' & Hs & ->); [done|intros q; apply Hw|apply project_record|..].
  { cbn. rewrite lookup_app_r, Nat.sub_diag by lia. cbn. by replace (page_size f <? 0) with false by lia. }
  { cbn. rewrite lookup_app_r by lia. replace (S (length args) - length args)%nat with 1%nat by lia.
    cbn. by replace (page_offset f <? 0) with false by lia. }
  rewrite (mapM_fmap_all _ _ (kept id)) by (intros; apply scan_record_row). cbn.
  split; [|done]. split; [by rewrite Hk|]. exists k'. split.
  - split; [by rewrite Hk', Hk2|by apply sorted_newer].
  - apply (kept_slice (Some _) (Some _)). rewrite Hk'. apply Forall_List_filter. rewrite Hk2. apply Hok.
Qed.

Lemma dao_find_by_filter_neg f d st :
  page_offset f < 0 → dao_rep d st →
  match FindByFilter e f d with (Ok _, _) => False | (Err _, d') => dao_rep d' st end.
Proof.
  intros Hoff Hrep. unfold FindByFilter, QueryRow, Select, mbind, ST_bind.
  pose proof (filter_texts f) as Ht. destruct (filter_conditions e f) as [[conds args] argIdx].
  destruct Ht as (Hp1 & Hp2 & Hs1 & Hs2 & _).
  destruct (exec_select _ (pos_args args) _ d Hp1 Hs1) as [(Hup & m & ->)|(rs & Hrs & ->)]; [done|done|].
  destruct (eval_select _ _ _ rs) as [[|row ?]|]; cbn [mret ST_ret]; [done| |done].
  destruct (get_int row ""); [|done].
  destruct (exec_select _ (pos_args (args ++ [VInt (page_size f); VInt (page_offset f)])) _ (tick d) Hp2 Hs2)
    as [(Hup & m & ->)|(rs2 & Hrs2 & ->)]; [done|done|].
  unfold Sql.eval_select. cbn -[project groups]. rewrite !lookup_app_r by lia.
  replace (S (length args) - length args)%nat with 1%nat by lia. rewrite Nat.sub_diag. cbn -[project groups].
  replace (page_offset f <? 0) with true by lia. by destruct (page_size f <? 0).
Qed.

Definition dao_dates : Prop := e_driver e = "postgres".

Lemma dao_find_distribution_pg since : dao_dates →
  reads dao_rep dao_up (FindDistribution e since) (λ bs st, buckets_of since (st_history st) bs).
Proof.
  intros Hpg d st Hrep. pose proof Hrep as (Hb & Hh & Hok). unfold FindDistribution, Select, DriverName, mbind, ST_bind.
  assert (∃ text, distribution_text (e_driver e) = Some text ∧ placeholders_ok (e_driver e) text = true
    ∧ parse_sql text = Some (SSelect (mkSelect bucket_items "query_history" [mkCond "created_at" OpGe (Pos 0)] bucket_key
                                        (Some ("minute_start", false)) None None))) as (text & -> & Hph & Hp).
  { rewrite Hpg. eexists; (split_and!; [reflexivity|vm_refl|vm_refl]). }
  destruct (exec_select text (pos_args [VTime since]) _ d Hph Hp) as [(Hup & m & ->)|(rs & Hrs & ->)]; [done|done|].
  cbn [s_table] in Hrs. rewrite Hh in Hrs. destruct (perm_fmap_inv _ _ _ Hrs) as (k & -> & Hk).
  unfold bucket_key at 1. rewrite eval_select_grouped by done. fold bucket_key.
  rewrite (filter_fmap_eq _ _ (λ q, since <=? q_CreatedAt q)).
  2: { intros q. cbn [where_holds forallb]. unfold cond_holds. cbn [c_col c_op c_arg]. rewrite record_created. apply andb_true_r. }
  destruct (groups_encoded (e_coll e) bucket_key (List.filter (λ q, since <=? q_CreatedAt q) k)) as (gq & Hgq & Hgin).
  rewrite Hgq.
  rewrite (mapM_fmap_all _ _ (bucket_row ∘ bucket_of)) by (intros; apply project_bucket).
  rewrite list_fmap_compose.
  destruct (perm_fmap_inv bucket_row (bucket_of <$> gq) (sort_rows (Some ("minute_start", false)) (bucket_row <$> (bucket_of <$> gq))))
    as (bs & Hbs & Hperm); [apply sort_rows_perm|].
  pose proof (sort_rows_sorted ("minute_start", false) (bucket_row <$> (bucket_of <$> gq))) as Hsort. rewrite Hbs in Hsort.
  rewrite Hbs.
  rewrite (mapM_fmap_all _ _ id) by (intros; apply scan_bucket_row). rewrite list_fmap_id. cbn. split; [|done].
  destruct (groups_buckets _ e_exact since k gq Hgq Hgin) as [Hnd Hmem]. split_and!.
  - by rewrite Hperm.
  - by apply sorted_minutes.
  - intros b. rewrite Hperm, Hmem. by rewrite (filter_perm _ _ _ Hk).
Qed.

(** On mysql the minute is text, which does not scan into a time. *)
Definition text_items : list item :=
  [mkItem (EFormat "created_at") "minute_start"; mkItem (ECol "backend_url") "backend_url"; mkItem ECount "query_count"].
Definition text_key : list sqlexpr := [EFormat "created_at"; ECol "backend_url"].

Lemma project_text g : ∃ r, project text_items (encode g) = Some r ∧ scan_bucket r = None.
Proof using Type.
  unfold project, encode, text_items. cbn [foldr it_expr it_name mbind option_bind fst snd].
  unfold eval_expr. rewrite record_created. change (record_row g.1 !! "backend_url") with (Some (VStr (q_BackendURL g.1))).
  eexists. split; [done|]. unfold scan_bucket, get_time. by rewrite lookup_insert_eq.
Qed.

Lemma mapM_text gq : ∃ rs, mapM (project text_items) (encode <$> gq) = Some rs ∧ length rs = length gq ∧ Forall (λ r, scan_bucket r = None) rs.
Proof using Type.
  induction gq as [|g gq (rs & Hrs & Hl & Hf)]; [by exists []|]. destruct (project_text g) as (r & Hr & Hs).
  exists (r :: rs). rewrite fmap_cons.
  change (mapM (project text_items) (?x :: ?l)) with (y ← project text_items x; k ← mapM (project text_items) l; mret (y :: k)).
  rewrite Hr, Hrs. split_and!; [done|cbn; by rewrite Hl|by constructor].
Qed.

Definition since_records (since : Z) (hist : list QueryRecord) : list QueryRecord :=
  List.filter (λ q, since <=? q_CreatedAt q) hist.

Lemma no_buckets since hist : since_records since hist = [] → buckets_of since hist [].
Proof using Type.
  intros Hn. split_and!; [constructor|constructor|]. intros b. split; [by intros ?%elem_of_nil|]. intros [Hc Hp].
  assert (List.filter (in_bucket since (MinuteStart b) (d_BackendURL b)) hist = []) as E; [|rewrite E in Hc; cbn in Hc; lia].
  revert Hn. unfold since_records. clear. induction hist as [|q l IH]; [done|]. cbn. unfold in_bucket at 1.
  destruct (since <=? q_CreatedAt q); [done|]. cbn. apply IH.
Qed.

Lemma dao_find_distribution_mysql since d st : e_driver e = "mysql" → dao_rep d st →
  match FindDistribution e since d with
  | (Ok bs, d') => bs = [] ∧ since_records since (st_history st) = [] ∧ dao_rep d' st
  | (Err _, d') => (dao_up → since_records since (st_history st) ≠ []) ∧ dao_rep d' st
  end.
Proof.
  intros Hmy Hrep. pose proof Hrep as (Hb & Hh & Hok). unfold FindDistribution, Select, DriverName, mbind, ST_bind.
  rewrite Hmy. set (text := distribution_text "mysql"). cbn in text. subst text. cbv iota beta.
  set (text := nl +:+ _).
  destruct (exec_select text (pos_args [VTime since]) (mkSelect text_items "query_history" [mkCond "created_at" OpGe (Pos 0)] text_key
    (Some ("minute_start", false)) None None) d) as [(Hn & m & ->)|(rs & Hrs & ->)]; [rewrite Hmy; vm_refl|vm_refl|done|done|].
  cbn [s_table] in Hrs. rewrite Hh in Hrs. destruct (perm_fmap_inv _ _ _ Hrs) as (k & -> & Hk).
  unfold text_key at 1. rewrite eval_select_grouped by done. fold text_key.
  rewrite (filter_fmap_eq _ _ (λ q, since <=? q_CreatedAt q)).
  2: { intros q. cbn [where_holds forallb]. unfold cond_holds. cbn [c_col c_op c_arg]. rewrite record_created. apply andb_true_r. }
  fold (since_records since k).
  assert (Hsr : since_records since k ≡ₚ since_records since (st_history st)) by (unfold since_records; by rewrite Hk).
  destruct (groups_encoded (e_coll e) text_key (since_records since k)) as (gq & Hgq & Hgin).
  pose proof (groups_spec (e_coll e) text_key (record_row <$> since_records since k)) as (_ & _ & Hall). rewrite Hgq in *.
  destruct (mapM_text gq) as (out & -> & Hlen & Hfail).
  assert (Hp : sort_rows (Some ("minute_start", false)) out ≡ₚ out) by apply sort_rows_perm.
  destruct (sort_rows (Some ("minute_start", false)) out) as [|r out'].
  - apply Permutation_nil_l in Hp. subst out. cbn. destruct gq; [|done]. split_and!; [done| |done].
    apply Permutation_nil_r. rewrite <- Hsr. destruct (since_records since k) as [|q l]; [done|].
    destruct (Hall (record_row q)) as (r0 & n & Hin & _); [left|by apply elem_of_nil in Hin].
  - cbn. assert (scan_bucket r = None) as ->. { rewrite Forall_forall in Hfail. apply Hfail. rewrite <- Hp. left. }
    cbn. split; [|done]. intros _ Hz. rewrite Hz in Hsr. apply Permutation_nil_r in Hsr.
    destruct gq as [|g gq]; [destruct out; [by apply Permutation_nil_r in Hp|done]|].
    specialize (Hgin g ltac:(left)). rewrite Hsr in Hgin. by apply elem_of_nil in Hgin.
Qed.

Lemma dao_find_distribution since :
  reads dao_rep (dao_up ∧ dao_dates) (FindDistribution e since) (λ bs st, buckets_of since (st_history st) bs).
Proof.
  intros d st Hrep. destruct Hdrv as [Hpg|Hmy].
  - pose proof (dao_find_distribution_pg since Hpg d st Hrep) as Hd.
    destruct (FindDistribution e since d) as [[bs|m] d']; [done|]. destruct Hd as [Hup Hr]. split; [|done]. tauto.
  - pose proof (dao_find_distribution_mysql since d st Hmy Hrep) as Hd.
    destruct (FindDistribution e since d) as [[bs|m] d'].
    + destruct Hd as (-> & Hn & Hr). split; [by apply no_buckets|done].
    + split; [|apply Hd]. intros [_ Hpg]. unfold dao_dates in Hpg. congruence.
Qed.
End dao_spec.

#[global] Instance dao_ops (e : engine) : StoreOps database := {|
  so_List := List_ e; so_ListActive := ListActive e; so_Upsert := Upsert e; so_Delete := Delete e;
  so_SetActive := SetActive e; so_LookupExternalURL := LookupExternalURL e; so_Insert := Insert e;
  so_LookupByQueryID := LookupByQueryID e; so_ListRecent := ListRecent e; so_FindByFilter := FindByFilter e;
  so_FindDistribution := FindDistribution e |}.

Lemma dao_spec e `{!EngineOk e} :
  e_driver e = "postgres" ∨ e_driver e = "mysql" →
  StoreSpec (H := dao_ops e) database dao_rep (dao_up e) (dao_dates e) (e_round e).
Proof.
  intros Hdrv. split; cbn.
  - by intros d st (_ & _ & ?).
  - by apply dao_list.
  - by apply dao_list_active.
  - by apply dao_upsert.
  - by apply dao_delete.
  - by apply dao_set_active.
  - by apply dao_lookup_external.
  - by apply dao_insert.
  - by apply dao_lookup_query.
  - by apply dao_list_recent.
  - by apply dao_find_by_filter.
  - by apply dao_find_by_filter_neg.
  - by apply dao_find_distribution.
Qed.

(** ** A concrete store, for the witnesses *)
Module StoreDemo.
Definition eng (driver : string) : engine := mkEngine driver (λ _ _ _, None) (λ _ _ rs, rs) id id (λ _ r, r).
#[global] Instance eng_ok driver : EngineOk (eng driver).
Proof. by split. Defined.
Lemma eng_up driver : dao_up (eng driver).
Proof. by intros n t a. Defined.

Definition b1 : Backend := mkBackend "b1" "http://b1:8080" "" "adhoc" true 1000 1000.
Definition b2 : Backend := mkBackend "b2" "http://b2:8080" "https://b2" "etl" false 1000 1000.
Definition q1 : QueryRecord := mkQueryRecord "q1" "http://b1:8080" "" "ann" "cli" "" "" 120000000000.
Definition q2 : QueryRecord := mkQueryRecord "q2" "http://b2:8080" "" "bob" "cli" "" "" 60000000000.
Definition st : store := mkStore [b1; b2] [q1; q2].
Definition db : database :=
  mkDb (list_to_map [("gateway_backend", backend_row <$> st_backends st); ("query_history", record_row <$> st_history st)]) 0.

Lemma db_rep : dao_rep db st.
Proof. split_and!; [done|done|]. split_and!; [| |by repeat constructor]; apply (bool_decide_unpack _); by vm_compute. Defined.
End StoreDemo.
