(* ===== verification/StoreProps.v ===== *)
(** * The access objects under sequences of calls (internal/persistence)

    Any sequence of calls is a run of the abstract store, on either driver, as long as the
    engine's collation tells strings apart and what is inserted fits its columns; on an
    engine with MySQL's defaults it is not. *)
From S2P Require Import Prelude GoStrings Sql Persistence Store.

#[local] Open Scope Z_scope.

#[local] Instance ST_fmap S : FMap (ST S) := λ A B f m s, let '(a, s') := m s in (f a, s').

(** ** Calls and answers *)
Inductive dao_call : Type :=
| CList | CListActive | CUpsert (b : Backend) | CDelete (n : string) | CSetActive (now : Z) (n : string) (a : bool)
| CLookupExternalURL (u : string) | CInsert (q : QueryRecord) | CLookupByQueryID (i : string) | CListRecent (n : Z)
| CFindByFilter (f : HistoryFilter) | CFindDistribution (since : Z).

Inductive dao_answer : Type :=
| ABackends (r : go_result (list Backend)) | ADone (r : go_result unit) | AInserted (r : go_result unit) (counted : string)
| AString (r : go_result string) | ARecords (r : go_result (list QueryRecord)) | APage (r : go_result (list QueryRecord * Z))
| ABuckets (r : go_result (list DistributionBucket)).

Definition dao_step {S} `{StoreOps S} (c : dao_call) : ST S dao_answer :=
  match c with
  | CList => ABackends <$> so_List
  | CListActive => ABackends <$> so_ListActive
  | CUpsert b => ADone <$> so_Upsert b
  | CDelete n => ADone <$> so_Delete n
  | CSetActive now n a => ADone <$> so_SetActive now n a
  | CLookupExternalURL u => AString <$> so_LookupExternalURL u
  | CInsert q => (λ '(r, m), AInserted r m) <$> so_Insert q
  | CLookupByQueryID i => AString <$> so_LookupByQueryID i
  | CListRecent n => ARecords <$> so_ListRecent n
  | CFindByFilter f => APage <$> so_FindByFilter f
  | CFindDistribution since => ABuckets <$> so_FindDistribution since
  end.
Fixpoint dao_run {S} `{StoreOps S} (cs : list dao_call) : ST S (list dao_answer) :=
  match cs with [] => mret [] | c :: cs => a ← dao_step c; l ← dao_run cs; mret (a :: l) end.

(** ** The abstract run *)
Definition call_effect (round : Z → Z) (c : dao_call) (st : store) : store :=
  match c with
  | CUpsert b => st_upsert (kept_backend round b) st
  | CDelete n => st_delete n st
  | CSetActive now n a => st_set_active (round now) n a st
  | CInsert q => st_insert (kept round q) st
  | _ => st
  end.

Definition failed (a : dao_answer) : bool :=
  match a with
  | ABackends r => negb (is_Ok r) | ADone r => negb (is_Ok r) | AInserted r _ => negb (is_Ok r) | AString r => negb (is_Ok r)
  | ARecords r => negb (is_Ok r) | APage r => negb (is_Ok r) | ABuckets r => negb (is_Ok r)
  end.

(** What a call may fail for: a statement failed, a page before the first was asked for, or
    the minute of a bucket is no time. [dates] as in [StoreSpec]. *)
Definition may_fail (up dates : Prop) (c : dao_call) : Prop :=
  match c with CFindByFilter f => ¬ up ∨ page_offset f < 0 | CFindDistribution _ => ¬ (up ∧ dates) | _ => ¬ up end.

(** The answer to a call that does not fail. *)
Definition answer_ok (c : dao_call) (a : dao_answer) (st : store) : Prop :=
  match c, a with
  | CList, ABackends (Ok l) => l ≡ₚ st_backends st
  | CListActive, ABackends (Ok l) => l ≡ₚ List.filter b_Active (st_backends st)
  | (CUpsert _ | CDelete _ | CSetActive _ _ _), ADone (Ok _) => True
  | CLookupExternalURL u, AString (Ok x) =>
      (x = u ∧ ∀ b, b ∈ st_backends st → b_URL b ≠ u)
      ∨ ∃ b, b ∈ st_backends st ∧ b_URL b = u ∧ x = if b_ExternalURL b =?s "" then u else b_ExternalURL b
  | CInsert _, AInserted (Ok _) _ => True
  | CLookupByQueryID i, AString (Ok u) => u = from_opt "" (q_BackendURL <$> find_first (has_id i) (st_history st))
  | CListRecent n, ARecords (Ok l) =>
      ∃ sorted, newest_first sorted (st_history st) ∧ l = take (Z.to_nat (if n <=? 0 then 10 else n)) sorted
  | CFindByFilter f, APage (Ok (l, total)) =>
      0 ≤ page_offset f ∧ total = Z.of_nat (length (List.filter (matches f) (st_history st)))
      ∧ ∃ sorted, newest_first sorted (List.filter (matches f) (st_history st))
          ∧ l = take (Z.to_nat (page_size f)) (drop (Z.to_nat (page_offset f)) sorted)
  | CFindDistribution since, ABuckets (Ok bs) => buckets_of since (st_history st) bs
  | _, _ => False
  end.

(** A call that fails leaves the store as it is. *)
Definition step_ok (up dates : Prop) (round : Z → Z) (c : dao_call) (a : dao_answer) (st st' : store) : Prop :=
  if failed a then may_fail up dates c ∧ st' = st else answer_ok c a st ∧ st' = call_effect round c st.
Inductive run_ok (up dates : Prop) (round : Z → Z) : list dao_call → list dao_answer → store → store → Prop :=
| run_none st : run_ok up dates round [] [] st st
| run_call c a cs answers st st' st'' :
    step_ok up dates round c a st st' → run_ok up dates round cs answers st' st'' →
    run_ok up dates round (c :: cs) (a :: answers) st st''.

Section client.
Context {S : Type} `{StoreOps S} (rep : S → store → Prop) (up dates : Prop) (round : Z → Z) `{!StoreSpec S rep up dates round}.

#[local] Abbreviation step_ok := (step_ok up dates round).

Lemma reads_step {A} (u : Prop) (m : ST S (go_result A)) Q (con : go_result A → dao_answer) c s st :
  reads rep u m Q → rep s st → (∀ r, failed (con r) = negb (is_Ok r)) → (∀ st, call_effect round c st = st) →
  (∀ a, Q a st → answer_ok c (con (Ok a)) st) → (¬ u → may_fail up dates c) →
  let '(ans, s') := (con <$> m) s in ∃ st', step_ok c ans st st' ∧ rep s' st'.
Proof using Type.
  intros Hm Hr Hf He Hok Herr. specialize (Hm s st Hr). unfold fmap, ST_fmap, StoreProps.step_ok.
  destruct (m s) as [[a|e] s']; exists st; rewrite Hf; cbn [is_Ok negb]; rewrite ?He; naive_solver.
Qed.
Lemma writes_step (m : ST S (go_result unit)) (con : go_result unit → dao_answer) c s st :
  writes rep up m (call_effect round c) → rep s st → (∀ r, failed (con r) = negb (is_Ok r)) → answer_ok c (con (Ok tt)) st →
  (¬ up → may_fail up dates c) →
  let '(ans, s') := (con <$> m) s in ∃ st', step_ok c ans st st' ∧ rep s' st'.
Proof using Type.
  intros Hm Hr Hf Hok Herr. specialize (Hm s st Hr). unfold fmap, ST_fmap, StoreProps.step_ok.
  destruct (m s) as [[[]|e] s']; rewrite Hf; cbn [is_Ok negb]; [by eauto|]. exists st. destruct Hm. auto.
Qed.

Lemma step_refines c s st : rep s st → let '(a, s') := dao_step c s in ∃ st', step_ok c a st st' ∧ rep s' st'.
Proof.
  intros Hr. destruct c; cbn [dao_step].
  - eapply reads_step; [apply spec_List|done..].
  - eapply reads_step; [apply spec_ListActive|done..].
  - apply writes_step; [apply spec_Upsert|done..].
  - apply writes_step; [apply spec_Delete|done..].
  - apply writes_step; [apply spec_SetActive|done..].
  - eapply reads_step; [apply spec_LookupExternalURL|done..].
  - pose proof (spec_Insert (rep := rep) q s st Hr) as Hs. unfold fmap, ST_fmap, StoreProps.step_ok. cbn beta in Hs.
    destruct (so_Insert q s) as [[[[]|e] m] s']; cbn [failed is_Ok negb]; [eexists; by split|]. exists st. by destruct Hs.
  - eapply reads_step; [apply spec_LookupByQueryID|done..].
  - eapply reads_step; [apply spec_ListRecent|done..].
  - destruct (decide (0 ≤ page_offset f)) as [Ho|Ho].
    + eapply reads_step; [by apply spec_FindByFilter|done|done|done|intros [l total] Hq; done|by left].
    + pose proof (spec_FindByFilter_neg (rep := rep) f s st ltac:(lia) Hr) as Hn. unfold fmap, ST_fmap, StoreProps.step_ok.
      destruct (so_FindByFilter f s) as [[?|e] s']; [done|]. exists st. cbn. split; [|done]. split; [right; lia|done].
  - eapply reads_step; [apply spec_FindDistribution|done..].
Qed.

Lemma run_refines cs s st : rep s st →
  let '(answers, s') := dao_run cs s in ∃ st', run_ok up dates round cs answers st st' ∧ rep s' st'.
Proof.
  revert s st. induction cs as [|c cs IH]; intros s st Hr; [exists st; split; [constructor|done]|]. cbn [dao_run]. unfold mbind, ST_bind.
  pose proof (step_refines c s st Hr) as Hs. destruct (dao_step c s) as [a s1]. destruct Hs as (st1 & Ha & Hs).
  specialize (IH s1 st1 Hs). destruct (dao_run cs s1) as [l s2]. destruct IH as (st2 & Hl & Hs2). exists st2. split; [by econstructor|done].
Qed.
End client.

(** C6: On PostgreSQL or MySQL, with a collation that tells strings apart and values that
    fit their columns, every sequence of calls to the access objects, whichever statements
    fail, is a run of the abstract store: a call that fails changes nothing, any other
    answers as the abstract store does and has its effect, and the database at the end
    represents the abstract result. So names and query ids stay distinct, an upsert keeps
    the creation time, a record is inserted once, listings hold every row once, and pages
    are cut from the matching records newest first; and when no statement fails only a page
    before the first and MySQL's bucket query do. *)
Theorem dao_refines_store e `{!EngineOk e} cs d st :
  e_driver e = "postgres" ∨ e_driver e = "mysql" → dao_rep d st →
  let '(answers, d') := dao_run (H := dao_ops e) cs d in
  ∃ st', run_ok (dao_up e) (dao_dates e) (e_round e) cs answers st st' ∧ dao_rep d' st'.
Proof.
  intros Hdrv Hr. pose proof (dao_spec e Hdrv) as Hspec. exact (run_refines _ _ _ _ cs d st Hr).
Qed.

(** ** Witnesses *)
Definition demo_calls : list dao_call :=
  [CUpsert (mkBackend "b1" "http://new:8080" "" "etl" true 5000 5000); CSetActive 7000 "b2" true; CDelete "b9";
   CInsert (mkQueryRecord "q3" "http://new:8080" "" "ann" "cli" "adhoc" "SELECT 1" 180000000000); CListActive;
   CFindByFilter (mkHistoryFilter "ann" "" "" "" 1 10); CLookupByQueryID "q3"].

Lemma dao_refines_store_witness :
  let '(answers, d') := dao_run (H := dao_ops (StoreDemo.eng "mysql")) demo_calls StoreDemo.db in
  ∃ st', run_ok (dao_up (StoreDemo.eng "mysql")) (dao_dates (StoreDemo.eng "mysql")) id demo_calls answers StoreDemo.st st' ∧ dao_rep d' st'.
Proof.
  apply (dao_refines_store (StoreDemo.eng "mysql") demo_calls StoreDemo.db StoreDemo.st).
  - right. reflexivity.
  - apply StoreDemo.db_rep.
Defined.

(** ** MySQL with its defaults *)

(** The migrations declare no collation, and MySQL's default one does not tell the case of
    letters: a backend "B1" overwrites "b1" and keeps its name, and the history of "ANN"
    is that of "ann". *)
Definition folding : engine := mkEngine "mysql" (λ _ _ _, None) (λ _ _ rs, rs) id to_lower (λ _ r, r).
Example collation_merges_backends :
  let '(answers, _) := dao_run (H := dao_ops folding)
    [CUpsert (mkBackend "B1" "http://other:8080" "" "etl" true 5000 5000); CList; CFindByFilter (mkHistoryFilter "ANN" "" "" "" 1 10)]
    StoreDemo.db in
  answers = [ADone (Ok tt); ABackends (Ok [mkBackend "b1" "http://other:8080" "" "etl" true 1000 5000; StoreDemo.b2]);
             APage (Ok ([StoreDemo.q1], 1))].
Proof. vm_compute. reflexivity. Qed.

(** INSERT IGNORE stores what fits: with the 255 characters of the column, a longer query id
    is recorded as another one, without an error, and is not found again. *)
Definition cutting : engine := mkEngine "mysql" (λ _ _ _, None) (λ _ _ rs, rs) id id
  (λ _ r, alter (λ v, match v with VStr s => VStr (str_take 255 s) | v => v end) "query_id" r).
Example ignore_changes_id :
  let id := String.concat "" (repeat "0123456789abcdef" 16) in
  let '(answers, _) := dao_run (H := dao_ops cutting)
    [CInsert (mkQueryRecord id "http://b1:8080" "" "ann" "cli" "" "" 0); CLookupByQueryID id; CLookupByQueryID (str_take 255 id)] StoreDemo.db in
  answers = [AInserted (Ok tt) ResultOK; AString (Ok ""); AString (Ok "http://b1:8080")].
Proof. vm_compute. reflexivity. Qed.
