(* ===== verification/AdminApi.v ===== *)
(** * The admin API (internal/admin: backend.go, query.go, webapp.go, health.go)

    Every handler, over a store that implements [StoreOps], the monitor's verdicts and
    the collected statistics. The clock is an argument. chi's URL parameters, Go's
    quoting of strings in error texts and its shortest printing of floats are
    parameters. *)
From Stdlib Require Import SpecFloat.
From S2P Require Import Prelude GoStrings GoNumeric Json HttpModel Config ClusterStats Monitor Auth AdminAuth Sql Persistence Store.

#[local] Open Scope Z_scope.

(** ** Wire formats *)
Record ProxyBackend : Type := mkProxyBackend {
  pb_Name : string; pb_ProxyTo : string; pb_ExternalURL : string; pb_Active : bool; pb_RoutingGroup : string }.

Definition proxy_fields (b : ProxyBackend) : list (string * json) :=
  [("name", JStr (pb_Name b)); ("proxyTo", JStr (pb_ProxyTo b)); ("externalUrl", JStr (pb_ExternalURL b));
   ("active", JBool (pb_Active b)); ("routingGroup", JStr (pb_RoutingGroup b))].
Definition proxy_json (b : ProxyBackend) : json := JObj (proxy_fields b).

Definition set_proxy_field (k : string) (v : json) (b : ProxyBackend) : ProxyBackend * bool :=
  if field_is "name" k then let '(x, e) := dec_string (pb_Name b) v in
    (mkProxyBackend x (pb_ProxyTo b) (pb_ExternalURL b) (pb_Active b) (pb_RoutingGroup b), e)
  else if field_is "proxyTo" k then let '(x, e) := dec_string (pb_ProxyTo b) v in
    (mkProxyBackend (pb_Name b) x (pb_ExternalURL b) (pb_Active b) (pb_RoutingGroup b), e)
  else if field_is "externalUrl" k then let '(x, e) := dec_string (pb_ExternalURL b) v in
    (mkProxyBackend (pb_Name b) (pb_ProxyTo b) x (pb_Active b) (pb_RoutingGroup b), e)
  else if field_is "active" k then let '(x, e) := dec_bool (pb_Active b) v in
    (mkProxyBackend (pb_Name b) (pb_ProxyTo b) (pb_ExternalURL b) x (pb_RoutingGroup b), e)
  else if field_is "routingGroup" k then let '(x, e) := dec_string (pb_RoutingGroup b) v in
    (mkProxyBackend (pb_Name b) (pb_ProxyTo b) (pb_ExternalURL b) (pb_Active b) x, e)
  else (b, false).
Definition decode_proxy : request → option ProxyBackend := decodeJSON set_proxy_field (mkProxyBackend "" "" "" false "").

Record BackendResponse : Type := mkBackendResponse {
  br_Proxy : ProxyBackend; br_Queued : Z; br_Running : Z; br_Status : string }.
Definition response_json (r : BackendResponse) : json :=
  JObj (proxy_fields (br_Proxy r)
        ++ [("queued", jint (br_Queued r)); ("running", jint (br_Running r)); ("status", JStr (br_Status r))]).

Record ClusterStatsResponse : Type := mkClusterStatsResponse {
  csr_ClusterID : string; csr_Running : Z; csr_Queued : Z; csr_Workers : Z; csr_TrinoStatus : string;
  csr_ProxyTo : string; csr_ExternalURL : string; csr_RoutingGroup : string; csr_UserQueued : option (gmap string Z) }.

(** A map is printed with its keys in order. *)
Definition map_json {V} (f : V → json) (m : gmap string V) : json :=
  JObj ((λ k, (k, from_opt JNull (f <$> m !! k))) <$> merge_sort String.le (elements (dom m))).

Definition stats_json (r : ClusterStatsResponse) : json :=
  JObj ([("clusterId", JStr (csr_ClusterID r)); ("runningQueryCount", jint (csr_Running r));
         ("queuedQueryCount", jint (csr_Queued r)); ("numWorkerNodes", jint (csr_Workers r));
         ("trinoStatus", JStr (csr_TrinoStatus r)); ("proxyTo", JStr (csr_ProxyTo r));
         ("externalUrl", JStr (csr_ExternalURL r)); ("routingGroup", JStr (csr_RoutingGroup r))]
        ++ match csr_UserQueued r with
           | Some m => if bool_decide (m = ∅) then [] else [("userQueuedCount", map_json jint m)]
           | None => []
           end).

Record QueryDetail : Type := mkQueryDetail {
  qd_QueryID : string; qd_QueryText : string; qd_User : string; qd_Source : string; qd_BackendURL : string;
  qd_CaptureTime : Z; qd_RoutingGroup : string; qd_ExternalURL : string }.
Definition detail_json (q : QueryDetail) : json :=
  JObj [("queryId", JStr (qd_QueryID q)); ("queryText", JStr (qd_QueryText q)); ("user", JStr (qd_User q));
        ("source", JStr (qd_Source q)); ("backendUrl", JStr (qd_BackendURL q)); ("captureTime", jint (qd_CaptureTime q));
        ("routingGroup", JStr (qd_RoutingGroup q)); ("externalUrl", JStr (qd_ExternalURL q))].

(** [Time.UnixMilli]. *)
Definition unix_milli (ns : Z) : Z := ns / 1000000.

Definition queryDetailFromRecord (r : QueryRecord) : QueryDetail :=
  let externalURL := if q_ExternalURL r =?s "" then q_BackendURL r else q_ExternalURL r in
  mkQueryDetail (q_QueryID r) (q_QueryText r) (q_UserName r) (q_Source r) (q_BackendURL r) (unix_milli (q_CreatedAt r))
    (q_RoutingGroup r) externalURL.

Definition externalURLOrProxyTo (externalURL proxyTo : string) : string :=
  if externalURL =?s "" then proxyTo else externalURL.
Definition proxyBackendFromPersistence (b : Persistence.Backend) : ProxyBackend :=
  mkProxyBackend (b_Name b) (b_URL b) (externalURLOrProxyTo (b_ExternalURL b) (b_URL b)) (b_Active b) (b_RoutingGroup b).
Definition persistenceBackendFromProxy (now : Z) (pb : ProxyBackend) : Persistence.Backend :=
  Persistence.mkBackend (pb_Name pb) (pb_ProxyTo pb) (pb_ExternalURL pb) (pb_RoutingGroup pb) (pb_Active pb) now now.

Definition trinoStatusLabel (s : Status) : string := Label s.

Record FindQueryHistoryRequest : Type := mkFindRequest {
  fr_UserName : string; fr_BackendURL : string; fr_QueryID : string; fr_Source : string; fr_Page : Z; fr_PageSize : Z }.
Definition set_find_field (k : string) (v : json) (f : FindQueryHistoryRequest) : FindQueryHistoryRequest * bool :=
  let '(mkFindRequest u b q s p n) := f in
  if field_is "userName" k then let '(x, e) := dec_string u v in (mkFindRequest x b q s p n, e)
  else if field_is "backendUrl" k then let '(x, e) := dec_string b v in (mkFindRequest u x q s p n, e)
  else if field_is "queryId" k then let '(x, e) := dec_string q v in (mkFindRequest u b x s p n, e)
  else if field_is "source" k then let '(x, e) := dec_string s v in (mkFindRequest u b q x p n, e)
  else if field_is "page" k then let '(x, e) := dec_int p v in (mkFindRequest u b q s x n, e)
  else if field_is "pageSize" k then let '(x, e) := dec_int n v in (mkFindRequest u b q s p x, e)
  else (f, false).
Definition set_distribution_field (k : string) (v : json) (latestHour : Z) : Z * bool :=
  if field_is "latestHour" k then dec_int latestHour v else (latestHour, false).

Record ChartPoint : Type := mkChartPoint { cp_BackendURL : string; cp_Name : string; cp_QueryCount : Z }.
Record TimePoint : Type := mkTimePoint { tp_EpochMillis : Z; tp_BackendURL : string; tp_Name : string; tp_QueryCount : Z }.
Record DistributionResponse : Type := mkDistribution {
  dr_Total : Z; dr_Online : Z; dr_Offline : Z; dr_Healthy : Z; dr_Unhealthy : Z; dr_TotalQueryCount : Z;
  dr_AvgMinute : f64; dr_AvgSecond : f64; dr_StartTime : string;
  dr_Chart : list ChartPoint; dr_LineChart : gmap string (list TimePoint) }.

(** ** Times as text *)

(** [Format("2006-01-02T15:04:05.000Z")] of a UTC time. *)
Definition format_iso_ms (ns : Z) : string :=
  let secs := ns / 1000000000 in
  let '(y, m, d) := civil_of_days (secs / 86400) in
  let s := secs mod 86400 in
  pad 4 y +:+ "-" +:+ pad 2 m +:+ "-" +:+ pad 2 d +:+ "T" +:+ pad 2 (s / 3600) +:+ ":" +:+ pad 2 (s / 60 mod 60) +:+ ":"
  +:+ pad 2 (s mod 60) +:+ "." +:+ pad 3 (ns / 1000000 mod 1000) +:+ "Z".

(** [Duration.Seconds]. *)
Definition duration_seconds (d : Z) : f64 :=
  f64_add (f64_of_Z (Z.quot d 1000000000)) (f64_div (f64_of_Z (Z.rem d 1000000000)) (f64_of_Z 1000000000)).

(** ** Handlers *)
Record admin_state (S : Type) : Type := mkAdmin {
  ad_store : S; ad_monitor : Monitor; ad_stats : gmap string ClusterStats; ad_ready : bool }.
Arguments mkAdmin {S}.
Arguments ad_store {S}.
Arguments ad_monitor {S}.
Arguments ad_stats {S}.
Arguments ad_ready {S}.

(** What the handlers are built with: [has_stats] and [has_status_mut] tell whether the
    optional collaborators are set, [has_observer] whether the monitor has an observer. *)
Record api_env : Type := mkApiEnv {
  en_auth : AuthConfig;
  en_match : string → string → option bool;
  en_url_param : request → string → string;
  en_quote : string → string;
  en_float : f64 → string;
  en_has_stats : bool; en_has_status_mut : bool; en_has_observer : bool;
  en_disable_pages : list string;
  en_start : Z;
  en_now : Z }.

Section api.
Context {S : Type} `{StoreOps S} (env : api_env).
#[local] Abbreviation HM A := (ST (admin_state S) A).

Definition in_store {A} (m : ST S A) : HM A := λ s,
  let '(a, st) := m (ad_store s) in (a, mkAdmin st (ad_monitor s) (ad_stats s) (ad_ready s)).
Definition monitor_status (url : string) : HM Status := λ s, (m_Status (ad_monitor s) url, s).
Definition stats_of (name : string) : HM ClusterStats := λ s, (Stats (ad_stats s) name, s).
Definition set_backend_status (url : string) (st : Status) : HM unit := λ s,
  (tt, mkAdmin (ad_store s) (SetBackendStatus (en_has_observer env) url st (ad_monitor s)) (ad_stats s) (ad_ready s)).

Definition internal_error : reply := http_Error "internal server error" 500.
Definition bad_request : reply := http_Error "bad request" 400.
Definition NotFound : reply := http_Error "404 page not found" 404.
Definition status_only (code : Z) : reply := mkReply code ∅ [] (BText "").

(** *** Backends (backend.go) *)
Definition zero_stats : ClusterStats := mkClusterStats "" 0 0 0 Unknown "" "" "" None.

Definition clusterStatsResponseFromPersistence (b : Persistence.Backend) (cs : ClusterStats) : HM ClusterStatsResponse :=
  status ← monitor_status (b_URL b);
  mret (mkClusterStatsResponse (b_Name b) (RunningQueryCount cs) (QueuedQueryCount cs) (NumWorkerNodes cs)
          (trinoStatusLabel status) (b_URL b) (externalURLOrProxyTo (b_ExternalURL b) (b_URL b)) (b_RoutingGroup b)
          (UserQueuedCount cs)).

Definition backendResponseFromPersistence (b : Persistence.Backend) : HM BackendResponse :=
  status ← monitor_status (b_URL b);
  if en_has_stats env then
    cs ← stats_of (b_Name b);
    mret (mkBackendResponse (proxyBackendFromPersistence b) (QueuedQueryCount cs) (RunningQueryCount cs) (trinoStatusLabel status))
  else mret (mkBackendResponse (proxyBackendFromPersistence b) 0 0 (trinoStatusLabel status)).

Definition backends_reply (r : go_result (list Persistence.Backend)) : reply :=
  match r with
  | Err _ => internal_error
  | Ok bs => writeJSON 200 (JArr ((proxy_json ∘ proxyBackendFromPersistence) <$> bs))
  end.

Definition listPublicBackends (_ : request) : HM reply := r ← in_store so_List; mret (backends_reply r).
Definition listAllBackends (_ : request) : HM reply := r ← in_store so_List; mret (backends_reply r).
Definition listActiveBackends (_ : request) : HM reply := r ← in_store so_ListActive; mret (backends_reply r).
Definition legacyActiveBackends (_ : request) : HM reply := r ← in_store so_ListActive; mret (backends_reply r).

Definition getPublicBackend (r : request) : HM reply :=
  let name := en_url_param env r "name" in
  bs ← in_store so_List;
  mret match bs with
       | Err _ => internal_error
       | Ok bs =>
           match find_first (λ b, b_Name b =?s name) bs with
           | Some b => writeJSON 200 (proxy_json (proxyBackendFromPersistence b))
           | None => NotFound
           end
       end.

Definition getPublicBackendState (r : request) : HM reply :=
  let name := en_url_param env r "name" in
  bs ← in_store so_List;
  match bs with
  | Err _ => mret internal_error
  | Ok bs =>
      match find_first (λ b, b_Name b =?s name) bs with
      | Some b =>
          cs ← (if en_has_stats env then stats_of (b_Name b) else mret zero_stats);
          resp ← clusterStatsResponseFromPersistence b cs;
          mret (writeJSON 200 (stats_json resp))
      | None => mret NotFound
      end
  end.

Definition handleGatewayPing : reply := writeJSON 200 (JStr "ok").

Definition set_active (active : bool) (r : request) : HM reply :=
  let name := en_url_param env r "name" in
  res ← in_store (so_SetActive (en_now env) name active);
  mret match res with
       | Err _ => http_Error ("backend " +:+ en_quote env name +:+ " not found or error") 404
       | Ok _ => status_only 200
       end.
Definition activateBackend : request → HM reply := set_active true.
Definition deactivateBackend : request → HM reply := set_active false.

(** Decoding, storing and echoing a backend, with the answers for the two failures. *)
Definition save_backend (bad failed : reply) (ok : json → json) (r : request) : HM reply :=
  match decode_proxy r with
  | None => mret bad
  | Some pb =>
      res ← in_store (so_Upsert (persistenceBackendFromProxy (en_now env) pb));
      mret match res with Err _ => failed | Ok _ => writeJSON 200 (ok (proxy_json pb)) end
  end.
Definition addBackend : request → HM reply := save_backend bad_request internal_error id.
Definition updateBackend : request → HM reply := save_backend bad_request internal_error id.

Definition deleteBackend (r : request) : HM reply :=
  match req_body r with
  | Err _ => mret bad_request
  | Ok b =>
      let body := if (2 ^ 10 <=? Z.of_nat (String.length b)) then str_take (Z.to_nat (2 ^ 10)) b else b in
      let name := trim_space body in
      if name =?s "" then mret (http_Error "bad request: empty name" 400) else
      res ← in_store (so_Delete name);
      mret match res with Err _ => internal_error | Ok _ => status_only 200 end
  end.

(** *** Entities *)
Definition listEntityTypes : reply := writeJSON 200 (JArr [JStr "GATEWAY_BACKEND"]).

Definition upsertEntity (r : request) : HM reply :=
  let entityType := query_get (url_rawquery (req_url r)) "entityType" in
  if negb (entityType =?s "GATEWAY_BACKEND") then
    mret (http_Error ("unknown entity type: " +:+ en_quote env entityType) 500)
  else match decode_proxy r with
       | None => mret bad_request
       | Some pb =>
           res ← in_store (so_Upsert (persistenceBackendFromProxy (en_now env) pb));
           match res with
           | Err _ => mret internal_error
           | Ok _ =>
               _ ← (if en_has_status_mut env
                    then set_backend_status (pb_ProxyTo pb) (if pb_Active pb then Pending else Unhealthy)
                    else mret tt);
               mret (writeJSON 200 (proxy_json pb))
           end
       end.

Definition listEntities (r : request) : HM reply :=
  if negb (en_url_param env r "entityType" =?s "GATEWAY_BACKEND") then mret (writeJSON 200 (JArr []))
  else res ← in_store so_List; mret (backends_reply res).

(** *** History (query.go) *)
Definition is_admin (p : option Principal) : bool := HasRole (en_match env) p RoleAdmin (Authorization (en_auth env)).

Definition details_reply (r : go_result (list QueryRecord)) : reply :=
  match r with
  | Err _ => internal_error
  | Ok l => writeJSON 200 (JArr ((detail_json ∘ queryDetailFromRecord) <$> l))
  end.
Definition records_of (r : go_result (list QueryRecord * Z)) : go_result (list QueryRecord) :=
  match r with Ok (l, _) => Ok l | Err e => Err e end.

Definition queryHistory (p : option Principal) (_ : request) : HM reply :=
  if is_admin p then res ← in_store (so_ListRecent 100); mret (details_reply res)
  else
    let userName := from_opt "" (pr_Name <$> p) in
    res ← in_store (so_FindByFilter (mkHistoryFilter userName "" "" "" 1 100));
    mret (details_reply (records_of res)).

(** [dist[url]++] over the records. *)
Definition count_urls (l : list QueryRecord) : gmap string Z :=
  foldl (λ m q, <[q_BackendURL q := from_opt 0 (m !! q_BackendURL q) + 1]> m) ∅ l.

Definition queryHistoryDistribution (p : option Principal) (_ : request) : HM reply :=
  let userName := if is_admin p then "" else from_opt "" (pr_Name <$> p) in
  res ← in_store (so_FindByFilter (mkHistoryFilter userName "" "" "" 1 10000));
  mret match records_of res with
       | Err _ => internal_error
       | Ok l => writeJSON 200 (map_json jint (count_urls l))
       end.

(** *** The web application (webapp.go) *)
Definition envelope_error (msg : string) : reply := writeJSON 200 (resultErr msg).

Fixpoint st_mapM {X A B} (f : A → ST X B) (l : list A) : ST X (list B) :=
  match l with [] => mret [] | a :: l => b ← f a; bs ← st_mapM f l; mret (b :: bs) end.

Definition webappGetAllBackends (_ : request) : HM reply :=
  res ← in_store so_List;
  match res with
  | Err _ => mret (envelope_error "failed to list backends")
  | Ok bs =>
      rs ← st_mapM backendResponseFromPersistence bs;
      mret (writeJSON 200 (resultOK (JArr (response_json <$> rs))))
  end.

(** The filter a request stands for: a principal that is not an administrator only
    sees queries under its own name. *)
Definition history_filter (p : option Principal) (req : FindQueryHistoryRequest) : HistoryFilter :=
  let userName := if is_admin p then fr_UserName req
                  else match p with Some pr => pr_Name pr | None => fr_UserName req end in
  mkHistoryFilter userName (fr_BackendURL req) (fr_QueryID req) (fr_Source req) (fr_Page req) (fr_PageSize req).

Definition webappFindQueryHistory (p : option Principal) (r : request) : HM reply :=
  match decodeJSON set_find_field (mkFindRequest "" "" "" "" 0 0) r with
  | None => mret (envelope_error "bad request")
  | Some req =>
      res ← in_store (so_FindByFilter (history_filter p req));
      mret match res with
           | Err _ => envelope_error "failed to query history"
           | Ok (l, total) =>
               writeJSON 200 (resultOK (JObj [("total", jint total);
                 ("rows", JArr ((detail_json ∘ queryDetailFromRecord) <$> l))]))
           end
  end.

(** The loop over the backends: counters, the map of counts and the map of names. *)
Record tally : Type := mkTally {
  ty_total : Z; ty_online : Z; ty_offline : Z; ty_healthy : Z; ty_unhealthy : Z;
  ty_dist : gmap string Z; ty_names : gmap string string; ty_chart : list ChartPoint }.
Definition tally_backend (t : tally) (b : Persistence.Backend) (st : Status) : tally :=
  mkTally (ty_total t + 1)
    (if b_Active b then ty_online t + 1 else ty_online t) (if b_Active b then ty_offline t else ty_offline t + 1)
    (match st with Healthy => ty_healthy t + 1 | _ => ty_healthy t end)
    (match st with Healthy => ty_unhealthy t | _ => ty_unhealthy t + 1 end)
    (<[b_URL b := 0]> (ty_dist t)) (<[b_URL b := b_Name b]> (ty_names t))
    (ty_chart t ++ [mkChartPoint (b_URL b) (b_Name b) 0]).
Fixpoint tally_backends (t : tally) (bs : list Persistence.Backend) : HM tally :=
  match bs with
  | [] => mret t
  | b :: bs => st ← monitor_status (b_URL b); tally_backends (tally_backend t b st) bs
  end.

(** Counting the records of known backends. *)
Definition count_known (dist : gmap string Z) (l : list QueryRecord) : gmap string Z :=
  foldl (λ m q, match m !! q_BackendURL q with Some n => <[q_BackendURL q := n + 1]> m | None => m end) dist l.
Definition fill_chart (dist : gmap string Z) (chart : list ChartPoint) : list ChartPoint :=
  (λ c, mkChartPoint (cp_BackendURL c) (cp_Name c) (from_opt 0 (dist !! cp_BackendURL c))) <$> chart.

Definition hour_ns : Z := 3600 * 1000000000.
Definition buildLineChart (latestHour : Z) (urlToName : gmap string string) : HM (gmap string (list TimePoint)) :=
  let since := en_now env + wrap64 (- latestHour * hour_ns) in
  res ← in_store (so_FindDistribution since);
  mret match res with
       | Err _ => ∅
       | Ok buckets =>
           foldl (λ m b, match urlToName !! d_BackendURL b with
                         | Some name =>
                             <[name := from_opt [] (m !! name)
                                         ++ [mkTimePoint (unix_milli (MinuteStart b)) (d_BackendURL b) name (QueryCount b)]]> m
                         | None => m
                         end) ∅ buckets
       end.

Definition averages (total uptime : Z) : f64 * f64 :=
  let secs := duration_seconds uptime in
  if f64_ltb (f64_of_Z 0) secs then
    let per_sec := f64_div (f64_of_Z total) secs in (f64_mul per_sec (f64_of_Z 60), per_sec)
  else (f64_of_Z 0, f64_of_Z 0).

Definition distribution (latestHour : Z) : HM (go_result DistributionResponse) :=
  bs ← in_store so_List;
  match bs with
  | Err e => mret (Err e)
  | Ok bs =>
      t ← tally_backends (mkTally 0 0 0 0 0 ∅ ∅ []) bs;
      res ← in_store (so_FindByFilter (mkHistoryFilter "" "" "" "" 1 10000));
      let '(dist, chart) := match records_of res with
                            | Ok l => let d := count_known (ty_dist t) l in (d, fill_chart d (ty_chart t))
                            | Err _ => (ty_dist t, ty_chart t)
                            end in
      let total := map_fold (λ _ n acc, n + acc) 0 dist in
      let '(per_min, per_sec) := averages total (en_now env - en_start env) in
      line ← buildLineChart latestHour (ty_names t);
      mret (Ok (mkDistribution (ty_total t) (ty_online t) (ty_offline t) (ty_healthy t) (ty_unhealthy t) total
                  per_min per_sec (format_iso_ms (en_start env)) chart line))
  end.

Definition chart_json (c : ChartPoint) : json :=
  JObj [("backendUrl", JStr (cp_BackendURL c)); ("name", JStr (cp_Name c)); ("queryCount", jint (cp_QueryCount c))].
Definition time_json (t : TimePoint) : json :=
  JObj [("epochMillis", jint (tp_EpochMillis t)); ("backendUrl", JStr (tp_BackendURL t)); ("name", JStr (tp_Name t));
        ("queryCount", jint (tp_QueryCount t))].
Definition distribution_json (d : DistributionResponse) : json :=
  JObj [("totalBackendCount", jint (dr_Total d)); ("onlineBackendCount", jint (dr_Online d));
        ("offlineBackendCount", jint (dr_Offline d)); ("healthyBackendCount", jint (dr_Healthy d));
        ("unhealthyBackendCount", jint (dr_Unhealthy d)); ("totalQueryCount", jint (dr_TotalQueryCount d));
        ("averageQueryCountMinute", JNum (en_float env (dr_AvgMinute d)));
        ("averageQueryCountSecond", JNum (en_float env (dr_AvgSecond d)));
        ("startTime", JStr (dr_StartTime d)); ("distributionChart", JArr (chart_json <$> dr_Chart d));
        ("lineChart", map_json (λ l, JArr (time_json <$> l)) (dr_LineChart d))].

Definition webappGetDistribution (r : request) : HM reply :=
  let req := (decode_body set_distribution_field 0 r).1 in
  let latestHour := if req <=? 0 then 1 else req in
  res ← distribution latestHour;
  mret match res with
       | Err _ => envelope_error "failed to list backends"
       | Ok d => writeJSON 200 (resultOK (distribution_json d))
       end.

Definition webappGetUIConfig : reply :=
  writeJSON 200 (resultOK (JObj [("authType", JStr (au_Type (en_auth env)));
                                 ("disablePages", JArr (JStr <$> en_disable_pages env))])).
Definition webappGetRoutingRules : reply := status_only 204.
Definition webappUpdateRoutingRules : reply := writeJSON 200 (resultOK (JArr [])).

Definition webappSaveBackend : request → HM reply :=
  save_backend (envelope_error "bad request") (envelope_error "failed to save backend") resultOK.
Definition webappUpdateBackend : request → HM reply :=
  save_backend (envelope_error "bad request") (envelope_error "failed to update backend") resultOK.
Definition webappDeleteBackend (r : request) : HM reply :=
  match decode_proxy r with
  | None => mret (envelope_error "bad request")
  | Some pb =>
      res ← in_store (so_Delete (pb_Name pb));
      mret match res with Err _ => envelope_error "failed to delete backend" | Ok _ => writeJSON 200 (resultOK (JBool true)) end
  end.

(** *** Probes (health.go) *)
Definition text_plain (code : Z) (body : string) : reply :=
  mkReply code (hdr_set "Content-Type" "text/plain" ∅) [] (BText body).
Definition handleLivez : reply := text_plain 200 "ok".
Definition handleReadyz : HM reply := λ s,
  ((if ad_ready s then text_plain 200 "ok" else text_plain 503 "not ready"), s).
Definition SetReady (s : admin_state S) : admin_state S := mkAdmin (ad_store s) (ad_monitor s) (ad_stats s) true.
End api.

(** ** A concrete environment, for the witnesses *)
Module ApiDemo.
Definition auth : AuthConfig :=
  mkAuthConfig "NOOP" AdminAuth.Demo.cfg (mkLDAPConfig "" "" "" "" "")
    (mkAuthorizationConfig "admins" "users" "apis" ∅).
(** The URL parameter of a request is its path. *)
Definition env : api_env :=
  mkApiEnv auth (λ p s, Some (p =?s s)) (λ r _, url_path (req_url r)) id (λ _, "0") true true false [] 0 500000000000.
Definition post (path body : string) : request :=
  Request "POST" (Url "" "" "" "" path "" "" false "") "gw" "10.0.0.1:5000" true ∅ ∅ [] (Ok body).
Definition state : admin_state database := mkAdmin StoreDemo.db New ∅ true.
Definition pb : ProxyBackend := mkProxyBackend "b1" "http://new:8080" "" true "etl".
Definition ann : Principal := mkPrincipal "ann" "users".
End ApiDemo.
