(* ===== verification/StaticUI.v ===== *)
(** * The embedded web interface (serveIndex, serveLogoSVG, serveAssets and readUIFile of
      internal/admin/router.go)

    [path.Clean] and [path.Join] on slash-separated paths, and the three static
    handlers over a file system. [http.ServeContent] (ranges, conditional requests) is a
    parameter. *)
From S2P Require Import Prelude GoStrings Json HttpModel Auth AdminAuth.

#[local] Open Scope Z_scope.

(** ** [path.Clean] *)

(** One path element on the elements kept so far, the last first. *)
Definition clean_step (rooted : bool) (stack : list string) (seg : string) : list string :=
  if (seg =?s "") || (seg =?s ".") then stack
  else if seg =?s ".." then
    match stack with
    | [] => if rooted then [] else [".."]
    | top :: rest => if top =?s ".." then ".." :: stack else rest
    end
  else seg :: stack.
Definition clean_segments (rooted : bool) (p : string) : list string :=
  rev (foldl (clean_step rooted) [] (split_on "/" p)).

Definition Clean (p : string) : string :=
  let rooted := has_prefix "/" p in
  let body := join "/" (clean_segments rooted p) in
  if rooted then "/" +:+ body else if body =?s "" then "." else body.

(** [path.Join] of two elements. *)
Definition Join2 (a b : string) : string :=
  if (a =?s "") && (b =?s "") then ""
  else if a =?s "" then Clean b else if b =?s "" then Clean a else Clean (a +:+ "/" +:+ b).

(** ** The file system *)
Record ui_file : Type := mkUiFile { uf_name : string; uf_is_dir : bool; uf_stat_ok : bool; uf_seekable : bool; uf_content : string }.

Section static.
(** [UIFS]: [None] when no bundle is present; [Open] finds files by name. *)
Context (UIFS : option (string → option ui_file)) (ServeContent : request → string → string → reply).

Definition readUIFile (name : string) : option string :=
  match UIFS with
  | None => None
  | Some open =>
      match open name with
      | Some f => if uf_is_dir f then None else Some (uf_content f)
      | None => None
      end
  end.

Definition placeholderIndex : string := "<!DOCTYPE html><html><body>Trino Gateway</body></html>".
Definition placeholderLogo : string :=
  "<svg xmlns=" +:+ String dquote "http://www.w3.org/2000/svg" +:+ String dquote "/>".

Definition serveIndex : reply :=
  mkReply 200 (hdr_set "Cache-Control" "no-cache" (hdr_set "Content-Type" "text/html; charset=utf-8" ∅)) []
    (BText (from_opt placeholderIndex (readUIFile "index.html"))).
Definition serveLogoSVG : reply :=
  mkReply 200 (hdr_set "Content-Type" "image/svg+xml" ∅) [] (BText (from_opt placeholderLogo (readUIFile "logo.svg"))).

Definition not_found : reply := http_Error "404 page not found" 404.

(** The name opened for the part of the URL behind [/trino-gateway/assets/]. *)
Definition asset_name (rest : string) : string := trim_prefix "/" (Join2 "assets" (Clean ("/" +:+ rest))).

Definition serveAssets (rest : string) (r : request) : reply :=
  match UIFS with
  | None => not_found
  | Some open =>
      match open (asset_name rest) with
      | None => not_found
      | Some f =>
          if negb (uf_stat_ok f) || uf_is_dir f then not_found
          else if negb (uf_seekable f) then http_Error "internal server error" 500
          else
            let c := ServeContent r (uf_name f) (uf_content f) in
            mkReply (rp_status c) (hdr_set "Cache-Control" "public, max-age=31536000, immutable" (rp_header c))
              (rp_cookies c) (rp_body c)
      end
  end.
End static.

(** ** Lemmas *)
Definition plain_segment (s : string) : Prop := s ≠ "" ∧ s ≠ "." ∧ s ≠ ".." ∧ mem_byte "/" s = false.

Lemma clean_step_rooted stack seg :
  Forall plain_segment stack → mem_byte "/" seg = false → Forall plain_segment (clean_step true stack seg).
Proof.
  intros Hs Hseg. unfold clean_step. destruct ((seg =?s "") || (seg =?s ".")) eqn:E1; [done|]. seqb_simpl.
  destruct (seg =?s "..") eqn:E2; seqb_simpl; [|by constructor].
  destruct Hs as [|top rest (? & ? & Hd & ?) Hrest]; [constructor|].
  destruct (top =?s "..") eqn:E3; seqb_simpl; [by subst|done].
Qed.

Lemma clean_fold_rooted segs stack :
  Forall plain_segment stack → Forall (λ s, mem_byte "/" s = false) segs →
  Forall plain_segment (foldl (clean_step true) stack segs).
Proof.
  intros Hs Hsegs. revert stack Hs. induction Hsegs as [|seg segs Hseg _ IH]; intros stack Hs; [done|].
  cbn. by apply IH, clean_step_rooted.
Qed.

Lemma split_on_lacks sep s : Forall (λ x, mem_byte sep x = false) (split_on sep s).
Proof.
  induction s as [|c s IH]; cbn; [by repeat constructor|]. destruct (Ascii.eqb c sep) eqn:E; [by constructor|].
  destruct (split_on sep s) as [|x xs]; [repeat constructor; cbn; by rewrite Ascii.eqb_sym, E|].
  inversion_clear IH. constructor; [|done]. cbn. by rewrite Ascii.eqb_sym, E.
Qed.

Lemma clean_rooted_plain p : Forall plain_segment (clean_segments true p).
Proof. unfold clean_segments. apply Forall_rev. apply clean_fold_rooted; [constructor|apply split_on_lacks]. Qed.

(** Plain segments are kept. *)
Lemma clean_fold_plain rooted segs stack :
  Forall plain_segment segs → foldl (clean_step rooted) stack segs = rev segs ++ stack.
Proof.
  intros Hs. revert stack. induction Hs as [|seg segs (H1 & H2 & H3 & _) _ IH]; intros stack; [done|]. cbn.
  rewrite IH. unfold clean_step. apply seqb_neq in H1 as ->, H2 as ->, H3 as ->. cbn. by rewrite <- app_assoc.
Qed.

Lemma has_prefix_slash s : has_prefix "/" ("/" +:+ s) = true.
Proof. done. Qed.

Lemma join_cons x y (l : list string) : join "/" (x :: y :: l) = x +:+ "/" +:+ join "/" (y :: l).
Proof. done. Qed.

(** The name is [assets] and then plain segments. *)
Lemma asset_name_segments rest :
  asset_name rest = join "/" ("assets" :: clean_segments true ("/" +:+ rest)).
Proof.
  unfold asset_name, Clean at 1. rewrite has_prefix_slash. set (segs := clean_segments true ("/" +:+ rest)).
  pose proof (clean_rooted_plain ("/" +:+ rest)) as Hp. fold segs in Hp.
  unfold Join2. change ("assets" =?s "") with false. change ("/" +:+ join "/" segs =?s "") with false. cbn [andb].
  unfold Clean. change (has_prefix "/" ("assets" +:+ _)) with false.
  assert (Hseg : clean_segments false ("assets" +:+ "/" +:+ "/" +:+ join "/" segs) = "assets" :: segs).
  { unfold clean_segments. change ("/" +:+ "/" +:+ join "/" segs) with (String "/" (String "/" (join "/" segs))).
    rewrite split_on_app by done. cbn [split_on]. rewrite Ascii.eqb_refl.
    assert (Hf : foldl (clean_step false) ["assets"] (split_on "/" (join "/" segs)) = rev segs ++ ["assets"]).
    { destruct segs as [|s0 l]; [done|]. rewrite split_on_join; [by apply clean_fold_plain|done|].
      eapply Forall_impl; [apply Hp|]. by intros ? (_ & _ & _ & ?). }
    cbn [foldl]. change (clean_step false (clean_step false [] "assets") "") with ["assets"].
    rewrite Hf, rev_app_distr, rev_involutive. done. }
  rewrite Hseg. replace (join "/" ("assets" :: segs) =?s "") with false.
  2: { symmetry. apply seqb_neq. by destruct segs. }
  unfold trim_prefix. by destruct segs.
Qed.

(** ** Properties *)

(** Whatever the URL behind [/trino-gateway/assets/] (dots, doubled slashes), the
    name opened is [assets] followed by elements none of which is empty, a dot or two
    dots: it never leaves the [assets] directory of the bundle. *)
Theorem assets_confined rest :
  ∃ segs, asset_name rest = join "/" ("assets" :: segs) ∧ Forall plain_segment segs.
Proof. exists (clean_segments true ("/" +:+ rest)). split; [apply asset_name_segments|apply clean_rooted_plain]. Qed.

Example asset_name_dots : asset_name "../../etc//./passwd" = "assets/etc/passwd".
Proof. reflexivity. Qed.
