(* ===== verification/AdminServe.v ===== *)
(** * The admin server as a whole (the handlers behind buildRouter of
      internal/admin/router.go)

    Every route's handler, over one state: the store, the monitor, the statistics, the
    readiness flag, and the outside world of the login. What the handlers do to the
    store is proved against [StoreSpec]; with the access rules of [AdminAuth] this gives
    who can change backends at all. *)
From S2P Require Import Prelude GoStrings GoNumeric Json HttpModel Config Routing ClusterStats Monitor Auth AdminAuth Sql Persistence Store AdminApi StaticUI.

#[local] Open Scope Z_scope.

Section handle.
Context {S W K : Type} `{StoreOps S} (env : api_env).
(** The interactive login: verification, the HTTP client, the configuration, the flow,
    and the random draws of a request. *)
Context (ParseWithClaims : K → string → option (gmap string json)) (new_request_ok : string → string → bool)
  (Do : out_request → ST W (call_result response)) (wl : option (OIDCWebLogin (K := K)))
  (draws : request → option string * option string).
Context (UIFS : option (string → option ui_file)) (ServeContent : request → string → string → reply)
  (metrics_handler : request → reply).

#[local] Abbreviation state := (admin_state S * W)%type.

Definition answer (r : reply) : ST state (reply * list auth_event) := mret (r, []).
Definition on_api (m : ST (admin_state S) reply) : ST state (reply * list auth_event) :=
  λ '(s, w), let '(r, s') := m s in ((r, []), (s', w)).
Definition on_world (m : ST W reply) : ST state (reply * list auth_event) :=
  λ '(s, w), let '(r, w') := m w in ((r, []), (s, w')).

Definition handle (h : admin_handler) : handler state := λ p r,
  let authType := au_Type (en_auth env) in
  match h with
  | h_rootRedirect => answer redirect_to_ui
  | h_handleLivez => answer handleLivez
  | h_handleReadyz => on_api handleReadyz
  | h_metricsHandler => answer (metrics_handler r)
  | h_serveIndex => answer (serveIndex UIFS)
  | h_serveLogoSVG => answer (serveLogoSVG UIFS)
  | h_serveAssets => answer (serveAssets UIFS ServeContent (en_url_param env r "*") r)
  | h_listPublicBackends => on_api (listPublicBackends r)
  | h_getPublicBackend => on_api (getPublicBackend env r)
  | h_getPublicBackendState => on_api (getPublicBackendState env r)
  | h_handleSSO => answer (handleSSO (OIDC (en_auth env)) authType wl (draws r).1 (draws r).2 r)
  | h_handleOIDCCallback =>
      on_world (handleOIDCCallback ParseWithClaims new_request_ok Do (OIDC (en_auth env)) authType wl r)
  | h_handleLogin => answer (handleLogin authType r)
  | h_handleLogout => answer handleLogout
  | h_handleLoginType => answer (handleLoginType authType)
  | h_handleGatewayPing => answer handleGatewayPing
  | h_listAllBackends => on_api (listAllBackends r)
  | h_listActiveBackends => on_api (listActiveBackends r)
  | h_activateBackend => on_api (activateBackend env r)
  | h_deactivateBackend => on_api (deactivateBackend env r)
  | h_addBackend => on_api (addBackend env r)
  | h_updateBackend => on_api (updateBackend env r)
  | h_deleteBackend => on_api (deleteBackend r)
  | h_listEntityTypes => answer listEntityTypes
  | h_upsertEntity => on_api (upsertEntity env r)
  | h_listEntities => on_api (listEntities env r)
  | h_handleUserinfo => answer (handleUserinfo (en_match env) (Authorization (en_auth env)) p)
  | h_queryHistory => on_api (queryHistory env p r)
  | h_legacyActiveBackends => on_api (legacyActiveBackends r)
  | h_queryHistoryDistribution => on_api (queryHistoryDistribution env p r)
  | h_webappGetAllBackends => on_api (webappGetAllBackends env r)
  | h_webappFindQueryHistory => on_api (webappFindQueryHistory env p r)
  | h_webappGetDistribution => on_api (webappGetDistribution env r)
  | h_webappGetUIConfig => answer (webappGetUIConfig env)
  | h_webappGetRoutingRules => answer webappGetRoutingRules
  | h_webappUpdateRoutingRules => answer webappUpdateRoutingRules
  | h_webappSaveBackend => on_api (webappSaveBackend env r)
  | h_webappUpdateBackend => on_api (webappUpdateBackend env r)
  | h_webappDeleteBackend => on_api (webappDeleteBackend r)
  end.
End handle.

(** ** What handlers do to the store *)
Section effects.
Context {S : Type} `{StoreOps S} (rep : S → store → Prop) (up dates : Prop) (round : Z → Z) `{!StoreSpec S rep up dates round}.

(** A computation that leaves the abstract store. *)
Definition keeps {A} (m : ST (admin_state S) A) : Prop :=
  ∀ s st, rep (ad_store s) st → rep (ad_store (m s).2) st.
(** One that leaves it or applies [f]. *)
Definition may_apply {A} (m : ST (admin_state S) A) (f : store → store) : Prop :=
  ∀ s st, rep (ad_store s) st → rep (ad_store (m s).2) st ∨ rep (ad_store (m s).2) (f st).

Lemma keep_ret {A} (a : A) : keeps (mret a).
Proof. by intros s st. Qed.
Lemma keep_bind {A B} (m : ST (admin_state S) A) (f : A → ST (admin_state S) B) :
  keeps m → (∀ a, keeps (f a)) → keeps (m ≫= f).
Proof.
  intros Hm Hf s st Hr. unfold mbind, ST_bind. specialize (Hm s st Hr). destruct (m s) as [a s']. by apply Hf.
Qed.
Lemma keeps_reads {A} (u : Prop) (m : ST S (go_result A)) P : reads rep u m P → keeps (in_store m).
Proof.
  intros Hm s st Hr. unfold in_store. specialize (Hm _ _ Hr). destruct (m (ad_store s)) as [[a|e] s']; cbn; naive_solver.
Qed.
Lemma keeps_pure {A} (m : ST (admin_state S) A) : (∀ s, ad_store (m s).2 = ad_store s) → keeps m.
Proof. intros Hm s st. by rewrite Hm. Qed.
Lemma may_apply_keeps {A} (m : ST (admin_state S) A) f : keeps m → may_apply m f.
Proof. intros Hm s st Hr. left. by apply Hm. Qed.
Lemma may_apply_bind {A B} (m : ST (admin_state S) A) (g : A → ST (admin_state S) B) f :
  may_apply m f → (∀ a, keeps (g a)) → may_apply (m ≫= g) f.
Proof.
  intros Hm Hg s st Hr. unfold mbind, ST_bind. specialize (Hm s st Hr). destruct (m s) as [a s']. cbn in Hm.
  destruct Hm as [Hm | Hm]; [left|right]; by apply Hg.
Qed.
Lemma may_apply_writes (m : ST S (go_result unit)) f : writes rep up m f → may_apply (in_store m) f.
Proof.
  intros Hm s st Hr. unfold in_store. specialize (Hm _ _ Hr). destruct (m (ad_store s)) as [[a|e] s']; cbn; naive_solver.
Qed.

Lemma keeps_list : keeps (in_store so_List).
Proof. eapply keeps_reads, spec_List. Qed.
Lemma keeps_list_active : keeps (in_store so_ListActive).
Proof. eapply keeps_reads, spec_ListActive. Qed.
Lemma keeps_recent n : keeps (in_store (so_ListRecent n)).
Proof. eapply keeps_reads, spec_ListRecent. Qed.
Lemma keeps_filter f : keeps (in_store (so_FindByFilter f)).
Proof.
  destruct (decide (0 ≤ page_offset f)) as [Hp|Hp]; [eapply keeps_reads, spec_FindByFilter, Hp|].
  intros s st Hr. unfold in_store. pose proof (spec_FindByFilter_neg (rep := rep) f (ad_store s) st ltac:(lia) Hr) as Hn.
  destruct (so_FindByFilter f (ad_store s)) as [[a|e] s']; [done|exact Hn].
Qed.
Lemma keeps_distribution since : keeps (in_store (so_FindDistribution since)).
Proof. eapply keeps_reads, spec_FindDistribution. Qed.
Lemma keeps_status url : keeps (monitor_status (S := S) url).
Proof. by apply keeps_pure. Qed.
Lemma keeps_stats name : keeps (stats_of (S := S) name).
Proof. by apply keeps_pure. Qed.
Lemma keeps_set_status env url st : keeps (set_backend_status (S := S) env url st).
Proof. by apply keeps_pure. Qed.
End effects.

Create HintDb store_effects.
#[export] Hint Resolve keep_ret keeps_list keeps_list_active keeps_recent keeps_filter keeps_distribution keeps_status
  keeps_stats keeps_set_status : store_effects.

(** Walks through a handler. *)
Ltac keeps_tac :=
  repeat first
    [ progress intros
    | solve [eauto with store_effects]
    | apply keep_bind
    | match goal with
      | |- keeps _ (if ?b then _ else _) => destruct b
      | |- keeps _ (match ?x with _ => _ end) => destruct x
      | |- keeps _ (let '(_, _) := ?x in _) => destruct x
      end ].

(** The changes a request [r] to the API can make to the backends. A backend that is
    stored is the one the request's body describes. *)
Inductive backend_change (env : api_env) (round : Z → Z) (r : request) : store → store → Prop :=
| change_upsert pb st : decode_proxy r = Some pb →
    backend_change env round r st (st_upsert (kept_backend round (persistenceBackendFromProxy (en_now env) pb)) st)
| change_delete n st : backend_change env round r st (st_delete n st)
| change_active n a st : backend_change env round r st (st_set_active (round (en_now env)) n a st).

Section whole.
Context {S W K : Type} `{StoreOps S} (rep : S → store → Prop) (up dates : Prop) (round : Z → Z) `{!StoreSpec S rep up dates round}.
Context (env : api_env) (P : K → string → option (gmap string json)) (nr : string → string → bool)
  (Do : out_request → ST W (call_result response)) (wl : option (OIDCWebLogin (K := K)))
  (draws : request → option string * option string) (UIFS : option (string → option ui_file))
  (SC : request → string → string → reply) (mh : request → reply).
#[local] Abbreviation run := (handle env P nr Do wl draws UIFS SC mh).

(** What one call does to the store. *)
Definition effect (r : request) (m : ST (admin_state S * W) (reply * list auth_event)) : Prop :=
  ∀ s w st, rep (ad_store s) st →
    rep (ad_store (m (s, w)).2.1) st ∨ ∃ st', backend_change env round r st st' ∧ rep (ad_store (m (s, w)).2.1) st'.
Definition silent (m : ST (admin_state S * W) (reply * list auth_event)) : Prop :=
  ∀ s w st, rep (ad_store s) st → rep (ad_store (m (s, w)).2.1) st.

Lemma silent_answer r : silent (answer r).
Proof. by intros s w st. Qed.
Lemma silent_world m : silent (on_world m).
Proof. intros s w st Hr. cbn. by destruct (m w). Qed.
Lemma silent_api m : keeps rep m → silent (on_api m).
Proof. intros Hm s w st Hr. cbn. specialize (Hm s st Hr). by destruct (m s). Qed.
Lemma effect_api r m f : may_apply rep m f → (∀ st, backend_change env round r st (f st)) → effect r (on_api m).
Proof.
  intros Hm Hf s w st Hr. cbn. specialize (Hm s st Hr). destruct (m s) as [a s']. cbn in *.
  destruct Hm; [by left|right; eauto].
Qed.

Lemma keeps_mapM {A B} (f : A → ST (admin_state S) B) l : (∀ a, keeps rep (f a)) → keeps rep (st_mapM f l).
Proof. intros Hf. induction l as [|a l IH]; cbn; keeps_tac. Qed.
Lemma keeps_tally bs t : keeps rep (tally_backends t bs).
Proof. revert t. induction bs as [|b bs IH]; intros t; cbn; keeps_tac. Qed.
Lemma keeps_response b : keeps rep (backendResponseFromPersistence env b).
Proof. unfold backendResponseFromPersistence. keeps_tac. Qed.
Lemma keeps_stats_response b cs : keeps rep (clusterStatsResponseFromPersistence b cs).
Proof. unfold clusterStatsResponseFromPersistence. keeps_tac. Qed.
Lemma keeps_line h m : keeps rep (buildLineChart env h m).
Proof. unfold buildLineChart. keeps_tac. Qed.
#[local] Hint Resolve keeps_tally keeps_response keeps_stats_response keeps_line : store_effects.

Lemma keeps_dashboard h : keeps rep (AdminApi.distribution env h).
Proof. unfold AdminApi.distribution. keeps_tac. Qed.
#[local] Hint Resolve keeps_dashboard : store_effects.

Lemma reads_silent h p r : changes_backends h = false → silent (run h p r).
Proof.
  intros Hc. destruct h; try done; try apply silent_answer; try apply silent_world; apply silent_api.
  all: unfold listPublicBackends, getPublicBackend, getPublicBackendState, listAllBackends, listActiveBackends, listEntities,
    queryHistory, legacyActiveBackends, queryHistoryDistribution, webappGetAllBackends, webappFindQueryHistory,
    webappGetDistribution; try by apply keeps_pure.
  all: keeps_tac. by apply keeps_mapM; keeps_tac.
Qed.

Lemma effect_silent r m : silent m → effect r m.
Proof. intros Hm s w st Hr. left. by apply Hm. Qed.

Lemma save_effect bad failed ok r : effect r (on_api (save_backend env bad failed ok r)).
Proof.
  unfold save_backend. destruct (decode_proxy r) as [pb|] eqn:Ed; [|apply effect_silent, silent_api, keep_ret].
  eapply effect_api; [apply may_apply_bind; [eapply may_apply_writes, spec_Upsert|keeps_tac]|by constructor].
Qed.

Lemma set_active_effect a r : ∃ n, may_apply rep (AdminApi.set_active env a r) (st_set_active (round (en_now env)) n a).
Proof.
  eexists. unfold AdminApi.set_active. apply may_apply_bind; [eapply may_apply_writes, spec_SetActive|keeps_tac].
Qed.
Lemma delete_effect (name : string) (f : go_result unit → reply) :
  may_apply rep (res ← in_store (so_Delete name); mret (f res)) (st_delete name).
Proof. apply may_apply_bind; [eapply may_apply_writes, spec_Delete|keeps_tac]. Qed.

Lemma writes_effect h p r : changes_backends h = true → effect r (run h p r).
Proof.
  intros Hc. destruct h; try done; cbn [handle].
  - destruct (set_active_effect true r) as (? & ?). eapply effect_api; [done|constructor].
  - destruct (set_active_effect false r) as (? & ?). eapply effect_api; [done|constructor].
  - apply save_effect.
  - apply save_effect.
  - unfold deleteBackend. destruct (req_body r) as [b|e]; [|apply effect_silent, silent_api, keep_ret].
    set (name := trim_space _). destruct (name =?s ""); [apply effect_silent, silent_api, keep_ret|].
    eapply effect_api; [apply delete_effect|constructor].
  - unfold upsertEntity. destruct (negb _); [apply effect_silent, silent_api, keep_ret|].
    destruct (decode_proxy r) as [pb|] eqn:Ed; [|apply effect_silent, silent_api, keep_ret].
    eapply effect_api; [apply may_apply_bind; [eapply may_apply_writes, spec_Upsert|keeps_tac]|by constructor].
  - apply effect_silent, silent_answer.
  - apply save_effect.
  - apply save_effect.
  - unfold webappDeleteBackend. destruct (decode_proxy r) as [pb|]; [|apply effect_silent, silent_api, keep_ret].
    eapply effect_api; [apply delete_effect|constructor].
Qed.

Lemma serve_effect (mw : Middleware (admin_state S * W)) who `{!Authenticates mw who} metrics reg r s w st :
  reg ∈ buildRouter metrics → rep (ad_store s) st →
  let s' := (serve (en_match env) (Authorization (en_auth env)) (Some mw) run reg None r (s, w)).2.1 in
  rep (ad_store s') st
  ∨ ∃ pr role st', who r = Some pr ∧ reg_access reg = WithRole role ∧ role ∈ [RoleAPI; RoleAdmin]
      ∧ HasRole (en_match env) (Some pr) role (Authorization (en_auth env)) = true
      ∧ backend_change env round r st st' ∧ st_history st' = st_history st ∧ rep (ad_store s') st'.
Proof.
  intros Hin Hr. cbn zeta. destruct (changes_backends (reg_handler reg)) eqn:Ec.
  - destruct (writes_have_role _ _ Hin Ec) as (role & Ha & Hrole). unfold serve. rewrite Ha. cbn [from_opt].
    pose proof (role_gate mw who (en_match env) role (Authorization (en_auth env)) (run (reg_handler reg)) None r (s, w)) as Hg.
    destruct (who r) as [pr|] eqn:Ew; [destruct Hg as [ty ->]|destruct Hg as (ty & msg & ->); by left].
    destruct (HasRole _ _ _ _) eqn:Eh; [|by left].
    pose proof (writes_effect (reg_handler reg) (Some pr) r Ec s w st Hr) as He.
    unfold count, mbind, ST_bind. destruct (run (reg_handler reg) (Some pr) r (s, w)) as [[rep0 es] s']. cbn in *.
    destruct He as [He | (st' & Hch & He)]; [by left|]. right. exists pr, role, st'. split_and!; try done. by destruct Hch.
  - left. pose proof (reads_silent (reg_handler reg)) as Hs.
    assert (Hmw : ∀ next : handler (admin_state S * W), (∀ p, silent (next p r)) →
      rep (ad_store (mw next None r (s, w)).2.1) st).
    { intros next Hnext. destruct (who r) as [pr|] eqn:Ew.
      - destruct (auth_runs (mw := mw) next None r pr (s, w) Ew) as [ty ->]. specialize (Hnext (Some pr) s w st Hr).
        unfold count, mbind, ST_bind. by destruct (next (Some pr) r (s, w)) as [[rep0 es] s'].
      - by destruct (auth_denies (mw := mw) next None r (s, w) Ew) as (ty & msg & ->). }
    unfold serve. destruct (reg_access reg) as [| |role]; cbn [from_opt].
    + by apply Hs.
    + apply Hmw. intros p. by apply Hs.
    + apply Hmw. intros p. unfold RequireRole. destruct (HasRole _ _ _ _); [by apply Hs|apply silent_answer].
Qed.

(** C7: Whatever the route, the method of authentication and the request, the abstract
    store is unchanged, or the request carries a principal with the API role (on a
    gateway route) or the ADMIN role (elsewhere) and exactly one backend operation was
    applied; a backend it stores is the one its body describes. The query history is
    never changed by the admin API. *)
Theorem backends_changed_only_with_role (mw : Middleware (admin_state S * W)) who `{!Authenticates mw who} metrics reg r s w st :
  reg ∈ buildRouter metrics → rep (ad_store s) st →
  let s' := (serve (en_match env) (Authorization (en_auth env)) (Some mw) run reg None r (s, w)).2.1 in
  rep (ad_store s') st
  ∨ ∃ pr role st', who r = Some pr ∧ reg_access reg = WithRole role ∧ role ∈ [RoleAPI; RoleAdmin]
      ∧ HasRole (en_match env) (Some pr) role (Authorization (en_auth env)) = true
      ∧ backend_change env round r st st' ∧ st_history st' = st_history st ∧ rep (ad_store s') st'.
Proof. by eapply serve_effect. Qed.
End whole.

Lemma backends_changed_only_with_role_witness :
  let e := StoreDemo.eng "postgres" in
  let reg := mkReg "POST" "/gateway/backend/modify/delete" (WithRole RoleAPI) h_deleteBackend in
  let run := handle (H := dao_ops e) ApiDemo.env AdminAuth.Demo.verify (λ _ _, true) AdminAuth.Demo.Do None (λ _, (None, None)) None
               (λ _ _ _, NotFound) (λ _, NotFound) in
  let s' := (serve (en_match ApiDemo.env) (Authorization (en_auth ApiDemo.env)) (Some Noop) run reg None
               (ApiDemo.post "" "b1") (ApiDemo.state, tt)).2.1 in
  dao_rep (ad_store s') StoreDemo.st
  ∨ ∃ pr role st', Some (mkPrincipal "anonymous" "") = Some pr ∧ WithRole RoleAPI = WithRole role ∧ role ∈ [RoleAPI; RoleAdmin]
      ∧ HasRole (en_match ApiDemo.env) (Some pr) role (Authorization (en_auth ApiDemo.env)) = true
      ∧ backend_change ApiDemo.env id (ApiDemo.post "" "b1") StoreDemo.st st' ∧ st_history st' = st_history StoreDemo.st ∧ dao_rep (ad_store s') st'.
Proof.
  cbn zeta.
  apply (backends_changed_only_with_role (H := dao_ops (StoreDemo.eng "postgres")) dao_rep (dao_up (StoreDemo.eng "postgres")) (dao_dates (StoreDemo.eng "postgres")) id
    (StoreSpec0 := dao_spec (StoreDemo.eng "postgres") (or_introl eq_refl)) ApiDemo.env AdminAuth.Demo.verify (λ _ _, true)
    AdminAuth.Demo.Do None (λ _, (None, None)) None (λ _ _ _, NotFound) (λ _, NotFound) Noop
    (λ _, Some (mkPrincipal "anonymous" "")) None
    (mkReg "POST" "/gateway/backend/modify/delete" (WithRole RoleAPI) h_deleteBackend) (ApiDemo.post "" "b1") ApiDemo.state tt
    StoreDemo.st).
  - do 21 right. left.
  - apply StoreDemo.db_rep.
Defined.
