(* ===== verification/AdminProps.v ===== *)
(** * What the admin API shows and stores

    Properties of the handlers of [AdminApi] over any store that meets [StoreSpec]:
    scoping of the history, saving and reading back, the dashboard's numbers. *)
From S2P Require Import Prelude GoStrings GoNumeric Json HttpModel Config ClusterStats Monitor Auth AdminAuth Sql Persistence Store AdminApi.

#[local] Open Scope Z_scope.

(** ** Lemmas on the abstract store *)
Definition same_settings (b b' : Persistence.Backend) : Prop :=
  b_Name b' = b_Name b ∧ b_URL b' = b_URL b ∧ b_ExternalURL b' = b_ExternalURL b ∧ b_RoutingGroup b' = b_RoutingGroup b
  ∧ b_Active b' = b_Active b.

Lemma upsert_finds b st : ∃ b', b' ∈ st_backends (st_upsert b st) ∧ same_settings b b'.
Proof.
  unfold st_upsert. cbn. destruct (existsb _ _) eqn:E.
  - apply existsb_exists in E as (old & Hin & Hn). exists (overwrite b old). split.
    + apply list_elem_of_fmap. exists old. rewrite Hn. split; [done|]. by apply list_elem_of_In.
    + unfold has_name in Hn. seqb_simpl. by split_and!.
  - exists b. split; [|by split_and!]. apply elem_of_app. right. left.
Qed.

Lemma find_unique (l : list Persistence.Backend) st b :
  l ≡ₚ st_backends st → store_ok st → b ∈ st_backends st → find_first (λ x, b_Name x =?s b_Name b) l = Some b.
Proof.
  intros Hl (Hnd & _) Hin. destruct (find_first _ l) as [b'|] eqn:E.
  - apply find_first_Some in E as [Hb' Hn]. seqb_simpl. rewrite Hl in Hb'. f_equal.
    apply list_elem_of_lookup in Hin as [i Hi]. apply list_elem_of_lookup in Hb' as [j Hj].
    assert (i = j) as ->; [|congruence].
    apply (NoDup_lookup _ _ _ (b_Name b) Hnd); rewrite list_lookup_fmap; [by rewrite Hi|by rewrite Hj, <- Hn].
  - apply find_first_None in E. rewrite <- Hl in Hin. rewrite Forall_forall in E. apply E in Hin. by rewrite seqb_refl in Hin.
Qed.

Lemma set_active_absent now n a st :
  (∀ b, b ∈ st_backends st → b_Name b ≠ n) → st_set_active now n a st = st.
Proof.
  intros Hn. destruct st as [bs qs]. unfold st_set_active. cbn in *. f_equal. rewrite <- (list_fmap_id bs) at 2.
  apply list_fmap_ext. intros i b Hi. cbn. unfold has_name. destruct (n =?s b_Name b) eqn:E; [|done]. seqb_simpl.
  exfalso. apply (Hn b); [by eapply list_elem_of_lookup_2|done].
Qed.

Lemma filter_true_ext {A} (p : A → bool) l : (∀ x, p x = true) → List.filter p l = l.
Proof. intros Hp. induction l as [|x l IH]; [done|]. cbn. by rewrite Hp, IH. Qed.

(** ** Counting *)
Definition msum (m : gmap string Z) : Z := map_fold (λ _ n acc, n + acc) 0 m.
Definition count_if {A} (p : A → bool) (l : list A) : Z := Z.of_nat (length (List.filter p l)).

Lemma count_if_cons {A} (p : A → bool) x l : count_if p (x :: l) = (if p x then 1 else 0) + count_if p l.
Proof. unfold count_if. cbn. destruct (p x); cbn [length]; lia. Qed.

Lemma msum_insert m i n : m !! i = None → msum (<[i := n]> m) = n + msum m.
Proof. intros Hi. unfold msum. rewrite map_fold_insert_L; [done|intros; lia|done]. Qed.
Lemma msum_update m i n : m !! i = Some n → msum (<[i := n + 1]> m) = msum m + 1.
Proof.
  intros Hi. rewrite <- (insert_delete_id m i n Hi) at 2. rewrite <- insert_delete_eq.
  rewrite !msum_insert by apply lookup_delete_eq. lia.
Qed.
Lemma msum_zero m : (∀ i n, m !! i = Some n → n = 0) → msum m = 0.
Proof.
  induction m as [|i n m Hi IH] using map_ind; intros Hz; [done|]. rewrite msum_insert by done.
  rewrite (Hz i n) by apply lookup_insert_eq. rewrite IH; [done|]. intros j k Hj. apply (Hz j).
  rewrite lookup_insert_ne; [done|]. congruence.
Qed.

Definition with_url (u : string) (q : QueryRecord) : bool := q_BackendURL q =?s u.
Definition known_url (dist : gmap string Z) (q : QueryRecord) : bool := bool_decide (is_Some (dist !! q_BackendURL q)).

Lemma count_known_step dist q l :
  count_known dist (q :: l)
  = count_known (match dist !! q_BackendURL q with Some n => <[q_BackendURL q := n + 1]> dist | None => dist end) l.
Proof. done. Qed.

Lemma count_known_lookup l dist u : count_known dist l !! u = (λ n, n + count_if (with_url u) l) <$> dist !! u.
Proof.
  revert dist. induction l as [|q l IH]; intros dist.
  { destruct (dist !! u) eqn:E; cbn [count_known foldl]; rewrite E; [|done]. cbn. f_equal. unfold count_if. cbn. lia. }
  rewrite count_known_step, IH, count_if_cons. unfold with_url at 2.
  destruct (dist !! q_BackendURL q) as [n|] eqn:E.
  - destruct (q_BackendURL q =?s u) eqn:Eu; seqb_simpl.
    + subst u. rewrite lookup_insert_eq, E. cbn. f_equal. lia.
    + rewrite lookup_insert_ne by done. by destruct (dist !! u).
  - destruct (q_BackendURL q =?s u) eqn:Eu; seqb_simpl; [subst u; by rewrite E|]. by destruct (dist !! u).
Qed.

Lemma count_known_sum l dist : msum (count_known dist l) = msum dist + count_if (known_url dist) l.
Proof.
  revert dist. induction l as [|q l IH]; intros dist.
  { unfold count_if. cbn. lia. }
  rewrite count_known_step, IH, count_if_cons. unfold known_url at 2.
  destruct (dist !! q_BackendURL q) as [n|] eqn:E.
  - rewrite (msum_update dist _ n E). rewrite bool_decide_eq_true_2 by done.
    replace (count_if (known_url (<[q_BackendURL q := n + 1]> dist)) l) with (count_if (known_url dist) l); [lia|].
    unfold count_if. do 2 f_equal. apply List.filter_ext. intros q'. unfold known_url. apply bool_decide_ext.
    destruct (decide (q_BackendURL q = q_BackendURL q')) as [Heq|Hne].
    + rewrite <- Heq, lookup_insert_eq, E. split; intros _; eauto.
    + by rewrite lookup_insert_ne.
  - rewrite bool_decide_eq_false_2; [lia|]. by intros [? ?].
Qed.

(** The loop over the backends. *)
Definition tally_all (st : string → Status) (t : tally) (bs : list Persistence.Backend) : tally :=
  foldl (λ t b, tally_backend t b (st (b_URL b))) t bs.

Definition zero_map (m : gmap string Z) : Prop := ∀ i n, m !! i = Some n → n = 0.
Definition is_healthy (st : string → Status) (b : Persistence.Backend) : bool :=
  match st (b_URL b) with Healthy => true | _ => false end.

Lemma tally_all_spec st bs t :
  let t' := tally_all st t bs in
  ty_total t' = ty_total t + Z.of_nat (length bs)
  ∧ ty_online t' = ty_online t + count_if b_Active bs
  ∧ ty_offline t' = ty_offline t + count_if (λ b, negb (b_Active b)) bs
  ∧ ty_healthy t' = ty_healthy t + count_if (is_healthy st) bs
  ∧ ty_unhealthy t' = ty_unhealthy t + count_if (λ b, negb (is_healthy st b)) bs
  ∧ ty_chart t' = ty_chart t ++ ((λ b, mkChartPoint (b_URL b) (b_Name b) 0) <$> bs)
  ∧ (zero_map (ty_dist t) → zero_map (ty_dist t'))
  ∧ (∀ u, is_Some (ty_dist t' !! u) ↔ is_Some (ty_dist t !! u) ∨ u ∈ b_URL <$> bs).
Proof.
  cbn zeta. revert t. induction bs as [|b bs IH]; intros t.
  { unfold count_if. cbn. split_and!; try lia; [by rewrite app_nil_r|done|]. intros u. split; [auto|]. intros [?|?%elem_of_nil]; done. }
  cbn [tally_all foldl]. fold (tally_all st). destruct (IH (tally_backend t b (st (b_URL b)))) as (H1 & H2 & H3 & H4 & H5 & H6 & H7 & H8).
  unfold tally_all in *. rewrite H1, H2, H3, H4, H5, H6, !count_if_cons. cbn [tally_backend ty_total ty_online ty_offline ty_healthy ty_unhealthy ty_chart ty_dist length] in *.
  change (is_healthy st b) with (match st (b_URL b) with Healthy => true | _ => false end). split_and!.
  - lia.
  - destruct (b_Active b); lia.
  - destruct (b_Active b); cbn; lia.
  - destruct (st (b_URL b)); lia.
  - destruct (st (b_URL b)); cbn; lia.
  - by rewrite <- app_assoc.
  - intros Hz. apply H7. intros i n [[_ <-] | [_ Hi]]%lookup_insert_Some; [done|by eapply Hz].
  - intros u. rewrite H8, fmap_cons, elem_of_cons. destruct (decide (b_URL b = u)) as [->|Hne].
    + rewrite lookup_insert_eq. naive_solver.
    + rewrite lookup_insert_ne by done. naive_solver.
Qed.

Section props.
Context {S : Type} `{StoreOps S} (rep : S → store → Prop) (up dates : Prop) (round : Z → Z) `{!StoreSpec S rep up dates round}.
Context (env : api_env).

(** ** Listing *)
Lemma in_store_reads {A} {u : Prop} (m : ST S (go_result A)) Q (s : admin_state S) st :
  reads rep u m Q → rep (ad_store s) st →
  ∃ st' : S, rep st' st ∧ (in_store m s).2 = mkAdmin st' (ad_monitor s) (ad_stats s) (ad_ready s)
    ∧ match (in_store m s).1 with Ok a => Q a st | Err _ => ¬ u end.
Proof.
  intros Hm Hr. unfold in_store. specialize (Hm _ _ Hr). destruct (m (ad_store s)) as [[a|e] s']; cbn; naive_solver.
Qed.
Lemma in_store_writes (m : ST S (go_result unit)) f (s : admin_state S) st :
  writes rep up m f → rep (ad_store s) st → up →
  ∃ st' : S, rep st' (f st) ∧ in_store m s = (Ok tt, mkAdmin st' (ad_monitor s) (ad_stats s) (ad_ready s)).
Proof.
  intros Hm Hr Hup. unfold in_store. specialize (Hm _ _ Hr). destruct (m (ad_store s)) as [[[]|e] s']; cbn; naive_solver.
Qed.

(** ** Scoping of the history *)
Definition own_records (n : string) (hist l : list QueryRecord) : Prop :=
  Forall (λ q, q_UserName q = n ∧ q ∈ hist) l.

Lemma find_own f (s : admin_state S) st :
  f_UserName f ≠ "" → rep (ad_store s) st →
  match records_of (in_store (so_FindByFilter f) s).1 with
  | Ok l => own_records (f_UserName f) (st_history st) l
  | Err _ => True
  end.
Proof.
  intros Hn Hr. unfold in_store. destruct (decide (0 ≤ page_offset f)) as [Ho|Ho].
  - pose proof (spec_FindByFilter (rep := rep) f Ho _ _ Hr) as Hf.
    destruct (so_FindByFilter f (ad_store s)) as [[[l total]|e] s']; [|done]. cbn.
    destruct Hf as [(_ & sorted & (Hp & _) & ->) _].
    apply Forall_take, Forall_drop, Forall_forall. intros q Hq. rewrite Hp in Hq.
    apply list_elem_of_In, filter_In in Hq as [Hq Hm]. apply list_elem_of_In in Hq. split; [|done].
    unfold matches, field_matches in Hm. apply seqb_neq in Hn. rewrite Hn in Hm. cbn in Hm. seqb_simpl. done.
  - pose proof (spec_FindByFilter_neg (rep := rep) f _ _ ltac:(lia) Hr) as Hf.
    by destruct (so_FindByFilter f (ad_store s)) as [[?|e] s'].
Qed.

(** C13: A caller that is not an administrator and has a name sees, in all three views of
    the history, only records of queries under that name; whatever user name the request
    asks for. *)
Theorem history_scoped (pr : Principal) r (s : admin_state S) st :
  is_admin env (Some pr) = false → pr_Name pr ≠ "" → rep (ad_store s) st →
  (∃ res, (queryHistory env (Some pr) r s).1 = details_reply res
     ∧ match res with Ok l => own_records (pr_Name pr) (st_history st) l | Err _ => True end)
  ∧ (∃ res, (queryHistoryDistribution env (Some pr) r s).1
            = match res with Ok l => writeJSON 200 (map_json jint (count_urls l)) | Err _ => internal_error end
     ∧ match res with Ok l => own_records (pr_Name pr) (st_history st) l | Err _ => True end)
  ∧ ((∃ msg, (webappFindQueryHistory env (Some pr) r s).1 = envelope_error msg)
     ∨ ∃ l total, (webappFindQueryHistory env (Some pr) r s).1
         = writeJSON 200 (resultOK (JObj [("total", jint total); ("rows", JArr ((detail_json ∘ queryDetailFromRecord) <$> l))]))
       ∧ own_records (pr_Name pr) (st_history st) l).
Proof.
  intros Ha Hn Hr. split_and!.
  - unfold queryHistory. rewrite Ha. unfold mbind, ST_bind.
    pose proof (find_own (mkHistoryFilter (pr_Name pr) "" "" "" 1 100) s st Hn Hr) as Hf. cbn [from_opt fmap option_fmap option_map].
    destruct (in_store _ s) as [res s']. by exists (records_of res).
  - unfold queryHistoryDistribution. rewrite Ha. unfold mbind, ST_bind.
    pose proof (find_own (mkHistoryFilter (pr_Name pr) "" "" "" 1 10000) s st Hn Hr) as Hf. cbn [from_opt fmap option_fmap option_map].
    destruct (in_store _ s) as [res s']. by exists (records_of res).
  - unfold webappFindQueryHistory. destruct (decodeJSON _ _ _) as [req|]; [|left; by eexists]. unfold mbind, ST_bind.
    assert (Hu : f_UserName (history_filter env (Some pr) req) = pr_Name pr) by (unfold history_filter; by rewrite Ha).
    pose proof (find_own (history_filter env (Some pr) req) s st ltac:(by rewrite Hu) Hr) as Hf. rewrite Hu in Hf.
    destruct (in_store _ s) as [[[l total]|e] s']; [right; by exists l, total|left; by eexists].
Qed.

(** A caller with an empty name (a token without a subject) that holds the USER role
    and not the ADMIN role is not restricted at all: its history is that of every user. *)
Theorem nameless_caller_sees_all (pr : Principal) r (s : admin_state S) st :
  is_admin env (Some pr) = false → pr_Name pr = "" → rep (ad_store s) st → up →
  ∃ sorted, newest_first sorted (st_history st) ∧ (queryHistory env (Some pr) r s).1 = details_reply (Ok (take 100 sorted)).
Proof.
  intros Ha Hn Hr Hup. unfold queryHistory. rewrite Ha. unfold mbind, ST_bind. cbn [from_opt fmap option_fmap option_map].
  rewrite Hn. set (f := mkHistoryFilter "" "" "" "" 1 100).
  destruct (in_store_reads _ _ s st (spec_FindByFilter (rep := rep) f ltac:(done)) Hr) as (st' & _ & _ & Hq).
  destruct (in_store (so_FindByFilter f) s) as [[[l total]|e] s']; [|done]. cbn in Hq.
  destruct Hq as (_ & sorted & Hs & ->). rewrite filter_true_ext in Hs by done. exists sorted. split; [done|].
  cbn. by rewrite drop_0.
Qed.

(** ** Saving and reading back *)
Lemma decode_printed pb r :
  req_body r = Ok (print_json (proxy_json pb)) → wf_json (proxy_json pb) = true →
  Z.of_nat (String.length (print_json (proxy_json pb))) < 2 ^ 20 → decode_proxy r = Some pb.
Proof using Type.
  intros Hb Hw Hlen. unfold decode_proxy, decodeJSON, decode_body. rewrite Hb.
  replace (2 ^ 20 <=? _) with false by (symmetry; apply Z.leb_gt; lia).
  unfold unmarshal. rewrite unmarshal_print; [|done|by vm_compute]. by destruct pb.
Qed.

(** A backend posted to the API is the one read back under its name, with the proxy
    URL in place of a missing external URL, whether or not a backend of that name
    existed. *)
Theorem saved_backend_is_served pb r1 r2 (s : admin_state S) st :
  rep (ad_store s) st → up →
  req_body r1 = Ok (print_json (proxy_json pb)) → wf_json (proxy_json pb) = true →
  Z.of_nat (String.length (print_json (proxy_json pb))) < 2 ^ 20 →
  en_url_param env r2 "name" = pb_Name pb →
  let '(rep1, s1) := addBackend env r1 s in
  rep1 = writeJSON 200 (proxy_json pb)
  ∧ (getPublicBackend env r2 s1).1
    = writeJSON 200 (proxy_json (mkProxyBackend (pb_Name pb) (pb_ProxyTo pb)
                                   (externalURLOrProxyTo (pb_ExternalURL pb) (pb_ProxyTo pb)) (pb_Active pb) (pb_RoutingGroup pb))).
Proof.
  intros Hr Hup Hb Hw Hlen Hp. unfold addBackend, save_backend. rewrite (decode_printed pb) by done. unfold mbind, ST_bind.
  set (b := persistenceBackendFromProxy (en_now env) pb).
  destruct (in_store_writes _ _ s st (spec_Upsert (rep := rep) b) Hr Hup) as (s1 & Hs1 & ->). cbn. split; [done|].
  unfold getPublicBackend, mbind, ST_bind.
  set (a1 := mkAdmin s1 _ _ _).
  destruct (in_store_reads _ _ a1 _ (spec_List (rep := rep)) Hs1) as (s2 & _ & _ & Hl).
  destruct (in_store so_List a1) as [[l|e] a2]; [|done]. cbn [fst] in Hl |- *.
  destruct (upsert_finds (kept_backend round b) st) as (b' & Hin & Hset).
  assert (Hname : b_Name b' = pb_Name pb) by apply Hset.
  rewrite Hp, <- Hname, (find_unique l _ b' Hl) by (done || by eapply rep_ok).
  destruct Hset as (E1 & E2 & E3 & E4 & E5). unfold proxyBackendFromPersistence. by rewrite E1, E2, E3, E4, E5.
Qed.

(** Activating or deactivating a name no backend has is answered with 200 and changes
    nothing. *)
Theorem activate_unknown_succeeds a r (s : admin_state S) st :
  rep (ad_store s) st → up → (∀ b, b ∈ st_backends st → b_Name b ≠ en_url_param env r "name") →
  let '(rep1, s1) := AdminApi.set_active env a r s in rp_status rep1 = 200 ∧ rep (ad_store s1) st.
Proof.
  intros Hr Hup Hn. unfold AdminApi.set_active, mbind, ST_bind.
  destruct (in_store_writes _ _ s st (spec_SetActive (rep := rep) (en_now env) (en_url_param env r "name") a) Hr Hup)
    as (s1 & Hs1 & ->). rewrite set_active_absent in Hs1 by done. done.
Qed.

(** ** The dashboard *)
Lemma tally_run t bs (s : admin_state S) :
  tally_backends t bs s = (tally_all (m_Status (ad_monitor s)) t bs, s).
Proof using Type. revert t. induction bs as [|b bs IH]; intros t; [done|]. cbn. apply IH. Qed.

Lemma count_if_perm {A} (p : A → bool) l l' : l ≡ₚ l' → count_if p l = count_if p l'.
Proof using Type. intros Hl. unfold count_if. by rewrite Hl. Qed.
Lemma count_if_split {A} (p : A → bool) l : count_if p l + count_if (λ x, negb (p x)) l = Z.of_nat (length l).
Proof using Type.
  induction l as [|x l IH]; [done|]. rewrite !count_if_cons. cbn [length]. destruct (p x); cbn [negb]; lia.
Qed.

(** C24: With the database up the dashboard's numbers are right: every backend is counted
    once as online or offline and once as healthy or unhealthy; the total is the number
    of the newest ten thousand records that belong to a configured backend, and every
    backend has one point on the chart with its share of them. *)
Theorem dashboard_counts hours (s : admin_state S) st :
  rep (ad_store s) st → up →
  ∃ d sorted, (AdminApi.distribution env hours s).1 = Ok d ∧ newest_first sorted (st_history st)
    ∧ let recent := take (Z.to_nat 10000) sorted in
      dr_Total d = Z.of_nat (length (st_backends st))
      ∧ dr_Online d = count_if b_Active (st_backends st) ∧ dr_Online d + dr_Offline d = dr_Total d
      ∧ dr_Healthy d = count_if (is_healthy (m_Status (ad_monitor s))) (st_backends st)
      ∧ dr_Healthy d + dr_Unhealthy d = dr_Total d
      ∧ dr_TotalQueryCount d = count_if (λ q, bool_decide (q_BackendURL q ∈ b_URL <$> st_backends st)) recent
      ∧ dr_Chart d ≡ₚ (λ b, mkChartPoint (b_URL b) (b_Name b) (count_if (with_url (b_URL b)) recent)) <$> st_backends st.
Proof.
  intros Hr Hup. unfold AdminApi.distribution, mbind, ST_bind.
  destruct (in_store_reads _ _ s st (spec_List (rep := rep)) Hr) as (s1 & Hs1 & Hst1 & Hl).
  destruct (in_store so_List s) as [[bs|e] a1]; [|done]. cbn [fst snd] in Hl, Hst1. subst a1.
  rewrite tally_run. cbn [ad_monitor]. set (a1 := mkAdmin s1 _ _ _).
  set (t := tally_all _ _ bs). set (f := mkHistoryFilter "" "" "" "" 1 10000).
  destruct (in_store_reads _ _ a1 st (spec_FindByFilter (rep := rep) f ltac:(done)) Hs1) as (s2 & Hs2 & Hst2 & Hq).
  destruct (in_store (so_FindByFilter f) a1) as [[[recs total]|e] a2]; [|done]. cbn [fst snd] in Hq, Hst2.
  destruct Hq as (_ & sorted & Hsorted & Hrecs). rewrite filter_true_ext in Hsorted by done.
  cbn [records_of]. destruct (averages _ _) as [pm ps]. destruct (buildLineChart env hours (ty_names t) a2) as [line a3].
  eexists _, sorted. split; [reflexivity|]. split; [done|]. cbn zeta. cbn [dr_Total dr_Online dr_Offline dr_Healthy dr_Unhealthy dr_TotalQueryCount dr_Chart].
  change (take (Z.to_nat 10000) sorted) with (take (Z.to_nat (page_size f)) (drop (Z.to_nat (page_offset f)) sorted)). rewrite <- Hrecs.
  destruct (tally_all_spec (m_Status (ad_monitor s)) bs (mkTally 0 0 0 0 0 ∅ ∅ [])) as (H1 & H2 & H3 & H4 & H5 & H6 & H7 & H8).
  fold t in H1, H2, H3, H4, H5, H6, H7, H8. cbn in H1, H2, H3, H4, H5, H6. rewrite H1, H2, H3, H4, H5, H6.
  pose proof (count_if_split b_Active bs). pose proof (count_if_split (is_healthy (m_Status (ad_monitor s))) bs).
  split_and!; try lia.
  - by rewrite Hl.
  - by apply count_if_perm.
  - by apply count_if_perm.
  - change (map_fold _ 0 ?m) with (msum m). rewrite count_known_sum, msum_zero.
    2: { apply H7. intros i n Hi. cbn in Hi. by rewrite lookup_empty in Hi. }
    rewrite Z.add_0_l. unfold count_if. do 2 f_equal. apply List.filter_ext. intros q. unfold known_url. apply bool_decide_ext.
    rewrite H8. cbn. rewrite lookup_empty, <- Hl. split; [intros [[? [=]] | ?]; done|auto].
  - unfold fill_chart. rewrite <- list_fmap_compose, <- Hl.
    erewrite list_fmap_ext; [done|]. intros i b Hb. cbn. f_equal. rewrite count_known_lookup.
    assert (Hk : is_Some (ty_dist t !! b_URL b)).
    { apply H8. right. apply list_elem_of_fmap. exists b. split; [done|]. by eapply list_elem_of_lookup_2. }
    destruct Hk as [n Hn]. rewrite Hn. cbn.
    replace n with 0; [lia|]. symmetry. eapply H7; [|done]. intros j m Hj. cbn in Hj. by rewrite lookup_empty in Hj.
Qed.
(** *** The line chart *)
Definition add_point (urlToName : gmap string string) (m : gmap string (list TimePoint)) (b : DistributionBucket) :
    gmap string (list TimePoint) :=
  match urlToName !! d_BackendURL b with
  | Some name =>
      <[name := from_opt [] (m !! name)
                  ++ [mkTimePoint (unix_milli (MinuteStart b)) (d_BackendURL b) name (QueryCount b)]]> m
  | None => m
  end.
Definition point_of (name : string) (b : DistributionBucket) : TimePoint :=
  mkTimePoint (unix_milli (MinuteStart b)) (d_BackendURL b) name (QueryCount b).

Lemma add_points urlToName bs m name :
  from_opt [] (foldl (add_point urlToName) m bs !! name)
  = from_opt [] (m !! name)
    ++ (point_of name <$> List.filter (λ b, bool_decide (urlToName !! d_BackendURL b = Some name)) bs).
Proof using Type.
  revert m. induction bs as [|b bs IH]; intros m; [by rewrite app_nil_r|]. cbn [foldl List.filter]. rewrite IH.
  unfold add_point at 1. destruct (urlToName !! d_BackendURL b) as [n|] eqn:En.
  - destruct (decide (n = name)) as [->|Hne].
    + rewrite lookup_insert_eq, bool_decide_eq_true_2 by done. cbn [from_opt]. by rewrite <- app_assoc.
    + rewrite lookup_insert_ne by done. rewrite bool_decide_eq_false_2 by congruence. done.
  - by rewrite bool_decide_eq_false_2.
Qed.

Lemma sorted_filter {A} (R : A → A → Prop) (p : A → bool) l : StronglySorted R l → StronglySorted R (List.filter p l).
Proof using Type.
  induction 1 as [|x l Hs IH Hf]; cbn; [constructor|]. destruct (p x); [|done]. constructor; [done|by apply Forall_List_filter].
Qed.

(** Where the driver delivers the minute of a bucket as a time, the line chart of a
    name has one point for every minute of the window in which a backend of that name
    received queries, with their number, and no others; the points come in the order of
    time. *)
Theorem line_chart_points hours names (s : admin_state S) st :
  rep (ad_store s) st → up → dates →
  let m := (buildLineChart env hours names s).1 in
  let since := en_now env + wrap64 (- hours * hour_ns) in
  ∀ name, ∃ bs, from_opt [] (m !! name) = point_of name <$> bs
    ∧ NoDup ((λ b, (MinuteStart b, d_BackendURL b)) <$> bs)
    ∧ StronglySorted (λ a b, MinuteStart a ≤ MinuteStart b) bs
    ∧ ∀ b, b ∈ bs ↔ names !! d_BackendURL b = Some name
        ∧ QueryCount b = count_if (in_bucket since (MinuteStart b) (d_BackendURL b)) (st_history st) ∧ 0 < QueryCount b.
Proof.
  intros Hr Hup Hd. cbn zeta. intros name. unfold buildLineChart, mbind, ST_bind.
  set (since := en_now env + _).
  destruct (in_store_reads _ _ s st (spec_FindDistribution (rep := rep) since) Hr) as (s1 & _ & _ & Hb).
  destruct (in_store (so_FindDistribution since) s) as [[bs|e] a1]; cbn in Hb; [|tauto].
  destruct Hb as (Hnd & Hs & Hin).
  exists (List.filter (λ b, bool_decide (names !! d_BackendURL b = Some name)) bs). split_and!.
  - etrans; [apply (add_points names bs ∅ name)|]. by rewrite lookup_empty.
  - eapply sublist_NoDup; [exact Hnd|]. apply fmap_sublist, filter_sublist.
  - by apply sorted_filter.
  - intros b. rewrite list_elem_of_In, filter_In, <- list_elem_of_In, Hin, bool_decide_eq_true. unfold count_if. tauto.
Qed.
End props.

(** On mysql the minute of a bucket is text (DATE_FORMAT) and does not scan into a
    [time.Time]: whatever queries were recorded, the line chart is empty, and the rest
    of the dashboard is served as if nothing had failed. *)
Theorem mysql_line_chart_empty e `{!EngineOk e} env hours (s : admin_state database) st :
  e_driver e = "mysql" → dao_up e → dao_rep (ad_store s) st →
  ∃ d, (AdminApi.distribution (H := dao_ops e) env hours s).1 = Ok d ∧ dr_LineChart d = ∅.
Proof.
  intros Hmy Hup Hr.
  unfold AdminApi.distribution, mbind, ST_bind.
  destruct (in_store_reads dao_rep (List_ e) _ s st (dao_list e (or_intror Hmy)) Hr) as (s1 & Hs1 & Hst1 & Hl).
  cbn [so_List so_FindByFilter dao_ops].
  destruct (in_store (List_ e) s) as [[bs|m] a1]; [|done]. cbn [fst snd] in Hl, Hst1. subst a1. rewrite tally_run.
  set (a1 := mkAdmin s1 _ _ _). set (t := tally_all _ _ bs). set (f := mkHistoryFilter "" "" "" "" 1 10000).
  destruct (in_store_reads dao_rep (FindByFilter e f) _ a1 st (dao_find_by_filter e (or_intror Hmy) f ltac:(done)) Hs1) as (s2 & Hs2 & Hst2 & _).
  destruct (in_store (FindByFilter e f) a1) as [res a2]. cbn [fst snd] in Hst2. subst a2.
  destruct (match records_of res with Ok _ => _ | Err _ => _ end) as [dist chart].
  destruct (averages _ _) as [pm ps]. unfold buildLineChart, mbind, ST_bind, in_store. cbn [ad_store].
  set (since := en_now env + _).
  pose proof (dao_find_distribution_mysql e since s2 st Hmy Hs2) as Hd. cbn [so_FindDistribution dao_ops].
  destruct (FindDistribution e since s2) as [[b|m] s3]; (eexists; split; [reflexivity|]); cbn [dr_LineChart]; [|done].
  by destruct Hd as (-> & _).
Qed.

(** ** Witnesses *)
Import StoreDemo ApiDemo.
#[local] Instance pg_spec : StoreSpec (H := dao_ops (eng "postgres")) database dao_rep (dao_up (eng "postgres")) (dao_dates (eng "postgres")) id.
Proof. apply (dao_spec (eng "postgres")). by left. Defined.
#[local] Abbreviation pg := (eng "postgres").

Lemma history_scoped_witness :
  ∃ res, (queryHistory (H := dao_ops pg) env (Some ann) (post "" "") state).1 = details_reply res
     ∧ match res with Ok l => own_records "ann" [q1; q2] l | Err _ => True end.
Proof.
  apply (history_scoped (H := dao_ops pg) dao_rep (dao_up pg) (dao_dates pg) id env ann (post "" "") state st).
  - by vm_compute.
  - done.
  - apply db_rep.
Defined.

Lemma nameless_caller_sees_all_witness :
  ∃ sorted, newest_first sorted [q1; q2]
    ∧ (queryHistory (H := dao_ops pg) env (Some (mkPrincipal "" "users")) (post "" "") state).1
      = details_reply (Ok (take 100 sorted)).
Proof.
  apply (nameless_caller_sees_all (H := dao_ops pg) dao_rep (dao_up pg) (dao_dates pg) id env (mkPrincipal "" "users") (post "" "") state st).
  - by vm_compute.
  - done.
  - apply db_rep.
  - apply eng_up.
Defined.

Lemma saved_backend_is_served_witness :
  (getPublicBackend (H := dao_ops pg) env (post "b1" "")
     (addBackend (H := dao_ops pg) env (post "" (print_json (proxy_json pb))) state).2).1
  = writeJSON 200 (proxy_json (mkProxyBackend "b1" "http://new:8080" "http://new:8080" true "etl")).
Proof.
  pose proof (saved_backend_is_served (H := dao_ops pg) dao_rep (dao_up pg) (dao_dates pg) id env pb
    (post "" (print_json (proxy_json pb))) (post "b1" "") state st db_rep (eng_up _) eq_refl ltac:(by vm_compute)
    ltac:(by vm_compute) eq_refl) as Hs.
  destruct (addBackend env _ state) as [r s1]. apply Hs.
Defined.

Lemma activate_unknown_succeeds_witness :
  let '(r, s1) := AdminApi.set_active (H := dao_ops pg) env true (post "b9" "") state in
  rp_status r = 200 ∧ dao_rep (ad_store s1) st.
Proof.
  apply (activate_unknown_succeeds (H := dao_ops pg) dao_rep (dao_up pg) (dao_dates pg) id env true (post "b9" "") state st).
  - apply db_rep.
  - apply eng_up.
  - intros b Hb. cbn [st st_backends] in Hb. rewrite !elem_of_cons in Hb. destruct Hb as [-> | [-> | []%elem_of_nil]]; done.
Defined.

Lemma dashboard_counts_witness :
  ∃ d, (AdminApi.distribution (H := dao_ops pg) env 1 state).1 = Ok d ∧ dr_Total d = 2 ∧ dr_Online d = 1.
Proof.
  destruct (dashboard_counts (H := dao_ops pg) dao_rep (dao_up pg) (dao_dates pg) id env 1 state st db_rep (eng_up _))
    as (d & sorted & Hd & _ & Ht & Ho & _).
  exists d. by split_and!.
Defined.

Lemma line_chart_points_witness :
  let m := (buildLineChart (H := dao_ops pg) env 1 {["http://b1:8080" := "b1"]} state).1 in
  ∃ bs, from_opt [] (m !! "b1") = point_of "b1" <$> bs ∧ mkBucket 120000000000 "http://b1:8080" 1 ∈ bs.
Proof.
  destruct (line_chart_points (H := dao_ops pg) dao_rep (dao_up pg) (dao_dates pg) id env 1 {["http://b1:8080" := "b1"]} state st
    db_rep (eng_up _) eq_refl "b1") as (bs & Hm & _ & _ & Hin).
  exists bs. split; [exact Hm|]. apply Hin. split_and!; by vm_compute.
Defined.

Lemma mysql_line_chart_empty_witness :
  ∃ d, (AdminApi.distribution (H := dao_ops (eng "mysql")) env 1 state).1 = Ok d ∧ dr_LineChart d = ∅.
Proof.
  apply (mysql_line_chart_empty (eng "mysql") env 1 state st).
  - reflexivity.
  - apply eng_up.
  - apply db_rep.
Defined.
