(* ===== verification/Lifecycle.v ===== *)
(** * Start and stop of the process (internal/lifecycle/server.go, the second half of run
      in cmd/trino-goway/main.go)

    The main goroutine, the two servers' goroutines, the two shutdown goroutines of
    [Stop], the monitor's loop and the backend-refresh loop, as a step relation. Steps of
    the program are told apart from steps of the surroundings: a signal, a failing
    server, connections, timers. [http.Server.Shutdown] closes the listener, then waits
    until no connection is active or its context is done, and looks at the connections
    first. *)
From S2P Require Import Prelude.

(** ** Binding the sockets *)
Record sockets : Type := mkSockets { proxyLn : bool; adminLn : bool }.

(** [Listen], given the results of the two binds; the open sockets afterwards. *)
Definition Listen (bind_proxy bind_admin : option string) (s : sockets) : go_result unit * sockets :=
  if proxyLn s && adminLn s then (Ok tt, s)
  else match bind_proxy with
       | Some e => (Err ("lifecycle: bind proxy: " +:+ e), s)
       | None =>
           match bind_admin with
           | Some e => (Err ("lifecycle: bind admin: " +:+ e), s)
           | None => (Ok tt, mkSockets true true)
           end
       end.

(** ** Goroutines *)

(** An error: cancellation, or another one. *)
Inductive lc_error : Type := Canceled | Failure (msg : string).

(** A [Serve] goroutine. *)
Inductive serve_pc : Type := Serving | Returned.
(** A goroutine of [Stop]: not begun, listener closed and waiting, returned. *)
Inductive shut_pc : Type := ShBegin | ShWait | ShDone (r : option lc_error).
(** A loop around a ticker: waiting, at work, returned. *)
Inductive loop_pc : Type := Idle | Busy | Over.

(** Why [Start] left its select: a server's error, or the context. *)
Inductive stop_reason : Type := ServerReturned (r : option lc_error) | CtxDone.

Inductive main_pc : Type :=
| InSelect
| InStop (why : stop_reason)
| InMonitorStop (startErr : option lc_error)
| InRefreshWait (startErr : option lc_error)
| Exited (r : go_result unit).

Record process : Type := mkProcess {
  pc : main_pc;
  serve_p : serve_pc; serve_a : serve_pc;
  errCh : list (option lc_error);
  shut_p : shut_pc; shut_a : shut_pc;
  group_err : option lc_error;     (* the first error of the errgroup *)
  active_p : nat; active_a : nat;  (* connections with a request in flight *)
  cancelled : bool;                (* rootCtx *)
  mon : loop_pc; mon_cancelled : bool; mon_tick : bool;
  refresh : loop_pc; refresh_tick : bool;
  timer : bool                     (* shutdownCtx has expired *) }.

Definition init : process :=
  mkProcess InSelect Serving Serving [] ShBegin ShBegin None 0 0 false Busy false false Idle false false.

(** The end of [run]: a cancelled context is no error. *)
Definition run_result (startErr : option lc_error) : go_result unit :=
  match startErr with
  | Some (Failure m) => Err ("trino-goway: lifecycle: " +:+ m)
  | Some Canceled | None => Ok tt
  end.
(** What [Start] returns once [Stop] has returned. *)
Definition start_result (why : stop_reason) (stopErr : option lc_error) : option lc_error :=
  match why with ServerReturned r => r | CtxDone => stopErr end.

Definition is_some {A} (o : option A) : bool := match o with Some _ => true | None => false end.
Definition in_stop (s : process) : bool := match pc s with InStop _ => true | _ => false end.
(** The context of the errgroup: done with the root context or after the first error. *)
Definition group_done (s : process) : bool := cancelled s || is_some (group_err s).
Definition mon_ctx_done (s : process) : bool := cancelled s || mon_cancelled s.

(** *** Updates *)
Definition set_pc x s := mkProcess x (serve_p s) (serve_a s) (errCh s) (shut_p s) (shut_a s) (group_err s) (active_p s)
  (active_a s) (cancelled s) (mon s) (mon_cancelled s) (mon_tick s) (refresh s) (refresh_tick s) (timer s).
Definition set_serve p a ch s := mkProcess (pc s) p a ch (shut_p s) (shut_a s) (group_err s) (active_p s)
  (active_a s) (cancelled s) (mon s) (mon_cancelled s) (mon_tick s) (refresh s) (refresh_tick s) (timer s).
Definition set_shut p a e s := mkProcess (pc s) (serve_p s) (serve_a s) (errCh s) p a e (active_p s)
  (active_a s) (cancelled s) (mon s) (mon_cancelled s) (mon_tick s) (refresh s) (refresh_tick s) (timer s).
Definition set_active p a s := mkProcess (pc s) (serve_p s) (serve_a s) (errCh s) (shut_p s) (shut_a s) (group_err s) p a
  (cancelled s) (mon s) (mon_cancelled s) (mon_tick s) (refresh s) (refresh_tick s) (timer s).
Definition set_mon m c t s := mkProcess (pc s) (serve_p s) (serve_a s) (errCh s) (shut_p s) (shut_a s) (group_err s)
  (active_p s) (active_a s) (cancelled s) m c t (refresh s) (refresh_tick s) (timer s).
Definition set_refresh r t s := mkProcess (pc s) (serve_p s) (serve_a s) (errCh s) (shut_p s) (shut_a s) (group_err s)
  (active_p s) (active_a s) (cancelled s) (mon s) (mon_cancelled s) (mon_tick s) r t (timer s).
Definition set_outside c t s := mkProcess (pc s) (serve_p s) (serve_a s) (errCh s) (shut_p s) (shut_a s) (group_err s)
  (active_p s) (active_a s) c (mon s) (mon_cancelled s) (mon_tick s) (refresh s) (refresh_tick s) t.

(** The first error stays. *)
Definition or_first (e new : option lc_error) : option lc_error := match e with Some _ => e | None => new end.

(** What one goroutine of [Stop] returns: nothing in flight comes before the context. *)
Definition shutdown_returns (active : nat) (ctx_done : bool) : option (option lc_error) :=
  match active with
  | O => Some None
  | S _ => if ctx_done then Some (Some Canceled) else None
  end.

(** ** Steps of the program *)
Inductive prog_step : process → process → Prop :=
(* Serve returns ErrServerClosed once the listener is closed *)
| p_closed_p s : serve_p s = Serving → shut_p s ≠ ShBegin →
    prog_step s (set_serve Returned (serve_a s) (errCh s ++ [None]) s)
| p_closed_a s : serve_a s = Serving → shut_a s ≠ ShBegin →
    prog_step s (set_serve (serve_p s) Returned (errCh s ++ [None]) s)
(* the select of Start *)
| p_err s r ch : pc s = InSelect → errCh s = r :: ch →
    prog_step s (set_pc (InStop (ServerReturned r)) (set_serve (serve_p s) (serve_a s) ch s))
| p_ctx s : pc s = InSelect → cancelled s = true → prog_step s (set_pc (InStop CtxDone) s)
(* Stop *)
| p_shut_p s : in_stop s = true → shut_p s = ShBegin → prog_step s (set_shut ShWait (shut_a s) (group_err s) s)
| p_shut_a s : in_stop s = true → shut_a s = ShBegin → prog_step s (set_shut (shut_p s) ShWait (group_err s) s)
| p_done_p s r : shut_p s = ShWait → shutdown_returns (active_p s) (group_done s) = Some r →
    prog_step s (set_shut (ShDone r) (shut_a s) (or_first (group_err s) r) s)
| p_done_a s r : shut_a s = ShWait → shutdown_returns (active_a s) (group_done s) = Some r →
    prog_step s (set_shut (shut_p s) (ShDone r) (or_first (group_err s) r) s)
| p_stopped s why rp ra : pc s = InStop why → shut_p s = ShDone rp → shut_a s = ShDone ra →
    prog_step s (set_pc (InMonitorStop (start_result why (group_err s))) (set_mon (mon s) true (mon_tick s) s))
(* mon.Stop: the loop has returned, or the deadline has passed *)
| p_mon_stopped s e : pc s = InMonitorStop e → mon s = Over ∨ timer s = true → prog_step s (set_pc (InRefreshWait e) s)
(* <-refreshDone, and the return of run *)
| p_exit s e : pc s = InRefreshWait e → refresh s = Over → prog_step s (set_pc (Exited (run_result e)) s)
(* the loops *)
| p_mon_probe s : mon s = Idle → mon_tick s = true → prog_step s (set_mon Busy (mon_cancelled s) false s)
| p_mon_done s : mon s = Busy → prog_step s (set_mon Idle (mon_cancelled s) (mon_tick s) s)
| p_mon_over s : mon s = Idle → mon_ctx_done s = true → prog_step s (set_mon Over (mon_cancelled s) (mon_tick s) s)
| p_ref_tick s : refresh s = Idle → refresh_tick s = true → prog_step s (set_refresh Busy false s)
| p_ref_done s : refresh s = Busy → prog_step s (set_refresh Idle (refresh_tick s) s)
| p_ref_over s : refresh s = Idle → cancelled s = true → prog_step s (set_refresh Over (refresh_tick s) s).

(** ** Steps of the surroundings *)
Inductive env_step : process → process → Prop :=
| e_fail_p s m : serve_p s = Serving → env_step s (set_serve Returned (serve_a s) (errCh s ++ [Some (Failure m)]) s)
| e_fail_a s m : serve_a s = Serving → env_step s (set_serve (serve_p s) Returned (errCh s ++ [Some (Failure m)]) s)
| e_open_p s : serve_p s = Serving → env_step s (set_active (S (active_p s)) (active_a s) s)
| e_open_a s : serve_a s = Serving → env_step s (set_active (active_p s) (S (active_a s)) s)
| e_close_p s n : active_p s = S n → env_step s (set_active n (active_a s) s)
| e_close_a s n : active_a s = S n → env_step s (set_active (active_p s) n s)
| e_mon_tick s : env_step s (set_mon (mon s) (mon_cancelled s) true s)
| e_ref_tick s : env_step s (set_refresh (refresh s) true s)
| e_timer s e : pc s = InMonitorStop e → env_step s (set_outside (cancelled s) true s).
(** SIGTERM or SIGINT. *)
Inductive signal_step : process → process → Prop :=
| sig s : signal_step s (set_outside true (timer s) s).

Definition quiet_step (s s' : process) : Prop := prog_step s s' ∨ env_step s s'.
Definition step (s s' : process) : Prop := quiet_step s s' ∨ signal_step s s'.
Definition reachable (s : process) : Prop := rtc step init s.
Definition exited (s : process) : Prop := ∃ r, pc s = Exited r.

(** ** The program's own steps come to an end *)
Definition loop_weight (l : loop_pc) (tick : bool) : nat :=
  match l with Over => 0 | Idle => 1 | Busy => 2 end + (if tick then 2 else 0).
Definition shut_weight (s : shut_pc) : nat := match s with ShBegin => 2 | ShWait => 1 | ShDone _ => 0 end.
Definition serve_weight (s : serve_pc) : nat := match s with Serving => 1 | Returned => 0 end.
Definition pc_weight (p : main_pc) : nat :=
  match p with InSelect => 4 | InStop _ => 3 | InMonitorStop _ => 2 | InRefreshWait _ => 1 | Exited _ => 0 end.
Definition weight (s : process) : nat :=
  pc_weight (pc s) + serve_weight (serve_p s) + serve_weight (serve_a s) + shut_weight (shut_p s) + shut_weight (shut_a s)
  + loop_weight (mon s) (mon_tick s) + loop_weight (refresh s) (refresh_tick s).

Lemma prog_step_weight s s' : prog_step s s' → weight s' < weight s.
Proof.
  destruct 1 as [s|s|s|s|s|s|s|s|s|s|s|s|s|s|s|s|s]; destruct s; cbn in *; simplify_eq/=; unfold weight; cbn; lia.
Qed.

Lemma prog_steps_bound n s s' : nsteps prog_step n s s' → n + weight s' ≤ weight s.
Proof. induction 1 as [|n s1 s2 s3 Hs _ IH]; [lia|]. apply prog_step_weight in Hs. lia. Qed.

(** What the program's steps leave alone. *)
Lemma prog_step_frame s s' : prog_step s s' →
  active_p s' = active_p s ∧ active_a s' = active_a s ∧ cancelled s' = cancelled s.
Proof. by destruct 1. Qed.
Lemma prog_steps_frame s s' : rtc prog_step s s' →
  active_p s' = active_p s ∧ active_a s' = active_a s ∧ cancelled s' = cancelled s.
Proof. induction 1 as [|s1 s2 s3 Hs _ IH]; [done|]. apply prog_step_frame in Hs. intuition congruence. Qed.

(** Once the context is done there is always something to do until the end. *)
Lemma cancelled_progress s : cancelled s = true → exited s ∨ ∃ s', prog_step s s'.
Proof.
  intros Hc. assert (Hg : group_done s = true) by (unfold group_done; by rewrite Hc).
  assert (Hr : ∀ n, is_Some (shutdown_returns n (group_done s))) by (rewrite Hg; intros []; cbn; eauto).
  destruct (pc s) as [|why|e|e|r] eqn:Ep; [..|left; by eexists]; right.
  - eexists. by apply p_ctx.
  - assert (Hin : in_stop s = true) by (unfold in_stop; by rewrite Ep).
    destruct (shut_p s) as [| |rp] eqn:E1; [eexists; by apply p_shut_p| |].
    { destruct (Hr (active_p s)) as [r Hx]. eexists. by eapply p_done_p. }
    destruct (shut_a s) as [| |ra] eqn:E2; [eexists; by apply p_shut_a| |eexists; by eapply p_stopped].
    destruct (Hr (active_a s)) as [r Hx]. eexists. by eapply p_done_a.
  - destruct (mon s) eqn:Em; eexists; [eapply p_mon_over|eapply p_mon_done|eapply p_mon_stopped; [done|by left]]; try done.
    unfold mon_ctx_done. by rewrite Hc.
  - destruct (refresh s) eqn:Er; eexists; [by eapply p_ref_over|by eapply p_ref_done|by eapply p_exit].
Qed.

Lemma cancelled_exits n s : weight s < n → cancelled s = true → ∃ s', rtc prog_step s s' ∧ exited s'.
Proof.
  revert s. induction n as [|n IH]; intros s Hn Hc; [lia|].
  destruct (cancelled_progress s Hc) as [He|[s1 Hs]]; [by exists s|].
  destruct (IH s1) as (s' & Hr & He).
  - apply prog_step_weight in Hs. lia.
  - by destruct (prog_step_frame _ _ Hs) as (_ & _ & ->).
  - exists s'. split; [by eapply rtc_l|done].
Qed.

(** C12: After SIGTERM or SIGINT the process comes to its end on its own: from any state
    with the context cancelled, whatever the goroutines were doing and however their
    steps are interleaved, at most [weight s] steps of the program are possible, a
    program that can do no more has returned from [run], and it can get there without
    anything from outside, in particular with the requests in flight still in flight:
    shutdown does not wait for them. *)
Theorem signal_stops_process s :
  cancelled s = true →
  (∀ n s', nsteps prog_step n s s' → n ≤ weight s)
  ∧ (∀ s', rtc prog_step s s' → nf prog_step s' → exited s')
  ∧ ∃ s', rtc prog_step s s' ∧ exited s' ∧ active_p s' = active_p s ∧ active_a s' = active_a s.
Proof.
  intros Hc. split_and!.
  - intros n s' Hn. apply prog_steps_bound in Hn. lia.
  - intros s' Hr Hnf. destruct (prog_steps_frame _ _ Hr) as (_ & _ & Hc').
    destruct (cancelled_progress s') as [He|[s2 Hs]]; [congruence|done|]. exfalso. apply Hnf. by exists s2.
  - destruct (cancelled_exits (S (weight s)) s) as (s' & Hr & He); [lia|done|]. exists s'.
    destruct (prog_steps_frame _ _ Hr) as (Hp & Ha & _). done.
Qed.

(** ** What holds in every reachable state *)
Record lc_inv (s : process) : Prop := {
  i_ch : length (errCh s) + serve_weight (serve_p s) + serve_weight (serve_a s) ≤ 2;
  i_select : pc s = InSelect → shut_p s = ShBegin ∧ shut_a s = ShBegin ∧ mon_cancelled s = false;
  i_stopped : pc_weight (pc s) ≤ 2 → (∃ rp ra, shut_p s = ShDone rp ∧ shut_a s = ShDone ra) ∧ mon_cancelled s = true;
  i_monitor : pc_weight (pc s) ≤ 1 → mon s = Over ∨ timer s = true;
  i_exited : pc_weight (pc s) ≤ 0 → refresh s = Over;
  i_mon_over : mon s = Over → mon_ctx_done s = true;
  i_refresh : refresh s = Over → cancelled s = true }.

Lemma init_inv : lc_inv init.
Proof. split; cbn; try done; lia. Qed.

Lemma lc_step_inv s s' : step s s' → lc_inv s → lc_inv s'.
Proof.
  intros [[Hs|Hs]|Hs]; destruct Hs as [s|s|s|s|s|s|s|s|s|s|s|s|s|s|s|s|s] || destruct Hs as [s|s|s|s|s|s|s|s|s] || destruct Hs as [s].
  all: intros [I1 I2 I3 I4 I5 I6 I7]; destruct s; unfold in_stop, mon_ctx_done in *; cbn in *; simplify_eq/=.
  all: split; unfold mon_ctx_done; cbn in *; rewrite ?length_app; cbn; try done; try lia.
  all: try (intros; first [apply I2|apply I3|apply I4|apply I5|apply I6|apply I7]; done || lia).
  all: try (destruct pc0; cbn in *; try done; try lia).
  all: intros Hp; try specialize (I2 Hp); try specialize (I3 Hp); try specialize (I4 Hp); try specialize (I5 Hp); naive_solver.
Qed.

Lemma steps_inv s s' : rtc step s s' → lc_inv s → lc_inv s'.
Proof. induction 1 as [|s1 s2 s3 Hs _ IH]; [done|]. intros Hi. apply IH. by eapply lc_step_inv. Qed.

(** [run] returns only after everything it started has been told to stop: a signal
    has been received, both listeners are closed and both shutdowns have returned, the
    refresh loop has ended, and the monitor has ended or its deadline has passed. At no
    time do the server goroutines have more results than the error channel holds, so
    neither is left blocked on it. *)
Theorem exit_is_clean s :
  reachable s →
  length (errCh s) ≤ 2
  ∧ (exited s → cancelled s = true ∧ refresh s = Over ∧ (mon s = Over ∨ timer s = true)
      ∧ ∃ rp ra, shut_p s = ShDone rp ∧ shut_a s = ShDone ra).
Proof.
  intros Hr. destruct (steps_inv _ _ Hr init_inv) as [I1 _ I3 I4 I5 _ I7]. split; [lia|].
  intros [r Hp]. rewrite Hp in I3, I4, I5. cbn in *. specialize (I5 ltac:(lia)).
  destruct (I3 ltac:(lia)) as [? _]. split_and!; [by apply I7|done|apply I4; lia|done].
Qed.

(** ** Without a signal *)
Lemma quiet_cancelled s s' : quiet_step s s' → cancelled s' = cancelled s.
Proof. by intros [Hs|Hs]; destruct Hs. Qed.
Lemma quiet_steps s s' : rtc quiet_step s s' → cancelled s = false → lc_inv s → lc_inv s' ∧ cancelled s' = false.
Proof.
  induction 1 as [|s1 s2 s3 Hs _ IH]; [done|]. intros Hc Hi. apply IH; [|eapply lc_step_inv; [by left|done]].
  by rewrite (quiet_cancelled _ _ Hs).
Qed.

Lemma refresh_wait_stays s s' e :
  quiet_step s s' → lc_inv s → cancelled s = false → pc s = InRefreshWait e → pc s' = InRefreshWait e.
Proof.
  intros Hs Hi Hc Hp. pose proof (i_refresh _ Hi) as Hr.
  destruct Hs as [Hs|Hs]; destruct Hs; cbn; try congruence. exfalso. specialize (Hr ltac:(done)). congruence.
Qed.

(** The run of a proxy that fails: its error is received, both servers are shut down,
    the monitor is stopped. *)
Definition after_failure (m : string) : process :=
  mkProcess (InRefreshWait (Some (Failure m))) Returned Returned [None] (ShDone None) (ShDone None) None 0 0 false Over true false
    Idle false false.

Lemma failure_run m : rtc quiet_step init (after_failure m).
Proof.
  eapply rtc_l; [right; by apply (e_fail_p init m)|].
  eapply rtc_l; [left; by eapply p_err|].
  eapply rtc_l; [left; by eapply p_shut_p|]. eapply rtc_l; [left; by eapply p_shut_a|].
  eapply rtc_l; [left; by eapply p_done_p|]. eapply rtc_l; [left; by eapply p_done_a|].
  eapply rtc_l; [left; by eapply p_closed_a|]. eapply rtc_l; [left; by eapply p_stopped|].
  eapply rtc_l; [left; by eapply p_mon_done|]. eapply rtc_l; [left; by eapply p_mon_over|].
  eapply rtc_l; [left; eapply p_mon_stopped; [done|by left]|]. done.
Qed.

(** A server that fails does not end the process: both servers are shut down and
    [run] then waits for the refresh loop, which only a signal ends. No run without a
    signal ever exits, and from the state the failure leads to the main goroutine never
    moves again. *)
Theorem server_failure_hangs m :
  (∀ s, rtc quiet_step init s → ¬ exited s)
  ∧ ∃ s, rtc quiet_step init s ∧ serve_p s = Returned ∧ serve_a s = Returned
      ∧ pc s = InRefreshWait (Some (Failure m)) ∧ ∀ s', rtc quiet_step s s' → pc s' = pc s.
Proof.
  split.
  - intros s Hr [r Hp]. destruct (quiet_steps _ _ Hr eq_refl init_inv) as [Hi Hc].
    pose proof (i_exited _ Hi) as H5. rewrite Hp in H5. apply (i_refresh _ Hi) in H5; [congruence|cbn; lia].
  - exists (after_failure m). split_and!; [apply failure_run|done..|].
    destruct (quiet_steps _ _ (failure_run m) eq_refl init_inv) as [Hi Hc].
    intros s' Hr. cut (pc s' = InRefreshWait (Some (Failure m))); [done|].
    assert (Hp : pc (after_failure m) = InRefreshWait (Some (Failure m))) by done.
    revert Hi Hc Hp. induction Hr as [|s1 s2 s3 Hs _ IH]; [done|]. intros Hi Hc Hp.
    destruct (quiet_steps s1 s2 (rtc_once _ _ Hs) Hc Hi) as [Hi2 Hc2]. apply IH; [done|done|by eapply refresh_wait_stays].
Qed.

(** Binding: both sockets are open afterwards, or [Listen] fails and holds none it did not
    hold before. *)
Lemma listen_all_or_none bp ba s :
  match Listen bp ba s with (Ok _, s') => s' = mkSockets true true | (Err _, s') => s' = s end.
Proof. unfold Listen. destruct s as [[] []]; cbn; destruct bp, ba; done. Qed.

(** ** Witnesses *)
Lemma signal_stops_process_witness :
  ∃ s', rtc prog_step (mkProcess InSelect Serving Serving [] ShBegin ShBegin None 3 0 true Busy false true Idle true false) s'
    ∧ exited s' ∧ active_p s' = 3 ∧ active_a s' = 0.
Proof.
  apply (signal_stops_process (mkProcess InSelect Serving Serving [] ShBegin ShBegin None 3 0 true Busy false true Idle true false)).
  reflexivity.
Defined.

Lemma exit_is_clean_witness : ∃ s, reachable s ∧ exited s ∧ refresh s = Over.
Proof.
  destruct (cancelled_exits 100 (set_outside true false init)) as (s & Hr & He); [cbn; lia|reflexivity|].
  assert (Hs : reachable s).
  { eapply rtc_l; [right; apply (sig init)|]. eapply rtc_subrel; [|exact Hr]. intros s1 s2 H12. by left; left. }
  exists s. split_and!; [done|done|]. apply (exit_is_clean s Hs). exact He.
Defined.
