(* ===== verification/Migrate.v ===== *)
(** * Opening the database and migrating it (internal/persistence/db.go)

    [Open] and [MigrateUp] of several replicas that boot together, as a step relation over
    one database: the connection, the request for the advisory lock and the reply to it,
    goose's run, the release, and crashes. What the database server does with the lock is
    its own relation ([server_lock]); whether a replica goes on is decided from the reply
    alone, as in the code. goose is a parameter: its run is a sequence of steps on the
    database, of which only the documented behaviour of a run that nobody interferes with
    is assumed. *)
From S2P Require Import Prelude GoStrings.

#[local] Open Scope Z_scope.

Definition pgMigrateLockKey : Z := 5345177286116207.
Definition mysqlMigrateLockName : string := "trino_goway_migrate".
Definition migrateLockTimeout : Z := 60 * 1000000000.

(** The versions of migrations/*.sql, in order. *)
Definition versions : list Z := [1; 2; 3; 4].

Inductive dialect : Type := DialectPostgres | DialectMySQL.
Definition gooseDialect (driver : string) : go_result dialect :=
  if driver =?s "postgres" then Ok DialectPostgres
  else if driver =?s "mysql" then Ok DialectMySQL
  else Err "persistence: migrate: unsupported driver".

(** What the lock statement gives back: an error, or the value of [GET_LOCK] (1 granted, 0
    timed out, NULL failed). [pg_advisory_lock] has no value to look at. *)
Inductive lock_reply : Type := LockErr (m : string) | LockValue (v : option Z).
Definition lock_refused (driver : string) (r : lock_reply) : option string :=
  match r with
  | LockErr m => Some ("persistence: migrate: acquire: " +:+ m)
  | LockValue v => if driver =?s "mysql" then if bool_decide (v = Some 1) then None else Some "persistence: migrate: timed out" else None
  end.

(** The server: the reply to session [i], and the holder of the lock afterwards. A session
    at a time holds the lock; [GET_LOCK] has the value 1 exactly when it was granted, and
    [pg_advisory_lock] returns only then. An error may also hide a grant. *)
Inductive server_lock (driver : string) (i : nat) : option nat → lock_reply → option nat → Prop :=
| sl_mysql_granted : driver = "mysql" → server_lock driver i None (LockValue (Some 1)) (Some i)
| sl_mysql_timeout held : driver = "mysql" → server_lock driver i (Some held) (LockValue (Some 0)) (Some held)
| sl_mysql_failed held : driver = "mysql" → server_lock driver i held (LockValue None) held
| sl_pg_granted : driver = "postgres" → server_lock driver i None (LockValue None) (Some i)
| sl_error held m : server_lock driver i held (LockErr m) held
| sl_error_granted m : server_lock driver i None (LockErr m) (Some i).

Section migrate.
(** Goose: the database, the state of a run, its steps, and its result when it is over;
    [log] is the list of versions the database has had applied to it. *)
Context {D G : Type} (log : D → list Z) (up_start : G) (up_step : G * D → G * D → Prop) (up_result : G → option (go_result unit)).

Inductive replica : Type :=
| RStart
| RConn
| RLocked
| RUp (g : G)
| RRelease (r : go_result unit)
| RReturned (r : go_result unit)
| RCrashed.

(** The database, the holder of the lock, and the replicas. *)
Record cluster : Type := mkCluster { cl_db : D; cl_lock : option nat; cl_reps : list replica }.

Definition goto (i : nat) (r : replica) (c : cluster) : cluster := mkCluster (cl_db c) (cl_lock c) (<[i := r]> (cl_reps c)).

(** One step of [MigrateUp] by replica [i]. *)
Inductive migrate_step (driver : string) : cluster → cluster → Prop :=
| m_driver c i e : cl_reps c !! i = Some RStart → gooseDialect driver = Err e →
    migrate_step driver c (goto i (RReturned (Err e)) c)
| m_conn c i dl : cl_reps c !! i = Some RStart → gooseDialect driver = Ok dl → migrate_step driver c (goto i RConn c)
| m_no_conn c i dl m : cl_reps c !! i = Some RStart → gooseDialect driver = Ok dl →
    migrate_step driver c (goto i (RReturned (Err ("persistence: migrate: acquire connection: " +:+ m))) c)
| m_lock c i rp held : cl_reps c !! i = Some RConn → server_lock driver i (cl_lock c) rp held →
    migrate_step driver c
      (mkCluster (cl_db c) held
         (<[i := match lock_refused driver rp with None => RLocked | Some e => RReturned (Err e) end]> (cl_reps c)))
| m_provider c i : cl_reps c !! i = Some RLocked → migrate_step driver c (goto i (RUp up_start) c)
| m_no_provider c i m : cl_reps c !! i = Some RLocked →
    migrate_step driver c (goto i (RRelease (Err ("persistence: migrate: new provider: " +:+ m))) c)
| m_up c i g g' d' : cl_reps c !! i = Some (RUp g) → up_step (g, cl_db c) (g', d') →
    migrate_step driver c (mkCluster d' (cl_lock c) (<[i := RUp g']> (cl_reps c)))
| m_up_done c i g r : cl_reps c !! i = Some (RUp g) → up_result g = Some r →
    migrate_step driver c
      (goto i (RRelease (match r with Ok _ => Ok tt | Err m => Err ("persistence: migrate: up: " +:+ m) end)) c)
| m_release c i r : cl_reps c !! i = Some (RRelease r) →
    migrate_step driver c (mkCluster (cl_db c) None (<[i := RReturned r]> (cl_reps c)))
(* a failed unlock: the session keeps the lock, in the pool *)
| m_release_failed c i r : cl_reps c !! i = Some (RRelease r) → migrate_step driver c (goto i (RReturned r) c)
(* the process dies: its sessions end, with the lock one of them may hold *)
| m_crash c i r : cl_reps c !! i = Some r →
    migrate_step driver c (mkCluster (cl_db c) (if bool_decide (cl_lock c = Some i) then None else cl_lock c) (<[i := RCrashed]> (cl_reps c))).

(** The server ends the session that holds the lock, and only that one: goose goes on over
    the other connections of the pool. *)
Inductive session_lost : cluster → cluster → Prop :=
| s_lost c i : cl_lock c = Some i → session_lost c (mkCluster (cl_db c) None (cl_reps c)).

(** [Open]: the connection and the migration given, the pool is closed when migrating fails. *)
Definition Open (driver : string) (connected : option string) (autoMigrate : bool) (migrated : go_result unit) :
    go_result unit * list string :=
  if negb (driver =?s "postgres") && negb (driver =?s "mysql") then (Err "persistence: open: unsupported driver", [])
  else match connected with
       | Some m => (Err ("persistence: open: connect: " +:+ m), [])
       | None =>
           if autoMigrate then
             match migrated with Ok _ => (Ok tt, ["open"]) | Err e => (Err e, ["open"; "close"]) end
           else (Ok tt, ["open"])
       end.

(** ** goose run alone *)
Definition prefix_at (k : nat) (d : D) : Prop := log d = take k versions.

Class GooseAlone : Prop := {
  (* a run applies the next versions, one at a time, in order *)
  ga_prefix k d g' d' : prefix_at k d → rtc up_step (up_start, d) (g', d') → ∃ j, (k ≤ j)%nat ∧ prefix_at j d';
  (* and ends without an error only when all are applied *)
  ga_done k d g' d' : prefix_at k d → rtc up_step (up_start, d) (g', d') → up_result g' = Some (Ok tt) → log d' = versions }.
Context `{!GooseAlone}.

(** ** The lock serialises the runs *)
Definition holding (r : replica) : bool := match r with RLocked | RUp _ | RRelease _ => true | _ => false end.

(** [lo] versions are applied for good: the runs that are over have seen them. *)
Definition rep_ok (lo : nat) (d : D) (lock : option nat) (i : nat) (r : replica) : Prop :=
  (holding r = true → lock = Some i)
  ∧ match r with
    | RUp g => ∃ j d0, (lo ≤ j)%nat ∧ prefix_at j d0 ∧ rtc up_step (up_start, d0) (g, d)
    | RRelease (Ok _) | RReturned (Ok _) => (length versions ≤ lo)%nat
    | _ => True
    end.
Definition inv_at (lo : nat) (c : cluster) : Prop :=
  (∃ j, (lo ≤ j)%nat ∧ prefix_at j (cl_db c)) ∧ ∀ i r, cl_reps c !! i = Some r → rep_ok lo (cl_db c) (cl_lock c) i r.
Definition migrate_inv (k : nat) (c : cluster) : Prop := ∃ lo, (k ≤ lo)%nat ∧ inv_at lo c.

(** Only the replica [i] changes, and possibly the lock; it holds the lock, or nobody does. *)
Lemma inv_update lo c i r' lock' :
  inv_at lo c → rep_ok lo (cl_db c) lock' i r' → (lock' = cl_lock c ∨ cl_lock c = None ∨ cl_lock c = Some i) →
  inv_at lo (mkCluster (cl_db c) lock' (<[i := r']> (cl_reps c))).
Proof.
  intros [Hd Hreps] Hr' Hlock. split; [done|]. cbn. intros j r [(<- & <- & _) | [Hne Hj]]%list_lookup_insert_Some; [done|].
  destruct (Hreps j r Hj) as [Hh Hm]. split; [|done]. intros Hx. specialize (Hh Hx).
  destruct Hlock as [-> | [? | ?]]; congruence.
Qed.

(** The lock's holder is the only one in its critical section. *)
Lemma inv_unique lo c i j r r' :
  inv_at lo c → cl_reps c !! i = Some r → cl_reps c !! j = Some r' → holding r = true → holding r' = true → i = j.
Proof. intros [_ Hr] Hi Hj H1 H2. destruct (Hr _ _ Hi) as [L1 _], (Hr _ _ Hj) as [L2 _]. rewrite L1 in L2 by done. naive_solver. Qed.

Lemma inv_up lo c i g g' d' :
  inv_at lo c → cl_reps c !! i = Some (RUp g) → up_step (g, cl_db c) (g', d') →
  inv_at lo (mkCluster d' (cl_lock c) (<[i := RUp g']> (cl_reps c))).
Proof.
  intros Hinv Hi Hs. pose proof Hinv as [_ Hreps]. destruct (Hreps _ _ Hi) as [Hl (j & d0 & Hj & Hp & Hr)].
  assert (Hr' : rtc up_step (up_start, d0) (g', d')) by (by eapply rtc_r).
  destruct (ga_prefix _ _ _ _ Hp Hr') as (j' & Hj' & Hp'). split; [exists j'; split; [lia|done]|].
  cbn. intros i' r [(<- & <- & _) | [Hne Hi']]%list_lookup_insert_Some; [by split; [apply Hl|exists j, d0]|].
  destruct (Hreps _ _ Hi') as [Hh Hm]. split; [done|]. destruct r; try done.
  exfalso. apply Hne. eapply inv_unique; [done|exact Hi|exact Hi'|done|done].
Qed.

Lemma inv_raise lo c i g :
  inv_at lo c → cl_reps c !! i = Some (RUp g) → log (cl_db c) = versions →
  inv_at (Nat.max (length versions) lo) (goto i (RRelease (Ok tt)) c).
Proof.
  intros Hinv Hi Hlog. pose proof Hinv as [[j [Hj Hp]] Hreps]. destruct (Hreps _ _ Hi) as [Hl _]. split.
  - exists (Nat.max (length versions) lo). split; [done|]. unfold prefix_at. change (cl_db _) with (cl_db c). rewrite Hlog, take_ge; [done|apply Nat.le_max_l].
  - pose proof (Nat.le_max_l (length versions) lo). set (lo' := Nat.max _ _) in *. clearbody lo'.
    cbn. intros i' r [(<- & <- & _) | [Hne Hi']]%list_lookup_insert_Some; [split; [by intros _; apply Hl|done]|].
    destruct (Hreps _ _ Hi') as [Hh Hm]. split; [done|]. destruct r as [| | |g'|[]|[]|]; try done.
    exfalso. apply Hne. eapply inv_unique; [done|exact Hi|exact Hi'|done|done].
Qed.

(** The code goes on exactly when the server has granted the lock. *)
Lemma accepted_is_granted driver i held rp held' :
  server_lock driver i held rp held' → lock_refused driver rp = None → held = None ∧ held' = Some i.
Proof. destruct 1 as [-> | held -> | held -> | -> | held m | m]; cbn; try done.  Qed.
Lemma server_lock_keeps driver i held rp held' : server_lock driver i held rp held' → held' = held ∨ held = None.
Proof. destruct 1; auto. Qed.

Lemma migrate_step_inv driver k c c' : migrate_step driver c c' → migrate_inv k c → migrate_inv k c'.
Proof.
  intros Hs (lo & Hk & Hinv). pose proof Hinv as [Hd Hreps].
  destruct Hs as [c i e Hi _|c i dl Hi _|c i dl m Hi _|c i rp held Hi Hsrv|c i Hi|c i m Hi|c i g g' d' Hi Hu|c i g r Hi Hr|c i r Hi|c i r Hi|c i r Hi].
  all: destruct (Hreps _ _ Hi) as [Hl Hm].
  7: { exists lo. split; [done|by eapply inv_up]. }
  7: { destruct r as [[]|m]; [|exists lo; split; [done|apply inv_update; [done|by split|by left]]].
       destruct Hm as (j & d0 & Hj & Hp & Hrun). exists (Nat.max (length versions) lo). split; [lia|].
       eapply inv_raise; [done..|by eapply ga_done]. }
  all: exists lo; split; [done|]; apply inv_update; [done| |try by left].
  all: try (by split).
  - destruct (lock_refused driver rp) eqn:E; [by split|]. by destruct (accepted_is_granted _ _ _ _ _ Hsrv E) as [_ ->].
  - destruct (server_lock_keeps _ _ _ _ _ Hsrv); auto.
  - split; [by apply Hl|]. destruct Hd as (j & Hj & Hp). by exists j, (cl_db c).
  - right. right. by apply Hl.
  - case_bool_decide; auto.
Qed.

Lemma migrate_steps_inv driver k c c' : rtc (migrate_step driver) c c' → migrate_inv k c → migrate_inv k c'.
Proof. induction 1 as [|c1 c2 c3 Hs _ IH]; [done|]. intros Hi. apply IH. by eapply migrate_step_inv. Qed.

(** C11: Replicas that boot together never interleave their migrations: on either driver,
    however many replicas there are, and wherever each of them fails or crashes, at any
    time the versions applied to the database are the first ones in order, each once, and
    at least those it started with; at most one replica is between taking and releasing
    the lock, and the server's lock is its; and a replica whose [MigrateUp] has returned
    without an error has all of them. A session that ends is the session of a replica that
    has crashed or returned ([lost_session_overlaps] shows what happens otherwise). *)
Theorem migrations_serialised driver k n d c :
  prefix_at k d → rtc (migrate_step driver) (mkCluster d None (replicate n RStart)) c →
  (∃ j, (k ≤ j)%nat ∧ log (cl_db c) = take j versions)
  ∧ (∀ i j r r', cl_reps c !! i = Some r → cl_reps c !! j = Some r' → holding r = true → holding r' = true → i = j)
  ∧ (∀ i r, cl_reps c !! i = Some r → holding r = true → cl_lock c = Some i)
  ∧ (∀ i, cl_reps c !! i = Some (RReturned (Ok tt)) → log (cl_db c) = versions).
Proof.
  intros Hp Hr. destruct (migrate_steps_inv driver k _ _ Hr) as (lo & Hk & Hinv).
  { exists k. split; [done|]. split; [by exists k|]. cbn. intros i r [-> _]%lookup_replicate. by split. }
  pose proof Hinv as [(j & Hj & Hp') Hreps]. split_and!.
  - exists j. split; [lia|done].
  - intros *. by apply (inv_unique lo c).
  - intros i r Hi. apply (Hreps _ _ Hi).
  - intros i Hi. destruct (Hreps _ _ Hi) as [_ Hlo]. unfold prefix_at in Hp'. rewrite Hp', take_ge; [done|]. etrans; [exact Hlo|done].
Qed.
End migrate.

(** ** A goose, for the witness: the log is the database; a run reads it, then applies what
    is missing. *)
Module MigrateDemo.
Inductive run : Type := Begin | Applying (todo : list Z).
Inductive up : run * list Z → run * list Z → Prop :=
| up_read l : up (Begin, l) (Applying (drop (length l) versions), l)
| up_apply v todo l : up (Applying (v :: todo), l) (Applying todo, l ++ [v]).
Definition result (g : run) : option (go_result unit) := match g with Applying [] => Some (Ok tt) | _ => None end.

Definition view (k : nat) (s : run * list Z) : Prop :=
  (k ≤ 4)%nat ∧ ∃ j, (k ≤ j ≤ 4)%nat ∧ s.2 = take j versions ∧ match s.1 with Begin => True | Applying todo => todo = drop j versions end.

Lemma view_step k s s' : up s s' → view k s → view k s'.
Proof.
  intros Hs [Hk (j & Hj & Hl & Ht)]. split; [done|]. destruct Hs as [l|v todo l]; cbn in *.
  - exists j. split_and!; [lia|lia|done|]. subst l. rewrite length_take. f_equal. cbn. lia.
  - assert (j < 4)%nat by (destruct (decide (j < 4)%nat); [done|]; rewrite drop_ge in Ht; [done|cbn; lia]).
    exists (S j). do 5 (destruct j as [|j]; [cbn in *; simplify_eq/=; split_and!; (done || lia)|]). lia.
Qed.
Lemma view_steps k s s' : rtc up s s' → view k s → view k s'.
Proof. induction 1; [done|]. intros. by eauto using view_step. Qed.

#[global] Instance goose_alone : GooseAlone id Begin up result.
Proof.
  assert (Hv : ∀ k d g' d', prefix_at id k d → rtc up (Begin, d) (g', d') → view (Nat.min k 4) (g', d')).
  { intros k d g' d' Hp Hr. eapply view_steps; [done|]. split; [lia|]. exists (Nat.min k 4). split_and!; [lia|lia| |done].
    cbn. rewrite Hp. do 5 (destruct k as [|k]; [done|]). cbn. by destruct k. }
  split.
  - intros k d g' d' Hp Hr. destruct (Hv _ _ _ _ Hp Hr) as [_ (j & Hj & Hl & _)]. cbn in Hl. unfold prefix_at, id. subst d'.
    exists (Nat.max j k). split; [lia|]. destruct (decide (k ≤ 4)%nat); [f_equal; lia|].
    rewrite !take_ge; [done|cbn; lia|cbn; lia].
  - intros k d g' d' Hp Hr Hres. destruct (Hv _ _ _ _ Hp Hr) as [_ (j & Hj & Hl & Ht)]. cbn in *. subst d'.
    destruct g' as [|[|]]; [done| |done]. apply (f_equal length) in Ht. rewrite length_drop in Ht. cbn in Ht.
    unfold id. rewrite take_ge; [done|cbn; lia].
Defined.
End MigrateDemo.

Lemma migrations_serialised_witness :
  let c := mkCluster (G := MigrateDemo.run) [1; 2] (Some 1%nat) [RStart; RUp MigrateDemo.Begin] in
  ∃ j, (2 ≤ j)%nat ∧ id (cl_db c) = take j versions.
Proof.
  apply (migrations_serialised (D := list Z) id MigrateDemo.Begin MigrateDemo.up MigrateDemo.result "postgres" 2 2 [1; 2]).
  - reflexivity.
  - eapply rtc_l; [by eapply (m_conn _ _ _ _ _ 1%nat DialectPostgres)|].
    eapply rtc_l; [by eapply (m_lock _ _ _ _ _ 1%nat (LockValue None) (Some 1%nat)), sl_pg_granted|].
    eapply rtc_l; [by eapply (m_provider _ _ _ _ _ 1%nat)|]. apply rtc_refl.
Defined.

(** When the session that holds the lock ends while its replica is migrating, the next
    replica is let in beside it. *)
Lemma lost_session_overlaps :
  let c0 := mkCluster (G := MigrateDemo.run) [] None [RStart; RStart] in
  let step := migrate_step (D := list Z) MigrateDemo.Begin MigrateDemo.up MigrateDemo.result "postgres" in
  ∃ c1 c2 c3, rtc step c0 c1 ∧ session_lost c1 c2 ∧ rtc step c2 c3
    ∧ cl_reps c3 !! 0%nat = Some (RUp MigrateDemo.Begin) ∧ cl_reps c3 !! 1%nat = Some (RUp MigrateDemo.Begin).
Proof.
  cbn zeta. exists (mkCluster [] (Some 0%nat) [RUp MigrateDemo.Begin; RStart]), (mkCluster [] None [RUp MigrateDemo.Begin; RStart]),
    (mkCluster [] (Some 1%nat) [RUp MigrateDemo.Begin; RUp MigrateDemo.Begin]).
  split; [|split; [by apply (s_lost (mkCluster [] (Some 0%nat) [RUp MigrateDemo.Begin; RStart]) 0%nat)|split; [|done]]].
  - eapply rtc_l; [by eapply (m_conn _ _ _ _ _ 0%nat DialectPostgres)|].
    eapply rtc_l; [by eapply (m_lock _ _ _ _ _ 0%nat (LockValue None) (Some 0%nat)), sl_pg_granted|].
    eapply rtc_l; [by eapply (m_provider _ _ _ _ _ 0%nat)|]. apply rtc_refl.
  - eapply rtc_l; [by eapply (m_conn _ _ _ _ _ 1%nat DialectPostgres)|].
    eapply rtc_l; [by eapply (m_lock _ _ _ _ _ 1%nat (LockValue None) (Some 1%nat)), sl_pg_granted|].
    eapply rtc_l; [by eapply (m_provider _ _ _ _ _ 1%nat)|]. apply rtc_refl.
Qed.
