(* ===== verification/Gateway.v ===== *)
(** * The composition root (cmd/trino-goway/main.go)

    The adapters between packages, the refresh of the monitor's backends, the choice of
    the middleware, and [run] and [runMigrate] as sequences of stages with the effects
    they leave behind. The first half composes the store with the router, the monitor
    and the admin API. *)
From S2P Require Import Prelude GoStrings GoNumeric Json HttpModel Config KillQuery Lru RouterPb Routing ClusterStats Monitor Auth AdminAuth Sql Persistence Store AdminApi AdminProps Lifecycle Migrate.

#[local] Open Scope Z_scope.

(** ** Adapters *)
Section adapters.
Context {S : Type} `{StoreOps S}.

Definition active_of (b : Persistence.Backend) : ActiveBackend := mkActiveBackend (b_Name b) (b_URL b) (b_RoutingGroup b).
Definition activeBackendAdapter_ListActive : ST S (go_result (list ActiveBackend)) :=
  r ← so_ListActive;
  mret match r with Err e => Err e | Ok bs => Ok (active_of <$> bs) end.

(** [historyAdapter.Insert]: the record's time is left at its zero value. *)
Definition recorded (queryID backendURL externalURL userName source : string) : QueryRecord :=
  mkQueryRecord queryID backendURL externalURL userName source "" "" zero_time.
Definition historyAdapter_Insert (queryID backendURL userName source : string) : ST S (go_result unit * string) :=
  r ← so_LookupExternalURL backendURL;
  let externalURL := match r with Ok u => u | Err _ => backendURL end in
  so_Insert (recorded queryID backendURL externalURL userName source).

(** The router's history: the access object itself. *)
Definition history_lookup (queryID : string) : ST S (string * option string) :=
  r ← so_LookupByQueryID queryID;
  mret match r with Ok u => (u, None) | Err e => ("", Some e) end.

(** ** Refreshing the monitor's backends *)
Inductive pm_event : Type := BackendRefresh (result : string) | SetDBUp (up : bool).
Record refresh_state : Type := mkRefresh { rf_store : S; rf_mon : Monitor; rf_events : list pm_event }.

Definition monitored (b : Persistence.Backend) : ClusterStats.Backend :=
  ClusterStats.mkBackend (b_Name b) (b_URL b) (b_ExternalURL b) (b_RoutingGroup b).

Definition refreshBackends (has_observer : bool) : ST refresh_state (go_result unit) := λ s,
  let '(r, st) := so_ListActive (rf_store s) in
  match r with
  | Err e => (Err e, mkRefresh st (rf_mon s) (rf_events s ++ [BackendRefresh "error"; SetDBUp false]))
  | Ok bs =>
      (Ok tt, mkRefresh st (SetBackends has_observer (monitored <$> bs) (rf_mon s))
                (rf_events s ++ [BackendRefresh "ok"; SetDBUp true]))
  end.

(** [runBackendRefresh]: one refresh per tick until the context is done; errors are
    logged. *)
Definition defaultBackendRefreshInterval : Z := 15 * 1000000000.
Definition refresh_interval (interval : Z) : Z := if interval <=? 0 then defaultBackendRefreshInterval else interval.
Fixpoint runBackendRefresh (has_observer : bool) (ticks : nat) : ST refresh_state unit :=
  match ticks with
  | O => mret tt
  | Datatypes.S n => _ ← refreshBackends has_observer; runBackendRefresh has_observer n
  end.
End adapters.
Arguments refresh_state : clear implicits.
Arguments mkRefresh {S}.
Arguments rf_store {S}.
Arguments rf_mon {S}.
Arguments rf_events {S}.

(** ** The middleware *)
Definition buildAuthMiddleware {S K} (ParseWithClaims : K → string → option (gmap string json)) (dir : directory)
    (fetched : go_result (K * go_result nat)) (cfg : AuthConfig) : go_result (Middleware S * bool) :=
  let t := au_Type cfg in
  if t =?s "OIDC" then
    match NewOIDC fetched with
    | Err e => Err e
    | Ok jwks => Ok (OIDC_Handler ParseWithClaims jwks, true)
    end
  else if t =?s "LDAP" then Ok (LDAP_Handler dir (LDAP cfg), false)
  else if (t =?s "NOOP") || (t =?s "") then Ok (Noop, false)
  else Err "auth: unknown type".

(** Whichever middleware is built, the admin routes can rely on it. *)
Lemma built_authenticates {S K} P dir fetched cfg (mw : Middleware S) stop :
  buildAuthMiddleware (K := K) P dir fetched cfg = Ok (mw, stop) → ∃ who, Authenticates mw who.
Proof.
  unfold buildAuthMiddleware. intros Hb. destruct (_ =?s "OIDC").
  - destruct (NewOIDC fetched) as [jwks|e]; [|done]. injection Hb as <- <-. eexists. apply oidc_authenticates.
  - destruct (_ =?s "LDAP"); [injection Hb as <- <-; eexists; apply ldap_authenticates|].
    destruct (_ || _); [|done]. injection Hb as <- <-. eexists. apply noop_authenticates.
Qed.

(** ** The router over the store

    The router's world is the store and everything else it talks to. *)
Section wired.
Context {S X C : Type} `{StoreOps S} `{LRU C}.

Definition in_left {A} (m : ST S A) : ST (S * X) A := λ '(s, x), let '(a, s') := m s in (a, (s', x)).
Definition in_right {A} (m : ST X A) : ST (S * X) A := λ '(s, x), let '(a, x') := m x in (a, (s, x')).

Definition router_services (ok : string → string → bool) (ext : Z → out_request → ST X (call_result response))
    (probe : out_request → ST X (call_result response)) (grpc : option (Z → RouteRequest → ST X (call_result RouteResponse)))
    (order : list ActiveBackend → list ActiveBackend) : services (S * X) :=
  mkServices _ (in_left activeBackendAdapter_ListActive) (λ q, in_left (history_lookup q)) ok
    (λ t r, in_right (ext t r)) (λ r, in_right (probe r)) ((λ call t r, in_right (call t r)) <$> grpc) order.

Context (rep : S → store → Prop) (up dates : Prop) (round : Z → Z) `{!StoreSpec S rep up dates round}.
Context (ok : string → string → bool) (ext : Z → out_request → ST X (call_result response))
  (probe : out_request → ST X (call_result response)) (grpc : option (Z → RouteRequest → ST X (call_result RouteResponse)))
  (order : list ActiveBackend → list ActiveBackend) (Horder : ∀ l, order l ≡ₚ l).
#[local] Abbreviation svc := (router_services ok ext probe grpc order).

(** The invariant under which the router is run: the store represents [st]. *)
Definition store_is (st : store) (s : router_state C (S * X)) : Prop := rep (rs_world s).1 st.
Definition active_url (st : store) (u : string) : Prop := ∃ b, b ∈ st_backends st ∧ b_Active b = true ∧ b_URL b = u.

Lemma right_keeps {A} st (m : ST X A) : triple (store_is st) (world (in_right m)) (λ _, True).
Proof using Type. intros s Hs. unfold world, in_right, store_is in *. destruct (rs_world s) as [a x]. by destruct (m x). Qed.

Lemma wired_picks st : picks_ok svc (active_url st) (store_is st).
Proof using Horder StoreSpec0.
  split; [by intros e s Hs| | | | |exact Horder].
  - intros s Hs. unfold world, store_is in *. cbn [list_active router_services].
    unfold in_left, activeBackendAdapter_ListActive, mbind, ST_bind. destruct (rs_world s) as [a x].
    pose proof (spec_ListActive (rep := rep) a st Hs) as Hl. destruct (so_ListActive a) as [[bs|e] a']; cbn in *.
    + destruct Hl as [Hl Hr]. split; [done|]. apply Forall_fmap, Forall_forall. intros b Hb. rewrite Hl in Hb.
      apply list_elem_of_In, filter_In in Hb as [Hb Ha]. apply list_elem_of_In in Hb. by exists b.
    + split; [apply Hl|done].
  - intros t r. apply right_keeps.
  - intros r. apply right_keeps.
  - intros call t r Hc. cbn in Hc. destruct grpc as [g|]; [|done]. injection Hc as <-. apply right_keeps.
Qed.

(** C10: Once a backend has been deactivated through the admin API, no request that names
    no query is routed to it: whatever the routing service answers, the router picks a
    backend that is active in the store and has another name, or none. *)
Theorem deactivated_not_routed env r (a : admin_state S) x st cfg req cache metrics :
  rep (ad_store a) st → up → names_no_query req →
  let a' := (deactivateBackend env r a).2 in
  let u := BackendURL (Route svc cfg req (mkRouterState cache (ad_store a', x) metrics : router_state C (S * X))).1 in
  u = "" ∨ ∃ b, b ∈ st_backends st ∧ b_Active b = true ∧ b_Name b ≠ en_url_param env r "name" ∧ b_URL b = u.
Proof using Horder StoreSpec0.
  intros Hr Hup Hq. cbn zeta. unfold deactivateBackend, AdminApi.set_active, mbind, ST_bind.
  set (n := en_url_param env r "name").
  destruct (in_store_writes _ _ _ _ a st (spec_SetActive (rep := rep) (en_now env) n false) Hr Hup) as (s1 & Hs1 & ->). cbn [snd ad_store].
  destruct (Route_new_url svc cfg _ _ (wired_picks _) req Hq (mkRouterState cache (s1, x) metrics) Hs1) as [_ [Hu|Hu]]; [by left|right].
  destruct Hu as (b & Hb & Hact & Hurl). cbn in Hb. apply list_elem_of_fmap in Hb as (b0 & -> & Hb0). fold n in Hact, Hurl |- *.
  unfold has_name in *. destruct (n =?s b_Name b0) eqn:En; [done|]. seqb_simpl. exists b0. split_and!; [done|done| |done]. congruence.
Qed.
End wired.

(** ** The store under the proxy, the router and the monitor *)
Section over_store.
Context {S : Type} `{StoreOps S} (rep : S → store → Prop) (up dates : Prop) (round : Z → Z) `{!StoreSpec S rep up dates round}.

(** What a call of the adapter does to the abstract store. *)
Lemma insert_effect q u name src s st :
  rep s st → up →
  ∃ x, let '((r, _), s') := historyAdapter_Insert q u name src s in
    r = Ok tt ∧ rep s' (st_insert (kept round (recorded q u x name src)) st).
Proof.
  intros Hr Hup. unfold historyAdapter_Insert, mbind, ST_bind.
  pose proof (spec_LookupExternalURL (rep := rep) u s st Hr) as Hl.
  destruct (so_LookupExternalURL u s) as [[x|e] s1]; [destruct Hl as [_ Hr1]|by destruct Hl]. exists x.
  pose proof (spec_Insert (rep := rep) (recorded q u x name src) s1 st Hr1) as Hi. cbn beta in Hi.
  destruct (so_Insert _ s1) as [[[[]|e] m] s2]; [done|]. by destruct Hi.
Qed.

Lemma find_first_app {A} (p : A → bool) l l' :
  find_first p (l ++ l') = match find_first p l with Some x => Some x | None => find_first p l' end.
Proof using Type. induction l as [|x l IH]; [done|]. cbn. by destruct (p x). Qed.

Lemma find_inserted q rec st :
  q_QueryID rec = q →
  find_first (has_id q) (st_history (st_insert rec st))
  = match find_first (has_id q) (st_history st) with Some old => Some old | None => Some rec end.
Proof using Type.
  intros Hq. unfold st_insert. cbn [st_history]. rewrite Hq. destruct (find_first (has_id q) (st_history st)) as [old|] eqn:E.
  - apply find_first_Some in E as Hold. destruct Hold as [Hin Hid].
    rewrite (proj2 (existsb_exists _ _)); [done|]. exists old. split; [by apply list_elem_of_In|done].
  - assert (existsb (has_id q) (st_history st) = false) as ->.
    { apply not_true_is_false. intros (x & Hx & Hid)%existsb_exists. apply find_first_None in E. rewrite Forall_forall in E.
      apply list_elem_of_In, E in Hx. congruence. }
    rewrite find_first_app, E. cbn. unfold has_id. by rewrite Hq, seqb_refl.
Qed.

(** A query the proxy has recorded is found again by the router's recovery, with the
    backend it ran on; the first record of an id is the one that counts. *)
Theorem recorded_query_is_found q u name src s st :
  rep s st → up →
  let '((r, _), s') := historyAdapter_Insert q u name src s in
  r = Ok tt
  ∧ (history_lookup q s').1
    = (match find_first (has_id q) (st_history st) with Some old => q_BackendURL old | None => u end, None).
Proof.
  intros Hr Hup. destruct (insert_effect q u name src s st Hr Hup) as [x Hi].
  destruct (historyAdapter_Insert q u name src s) as [[r m] s1]. destruct Hi as [-> Hr1]. split; [done|].
  unfold history_lookup, mbind, ST_bind. pose proof (spec_LookupByQueryID (rep := rep) q s1 _ Hr1) as Hl.
  destruct (so_LookupByQueryID q s1) as [[v|e] s2]; [|by destruct Hl]. destruct Hl as [-> _]. cbn [fst mret ST_ret]. f_equal.
  rewrite find_inserted by done. by destruct (find_first _ _).
Qed.

(** A refresh that succeeds gives the monitor exactly the backends active in the
    store, with their URLs and groups; one that fails leaves the monitor's list as it
    was. Either way the outcome is counted and the database gauge set. *)
Theorem refresh_follows_store obs (s : refresh_state S) st :
  rep (rf_store s) st →
  let '(r, s') := refreshBackends obs s in
  rep (rf_store s') st
  ∧ match r with
    | Ok _ => backends (rf_mon s') ≡ₚ monitored <$> List.filter b_Active (st_backends st)
              ∧ rf_events s' = rf_events s ++ [BackendRefresh "ok"; SetDBUp true]
    | Err _ => rf_mon s' = rf_mon s ∧ ¬ up ∧ rf_events s' = rf_events s ++ [BackendRefresh "error"; SetDBUp false]
    end.
Proof.
  intros Hr. unfold refreshBackends. pose proof (spec_ListActive (rep := rep) _ _ Hr) as Hl.
  destruct (so_ListActive (rf_store s)) as [[bs|e] s']; cbn; destruct Hl as [Hl Hr']; split_and!; try done.
  unfold SetBackends, notifyObserver. destruct obs; cbn; by rewrite Hl.
Qed.

(** The proxy's records over a sequence of queries: (id, backend, user, source). *)
Fixpoint record_all (qs : list (string * string * string * string)) : ST S unit :=
  match qs with
  | [] => mret tt
  | (q, u, name, src) :: qs => _ ← historyAdapter_Insert q u name src; record_all qs
  end.

Lemma record_all_history qs s st :
  rep s st → up → Forall (λ q, q_CreatedAt q = round zero_time) (st_history st) →
  ∃ st', rep (record_all qs s).2 st' ∧ Forall (λ q, q_CreatedAt q = round zero_time) (st_history st').
Proof.
  revert s st. induction qs as [|[[[q u] name] src] qs IH]; intros s st Hr Hup Hall; [by exists st|].
  cbn. unfold mbind, ST_bind. destruct (insert_effect q u name src s st Hr Hup) as [x Hi].
  destruct (historyAdapter_Insert q u name src s) as [[r m] s1]. destruct Hi as [-> Hr1]. eapply IH; [done..|].
  unfold st_insert. cbn [st_history]. destruct (existsb _ _); [done|]. apply Forall_app. split; [done|by repeat constructor].
Qed.

(** The dashboard's line chart has no point for any query the gateway itself has
    recorded, on either driver: records are stored with the zero time, which is before
    every window. *)
Theorem recorded_queries_not_charted env hours names qs (a : admin_state S) st :
  rep (ad_store a) st → up → st_history st = [] → round zero_time < en_now env + wrap64 (- hours * hour_ns) →
  let a' := mkAdmin (record_all qs (ad_store a)).2 (ad_monitor a) (ad_stats a) (ad_ready a) in
  (buildLineChart env hours names a').1 = ∅.
Proof.
  intros Hr Hup Hh Hw. cbn zeta. destruct (record_all_history qs (ad_store a) st Hr Hup) as (st' & Hr' & Hall); [by rewrite Hh|].
  unfold buildLineChart, mbind, ST_bind, in_store. cbn [ad_store].
  pose proof (spec_FindDistribution (rep := rep) (en_now env + wrap64 (- hours * hour_ns)) _ _ Hr') as Hd.
  destruct (so_FindDistribution _ _) as [[bs|e] s2]; [|done]. destruct Hd as [(_ & _ & Hin) _].
  destruct bs as [|b bs]; [done|]. exfalso. destruct (proj1 (Hin b)) as [Hc Hpos]; [left|].
  assert (Hz : List.filter (in_bucket (en_now env + wrap64 (- hours * hour_ns)) (MinuteStart b) (d_BackendURL b)) (st_history st') = []).
  { clear -Hall Hw. induction Hall as [|q l Hq _ IH]; [done|]. cbn. unfold in_bucket at 1.
    replace (_ <=? q_CreatedAt q) with false; [done|]. symmetry. apply Z.leb_gt. lia. }
  rewrite Hz in Hc. cbn in Hc. lia.
Qed.
End over_store.

(** ** The stages of [run] *)
Inductive boot_event : Type :=
| EDBOpen | EDBUp (up : bool) | EDBClose
| EListen | ERefresh (ok : bool) | EMonitorStart | EServe | EMonitorStop | ERefreshDone | EAuthStop.
#[global] Instance boot_event_eq_dec : EqDecision boot_event.
Proof. solve_decision. Defined.

(** A stage leaves events and succeeds, fails, or never ends. *)
Inductive outcome (A : Type) : Type := Returns (r : go_result A) | Blocks.
Arguments Returns {A} r.
Arguments Blocks {A}.
Definition boot (A : Type) : Type := list boot_event * outcome A.
#[global] Instance boot_ret : MRet boot := λ A a, ([], Returns (Ok a)).
#[global] Instance boot_bind : MBind boot := λ A B f m,
  match m with
  | (es, Returns (Ok a)) => let '(es', r) := f a in (es ++ es', r)
  | (es, Returns (Err e)) => (es, Returns (Err e))
  | (es, Blocks) => (es, Blocks)
  end.
Definition leave (es : list boot_event) : boot unit := (es, Returns (Ok tt)).
Definition check {A} (what : string) (r : go_result A) : boot A :=
  ([], Returns match r with Ok a => Ok a | Err e => Err ("trino-goway: " +:+ what +:+ ": " +:+ e) end).
Definition must (what : string) (err : option string) : boot unit :=
  check what (match err with None => Ok tt | Some e => Err e end).
(** A channel or call that is waited for. *)
Definition wait {A} (r : option A) : boot A := ([], match r with Some a => Returns (Ok a) | None => Blocks end).
(** [defer]: the events of the rest, then these, whatever the rest returned, if it returned. *)
Definition deferring {A} (es : list boot_event) (m : boot A) : boot A :=
  match m with (es', Blocks) => (es', Blocks) | (es', r) => (es' ++ es, r) end.

(** What [run] gets from outside: registrations, the database, the gRPC dialer, the OIDC
    provider, the embedded files, the sockets, the first refresh, what [lc.Start] returns,
    if it does, and whether a signal ever ends the root context, which alone ends the
    refresh loop (Lifecycle.v says which of these combine). *)
Record boot_env (K : Type) : Type := mkBootEnv {
  be_load : go_result Config;
  be_register : string → option string;
  be_open : DBConfig → go_result unit;
  be_router : ExternalConfig → option string;
  be_parse : K → string → option (gmap string json); be_dir : directory; be_fetched : go_result (K * go_result nat);
  be_weblogin : OIDCConfig → option string;
  be_webdist : option string;
  be_bind : Z → option string;
  be_refresh : go_result unit;
  be_start : option (option lc_error);
  be_signal : bool }.
Arguments be_load {K}.
Arguments be_register {K}.
Arguments be_open {K}.
Arguments be_router {K}.
Arguments be_parse {K}.
Arguments be_dir {K}.
Arguments be_fetched {K}.
Arguments be_weblogin {K}.
Arguments be_webdist {K}.
Arguments be_bind {K}.
Arguments be_refresh {K}.
Arguments be_start {K}.
Arguments be_signal {K}.

Section run.
(** [J]: the collectors' cookie jars. *)
Context {S J K : Type} (env : boot_env K).

(** The metric families, in the order they are registered. *)
Definition families : list string := ["runtime"; "http"; "proxy"; "backend"; "router"; "auth"; "persistence"].
Fixpoint register_all (fs : list string) : boot unit :=
  match fs with
  | [] => mret tt
  | f :: fs => _ ← must ("register " +:+ f +:+ " metrics") (be_register env f); register_all fs
  end.

(** A client for statistics exists only for the collectors that need one. *)
Definition has_stats_client (cfg : Config) : bool :=
  let mt := MonitorType (Config.ClusterStats cfg) in (mt =?s "UI_API") || (mt =?s "METRICS").

(** From the bound sockets to the end of [run]. *)
Definition serve_stages (cfg : Config) : boot unit :=
  _ ← check "bind listeners" (Listen (be_bind env (px_Port (Proxy cfg))) (be_bind env (ad_Port (Config.Admin cfg)))
                                 (mkSockets false false)).1;
  _ ← leave [EListen; ERefresh (is_Ok (be_refresh env))];
  _ ← check "start monitor" (Monitor.Start (Config.Monitor cfg));
  _ ← leave [EMonitorStart; EServe];
  startErr ← wait (be_start env);
  _ ← leave [EMonitorStop];
  _ ← wait (if be_signal env then Some tt else None);
  _ ← leave [ERefreshDone];
  ([], Returns (run_result startErr)).

Definition web_login_stage (cfg : Config) : boot unit :=
  let a := Config.Auth cfg in
  if (au_Type a =?s "OIDC") && negb (RedirectURL (OIDC a) =?s "")
  then must "build oidc web login" (be_weblogin env (OIDC a)) else mret tt.

(** With the database open. *)
Definition wired_stages (cfg : Config) : boot unit :=
  _ ← check "build cluster-stats collector"
        (NewCollector (J := J) (Config.ClusterStats cfg) (Config.Monitor cfg) (Config.BackendState cfg) (Some (m_Status New)));
  _ ← must "build router" (be_router env (External (Config.Routing cfg)));
  '(_, stop) ← check "build auth" (buildAuthMiddleware (S := S) (be_parse env) (be_dir env) (be_fetched env) (Config.Auth cfg));
  deferring (if stop : bool then [EAuthStop] else [])
    (_ ← web_login_stage cfg;
     _ ← must "web dist sub fs" (be_webdist env);
     serve_stages cfg).

Definition run : boot unit :=
  cfg ← check "load config" (be_load env);
  _ ← register_all families;
  if Driver (DB cfg) =?s "" then ([], Returns (Err "trino-goway: db.driver must be configured"))
  else match be_open env (DB cfg) with
       | Err e => ([EDBUp false], Returns (Err ("trino-goway: open db: " +:+ e)))
       | Ok _ => _ ← leave [EDBOpen; EDBUp true]; deferring [EDBClose] (wired_stages cfg)
       end.

(** [--migrate-only]: migrations are forced on, nothing is served. *)
Definition runMigrate : boot unit :=
  cfg ← check "load config" (be_load env);
  if Driver (DB cfg) =?s "" then ([], Returns (Err "trino-goway: --migrate-only requires db.driver to be configured"))
  else
    _ ← check "migrate" (be_open env (mkDBConfig (Driver (DB cfg)) (DSN (DB cfg)) true));
    leave [EDBOpen; EDBClose].
End run.

(** Occurrences of an event. *)
Definition times (e : boot_event) (tr : list boot_event) : nat := length (List.filter (λ x, bool_decide (x = e)) tr).

(** What the stages up to serving leave: nothing, or the sockets without serving, or the
    whole course; or they serve on, or wait for the refresh loop. *)
Inductive course {K} (env : boot_env K) : list boot_event → outcome unit → Prop :=
| c_nothing e : course env [] (Returns (Err e))
| c_bound b e : course env [EListen; ERefresh b] (Returns (Err e))
| c_served b start : be_start env = Some start → be_signal env = true →
    course env [EListen; ERefresh b; EMonitorStart; EServe; EMonitorStop; ERefreshDone] (Returns (run_result start))
| c_serving b : be_start env = None → course env [EListen; ERefresh b; EMonitorStart; EServe] Blocks
| c_waiting b start : be_start env = Some start → be_signal env = false →
    course env [EListen; ERefresh b; EMonitorStart; EServe; EMonitorStop] Blocks.

Lemma serve_course {K} (env : boot_env K) cfg : course env (serve_stages env cfg).1 (serve_stages env cfg).2.
Proof.
  unfold serve_stages. destruct (Listen _ _ _) as [[[]|e] s]; [|constructor]. cbn.
  destruct (Monitor.Start (Config.Monitor cfg)) as [[]|e]; cbn; [|constructor].
  destruct (be_start env) as [start|] eqn:Es; cbn; [|by constructor].
  destruct (be_signal env) eqn:Eg; cbn; by econstructor.
Qed.

(** Deferred work runs when the rest returns. *)
Definition ending {A} (r : outcome A) (es : list boot_event) : list boot_event := match r with Returns _ => es | Blocks => [] end.
Definition wired_trace {K} (env : boot_env K) (tr : list boot_event) (stop : bool) (r : outcome unit) : Prop :=
  ∃ mid, tr = mid ++ ending r (if stop then [EAuthStop] else []) ∧ course env mid r.

Lemma wired_course {S J K} (env : boot_env K) cfg :
  ∃ stop, wired_trace env (wired_stages (S := S) (J := J) env cfg).1 stop (wired_stages (S := S) (J := J) env cfg).2.
Proof.
  assert (Hnil : ∀ e, wired_trace env [] false (Returns (Err e))) by (intros e; exists []; split; [done|constructor]).
  unfold wired_stages. destruct (NewCollector _ _ _ _); [|exists false; apply Hnil]. cbn -[serve_stages web_login_stage].
  destruct (be_router env _); [exists false; apply Hnil|]. cbn -[serve_stages web_login_stage].
  destruct (buildAuthMiddleware _ _ _ _) as [[mw stop]|e]; [|exists false; apply Hnil]. cbn -[serve_stages web_login_stage]. exists stop.
  assert (Herr : ∀ e, wired_trace env (if stop then [EAuthStop] else []) stop (Returns (Err e))) by (intros e; exists []; split; [done|constructor]).
  assert (web_login_stage env cfg = ([], Returns (Ok tt)) ∨ ∃ e, web_login_stage env cfg = ([], Returns (Err e))) as [->|[e ->]]; [|..|apply Herr].
  { unfold web_login_stage, must, check. destruct (_ && _); [|by left]. destruct (be_weblogin _ _); [right; by eexists|by left]. }
  cbn -[serve_stages]. destruct (be_webdist env); [apply Herr|]. cbn -[serve_stages]. pose proof (serve_course env cfg) as Hc.
  destruct (serve_stages env cfg) as [es [r|]]; exists es; (split; [|done]); cbn; by rewrite ?app_nil_r.
Qed.

Lemma register_silent {K} (env : boot_env K) fs : register_all env fs = ([], Returns (Ok tt)) ∨ ∃ e, register_all env fs = ([], Returns (Err e)).
Proof.
  induction fs as [|f fs IH]; [by left|]. cbn. destruct (be_register env f); [right; by eexists|]. cbn.
  destruct IH as [->|[e ->]]; [by left|right; by eexists].
Qed.

(** What a run may be: it returns with the database closed as often as opened, or it is
    stuck after serving with the database open. *)
Definition bracketed {K} (env : boot_env K) (tr : list boot_event) (r : outcome unit) : Prop :=
  match r with
  | Returns res =>
      times EDBOpen tr = times EDBClose tr ∧ (res = Ok tt → EServe ∈ tr)
      ∧ (EServe ∈ tr → be_start env ≠ None ∧ be_signal env = true
         ∧ ∃ b tail, (tail = [] ∨ tail = [EAuthStop])
           ∧ tr = [EDBOpen; EDBUp true; EListen; ERefresh b; EMonitorStart; EServe; EMonitorStop; ERefreshDone] ++ tail ++ [EDBClose])
  | Blocks =>
      (be_start env = None ∨ be_signal env = false)
      ∧ ∃ b, tr = [EDBOpen; EDBUp true; EListen; ERefresh b; EMonitorStart; EServe] ++ (if be_start env then [EMonitorStop] else [])
  end.

Lemma bracketed_failed {K} (env : boot_env K) tr e :
  times EDBOpen tr = times EDBClose tr → bool_decide (EServe ∈ tr) = false → bracketed env tr (Returns (Err e)).
Proof. intros Ht Hs%bool_decide_eq_false. by split_and!. Qed.

Lemma bracketed_course {K} (env : boot_env K) mid stop r :
  course env mid r →
  bracketed env ([EDBOpen; EDBUp true] ++ (mid ++ ending r (if stop : bool then [EAuthStop] else [])) ++ ending r [EDBClose]) r.
Proof.
  intros [e|b e|b start Hs Hg|b Hs|b start Hs Hg]; cbn [ending].
  1,2: destruct stop; by apply bracketed_failed.
  - split_and!; [by destruct stop|intros _; do 5 right; left|]. intros _. split_and!; [congruence|done|].
    exists b, (if stop then [EAuthStop] else []). split; [destruct stop; auto|done].
  - split; [by left|]. exists b. by rewrite Hs.
  - split; [by right|]. exists b. by rewrite Hs.
Qed.


(** A configuration that [Load] accepts, with a database and an authentication type
    that exists, does not stop the gateway from serving by itself: when nothing outside
    fails, [run] serves. *)
Theorem loaded_config_serves {S J K} (env : boot_env K) read_file yaml path cfg :
  be_load env = Load read_file yaml path → be_load env = Ok cfg →
  Driver (DB cfg) ≠ "" → au_Type (Config.Auth cfg) ∈ [""; "NOOP"; "LDAP"; "OIDC"] →
  (∀ f, be_register env f = None) → (∀ d, be_open env d = Ok tt) → (∀ x, be_router env x = None) →
  (∀ o, be_weblogin env o = None) → be_webdist env = None → (∀ p, be_bind env p = None) → is_Ok (NewOIDC (be_fetched env)) = true →
  EServe ∈ (run (S := S) (J := J) env).1.
Proof.
  intros Hload Hcfg Hdrv Hauth Hreg Hopen Hrt Hwl Hwd Hbind Hoidc.
  rewrite Hcfg in Hload. symmetry in Hload. apply load_ok in Hload as (Hok & _ & Hint & Hto & _).
  unfold run. rewrite Hcfg. cbn -[wired_stages]. rewrite !Hreg. cbn -[wired_stages]. apply seqb_neq in Hdrv as ->. rewrite Hopen. cbn -[wired_stages].
  unfold wired_stages. assert (∃ c, NewCollector (J := J) (Config.ClusterStats cfg) (Config.Monitor cfg) (Config.BackendState cfg)
    (Some (m_Status New)) = Ok c) as [c ->].
  { pose proof (co_monitor _ Hok) as Hm. unfold NewCollector. rewrite !elem_of_cons in Hm.
    destruct Hm as [-> | [-> | [-> | [-> | [-> | ?%elem_of_nil]]]]]; [by eexists..|done]. }
  cbn -[serve_stages web_login_stage]. rewrite Hrt. cbn -[serve_stages web_login_stage].
  assert (∃ mw, buildAuthMiddleware (S := S) (be_parse env) (be_dir env) (be_fetched env) (Config.Auth cfg) = Ok mw) as [[mw stop] ->].
  { unfold buildAuthMiddleware. rewrite !elem_of_cons in Hauth.
    destruct Hauth as [-> | [-> | [-> | [-> | ?%elem_of_nil]]]]; [by eexists..| |done].
    cbn. destruct (NewOIDC (be_fetched env)); [by eexists|done]. }
  cbn -[serve_stages web_login_stage]. unfold web_login_stage. rewrite Hwl, Hwd.
  assert (Hserve : ∃ es, (serve_stages env cfg).1 = [EListen; ERefresh (is_Ok (be_refresh env)); EMonitorStart; EServe] ++ es).
  { unfold serve_stages. rewrite !Hbind. cbn. unfold Monitor.Start.
    apply Z.eqb_neq in Hint as ->. apply Z.eqb_neq in Hto as ->. cbn. destruct (be_start env); cbn; [|by eexists []].
    destruct (be_signal env); cbn; by eexists. }
  destruct (serve_stages env cfg) as [es r]. destruct Hserve as [es' Hserve]. cbn in Hserve. subst es.
  destruct (_ && _), r; cbn; do 5 right; left.
Qed.

(** ** Witnesses *)
Import StoreDemo ApiDemo.
#[local] Abbreviation pg := (eng "postgres").
#[local] Instance pg_store : StoreSpec (H := dao_ops pg) database dao_rep (dao_up pg) (dao_dates pg) id.
Proof. apply (dao_spec pg). by left. Defined.

Lemma deactivated_not_routed_witness :
  let svc := router_services (S := database) (X := unit) (H := dao_ops pg) (λ _ _, true) (λ _ _, mret (CErr (mkCallError "down" false)))
               (λ _, mret (CErr (mkCallError "down" false))) None id in
  let a' := (deactivateBackend (H := dao_ops pg) env (post "b1" "") state).2 in
  let u := BackendURL (Route svc Routing.w_cfg (Routing.w_req "/v1/statement")
                         (mkRouterState (ListLru 4096 []) (ad_store a', tt) [] : router_state list_lru (database * unit))).1 in
  u = "" ∨ ∃ b, b ∈ [b1; b2] ∧ b_Active b = true ∧ b_Name b ≠ "b1" ∧ b_URL b = u.
Proof.
  apply (deactivated_not_routed (H := dao_ops pg) dao_rep (dao_up pg) (dao_dates pg) id (λ _ _, true)
    (λ _ _, mret (CErr (mkCallError "down" false))) (λ _, mret (CErr (mkCallError "down" false))) None id (λ l, reflexivity l)
    env (post "b1" "") state tt st Routing.w_cfg (Routing.w_req "/v1/statement") (ListLru 4096 []) []).
  - apply db_rep.
  - apply eng_up.
  - by split.
Defined.

Lemma recorded_query_is_found_witness :
  (history_lookup (H := dao_ops pg) "q9" (historyAdapter_Insert (H := dao_ops pg) "q9" "http://b2:8080" "ann" "cli" db).2).1
  = ("http://b2:8080", None).
Proof.
  pose proof (recorded_query_is_found (H := dao_ops pg) dao_rep (dao_up pg) (dao_dates pg) id "q9" "http://b2:8080" "ann" "cli"
    db st db_rep (eng_up _)) as Hf.
  destruct (historyAdapter_Insert "q9" "http://b2:8080" "ann" "cli" db) as [[r m] s']. apply Hf.
Defined.

Lemma refresh_follows_store_witness :
  let '(r, s') := refreshBackends (H := dao_ops pg) true (mkRefresh db New []) in
  match r with
  | Ok _ => backends (rf_mon s') ≡ₚ [monitored b1]
  | Err _ => False
  end.
Proof.
  pose proof (refresh_follows_store (H := dao_ops pg) dao_rep (dao_up pg) (dao_dates pg) id true (mkRefresh db New []) st db_rep) as Hf.
  destruct (refreshBackends true _) as [[r|e] s'].
  - apply Hf.
  - destruct Hf as (_ & _ & Hn & _). apply Hn, eng_up.
Defined.

Definition no_history : database := mkDb (list_to_map [("gateway_backend", backend_row <$> [b1; b2])]) 0.
Lemma no_history_rep : dao_rep no_history (mkStore [b1; b2] []).
Proof. split_and!; [done|done|]. split_and!; [|constructor|constructor]. apply (bool_decide_unpack _). by vm_compute. Defined.

Lemma recorded_queries_not_charted_witness :
  let a := mkAdmin (record_all (H := dao_ops pg) [("q1", "http://b1:8080", "ann", "cli")] no_history).2 New ∅ true in
  (buildLineChart (H := dao_ops pg) env 1 {["http://b1:8080" := "b1"]} a).1 = ∅.
Proof.
  apply (recorded_queries_not_charted (H := dao_ops pg) dao_rep (dao_up pg) (dao_dates pg) id env 1 {["http://b1:8080" := "b1"]}
    [("q1", "http://b1:8080", "ann", "cli")] (mkAdmin no_history New ∅ true) (mkStore [b1; b2] [])).
  - apply no_history_rep.
  - apply eng_up.
  - reflexivity.
  - by vm_compute.
Defined.

Definition demo_config : Config :=
  let c := applyDefaults defaultConfig in
  mkConfig (Proxy c) (Config.Admin c) (Config.Monitor c) (mkDBConfig "postgres" "" true) (Config.Routing c) (Config.Auth c) (Cookie c)
    (Config.Metrics c) (UI c) (Config.ClusterStats c) (Config.BackendState c).
Definition demo_boot : boot_env unit :=
  mkBootEnv unit (Load (λ _, Ok "") (λ _ _, Ok demo_config) "config.yml") (λ _, None) (λ _, Ok tt) (λ _, None) (λ _ _, None)
    (mkDirectory (λ _, None) (λ _ _, None) (λ _ _, Ok []) id) (Ok (tt, Ok 1%nat)) (λ _, None) None (λ _, None) (Ok tt) (Some None) true.

Lemma loaded_config_serves_witness : EServe ∈ (run (S := unit) (J := unit) demo_boot).1.
Proof.
  apply (loaded_config_serves demo_boot (λ _, Ok "") (λ _ _, Ok demo_config) "config.yml" demo_config); try reflexivity.
  - discriminate.
  - right. left.
Defined.
