(* ===== verification/DiffHarness.v ===== *)
(** * The differential harness (internal/diffharness, cmd/goway-diff-harness)

    Scenarios are replayed at two gateways, their last responses normalised and compared,
    or recorded and compared later. HTTP clients, [url.Parse], YAML decoding, files,
    Go's printing of floats and the texts of go-cmp are parameters; of the latter only
    that the text is empty exactly for equal values is used. *)
From Stdlib Require Import SpecFloat.
From S2P Require Import Prelude GoStrings GoNumeric Json HttpModel ClusterStats.

#[local] Open Scope Z_scope.
#[local] Set Warnings "-register-all".

(** ** Decoded documents ([any])

    A [map[string]any] is a list sorted by key without duplicates. *)
Inductive any : Type :=
| ANull
| ABool (b : bool)
| AFloat (x : f64)
| AStr (s : string)
| AArr (l : list any)
| AObj (m : list (string * any)).

Fixpoint put (k : string) (v : any) (m : list (string * any)) : list (string * any) :=
  match m with
  | [] => [(k, v)]
  | (k', v') :: r =>
      match String.compare k k' with
      | Lt => (k, v) :: m
      | Eq => (k, v) :: r
      | Gt => (k', v') :: put k v r
      end
  end.

(** [json.Unmarshal] into [any]: the last of several values of a key counts, a number out
    of the range of float64 is an error. *)
Fixpoint any_of (v : json) : option any :=
  match v with
  | JNull => Some ANull
  | JBool b => Some (ABool b)
  | JNum lit => AFloat <$> parse_float (λ _, None) lit
  | JStr s => Some (AStr s)
  | JArr l =>
      AArr <$> (fix go (l : list json) : option (list any) :=
                  match l with [] => Some [] | x :: l => y ← any_of x; ys ← go l; Some (y :: ys) end) l
  | JObj kvs =>
      AObj <$> (fix go (m : list (string * any)) (kvs : list (string * json)) : option (list (string * any)) :=
                  match kvs with [] => Some m | (k, x) :: kvs => y ← any_of x; go (put k y m) kvs end) [] kvs
  end.
Definition decode_any (body : string) : option any := v ← unmarshal_ast body; any_of v.

(** Equality as go-cmp sees it: floats by [==]. *)
Fixpoint any_eqb (a b : any) : bool :=
  match a, b with
  | ANull, ANull => true
  | ABool x, ABool y => Bool.eqb x y
  | AFloat x, AFloat y => SFeqb x y
  | AStr x, AStr y => x =?s y
  | AArr l, AArr l' =>
      (fix go (l l' : list any) : bool :=
         match l, l' with [], [] => true | x :: l, y :: l' => any_eqb x y && go l l' | _, _ => false end) l l'
  | AObj m, AObj m' =>
      (fix go (m m' : list (string * any)) : bool :=
         match m, m' with
         | [], [] => true
         | (k, x) :: m, (k', y) :: m' => (k =?s k') && any_eqb x y && go m m'
         | _, _ => false
         end) m m'
  | _, _ => false
  end.

Definition remove_key (k : string) (m : list (string * any)) : list (string * any) :=
  List.filter (λ kv, negb (fst kv =?s k)) m.

(** [deleteJSONPath]: a path is followed through objects and applied to every element of
    an array. *)
Fixpoint deleteJSONPath (node : any) (path : list string) : any :=
  match path with
  | [] => node
  | p :: rest =>
      match node with
      | AArr l => AArr (map (λ e, deleteJSONPath e path) l)
      | AObj m =>
          match rest with
          | [] => AObj (remove_key p m)
          | _ => AObj (map (λ kv, if fst kv =?s p then (fst kv, deleteJSONPath (snd kv) rest) else kv) m)
          end
      | _ => node
      end
  end.

(** The loop of [stripJSONFields]. *)
Definition strip_doc (doc : any) (fields : list string) : any :=
  foldl (λ d f, deleteJSONPath d (split_on "." f)) doc fields.

(** [m[k]]: nil for a missing key. *)
Definition get_key (k : string) (m : list (string * any)) : any :=
  from_opt ANull (snd <$> find_first (λ kv, fst kv =?s k) m).
Fixpoint follow (cur : any) (parts : list string) : option any :=
  match parts with
  | [] => Some cur
  | p :: ps => match cur with AObj m => follow (get_key p m) ps | _ => None end
  end.

(** ** Scenarios *)
Record RepeatPolicy : Type := mkRepeat { NoField : string; MaxIterations : Z }.
Record Step : Type := mkStep {
  st_Method : string; Path : string; PathFromVar : string; st_Headers : gmap string string; st_Body : string;
  Extract : gmap string string; RepeatUntil : option RepeatPolicy }.
Record DiffPolicy : Type := mkPolicy { IgnoreHeaders : list string; IgnoreBodyFields : list string; RewriteHostPort : bool }.
Record Scenario : Type := mkScenario { sc_Name : string; Description : string; Steps : list Step; Diff_ : DiffPolicy }.

(** [LoadScenario], after reading and decoding the file. *)
Definition LoadScenario (read : go_result string) (yaml : string → go_result Scenario) : go_result Scenario :=
  match read with
  | Err e => Err ("read scenario: " +:+ e)
  | Ok raw =>
      match yaml raw with
      | Err e => Err ("parse scenario: " +:+ e)
      | Ok s =>
          if sc_Name s =?s "" then Err "scenario: missing required field 'name'"
          else match Steps s with [] => Err "scenario: must declare at least one step" | _ => Ok s end
      end
  end.

(** ** Responses *)
Record Response_ : Type := mkResp { StatusCode : Z; rs_Headers : header; rs_Body : string }.

Definition HostNormalizationToken : string := "<GATEWAY>".

(** [strings.ReplaceAll] of a non-empty text: leftmost occurrences, not overlapping. *)
Fixpoint replace_fuel (fuel : nat) (old new s : string) : string :=
  match fuel with
  | O => s
  | S f =>
      match s with
      | EmptyString => EmptyString
      | String c r =>
          if has_prefix old s then new +:+ replace_fuel f old new (str_drop (String.length old) s)
          else String c (replace_fuel f old new r)
      end
  end.
Definition ReplaceAll (s old new : string) : string := replace_fuel (String.length s) old new s.

(** ** Results *)
Definition Verdict : Type := string.
Definition VerdictPass : Verdict := "PASS".
Definition VerdictFail : Verdict := "FAIL".
Definition VerdictSkip : Verdict := "SKIP".
Definition VerdictError : Verdict := "ERROR".
Record HeaderDiff : Type := mkHeaderDiff { hd_Name : string; hd_Java : list string; hd_Go : list string; hd_Reason : string }.
Record Result : Type := mkResult {
  rs_Scenario : string; StatusMatch : bool; JavaStatus : Z; GoStatus : Z; HeaderDiffs : list HeaderDiff; BodyDiff : string;
  rs_Verdict : Verdict; Reason : string }.
Record Summary : Type := mkSummary { sm_Pass : Z; sm_Fail : Z; sm_Skip : Z; sm_Errored : Z }.

Definition count_verdict (s : Summary) (v : Verdict) : Summary :=
  if v =?s VerdictPass then mkSummary (sm_Pass s + 1) (sm_Fail s) (sm_Skip s) (sm_Errored s)
  else if v =?s VerdictFail then mkSummary (sm_Pass s) (sm_Fail s + 1) (sm_Skip s) (sm_Errored s)
  else if v =?s VerdictSkip then mkSummary (sm_Pass s) (sm_Fail s) (sm_Skip s + 1) (sm_Errored s)
  else if v =?s VerdictError then mkSummary (sm_Pass s) (sm_Fail s) (sm_Skip s) (sm_Errored s + 1)
  else s.
(** The counting of [WriteText] and [WriteJSON]. *)
Definition summarise (rs : list Result) : Summary := foldl (λ s r, count_verdict s (rs_Verdict r)) (mkSummary 0 0 0 0) rs.

(** [WriteText]: the report, with the summary [summarise] gives. *)
Definition header_line (hd : HeaderDiff) : string :=
  if hd_Reason hd =?s "java-only" then "  - " +:+ hd_Name hd +:+ ": " +:+ join ", " (hd_Java hd) +:+ " [java-only]" +:+ nl
  else if hd_Reason hd =?s "go-only" then "  + " +:+ hd_Name hd +:+ ": " +:+ join ", " (hd_Go hd) +:+ " [go-only]" +:+ nl
  else "  ~ " +:+ hd_Name hd +:+ ": java=[" +:+ join " " (hd_Java hd) +:+ "] go=[" +:+ join " " (hd_Go hd) +:+ "]" +:+ nl.
Definition result_text (r : Result) : string :=
  "=== " +:+ rs_Scenario r +:+ " ===" +:+ nl
  +:+ "status:   java=" +:+ z_to_dec (JavaStatus r) +:+ "  go=" +:+ z_to_dec (GoStatus r) +:+ "   "
  +:+ (if StatusMatch r then "OK" else "MISMATCH") +:+ nl
  +:+ match HeaderDiffs r with [] => "" | ds => "headers:" +:+ nl +:+ String.concat "" (map header_line ds) end
  +:+ (if BodyDiff r =?s "" then "" else "body:" +:+ nl +:+ String.concat "" (map (λ l, "  " +:+ l +:+ nl) (split_on newline (BodyDiff r))))
  +:+ (if Reason r =?s "" then "" else "reason:   " +:+ Reason r +:+ nl)
  +:+ "result:   " +:+ rs_Verdict r +:+ nl +:+ nl.
Definition WriteText (rs : list Result) : string * Summary :=
  let s := summarise rs in
  (String.concat "" (map result_text rs)
   +:+ "PASS " +:+ z_to_dec (sm_Pass s) +:+ " / FAIL " +:+ z_to_dec (sm_Fail s) +:+ " / SKIP " +:+ z_to_dec (sm_Skip s)
   +:+ " / ERROR " +:+ z_to_dec (sm_Errored s) +:+ nl, s).

(** [emit]: the exit status; only the JSON writer reports a failed write. *)
Definition emit (format : string) (write_ok : bool) (rs : list Result) : Z :=
  if (format =?s "json") && negb write_ok then 1
  else let s := (if format =?s "json" then summarise rs else (WriteText rs).2) in if (0 <? sm_Fail s) || (0 <? sm_Errored s) then 1 else 0.

Section harness.
Context (fmt_json fmt_g : f64 → string) (cmp_docs : any → any → string) (cmp_text : string → string → string).
Context (url_parse : string → option url) (new_request_ok : string → string → bool).

(** [json.Marshal] of a document. *)
Fixpoint json_of (a : any) : json :=
  match a with
  | ANull => JNull
  | ABool b => JBool b
  | AFloat x => JNum (fmt_json x)
  | AStr s => JStr s
  | AArr l => JArr (map json_of l)
  | AObj m => JObj (map (λ kv, (fst kv, json_of (snd kv))) m)
  end.

(** ** Normalising (normalize.go) *)
Definition stripJSONFields (body : string) (fields : list string) : string :=
  if body =?s "" then body
  else match decode_any body with
       | None => body
       | Some doc => print_json (json_of (strip_doc doc fields))
       end.

Definition Normalize (r : Response_) (policy : DiffPolicy) (gatewayHost : string) : Response_ :=
  let h := foldl (λ h name, delete (canonical_header_key name) h) (rs_Headers r) (IgnoreHeaders policy) in
  let rewrite v := ReplaceAll v gatewayHost HostNormalizationToken in
  let '(h, body) := if RewriteHostPort policy && negb (gatewayHost =?s "")
                    then ((map rewrite <$> h) : header, rewrite (rs_Body r)) else (h, rs_Body r) in
  let body := match IgnoreBodyFields policy with [] => body | fs => stripJSONFields body fs end in
  mkResp (StatusCode r) h body.

(** ** Comparing (diff.go) *)
Definition slicesEqualUnordered (a b : list string) : bool :=
  if negb (Nat.eqb (length a) (length b)) then false
  else bool_decide (merge_sort String.le a = merge_sort String.le b).

Definition name_le (a b : HeaderDiff) : Prop := String.le (hd_Name a) (hd_Name b).
#[local] Instance name_le_dec a b : Decision (name_le a b).
Proof using Type. unfold name_le. apply _. Defined.

Definition diffHeaders (java goH : header) : list HeaderDiff :=
  let from_java := omap (λ '(name, jv),
    match goH !! name with
    | None => Some (mkHeaderDiff name jv [] "java-only")
    | Some gv => if slicesEqualUnordered jv gv then None else Some (mkHeaderDiff name jv gv "value differs")
    end) (map_to_list java) in
  let from_go := omap (λ '(name, gv),
    match java !! name with Some _ => None | None => Some (mkHeaderDiff name [] gv "go-only") end) (map_to_list goH) in
  merge_sort name_le (from_java ++ from_go).

Definition diffBodies (java goBody : string) : string :=
  if java =?s goBody then ""
  else match decode_any java, decode_any goBody with
       | Some j, Some g => cmp_docs j g
       | _, _ => cmp_text java goBody
       end.

Definition hasMeaningfulHeaderDiff (ds : list HeaderDiff) : bool := match ds with [] => false | _ => true end.

Definition Diff (java goResp : Response_) : Result :=
  let same := StatusCode java =? StatusCode goResp in
  let hs := diffHeaders (rs_Headers java) (rs_Headers goResp) in
  let body := diffBodies (rs_Body java) (rs_Body goResp) in
  mkResult "" same (StatusCode java) (StatusCode goResp) hs body
    (if negb same || negb (body =?s "") || hasMeaningfulHeaderDiff hs then VerdictFail else VerdictPass) "".

(** ** Golden files (golden.go) *)
Definition goldenFileVersion : Z := 1.
Record Golden : Type := mkGolden { g_Version : Z; g_Scenario : string; g_StatusCode : Z; g_Headers : header; g_Body : string }.

Definition toResponse (g : Golden) : Response_ :=
  mkResp (g_StatusCode g) (g_Headers g) (if (g_Body g =?s "") || (g_Body g =?s "null") then "" else g_Body g).
Definition json_valid (body : string) : bool := match unmarshal_ast body with Some _ => true | None => false end.
Definition newGolden (scenario : string) (r : Response_) : Golden :=
  mkGolden goldenFileVersion scenario (StatusCode r) (rs_Headers r)
    (if rs_Body r =?s "" then "null" else if json_valid (rs_Body r) then rs_Body r else quote (rs_Body r)).
(** [ReadGolden], after reading and decoding the file. *)
Definition ReadGolden (read : go_result string) (parse : string → go_result Golden) : go_result Golden :=
  match read with
  | Err e => Err ("golden: read: " +:+ e)
  | Ok raw =>
      match parse raw with
      | Err e => Err ("golden: parse: " +:+ e)
      | Ok g => if g_Version g =? goldenFileVersion then Ok g else Err "golden: version, re-record"
      end
  end.

(** ** Replaying (replay.go) *)
Definition lookupJSONPath (node : any) (path : string) : string :=
  match follow node (split_on "." path) with
  | Some (AStr v) => v
  | Some (AFloat x) => fmt_g x
  | Some (ABool b) => if b then "true" else "false"
  | _ => ""
  end.

Definition bodyHasField (body field : string) : bool :=
  if negb (contains (String dquote (field +:+ String dquote "")) body) then false
  else match decode_any body with
       | None => false
       | Some doc => negb (lookupJSONPath doc field =?s "")
       end.

Definition applyExtract (body : string) (extract vars : gmap string string) : gmap string string :=
  if bool_decide (extract = ∅) then vars
  else match decode_any body with
       | None => vars
       | Some doc =>
           map_fold (λ name path acc,
             let v := lookupJSONPath doc (trim_prefix "$." path) in if v =?s "" then acc else <[name := v]> acc) vars extract
       end.

Record Target : Type := mkTarget { tg_Name : string; BaseURL : string }.
Definition Host (t : Target) : string := match url_parse (BaseURL t) with Some u => url_host u | None => "" end.

Definition join_url (base path : string) : string :=
  trim_right_byte "/" base +:+ "/" +:+ drop_while (Ascii.eqb "/") path.

Definition resolveURL (t : Target) (step : Step) (vars : gmap string string) : go_result string :=
  if negb (PathFromVar step =?s "") then
    match vars !! PathFromVar step with
    | None => Err "pathFromVar not set by any prior extract"
    | Some v =>
        match url_parse v with
        | Some u =>
            if negb (url_scheme u =?s "") && negb (url_host u =?s "") then
              match url_parse (BaseURL t) with
              | None => Err "parse"
              | Some tu => Ok (url_string (Url (url_scheme tu) (url_opaque u) (url_user u) (url_host tu) (url_path u) (url_rawpath u)
                                             (url_rawquery u) (url_forcequery u) (url_fragment u)))
              end
            else Ok (join_url (BaseURL t) v)
        | None => Ok (join_url (BaseURL t) v)
        end
    end
  else Ok (join_url (BaseURL t) (Path step)).

Section client.
(** One gateway: what its answers depend on, and the requests it was sent. *)
Context {W : Type} (Do : out_request → ST W (go_result response)).
Record conn : Type := mkConn { cn_world : W; cn_sent : list out_request }.

Definition send (r : out_request) : ST conn (go_result response) := λ c,
  let '(a, w) := Do r (cn_world c) in (a, mkConn w (cn_sent c ++ [r])).

Definition executeStep (t : Target) (step : Step) (vars : gmap string string) : ST conn (go_result Response_) :=
  match resolveURL t step vars with
  | Err e => mret (Err e)
  | Ok u =>
      if negb (new_request_ok (st_Method step) u) then mret (Err "new request")
      else
        let h := map_fold (λ k v h, hdr_set k v h) (∅ : header) (st_Headers step) in
        r ← send (OutRequest (st_Method step) u h (Ok (st_Body step)));
        mret match r with
             | Err e => Err e
             | Ok resp =>
                 match resp_body_err resp with
                 | Some e => Err ("read body: " +:+ e)
                 | None => Ok (mkResp (resp_status resp) (resp_header resp) (resp_body resp))
                 end
             end
  end.

(** [runRepeat]: at most [n] more requests. *)
Fixpoint repeat_loop (n : nat) (t : Target) (step : Step) (noField : string) (vars : gmap string string) (current : Response_) :
    ST conn (go_result Response_ * gmap string string) :=
  match n with
  | O => mret (Ok current, vars)
  | Datatypes.S n =>
      if negb (noField =?s "") && negb (bodyHasField (rs_Body current) noField) then mret (Ok current, vars)
      else
        r ← executeStep t step vars;
        match r with
        | Err e => mret (Err e, vars)
        | Ok resp => repeat_loop n t step noField (applyExtract (rs_Body resp) (Extract step) vars) resp
        end
  end.
Definition iterations (p : RepeatPolicy) : Z := if MaxIterations p <=? 0 then 50 else MaxIterations p.

Fixpoint run_steps (t : Target) (steps : list Step) (vars : gmap string string) (last : Response_) : ST conn (go_result Response_) :=
  match steps with
  | [] => mret (Ok last)
  | step :: steps =>
      r ← executeStep t step vars;
      match r with
      | Err e => mret (Err ("scenario step: " +:+ e))
      | Ok resp =>
          let vars := applyExtract (rs_Body resp) (Extract step) vars in
          match RepeatUntil step with
          | None => run_steps t steps vars resp
          | Some p =>
              '(f, vars) ← repeat_loop (Z.to_nat (iterations p)) t step (NoField p) vars resp;
              match f with
              | Err e => mret (Err ("scenario step repeat: " +:+ e))
              | Ok final => run_steps t steps vars final
              end
          end
      end
  end.
Definition Run (t : Target) (s : Scenario) : ST conn (go_result Response_) := run_steps t (Steps s) ∅ (mkResp 0 ∅ "").
End client.

(** ** The runner (runner.go) *)
Section runner.
Context {W V : Type} (DoJava : out_request → ST W (go_result response)) (DoGo : out_request → ST V (go_result response)).
Context (java go : Target).

Definition error_result (name reason : string) : Result := mkResult name false 0 0 [] "" VerdictError reason.
Definition named (name : string) (r : Result) : Result :=
  mkResult name (StatusMatch r) (JavaStatus r) (GoStatus r) (HeaderDiffs r) (BodyDiff r) (rs_Verdict r) (Reason r).

(** Both sides run concurrently, each with its own connection and variables. *)
Definition RunScenario (s : Scenario) : ST (conn (W := W) * conn (W := V)) Result := λ '(cj, cg),
  let '(j, cj) := Run DoJava java s cj in
  let '(g, cg) := Run DoGo go s cg in
  (match j, g with
   | Err ej, Err eg => error_result (sc_Name s) ("both sides errored: java=" +:+ ej +:+ "; go=" +:+ eg)
   | Err ej, Ok _ => error_result (sc_Name s) ("java errored: " +:+ ej)
   | Ok _, Err eg => error_result (sc_Name s) ("go errored: " +:+ eg)
   | Ok jr, Ok gr => named (sc_Name s) (Diff (Normalize jr (Diff_ s) (Host java)) (Normalize gr (Diff_ s) (Host go)))
   end, (cj, cg)).

Fixpoint RunAll (ss : list Scenario) : ST (conn (W := W) * conn (W := V)) (list Result) :=
  match ss with [] => mret [] | s :: ss => r ← RunScenario s; rs ← RunAll ss; mret (r :: rs) end.

Definition RecordScenario (s : Scenario) : ST (conn (W := W)) (go_result Golden) :=
  r ← Run DoJava java s;
  mret match r with
       | Err e => Err e
       | Ok resp => Ok (newGolden (sc_Name s) (Normalize resp (Diff_ s) (Host java)))
       end.

Definition ReplayScenario (s : Scenario) (g : Golden) : ST (conn (W := V)) Result :=
  if negb (g_Scenario g =?s sc_Name s) then mret (error_result (sc_Name s) "golden scenario does not match requested scenario")
  else
    r ← Run DoGo go s;
    mret match r with
         | Err e => error_result (sc_Name s) ("go errored: " +:+ e)
         | Ok resp => named (sc_Name s) (Diff (toResponse g) (Normalize resp (Diff_ s) (Host go)))
         end.

(** ** The commands (cmd/goway-diff-harness/main.go)

    The exit status of each, after the flags; [goldens] is what reading a scenario's
    golden file gives. Recording, which writes those files, is in [GoldenFiles]. *)
Fixpoint loadAllScenarios (files : list (string * bool * go_result Scenario)) : go_result (list Scenario) :=
  match files with
  | [] => Ok []
  | (name, isDir, s) :: files =>
      if isDir || negb (has_suffix ".yaml" name || has_suffix ".yml" name) then loadAllScenarios files
      else match s with
           | Err e => Err e
           | Ok s => match loadAllScenarios files with Ok ss => Ok (s :: ss) | Err e => Err e end
           end
  end.

Definition with_scenarios {X} (files : go_result (list (string * bool * go_result Scenario))) (k : list Scenario → ST X Z) : ST X Z :=
  match files with
  | Err _ => mret 1
  | Ok fs => match loadAllScenarios fs with Err _ => mret 1 | Ok [] => mret 1 | Ok ss => k ss end
  end.

Definition runLive (format : string) (write_ok : bool) (files : go_result (list (string * bool * go_result Scenario))) :
    ST (conn (W := W) * conn (W := V)) Z :=
  if (BaseURL java =?s "") || (BaseURL go =?s "") then mret 2
  else with_scenarios files (λ ss, rs ← RunAll ss; mret (emit format write_ok rs)).

(** One turn of the loop of [runReplay]. *)
Definition replay_one (goldens : string → go_result Golden) (s : Scenario) : ST (conn (W := V)) Result :=
  match goldens (sc_Name s) with
  | Err e => mret (error_result (sc_Name s) e)
  | Ok g => ReplayScenario s g
  end.
Fixpoint replay_all (goldens : string → go_result Golden) (ss : list Scenario) : ST (conn (W := V)) (list Result) :=
  match ss with
  | [] => mret []
  | s :: ss =>
      r ← replay_one goldens s;
      rs ← replay_all goldens ss;
      mret (r :: rs)
  end.
Definition runReplay (format : string) (write_ok : bool) (goldens : string → go_result Golden)
    (files : go_result (list (string * bool * go_result Scenario))) : ST (conn (W := V)) Z :=
  if BaseURL go =?s "" then mret 2
  else with_scenarios files (λ ss, rs ← replay_all goldens ss; mret (emit format write_ok rs)).
End runner.

(** [report]: a results file rendered again. *)
Definition runReport (input format : string) (write_ok : bool) (read : go_result string) (parse : string → go_result (list Result)) : Z :=
  if input =?s "" then 2
  else match read with
       | Err _ => 1
       | Ok raw => match parse raw with Err _ => 1 | Ok rs => emit format write_ok rs end
       end.
End harness.

(** ** Comparing *)
Lemma equal_unordered_iff a b : slicesEqualUnordered a b = true ↔ a ≡ₚ b.
Proof.
  unfold slicesEqualUnordered. split.
  - destruct (Nat.eqb _ _); [|done]. cbn. intros Heq%bool_decide_eq_true.
    rewrite <- (merge_sort_Permutation String.le a), <- (merge_sort_Permutation String.le b). by rewrite Heq.
  - intros Hp. rewrite (Permutation_length Hp), Nat.eqb_refl. cbn. apply bool_decide_eq_true.
    apply (StronglySorted_unique String.le); [apply StronglySorted_merge_sort; apply _..|].
    by rewrite !merge_sort_Permutation.
Qed.

(** What it takes for two header sets to agree. *)
Definition headers_agree (j g : header) : Prop :=
  ∀ name, match j !! name, g !! name with
          | Some a, Some b => a ≡ₚ b
          | None, None => True
          | _, _ => False
          end.

Lemma omap_nil {A B} (f : A → option B) l : omap f l = [] ↔ Forall (λ x, f x = None) l.
Proof.
  induction l as [|x l IH]; cbn; [split; [constructor|done]|].
  rewrite Forall_cons, <- IH. destruct (f x); cbn; [|naive_solver]. split; [done|]. by intros [? _].
Qed.

Lemma diff_headers_nil j g : diffHeaders j g = [] ↔ headers_agree j g.
Proof.
  unfold diffHeaders. set (a := omap _ (map_to_list j)). set (b := omap _ (map_to_list g)).
  assert (Hm : merge_sort name_le (a ++ b) = [] ↔ a = [] ∧ b = []).
  { split; [|by intros [-> ->]]. intros Hn. pose proof (merge_sort_Permutation name_le (a ++ b)) as Hp. rewrite Hn in Hp.
    apply Permutation_nil_l in Hp. symmetry in Hp. by apply app_nil in Hp. }
  rewrite Hm. subst a b. rewrite !omap_nil, !Forall_forall. split.
  - intros [Ha Hb] name. destruct (j !! name) as [jv|] eqn:Ej.
    + specialize (Ha (name, jv) ltac:(by apply elem_of_map_to_list)). cbn in Ha.
      destruct (g !! name) as [gv|]; [|done]. destruct (slicesEqualUnordered jv gv) eqn:E; [|done]. by apply equal_unordered_iff.
    + destruct (g !! name) as [gv|] eqn:Eg; [|done].
      specialize (Hb (name, gv) ltac:(by apply elem_of_map_to_list)). cbn in Hb. by rewrite Ej in Hb.
  - intros Hag. split; intros [name v] Hin%elem_of_map_to_list; specialize (Hag name); rewrite Hin in Hag.
    + destruct (g !! name) as [gv|]; [|done]. by rewrite (proj2 (equal_unordered_iff v gv) Hag).
    + by destruct (j !! name).
Qed.

Section compared.
Context (cmp_docs : any → any → string) (cmp_text : string → string → string).
(** go-cmp: [Diff] returns the empty string exactly for equal values. *)
Context (Hdocs : ∀ a b, cmp_docs a b = "" ↔ any_eqb a b = true) (Htext : ∀ a b, cmp_text a b = "" ↔ a = b).
#[local] Abbreviation diff := (Diff cmp_docs cmp_text).

Definition bodies_agree (a b : string) : Prop :=
  a = b ∨ ∃ x y, decode_any a = Some x ∧ decode_any b = Some y ∧ any_eqb x y = true.

Lemma diff_bodies_nil a b : diffBodies cmp_docs cmp_text a b = "" ↔ bodies_agree a b.
Proof.
  unfold diffBodies, bodies_agree. destruct (a =?s b) eqn:E; seqb_simpl; [naive_solver|].
  destruct (decode_any a) as [x|], (decode_any b) as [y|]; rewrite ?Hdocs, ?Htext; naive_solver.
Qed.

Lemma diff_pass j g :
  rs_Verdict (diff j g) = VerdictPass ↔
  StatusCode j = StatusCode g ∧ headers_agree (rs_Headers j) (rs_Headers g) ∧ bodies_agree (rs_Body j) (rs_Body g).
Proof.
  unfold Diff. cbn [rs_Verdict]. rewrite <- diff_headers_nil, <- diff_bodies_nil.
  destruct (StatusCode j =? StatusCode g) eqn:Es; cbn [negb orb].
  2: { split; [done|]. intros [Hs _]. lia. }
  destruct (diffBodies _ _ _ _ =?s "") eqn:Eb; seqb_simpl; cbn [negb orb].
  2: { split; [done|]. by intros (_ & _ & ?). }
  destruct (diffHeaders _ _) as [|d ds]; cbn; [|naive_solver]. split; [|done]. intros _. split_and!; [lia|done|done].
Qed.

(** a scenario's verdict is PASS exactly when the two normalised responses have the
    same status, the same header names each with the same values in some order, and
    bodies that are the same bytes or both JSON with equal documents. *)
Theorem diff_verdict_exact j g :
  (rs_Verdict (diff j g) = VerdictPass
   ↔ StatusCode j = StatusCode g ∧ headers_agree (rs_Headers j) (rs_Headers g) ∧ bodies_agree (rs_Body j) (rs_Body g))
  ∧ (rs_Verdict (diff j g) = VerdictPass ∨ rs_Verdict (diff j g) = VerdictFail).
Proof. split; [apply diff_pass|]. unfold Diff. cbn. destruct (_ || _); auto. Qed.

Lemma headers_agree_refl h : headers_agree h h.
Proof using Type. intros name. by destruct (h !! name). Qed.

(** A quoted text is longer than the text. *)
Lemma decode_rune_width c r : (1 ≤ (decode_rune (String c r)).2 ≤ 4)%nat
  ∧ ((decode_rune (String c r)).2 ≤ String.length (String c r))%nat.
Proof using Type.
  unfold decode_rune. destruct (_ <? _)%N; [cbn; lia|]. destruct (in_rng 194 223 c).
  { destruct r as [|b r]; [cbn; lia|]. destruct (cont _ _ _); cbn; lia. }
  destruct (in_rng 224 239 c).
  { destruct r as [|b [|d r]]; [cbn; lia|cbn; lia|]. destruct (_ && _); cbn; lia. }
  destruct (in_rng 240 244 c); [|cbn; lia].
  destruct r as [|b [|d [|e r]]]; [cbn; lia|cbn; lia|cbn; lia|]. destruct (_ && _); cbn; lia.
Qed.

Lemma take_drop_length n s : (n ≤ String.length s)%nat →
  String.length (str_take n s) = n ∧ (String.length (str_drop n s) + n = String.length s)%nat.
Proof using Type.
  revert s. induction n as [|n IH]; intros s Hn; [destruct s; cbn; lia|].
  destruct s as [|c s]; [cbn in Hn; lia|]. cbn in *. destruct (IH s ltac:(lia)) as [H1 H2]. lia.
Qed.

Lemma escape_fuel_length f s : (String.length s ≤ f → String.length s ≤ String.length (escape_fuel f s))%nat.
Proof using Type.
  revert s. induction f as [|f IH]; intros s Hf; [lia|]. destruct s as [|c r]; [cbn; lia|]. cbn [escape_fuel].
  destruct (is_ascii c).
  { rewrite str_length_app. pose proof (escape_byte_length c). cbn in *. specialize (IH r ltac:(lia)). lia. }
  destruct (decode_rune_width c r) as [Hw1 Hw2]. destruct (decode_rune (String c r)) as [rn w]. cbn [snd] in *.
  destruct (take_drop_length w (String c r) Hw2) as [Ht Hd]. cbn [String.length] in Hf, Hd |- *.
  pose proof (IH r ltac:(lia)) as Hr. pose proof (IH (str_drop w (String c r)) ltac:(lia)) as Hr'.
  destruct (_ && _); [rewrite str_length_app; cbn [String.length] in *; lia|].
  destruct (rn =? 8232)%N; [rewrite str_length_app; cbn [String.length] in *; lia|].
  destruct (rn =? 8233)%N; [rewrite str_length_app; cbn [String.length] in *; lia|].
  rewrite str_length_app, Ht. lia.
Qed.

Lemma quote_longer s : quote s ≠ s.
Proof using Type.
  intros Hq. apply (f_equal String.length) in Hq. unfold quote in Hq. cbn [String.length] in Hq. rewrite str_length_app in Hq.
  pose proof (escape_fuel_length (String.length s) s ltac:(lia)). unfold escape in Hq. cbn in Hq. lia.
Qed.

(** replaying a recording against the very response it was made from passes exactly
    when the body is empty, or is JSON other than the literal null: a body that is not
    JSON is stored as a JSON string that is never unwrapped, and null is read back as no
    body. *)
Theorem golden_replay_exact name r :
  rs_Verdict (diff (toResponse (newGolden name r)) r) = VerdictPass
  ↔ rs_Body r = "" ∨ (json_valid (rs_Body r) = true ∧ rs_Body r ≠ "null").
Proof.
  rewrite diff_pass. cbn [toResponse newGolden g_StatusCode g_Headers g_Body StatusCode rs_Headers rs_Body].
  destruct (rs_Body r =?s "") eqn:Ee; seqb_simpl.
  { rewrite Ee. split; [by left|]. intros _. split; [done|]. split; [apply headers_agree_refl|by left]. }
  destruct (json_valid (rs_Body r)) eqn:Ev.
  - replace (rs_Body r =?s "") with false by (symmetry; by apply seqb_neq). cbn [orb].
    destruct (rs_Body r =?s "null") eqn:En; seqb_simpl.
    + rewrite En. split; [|naive_solver]. intros (_ & _ & [? | (x & y & Hx & _)]); [done|by vm_compute in Hx].
    + split; [by right|]. intros _. split_and!; [done|apply headers_agree_refl|by left].
  - destruct (quote (rs_Body r) =?s "") eqn:E1; [by seqb_simpl; destruct (rs_Body r)|].
    assert (Hn : quote (rs_Body r) =?s "null" = false) by (apply seqb_neq; unfold quote; by intros [=]). rewrite Hn. cbn [orb].
    split; [|naive_solver]. intros (_ & _ & [Hq | (x & y & _ & Hy & _)]); [by apply quote_longer in Hq|].
    unfold json_valid in Ev. unfold decode_any in Hy. by destruct (unmarshal_ast (rs_Body r)).
Qed.
End compared.

(** ** Stripping *)
Section any_induction.
Context (P : any → Prop) (Hnull : P ANull) (Hbool : ∀ b, P (ABool b)) (Hfloat : ∀ x, P (AFloat x)) (Hstr : ∀ s, P (AStr s)).
Context (Harr : ∀ l, Forall P l → P (AArr l)) (Hobj : ∀ m, Forall (λ kv, P (snd kv)) m → P (AObj m)).
Fixpoint any_induct (a : any) : P a :=
  match a with
  | ANull => Hnull
  | ABool b => Hbool b
  | AFloat x => Hfloat x
  | AStr s => Hstr s
  | AArr l => Harr l ((fix go l : Forall P l :=
      match l with [] => Forall_nil_2 P | x :: l => Forall_cons_2 P x l (any_induct x) (go l) end) l)
  | AObj m => Hobj m ((fix go m : Forall (λ kv, P (snd kv)) m :=
      match m with [] => Forall_nil_2 _ | kv :: m => Forall_cons_2 _ kv m (any_induct (snd kv)) (go m) end) m)
  end.
End any_induction.

(** The strings, numbers and booleans a dotted path reaches, through every element of the
    arrays on its way. *)
Definition scalar (a : any) : list any := match a with ABool _ | AFloat _ | AStr _ => [a] | _ => [] end.
Fixpoint scalars (node : any) (path : list string) : list any :=
  match path with
  | [] => scalar node
  | p :: rest =>
      match node with
      | AArr l => flat_map (λ e, scalars e path) l
      | AObj m => flat_map (λ kv, if fst kv =?s p then scalars (snd kv) rest else []) m
      | _ => []
      end
  end.

Lemma scalars_arr l p rest : scalars (AArr l) (p :: rest) = flat_map (λ e, scalars e (p :: rest)) l.
Proof. done. Qed.

Fixpoint prefixb (p q : list string) : bool :=
  match p, q with
  | [], _ => true
  | x :: p, y :: q => (x =?s y) && prefixb p q
  | _, [] => false
  end.

Lemma flat_map_ext_Forall {A B} (f g : A → list B) l : Forall (λ x, f x = g x) l → flat_map f l = flat_map g l.
Proof. induction 1 as [|x l Hx _ IH]; cbn; [done|]. by rewrite Hx, IH. Qed.

Lemma flat_map_nil_Forall {A B} (f : A → list B) l : Forall (λ x, f x = []) l → flat_map f l = [].
Proof. induction 1 as [|x l Hx _ IH]; cbn; [done|]. by rewrite Hx, IH. Qed.

Lemma flat_map_map {A B C} (f : B → list C) (g : A → B) l : flat_map f (map g l) = flat_map (λ x, f (g x)) l.
Proof. induction l as [|x l IH]; cbn; [done|]. by rewrite IH. Qed.

Lemma scalars_remove p m q rest : scalars (AObj (remove_key p m)) (q :: rest) = if p =?s q then [] else scalars (AObj m) (q :: rest).
Proof.
  cbn [scalars]. unfold remove_key. induction m as [|[k v] m IH]; cbn [List.filter flat_map fst snd]; [by destruct (p =?s q)|].
  destruct (k =?s p) eqn:Ek; cbn [negb flat_map fst snd]; rewrite IH; seqb_simpl.
  - subst k. by destruct (p =?s q).
  - destruct (p =?s q) eqn:Ep; seqb_simpl; [|done]. subst q. by rewrite (proj2 (seqb_neq k p) Ek).
Qed.

Lemma delete_scalars d p rest q :
  scalars (deleteJSONPath d (p :: rest)) q = if prefixb (p :: rest) q then [] else scalars d q.
Proof.
  revert p rest q. induction d as [| | | |l IH|m IH] using any_induct; intros p rest q;
    try (by destruct q; cbn; try destruct (_ && _)).
  - destruct q as [|y q]; [done|]. cbn [deleteJSONPath]. rewrite !scalars_arr, flat_map_map.
    destruct (prefixb (p :: rest) (y :: q)) eqn:E.
    + apply flat_map_nil_Forall. eapply Forall_impl; [exact IH|]. intros e He. cbn beta. by rewrite He, E.
    + apply flat_map_ext_Forall. eapply Forall_impl; [exact IH|]. intros e He. cbn beta. by rewrite He, E.
  - destruct q as [|y q]; [by destruct rest|]. destruct rest as [|p' rest].
    { cbn [deleteJSONPath]. rewrite scalars_remove. cbn [prefixb]. by rewrite andb_true_r. }
    cbn [deleteJSONPath]. cbn [scalars]. rewrite flat_map_map.
    change (prefixb (p :: p' :: rest) (y :: q)) with ((p =?s y) && prefixb (p' :: rest) q).
    destruct (p =?s y) eqn:Ep; seqb_simpl; cbn [andb].
    + subst y. destruct (prefixb (p' :: rest) q) eqn:E; [apply flat_map_nil_Forall|apply flat_map_ext_Forall];
        (eapply Forall_impl; [exact IH|]); intros [k v] Hv; cbn [fst snd] in Hv |- *; destruct (k =?s p) eqn:Ek;
        cbn [fst snd]; rewrite ?Ek; try done; by rewrite Hv, E.
    + apply flat_map_ext_Forall. eapply Forall_impl; [exact IH|]. intros [k v] _. cbn.
      destruct (k =?s p) eqn:Ek; cbn; [|done]. seqb_simpl. subst k. by rewrite (proj2 (seqb_neq p y) Ep).
Qed.

(** after stripping, no path below an ignored field reaches any string, number or
    boolean, through arrays too, and every other path reaches exactly what it reached
    before, in the same order. *)
Theorem strip_exact doc fields q :
  scalars (strip_doc doc fields) q = if existsb (λ f, prefixb (split_on "." f) q) fields then [] else scalars doc q.
Proof.
  unfold strip_doc. revert doc. induction fields as [|f fields IH]; intros doc; [done|]. cbn. rewrite IH.
  pose proof (split_on_nonempty "." f) as Hne. destruct (split_on "." f) as [|p rest]; [done|]. rewrite delete_scalars.
  by destruct (prefixb _ q), (existsb _ fields).
Qed.

(** Each turn of a replacement consumes at least a byte. *)
Lemma str_drop_shorter n c s : (0 < n → String.length (str_drop n (String c s)) ≤ String.length s)%nat.
Proof.
  destruct n as [|n]; [lia|]. intros _. cbn. clear c. revert s. induction n as [|n IH]; intros s; [by destruct s|].
  destruct s as [|c s]; cbn; [lia|]. specialize (IH s). lia.
Qed.

Lemma replace_fuel_enough old new s f : old ≠ "" → (String.length s ≤ f)%nat → replace_fuel f old new s = ReplaceAll s old new.
Proof.
  intros Ho. unfold ReplaceAll. enough (H : ∀ f f' s, (String.length s ≤ f)%nat → (String.length s ≤ f')%nat →
    replace_fuel f old new s = replace_fuel f' old new s) by (intros; by apply H).
  clear f s. induction f as [|f IH]; intros f' s Hf Hf'; [destruct s; [by destruct f'|cbn in Hf; lia]|].
  destruct s as [|c s]; [by destruct f'|]. destruct f' as [|f']; [cbn in Hf'; lia|]. cbn [String.length] in Hf, Hf'. cbn [replace_fuel].
  destruct (has_prefix old (String c s)); [|f_equal; apply IH; lia]. f_equal.
  assert (0 < String.length old)%nat by (destruct old; [done|cbn; lia]).
  pose proof (str_drop_shorter (String.length old) c s ltac:(done)). apply IH; lia.
Qed.

(** ** Running *)
Section running.
Context (fmt_g : f64 → string) (url_parse : string → option url) (new_request_ok : string → string → bool).
Context {W : Type} (Do : out_request → ST W (go_result response)).

(** A URL at the target: its base with a path, or the target's scheme and host with the
    rest of another URL. *)
Definition at_target (t : Target) (r : out_request) : Prop :=
  (∃ v, or_url r = join_url (BaseURL t) v)
  ∨ ∃ tu u, url_parse (BaseURL t) = Some tu ∧ or_url r = url_string u ∧ url_scheme u = url_scheme tu ∧ url_host u = url_host tu.

Definition sends {A} (t : Target) (n : nat) (m : ST (conn (W := W)) A) : Prop :=
  ∀ c, ∃ new, cn_sent (m c).2 = cn_sent c ++ new ∧ (length new ≤ n)%nat ∧ Forall (at_target t) new.

Lemma sends_ret {A} t (x : A) : sends t 0 (mret x).
Proof. intros c. exists []. cbn. by rewrite app_nil_r. Qed.

Lemma sends_mono {A} t n n' (m : ST conn A) : (n ≤ n')%nat → sends t n m → sends t n' m.
Proof. intros Hle Hm c. destruct (Hm c) as (new & ? & ? & ?). exists new. split_and!; [done|lia|done]. Qed.

Lemma sends_bind {A B} t n n' (m : ST conn A) (f : A → ST conn B) : sends t n m → (∀ x, sends t n' (f x)) → sends t (n + n') (m ≫= f).
Proof.
  intros Hm Hf c. destruct (Hm c) as (new & Hs & Hl & Ha). unfold mbind, ST_bind. destruct (m c) as [x c1]. cbn in Hs.
  destruct (Hf x c1) as (new' & Hs' & Hl' & Ha'). exists (new ++ new'). rewrite Hs', Hs, app_assoc, length_app, Forall_app.
  split_and!; [done|lia|done|done].
Qed.

Lemma resolve_at_target t step vars u : resolveURL url_parse t step vars = Ok u →
  ∀ m h b, at_target t (OutRequest m u h b).
Proof.
  unfold resolveURL. intros Hr m h b.
  repeat match goal with
         | H : (if ?b then _ else _) = Ok _ |- _ => destruct b
         | H : match ?x with _ => _ end = Ok _ |- _ => destruct x eqn:?
         end; simplify_eq; (left; by eexists) || (right; eexists _, _; split_and!; [eassumption|reflexivity|reflexivity|reflexivity]).
Qed.

Lemma execute_sends t step vars : sends t 1 (executeStep url_parse new_request_ok Do t step vars).
Proof.
  unfold executeStep. destruct (resolveURL url_parse t step vars) as [u|e] eqn:Hr; [|eapply sends_mono; [|apply sends_ret]; lia].
  destruct (negb _); [eapply sends_mono; [|apply sends_ret]; lia|]. change 1%nat with (1 + 0)%nat.
  apply sends_bind; [|intros; apply sends_ret]. intros c. unfold send. destruct (Do _ _). cbn. eexists [_].
  split_and!; [reflexivity|done|]. apply Forall_singleton. by eapply resolve_at_target.
Qed.

Lemma repeat_sends n t step f vars cur : sends t n (repeat_loop fmt_g url_parse new_request_ok Do n t step f vars cur).
Proof.
  revert vars cur. induction n as [|n IH]; intros vars cur; cbn [repeat_loop]; [apply sends_ret|].
  destruct (_ && _); [eapply sends_mono; [|apply sends_ret]; lia|]. change (S n) with (1 + n)%nat.
  apply sends_bind; [apply execute_sends|]. intros [r|e]; [apply IH|eapply sends_mono; [|apply sends_ret]; lia].
Qed.

(** The requests a step may take. *)
Definition step_budget (s : Step) : nat := 1 + match RepeatUntil s with None => 0 | Some p => Z.to_nat (iterations p) end.

Lemma steps_sends t steps vars last :
  sends t (list_sum (map step_budget steps)) (run_steps fmt_g url_parse new_request_ok Do t steps vars last).
Proof.
  revert vars last. induction steps as [|s steps IH]; intros vars last; cbn [run_steps map]; [apply sends_ret|].
  change (list_sum (?x :: ?y)) with (x + list_sum y)%nat. unfold step_budget at 1. rewrite <- Nat.add_assoc.
  apply sends_bind; [apply execute_sends|]. intros [r|e]; [|eapply sends_mono; [|apply sends_ret]; lia].
  destruct (RepeatUntil s) as [p|]; [|apply IH]. apply sends_bind; [apply repeat_sends|].
  intros [[final|e] vars']; [apply IH|eapply sends_mono; [|apply sends_ret]; lia].
Qed.

(** replaying a scenario sends at most one request per step plus the iterations of its
    repeat policy (fifty where the policy names none), and each of them at the target,
    whatever URLs the responses carried. *)
Theorem run_stays_on_target t s c :
  ∃ new, cn_sent (Run fmt_g url_parse new_request_ok Do t s c).2 = cn_sent c ++ new
         ∧ (length new ≤ list_sum (map step_budget (Steps s)))%nat ∧ Forall (at_target t) new.
Proof. apply steps_sends. Qed.
End running.

(** ** Exit statuses *)
Definition judged (r : Result) : Prop :=
  rs_Verdict r = VerdictPass ∨ rs_Verdict r = VerdictFail ∨ rs_Verdict r = VerdictError.
Definition passed (r : Result) : Prop := rs_Verdict r = VerdictPass.

Lemma summarise_counts rs s : Forall judged rs →
  let s' := foldl (λ s r, count_verdict s (rs_Verdict r)) s rs in
  sm_Fail s ≤ sm_Fail s' ∧ sm_Errored s ≤ sm_Errored s' ∧ (sm_Fail s' = sm_Fail s ∧ sm_Errored s' = sm_Errored s ↔ Forall passed rs).
Proof.
  intros Hj. revert s. induction Hj as [|r rs Hr _ IH]; intros s; cbn [foldl].
  { split_and!; [lia|lia|]. split; [constructor|done]. }
  destruct (IH (count_verdict s (rs_Verdict r))) as (H1 & H2 & H3). rewrite Forall_cons. unfold passed at 1.
  assert (Hno : ∀ v, v ≠ VerdictPass → v = VerdictPass ∧ Forall passed rs ↔ False) by naive_solver.
  destruct Hr as [Hr|[Hr|Hr]]; rewrite Hr in *; cbn [count_verdict] in H1, H2, H3; split_and!; try (cbn in *; lia).
  - rewrite <- H3. cbn. tauto.
  - rewrite Hno by done. cbn in *. lia.
  - rewrite Hno by done. cbn in *. lia.
Qed.

Lemma emit_zero format write_ok rs : Forall judged rs →
  emit format write_ok rs = 0 ↔ Forall passed rs ∧ (format = "json" → write_ok = true).
Proof.
  intros Hj. unfold emit. replace (if format =?s "json" then summarise rs else (WriteText rs).2) with (summarise rs) by (by destruct (_ =?s _)).
  unfold summarise. destruct (summarise_counts rs (mkSummary 0 0 0 0) Hj) as (H1 & H2 & H3). cbn zeta in *.
  cbn [sm_Fail sm_Errored] in H1, H2, H3. rewrite <- H3. clear H3.
  set (s := foldl _ _ _) in *. destruct (format =?s "json") eqn:Ef; seqb_simpl.
  all: destruct write_ok; cbn [andb negb].
  all: destruct (0 <? sm_Fail s) eqn:E1, (0 <? sm_Errored s) eqn:E2; cbn [orb]; split; try done; try (intros [[? ?] ?]; lia).
  all: try (intros [_ ?]; naive_solver). all: intros _; split; [lia|naive_solver].
Qed.

(** The scenarios a directory gives. *)
Definition found (files : go_result (list (string * bool * go_result Scenario))) (ss : list Scenario) : Prop :=
  match files with Ok fs => loadAllScenarios fs = Ok ss ∧ ss ≠ [] | Err _ => False end.

Lemma with_scenarios_zero {X} files (k : list Scenario → ST X Z) c :
  (with_scenarios files k c).1 = 0 ↔ ∃ ss, found files ss ∧ (k ss c).1 = 0.
Proof.
  unfold with_scenarios, found. destruct files as [fs|e]; [|cbn; naive_solver].
  destruct (loadAllScenarios fs) as [[|s ss]|e]; cbn; naive_solver.
Qed.

Section exiting.
Context (fmt_json fmt_g : f64 → string) (cmp_docs : any → any → string) (cmp_text : string → string → string).
Context (url_parse : string → option url) (new_request_ok : string → string → bool).
Context {W V : Type} (DoJava : out_request → ST W (go_result response)) (DoGo : out_request → ST V (go_result response)).
Context (java go : Target).
#[local] Abbreviation run_all := (RunAll fmt_json fmt_g cmp_docs cmp_text url_parse new_request_ok DoJava DoGo java go).
#[local] Abbreviation replay_them := (replay_all fmt_json fmt_g cmp_docs cmp_text url_parse new_request_ok DoGo go).
#[local] Abbreviation live := (runLive fmt_json fmt_g cmp_docs cmp_text url_parse new_request_ok DoJava DoGo java go).
#[local] Abbreviation replay := (runReplay fmt_json fmt_g cmp_docs cmp_text url_parse new_request_ok DoGo go).

Lemma diff_judged name a b : judged (named name (Diff cmp_docs cmp_text a b)).
Proof. unfold judged, named, Diff. cbn. destruct (_ || _); auto. Qed.

Lemma error_judged name e : judged (error_result name e).
Proof. by right; right. Qed.

Lemma run_all_judged ss c : Forall judged (run_all ss c).1.
Proof.
  revert c. induction ss as [|s ss IH]; intros [cj cg]; [constructor|]. cbn [RunAll]. unfold mbind, ST_bind, RunScenario at 1.
  destruct (Run _ _ _ DoJava java s cj) as [j cj'], (Run _ _ _ DoGo go s cg) as [g cg']. specialize (IH (cj', cg')).
  destruct (run_all ss (cj', cg')) as [rs c']. constructor; [|done]. destruct j, g; auto using diff_judged, error_judged.
Qed.

Lemma replay_one_judged goldens s c :
  judged (replay_one fmt_json fmt_g cmp_docs cmp_text url_parse new_request_ok DoGo go goldens s c).1.
Proof.
  unfold replay_one. destruct (goldens (sc_Name s)) as [g|e]; [|apply error_judged].
  unfold ReplayScenario. destruct (negb _); [apply error_judged|].
  unfold mbind, ST_bind. destruct (Run _ _ _ DoGo go s c) as [[a|e] c0]; [apply diff_judged|apply error_judged].
Qed.

Lemma replay_judged goldens ss c : Forall judged (replay_them goldens ss c).1.
Proof.
  revert c. induction ss as [|s ss IH]; intros c; [constructor|]. cbn [replay_all]. unfold mbind, ST_bind.
  pose proof (replay_one_judged goldens s c) as Hr. destruct (replay_one _ _ _ _ _ _ _ _ _ s c) as [r c1].
  specialize (IH c1). destruct (replay_them goldens ss c1) as [rs c2]. by constructor.
Qed.

(** the live and the replay commands exit with status zero exactly when the URLs are
    given, at least one scenario is found and all of them load, every scenario's verdict
    is PASS, and a JSON report could be written: a mismatch, an error on either side, a
    missing golden and an empty directory all fail the job. *)
Theorem exit_zero_exact format write_ok goldens files cj cg :
  ((live format write_ok files (cj, cg)).1 = 0
   ↔ BaseURL java ≠ "" ∧ BaseURL go ≠ ""
     ∧ ∃ ss, found files ss ∧ Forall passed (run_all ss (cj, cg)).1 ∧ (format = "json" → write_ok = true))
  ∧ ((replay format write_ok goldens files cg).1 = 0
     ↔ BaseURL go ≠ "" ∧ ∃ ss, found files ss ∧ Forall passed (replay_them goldens ss cg).1 ∧ (format = "json" → write_ok = true)).
Proof.
  unfold runLive, runReplay. split.
  - destruct (BaseURL java =?s "") eqn:Ej, (BaseURL go =?s "") eqn:Eg; seqb_simpl; cbn [orb]; try (cbn; naive_solver).
    rewrite with_scenarios_zero. transitivity (∃ ss, found files ss ∧ emit format write_ok (run_all ss (cj, cg)).1 = 0).
    { apply exist_proper. intros ss. unfold mbind, ST_bind. by destruct (run_all ss (cj, cg)). }
    setoid_rewrite emit_zero; [naive_solver|apply run_all_judged].
  - destruct (BaseURL go =?s "") eqn:Eg; seqb_simpl; [cbn; naive_solver|].
    rewrite with_scenarios_zero. transitivity (∃ ss, found files ss ∧ emit format write_ok (replay_them goldens ss cg).1 = 0).
    { apply exist_proper. intros ss. unfold mbind, ST_bind. by destruct (replay_them goldens ss cg). }
    setoid_rewrite emit_zero; [naive_solver|apply replay_judged].
Qed.
End exiting.

(** ** Examples *)
Definition cmp_docs_example (a b : any) : string := if any_eqb a b then "" else "differs".
Definition cmp_text_example (a b : string) : string := if a =?s b then "" else "differs".

Lemma cmp_docs_example_ok a b : cmp_docs_example a b = "" ↔ any_eqb a b = true.
Proof. unfold cmp_docs_example. by destruct (any_eqb a b). Qed.
Lemma cmp_text_example_ok a b : cmp_text_example a b = "" ↔ a = b.
Proof. unfold cmp_text_example. destruct (a =?s b) eqn:E; seqb_simpl; naive_solver. Qed.

Definition resp_example (body : string) (vs : list string) : Response_ := mkResp 200 {[ "Vary" := vs ]} body.

Lemma diff_verdict_exact_witness :
  rs_Verdict (Diff cmp_docs_example cmp_text_example (resp_example "[1.0]" ["a"; "b"]) (resp_example "[1]" ["b"; "a"])) = VerdictPass
  ∧ StatusCode (resp_example "[1.0]" ["a"; "b"]) = StatusCode (resp_example "[1]" ["b"; "a"]).
Proof.
  assert (H : rs_Verdict (Diff cmp_docs_example cmp_text_example (resp_example "[1.0]" ["a"; "b"]) (resp_example "[1]" ["b"; "a"]))
              = VerdictPass) by (vm_compute; reflexivity).
  split; [exact H|].
  exact (proj1 (proj1 (proj1 (diff_verdict_exact cmp_docs_example cmp_text_example cmp_docs_example_ok cmp_text_example_ok
           (resp_example "[1.0]" ["a"; "b"]) (resp_example "[1]" ["b"; "a"]))) H)).
Defined.

Lemma golden_replay_exact_witness :
  rs_Verdict (Diff cmp_docs_example cmp_text_example (toResponse (newGolden "s" (resp_example "not found" [])))
                (resp_example "not found" [])) ≠ VerdictPass.
Proof.
  intros H. apply (golden_replay_exact cmp_docs_example cmp_text_example cmp_docs_example_ok cmp_text_example_ok "s") in H.
  destruct H as [H|[H _]]; vm_compute in H; discriminate.
Defined.

Definition quoted (s : string) : string := String dquote (s +:+ String dquote "").
Example strip_example :
  stripJSONFields (λ _, "1") ("[{" +:+ quoted "a" +:+ ":1," +:+ quoted "b" +:+ ":true},{" +:+ quoted "a" +:+ ":2}]") ["a"]
  = "[{" +:+ quoted "b" +:+ ":true},{}]".
Proof. vm_compute. reflexivity. Qed.

(** A field that is there but holds an object counts as absent. *)
Example repeat_stops_on_object fmt_g : bodyHasField fmt_g ("{" +:+ quoted "stats" +:+ ":{" +:+ quoted "state" +:+ ":1}}") "stats" = false.
Proof. vm_compute. reflexivity. Qed.
