(* ===== verification/GoFlags.v ===== *)
(** * Command lines ([flag.FlagSet.Parse])

    A flag set names its flags with their kinds; parsing gives the values set, in the
    order they were set, and the arguments left over. *)
From S2P Require Import Prelude GoStrings.

Inductive flag_kind : Type := FString | FBool | FUint.
Definition flag_set : Type := list (string * flag_kind).
Definition flag_values : Type := gmap string string.

(** [strconv.ParseBool] *)
Definition parse_bool (s : string) : option bool :=
  if bool_decide (s ∈ ["1"; "t"; "T"; "TRUE"; "true"; "True"]) then Some true
  else if bool_decide (s ∈ ["0"; "f"; "F"; "FALSE"; "false"; "False"]) then Some false else None.

(** What an argument is: the end of the flags with or without being consumed, a flag with
    an optional value, or an error. *)
Inductive arg_class : Type := ArgEnd | ArgDashes | ArgFlag (name : string) (value : option string) | ArgBad.
Definition classify_arg (a : string) : arg_class :=
  match a with
  | String c0 (String c1 _) =>
      if negb (Ascii.eqb c0 "-") then ArgEnd
      else
        let name := if Ascii.eqb c1 "-" then str_drop 2 a else str_drop 1 a in
        if a =?s "--" then ArgDashes
        else match name with
             | EmptyString => ArgBad
             | String n r =>
                 if Ascii.eqb n "-" || Ascii.eqb n "=" then ArgBad
                 else match cut_byte "=" name with
                      | Some (k, v) => ArgFlag k (Some v)
                      | None => ArgFlag name None
                      end
             end
  | _ => ArgEnd
  end.

Section parsing.
(** [strconv.ParseUint(s, 0, 64)] accepts its argument. *)
Context (uint_ok : string → bool) (fs : flag_set).

Definition kind_of (name : string) : option flag_kind := snd <$> find_first (λ kv, fst kv =?s name) fs.

Definition accepts (k : flag_kind) (v : string) : bool :=
  match k with FString => true | FBool => match parse_bool v with Some _ => true | None => false end | FUint => uint_ok v end.

Inductive parsed : Type := Parsed (vals : flag_values) (rest : list string) | Help | BadFlags.

(** [-h] and [-help] ask for help unless they are defined. *)
Fixpoint parse_flags (vals : flag_values) (args : list string) : parsed :=
  match args with
  | [] => Parsed vals []
  | a :: rest =>
      match classify_arg a with
      | ArgEnd => Parsed vals args
      | ArgDashes => Parsed vals rest
      | ArgBad => BadFlags
      | ArgFlag name v =>
          match kind_of name, v with
          | None, _ => if (name =?s "help") || (name =?s "h") then Help else BadFlags
          | Some FBool, None => parse_flags (<[name := "true"]> vals) rest
          | Some k, Some v => if accepts k v then parse_flags (<[name := v]> vals) rest else BadFlags
          | Some k, None =>
              match rest with
              | [] => BadFlags
              | v :: rest => if accepts k v then parse_flags (<[name := v]> vals) rest else BadFlags
              end
          end
      end
  end.
End parsing.

(** The value of a flag after parsing. *)
Definition flag_string (vals : flag_values) (name : string) : string := from_opt "" (vals !! name).
Definition flag_bool (vals : flag_values) (name : string) : bool := from_opt false (v ← vals !! name; parse_bool v).

Example parse_flags_ex :
  parse_flags (λ _, true) [("samples", FString); ("verbose", FBool)] ∅ ["--verbose"; "-samples=a.yml"; "x"; "-y"]
  = Parsed (<["samples" := "a.yml"]> {["verbose" := "true"]}) ["x"; "-y"].
Proof. vm_compute. reflexivity. Qed.
