(* ===== verification/NumericProps.v ===== *)
(** * Numbers and durations read back

    Integers below 2^53 are exact in binary64, and so is their product with a power of
    two that a size unit stands for; [time.ParseDuration] reads back what
    [Duration.String] prints for whole seconds. *)
From Stdlib Require Import SpecFloat.
From S2P Require Import Prelude GoStrings GoNumeric.

#[local] Open Scope Z_scope.

(** ** Exact floats *)
Definition shl (n p : positive) : positive := Pos.iter xO p n.

Lemma shl_succ n p : shl (Pos.succ n) p = xO (shl n p).
Proof. unfold shl. by rewrite Pos.iter_succ. Qed.

Lemma shl_digits n p : digits2_pos (shl n p) = (n + digits2_pos p)%positive.
Proof. induction n as [|n IH] using Pos.peano_ind; [cbn; lia|]. rewrite shl_succ. cbn [digits2_pos]. rewrite IH. lia. Qed.

Lemma shl_value n p : Zpos (shl n p) = Zpos p * 2 ^ Zpos n.
Proof.
  induction n as [|n IH] using Pos.peano_ind; [cbn; lia|]. rewrite shl_succ, Pos2Z.inj_xO, IH, Pos2Z.inj_succ, Z.pow_succ_r by lia. ring.
Qed.

Lemma digits_bounds p : 2 ^ (Zpos (digits2_pos p) - 1) ≤ Zpos p < 2 ^ Zpos (digits2_pos p).
Proof.
  assert (Hs : ∀ q, 2 ^ (Zpos (Pos.succ q) - 1) = 2 * 2 ^ (Zpos q - 1) ∧ 2 ^ Zpos (Pos.succ q) = 2 * 2 ^ Zpos q).
  { intros q. rewrite <- !Z.pow_succ_r by lia. split; f_equal; lia. }
  induction p as [p IH|p IH|]; cbn [digits2_pos]; [..|by vm_compute].
  all: destruct (Hs (digits2_pos p)) as [-> ->]; lia.
Qed.

Lemma digits_small p : Zpos p < 2 ^ 53 → (digits2_pos p ≤ 53)%positive.
Proof.
  intros Hp. destruct (digits_bounds p) as [Hl _]. destruct (Pos.leb_spec (digits2_pos p) 53); [done|].
  assert (2 ^ 53 ≤ 2 ^ (Zpos (digits2_pos p) - 1)) by (apply Z.pow_le_mono_r; lia). lia.
Qed.

(** A mantissa of 53 digits is kept as it is. *)
Lemma shr_normal m e : digits2_pos m = 53%positive → -1074 ≤ e →
  shr_fexp prec emax (Zpos m) e loc_Exact = (Build_shr_record (Zpos m) false false, e).
Proof.
  intros Hm He. unfold shr_fexp. cbn [Zdigits2]. rewrite Hm.
  replace (fexp prec emax (53 + e) - e) with 0; [done|]. unfold fexp, emin, prec, emax. lia.
Qed.

(** Rounding once the first shift leaves 53 digits and no rest. *)
Lemma round_from s mx ex m e : shr_fexp prec emax mx ex loc_Exact = (Build_shr_record (Zpos m) false false, e) →
  digits2_pos m = 53%positive → -1074 ≤ e ≤ 971 → binary_round_aux prec emax s mx ex loc_Exact = S754_finite s m e.
Proof.
  intros Hs Hm He. unfold binary_round_aux. rewrite Hs. cbn [shr_m loc_of_shr_record round_nearest_even].
  rewrite shr_normal by (done || lia). cbn [shr_m]. destruct (Z.leb_spec e (emax - prec)); [done|]. unfold emax, prec in *. lia.
Qed.

(** The mantissa of an integer, scaled to 53 digits. *)
Definition mantissa (p : positive) : positive :=
  match (53 - Zpos (digits2_pos p))%Z with Zpos d => shl d p | _ => p end.

Lemma mantissa_spec p : (digits2_pos p ≤ 53)%positive →
  digits2_pos (mantissa p) = 53%positive ∧ Zpos (mantissa p) = Zpos p * 2 ^ (53 - Zpos (digits2_pos p)).
Proof.
  intros Hd. unfold mantissa. destruct (53 - Zpos (digits2_pos p)) as [|d|d] eqn:E; [split; lia| |lia].
  rewrite shl_digits, shl_value. split; lia.
Qed.

Lemma f64_of_small p : Zpos p < 2 ^ 53 → f64_of_Z (Zpos p) = S754_finite false (mantissa p) (Zpos (digits2_pos p) - 53).
Proof.
  intros Hp. apply digits_small in Hp. destruct (mantissa_spec p Hp) as [Hm _]. rewrite <- (round_from false (Zpos (mantissa p)) (Zpos (digits2_pos p) - 53)) by (done || lia || by apply shr_normal; [|lia]).
  unfold f64_of_Z, binary_normalize, binary_round. unfold shl_align, mantissa.
  replace (fexp prec emax (Zpos (digits2_pos p) + 0)) with (Zpos (digits2_pos p) - 53) by (unfold fexp, emin, prec, emax; lia).
  rewrite Z.sub_0_r. destruct (53 - Zpos (digits2_pos p)) as [|d|d] eqn:E; [|..|lia].
  - by replace (Zpos (digits2_pos p) - 53) with 0 by lia.
  - by replace (Zpos (digits2_pos p) - 53) with (Zneg d) by lia.
Qed.

(** A float that is [m * 2^52] before rounding. *)
Lemma round_scaled s m e : digits2_pos m = 53%positive → -1074 ≤ e + 52 ≤ 971 →
  binary_round_aux prec emax s (Zpos (m * 4503599627370496)) e loc_Exact = S754_finite s m (e + 52).
Proof.
  intros Hm He. apply round_from; [|done|done]. rewrite Pos.mul_comm.
  change (4503599627370496 * m)%positive with (shl 52 m). unfold shr_fexp. cbn [Zdigits2]. rewrite shl_digits, Hm.
  match goal with |- context [fexp prec emax ?x - e] => replace (fexp prec emax x - e) with 52 end; [done|].
  unfold fexp, emin, prec, emax. lia.
Qed.

(** [int64(float64(p) * float64(2^k))] for the units of sizes. *)
Lemma mul_pow2_exact p k : Zpos p < 2 ^ 53 → k ∈ [0; 10; 20; 30] → Zpos p * 2 ^ k < 2 ^ 63 →
  f64_to_int64 (f64_mul (f64_of_Z (Zpos p)) (f64_of_Z (2 ^ k))) = Zpos p * 2 ^ k.
Proof.
  intros Hp Hk Hb. rewrite f64_of_small by done. apply digits_small in Hp. destruct (mantissa_spec p Hp) as [Hm Hv].
  assert (f64_of_Z (2 ^ k) = S754_finite false 4503599627370496 (k - 52)) as ->.
  { rewrite !elem_of_cons, elem_of_nil in Hk. destruct Hk as [->|[->|[->|[->|[]]]]]; vm_compute; reflexivity. }
  assert (Hk' : 0 ≤ k ≤ 30) by (rewrite !elem_of_cons, elem_of_nil in Hk; lia).
  unfold f64_mul, SFmul. cbn [xorb]. rewrite round_scaled by (done || lia).
  set (d := Zpos (digits2_pos p)) in *. unfold f64_to_int64, f64_trunc.
  replace (if 0 <=? d - 53 + (k - 52) + 52 then _ else _) with (Zpos p * 2 ^ k).
  - destruct (Z.leb_spec int64_min (Zpos p * 2 ^ k)), (Z.leb_spec (Zpos p * 2 ^ k) int64_max); unfold int64_min, int64_max in *; cbn [andb]; lia.
  - rewrite Hv. destruct (Z.leb_spec 0 (d - 53 + (k - 52) + 52)).
    + rewrite <- Z.mul_assoc, <- Z.pow_add_r by lia. do 2 f_equal. lia.
    + replace (53 - d) with (k + - (d - 53 + (k - 52) + 52)) by lia. rewrite Z.pow_add_r, Z.mul_assoc, Z.div_mul by lia. done.
Qed.

(** ** Durations *)
Lemma dec_val_ge x ds : (x ≤ dec_val x ds)%N.
Proof. revert x. induction ds as [|c ds IH]; intros x; cbn; [lia|]. specialize (IH (x * 10 + digit_val c)%N). lia. Qed.

Definition starts_nondigit (s : string) : bool := match s with String c _ => negb (is_digit c) | EmptyString => true end.

Lemma leading_int_digits x ds rest : str_forallb is_digit ds = true → starts_nondigit rest = true →
  Z.of_N (dec_val x ds) ≤ 2 ^ 63 → leading_int (Z.of_N x) (ds +:+ rest) = Some (Z.of_N (dec_val x ds), rest).
Proof.
  revert x. induction ds as [|c ds IH]; intros x Hd Hr Hb.
  - rewrite str_app_nil_l. destruct rest as [|c r]; [done|]. cbn in Hr |- *. by destruct (is_digit c).
  - cbn [str_forallb] in Hd. apply andb_true_iff in Hd as [Hc Hd]. rewrite str_app_cons. cbn [leading_int dec_val] in *. rewrite Hc.
    pose proof (dec_val_ge (x * 10 + digit_val c) ds) as Hge.
    assert (Hz : Z.of_N x * 10 + Z.of_N (digit_val c) ≤ 2 ^ 63) by lia.
    destruct (Z.ltb_spec (2 ^ 63 / 10) (Z.of_N x)) as [Hlt|_].
    { assert (2 ^ 63 / 10 = 922337203685477580) as Hq by (vm_compute; reflexivity). lia. }
    destruct (Z.ltb_spec (2 ^ 63) (Z.of_N x * 10 + Z.of_N (digit_val c))); [lia|].
    replace (Z.of_N x * 10 + Z.of_N (digit_val c)) with (Z.of_N (x * 10 + digit_val c)) by lia. by apply IH.
Qed.

Lemma digits_run_app ds rest : str_forallb is_digit ds = true → starts_nondigit rest = true → digits_run (ds +:+ rest) = (ds, rest).
Proof.
  intros Hd Hr. induction ds as [|c ds IH]; [rewrite str_app_nil_l; destruct rest as [|c r]; [done|]; cbn in Hr |- *; by destruct (is_digit c)|].
  cbn [str_forallb] in Hd. apply andb_true_iff in Hd as [Hc Hd]. rewrite str_app_cons. cbn [digits_run]. by rewrite Hc, IH.
Qed.

(** The units of whole seconds, and a rest that begins a new group. *)
Inductive clock_unit : ascii → Z → Prop :=
| CU_h : clock_unit "h" Hour
| CU_m : clock_unit "m" Minute
| CU_s : clock_unit "s" Second.
Lemma clock_unit_pos u unit : clock_unit u unit → 0 < unit.
Proof. by destruct 1. Qed.
Definition next_group (s : string) : bool := match s with String c _ => is_digit c | EmptyString => true end.

Lemma parse_group_clock n u unit rest : clock_unit u unit → next_group rest = true → Z.of_N n * unit ≤ 2 ^ 63 →
  parse_group (n_to_dec n +:+ String u rest) = Some (Z.of_N n * unit, rest).
Proof.
  intros Hu Hr Hb. destruct (n_to_dec_spec n) as (c & d & Hs & Hd & Hv & _).
  pose proof (clock_unit_pos u unit Hu) as Hpos.
  assert (Hn : Z.of_N n ≤ 2 ^ 63) by nia.
  assert (Hl : leading_int 0 (n_to_dec n +:+ String u rest) = Some (Z.of_N n, String u rest)).
  { rewrite Hs. change 0 with (Z.of_N 0). rewrite leading_int_digits; [by rewrite Hv|done|by destruct Hu|by rewrite Hv]. }
  unfold parse_group. rewrite Hl. cbn [from_opt].
  assert (Hlen : (String.length (String u rest) =? String.length (n_to_dec n +:+ String u rest))%nat = false).
  { apply Nat.eqb_neq. rewrite Hs, str_length_app. cbn. lia. }
  rewrite Hlen. assert (Ascii.eqb u "." = false) as -> by (by destruct Hu). cbn [negb andb].
  assert (Ht : take_unit (String u rest) = (String u "", rest)).
  { cbn [take_unit]. assert (Ascii.eqb u "." || is_digit u = false) as -> by (by destruct Hu).
    destruct rest as [|c' r]; [done|]. cbn in Hr |- *. by rewrite Hr, orb_true_r. }
  rewrite Ht. assert (unit_ns (String u "") = Some unit) as -> by (by destruct Hu). cbn [mbind option_bind].
  destruct (Z.ltb_spec (2 ^ 63 / unit) (Z.of_N n)) as [Hlt|_]; [|done].
  assert (Z.of_N n ≤ 2 ^ 63 / unit) by (apply Z.div_le_lower_bound; lia). lia.
Qed.

Lemma parse_groups_clock f d n u unit rest : clock_unit u unit → next_group rest = true → 0 ≤ d → d + Z.of_N n * unit ≤ 2 ^ 63 →
  parse_groups (S f) d (n_to_dec n +:+ String u rest) = parse_groups f (d + Z.of_N n * unit) rest.
Proof.
  intros Hu Hr Hd Hb. pose proof (parse_group_clock n u unit rest Hu Hr ltac:(lia)) as Hg.
  destruct (n_to_dec_spec n) as (c & ds & Hs & Hall & _). rewrite Hs, str_app_cons in *. cbn [parse_groups].
  cbn [str_forallb] in Hall. apply andb_true_iff in Hall as [Hc _]. rewrite Hc, orb_true_r, Hg. cbn [negb mbind option_bind].
  destruct (Z.ltb_spec (2 ^ 63) (d + Z.of_N n * unit)); [lia|done].
Qed.

(** A sequence of groups as text, and its value. *)
Definition unit_of (u : ascii) : Z := if Ascii.eqb u "h" then Hour else if Ascii.eqb u "m" then Minute else Second.
Fixpoint groups_text (gs : list (N * ascii)) : string :=
  match gs with [] => "" | (n, u) :: gs => n_to_dec n +:+ String u (groups_text gs) end.
Fixpoint groups_value (gs : list (N * ascii)) : Z := match gs with [] => 0 | (n, u) :: gs => Z.of_N n * unit_of u + groups_value gs end.
Definition clocked (g : N * ascii) : Prop := clock_unit (snd g) (unit_of (snd g)).

Lemma groups_value_nonneg gs : Forall clocked gs → 0 ≤ groups_value gs.
Proof.
  induction 1 as [|[n u] gs Hu _ IH]; cbn; [done|]. pose proof (clock_unit_pos _ _ Hu) as Hpos. cbn [snd] in Hpos. nia.
Qed.

Lemma next_group_text gs : next_group (groups_text gs) = true.
Proof.
  destruct gs as [|[n u] gs]; [done|]. cbn [groups_text]. destruct (n_to_dec_spec n) as (c & d & -> & H & _).
  rewrite str_app_cons. cbn in *. by apply andb_true_iff in H as [? _].
Qed.

Lemma groups_text_length gs : (2 * length gs ≤ String.length (groups_text gs))%nat.
Proof.
  induction gs as [|[n u] gs IH]; cbn [groups_text length]; [done|]. rewrite str_length_app. cbn [String.length].
  destruct (n_to_dec_spec n) as (c & d & -> & _). cbn [String.length]. lia.
Qed.

Lemma parse_groups_text f d gs : Forall clocked gs → (length gs < f)%nat → 0 ≤ d → d + groups_value gs ≤ 2 ^ 63 →
  parse_groups f d (groups_text gs) = Some (d + groups_value gs).
Proof.
  intros Hc. revert f d. induction Hc as [|[n u] gs Hu Hc IH]; intros f d Hf Hd Hb; (destruct f as [|f]; [cbn in Hf; lia|]).
  { cbn. by rewrite Z.add_0_r. }
  cbn [groups_text groups_value length] in *. pose proof (groups_value_nonneg gs Hc).
  pose proof (clock_unit_pos _ _ Hu) as Hpos. cbn [snd] in Hpos.
  rewrite (parse_groups_clock f d n u (unit_of u)) by (done || apply next_group_text || lia).
  rewrite IH by nia. by rewrite Z.add_assoc.
Qed.

(** [time.ParseDuration] of a non-empty sequence of groups. *)
Lemma parse_duration_text gs : Forall clocked gs → gs ≠ [] → groups_value gs ≤ int64_max →
  parse_duration (groups_text gs) = Some (groups_value gs).
Proof.
  intros Hc Hne Hb. unfold int64_max in Hb. pose proof (groups_text_length gs) as Hl. pose proof (next_group_text gs) as Hs.
  pose proof (parse_groups_text (S (String.length (groups_text gs))) 0 gs Hc ltac:(lia) ltac:(lia) ltac:(lia)) as Hp.
  destruct gs as [|g gs]; [done|]. set (t := groups_text (g :: gs)) in *. cbn [length] in Hl. unfold parse_duration.
  destruct t as [|c r]; [cbn in Hl; lia|]. cbn in Hs. destruct (digit_not_sign c Hs) as [Hm Hq].
  apply Ascii.eqb_neq in Hm as ->, Hq as ->. destruct (String c r =?s "0") eqn:E0.
  { apply seqb_eq in E0. rewrite E0 in Hl. cbn in Hl. lia. }
  change (String c r =?s "") with false. cbv iota. rewrite Hp. cbn [mbind option_bind].
  destruct (Z.ltb_spec (2 ^ 63 - 1) (0 + groups_value (g :: gs))); [lia|done].
Qed.

Lemma fmt_frac_whole k acc v : fmt_frac k false acc (v * 10 ^ N.of_nat k) = (acc, v).
Proof.
  revert v. induction k as [|k IH]; intros v; [cbn; by rewrite N.mul_1_r|].
  rewrite Nat2N.inj_succ, N.pow_succ_r'. replace (v * (10 * 10 ^ N.of_nat k))%N with (v * 10 ^ N.of_nat k * 10)%N by lia.
  cbn [fmt_frac]. rewrite N.Div0.mod_mul, N.div_mul by lia. cbn. apply IH.
Qed.

(** What a whole number of seconds is printed as. *)
Definition seconds_groups (i : N) : list (N * ascii) :=
  (if (i / 60 / 60 =? 0)%N then [] else [((i / 60 / 60)%N, "h"%char)])
  ++ (if (i / 60 =? 0)%N then [] else [((i / 60 mod 60)%N, "m"%char)]) ++ [((i mod 60)%N, "s"%char)].

Lemma duration_string_seconds (i : N) : (0 < i)%N → duration_string (Z.of_N i * Second) = groups_text (seconds_groups i).
Proof.
  intros Hi. unfold duration_string, Second.
  destruct (Z.ltb_spec (Z.of_N i * 1000000000) 0); [lia|].
  replace (Z.to_N (Z.abs (Z.of_N i * 1000000000))) with (i * 10 ^ N.of_nat 9)%N by (change (10 ^ N.of_nat 9)%N with 1000000000%N; lia).
  destruct (N.ltb_spec (i * 10 ^ N.of_nat 9) 1000000000) as [Hl|_]; [change (10 ^ N.of_nat 9)%N with 1000000000%N in Hl; lia|].
  rewrite fmt_frac_whole, str_app_nil_l. unfold seconds_groups. destruct (N.eqb_spec (i / 60) 0) as [->|_]; [done|].
  by destruct (N.eqb_spec (i / 60 / 60) 0).
Qed.

Lemma seconds_groups_value i : groups_value (seconds_groups i) = Z.of_N i * Second ∧ Forall clocked (seconds_groups i).
Proof.
  unfold seconds_groups. pose proof (N.Div0.div_mod i 60). pose proof (N.Div0.div_mod (i / 60) 60).
  pose proof (N.mod_lt i 60 ltac:(lia)). pose proof (N.mod_lt (i / 60) 60 ltac:(lia)).
  assert (unit_of "h" = 3600000000000 ∧ unit_of "m" = 60000000000 ∧ unit_of "s" = 1000000000) as (Hh & Hm & Hs) by done.
  unfold Second. split.
  - set (m := (i / 60)%N) in *. set (h := (m / 60)%N) in *. set (a := (i mod 60)%N) in *. set (b := (m mod 60)%N) in *. clearbody a b h m.
    destruct (N.eqb_spec h 0), (N.eqb_spec m 0); cbn [app groups_value]; rewrite ?Hh, ?Hm, ?Hs; lia.
  - repeat (apply Forall_app; split); try case_match; repeat constructor.
Qed.

(** [time.ParseDuration] reads back what [Duration.String] prints for whole seconds. *)
Lemma duration_seconds_roundtrip i : 0 < i → i * Second ≤ int64_max → parse_duration (duration_string (i * Second)) = Some (i * Second).
Proof.
  intros Hi Hb. set (k := Z.to_N i). assert (Hik : i = Z.of_N k) by lia.
  destruct (seconds_groups_value k) as [Hv Hc]. rewrite Hik, duration_string_seconds by lia.
  rewrite parse_duration_text; [by rewrite Hv|done|unfold seconds_groups; destruct (_ =? _)%N, (_ =? _)%N; done|by rewrite Hv, <- Hik].
Qed.
