(* ===== verification/YamlBlock.v ===== *)
(** * Block documents

    The YAML documents the harnesses write: block mappings and sequences of quoted scalars,
    two spaces deeper at each level. A reader of such documents, with its round trip, shows
    that a library can decode them as documented ([read_doc_text] below). *)
From S2P Require Import Prelude GoStrings GoNumeric.

#[local] Set Warnings "-register-all".

Definition in_quotes (s : string) : string := String dquote (s +:+ String dquote "").
Definition text_lines (ls : list string) : string := concat_str ((λ l, l +:+ nl) <$> ls).

Inductive ytree : Type :=
| YPlain (s : string)
| YQuoted (s : string)
| YSeq (l : list string)
| YMap (m : list (string * ytree)).

Fixpoint yaml_lines (ind key : string) (t : ytree) : list string :=
  match t with
  | YPlain s => [ind +:+ key +:+ ": " +:+ s]
  | YQuoted s => [ind +:+ key +:+ ": " +:+ in_quotes s]
  | YSeq l => (ind +:+ key +:+ ":") :: ((λ s, ind +:+ "  - " +:+ in_quotes s) <$> l)
  | YMap m => (ind +:+ key +:+ ":")
      :: (fix go (m : list (string * ytree)) := match m with [] => [] | (k, t) :: m => yaml_lines (ind +:+ "  ") k t ++ go m end) m
  end.
Definition tree_lines (ind : string) (m : list (string * ytree)) : list string := mjoin ((λ '(k, t), yaml_lines ind k t) <$> m).
Definition yaml_text (m : list (string * ytree)) : string := text_lines (tree_lines "" m).

(** What can stand in the file as it is: numbers as Go prints them, words that no YAML
    version takes for anything but text or true and false, and quoted text without quotes,
    backslashes and control characters. *)
Definition is_letter (c : ascii) : bool := is_upper c || is_lower c.
Definition word_char (c : ascii) : bool := is_letter c || is_digit c || Ascii.eqb c "_" || Ascii.eqb c "." || Ascii.eqb c "/" || Ascii.eqb c "-".
Definition canonical_int (s : string) : bool :=
  str_forallb is_digit s && negb (s =?s "") && ((s =?s "0") || negb (has_prefix "0" s)) && (String.length s <=? 18)%nat.
Definition ends_in_letter (s : string) : bool := match str_rev s with String c _ => is_letter c | "" => false end.
Definition reserved_words : list string :=
  ["null"; "Null"; "NULL"; "True"; "TRUE"; "False"; "FALSE"; "y"; "Y"; "yes"; "Yes"; "YES"; "on"; "On"; "ON"; "n"; "N"; "no"; "No"; "NO"; "off"; "Off"; "OFF"].
Definition plain_word (s : string) : bool :=
  canonical_int s
  || (str_forallb word_char s && ends_in_letter s && negb (existsb (λ p, has_prefix p s) ["-"; "."; "0x"; "0X"]) && negb (existsb (String.eqb s) reserved_words)).
Definition quotable (s : string) : bool :=
  str_forallb (λ c, in_rng 32 126 c && negb (Ascii.eqb c dquote) && negb (Ascii.eqb c "\")) s.
Fixpoint plain_tree (t : ytree) : bool :=
  match t with
  | YPlain s => plain_word s
  | YQuoted s => quotable s
  | YSeq l => negb (bool_decide (l = [])) && forallb quotable l
  | YMap m => bool_decide (NoDup (fst <$> m))
      && (fix go (m : list (string * ytree)) := match m with [] => true | (k, t) :: m => plain_word k && plain_tree t && go m end) m
  end.
Definition plain_doc (m : list (string * ytree)) : bool := plain_tree (YMap m).

Definition given (b : bool) (kvs : list (string * ytree)) : list (string * ytree) := if b then kvs else [].

(** ** Writing *)

(** Lines after a line break instead of before one. *)
Definition broken (ls : list string) : string := concat_str ((λ l, nl +:+ l) <$> ls).
Lemma text_lines_broken ls : nl +:+ text_lines ls = broken ls +:+ nl.
Proof.
  unfold text_lines, broken. induction ls as [|l ls IH]; [done|]. cbn [fmap list_fmap concat_str]. by rewrite !str_app_assoc, <- IH.
Qed.
Lemma broken_cons l ls : broken (l :: ls) = nl +:+ l +:+ broken ls.
Proof. unfold broken. cbn [fmap list_fmap concat_str]. by rewrite str_app_assoc. Qed.
Lemma broken_app l1 l2 : broken (l1 ++ l2) = broken l1 +:+ broken l2.
Proof. induction l1 as [|l l1 IH]; [done|]. cbn [app]. by rewrite !broken_cons, IH, !str_app_assoc. Qed.

(** The text of the entries, each line after its break. *)
Definition entries (ind : string) (m : list (string * ytree)) : string := broken (tree_lines ind m).
Lemma entries_cons ind k t m : entries ind ((k, t) :: m) = broken (yaml_lines ind k t) +:+ entries ind m.
Proof. unfold entries, tree_lines. cbn [fmap list_fmap mjoin list_join]. by rewrite broken_app. Qed.
Lemma entries_map ind k m : broken (yaml_lines ind k (YMap m)) = nl +:+ ind +:+ k +:+ ":" +:+ entries (ind +:+ "  ") m.
Proof.
  cbn [yaml_lines]. rewrite broken_cons, !str_app_assoc. do 4 f_equal. unfold entries, tree_lines. induction m as [|[k' t] m IH]; [done|].
  cbn [fmap list_fmap mjoin list_join]. by rewrite !broken_app, IH.
Qed.
Lemma in_quotes_app s r : in_quotes s +:+ r = String dquote (s +:+ String dquote r).
Proof. unfold in_quotes. by rewrite str_app_cons, str_app_assoc. Qed.

(** The text of the entries before what follows. *)
Section writes.
Context (ind k r : string) (m : list (string * ytree)) (y : string) (Hy : entries ind m +:+ r = y).
Lemma writes_nil : entries ind [] +:+ r = r.
Proof using Type. done. Qed.
Lemma writes_plain s : entries ind ((k, YPlain s) :: m) +:+ r = nl +:+ ind +:+ k +:+ ": " +:+ s +:+ y.
Proof using Hy. rewrite entries_cons, str_app_assoc, Hy. cbn [yaml_lines]. by rewrite broken_cons, str_app_nil_r, !str_app_assoc. Qed.
Lemma writes_quoted s : entries ind ((k, YQuoted s) :: m) +:+ r = nl +:+ ind +:+ k +:+ ": " +:+ String dquote (s +:+ String dquote y).
Proof using Hy.
  rewrite entries_cons, str_app_assoc, Hy. cbn [yaml_lines]. by rewrite broken_cons, str_app_nil_r, !str_app_assoc, in_quotes_app.
Qed.
Lemma writes_seq l : entries ind ((k, YSeq l) :: m) +:+ r = nl +:+ ind +:+ k +:+ ":" +:+ concat_str ((λ s, nl +:+ ind +:+ "  - " +:+ in_quotes s) <$> l) +:+ y.
Proof using Hy.
  rewrite entries_cons, str_app_assoc, Hy. cbn [yaml_lines]. rewrite broken_cons, !str_app_assoc. do 5 f_equal.
  induction l as [|s l IH]; [done|]. cbn [fmap list_fmap concat_str]. by rewrite broken_cons, IH, !str_app_assoc.
Qed.
Lemma writes_map m' z : entries (ind +:+ "  ") m' +:+ y = z → entries ind ((k, YMap m') :: m) +:+ r = nl +:+ ind +:+ k +:+ ":" +:+ z.
Proof using Hy. intros <-. rewrite entries_cons, str_app_assoc, Hy. by rewrite entries_map, !str_app_assoc. Qed.
Lemma writes_given b kvs s : entries ind kvs +:+ "" = s → entries ind (given b kvs ++ m) +:+ r = (if b then s else "") +:+ y.
Proof using Hy.
  rewrite str_app_nil_r. intros <-. rewrite <- Hy. destruct b; [|done]. cbn [given]. unfold entries, tree_lines.
  by rewrite fmap_app, join_app, broken_app, str_app_assoc.
Qed.
End writes.
Lemma writes_given_last ind r b kvs s : entries ind kvs +:+ "" = s → entries ind (given b kvs) +:+ r = (if b then s else "") +:+ r.
Proof. intros Hs. rewrite <- (app_nil_r (given b kvs)). by apply writes_given. Qed.
Lemma yaml_text_entries m : nl +:+ yaml_text m = entries "" m +:+ nl.
Proof. apply text_lines_broken. Qed.
(** Writes a document: the text is found on the way. *)
Ltac writes_step :=
  match goal with
  | |- entries _ ?m +:+ _ = _ =>
      let m' := eval hnf in m in
      lazymatch m' with
      | [] => apply writes_nil
      | (_, YPlain _) :: _ => eapply writes_plain
      | (_, YQuoted _) :: _ => eapply writes_quoted
      | (_, YSeq _) :: _ => eapply writes_seq
      | (_, YMap _) :: _ => eapply writes_map
      | _ => first [eapply writes_given | eapply writes_given_last]
      end
  end.
Ltac writes := repeat writes_step.


(** ** Reading *)
Inductive yline : Type := LItem (s : string) | LHead (k : string) | LScalar (k : string) (t : ytree).

Fixpoint spaces (s : string) : nat * string :=
  match s with String " " r => let '(n, r) := spaces r in (S n, r) | _ => (O, s) end.
Definition unquote (s : string) : string := match s with String _ r => trim_suffix (String dquote "") r | "" => "" end.
Definition lex_line (l : string) : nat * yline :=
  let '(n, r) := spaces l in
  (Nat.div2 n,
   if has_prefix "- " r then LItem (unquote (str_drop 2 r)) else
   match cut_byte ":" r with
   | None => LHead r
   | Some (k, v) =>
       match v with
       | String _ (String c _ as w) => LScalar k (if Ascii.eqb c dquote then YQuoted (unquote w) else YPlain w)
       | _ => LHead k
       end
   end).

Fixpoint take_items (d : nat) (ts : list (nat * yline)) : list string * list (nat * yline) :=
  match ts with
  | (d', LItem s) :: r => if (d' =? d)%nat then let '(l, r) := take_items d r in (s :: l, r) else ([], ts)
  | _ => ([], ts)
  end.
(** The entries at a depth, and the lines after them. *)
Fixpoint read_entries (fuel d : nat) (ts : list (nat * yline)) : list (string * ytree) * list (nat * yline) :=
  match fuel with
  | O => ([], ts)
  | S fuel =>
      let next e ts := let '(m, r) := read_entries fuel d ts in (e :: m, r) in
      match ts with
      | (d', l) :: r =>
          if negb (d' =? d)%nat then ([], ts) else
          match l with
          | LItem _ => ([], ts)
          | LScalar k t => next (k, t) r
          | LHead k =>
              match take_items (S d) r with
              | ([], _) => let '(m, r) := read_entries fuel (S d) r in next (k, YMap m) r
              | (l, r) => next (k, YSeq l) r
              end
          end
      | [] => ([], [])
      end
  end.
Definition read_doc (text : string) : list (string * ytree) :=
  let ts := lex_line <$> removelast (split_on newline text) in fst (read_entries (S (length ts)) 0 ts).

(** *** The lines of a document *)
Fixpoint tree_toks (d : nat) (k : string) (t : ytree) : list (nat * yline) :=
  match t with
  | YPlain _ | YQuoted _ => [(d, LScalar k t)]
  | YSeq l => (d, LHead k) :: ((λ s, (S d, LItem s)) <$> l)
  | YMap m => (d, LHead k) :: (fix go (m : list (string * ytree)) := match m with [] => [] | (k, t) :: m => tree_toks (S d) k t ++ go m end) m
  end.
Definition doc_toks (d : nat) (m : list (string * ytree)) : list (nat * yline) := mjoin ((λ '(k, t), tree_toks d k t) <$> m).
Lemma tree_toks_map d k m : tree_toks d k (YMap m) = (d, LHead k) :: doc_toks (S d) m.
Proof. cbn [tree_toks]. f_equal. unfold doc_toks. induction m as [|[k' t] m IH]; [done|]. cbn [fmap list_fmap mjoin list_join]. by rewrite IH. Qed.
Lemma doc_toks_cons d k t m : doc_toks d ((k, t) :: m) = tree_toks d k t ++ doc_toks d m.
Proof. done. Qed.

(** What follows the entries at a depth is less deep. *)
Definition ends_at (d : nat) (ts : list (nat * yline)) : Prop := match ts with [] => True | (d', _) :: _ => (d' < d)%nat end.
Lemma doc_ends d m rest : ends_at d rest → ends_at (S d) (doc_toks d m ++ rest).
Proof.
  destruct m as [|[k t] m]; [destruct rest as [|[d' l] r]; cbn; lia|]. intros _. rewrite doc_toks_cons. destruct t; cbn; lia.
Qed.
Lemma no_items d ts : ends_at (S d) ts → take_items (S d) ts = ([], ts).
Proof. destruct ts as [|[d' [s|k|k t]] r]; try done. cbn. destruct (Nat.eqb_spec d' (S d)); [lia|done]. Qed.
Lemma doc_no_items d m rest : ends_at d rest → take_items d (doc_toks d m ++ rest) = ([], doc_toks d m ++ rest).
Proof.
  destruct m as [|[k t] m]; [|by destruct t]. cbn. destruct rest as [|[d' [s|k|k t]] r]; try done. cbn. intros Hd. destruct (Nat.eqb_spec d' d); [lia|done].
Qed.
Lemma take_items_all d l rest : take_items d rest = ([], rest) → take_items d (((λ s, (d, LItem s)) <$> l) ++ rest) = (l, rest).
Proof. intros Hr. induction l as [|s l IH]; [done|]. cbn. by rewrite Nat.eqb_refl, IH. Qed.

(** No sequence is empty. *)
Fixpoint full_tree (t : ytree) : bool :=
  match t with
  | YSeq l => negb (bool_decide (l = []))
  | YMap m => (fix go (m : list (string * ytree)) := match m with [] => true | (_, t) :: m => full_tree t && go m end) m
  | _ => true
  end.
Lemma full_map_cons k t m : full_tree (YMap ((k, t) :: m)) = full_tree t && full_tree (YMap m).
Proof. done. Qed.

Lemma read_entries_toks fuel d m rest : full_tree (YMap m) = true → (length (doc_toks d m) < fuel)%nat → ends_at d rest →
  read_entries fuel d (doc_toks d m ++ rest) = (m, rest).
Proof.
  revert d m rest. induction fuel as [|fuel IH]; intros d m rest Hm Hf He; [lia|]. destruct m as [|[k t] m].
  - destruct rest as [|[d' l] r]; [done|]. cbn in He |- *. destruct (Nat.eqb_spec d' d); [lia|done].
  - rewrite full_map_cons in Hm. apply andb_true_iff in Hm as [Ht Hm]. rewrite doc_toks_cons, length_app in Hf. rewrite doc_toks_cons, <- app_assoc.
    assert (Hnext : (length (doc_toks d m) < fuel)%nat → read_entries fuel d (doc_toks d m ++ rest) = (m, rest)) by auto.
    destruct t as [s|s|l|m'].
    + cbn in Hf |- *. rewrite Nat.eqb_refl. cbn. by rewrite Hnext by lia.
    + cbn in Hf |- *. rewrite Nat.eqb_refl. cbn. by rewrite Hnext by lia.
    + cbn [tree_toks app length] in Hf |- *. cbn [read_entries]. rewrite Nat.eqb_refl. cbn [negb].
      rewrite take_items_all by (apply no_items; by apply doc_ends). destruct l; [done|]. by rewrite Hnext by lia.
    + rewrite tree_toks_map in Hf |- *. cbn [app length] in Hf |- *. cbn [read_entries]. rewrite Nat.eqb_refl. cbn [negb].
      pose proof (doc_ends d m rest He) as He'. rewrite doc_no_items by done. rewrite (IH (S d) m') by (done || lia). by rewrite Hnext by lia.
Qed.

(** *** Reading the lines *)
Fixpoint pad (d : nat) : string := match d with O => "" | S d => String " " (String " " (pad d)) end.
Lemma pad_S d r : pad d +:+ "  " +:+ r = pad (S d) +:+ r.
Proof.
  induction d as [|d IH]; [done|]. exact (f_equal (λ x, String " " (String " " x)) IH).
Qed.
Lemma spaces_pad d c r : c ≠ " "%char → spaces (pad d +:+ String c r) = ((2 * d)%nat, String c r).
Proof.
  intros Hc. induction d as [|d IH]; [cbn; destruct c as [[] [] [] [] [] [] [] []]; done|]. replace (2 * S d)%nat with (S (S (2 * d))) by lia.
  change (spaces (pad (S d) +:+ String c r)) with (let '(n, x) := let '(n, x) := spaces (pad d +:+ String c r) in (S n, x) in (S n, x)). by rewrite IH.
Qed.
Lemma unquote_quoted s : unquote (in_quotes s) = s.
Proof.
  unfold unquote, in_quotes, trim_suffix. assert (has_suffix (String dquote "") (s +:+ String dquote "") = true) as ->.
  { apply has_suffix_spec. by exists s. }
  rewrite str_length_app. cbn [String.length]. replace (String.length s + 1 - 1)%nat with (String.length s) by lia. apply str_take_app.
Qed.

Lemma word_chars p : word_char p = true → p ≠ " "%char ∧ p ≠ ":"%char ∧ p ≠ dquote ∧ p ≠ newline.
Proof. intros Hp. split_and!; intros ->; by vm_compute in Hp. Qed.
Lemma plain_word_spec k : plain_word k = true → str_forallb word_char k = true ∧ ∃ c r, k = String c r ∧ word_char c = true ∧ c ≠ "-"%char.
Proof.
  intros Hk. assert (Hall : str_forallb word_char k = true).
  { apply orb_true_iff in Hk as [Hk|Hk]; repeat (apply andb_true_iff in Hk as [Hk ?]); [|done].
    eapply str_forallb_impl; [|exact Hk]. intros c Hc. unfold word_char. by rewrite Hc, orb_true_r. }
  split; [done|]. destruct k as [|c r]; [done|]. exists c, r. cbn in Hall. apply andb_true_iff in Hall as [Hc _]. split_and!; [done..|].
  intros ->. apply orb_true_iff in Hk as [Hk|Hk]; [done|]. repeat (apply andb_true_iff in Hk as [Hk ?]). done.
Qed.
Lemma word_no_byte b k : word_char b = false → str_forallb word_char k = true → mem_byte b k = false.
Proof. apply mem_byte_none. Qed.

Lemma no_dash c r : c ≠ "-"%char → has_prefix "- " (String c r) = false.
Proof. intros Hc. cbn [has_prefix]. destruct (Ascii.eqb_spec "-" c); [congruence|done]. Qed.

Lemma lex_head d k : plain_word k = true → lex_line (pad d +:+ k +:+ ":") = (d, LHead k).
Proof.
  intros Hk. destruct (plain_word_spec k Hk) as (Hall & c & r & -> & Hc & Hm). destruct (word_chars c Hc) as (H1 & _).
  unfold lex_line. rewrite str_app_cons, spaces_pad by done. rewrite Nat.div2_double. f_equal.
  rewrite no_dash by done.
  rewrite <- str_app_cons. change ":" with (String ":" ""). by rewrite cut_byte_app by (by apply word_no_byte).
Qed.
Lemma lex_scalar d k c v : plain_word k = true →
  lex_line (pad d +:+ k +:+ ": " +:+ String c v) = (d, LScalar k (if Ascii.eqb c dquote then YQuoted (unquote (String c v)) else YPlain (String c v))).
Proof.
  intros Hk. destruct (plain_word_spec k Hk) as (Hall & c' & r & -> & Hc & Hm). destruct (word_chars c' Hc) as (H1 & _).
  unfold lex_line. rewrite str_app_cons, spaces_pad by done. rewrite Nat.div2_double. f_equal.
  rewrite no_dash by done.
  rewrite <- str_app_cons. change (": " +:+ String c v) with (String ":" (String " " (String c v))). by rewrite cut_byte_app by (by apply word_no_byte).
Qed.
Lemma lex_item d s : lex_line (pad d +:+ "- " +:+ in_quotes s) = (d, LItem s).
Proof.
  unfold lex_line. change ("- " +:+ in_quotes s) with (String "-" (String " " (in_quotes s))). rewrite spaces_pad by done.
  rewrite Nat.div2_double. f_equal. change (LItem (unquote (in_quotes s)) = LItem s). by rewrite unquote_quoted.
Qed.

Lemma plain_map_cons k t m : plain_tree (YMap ((k, t) :: m)) = true → plain_word k = true ∧ plain_tree t = true ∧ plain_tree (YMap m) = true.
Proof.
  cbn [plain_tree]. intros [Hn H2]%andb_true_iff. apply andb_true_iff in H2 as [[Hk Ht]%andb_true_iff Hm]. split_and!; [done..|].
  rewrite Hm, andb_true_r. apply bool_decide_eq_true in Hn. apply NoDup_cons in Hn as [_ Hn]. by apply bool_decide_eq_true.
Qed.

(** Induction on documents: a tree, and the entries of a mapping. *)
Lemma ytree_ind' (P : ytree → Prop) :
  (∀ s, P (YPlain s)) → (∀ s, P (YQuoted s)) → (∀ l, P (YSeq l)) → (∀ m, Forall (λ kt, P kt.2) m → P (YMap m)) → ∀ t, P t.
Proof.
  intros H1 H2 H3 H4. fix go 1. intros [s|s|l|m]; [apply H1|apply H2|apply H3|]. apply H4. induction m as [|[k t] m IH]; constructor; [apply go|exact IH].
Qed.

Lemma yaml_lines_map d k m : yaml_lines (pad d) k (YMap m) = (pad d +:+ k +:+ ":") :: tree_lines (pad (S d)) m.
Proof.
  cbn [yaml_lines]. f_equal. unfold tree_lines. replace (pad d +:+ "  ") with (pad (S d)).
  - induction m as [|[k' t] m IH]; [done|]. cbn [fmap list_fmap mjoin list_join]. by rewrite IH.
  - rewrite <- (str_app_nil_r (pad (S d))), <- pad_S. by rewrite str_app_nil_r.
Qed.
Lemma lex_lines t : ∀ d k, plain_word k = true → plain_tree t = true → lex_line <$> yaml_lines (pad d) k t = tree_toks d k t.
Proof.
  induction t as [s|s|l|m IH] using ytree_ind'; intros d k Hk Ht.
  - cbn [yaml_lines fmap list_fmap tree_toks]. destruct (plain_word_spec s Ht) as (_ & c & r & -> & Hc & _). rewrite lex_scalar by done.
    destruct (word_chars c Hc) as (_ & _ & H1 & _). by destruct (Ascii.eqb_spec c dquote).
  - cbn [yaml_lines fmap list_fmap tree_toks]. unfold in_quotes. rewrite lex_scalar by done. rewrite Ascii.eqb_refl. fold (in_quotes s). by rewrite unquote_quoted.
  - cbn [yaml_lines fmap list_fmap tree_toks]. rewrite lex_head by done. f_equal. rewrite <- list_fmap_compose. apply list_fmap_ext. intros _ s _. cbn.
    change ("  - " +:+ in_quotes s) with ("  " +:+ "- " +:+ in_quotes s). by rewrite pad_S, lex_item.
  - rewrite yaml_lines_map, tree_toks_map. cbn [fmap list_fmap]. rewrite lex_head by done. f_equal. clear Hk.
    induction IH as [|[k' t] m Hx IH IHm]; [done|]. destruct (plain_map_cons _ _ _ Ht) as (Hk & Ht' & Hm).
    unfold tree_lines, doc_toks in *. cbn [fmap list_fmap mjoin list_join]. rewrite fmap_app. cbn in Hx. rewrite Hx by done. f_equal. by apply IHm.
Qed.

(** *** The whole text *)
Lemma quotable_line s : quotable s = true → mem_byte newline s = false.
Proof. apply mem_byte_none. done. Qed.
Lemma pad_line d : mem_byte newline (pad d) = false.
Proof. induction d as [|d IH]; [done|]. exact IH. Qed.
Lemma lines_one_line t : ∀ d k, plain_word k = true → plain_tree t = true → Forall (λ l, mem_byte newline l = false) (yaml_lines (pad d) k t).
Proof.
  assert (Hw : ∀ k, plain_word k = true → mem_byte newline k = false) by (intros k [Hk _]%plain_word_spec; by eapply mem_byte_none; [|exact Hk]).
  assert (Hq : ∀ s, quotable s = true → mem_byte newline (in_quotes s) = false).
  { intros s Hs. unfold in_quotes. cbn [mem_byte]. by rewrite mem_byte_app, quotable_line. }
  induction t as [s|s|l|m IH] using ytree_ind'; intros d k Hk Ht.
  - constructor; [|constructor]. by rewrite !mem_byte_app, pad_line, (Hw k), (Hw s).
  - constructor; [|constructor]. by rewrite !mem_byte_app, pad_line, (Hw k), Hq.
  - cbn [yaml_lines]. constructor; [by rewrite !mem_byte_app, pad_line, (Hw k)|]. apply Forall_fmap, Forall_forall. intros s Hs. cbn.
    cbn in Ht. apply andb_true_iff in Ht as [_ Ht]. rewrite forallb_forall in Ht. rewrite !mem_byte_app, pad_line, Hq; [done|]. by apply Ht, list_elem_of_In.
  - rewrite yaml_lines_map. constructor; [by rewrite !mem_byte_app, pad_line, (Hw k)|]. clear Hk. unfold tree_lines.
    induction IH as [|[k' t] m Hx IH IHm]; [constructor|]. destruct (plain_map_cons _ _ _ Ht) as (Hk & Ht' & Hm).
    cbn [fmap list_fmap mjoin list_join]. apply Forall_app. split; [by apply Hx|by apply IHm].
Qed.
Lemma split_text_lines ls : Forall (λ l, mem_byte newline l = false) ls → split_on newline (text_lines ls) = ls ++ [""].
Proof.
  unfold text_lines. induction 1 as [|l ls Hl _ IH]; [done|]. cbn [fmap list_fmap concat_str]. rewrite str_app_assoc.
  change (nl +:+ ?r) with (String newline r). by rewrite split_on_app, IH.
Qed.

Lemma plain_full t : plain_tree t = true → full_tree t = true.
Proof.
  induction t as [s|s|l|m IH] using ytree_ind'; intros Ht; [done|done| |].
  - cbn in Ht |- *. by apply andb_true_iff in Ht as [? _].
  - induction IH as [|[k t] m Hx IH IHm]; [done|]. destruct (plain_map_cons _ _ _ Ht) as (_ & Ht' & Hm). rewrite full_map_cons.
    cbn in Hx. rewrite Hx by done. by apply IHm.
Qed.

Lemma lex_doc m : plain_doc m = true → lex_line <$> tree_lines "" m = doc_toks 0 m ∧ Forall (λ l, mem_byte newline l = false) (tree_lines "" m).
Proof.
  unfold plain_doc, tree_lines, doc_toks. induction m as [|[k t] m IH]; intros Hm; [done|]. destruct (plain_map_cons _ _ _ Hm) as (Hk & Ht & Hm').
  destruct (IH Hm') as [H1 H2]. cbn [fmap list_fmap mjoin list_join]. rewrite fmap_app. change (yaml_lines "" k t) with (yaml_lines (pad 0) k t). rewrite (lex_lines t 0 k) by done. split; [by f_equal|].
  apply Forall_app. split; [by apply (lines_one_line t 0 k)|done].
Qed.

(** Every document is read back from its text. *)
Theorem read_doc_text m : plain_doc m = true → read_doc (yaml_text m) = m.
Proof.
  intros Hm. destruct (lex_doc m Hm) as [H1 H2]. unfold read_doc, yaml_text. rewrite split_text_lines by done. rewrite removelast_last, H1.
  rewrite <- (app_nil_r (doc_toks 0 m)) at 2. rewrite read_entries_toks; [done|by apply plain_full|lia|done].
Qed.
