(* ===== verification/ConfigYaml.v ===== *)
(** * Reading the gateway's configuration from YAML (internal/config/config.go)

    A document decoded by yaml.v3 into the structs of internal/config, field by field along
    their tags, and what the library promises of documents in block style. Durations are
    nanoseconds. *)
From S2P Require Import Prelude GoStrings GoNumeric Config YamlBlock.

#[local] Open Scope Z_scope.
#[local] Set Warnings "-register-all".

(** ** Fields

    A key that is left out keeps the old value. A key with nothing after it, which is how an
    empty mapping is written, is a null: it empties lists and maps and leaves everything else
    as it is. *)
Definition d_str (k : string) (m : list (string * ytree)) (old : string) : go_result string :=
  match assoc_str k m with
  | None | Some (YMap []) => Ok old
  | Some (YPlain s | YQuoted s) => Ok s
  | Some _ => Err "cannot unmarshal into string"
  end.
Definition d_int (k : string) (m : list (string * ytree)) (old : Z) : go_result Z :=
  match assoc_str k m with
  | None | Some (YMap []) => Ok old
  | Some (YPlain s) => match parse_int s with Some z => Ok z | None => Err "cannot unmarshal into int" end
  | Some _ => Err "cannot unmarshal into int"
  end.
(** The words of YAML 1.1 are read too, quoted or not. *)
Definition read_bool (s : string) : go_result bool :=
  if existsb (String.eqb s) ["y"; "Y"; "yes"; "Yes"; "YES"; "on"; "On"; "ON"] then Ok true
  else if existsb (String.eqb s) ["n"; "N"; "no"; "No"; "NO"; "off"; "Off"; "OFF"] then Ok false
  else Err "cannot unmarshal into bool".
Definition d_bool (k : string) (m : list (string * ytree)) (old : bool) : go_result bool :=
  match assoc_str k m with
  | None | Some (YMap []) => Ok old
  | Some (YPlain s) => if s =?s "true" then Ok true else if s =?s "false" then Ok false else read_bool s
  | Some (YQuoted s) => read_bool s
  | Some _ => Err "cannot unmarshal into bool"
  end.
(** Types with an [UnmarshalYAML] of their own, which is not called for a null. *)
Definition d_scalar (read : string → go_result Z) (k : string) (m : list (string * ytree)) (old : Z) : go_result Z :=
  match assoc_str k m with
  | None | Some (YMap []) => Ok old
  | Some (YPlain s | YQuoted s) => read s
  | Some _ => Err "decode string"
  end.
Definition d_dur := d_scalar Duration_UnmarshalYAML.
Definition d_list (k : string) (m : list (string * ytree)) (old : list string) : go_result (list string) :=
  match assoc_str k m with
  | None => Ok old
  | Some (YMap []) => Ok []
  | Some (YSeq l) => Ok l
  | Some _ => Err "cannot unmarshal into []string"
  end.
Definition d_sub (k : string) (m : list (string * ytree)) : go_result (list (string * ytree)) :=
  match assoc_str k m with None => Ok [] | Some (YMap s) => Ok s | Some _ => Err "cannot unmarshal into struct" end.
(** Maps with values of one kind: keys are added to those of the old map, and a null is the
    zero value under a new key. *)
Definition add_entry {A} (zero : A) (read : ytree → go_result A) (acc : go_result (gmap string A)) (e : string * ytree) : go_result (gmap string A) :=
  acc ← acc;
  match e.2 with
  | YMap [] => Ok (match acc !! e.1 with None => <[e.1 := zero]> acc | Some _ => acc end)
  | t => v ← read t; Ok (<[e.1 := v]> acc)
  end.
Definition d_map {A} (zero : A) (read : ytree → go_result A) (k : string) (m : list (string * ytree)) (old : option (gmap string A)) : go_result (option (gmap string A)) :=
  match assoc_str k m with
  | None => Ok old
  | Some (YMap []) => Ok None
  | Some (YMap s) => v ← foldl (add_entry zero read) (Ok (from_opt ∅ old)) s; Ok (Some v)
  | Some _ => Err "cannot unmarshal into map"
  end.
(** Whole numbers only: block documents hold no others ([YamlBlock.plain_word]). *)
Definition read_float (t : ytree) : go_result f64 :=
  match t with YPlain s => match parse_int s with Some z => Ok (f64_of_Z z) | None => Err "cannot unmarshal into float64" end
             | _ => Err "cannot unmarshal into float64" end.
Definition read_str (t : ytree) : go_result string :=
  match t with YPlain s | YQuoted s => Ok s | _ => Err "cannot unmarshal into string" end.

(** ** The structs, by their tags *)
Definition decode_proxy_config (m : list (string * ytree)) (p : ProxyConfig) : go_result ProxyConfig :=
  port ← d_int "port" m (px_Port p);
  size ← d_scalar DataSize_UnmarshalYAML "responseSize" m (ResponseSize p);
  rt ← d_dur "requestTimeout" m (RequestTimeout p);
  pe ← d_bool "propagateErrors" m (PropagateErrors p);
  Ok (mkProxyConfig port size rt pe).
Definition decode_monitor (m : list (string * ytree)) (c : MonitorConfig) : go_result MonitorConfig :=
  iv ← d_dur "interval" m (Interval c);
  ct ← d_dur "checkTimeout" m (CheckTimeout c);
  ri ← d_dur "refreshInterval" m (RefreshInterval c);
  st ← d_dur "statsTimeout" m (StatsTimeout c);
  re ← d_int "retries" m (Retries c);
  me ← d_str "metricsEndpoint" m (MetricsEndpoint c);
  rq ← d_str "runningQueriesMetricName" m (RunningQueriesMetricName c);
  qq ← d_str "queuedQueriesMetricName" m (QueuedQueriesMetricName c);
  mn ← d_map (f64_of_Z 0) read_float "metricMinimumValues" m (MetricMinimumValues c);
  mx ← d_map (f64_of_Z 0) read_float "metricMaximumValues" m (MetricMaximumValues c);
  Ok (mkMonitorConfig iv ct ri st re me rq qq mn mx).
Definition decode_db (m : list (string * ytree)) (c : DBConfig) : go_result DBConfig :=
  dr ← d_str "driver" m (Driver c);
  dsn ← d_str "dsn" m (DSN c);
  am ← d_bool "autoMigrate" m (AutoMigrate c);
  Ok (mkDBConfig dr dsn am).
Definition decode_routing (m : list (string * ytree)) (c : RoutingConfig) : go_result RoutingConfig :=
  dg ← d_str "defaultGroup" m (DefaultGroup c);
  ty ← d_str "type" m (rt_Type c);
  e ← d_sub "external" m;
  url ← d_str "url" e (ext_URL (External c));
  ga ← d_str "grpcAddr" e (GRPCAddr (External c));
  t ← d_dur "timeout" e (Timeout (External c));
  xh ← d_list "excludeHeaders" e (ExcludeHeaders (External c));
  Ok (mkRoutingConfig dg ty (mkExternalConfig url ga t xh)).
Definition decode_oidc (m : list (string * ytree)) (c : OIDCConfig) : go_result OIDCConfig :=
  iu ← d_str "issuerUrl" m (IssuerURL c);
  ci ← d_str "clientId" m (ClientID c);
  cs ← d_str "clientSecret" m (ClientSecret c);
  ju ← d_str "jwksUrl" m (JWKSURL c);
  jt ← d_int "jwksTtlSecs" m (JWKSTTLSecs c);
  sc ← d_list "scopes" m (Scopes c);
  ru ← d_str "redirectUrl" m (RedirectURL c);
  ae ← d_str "authorizationEndpoint" m (AuthorizationEndpoint c);
  te ← d_str "tokenEndpoint" m (TokenEndpoint c);
  Ok (mkOIDCConfig iu ci cs ju jt sc ru ae te).
Definition decode_ldap (m : list (string * ytree)) (c : LDAPConfig) : go_result LDAPConfig :=
  url ← d_str "url" m (ldap_URL c);
  dn ← d_str "bindDn" m (BindDN c);
  pw ← d_str "bindPassword" m (BindPass c);
  ub ← d_str "userBase" m (UserBase c);
  ua ← d_str "userAttr" m (UserAttr c);
  Ok (mkLDAPConfig url dn pw ub ua).
Definition decode_authorization (m : list (string * ytree)) (c : AuthorizationConfig) : go_result AuthorizationConfig :=
  ad ← d_str "admin" m (AdminRegex c);
  us ← d_str "user" m (UserRegex c);
  ap ← d_str "api" m (APIRegex c);
  pp ← d_map "" read_str "pagePermissions" m (Some (PagePermissions c));
  Ok (mkAuthorizationConfig ad us ap (from_opt ∅ pp)).
Definition decode_auth (m : list (string * ytree)) (c : AuthConfig) : go_result AuthConfig :=
  ty ← d_str "type" m (au_Type c);
  oi ← d_sub "oidc" m ≫= λ s, decode_oidc s (OIDC c);
  ld ← d_sub "ldap" m ≫= λ s, decode_ldap s (LDAP c);
  az ← d_sub "authorization" m ≫= λ s, decode_authorization s (Authorization c);
  Ok (mkAuthConfig ty oi ld az).
Definition decode_cookie (m : list (string * ytree)) (c : CookieConfig) : go_result CookieConfig :=
  se ← d_str "secret" m (Secret c);
  tt_ ← d_dur "ttl" m (TTL c);
  wc ← d_bool "wireCompat" m (WireCompat c);
  Ok (mkCookieConfig se tt_ wc).
Definition decode_backend_state (m : list (string * ytree)) (c : BackendStateConfig) : go_result BackendStateConfig :=
  us ← d_str "username" m (Username c);
  pw ← d_str "password" m (Password c);
  ss ← d_bool "ssl" m (SSL c);
  xf ← d_bool "xForwardedProtoHeader" m (XForwardedProtoHeader c);
  Ok (mkBackendStateConfig us pw ss xf).

Definition decode_config (m : list (string * ytree)) (c : Config) : go_result Config :=
  px ← d_sub "proxy" m ≫= λ s, decode_proxy_config s (Proxy c);
  ad ← d_sub "admin" m ≫= λ s, d_int "port" s (ad_Port (Admin c));
  mo ← d_sub "monitor" m ≫= λ s, decode_monitor s (Monitor c);
  db ← d_sub "db" m ≫= λ s, decode_db s (DB c);
  ro ← d_sub "routing" m ≫= λ s, decode_routing s (Routing c);
  au ← d_sub "auth" m ≫= λ s, decode_auth s (Auth c);
  co ← d_sub "cookie" m ≫= λ s, decode_cookie s (Cookie c);
  me ← d_sub "metrics" m;
  en ← d_bool "enabled" me (Enabled (Metrics c));
  pa ← d_str "path" me (mt_Path (Metrics c));
  ui ← d_sub "ui" m ≫= λ s, d_list "disablePages" s (DisablePages (UI c));
  cs ← d_sub "clusterStats" m ≫= λ s, d_str "monitorType" s (MonitorType (ClusterStats c));
  bs ← d_sub "backendState" m ≫= λ s, decode_backend_state s (BackendState c);
  Ok (mkConfig px (mkAdminConfig ad) mo db ro au co (mkMetricsConfig en pa) (mkUIConfig ui) (mkClusterStatsConfig cs) bs).

(** ** The YAML library *)

(** On the text of a block document. *)
Class YamlLibrary (unmarshal : string → Config → go_result Config) : Prop :=
  yaml_decodes m c : plain_doc m = true → unmarshal (yaml_text m) c = decode_config m c.

(** The reader of block documents is such a library. *)
#[global] Instance reader_library : YamlLibrary (λ text c, decode_config (read_doc text) c).
Proof. intros m c Hm. by rewrite read_doc_text. Qed.

(** Nulls, as [metricMinimumValues:], [excludeHeaders:] and [dsn:] with nothing after them. *)
Example nulls_decoded :
  decode_config [("monitor", YMap [("metricMinimumValues", YMap [])]); ("db", YMap [("dsn", YMap []); ("autoMigrate", YMap [])]);
                 ("routing", YMap [("external", YMap [("excludeHeaders", YMap []); ("timeout", YMap [])])]); ("cookie", YMap [])] defaultConfig
  = Ok defaultConfig.
Proof. vm_compute. reflexivity. Qed.
