(* ===== verification/ConfigMigration.v ===== *)
(** * The configuration migration tool (cmd/goway-migrate-config)

    A Java gateway's configuration becomes one for this gateway, with a warning for what
    has no counterpart. YAML decoding and encoding and Go's [%q] are parameters;
    [MigratedConfig] has the document that is written. *)
From S2P Require Import Prelude GoStrings GoNumeric NumericProps Config.

#[local] Open Scope Z_scope.
#[local] Set Warnings "-register-all".

(** ** The Java configuration (migrate.go); [Y] are the entries of lists it ignores. *)
Record javaRequestRouter : Type := mkJRouter { jr_Port : Z; jr_Name : string; HistorySize : Z; RequestBufferSize : Z }.
Record javaDataStore : Type := mkJStore { LocalPort : Z; JdbcURL : string; jd_User : string; jd_Password : string; jd_Driver : string }.
Record javaBackendState : Type := mkJState { HealthCheckPath : string; Concurrency : Z; HealthCheckInterval : Z }.
Record javaRouting : Type := mkJRouting { DefaultRoutingGroup : string; RulesType : string; ExternalURL : string }.
Record javaClusterStatsConfig : Type := mkJStats { UseAPI : bool }.
Record javaOAuth2 : Type := mkJOAuth { Issuer : string; jo_ClientID : string; jo_ClientSecret : string; jo_RedirectURL : string; JwkURL : string }.
Record javaAuthentication : Type := mkJAuth { DefaultType : string; OAuth2 : javaOAuth2 }.
Record javaAuthorization : Type := mkJAuthz { jz_Admin : string; jz_User : string; jz_API : string }.
Record javaConfig (Y : Type) : Type := mkJava {
  RequestRouter : javaRequestRouter; DataStore : javaDataStore; jc_BackendState : javaBackendState; jc_Routing : javaRouting;
  jc_ClusterStats : javaClusterStatsConfig; Authentication : javaAuthentication; jc_Authorization : javaAuthorization;
  Modules : list Y; ManagedApps : list Y }.
Arguments RequestRouter {Y}. Arguments DataStore {Y}. Arguments jc_BackendState {Y}. Arguments jc_Routing {Y}.
Arguments jc_ClusterStats {Y}. Arguments Authentication {Y}. Arguments jc_Authorization {Y}. Arguments Modules {Y}. Arguments ManagedApps {Y}.
Arguments mkJava {Y}.

Definition stripJDBCPrefix (url : string) : string := trim_prefix "jdbc:" url.

(** [detectDriver]; no letter of the names folds from outside ASCII. *)
Definition detectDriver (driver : string) : option string :=
  let lower := to_lower driver in
  if contains "postgresql" lower || contains "postgres" lower then Some "postgres"
  else if contains "mysql" lower then Some "mysql" else None.

(** A zero [config.Config]. *)
Definition zeroConfig : Config :=
  mkConfig (mkProxyConfig 0 0 0 false) (mkAdminConfig 0) (mkMonitorConfig 0 0 0 0 0 "" "" "" None None) (mkDBConfig "" "" false)
    (mkRoutingConfig "" "" (mkExternalConfig "" "" 0 []))
    (mkAuthConfig "" (mkOIDCConfig "" "" "" "" 0 [] "" "" "") (mkLDAPConfig "" "" "" "" "") (mkAuthorizationConfig "" "" "" ∅))
    (mkCookieConfig "" 0 false) (mkMetricsConfig false "") (mkUIConfig []) (mkClusterStatsConfig "") (mkBackendStateConfig "" "" false false).

Section migrate.
Context {Y : Type} (goq : string → string).

Definition warn_if (b : bool) (w : string) : list string := if b then [w] else [].
Definition set_ (s : string) : bool := negb (s =?s "").

(** Each block of [MigrateConfig]: what it sets and what it warns of. *)
Definition migrate_router (r : javaRequestRouter) (p : ProxyConfig) : ProxyConfig * list string :=
  let p := if negb (jr_Port r =? 0) then mkProxyConfig (jr_Port r) (ResponseSize p) (RequestTimeout p) (PropagateErrors p) else p in
  let p := if negb (RequestBufferSize r =? 0)
           then mkProxyConfig (px_Port p) (RequestBufferSize r) (RequestTimeout p) (PropagateErrors p) else p in
  (p, warn_if (negb (HistorySize r =? 0)) ("requestRouter.historySize=" +:+ z_to_dec (HistorySize r) +:+ " has no Go equivalent, ignored")
      ++ warn_if (set_ (jr_Name r)) ("requestRouter.name=" +:+ goq (jr_Name r) +:+ " has no Go equivalent, ignored")).

Definition migrate_store (d : javaDataStore) (db : DBConfig) (a : AdminConfig) : DBConfig * AdminConfig * list string :=
  let db := if set_ (JdbcURL d) then mkDBConfig (Driver db) (stripJDBCPrefix (JdbcURL d)) (AutoMigrate db) else db in
  let '(db, w) :=
    if set_ (jd_Driver d) then
      match detectDriver (jd_Driver d) with
      | Some drv => (mkDBConfig drv (DSN db) (AutoMigrate db), [])
      | None => (db, ["dataStore.driver=" +:+ goq (jd_Driver d) +:+ ": unrecognised driver, db.driver not set"])
      end
    else (db, []) in
  let a := if negb (LocalPort d =? 0) then mkAdminConfig (LocalPort d) else a in
  (db, a, w ++ warn_if (set_ (jd_User d)) ("dataStore.user=" +:+ goq (jd_User d) +:+ ": embed credentials in db.dsn instead, ignored")
            ++ warn_if (set_ (jd_Password d)) "dataStore.password: embed credentials in db.dsn instead, ignored").

Definition migrate_interval (ms : Z) : Z := let secs := Z.quot ms 1000 in wrap64 ((if secs <? 1 then 1 else secs) * Second).
Definition set_interval (i : Z) (m : MonitorConfig) : MonitorConfig :=
  mkMonitorConfig i (CheckTimeout m) (RefreshInterval m) (StatsTimeout m) (Retries m) (MetricsEndpoint m) (RunningQueriesMetricName m)
    (QueuedQueriesMetricName m) (MetricMinimumValues m) (MetricMaximumValues m).
Definition migrate_state (b : javaBackendState) (m : MonitorConfig) : MonitorConfig * list string :=
  (if negb (HealthCheckInterval b =? 0) then set_interval (migrate_interval (HealthCheckInterval b)) m else m,
   warn_if (negb (Concurrency b =? 0)) "backendState.concurrency is handled automatically, ignored"
   ++ warn_if (set_ (HealthCheckPath b)) ("backendState.healthCheckPath=" +:+ goq (HealthCheckPath b) +:+ " has no Go equivalent, ignored")).

Definition migrate_routing (j : javaRouting) (r : RoutingConfig) : RoutingConfig * list string :=
  let r := if set_ (DefaultRoutingGroup j) then mkRoutingConfig (DefaultRoutingGroup j) (rt_Type r) (External r) else r in
  let '(r, w) :=
    if set_ (RulesType j) then
      (mkRoutingConfig (DefaultGroup r) "EXTERNAL" (External r),
       if RulesType j =?s "EXTERNAL" then []
       else ["routing.rulesType=" +:+ goq (RulesType j) +:+ ": only EXTERNAL routing supported, setting routing.type=EXTERNAL"])
    else (r, []) in
  let e := External r in
  (if set_ (ExternalURL j)
   then mkRoutingConfig (DefaultGroup r) (rt_Type r) (mkExternalConfig (ExternalURL j) (GRPCAddr e) (Timeout e) (ExcludeHeaders e))
   else r, w).

Definition migrate_auth (j : javaAuthentication) (a : AuthConfig) : AuthConfig * list string :=
  let o := OAuth2 j in let c := OIDC a in
  if set_ (JwkURL o) then
    (mkAuthConfig "OIDC" (mkOIDCConfig (Issuer o) (jo_ClientID o) (jo_ClientSecret o) (JwkURL o) (JWKSTTLSecs c) (Scopes c) (RedirectURL c)
                            (AuthorizationEndpoint c) (TokenEndpoint c)) (LDAP a) (Authorization a),
     warn_if (set_ (jo_RedirectURL o)) ("authentication.oauth2.redirectUrl=" +:+ goq (jo_RedirectURL o) +:+ " has no Go equivalent, ignored"))
  else (a, warn_if (set_ (DefaultType j))
             ("authentication.defaultType=" +:+ goq (DefaultType j) +:+ ": no OIDC jwkUrl found, auth not configured")).

Definition migrate_rest (src : javaConfig Y) : list string :=
  let z := jc_Authorization src in
  warn_if (set_ (jz_Admin z) || set_ (jz_User z) || set_ (jz_API z)) "authorization block has no Go equivalent, ignored"
  ++ warn_if (match Modules src with [] => false | _ => true end) "modules not supported, ignored"
  ++ warn_if (match ManagedApps src with [] => false | _ => true end) "managedApps not supported, ignored".

Definition migrate (src : javaConfig Y) : Config * list string :=
  let c := zeroConfig in
  let '(p, w1) := migrate_router (RequestRouter src) (Proxy c) in
  let '(db, a, w2) := migrate_store (DataStore src) (DB c) (Admin c) in
  let '(m, w3) := migrate_state (jc_BackendState src) (Monitor c) in
  let '(r, w4) := migrate_routing (jc_Routing src) (Routing c) in
  let '(au, w5) := migrate_auth (Authentication src) (Auth c) in
  (mkConfig p a m db r au (Cookie c) (Metrics c) (UI c) (ClusterStats c) (BackendState c), w1 ++ w2 ++ w3 ++ w4 ++ w5 ++ migrate_rest src).

Definition MigrateConfig (unmarshal : string → go_result (javaConfig Y)) (javaYAML : string) : go_result (Config * list string) :=
  match unmarshal javaYAML with
  | Err e => Err ("migrate: unmarshal java config: " +:+ e)
  | Ok src => Ok (migrate src)
  end.
End migrate.

(** ** The written form (output.go); an empty string or zero is left out. *)
Record outputProxy : Type := mkOProxy { op_Port : Z; op_ResponseSize : string; op_RequestTimeout : string }.
Record outputAdmin : Type := mkOAdmin { oa_Port : Z }.
Record outputMonitor : Type := mkOMonitor { om_Interval : string; om_CheckTimeout : string }.
Record outputDB : Type := mkODB { od_Driver : string; od_DSN : string }.
Record outputExternal : Type := mkOExternal { oe_URL : string; oe_GRPCAddr : string; oe_Timeout : string }.
Record outputRouting : Type := mkORouting { or_DefaultGroup : string; or_Type : string; or_External : outputExternal }.
Record outputOIDC : Type := mkOOIDC { oo_IssuerURL : string; oo_ClientID : string; oo_ClientSecret : string; oo_JWKSURL : string }.
Record outputLDAP : Type := mkOLDAP { ol_URL : string; ol_BindDN : string; ol_BindPass : string; ol_UserBase : string; ol_UserAttr : string }.
Record outputAuth : Type := mkOAuth { ou_Type : string; ou_OIDC : outputOIDC; ou_LDAP : outputLDAP }.
Record outputCookie : Type := mkOCookie { oc_Secret : string; oc_TTL : string; oc_WireCompat : option bool }.
Record outputConfig : Type := mkOutput {
  o_Proxy : outputProxy; o_Admin : outputAdmin; o_Monitor : outputMonitor; o_DB : outputDB; o_Routing : outputRouting; o_Auth : outputAuth;
  o_Cookie : outputCookie }.

Definition formatBytes (b : Z) : string :=
  if (1073741824 <=? b) && (Z.rem b 1073741824 =? 0) then z_to_dec (Z.quot b 1073741824) +:+ "GiB"
  else if (1048576 <=? b) && (Z.rem b 1048576 =? 0) then z_to_dec (Z.quot b 1048576) +:+ "MiB"
  else if (1024 <=? b) && (Z.rem b 1024 =? 0) then z_to_dec (Z.quot b 1024) +:+ "KiB"
  else z_to_dec b +:+ "B".

Definition dur_text (d : Z) : string := if 0 <? d then duration_string d else "".

Definition toOutput (c : Config) : outputConfig :=
  let e := External (Routing c) in let o := OIDC (Auth c) in let l := LDAP (Auth c) in
  mkOutput
    (mkOProxy (px_Port (Proxy c)) (if 0 <? ResponseSize (Proxy c) then formatBytes (ResponseSize (Proxy c)) else "")
       (dur_text (RequestTimeout (Proxy c))))
    (mkOAdmin (ad_Port (Admin c)))
    (mkOMonitor (dur_text (Interval (Monitor c))) (dur_text (CheckTimeout (Monitor c))))
    (mkODB (Driver (DB c)) (DSN (DB c)))
    (mkORouting (DefaultGroup (Routing c)) (rt_Type (Routing c)) (mkOExternal (ext_URL e) (GRPCAddr e) (dur_text (Timeout e))))
    (mkOAuth (au_Type (Auth c)) (mkOOIDC (IssuerURL o) (ClientID o) (ClientSecret o) (JWKSURL o))
       (mkOLDAP (ldap_URL l) (BindDN l) (BindPass l) (UserBase l) (UserAttr l)))
    (mkOCookie (Secret (Cookie c)) (dur_text (TTL (Cookie c))) None).

(** ** The command (main.go) *)
Definition warning_line (w : string) : string := "# WARNING: " +:+ w +:+ nl.
Definition marshalWithWarnings (marshal : outputConfig → go_result string) (o : outputConfig) (warnings : list string) : go_result string :=
  match marshal o with
  | Err e => Err ("yaml marshal: " +:+ e)
  | Ok body =>
      let header := String.concat "" (map warning_line warnings) in
      Ok ((if header =?s "" then "" else header +:+ nl) +:+ body)
  end.

(** What a run does: its exit status, what it prints, and the file it writes. *)
Record outcome : Type := mkOutcome { exit : Z; printed : string; file : option (string * string) }.
Definition migrate_main {Y} (goq : string → string) (unmarshal : string → go_result (javaConfig Y)) (marshal : outputConfig → go_result string)
    (read : string → go_result string) (write_ok : string → bool) (input output : string) (dryRun : bool) : outcome :=
  let failed := mkOutcome 1 "" None in
  if input =?s "" then failed else
  match read input with
  | Err _ => failed
  | Ok javaYAML =>
      match MigrateConfig goq unmarshal javaYAML with
      | Err _ => failed
      | Ok (cfg, warnings) =>
          match marshalWithWarnings marshal (toOutput cfg) warnings with
          | Err _ => failed
          | Ok out =>
              if dryRun || (output =?s "") then mkOutcome 0 out None
              else if write_ok output then mkOutcome 0 "" (Some (output, out)) else failed
          end
      end
  end.

(** ** Sizes *)
Definition graph (c : ascii) : bool := (33 <=? byte_n c)%N && (byte_n c <? 128)%N.

Lemma graph_not_space a b c : graph a = true → space1 a = false ∧ space2 a b = false ∧ space3 a b c = false.
Proof.
  unfold graph, space1, space2, space3, in_rng. rewrite andb_true_iff, N.leb_le, N.ltb_lt. intros Ha.
  replace (byte_n a =? 194)%N with false by (symmetry; apply N.eqb_neq; lia).
  replace (byte_n a =? 225)%N with false by (symmetry; apply N.eqb_neq; lia).
  replace (byte_n a =? 226)%N with false by (symmetry; apply N.eqb_neq; lia).
  replace (byte_n a =? 227)%N with false by (symmetry; apply N.eqb_neq; lia).
  replace (byte_n a =? 32)%N with false by (symmetry; apply N.eqb_neq; lia).
  replace (byte_n a <=? 13)%N with false by (symmetry; apply N.leb_gt; lia). by rewrite andb_false_r.
Qed.

Lemma trim_space_graph s : str_forallb graph s = true → trim_space s = s.
Proof.
  intros Hs. unfold trim_space.
  assert (Hl : trim_left_space s = s).
  { destruct s as [|a [|b [|c r]]]; [done|..]; cbn in Hs |- *; apply andb_true_iff in Hs as [Ha _];
      [destruct (graph_not_space a a a Ha) as (-> & _)|destruct (graph_not_space a b a Ha) as (-> & -> & _)|
       destruct (graph_not_space a b c Ha) as (-> & -> & ->)]; done. }
  rewrite Hl. assert (Hr : str_forallb graph (str_rev s) = true).
  { clear Hl. induction s as [|c s IH]; [done|]. rewrite str_rev_cons, str_forallb_app. cbn in Hs |- *.
    apply andb_true_iff in Hs as [-> Hs]. by rewrite IH. }
  assert (Ht : trim_left_space_rev (str_rev s) = str_rev s).
  { destruct (str_rev s) as [|a [|b [|c r]]]; [done|..]; cbn in Hr |- *; apply andb_true_iff in Hr as [Ha Hr];
      [by destruct (graph_not_space a a a Ha) as (-> & _)|apply andb_true_iff in Hr as [Hb Hr]..];
      destruct (graph_not_space a a a Ha) as (-> & _), (graph_not_space b a a Hb) as (_ & -> & _); [done|].
    apply andb_true_iff in Hr as [Hc _]. by destruct (graph_not_space c b a Hc) as (_ & _ & ->). }
  by rewrite Ht, str_rev_involutive.
Qed.

(** The binary units. *)
Inductive size_unit : string → Z → Prop :=
| SU_B : size_unit "B" 0
| SU_KiB : size_unit "KiB" 10
| SU_MiB : size_unit "MiB" 20
| SU_GiB : size_unit "GiB" 30.

Lemma data_size_exact n u k : size_unit u k → 0 < n < 2 ^ 53 → n * 2 ^ k ≤ int64_max → DataSize_UnmarshalYAML (z_to_dec n +:+ u) = Ok (n * 2 ^ k).
Proof.
  intros Hu Hn Hb. unfold z_to_dec. destruct (Z.ltb_spec n 0); [lia|].
  destruct (n_to_dec_spec (Z.to_N n)) as (c & d & Hs & Hd & Hv & _). rewrite Hs. unfold DataSize_UnmarshalYAML.
  rewrite trim_space_graph.
  2: { rewrite str_forallb_app. apply andb_true_iff. split; [|by destruct Hu].
       eapply str_forallb_impl, Hd. intros x. unfold is_digit, in_rng, graph. rewrite !andb_true_iff, !N.leb_le, N.ltb_lt. lia. }
  assert (Hpat : dataSizePattern (String c d +:+ u) = Some (String c d, "", u)).
  { unfold dataSizePattern. rewrite digits_run_app by (done || by destruct Hu). by destruct Hu. }
  rewrite Hpat.
  rewrite str_app_nil_r, Hv. cbn [String.length]. destruct n as [|p|p]; [lia| |lia].
  assert (Hf : f64_of_dec false (Z.to_N (Zpos p)) (- Z.of_nat 0) = f64_of_Z (Zpos p)).
  { cbn [Z.to_N f64_of_dec]. change (0 <=? - Z.of_nat 0) with true. cbv iota. unfold f64_of_Z. f_equal.
    change (10 ^ (- Z.of_nat 0)) with 1. lia. }
  rewrite Hf. assert (Hinf : f64_is_inf (f64_of_Z (Zpos p)) = false) by (by rewrite f64_of_small by lia). rewrite Hinf.
  assert (unit_multiplier u = Some (2 ^ k)) as -> by (by destruct Hu). f_equal.
  apply mul_pow2_exact; [lia|destruct Hu; set_solver|unfold int64_max in Hb; lia].
Qed.

(** [DataSize.UnmarshalYAML] reads back what [formatBytes] prints, if the size is below
    2^53 or a multiple of 1024. *)
Lemma format_bytes_roundtrip b : 0 < b ≤ int64_max → b < 2 ^ 53 ∨ Z.rem b 1024 = 0 → DataSize_UnmarshalYAML (formatBytes b) = Ok b.
Proof.
  intros Hb Hs. unfold int64_max in Hb.
  assert (Hunit : ∀ u k, size_unit u k → 2 ^ 10 ≤ 2 ^ k → Z.rem b (2 ^ k) = 0 → 2 ^ k ≤ b →
            DataSize_UnmarshalYAML (z_to_dec (Z.quot b (2 ^ k)) +:+ u) = Ok b).
  { intros u k Hu Hk Hr Hge. pose proof (Z.quot_rem' b (2 ^ k)) as Hq.
    assert (0 < Z.quot b (2 ^ k)) by (apply Z.quot_str_pos; lia).
    rewrite (data_size_exact (Z.quot b (2 ^ k)) u k); [f_equal; lia|done| |unfold int64_max; lia]. split; [done|].
    rewrite Z.quot_div_nonneg by lia. apply Z.div_lt_upper_bound; lia. }
  unfold formatBytes.
  destruct ((1073741824 <=? b) && (Z.rem b 1073741824 =? 0)) eqn:E1; [apply (Hunit "GiB" 30); [constructor|done|vm_compute (2 ^ _); lia..]|].
  destruct ((1048576 <=? b) && (Z.rem b 1048576 =? 0)) eqn:E2; [apply (Hunit "MiB" 20); [constructor|done|vm_compute (2 ^ _); lia..]|].
  destruct ((1024 <=? b) && (Z.rem b 1024 =? 0)) eqn:E3; [apply (Hunit "KiB" 10); [constructor|done|vm_compute (2 ^ _); lia..]|].
  assert (b < 2 ^ 53).
  { destruct Hs as [?|Hr]; [done|]. apply andb_false_iff in E3 as [?|?]; lia. }
  rewrite (data_size_exact b "B" 0); [f_equal; lia|constructor|lia|unfold int64_max; lia].
Qed.

(** ** The written file is loaded *)

(** The values of a written configuration over those of [c]: what is left out keeps its
    value, sizes and durations are read by the scalars of internal/config. [MigratedConfig]
    shows that decoding the written document gives them. *)
Definition keep (s old : string) : string := if s =?s "" then old else s.
Definition keep_num (z old : Z) : Z := if z =? 0 then old else z.
Definition keep_dur (s : string) (old : Z) : go_result Z := if s =?s "" then Ok old else Duration_UnmarshalYAML s.
Definition keep_size (s : string) (old : Z) : go_result Z := if s =?s "" then Ok old else DataSize_UnmarshalYAML s.

Definition read_output (o : outputConfig) (c : Config) : go_result Config :=
  let p := Proxy c in let m := Monitor c in let r := Routing c in let e := External r in
  let a := Auth c in let oi := OIDC a in let l := LDAP a in
  size ← keep_size (op_ResponseSize (o_Proxy o)) (ResponseSize p);
  rt ← keep_dur (op_RequestTimeout (o_Proxy o)) (RequestTimeout p);
  iv ← keep_dur (om_Interval (o_Monitor o)) (Interval m);
  ct ← keep_dur (om_CheckTimeout (o_Monitor o)) (CheckTimeout m);
  et ← keep_dur (oe_Timeout (or_External (o_Routing o))) (Timeout e);
  ttl ← keep_dur (oc_TTL (o_Cookie o)) (TTL (Cookie c));
  let oo := ou_OIDC (o_Auth o) in let ol := ou_LDAP (o_Auth o) in let oe := or_External (o_Routing o) in
  Ok (mkConfig
    (mkProxyConfig (keep_num (op_Port (o_Proxy o)) (px_Port p)) size rt (PropagateErrors p))
    (mkAdminConfig (keep_num (oa_Port (o_Admin o)) (ad_Port (Admin c))))
    (mkMonitorConfig iv ct (RefreshInterval m) (StatsTimeout m) (Retries m) (MetricsEndpoint m) (RunningQueriesMetricName m)
       (QueuedQueriesMetricName m) (MetricMinimumValues m) (MetricMaximumValues m))
    (mkDBConfig (keep (od_Driver (o_DB o)) (Driver (DB c))) (keep (od_DSN (o_DB o)) (DSN (DB c))) (AutoMigrate (DB c)))
    (mkRoutingConfig (keep (or_DefaultGroup (o_Routing o)) (DefaultGroup r)) (keep (or_Type (o_Routing o)) (rt_Type r))
       (mkExternalConfig (keep (oe_URL oe) (ext_URL e)) (keep (oe_GRPCAddr oe) (GRPCAddr e)) et (ExcludeHeaders e)))
    (mkAuthConfig (keep (ou_Type (o_Auth o)) (au_Type a))
       (mkOIDCConfig (keep (oo_IssuerURL oo) (IssuerURL oi)) (keep (oo_ClientID oo) (ClientID oi)) (keep (oo_ClientSecret oo) (ClientSecret oi))
          (keep (oo_JWKSURL oo) (JWKSURL oi)) (JWKSTTLSecs oi) (Scopes oi) (RedirectURL oi) (AuthorizationEndpoint oi) (TokenEndpoint oi))
       (mkLDAPConfig (keep (ol_URL ol) (ldap_URL l)) (keep (ol_BindDN ol) (BindDN l)) (keep (ol_BindPass ol) (BindPass l))
          (keep (ol_UserBase ol) (UserBase l)) (keep (ol_UserAttr ol) (UserAttr l)))
       (Authorization a))
    (mkCookieConfig (keep (oc_Secret (o_Cookie o)) (Secret (Cookie c))) ttl
       (match oc_WireCompat (o_Cookie o) with Some b => b | None => WireCompat (Cookie c) end))
    (Metrics c) (UI c) (ClusterStats c) (BackendState c)).

(** What the operator of a Java gateway gets. *)
Definition expected {Y} (src : javaConfig Y) : Config :=
  let d := applyDefaults defaultConfig in
  let r := RequestRouter src in let s := DataStore src in let b := jc_BackendState src in let j := jc_Routing src in
  let o := OAuth2 (Authentication src) in let oidc := set_ (JwkURL o) in
  mkConfig
    (mkProxyConfig (zor 8080 (jr_Port r)) (if 0 <? RequestBufferSize r then RequestBufferSize r else 1048576) (30 * Second) false)
    (mkAdminConfig (zor 8090 (LocalPort s)))
    (set_interval (if HealthCheckInterval b =? 0 then 30 * Second else Z.max 1 (Z.quot (HealthCheckInterval b) 1000) * Second) (Monitor d))
    (mkDBConfig (from_opt "" (detectDriver (jd_Driver s))) (stripJDBCPrefix (JdbcURL s)) true)
    (mkRoutingConfig (DefaultRoutingGroup j) "EXTERNAL" (mkExternalConfig (ExternalURL j) "" (1 * Second) []))
    (mkAuthConfig (if oidc then "OIDC" else "NOOP")
       (mkOIDCConfig (if oidc then Issuer o else "") (if oidc then jo_ClientID o else "") (if oidc then jo_ClientSecret o else "") (JwkURL o)
          300 [] "" "" "") (LDAP (Auth d)) (Authorization (Auth d)))
    (Cookie d) (Metrics d) (UI d) (ClusterStats d) (BackendState d).

(** Values the written form can carry: sizes a float64 holds, intervals that do not overflow,
    ports of an int, and texts of printable ASCII. *)
Definition printable (s : string) : bool := str_forallb (in_rng 32 126) s.
Definition java_texts {Y} (src : javaConfig Y) : list string :=
  let d := DataStore src in let j := jc_Routing src in let a := Authentication src in let o := OAuth2 a in
  [jr_Name (RequestRouter src); JdbcURL d; jd_User d; jd_Driver d; HealthCheckPath (jc_BackendState src); DefaultRoutingGroup j; RulesType j;
   ExternalURL j; DefaultType a; Issuer o; jo_ClientID o; jo_ClientSecret o; jo_RedirectURL o; JwkURL o].
Record carried {Y} (src : javaConfig Y) : Prop := {
  ca_size : RequestBufferSize (RequestRouter src) ≤ int64_max;
  ca_exact : RequestBufferSize (RequestRouter src) < 2 ^ 53 ∨ Z.rem (RequestBufferSize (RequestRouter src)) 1024 = 0;
  ca_interval : Z.quot (HealthCheckInterval (jc_BackendState src)) 1000 * Second ≤ int64_max;
  ca_ports : in_int64 (jr_Port (RequestRouter src)) ∧ in_int64 (LocalPort (DataStore src));
  ca_texts : Forall (λ s, printable s = true) (java_texts src) }.

Lemma keep_empty s : keep s "" = s.
Proof. unfold keep. by destruct (s =?s "") eqn:E; seqb_simpl. Qed.

Lemma keep_size_format b old : b ≤ int64_max → b < 2 ^ 53 ∨ Z.rem b 1024 = 0 →
  keep_size (if 0 <? b then formatBytes b else "") old = Ok (if 0 <? b then b else old).
Proof.
  intros Hb Hs. unfold keep_size. destruct (Z.ltb_spec 0 b) as [Hp|_]; [|done].
  destruct (formatBytes b =?s "") eqn:E; [|by apply format_bytes_roundtrip].
  seqb_simpl. exfalso. pose proof (format_bytes_roundtrip b ltac:(lia) Hs) as Hr. rewrite E in Hr. vm_compute in Hr. done.
Qed.

Lemma keep_interval ms old : Z.quot ms 1000 * Second ≤ int64_max → ms ≠ 0 →
  keep_dur (dur_text (migrate_interval ms)) old = Ok (Z.max 1 (Z.quot ms 1000) * Second).
Proof.
  intros Hb Hne. unfold migrate_interval, keep_dur, dur_text. set (q := Z.quot ms 1000) in *.
  assert (Hq : (if q <? 1 then 1 else q) = Z.max 1 q) by (destruct (Z.ltb_spec q 1); lia). rewrite Hq.
  assert (Hle : Z.max 1 q * Second ≤ int64_max) by (unfold Second, int64_max in *; lia).
  rewrite wrap64_id by (unfold in_int64, int64_min, int64_max, Second in *; lia).
  destruct (Z.ltb_spec 0 (Z.max 1 q * Second)); [|unfold Second in *; lia].
  pose proof (duration_seconds_roundtrip (Z.max 1 q) ltac:(lia) Hle) as Hr.
  destruct (duration_string _ =?s "") eqn:E; [seqb_simpl; by rewrite E in Hr|]. unfold Duration_UnmarshalYAML. by rewrite Hr.
Qed.

Section blocks.
Context {Y : Type} (goq : string → string).

Lemma zero_or z : (if negb (z =? 0) then z else 0) = z.
Proof. destruct (Z.eqb_spec z 0); cbn; lia. Qed.

Lemma router_value r : (migrate_router goq r (Proxy zeroConfig)).1 = mkProxyConfig (jr_Port r) (RequestBufferSize r) 0 false.
Proof. unfold migrate_router. destruct (Z.eqb_spec (jr_Port r) 0), (Z.eqb_spec (RequestBufferSize r) 0); cbn; congruence. Qed.

Lemma store_value d : (migrate_store goq d (DB zeroConfig) (Admin zeroConfig)).1
  = (mkDBConfig (from_opt "" (detectDriver (jd_Driver d))) (stripJDBCPrefix (JdbcURL d)) false, mkAdminConfig (LocalPort d)).
Proof.
  unfold migrate_store, set_. destruct (JdbcURL d =?s "") eqn:E1, (jd_Driver d =?s "") eqn:E2, (Z.eqb_spec (LocalPort d) 0) as [E3|E3]; seqb_simpl;
    rewrite ?E1, ?E2, ?E3; cbn [negb]; try destruct (detectDriver (jd_Driver d)); done.
Qed.

Lemma state_value b : (migrate_state goq b (Monitor zeroConfig)).1
  = set_interval (if HealthCheckInterval b =? 0 then 0 else migrate_interval (HealthCheckInterval b)) (Monitor zeroConfig).
Proof. unfold migrate_state. by destruct (HealthCheckInterval b =? 0). Qed.

Lemma routing_value j : (migrate_routing goq j (Routing zeroConfig)).1
  = mkRoutingConfig (DefaultRoutingGroup j) (if set_ (RulesType j) then "EXTERNAL" else "") (mkExternalConfig (ExternalURL j) "" 0 []).
Proof.
  unfold migrate_routing, set_. destruct (DefaultRoutingGroup j =?s "") eqn:E1, (RulesType j =?s "") eqn:E2, (ExternalURL j =?s "") eqn:E3;
    seqb_simpl; rewrite ?E1, ?E3; done.
Qed.

Lemma auth_value j : (migrate_auth goq j (Auth zeroConfig)).1
  = let o := OAuth2 j in let oidc := set_ (JwkURL o) in
    mkAuthConfig (if oidc then "OIDC" else "")
      (mkOIDCConfig (if oidc then Issuer o else "") (if oidc then jo_ClientID o else "") (if oidc then jo_ClientSecret o else "") (JwkURL o)
         0 [] "" "" "") (LDAP (Auth zeroConfig)) (Authorization (Auth zeroConfig)).
Proof. unfold migrate_auth, set_. destruct (JwkURL (OAuth2 j) =?s "") eqn:E; seqb_simpl; cbn; rewrite ?E; done. Qed.

Lemma migrate_value (src : javaConfig Y) : (migrate goq src).1 =
  mkConfig (migrate_router goq (RequestRouter src) (Proxy zeroConfig)).1
    (migrate_store goq (DataStore src) (DB zeroConfig) (Admin zeroConfig)).1.2
    (migrate_state goq (jc_BackendState src) (Monitor zeroConfig)).1
    (migrate_store goq (DataStore src) (DB zeroConfig) (Admin zeroConfig)).1.1
    (migrate_routing goq (jc_Routing src) (Routing zeroConfig)).1 (migrate_auth goq (Authentication src) (Auth zeroConfig)).1
    (Cookie zeroConfig) (Metrics zeroConfig) (UI zeroConfig) (ClusterStats zeroConfig) (BackendState zeroConfig).
Proof.
  unfold migrate. destruct (migrate_router _ _ _), (migrate_store _ _ _ _) as [[? ?] ?], (migrate_state _ _ _), (migrate_routing _ _ _),
    (migrate_auth _ _ _). done.
Qed.

(** Written and decoded over the defaults, a migrated configuration is the expected one. *)
Lemma read_migrated (src : javaConfig Y) : carried src →
  ∃ c, read_output (toOutput (migrate goq src).1) defaultConfig = Ok c ∧ applyDefaults c = expected src.
Proof.
  intros [Hs He Hi _ _]. rewrite migrate_value, router_value, store_value, state_value, routing_value, auth_value.
  set (o := toOutput _). unfold read_output.
  assert (keep_size (op_ResponseSize (o_Proxy o)) (ResponseSize (Proxy defaultConfig))
          = Ok (if 0 <? RequestBufferSize (RequestRouter src) then RequestBufferSize (RequestRouter src) else 1048576)) as ->
    by (by apply keep_size_format).
  assert (keep_dur (om_Interval (o_Monitor o)) (Interval (Monitor defaultConfig))
          = Ok (Interval (Monitor (expected src)))) as ->.
  { subst o. cbn [o_Monitor toOutput om_Interval Monitor set_interval Interval expected].
    destruct (Z.eqb_spec (HealthCheckInterval (jc_BackendState src)) 0) as [|Hz]; [done|]. by apply keep_interval. }
  assert (Hiv : zor (30 * Second) (Interval (Monitor (expected src))) = Interval (Monitor (expected src))).
  { unfold zor. destruct (Z.eqb_spec (Interval (Monitor (expected src))) 0) as [Hz|]; [|done]. exfalso. revert Hz.
    cbn [expected Monitor set_interval Interval]. destruct (_ =? 0); unfold Second; lia. }
  assert (Hsz : ∀ b, zor 1048576 (if 0 <? b then b else 1048576) = if 0 <? b then b else 1048576).
  { intros b. unfold zor. destruct (Z.ltb_spec 0 b); [|done]. destruct (Z.eqb_spec b 0); lia. }
  assert (Hport : ∀ d z, zor d (keep_num z d) = zor d z).
  { intros d z. unfold zor, keep_num. destruct (z =? 0) eqn:E; [by destruct (d =? 0)|by rewrite E]. }
  eexists. split; [reflexivity|]. subst o. set (iv := Interval (Monitor (expected src))) in *.
  unfold applyDefaults.
  cbn -[zor sor oor keep keep_num Second Minute set_ Z.ltb detectDriver stripJDBCPrefix Z.max Z.quot from_opt expected iv].
  rewrite !keep_empty, Hiv, Hsz, !Hport. subst iv. unfold expected.
  cbn -[zor keep keep_num Second Minute set_ Z.ltb detectDriver stripJDBCPrefix Z.max Z.quot from_opt].
  by destruct (set_ (RulesType _)), (set_ (JwkURL _)).
Qed.
End blocks.

(** ** Examples *)
Fixpoint quote_example (s : string) : string :=
  match s with EmptyString => "" | String c r => if Ascii.eqb newline c then quote_example r else String c (quote_example r) end.

(** A size beyond 2^53 that is no multiple of 1024 is written exactly and read rounded. *)
Example size_rounded : DataSize_UnmarshalYAML (formatBytes (2 ^ 53 + 1)) = Ok (2 ^ 53).
Proof. vm_compute. reflexivity. Qed.

(** [useApi], and the OAuth2 settings of a configuration without a [jwkUrl], are dropped
    without a warning. *)
Example silently_dropped : (migrate quote_example
  (mkJava (mkJRouter 0 "" 0 0) (mkJStore 0 "" "" "" "") (mkJState "" 0 0) (mkJRouting "" "" "") (mkJStats true)
     (mkJAuth "" (mkJOAuth "https://issuer" "id" "secret" "" "")) (mkJAuthz "" "" "") [] [] : javaConfig unit)) = (zeroConfig, []).
Proof. vm_compute. reflexivity. Qed.
