(* ===== verification/MigratedConfig.v ===== *)
(** * The gateway loads what the migration tool writes (cmd/goway-migrate-config/output.go)

    The document of a written configuration, by the tags of output.go, decoded by the tags of
    internal/config ([ConfigYaml]) under the comments the warnings make. *)
From S2P Require Import Prelude GoStrings GoNumeric NumericProps Config YamlBlock ConfigYaml ConfigMigration.

#[local] Open Scope Z_scope.
#[local] Set Warnings "-register-all".

(** ** The document

    Every field is tagged [omitempty]: a zero field is left out, and so is a struct of zero
    fields. A text is [YQuoted] whatever style the library writes it in. *)
Definition fields : Type := list (string * option ytree).
Definition e_int (z : Z) : option ytree := if z =? 0 then None else Some (YPlain (z_to_dec z)).
Definition e_str (s : string) : option ytree := if s =?s "" then None else Some (YQuoted s).
Definition e_ptr (b : option bool) : option ytree := (λ b : bool, YPlain (if b then "true" else "false")) <$> b.
Definition struct_doc (fs : fields) : list (string * ytree) := omap (λ '(k, v), (k,.) <$> v) fs.
Definition e_struct (fs : fields) : option ytree := match struct_doc fs with [] => None | m => Some (YMap m) end.

Definition t_proxy (p : outputProxy) : fields :=
  [("port", e_int (op_Port p)); ("responseSize", e_str (op_ResponseSize p)); ("requestTimeout", e_str (op_RequestTimeout p))].
Definition t_admin (a : outputAdmin) : fields := [("port", e_int (oa_Port a))].
Definition t_monitor (m : outputMonitor) : fields := [("interval", e_str (om_Interval m)); ("checkTimeout", e_str (om_CheckTimeout m))].
Definition t_db (d : outputDB) : fields := [("driver", e_str (od_Driver d)); ("dsn", e_str (od_DSN d))].
Definition t_external (e : outputExternal) : fields :=
  [("url", e_str (oe_URL e)); ("grpcAddr", e_str (oe_GRPCAddr e)); ("timeout", e_str (oe_Timeout e))].
Definition t_routing (r : outputRouting) : fields :=
  [("defaultGroup", e_str (or_DefaultGroup r)); ("type", e_str (or_Type r)); ("external", e_struct (t_external (or_External r)))].
Definition t_oidc (o : outputOIDC) : fields :=
  [("issuerUrl", e_str (oo_IssuerURL o)); ("clientId", e_str (oo_ClientID o)); ("clientSecret", e_str (oo_ClientSecret o)); ("jwksUrl", e_str (oo_JWKSURL o))].
Definition t_ldap (l : outputLDAP) : fields :=
  [("url", e_str (ol_URL l)); ("bindDn", e_str (ol_BindDN l)); ("bindPassword", e_str (ol_BindPass l)); ("userBase", e_str (ol_UserBase l));
   ("userAttr", e_str (ol_UserAttr l))].
Definition t_auth (a : outputAuth) : fields :=
  [("type", e_str (ou_Type a)); ("oidc", e_struct (t_oidc (ou_OIDC a))); ("ldap", e_struct (t_ldap (ou_LDAP a)))].
Definition t_cookie (c : outputCookie) : fields :=
  [("secret", e_str (oc_Secret c)); ("ttl", e_str (oc_TTL c)); ("wireCompat", e_ptr (oc_WireCompat c))].
Definition t_config (o : outputConfig) : fields :=
  [("proxy", e_struct (t_proxy (o_Proxy o))); ("admin", e_struct (t_admin (o_Admin o))); ("monitor", e_struct (t_monitor (o_Monitor o)));
   ("db", e_struct (t_db (o_DB o))); ("routing", e_struct (t_routing (o_Routing o))); ("auth", e_struct (t_auth (o_Auth o)));
   ("cookie", e_struct (t_cookie (o_Cookie o)))].
Definition output_tree (o : outputConfig) : list (string * ytree) := struct_doc (t_config o).

(** ** The YAML library *)
Definition comment (l : string) : Prop := has_prefix "#" l = true ∧ printable l = true.
Definition with_comments (ls : list string) (t : string) : string :=
  match ls with [] => t | _ => concat_str ((λ l, l +:+ nl) <$> ls) +:+ nl +:+ t end.
Fixpoint printable_tree (t : ytree) : bool :=
  match t with
  | YPlain s | YQuoted s => printable s
  | YSeq l => forallb printable l
  | YMap m => bool_decide (NoDup (fst <$> m))
      && (fix go (m : list (string * ytree)) := match m with [] => true | (k, t) :: m => plain_word k && printable_tree t && go m end) m
  end.
(** A document of printable texts that is marshalled decodes as what it is; comments and a
    blank line before it do not matter. *)
Class YamlCodec (yaml_marshal : list (string * ytree) → go_result string) (unmarshal : string → Config → go_result Config) : Prop :=
  codec_reads ls m t c : Forall comment ls → printable_tree (YMap m) = true → yaml_marshal m = Ok t →
    unmarshal (with_comments ls t) c = decode_config m c.

(** ** Decoding by the tags *)
Definition distinct (fs : fields) : bool := bool_decide (NoDup (fst <$> fs)).

Lemma struct_keys fs : (fst <$> struct_doc fs) `sublist_of` (fst <$> fs).
Proof. induction fs as [|[k [t|]] fs IH]; cbn; by constructor. Qed.
Lemma assoc_none {A} k (m : list (string * A)) : k ∉ m.*1 → assoc_str k m = None.
Proof.
  induction m as [|[k' v] m IH]; [done|]. cbn [fmap list_fmap assoc_str fst]. rewrite not_elem_of_cons. intros [Hk Hm].
  destruct (k' =?s k) eqn:E; [seqb_simpl; congruence|by apply IH].
Qed.
Lemma assoc_struct k fs : distinct fs = true → assoc_str k (struct_doc fs) = assoc_str k fs ≫= id.
Proof.
  unfold distinct. rewrite bool_decide_eq_true. induction fs as [|[k' v] fs IH]; [done|]. cbn [fmap list_fmap fst]. intros [Hk Hn]%NoDup_cons.
  change (struct_doc ((k', v) :: fs)) with (match (k',.) <$> v with Some x => x :: struct_doc fs | None => struct_doc fs end).
  cbn [assoc_str]. destruct v as [t|]; cbn [fmap option_fmap option_map assoc_str]; destruct (k' =?s k) eqn:E; try by apply IH.
  - done.
  - seqb_simpl. subst k'. cbn. apply assoc_none. intros Hin. apply Hk. eapply elem_of_sublist; [exact Hin|apply struct_keys].
Qed.

Section fields.
Context (fs : fields) (Hfs : distinct fs = true) (k : string).
Lemma field_str s old : assoc_str k fs = Some (e_str s) → d_str k (struct_doc fs) old = Ok (keep s old).
Proof using Hfs. intros Hk. unfold d_str, keep, e_str in *. rewrite assoc_struct, Hk by done. by destruct (s =?s ""). Qed.
Lemma field_int z old : in_int64 z → assoc_str k fs = Some (e_int z) → d_int k (struct_doc fs) old = Ok (keep_num z old).
Proof using Hfs. intros Hz Hk. unfold d_int, keep_num, e_int in *. rewrite assoc_struct, Hk by done. destruct (z =? 0); cbn; [done|]. by rewrite parse_int_dec. Qed.
Lemma field_scalar rd s old : assoc_str k fs = Some (e_str s) → d_scalar rd k (struct_doc fs) old = if s =?s "" then Ok old else rd s.
Proof using Hfs. intros Hk. unfold d_scalar, e_str in *. rewrite assoc_struct, Hk by done. by destruct (s =?s ""). Qed.
Lemma field_ptr b old : assoc_str k fs = Some (e_ptr b) → d_bool k (struct_doc fs) old = Ok (match b with Some b => b | None => old end).
Proof using Hfs. intros Hk. unfold d_bool. rewrite assoc_struct, Hk by done. by destruct b as [[]|]. Qed.
Lemma field_struct sub : assoc_str k fs = Some (e_struct sub) → d_sub k (struct_doc fs) = Ok (struct_doc sub).
Proof using Hfs. intros Hk. unfold d_sub, e_struct in *. rewrite assoc_struct, Hk by done. by destruct (struct_doc sub). Qed.
Lemma field_absent : assoc_str k fs = None → assoc_str k (struct_doc fs) = None.
Proof using Hfs. intros Hk. by rewrite assoc_struct, Hk. Qed.
End fields.

(** Reads the fields of a struct in the order they are decoded in. *)
Ltac absent := rewrite field_absent by reflexivity.
Ltac read_field :=
  first
    [ erewrite field_str by reflexivity | erewrite field_int by (done || reflexivity) | erewrite field_ptr by reflexivity | erewrite field_struct by reflexivity
    | unfold d_dur; erewrite field_scalar by reflexivity | erewrite field_scalar by reflexivity
    | unfold d_str at 1; absent | unfold d_int at 1; absent | unfold d_bool at 1; absent | unfold d_dur, d_scalar at 1; absent
    | unfold d_list at 1; absent | unfold d_map at 1; absent | unfold d_sub at 1; absent ];
  cbn [mbind go_result_bind].

Section structs.
Lemma decode_t_proxy p c : in_int64 (op_Port p) →
  decode_proxy_config (struct_doc (t_proxy p)) c
  = (size ← keep_size (op_ResponseSize p) (ResponseSize c); rt ← keep_dur (op_RequestTimeout p) (RequestTimeout c);
     Ok (mkProxyConfig (keep_num (op_Port p) (px_Port c)) size rt (PropagateErrors c))).
Proof.
  intros Hp. unfold decode_proxy_config, keep_size, keep_dur. by repeat read_field.
Qed.
Lemma decode_t_monitor m c :
  decode_monitor (struct_doc (t_monitor m)) c
  = (iv ← keep_dur (om_Interval m) (Interval c); ct ← keep_dur (om_CheckTimeout m) (CheckTimeout c);
     Ok (mkMonitorConfig iv ct (RefreshInterval c) (StatsTimeout c) (Retries c) (MetricsEndpoint c) (RunningQueriesMetricName c)
           (QueuedQueriesMetricName c) (MetricMinimumValues c) (MetricMaximumValues c))).
Proof.
  unfold decode_monitor, keep_dur. by repeat read_field.
Qed.
Lemma decode_t_db d c : decode_db (struct_doc (t_db d)) c = Ok (mkDBConfig (keep (od_Driver d) (Driver c)) (keep (od_DSN d) (DSN c)) (AutoMigrate c)).
Proof. unfold decode_db. by repeat read_field. Qed.
Lemma decode_t_routing r c :
  decode_routing (struct_doc (t_routing r)) c
  = let e := External c in let oe := or_External r in
    (et ← keep_dur (oe_Timeout oe) (Timeout e);
     Ok (mkRoutingConfig (keep (or_DefaultGroup r) (DefaultGroup c)) (keep (or_Type r) (rt_Type c))
           (mkExternalConfig (keep (oe_URL oe) (ext_URL e)) (keep (oe_GRPCAddr oe) (GRPCAddr e)) et (ExcludeHeaders e)))).
Proof.
  unfold decode_routing, keep_dur. cbv zeta. by repeat read_field.
Qed.
Lemma decode_t_auth a c :
  decode_auth (struct_doc (t_auth a)) c
  = let oi := OIDC c in let l := LDAP c in let oo := ou_OIDC a in let ol := ou_LDAP a in
    Ok (mkAuthConfig (keep (ou_Type a) (au_Type c))
          (mkOIDCConfig (keep (oo_IssuerURL oo) (IssuerURL oi)) (keep (oo_ClientID oo) (ClientID oi)) (keep (oo_ClientSecret oo) (ClientSecret oi))
             (keep (oo_JWKSURL oo) (JWKSURL oi)) (JWKSTTLSecs oi) (Scopes oi) (RedirectURL oi) (AuthorizationEndpoint oi) (TokenEndpoint oi))
          (mkLDAPConfig (keep (ol_URL ol) (ldap_URL l)) (keep (ol_BindDN ol) (BindDN l)) (keep (ol_BindPass ol) (BindPass l))
             (keep (ol_UserBase ol) (UserBase l)) (keep (ol_UserAttr ol) (UserAttr l)))
          (Authorization c)).
Proof.
  unfold decode_auth. cbv zeta. do 2 read_field. unfold decode_oidc. repeat read_field. unfold decode_ldap. repeat read_field.
  by destruct (Authorization c).
Qed.
Lemma decode_t_cookie k c :
  decode_cookie (struct_doc (t_cookie k)) c
  = (ttl ← keep_dur (oc_TTL k) (TTL c);
     Ok (mkCookieConfig (keep (oc_Secret k) (Secret c)) ttl (match oc_WireCompat k with Some b => b | None => WireCompat c end))).
Proof.
  unfold decode_cookie, keep_dur. by repeat read_field.
Qed.

Lemma decode_output o c : in_int64 (op_Port (o_Proxy o)) → in_int64 (oa_Port (o_Admin o)) →
  decode_config (output_tree o) c = read_output o c.
Proof.
  intros H1 H2. unfold decode_config, read_output, output_tree. cbv zeta. repeat read_field.
  rewrite decode_t_proxy, decode_t_monitor, decode_t_db, decode_t_routing, decode_t_auth, decode_t_cookie by done. cbv zeta.
  destruct (keep_size _ _); [|done]. cbn [mbind go_result_bind]. 
  destruct (keep_dur (op_RequestTimeout _) _); [|done]. destruct (keep_dur (om_Interval _) _); [|done].
  destruct (keep_dur (om_CheckTimeout _) _); [|done]. destruct (keep_dur (oe_Timeout _) _); [|done]. destruct (keep_dur (oc_TTL _) _); [|done].
  destruct (Metrics c), (UI c), (ClusterStats c), (BackendState c). reflexivity.
Qed.
End structs.

(** ** The written texts are printable *)
Lemma printable_app a b : printable (a +:+ b) = printable a && printable b.
Proof. apply str_forallb_app. Qed.
Lemma printable_dec z : printable (z_to_dec z) = true.
Proof.
  eapply str_forallb_impl, z_to_dec_chars. intros c Hc. unfold in_rng in *. unfold digit_or_minus, is_digit, in_rng in Hc.
  apply orb_true_iff in Hc as [Hc|Hc]; [apply andb_true_iff in Hc as [H1 H2]; apply N.leb_le in H1, H2; apply andb_true_iff; split; apply N.leb_le; lia|].
  by apply Ascii.eqb_eq in Hc as ->.
Qed.
Lemma printable_bytes b : printable (formatBytes b) = true.
Proof. unfold formatBytes. by repeat case_match; rewrite printable_app, printable_dec. Qed.
Lemma printable_groups gs : Forall clocked gs → printable (groups_text gs) = true.
Proof.
  induction 1 as [|[n u] gs Hu _ IH]; [done|]. cbn [groups_text]. rewrite printable_app. apply andb_true_iff. split.
  - pose proof (printable_dec (Z.of_N n)) as Hd. unfold z_to_dec in Hd. destruct (Z.ltb_spec (Z.of_N n) 0); [lia|]. by rewrite N2Z.id in Hd.
  - change (printable (String u ?r)) with (in_rng 32 126 u && printable r). rewrite IH. unfold clocked in Hu. cbn in Hu. by inversion Hu.
Qed.
Lemma printable_interval ms : Z.quot ms 1000 * Second ≤ int64_max → printable (dur_text (migrate_interval ms)) = true.
Proof.
  intros Hb. unfold migrate_interval, dur_text. set (q := Z.quot ms 1000) in *. set (i := if q <? 1 then 1 else q).
  assert (Hi : 0 < i ∧ i * Second ≤ int64_max) by (unfold i, Second, int64_max in *; destruct (Z.ltb_spec q 1); lia). clearbody i. destruct Hi as [Hp Hi].
  rewrite wrap64_id by (unfold in_int64, int64_min, int64_max, Second in *; lia). destruct (0 <? _); [|done].
  rewrite <- (Z2N.id i), duration_string_seconds by lia. apply printable_groups, seconds_groups_value.
Qed.

Definition printable_field (v : option ytree) : bool := match v with Some t => printable_tree t | None => true end.
Lemma printable_str s : printable s = true → printable_field (e_str s) = true.
Proof. intros Hs. unfold e_str. by destruct (s =?s ""). Qed.
Lemma printable_int z : printable_field (e_int z) = true.
Proof. unfold e_int. destruct (z =? 0); [done|]. apply printable_dec. Qed.
Lemma printable_struct fs : distinct fs = true → forallb plain_word fs.*1 = true → Forall (λ f, printable_field f.2 = true) fs →
  printable_tree (YMap (struct_doc fs)) = true.
Proof.
  unfold distinct. rewrite bool_decide_eq_true. intros Hn Hk Hf. cbn [printable_tree]. apply andb_true_iff. split.
  { apply bool_decide_eq_true. eapply sublist_NoDup; [exact Hn|apply struct_keys]. }
  clear Hn. induction Hf as [|[k v] fs Hv _ IH]; [done|]. cbn [fmap list_fmap forallb fst] in Hk. apply andb_true_iff in Hk as [Hk Hks].
  change (struct_doc ((k, v) :: fs)) with (match (k,.) <$> v with Some x => x :: struct_doc fs | None => struct_doc fs end).
  destruct v as [t|]; cbn [fmap option_fmap option_map]; [|by apply IH]. cbn [snd printable_field] in Hv. by rewrite Hk, Hv, IH.
Qed.
Lemma printable_sub fs : distinct fs = true → forallb plain_word fs.*1 = true → Forall (λ f, printable_field f.2 = true) fs →
  printable_field (e_struct fs) = true.
Proof. intros H1 H2 H3. unfold e_struct. pose proof (printable_struct fs H1 H2 H3) as Hp. by destruct (struct_doc fs). Qed.

Lemma printable_drop n s : printable s = true → printable (str_drop n s) = true.
Proof.
  revert s. induction n as [|n IH]; intros s Hs; [by destruct s|]. destruct s as [|c s]; [done|]. cbn in Hs |- *. apply andb_true_iff in Hs as [_ Hs]. by apply IH.
Qed.

(** ** The written file *)
Create HintDb texts.
#[local] Hint Resolve printable_str printable_int printable_sub printable_dec printable_bytes : texts.

Section written.
Context {Y : Type} (goq : string → string) (Hq : ∀ s, printable s = true → printable (goq s) = true).
Context (src : javaConfig Y) (Hc : carried src).

Definition written : outputConfig := toOutput (migrate goq src).1.

Lemma written_ports : in_int64 (op_Port (o_Proxy written)) ∧ in_int64 (oa_Port (o_Admin written)).
Proof using Hc.
  destruct Hc as [_ _ _ [H1 H2] _]. unfold written. rewrite migrate_value, router_value, store_value. done.
Qed.

Lemma detected_printable s : printable (from_opt "" (detectDriver s)) = true.
Proof using Type. unfold detectDriver. by repeat case_match. Qed.
Lemma written_printable : printable_tree (YMap (output_tree written)) = true.
Proof using Hc.
  destruct Hc as [_ _ Hi _ Ht]. unfold java_texts in Ht. rewrite !Forall_cons in Ht.
  destruct Ht as (_ & Hjdbc & _ & _ & _ & Hg & _ & Hu & _ & Hiss & Hid & Hsec & _ & Hjwk & _).
  unfold written. rewrite migrate_value, router_value, store_value, state_value, routing_value, auth_value.
  assert (Hdsn : printable (stripJDBCPrefix (JdbcURL (DataStore src))) = true).
  { unfold stripJDBCPrefix, trim_prefix. case_match; [by apply printable_drop|done]. }
  pose proof (detected_printable (jd_Driver (DataStore src))). pose proof (printable_interval _ Hi).
  apply printable_struct; [reflexivity..|]. repeat apply Forall_cons_2; [..|apply Forall_nil_2]; cbn [snd]; apply printable_sub; try reflexivity;
    repeat apply Forall_cons_2; try apply Forall_nil_2; cbn [snd]; try apply printable_sub; try reflexivity;
    repeat apply Forall_cons_2; try apply Forall_nil_2; cbn [snd]; try apply printable_int; try apply printable_str; try done; cbn -[detectDriver stripJDBCPrefix dur_text migrate_interval formatBytes set_];
    repeat case_match; try done; apply printable_bytes.
Qed.

(** *** The header of warnings *)
Lemma warn_printable b w : printable w = true → Forall (λ w, printable w = true) (warn_if b w).
Proof using Type. intros Hw. destruct b; by repeat constructor. Qed.
Lemma quoted_printable a s b : printable a = true → printable s = true → printable b = true → printable (a +:+ goq s +:+ b) = true.
Proof using Hq. intros Ha Hs Hb. by rewrite !printable_app, Ha, Hb, Hq. Qed.
Lemma num_printable a z b : printable a = true → printable b = true → printable (a +:+ z_to_dec z +:+ b) = true.
Proof using Type. intros Ha Hb. by rewrite !printable_app, Ha, Hb, printable_dec. Qed.
#[local] Hint Resolve quoted_printable num_printable warn_printable Forall_app_2 Forall_cons_2 Forall_nil_2 : texts.
#[local] Hint Extern 1 (printable _ = true) => reflexivity : texts.

Lemma migrate_warnings : (migrate goq src).2 =
  (migrate_router goq (RequestRouter src) (Proxy zeroConfig)).2
  ++ (migrate_store goq (DataStore src) (DB zeroConfig) (Admin zeroConfig)).2
  ++ (migrate_state goq (jc_BackendState src) (Monitor zeroConfig)).2
  ++ (migrate_routing goq (jc_Routing src) (Routing zeroConfig)).2
  ++ (migrate_auth goq (Authentication src) (Auth zeroConfig)).2 ++ migrate_rest src.
Proof using Type.
  unfold migrate. destruct (migrate_router _ _ _), (migrate_store _ _ _ _) as [[? ?] ?], (migrate_state _ _ _), (migrate_routing _ _ _),
    (migrate_auth _ _ _). done.
Qed.
Lemma warnings_printable : Forall (λ w, printable w = true) (migrate goq src).2.
Proof using Hc Hq.
  destruct Hc as [_ _ _ _ Ht]. unfold java_texts in Ht. rewrite !Forall_cons in Ht. destruct Ht as (? & ? & ? & ? & ? & ? & ? & ? & ? & ? & ? & ? & ? & ? & _).
  rewrite migrate_warnings, !Forall_app. split_and!.
  - unfold migrate_router. cbn [snd]. auto 7 with texts.
  - unfold migrate_store. destruct (set_ (jd_Driver _)); [destruct (detectDriver _)|]; cbn [snd]; auto 8 with texts.
  - unfold migrate_state. cbn [snd]. auto 7 with texts.
  - unfold migrate_routing. destruct (set_ (RulesType _)), (RulesType (jc_Routing src) =?s "EXTERNAL"); cbn [snd]; auto with texts.
  - unfold migrate_auth. destruct (set_ (JwkURL _)); cbn [snd]; auto 7 with texts.
  - unfold migrate_rest. auto 7 with texts.
Qed.

Lemma concat_cons x l : String.concat "" (x :: l) = x +:+ String.concat "" l.
Proof using Type. destruct l as [|y l]; [cbn; by rewrite str_app_nil_r|done]. Qed.
Lemma header_comments ws body :
  (let header := String.concat "" (map warning_line ws) in (if header =?s "" then "" else header +:+ nl) +:+ body)
  = with_comments ((λ w, "# WARNING: " +:+ w) <$> ws) body.
Proof using Type.
  cbv zeta. destruct ws as [|w ws]; [done|]. cbn [with_comments fmap list_fmap].
  assert (He : String.concat "" (map warning_line (w :: ws)) = concat_str ((λ l, l +:+ nl) <$> ((λ w, "# WARNING: " +:+ w) <$> (w :: ws)))).
  { generalize (w :: ws). intros l. induction l as [|x l IH]; [done|]. cbn [fmap list_fmap concat_str map]. cbn [fmap list_fmap] in IH.
    rewrite <- IH, concat_cons. unfold warning_line at 1. by rewrite !str_app_assoc. }
  assert ((String.concat "" (map warning_line (w :: ws)) =?s "") = false) as -> by (cbn [map]; by rewrite concat_cons). rewrite He. by rewrite str_app_assoc.
Qed.
End written.

Lemma expected_valid {Y} (src : javaConfig Y) :
  px_Port (Proxy (expected src)) ≠ ad_Port (Admin (expected src)) → config_ok (expected src).
Proof.
  intros Hp. split; try done.
  - cbn. destruct (Z.ltb_spec 0 (RequestBufferSize (RequestRouter src))); lia.
  - cbn -[detectDriver]. unfold detectDriver. repeat case_match; set_solver.
  - cbn. unfold set_. destruct (JwkURL _ =?s "") eqn:E; by seqb_simpl.
  - cbn. by destruct (set_ _).
  - cbn. set_solver.
  - cbn. rewrite !elem_of_cons, elem_of_nil. naive_solver.
Qed.

(** C36: Take a Java configuration the YAML library decodes whose values the written form can
    carry (sizes a float64 holds, intervals that do not overflow, texts of printable ASCII).
    If the document of output.go's tags is marshalled and written, the tool succeeds, and the
    file loads in the gateway by the tags of internal/config, unless the two ports collide:
    loaded it is the expected configuration, what the Java one says where it has a
    counterpart, the defaults elsewhere, sizes and intervals unchanged. *)
Theorem migrated_config_loads {Y} (goq : string → string) yaml_marshal yaml_unmarshal `{!YamlCodec yaml_marshal yaml_unmarshal} (src : javaConfig Y)
    unmarshal read write_ok input output yaml body path :
  (∀ s, printable s = true → printable (goq s) = true) → input ≠ "" → read input = Ok yaml → unmarshal yaml = Ok src → carried src →
  yaml_marshal (output_tree (toOutput (migrate goq src).1)) = Ok body → output ≠ "" → write_ok output = true →
  ∃ text, migrate_main goq unmarshal (λ o, yaml_marshal (output_tree o)) read write_ok input output false = mkOutcome 0 "" (Some (output, text))
  ∧ Load (λ _, Ok text) yaml_unmarshal path =
      if zor 8080 (jr_Port (RequestRouter src)) =? zor 8090 (LocalPort (DataStore src))
      then Err "config: validate: proxy.port and admin.port must differ, both are" else Ok (expected src).
Proof.
  intros Hq Hin%seqb_neq Hread Hsrc Hc Hbody Hout%seqb_neq Hw. unfold migrate_main, MigrateConfig, marshalWithWarnings. rewrite Hin, Hread, Hsrc.
  destruct (migrate goq src) as [cfg ws] eqn:Em. cbn [fst] in Hbody. rewrite Hbody, Hout, Hw. eexists. split; [reflexivity|].
  assert (Hws : Forall comment ((λ w, "# WARNING: " +:+ w) <$> ws)).
  { apply Forall_fmap. pose proof (warnings_printable goq Hq src Hc) as Hp. rewrite Em in Hp. eapply Forall_impl; [exact Hp|]. intros w Hp'. split; [done|].
    cbn. by rewrite printable_app, Hp'. }
  pose proof (written_printable goq src Hc) as Hp. destruct (written_ports goq src Hc) as [H1 H2]. destruct (read_migrated goq src Hc) as (c & Hrc & Hd).
  unfold written in *. rewrite Em in *. cbn [fst] in *. unfold Load.
  rewrite header_comments, (codec_reads _ _ _ _ Hws Hp Hbody), decode_output, Hrc, Hd by done.
  destruct (_ =? _) eqn:Ep.
  - unfold Validate. change (px_Port (Proxy (expected src)) =? ad_Port (Admin (expected src))) with
      (zor 8080 (jr_Port (RequestRouter src)) =? zor 8090 (LocalPort (DataStore src))). by rewrite Ep.
  - rewrite (proj2 (Validate_ok (expected src))); [done|]. apply expected_valid. cbn -[zor]. lia.
Qed.

(** ** A codec

    The writer and the reader of block documents, with comments before the first line. *)
Fixpoint skip_comments (inside : bool) (s : string) : string :=
  match s with
  | EmptyString => EmptyString
  | String c r =>
      if Ascii.eqb c newline then skip_comments false r
      else if inside || Ascii.eqb c "#" then skip_comments true r else s
  end.

Lemma skip_inside l t : mem_byte newline l = false → skip_comments true (l +:+ nl +:+ t) = skip_comments false t.
Proof.
  induction l as [|c l IH]; [done|]. rewrite str_app_cons. cbn [mem_byte skip_comments]. intros [Hc Hl]%orb_false_iff.
  rewrite Ascii.eqb_sym, Hc. by apply IH.
Qed.

Lemma skip_comment l t : comment l → skip_comments false (l +:+ nl +:+ t) = skip_comments false t.
Proof.
  intros [Hp Hl]. apply (mem_byte_none _ newline) in Hl; [|done]. destruct l as [|c l]; [done|]. rewrite str_app_cons. cbn [has_prefix mem_byte skip_comments] in *.
  apply orb_false_iff in Hl as [Hc Hl]. rewrite (Ascii.eqb_sym c), Hc. apply andb_true_iff in Hp as [Hp _].
  rewrite (Ascii.eqb_sym c), Hp. by apply skip_inside.
Qed.
Lemma skip_header ls t : Forall comment ls → skip_comments false (with_comments ls t) = skip_comments false t.
Proof.
  intros Hls. destruct ls as [|l0 ls0] eqn:E; [done|]. rewrite <- E in Hls |- *.
  assert (Hw : with_comments ls t = concat_str ((λ l, l +:+ nl) <$> ls) +:+ nl +:+ t) by (by rewrite E). rewrite Hw. clear E Hw.
  induction Hls as [|l ls Hl _ IH]; [done|]. cbn [fmap list_fmap concat_str]. by rewrite !str_app_assoc, skip_comment.
Qed.

Definition block_marshal (m : list (string * ytree)) : go_result string := if plain_doc m then Ok (yaml_text m) else Err "unsupported".
Definition block_unmarshal (t : string) (c : Config) : go_result Config := decode_config (read_doc (skip_comments false t)) c.

Lemma skip_doc m : plain_doc m = true → skip_comments false (yaml_text m) = yaml_text m.
Proof.
  intros Hm. destruct m as [|[k t] m]; [done|]. destruct (plain_map_cons _ _ _ Hm) as (Hk & _). destruct (plain_word_spec k Hk) as (_ & c & r & -> & Hc & _).
  assert (∃ x, yaml_text ((String c r, t) :: m) = String c x) as [x ->] by (destruct t; eexists; reflexivity).
  cbn [skip_comments orb]. destruct (word_chars c Hc) as (_ & _ & _ & Hn). destruct (Ascii.eqb_spec c newline); [done|].
  destruct (Ascii.eqb_spec c "#"); [by subst c|done].
Qed.
#[global] Instance block_codec : YamlCodec block_marshal block_unmarshal.
Proof.
  intros ls m t c Hls _. unfold block_marshal, block_unmarshal. destruct (plain_doc m) eqn:Hm; [|done]. intros [= <-].
  by rewrite skip_header, skip_doc, read_doc_text.
Qed.

Definition java_example : javaConfig unit :=
  mkJava (mkJRouter 9000 "gateway" 0 (3 * 1048576)) (mkJStore 9001 "jdbc:postgresql://db/gw" "" "" "org.postgresql.Driver")
    (mkJState "" 0 90500) (mkJRouting "adhoc" "FILE" "") (mkJStats false) (mkJAuth "" (mkJOAuth "" "" "" "" "")) (mkJAuthz "" "" "")
    [tt] [].

Lemma quote_example_ok s : printable s = true → printable (quote_example s) = true.
Proof.
  unfold printable. induction s as [|c s IH]; cbn [quote_example str_forallb]; [done|]. intros [Hc Hs]%andb_true_iff. destruct (Ascii.eqb newline c); [by apply IH|].
  cbn [str_forallb]. by rewrite Hc, IH.
Qed.

Lemma migrated_config_loads_witness :
  let out := migrate_main quote_example (λ _, Ok java_example) (λ o, block_marshal (output_tree o)) (λ _, Ok "yaml") (λ _, true) "in.yml" "out.yml" false in
  (∃ text, out = mkOutcome 0 "" (Some ("out.yml", text)) ∧ Load (λ _, Ok text) block_unmarshal "out.yml" = Ok (expected java_example))
  ∧ file out = Some ("out.yml", text_lines [
      "# WARNING: requestRouter.name=gateway has no Go equivalent, ignored";
      "# WARNING: routing.rulesType=FILE: only EXTERNAL routing supported, setting routing.type=EXTERNAL";
      "# WARNING: modules not supported, ignored"; "";
      "proxy:"; "  port: 9000"; "  responseSize: " +:+ in_quotes "3MiB"; "admin:"; "  port: 9001"; "monitor:"; "  interval: " +:+ in_quotes "1m30s";
      "db:"; "  driver: " +:+ in_quotes "postgres"; "  dsn: " +:+ in_quotes "postgresql://db/gw";
      "routing:"; "  defaultGroup: " +:+ in_quotes "adhoc"; "  type: " +:+ in_quotes "EXTERNAL"])
  ∧ Interval (Monitor (expected java_example)) = 90 * Second.
Proof.
  cbv zeta. split; [|split; vm_compute; reflexivity].
  destruct (migrated_config_loads quote_example block_marshal block_unmarshal java_example (λ _, Ok java_example) (λ _, Ok "yaml") (λ _, true)
              "in.yml" "out.yml" "yaml" (yaml_text (output_tree (toOutput (migrate quote_example java_example).1))) "out.yml") as (text & Ht & Hl).
  - apply quote_example_ok.
  - discriminate.
  - reflexivity.
  - reflexivity.
  - split; [vm_compute; discriminate|left; vm_compute; reflexivity|vm_compute; discriminate|split; split; vm_compute; discriminate|].
    repeat constructor.
  - vm_compute. reflexivity.
  - discriminate.
  - reflexivity.
  - exists text. split; [exact Ht|exact Hl].
Defined.
