(* ===== verification/RsTools.v ===== *)
(** * The routing service's validator and rule-testing tools
      (routing-service/internal/validate, cmd/routing-service-validate, tools/)

    A configuration is loaded as the service loads it and evaluated on samples, or a single
    rule is. YAML decoding, Go's [%q] and the clock are parameters. *)
From S2P Require Import Prelude GoStrings GoNumeric Json GoFlags RouterPb SqlMeta RsConfig Engine Providers Reload RsServer.

#[local] Open Scope Z_scope.
#[local] Set Warnings "-register-all".

(** ** Text *)

(** The runes of a text, invalid bytes counting one each. *)
Fixpoint rune_count (fuel : nat) (s : string) : nat :=
  match fuel, s with
  | O, _ | _, EmptyString => O
  | S f, _ => S (rune_count f (str_drop (decode_rune s).2 s))
  end.
Fixpoint spaces (n : nat) : string := match n with O => "" | S n => String " " (spaces n) end.
(** [%-*s] *)
Definition pad (w : nat) (s : string) : string := s +:+ spaces (w - rune_count (String.length s) s)%nat.
Definition em_dash : string := String (chr 226) (String (chr 128) (String (chr 148) "")).
Definition micro : string := String (chr 194) (String (chr 181) "").

(** What a command leaves: its exit status, or the panic that ended it, and its output. *)
Inductive ended : Type := Exit (code : Z) | Crash (value : string).
Record ran : Type := mkRan { rn_end : ended; rn_out : string; rn_err : string }.

(** ** validate/samples.go *)
Record sample : Type := mkSample {
  sm_ID : string; sm_Source : string; sm_User : string; sm_ClientTags : list string; sm_Catalog : string; sm_Schema : string;
  sm_Method : string; sm_URI : string; sm_RemoteAddr : string; sm_Body : string; sm_IsNew : bool; sm_ParamMap : gmap string string }.

Definition sample_ToRouteInput (s : sample) : RouteInput :=
  mkRouteInput (sm_Source s) (sm_ClientTags s) (sm_User s) (sm_Catalog s) (sm_Schema s) (sm_Method s) (sm_URI s) (sm_RemoteAddr s)
    (sm_Body s) (sm_IsNew s) (sm_ParamMap s) "" "" [] [] [] [] false.

(** ** validate/output.go *)
Record row : Type := mkRow { r_id : string; r_summary : string; r_newGroup : string; r_oldGroup : string; r_changed : bool }.

Definition groupDisplay (g : string) : string := if g =?s "" then em_dash else g.
Definition inputSummary (source user : string) : string :=
  if negb (source =?s "") && negb (user =?s "") then "source=" +:+ source +:+ " user=" +:+ user
  else if negb (source =?s "") then "source=" +:+ source
  else if negb (user =?s "") then "user=" +:+ user else "(empty)".

Definition diff_line (id summary old new marker : string) : string :=
  pad 24 id +:+ " " +:+ pad 32 summary +:+ " " +:+ pad 16 old +:+ " " +:+ pad 16 new +:+ " " +:+ marker +:+ nl.
Definition plain_line (id summary group : string) : string := pad 24 id +:+ " " +:+ pad 32 summary +:+ " " +:+ group +:+ nl.
Definition printTable (rows : list row) (diff : bool) : string :=
  if diff then
    diff_line "SAMPLE" "INPUT" "OLD" "NEW" ""
    +:+ String.concat "" (map (λ r, diff_line (r_id r) (r_summary r) (groupDisplay (r_oldGroup r)) (groupDisplay (r_newGroup r))
                                    (if r_changed r then "CHANGED" else "")) rows)
  else
    plain_line "SAMPLE" "INPUT" "GROUP"
    +:+ String.concat "" (map (λ r, plain_line (r_id r) (r_summary r) (groupDisplay (r_newGroup r))) rows).

(** ** validate/validate.go *)
Definition ExitOK : Z := 0.
Definition ExitInvalid : Z := 1.
Definition ExitDiff : Z := 2.
Record Options : Type := mkOptions { ConfigPath : string; SamplesPath : string; o_Diff : bool; BaselinePath : string }.

Section validate.
Context {W : Type} (ReadFile : string → ST W (go_result string)).
Context (yaml_unmarshal : string → Config → go_result Config) (samples_unmarshal : string → go_result (list sample)).
Context (registry : Registry W).

Definition loadSamples (path : string) : ST W (go_result (list sample)) :=
  r ← ReadFile path;
  mret match r with
       | Err e => Err ("read samples file: " +:+ e)
       | Ok data => match samples_unmarshal data with Err e => Err ("parse samples YAML: " +:+ e) | Ok ss => Ok ss end
       end.

Fixpoint build_methods (i : Z) (mcs : list MethodConfig) : ST W (go_result (list method)) :=
  match mcs with
  | [] => mret (Ok [])
  | mc :: mcs =>
      m ← Build registry mc;
      match m with
      | Err e => mret (Err ("methods[" +:+ z_to_dec i +:+ "] (" +:+ mc_Type mc +:+ "): " +:+ e))
      | Ok m => ms ← build_methods (i + 1) mcs; mret (cons m <$> ms)
      end
  end.

Definition buildPipeline (path : string) : ST W (go_result Pipeline) :=
  cfg ← Load ReadFile yaml_unmarshal path;
  match cfg with
  | Err e => mret (Err e)
  | Ok cfg =>
      ms ← build_methods 0 (Methods cfg);
      mret match ms with Err e => Err e | Ok ms => Ok (NewPipeline ms (DefaultRoutingGroup cfg)) end
  end.

Definition sample_row (p : Pipeline) (baseline : option Pipeline) (s : sample) : row :=
  let i := sample_ToRouteInput s in
  let new := Evaluate p i in
  let summary := inputSummary (sm_Source s) (sm_User s) in
  match baseline with
  | None => mkRow (sm_ID s) summary new "" false
  | Some b => let old := Evaluate b i in mkRow (sm_ID s) summary new old (negb (old =?s new))
  end.

Definition invalid (msg : string) : ran := mkRan (Exit ExitInvalid) "" ("error: " +:+ msg +:+ nl).
Definition report (p : Pipeline) (baseline : option Pipeline) (ss : list sample) : ran :=
  let rows := map (sample_row p baseline) ss in
  let changed := length (List.filter r_changed rows) in
  let out := printTable rows (match baseline with Some _ => true | None => false end) in
  if (0 <? changed)%nat
  then mkRan (Exit ExitDiff) out (nl +:+ z_to_dec (Z.of_nat changed) +:+ " route(s) changed vs baseline" +:+ nl)
  else mkRan (Exit ExitOK) out "".

Definition Run (opts : Options) : ST W ran :=
  if ConfigPath opts =?s "" then mret (invalid "--config is required")
  else
    p ← buildPipeline (ConfigPath opts);
    match p with
    | Err e => mret (invalid e)
    | Ok p =>
        if SamplesPath opts =?s "" then mret (mkRan (Exit ExitOK) ("OK" +:+ nl) "")
        else
          ss ← loadSamples (SamplesPath opts);
          match ss with
          | Err e => mret (invalid e)
          | Ok ss =>
              if o_Diff opts then
                if BaselinePath opts =?s "" then mret (invalid "--diff requires --baseline")
                else
                  b ← buildPipeline (BaselinePath opts);
                  match b with
                  | Err e => mret (invalid ("baseline: " +:+ e))
                  | Ok b => mret (report p (Some b) ss)
                  end
              else mret (report p None ss)
          end
    end.

(** cmd/routing-service-validate: the default flag set exits with 0 when asked for help
    and with 2 on a bad command line. *)
Definition validate_flags : flag_set := [("config", FString); ("samples", FString); ("diff", FBool); ("baseline", FString)].
Definition validate_main (args : list string) : ST W ran :=
  match parse_flags (λ _, true) validate_flags ∅ args with
  | Help => mret (mkRan (Exit 0) "" "")
  | BadFlags => mret (mkRan (Exit 2) "" "")
  | Parsed v _ => Run (mkOptions (flag_string v "config") (flag_string v "samples") (flag_bool v "diff") (flag_string v "baseline"))
  end.
End validate.

(** [NewRegistry] of validate.go. *)
Definition validate_registry {W} (readFile : string → ST W (go_result string)) {Prog} (compile : string → go_result Prog)
    (run : Prog → requestFields → run_outcome) {Fn} (ExecFile : string → go_result (gmap string Fn)) (callable : Fn → bool)
    (fn_type : Fn → string) (Call : Z → Fn → gmap string sval → run_outcome) : option (Registry W) :=
  r ← Register "expr" (mkFactory _ (expr_method readFile compile run)) NewRegistry;
  Register "script" (mkFactory _ (script_method readFile ExecFile callable fn_type Call)) r.

(** ** tools/internal/toolinput *)

(** [jsonInput], by the names of its fields. *)
Record jsonInput : Type := mkJI {
  ji_str : gmap string string; ji_list : gmap string (option (list string)); ji_bool : gmap string bool; ji_map : option (gmap string string) }.
Definition str_fields : list string :=
  ["source"; "user"; "catalog"; "schema"; "method"; "uri"; "remote_addr"; "body"; "query_type"; "query_category"].
Definition list_fields : list string := ["client_tags"; "catalogs"; "schemas"; "catalog_schemas"; "tables"].
Definition bool_fields : list string := ["is_new"; "parse_ok"].

Definition set_input (k : string) (v : json) (j : jsonInput) : jsonInput * bool :=
  match find_first (λ f, field_is f k) str_fields, find_first (λ f, field_is f k) list_fields, find_first (λ f, field_is f k) bool_fields with
  | Some f, _, _ =>
      let '(x, e) := dec_string (from_opt "" (ji_str j !! f)) v in (mkJI (<[f := x]> (ji_str j)) (ji_list j) (ji_bool j) (ji_map j), e)
  | _, Some f, _ =>
      let '(x, e) := dec_strings (from_opt None (ji_list j !! f)) v in (mkJI (ji_str j) (<[f := x]> (ji_list j)) (ji_bool j) (ji_map j), e)
  | _, _, Some f =>
      let '(x, e) := dec_bool (from_opt false (ji_bool j !! f)) v in (mkJI (ji_str j) (ji_list j) (<[f := x]> (ji_bool j)) (ji_map j), e)
  | None, None, None =>
      if field_is "param_map" k then let '(x, e) := dec_string_map (ji_map j) v in (mkJI (ji_str j) (ji_list j) (ji_bool j) x, e)
      else (j, false)
  end.

Definition nilToEmpty (l : option (list string)) : list string := from_opt [] l.
Definition input_of (j : jsonInput) : RouteInput :=
  let s f := from_opt "" (ji_str j !! f) in
  let l f := nilToEmpty (from_opt None (ji_list j !! f)) in
  let b f := from_opt false (ji_bool j !! f) in
  mkRouteInput (s "source") (l "client_tags") (s "user") (s "catalog") (s "schema") (s "method") (s "uri") (s "remote_addr") (s "body")
    (b "is_new") (from_opt ∅ (ji_map j)) (s "query_type") (s "query_category") (l "catalogs") (l "schemas") (l "catalog_schemas")
    (l "tables") (b "parse_ok").

Definition looksLikeFile (s : string) : bool := negb (has_prefix "{" (trim_space s)).

(** A sample with the SQL fields. *)
Record SampleRecord : Type := mkSampleRecord {
  sr_base : sample; sr_QueryType : string; sr_QueryCategory : string; sr_Catalogs : list string; sr_Schemas : list string;
  sr_CatalogSchemas : list string; sr_Tables : list string; sr_ParseOK : bool }.
Definition record_ToRouteInput (r : SampleRecord) : RouteInput :=
  let s := sr_base r in
  mkRouteInput (sm_Source s) (sm_ClientTags s) (sm_User s) (sm_Catalog s) (sm_Schema s) (sm_Method s) (sm_URI s) (sm_RemoteAddr s)
    (sm_Body s) (sm_IsNew s) (sm_ParamMap s) (sr_QueryType r) (sr_QueryCategory r) (sr_Catalogs r) (sr_Schemas r) (sr_CatalogSchemas r)
    (sr_Tables r) (sr_ParseOK r).

(** ** tools/internal/toolrun *)
Definition ExitError : Z := 1.
Definition ExitExpectFail : Z := 2.
Definition StatusOK : string := "OK".
Definition StatusDeferred : string := "DEFERRED".
Definition StatusStepLimit : string := "STEP_LIMIT".
Definition StatusRuntimeError : string := "RUNTIME_ERROR".
Record tool_result : Type := mkToolResult { tr_Group : string; tr_Latency : Z; tr_Status : string }.
Record BatchRow : Type := mkBatchRow { br_ID : string; br_Group : string; br_Latency : Z; br_Status : string }.

Definition containsAny (s : string) (subs : list string) : bool := existsb (λ sub, contains sub s) subs.

Definition fmtLatency (d : Z) : string :=
  if d <? Microsecond then z_to_dec d +:+ "ns"
  else if d <? Millisecond then fmt_2f (f64_div (f64_of_Z d) (f64_of_Z 1000)) +:+ micro +:+ "s"
  else fmt_2f (f64_div (f64_of_Z (Z.quot d 1000)) (f64_of_Z 1000)) +:+ "ms".

Definition batch_line (id group latency status : string) : string :=
  pad 24 id +:+ " " +:+ pad 16 group +:+ " " +:+ pad 10 latency +:+ " " +:+ status +:+ nl.
Definition PrintTable (rows : list BatchRow) : string :=
  batch_line "SAMPLE" "GROUP" "LATENCY" "STATUS"
  +:+ String.concat "" (map (λ r, batch_line (br_ID r) (if br_Group r =?s "" then "(deferred)" else br_Group r) (fmtLatency (br_Latency r))
                                  (br_Status r)) rows).

(** [Run]: a result, or the panic of the evaluation. *)
Definition tool_run (o : eval_outcome) (latency : Z) : tool_result + string :=
  match o with
  | Panicked v => inr v
  | Failed msg =>
      if containsAny msg ["too many steps"; "cancelled"; "cancel"; "step"] then inl (mkToolResult "" latency StatusStepLimit)
      else inl (mkToolResult "" latency (StatusRuntimeError +:+ ": " +:+ msg))
  | Evaluated d =>
      if negb (Decided d) then inl (mkToolResult "" latency StatusDeferred) else inl (mkToolResult (RoutingGroup d) latency StatusOK)
  end.

Section tools.
Context {W : Type} (ReadFile : string → ST W (go_result string)) (goq : string → string) (uint_of : string → option Z).
Context (samples_yaml : string → go_result (list SampleRecord)) (expect_yaml : string → go_result (gmap string string)).
(** The measured time of an evaluation. *)
Context (clock : RouteInput → Z).

Definition Parse (s : string) : ST W (go_result RouteInput) :=
  let decode data :=
    match unmarshal_ast data with
    | None => Err "parse input JSON"
    | Some v => let '(j, e) := dec_struct set_input (mkJI ∅ ∅ ∅ None) v in if (e : bool) then Err "parse input JSON" else Ok (input_of j)
    end in
  if looksLikeFile s then
    r ← ReadFile s;
    mret match r with Err e => Err ("read input file: " +:+ e) | Ok data => decode data end
  else mret (decode s).

Definition PrintSingle (r : tool_result) (verbose : bool) (i : RouteInput) : string :=
  (if verbose then
     "input:" +:+ nl +:+ "  source:      " +:+ goq (Source i) +:+ nl +:+ "  user:        " +:+ goq (User i) +:+ nl
     +:+ "  client_tags: [" +:+ join " " (ClientTags i) +:+ "]" +:+ nl +:+ "  is_new:      " +:+ (if IsNew i then "true" else "false") +:+ nl
     +:+ "  catalog:     " +:+ goq (Catalog i) +:+ nl +:+ "  schema:      " +:+ goq (Schema i) +:+ nl +:+ nl
   else "")
  +:+ "group:   " +:+ (if tr_Group r =?s "" then em_dash else tr_Group r) +:+ nl
  +:+ "latency: " +:+ fmtLatency (tr_Latency r) +:+ nl +:+ "status:  " +:+ tr_Status r +:+ nl.

Definition read_yaml {A} (what : string) (decode : string → go_result A) (path : string) : ST W (go_result A) :=
  r ← ReadFile path;
  mret match r with
       | Err e => Err ("read " +:+ what +:+ " file: " +:+ e)
       | Ok data => match decode data with Err e => Err ("parse " +:+ what +:+ " YAML: " +:+ e) | Ok x => Ok x end
       end.
Definition LoadSamples : string → ST W (go_result (list SampleRecord)) := read_yaml "samples" samples_yaml.
Definition LoadExpect : string → ST W (go_result (gmap string string)) := read_yaml "expect" expect_yaml.

(** ** tools/expr-test, tools/starlark-test *)

(** One sample: its row, whether it missed its expectation, and what it prints. *)
Definition mismatched (expect : gmap string string) (id group : string) : option string :=
  match expect !! id with Some want => if group =?s want then None else Some want | None => None end.
Definition batch_row (expect : gmap string string) (s : SampleRecord) (r : tool_result) : BatchRow * bool :=
  match mismatched expect (sm_ID (sr_base s)) (tr_Group r) with
  | Some want => (mkBatchRow (sm_ID (sr_base s)) (tr_Group r) (tr_Latency r) ("MISMATCH (want " +:+ goq want +:+ ")"), true)
  | None => (mkBatchRow (sm_ID (sr_base s)) (tr_Group r) (tr_Latency r) (tr_Status r), false)
  end.

Fixpoint batch_loop (eval : RouteInput → eval_outcome) (verbose : bool) (expect : gmap string string) (ss : list SampleRecord)
    (out : string) (rows : list BatchRow) (mismatches : Z) : string * (list BatchRow * Z + string) :=
  match ss with
  | [] => (out, inl (rows, mismatches))
  | s :: ss =>
      let i := record_ToRouteInput s in
      match tool_run (eval i) (clock i) with
      | inr v => (out, inr v)
      | inl r =>
          let out := if verbose then out +:+ PrintSingle r true i else out in
          let '(row, miss) := batch_row expect s r in
          batch_loop eval verbose expect ss out (rows ++ [row]) (if (miss : bool) then mismatches + 1 else mismatches)
      end
  end.

Definition error_out (e : string) : ran := mkRan (Exit ExitError) "" ("error: " +:+ e +:+ nl).
Definition batch_end (x : string * (list BatchRow * Z + string)) : ran :=
  match x with
  | (out, inr v) => mkRan (Crash v) out ""
  | (out, inl (rows, mismatches)) =>
      if 0 <? mismatches
      then mkRan (Exit ExitExpectFail) (out +:+ PrintTable rows) (nl +:+ z_to_dec mismatches +:+ " expectation(s) failed" +:+ nl)
      else mkRan (Exit ExitOK) (out +:+ PrintTable rows) ""
  end.
Definition runBatch (eval : RouteInput → eval_outcome) (samplesPath expectPath : string) (verbose : bool) : ST W ran :=
  ss ← LoadSamples samplesPath;
  match ss with
  | Err e => mret (error_out e)
  | Ok ss =>
      ex ← (if negb (expectPath =?s "") then LoadExpect expectPath else mret (Ok ∅));
      match ex with
      | Err e => mret (error_out e)
      | Ok expect => mret (batch_end (batch_loop eval verbose expect ss "" [] 0))
      end
  end.

Definition buildConfig (ty src : string) : string :=
  "type: " +:+ ty +:+ nl +:+ "program: |" +:+ nl +:+ concat_str ((λ l, "  " +:+ l +:+ nl) <$> splitLines src).

(** The common end of both [run]s, once the program is loaded. *)
Definition run_loaded (eval : RouteInput → eval_outcome) (v : flag_values) (positional : list string) (usage : string) : ST W ran :=
  if negb (flag_string v "samples" =?s "")
  then runBatch eval (flag_string v "samples") (flag_string v "expect") (flag_bool v "verbose")
  else match positional with
       | [] => mret (mkRan (Exit ExitError) "" usage)
       | a :: _ =>
           i ← Parse a;
           mret match i with
                | Err e => error_out e
                | Ok i =>
                    match tool_run (eval i) (clock i) with
                    | inr p => mkRan (Crash p) "" ""
                    | inl r =>
                        mkRan (Exit (if negb (tr_Status r =?s StatusOK) && negb (tr_Status r =?s StatusDeferred) then ExitError else ExitOK))
                          (PrintSingle r (flag_bool v "verbose") i) ""
                    end
                end
       end.

Section expr_test.
Context {Prog : Type} (compile : string → go_result Prog) (run_prog : Prog → requestFields → run_outcome).
Definition expr_usage : string := "usage: expr-test <program-path> <input>" +:+ nl.
Definition expr_flags : flag_set := [("program", FString); ("samples", FString); ("expect", FString); ("verbose", FBool)].

Definition with_program (src : string) (v : flag_values) (positional : list string) : ST W ran :=
  '(err, st) ← expr_LoadConfig ReadFile compile (buildConfig "expr" src) None;
  match err with
  | Err e => mret (mkRan (Exit ExitError) "" ("COMPILE_ERROR: " +:+ e +:+ nl))
  | Ok _ => run_loaded (expr_Evaluate run_prog st) v positional expr_usage
  end.
Definition with_program_file (path : string) (v : flag_values) (positional : list string) : ST W ran :=
  r ← ReadFile path;
  match r with
  | Err e => mret (mkRan (Exit ExitError) "" ("error: read program file " +:+ goq path +:+ ": " +:+ e +:+ nl))
  | Ok src => with_program src v positional
  end.

Definition expr_run (args : list string) : ST W ran :=
  let '(programFilePath, rest) :=
    match args with a :: args' => if negb (has_prefix "-" a) then (a, args') else ("", args) | [] => ("", []) end in
  match parse_flags (λ _, true) expr_flags ∅ rest with
  | Help | BadFlags => mret (mkRan (Exit ExitError) "" "")
  | Parsed v positional =>
      if negb (flag_string v "program" =?s "") then with_program (flag_string v "program") v positional
      else if negb (programFilePath =?s "") then with_program_file programFilePath v positional
      else match positional with
           | [] => mret (mkRan (Exit ExitError) "" (expr_usage +:+ "       expr-test --program '<expr>' <input>" +:+ nl))
           | a :: positional => with_program_file a v positional
           end
  end.
End expr_test.

Section starlark_test.
Context {Fn : Type} (ExecFile : string → go_result (gmap string Fn)) (callable : Fn → bool) (fn_type : Fn → string)
        (Call : Z → Fn → gmap string sval → run_outcome).
Definition starlark_usage : string := "usage: starlark-test <script-path> <input>" +:+ nl.
Definition starlark_flags : flag_set := [("samples", FString); ("expect", FString); ("verbose", FBool); ("max-steps", FUint)].

Definition starlark_run (args : list string) : ST W ran :=
  match args with
  | scriptPath :: rest =>
      if has_prefix "-" scriptPath
      then mret (mkRan (Exit ExitError) "" (starlark_usage +:+ "       starlark-test <script-path> --samples <path>" +:+ nl))
      else match parse_flags (λ s, match uint_of s with Some _ => true | None => false end) starlark_flags ∅ rest with
           | Help | BadFlags => mret (mkRan (Exit ExitError) "" "")
           | Parsed v positional =>
               let steps := from_opt 0 (s ← v !! "max-steps"; uint_of s) in
               let p := if 0 <? steps then SetMaxSteps steps (mkScript None 0) else mkScript None 0 in
               r ← ReadFile scriptPath;
               match r with
               | Err e => mret (mkRan (Exit ExitError) "" ("error: read script " +:+ goq scriptPath +:+ ": " +:+ e +:+ nl))
               | Ok src =>
                   '(err, st) ← script_LoadConfig ReadFile ExecFile callable fn_type (buildConfig "script" src) p;
                   match err with
                   | Err e => mret (error_out e)
                   | Ok _ => run_loaded (script_Evaluate Call st) v positional starlark_usage
                   end
               end
           end
  | [] => mret (mkRan (Exit ExitError) "" (starlark_usage +:+ "       starlark-test <script-path> --samples <path>" +:+ nl))
  end.
End starlark_test.
End tools.

(** ** The tools run the rules the service runs *)

(** The tools hand a provider the text the registry would. *)
Lemma tool_config_text ty src : src ≠ "" → buildConfig ty src = methodConfigBytes (mkMethodConfig ty 0 src "").
Proof.
  intros Hs. unfold buildConfig, methodConfigBytes. cbn [mc_Type Program File Refresh]. apply seqb_neq in Hs as ->.
  change (0 <? 0) with false. cbv iota. unfold appendYAMLStr, appendYAMLBlock. rewrite append_block_lines by done.
  change ("" =?s "") with true. cbv iota. unfold indent. by rewrite str_app_nil_l, !str_app_assoc.
Qed.

Lemma tool_config_source {W} (ReadFile : string → ST W (go_result string)) ty src w : one_line ty →
  extractSource ReadFile (buildConfig ty src) w = extractSource ReadFile (methodConfigBytes (mkMethodConfig ty 0 src "")) w.
Proof.
  intros Ht. destruct (decide (src = "")) as [->|Hs]; [|by rewrite tool_config_text].
  unfold extractSource, buildConfig, methodConfigBytes. cbn [mc_Type Program File Refresh splitLines fmap list_fmap concat_str].
  change ("" =?s "") with true. change (0 <? 0) with false. cbv iota zeta. unfold appendYAMLStr. rewrite str_app_nil_l, ?str_app_assoc.
  assert (Hl : ∀ rest, splitLines ("type" +:+ ": " +:+ ty +:+ nl +:+ rest) = ("type" +:+ ": " +:+ ty) :: splitLines rest).
  { intros rest. rewrite <- (str_app_assoc ": "), <- (str_app_assoc "type"). apply splitLines_line.
    unfold one_line in *. by rewrite !mem_byte_app, Ht. }
  change ("type: " +:+ ?x) with ("type" +:+ ": " +:+ x). rewrite Hl.
  assert (Hl0 : splitLines ("type" +:+ ": " +:+ ty +:+ nl) = ["type" +:+ ": " +:+ ty]).
  { specialize (Hl ""). by rewrite str_app_nil_r in Hl. }
  rewrite Hl0. cbn [ext_loop]. assert (He : ext_line ("type" +:+ ": " +:+ ty) (mkExt "" "" None) = mkExt "" "" None).
  { unfold ext_line, ext_key. cbn [x_block]. by rewrite parseYAMLLine_key. }
  rewrite He. done.
Qed.

(** A rule accepted by a tool is accepted by the service, and evaluates to the same. *)
Definition same_rule {W St} (built : go_result method * W) (loaded : (go_result unit * St) * W) (eval : St → RouteInput → eval_outcome) : Prop :=
  match built, loaded with
  | (Ok m, w1), ((Ok _, st), w2) => w1 = w2 ∧ ∀ i, m_Evaluate m i = eval st i
  | (Err _, w1), ((Err _, _), w2) => w1 = w2
  | _, _ => False
  end.

Theorem tools_match_service {W} (ReadFile : string → ST W (go_result string)) {Prog} (compile : string → go_result Prog) run_prog
    {Fn} (ExecFile : string → go_result (gmap string Fn)) callable fn_type Call r src w :
  service_registry ReadFile compile run_prog ExecFile callable fn_type Call = Some r →
  same_rule (Build r (mkMethodConfig "expr" 0 src "") w) (expr_LoadConfig ReadFile compile (buildConfig "expr" src) None w)
    (expr_Evaluate run_prog)
  ∧ same_rule (Build r (mkMethodConfig "script" 0 src "") w)
      (script_LoadConfig ReadFile ExecFile callable fn_type (buildConfig "script" src) (mkScript None 0) w) (script_Evaluate Call).
Proof.
  intros Hr. unfold Build. rewrite !(service_registry_lookup _ _ _ _ _ _ _ _ _ Hr). cbn [mc_Type].
  change ("expr" =?s "expr") with true. change ("script" =?s "expr") with false. change ("script" =?s "script") with true. cbv iota.
  split; cbn [fac_St fac_method rm_LoadConfig rm_New rm_Evaluate rm_Type expr_method script_method].
  - unfold expr_LoadConfig, mbind, ST_bind, mret, ST_ret. rewrite tool_config_source by done.
    destruct (extractSource _ _ w) as [[s|e] w1]; [destruct (compile s)|]; done.
  - unfold script_LoadConfig, mbind, ST_bind, mret, ST_ret. rewrite tool_config_source by done.
    destruct (extractSource _ _ w) as [[s|e] w1]; [destruct (compileAndExec _ _ _ s)|]; done.
Qed.

(** ** Batches *)
Section batches.
Context (goq : string → string) (clock : RouteInput → Z) (eval : RouteInput → eval_outcome) (expect : gmap string string).

(** A sample whose evaluation does not panic, and one that misses its expectation. *)
Definition ends (s : SampleRecord) : Prop := ∀ v, eval (record_ToRouteInput s) ≠ Panicked v.
Definition group_given (s : SampleRecord) : string :=
  match eval (record_ToRouteInput s) with Evaluated d => if Decided d then RoutingGroup d else "" | _ => "" end.
Definition misses (s : SampleRecord) : bool :=
  match expect !! sm_ID (sr_base s) with Some want => negb (group_given s =?s want) | None => false end.

Lemma tool_run_group s : ends s → ∃ r, tool_run (eval (record_ToRouteInput s)) (clock (record_ToRouteInput s)) = inl r ∧ tr_Group r = group_given s.
Proof.
  unfold ends, group_given, tool_run. intros He. destruct (eval (record_ToRouteInput s)) as [d|e|v].
  - destruct (Decided d); eexists; split; reflexivity.
  - destruct (containsAny _ _); eexists; split; reflexivity.
  - by destruct (He v).
Qed.

Lemma batch_row_miss s r : tr_Group r = group_given s → (batch_row goq expect s r).2 = misses s.
Proof.
  intros Hg. unfold batch_row, mismatched, misses. rewrite Hg. destruct (expect !! _) as [want|]; [|done]. by destruct (_ =?s want).
Qed.

Lemma batch_loop_spec verbose ss out rows n :
  match batch_loop goq clock eval verbose expect ss out rows n with
  | (_, inl (_, n')) => Forall ends ss ∧ n' = n + Z.of_nat (length (List.filter misses ss))
  | (_, inr _) => ¬ Forall ends ss
  end.
Proof.
  revert out rows n. induction ss as [|s ss IH]; intros out rows n; cbn [batch_loop]; [split; [constructor|cbn; lia]|].
  destruct (tool_run (eval (record_ToRouteInput s)) (clock (record_ToRouteInput s))) as [r|v] eqn:Er.
  - assert (He : ends s) by (intros v Hv; by rewrite Hv in Er).
    destruct (tool_run_group s He) as (r' & Hr' & Hg). assert (r = r') as -> by congruence.
    pose proof (batch_row_miss s r' Hg) as Hm. destruct (batch_row goq expect s r') as [row miss]. cbn in Hm. subst miss.
    specialize (IH (if verbose then out +:+ PrintSingle goq r' true (record_ToRouteInput s) else out) (rows ++ [row])
                  (if misses s then n + 1 else n)).
    destruct (batch_loop _ _ _ _ _ ss _ _ _) as [o [[rows' n']|v]]; rewrite Forall_cons; [|tauto].
    destruct IH as [Hf ->]. split; [done|]. cbn [List.filter]. destruct (misses s); cbn [length]; lia.
  - rewrite Forall_cons. intros [He _]. unfold tool_run in Er. destruct (eval _) as [d|e|v'] eqn:E; [by destruct (Decided d)|by destruct (containsAny _ _)|].
    by destruct (He v').
Qed.

(** A batch ends with status 2 exactly when some sample misses its expectation and with
    status 0 when none does, whatever evaluations failed; a panic ends the tool. *)
Theorem batch_exit_exact verbose ss :
  let r := batch_end (batch_loop goq clock eval verbose expect ss "" [] 0) in
  (rn_end r = Exit ExitExpectFail ↔ Forall ends ss ∧ Exists (λ s, misses s = true) ss)
  ∧ (rn_end r = Exit ExitOK ↔ Forall ends ss ∧ Forall (λ s, misses s = false) ss)
  ∧ ((∃ v, rn_end r = Crash v) ↔ ¬ Forall ends ss).
Proof.
  cbn zeta. pose proof (batch_loop_spec verbose ss "" [] 0) as Hs.
  destruct (batch_loop _ _ _ _ _ ss _ _ _) as [out [[rows n]|v]]; cbn [batch_end]; [|split_and!; cbn; naive_solver].
  destruct Hs as [Hf ->].
  assert (Hz : (0 <? 0 + Z.of_nat (length (List.filter misses ss))) = true ↔ Exists (λ s, misses s = true) ss).
  { clear. induction ss as [|s ss IH]; cbn [List.filter]; [split; [done|by intros ?%Exists_nil]|]. rewrite Exists_cons, <- IH.
    destruct (misses s); cbn [length]; [|naive_solver]. split; [by left|]. intros _. apply Z.ltb_lt. lia. }
  assert (Hn : Forall (λ s, misses s = false) ss ↔ ¬ Exists (λ s, misses s = true) ss).
  { rewrite Forall_forall, Exists_exists. split; [intros Ha (s & Hin & Hm); specialize (Ha s Hin); congruence|]. intros Hne s Hin. destruct (misses s) eqn:E; [|done]. exfalso. eauto. }
  destruct (0 <? _) eqn:E; cbn [rn_end]; split_and!; try (split; [done|]); try naive_solver.
  all: split; [intros [v [=]]|done].
Qed.
End batches.

(** ** The validator *)
Section validator.
Context {W : Type} (ReadFile : string → ST W (go_result string)).
Context (yaml_unmarshal : string → Config → go_result Config) (samples_unmarshal : string → go_result (list sample)).
Context (registry : Registry W).

(** The validator's loop and the service's differ in their messages only. *)
Lemma build_methods_all i mcs w :
  match build_all registry mcs w, build_methods registry i mcs w with
  | (Ok ms, w1), (Ok ms', w2) => ms = ms' ∧ w1 = w2
  | (Err _, w1), (Err _, w2) => w1 = w2
  | _, _ => False
  end.
Proof.
  revert i w. induction mcs as [|mc mcs IH]; intros i w; cbn [build_all build_methods]; [done|]. unfold mbind, ST_bind, mret, ST_ret.
  destruct (Build registry mc w) as [[m|e] w1]; [|done]. specialize (IH (i + 1) w1).
  destruct (build_all registry mcs w1) as [[ms|e] w2], (build_methods registry (i + 1) mcs w1) as [[ms'|e'] w2']; try done.
  destruct IH as [-> ->]. done.
Qed.

Context (tracing_init : Config → ST W (go_result unit)) (watcher_start : string → ST W (go_result unit)).
#[local] Abbreviation go_boot := (boot ReadFile yaml_unmarshal registry tracing_init watcher_start).
#[local] Abbreviation go_build := (buildPipeline ReadFile yaml_unmarshal registry).

Lemma build_pipeline_boot path w cfg s w' : go_boot path w = (Ok (cfg, s), w') → ∃ w1, go_build path w = (Ok (sv_pipeline s), w1).
Proof.
  unfold boot, buildPipeline, mbind, ST_bind, mret, ST_ret. destruct (Load ReadFile yaml_unmarshal path w) as [[cfg'|e] w1]; [|done].
  pose proof (build_methods_all 0 (Methods cfg') w1) as Hb.
  destruct (build_all registry (Methods cfg') w1) as [[ms|e] w2], (build_methods registry 0 (Methods cfg') w1) as [[ms'|e'] w2']; try done.
  destruct Hb as [-> ->]. destruct (tracing_init cfg' w2') as [[[]|] w3]; [|done]. destruct (configHash ReadFile path w3) as [h w4].
  destruct (watcher_start path w4) as [[[]|] w5]; [|done]. intros [= <- <- _]. by eauto.
Qed.

(** The tracer and the watch on the file come up. *)
Definition side_services_up : Prop := (∀ cfg w, is_Ok (tracing_init cfg w).1 = true) ∧ ∀ path w, is_Ok (watcher_start path w).1 = true.

Lemma build_pipeline_no_boot path w e w' : side_services_up → go_boot path w = (Err e, w') → ∃ e' w1, go_build path w = (Err e', w1).
Proof.
  intros [Ht Hs]. unfold boot, buildPipeline, mbind, ST_bind, mret, ST_ret. destruct (Load ReadFile yaml_unmarshal path w) as [[cfg|e'] w1]; [|by eauto].
  pose proof (build_methods_all 0 (Methods cfg) w1) as Hb.
  destruct (build_all registry (Methods cfg) w1) as [[ms|e1] w2], (build_methods registry 0 (Methods cfg) w1) as [[ms'|e2] w2']; try done; [|by eauto].
  specialize (Ht cfg w2). destruct (tracing_init cfg w2) as [[[]|] w3]; [|done]. destruct (configHash ReadFile path w3) as [h w4].
  specialize (Hs path w4). by destruct (watcher_start path w4) as [[[]|] w5].
Qed.

(** A request without what SQL analysis adds to it, and rules that do not look at that. *)
Definition strip_sql (i : RouteInput) : RouteInput :=
  mkRouteInput (Source i) (ClientTags i) (User i) (Catalog i) (Schema i) (Method i) (URI i) (RemoteAddr i) (Body i) (IsNew i) (ParamMap i)
    "" "" [] [] [] [] false.
Definition sql_blind (p : Pipeline) : Prop := Forall (λ m, ∀ i, m_Evaluate m i = m_Evaluate m (strip_sql i)) (load p).

Lemma blind_evaluate p i : sql_blind p → Evaluate p i = Evaluate p (strip_sql i).
Proof using Type.
  unfold sql_blind, Evaluate. induction 1 as [|m ms Hm _ IH]; [done|]. cbn [evaluate_loop].
  unfold safeEvaluate. by rewrite <- Hm, IH.
Qed.

Lemma strip_input ToLower ToUpper a req : strip_sql (inputFromProto ToLower ToUpper a (Some req)).1 = strip_sql (FromProto (Some req)).
Proof using Type.
  unfold inputFromProto, fillSQLMeta. set (i := if HasParsedSQL _ && _ && _ then _ else _).
  assert (Hi : strip_sql i = strip_sql (FromProto (Some req))) by (unfold i; by destruct (_ && _)). rewrite <- Hi.
  destruct (negb _ || _ || _); [done|]. by destruct (run_analyzer _ _ _ _ _).
Qed.

(** Without a baseline nothing has changed. *)
Lemma report_plain p ss : report p None ss = mkRan (Exit ExitOK) (printTable (map (sample_row p None) ss) false) "".
Proof using Type.
  unfold report. assert (Hf : List.filter r_changed (map (sample_row p None) ss) = []) by (induction ss; done). by rewrite Hf.
Qed.

(** A request with the fields of a sample. *)
Definition asks (smp : sample) (req : RouteRequest) : Prop := strip_sql (FromProto (Some req)) = sample_ToRouteInput smp.

Lemma asks_new smp req : asks smp req → from_opt false (qp_IsNewQuerySubmission <$> pb_Props req) = sm_IsNew smp.
Proof using Type. intros Ha. apply (f_equal IsNew) in Ha. cbn in Ha. rewrite <- Ha. by destruct (pb_Props req). Qed.

(** What [Route] answers to a request with a sample's fields. *)
Lemma sample_answer ToLower ToUpper cfg lat sampled smp req s :
  service_ok cfg s → rs_config_ok cfg → sql_blind (sv_pipeline s) → asks smp req →
  pb_RoutingGroup (Route ToLower ToUpper (main_analyzer cfg) cfg (sp_Enabled (SQLParsing cfg)) lat sampled req s).1
  = if sm_IsNew smp then r_newGroup (sample_row (sv_pipeline s) None smp) else "".
Proof using Type.
  intros Hs Hc Hb Ha. rewrite route_answer, (asks_new _ _ Ha) by done. unfold PE_Evaluate.
  by rewrite (blind_evaluate _ _ Hb), strip_input, Ha.
Qed.

(** C34: When the service comes up with a configuration, the configuration passes validation,
    and, where no rule looks at what SQL analysis finds, the table printed for samples that
    are new submissions shows the groups the service answers requests with the samples'
    fields, while the service answers no group to the others; a configuration the service
    does not come up with, though its tracer and its file watch do, fails validation. *)
Theorem validate_predicts_service ToLower ToUpper path w : path ≠ "" →
  let run samples := (Run ReadFile yaml_unmarshal samples_unmarshal registry (mkOptions path samples false "") w).1 in
  match go_boot path w with
  | (Ok (cfg, s), _) =>
      let answer req := pb_RoutingGroup (Route ToLower ToUpper (main_analyzer cfg) cfg (sp_Enabled (SQLParsing cfg)) 0 true req s).1 in
      rn_end (run "") = Exit ExitOK
      ∧ ∀ samples ss reqs, samples ≠ "" → (∀ w, (loadSamples ReadFile samples_unmarshal samples w).1 = Ok ss) →
          sql_blind (sv_pipeline s) → Forall2 asks ss reqs →
          Forall2 (λ smp req, sm_IsNew smp = false → answer req = "") ss reqs
          ∧ (Forall (λ smp, sm_IsNew smp = true) ss →
             run samples = mkRan (Exit ExitOK)
               (printTable (zip_with (λ smp g, mkRow (sm_ID smp) (inputSummary (sm_Source smp) (sm_User smp)) g "" false) ss (map answer reqs)) false) "")
  | (Err _, _) => side_services_up → rn_end (run "") = Exit ExitInvalid
  end.
Proof.
  intros Hp. cbn zeta. apply seqb_neq in Hp. destruct (go_boot path w) as [[[cfg s]|e] w1] eqn:Hb.
  - destruct (build_pipeline_boot _ _ _ _ _ Hb) as [w2 Hbuild]. destruct (boot_ok _ _ _ _ _ _ _ _ _ _ Hb) as [Hok Hcfg].
    unfold Run. cbn [ConfigPath SamplesPath o_Diff]. rewrite Hp. unfold mbind, ST_bind. rewrite Hbuild. split; [done|].
    intros samples ss reqs Hne Hload Hsql Hasks. split.
    { eapply Forall2_impl; [exact Hasks|]. intros smp req Ha Hn. by rewrite (sample_answer _ _ _ _ _ smp), Hn. }
    intros Hnew. apply seqb_neq in Hne as ->. specialize (Hload w2).
    destruct (loadSamples ReadFile samples_unmarshal samples w2) as [r w3]. cbn in Hload. subst r.
    cbn [mret ST_ret fst]. rewrite report_plain. do 2 f_equal.
    induction Hasks as [|smp req ss reqs Ha _ IH]; [done|]. apply Forall_cons in Hnew as [Hn Hnew]. cbn [map zip_with]. rewrite IH by done.
    f_equal. unfold sample_row at 1. by rewrite (sample_answer _ _ _ _ _ smp), Hn.
  - intros Hup. destruct (build_pipeline_no_boot _ _ _ _ Hup Hb) as (e' & w2 & Hbuild).
    unfold Run. cbn [ConfigPath]. rewrite Hp. unfold mbind, ST_bind. by rewrite Hbuild.
Qed.

Lemma report_exit p baseline ss :
  rn_end (report p baseline ss) = if existsb r_changed (map (sample_row p baseline) ss) then Exit ExitDiff else Exit ExitOK.
Proof.
  unfold report. assert (Hc : (0 <? length (List.filter r_changed (map (sample_row p baseline) ss)))%nat
    = existsb r_changed (map (sample_row p baseline) ss)).
  { induction (map _ _) as [|x l IH]; [done|]. cbn. rewrite <- IH. by destruct (r_changed x). }
  rewrite Hc. by destruct (existsb _ _).
Qed.

(** Comparing with a baseline, once both configurations and the samples are loaded: the
    status is 2 exactly when some sample is routed to another group than before. *)
Theorem diff_gate opts w p w1 ss w2 b w3 :
  ConfigPath opts ≠ "" → SamplesPath opts ≠ "" → o_Diff opts = true → BaselinePath opts ≠ "" →
  buildPipeline ReadFile yaml_unmarshal registry (ConfigPath opts) w = (Ok p, w1) →
  loadSamples ReadFile samples_unmarshal (SamplesPath opts) w1 = (Ok ss, w2) →
  buildPipeline ReadFile yaml_unmarshal registry (BaselinePath opts) w2 = (Ok b, w3) →
  let r := (Run ReadFile yaml_unmarshal samples_unmarshal registry opts w).1 in
  (rn_end r = Exit ExitDiff ↔ ∃ s, s ∈ ss ∧ Evaluate b (sample_ToRouteInput s) ≠ Evaluate p (sample_ToRouteInput s))
  ∧ (rn_end r = Exit ExitDiff ∨ rn_end r = Exit ExitOK).
Proof.
  intros H1 H2 H3 H4 Hp Hs Hb. cbn zeta. unfold Run. apply seqb_neq in H1 as ->, H2 as ->, H4 as ->. unfold mbind, ST_bind.
  rewrite Hp, Hs, H3, Hb. unfold mret, ST_ret. cbn [fst]. rewrite report_exit. split; [|destruct (existsb _ _); auto].
  destruct (existsb _ _) eqn:E; (split; [|]); intros H; try done.
  - apply existsb_exists in E as (x & Hx & Hc). apply in_map_iff in Hx as (s & <- & Hin). exists s. split; [by apply list_elem_of_In|].
    cbn in Hc. by apply negb_true_iff, seqb_neq in Hc.
  - destruct H as (s & Hin & Hne). exfalso. enough (existsb r_changed (map (sample_row p (Some b)) ss) = true) by congruence.
    apply existsb_exists. exists (sample_row p (Some b) s). split; [by apply in_map, list_elem_of_In|]. cbn. by apply negb_true_iff, seqb_neq.
Qed.
End validator.

(** ** Examples *)
Definition sample_example : sample := mkSample "s1" "airflow" "alice" [] "" "" "POST" "/v1/statement" "" "SELECT 1" true ∅.

Lemma validate_predicts_service_witness :
  rn_end (Run w_fs w_yaml (λ _, Ok [sample_example]) w_registry (mkOptions "rs.yaml" "" false "") tt).1 = Exit ExitOK
  ∧ (Run w_fs w_yaml (λ _, Ok [sample_example]) w_registry (mkOptions "rs.yaml" "samples.yaml" false "") tt).1
    = mkRan (Exit ExitOK) (printTable [mkRow "s1" "source=airflow user=alice" "alice" "" false] false) "".
Proof.
  generalize (validate_predicts_service w_fs w_yaml (λ _, Ok [sample_example]) w_registry w_init w_init id id "rs.yaml" tt ltac:(discriminate)).
  assert (Hb : boot w_fs w_yaml w_registry w_init w_init "rs.yaml" tt = (Ok (w_cfg, w_service), tt)) by reflexivity. rewrite Hb. cbn zeta.
  intros [H1 H2]. split; [exact H1|].
  destruct (H2 "samples.yaml" [sample_example] [w_submission]) as [_ H3].
  - discriminate.
  - intros []. reflexivity.
  - repeat constructor.
  - constructor; [reflexivity|constructor].
  - apply H3. repeat constructor.
Defined.

(** A sample that is no new submission: the table shows the rule's group, the service
    answers none. *)
Example validator_shows_polls :
  let smp := mkSample "s2" "airflow" "alice" [] "" "" "GET" "/v1/statement" "" "" false ∅ in
  let req := mkRouteRequest (Some (mkTQP "" "" "" "" "" [] [] [] [] false false "")) (Some "alice") "" "" "GET"
               "/v1/statement" "" "" "" ∅ "airflow" [] in
  asks smp req ∧ r_newGroup (sample_row (sv_pipeline w_service) None smp) = "alice"
  ∧ pb_RoutingGroup (Route id id (main_analyzer w_cfg) w_cfg true 0 true req w_service).1 = "".
Proof. vm_compute. split_and!; reflexivity. Qed.

(** A rule on the category of a statement: the validator shows the default group, the
    service, which analyses the statement, another one. *)
Definition read_rule : method := Live (mkProvider "expr" (λ i, if in_QueryCategory i =?s CategoryRead
  then Evaluated (group_decision "reads") else Evaluated no_decision)).
Example validator_skips_analysis : let p := NewPipeline [read_rule] "adhoc" in
  r_newGroup (sample_row p None sample_example) = "adhoc"
  ∧ PE_Evaluate to_lower id (AHeuristic 1024) p (Some w_submission) = "reads".
Proof. vm_compute. split; reflexivity. Qed.

(** Any error that mentions a step is shown as an exhausted step budget. *)
Example step_in_message : tool_run (Failed "expr: Run: unknown field stepCount") 0 = inl (mkToolResult "" 0 StatusStepLimit).
Proof. vm_compute. reflexivity. Qed.
