(* ===== verification/GwMetrics.v ===== *)
(** * The gateway's metrics (internal/metrics)

    The collectors of the other components' events, the gauges of backend health, and
    the HTTP middleware. Of a histogram the number of observations is kept; Prometheus is
    modelled by its series and by the rule that a name is registered once; of a registration
    error only the program's own text is kept. *)
From S2P Require Import Prelude GoStrings HttpModel Routing Forward Auth ClusterStats Monitor.

#[local] Open Scope Z_scope.
#[local] Set Warnings "-register-all".

(** ** Registration (registry.go) *)
Definition Namespace : string := "trino_goway".
Definition fq (subsystem name : string) : string :=
  Namespace +:+ "_" +:+ (if subsystem =?s "" then "" else subsystem +:+ "_") +:+ name.

Definition Registry : Type := list string.
Definition New_registry : Registry := [].
Definition register_one (name : string) (reg : Registry) : option Registry :=
  if bool_decide (name ∈ reg) then None else Some (reg ++ [name]).
Fixpoint register (names : list string) (reg : Registry) : option Registry :=
  match names with [] => Some reg | n :: names => reg ← register_one n reg; register names reg end.
Definition register_families (msg : string) (names : list string) (reg : Registry) : go_result Registry :=
  match register names reg with Some reg => Ok reg | None => Err ("metrics: register " +:+ msg) end.

Definition NewHTTPMetrics : Registry → go_result Registry :=
  register_families "http metrics" [fq "http" "requests_total"; fq "http" "request_duration_seconds"; fq "http" "requests_in_flight"].
Definition NewProxyMetrics : Registry → go_result Registry :=
  register_families "proxy metrics" [fq "proxy" "requests_total"; fq "proxy" "upstream_duration_seconds";
    fq "proxy" "oversized_responses_total"; fq "proxy" "statement_cache_writes_total"].
Definition NewBackendMetrics : Registry → go_result Registry :=
  register_families "backend metrics" [fq "backend" "status"; fq "backend" "activation_status"; fq "" "backends"; fq "" "backends_active"].
Definition NewRouterMetrics : Registry → go_result Registry :=
  register_families "router metrics" [fq "router" "calls_total"; fq "router" "call_duration_seconds"; fq "routing" "cache_events_total";
    fq "recovery_chain" "steps_total"; fq "" "kill_query_routes_total"].
Definition NewAuthMetrics : Registry → go_result Registry :=
  register_families "auth metrics" [fq "auth" "requests_total"; fq "" "jwks_refresh_total"; fq "" "jwks_keys"].
Definition NewPersistenceMetrics : Registry → go_result Registry :=
  register_families "persistence metrics" [fq "" "db_up"; fq "" "query_history_inserts_total"; fq "" "backend_refresh_total"].
(** [RegisterRuntime], given the names of the runtime's collectors. *)
Definition RegisterRuntime (go_names process_names : list string) (reg : Registry) : go_result Registry :=
  match register go_names reg with
  | None => Err "metrics: register go collector"
  | Some reg => match register process_names reg with None => Err "metrics: register process collector" | Some reg => Ok reg end
  end.

(** ** Counters *)
Abbreviation counter := (gmap (list string) N).
Definition count (k : list string) (c : counter) : N := from_opt 0%N (c !! k).
Definition bump (k : list string) (c : counter) : counter := <[k := (count k c + 1)%N]> c.

(** *** router.go *)
Record RouterMetrics : Type := mkRouterMetrics {
  calls : counter; callDuration : counter; cacheEvents : counter; recoverySteps : counter; killQuery : counter }.
Definition router_observe (m : RouterMetrics) (e : metric_event) : RouterMetrics :=
  match e with
  | RouterCall t o => mkRouterMetrics (bump [t; o] (calls m)) (bump [t] (callDuration m)) (cacheEvents m) (recoverySteps m) (killQuery m)
  | CacheEvent ev => mkRouterMetrics (calls m) (callDuration m) (bump [ev] (cacheEvents m)) (recoverySteps m) (killQuery m)
  | RecoveryStep s => mkRouterMetrics (calls m) (callDuration m) (cacheEvents m) (bump [s] (recoverySteps m)) (killQuery m)
  | KillQueryRoute => mkRouterMetrics (calls m) (callDuration m) (cacheEvents m) (recoverySteps m) (bump [] (killQuery m))
  end.

(** *** proxy.go; the other events of the proxy are not its metrics. *)
Record ProxyMetrics : Type := mkProxyMetrics { px_requests : counter; upstreamDur : counter; oversized : counter; cacheWrites : counter }.
Definition proxy_observe (m : ProxyMetrics) (e : event) : ProxyMetrics :=
  match e with
  | EvRequestHandled b g o => mkProxyMetrics (bump [b; g; o] (px_requests m)) (upstreamDur m) (oversized m) (cacheWrites m)
  | EvUpstreamDuration b => mkProxyMetrics (px_requests m) (bump [b] (upstreamDur m)) (oversized m) (cacheWrites m)
  | EvOversizedResponse => mkProxyMetrics (px_requests m) (upstreamDur m) (bump [] (oversized m)) (cacheWrites m)
  | EvStatementCacheWrite => mkProxyMetrics (px_requests m) (upstreamDur m) (oversized m) (bump [] (cacheWrites m))
  | _ => m
  end.

(** *** auth.go *)
Record AuthMetrics : Type := mkAuthMetrics { au_requests : counter; jwksRefresh : counter; jwksKeys : Z }.
Definition auth_observe (m : AuthMetrics) (e : auth_event) : AuthMetrics :=
  match e with
  | AuthRequest t r => mkAuthMetrics (bump [t; r] (au_requests m)) (jwksRefresh m) (jwksKeys m)
  | JWKSRefresh r => mkAuthMetrics (au_requests m) (bump [r] (jwksRefresh m)) (jwksKeys m)
  | JWKSKeys n => mkAuthMetrics (au_requests m) (jwksRefresh m) (Z.of_nat n)
  end.

(** *** persistence.go *)
Record PersistenceMetrics : Type := mkPersistenceMetrics { dbUp : Z; historyInserts : counter; backendRefresh : counter }.
Definition HistoryInsert (result : string) (m : PersistenceMetrics) : PersistenceMetrics :=
  mkPersistenceMetrics (dbUp m) (bump [result] (historyInserts m)) (backendRefresh m).
Definition SetDBUp (up : bool) (m : PersistenceMetrics) : PersistenceMetrics :=
  mkPersistenceMetrics (if up then 1 else 0) (historyInserts m) (backendRefresh m).
Definition BackendRefresh (result : string) (m : PersistenceMetrics) : PersistenceMetrics :=
  mkPersistenceMetrics (dbUp m) (historyInserts m) (bump [result] (backendRefresh m)).

(** ** Backend health (backend.go) *)
Definition backendStatusLabels : list string := ["healthy"; "unhealthy"; "pending"].
Record BackendMetrics : Type := mkBackendMetrics {
  bm_status : gmap (string * string) Z; activation : gmap string Z; bm_total : gmap string Z; bm_active : Z; seen : gset string }.
Definition fresh_backend_metrics : BackendMetrics := mkBackendMetrics ∅ ∅ ∅ 0 ∅.

Definition statusLabel (s : Status) : string :=
  match s with Healthy => "healthy" | Unhealthy => "unhealthy" | _ => "pending" end.

Definition prune_one (statuses : gmap string Status) (url : string) (m : BackendMetrics) : BackendMetrics :=
  match statuses !! url with
  | Some _ => m
  | None => mkBackendMetrics (foldl (λ s label, delete (url, label) s) (bm_status m) backendStatusLabels) (delete url (activation m))
              (bm_total m) (bm_active m) (seen m ∖ {[url]})
  end.
Definition observe_one (url : string) (st : Status) (acc : BackendMetrics * gmap string Z) : BackendMetrics * gmap string Z :=
  let '(m, counts) := acc in
  let current := statusLabel st in
  (mkBackendMetrics (foldl (λ s label, <[(url, label) := if label =?s current then 1 else 0]> s) (bm_status m) backendStatusLabels)
     (<[url := 1]> (activation m)) (bm_total m) (bm_active m) (seen m ∪ {[url]}),
   <[current := from_opt 0 (counts !! current) + 1]> counts).
Definition ObserveStatuses (statuses : gmap string Status) (m : BackendMetrics) : BackendMetrics :=
  let m := set_fold (prune_one statuses) m (seen m) in
  let '(m, counts) := map_fold observe_one (m, {["healthy" := 0; "unhealthy" := 0; "pending" := 0]}) statuses in
  mkBackendMetrics (bm_status m) (activation m) (map_fold (λ label n t, <[label := n]> t) (bm_total m) counts)
    (Z.of_nat (size statuses)) (seen m).

(** ** HTTP requests (httpmw.go) *)
Record HTTPMetrics : Type := mkHTTPMetrics { h_requests : counter; h_duration : counter; inFlight : gmap string Z }.
Record statusWriter : Type := mkSW { sw_status : Z; wroteHeader : bool }.
Inductive write_op : Type := OpWriteHeader (code : Z) | OpWrite.
Definition sw_step (w : statusWriter) (o : write_op) : statusWriter :=
  match o with
  | OpWriteHeader code => if wroteHeader w then w else mkSW code true
  | OpWrite => mkSW (sw_status w) true
  end.
Definition captured (ops : list write_op) : Z := sw_status (foldl sw_step (mkSW 200 false) ops).

Definition routePattern (p : option string) : string := match p with Some p => if p =?s "" then "unmatched" else p | None => "unmatched" end.

(** A request's way through [Middleware]: entered, then left after the handler returned or
    panicked. *)
Inductive mw_event : Type :=
| Enter (listener : string)
| Leave (listener method : string) (pattern : option string) (ops : list write_op)
| Panic (listener : string).
Definition add_flight (listener : string) (d : Z) (g : gmap string Z) : gmap string Z := <[listener := from_opt 0 (g !! listener) + d]> g.
Definition mw_observe (m : HTTPMetrics) (e : mw_event) : HTTPMetrics :=
  match e with
  | Enter l => mkHTTPMetrics (h_requests m) (h_duration m) (add_flight l 1 (inFlight m))
  | Leave l method p ops =>
      mkHTTPMetrics (bump [l; method; routePattern p; z_to_dec (captured ops)] (h_requests m)) (bump [l; method; routePattern p] (h_duration m))
        (add_flight l (-1) (inFlight m))
  | Panic l => mkHTTPMetrics (h_requests m) (h_duration m) (add_flight l (-1) (inFlight m))
  end.

(** ** Counters count *)
Lemma count_bump k k' c : count k (bump k' c) = (count k c + if decide (k = k') then 1 else 0)%N.
Proof.
  unfold bump, count. destruct (decide (k = k')) as [->|Hne]; [by rewrite lookup_insert_eq|].
  rewrite lookup_insert_ne by done. lia.
Qed.

Definition occurrences {E} (key : E → option (list string)) (k : list string) (es : list E) : N :=
  N.of_nat (length (List.filter (λ e, bool_decide (key e = Some k)) es)).

(** A collector that bumps one series per event of its kind counts those events. *)
Lemma fold_counts {E M} (obs : M → E → M) (view : M → counter) (key : E → option (list string)) k es m :
  (∀ m e, view (obs m e) = match key e with Some k => bump k (view m) | None => view m end) →
  count k (view (foldl obs m es)) = (count k (view m) + occurrences key k es)%N.
Proof.
  intros Hobs. revert m. unfold occurrences. induction es as [|e es IH]; intros m; [cbn; lia|]. cbn [foldl List.filter]. rewrite IH, Hobs.
  destruct (key e) as [k'|]; [|by rewrite bool_decide_false by done].
  rewrite count_bump. destruct (decide (k = k')) as [->|Hne]; [rewrite bool_decide_true by done; cbn [length]; lia|].
  rewrite bool_decide_false by congruence. lia.
Qed.

Definition router_call_key (e : metric_event) : option (list string) := match e with RouterCall t o => Some [t; o] | _ => None end.
Definition cache_key (e : metric_event) : option (list string) := match e with CacheEvent ev => Some [ev] | _ => None end.
Definition handled_key (e : event) : option (list string) := match e with EvRequestHandled b g o => Some [b; g; o] | _ => None end.
Definition auth_key (e : auth_event) : option (list string) := match e with AuthRequest t r => Some [t; r] | _ => None end.

(** The exported counters are the numbers of events the components reported. *)
Theorem counters_exact (res : list metric_event) (pes : list event) (aes : list auth_event) rm pm am k :
  count k (calls (foldl router_observe rm res)) = (count k (calls rm) + occurrences router_call_key k res)%N
  ∧ count k (cacheEvents (foldl router_observe rm res)) = (count k (cacheEvents rm) + occurrences cache_key k res)%N
  ∧ count k (px_requests (foldl proxy_observe pm pes)) = (count k (px_requests pm) + occurrences handled_key k pes)%N
  ∧ count k (au_requests (foldl auth_observe am aes)) = (count k (au_requests am) + occurrences auth_key k aes)%N.
Proof. split_and!; apply fold_counts; by intros ? []. Qed.

(** ** Registration never fails on a fresh registry *)
Lemma register_NoDup names reg : NoDup (reg ++ names) → register names reg = Some (reg ++ names).
Proof.
  revert reg. induction names as [|n names IH]; intros reg Hn; cbn [register]; [by rewrite app_nil_r|].
  assert (Hni : n ∉ reg). { apply NoDup_app in Hn as (_ & Hd & _). intros Hin. apply (Hd n Hin). by left. }
  unfold register_one. rewrite bool_decide_false by done. cbn [mbind option_bind].
  rewrite IH by (by rewrite <- app_assoc). by rewrite <- app_assoc.
Qed.

Definition register_gateway (go_names process_names : list string) : go_result Registry :=
  reg ← RegisterRuntime go_names process_names New_registry; reg ← NewHTTPMetrics reg; reg ← NewProxyMetrics reg;
  reg ← NewBackendMetrics reg; reg ← NewRouterMetrics reg; reg ← NewAuthMetrics reg; reg ← NewPersistenceMetrics reg; Ok reg.

Fixpoint register_groups (gs : list (string * list string)) (reg : Registry) : go_result Registry :=
  match gs with [] => Ok reg | (msg, names) :: gs => reg ← register_families msg names reg; register_groups gs reg end.

Lemma register_groups_ok gs reg : NoDup (reg ++ concat (snd <$> gs)) → register_groups gs reg = Ok (reg ++ concat (snd <$> gs)).
Proof.
  revert reg. induction gs as [|[msg names] gs IH]; intros reg Hn; cbn [register_groups fmap list_fmap concat snd]; [by rewrite app_nil_r|].
  cbn [fmap list_fmap concat snd] in Hn. rewrite app_assoc in Hn. unfold register_families.
  rewrite register_NoDup by (by apply NoDup_app in Hn as (? & _)). cbn [mbind]. rewrite app_assoc. by apply IH.
Qed.

(** ** Requests in flight *)
Definition entered (l : string) (e : mw_event) : bool := match e with Enter l' => l' =?s l | _ => false end.
Definition left_ (l : string) (e : mw_event) : bool := match e with Leave l' _ _ _ | Panic l' => l' =?s l | Enter _ => false end.
Definition tally_of (f : mw_event → bool) (es : list mw_event) : Z := Z.of_nat (length (List.filter f es)).

Lemma flight_add l l' d g : from_opt 0 (add_flight l' d g !! l) = from_opt 0 (g !! l) + if l' =?s l then d else 0.
Proof.
  unfold add_flight. destruct (l' =?s l) eqn:E; seqb_simpl; [subst; by rewrite lookup_insert_eq|]. rewrite lookup_insert_ne by congruence. lia.
Qed.

(** However requests interleave, a listener's gauge is the number of requests entered and
    not left, panics included; a request that returns is counted once, one that panics not
    at all. *)
Theorem in_flight_exact l es m :
  from_opt 0 (inFlight (foldl mw_observe m es) !! l) = from_opt 0 (inFlight m !! l) + tally_of (entered l) es - tally_of (left_ l) es.
Proof.
  revert m. unfold tally_of. induction es as [|e es IH]; intros m; [cbn; lia|]. cbn [foldl]. rewrite IH.
  destruct e as [l'|l' me p ops|l']; cbn [mw_observe inFlight List.filter entered left_]; rewrite flight_add; destruct (l' =?s l); cbn [length]; lia.
Qed.

(** ** The captured status *)

(** What net/http sends: the first code that is not informational, 200 if the body or the
    end comes first. *)
Fixpoint sent_status (ops : list write_op) : Z :=
  match ops with
  | [] => 200
  | OpWrite :: _ => 200
  | OpWriteHeader code :: ops => if (100 <=? code) && (code <=? 199) && negb (code =? 101) then sent_status ops else code
  end.

Lemma sw_done w ops : wroteHeader w = true → sw_status (foldl sw_step w ops) = sw_status w.
Proof.
  revert w. induction ops as [|o ops IH]; intros [s b] Hw; [done|]. cbn in Hw. subst b. cbn [foldl]. by destruct o; cbn; rewrite IH.
Qed.

(** The status counted is the one sent, unless the first header written is informational:
    then the informational code is counted. *)
Theorem captured_exact ops :
  match ops with
  | OpWriteHeader code :: _ => captured ops = code
  | _ => captured ops = sent_status ops
  end.
Proof. unfold captured. destruct ops as [|[code|] ops]; [done|..]; cbn [foldl sw_step wroteHeader sw_status]; by rewrite sw_done. Qed.

(** The families of the gateway have distinct names, all under its prefix, so the
    registrations of [run] succeed whatever the runtime's collectors are called. *)
Theorem registration_succeeds go_names process_names :
  NoDup (go_names ++ process_names) → Forall (λ n, has_prefix (Namespace +:+ "_") n = false) (go_names ++ process_names) →
  ∃ reg, register_gateway go_names process_names = Ok reg.
Proof.
  intros Hn Hp. unfold register_gateway, RegisterRuntime, New_registry.
  rewrite (register_NoDup go_names []) by (by apply NoDup_app in Hn as (? & _)). cbn [app].
  rewrite (register_NoDup process_names go_names) by done. cbn [mbind].
  set (base := go_names ++ process_names) in *. eexists. etransitivity; [|apply (register_groups_ok
    [("http metrics", [fq "http" "requests_total"; fq "http" "request_duration_seconds"; fq "http" "requests_in_flight"]);
     ("proxy metrics", [fq "proxy" "requests_total"; fq "proxy" "upstream_duration_seconds"; fq "proxy" "oversized_responses_total";
        fq "proxy" "statement_cache_writes_total"]);
     ("backend metrics", [fq "backend" "status"; fq "backend" "activation_status"; fq "" "backends"; fq "" "backends_active"]);
     ("router metrics", [fq "router" "calls_total"; fq "router" "call_duration_seconds"; fq "routing" "cache_events_total";
        fq "recovery_chain" "steps_total"; fq "" "kill_query_routes_total"]);
     ("auth metrics", [fq "auth" "requests_total"; fq "" "jwks_refresh_total"; fq "" "jwks_keys"]);
     ("persistence metrics", [fq "" "db_up"; fq "" "query_history_inserts_total"; fq "" "backend_refresh_total"])] base)]; [reflexivity|].
  apply NoDup_app. split_and!; [done| |apply (bool_decide_unpack _); vm_compute; exact I].
  set (ours := concat _). assert (Hours : Forall (λ n, has_prefix (Namespace +:+ "_") n = true) ours) by (repeat constructor).
  intros x Hx Hx'. rewrite Forall_forall in Hp, Hours. specialize (Hp x Hx). specialize (Hours x Hx'). congruence.
Qed.

(** ** The health gauges *)
Definition series_ok (m : BackendMetrics) : Prop :=
  (∀ u l, is_Some (bm_status m !! (u, l)) → u ∈ seen m ∧ l ∈ backendStatusLabels) ∧ (∀ u, is_Some (activation m !! u) → u ∈ seen m).
Definition gauge (st : Status) (l : string) : Z := if l =?s statusLabel st then 1 else 0.

Lemma delete_labels (u : string) (labels : list string) (s : gmap (string * string) Z) (u' l : string) :
  foldl (λ s label, delete (u, label) s) s labels !! (u', l) = if decide (u' = u ∧ l ∈ labels) then None else s !! (u', l).
Proof.
  revert s. induction labels as [|x labels IH]; intros s; cbn [foldl]; [by rewrite decide_False by set_solver|]. rewrite IH.
  destruct (decide (u' = u ∧ l ∈ labels)) as [[-> Hl]|Hn]; [by rewrite decide_True by set_solver|].
  destruct (decide (u' = u ∧ l ∈ x :: labels)) as [[-> Hl]|Hn'].
  - assert (l = x) as -> by set_solver. apply lookup_delete_eq.
  - apply lookup_delete_ne. intros [= -> ->]. set_solver.
Qed.

Lemma set_labels (u : string) (f : string → Z) (labels : list string) (s : gmap (string * string) Z) (u' l : string) :
  foldl (λ s label, <[(u, label) := f label]> s) s labels !! (u', l) = if decide (u' = u ∧ l ∈ labels) then Some (f l) else s !! (u', l).
Proof.
  revert s. induction labels as [|x labels IH]; intros s; cbn [foldl]; [by rewrite decide_False by set_solver|]. rewrite IH.
  destruct (decide (u' = u ∧ l ∈ labels)) as [[-> Hl]|Hn]; [by rewrite decide_True by set_solver|].
  destruct (decide (u' = u ∧ l ∈ x :: labels)) as [[-> Hl]|Hn'].
  - assert (l = x) as -> by set_solver. apply lookup_insert_eq.
  - apply lookup_insert_ne. intros [= -> ->]. set_solver.
Qed.

(** After pruning no series of a backend outside the snapshot is left. *)
Lemma prune_spec statuses m : series_ok m → let m' := set_fold (prune_one statuses) m (seen m) in
  (∀ u l, is_Some (bm_status m' !! (u, l)) → is_Some (statuses !! u) ∧ l ∈ backendStatusLabels)
  ∧ (∀ u, is_Some (activation m' !! u) → is_Some (statuses !! u)) ∧ (∀ u, u ∈ seen m' → is_Some (statuses !! u)).
Proof.
  intros [Hs Ha]. cbn zeta.
  enough (H : ∀ done : gset string, let m' := set_fold (prune_one statuses) m done in
    (∀ u l, is_Some (bm_status m' !! (u, l)) → (u ∈ done → is_Some (statuses !! u)) ∧ is_Some (bm_status m !! (u, l)))
    ∧ (∀ u, is_Some (activation m' !! u) → (u ∈ done → is_Some (statuses !! u)) ∧ is_Some (activation m !! u))
    ∧ (∀ u, u ∈ seen m' → (u ∈ done → is_Some (statuses !! u)) ∧ u ∈ seen m)).
  { destruct (H (seen m)) as (H1 & H2 & H3). split_and!.
    - intros u l Hu. destruct (H1 u l Hu) as [Hd Ho]. destruct (Hs u l Ho). auto.
    - intros u Hu. destruct (H2 u Hu) as [Hd Ho]. auto.
    - intros u Hu. destruct (H3 u Hu). auto. }
  apply (set_fold_ind_L (λ m' done, (∀ u l, is_Some (bm_status m' !! (u, l)) → (u ∈ done → is_Some (statuses !! u)) ∧ is_Some (bm_status m !! (u, l)))
    ∧ (∀ u, is_Some (activation m' !! u) → (u ∈ done → is_Some (statuses !! u)) ∧ is_Some (activation m !! u))
    ∧ (∀ u, u ∈ seen m' → (u ∈ done → is_Some (statuses !! u)) ∧ u ∈ seen m))); [split_and!; set_solver|].
  intros x X r Hx (H1 & H2 & H3). unfold prune_one. destruct (statuses !! x) as [st|] eqn:Est.
  { split_and!; [intros u l Hu; destruct (H1 u l Hu)|intros u Hu; destruct (H2 u Hu)|intros u Hu; destruct (H3 u Hu)];
      (split; [|done]); intros [->%elem_of_singleton|?]%elem_of_union; eauto. }
  cbn [bm_status activation seen]. split_and!.
  - intros u l Hu. rewrite delete_labels in Hu. destruct (decide _) as [|Hn]; [by destruct Hu|]. destruct (H1 u l Hu) as [Hd Ho].
    split; [|done]. intros [->%elem_of_singleton|?]%elem_of_union; [|auto]. destruct (Hs x l Ho). exfalso. auto.
  - intros u Hu. destruct (decide (u = x)) as [->|Hne]; [rewrite lookup_delete_eq in Hu; by destruct Hu|].
    rewrite lookup_delete_ne in Hu by done. destruct (H2 u Hu). split; [|done]. intros [?%elem_of_singleton|?]%elem_of_union; [done|auto].
  - intros u [Hu Hne]%elem_of_difference. destruct (H3 u Hu). split; [|done]. intros [?|?]%elem_of_union; [set_solver|auto].
Qed.

Definition with_label (l : string) (statuses : gmap string Status) : gmap string Status := filter (λ kv, statusLabel kv.2 = l) statuses.
Definition counts_of (done : gmap string Status) (counts : gmap string Z) : Prop :=
  ∀ l, counts !! l = if decide (l ∈ backendStatusLabels) then Some (Z.of_nat (size (with_label l done))) else None.

Lemma status_label_known st : statusLabel st ∈ backendStatusLabels.
Proof. apply (bool_decide_unpack _). by destruct st. Qed.

Lemma with_label_insert l u st done : done !! u = None →
  size (with_label l (<[u := st]> done)) = ((if decide (statusLabel st = l) then 1 else 0) + size (with_label l done))%nat.
Proof.
  intros Hu. unfold with_label. rewrite map_filter_insert. cbn [snd]. destruct (decide (statusLabel st = l)) as [|Hn].
  - rewrite map_size_insert_None; [done|]. apply map_lookup_filter_None. by left.
  - rewrite delete_id by done. done.
Qed.

(** What the loop over the snapshot has done after the backends of [done]. *)
Definition observed_upto (m0 : BackendMetrics) (acc : BackendMetrics * gmap string Z) (done : gmap string Status) : Prop :=
  (∀ u l, bm_status acc.1 !! (u, l) = match done !! u with
                                      | Some st => if decide (l ∈ backendStatusLabels) then Some (gauge st l) else bm_status m0 !! (u, l)
                                      | None => bm_status m0 !! (u, l)
                                      end)
  ∧ (∀ u, activation acc.1 !! u = match done !! u with Some _ => Some 1 | None => activation m0 !! u end)
  ∧ (∀ u, u ∈ seen acc.1 ↔ u ∈ seen m0 ∨ is_Some (done !! u)) ∧ counts_of done acc.2.

Lemma observe_spec m0 statuses :
  observed_upto m0 (map_fold observe_one (m0, {["healthy" := 0; "unhealthy" := 0; "pending" := 0]}) statuses) statuses.
Proof.
  apply (map_fold_weak_ind (observed_upto m0)); unfold observed_upto.
  - cbn [fst snd]. split_and!; [intros u l; by rewrite lookup_empty|intros u; by rewrite lookup_empty| |].
    + intros u. rewrite lookup_empty. split; [by left|]. intros [|[? [=]]]; done.
    + intros l. unfold with_label. rewrite map_filter_empty, map_size_empty. unfold backendStatusLabels.
      destruct (decide (l ∈ _)) as [Hl|Hl].
      * rewrite !elem_of_cons, elem_of_nil in Hl. destruct Hl as [->|[->|[->|[]]]]; done.
      * by rewrite !lookup_insert_ne, lookup_singleton_ne by set_solver.
  - intros url st done [m counts] Hnew (H1 & H2 & H3 & H4). cbn [observe_one fst snd] in *. split_and!; cbn [bm_status activation seen].
    + intros u l. rewrite (set_labels url (λ l, if l =?s statusLabel st then 1 else 0)). destruct (decide (u = url)) as [->|Hne].
      * rewrite lookup_insert_eq. destruct (decide (l ∈ backendStatusLabels)) as [Hl|Hl]; [by rewrite decide_True by done|].
        rewrite decide_False by tauto. by rewrite H1, Hnew.
      * rewrite decide_False by tauto. by rewrite lookup_insert_ne, H1 by done.
    + intros u. destruct (decide (u = url)) as [->|Hne]; [by rewrite !lookup_insert_eq|]. by rewrite !lookup_insert_ne, H2 by done.
    + intros u. rewrite elem_of_union, elem_of_singleton, H3. destruct (decide (u = url)) as [->|Hne].
      * rewrite lookup_insert_eq. naive_solver.
      * rewrite lookup_insert_ne by done. naive_solver.
    + intros l. rewrite with_label_insert by done. destruct (decide (l = statusLabel st)) as [->|Hne].
      * rewrite lookup_insert_eq, H4, decide_True by apply status_label_known. cbn [from_opt]. rewrite decide_True by apply status_label_known.
        rewrite decide_True by done. f_equal. lia.
      * rewrite lookup_insert_ne, H4 by done. destruct (decide (l ∈ _)); [|done]. rewrite decide_False by done. done.
Qed.

Lemma label_sizes statuses : size statuses = list_sum (map (λ l, size (with_label l statuses)) backendStatusLabels).
Proof.
  induction statuses as [|u st sts Hu IH] using map_ind; [done|]. rewrite map_size_insert_None, IH by done. cbn [map backendStatusLabels].
  rewrite !with_label_insert by done. unfold list_sum. cbn [fold_right].
  destruct st; cbn [statusLabel]; repeat (destruct (decide _) as [E|E]; [try discriminate E; clear E|try (by destruct E); clear E]); lia.
Qed.

(** Whatever was observed before, the gauges show the latest snapshot and nothing else: 1
    on the label of a backend's status and 0 on its other labels, no series of a backend
    that left, activation 1, and totals by label that add up to the active backends. *)
Theorem gauges_follow_snapshot statuses m : series_ok m → let m' := ObserveStatuses statuses m in
  series_ok m'
  ∧ (∀ u l, bm_status m' !! (u, l) = st ← statuses !! u; if decide (l ∈ backendStatusLabels) then Some (gauge st l) else None)
  ∧ (∀ u, activation m' !! u = (λ _, 1) <$> statuses !! u)
  ∧ (∀ l, l ∈ backendStatusLabels → bm_total m' !! l = Some (Z.of_nat (size (with_label l statuses))))
  ∧ bm_active m' = Z.of_nat (list_sum (map (λ l, size (with_label l statuses)) backendStatusLabels)).
Proof.
  intros Hok. cbn zeta. unfold ObserveStatuses. destruct (prune_spec statuses m Hok) as (P1 & P2 & P3).
  set (m0 := set_fold _ _ _) in *. pose proof (observe_spec m0 statuses) as Hobs.
  destruct (map_fold observe_one _ statuses) as [m1 counts]. destruct Hobs as (H1 & H2 & H3 & H4). cbn [fst snd] in *.
  assert (Hst : ∀ u l, bm_status m1 !! (u, l) = st ← statuses !! u; if decide (l ∈ backendStatusLabels) then Some (gauge st l) else None).
  { intros u l. rewrite H1. assert (Hno : ¬ (is_Some (statuses !! u) ∧ l ∈ backendStatusLabels) → bm_status m0 !! (u, l) = None).
    { intros Hn. apply eq_None_not_Some. intros Hs. by apply Hn, P1. }
    destruct (statuses !! u) as [st|] eqn:Eu; cbn [mbind option_bind].
    - destruct (decide _); [done|]. apply Hno. tauto.
    - apply Hno. intros [[? [=]] _]. }
  assert (Hac : ∀ u, activation m1 !! u = (λ _, 1) <$> statuses !! u).
  { intros u. rewrite H2. destruct (statuses !! u) eqn:Eu; [done|]. apply eq_None_not_Some. intros Hs%P2. rewrite Eu in Hs. by destruct Hs. }
  cbn [bm_status activation seen bm_total bm_active]. split_and!; [split| | | |].
  - intros u l Hs. cbn in Hs. rewrite Hst in Hs. destruct (statuses !! u) as [st|] eqn:Eu; [|by destruct Hs]. cbn in Hs |- *.
    destruct (decide _); [|by destruct Hs]. split; [|done]. apply H3. right. by rewrite Eu.
  - intros u Hs. cbn in Hs |- *. rewrite Hac in Hs. apply H3. right. destruct (statuses !! u); [done|by destruct Hs].
  - exact Hst.
  - exact Hac.
  - intros l Hl. assert (Ht : ∀ t : gmap string Z, map_fold (λ label n t, <[label := n]> t) t counts !! l = match counts !! l with Some n => Some n | None => t !! l end).
    { intros t. apply (map_fold_weak_ind (λ (r sts : gmap string Z), r !! l = match sts !! l with Some n => Some n | None => t !! l end)); [by rewrite lookup_empty|].
      intros i x sts r _ Hr. destruct (decide (i = l)) as [->|Hne]; [by rewrite !lookup_insert_eq|]. by rewrite !lookup_insert_ne, Hr by done. }
    by rewrite Ht, H4, decide_True by done.
  - by rewrite <- label_sizes.
Qed.

Definition snapshot_example : gmap string Status := {["http://a" := Healthy; "http://b" := Unknown]}.
Lemma fresh_series_ok : series_ok fresh_backend_metrics.
Proof. split; intros ? *; intros [? Hs]; cbn in Hs; rewrite lookup_empty in Hs; done. Qed.

(** A backend that left the set has no series. *)
Lemma gauges_follow_snapshot_witness :
  let m := ObserveStatuses {["http://a" := Healthy]} (ObserveStatuses snapshot_example fresh_backend_metrics) in
  series_ok (ObserveStatuses snapshot_example fresh_backend_metrics)
  ∧ bm_status m !! ("http://b", "pending") = None ∧ bm_status m !! ("http://a", "healthy") = Some 1 ∧ bm_active m = 1.
Proof.
  cbn zeta. pose proof (proj1 (gauges_follow_snapshot snapshot_example fresh_backend_metrics fresh_series_ok)) as H.
  split; [exact H|]. split_and!; vm_compute; reflexivity.
Defined.

Lemma registration_succeeds_witness : ∃ reg, register_gateway ["go_goroutines"; "go_threads"] ["process_cpu_seconds_total"] = Ok reg.
Proof. apply registration_succeeds; [apply (bool_decide_unpack _); vm_compute; exact I|repeat constructor]. Defined.

(** ** The monitor's backends on the gauges *)

(** [main] registers the gauges as the monitor's observer: they have seen what it was told. *)
Definition gauges_of (m : Monitor) : BackendMetrics :=
  foldl (λ g o, match o with ObsStatuses statuses _ => ObserveStatuses statuses g | _ => g end) fresh_backend_metrics (observed m).

(** What the gauges should show of a backend of a set, given a status map: its verdict,
    pending before the first. *)
Definition shown (bs : list Backend) (sts : gmap string Status) (url : string) : option Status :=
  if decide (url ∈ bk_URL <$> bs) then Some (from_opt Pending (sts !! url)) else None.
Definition shows (bs : list Backend) (sts : gmap string Status) (g : BackendMetrics) : Prop :=
  series_ok g
  ∧ (∀ u l, bm_status g !! (u, l) = st ← shown bs sts u; if decide (l ∈ backendStatusLabels) then Some (gauge st l) else None)
  ∧ (∀ u, activation g !! u = (λ _, 1) <$> shown bs sts u)
  ∧ bm_active g = Z.of_nat (size (list_to_set (bk_URL <$> bs) : gset string)).

(** The snapshot a notification builds from the names it read and the statuses it loaded. *)
Definition snapshot (names : gmap string string) (sts : gmap string Status) : gmap string Status :=
  map_imap (λ url _, Some (from_opt Pending (sts !! url))) names.

Lemma observe_shows bs sts g : series_ok g → shows bs sts (ObserveStatuses (snapshot (backend_names bs) sts) g).
Proof.
  intros Hok. set (snap := snapshot _ _). assert (Hsts : ∀ u, snap !! u = shown bs sts u).
  { intros u. unfold snap, snapshot, shown. rewrite map_lookup_imap. pose proof (backend_names_lookup bs u) as Hn.
    case_decide as Hin; [apply Hn in Hin as [v ->]; done|]. destruct (backend_names _ !! u) eqn:E; [|done]. exfalso. apply Hin, Hn. by eexists. }
  destruct (gauges_follow_snapshot snap g Hok) as (H1 & H2 & H3 & _ & H5).
  split_and!; [exact H1|intros u l; by rewrite H2, Hsts|intros u; by rewrite H3, Hsts|].
  rewrite H5, <- label_sizes, <- size_dom. do 2 f_equal. apply set_eq. intros u. rewrite elem_of_dom, Hsts, elem_of_list_to_set. unfold shown.
  case_decide; [split; [done|by eexists]|]. split; [by intros [? [=]]|done].
Qed.

Lemma fresh_shows : shows [] ∅ fresh_backend_metrics.
Proof. split_and!; [apply fresh_series_ok|done..]. Qed.

Section tracking.
Context (has_stats has_first_tick : bool) (new_request_ok : string → bool).
Context {N : Type} (collect : (string → Status) → Backend → ST N ClusterStats) (order : list Backend → list Backend).

(** What changes the monitor: the refresh and the admin API set backends and statuses, the
    ticker probes with the answers of the moment. *)
Inductive monitor_op : Type :=
| MSetBackends (bs : list Backend)
| MSetBackendStatus (url : string) (s : Status)
| MProbe (Do : out_request → call_result response).
Definition monitor_step (m : Monitor) (o : monitor_op) : ST N Monitor :=
  match o with
  | MSetBackends bs => mret (SetBackends true bs m)
  | MSetBackendStatus url s => mret (SetBackendStatus true url s m)
  | MProbe Do => probe true has_stats has_first_tick new_request_ok Do collect order m
  end.
Fixpoint monitor_run (m : Monitor) (os : list monitor_op) : ST N Monitor :=
  match os with [] => mret m | o :: os => m ← monitor_step m o; monitor_run m os end.

Definition tracks (m : Monitor) : Prop := shows (backends m) (status m) (gauges_of m).

Lemma notify_tracks m : series_ok (gauges_of m) → tracks (notifyObserver true m).
Proof using Type.
  intros Hok. unfold tracks, notifyObserver, gauges_of, observe. cbn [observed backends status]. rewrite foldl_app. cbn [foldl].
  by apply observe_shows.
Qed.

Lemma tracks_frame m m' : backends m' = backends m → status m' = status m → gauges_of m' = gauges_of m → tracks m → tracks m'.
Proof using Type. unfold tracks. intros -> -> ->. done. Qed.

Lemma first_tick_tracks m : tracks m → tracks (first_tick has_first_tick m).
Proof using Type.
  unfold first_tick. destruct (firstTickDone m); [done|]. apply tracks_frame; try done. unfold gauges_of. cbn [observed]. rewrite foldl_app. by destruct has_first_tick.
Qed.

Lemma collect_tracks bs m n : tracks m → tracks (fst (collectStats has_stats collect order bs m n)).
Proof using Type.
  unfold collectStats. destruct has_stats; [|done]. unfold mbind, ST_bind. destruct (collect_all _ _ _ _ n) as [snap n2]. cbn [fst mret ST_ret].
  apply tracks_frame; try done. unfold gauges_of, observe. cbn [observed]. by rewrite foldl_app.
Qed.

Lemma step_tracks m o n : tracks m → tracks (fst (monitor_step m o n)).
Proof using Type.
  intros Ht. pose proof (proj1 Ht) as Hok. destruct o as [bs|url s|Do]; cbn [monitor_step]; [by apply notify_tracks..|].
  unfold probe. destruct (backends m) as [|b bs]; [by apply first_tick_tracks|]. unfold mbind, ST_bind.
  destruct (collectStats _ _ _ _ _ n) as [m3 n3] eqn:E. apply first_tick_tracks. change m3 with (fst (m3, n3)). rewrite <- E.
  by apply collect_tracks, notify_tracks.
Qed.

(** When the operations of the monitor do not overlap, the exported gauges show its backends
    after every sequence of backend changes, status changes and probe cycles: one series set
    per backend of the current set with 1 on the label of its verdict (pending before the
    first) and 0 on the others, nothing of a backend that left, and the number of distinct
    backends. GaugeRace.v is about operations that overlap. *)
Theorem gauges_track_monitor os n : tracks (fst (monitor_run New os n)).
Proof using Type.
  assert (H0 : tracks New) by apply fresh_shows.
  revert H0. generalize New. revert n. induction os as [|o os IH]; intros n m Hm; [done|]. cbn [monitor_run]. unfold mbind, ST_bind.
  pose proof (step_tracks m o n Hm) as Hs. destruct (monitor_step m o n) as [m1 n1]. by apply IH.
Qed.
End tracking.
