(* ===== verification/GaugeRace.v ===== *)
(** * The backend gauges under concurrency (internal/monitor/monitor.go [notifyObserver],
      [SetBackends], [SetBackendStatus], [probe]; internal/metrics/backend.go)

    The refresh, the admin API and the ticker change the monitor from goroutines of their
    own. The backend list is guarded by a lock, the status map is an atomic pointer and the
    gauges are guarded by the observer's mutex, but nothing spans a change and its
    notification: a notification reads the names, then loads the statuses, then hands its
    snapshot over. Each of these accesses is a step here, and steps of different calls
    interleave in any way. [g_hist] lists the contents the monitor has had, newest last,
    and [g_last] says which of them the snapshot on the gauges was read from; neither is
    read by the code. What a cycle does after its notification does not touch the gauges. *)
From S2P Require Import Prelude GoStrings HttpModel Routing ClusterStats Monitor GwMetrics.

#[local] Open Scope nat_scope.

Section race.
Context (new_request_ok : string → bool) (order : list Backend → list Backend).

(** Where a call is. *)
Inductive gpc : Type :=
| GSetBackends (bs : list Backend)
| GSetStatus (url : string) (s : Status)
| GLoaded (url : string) (s : Status) (old : gmap string Status)
| GProbe (Do : out_request → call_result response)
| GProbing (Do : out_request → call_result response) (bs : list Backend)
| GNotify
| GNamed (names : gmap string string) (i : nat)
| GSnapshot (statuses : gmap string Status) (i j : nat)
| GDone.
Definition begins (t : gpc) : Prop :=
  match t with GSetBackends _ | GSetStatus _ _ | GProbe _ => True | _ => False end.

Record gstate : Type := mkG {
  g_backends : list Backend; g_status : gmap string Status; g_gauges : BackendMetrics; g_calls : list gpc;
  g_hist : list (list Backend * gmap string Status); g_last : nat * nat }.
Definition ginit : gstate := mkG [] ∅ fresh_backend_metrics [] [([], ∅)] (0, 0).

(** A call goes on to [t]; a store of new contents; an observation. *)
Definition go_on (k : nat) (t : gpc) (st : gstate) : gstate :=
  mkG (g_backends st) (g_status st) (g_gauges st) (<[k := t]> (g_calls st)) (g_hist st) (g_last st).
Definition put (bs : list Backend) (sts : gmap string Status) (st : gstate) : gstate :=
  mkG bs sts (g_gauges st) (g_calls st) (g_hist st ++ [(bs, sts)]) (g_last st).
Definition show (statuses : gmap string Status) (i j : nat) (st : gstate) : gstate :=
  mkG (g_backends st) (g_status st) (ObserveStatuses statuses (g_gauges st)) (g_calls st) (g_hist st) (i, j).
Definition now (st : gstate) : nat := pred (length (g_hist st)).

Inductive gstep : gstate → gstate → Prop :=
| g_call st t : begins t →
    gstep st (mkG (g_backends st) (g_status st) (g_gauges st) (g_calls st ++ [t]) (g_hist st) (g_last st))
| g_set_backends st k bs : g_calls st !! k = Some (GSetBackends bs) →
    gstep st (go_on k GNotify (put bs (g_status st) st))
| g_load st k url s : g_calls st !! k = Some (GSetStatus url s) →
    gstep st (go_on k (GLoaded url s (g_status st)) st)
| g_store st k url s old : g_calls st !! k = Some (GLoaded url s old) →
    gstep st (go_on k GNotify (put (g_backends st) (<[url := s]> old) st))
| g_probe st k Do : g_calls st !! k = Some (GProbe Do) →
    gstep st (go_on k (if g_backends st is [] then GDone else GProbing Do (g_backends st)) st)
| g_swap st k Do bs : g_calls st !! k = Some (GProbing Do bs) →
    gstep st (go_on k GNotify (put (g_backends st) (probe_results new_request_ok Do order bs) st))
| g_names st k : g_calls st !! k = Some GNotify →
    gstep st (go_on k (GNamed (backend_names (g_backends st)) (now st)) st)
| g_statuses st k names i : g_calls st !! k = Some (GNamed names i) →
    gstep st (go_on k (GSnapshot (snapshot names (g_status st)) i (now st)) st)
| g_observe st k statuses i j : g_calls st !! k = Some (GSnapshot statuses i j) →
    gstep st (go_on k GDone (show statuses i j st)).

(** ** The invariant *)

(** A snapshot of the backends of moment [i] with the statuses of a moment [j] not before. *)
Definition taken (hist : list (list Backend * gmap string Status)) (i j : nat) (x y : list Backend * gmap string Status) : Prop :=
  hist !! i = Some x ∧ hist !! j = Some y ∧ i ≤ j.
Definition call_ok (hist : list (list Backend * gmap string Status)) (t : gpc) : Prop :=
  match t with
  | GNamed names i => ∃ x, hist !! i = Some x ∧ names = backend_names x.1
  | GSnapshot statuses i j => ∃ x y, taken hist i j x y ∧ statuses = snapshot (backend_names x.1) y.2
  | _ => True
  end.
Record gok (st : gstate) : Prop := {
  gk_now : g_hist st !! now st = Some (g_backends st, g_status st);
  gk_calls : Forall (call_ok (g_hist st)) (g_calls st);
  gk_shown : ∃ x y, taken (g_hist st) (g_last st).1 (g_last st).2 x y ∧ shows x.1 y.2 (g_gauges st) }.

Lemma taken_app hist more i j x y : taken hist i j x y → taken (hist ++ more) i j x y.
Proof using Type. intros (H1 & H2 & H3). split_and!; [by apply lookup_app_l_Some..|done]. Qed.

Lemma call_ok_app hist more t : call_ok hist t → call_ok (hist ++ more) t.
Proof using Type.
  destruct t; cbn; try done.
  - intros (x & Hx & ->). exists x. split; [by apply lookup_app_l_Some|done].
  - intros (x & y & Ht & ->). exists x, y. split; [by apply taken_app|done].
Qed.

Lemma go_on_ok k t st : call_ok (g_hist st) t → gok st → gok (go_on k t st).
Proof using Type. intros Ht [H1 H2 H3]. split; [done| |done]. cbn. by apply Forall_insert. Qed.

Lemma put_ok bs sts st : gok st → gok (put bs sts st).
Proof using Type.
  intros [H1 H2 (x & y & Ht & Hs)]. split; unfold now; cbn [put g_hist g_backends g_status g_calls g_gauges g_last].
  - rewrite length_app, Nat.add_1_r. cbn [pred]. by apply list_lookup_middle.
  - eapply Forall_impl; [done|]. intros t. apply call_ok_app.
  - exists x, y. split; [by apply taken_app|done].
Qed.

Lemma gk_calls_at st k t : gok st → g_calls st !! k = Some t → call_ok (g_hist st) t.
Proof using Type. intros [_ H _] Hk. by eapply Forall_lookup_1. Qed.

Lemma gstep_ok st st' : gstep st st' → gok st → gok st'.
Proof using Type.
  intros Hs Hok. destruct Hs as [st t Ht|st k bs Hk|st k url s Hk|st k url s old Hk|st k Do Hk|st k Do bs Hk|st k Hk|st k names i Hk|st k sts i j Hk].
  - destruct Hok as [H1 H2 H3]. split; [done| |done]. cbn. apply Forall_app. split; [done|]. apply Forall_singleton. by destruct t.
  - apply go_on_ok; [done|]. by apply put_ok.
  - by apply go_on_ok.
  - apply go_on_ok; [done|]. by apply put_ok.
  - apply go_on_ok; [by destruct (g_backends st)|done].
  - apply go_on_ok; [done|]. by apply put_ok.
  - apply go_on_ok; [|done]. cbn. eexists. split; [apply (gk_now _ Hok)|done].
  - apply go_on_ok; [|done]. destruct (gk_calls_at _ _ _ Hok Hk) as (x & Hx & ->). cbn. exists x, (g_backends st, g_status st). split; [|done].
    split_and!; [done|apply (gk_now _ Hok)|]. apply lookup_lt_Some in Hx. unfold now. lia.
  - apply go_on_ok; [done|]. destruct (gk_calls_at _ _ _ Hok Hk) as (x & y & Ht & ->). destruct Hok as [H1 H2 (x' & y' & _ & Hsh)].
    split; [done|done|]. exists x, y. split; [done|]. by apply observe_shows, Hsh.
Qed.

Lemma ginit_ok : gok ginit.
Proof using Type. split; [done|constructor|]. exists ([], ∅), ([], ∅). split; [done|]. apply fresh_shows. Qed.

Lemma reachable_ok st : rtc gstep ginit st → gok st.
Proof using Type.
  pose proof ginit_ok as H0. revert H0. generalize ginit. intros s0 H0 Hr. induction Hr as [|s1 s2 s3 H12 _ IH]; [done|].
  by eapply IH, gstep_ok.
Qed.

(** A notification that nothing interrupts. *)
Lemma notification_alone st k : g_calls st !! k = Some GNotify →
  nsteps gstep 3 st (go_on k GDone (show (snapshot (backend_names (g_backends st)) (g_status st)) (now st) (now st)
    (go_on k (GSnapshot (snapshot (backend_names (g_backends st)) (g_status st)) (now st) (now st))
      (go_on k (GNamed (backend_names (g_backends st)) (now st)) st)))).
Proof using Type.
  intros Hk. assert (Hi : ∀ t (l : list gpc), is_Some (l !! k) → <[k := t]> l !! k = Some t).
  { intros t l Hl. by apply list_lookup_insert_eq, lookup_lt_is_Some. }
  eapply nsteps_l; [by apply g_names|]. eapply nsteps_l; [apply g_statuses, Hi; by eauto|].
  eapply nsteps_l; [|apply nsteps_O]. apply (g_observe (go_on k _ (go_on k _ st))). cbn. rewrite list_insert_insert_eq. apply Hi. by eauto.
Qed.

End race.

(** ** Examples *)
Definition b_old : Backend := mkBackend "old" "http://old" "" "adhoc".
Abbreviation e_step := (gstep (λ _, true) id).

(** The notification of a first call reads the names and statuses, a second call removes the
    backend and that is shown, and then the first call's snapshot is observed. *)
Definition e_stale : gstate :=
  let old := {["http://old" := Pending]} in
  mkG [] ∅ (ObserveStatuses old (ObserveStatuses ∅ fresh_backend_metrics)) [GDone; GDone]
    [([], ∅); ([b_old], ∅); ([], ∅)] (1, 1).

Lemma e_stale_reached : rtc e_step ginit e_stale.
Proof.
  eapply rtc_l; [by apply (g_call _ _ _ (GSetBackends [b_old]))|].
  eapply rtc_l; [by apply (g_set_backends _ _ _ 0)|].
  eapply rtc_l; [by apply (g_names _ _ _ 0)|].
  eapply rtc_l; [by eapply (g_statuses _ _ _ 0)|].
  eapply rtc_l; [by apply (g_call _ _ _ (GSetBackends []))|].
  eapply rtc_l; [by eapply (g_set_backends _ _ _ 1)|].
  eapply rtc_l; [by apply (g_names _ _ _ 1)|].
  eapply rtc_l; [by eapply (g_statuses _ _ _ 1)|].
  eapply rtc_l; [by eapply (g_observe _ _ _ 1)|].
  eapply rtc_l; [by eapply (g_observe _ _ _ 0)|].
  apply rtc_refl.
Qed.

(** Every call has returned, the monitor has no backends, and the gauges still export one. *)
Example stale_snapshot_stays :
  rtc e_step ginit e_stale ∧ g_calls e_stale = [GDone; GDone] ∧ g_backends e_stale = []
  ∧ bm_status (g_gauges e_stale) !! ("http://old", "pending") = Some 1%Z ∧ bm_active (g_gauges e_stale) = 1%Z.
Proof. split; [apply e_stale_reached|]. vm_compute. split_and!; reflexivity. Qed.

