(* ===== verification/RsLifecycle.v ===== *)
(** * Serving and stopping of the routing service (routing-service/internal/server: server.go
      and admin.go, the server of internal/metrics, and the second half of main)

    The main goroutine, which serves the data plane, the goroutines of the admin and the
    metrics server, each server's [Serve] and stop goroutines, and the watcher's loop, as a
    step relation. Steps of the program, the firing of its own timers and steps of the
    surroundings are told apart. Of grpc.Server the documentation is used: [GracefulStop]
    refuses new calls and waits for the pending ones, [Stop] cancels them, and [Serve]
    returns nil after either; http.Server's [Shutdown] refuses and waits likewise, and
    leaves what is in flight when its context is done. *)
From S2P Require Import Prelude GoStrings RsServer.

(** ** One server *)

(** The goroutine in [Start]: not begun, before [net.Listen], in the select, in the bounded
    stop, returned. *)
Inductive start_pc : Type := NotStarted | Binding | Selecting | Draining | StartDone (r : option string).
(** The [Serve] goroutine. *)
Inductive serving_pc : Type := NotServing | ServingNow | ServeDone.
(** The goroutine that runs [GracefulStop] or [Shutdown]. *)
Inductive stopper_pc : Type := NoStopper | Spawned | Waiting | Stopped.

Record server : Type := mkServer {
  st : start_pc; sv : serving_pc;
  serveErr : option (option string);   (* what the channel delivers: an error, or nil once closed *)
  stopper : stopper_pc; closed : bool; (* no longer accepting *)
  fired : bool;                        (* the timer of the stop *)
  active : nat; accepted : nat; finished : nat; cut : nat }.

Definition down : server := mkServer NotStarted NotServing None NoStopper false false 0 0 0 0.
Definition set_st x g := mkServer x (sv g) (serveErr g) (stopper g) (closed g) (fired g) (active g) (accepted g) (finished g) (cut g).
Definition set_sv x ch g := mkServer (st g) x ch (stopper g) (closed g) (fired g) (active g) (accepted g) (finished g) (cut g).
Definition set_stopper x c g := mkServer (st g) (sv g) (serveErr g) x c (fired g) (active g) (accepted g) (finished g) (cut g).
Definition set_fired g := mkServer (st g) (sv g) (serveErr g) (stopper g) (closed g) true (active g) (accepted g) (finished g) (cut g).
Definition set_calls a acc fin c g := mkServer (st g) (sv g) (serveErr g) (stopper g) (closed g) (fired g) a acc fin c.

(** What the three servers do differently: the texts of their errors, and whether the
    timer cuts the calls in flight. *)
Record kind : Type := mkKind { k_listen : string → string; k_serve : option string → option string; k_cut : bool }.

Definition go_wrap (prefix : string) (e : option string) : option string := Some (prefix +:+ from_opt "%!w(<nil>)" e).
Definition result_of (r : go_result unit) : option string := match r with Ok _ => None | Err e => Some e end.
Definition data_kind (addr : string) : kind :=
  mkKind (λ e, "server: listen " +:+ addr +:+ ": " +:+ e) (λ e, result_of (StartOnListener (ServeReturned e))) true.
Definition admin_kind (addr : string) : kind :=
  mkKind (λ e, "admin: listen " +:+ addr +:+ ": " +:+ e) (go_wrap "admin: serve: ") true.
Definition metrics_kind : kind := mkKind id id false.

(** [Stop] of grpc.Server; for the metrics server only the wait ends. *)
Definition hard_stop (k : kind) (g : server) : server :=
  if k_cut k then set_calls 0 (accepted g) (finished g) (cut g + active g) (set_stopper (stopper g) true g) else g.

(** *** Steps of [Start], [StartOnListener] and the bounded stop; [c] is the context. *)
Inductive server_step (k : kind) (c : bool) : server → server → Prop :=
| s_bind g : st g = Binding → server_step k c g (set_st Selecting (set_sv ServingNow (serveErr g) g))
| s_bind_fail g e : st g = Binding → server_step k c g (set_st (StartDone (Some (k_listen k e))) g)
| s_ctx g : st g = Selecting → c = true → server_step k c g (set_st Draining (set_stopper Spawned (closed g) g))
| s_err g r : st g = Selecting → serveErr g = Some r → server_step k c g (set_st (StartDone (k_serve k r)) g)
| s_stop_begin g : stopper g = Spawned → server_step k c g (set_stopper Waiting true g)
| s_stop_end g : stopper g = Waiting → active g = 0 → server_step k c g (set_stopper Stopped (closed g) g)
| s_drained g : st g = Draining → stopper g = Stopped → server_step k c g (set_st (StartDone None) g)
| s_timeout g : st g = Draining → fired g = true → server_step k c g (set_st (StartDone None) (hard_stop k g))
| s_serve_end g : sv g = ServingNow → closed g = true → server_step k c g (set_sv ServeDone (Some None) g).

Definition data_Start (addr : string) : bool → server → server → Prop := server_step (data_kind addr).
Definition admin_Start (addr : string) : bool → server → server → Prop := server_step (admin_kind addr).
Definition metrics_Start : bool → server → server → Prop := server_step metrics_kind.

(** The timer of [gracefulStopWithTimeout], and of the metrics server's context. *)
Inductive timer_step : server → server → Prop :=
| t_fire g : st g = Draining → fired g = false → timer_step g (set_fired g).

(** The network: a failing listener, a call, the end of a call. *)
Inductive network_step : server → server → Prop :=
| n_fail g e : sv g = ServingNow → closed g = false → network_step g (set_sv ServeDone (Some (Some e)) g)
| n_call g : sv g = ServingNow → closed g = false →
    network_step g (set_calls (S (active g)) (S (accepted g)) (finished g) (cut g) g)
| n_return g n : active g = S n → network_step g (set_calls n (accepted g) (S (finished g)) (cut g) g).

(** ** The process *)
Inductive loop_at : Type := LoopNone | LoopIdle | LoopReload | LoopOver.
Inductive service_pc : Type :=
| AtWatcher                  (* watcher.Start *)
| AtServe                    (* srv.Start *)
| AtAdminErr | AtMetricsErr  (* receiving the other servers' results *)
| AtAdminStop | AtWatcherStop | AtTracing  (* the deferred calls *)
| AtExit (code : nat).

Record proc : Type := mkProc {
  at_ : service_pc; data : server; admin : server; metrics : server;
  signalled : bool; loop : loop_at; armed : bool; loop_closed : bool; stop_fired : bool }.

(** [main] after [boot]: the metrics server's goroutine is the first one started. *)
Definition serve_init : proc := mkProc AtWatcher down down (set_st Binding down) false LoopNone false false false.

Definition set_at x p := mkProc x (data p) (admin p) (metrics p) (signalled p) (loop p) (armed p) (loop_closed p) (stop_fired p).
Definition set_data x p := mkProc (at_ p) x (admin p) (metrics p) (signalled p) (loop p) (armed p) (loop_closed p) (stop_fired p).
Definition set_admin x p := mkProc (at_ p) (data p) x (metrics p) (signalled p) (loop p) (armed p) (loop_closed p) (stop_fired p).
Definition set_metrics x p := mkProc (at_ p) (data p) (admin p) x (signalled p) (loop p) (armed p) (loop_closed p) (stop_fired p).
Definition set_loop x a c p := mkProc (at_ p) (data p) (admin p) (metrics p) (signalled p) x a c (stop_fired p).
Definition set_signal x p := mkProc (at_ p) (data p) (admin p) (metrics p) x (loop p) (armed p) (loop_closed p) (stop_fired p).
Definition set_stop_fired p := mkProc (at_ p) (data p) (admin p) (metrics p) (signalled p) (loop p) (armed p) (loop_closed p) true.

(** A result [main] receives: an error ends the process at once, without the deferred
    calls. *)
Definition on_result (r : option string) (next : service_pc) : service_pc := match r with None => next | Some _ => AtExit 1 end.

Section steps.
Context (addr adminAddr : string).

Inductive main_step : proc → proc → Prop :=
(* watcher.Start, then the goroutine of the admin server, then srv.Start *)
| m_watch p : at_ p = AtWatcher →
    main_step p (set_at AtServe (set_data (set_st Binding down) (set_admin (set_st Binding down) (set_loop LoopIdle false false p))))
| m_watch_fail p : at_ p = AtWatcher → main_step p (set_at (AtExit 1) p)
| m_data p g : data_Start addr (signalled p) (data p) g → main_step p (set_data g p)
| m_admin p g : admin_Start adminAddr (signalled p) (admin p) g → main_step p (set_admin g p)
| m_metrics p g : metrics_Start (signalled p) (metrics p) g → main_step p (set_metrics g p)
| m_served p r : at_ p = AtServe → st (data p) = StartDone r → main_step p (set_at (on_result r AtAdminErr) p)
| m_admin_err p r : at_ p = AtAdminErr → st (admin p) = StartDone r → main_step p (set_at (on_result r AtMetricsErr) p)
| m_metrics_err p r : at_ p = AtMetricsErr → st (metrics p) = StartDone r → main_step p (set_at (on_result r AtAdminStop) p)
(* admin.Stop: GracefulStop again, or its timer *)
| m_admin_stop p : at_ p = AtAdminStop → active (admin p) = 0 ∨ stop_fired p = true → main_step p (set_at AtWatcherStop (set_loop (loop p) (armed p) true p))
| m_watcher_stop p : at_ p = AtWatcherStop → loop p = LoopOver → main_step p (set_at AtTracing p)
(* the provider's shutdown is bounded by its context *)
| m_tracing p : at_ p = AtTracing → main_step p (set_at (AtExit 0) p)
(* the watcher's loop *)
| m_reload p : loop p = LoopIdle → armed p = true → main_step p (set_loop LoopReload false (loop_closed p) p)
| m_reloaded p : loop p = LoopReload → main_step p (set_loop LoopIdle (armed p) (loop_closed p) p)
| m_loop_over p : loop p = LoopIdle → signalled p = true ∨ loop_closed p = true → main_step p (set_loop LoopOver (armed p) (loop_closed p) p).

Inductive clock_step : proc → proc → Prop :=
| c_data p g : timer_step (data p) g → clock_step p (set_data g p)
| c_admin p g : timer_step (admin p) g → clock_step p (set_admin g p)
| c_metrics p g : timer_step (metrics p) g → clock_step p (set_metrics g p)
| c_stop p : at_ p = AtAdminStop → stop_fired p = false → clock_step p (set_stop_fired p).

Inductive world_step : proc → proc → Prop :=
| w_data p g : network_step (data p) g → world_step p (set_data g p)
| w_admin p g : network_step (admin p) g → world_step p (set_admin g p)
| w_metrics p g : network_step (metrics p) g → world_step p (set_metrics g p)
| w_config_event p : loop p ≠ LoopNone → world_step p (set_loop (loop p) true (loop_closed p) p)
| w_signal p : world_step p (set_signal true p).

(** What the process does by itself; with the exit everything ends. *)
Definition alive (p : proc) : bool := match at_ p with AtExit _ => false | _ => true end.
Definition own_step (p p' : proc) : Prop := alive p = true ∧ (main_step p p' ∨ clock_step p p').
Definition any_step (p p' : proc) : Prop := own_step p p' ∨ alive p = true ∧ world_step p p'.
Definition reached (p : proc) : Prop := rtc any_step serve_init p.

(** ** The process comes to an end *)
Definition st_weight (x : start_pc) : nat :=
  match x with NotStarted => 7 | Binding => 6 | Selecting => 4 | Draining => 1 | StartDone _ => 0 end.
Definition sv_weight (x : serving_pc) : nat := match x with NotServing => 2 | ServingNow => 1 | ServeDone => 0 end.
Definition stopper_weight (x : stopper_pc) : nat := match x with NoStopper => 3 | Spawned => 2 | Waiting => 1 | Stopped => 0 end.
Definition server_weight (g : server) : nat :=
  st_weight (st g) + sv_weight (sv g) + stopper_weight (stopper g) + (if fired g then 0 else 1).
Definition at_weight (x : service_pc) : nat :=
  match x with AtWatcher => 40 | AtServe => 6 | AtAdminErr => 5 | AtMetricsErr => 4 | AtAdminStop => 3 | AtWatcherStop => 2 | AtTracing => 1
  | AtExit _ => 0 end.
Definition loop_weight_at (x : loop_at) : nat := match x with LoopNone => 3 | LoopIdle => 1 | LoopReload => 2 | LoopOver => 0 end.
Definition proc_weight (p : proc) : nat :=
  at_weight (at_ p) + server_weight (data p) + server_weight (admin p) + server_weight (metrics p)
  + loop_weight_at (loop p) + (if armed p then 2 else 0) + (if stop_fired p then 0 else 1).

Lemma server_step_weight k c g g' : server_step k c g g' → server_weight g' < server_weight g.
Proof using Type.
  destruct 1 as [g|g|g|g|g|g|g|g|g]; destruct g; cbn in *; subst; unfold server_weight, hard_stop; try destruct (k_cut k); cbn; lia.
Qed.
Lemma timer_step_weight g g' : timer_step g g' → server_weight g' < server_weight g.
Proof using Type. destruct 1 as [g]. destruct g; cbn in *; subst. unfold server_weight. cbn. lia. Qed.

Lemma own_step_weight p p' : own_step p p' → proc_weight p' < proc_weight p.
Proof using Type.
  intros [_ [H|H]]; destruct H as [p Ha|p Ha|p g H|p g H|p g H|p r Ha Hr|p r Ha Hr|p r Ha Hr|p Ha|p Ha|p Ha|p Ha Hb|p Ha|p Ha] || destruct H as [p g H|p g H|p g H|p Ha Hb].
  all: try (apply server_step_weight in H); try (apply timer_step_weight in H); unfold proc_weight; destruct p; cbn in *; subst; try lia.
  all: try (destruct r; cbn; lia).
  all: try destruct armed0; try destruct loop0; cbn; lia.
Qed.

Lemma own_steps_bound n p p' : nsteps own_step n p p' → n + proc_weight p' ≤ proc_weight p.
Proof using Type. induction 1 as [|n p1 p2 p3 Hs _ IH]; [lia|]. apply own_step_weight in Hs. lia. Qed.

(** ** What holds throughout *)
Record server_ok (k : kind) (c : bool) (g : server) : Prop := {
  so_calls : accepted g = finished g + cut g + active g;
  so_cut : 0 < cut g → fired g = true;
  so_waiting : stopper g = Waiting → closed g = true;
  so_stopped : stopper g = Stopped → active g = 0 ∧ closed g = true;
  so_signal : st g = Draining → c = true;
  so_done : k_cut k = true → st g = StartDone None → active g = 0 ∧ closed g = true ∧ c = true }.

Lemma server_ok_down k c : server_ok k c down ∧ server_ok k c (set_st Binding down).
Proof using Type. split; split; cbn; try done; lia. Qed.

Lemma server_ok_signal k c g : server_ok k c g → server_ok k true g.
Proof using Type. intros [H1 H2 H3 H4 H5 H6]. split; try done. intros Hk Hd. by destruct (H6 Hk Hd) as (? & ? & _). Qed.

(** Use what the hypotheses give at once. *)
Ltac chain := intros; repeat match goal with H : ?P → _, H' : ?P |- _ => specialize (H H') | H : ?x = ?x → _ |- _ => specialize (H eq_refl) end;
  intuition (congruence || lia).

Lemma server_step_ok k c g g' : (k_cut k = true → ∀ r, k_serve k r ≠ None) → server_step k c g g' → server_ok k c g → server_ok k c g'.
Proof using Type.
  intros Hk. destruct 1 as [g|g|g|g r Hs He|g|g|g|g|g]; intros [H1 H2 H3 H4 H5 H6]; destruct g; cbn in *; subst; unfold hard_stop;
    split; try destruct (k_cut k) eqn:E; cbn in *; try done; try lia; chain.
Qed.

Lemma timer_step_ok k c g g' : timer_step g g' → server_ok k c g → server_ok k c g'.
Proof using Type. destruct 1 as [g]. intros [H1 H2 H3 H4 H5 H6]. split; cbn; auto. Qed.

Lemma network_step_ok k c g g' : network_step g g' → server_ok k c g → server_ok k c g'.
Proof using Type.
  destruct 1 as [g|g|g n]; intros [H1 H2 H3 H4 H5 H6]; destruct g; cbn in *; subst; split; cbn; try done; try lia; chain.
Qed.

(** How far [main] has got on the way to a clean exit. *)
Definition to_go (x : service_pc) : nat :=
  match x with AtWatcher => 7 | AtServe => 6 | AtAdminErr => 5 | AtMetricsErr => 4 | AtAdminStop => 3 | AtWatcherStop => 2 | AtTracing => 1
  | AtExit 0 => 0 | AtExit _ => 8 end.
Definition running (x : start_pc) : bool := match x with Binding | Selecting | Draining => true | _ => false end.

Record proc_ok (p : proc) : Prop := {
  po_data : server_ok (data_kind addr) (signalled p) (data p);
  po_admin : server_ok (admin_kind adminAddr) (signalled p) (admin p);
  po_metrics : server_ok metrics_kind (signalled p) (metrics p) ∧ st (metrics p) ≠ NotStarted;
  po_started : at_ p = AtWatcher ∨ at_ p = AtExit 1 ∨ st (data p) ≠ NotStarted ∧ st (admin p) ≠ NotStarted ∧ loop p ≠ LoopNone;
  po_serving : running (st (data p)) = true → at_ p = AtServe;
  po_served : to_go (at_ p) ≤ 5 → st (data p) = StartDone None;
  po_admin_ok : to_go (at_ p) ≤ 4 → st (admin p) = StartDone None;
  po_metrics_ok : to_go (at_ p) ≤ 3 → st (metrics p) = StartDone None;
  po_loop : to_go (at_ p) ≤ 1 → loop p = LoopOver }.

Lemma serve_init_ok : proc_ok serve_init.
Proof using Type.
  split; cbn; try lia; try done; try apply server_ok_down; [split; [apply server_ok_down|done]|by left].
Qed.

(** [Start] never goes back to before its beginning, and its result stays. *)
Lemma server_step_st k c g g' : server_step k c g g' →
  (st g ≠ NotStarted → st g' ≠ NotStarted) ∧ (∀ r, st g = StartDone r → st g' = StartDone r) ∧ (running (st g') = true → running (st g) = true).
Proof using Type. destruct 1 as [g|g|g|g|g|g|g|g|g]; destruct g; cbn in *; subst; unfold hard_stop; try destruct (k_cut k); cbn; naive_solver. Qed.
Lemma timer_step_st g g' : timer_step g g' → st g' = st g.
Proof using Type. by destruct 1. Qed.
Lemma network_step_st g g' : network_step g g' → st g' = st g.
Proof using Type. by destruct 1. Qed.

(** A step of one server that keeps its part of the invariant keeps the whole. *)
Lemma set_data_ok p g : proc_ok p → server_ok (data_kind addr) (signalled p) g → (st (data p) ≠ NotStarted → st g ≠ NotStarted) →
  (∀ r, st (data p) = StartDone r → st g = StartDone r) → (running (st g) = true → running (st (data p)) = true) → proc_ok (set_data g p).
Proof using Type. intros [] Hg H1 H2 H3. destruct p; cbn in *. split; cbn; try done; naive_solver. Qed.
Lemma set_admin_ok p g : proc_ok p → server_ok (admin_kind adminAddr) (signalled p) g → (st (admin p) ≠ NotStarted → st g ≠ NotStarted) →
  (∀ r, st (admin p) = StartDone r → st g = StartDone r) → proc_ok (set_admin g p).
Proof using Type. intros [] Hg H1 H2. destruct p; cbn in *. split; cbn; try done; naive_solver. Qed.
Lemma set_metrics_ok p g : proc_ok p → server_ok metrics_kind (signalled p) g → (st (metrics p) ≠ NotStarted → st g ≠ NotStarted) →
  (∀ r, st (metrics p) = StartDone r → st g = StartDone r) → proc_ok (set_metrics g p).
Proof using Type. intros [] Hg H1 H2. destruct p; cbn in *. split; cbn; try done; naive_solver. Qed.

(** [main] moves on from a state in which the data plane's [Start] has returned. *)
Lemma set_at_ok p x r : proc_ok p → to_go (at_ p) ≤ 6 → st (data p) = StartDone r → (to_go x ≤ 5 → r = None) →
  (to_go x ≤ 4 → st (admin p) = StartDone None) → (to_go x ≤ 3 → st (metrics p) = StartDone None) → (to_go x ≤ 1 → loop p = LoopOver) →
  proc_ok (set_at x p).
Proof using Type.
  intros Hp Hle Hd H5 H4 H3 H1. destruct Hp. destruct p as [a d]. cbn in *. split; cbn; try done.
  - right; right. destruct po_started0 as [->|[->|?]]; [cbn in Hle; lia..|done].
  - by rewrite Hd.
  - intros Hx. by rewrite Hd, H5.
Qed.

Lemma set_loop_ok p x a c : proc_ok p → (loop p ≠ LoopNone → x ≠ LoopNone) → (loop p = LoopOver → x = LoopOver) → proc_ok (set_loop x a c p).
Proof using Type.
  intros [] H1 H2. destruct p. cbn in *. split; cbn; try done; [|by eauto]. destruct po_started0 as [?|[?|(?&?&?)]]; [by left|by right; left|by right; right; auto].
Qed.

Lemma on_result_le r x n : to_go (on_result r x) ≤ n → n ≤ 7 → r = None.
Proof using Type. destruct r; cbn; [lia|done]. Qed.

Lemma main_step_ok p p' : main_step p p' → proc_ok p → proc_ok p'.
Proof using Type.
  intros H Hp. destruct H as [p Ha|p Ha|p g H|p g H|p g H|p r Ha Hr|p r Ha Hr|p r Ha Hr|p Ha|p Ha Hl|p Ha|p Ha Hb|p Ha|p Ha].
  3: { destruct (server_step_st _ _ _ _ H) as (? & ? & ?). apply set_data_ok; try done. eapply server_step_ok; [by intros Hk []|exact H|apply Hp]. }
  3: { destruct (server_step_st _ _ _ _ H) as (? & ? & ?). apply set_admin_ok; try done. eapply server_step_ok; [by intros Hk []|exact H|apply Hp]. }
  3: { destruct (server_step_st _ _ _ _ H) as (? & ? & ?). apply set_metrics_ok; try done. eapply server_step_ok; [by intros Hk []|exact H|apply Hp]. }
  all: try (assert (Hd : st (data p) = StartDone None) by (apply (po_served _ Hp); rewrite Ha; cbn; lia)).
  - destruct Hp. destruct p; cbn in *; subst. split; cbn; try done; try lia; [apply server_ok_down..|]. by right; right.
  - destruct Hp. destruct p; cbn in *; subst. split; cbn; try done; try lia; [by right; left|]. intros Hr. by apply po_serving0 in Hr.
  - eapply set_at_ok; [done|rewrite Ha; cbn; lia|exact Hr|..]; intros Hx; pose proof (on_result_le _ _ _ Hx ltac:(lia)); subst; cbn in Hx; lia || done.
  - eapply set_at_ok; [done|rewrite Ha; cbn; lia|exact Hd|..]; intros Hx; pose proof (on_result_le _ _ _ Hx ltac:(lia)); subst; cbn in Hx; lia || done.
  - eapply set_at_ok; [done|rewrite Ha; cbn; lia|exact Hd|..]; intros Hx; pose proof (on_result_le _ _ _ Hx ltac:(lia)); subst; cbn in Hx; try lia; try done.
    apply (po_admin_ok _ Hp). rewrite Ha. cbn. lia.
  - eapply (set_at_ok (set_loop _ _ _ p)); [by apply set_loop_ok|cbn; rewrite Ha; cbn; lia|exact Hd|..]; cbn; try done; try lia; intros _;
      [apply (po_admin_ok _ Hp)|apply (po_metrics_ok _ Hp)]; rewrite Ha; cbn; lia.
  - eapply set_at_ok; [done|rewrite Ha; cbn; lia|exact Hd|..]; try done; intros _; [apply (po_admin_ok _ Hp)|apply (po_metrics_ok _ Hp)]; rewrite Ha; cbn; lia.
  - eapply set_at_ok; [done|rewrite Ha; cbn; lia|exact Hd|..]; try done; intros _;
      [apply (po_admin_ok _ Hp)|apply (po_metrics_ok _ Hp)|apply (po_loop _ Hp)]; rewrite Ha; cbn; lia.
  - apply set_loop_ok; [done|done|congruence].
  - apply set_loop_ok; [done|done|congruence].
  - by apply set_loop_ok.
Qed.

(** A step that leaves [Start] where it is. *)
Ltac still set_ok step_ok H Hp E :=
  apply set_ok; [exact Hp|eapply step_ok; [exact H|apply Hp]|..]; rewrite E; done.

Lemma any_step_ok p p' : any_step p p' → proc_ok p → proc_ok p'.
Proof using Type.
  intros [[_ [H|H]]|[_ H]] Hp; [by eapply main_step_ok| |].
  - destruct H as [p g H|p g H|p g H|p Ha Hb]; [pose proof (timer_step_st _ _ H) as E..|by destruct Hp, p; split].
    + still set_data_ok timer_step_ok H Hp E.
    + still set_admin_ok timer_step_ok H Hp E.
    + still set_metrics_ok timer_step_ok H Hp E.
  - destruct H as [p g H|p g H|p g H|p|p]; [pose proof (network_step_st _ _ H) as E..| |].
    + still set_data_ok network_step_ok H Hp E.
    + still set_admin_ok network_step_ok H Hp E.
    + still set_metrics_ok network_step_ok H Hp E.
    + by apply set_loop_ok.
    + destruct Hp, p; split; cbn in *; try done; [by eapply server_ok_signal..|]. split; [eapply server_ok_signal|]; apply po_metrics0.
Qed.

Lemma reached_ok p : reached p → proc_ok p.
Proof using Type.
  unfold reached. generalize serve_init_ok. generalize serve_init. intros q Hq Hr. induction Hr as [|p1 p2 p3 Hs _ IH]; [done|]. apply IH. by eapply any_step_ok.
Qed.

(** ** Progress *)
Definition ended (p : proc) : Prop := ∃ code, at_ p = AtExit code.

Lemma server_progress k g : st g ≠ NotStarted → (∃ r, st g = StartDone r) ∨ (∃ g', server_step k true g g') ∨ ∃ g', timer_step g g'.
Proof using Type.
  intros Hn. destruct (st g) as [| | | |r] eqn:E; [done|right..|left; by eexists].
  - left. eexists. by apply s_bind.
  - left. eexists. by apply s_ctx.
  - destruct (fired g) eqn:F; [left; eexists; by apply s_timeout|right; eexists; by apply t_fire].
Qed.

(** After a signal something can always happen that needs nothing from outside. *)
Lemma own_progress p : proc_ok p → signalled p = true → ended p ∨ ∃ p', own_step p p'.
Proof using Type.
  intros Hp Hs. destruct (alive p) eqn:Al; [|left; unfold alive in Al; destruct (at_ p) eqn:E; try done; by eexists]. right.
  assert (Hlift : ∀ p', main_step p p' ∨ clock_step p p' → ∃ p', own_step p p') by (intros p' H; by exists p').
  assert (Hst : at_ p ≠ AtWatcher → st (data p) ≠ NotStarted ∧ st (admin p) ≠ NotStarted ∧ loop p ≠ LoopNone).
  { intros Hw. destruct (po_started _ Hp) as [?|[E|?]]; [done| |done]. unfold alive in Al. by rewrite E in Al. }
  destruct (at_ p) as [| | | | | | |code] eqn:E; [|specialize (Hst ltac:(done)) as (Hd & Ha & Hl)..].
  - eapply Hlift. left. by apply m_watch.
  - destruct (server_progress (data_kind addr) (data p) Hd) as [[r Hr]|[[g Hg]|[g Hg]]]; eapply Hlift;
      [left; by eapply m_served|left; eapply m_data; unfold data_Start; by rewrite Hs|right; by eapply c_data].
  - destruct (server_progress (admin_kind adminAddr) (admin p) Ha) as [[r Hr]|[[g Hg]|[g Hg]]]; eapply Hlift;
      [left; by eapply m_admin_err|left; eapply m_admin; unfold admin_Start; by rewrite Hs|right; by eapply c_admin].
  - destruct (server_progress metrics_kind (metrics p) (proj2 (po_metrics _ Hp))) as [[r Hr]|[[g Hg]|[g Hg]]]; eapply Hlift;
      [left; by eapply m_metrics_err|left; eapply m_metrics; unfold metrics_Start; by rewrite Hs|right; by eapply c_metrics].
  - eapply Hlift. left. apply m_admin_stop; [done|]. left. destruct (so_done _ _ _ (po_admin _ Hp)) as (? & _); [done| |done].
    apply (po_admin_ok _ Hp). rewrite E. cbn. lia.
  - destruct (loop p) eqn:L; [done|..]; eapply Hlift; left; [by apply m_loop_over; [|left]|by apply m_reloaded|by apply m_watcher_stop].
  - eapply Hlift. left. by apply m_tracing.
  - unfold alive in Al. by rewrite E in Al.
Qed.

Lemma own_step_signalled p p' : own_step p p' → signalled p' = signalled p.
Proof using Type. by intros [_ [H|H]]; destruct H. Qed.

Lemma own_steps_keep p p' : rtc own_step p p' → proc_ok p → proc_ok p' ∧ signalled p' = signalled p.
Proof using Type.
  induction 1 as [|p1 p2 p3 Hs _ IH]; [done|]. intros Hp. rewrite <- (own_step_signalled _ _ Hs). apply IH. eapply any_step_ok; [by left|done].
Qed.

(** Every accepted call was answered, or cut by a timer that had fired. *)
Definition drained (g : server) : Prop :=
  active g = 0 ∧ closed g = true ∧ accepted g = finished g + cut g ∧ (fired g = false → accepted g = finished g).

Lemma done_drained k c g : server_ok k c g → k_cut k = true → st g = StartDone None → drained g.
Proof using Type.
  intros [H1 H2 _ _ _ H6] Hk Hd. destruct (H6 Hk Hd) as (Ha & Hc & _). split_and!; [done|done|lia|]. intros Hf.
  destruct (decide (cut g = 0)); [lia|]. rewrite H2 in Hf by lia. done.
Qed.

(** C23: After a signal the service ends by itself: from every reachable state at most
    [proc_weight] steps of the program and its timers are possible, whatever their order
    and whatever calls are in flight, and when none is left it has exited. An exit with
    status 0 comes only after a signal, with all three servers and the watcher's loop
    ended, and with every routing and admin call answered unless the timer of the stop had
    fired. While the data plane is served, [main] is in its [Start]. *)
Theorem service_stop_drains p : reached p →
  (signalled p = true → (∀ n p', nsteps own_step n p p' → n ≤ proc_weight p) ∧ (∀ p', rtc own_step p p' → nf own_step p' → ended p'))
  ∧ (at_ p = AtExit 0 → signalled p = true ∧ st (metrics p) = StartDone None ∧ loop p = LoopOver ∧ drained (data p) ∧ drained (admin p))
  ∧ (running (st (data p)) = true → at_ p = AtServe).
Proof using Type.
  intros Hr. apply reached_ok in Hr as Hp. split_and!; [intros Hs; split| |apply Hp].
  - intros n p' H. apply own_steps_bound in H. lia.
  - intros p' H Hnf. destruct (own_steps_keep _ _ H Hp) as [Hp' Hs']. destruct (own_progress p' Hp') as [?|[q Hq]]; [congruence|done|].
    exfalso. apply Hnf. by exists q.
  - intros E. assert (Hg : to_go (at_ p) = 0) by (by rewrite E). assert (Hd := po_served _ Hp ltac:(lia)). assert (Ha := po_admin_ok _ Hp ltac:(lia)).
    destruct (so_done _ _ _ (po_data _ Hp) eq_refl Hd) as (_ & _ & Hsig).
    split_and!; [done|apply (po_metrics_ok _ Hp); lia|apply (po_loop _ Hp); lia|by eapply done_drained, Hd; [apply Hp|]|by eapply done_drained, Ha; [apply Hp|]].
Qed.

(** ** A control plane that does not come up *)
Lemma admin_result_stays p p' r : any_step p p' → at_ p ≠ AtWatcher → st (admin p) = StartDone r → st (admin p') = StartDone r ∧ at_ p' ≠ AtWatcher.
Proof using Type.
  intros [[_ [H|H]]|[_ H]] Hw Hr; destruct H as [p Ha|p Ha|p g H|p g H|p g H|p r' Ha Hr'|p r' Ha Hr'|p r' Ha Hr'|p Ha|p Ha Hl|p Ha|p Ha Hb|p Ha|p Ha]
    || destruct H as [p g H|p g H|p g H|p Ha Hb] || destruct H as [p g H|p g H|p g H|p|p]; cbn in *; try done.
  all: try (by destruct r').
  - destruct (server_step_st _ _ _ _ H) as (_ & Hk & _). by split; [apply Hk|].
  - by rewrite (timer_step_st _ _ H).
  - by rewrite (network_step_st _ _ H).
Qed.

Definition admin_failed (e : string) : proc :=
  mkProc AtServe (set_st Selecting (set_sv ServingNow None (set_st Binding down))) (set_st (StartDone (Some (k_listen (admin_kind adminAddr) e))) (set_st Binding down))
    (set_st Binding down) false LoopIdle false false false.

(** If the admin server cannot bind its address the service serves on without it, nothing
    in [main] looks at the error before a signal, and the stop then exits with an error. *)
Theorem admin_failure_unnoticed e :
  reached (admin_failed e) ∧ ∀ p', rtc any_step (admin_failed e) p' → (running (st (data p')) = true → alive p' = true) ∧ at_ p' ≠ AtExit 0.
Proof using Type.
  assert (Hreach : reached (admin_failed e)).
  { eapply rtc_l; [left; split; [done|left; by apply m_watch]|].
    eapply rtc_l; [left; split; [done|left; eapply m_data, s_bind; reflexivity]|].
    eapply rtc_l; [left; split; [done|left; eapply m_admin, (s_bind_fail _ _ _ e); reflexivity]|]. apply rtc_refl. }
  split; [exact Hreach|]. intros p' Hr.
  assert (Ha : st (admin p') = StartDone (Some (k_listen (admin_kind adminAddr) e))).
  { assert (H0 : at_ (admin_failed e) ≠ AtWatcher) by done.
    assert (H1 : st (admin (admin_failed e)) = StartDone (Some (k_listen (admin_kind adminAddr) e))) by done. clear Hreach. revert H0 H1.
    generalize (k_listen (admin_kind adminAddr) e). intros m. induction Hr as [|p1 p2 p3 Hs _ IH]; [done|]. intros H0 H1.
    destruct (admin_result_stays _ _ _ Hs H0 H1). by apply IH. }
  assert (Hp : proc_ok p') by (apply reached_ok; unfold reached; etransitivity; [exact Hreach|exact Hr]). split.
  - intros Hd. unfold alive. by rewrite (po_serving _ Hp Hd).
  - intros E. assert (Hx : st (admin p') = StartDone None) by (apply (po_admin_ok _ Hp); rewrite E; cbn; lia). congruence.
Qed.
End steps.

(** ** Tracing (internal/tracing) *)

(** The options of the provider [Init] builds: a resource, and a batcher over an exporter
    to the endpoint, plaintext or not. The libraries' constructors may fail. *)
Inductive provider_option : Type := WithResource (service_name : string) | WithBatcher (endpoint : string) (insecure : bool).
Definition tracing_Init (resource_New : option string) (otlp_New : string → bool → option string) (endpoint : string) (insecure : bool) :
    go_result (list provider_option) :=
  match resource_New with
  | Some e => Err ("tracing: resource: " +:+ e)
  | None =>
      if endpoint =?s "" then Ok [WithResource "routing-service"]
      else match otlp_New endpoint insecure with
           | Some e => Err ("tracing: otlp exporter: " +:+ e)
           | None => Ok [WithResource "routing-service"; WithBatcher endpoint insecure]
           end
  end.

(** Spans are exported exactly when an endpoint is configured, and only to it; without one
    only the resource can fail. *)
Lemma tracing_exports resource_New otlp_New endpoint insecure opts :
  tracing_Init resource_New otlp_New endpoint insecure = Ok opts →
  ∀ e i, WithBatcher e i ∈ opts ↔ e = endpoint ∧ i = insecure ∧ endpoint ≠ "".
Proof.
  unfold tracing_Init. destruct resource_New; [done|]. destruct (endpoint =?s "") eqn:E; seqb_simpl.
  - intros [= <-] e i. rewrite elem_of_cons, elem_of_nil. naive_solver.
  - destruct (otlp_New _ _); [done|]. intros [= <-] e i. rewrite !elem_of_cons, elem_of_nil. naive_solver.
Qed.

(** ** Witness: a call is in flight when the signal comes, and is answered *)
Ltac own t := eapply rtc_l; [left; split; [reflexivity|left; t]|]; cbn.
Ltac outside t := eapply rtc_l; [right; split; [reflexivity|t]|]; cbn.
Ltac stops lift := own ltac:(eapply lift, s_ctx; reflexivity); own ltac:(eapply lift, s_stop_begin; reflexivity).
Ltac stopped lift := own ltac:(eapply lift, s_stop_end; reflexivity); own ltac:(eapply lift, s_drained; reflexivity).

Lemma answered_exit addr adminAddr : ∃ p, reached addr adminAddr p ∧ at_ p = AtExit 0 ∧ finished (data p) = 1.
Proof.
  eexists. split; [|split].
  - unfold reached, serve_init. own ltac:(apply m_watch; reflexivity). own ltac:(eapply m_data, s_bind; reflexivity).
    own ltac:(eapply m_admin, s_bind; reflexivity). own ltac:(eapply m_metrics, s_bind; reflexivity).
    outside ltac:(eapply w_data, n_call; reflexivity). outside ltac:(apply w_signal).
    stops m_data. outside ltac:(eapply w_data, n_return; reflexivity). stopped m_data. own ltac:(eapply m_served; reflexivity).
    stops m_admin. stopped m_admin. own ltac:(eapply m_admin_err; reflexivity).
    stops m_metrics. stopped m_metrics. own ltac:(eapply m_metrics_err; reflexivity).
    own ltac:(apply m_admin_stop; [reflexivity|left; reflexivity]). own ltac:(apply m_loop_over; [reflexivity|left; reflexivity]).
    own ltac:(apply m_watcher_stop; reflexivity). own ltac:(apply m_tracing; reflexivity). apply rtc_refl.
  - reflexivity.
  - reflexivity.
Qed.

Lemma service_stop_drains_witness : ∃ p, reached ":50051" ":50052" p ∧ signalled p = true ∧ finished (data p) = 1 ∧ drained (data p).
Proof.
  destruct (answered_exit ":50051" ":50052") as (p & Hr & He & Hf). exists p.
  destruct (service_stop_drains ":50051" ":50052" p Hr) as (_ & Hx & _). destruct (Hx He) as (Hs & _ & _ & Hd & _).
  split; [exact Hr|]. split; [exact Hs|]. split; [exact Hf|exact Hd].
Defined.
