(* ===== verification/RsWiring.v ===== *)
(** * How the routing service is wired (server.go [New] and its options, adapter.go
      [NewPipelineEvaluator], admin.go [NewAdmin], decision.go [NewDecisionLogger],
      watcher.go [Start] and [Stop], the middle of cmd/routing-service/main.go)

    The objects the parts share (the pipeline, the collectors, a stub's counter) live in a
    heap and are reached through addresses, as the pointers of the code. Calls and reloads
    are taken one at a time: a run here is one in which each completes before the next
    begins. Calls that overlap can answer what no such run answers ([overlapping_disables]);
    what remains true of them, that no update of the shared pipeline is lost, is
    PipelineCas.v. [Evaluator] is
    the interface between server and engine; its two implementations are the adapter over
    the pipeline and the stub. RsServer.v describes the running service as one state; the
    simulation here shows that the objects [main] wires together behave like it. The
    health service of grpc-go is a class with the laws its documentation states; a tracer
    records the spans that have ended. *)
From S2P Require Import Prelude GoStrings GoNumeric Codec RouterPb SqlMeta Engine RsConfig Providers Reload RsServer.

#[local] Open Scope Z_scope.

(** grpc.health.v1: [Check] answers a status or NOT_FOUND. *)
Class Health (H : Type) : Type := {
  health_New : H;
  SetServingStatus : string → bool → H → H;
  health_Check : string → H → option bool;
  health_default : health_Check "" health_New = Some true;
  health_set s b h : health_Check s (SetServingStatus s b h) = Some b;
  health_frame s s' b h : s ≠ s' → health_Check s' (SetServingStatus s b h) = health_Check s' h }.

(** A float64 rate, as the dyadic rational [fst * 2 ^ (- snd)]. *)
Definition rate : Type := Z * Z.
Definition span : Type := nat * string * list attr.

Record heap {H : Type} : Type := mkHeap {
  h_pipe : gmap nat Pipeline; h_met : gmap nat Metrics; h_cnt : gmap nat Z;
  h_ver : option string; h_health : H; h_log : list (nat * list attr); h_spans : list span; h_draws : nat }.
Arguments heap H : clear implicits.

Section wiring.
Context {H : Type} `{!Health H} (ToLower ToUpper : string → string).
(** The values [rand.Uint64] returns, in order. *)
Context (uint64 : nat → Z).
#[local] Abbreviation heap := (heap H).

Definition on_pipe (p : nat) (f : Pipeline → Pipeline) (h : heap) : heap :=
  mkHeap _ (alter f p (h_pipe h)) (h_met h) (h_cnt h) (h_ver h) (h_health h) (h_log h) (h_spans h) (h_draws h).
Definition with_met (ms : gmap nat Metrics) (h : heap) : heap :=
  mkHeap _ (h_pipe h) ms (h_cnt h) (h_ver h) (h_health h) (h_log h) (h_spans h) (h_draws h).
Definition on_met (m : nat) (f : Metrics → Metrics) (h : heap) : heap := with_met (alter f m (h_met h)) h.
Definition with_cnt (c : gmap nat Z) (h : heap) : heap :=
  mkHeap _ (h_pipe h) (h_met h) c (h_ver h) (h_health h) (h_log h) (h_spans h) (h_draws h).
Definition with_ver (v : string) (h : heap) : heap :=
  mkHeap _ (h_pipe h) (h_met h) (h_cnt h) (Some v) (h_health h) (h_log h) (h_spans h) (h_draws h).
Definition with_health (x : H) (h : heap) : heap :=
  mkHeap _ (h_pipe h) (h_met h) (h_cnt h) (h_ver h) x (h_log h) (h_spans h) (h_draws h).
Definition add_log (l : nat) (r : list attr) (h : heap) : heap :=
  mkHeap _ (h_pipe h) (h_met h) (h_cnt h) (h_ver h) (h_health h) (h_log h ++ [(l, r)]) (h_spans h) (h_draws h).
Definition add_span (x : span) (h : heap) : heap :=
  mkHeap _ (h_pipe h) (h_met h) (h_cnt h) (h_ver h) (h_health h) (h_log h) (h_spans h ++ [x]) (h_draws h).
Definition with_draws (n : nat) (h : heap) : heap :=
  mkHeap _ (h_pipe h) (h_met h) (h_cnt h) (h_ver h) (h_health h) (h_log h) (h_spans h) n.

(** The pipeline at an address; a nil method pointer is the zero pipeline. *)
Definition pipe_at (p : nat) (h : heap) : Pipeline := from_opt (mkPipeline None "" false) (h_pipe h !! p).

(** ** The evaluators *)
Record Evaluator : Type := mkEvaluator {
  ev_Evaluate : RouteRequest → ST heap string;
  ev_EvaluateResult : RouteRequest → ST heap EvalResult;
  ev_Ready : heap → bool }.

Record PipelineEvaluator : Type := mkPE {
  pe_p : nat; pe_analyzer : analyzer; pe_sqlObs : option (string → bool → heap → heap) }.
Definition EvaluatorOption : Type := PipelineEvaluator → PipelineEvaluator.
Definition WithSQLAnalyzer (a : option analyzer) : EvaluatorOption := λ e,
  match a with Some a => mkPE (pe_p e) a (pe_sqlObs e) | None => e end.
Definition WithSQLObserver (obs : option (string → bool → heap → heap)) : EvaluatorOption := λ e,
  mkPE (pe_p e) (pe_analyzer e) obs.
Definition NewPipelineEvaluator (p : nat) (opts : list EvaluatorOption) : PipelineEvaluator :=
  fold_left (λ e opt, opt e) opts (mkPE p ANoop None).

(** [inputFromProto], with the call of the observer. *)
Definition pe_input (e : PipelineEvaluator) (req : RouteRequest) : ST heap RouteInput := λ h,
  let '(i, obs) := inputFromProto ToLower ToUpper (pe_analyzer e) (Some req) in
  (i, match obs, pe_sqlObs e with Some (r, t), Some f => f r t h | _, _ => h end).
Definition pe_evaluate (e : PipelineEvaluator) (req : RouteRequest) : ST heap string :=
  i ← pe_input e req; h ← st_get; mret (Evaluate (pipe_at (pe_p e) h) i).
Definition pe_evaluate_result (e : PipelineEvaluator) (req : RouteRequest) : ST heap EvalResult :=
  i ← pe_input e req; h ← st_get;
  let r := EvaluateResult (pipe_at (pe_p e) h) i in
  mret (mkEvalResult (er_RoutingGroup r) (MethodType r) (er_Decided r) (HadError r) (summarize i)).
Definition pe_ready (e : PipelineEvaluator) (h : heap) : bool := Ready (pipe_at (pe_p e) h).
Definition pipeline_evaluator (e : PipelineEvaluator) : Evaluator :=
  mkEvaluator (pe_evaluate e) (pe_evaluate_result e) (pe_ready e).

(** The stub: its counter is the caller's, or a fresh one. *)
Definition count_call (c : nat) (h : heap) : heap := with_cnt (alter (λ n, wrap64 (n + 1)) c (h_cnt h)) h.
Definition stub_Evaluate (c : nat) (_ : RouteRequest) : ST heap string := _ ← st_modify (count_call c); mret "".
Definition stub_EvaluateResult (c : nat) (_ : RouteRequest) : ST heap EvalResult :=
  _ ← st_modify (count_call c); mret (mkEvalResult "" "" false false no_summary).
Definition stub_Ready (_ : heap) : bool := false.
Definition stubEvaluator (c : nat) : Evaluator := mkEvaluator (stub_Evaluate c) (stub_EvaluateResult c) stub_Ready.
Definition NewStubEvaluator (evalCount : option nat) : ST heap Evaluator := λ h,
  match evalCount with
  | Some c => (stubEvaluator c, h)
  | None => let c := fresh (dom (h_cnt h)) in (stubEvaluator c, with_cnt (<[c := 0]> (h_cnt h)) h)
  end.

(** ** The decision logger *)
(** [rand.Float64] is a 53-bit integer over [2^53]; the comparison is exact. *)
Definition float64_lt (u : Z) (r : rate) : bool := (u mod 2 ^ 53) * 2 ^ snd r <? fst r * 2 ^ 53.
Definition sampler : Type := rate → ST nat bool.
Definition randSampler : sampler := λ r n, (float64_lt (uint64 n) r, S n).
(** The float64 nearest to 0.10. *)
Definition defaultSampleRate : rate := (3602879701896397, 55).

Record DecisionLogger : Type := mkDL { dl_log : nat; dl_sampleRate : rate; dl_s : sampler }.
Definition NewDecisionLogger (log : nat) : DecisionLogger := mkDL log defaultSampleRate randSampler.
Definition dl_ShouldLog (d : DecisionLogger) (isFallback : bool) : ST heap bool := λ h,
  if isFallback then (true, h) else
  let '(b, n) := dl_s d (dl_sampleRate d) (h_draws h) in (b, with_draws n h).
Definition dl_Log (d : DecisionLogger) (f : DecisionFields) : ST heap unit :=
  b ← dl_ShouldLog d (Fallback f);
  if negb b then mret tt else st_modify (add_log (dl_log d) (decision_attrs f)).

(** ** The server *)
Inductive Tracer : Type := NoopTracer | TracerOf (tp : nat).
Definition tracerFrom (tp : option nat) : Tracer := match tp with None => NoopTracer | Some t => TracerOf t end.

Record serverOpts : Type := mkOpts {
  o_metrics : option nat; o_dlog : option DecisionLogger; o_tp : option nat; o_prop : option nat }.
Definition ServerOption : Type := serverOpts → serverOpts.
Definition WithMetrics (m : option nat) : ServerOption := λ o, mkOpts m (o_dlog o) (o_tp o) (o_prop o).
Definition WithDecisionLogger (dl : option DecisionLogger) : ServerOption := λ o, mkOpts (o_metrics o) dl (o_tp o) (o_prop o).
Definition WithTracing (tp prop : option nat) : ServerOption := λ o, mkOpts (o_metrics o) (o_dlog o) tp prop.

(** What [grpc.NewServer] is given, and the services registered on it. *)
Record grpc_server : Type := mkGrpc {
  g_recovers : bool; g_stats : option (nat * option nat); g_services : list string }.
Definition router_service : string := "trino.gateway.v1.TrinoGatewayRouter".
Definition health_service : string := "grpc.health.v1.Health".
Definition admin_service : string := "trino.gateway.v1.RoutingServiceAdmin".

Record Server : Type := mkServerObj {
  s_cfg : Config; s_log : nat; s_eval : Evaluator; s_grpcs : grpc_server;
  s_metrics : option nat; s_dlog : DecisionLogger; s_tracer : Tracer }.

Definition server_New (cfg : Config) (eval : Evaluator) (log : nat) (opts : list ServerOption) : ST heap Server := λ h,
  let o := fold_left (λ o fn, fn o) opts (mkOpts None None None None) in
  let stats := match o_tp o with Some t => Some (t, o_prop o) | None => None end in
  let dlog := from_opt (NewDecisionLogger log) (o_dlog o) in
  (mkServerObj cfg log eval (mkGrpc true stats [router_service; health_service]) (o_metrics o) dlog (tracerFrom (o_tp o)),
   with_health (SetServingStatus "" false health_New) h).

Definition server_SetReady (ready : bool) (h : heap) : heap := with_health (SetServingStatus "" ready (h_health h)) h.
Definition server_SetConfigVersion (s : Server) (hash : string) (h : heap) : heap :=
  let h := with_ver hash h in
  match s_metrics s with Some m => on_met m (m_SetConfigVersion hash) h | None => h end.

Definition new_submission (req : RouteRequest) : bool :=
  match pb_Props req with None => false | Some qp => qp_IsNewQuerySubmission qp end.

(** The span of a decision, recorded when it ends. *)
Definition end_span (t : Tracer) (attrs : list attr) (h : heap) : heap :=
  match t with NoopTracer => h | TracerOf tp => add_span (tp, "TrinoGatewayRouter/Route", attrs) h end.

(** [Route]; [lat] is the evaluation's wall time. *)
Definition server_Route (s : Server) (lat : Z) (req : RouteRequest) : ST heap RouteResponse :=
  if negb (new_submission req) then mret (mkRouteResponse "" [] ∅) else
  res ← ev_EvaluateResult (s_eval s) req;
  let group := if er_RoutingGroup res =?s "" then DefaultRoutingGroup (s_cfg s) else er_RoutingGroup res in
  let source := pb_TrinoSource req in
  let outcome := classifyOutcome res in
  let attrs := [AString "routing.group" group; AString "routing.source" source;
                AString "routing.method_type" (MethodType res)] in
  _ ← st_modify match s_metrics s with
                | Some m => on_met m (RecordDecision source group (MethodType res) outcome)
                | None => id
                end;
  h ← st_get;
  _ ← dl_Log (s_dlog s)
        (mkDecisionFields (MethodType res) source (from_opt "" (pb_User req))
           (from_opt "" (qp_Body <$> pb_Props req)) group lat (from_opt "" (h_ver h)) (negb (er_Decided res))
           (ss_QueryType (SQL res)) (ss_QueryCategory (SQL res)) (ss_ParseOK (SQL res))
           (CatalogCount (SQL res)) (SchemaCount (SQL res)) (TableCount (SQL res)));
  _ ← st_modify (end_span (s_tracer s) attrs);
  mret (mkRouteResponse group [] ∅).

(** ** The admin server *)
(** [KillSwitch]; the pipeline at an address is one. *)
Record KillSwitch : Type := mkKS {
  ks_DisableMethod : string → heap → heap; ks_EnableMethod : string → heap → heap;
  ks_DisabledMethods : heap → list string }.
Definition pipeline_switch (p : nat) : KillSwitch :=
  mkKS (λ t, on_pipe p (DisableMethod t)) (λ t, on_pipe p (EnableMethod t)) (λ h, DisabledMethods (pipe_at p h)).

Record AdminServer : Type := mkAdmin {
  a_ks : KillSwitch; a_log : nat; a_grpcs : grpc_server; a_onChange : option (list string → heap → heap) }.
Definition NewAdmin (ks : KillSwitch) (log : nat) : AdminServer :=
  mkAdmin ks log (mkGrpc true None [admin_service]) None.
Definition SetOnChange (fn : list string → heap → heap) (a : AdminServer) : AdminServer :=
  mkAdmin (a_ks a) (a_log a) (a_grpcs a) (Some fn).
Definition a_notify (a : AdminServer) (disabled : list string) (h : heap) : heap :=
  match a_onChange a with Some f => f disabled h | None => h end.

Definition a_DisableMethod (a : AdminServer) (t : string) : ST heap admin_response := λ h,
  let before := contains_type (ks_DisabledMethods (a_ks a) h) t in
  let h := ks_DisableMethod (a_ks a) t h in
  let disabled := ks_DisabledMethods (a_ks a) h in
  let msg := if before then "already disabled"
             else if negb (contains_type disabled t) then "unknown method type" else "disabled" in
  ((true, msg, disabled), a_notify a disabled h).
Definition a_EnableMethod (a : AdminServer) (t : string) : ST heap admin_response := λ h,
  let wasDisabled := contains_type (ks_DisabledMethods (a_ks a) h) t in
  let h := ks_EnableMethod (a_ks a) t h in
  let disabled := ks_DisabledMethods (a_ks a) h in
  ((true, if wasDisabled then "enabled" else "not disabled", disabled), a_notify a disabled h).

(** ** Calls: a service that is not registered answers UNIMPLEMENTED *)
Inductive rpc : Type :=
| RpcRoute (lat : Z) (req : RouteRequest) | RpcCheck (service : string)
| RpcDisable (t : string) | RpcEnable (t : string) | RpcListDisabled.
Inductive rpc_answer : Type :=
| ARoute (r : RouteResponse) | AHealth (status : option bool) | AAdmin (r : admin_response)
| ADisabled (l : list string) | Unimplemented.

Definition service_of (c : rpc) : string :=
  match c with RpcRoute _ _ => router_service | RpcCheck _ => health_service | _ => admin_service end.
Definition data_call (s : Server) (c : rpc) : ST heap rpc_answer :=
  if negb (existsb (λ x, x =?s service_of c) (g_services (s_grpcs s))) then mret Unimplemented else
  match c with
  | RpcRoute lat req => r ← server_Route s lat req; mret (ARoute r)
  | RpcCheck svc => h ← st_get; mret (AHealth (health_Check svc (h_health h)))
  | _ => mret Unimplemented
  end.
Definition admin_call (a : AdminServer) (c : rpc) : ST heap rpc_answer :=
  if negb (existsb (λ x, x =?s service_of c) (g_services (a_grpcs a))) then mret Unimplemented else
  match c with
  | RpcDisable t => r ← a_DisableMethod a t; mret (AAdmin r)
  | RpcEnable t => r ← a_EnableMethod a t; mret (AAdmin r)
  | RpcListDisabled => h ← st_get; mret (ADisabled (ks_DisabledMethods (a_ks a) h))
  | _ => mret Unimplemented
  end.

(** ** What [main] wires: the pipeline at [p], the collectors at [m] *)
Definition main_options (cfg : Config) (m : nat) : list EvaluatorOption :=
  if sp_Enabled (SQLParsing cfg)
  then [WithSQLAnalyzer (Some (AHeuristic (NewHeuristic (MaxBodyBytes (SQLParsing cfg)))));
        WithSQLObserver (Some (λ r t, on_met m (RecordSQLParse r t)))]
  else [].
Definition main_wire (cfg : Config) (p m log tp prop : nat) (hash : string) : ST heap (Server * AdminServer) :=
  let eval := NewPipelineEvaluator p (main_options cfg m) in
  srv ← server_New cfg (pipeline_evaluator eval) log [WithMetrics (Some m); WithTracing (Some tp) (Some prop)];
  _ ← st_modify (server_SetConfigVersion srv hash);
  h ← st_get;
  _ ← st_modify (server_SetReady (Ready (pipe_at p h)));
  mret (srv, SetOnChange (λ disabled, on_met m (SyncDisabled (mc_Type <$> Methods cfg) disabled))
               (NewAdmin (pipeline_switch p) log)).

(** The watcher's reload, on the pipeline at [p], with the sinks of [main]. *)
Definition sink_notice (srv : Server) (m : nat) (h : heap) (n : notice) : heap :=
  match n with
  | ReloadSink ok => on_met m (RecordReload (if ok then "ok" else "error")) h
  | VersionSink hash => server_SetConfigVersion srv hash h
  | Audit _ _ _ _ _ => h
  end.
Definition wired_reload {W} (ReadFile : string → ST W (go_result string)) (yaml_unmarshal : string → Config → go_result Config)
    (registry : Registry W) (path : string) (srv : Server) (p m : nat) (cw : ConfigWatcher) : ST (W * heap) ConfigWatcher := λ '(w, h),
  let '(cw', w') := reload ReadFile yaml_unmarshal registry path true true (set_pipeline (pipe_at p h) cw) w in
  let h := on_pipe p (λ _, pipeline cw') h in
  (cw', (w', fold_left (sink_notice srv m) (drop (length (notices cw)) (notices cw')) h)).
End wiring.

(** ** The wired objects behave like the service of RsServer.v *)
Section simulation.
Context {H : Type} `{!Health H} (ToLower ToUpper : string → string) (uint64 : nat → Z).
Context {W : Type} (ReadFile : string → ST W (go_result string)).
Context (yaml_unmarshal : string → Config → go_result Config) (registry : Registry W) (path : string).
Context (cfg : Config) (p m log tp prop : nat).

(** An event of the running process: a call on one of the two planes with its answer, or
    a reload, from its beginning to its end. *)
Inductive event : Type := DataCall (c : rpc) (a : rpc_answer) | AdminCall (c : rpc) (a : rpc_answer) | Reloaded.

(** A step is a whole call or a whole reload, with nothing else under way meanwhile. *)
Inductive impl_step (srv : @Server H) (adm : @AdminServer H) :
    event → ConfigWatcher * heap H → ConfigWatcher * heap H → Prop :=
| i_data c a cw h h' : data_call srv c h = (a, h') → impl_step srv adm (DataCall c a) (cw, h) (cw, h')
| i_admin c a cw h h' : admin_call adm c h = (a, h') → impl_step srv adm (AdminCall c a) (cw, h) (cw, h')
| i_reload w w' cw cw' h h' :
    wired_reload ReadFile yaml_unmarshal registry path srv p m cw (w, h) = (cw', (w', h')) →
    impl_step srv adm Reloaded (cw, h) (cw', h').

Lemma impl_data srv adm c a cw h :
  fst (data_call srv c h) = a → impl_step srv adm (DataCall c a) (cw, h) (cw, snd (data_call srv c h)).
Proof. intros <-. constructor. by destruct (data_call srv c h). Qed.
Lemma impl_admin srv adm c a cw h :
  fst (admin_call adm c h) = a → impl_step srv adm (AdminCall c a) (cw, h) (cw, snd (admin_call adm c h)).
Proof. intros <-. constructor. by destruct (admin_call adm c h). Qed.

Inductive spec_step : event → service → service → Prop :=
| sp_route lat sampled req s :
    let r := Route ToLower ToUpper (main_analyzer cfg) cfg (sp_Enabled (SQLParsing cfg)) lat sampled req s in
    spec_step (DataCall (RpcRoute lat req) (ARoute (fst r))) s (snd r)
| sp_check s : spec_step (DataCall (RpcCheck "") (AHealth (Some (serving s)))) s s
| sp_check_other svc x s : svc ≠ "" → spec_step (DataCall (RpcCheck svc) (AHealth x)) s s
| sp_refuse_data c s : service_of c = admin_service → spec_step (DataCall c Unimplemented) s s
| sp_disable t s : let r := admin_DisableMethod (allMethodTypes cfg) t s in
    spec_step (AdminCall (RpcDisable t) (AAdmin (fst r))) s (snd r)
| sp_enable t s : let r := admin_EnableMethod (allMethodTypes cfg) t s in
    spec_step (AdminCall (RpcEnable t) (AAdmin (fst r))) s (snd r)
| sp_list s : spec_step (AdminCall RpcListDisabled (ADisabled (ListDisabled s))) s s
| sp_refuse_admin c s : service_of c ≠ admin_service → spec_step (AdminCall c Unimplemented) s s
| sp_reload w s : spec_step Reloaded s (fst (service_reload ReadFile yaml_unmarshal registry path s w)).

(** A run with its events, oldest first. *)
Inductive run {S} (step : event → S → S → Prop) : list event → S → S → Prop :=
| run_nil s : run step [] s s
| run_cons e es s1 s2 s3 : step e s1 s2 → run step es s2 s3 → run step (e :: es) s1 s3.

Record wired (s : service) (x : ConfigWatcher * heap H) : Prop := {
  wd_watcher : set_pipeline (sv_pipeline s) x.1 = sv_watcher s;
  wd_pipe : h_pipe x.2 !! p = Some (sv_pipeline s);
  wd_met : h_met x.2 !! m = sv_metrics s;
  wd_ver : h_ver x.2 = confVer s;
  wd_health : health_Check "" (h_health x.2) = Some (serving s);
  wd_log : snd <$> h_log x.2 = sv_logs s }.

Definition the_server : @Server H :=
  mkServerObj cfg log (pipeline_evaluator ToLower ToUpper (NewPipelineEvaluator p (main_options cfg m)))
    (mkGrpc true (Some (tp, Some prop)) [router_service; health_service]) (Some m) (NewDecisionLogger uint64 log) (TracerOf tp).
Definition the_admin : @AdminServer H :=
  mkAdmin (pipeline_switch p) log (mkGrpc true None [admin_service])
    (Some (λ disabled, on_met m (SyncDisabled (allMethodTypes cfg) disabled))).

Lemma pipe_at_lookup q pl (h : heap H) : h_pipe h !! q = Some pl → pipe_at q h = pl.
Proof. unfold pipe_at. by intros ->. Qed.

Lemma watcher_pipeline s : set_pipeline (sv_pipeline s) (sv_watcher s) = sv_watcher s.
Proof. unfold sv_pipeline, set_pipeline. by destruct (sv_watcher s). Qed.

(** The analyzer the options install is the one of RsServer.v, and the observer is there
    exactly when SQL parsing is enabled. *)
Lemma main_evaluator :
  let e : @PipelineEvaluator H := NewPipelineEvaluator p (main_options cfg m) in
  pe_p e = p ∧ pe_analyzer e = main_analyzer cfg
  ∧ pe_sqlObs e = (if sp_Enabled (SQLParsing cfg) then Some (λ r t, on_met m (RecordSQLParse r t)) else None).
Proof. cbv zeta. unfold main_options, main_analyzer. by destruct (sp_Enabled (SQLParsing cfg)). Qed.

(** What the collectors hold after the observer has been told. *)
Definition observed_metrics (req : RouteRequest) (ms : option Metrics) : option Metrics :=
  match snd (inputFromProto ToLower ToUpper (main_analyzer cfg) (Some req)) with
  | Some (result, truncated) => if sp_Enabled (SQLParsing cfg) then RecordSQLParse result truncated <$> ms else ms
  | None => ms
  end.

Lemma evaluator_simulated req s cw h :
  wired s (cw, h) → ∃ h1,
  ev_EvaluateResult (s_eval the_server) req h
    = (PE_EvaluateResult ToLower ToUpper (main_analyzer cfg) (sv_pipeline s) (Some req), h1)
  ∧ wired (mkService (sv_watcher s) (observed_metrics req (sv_metrics s)) (confVer s) (serving s) (sv_logs s)) (cw, h1).
Proof.
  intros [Hw Hp Hm Hv Hh Hl]. cbn [fst snd] in *. destruct main_evaluator as (He1 & He2 & He3).
  cbn [the_server s_eval pipeline_evaluator ev_EvaluateResult].
  unfold pe_evaluate_result, pe_input, observed_metrics, PE_EvaluateResult, mbind, ST_bind, st_get, mret, ST_ret.
  rewrite He1, He2, He3. destruct (inputFromProto _ _ _ _) as [i obs]. cbn [fst snd].
  eexists. split.
  - by rewrite (pipe_at_lookup p (sv_pipeline s)) by by destruct obs as [[r t]|], (sp_Enabled (SQLParsing cfg)).
  - destruct obs as [[r t]|], (sp_Enabled (SQLParsing cfg)); split; cbn; try done. by rewrite lookup_alter_eq, Hm.
Qed.

Lemma route_simulated lat req s cw h :
  wired s (cw, h) → ∃ sampled s',
  Route ToLower ToUpper (main_analyzer cfg) cfg (sp_Enabled (SQLParsing cfg)) lat sampled req s
    = (fst (server_Route the_server lat req h), s')
  ∧ wired s' (cw, snd (server_Route the_server lat req h)).
Proof.
  intros Hs. unfold server_Route, Route, new_submission.
  destruct (pb_Props req) as [qp|] eqn:Eq; [|by exists true, s].
  destruct (qp_IsNewQuerySubmission qp); cbn [negb]; [|by exists true, s].
  destruct (evaluator_simulated req s cw h Hs) as (h1 & He & [Hw Hp Hm Hv Hh Hl]). unfold mbind, ST_bind. rewrite !He.
  cbn [fst snd sv_metrics confVer serving sv_logs] in *. unfold sv_pipeline in Hw, Hp. cbn [sv_watcher] in Hw, Hp.
  unfold observed_metrics in Hm. destruct (inputFromProto _ _ _ _) as [i obs]. cbn [snd] in Hm.
  set (r := PE_EvaluateResult _ _ _ _ _).
  exists (float64_lt (uint64 (h_draws h1)) defaultSampleRate).
  unfold dl_Log, dl_ShouldLog, st_modify, st_get, mbind, ST_bind, Log, ShouldLog, configVersion_.
  cbn [the_server s_cfg s_metrics s_dlog s_tracer Fallback NewDecisionLogger dl_s dl_sampleRate dl_log randSampler end_span].
  cbn [on_met with_met h_draws h_ver]. rewrite Hv.
  destruct (er_Decided r), (float64_lt (uint64 (h_draws h1)) defaultSampleRate);
    (eexists; split; [reflexivity|]); split; cbn -[decision_attrs];
    by rewrite ?fmap_app, ?lookup_alter_eq, ?Hm, ?Hl.
Qed.

Lemma admin_simulated f t s cw h :
  f = DisableMethod t ∨ f = EnableMethod t → wired s (cw, h) →
  let disabled := DisabledMethods (f (sv_pipeline s)) in
  ks_DisabledMethods (a_ks the_admin) h = DisabledMethods (sv_pipeline s)
  ∧ ks_DisabledMethods (a_ks the_admin) (on_pipe p f h) = disabled
  ∧ wired (notify (allMethodTypes cfg) disabled (update_pipeline f s)) (cw, a_notify the_admin disabled (on_pipe p f h)).
Proof.
  intros _ [Hw Hp Hm Hv Hh Hl]. cbn [fst snd] in *. cbv zeta. cbn [the_admin a_ks pipeline_switch ks_DisabledMethods].
  rewrite (pipe_at_lookup p (sv_pipeline s) h) by done.
  rewrite (pipe_at_lookup p (f (sv_pipeline s))) by (cbn; by rewrite lookup_alter_eq, Hp).
  split_and!; try done. split; cbn; rewrite ?lookup_alter_eq, ?Hp, ?Hm; try done. by rewrite <- Hw.
Qed.

(** The sinks of [main] update the collectors and the version as [on_notice] does. *)
Lemma notices_simulated ns s x :
  wired s x → wired (fold_left on_notice ns s) (x.1, fold_left (sink_notice the_server m) ns x.2).
Proof.
  revert s x. induction ns as [|n ns IH]; intros s [cw h] Hs; [done|]. cbn [fold_left fst snd].
  apply (IH _ (cw, _)). destruct Hs as [Hw Hp Hm Hv Hh Hl]. cbn [fst snd] in *.
  destruct n; split; cbn; rewrite ?lookup_alter_eq, ?Hm; done.
Qed.

Lemma reload_simulated w s cw h :
  wired s (cw, h) →
  let '(cw', (w', h')) := wired_reload ReadFile yaml_unmarshal registry path the_server p m cw (w, h) in
  wired (fst (service_reload ReadFile yaml_unmarshal registry path s w)) (cw', h').
Proof.
  intros [Hw Hp Hm Hv Hh Hl]. cbn [fst snd] in *. unfold wired_reload, service_reload, mbind, ST_bind.
  rewrite (pipe_at_lookup p (sv_pipeline s) h), Hw by done.
  assert (notices cw = notices (sv_watcher s)) as -> by by rewrite <- Hw.
  destruct (reload _ _ _ _ _ _ _ _) as [cw' w']. cbn [mret ST_ret fst].
  apply (notices_simulated _ _ (cw', _)).
  split; cbn; rewrite ?lookup_alter_eq, ?Hp; try done. unfold sv_pipeline, set_pipeline. by destruct cw'.
Qed.

Lemma step_simulated e x x' s :
  wired s x → impl_step the_server the_admin e x x' → ∃ s', spec_step e s s' ∧ wired s' x'.
Proof.
  intros Hs Hi. destruct Hi as [c a cw h h' Hc|c a cw h h' Hc|w w' cw cw' h h' Hr].
  - unfold data_call, mbind, ST_bind, st_get, mret, ST_ret in Hc.
    destruct c as [lat req|svc|t|t|]; cbn in Hc; simplify_eq; try (exists s; split; [by constructor|done]).
    + destruct (route_simulated lat req s cw h Hs) as (sampled & s' & Hr & Hw).
      destruct (server_Route _ _ _ _) as [r h1]. cbn [fst snd] in *. injection Hc as <- <-.
      exists s'. split; [|done]. pose proof (sp_route lat sampled req s) as Hp. cbv zeta in Hp. by rewrite Hr in Hp.
    + exists s. split; [|done]. destruct (decide (svc = "")) as [->|]; [|by constructor].
      destruct Hs as [_ _ _ _ Hh _]. cbn in Hh. rewrite Hh. constructor.
  - destruct c as [lat req|svc|t|t|]; try (assert ((Unimplemented, h) = (a, h')) as [= <- <-] by exact Hc; exists s; split; [by apply sp_refuse_admin|done]).
    + destruct (admin_simulated (DisableMethod t) t s cw h (or_introl eq_refl) Hs) as (H1 & H2 & H3).
      change (admin_call the_admin (RpcDisable t) h) with (let '(r, h1) := a_DisableMethod the_admin t h in (AAdmin r, h1)) in Hc.
      revert Hc. unfold a_DisableMethod. rewrite H1. change (ks_DisableMethod (a_ks the_admin) t h) with (on_pipe p (DisableMethod t) h).
      rewrite H2. intros [= <- <-]. eexists. split; [apply sp_disable|exact H3].
    + destruct (admin_simulated (EnableMethod t) t s cw h (or_intror eq_refl) Hs) as (H1 & H2 & H3).
      change (admin_call the_admin (RpcEnable t) h) with (let '(r, h1) := a_EnableMethod the_admin t h in (AAdmin r, h1)) in Hc.
      revert Hc. unfold a_EnableMethod. rewrite H1. change (ks_EnableMethod (a_ks the_admin) t h) with (on_pipe p (EnableMethod t) h).
      rewrite H2. intros [= <- <-]. eexists. split; [apply sp_enable|exact H3].
    + destruct (admin_simulated (DisableMethod "") "" s cw h (or_introl eq_refl) Hs) as (H1 & _).
      change (admin_call the_admin RpcListDisabled h) with (ADisabled (ks_DisabledMethods (a_ks the_admin) h), h) in Hc.
      rewrite H1 in Hc. injection Hc as <- <-. exists s. split; [apply sp_list|done].
  - pose proof (reload_simulated w s cw h Hs) as Hw. rewrite Hr in Hw. eexists. split; [apply (sp_reload w)|done].
Qed.

Lemma main_wire_wired pl hash h :
  h_pipe h !! p = Some pl → h_met h !! m = Some metrics_New → h_log h = [] →
  let '(objs, h') := main_wire ToLower ToUpper uint64 cfg p m log tp prop hash h in
  objs = (the_server, the_admin)
  ∧ wired (SetReady (Ready pl) (SetConfigVersion hash (mkService (New pl) (Some metrics_New) None false []))) (New pl, h').
Proof.
  intros Hp Hm Hl. cbn. split; [done|].
  split; cbn; rewrite ?lookup_alter_eq, ?Hm, ?Hl, ?health_set; try done. by erewrite pipe_at_lookup.
Qed.

Lemma boot_shape tracing_init watcher_start w s w' :
  boot ReadFile yaml_unmarshal registry tracing_init watcher_start path w = (Ok (cfg, s), w') →
  ∃ pl hash, s = SetReady (Ready pl) (SetConfigVersion hash (mkService (New pl) (Some metrics_New) None false [])).
Proof.
  unfold boot, mbind, ST_bind, mret, ST_ret. destruct (Load ReadFile yaml_unmarshal path w) as [[cfg'|] w1]; [|done].
  destruct (build_all registry (Methods cfg') w1) as [[ms|] w2]; [|done].
  destruct (tracing_init cfg' w2) as [[[]|] w3]; [|done]. destruct (configHash ReadFile path w3) as [hash w4].
  destruct (watcher_start path w4) as [[[]|] w5]; [|done]. intros [= -> <- _]. by exists (NewPipeline ms (DefaultRoutingGroup cfg)), hash.
Qed.

Lemma spec_step_ok e s s' : spec_step e s s' → service_ok cfg s → service_ok cfg s'.
Proof.
  pose proof (service_step_ok ToLower ToUpper ReadFile yaml_unmarshal registry path cfg) as Hok.
  intros Hs. destruct Hs; try done; apply Hok; constructor.
Qed.

(** C16: The objects [main] wires together implement the service: every run of calls on the
    two listeners and of reloads that do not overlap, with the answers given, is a run of the
    service [boot] describes, ending in a related state; and the service is well-formed
    there. *)
Theorem wired_service_refines tracing_init watcher_start w s w' h srv adm h1 es x :
  boot ReadFile yaml_unmarshal registry tracing_init watcher_start path w = (Ok (cfg, s), w') →
  h_pipe h !! p = Some (sv_pipeline s) → h_met h !! m = Some metrics_New → h_log h = [] →
  main_wire ToLower ToUpper uint64 cfg p m log tp prop (configVersion_ s) h = ((srv, adm), h1) →
  run (impl_step srv adm) es (sv_watcher s, h1) x →
  ∃ s', run spec_step es s s' ∧ wired s' x ∧ service_ok cfg s'.
Proof.
  intros Hb Hp Hm Hl Hw Hr. destruct (boot_ok _ _ _ _ _ _ _ _ _ _ Hb) as [Hok _].
  destruct (boot_shape _ _ _ _ _ Hb) as (pl & hash & Hs).
  pose proof (main_wire_wired pl hash h) as Hmw. rewrite Hs in Hp, Hw, Hr. cbn in Hp.
  specialize (Hmw Hp Hm Hl). change (configVersion_ _) with hash in Hw. rewrite Hw in Hmw. destruct Hmw as [[= -> ->] Hwd].
  rewrite <- Hs in Hwd. change (sv_watcher _) with (New pl) in Hr. clear Hs Hb Hw Hp.
  revert s Hok Hwd. induction Hr as [x|e es x1 x2 x3 H12 _ IH]; intros s Hok Hwd; [by exists s; split_and!; [constructor|..]|].
  destruct (step_simulated e x1 x2 s Hwd H12) as (s2 & Hs2 & Hw2).
  destruct (IH s2 (spec_step_ok _ _ _ Hs2 Hok) Hw2) as (s3 & Hs3 & Hw3 & Hok3).
  exists s3. split_and!; [by econstructor|done..].
Qed.
End simulation.

(** ** Observability does not change answers *)
Section transparency.
Context {H : Type} `{!Health H} (uint64 : nat → Z).

(** What the server relies on: an evaluator answers from the pipelines and its counters
    alone, and leaves the pipelines, the version and the health status as they are. *)
Class Quiet (e : @Evaluator H) : Prop := {
  quiet_frame req h : let h' := snd (ev_EvaluateResult e req h) in
    h_pipe h' = h_pipe h ∧ h_ver h' = h_ver h ∧ h_health h' = h_health h;
  quiet_answer req h1 h2 : h_pipe h1 = h_pipe h2 → h_cnt h1 = h_cnt h2 →
    fst (ev_EvaluateResult e req h1) = fst (ev_EvaluateResult e req h2)
    ∧ h_cnt (snd (ev_EvaluateResult e req h1)) = h_cnt (snd (ev_EvaluateResult e req h2)) }.

(** An observer that only records metrics. *)
Definition records_only (obs : option (string → bool → heap H → heap H)) : Prop :=
  match obs with Some f => ∀ r t h, f r t h = with_met (h_met (f r t h)) h | None => True end.

#[export] Instance stub_quiet c : Quiet (stubEvaluator c).
Proof. split; [done|]. intros req h1 h2 Hp Hc. split; [done|]. cbn [stubEvaluator ev_EvaluateResult]. unfold stub_EvaluateResult, mbind, ST_bind, count_call. cbn. by rewrite Hc. Qed.

Lemma pe_input_frame lo up e req h : records_only (pe_sqlObs e) →
  ∃ ms, snd (pe_input lo up e req h) = with_met ms h.
Proof.
  intros Ho. unfold pe_input. destruct (inputFromProto _ _ _ _) as [i [[r t]|]]; cbn [snd]; [|by exists (h_met h); destruct h].
  destruct (pe_sqlObs e) as [f|]; [|by exists (h_met h); destruct h]. cbn in Ho. rewrite Ho. by eexists.
Qed.
Lemma pe_input_same lo up (e : @PipelineEvaluator H) req h1 h2 : fst (pe_input lo up e req h1) = fst (pe_input lo up e req h2).
Proof. unfold pe_input. by destruct (inputFromProto _ _ _ _) as [i obs]. Qed.

Lemma pipeline_quiet lo up e : records_only (pe_sqlObs e) → Quiet (pipeline_evaluator lo up e).
Proof.
  intros Ho. split; cbn; unfold pe_evaluate_result, mbind, ST_bind, st_get, mret, ST_ret.
  - intros req h. destruct (pe_input_frame lo up e req h Ho) as [ms Hms]. destruct (pe_input _ _ _ _ _) as [i h']. cbn in *. by subst.
  - intros req h1 h2 Hp Hc. destruct (pe_input_frame lo up e req h1 Ho) as [m1 H1]. destruct (pe_input_frame lo up e req h2 Ho) as [m2 H2].
    pose proof (pe_input_same lo up e req h1 h2) as Hi. destruct (pe_input lo up e req h1) as [i1 h1'].
    destruct (pe_input lo up e req h2) as [i2 h2']. cbn in *. subst. unfold pipe_at. cbn. by rewrite Hp, Hc.
Qed.

Lemma dl_Log_frame d f (h : heap H) : let h' := snd (dl_Log d f h) in
  h_pipe h' = h_pipe h ∧ h_cnt h' = h_cnt h ∧ h_health h' = h_health h ∧ h_ver h' = h_ver h.
Proof.
  cbv zeta. unfold dl_Log, dl_ShouldLog, mbind, ST_bind. destruct (Fallback f); [done|].
  destruct (dl_s d _ _) as [[] n]; done.
Qed.

(** What a call of [Route] answers and leaves, in terms of the evaluator alone. *)
Lemma route_frame srv `{!Quiet (s_eval srv)} lat req h :
  let res := ev_EvaluateResult (s_eval srv) req h in
  let h' := snd (server_Route srv lat req h) in
  fst (server_Route srv lat req h)
    = mkRouteResponse (if new_submission req
        then (if er_RoutingGroup (fst res) =?s "" then DefaultRoutingGroup (s_cfg srv) else er_RoutingGroup (fst res))
        else "") [] ∅
  ∧ h_pipe h' = h_pipe h ∧ h_health h' = h_health h ∧ h_ver h' = h_ver h
  ∧ h_cnt h' = (if new_submission req then h_cnt (snd res) else h_cnt h).
Proof.
  cbv zeta. unfold server_Route. destruct (new_submission req); cbn [negb]; [|done].
  pose proof (quiet_frame req h) as (Hp & Hv & Hh). unfold mbind, ST_bind. destruct (ev_EvaluateResult _ _ _) as [r h1].
  cbn [fst snd] in *. unfold st_modify, st_get. cbv beta.
  set (h2 := match s_metrics srv with Some _ => _ | None => _ end h1).
  assert (h_pipe h2 = h_pipe h1 ∧ h_health h2 = h_health h1 ∧ h_ver h2 = h_ver h1 ∧ h_cnt h2 = h_cnt h1) as (H1 & H2 & H3 & H4).
  { unfold h2. by destruct (s_metrics srv). }
  clearbody h2. match goal with |- context [dl_Log ?d ?f h2] => pose proof (dl_Log_frame d f h2) as (L1 & L2 & L3 & L4); destruct (dl_Log d f h2) as [[] h3] end.
  cbn [snd] in *. unfold mret, ST_ret, end_span. cbn [fst snd].
  split_and!; [done|..]; destruct (s_tracer srv); cbn; congruence.
Qed.

(** The answers to a list of requests. *)
Fixpoint route_all (srv : @Server H) (reqs : list (Z * RouteRequest)) : ST (heap H) (list RouteResponse) :=
  match reqs with
  | [] => mret []
  | (lat, req) :: reqs => r ← server_Route srv lat req; rs ← route_all srv reqs; mret (r :: rs)
  end.

Lemma route_all_same srv1 srv2 reqs1 reqs2 h1 h2 :
  s_eval srv1 = s_eval srv2 → s_cfg srv1 = s_cfg srv2 → Quiet (s_eval srv1) → reqs1.*2 = reqs2.*2 →
  h_pipe h1 = h_pipe h2 → h_cnt h1 = h_cnt h2 → fst (route_all srv1 reqs1 h1) = fst (route_all srv2 reqs2 h2).
Proof.
  intros He Hc Q. revert reqs2 h1 h2. induction reqs1 as [|[lat1 req] reqs1 IH]; intros [|[lat2 req2] reqs2] h1 h2 Hr Hp Hn; try done.
  cbn in Hr. injection Hr as <- Hr. cbn [route_all]. unfold mbind, ST_bind.
  pose proof (route_frame srv1 lat1 req h1) as (A1 & P1 & _ & _ & N1). rewrite He in Q.
  pose proof (route_frame srv2 lat2 req h2) as (A2 & P2 & _ & _ & N2). rewrite He in A1, N1.
  destruct (quiet_answer req h1 h2 Hp Hn) as [Qa Qn].
  destruct (server_Route srv1 lat1 req h1) as [r1 k1], (server_Route srv2 lat2 req h2) as [r2 k2]. cbn [fst snd] in *.
  assert (r1 = r2) as -> by (rewrite A1, A2, Qa, Hc; done).
  specialize (IH reqs2 k1 k2 Hr). rewrite P1, P2, N1, N2, Hn, Qn in IH. specialize (IH Hp ltac:(by destruct (new_submission req))).
  destruct (route_all srv1 reqs1 k1) as [rs1 ?], (route_all srv2 reqs2 k2) as [rs2 ?]. cbn in *. by f_equal.
Qed.

(** Whatever metrics, decision logger and tracing a server is built with, and however
    long its evaluations take, it answers a sequence of requests as the server built
    without options does. *)
Theorem observability_transparent cfg eval `{!Quiet eval} log log' opts h h' reqs reqs' :
  h_pipe h = h_pipe h' → h_cnt h = h_cnt h' → reqs.*2 = reqs'.*2 →
  let '(srv, k) := server_New uint64 cfg eval log opts h in
  let '(bare, k') := server_New uint64 cfg eval log' [] h' in
  fst (route_all srv reqs k) = fst (route_all bare reqs' k').
Proof. intros Hp Hc Hr. cbn. by apply route_all_same. Qed.

(** A call on the data listener never changes a pipeline, and an admin method is not
    served there; the admin listener serves no routing and no health call. *)
Theorem planes_separate cfg eval `{!Quiet eval} log opts h0 ks c h :
  let '(srv, _) := server_New uint64 cfg eval log opts h0 in
  h_pipe (snd (data_call srv c h)) = h_pipe h
  ∧ h_health (snd (data_call srv c h)) = h_health h
  ∧ (service_of c = admin_service → data_call srv c h = (Unimplemented, h))
  ∧ (service_of c ≠ admin_service → admin_call (NewAdmin ks log) c h = (Unimplemented, h)).
Proof.
  cbn [server_New]. set (srv := mkServerObj _ _ _ _ _ _ _).
  destruct c as [lat req|svc|t|t|]; try (split_and!; [done|done|done|by intros []]).
  - pose proof (route_frame srv lat req h) as (_ & Hp & Hh & _).
    change (data_call srv (RpcRoute lat req) h) with (let '(r, h1) := server_Route srv lat req h in (ARoute r, h1)).
    destruct (server_Route srv lat req h) as [r h1]. by split_and!.
  - by split_and!.
Qed.

Definition submissions (reqs : list (Z * RouteRequest)) : nat := length (List.filter (λ x, new_submission x.2) reqs).
Definition stub_answer (cfg : Config) (x : Z * RouteRequest) : RouteResponse :=
  mkRouteResponse (if new_submission x.2 then DefaultRoutingGroup cfg else "") [] ∅.

Lemma stub_routes srv c reqs h n :
  s_eval srv = stubEvaluator c → h_cnt h !! c = Some n → in_int64 n →
  let '(rs, h') := route_all srv reqs h in
  rs = stub_answer (s_cfg srv) <$> reqs ∧ h_cnt h' !! c = Some (wrap64 (n + Z.of_nat (submissions reqs))).
Proof.
  intros He. revert h n. induction reqs as [|[lat req] reqs IH]; intros h n Hc Hn; cbn [route_all].
  { cbn. rewrite Z.add_0_r, wrap64_id by done. done. }
  assert (Quiet (s_eval srv)) as Q by (rewrite He; apply _).
  pose proof (route_frame srv lat req h) as (Ha & _ & _ & _ & Hk). unfold mbind, ST_bind.
  destruct (server_Route srv lat req h) as [r h1]. cbn [fst snd] in *. rewrite He in Ha, Hk.
  cbn [stubEvaluator ev_EvaluateResult] in Ha, Hk. unfold stub_EvaluateResult, mbind, ST_bind, st_modify, count_call in Ha, Hk. cbn in Ha, Hk.
  unfold submissions. cbn [List.filter snd]. destruct (new_submission req) eqn:En.
  - assert (Hc1 : h_cnt h1 !! c = Some (wrap64 (n + 1))) by by rewrite Hk, lookup_alter_eq, Hc.
    specialize (IH h1 _ Hc1 (wrap64_range _)). destruct (route_all srv reqs h1) as [rs h2]. destruct IH as [-> Hr].
    cbn [mret ST_ret length fmap list_fmap]. rewrite Hr. split; [f_equal; unfold stub_answer; cbn [snd]; by rewrite En, Ha|].
    f_equal. rewrite wrap64_add_l. f_equal. unfold submissions. lia.
  - rewrite <- Hk in Hc. specialize (IH h1 _ Hc Hn). destruct (route_all srv reqs h1) as [rs h2]. destruct IH as [-> Hr].
    cbn [mret ST_ret fmap list_fmap]. split; [f_equal; unfold stub_answer; cbn [snd]; by rewrite En, Ha|done].
Qed.

(** A server with the stub answers every new submission with the default group and
    counts it, and neither evaluates nor counts anything else; without a counter of the
    caller the stub counts on one of its own. *)
Theorem stub_counts cfg evalCount log opts reqs h :
  match evalCount with Some c => ∃ n, h_cnt h !! c = Some n ∧ in_int64 n | None => True end →
  let '(eval, h1) := NewStubEvaluator evalCount h in
  let '(srv, h2) := server_New uint64 cfg eval log opts h1 in
  let '(rs, h3) := route_all srv reqs h2 in
  rs = stub_answer cfg <$> reqs
  ∧ match evalCount with
    | Some c => ∀ n, h_cnt h !! c = Some n → h_cnt h3 !! c = Some (wrap64 (n + Z.of_nat (submissions reqs)))
    | None => ∃ c, h_cnt h !! c = None ∧ h_cnt h3 !! c = Some (wrap64 (Z.of_nat (submissions reqs)))
    end.
Proof.
  intros Hc. unfold NewStubEvaluator. destruct evalCount as [c|].
  - destruct Hc as (n & Hc & Hn). cbn [server_New]. set (srv := mkServerObj _ _ _ _ _ _ _). set (k := with_health _ h).
    pose proof (stub_routes srv c reqs k n eq_refl Hc Hn) as Hr. destruct (route_all srv reqs k) as [rs h3].
    destruct Hr as [-> Hr]. split; [done|]. intros n' Hn'. rewrite Hc in Hn'. by injection Hn' as <-.
  - set (c := fresh _). cbn [server_New]. set (srv := mkServerObj _ _ _ _ _ _ _). set (k := with_health _ _).
    assert (Hk : h_cnt k !! c = Some 0) by apply lookup_insert_eq.
    pose proof (stub_routes srv c reqs k 0 eq_refl Hk ltac:(done)) as Hr. destruct (route_all srv reqs k) as [rs h3].
    destruct Hr as [-> Hr]. split; [done|]. exists c. split; [apply not_elem_of_dom, is_fresh|done].
Qed.
End transparency.

(** ** Sampling *)

(** The rate is the float64 the literal 0.10 denotes. *)
Lemma default_rate_is_float :
  f64_div (f64_of_Z 1) (f64_of_Z 10) = SpecFloat.S754_finite false 7205759403792794 (-56)
  ∧ fst defaultSampleRate * 2 = 7205759403792794 ∧ snd defaultSampleRate + 1 = 56.
Proof. split_and!; vm_compute; reflexivity. Qed.

(** Of the [2^53] values [rand.Float64] can take, exactly 900719925474100 are sampled:
    the nearest count above a tenth. *)
Theorem sample_exact u :
  (float64_lt u defaultSampleRate = true ↔ 0 ≤ u mod 2 ^ 53 < 900719925474100)
  ∧ 0 < 900719925474100 * 10 - 2 ^ 53 < 10.
Proof.
  split; [|lia]. unfold float64_lt, defaultSampleRate. cbn [fst snd]. rewrite Z.ltb_lt.
  pose proof (Z.mod_pos_bound u (2 ^ 53) ltac:(lia)). change (2 ^ 55) with (4 * 2 ^ 53). set (v := u mod 2 ^ 53) in *. lia.
Qed.

(** A fallback is logged whatever the sampler says, and without asking it. *)
Lemma fallback_logged {H} d f (h : heap H) :
  Fallback f = true → dl_Log d f h = (tt, add_log (dl_log d) (decision_attrs f) h).
Proof. intros Hf. unfold dl_Log, dl_ShouldLog, mbind, ST_bind. by rewrite Hf. Qed.

(** ** Readiness *)

(** A new server is NOT_SERVING, though the library's default is SERVING, and then answers
    what [SetReady] was last told. *)
Theorem health_follows_ready {H} `{!Health H} uint64 cfg eval log opts (h0 : heap H) bs :
  let '(srv, h) := server_New uint64 cfg eval log opts h0 in
  let h' := fold_left (λ h b, server_SetReady b h) bs h in
  data_call srv (RpcCheck "") h' = (AHealth (Some (List.last bs false)), h').
Proof.
  cbn [server_New]. set (k := with_health _ h0). cbv zeta. set (h' := fold_left _ bs k).
  assert (health_Check "" (h_health h') = Some (List.last bs false)) as Hc.
  { unfold h'. destruct bs as [|b bs _] using rev_ind; [apply health_set|].
    rewrite fold_left_app, List.last_last. apply health_set. }
  unfold data_call, mbind, ST_bind, st_get, mret, ST_ret. cbn -[health_Check]. by rewrite Hc.
Qed.

(** ** The audit trail of the watcher *)

(** The version a trail leaves; each record starts from the version before it. *)
Fixpoint version_after (v : string) (ns : list notice) : string :=
  match ns with
  | [] => v
  | Audit result _ new _ _ :: ns => version_after (if result =?s "ok" then new else v) ns
  | _ :: ns => version_after v ns
  end.
Fixpoint chained (v : string) (ns : list notice) : Prop :=
  match ns with
  | [] => True
  | Audit result old new _ _ :: ns => old = v ∧ chained (if result =?s "ok" then new else v) ns
  | _ :: ns => chained v ns
  end.
Definition is_audit (n : notice) : bool := match n with Audit _ _ _ _ _ => true | _ => false end.

Lemma version_after_app v ns ns' : version_after v (ns ++ ns') = version_after (version_after v ns) ns'.
Proof. revert v. induction ns as [|[] ns IH]; intros v; cbn; auto. Qed.
Lemma chained_app v ns ns' : chained v (ns ++ ns') ↔ chained v ns ∧ chained (version_after v ns) ns'.
Proof. revert v. induction ns as [|[] ns IH]; intros v; cbn; rewrite ?IH; tauto. Qed.

Section audit.
Context {W : Type} (ReadFile : string → ST W (go_result string)) (yaml_unmarshal : string → Config → go_result Config).
Context (registry : Registry W) (path : string) (rs vs : bool).

Lemma reload_audit s w :
  let s' := fst (reload ReadFile yaml_unmarshal registry path rs vs s w) in
  ∃ result new summary err rest, notices s' = notices s ++ Audit result (oldHash s) new summary err :: rest
  ∧ List.filter is_audit rest = [] ∧ oldHash s' = (if result =?s "ok" then new else oldHash s).
Proof.
  cbv zeta. unfold reload, reload_body, mbind, ST_bind. destruct (ReadFile path w) as [[data|e] w1].
  2: { eexists _, _, _, _, _. cbn -[oldHash]. split_and!; [done| |done]. by destruct rs. }
  destruct (Load ReadFile yaml_unmarshal path w1) as [[cfg|e] w2].
  2: { eexists _, _, _, _, _. cbn -[oldHash]. split_and!; [done| |done]. by destruct rs. }
  destruct (build_all registry (Methods cfg) w2) as [[ms|e] w3]; eexists _, _, _, _, _;
    cbn -[oldHash]; (split_and!; [done| |done]); by destruct rs, vs.
Qed.

(** One audit record per reload; each names as its old version the last one applied. *)
Theorem audit_trail p t w tr s :
  execution ReadFile yaml_unmarshal registry path rs vs (start p t w) tr s →
  chained "" (notices (watcher s)) ∧ oldHash (watcher s) = version_after "" (notices (watcher s))
  ∧ length (List.filter is_audit (notices (watcher s))) = length (List.filter is_fire tr).
Proof.
  induction 1 as [|tr s l s' He (IHc & IHv & IHn) Hs]; [done|]. rewrite List.filter_app, length_app.
  destruct Hs as [| | | |s d cw w' Hx Ht Hd Hr|]; cbn [watcher List.filter is_fire snd length]; rewrite ?Nat.add_0_r; try by split_and!.
  destruct (reload_audit (watcher s) (world s)) as (result & new & summary & err & rest & Hn & Hf & Ho).
  rewrite Hr in Hn, Ho. cbn [fst] in *. rewrite Hn, Ho, List.filter_app, length_app, chained_app, version_after_app, IHn.
  cbn [List.filter is_audit length chained version_after]. rewrite Hf, IHv.
  assert (∀ v, chained v rest ∧ version_after v rest = v) as Hrest.
  { clear -Hf. induction rest as [|[] rest IH]; intros v; cbn in *; [done|done|by apply IH..]. }
  split_and!; try done; [apply Hrest|by rewrite (proj2 (Hrest _))].
Qed.
End audit.

(** ** Starting and stopping the watcher *)

(** [wp_handle] is the [fsnotify] watcher: nil, or whether it is open; [wp_loop] the
    goroutine: not started, or whether it runs; [wp_done] the channel it closes. *)
Record wproc : Type := mkWproc {
  wp_handle : option bool; wp_loop : option bool; wp_done : bool; wp_ctx : bool; wp_stopping : nat; wp_stopped : nat }.
Definition watcher_new : wproc := mkWproc None None false false 0 0.

(** [Start]; [new] and [add] are what [fsnotify.NewWatcher] and [Add] return. The number of
    descriptors left open comes with the result. *)
Definition watcher_Start (new add : option string) (s : wproc) : go_result unit * nat * wproc :=
  match new with
  | Some e => (Err ("reload: new watcher: " +:+ e), 0%nat, s)
  | None =>
      match add with
      | Some e => (Err ("reload: watch: " +:+ e), 0%nat, s)
      | None => (Ok tt, 1%nat, mkWproc (Some true) (Some true) (wp_done s) (wp_ctx s) (wp_stopping s) (wp_stopped s))
      end
  end.

(** The outside calls [Stop] or ends the context; by itself the loop returns when it sees
    the closed channels or the context, and a waiting [Stop] returns once the loop has. *)
Inductive wcall : wproc → wproc → Prop :=
| w_stop s : wcall s (mkWproc (match wp_handle s with Some _ => Some false | None => None end)
                        (wp_loop s) (wp_done s) (wp_ctx s) (S (wp_stopping s)) (wp_stopped s))
| w_cancel s : wcall s (mkWproc (wp_handle s) (wp_loop s) (wp_done s) true (wp_stopping s) (wp_stopped s)).
Inductive wstep : wproc → wproc → Prop :=
| w_loop_ends s : wp_loop s = Some true → wp_ctx s = true ∨ wp_handle s = Some false →
    wstep s (mkWproc (wp_handle s) (Some false) true (wp_ctx s) (wp_stopping s) (wp_stopped s))
| w_stopped s n : wp_stopping s = S n → wp_done s = true →
    wstep s (mkWproc (wp_handle s) (wp_loop s) (wp_done s) (wp_ctx s) n (S (wp_stopped s))).
Definition wany (s s' : wproc) : Prop := wcall s s' ∨ wstep s s'.

Record watch_ok (s : wproc) : Prop := {
  wk_done : wp_done s = true ↔ wp_loop s = Some false;
  wk_pair : wp_handle s = None ↔ wp_loop s = None;
  wk_closed : (0 < wp_stopping s + wp_stopped s)%nat → wp_handle s ≠ Some true;
  wk_stopped : (0 < wp_stopped s)%nat → wp_done s = true }.

Lemma wany_ok s s' : wany s s' → watch_ok s → watch_ok s'.
Proof.
  intros [Hs|Hs] [K1 K2 K3 K4]; destruct Hs as [s|s|s Hl Hc|s n Hn Hd] || destruct Hs as [s Hl Hc|s n Hn Hd]; split; cbn in *; try done.
  - destruct (wp_handle s), (wp_loop s); naive_solver.
  - intros _. by destruct (wp_handle s).
  - rewrite Hl in K2. naive_solver.
  - intros _. apply K3. lia.
Qed.

(** Whether the watcher was started does not change afterwards. *)
Lemma wany_started s s' : wany s s' → wp_loop s = None ↔ wp_loop s' = None.
Proof. intros [Hs|Hs]; destruct Hs; cbn; naive_solver. Qed.

Definition wait_weight (s : wproc) : nat := wp_stopping s + match wp_loop s with Some true => 1 | _ => 0 end.

(** After a successful [Start] exactly one descriptor is open; every [Stop] then returns,
    since the watcher can step while one waits and its steps end, and once one has, the
    goroutine is gone and the descriptor closed. After a failed [Start], or without one,
    nothing is left open and no [Stop] ever returns. *)
Theorem watcher_stop_returns new add s :
  let '(r, fds, s0) := watcher_Start new add watcher_new in
  rtc wany s0 s →
  if is_Ok r then
    fds = 1%nat ∧ ((0 < wp_stopped s)%nat → wp_loop s = Some false ∧ wp_handle s = Some false)
    ∧ ((0 < wp_stopping s)%nat → ∃ s', wstep s s')
    ∧ (∀ s', wstep s s' → (wait_weight s' < wait_weight s)%nat)
  else fds = 0%nat ∧ s0 = watcher_new ∧ wp_stopped s = 0%nat.
Proof.
  destruct (watcher_Start new add watcher_new) as [[r fds] s0] eqn:E. intros Hr.
  assert (watch_ok s0 ∧ fds = (if is_Ok r then 1 else 0)%nat ∧ (wp_loop s0 = None ↔ is_Ok r = false)
          ∧ (is_Ok r = false → s0 = watcher_new)) as (H0 & -> & Hl & Hw).
  { unfold watcher_Start in E. destruct new, add; simplify_eq; (split_and!; [split|..]; cbn; naive_solver lia). }
  assert (watch_ok s ∧ (wp_loop s = None ↔ is_Ok r = false)) as [[K1 K2 K3 K4] Hl'].
  { clear E Hw. induction Hr as [|s1 s2 s3 H12 _ IH]; [done|].
    apply IH; [by eapply wany_ok|]. by rewrite <- (wany_started _ _ H12). }
  clear E H0 Hl. destruct (is_Ok r) eqn:Er.
  - assert (wp_loop s ≠ None) as Hn by naive_solver. split_and!; [done|..].
    + intros Hs. split; [by apply K1, K4|]. specialize (K3 ltac:(lia)). destruct (wp_handle s) as [[]|] eqn:Eh; naive_solver.
    + intros Hs. specialize (K3 ltac:(lia)). destruct (wp_loop s) as [[]|] eqn:Eh; [|..|done].
      * eexists. apply w_loop_ends; [done|]. right. destruct (wp_handle s) as [[]|]; naive_solver.
      * destruct (wp_stopping s) as [|n] eqn:En; [lia|]. eexists. by eapply w_stopped; [|apply K1].
    + intros s' Hs. unfold wait_weight. destruct Hs as [s Hs|s n Hs]; cbn; [rewrite Hs; lia|rewrite Hs; lia].
  - split_and!; [done|by apply Hw|]. destruct (wp_stopped s) eqn:Es; [done|].
    assert (wp_loop s = Some false) by (apply K1, K4; lia). naive_solver.
Qed.

(** ** Witnesses *)
#[export] Program Instance map_health : Health (gmap string bool) := {
  health_New := {["" := true]}; SetServingStatus s b h := <[s := b]> h; health_Check s h := h !! s }.
Next Obligation. done. Qed.
Next Obligation. intros. apply lookup_insert_eq. Qed.
Next Obligation. intros. by apply lookup_insert_ne. Qed.

Definition w_heap : heap (gmap string bool) :=
  mkHeap _ {[0%nat := sv_pipeline w_service]} {[0%nat := metrics_New]} ∅ None ∅ [] [] 0.
Definition w_wired : (@Server (gmap string bool) * @AdminServer (gmap string bool)) * heap (gmap string bool) :=
  main_wire id id (λ n, Z.of_nat n) w_cfg 0 0 7 1 2 (configVersion_ w_service) w_heap.

(** A submission is routed by the method, the method is disabled on the admin listener,
    and the next submission goes to the default group. *)
Definition w_events : list event :=
  [DataCall (RpcRoute 5 w_submission) (ARoute (mkRouteResponse "alice" [] ∅));
   DataCall (RpcDisable "expr") Unimplemented;
   AdminCall (RpcDisable "expr") (AAdmin (true, "disabled", ["expr"]));
   DataCall (RpcRoute 5 w_submission) (ARoute (mkRouteResponse "adhoc" [] ∅));
   DataCall (RpcCheck "") (AHealth (Some true))].

Lemma wired_service_refines_witness :
  ∃ x s', run (impl_step w_fs w_yaml w_registry "rs.yaml" 0 0 w_wired.1.1 w_wired.1.2) w_events (sv_watcher w_service, w_wired.2) x
  ∧ run (spec_step id id w_fs w_yaml w_registry "rs.yaml" w_cfg) w_events w_service s' ∧ service_ok w_cfg s'.
Proof.
  assert (∃ x, run (impl_step w_fs w_yaml w_registry "rs.yaml" 0 0 w_wired.1.1 w_wired.1.2) w_events
                 (sv_watcher w_service, w_wired.2) x) as [x Hx].
  { eexists. eapply run_cons; [apply impl_data; vm_compute; reflexivity|].
    eapply run_cons; [apply impl_data; vm_compute; reflexivity|].
    eapply run_cons; [apply impl_admin; vm_compute; reflexivity|].
    eapply run_cons; [apply impl_data; vm_compute; reflexivity|].
    eapply run_cons; [apply impl_data; vm_compute; reflexivity|]. apply run_nil. }
  exists x.
  destruct (wired_service_refines id id (λ n, Z.of_nat n) w_fs w_yaml w_registry "rs.yaml" w_cfg 0 0 7 1 2
    w_init w_init tt w_service tt w_heap w_wired.1.1 w_wired.1.2 w_wired.2 w_events x) as (s' & H1 & _ & H2).
  - reflexivity.
  - reflexivity.
  - reflexivity.
  - reflexivity.
  - reflexivity.
  - exact Hx.
  - exists s'. split; [exact Hx|]. split; [exact H1|exact H2].
Defined.

(** The two halves of [DisableMethod]: its first look at the disabled set, and the rest. *)
Definition disable_first {H} (a : @AdminServer H) (t : string) (h : heap H) : bool :=
  contains_type (ks_DisabledMethods (a_ks a) h) t.
Definition disable_rest {H} (a : @AdminServer H) (before : bool) (t : string) : ST (heap H) admin_response := λ h,
  let h := ks_DisableMethod (a_ks a) t h in
  let disabled := ks_DisabledMethods (a_ks a) h in
  ((true, if before then "already disabled"
          else if negb (contains_type disabled t) then "unknown method type" else "disabled", disabled), a_notify a disabled h).

Lemma disable_halves {H} (a : @AdminServer H) t h : a_DisableMethod a t h = disable_rest a (disable_first a t h) t h.
Proof. done. Qed.

(** Two calls that overlap, both looking before either writes: both are told that they
    disabled the method, where one after the other the second is told it already was. *)
Example overlapping_disables :
  let adm := w_wired.1.2 in let h := w_wired.2 in
  let b1 := disable_first adm "expr" h in let b2 := disable_first adm "expr" h in
  let '(r1, h1) := disable_rest adm b1 "expr" h in let '(r2, _) := disable_rest adm b2 "expr" h1 in
  r1 = (true, "disabled", ["expr"]) ∧ r2 = (true, "disabled", ["expr"])
  ∧ fst (a_DisableMethod adm "expr" h1) = (true, "already disabled", ["expr"]).
Proof. vm_compute. split_and!; reflexivity. Qed.
