(* ===== verification/Wire.v ===== *)
(** * Between a client and a server (net/http)

    What a server's handler sees of a request a client sends, for the plain URLs the
    program builds ([http://host/path?query]), forms and cookies. Used to run the
    gateway's clients against the in-process servers of internal/testutil and the mock
    routers. Headers net/http adds on its own (Host, Date, Content-Length, User-Agent,
    Accept-Encoding) are not modelled. *)
From S2P Require Import Prelude GoStrings Json Codec HttpModel Routing ClusterStats Auth.

#[local] Open Scope Z_scope.

(** ** Targets *)

(** The authority of a plain URL: no user, no brackets, not empty. *)
Definition host_byte (c : ascii) : bool := is_alnum c || mem_byte c ".-:".
Definition plain_host (h : string) : bool := negb (h =?s "") && str_forallb host_byte h.

(** [setPath]: the decoded path, and the raw one where the default encoding differs. *)
Definition set_path (p : string) : option (string * string) :=
  path ← unescape_path p;
  Some (path, if escape_path path =?s p then "" else p).

(** [url.Parse] on a plain URL; [None] for the URLs this does not cover. *)
Definition parse_http (u : string) : option url :=
  if negb (has_prefix "http://" u) then None else
  let rest := str_drop 7 u in
  let '(host, tail) := match cut_byte "/" rest with Some (h, t) => (h, String "/" t) | None => (rest, "") end in
  if negb (plain_host host) || mem_byte "#" tail then None else
  let '(p, q) := from_opt (tail, "") (cut_byte "?" tail) in
  '(path, raw) ← set_path p;
  Some (Url "http" "" "" host path raw q (mem_byte "?" tail && (q =?s "")) "").

(** The request the server at the URL's host is handed, from a client at [remote] that
    has [cookies] for hosts; a server's URL has no scheme and no host. *)
Definition deliver (remote : string) (cookies : string → list (string * string)) (o : out_request) : option (string * request) :=
  u ← parse_http (or_url o);
  Some (url_host u,
        Request (or_method o)
          (Url "" "" "" "" (if url_path u =?s "" then "/" else url_path u) (url_rawpath u) (url_rawquery u) (url_forcequery u) "")
          (url_host u) remote false (or_header o) ∅ (cookies (url_host u)) (or_body o)).

(** ** Forms *)

(** The media type of a Content-Type value without its parameters. *)
Definition media_type (v : string) : string := to_lower (trim_space (fst (from_opt (v, "") (cut_byte ";" v)))).

(** [Request.PostFormValue]. *)
Definition post_form_value (r : request) (key : string) : string :=
  match req_body r with
  | Ok b =>
      if existsb (String.eqb (req_method r)) ["POST"; "PUT"; "PATCH"]
         && (media_type (hdr_get (req_header r) "Content-Type") =?s "application/x-www-form-urlencoded")
      then query_get b key else ""
  | Err _ => ""
  end.

(** ** Answers *)

(** An answer with the cookies it sets. *)
Definition answer : Type := response * list set_cookie.

Definition text_header : header :=
  hdr_set "X-Content-Type-Options" "nosniff" (hdr_set "Content-Type" "text/plain; charset=utf-8" ∅).
(** [http.Error] and [http.NotFound] on a fresh writer. *)
Definition error_answer (msg : string) (code : Z) : answer := (Response code text_header (msg +:+ nl) None, []).
Definition not_found : answer := error_answer "404 page not found" 404.
(** [json.NewEncoder(w).Encode(v)] after the content type. *)
Definition json_answer (v : json) : answer := (Response 200 json_header (print_json v +:+ nl) None, []).

(** A client gets no body with the answer to a HEAD request. *)
Definition as_received (meth : string) (r : response) : response :=
  if meth =?s "HEAD" then Response (resp_status r) (resp_header r) "" (resp_body_err r) else r.

(** ** Cookie jars ([net/http/cookiejar]) for host cookies with path [/]: host, name, value *)
Definition jar : Type := list (string * string * string).
Definition jar_cookies (j : jar) (host : string) : list (string * string) :=
  omap (λ '(h, n, v), if h =?s host then Some (n, v) else None) j.
Definition jar_set (host : string) (j : jar) (c : set_cookie) : jar :=
  List.filter (λ '(h, n, _), negb ((h =?s host) && (n =?s sc_name c))) j ++ [(host, sc_name c, sc_value c)].
Definition jar_add (host : string) (cs : list set_cookie) (j : jar) : jar := foldl (jar_set host) j cs.

(** ** Lemmas *)
Lemma unmarshal_print_nl v :
  wf_json v = true → (N.of_nat (jheight v) ≤ max_nesting_depth)%N → unmarshal_ast (print_json v +:+ nl) = Some v.
Proof.
  intros Hw Hh. unfold unmarshal_ast. pose proof (jsize_length v Hw). rewrite str_length_app.
  rewrite (parses_all v); [done|done|done|cbn; lia|cbn; lia].
Qed.
Lemma decode_print_nl v :
  wf_json v = true → (N.of_nat (jheight v) ≤ max_nesting_depth)%N → decode_ast (print_json v +:+ nl) = Some v.
Proof.
  intros Hw Hh. unfold decode_ast. pose proof (jsize_length v Hw). rewrite str_length_app.
  rewrite (parses_all v); [done|done|done|cbn; lia|cbn; lia].
Qed.
Lemma decode_print v :
  wf_json v = true → (N.of_nat (jheight v) ≤ max_nesting_depth)%N → decode_ast (print_json v) = Some v.
Proof.
  intros Hw Hh. unfold decode_ast. pose proof (jsize_length v Hw). rewrite <- (str_app_nil_r (print_json v)) at 2.
  rewrite (parses_all v); [done|done|done|cbn; lia|cbn; lia].
Qed.

(** Bytes that stand for themselves in a path. *)
Definition path_byte (c : ascii) : bool := negb (should_escape_path c) && negb (mem_byte c "?#%").

Lemma path_byte_plain c : path_byte c = true → should_escape_path c = false ∧ Ascii.eqb c "%" = false ∧ Ascii.eqb c "?" = false ∧ Ascii.eqb c "#" = false.
Proof. unfold path_byte. cbn [mem_byte]. intros H. seqb_simpl. done. Qed.

Lemma escape_plain p : str_forallb path_byte p = true → escape_path p = p ∧ unescape_path p = Some p.
Proof.
  induction p as [|c p IH]; [done|]. cbn [str_forallb]. intros [Hc Hp]%andb_true_iff. destruct (IH Hp) as [E U].
  destruct (path_byte_plain c Hc) as (He & Hpc & _). cbn [escape_path unescape_path]. rewrite He, Hpc, E, U. done.
Qed.

Lemma set_path_plain p : str_forallb path_byte p = true → set_path p = Some (p, "").
Proof. intros Hp. destruct (escape_plain p Hp) as [E U]. unfold set_path. rewrite U. cbn [mbind option_bind]. by rewrite E, seqb_refl. Qed.

Lemma host_ascii h : plain_host h = true → all_ascii h = true.
Proof.
  intros [_ Hh]%andb_true_iff. revert Hh. apply str_forallb_impl. intros c Hc.
  assert (H : implb (host_byte c) (is_ascii c) = true).
  { clear Hc. revert c. apply (ascii_forall (λ c, implb (host_byte c) (is_ascii c))). by vm_compute. }
  by rewrite Hc in H.
Qed.
Lemma host_no_slash h : str_forallb host_byte h = true → mem_byte "/" h = false.
Proof. apply mem_byte_none. done. Qed.
Lemma path_no_byte b p : path_byte b = false → str_forallb path_byte p = true → mem_byte b p = false.
Proof. apply mem_byte_none. Qed.

(** A plain URL is read back: host, path, and the text after the question mark. *)
Lemma parse_http_plain h p q :
  plain_host h = true → str_forallb path_byte p = true → mem_byte "#" q = false →
  parse_http ("http://" +:+ h +:+ String "/" p +:+ (if q =?s "" then "" else String "?" q))
  = Some (Url "http" "" "" h (String "/" p) "" q false "").
Proof.
  unfold plain_host. intros Hh Hp Hq. apply andb_true_iff in Hh as [Hne Hh]. unfold parse_http.
  rewrite has_prefix_app. cbn [negb]. change 7%nat with (String.length "http://"). rewrite str_drop_app.
  rewrite (str_app_cons "/"), cut_byte_app by (by apply host_no_slash). unfold plain_host. rewrite Hne, Hh. cbn [andb negb orb mem_byte].
  change (Ascii.eqb "#" "/") with false. cbn [orb]. rewrite mem_byte_app, (path_no_byte "#" p) by done.
  assert (Hps : str_forallb path_byte (String "/" p) = true) by (cbn [str_forallb]; by rewrite Hp).
  destruct (q =?s "") eqn:Eq; seqb_simpl.
  - subst q. rewrite str_app_nil_r. cbn [mem_byte orb]. replace (cut_byte "?" (String "/" p)) with (@None (string * string)).
    + cbn [from_opt]. rewrite set_path_plain by done. cbn [mbind option_bind]. change (Ascii.eqb "?" "/") with false. cbn [orb].
      rewrite (path_no_byte "?" p) by done. done.
    + symmetry. assert (Hm : mem_byte "?" (String "/" p) = false) by (by apply path_no_byte).
      clear -Hm. revert Hm. generalize (String "/" p). intros s. induction s as [|c s IH]; [done|]. cbn [mem_byte cut_byte].
      intros [H1 H2]%orb_false_iff. rewrite Ascii.eqb_sym in H1. by rewrite H1, IH.
  - cbn [orb]. rewrite <- (str_app_cons "/"), (cut_byte_app "?" (String "/" p)) by (by apply path_no_byte). cbn [from_opt]. cbn [mem_byte]. rewrite Hq, orb_false_r.
    change (Ascii.eqb "#" "?") with false. cbv iota. rewrite set_path_plain by done. cbn [mbind option_bind].
    apply seqb_neq in Eq. rewrite Eq, andb_false_r. done.
Qed.

(** [URL.String] writes what [parse_http] reads. *)
Lemma url_string_plain h p q :
  plain_host h = true → str_forallb path_byte p = true →
  url_string (Url "http" "" "" h (String "/" p) "" q false "") = "http://" +:+ h +:+ String "/" p +:+ (if q =?s "" then "" else String "?" q).
Proof.
  intros Hh Hp. apply andb_true_iff in Hh as [Hne _]. apply negb_true_iff in Hne.
  assert (Hps : str_forallb path_byte (String "/" p) = true) by (cbn [str_forallb]; by rewrite Hp).
  assert (Hep : escaped_path (Url "http" "" "" h (String "/" p) "" q false "") = String "/" p).
  { unfold escaped_path. cbn [url_rawpath url_path]. change ("" =?s "") with true. cbn [negb andb].
    replace (String "/" p =?s "*") with false by reflexivity. by apply escape_plain. }
  unfold url_string. rewrite Hep. cbn [url_scheme url_opaque url_host url_user url_path url_forcequery url_rawquery url_fragment].
  rewrite Hne. change ("http" =?s "") with false. change ("" =?s "") with true. cbn [negb andb orb].
  change (String "/" p =?s "") with false. cbn [negb andb]. change (has_prefix "/" (String "/" p)) with true. cbn [negb andb].
  rewrite !str_app_nil_l, str_app_nil_r. change ("http" +:+ ":") with "http:". rewrite !str_app_assoc. destruct (q =?s ""); reflexivity.
Qed.

Lemma parse_http_base h : plain_host h = true → parse_http ("http://" +:+ h) = Some (Url "http" "" "" h "" "" "" false "").
Proof.
  intros Hh. unfold parse_http. rewrite has_prefix_app. cbn [negb]. change 7%nat with (String.length "http://"). rewrite str_drop_app.
  assert (Hn : cut_byte "/" h = None).
  { apply andb_true_iff in Hh as [_ Hh]. apply host_no_slash in Hh. clear -Hh. induction h as [|c h IH]; [done|]. cbn [mem_byte cut_byte] in *.
    apply orb_false_iff in Hh as [H1 H2]. rewrite Ascii.eqb_sym in H1. by rewrite H1, IH. }
  rewrite Hn, Hh. done.
Qed.

(** What is sent to a plain URL arrives as it was sent. *)
Lemma deliver_plain remote cookies meth h p q hd body :
  plain_host h = true → str_forallb path_byte p = true → mem_byte "#" q = false →
  deliver remote cookies (OutRequest meth ("http://" +:+ h +:+ String "/" p +:+ (if q =?s "" then "" else String "?" q)) hd body)
  = Some (h, Request meth (Url "" "" "" "" (String "/" p) "" q false "") h remote false hd ∅ (cookies h) body).
Proof. intros Hh Hp Hq. unfold deliver. cbn [or_url]. rewrite parse_http_plain by done. done. Qed.

(** [strings.TrimRight] leaves a base URL as it is. *)
Lemma str_forallb_rev p s : str_forallb p (str_rev s) = str_forallb p s.
Proof.
  induction s as [|c s IH]; [done|]. rewrite str_rev_cons, str_forallb_app, IH. cbn [str_forallb]. by rewrite andb_true_r, andb_comm.
Qed.
Lemma trim_issuer h : plain_host h = true → trim_right_byte "/" ("http://" +:+ h) = "http://" +:+ h.
Proof.
  intros [Hne Hh]%andb_true_iff. unfold trim_right_byte. rewrite str_rev_app_distr. rewrite <- str_forallb_rev in Hh.
  destruct (str_rev h) as [|c r] eqn:E.
  - rewrite <- (str_rev_involutive h), E in Hne. done.
  - rewrite str_app_cons. cbn [drop_while]. cbn [str_forallb] in Hh. apply andb_true_iff in Hh as [Hc _].
    destruct (Ascii.eqb "/" c) eqn:Ec; [apply Ascii.eqb_eq in Ec as <-; done|].
    by rewrite <- str_app_cons, <- E, <- str_rev_app_distr, str_rev_involutive.
Qed.
