(* ===== verification/WireForms.v ===== *)
(** * Forms and redirects of [net/http] and [net/url]

    [url.Values] with its parser and printer, what [Request.ParseForm] rejects, and
    [http.Redirect], as the in-process servers use them. *)
From S2P Require Import Prelude GoStrings Json Codec HttpModel Routing ClusterStats Auth StaticUI Wire.

#[local] Open Scope Z_scope.

(** ** [url.Values] *)
Abbreviation Values := (gmap string (list string)).

Definition values_add (v : Values) (kv : string * string) : Values := <[kv.1 := from_opt [] (v !! kv.1) ++ [kv.2]]> v.
(** [URL.Query]: the pairs that decode. *)
Definition parse_values (rawquery : string) : Values := foldl values_add ∅ (omap query_pair (split_on "&" rawquery)).
Definition values_get (v : Values) (k : string) : string := match v !! k with Some (x :: _) => x | _ => "" end.
Definition values_set (k x : string) (v : Values) : Values := <[k := [x]]> v.
Definition values_encode (v : Values) : string :=
  form_encode (concat ((λ k, (λ x, (k, x)) <$> from_opt [] (v !! k)) <$> merge_sort String.le (elements (dom v)))).

(** [url.ParseQuery] reports no error: every non-empty piece decodes. *)
Definition parse_query_ok (rawquery : string) : bool :=
  forallb (λ p, (p =?s "") || match query_pair p with Some _ => true | None => false end) (split_on "&" rawquery).

Definition maxFormSize : Z := 10 * 2 ^ 20.
(** [Request.ParseForm] returns no error, for a well-formed Content-Type. *)
Definition parse_form_ok (r : request) : bool :=
  (if existsb (String.eqb (req_method r)) ["POST"; "PUT"; "PATCH"]
      && (media_type (hdr_get (req_header r) "Content-Type") =?s "application/x-www-form-urlencoded")
   then match req_body r with
        | Ok b => (Z.of_nat (String.length b) <=? maxFormSize) && parse_query_ok b
        | Err _ => false
        end
   else true)
  && parse_query_ok (url_rawquery (req_url r)).

(** ** [http.Redirect] *)
Fixpoint concat_map_str (f : ascii → string) (s : string) : string :=
  match s with EmptyString => "" | String c r => f c +:+ concat_map_str f r end.
Definition hex_escape_byte (c : ascii) : string :=
  if is_ascii c then String c "" else String "%" (String (hex_digit (byte_n c / 16)) (String (hex_digit (byte_n c mod 16)) "")).
Definition hexEscapeNonASCII (s : string) : string := concat_map_str hex_escape_byte s.
Definition html_escape_byte (c : ascii) : string :=
  if Ascii.eqb c "&" then "&amp;" else if Ascii.eqb c "<" then "&lt;" else if Ascii.eqb c ">" then "&gt;"
  else if Ascii.eqb c dquote then "&#34;" else if Ascii.eqb c "'" then "&#39;" else String c "".
Definition htmlEscape (s : string) : string := concat_map_str html_escape_byte s.

(** The directory part of [path.Split]. *)
Definition split_dir (p : string) : string := trim_suffix (List.last (split_on "/" p) "") p.

(** A URL without scheme and host is made an absolute, clean path. *)
Definition absolute_target (oldpath target : string) : string :=
  let oldpath := if oldpath =?s "" then "/" else oldpath in
  let target := if has_prefix "/" target then target else split_dir oldpath +:+ target in
  let '(p, query) := match cut_byte "?" target with Some (p, q) => (p, String "?" q) | None => (target, "") end in
  let clean := Clean p in
  (if has_suffix "/" p && negb (has_suffix "/" clean) then clean +:+ "/" else clean) +:+ query.

Definition status_found : string := "Found".
(** [http.Redirect(w, r, target, http.StatusFound)] on a fresh writer. *)
Definition redirect_found (url_parse : string → option url) (r : request) (target : string) : answer :=
  let target := match url_parse target with
                | Some u => if (url_scheme u =?s "") && (url_host u =?s "") then absolute_target (url_path (req_url r)) target else target
                | None => target
                end in
  let h := hdr_set "Location" (hexEscapeNonASCII target) ∅ in
  let m := req_method r in
  (Response 302 (if (m =?s "GET") || (m =?s "HEAD") then hdr_set "Content-Type" "text/html; charset=utf-8" h else h)
     (if m =?s "GET" then "<a href=" +:+ String dquote (htmlEscape target) +:+ String dquote ">" +:+ status_found +:+ "</a>." +:+ nl +:+ nl else "") None, []).

(** ** Lemmas *)
Lemma hexEscapeNonASCII_ascii s : all_ascii s = true → hexEscapeNonASCII s = s.
Proof.
  unfold hexEscapeNonASCII, all_ascii. induction s as [|c s IH]; [done|]. cbn [str_forallb concat_map_str].
  intros [Hc Hs]%andb_true_iff. unfold hex_escape_byte at 1. rewrite Hc, (IH Hs). done.
Qed.

Lemma form_safe_ascii s : str_forallb form_safe s = true → all_ascii s = true.
Proof.
  apply str_forallb_impl. intros c Hc. assert (H : implb (form_safe c) (is_ascii c) = true); [|by rewrite Hc in H].
  clear Hc. revert c. apply (ascii_forall (λ c, implb (form_safe c) (is_ascii c))). by vm_compute.
Qed.

(** The bytes of an encoded form. *)
Definition form_byte (c : ascii) : bool := form_safe c || mem_byte c "=&".
Lemma form_safe_byte s : str_forallb form_safe s = true → str_forallb form_byte s = true.
Proof. apply str_forallb_impl. unfold form_byte. intros c Hc. by rewrite Hc. Qed.
Lemma form_encode_bytes kvs : str_forallb form_byte (form_encode kvs) = true.
Proof.
  unfold form_encode.
  assert (Hp : ∀ kv : string * string, str_forallb form_byte ((λ '(k, v), query_escape k +:+ "=" +:+ query_escape v) kv) = true).
  { intros [k v]. rewrite !str_forallb_app. rewrite !(form_safe_byte _ (query_escape_safe _)). done. }
  induction kvs as [|kv kvs IH]; [done|]. rewrite fmap_cons. destruct kvs as [|kv' kvs]; [apply Hp|].
  rewrite fmap_cons in *. cbn [join] in *. rewrite !str_forallb_app, Hp. rewrite IH. done.
Qed.
Lemma form_encode_ascii kvs : all_ascii (form_encode kvs) = true.
Proof.
  eapply (str_forallb_impl form_byte); [|apply form_encode_bytes]. intros c Hc.
  assert (H : implb (form_byte c) (is_ascii c) = true); [|by rewrite Hc in H].
  clear Hc. revert c. apply (ascii_forall (λ c, implb (form_byte c) (is_ascii c))). by vm_compute.
Qed.
Lemma form_encode_lacks b kvs : form_byte b = false → mem_byte b (form_encode kvs) = false.
Proof. intros Hb. apply (mem_byte_none form_byte); [done|apply form_encode_bytes]. Qed.

Lemma form_encode_ok kvs : parse_query_ok (form_encode kvs) = true.
Proof.
  unfold parse_query_ok, form_encode. destruct kvs as [|kv kvs]; [done|]. rewrite split_on_join; [|done|].
  - generalize (kv :: kvs). intros l. induction l as [|[k v] l IH]; [done|]. rewrite fmap_cons. cbn [forallb].
    rewrite query_pair_escaped, orb_true_r, IH. done.
  - apply Forall_fmap, Forall_true. intros [k v]. cbn [compose]. rewrite !mem_byte_app. cbn [mem_byte]. by rewrite !query_escape_lacks.
Qed.

(** [Query().Get] is the first pair with the key. *)
Lemma foldl_values_get l v k : values_get (foldl values_add v l) k
  = match v !! k with Some (x :: _) => x | _ => from_opt "" (snd <$> find_first (λ kv, fst kv =?s k) l) end.
Proof.
  revert v. induction l as [|[k' x] l IH]; intros v; cbn [foldl find_first].
  - unfold values_get. cbn. by destruct (v !! k) as [[|]|].
  - rewrite IH. unfold values_add. cbn [fst snd]. destruct (k' =?s k) eqn:E; seqb_simpl.
    + subst k'. rewrite lookup_insert_eq. by destruct (v !! k) as [[|]|].
    + rewrite lookup_insert_ne by done. done.
Qed.
Lemma values_get_query raw k : values_get (parse_values raw) k = query_get raw k.
Proof. unfold parse_values, query_get. by rewrite foldl_values_get, lookup_empty. Qed.

Lemma b64_ascii s : all_ascii (b64_encode true false s) = true.
Proof.
  assert (Hc : ∀ d, (d < 64)%N → is_ascii (b64_char true d) = true).
  { apply (N_forall_below 64 (λ d, is_ascii (b64_char true d))). by vm_compute. }
  unfold all_ascii. induction s as [|a|a b|a b c r IH] using string_ind3; [done|..];
    cbn [b64_encode str_forallb]; rewrite !Hc by sextet; by rewrite ?IH.
Qed.

Lemma read_limited_all limit st hd body : Z.of_nat (String.length body) < limit → read_limited limit (Response st hd body None) = Ok body.
Proof. intros Hl. unfold read_limited. cbn [resp_body resp_body_err]. by rewrite (proj2 (Z.leb_gt _ _)) by lia. Qed.
