(* ===== verification/TrinoFake.v ===== *)
(** * The fake Trino backend (internal/testutil/trino_fake.go)

    The in-process server the end-to-end tests run the gateway against: the statement
    protocol, health, and the statistics surfaces of the UI and of OpenMetrics. The
    fields of the struct are kept in three groups. The wall clock and the random bytes
    of the n-th query id are parameters, and so is Go's order over the map of queued
    queries; counters are unbounded, except the sequence number. Requests come clean from
    the mux, which redirects paths with empty or dot segments. *)
From S2P Require Import Prelude GoStrings Json Codec HttpModel Config Routing ClusterStats Auth Wire.

#[local] Open Scope Z_scope.

Definition uiCookieName : string := "Trino-UI-Token".

(** The statement protocol and health. *)
Record statements : Type := mkStatements {
  seq : N; queryIDs : list string; requestBody : gmap string string; requestHeaders : gmap string header;
  hitCount : gmap string nat; headProbes : gmap string nat; cancellations : list string; starting : bool }.
(** The UI with its login. *)
Record ui_surface : Type := mkUI {
  uiUsername : string; uiPassword : string; uiCredsSet : bool; activeWorkers : Z; runningQ : Z; queuedQ : Z;
  queuedByUser : gmap string Z; loginCount : nat; uiStatsHits : nat; uiQueryHits : nat; lastForwardedTo : string }.
(** OpenMetrics. *)
Record metrics_surface : Type := mkMetricsSurface {
  metricsBody : string; metricsPath : string; metricsHits : nat; lastBasicUser : string; lastTrinoUser : string }.
Record TrinoFake : Type := mkTrinoFake { tf_st : statements; tf_ui : ui_surface; tf_met : metrics_surface }.

Definition NewTrinoFake : TrinoFake :=
  mkTrinoFake (mkStatements 0 [] ∅ ∅ ∅ ∅ [] false) (mkUI "" "" false 0 0 0 ∅ 0 0 0 "") (mkMetricsSurface "" "" 0 "" "").

(** ** What tests set and read *)
Definition QueryIDs (f : TrinoFake) : list string := queryIDs (tf_st f).
Definition HitCount (f : TrinoFake) (queryID : string) : nat := from_opt 0%nat (hitCount (tf_st f) !! queryID).
Definition HeadProbes (f : TrinoFake) (queryID : string) : nat := from_opt 0%nat (headProbes (tf_st f) !! queryID).
Definition Cancellations (f : TrinoFake) : list string := cancellations (tf_st f).
Definition ReceivedHeaders (f : TrinoFake) (queryID : string) : option header := requestHeaders (tf_st f) !! queryID.
Definition LoginCount (f : TrinoFake) : nat := loginCount (tf_ui f).
Definition UIStatsHits (f : TrinoFake) : nat := uiStatsHits (tf_ui f).
Definition UIQueryHits (f : TrinoFake) : nat := uiQueryHits (tf_ui f).
Definition MetricsHits (f : TrinoFake) : nat := metricsHits (tf_met f).
Definition LastForwardedProto (f : TrinoFake) : string := lastForwardedTo (tf_ui f).
Definition LastMetricsAuth (f : TrinoFake) : string * string := (lastBasicUser (tf_met f), lastTrinoUser (tf_met f)).

Definition SetStarting (v : bool) (f : TrinoFake) : TrinoFake :=
  let s := tf_st f in
  mkTrinoFake (mkStatements (seq s) (queryIDs s) (requestBody s) (requestHeaders s) (hitCount s) (headProbes s) (cancellations s) v)
    (tf_ui f) (tf_met f).
Definition SetUICredentials (username password : string) (f : TrinoFake) : TrinoFake :=
  let u := tf_ui f in
  mkTrinoFake (tf_st f) (mkUI username password true (activeWorkers u) (runningQ u) (queuedQ u) (queuedByUser u) (loginCount u)
    (uiStatsHits u) (uiQueryHits u) (lastForwardedTo u)) (tf_met f).
Definition SetUIStats (workers running queued : Z) (f : TrinoFake) : TrinoFake :=
  let u := tf_ui f in
  mkTrinoFake (tf_st f) (mkUI (uiUsername u) (uiPassword u) (uiCredsSet u) workers running queued (queuedByUser u) (loginCount u)
    (uiStatsHits u) (uiQueryHits u) (lastForwardedTo u)) (tf_met f).
Definition SetQueuedQueries (perUser : gmap string Z) (f : TrinoFake) : TrinoFake :=
  let u := tf_ui f in
  mkTrinoFake (tf_st f) (mkUI (uiUsername u) (uiPassword u) (uiCredsSet u) (activeWorkers u) (runningQ u) (queuedQ u) perUser
    (loginCount u) (uiStatsHits u) (uiQueryHits u) (lastForwardedTo u)) (tf_met f).
Definition SetMetrics (body : string) (f : TrinoFake) : TrinoFake :=
  let m := tf_met f in
  mkTrinoFake (tf_st f) (tf_ui f) (mkMetricsSurface body (metricsPath m) (metricsHits m) (lastBasicUser m) (lastTrinoUser m)).
Definition SetMetricsPath (path : string) (f : TrinoFake) : TrinoFake :=
  let m := tf_met f in
  mkTrinoFake (tf_st f) (tf_ui f) (mkMetricsSurface (metricsBody m) path (metricsHits m) (lastBasicUser m) (lastTrinoUser m)).

(** ** Handlers *)
Definition set_ui (u : ui_surface) (f : TrinoFake) : TrinoFake := mkTrinoFake (tf_st f) u (tf_met f).
Definition set_st (s : statements) (f : TrinoFake) : TrinoFake := mkTrinoFake s (tf_ui f) (tf_met f).

Definition handleInfo : ST TrinoFake answer := λ f,
  ((Response 200 json_header
      (print_json (JObj (if starting (tf_st f) then [("starting", JBool true)]
         else [("starting", JBool false); ("uptime", JStr "0.00s"); ("nodeVersion", JObj [("version", JStr "481")])]))) None, []), f).

Definition hasUICookie (r : request) : bool :=
  match req_cookie r uiCookieName with Some v => negb (v =?s "") | None => false end.

Definition handleUILogin (r : request) : ST TrinoFake answer := λ f,
  let user := post_form_value r "username" in
  let pass := post_form_value r "password" in
  let u := tf_ui f in
  let f' := set_ui (mkUI (uiUsername u) (uiPassword u) (uiCredsSet u) (activeWorkers u) (runningQ u) (queuedQ u) (queuedByUser u)
              (S (loginCount u)) (uiStatsHits u) (uiQueryHits u) (lastForwardedTo u)) f in
  if uiCredsSet u && (user =?s uiUsername u) && (pass =?s uiPassword u)
  then ((Response 200 ∅ "" None, [SetCookie uiCookieName ("session-" +:+ user) "/" 0 true false SameSiteDefault]), f')
  else (error_answer "forbidden" 403, f').

Definition handleUIStats (r : request) : ST TrinoFake answer := λ f,
  if negb (hasUICookie r) then (error_answer "unauthorized" 401, f) else
  let u := tf_ui f in
  (json_answer (JObj [("activeWorkers", jint (activeWorkers u)); ("queuedQueries", jint (queuedQ u)); ("runningQueries", jint (runningQ u))]),
   set_ui (mkUI (uiUsername u) (uiPassword u) (uiCredsSet u) (activeWorkers u) (runningQ u) (queuedQ u) (queuedByUser u) (loginCount u)
     (S (uiStatsHits u)) (uiQueryHits u) (hdr_get (req_header r) "X-Forwarded-Proto")) f).

Section fake.
(** The clock (milliseconds) and the two random bytes of the n-th query id; the order of a
    [range] over the queued queries. *)
Context (now_ms : N → Z) (entropy : N → string) (range_order : gmap string Z → list (string * Z)).

(** The users of the queued queries, one entry per query. *)
Definition queued_users (m : gmap string Z) : list string :=
  concat ((λ '(user, n), repeat user (Z.to_nat n)) <$> range_order m).
Definition queued_json (users : list string) : json :=
  JArr (imap (λ i user, JObj [("queryId", JStr ("q_" +:+ z_to_dec (Z.of_nat i + 1))); ("sessionUser", JStr user); ("state", JStr "QUEUED")]) users).

Definition handleUIQuery (r : request) : ST TrinoFake answer := λ f,
  if negb (hasUICookie r) then (error_answer "unauthorized" 401, f) else
  let u := tf_ui f in
  (json_answer (queued_json (queued_users (queuedByUser u))),
   set_ui (mkUI (uiUsername u) (uiPassword u) (uiCredsSet u) (activeWorkers u) (runningQ u) (queuedQ u) (queuedByUser u) (loginCount u)
     (uiStatsHits u) (S (uiQueryHits u)) (hdr_get (req_header r) "X-Forwarded-Proto")) f).

Definition handleMetrics (r : request) : ST TrinoFake answer := λ f,
  let basic := BasicAuth r in
  let trinoUser := hdr_get (req_header r) "X-Trino-User" in
  if negb (bool_decide (is_Some basic)) && (trinoUser =?s "") then (error_answer "unauthorized" 401, f) else
  let m := tf_met f in
  ((Response 200 (hdr_set "Content-Type" "application/openmetrics-text; version=1.0.0; charset=utf-8" ∅) (metricsBody m) None, []),
   mkTrinoFake (tf_st f) (tf_ui f) (mkMetricsSurface (metricsBody m) (metricsPath m) (S (metricsHits m))
     (match basic with Some (user, _) => user | None => lastBasicUser m end)
     (if trinoUser =?s "" then lastTrinoUser m else trinoUser))).

(** [seq.Add(1)] on a uint64, and the id with it. *)
Definition next_seq (n : N) : N := ((n + 1) mod 2 ^ 64)%N.
Definition newQueryID (n : N) : string :=
  z_to_dec (now_ms n) +:+ "_" +:+ n_to_dec n +:+ "_" +:+ hex_encode (entropy n) +:+ "_trino".

Definition zero_stats : list (string * json) :=
  [("completedSplits", jint 0); ("cpuTimeMillis", jint 0); ("elapsedTimeMillis", jint 0); ("nodes", jint 0);
   ("peakMemoryBytes", jint 0); ("processedBytes", jint 0); ("processedRows", jint 0); ("queued", JBool true);
   ("queuedSplits", jint 0); ("queuedTimeMillis", jint 0); ("runningSplits", jint 0); ("scheduled", JBool false);
   ("spilledBytes", jint 0); ("state", JStr "QUEUED"); ("totalSplits", jint 0); ("wallTimeMillis", jint 0)].
Definition statement_json (host queryID : string) : json :=
  JObj [("id", JStr queryID); ("infoUri", JStr ("http://" +:+ host +:+ "/v1/queryinfo/" +:+ queryID));
        ("nextUri", JStr ("http://" +:+ host +:+ "/v1/query/" +:+ queryID +:+ "/1")); ("stats", JObj zero_stats)].

(** A body that breaks is kept as empty: what was read of it is not modelled. *)
Definition handleStatement (r : request) : ST TrinoFake answer := λ f,
  let s := tf_st f in
  let n := next_seq (seq s) in
  let queryID := newQueryID n in
  let body := match req_body r with Ok b => b | Err _ => "" end in
  (json_answer (statement_json (req_host r) queryID),
   set_st (mkStatements n (queryIDs s ++ [queryID]) (<[queryID := body]> (requestBody s)) (<[queryID := req_header r]> (requestHeaders s))
     (hitCount s) (headProbes s) (cancellations s) (starting s)) f).

Definition fake_extractQueryID (path : string) : string :=
  let rest := trim_prefix "/v1/query/" path in
  match index_byte "/" rest with Some i => str_take i rest | None => rest end.

Definition finished_json (queryID : string) : json :=
  JObj [("id", JStr queryID);
        ("stats", JObj [("queued", JBool false); ("scheduled", JBool false); ("state", JStr "FINISHED")])].

Definition bump_id (id : string) (m : gmap string nat) : gmap string nat := <[id := S (from_opt 0%nat (m !! id))]> m.

Definition handleQuery (r : request) : ST TrinoFake answer := λ f,
  let queryID := fake_extractQueryID (url_path (req_url r)) in
  let s := tf_st f in
  if req_method r =?s "GET" then
    (json_answer (finished_json queryID),
     set_st (mkStatements (seq s) (queryIDs s) (requestBody s) (requestHeaders s) (bump_id queryID (hitCount s)) (headProbes s)
       (cancellations s) (starting s)) f)
  else if req_method r =?s "HEAD" then
    ((Response (if bool_decide (is_Some (requestBody s !! queryID)) then 200 else 404) ∅ "" None, []),
     set_st (mkStatements (seq s) (queryIDs s) (requestBody s) (requestHeaders s) (hitCount s) (bump_id queryID (headProbes s))
       (cancellations s) (starting s)) f)
  else if req_method r =?s "DELETE" then
    ((Response 200 ∅ "" None, []),
     set_st (mkStatements (seq s) (queryIDs s) (requestBody s) (requestHeaders s) (hitCount s) (headProbes s)
       (cancellations s ++ [queryID]) (starting s)) f)
  else (error_answer "method not allowed" 405, f).

Definition metricsEndpoint (f : TrinoFake) : string := if metricsPath (tf_met f) =?s "" then "/metrics" else metricsPath (tf_met f).

Definition dispatch (r : request) : ST TrinoFake answer := λ f,
  let path := url_path (req_url r) in
  let m := req_method r in
  if (path =?s "/v1/info") && (m =?s "GET") then handleInfo f
  else if (path =?s "/v1/statement") && (m =?s "POST") then handleStatement r f
  else if has_prefix "/v1/query/" path then handleQuery r f
  else if (path =?s "/ui/login") && (m =?s "POST") then handleUILogin r f
  else if (path =?s "/ui/api/stats") && (m =?s "GET") then handleUIStats r f
  else if (path =?s "/ui/api/query") && (m =?s "GET") then handleUIQuery r f
  else if (path =?s metricsEndpoint f) && (m =?s "GET") then handleMetrics r f
  else (not_found, f).
End fake.

(** ** Query ids *)
Definition id_char (c : ascii) : bool := is_alnum c || mem_byte c "-_".

Lemma id_char_all (p : ascii → bool) s :
  (∀ c, implb (id_char c) (p c) = true) → str_forallb id_char s = true → str_forallb p s = true.
Proof. intros Hp. apply str_forallb_impl. intros c Hc. specialize (Hp c). by rewrite Hc in Hp. Qed.

Lemma id_char_path s : str_forallb id_char s = true → str_forallb path_byte s = true.
Proof. apply id_char_all, (ascii_forall (λ c, implb (id_char c) (path_byte c))). by vm_compute. Qed.
Lemma id_char_ascii s : str_forallb id_char s = true → all_ascii s = true.
Proof. apply id_char_all, (ascii_forall (λ c, implb (id_char c) (is_ascii c))). by vm_compute. Qed.
Lemma id_char_id s : str_forallb id_char s = true → str_forallb id_byte s = true.
Proof. apply id_char_all, (ascii_forall (λ c, implb (id_char c) (id_byte c))). by vm_compute. Qed.

Lemma hex_encode_id s : str_forallb id_char (hex_encode s) = true.
Proof.
  assert (Hd : ∀ n, (n < 16)%N → id_char (hex_digit n) = true).
  { apply (N_forall_below 16 (λ n, id_char (hex_digit n))). by vm_compute. }
  induction s as [|c s IH]; [done|]. cbn [hex_encode str_forallb]. pose proof (byte_n_lt c).
  rewrite !Hd, IH; [done|apply N.mod_lt; lia|apply N.Div0.div_lt_upper_bound; lia].
Qed.

Section ids.
Context (now_ms : N → Z) (entropy : N → string) (range_order : gmap string Z → list (string * Z)).
#[local] Abbreviation ID := (newQueryID now_ms entropy).

Lemma dec_id_chars z : str_forallb id_char (z_to_dec z) = true.
Proof.
  eapply str_forallb_impl; [|apply (z_to_dec_chars z)]. intros c Hc.
  assert (H : implb (digit_or_minus c) (id_char c) = true); [|by rewrite Hc in H].
  clear Hc. revert c. apply (ascii_forall (λ c, implb (digit_or_minus c) (id_char c))). by vm_compute.
Qed.
Lemma n_dec_id_chars n : str_forallb id_char (n_to_dec n) = true.
Proof.
  eapply str_forallb_impl; [|apply (n_to_dec_digits n)]. intros c Hc.
  assert (H : implb (is_digit c) (id_char c) = true); [|by rewrite Hc in H].
  clear Hc. revert c. apply (ascii_forall (λ c, implb (is_digit c) (id_char c))). by vm_compute.
Qed.

Lemma newQueryID_chars n : str_forallb id_char (ID n) = true.
Proof.
  unfold newQueryID. rewrite !str_forallb_app, dec_id_chars, n_dec_id_chars, hex_encode_id. done.
Qed.
Lemma newQueryID_nonempty n : ID n ≠ "".
Proof. unfold newQueryID. destruct (z_to_dec (now_ms n)); by rewrite ?str_app_nil_l, ?str_app_cons. Qed.

Lemma newQueryID_inj n m : ID n = ID m → n = m.
Proof.
  unfold newQueryID. intros H. rewrite !str_app_cons, !str_app_nil_l in H.
  assert (Hz : ∀ z, mem_byte "_" (z_to_dec z) = false) by (intros z; eapply mem_byte_none, z_to_dec_chars; done).
  assert (Hn : ∀ n, mem_byte "_" (n_to_dec n) = false) by (intros k; eapply mem_byte_none, n_to_dec_digits; done).
  pose proof (cut_byte_app "_" (z_to_dec (now_ms n)) (n_to_dec n +:+ String "_" (hex_encode (entropy n) +:+ "_trino")) (Hz _)) as C1.
  rewrite H, cut_byte_app in C1 by apply Hz. injection C1 as _ C1.
  pose proof (cut_byte_app "_" (n_to_dec m) (hex_encode (entropy m) +:+ "_trino") (Hn m)) as C2.
  rewrite C1, cut_byte_app in C2 by apply Hn. injection C2 as C2 _.
  destruct (n_to_dec_spec n) as (? & ? & ? & ? & Vn & _). destruct (n_to_dec_spec m) as (? & ? & ? & ? & Vm & _). congruence.
Qed.

(** *** What holds of a fake whatever it was asked *)
Record fake_ok (f : TrinoFake) : Prop := {
  fo_seq : seq (tf_st f) = N.of_nat (length (queryIDs (tf_st f)));
  fo_ids : ∀ i, (i < length (queryIDs (tf_st f)))%nat → queryIDs (tf_st f) !! i = Some (ID (N.of_nat (S i)));
  fo_known : ∀ id, is_Some (requestBody (tf_st f) !! id) ↔ id ∈ queryIDs (tf_st f) }.

Lemma fake_ok_new : fake_ok NewTrinoFake.
Proof. split; [done|cbn; lia|]. intros id. cbn. rewrite lookup_empty, elem_of_nil. split; [by intros [? [=]]|done]. Qed.

Lemma fake_ok_eq f f' : seq (tf_st f') = seq (tf_st f) → queryIDs (tf_st f') = queryIDs (tf_st f) →
  requestBody (tf_st f') = requestBody (tf_st f) → fake_ok f → fake_ok f'.
Proof. intros E1 E2 E3 [H1 H2 H3]. split; rewrite ?E1, ?E2, ?E3; done. Qed.

Lemma statement_ok r f : (N.of_nat (S (length (queryIDs (tf_st f)))) < 2 ^ 64)%N → fake_ok f → fake_ok (snd (handleStatement now_ms entropy r f)).
Proof.
  intros Hlt [H1 H2 H3]. assert (Hn : next_seq (seq (tf_st f)) = N.of_nat (S (length (queryIDs (tf_st f))))).
  { unfold next_seq. rewrite H1, N.mod_small; lia. }
  split; cbn.
  - rewrite Hn, length_app. cbn. f_equal. lia.
  - rewrite length_app. cbn. intros i Hi. destruct (decide (i < length (queryIDs (tf_st f)))%nat) as [Hl|Hl].
    + rewrite lookup_app_l by done. by apply H2.
    + rewrite lookup_app_r by lia. replace (i - _)%nat with 0%nat by lia. cbn. rewrite Hn. do 3 f_equal. lia.
  - intros id. rewrite elem_of_app, list_elem_of_singleton. destruct (decide (id = newQueryID now_ms entropy (next_seq (seq (tf_st f))))) as [->|Hne].
    + rewrite lookup_insert_eq. split; [by right|by eexists].
    + rewrite lookup_insert_ne by done. rewrite H3. naive_solver.
Qed.

(** One request, then any number of them. *)
Lemma dispatch_ok r f : (N.of_nat (S (length (queryIDs (tf_st f)))) < 2 ^ 64)%N → fake_ok f →
  fake_ok (snd (dispatch now_ms entropy range_order r f))
  ∧ (length (queryIDs (tf_st (snd (dispatch now_ms entropy range_order r f)))) ≤ S (length (queryIDs (tf_st f))))%nat.
Proof.
  intros Hlt Hok. unfold dispatch, handleInfo, handleQuery, handleUILogin, handleUIStats, handleUIQuery, handleMetrics.
  destruct (_ && _); [split; [done|cbn; lia]|].
  destruct (_ && _); [split; [by apply statement_ok|cbn; rewrite length_app; cbn; lia]|].
  repeat (match goal with |- context [if ?b then _ else _] => lazymatch type of b with bool => destruct b end end); cbn;
    (split; [apply (fake_ok_eq f); done|lia]).
Qed.

Definition serve_all (rs : list request) (f : TrinoFake) : TrinoFake :=
  foldl (λ f r, snd (dispatch now_ms entropy range_order r f)) f rs.

Lemma serve_all_ok rs f : (N.of_nat (length (queryIDs (tf_st f)) + length rs) < 2 ^ 64)%N → fake_ok f → fake_ok (serve_all rs f).
Proof.
  revert f. induction rs as [|r rs IH]; intros f Hlt Hok; [done|]. cbn [serve_all foldl]. cbn [length] in Hlt.
  destruct (dispatch_ok r f) as [Hok' Hlen]; [lia|done|]. apply IH; [|done]. cbn in *. lia.
Qed.

Lemma fake_ok_NoDup f : fake_ok f → NoDup (queryIDs (tf_st f)).
Proof.
  intros [_ H2 _]. apply NoDup_alt. intros i j x Hi Hj. pose proof (lookup_lt_Some _ _ _ Hi) as Li. pose proof (lookup_lt_Some _ _ _ Hj) as Lj.
  rewrite H2 in Hi, Hj by done. simplify_eq. match goal with H : ID _ = ID _ |- _ => apply newQueryID_inj in H end. lia.
Qed.

(** Whatever is asked of the fake, the ids it has handed out are distinct and are the
    queries a HEAD probe finds, below 2^64 requests. *)
Theorem fake_ids_distinct rs : (N.of_nat (length rs) < 2 ^ 64)%N →
  let f := serve_all rs NewTrinoFake in
  NoDup (QueryIDs f) ∧ ∀ id, is_Some (requestBody (tf_st f) !! id) ↔ id ∈ QueryIDs f.
Proof.
  intros Hlt. cbv zeta. assert (Hok : fake_ok (serve_all rs NewTrinoFake)) by (apply serve_all_ok; [cbn; lia|apply fake_ok_new]).
  split; [by apply fake_ok_NoDup|apply Hok].
Qed.
End ids.

(** *** Paths *)
Lemma fake_extractQueryID_path id rest : str_forallb id_char id = true → (rest = "" ∨ ∃ t, rest = String "/" t) →
  fake_extractQueryID ("/v1/query/" +:+ id +:+ rest) = id.
Proof.
  intros Hid Hr. unfold fake_extractQueryID, trim_prefix. rewrite has_prefix_app, str_drop_app.
  assert (Hm : mem_byte "/" id = false) by (eapply mem_byte_none, Hid; done).
  destruct Hr as [->|[t ->]].
  - rewrite str_app_nil_r. destruct (index_byte "/" id) as [i|] eqn:E; [|done]. exfalso. clear -Hm E. revert i E.
    induction id as [|c id IH]; intros i E; [done|]. cbn [mem_byte index_byte] in *. apply orb_false_iff in Hm as [H1 H2].
    rewrite Ascii.eqb_sym in H1. rewrite H1 in E. destruct (index_byte "/" id) as [j|]; [|done]. by eapply IH.
  - change (String "/" t) with ("/" +:+ t). rewrite (index_byte_app "/" id t Hm). by rewrite str_take_app.
Qed.
