(* ===== verification/Fleet.v ===== *)
(** * The gateway in front of fake backends

    The clients of the gateway (proxy, recovery probes, health monitor, statistics
    collectors) connected through [Wire] to a fleet of [TrinoFake]s, as the end-to-end
    tests connect them. The theorems say what those tests sample: a query runs through the
    gateway to its end at one backend, an unknown query is found by probing, and the
    monitor and the collectors read what a backend reports. *)
From S2P Require Import Prelude GoStrings GoNumeric Json Codec HttpModel Config Lru KillQuery Routing Cookie Forward ClusterStats Auth Monitor Wire TrinoFake.

#[local] Open Scope Z_scope.

(** Fakes by host. *)
Abbreviation fleet := (gmap string TrinoFake).

Section fleet.
(** Clock and random bytes of each host's fake, and Go's order over its map. *)
Context (now_ms : string → N → Z) (entropy : string → N → string) (range_order : gmap string Z → list (string * Z)).

Definition serve_host (host : string) : request → ST TrinoFake answer := dispatch (now_ms host) (entropy host) range_order.
Definition new_id (host : string) (f : TrinoFake) : string := newQueryID (now_ms host) (entropy host) (next_seq (seq (tf_st f))).

(** [http.Client.Do] from [remote] with the cookies it has for a host. *)
Definition fleet_do (remote : string) (cookies : string → list (string * string)) (o : out_request) :
    ST fleet (call_result (string * answer)) := λ fl,
  match deliver remote cookies o with
  | None => (CErr (mkCallError "unsupported protocol scheme" false), fl)
  | Some (host, r) =>
      match fl !! host with
      | None => (CErr (mkCallError ("dial tcp: connect " +:+ host +:+ ": connection refused") false), fl)
      | Some f =>
          let '((resp, cs), f') := serve_host host r f in
          (COk (host, (as_received (or_method o) resp, cs)), <[host := f']> fl)
      end
  end.
Definition no_cookies (_ : string) : list (string * string) := [].
Definition fleet_call (remote : string) (o : out_request) : ST fleet (call_result response) := λ fl,
  match fleet_do remote no_cookies o fl with
  | (COk (_, (resp, _)), fl') => (COk resp, fl')
  | (CErr e, fl') => (CErr e, fl')
  end.

Lemma fleet_do_plain remote cookies o h p q fl f :
  or_url o = "http://" +:+ h +:+ String "/" p +:+ (if q =?s "" then "" else String "?" q) →
  plain_host h = true → str_forallb path_byte p = true → mem_byte "#" q = false → fl !! h = Some f →
  fleet_do remote cookies o fl
  = let '((resp, cs), f') := serve_host h
        (Request (or_method o) (Url "" "" "" "" (String "/" p) "" q false "") h remote false (or_header o) ∅ (cookies h) (or_body o)) f in
    (COk (h, (as_received (or_method o) resp, cs)), <[h := f']> fl).
Proof.
  intros Hu Hh Hp Hq Hf. destruct o as [meth u hd body]. cbn in Hu. subst u. unfold fleet_do. rewrite deliver_plain by done. by rewrite Hf.
Qed.

Lemma fleet_do_absent remote cookies o h p q fl :
  or_url o = "http://" +:+ h +:+ String "/" p +:+ (if q =?s "" then "" else String "?" q) →
  plain_host h = true → str_forallb path_byte p = true → mem_byte "#" q = false → fl !! h = None →
  ∃ e, fleet_do remote cookies o fl = (CErr e, fl).
Proof.
  intros Hu Hh Hp Hq Hf. destruct o as [meth u hd body]. cbn in Hu. subst u. unfold fleet_do. rewrite deliver_plain by done. rewrite Hf. by eexists.
Qed.

Lemma fleet_call_plain remote meth h p q hd body fl f :
  plain_host h = true → str_forallb path_byte p = true → mem_byte "#" q = false → fl !! h = Some f →
  fleet_call remote (OutRequest meth ("http://" +:+ h +:+ String "/" p +:+ (if q =?s "" then "" else String "?" q)) hd body) fl
  = let '((resp, _), f') := serve_host h (Request meth (Url "" "" "" "" (String "/" p) "" q false "") h remote false hd ∅ [] body) f in
    (COk (as_received meth resp), <[h := f']> fl).
Proof.
  intros Hh Hp Hq Hf. unfold fleet_call. rewrite (fleet_do_plain _ _ _ h p q _ f) by done. cbn [or_method or_header or_body].
  unfold no_cookies. destruct (serve_host _ _ _) as [[resp cs] f']. done.
Qed.

Lemma serve_statement h r f : req_method r = "POST" → url_path (req_url r) = "/v1/statement" →
  serve_host h r f = TrinoFake.handleStatement (now_ms h) (entropy h) r f.
Proof. intros Hm Hp. unfold serve_host, dispatch. rewrite Hm, Hp. done. Qed.

Lemma serve_query h r f rest : url_path (req_url r) = "/v1/query/" +:+ rest → serve_host h r f = handleQuery r f.
Proof. intros Hp. unfold serve_host, dispatch. by rewrite Hp. Qed.

(** ** The proxy *)
Section proxy.
Context {S : Type} `{StickyRouter S} {Hist : Type}.
Context (cfg : ProxyConfig) (cookie : CookieConfig) (metrics : bool) (now : Z) (remote : string).
Context (history : option (string → string → string → string → ST Hist (option string))).

(** The proxy's collaborators: the fleet, and a history with a state of its own. *)
Definition gw_env : proxy_env (fleet * Hist) :=
  mkProxyEnv _ cfg cookie
    (λ o '(fl, h), let '(r, fl') := fleet_call remote o fl in (match r with COk x => Ok x | CErr e => Err (ce_msg e) end, (fl', h)))
    ((λ ins q b u s '(fl, h), let '(e, h') := ins q b u s h in (e, (fl, h'))) <$> history) metrics parse_http (λ _ _, true) now (λ _, false).

(** The response the client has received. *)
Definition client_answer (s : proxy_state S (fleet * Hist)) : option (Z * string) :=
  match rev (ps_events s) with EvWrite b :: EvWriteHeader st _ _ :: _ => Some (st, b) | _ => None end.

Lemma client_answer_end rs w h es st h' cs b : client_answer (mkProxyState rs w h (es ++ [EvWriteHeader st h' cs; EvWrite b])) = Some (st, b).
Proof. unfold client_answer. cbn [ps_events]. by rewrite rev_app_distr. Qed.

Lemma gw_build h p q r body : plain_host h = true → str_forallb path_byte p = true →
  url_path (req_url r) = String "/" p → url_rawquery (req_url r) = q →
  buildUpstreamRequest gw_env ("http://" +:+ h) r body
  = Some (OutRequest (req_method r) ("http://" +:+ h +:+ String "/" p +:+ (if q =?s "" then "" else String "?" q)) (copyHeaders ∅ (req_header r)) body).
Proof.
  intros Hh Hp Hpath Hq. unfold buildUpstreamRequest. cbn [px_url_parse gw_env]. rewrite parse_http_base by done.
  cbn [mbind option_bind url_scheme url_opaque url_user url_host url_rawpath url_forcequery url_fragment px_new_request_ok].
  by rewrite Hpath, Hq, url_string_plain.
Qed.

Lemma gw_history_keeps fl : history_keeps gw_env (λ v, fst v = fl).
Proof.
  intros ins q b u src [fl0 h0] Hh Hv. cbn in Hh, Hv. subst fl0. destruct history as [ins0|]; [|done]. injection Hh as <-.
  by destruct (ins0 q b u src h0).
Qed.

Lemma no_secret r b : Secret cookie = "" → applyCookies cookie now r b = Some [].
Proof. intros Hs. unfold applyCookies. by rewrite Hs. Qed.

Lemma statement_json_wf h id : plain_host h = true → str_forallb id_char id = true → wf_json (statement_json h id) = true.
Proof.
  intros Hh%host_ascii Hi%id_char_ascii. cbn [wf_json statement_json forallb fst snd]. unfold all_ascii in *.
  rewrite !str_forallb_app, Hh, Hi. vm_compute. done.
Qed.
Lemma finished_json_wf id : str_forallb id_char id = true → wf_json (finished_json id) = true.
Proof. intros Hi%id_char_ascii. cbn [wf_json finished_json forallb fst snd]. rewrite Hi. by vm_compute. Qed.

Lemma statement_id h id : plain_host h = true → str_forallb id_char id = true →
  extractQueryIDFromBody (print_json (statement_json h id) +:+ nl) = id.
Proof.
  intros Hh Hi. unfold extractQueryIDFromBody, unmarshal. rewrite unmarshal_print_nl; [reflexivity|by apply statement_json_wf|by vm_compute].
Qed.

(** The request of a client that posts a statement, and the one that fetches the next page. *)
Definition is_post (q body : string) (r : request) : Prop :=
  req_method r = "POST" ∧ req_url r = Url "" "" "" "" "/v1/statement" "" q false "" ∧ req_body r = Ok body ∧ mem_byte "#" q = false.
Definition is_get (path : string) (r : request) : Prop :=
  req_method r = "GET" ∧ req_url r = Url "" "" "" "" path "" "" false "".

(** A statement is run by the backend the router picks. *)
Lemma statement_at_fake r q body s fl h0 result rs1 host f :
  is_post q body r → ps_world s = (fl, h0) → r_Route (NewRouteInput r body) (ps_router s) = (Ok result, rs1) →
  BackendURL result = "http://" +:+ host → plain_host host = true → fl !! host = Some f →
  (PropagateErrors cfg = true → Errors result = []) → Secret cookie = "" →
  (Z.of_nat (String.length (print_json (statement_json host (new_id host f)) +:+ nl)) ≤ ResponseSize cfg < int64_max) →
  let id := new_id host f in
  let hd := injectHeaders (copyHeaders ∅ (req_header r)) r (ExternalHeaders result) in
  let f1 := snd (TrinoFake.handleStatement (now_ms host) (entropy host)
                   (Request "POST" (Url "" "" "" "" "/v1/statement" "" q false "") host remote false hd ∅ [] (Ok body)) f) in
  ∃ h1 hdr es, snd (ServeHTTP gw_env r s) = mkProxyState (snd (r_WriteCache id ("http://" +:+ host) rs1)) (<[host := f1]> fl, h1) hdr
    (es ++ [EvWriteHeader 200 hdr []; EvWrite (print_json (statement_json host id) +:+ nl)]).
Proof.
  intros (Hm & Hu & Hb & Hq) Hw Hr Hbk Hh Hf He Hc Hlen. cbv zeta. set (id := new_id host f) in *.
  set (hd := injectHeaders (copyHeaders ∅ (req_header r)) r (ExternalHeaders result)).
  set (req := Request "POST" _ host remote false hd ∅ [] (Ok body)).
  set (f1 := snd (TrinoFake.handleStatement _ _ req f)).
  unfold ServeHTTP. rewrite Hm, Hu.
  change (negb (chi_known gw_env "POST")) with false. change (route_path _) with "/v1/statement".
  change (("POST" =?s "POST") && ("/v1/statement" =?s "/v1/statement")) with true. cbv iota zeta.
  set (resp := Response 200 json_header (print_json (statement_json host id) +:+ nl) None).
  set (up := OutRequest "POST" ("http://" +:+ host +:+ String "/" "v1/statement" +:+ (if q =?s "" then "" else String "?" q))
               (copyHeaders ∅ (req_header r)) (Ok body)).
  assert (Ha : answered gw_env r s body result rs1 up resp (<[host := f1]> fl, h0)).
  { split; [done|done|rewrite Hbk; by destruct host|done| |].
    - rewrite Hbk, (gw_build host "v1/statement" q r (Ok body)) by (done || by rewrite Hu). by rewrite Hm.
    - cbn [px_client_do gw_env]. rewrite Hw. unfold with_injected, up. cbn [or_method or_url or_header or_body].
      rewrite (fleet_call_plain _ _ _ _ _ _ _ _ f) by done. rewrite serve_statement by done. reflexivity. }
  destruct (statement_run gw_env (λ v, fst v = <[host := f1]> fl) r s body result rs1 up resp (<[host := f1]> fl, h0) []) as ([fl1 h1] & Hfl & ->);
    [exact Ha|done|exact Hlen|by apply no_secret|apply gw_history_keeps|done|].
  cbn [fst] in Hfl. subst fl1. cbn [resp resp_body resp_status resp_header]. rewrite (statement_id host id) by (done || apply newQueryID_chars).
  unfold cached_router. replace (id =?s "") with false by (symmetry; apply seqb_neq, newQueryID_nonempty). rewrite Hbk.
  eexists h1, _, _. rewrite !app_assoc. reflexivity.
Qed.

Lemma query_path_plain id rest : str_forallb id_char id = true → str_forallb path_byte rest = true →
  "/v1/query/" +:+ id +:+ rest = String "/" ("v1/query/" +:+ id +:+ rest) ∧ str_forallb path_byte ("v1/query/" +:+ id +:+ rest) = true.
Proof.
  intros Hi%id_char_path Hr. split; [done|]. by rewrite !str_forallb_app, Hi, Hr.
Qed.

(** C2: A query runs through the gateway to its end: the statement a client posts is run
    by the backend the router picks, which records its text and the forwarded headers, and
    the client receives that backend's first page with a fresh query id. The page it then
    fetches through the gateway is served by the same backend, with the query finished;
    no other backend sees anything of it. *)
Theorem query_runs_through_gateway r r2 q body s fl h0 result rs1 host f :
  is_post q body r → ps_world s = (fl, h0) → r_wf (ps_router s) →
  r_Route (NewRouteInput r body) (ps_router s) = (Ok result, rs1) →
  BackendURL result = "http://" +:+ host → plain_host host = true → fl !! host = Some f →
  (PropagateErrors cfg = true → Errors result = []) → Secret cookie = "" →
  (Z.of_nat (String.length (print_json (statement_json host (new_id host f)) +:+ nl)) ≤ ResponseSize cfg < int64_max) →
  let id := new_id host f in
  is_get ("/v1/query/" +:+ id +:+ "/1") r2 →
  let s1 := snd (ServeHTTP gw_env r s) in
  let s2 := snd (ServeHTTP gw_env r2 s1) in
  client_answer s1 = Some (200, print_json (statement_json host id) +:+ nl)
  ∧ client_answer s2 = Some (200, print_json (finished_json id) +:+ nl)
  ∧ (∃ f2, fst (ps_world s2) = <[host := f2]> fl
       ∧ QueryIDs f2 = QueryIDs f ++ [id] ∧ requestBody (tf_st f2) !! id = Some body
       ∧ ReceivedHeaders f2 id = Some (injectHeaders (copyHeaders ∅ (req_header r)) r (ExternalHeaders result))
       ∧ HitCount f2 id = Datatypes.S (HitCount f id)).
Proof.
  intros Hp Hw Hwf Hr Hbk Hh Hf He Hc Hlen. cbv zeta. intros (Hm2 & Hu2).
  destruct (statement_at_fake r q body s fl h0 result rs1 host f Hp Hw Hr Hbk Hh Hf He Hc Hlen) as (h1 & hdr & es & Hs1). cbv zeta in Hs1.
  set (id := new_id host f) in *. set (f1 := snd (TrinoFake.handleStatement _ _ _ f)) in *. rewrite Hs1. set (s1 := mkProxyState _ _ hdr _).
  assert (Hid : str_forallb id_char id = true) by apply newQueryID_chars.
  assert (Hne : id ≠ "") by apply newQueryID_nonempty.
  destruct (query_path_plain id "/1" Hid eq_refl) as [Epath Hpath].
  assert (Hw1 : r_wf rs1). { pose proof (r_wf_route (ps_router s) (NewRouteInput r body) Hwf) as Hx. by rewrite Hr in Hx. }
  assert (Huri : RequestURI (NewRouteInput r2 "") = queryPrefix +:+ id +:+ "/1").
  { cbn [NewRouteInput RequestURI]. rewrite Hu2. unfold request_uri, escaped_path.
    cbn [url_opaque url_rawpath url_path url_forcequery url_rawquery]. change ("" =?s "") with true. cbn [negb andb orb].
    rewrite Epath. change (String "/" ("v1/query/" +:+ id +:+ "/1") =?s "*") with false. cbv iota.
    destruct (escape_plain (String "/" ("v1/query/" +:+ id +:+ "/1"))) as [-> _]; [by cbn [str_forallb]; rewrite Hpath|].
    change (String "/" ("v1/query/" +:+ id +:+ "/1") =?s "") with false. cbv iota. done. }
  pose proof (r_sticky rs1 id ("http://" +:+ host) "/1" (NewRouteInput r2 "") Hw1 Hne (id_char_id _ Hid) eq_refl Huri eq_refl) as Hst.
  destruct (r_Route (NewRouteInput r2 "") (snd (r_WriteCache id ("http://" +:+ host) rs1))) as [res2 rs2] eqn:Er2. cbn [fst] in Hst. subst res2.
  assert (Hs2 : snd (ServeHTTP gw_env r2 s1) = snd (handleStream gw_env r2 s1)).
  { unfold ServeHTTP. rewrite Hm2, Hu2. done. }
  rewrite Hs2.
  set (req2 := Request "GET" (Url "" "" "" "" (String "/" ("v1/query/" +:+ id +:+ "/1")) "" "" false "") host remote false
                 (injectHeaders (copyHeaders ∅ (req_header r2)) r2 ∅) ∅ [] (req_body r2)).
  assert (Eq2 : handleQuery req2 f1 = (json_answer (finished_json id), snd (handleQuery req2 f1))).
  { unfold handleQuery at 1. cbn [req_method req2 req_url url_path]. rewrite <- Epath, fake_extractQueryID_path by (done || (right; by eexists)).
    change ("GET" =?s "GET") with true. cbv iota. f_equal. unfold handleQuery. cbn [req_method req2 req_url url_path].
    rewrite <- Epath, fake_extractQueryID_path by (done || (right; by eexists)). done. }
  rewrite (stream_run gw_env r2 s1 (mkRouteResult ("http://" +:+ host) "" ∅ [] OutcomeOK) rs2
    (OutRequest "GET" ("http://" +:+ host +:+ String "/" ("v1/query/" +:+ id +:+ "/1") +:+ "") (copyHeaders ∅ (req_header r2)) (req_body r2))
    (Response 200 json_header (print_json (finished_json id) +:+ nl) None) (<[host := snd (handleQuery req2 f1)]> fl, h1) []); cbn [BackendURL].
  - split_and!; [apply client_answer_end|rewrite !app_assoc; apply client_answer_end|].
    eexists. split; [done|]. unfold handleQuery. cbn [req_method req2 req_url url_path]. rewrite <- Epath, fake_extractQueryID_path by (done || (right; by eexists)).
    change ("GET" =?s "GET") with true. cbv iota. cbn [snd]. unfold QueryIDs, ReceivedHeaders, HitCount.
    cbn [tf_st set_st queryIDs requestBody requestHeaders hitCount f1 TrinoFake.handleStatement snd]. fold (new_id host f). fold id.
    unfold bump_id. rewrite !lookup_insert_eq. done.
  - exact Er2.
  - by destruct host.
  - rewrite (gw_build host ("v1/query/" +:+ id +:+ "/1") "" r2 (req_body r2)) by (done || (rewrite Hu2; done)). by rewrite Hm2.
  - unfold with_injected. cbn [px_client_do gw_env or_method or_url or_header or_body s1 ps_world ExternalHeaders].
    rewrite (fleet_call_plain remote "GET" host ("v1/query/" +:+ id +:+ "/1") "" _ _ _ f1 Hh Hpath eq_refl) by apply lookup_insert_eq.
    rewrite (serve_query host _ f1 (id +:+ "/1")) by done. fold req2. rewrite Eq2. cbn. by rewrite insert_insert_eq.
  - by apply no_secret.
Qed.
End proxy.
End fleet.

(** ** Witness: the external service picks group etl, at b2 *)
Module FleetDemo.
#[export] Instance ops : RouterOps (router_state list_lru unit) := Router_ops w_services w_cfg.
#[export] Instance sticky : StickyRouter (router_state list_lru unit) := Router_sticky w_services w_cfg.
Definition clock (_ : string) (_ : N) : Z := 1700000000000.
Definition bytes (_ : string) (_ : N) : string := "ab".
Definition order (m : gmap string Z) : list (string * Z) := map_to_list m.
Definition backends : gmap string TrinoFake := {["b1" := NewTrinoFake; "b2" := NewTrinoFake]}.
Definition start : proxy_state (router_state list_lru unit) (gmap string TrinoFake * unit) := mkProxyState w_state (backends, tt) ∅ [].
Definition id : string := "1700000000000_1_6162_trino".
Definition next : request :=
  Request "GET" (Url "" "" "" "" ("/v1/query/" +:+ id +:+ "/1") "" "" false "") "gw:8080" "10.0.0.1:5000" false ∅ ∅ [] (Ok "").
Definition env : proxy_env (gmap string TrinoFake * unit) :=
  gw_env clock bytes order (mkProxyConfig 8080 1048576 0 true) (mkCookieConfig "" 0 true) true 0 "10.0.0.9:7" None.
End FleetDemo.
Import FleetDemo.

Lemma query_runs_through_gateway_witness :
  let s1 := snd (ServeHTTP env w_post start) in
  let s2 := snd (ServeHTTP env next s1) in
  client_answer s2 = Some (200, print_json (finished_json FleetDemo.id) +:+ nl)
  ∧ ∃ f2, fst (ps_world s2) = <["b2" := f2]> FleetDemo.backends ∧ HitCount f2 FleetDemo.id = 1%nat.
Proof.
  destruct (query_runs_through_gateway clock bytes order (mkProxyConfig 8080 1048576 0 true) (mkCookieConfig "" 0 true) true 0 "10.0.0.9:7" None
    w_post next "" "SELECT 1" start FleetDemo.backends tt w_result w_routed "b2" NewTrinoFake) as (_ & H2 & f2 & Hf & _ & _ & _ & Hc).
  - split_and!; reflexivity.
  - reflexivity.
  - apply Nat.ltb_lt. vm_compute. reflexivity.
  - vm_compute. reflexivity.
  - reflexivity.
  - reflexivity.
  - reflexivity.
  - intros _; reflexivity.
  - reflexivity.
  - vm_compute. split; [discriminate|reflexivity].
  - split; reflexivity.
  - split; [exact H2|]. exists f2. split; [exact Hf|exact Hc].
Defined.
