(* ===== verification/FleetClients.v ===== *)
(** * Probes, health checks and statistics against fake backends

    The recovery chain's HEAD probes, the monitor's health check and the two collectors
    that talk HTTP, each connected to a fleet of [TrinoFake]s. *)
From S2P Require Import Prelude GoStrings GoNumeric Json Codec HttpModel Config Lru KillQuery Routing Cookie Forward ClusterStats Auth Monitor Wire TrinoFake Fleet.

#[local] Open Scope Z_scope.

Section clients.
Context (now_ms : string → N → Z) (entropy : string → N → string) (range_order : gmap string Z → list (string * Z)) (remote : string).
#[local] Abbreviation call := (fleet_call now_ms entropy range_order remote).
#[local] Abbreviation do_ := (fleet_do now_ms entropy range_order remote).
#[local] Abbreviation host_serves := (serve_host now_ms entropy range_order).

(** ** Recovery by probing *)
Definition knows (fl : fleet) (h id : string) : bool :=
  match fl !! h with Some f => bool_decide (is_Some (requestBody (tf_st f) !! id)) | None => false end.
Definition same_queries (fl fl' : fleet) : Prop := ∀ h id, knows fl' h id = knows fl h id.

(** A backend list of plain URLs. *)
Definition backend_at (b : ActiveBackend) (h : string) : Prop := ab_URL b = "http://" +:+ h ∧ plain_host h = true.

Section probing.
Context {C : Type} `{LRU C} (svc : services fleet) (id : string).
Context (Hprobe : probe_client_do svc = call) (Hreq : ∀ m u, new_request_ok svc m u = true) (Hid : str_forallb id_char id = true).

Lemma probeOne_fleet h (s : router_state C fleet) : plain_host h = true →
  ∃ s', probeOne svc ("http://" +:+ h) id s = (knows (rs_world s) h id, s') ∧ same_queries (rs_world s) (rs_world s').
Proof using Hprobe Hreq Hid.
  intros Hh. unfold probeOne. rewrite Hreq. cbn [negb]. rewrite Hprobe. destruct (query_path_plain id "" Hid eq_refl) as [_ Hp].
  set (o := OutRequest "HEAD" _ ∅ (Ok "")).
  assert (Hu : or_url o = "http://" +:+ h +:+ String "/" ("v1/query/" +:+ id +:+ "") +:+ (if "" =?s "" then "" else String "?" "")).
  { cbn [or_url o]. change ("" =?s "") with true. cbv iota. rewrite !str_app_nil_r. reflexivity. }
  unfold mbind, R_bind, world, fleet_call. destruct s as [ca fl me]. cbn [rs_world rs_cache rs_metrics].
  unfold knows at 1. destruct (fl !! h) as [f|] eqn:Ef.
  - rewrite (fleet_do_plain _ _ _ _ _ o h _ "" fl f Hu) by done. rewrite (serve_query _ _ _ _ _ _ id) by (cbn [req_url url_path]; by rewrite str_app_nil_r).
    unfold handleQuery. cbn [req_method req_url url_path or_method o].
    replace (fake_extractQueryID (String "/" ("v1/query/" +:+ id +:+ ""))) with id
      by (symmetry; change (String "/" ("v1/query/" +:+ id +:+ "")) with ("/v1/query/" +:+ id +:+ ""); apply fake_extractQueryID_path; [done|by left]).
    change ("HEAD" =?s "GET") with false. change ("HEAD" =?s "HEAD") with true. cbv iota.
    eexists. split; [cbn; by case_bool_decide|]. intros h' id'. cbn [rs_world]. unfold knows. destruct (decide (h = h')) as [<-|Hne].
    + by rewrite lookup_insert_eq, Ef.
    + by rewrite lookup_insert_ne.
  - destruct (fleet_do_absent now_ms entropy range_order remote no_cookies o h _ "" fl Hu) as [e ->]; [done..|]. eexists. split; [done|]. done.
Qed.

Lemma probe_all_fleet bs hs (s : router_state C fleet) : Forall2 backend_at bs hs →
  ∃ s', probe_all svc id bs s = ((λ h, "http://" +:+ h) <$> List.filter (λ h, knows (rs_world s) h id) hs, s') ∧ same_queries (rs_world s) (rs_world s').
Proof using Hprobe Hreq Hid.
  intros Hbs. revert s. induction Hbs as [|b h bs hs [Hu Hh] _ IH]; intros s; [by exists s|]. cbn [probe_all]. unfold mbind, R_bind.
  rewrite Hu. destruct (probeOne_fleet h s Hh) as (s1 & -> & H1). destruct (IH s1) as (s2 & -> & H2). exists s2. split.
  - cbn [List.filter]. rewrite (filter_ext (λ h0, knows (rs_world s1) h0 id) (λ h0, knows (rs_world s) h0 id)) by (intros; apply H1).
    destruct (knows (rs_world s) h id); done.
  - intros h' id'. by rewrite H2, H1.
Qed.
End probing.

(** C19: A query that neither cache nor history knows is found by probing: if an active backend
    has it, recovery returns a backend that has it, in whatever order the probes complete;
    if none has it, the first active one. *)
Theorem probe_finds_owner {C} `{LRU C} (svc : services fleet) id bs hs (s : router_state C fleet) e :
  probe_client_do svc = call → (∀ m u, new_request_ok svc m u = true) → str_forallb id_char id = true →
  (∀ l, completion_order svc l ≡ₚ l) → Forall2 backend_at bs hs → bs ≠ [] →
  (∀ w, lookup_by_query_id svc id w = (("", e), w)) → (∀ w, list_active svc w = (Ok bs, w)) →
  (∀ h, h ∈ hs → knows (rs_world s) h id = true →
     ∃ h', h' ∈ hs ∧ knows (rs_world s) h' id = true ∧ fst (recoverBackend svc id s) = "http://" +:+ h')
  ∧ ((∀ h, h ∈ hs → knows (rs_world s) h id = false) → fst (recoverBackend svc id s) = from_opt "" (ab_URL <$> head bs)).
Proof.
  intros Hprobe Hreq Hid Hperm Hbs Hne Hlook Hlist. destruct bs as [|b0 bs0]; [done|]. set (bs := b0 :: bs0) in *.
  assert (Hord : ∃ hs', Forall2 backend_at (completion_order svc bs) hs' ∧ hs' ≡ₚ hs).
  { pose proof (Hperm bs) as Hp. symmetry in Hp. clear -Hbs Hp. revert hs Hbs. induction Hp as [|x l l' _ IH|x y l|l l' l'' _ IH1 _ IH2]; intros hs Hbs.
    - inversion Hbs. by exists [].
    - inversion Hbs as [|? h ? hs0 Hx Hr]; subst. destruct (IH _ Hr) as (hs' & H1 & H2). exists (h :: hs'). split; [by constructor|by constructor].
    - inversion Hbs as [|? h1 ? hs0 Hx Hr]; subst. inversion Hr as [|? h2 ? hs1 Hy Hr1]; subst. exists (h2 :: h1 :: hs1). split; [constructor; [exact Hy|constructor; [exact Hx|exact Hr1]]|constructor].
    - destruct (IH1 _ Hbs) as (h1 & A1 & B1). destruct (IH2 _ A1) as (h2 & A2 & B2). exists h2. split; [done|]. by rewrite B2. }
  destruct Hord as (hs' & Hbs' & Hp').
  destruct (probe_all_fleet svc id Hprobe Hreq Hid (completion_order svc bs) hs' s Hbs') as (s1 & Hall & _).
  assert (Hrec : ∀ u, find_first (λ u, negb (u =?s "")) ((λ h, "http://" +:+ h) <$> List.filter (λ h, knows (rs_world s) h id) hs') = u →
    fst (recoverBackend svc id s) = from_opt (ab_URL b0) u).
  { intros u Hu. unfold recoverBackend, mbind, R_bind, world. rewrite Hlook. cbn [rs_world]. change ("" =?s "") with true. cbn [negb].
    rewrite Hlist. unfold bs. fold bs. unfold headProbeFanOut, mbind, R_bind. destruct s as [ca w me]. cbn [rs_world rs_cache rs_metrics] in *. rewrite Hall, Hu.
    cbn [mret R_ret]. destruct u as [u|]; cbn [from_opt]; [|done].
    apply find_first_Some in Hu as [_ Hu]. rewrite Hu. done. }
  split.
  - intros h Hh Hk. assert (Hh' : h ∈ List.filter (λ h, knows (rs_world s) h id) hs').
    { apply list_elem_of_In, List.filter_In. split; [apply list_elem_of_In; by rewrite Hp'|done]. }
    destruct (find_first _ _) as [u|] eqn:Ef in Hrec.
    2: { exfalso. apply find_first_None in Ef. rewrite Forall_forall in Ef. specialize (Ef ("http://" +:+ h)). apply negb_false_iff in Ef; [done|].
         apply list_elem_of_fmap. by exists h. }
    rewrite (Hrec (Some u) eq_refl). cbn [from_opt]. apply find_first_Some in Ef as [Hin _].
    apply list_elem_of_fmap in Hin as (h' & -> & [H1 H2]%list_elem_of_In%List.filter_In). apply list_elem_of_In in H1. rewrite Hp' in H1.
    by exists h'.
  - intros Hnone. rewrite (Hrec None); [done|]. apply find_first_None, Forall_fmap, Forall_forall. intros h [H1 H2]%list_elem_of_In%List.filter_In.
    apply list_elem_of_In in H1. rewrite Hp' in H1. rewrite Hnone in H2 by done. done.
Qed.

(** ** The health check *)

(** The verdict on a backend is what the backend reports of itself. *)
Theorem check_reads_fake fl h : plain_host h = true →
  checkOne (λ _, true) (λ o, fst (call o fl)) ("http://" +:+ h)
  = match fl !! h with None => Unhealthy | Some f => if starting (tf_st f) then Pending else Healthy end.
Proof.
  intros Hh. unfold checkOne. cbn [negb]. set (o := OutRequest "GET" _ ∅ (Ok "")).
  assert (Hu : or_url o = "http://" +:+ h +:+ String "/" "v1/info" +:+ (if "" =?s "" then "" else String "?" "")).
  { cbn [or_url o]. change ("" =?s "") with true. cbv iota. by rewrite str_app_nil_r, str_app_assoc. }
  unfold fleet_call. destruct (fl !! h) as [f|] eqn:Ef.
  - rewrite (fleet_do_plain _ _ _ _ _ o h _ "" fl f Hu) by done. unfold serve_host, dispatch. cbn [req_url url_path req_method or_method o]. cbn [String.eqb Ascii.eqb Bool.eqb andb].
    unfold handleInfo. destruct (starting (tf_st f)); vm_compute; reflexivity.
  - destruct (fleet_do_absent now_ms entropy range_order remote no_cookies o h _ "" fl Hu) as [e ->]; done.
Qed.

(** ** The UI collector *)

(** The collector's client, with a jar that keeps cookies by host. *)
Definition collector_do (j : option jar) (o : out_request) : ST fleet (call_result response * option jar) := λ fl,
  match do_ (λ host, from_opt [] ((λ j, jar_cookies j host) <$> j)) o fl with
  | (COk (host, (resp, cs)), fl') => ((COk resp, jar_add host cs <$> j), fl')
  | (CErr e, fl') => ((CErr e, j), fl')
  end.
#[local] Abbreviation ui_collect wait := (ui_Collect collector_do (λ _ _, true) ([] : jar) wait).

Lemma collector_do_plain j o h p q fl f :
  or_url o = "http://" +:+ h +:+ String "/" p +:+ (if q =?s "" then "" else String "?" q) →
  plain_host h = true → str_forallb path_byte p = true → mem_byte "#" q = false → fl !! h = Some f →
  collector_do j o fl
  = let '((resp, cs), f') := host_serves h (Request (or_method o) (Url "" "" "" "" (String "/" p) "" q false "") h remote false (or_header o) ∅
                              (from_opt [] ((λ j, jar_cookies j h) <$> j)) (or_body o)) f in
    ((COk (as_received (or_method o) resp), jar_add h cs <$> j), <[h := f']> fl).
Proof.
  intros Hu Hh Hp Hq Hf. unfold collector_do. rewrite (fleet_do_plain _ _ _ _ _ o h p q fl f) by done.
  destruct (host_serves _ _ _) as [[resp cs] f']. done.
Qed.

(** What the login leaves: the session cookie of the host, if the credentials match. *)
Definition session_of (c : uiAPICollector (J := jar)) (h : string) (f : TrinoFake) : jar :=
  if uiCredsSet (tf_ui f) && (ui_username c =?s uiUsername (tf_ui f)) && (ui_password c =?s uiPassword (tf_ui f))
  then [(h, uiCookieName, "session-" +:+ ui_username c)] else [].
Definition after_login (f : TrinoFake) : TrinoFake :=
  let u := tf_ui f in
  set_ui (mkUI (uiUsername u) (uiPassword u) (uiCredsSet u) (activeWorkers u) (runningQ u) (queuedQ u) (queuedByUser u)
    (Datatypes.S (loginCount u)) (uiStatsHits u) (uiQueryHits u) (lastForwardedTo u)) f.

Lemma ensureLogin_fleet c h fl f sent : loggedIn c = false → plain_host h = true → fl !! h = Some f →
  ∃ sent', ensureLogin collector_do (λ _ _, true) [] c ("http://" +:+ h) (mkNet fl sent)
  = ((Ok tt, with_session (Some (session_of c h f)) true c), mkNet (<[h := after_login f]> fl) sent').
Proof.
  intros Hl Hh Hf. unfold ensureLogin. rewrite Hl. cbn [negb]. set (o := OutRequest "POST" _ _ _).
  assert (Hu : or_url o = "http://" +:+ h +:+ String "/" "ui/login" +:+ (if "" =?s "" then "" else String "?" "")).
  { cbn [or_url o]. change ("" =?s "") with true. cbv iota. by rewrite str_app_nil_r, str_app_assoc. }
  unfold mbind, ST_bind, send. cbn [net_world net_sent]. rewrite (collector_do_plain _ o h _ "" fl f Hu) by done.
  unfold serve_host, dispatch. cbn [req_url url_path req_method or_method o]. cbn [String.eqb Ascii.eqb Bool.eqb andb has_prefix].
  assert (Hform : or_body o = Ok (form_encode [("password", ui_password c); ("username", ui_username c)])).
  { cbn [or_body o form_encode fmap list_fmap join]. by f_equal. }
  set (r := Request _ _ _ _ _ _ _ _ _).
  assert (Hv : ∀ k, post_form_value r k = query_get (form_encode [("password", ui_password c); ("username", ui_username c)]) k).
  { intros k. unfold post_form_value. cbn [req_body r]. rewrite Hform. done. }
  unfold handleUILogin. rewrite !Hv, !query_get_form. cbn [find_first fst snd from_opt fmap option_fmap option_map String.eqb Ascii.eqb Bool.eqb].
  unfold session_of. destruct (uiCredsSet (tf_ui f) && _ && _); eexists; reflexivity.
Qed.

Definition ui_header (c : uiAPICollector (J := jar)) : header := if ui_xForwarded c then hdr_set "X-Forwarded-Proto" "https" ∅ else ∅.

Lemma ui_get_fleet wait c j target h p q fl f sent :
  ui_jar c = Some j → 0 ≤ ui_retries c < int64_max →
  target = "http://" +:+ h +:+ String "/" p +:+ (if q =?s "" then "" else String "?" q) →
  plain_host h = true → str_forallb path_byte p = true → mem_byte "#" q = false → fl !! h = Some f →
  ∃ sent', ui_get collector_do (λ _ _, true) wait c target (mkNet fl sent)
  = let '((resp, cs), f') := host_serves h (Request "GET" (Url "" "" "" "" (String "/" p) "" q false "") h remote false (ui_header c) ∅
                              (jar_cookies j h) (Ok "")) f in
    ((resp_body resp, resp_status resp, with_session (Some (jar_add h cs j)) (loggedIn c) c), mkNet (<[h := f']> fl) sent').
Proof.
  intros Hj Hr Hu Hh Hp Hq Hf. unfold ui_get, attempts. rewrite wrap64_id by (unfold in_int64, int64_min, int64_max in *; lia).
  destruct (Z.to_nat (ui_retries c + 1)) as [|n] eqn:En; [lia|]. cbn [get_loop negb]. fold (ui_header c).
  unfold mbind, ST_bind, send. cbn [net_world net_sent]. rewrite (collector_do_plain _ (OutRequest "GET" target _ _) h p q fl f) by done. rewrite Hj.
  cbn [or_method or_header or_body fmap option_fmap option_map from_opt]. destruct (host_serves _ _ _) as [[resp cs] f']. eexists. reflexivity.
Qed.

(** *** Reading the answers *)
Lemma ui_stats_read u : in_int64 (activeWorkers u) → in_int64 (runningQ u) → in_int64 (queuedQ u) →
  unmarshal set_ui_stats (mkUIStats 0 0 0)
    (print_json (JObj [("activeWorkers", jint (activeWorkers u)); ("queuedQueries", jint (queuedQ u)); ("runningQueries", jint (runningQ u))]) +:+ nl)
  = (mkUIStats (activeWorkers u) (runningQ u) (queuedQ u), false).
Proof.
  intros H1 H2 H3. unfold unmarshal. rewrite unmarshal_print_nl.
  - assert (Hd : ∀ old z, in_int64 z → dec_int old (jint z) = (z, false)) by (intros; unfold dec_int, jint; by rewrite parse_int_dec).
    assert (S1 : ∀ z r, in_int64 z → set_ui_stats "activeWorkers" (jint z) r = (mkUIStats z (RunningQueries r) (QueuedQueries r), false)).
    { intros z r Hz. unfold set_ui_stats. change (field_is "activeWorkers" "activeWorkers") with true. cbv iota. by rewrite Hd. }
    assert (S2 : ∀ z r, in_int64 z → set_ui_stats "queuedQueries" (jint z) r = (mkUIStats (ActiveWorkers r) (RunningQueries r) z, false)).
    { intros z r Hz. unfold set_ui_stats. change (field_is "activeWorkers" "queuedQueries") with false.
      change (field_is "runningQueries" "queuedQueries") with false. change (field_is "queuedQueries" "queuedQueries") with true. cbv iota. by rewrite Hd. }
    assert (S3 : ∀ z r, in_int64 z → set_ui_stats "runningQueries" (jint z) r = (mkUIStats (ActiveWorkers r) z (QueuedQueries r), false)).
    { intros z r Hz. unfold set_ui_stats. change (field_is "activeWorkers" "runningQueries") with false.
      change (field_is "runningQueries" "runningQueries") with true. cbv iota. by rewrite Hd. }
    cbn [dec_struct foldl]. by rewrite S1, S2, S3.
  - cbn [wf_json jint forallb fst snd]. rewrite !parse_int_dec, !seqb_refl by done. done.
  - vm_compute. done.
Qed.

Lemma queued_read users : Forall (λ u, all_ascii u = true) users → Z.of_nat (length users) < int64_max →
  ∃ qs, unmarshal_queries (print_json (queued_json users) +:+ nl) = (qs, false) ∧ SessionUser <$> qs = users.
Proof.
  intros Hu Hlen. unfold unmarshal_queries. unfold queued_json.
  set (f := λ i user, _). assert (Hdec : ∀ k, ∃ qs, dec_queries (imap (λ i, f (k + i)%nat) users) = (qs, false) ∧ SessionUser <$> qs = users).
  { clear Hu Hlen. induction users as [|u users IH]; intros k; [by exists []|]. cbn [imap dec_queries].
    destruct (IH (Datatypes.S k)) as (qs & E & Hs).
    replace (imap ((λ i, f (k + i)%nat) ∘ Datatypes.S) users) with (imap (λ i, f (Datatypes.S k + i)%nat) users)
      by (apply imap_ext; intros; unfold compose; f_equal; lia).
    rewrite E. eexists. split; [reflexivity|]. cbn. by rewrite Hs. }
  destruct (Hdec 0%nat) as (qs & E & Hs). exists qs. rewrite unmarshal_print_nl; [done| |].
  - cbn [wf_json]. apply forallb_forall. intros v (i & y & -> & Hv)%list_elem_of_In%elem_of_lookup_imap_1.
    apply list_elem_of_lookup_2 in Hv as Hin. rewrite Forall_forall in Hu. specialize (Hu _ Hin). cbn [f wf_json forallb fst snd].
    rewrite Hu. unfold all_ascii. rewrite str_forallb_app. fold (all_ascii (z_to_dec (Z.of_nat i + 1))).
    rewrite (id_char_ascii _ (dec_id_chars _)). done.
  - cbn [jheight]. assert (Hm : ∀ l k, (foldr (λ v n, Nat.max (jheight v) n) 0%nat (imap (λ i, f (k + i)%nat) l) ≤ 1)%nat).
    { intros l. induction l as [|u l IH]; intros k; [cbn; lia|]. cbn [imap foldr]. specialize (IH (Datatypes.S k)).
      replace (imap ((λ i, f (k + i)%nat) ∘ Datatypes.S) l) with (imap (λ i, f (Datatypes.S k + i)%nat) l)
        by (apply imap_ext; intros; unfold compose; f_equal; lia). cbn [f jheight foldr snd]. lia. }
    specialize (Hm users 0%nat). change (imap (λ i, f (0 + i)%nat) users) with (imap f users) in Hm. unfold max_nesting_depth. lia.
Qed.

(** *** Counting *)
Definition occ (u : string) (us : list string) : Z := Z.of_nat (length (List.filter (String.eqb u) us)).

Lemma count_users qs u (acc : gmap string Z) :
  foldl count_user acc qs !! u
  = if occ u (SessionUser <$> qs) =? 0 then acc !! u else Some (wrap64 (from_opt 0 (acc !! u) + occ u (SessionUser <$> qs))).
Proof.
  revert acc. unfold occ. induction qs as [|q qs IH]; intros acc; [done|]. cbn [foldl]. rewrite IH. unfold count_user at 1 2.
  rewrite fmap_cons. cbn [List.filter]. destruct (u =?s SessionUser q) eqn:E; seqb_simpl.
  - subst u. rewrite lookup_insert_eq. cbn [from_opt length]. set (n := length (List.filter _ _)).
    rewrite (proj2 (Z.eqb_neq (Z.of_nat (Datatypes.S n)) 0)) by lia. destruct (Z.of_nat n =? 0) eqn:E1.
    + apply Z.eqb_eq in E1. do 2 f_equal. lia.
    + f_equal. rewrite wrap64_add_l. f_equal. lia.
  - by rewrite !lookup_insert_ne by congruence.
Qed.

Lemma occ_app u a b : occ u (a ++ b) = occ u a + occ u b.
Proof. unfold occ. rewrite List.filter_app, length_app. lia. Qed.
Lemma occ_repeat u v n : occ u (repeat v n) = if u =?s v then Z.of_nat n else 0.
Proof. unfold occ. induction n as [|n IH]; [by destruct (u =?s v)|]. cbn [repeat List.filter]. destruct (u =?s v); cbn [length] in *; lia. Qed.

Lemma occ_queued u (l : list (string * Z)) : NoDup l.*1 →
  occ u (concat ((λ '(user, n), repeat user (Z.to_nat n)) <$> l)) = from_opt 0 (Z.max 0 <$> (list_to_map l : gmap string Z) !! u).
Proof.
  induction l as [|[v n] l IH]; intros Hn; [by cbn; rewrite lookup_empty|]. rewrite fmap_cons in Hn. apply NoDup_cons in Hn as [Hv Hn].
  rewrite fmap_cons. cbn [concat list_to_map foldr uncurry]. rewrite occ_app, occ_repeat, (IH Hn). cbn [fst] in Hv.
  destruct (u =?s v) eqn:E; seqb_simpl.
  - subst v. rewrite lookup_insert_eq, not_elem_of_list_to_map_1 by done. cbn. lia.
  - rewrite lookup_insert_ne by (intros Hx; cbn in Hx; congruence). by rewrite Z.add_0_l.
Qed.

(** What the collector should report of a fake's queued queries. *)
Definition queued_counts (m : gmap string Z) : gmap string Z := filter (λ kv, 0 < kv.2) m.

Lemma counts_of_fake qs m : (∀ m, range_order m ≡ₚ map_to_list m) → SessionUser <$> qs = queued_users range_order m →
  Z.of_nat (length (queued_users range_order m)) < int64_max → foldl count_user ∅ qs = queued_counts m.
Proof.
  intros Hord Hqs Hlen. apply map_eq. intros u. rewrite count_users, Hqs, lookup_empty. cbn [from_opt].
  assert (Hocc : occ u (queued_users range_order m) = from_opt 0 (Z.max 0 <$> m !! u)).
  { unfold queued_users. rewrite occ_queued by (rewrite Hord; apply NoDup_fst_map_to_list).
    rewrite (list_to_map_proper (range_order m) (map_to_list m)), list_to_map_to_list; [done| |apply Hord]. rewrite Hord. apply NoDup_fst_map_to_list. }
  assert (Hle : 0 ≤ occ u (queued_users range_order m) < int64_max).
  { unfold occ in *. pose proof (filter_length_le (String.eqb u) (queued_users range_order m)). lia. }
  unfold queued_counts. destruct (m !! u) as [n|] eqn:Em; cbn [fmap option_fmap option_map from_opt] in Hocc.
  - destruct (decide (0 < n)) as [Hn|Hn].
    + rewrite (map_lookup_filter_Some_2 _ m u n) by done. destruct (_ =? 0) eqn:E; [apply Z.eqb_eq in E; lia|]. rewrite wrap64_id; [f_equal; lia|].
      unfold in_int64, int64_min, int64_max in *. lia.
    + rewrite map_lookup_filter_None_2 by (right; intros x Hx; cbn; congruence). by replace (_ =? 0) with true by (symmetry; apply Z.eqb_eq; lia).
  - rewrite map_lookup_filter_None_2 by (by left). by rewrite Hocc.
Qed.

(** The requests of a collection, as the fake is handed them. *)
Lemma serve_ui_stats h hd cks f : host_serves h (Request "GET" (Url "" "" "" "" "/ui/api/stats" "" "" false "") h remote false hd ∅ cks (Ok "")) f
  = handleUIStats (Request "GET" (Url "" "" "" "" "/ui/api/stats" "" "" false "") h remote false hd ∅ cks (Ok "")) f.
Proof. reflexivity. Qed.
Lemma serve_ui_query h hd cks f :
  host_serves h (Request "GET" (Url "" "" "" "" "/ui/api/query" "" "state=QUEUED" false "") h remote false hd ∅ cks (Ok "")) f
  = handleUIQuery range_order (Request "GET" (Url "" "" "" "" "/ui/api/query" "" "state=QUEUED" false "") h remote false hd ∅ cks (Ok "")) f.
Proof. reflexivity. Qed.

Lemma no_session_cookie h c f : session_of c h f = [] → jar_cookies (session_of c h f) h = [].
Proof. by intros ->. Qed.
Lemma session_cookie h u : jar_cookies [(h, uiCookieName, "session-" +:+ u)] h = [(uiCookieName, "session-" +:+ u)].
Proof. unfold jar_cookies. cbn [omap list_omap]. by rewrite seqb_refl. Qed.

(** With the backend's credentials the UI collector reports exactly what the backend's UI
    shows: its counts, health by its number of workers, and the queued queries of each
    user that has any. Without them it reports nothing and drops its session, whatever the
    backend holds. *)
Theorem ui_collect_reads_fake wait c b h fl f sent :
  bk_URL b = "http://" +:+ h → plain_host h = true → fl !! h = Some f → loggedIn c = false → 0 ≤ ui_retries c < int64_max →
  in_int64 (activeWorkers (tf_ui f)) → in_int64 (runningQ (tf_ui f)) → in_int64 (queuedQ (tf_ui f)) →
  (∀ m, range_order m ≡ₚ map_to_list m) → Forall (λ u, all_ascii u = true) (queued_users range_order (queuedByUser (tf_ui f))) →
  Z.of_nat (length (queued_users range_order (queuedByUser (tf_ui f)))) < int64_max →
  let u := tf_ui f in
  let '((cs, c'), _) := ui_collect wait c b (mkNet fl sent) in
  if uiCredsSet u && (ui_username c =?s uiUsername u) && (ui_password c =?s uiPassword u)
  then cs = mkClusterStats (bk_Name b) (runningQ u) (queuedQ u) (activeWorkers u) (if 0 <? activeWorkers u then Healthy else Unhealthy)
              (bk_URL b) (bk_ExternalURL b) (bk_RoutingGroup b) (Some (queued_counts (queuedByUser u)))
       ∧ loggedIn c' = true
  else cs = statsBuilder b ∧ loggedIn c' = false.
Proof.
  intros Hb Hh Hf Hl Hr Hi1 Hi2 Hi3 Hord Hasc Hlen. cbv zeta. unfold ui_Collect, mbind, ST_bind. rewrite Hb.
  destruct (ensureLogin_fleet c h fl f sent Hl Hh Hf) as (sent1 & ->).
  set (c1 := with_session (Some (session_of c h f)) true c). set (f1 := after_login f). set (fl1 := <[h := f1]> fl).
  destruct (ui_get_fleet wait c1 (session_of c h f) (("http://" +:+ h) +:+ uiAPIStatsPath) h "ui/api/stats" "" fl1 f1 sent1) as (sent2 & ->);
    [done|exact Hr|by rewrite str_app_assoc|done|done|done|apply lookup_insert_eq|].
  rewrite serve_ui_stats. unfold handleUIStats, hasUICookie, req_cookie. cbn [req_cookies].
  unfold session_of at 1 2 3. destruct (uiCredsSet (tf_ui f) && (ui_username c =?s uiUsername (tf_ui f)) && (ui_password c =?s uiPassword (tf_ui f))) eqn:Ec.
  2: { cbn [jar_cookies omap list_omap find_first fmap option_fmap option_map negb]. unfold error_answer. cbn [resp_body resp_status fst snd].
       change (401 =? 401) with true. cbv iota. change ("unauthorized" +:+ nl =?s "") with false. cbv iota.
       destruct (unmarshal set_ui_stats (mkUIStats 0 0 0) ("unauthorized" +:+ nl)) as [st bad] eqn:Eu. vm_compute in Eu. injection Eu as <- <-. done. }
  rewrite session_cookie. cbn [find_first fst snd fmap option_fmap option_map]. rewrite seqb_refl. cbn [fmap option_fmap option_map snd].
  replace ("session-" +:+ ui_username c =?s "") with false by done. cbn [negb]. unfold json_answer. cbn [resp_body resp_status].
  change (200 =? 401) with false. cbv iota.
  set (j1 := print_json (JObj _) +:+ nl). assert (Hj1 : (j1 =?s "") = false) by reflexivity. rewrite Hj1.
  pose proof (ui_stats_read (tf_ui f) Hi1 Hi2 Hi3) as Hs. change (unmarshal set_ui_stats (mkUIStats 0 0 0) j1 = (mkUIStats (activeWorkers (tf_ui f)) (runningQ (tf_ui f)) (queuedQ (tf_ui f)), false)) in Hs.
  rewrite Hs. clear Hs. cbn [ActiveWorkers RunningQueries QueuedQueries].
  set (j0 := [(h, uiCookieName, "session-" +:+ ui_username c)]). set (f2 := set_ui _ f1).
  set (c2 := with_session (Some (jar_add h [] j0)) (loggedIn c1) c1).
  destruct (ui_get_fleet wait c2 j0 (("http://" +:+ h) +:+ uiAPIQueuedAPIPath) h "ui/api/query" "state=QUEUED" (<[h := f2]> fl1) f2 sent2) as (sent3 & ->);
    [done|exact Hr|by rewrite str_app_assoc|done|done|done|apply lookup_insert_eq|].
  rewrite serve_ui_query. unfold handleUIQuery, hasUICookie, req_cookie. cbn [req_cookies].
  unfold j0 at 1. rewrite session_cookie. cbn [find_first fst snd fmap option_fmap option_map]. rewrite seqb_refl. cbn [fmap option_fmap option_map snd].
  replace ("session-" +:+ ui_username c =?s "") with false by done. cbn [negb]. unfold json_answer. cbn [resp_body resp_status].
  change (200 =? 401) with false. cbv iota. change (queuedByUser (tf_ui f2)) with (queuedByUser (tf_ui f)).
  destruct (queued_read (queued_users range_order (queuedByUser (tf_ui f))) Hasc Hlen) as (qs & Hq & Hqs).
  set (j2 := print_json (queued_json _) +:+ nl) in *. assert (Hj2 : (j2 =?s "") = false) by (unfold j2; by destruct (print_json _)).
  rewrite Hj2, Hq. rewrite (counts_of_fake qs (queuedByUser (tf_ui f))) by done. split; [cbn; by rewrite Hb|reflexivity].
Qed.

(** ** The metrics collector *)
Lemma metrics_query_lacks c : mem_byte "#" (join "&" ((λ n, "name%5B%5D=" +:+ query_escape n) <$> metricNames c)) = false.
Proof.
  induction (metricNames c) as [|n l IH]; [done|]. rewrite fmap_cons. assert (Hn : mem_byte "#" ("name%5B%5D=" +:+ query_escape n) = false)
    by (rewrite mem_byte_app, query_escape_lacks by done; done).
  destruct l as [|n' l]; [exact Hn|]. rewrite fmap_cons in *. cbn [join] in *. rewrite !mem_byte_app in *. rewrite IH. by rewrite Hn.
Qed.

(** The request of the collector carries the credentials the endpoint asks for unless
    there are none. *)
Definition metrics_header (c : metricsCollector) : header :=
  let h := hdr_set "Content-Type" "application/openmetrics-text; version=1.0.0; charset=utf-8" (hdr_set (authHeaderName c) (authHeaderValue c) ∅) in
  if xForwarded c then hdr_set "X-Forwarded-Proto" "https" h else h.
Definition metrics_request (c : metricsCollector) (h path q : string) : request :=
  Request "GET" (Url "" "" "" "" (String "/" path) "" q false "") h remote false (metrics_header c) ∅ [] (Ok "").

Lemma metrics_header_get c k : authHeaderName c = k → k = "Authorization" ∨ k = "X-Trino-User" → hdr_get (metrics_header c) k = authHeaderValue c.
Proof.
  intros <- Hk. unfold metrics_header. destruct Hk as [Hk | Hk]; rewrite Hk; unfold hdr_get, hdr_set; destruct (xForwarded c); reflexivity.
Qed.
Lemma metrics_header_other c k : authHeaderName c ≠ k → (authHeaderName c = "Authorization" ∧ k = "X-Trino-User") ∨ (authHeaderName c = "X-Trino-User" ∧ k = "Authorization") →
  hdr_get (metrics_header c) k = "".
Proof.
  intros _ [[Hn ->] | [Hn ->]]; unfold metrics_header; rewrite Hn; unfold hdr_get, hdr_set; destruct (xForwarded c); reflexivity.
Qed.

Lemma cut_byte_found sep a b : is_Some (cut_byte sep (a +:+ String sep b)).
Proof.
  induction a as [|x a IH]; [rewrite str_app_nil_l|rewrite str_app_cons]; cbn [cut_byte]; [rewrite Ascii.eqb_refl; by eexists|].
  destruct (Ascii.eqb x sep); [by eexists|]. destruct IH as [[y z] ->]. by eexists.
Qed.

Lemma metrics_target_plain mon bs h path : plain_host h = true → MetricsEndpoint mon = String "/" path →
  let c := newMetricsCollector mon bs in let q := join "&" ((λ n, "name%5B%5D=" +:+ query_escape n) <$> metricNames c) in
  metrics_target c ("http://" +:+ h) = "http://" +:+ h +:+ String "/" path +:+ (if q =?s "" then "" else String "?" q).
Proof. intros Hh Hep c q. unfold metrics_target. rewrite trim_issuer by done. fold q. change (mc_endpoint c) with (MetricsEndpoint mon). by rewrite Hep, str_app_assoc. Qed.

Lemma metrics_authorized mon bs h path q :
  let c := newMetricsCollector mon bs in let r := metrics_request c h path q in
  bool_decide (is_Some (BasicAuth r)) || negb (hdr_get (req_header r) "X-Trino-User" =?s "") = negb ((Config.Password bs =?s "") && (Config.Username bs =?s "")).
Proof.
  intros c r. unfold BasicAuth. cbn [req_header r metrics_request]. destruct (Config.Password bs =?s "") eqn:Ep; cbn [andb negb].
  - assert (Hn : authHeaderName c = "X-Trino-User") by (cbn; by rewrite Ep). assert (Hv : authHeaderValue c = Config.Username bs) by (cbn; by rewrite Ep).
    rewrite (metrics_header_get c "X-Trino-User"), Hv by auto. rewrite (metrics_header_other c "Authorization") by (rewrite ?Hn; auto). done.
  - assert (Hn : authHeaderName c = "Authorization") by (cbn; by rewrite Ep).
    assert (Hv : authHeaderValue c = "Basic " +:+ b64_encode false true (Config.Username bs +:+ ":" +:+ Config.Password bs)) by (cbn; by rewrite Ep).
    rewrite (metrics_header_get c "Authorization"), Hv by auto. set (e := b64_encode _ _ _).
    rewrite str_length_app. change (String.length "Basic ") with 6%nat. rewrite (proj2 (Nat.ltb_ge _ _)) by lia.
    change 6%nat with (String.length "Basic "). rewrite str_take_app, str_drop_app. change (to_lower "Basic " =?s "basic ") with true. cbn [negb orb].
    unfold e. rewrite b64_roundtrip. cbn [mbind option_bind]. rewrite bool_decide_true by apply cut_byte_found. done.
Qed.

(** With a name or a password the collector judges the backend by the metrics the backend
    exposes; with neither it is refused, and the backend counts as unhealthy. *)
Theorem metrics_collect_reads_fake wait exotic_float mon bs b h path fl f sent :
  bk_URL b = "http://" +:+ h → plain_host h = true → fl !! h = Some f → 0 ≤ Retries mon < int64_max →
  MetricsEndpoint mon = String "/" path → metricsEndpoint f = String "/" path → str_forallb path_byte path = true →
  has_prefix "/v1/query/" (String "/" path) = false → String "/" path ∉ ["/v1/info"; "/ui/api/stats"; "/ui/api/query"] →
  let c := newMetricsCollector mon bs in
  fst (metrics_Collect collector_do (λ _ _, true) wait exotic_float c b (mkNet fl sent))
  = if (Config.Password bs =?s "") && (Config.Username bs =?s "") then unhealthy b else gate c b (parseMetrics exotic_float c (metricsBody (tf_met f))).
Proof.
  intros Hb Hh Hf Hr Hep Hfe Hp Hq Hn c. unfold metrics_Collect, getMetrics, attempts, mbind, ST_bind. cbn [retries c newMetricsCollector]. rewrite wrap64_id by (unfold in_int64, int64_min, int64_max in *; lia).
  destruct (Z.to_nat (Retries mon + 1)) as [|n] eqn:En; [lia|]. cbn [getMetrics_loop negb]. fold c. fold (metrics_header c). unfold mbind, ST_bind, send. cbn [net_world net_sent].
  set (q := join "&" ((λ n, "name%5B%5D=" +:+ query_escape n) <$> metricNames c)).
  rewrite (collector_do_plain None (OutRequest "GET" _ _ _) h path q fl f); [|cbn [or_url]; rewrite Hb; by apply (metrics_target_plain mon bs)|done|done|apply metrics_query_lacks|done].
  cbn [or_method or_header or_body fmap option_fmap option_map from_opt]. fold (metrics_request c h path q).
  replace (host_serves h (metrics_request c h path q) f) with (handleMetrics (metrics_request c h path q) f).
  2: { unfold serve_host, dispatch. cbn [req_url url_path req_method metrics_request]. rewrite Hq, Hfe, seqb_refl.
       assert (Hne : ∀ x, x ∈ ["/v1/info"; "/ui/api/stats"; "/ui/api/query"] → (String "/" path =?s x) = false)
         by (intros x Hx; apply seqb_neq; intros Heq; by rewrite Heq in Hn).
       rewrite (Hne "/v1/info"), (Hne "/ui/api/stats"), (Hne "/ui/api/query") by (repeat (left || right)).
       change ("GET" =?s "POST") with false. change ("GET" =?s "GET") with true. rewrite !andb_false_r. by rewrite seqb_refl. }
  unfold handleMetrics. pose proof (metrics_authorized mon bs h path q) as Ha. cbv zeta in Ha. fold c in Ha.
  assert (Hc : negb (bool_decide (is_Some (BasicAuth (metrics_request c h path q)))) && (hdr_get (req_header (metrics_request c h path q)) "X-Trino-User" =?s "")
    = (Config.Password bs =?s "") && (Config.Username bs =?s "")).
  { apply (f_equal negb) in Ha. by rewrite negb_orb, !negb_involutive in Ha. }
  rewrite Hc. destruct (_ && _); [|done]. cbn. unfold gate. by rewrite bool_decide_true.
Qed.
End clients.

(** ** Witnesses *)
Module ClientDemo.
Definition fake : TrinoFake := SetQueuedQueries {["alice" := 2; "bob" := 1]} (SetUIStats 3 4 3 (SetUICredentials "admin" "pw" NewTrinoFake)).
Definition owner : TrinoFake := set_st (mkStatements 1 ["q1"] {["q1" := "SELECT 1"]} ∅ ∅ ∅ [] false) NewTrinoFake.
Definition at_b2 : Backend := mkBackend "b2" "http://b2" "http://ext" "etl".
Definition collector : uiAPICollector (J := jar) := newUIAPICollector (Config.Monitor defaultConfig) (mkBackendStateConfig "admin" "pw" false true).
Definition svc : services fleet :=
  mkServices _ (λ w, (Ok [mkActiveBackend "b1" "http://b1" "a"; mkActiveBackend "b2" "http://b2" "a"], w)) (λ _ w, (("", None), w)) (λ _ _, true)
    (λ _ _ w, (CErr (mkCallError "" false), w)) (fleet_call FleetDemo.clock FleetDemo.bytes FleetDemo.order "10.0.0.9:7") None (λ l, l).
Definition rstate : router_state list_lru fleet := mkRouterState (ListLru 4096 []) {["b1" := NewTrinoFake; "b2" := owner]} [].
End ClientDemo.

Lemma ui_collect_reads_fake_witness :
  fst (fst (ui_Collect (collector_do FleetDemo.clock FleetDemo.bytes FleetDemo.order "10.0.0.9:7") (λ _ _, true) [] (λ fl, (true, fl))
    ClientDemo.collector ClientDemo.at_b2 (mkNet {["b2" := ClientDemo.fake]} [])))
  = mkClusterStats "b2" 4 3 3 Healthy "http://b2" "http://ext" "etl" (Some {["alice" := 2; "bob" := 1]}).
Proof.
  pose proof (ui_collect_reads_fake FleetDemo.clock FleetDemo.bytes FleetDemo.order "10.0.0.9:7" (λ fl, (true, fl)) ClientDemo.collector ClientDemo.at_b2 "b2"
    {["b2" := ClientDemo.fake]} ClientDemo.fake []) as H.
  destruct (ui_Collect _ _ _ _ _ _ _) as [[cs c'] n]. cbv zeta in H. cbn [fst]. destruct H as [-> _].
  1-3: reflexivity.
  1: reflexivity.
  1: vm_compute; split; [discriminate|reflexivity].
  1-3: vm_compute; split; discriminate.
  1: by intros m.
  1: vm_compute; repeat (constructor; [reflexivity|]); constructor.
  1: vm_compute; reflexivity.
  vm_compute. reflexivity.
Defined.

Lemma probe_finds_owner_witness : fst (recoverBackend ClientDemo.svc "q1" ClientDemo.rstate) = "http://b2".
Proof.
  destruct (probe_finds_owner FleetDemo.clock FleetDemo.bytes FleetDemo.order "10.0.0.9:7" ClientDemo.svc "q1"
    [mkActiveBackend "b1" "http://b1" "a"; mkActiveBackend "b2" "http://b2" "a"] ["b1"; "b2"] ClientDemo.rstate None) as [Hfound _].
  1-3: done.
  1: done.
  1: by repeat constructor.
  1: discriminate.
  1-2: done.
  destruct (Hfound "b2") as (h' & Hin & Hk & ->); [right; left|reflexivity|].
  apply elem_of_cons in Hin as [-> | ->%list_elem_of_singleton]; [vm_compute in Hk; discriminate|reflexivity].
Defined.
