(* ===== verification/OidcServer.v ===== *)
(** * The in-process identity provider (internal/testutil/oidc_server.go)

    Discovery, authorization, token and key-set endpoints over one RSA key that can be
    rotated. RSA and the signing of tokens are parameters: a key's public numbers and
    [SignedString]. The clock and the drawn keys are arguments. *)
From S2P Require Import Prelude GoStrings Json Codec HttpModel Routing ClusterStats Auth Wire WireForms.

#[local] Open Scope Z_scope.

(** ** Keys on the wire *)
Definition bytes_string (l : list N) : string := foldr (λ n s, String (chr n) s) "" l.
Fixpoint drop_zeros (l : list N) : list N :=
  match l with b :: r => if (b =? 0)%N then drop_zeros r else l | [] => [] end.

(** The exponent, big endian without leading zeros. *)
Definition encodeExponent (e : Z) : string :=
  match drop_zeros (be_bytes 8 (Z.to_N (e mod 2 ^ 64))) with [] => bytes_string [0%N] | l => bytes_string l end.

Definition raw_url (s : string) : string := b64_encode true false s.

Section server.
Context {PrivKey : Type}.
(** The modulus bytes and the exponent of a key's public half; [token.SignedString] with
    a [kid] header, an error of which panics. *)
Context (pub_N : PrivKey → string) (pub_E : PrivKey → Z) (SignedString : PrivKey → string → gmap string json → go_result string).
Context (url_parse : string → option url).

Record OIDCServer : Type := mkOIDCServer { os_URL : string; os_key : PrivKey; os_kid : string; os_keyNum : Z }.

(** The test fails when no key can be generated. *)
Definition NewOIDCServer (url : string) (draw : go_result PrivKey) : go_result OIDCServer :=
  match draw with
  | Err e => Err ("testutil: oidc: generate key: " +:+ e)
  | Ok key => Ok (mkOIDCServer url key "key-1" 1)
  end.

Definition AuthorizeURL (s : OIDCServer) : string := os_URL s +:+ "/authorize".
Definition TokenURL (s : OIDCServer) : string := os_URL s +:+ "/token".
Definition keys_URL (s : OIDCServer) : string := os_URL s +:+ "/.well-known/jwks.json".

Definition discovery_json (s : OIDCServer) : json :=
  JObj [("authorization_endpoint", JStr (AuthorizeURL s)); ("issuer", JStr (os_URL s)); ("jwks_uri", JStr (keys_URL s));
        ("token_endpoint", JStr (TokenURL s))].
Definition handleDiscovery (s : OIDCServer) : answer := json_answer (discovery_json s).

Definition code_of (nonce : string) : string := "code." +:+ raw_url nonce.
Definition handleAuthorize (r : request) : answer :=
  let q := parse_values (url_rawquery (req_url r)) in
  let redirectURI := values_get q "redirect_uri" in
  let state := values_get q "state" in
  let nonce := values_get q "nonce" in
  if redirectURI =?s "" then error_answer "missing redirect_uri" 400 else
  match url_parse redirectURI with
  | None => error_answer "bad redirect_uri" 400
  | Some u =>
      let rq := values_set "state" state (values_set "code" (code_of nonce) (parse_values (url_rawquery u))) in
      redirect_found url_parse r
        (url_string (Url (url_scheme u) (url_opaque u) (url_user u) (url_host u) (url_path u) (url_rawpath u) (values_encode rq)
           (url_forcequery u) (url_fragment u)))
  end.

(** [time.Time.Unix] of nanoseconds since the epoch. *)
Definition unix (ns : Z) : Z := ns / 10 ^ 9.
Definition base_claims (s : OIDCServer) (sub : string) (groups : list string) (ttl now : Z) : gmap string json :=
  {["sub" := JStr sub; "iss" := JStr (os_URL s); "iat" := jint (unix now); "exp" := jint (unix (now + ttl));
    "groups" := jstrs groups; "memberOf" := JStr (join "," groups)]}.
(** An error is a panic of the caller. *)
Definition sign_with (s : OIDCServer) (c : gmap string json) : go_result string :=
  match SignedString (os_key s) (os_kid s) c with
  | Ok t => Ok t
  | Err e => Err ("testutil: oidc: sign token: " +:+ e)
  end.
Definition IssueToken (s : OIDCServer) (sub : string) (groups : list string) (ttl now : Z) : go_result string :=
  sign_with s (base_claims s sub groups ttl now).
Definition IssueTokenWithClaims (s : OIDCServer) (sub : string) (groups : list string) (ttl : Z) (extra : gmap string json) (now : Z) : go_result string :=
  sign_with s (extra ∪ base_claims s sub groups ttl now).

Definition nonce_of (code : string) : string :=
  if has_prefix "code." code then from_opt "" (b64_decode true false (str_drop 5 code)) else "".
Definition token_json (tok : string) : json :=
  JObj [("access_token", JStr tok); ("expires_in", jint 3600); ("id_token", JStr tok); ("token_type", JStr "Bearer")].
Definition Hour : Z := 3600 * 10 ^ 9.
(** [None]: the handler panics and the connection is dropped. *)
Definition handleToken (now : Z) (r : request) (s : OIDCServer) : option answer :=
  if negb (parse_form_ok r) then Some (error_answer "bad form" 400) else
  match IssueTokenWithClaims s "web-user" ["admins"] Hour {["nonce" := JStr (nonce_of (post_form_value r "code"))]} now with
  | Err _ => None
  | Ok tok => Some (json_answer (token_json tok))
  end.

(** A failed draw panics before the server is changed. *)
Definition RotateKey (draw : go_result PrivKey) (s : OIDCServer) : go_result OIDCServer :=
  match draw with
  | Err e => Err ("testutil: oidc: rotate key: " +:+ e)
  | Ok key =>
      let n := wrap64 (os_keyNum s + 1) in
      Ok (mkOIDCServer (os_URL s) key ("key-" +:+ z_to_dec n) n)
  end.

Definition jwk_fields (s : OIDCServer) : list (string * json) :=
  [("alg", JStr "RS256"); ("e", JStr (raw_url (encodeExponent (pub_E (os_key s))))); ("kid", JStr (os_kid s)); ("kty", JStr "RSA");
   ("n", JStr (raw_url (pub_N (os_key s)))); ("use", JStr "sig")].
Definition handleJWKS (s : OIDCServer) : answer := json_answer (JObj [("keys", JArr [JObj (jwk_fields s)])]).

(** The routes [NewOIDCServer] registers. *)
Definition serve_oidc (now : Z) (r : request) (s : OIDCServer) : option answer :=
  let path := url_path (req_url r) in
  if path =?s "/.well-known/jwks.json" then Some (handleJWKS s)
  else if path =?s "/.well-known/openid-configuration" then Some (handleDiscovery s)
  else if path =?s "/authorize" then Some (handleAuthorize r)
  else if path =?s "/token" then handleToken now r s
  else Some not_found.
End server.
#[global] Arguments OIDCServer : clear implicits.

(** ** The exponent *)
Definition be_value (s : string) : N := foldl (λ a c, a * 256 + byte_n c)%N 0%N (String.list_ascii_of_string s).

Lemma bytes_value l a : Forall (λ b, b < 256)%N l →
  foldl (λ a c, a * 256 + byte_n c)%N a (String.list_ascii_of_string (bytes_string l)) = foldl (λ a b, a * 256 + b)%N a l.
Proof.
  intros Hl. revert a. induction Hl as [|b l Hb _ IH]; intros a; [done|]. cbn [bytes_string foldr String.list_ascii_of_string foldl].
  rewrite IH. by rewrite byte_n_chr.
Qed.
Lemma be_bytes_lt k n : Forall (λ b, b < 256)%N (be_bytes k n).
Proof.
  revert n. induction k as [|k IH]; intros n; cbn [be_bytes]; [constructor|]. apply Forall_app. split; [done|].
  apply Forall_singleton, N.mod_lt. lia.
Qed.
Lemma be_bytes_value k n : (n < 256 ^ N.of_nat k)%N → foldl (λ a b, a * 256 + b)%N 0%N (be_bytes k n) = n.
Proof.
  revert n. induction k as [|k IH]; intros n Hn; cbn [be_bytes].
  - cbn in *. lia.
  - rewrite foldl_app. cbn [foldl]. rewrite IH.
    + rewrite N.mul_comm. symmetry. apply N.Div0.div_mod.
    + apply N.Div0.div_lt_upper_bound. rewrite Nat2N.inj_succ, N.pow_succ_r' in Hn. lia.
Qed.
Lemma drop_zeros_value l : foldl (λ a b, a * 256 + b)%N 0%N (drop_zeros l) = foldl (λ a b, a * 256 + b)%N 0%N l.
Proof. induction l as [|b l IH]; [done|]. cbn [drop_zeros]. destruct (N.eqb_spec b 0) as [->|]; [exact IH|done]. Qed.
Lemma drop_zeros_sub P l : Forall P l → Forall P (drop_zeros l).
Proof. induction 1 as [|b l Hb Hl IH]; [done|]. cbn [drop_zeros]. destruct (b =? 0)%N; [done|by constructor]. Qed.
Lemma drop_zeros_head l b r : drop_zeros l = b :: r → b ≠ 0%N.
Proof. induction l as [|x l IH]; [done|]. cbn [drop_zeros]. destruct (N.eqb_spec x 0); [done|]. by intros [= <- _]. Qed.

(** The exponent is read back from its bytes, which have no leading zero unless it is zero. *)
Theorem exponent_roundtrip e : 0 ≤ e < 2 ^ 64 →
  be_value (encodeExponent e) = Z.to_N e ∧ (e ≠ 0 → ∃ c r, encodeExponent e = String c r ∧ byte_n c ≠ 0%N).
Proof.
  intros He. unfold encodeExponent. rewrite Z.mod_small by done. set (n := Z.to_N e).
  assert (Hn : (n < 256 ^ N.of_nat 8)%N) by (unfold n; change (256 ^ N.of_nat 8)%N with (Z.to_N (2 ^ 64)); lia).
  pose proof (drop_zeros_value (be_bytes 8 n)) as Hv. rewrite (be_bytes_value 8 n Hn) in Hv.
  pose proof (drop_zeros_sub _ _ (be_bytes_lt 8 n)) as Hb. destruct (drop_zeros (be_bytes 8 n)) as [|b l] eqn:Ed.
  - cbn in Hv. split; [by rewrite <- Hv|]. intros Hne. unfold n in Hv. lia.
  - split.
    + unfold be_value. by rewrite bytes_value.
    + intros _. exists (chr b), (bytes_string l). split; [done|]. rewrite byte_n_chr by by apply Forall_cons in Hb as [? _].
      by eapply drop_zeros_head.
Qed.
