(* ===== verification/OidcLogin.v ===== *)
(** * The interactive login against the identity provider

    The gateway's web login ([Auth.NewOIDCWebLogin], [AdminAuth.handleSSO],
    [AdminAuth.handleOIDCCallback]) connected to [OidcServer] by a browser and by the
    gateway's own HTTP client. What the JWT and key-set libraries promise is the class
    [JWTLibrary]; [DemoJwt] has an instance. *)
From S2P Require Import Prelude GoStrings Json Codec HttpModel Config Routing ClusterStats Auth AdminAuth Wire WireForms OidcServer.

#[local] Open Scope Z_scope.

(** ** The libraries *)
Definition member (k : string) (f : list (string * json)) : option json := snd <$> find_first (λ kv, fst kv =?s k) f.

(** A set of claims a token can carry: JSON that is written and read back. *)
Definition claims_ok (c : gmap string json) : Prop :=
  map_Forall (λ k v, all_ascii k = true ∧ wf_json v = true ∧ (jheight v ≤ 8)%nat) c.

(** A key set maps key ids to public keys. A token signed with a key verifies against the
    key set that has its public half under the token's [kid], from its [nbf], if it has
    one, until it expires, and gives back its claims; it does not verify when the set has no
    such [kid], before its [nbf], or when it has expired. A key set is read from its JSON document (RFC 7517). *)
Definition not_before (c : gmap string json) (t : Z) : Prop := c !! "nbf" = None ∨ ∃ t', c !! "nbf" = Some (jint t') ∧ in_int64 t' ∧ t' ≤ t.
Class JWTLibrary {PrivKey K : Type} (pub_N : PrivKey → string) (pub_E : PrivKey → Z)
    (SignedString : PrivKey → string → gmap string json → go_result string)
    (load_keys : string → go_result K) (verify : Z → K → string → option (gmap string json)) : Type := {
  keys_of : K → gmap string (string * N);
  exponent_range k : 0 < pub_E k < 2 ^ 63;
  token_text k kid c tok : SignedString k kid c = Ok tok → all_ascii tok = true ∧ tok ≠ "";
  keys_loaded body f kid n e :
    unmarshal_ast body = Some (JObj [("keys", JArr [JObj f])]) →
    member "kty" f = Some (JStr "RSA") → member "kid" f = Some (JStr kid) →
    member "n" f = Some (JStr (raw_url n)) → member "e" f = Some (JStr (raw_url e)) →
    ∃ ks, load_keys body = Ok ks ∧ keys_of ks = {[kid := (n, be_value e)]};
  token_verifies k kid c tok ks t now :
    SignedString k kid c = Ok tok → claims_ok c → all_ascii kid = true → keys_of ks !! kid = Some (pub_N k, Z.to_N (pub_E k)) →
    c !! "exp" = Some (jint t) → in_int64 t → now < t → not_before c now → verify now ks tok = Some c;
  token_early k kid c tok ks t now :
    SignedString k kid c = Ok tok → claims_ok c → c !! "nbf" = Some (jint t) → in_int64 t → now < t → verify now ks tok = None;
  token_expired k kid c tok ks t now :
    SignedString k kid c = Ok tok → claims_ok c → c !! "exp" = Some (jint t) → in_int64 t → t ≤ now → verify now ks tok = None;
  token_unknown_key k kid c tok ks now :
    SignedString k kid c = Ok tok → claims_ok c → all_ascii kid = true → keys_of ks !! kid = None → verify now ks tok = None }.

Section login.
Context {PrivKey K : Type} (pub_N : PrivKey → string) (pub_E : PrivKey → Z)
  (SignedString : PrivKey → string → gmap string json → go_result string)
  (load_keys : string → go_result K) (verify : Z → K → string → option (gmap string json)).
Context `{J : JWTLibrary PrivKey K pub_N pub_E SignedString load_keys verify}.
Context (remote : string) (clock : Z).

#[local] Abbreviation serve := (serve_oidc pub_N pub_E SignedString parse_http clock).

(** The gateway's HTTP client when the provider listens at [h]. *)
Definition idp_do (h : string) (o : out_request) : ST (OIDCServer PrivKey) (call_result response) := λ s,
  match deliver remote (λ _, []) o with
  | None => (CErr (mkCallError "unsupported protocol scheme" false), s)
  | Some (host, r) =>
      if negb (host =?s h) then (CErr (mkCallError "connection refused" false), s)
      else match serve r s with
           | None => (CErr (mkCallError "EOF" false), s)
           | Some (resp, _) => (COk (as_received (or_method o) resp), s)
           end
  end.

(** [keyfunc.NewDefaultCtx] on one URL: a GET, and the document read from a 200. *)
Definition fetch_keys (h url : string) : ST (OIDCServer PrivKey) (go_result K) := λ s,
  match idp_do h (OutRequest "GET" url ∅ (Ok "")) s with
  | (CErr e, s') => (Err (ce_msg e), s')
  | (COk resp, s') => (if resp_status resp =? 200 then load_keys (resp_body resp) else Err "invalid HTTP status code", s')
  end.

Lemma idp_do_plain h o p q s resp cs :
  or_url o = "http://" +:+ h +:+ String "/" p +:+ (if q =?s "" then "" else String "?" q) →
  plain_host h = true → str_forallb path_byte p = true → mem_byte "#" q = false →
  serve (Request (or_method o) (Url "" "" "" "" (String "/" p) "" q false "") h remote false (or_header o) ∅ [] (or_body o)) s = Some (resp, cs) →
  idp_do h o s = (COk (as_received (or_method o) resp), s).
Proof using Type.
  intros Hu Hh Hp Hq Hs. destruct o as [meth u hd body]. cbn in Hu, Hs. subst u. unfold idp_do. rewrite deliver_plain by done.
  rewrite seqb_refl. cbn [negb]. rewrite Hs. done.
Qed.

(** ** Discovery *)
Context (h : string) (s : OIDCServer PrivKey) (Hh : plain_host h = true) (Hs : os_URL s = "http://" +:+ h).

Lemma host_all_ascii : all_ascii ("http://" +:+ h) = true.
Proof using Hh. unfold all_ascii. rewrite str_forallb_app. apply andb_true_iff. split; [done|]. by apply host_ascii. Qed.

Lemma idp_get p ans : str_forallb path_byte p = true →
  serve (Request "GET" (Url "" "" "" "" (String "/" p) "" "" false "") h remote false ∅ ∅ [] (Ok "")) s = Some ans →
  idp_do h (OutRequest "GET" (os_URL s +:+ String "/" p) ∅ (Ok "")) s = (COk ans.1, s).
Proof using Hh Hs.
  intros Hp Ha. destruct ans as [resp cs]. rewrite (idp_do_plain h _ p "" s resp cs); [done| |done..]. cbn [or_url].
  by rewrite Hs, seqb_refl, str_app_nil_r, str_app_assoc.
Qed.

(** The provider's two documents as the gateway reads them. *)
Lemma discovery_read :
  unmarshal set_discovery_field (mkDiscovery "" "") (resp_body (fst (handleDiscovery s))) = (mkDiscovery (AuthorizeURL s) (TokenURL s), false).
Proof using Hh Hs.
  pose proof host_all_ascii as Ha. unfold unmarshal. cbn [handleDiscovery json_answer fst resp_body]. rewrite unmarshal_print_nl; [reflexivity| |by vm_compute].
  unfold discovery_json, AuthorizeURL, TokenURL, keys_URL. cbn [wf_json forallb fst snd]. unfold all_ascii in *. rewrite Hs, !(str_forallb_app _ ("http://" +:+ h)), Ha.
  by vm_compute.
Qed.

Lemma keys_read : all_ascii (os_kid s) = true →
  ∃ ks, load_keys (resp_body (fst (handleJWKS pub_N pub_E s))) = Ok ks ∧ keys_of ks = {[os_kid s := (pub_N (os_key s), Z.to_N (pub_E (os_key s)))]}.
Proof using J.
  intros Hk. pose proof (exponent_range (os_key s)) as He. destruct (exponent_roundtrip (pub_E (os_key s))) as [Hv _]; [lia|].
  rewrite <- Hv. eapply (keys_loaded _ (jwk_fields pub_N pub_E s)); [|reflexivity..]. cbn [handleJWKS json_answer fst resp_body].
  rewrite unmarshal_print_nl; [reflexivity| |by vm_compute]. unfold jwk_fields. cbn [wf_json forallb fst snd]. unfold raw_url.
  rewrite !b64_ascii, Hk. by vm_compute.
Qed.

(** ** Starting the login *)
Context (cfg : OIDCConfig) (g : string) (Hg : plain_host g = true).
Context (Hissuer : IssuerURL cfg = os_URL s) (Hkeys : JWKSURL cfg = keys_URL s) (Hclient : ClientID cfg ≠ "")
  (Hredirect : RedirectURL cfg = "http://" +:+ g +:+ "/oidc/callback") (Hauthz : AuthorizationEndpoint cfg = "") (Htoken : TokenEndpoint cfg = "").
Context (Hkid : all_ascii (os_kid s) = true).
Context (Hdoc : Z.of_nat (String.length (resp_body (fst (handleDiscovery s)))) < 2 ^ 20).

Lemma weblogin_discovers : ∃ ks,
  NewOIDCWebLogin (λ _ _, true) (idp_do h) cfg (fetch_keys h (JWKSURL cfg)) s = (Ok (mkWebLogin (AuthorizeURL s) (TokenURL s) ks), s)
  ∧ keys_of ks = {[os_kid s := (pub_N (os_key s), Z.to_N (pub_E (os_key s)))]}.
Proof using Hh Hs Hissuer Hkeys Hclient Hredirect Hauthz Htoken Hkid Hdoc J.
  destruct (keys_read Hkid) as (ks & Hl & Hks). exists ks. split; [|done]. unfold NewOIDCWebLogin. rewrite Hredirect, Hauthz, Htoken, Hissuer, Hkeys.
  change ("http://" +:+ g +:+ "/oidc/callback" =?s "") with false. apply seqb_neq in Hclient as ->. rewrite seqb_refl. cbn [orb].
  unfold discover, mbind, ST_bind. assert ((os_URL s =?s "") = false) as -> by by rewrite Hs. cbn [negb].
  rewrite Hs at 1. rewrite trim_issuer, <- Hs by done.
  rewrite (idp_get ".well-known/openid-configuration" (handleDiscovery s)) by done. pose proof discovery_read as Hd.
  unfold handleDiscovery, json_answer in *. cbn [fst resp_status resp_body] in *. cbn [Z.eqb Pos.eqb negb]. rewrite read_limited_all, Hd by done.
  cbn [mret ST_ret dd_Authorization dd_Token]. unfold AuthorizeURL, TokenURL. rewrite Hs. cbv iota. unfold fetch_keys.
  match goal with |- context [if ?b then _ else _] => change b with false end. cbv iota beta. rewrite <- Hs. change (keys_URL s) with (os_URL s +:+ "/.well-known/jwks.json"). rewrite (idp_get ".well-known/jwks.json" (handleJWKS pub_N pub_E s)) by done. cbn [handleJWKS json_answer fst resp_status resp_body] in *.
  rewrite Hl. done.
Qed.

(** ** At the provider *)

(** The browser at an endpoint of the provider. *)
Definition visit (path query : string) : request :=
  Request "GET" (Url "" "" "" "" path "" query false "") h remote false ∅ ∅ [] (Ok "").
Definition authorize_query (state nonce : string) : string :=
  form_encode [("client_id", ClientID cfg); ("nonce", nonce); ("redirect_uri", RedirectURL cfg); ("response_type", "code");
               ("scope", join " " (match Scopes cfg with [] => ["openid"] | l => l end)); ("state", state)].
Definition callback_query (state nonce : string) : string := form_encode [("code", code_of nonce); ("state", state)].

Lemma values_encode_login c st : values_encode (values_set "state" st (values_set "code" c (parse_values ""))) = form_encode [("code", c); ("state", st)].
Proof using Type. reflexivity. Qed.

Lemma callback_query_nonempty state nonce : (callback_query state nonce =?s "") = false.
Proof using Type. reflexivity. Qed.

Lemma authorize_redirects state nonce : ∃ resp,
  serve (visit "/authorize" (authorize_query state nonce)) s = Some (resp, []) ∧ resp_status resp = 302
  ∧ hdr_get (resp_header resp) "Location" = "http://" +:+ g +:+ "/oidc/callback?" +:+ callback_query state nonce.
Proof using Hg Hredirect.
  unfold serve_oidc, visit. cbn [req_url url_path]. cbn [String.eqb Ascii.eqb Bool.eqb].
  unfold handleAuthorize. cbn [req_url url_rawquery]. rewrite !values_get_query. unfold authorize_query. rewrite !query_get_form. cbn [find_first fst snd fmap option_fmap option_map from_opt String.eqb Ascii.eqb Bool.eqb].
  rewrite Hredirect. change ("http://" +:+ g +:+ "/oidc/callback" =?s "") with false. cbv iota.
  pose proof (parse_http_plain g "oidc/callback" "" Hg eq_refl eq_refl) as Hp. change ("" =?s "") with true in Hp. cbv iota in Hp.
  rewrite str_app_nil_r in Hp. rewrite Hp. cbn [url_rawquery url_scheme url_opaque url_user url_host url_path url_rawpath url_forcequery url_fragment].
  rewrite values_encode_login. fold (callback_query state nonce).
  rewrite url_string_plain by done. rewrite callback_query_nonempty.
  unfold redirect_found. pose proof (parse_http_plain g "oidc/callback" (callback_query state nonce) Hg eq_refl (form_encode_lacks "#" _ eq_refl)) as Hq.
  rewrite callback_query_nonempty in Hq. rewrite Hq. cbn [url_scheme url_host]. change ("http" =?s "") with false. cbn [andb].
  cbn [req_method]. eexists. split; [reflexivity|]. split; [done|]. cbn [resp_header].
  rewrite hexEscapeNonASCII_ascii; [reflexivity|]. unfold all_ascii. rewrite !str_forallb_app.
  pose proof (host_ascii g Hg) as Ha. pose proof (form_encode_ascii [("code", code_of nonce); ("state", state)]) as Hb. unfold all_ascii in *.
  rewrite Ha. cbn [str_forallb]. unfold callback_query. rewrite Hb. by vm_compute.
Qed.

(** ** The token *)
Definition login_claims (nonce : string) : gmap string json := {["nonce" := JStr nonce]} ∪ base_claims s "web-user" ["admins"] Hour clock.

Lemma nonce_of_code nonce : nonce_of (code_of nonce) = nonce.
Proof using Type.
  unfold nonce_of, code_of. rewrite has_prefix_app. change 5%nat with (String.length "code."). rewrite str_drop_app. unfold raw_url.
  by rewrite b64_roundtrip.
Qed.

Definition exchange_header : header := hdr_set "Accept" "application/json" (hdr_set "Content-Type" "application/x-www-form-urlencoded" ∅).

Lemma token_form_code code : query_get (token_form cfg code) "code" = code.
Proof using Type. unfold token_form. rewrite query_get_form. by destruct (ClientSecret cfg =?s ""). Qed.

Lemma token_answered nonce tok :
  SignedString (os_key s) (os_kid s) (login_claims nonce) = Ok tok → Z.of_nat (String.length (token_form cfg (code_of nonce))) ≤ maxFormSize →
  idp_do h (OutRequest "POST" (TokenURL s) exchange_header (Ok (token_form cfg (code_of nonce)))) s = (COk (fst (json_answer (token_json tok))), s).
Proof using Hh Hs.
  intros Hsign Hsize. rewrite (idp_do_plain h _ "token" "" s (fst (json_answer (token_json tok))) []); [done| |done..|].
  { cbn [or_url]. unfold TokenURL. by rewrite Hs, seqb_refl, str_app_assoc. }
  cbn [or_method or_header or_body]. unfold serve_oidc. cbn [req_url url_path]. cbn [String.eqb Ascii.eqb Bool.eqb].
  unfold handleToken. replace (parse_form_ok _) with true.
  2: { symmetry. unfold parse_form_ok. cbn [req_method req_header req_body req_url url_rawquery]. change (_ && (media_type _ =?s _)) with true. cbv iota.
       rewrite (proj2 (Z.leb_le _ _)) by done. unfold token_form. by rewrite form_encode_ok. }
  cbn [negb]. unfold IssueTokenWithClaims, sign_with.
  replace (post_form_value _ "code") with (code_of nonce).
  2: { unfold post_form_value. cbn [req_method req_header req_body]. change (_ && (media_type _ =?s _)) with true. cbv iota. by rewrite token_form_code. }
  rewrite nonce_of_code. fold (login_claims nonce). by rewrite Hsign.
Qed.

Context (Hclock : in_int64 (unix clock)) (Hexp : in_int64 (unix (clock + Hour))).

Lemma jint_wf z : in_int64 z → wf_json (jint z) = true.
Proof using Type. intros Hz. cbn. by rewrite parse_int_dec, seqb_refl. Qed.

Lemma login_claims_ok nonce : all_ascii nonce = true → claims_ok (login_claims nonce).
Proof using Hclock Hexp Hs Hh.
  intros Hn. unfold login_claims, base_claims. pose proof host_all_ascii as Ha. rewrite <- insert_union_singleton_l. unfold claims_ok.
  repeat (apply map_Forall_insert_2; [split_and!; [done| |cbn; lia]|]); [done|done|by rewrite Hs|by apply jint_wf|by apply jint_wf|done|done|].
  apply map_Forall_empty.
Qed.

Lemma token_response_read tok : all_ascii tok = true →
  unmarshal set_token_field (mkTokenResponse "" "" "" "") (resp_body (fst (json_answer (token_json tok)))) = (mkTokenResponse tok tok "" "", false).
Proof using Type.
  intros Ht. unfold unmarshal. cbn [json_answer fst resp_body]. rewrite unmarshal_print_nl; [reflexivity| |by vm_compute].
  unfold token_json. cbn [wf_json forallb fst snd]. rewrite Ht. by vm_compute.
Qed.

Lemma authorize_query_nonempty state nonce : (authorize_query state nonce =?s "") = false.
Proof using Type. reflexivity. Qed.
Lemma callback_code state nonce : query_get (callback_query state nonce) "code" = code_of nonce.
Proof using Type. unfold callback_query. by rewrite query_get_form. Qed.
Lemma callback_state state nonce : query_get (callback_query state nonce) "state" = query_get (authorize_query state nonce) "state".
Proof using Type. unfold callback_query, authorize_query. by rewrite !query_get_form. Qed.
Lemma authorize_nonce state nonce : query_get (authorize_query state nonce) "nonce" = nonce.
Proof using Type. unfold authorize_query. by rewrite query_get_form. Qed.

Lemma authz_no_query : mem_byte "?" (AuthorizeURL s) = false.
Proof using Hh Hs.
  unfold AuthorizeURL. rewrite Hs, !mem_byte_app. rewrite (mem_byte_none host_byte "?" h); [done|done|]. by apply andb_true_iff in Hh as [_ ?].
Qed.

(** A login through the whole chain of handlers: the gateway discovers the endpoints and the keys,
    [/sso] hands the browser a URL and a state cookie, the provider sends it back to the
    callback, and the callback, having exchanged the code, sets a token cookie and
    redirects to the UI. The API takes that token, while it is valid, for the user and
    the groups the provider put in it. The handlers are called as behind a middleware that
    lets the browser through; the one [main] installs answers a browser that has no token
    yet with 401 ([AdminAuth.web_login_needs_token]). *)
Theorem login_through_provider b1 b2 r0 now tok :
  b1 ≠ "" → b2 ≠ "" →
  let state := raw_url b1 in let nonce := raw_url b2 in
  SignedString (os_key s) (os_kid s) (login_claims nonce) = Ok tok →
  Z.of_nat (String.length (token_form cfg (code_of nonce))) ≤ maxFormSize →
  Z.of_nat (String.length (resp_body (fst (json_answer (token_json tok))))) < 2 ^ 20 → now < unix (clock + Hour) →
  ∃ w cookie url r1 resp loc r2 rep,
    NewOIDCWebLogin (λ _ _, true) (idp_do h) cfg (fetch_keys h (JWKSURL cfg)) s = (Ok w, s)
    ∧ rp_cookies (handleSSO cfg "OIDC" (Some w) (Some b1) (Some b2) r0) = [cookie]
    ∧ rp_body (handleSSO cfg "OIDC" (Some w) (Some b1) (Some b2) r0) = BJson (resultOK (JStr url))
    ∧ deliver remote (λ _, []) (OutRequest "GET" url ∅ (Ok "")) = Some (h, r1)
    ∧ serve r1 s = Some (resp, []) ∧ resp_status resp = 302 ∧ hdr_get (resp_header resp) "Location" = loc
    ∧ deliver remote (λ _, [(sc_name cookie, sc_value cookie)]) (OutRequest "GET" loc ∅ (Ok "")) = Some (g, r2)
    ∧ url_path (req_url r2) = "/oidc/callback"
    ∧ handleOIDCCallback (verify now) (λ _ _, true) (idp_do h) cfg "OIDC" (Some w) r2 s = (rep, s)
    ∧ rp_status rep = 303 ∧ hdr_get (rp_header rep) "Location" = uiBasePath
    ∧ (λ c, (sc_name c, sc_value c)) <$> rp_cookies rep = [(oidcStateCookie, ""); (tokenCookie, tok)]
    ∧ ∀ r3, bearerToken r3 = tok → oidc_principal (verify now) (Some (wl_jwks w)) r3 = Some (mkPrincipal "web-user" "admins").
Proof using All.
  intros H1 H2 state nonce Hsign Hform Hdocsize Hnow. destruct weblogin_discovers as (ks & Hnew & Hks).
  destruct (authorize_redirects state nonce) as (resp & Hserve & Hst & Hloc).
  destruct (token_text _ _ _ _ Hsign) as [Hta Htn].
  assert (Hver : verify now ks tok = Some (login_claims nonce)).
  { eapply token_verifies; [exact Hsign|apply login_claims_ok, b64_ascii|done| |reflexivity|done|done|by left]. by rewrite Hks, lookup_singleton_eq. }
  set (w := mkWebLogin (AuthorizeURL s) (TokenURL s) ks). set (q2 := callback_query state nonce).
  set (r2 := Request "GET" (Url "" "" "" "" "/oidc/callback" "" q2 false "") g remote false ∅ ∅ [(oidcStateCookie, state +:+ ":" +:+ nonce)] (Ok "")).
  destruct (web_login_completes (verify now) (λ _ _, true) (idp_do h) cfg w b1 b2 r0 r2 s s (fst (json_answer (token_json tok)))
    (resp_body (fst (json_answer (token_json tok)))) (mkTokenResponse tok tok "" "") (login_claims nonce) H1 H2) as (cookie & q & Hck & Hbody & _ & _ & Hcb).
  assert (Hcv : cookie = SetCookie oidcStateCookie (state +:+ ":" +:+ nonce) "/oidc/callback" oidcStateMaxAge true (requestIsHTTPS r0) SameSiteLax)
    by (cbn in Hck; by injection Hck as <-).
  assert (Hq : q = authorize_query state nonce).
  { cbn [handleSSO rp_body seqb_refl] in Hbody. cbn in Hbody. injection Hbody as Hbody. unfold AuthCodeURL in Hbody. cbn [authzURL w] in Hbody.
    rewrite authz_no_query in Hbody. apply (inj (String.append (AuthorizeURL s))) in Hbody.
    injection Hbody as Hbody. exact (eq_sym Hbody). }
  subst q cookie. destruct Hcb as (rep & Hrun & Hrs & Hrl & Hrc).
  - reflexivity.
  - apply callback_state.
  - change (url_rawquery (req_url r2)) with (callback_query state nonce). by rewrite callback_code.
  - done.
  - change (url_rawquery (req_url r2)) with (callback_query state nonce). rewrite callback_code. by apply token_answered.
  - done.
  - by apply read_limited_all.
  - by apply token_response_read.
  - done.
  - done.
  - done.
  - by rewrite authorize_nonce.
  - eexists w, _, _, (visit "/authorize" (authorize_query state nonce)), resp, _, r2, rep.
    split_and!; [exact Hnew|exact Hck|exact Hbody| |exact Hserve|exact Hst|exact Hloc| |done|exact Hrun|exact Hrs|exact Hrl|exact Hrc|].
    + cbn [authzURL w]. rewrite authz_no_query. unfold AuthorizeURL. rewrite Hs.
      pose proof (deliver_plain remote (λ _, []) "GET" h "authorize" (authorize_query state nonce) ∅ (Ok "") Hh eq_refl (form_encode_lacks "#" _ eq_refl)) as Hd.
      rewrite authorize_query_nonempty in Hd. rewrite !str_app_assoc. exact Hd.
    + pose proof (deliver_plain remote (λ _, [(oidcStateCookie, state +:+ ":" +:+ nonce)]) "GET" g "oidc/callback" q2 ∅ (Ok "") Hg eq_refl
        (form_encode_lacks "#" _ eq_refl)) as Hd. unfold q2 in Hd at 1. rewrite callback_query_nonempty in Hd. exact Hd.
    + intros r3 Hb. unfold oidc_principal. cbn [mbind option_bind wl_jwks w]. rewrite Hb, Hver. cbn [mbind option_bind]. apply seqb_neq in Htn as ->. done.
Qed.
End login.

(** ** Rotation *)
Definition server_ok {PrivKey} (s : OIDCServer PrivKey) : Prop := os_kid s = "key-" +:+ z_to_dec (os_keyNum s) ∧ in_int64 (os_keyNum s).

Lemma z_to_dec_inj a b : in_int64 a → in_int64 b → z_to_dec a = z_to_dec b → a = b.
Proof. intros Ha Hb He. apply parse_int_dec in Ha. rewrite He, parse_int_dec in Ha by done. congruence. Qed.
Lemma wrap64_succ_ne z : in_int64 z → wrap64 (z + 1) ≠ z.
Proof.
  intros Hz. destruct (decide (z = int64_max)) as [->|]; [done|].
  rewrite wrap64_id by (unfold in_int64, int64_max in *; lia). lia.
Qed.
Lemma key_id_ascii z : all_ascii ("key-" +:+ z_to_dec z) = true.
Proof.
  unfold all_ascii. rewrite str_forallb_app. apply andb_true_iff. split; [done|]. eapply str_forallb_impl; [|apply (z_to_dec_chars z)]. intros c Hc.
  assert (H : implb (digit_or_minus c) (is_ascii c) = true); [|by rewrite Hc in H]. clear Hc. revert c.
  apply (ascii_forall (λ c, implb (digit_or_minus c) (is_ascii c))). by vm_compute.
Qed.

(** After a rotation the key set the gateway fetches accepts no token issued before it,
    and every token issued after it until the token expires. *)
Theorem rotation_revokes {PrivKey K} pub_N pub_E SignedString load_keys verify `{J : @JWTLibrary PrivKey K pub_N pub_E SignedString load_keys verify}
    remote clock h (s s' : OIDCServer PrivKey) key :
  plain_host h = true → os_URL s = "http://" +:+ h → server_ok s → RotateKey (Ok key) s = Ok s' →
  server_ok s' ∧ ∃ ks, fetch_keys pub_N pub_E SignedString load_keys remote clock h (keys_URL s') s' = (Ok ks, s')
    ∧ (∀ c tok now, sign_with SignedString s c = Ok tok → claims_ok c → verify now ks tok = None)
    ∧ (∀ c tok t now, sign_with SignedString s' c = Ok tok → claims_ok c → c !! "exp" = Some (jint t) → in_int64 t → not_before c now →
         verify now ks tok = if now <? t then Some c else None).
Proof.
  intros Hh Hs [Hkid Hnum] [= <-]. set (n := wrap64 (os_keyNum s + 1)). set (s' := mkOIDCServer (os_URL s) key ("key-" +:+ z_to_dec n) n).
  assert (Hn : in_int64 n) by apply wrap64_range. assert (Hne : n ≠ os_keyNum s) by by apply wrap64_succ_ne.
  split; [by split|]. destruct (keys_read pub_N pub_E SignedString load_keys verify s') as (ks & Hl & Hks); [apply key_id_ascii|].
  exists ks. split_and!.
  - unfold fetch_keys. change (keys_URL s') with (os_URL s' +:+ "/.well-known/jwks.json").
    rewrite (idp_get pub_N pub_E SignedString remote clock h s' Hh Hs ".well-known/jwks.json" (handleJWKS pub_N pub_E s')) by done.
    cbn [handleJWKS json_answer fst resp_status resp_body Z.eqb Pos.eqb] in *. by rewrite Hl.
  - intros c tok now Hsg Hc. unfold sign_with in Hsg. destruct (SignedString _ _ c) as [t|] eqn:Es; [|done]. injection Hsg as ->.
    eapply token_unknown_key; [exact Es|done|rewrite Hkid; apply key_id_ascii|]. rewrite Hks, lookup_singleton_ne; [done|].
    rewrite Hkid. cbn [os_kid s']. intros Heq. apply (inj (String.append "key-")) in Heq. by apply z_to_dec_inj in Heq.
  - intros c tok t now Hsg Hc Hexp Ht Hnb. unfold sign_with in Hsg. destruct (SignedString _ _ c) as [t'|] eqn:Es; [|done]. injection Hsg as ->.
    destruct (Z.ltb_spec now t).
    + eapply token_verifies; [exact Es|done|apply key_id_ascii| |done..]. by rewrite Hks, lookup_singleton_eq.
    + by eapply token_expired.
Qed.

(** ** An instance of the libraries, for concrete runs *)
Module DemoJwt.
Definition pub_N (k : N) : string := n_to_dec k.
Definition pub_E (_ : N) : Z := 65537.
Definition SignedString (k : N) (kid : string) (c : gmap string json) : go_result string :=
  Ok (join "." [raw_url kid; raw_url (print_json (JObj (map_to_list c))); raw_url (pub_N k)]).
Definition load_keys (body : string) : go_result (gmap string (string * N)) :=
  match unmarshal_ast body with
  | Some (JObj [(_, JArr [JObj f])]) =>
      match member "kid" f, member "n" f, member "e" f with
      | Some (JStr kid), Some (JStr n), Some (JStr e) =>
          match b64_decode true false n, b64_decode true false e with
          | Some n, Some e => Ok {[kid := (n, be_value e)]}
          | _, _ => Err "malformed key"
          end
      | _, _, _ => Err "malformed key"
      end
  | _ => Err "malformed key set"
  end.
Definition expiry (c : gmap string json) : option Z := match c !! "exp" with Some (JNum l) => parse_int l | _ => None end.
Definition begun (now : Z) (c : gmap string json) : bool :=
  match c !! "nbf" with Some (JNum l) => match parse_int l with Some t => t <=? now | None => false end | Some _ => false | None => true end.
Definition verify (now : Z) (ks : gmap string (string * N)) (tok : string) : option (gmap string json) :=
  match split_on "." tok with
  | [a; b; sig] =>
      kid ← b64_decode true false a; txt ← b64_decode true false b; sg ← b64_decode true false sig;
      '(n, _) ← ks !! kid;
      if negb (n =?s sg) then None else
      match unmarshal_ast txt with
      | Some (JObj kvs) =>
          let c := list_to_map kvs in
          t ← expiry c; if (now <? t) && begun now c then Some c else None
      | _ => None
      end
  | _ => None
  end.

Lemma b64_no_dot s : mem_byte "." (raw_url s) = false.
Proof.
  assert (Hc : ∀ d, (d < 64)%N → Ascii.eqb "." (b64_char true d) = false).
  { intros d Hd. apply negb_true_iff. revert d Hd. apply (N_forall_below 64 (λ d, negb (Ascii.eqb "." (b64_char true d)))). by vm_compute. }
  unfold raw_url. induction s as [|a|a b|a b c r IH] using string_ind3; [done|..]; cbn [b64_encode mem_byte]; rewrite !Hc by sextet; by rewrite ?IH.
Qed.

Lemma claims_text c : claims_ok c → unmarshal_ast (print_json (JObj (map_to_list c))) = Some (JObj (map_to_list c)).
Proof.
  intros Hc. assert (Hl : Forall (λ kv : string * json, all_ascii kv.1 = true ∧ wf_json kv.2 = true ∧ (jheight kv.2 ≤ 8)%nat) (map_to_list c)).
  { apply Forall_forall. intros [k v] Hin. by apply elem_of_map_to_list, Hc in Hin. }
  apply unmarshal_print; cbn [wf_json jheight].
  - apply forallb_forall. intros [k v] Hin. apply list_elem_of_In in Hin. rewrite Forall_forall in Hl. destruct (Hl _ Hin) as (H1 & H2 & _). cbn in *. by rewrite H1, H2.
  - assert (foldr (λ kv n, Nat.max (jheight (snd kv)) n) 0%nat (map_to_list c) ≤ 8)%nat; [|unfold max_nesting_depth; lia].
    induction Hl as [|[k v] l (_ & _ & Hh) _ IH]; cbn in *; lia.
Qed.

Lemma verify_signed k kid c ks now : claims_ok c → verify now ks (join "." [raw_url kid; raw_url (print_json (JObj (map_to_list c))); raw_url (pub_N k)])
  = '(n, _) ← ks !! kid; if negb (n =?s pub_N k) then None else t ← expiry c; if (now <? t) && begun now c then Some c else None.
Proof.
  intros Hc. unfold verify. rewrite split_on_join; [|done|by repeat constructor; apply b64_no_dot]. unfold raw_url. rewrite !b64_roundtrip. cbn [mbind option_bind].
  destruct (ks !! kid) as [[n e]|]; [|done]. cbn [mbind option_bind]. destruct (negb _); [done|]. rewrite claims_text by done. by rewrite list_to_map_to_list.
Qed.

Lemma signed_text k kid c tok : SignedString k kid c = Ok tok →
  tok = join "." [raw_url kid; raw_url (print_json (JObj (map_to_list c))); raw_url (pub_N k)].
Proof. unfold SignedString. generalize (join "." [raw_url kid; raw_url (print_json (JObj (map_to_list c))); raw_url (pub_N k)]). congruence. Qed.

#[global] Instance jwt : JWTLibrary pub_N pub_E SignedString load_keys verify.
Proof.
  refine {| keys_of ks := ks |}.
  - intros k. by vm_compute.
  - intros k kid c tok ->%signed_text. split; [|by destruct (raw_url kid)]. unfold all_ascii. cbn [join]. rewrite !str_forallb_app. unfold raw_url.
    pose proof b64_ascii as Hb. unfold all_ascii in Hb. by rewrite !Hb.
  - intros body f kid n e Hb Hty Hk Hn He. eexists. unfold load_keys. rewrite Hb, Hk, Hn, He. unfold raw_url. by rewrite !b64_roundtrip.
  - intros k kid c tok ks t now ->%signed_text Hc _ Hks He Ht Hnow Hnb. rewrite verify_signed, Hks by done. cbn [mbind option_bind]. rewrite seqb_refl. cbn [negb].
    unfold expiry. rewrite He. cbn [jint]. rewrite parse_int_dec by done. cbn [mbind option_bind]. rewrite (proj2 (Z.ltb_lt _ _)) by done.
    assert (begun now c = true) as ->; [|done]. unfold begun. destruct Hnb as [->|(t' & -> & Ht' & Hle)]; [done|]. cbn [jint]. rewrite parse_int_dec by done. by apply Z.leb_le.
  - intros k kid c tok ks t now ->%signed_text Hc Hn Ht Hnow. rewrite verify_signed by done. destruct (ks !! kid) as [[n e]|]; [|done]. cbn [mbind option_bind].
    destruct (negb _); [done|]. destruct (expiry c); [|done]. cbn [mbind option_bind]. unfold begun. rewrite Hn. cbn [jint]. rewrite parse_int_dec by done.
    rewrite (proj2 (Z.leb_gt _ _)) by done. by rewrite andb_false_r.
  - intros k kid c tok ks t now ->%signed_text Hc He Ht Hnow. rewrite verify_signed by done. destruct (ks !! kid) as [[n e]|]; [|done]. cbn [mbind option_bind].
    destruct (negb _); [done|]. unfold expiry. rewrite He. cbn [jint]. rewrite parse_int_dec by done. cbn [mbind option_bind]. by rewrite (proj2 (Z.ltb_ge _ _)).
  - intros k kid c tok ks now ->%signed_text Hc _ Hks. by rewrite verify_signed, Hks.
Defined.

Definition idp : OIDCServer N := mkOIDCServer "http://idp:9000" 7%N "key-1" 1.
Definition now_ns : Z := 1700000000 * 10 ^ 9.
Definition cfg : OIDCConfig :=
  mkOIDCConfig "http://idp:9000" "goway" "secret" "http://idp:9000/.well-known/jwks.json" 300 [] "http://gw:8080/oidc/callback" "" "".
Definition tok : string := from_opt "" (match SignedString 7 "key-1" (login_claims now_ns idp (raw_url "nonce")) with Ok t => Some t | Err _ => None end).
End DemoJwt.

Lemma login_through_provider_witness :
  ∃ w r2 rep,
    handleOIDCCallback (DemoJwt.verify 1700000100) (λ _ _, true)
      (idp_do DemoJwt.pub_N DemoJwt.pub_E DemoJwt.SignedString "10.0.0.9:1" DemoJwt.now_ns "idp:9000") DemoJwt.cfg "OIDC" (Some w) r2 DemoJwt.idp
    = (rep, DemoJwt.idp)
    ∧ rp_status rep = 303
    ∧ (λ c, (sc_name c, sc_value c)) <$> rp_cookies rep = [(oidcStateCookie, ""); (tokenCookie, DemoJwt.tok)].
Proof.
  destruct (login_through_provider DemoJwt.pub_N DemoJwt.pub_E DemoJwt.SignedString DemoJwt.load_keys DemoJwt.verify "10.0.0.9:1" DemoJwt.now_ns "idp:9000"
    DemoJwt.idp eq_refl eq_refl DemoJwt.cfg "gw:8080" eq_refl eq_refl eq_refl ltac:(done) eq_refl eq_refl eq_refl eq_refl ltac:(by vm_compute)
    ltac:(by vm_compute) ltac:(by vm_compute) "state" "nonce" (visit "10.0.0.9:1" "idp:9000" "/sso" "") 1700000100 DemoJwt.tok)
    as (w & cookie & url & r1 & resp & loc & r2 & rep & _ & _ & _ & _ & _ & _ & _ & _ & _ & Hrun & Hst & _ & Hck & _); [done|done|by vm_compute..|].
  exists w, r2, rep. split_and!; [exact Hrun|exact Hst|exact Hck].
Defined.
