(* ===== verification/TestServers.v ===== *)
(** * The LDAP server and the configurable backend of internal/testutil

    [LDAPServer] (ldap_server.go) behind the gateway's LDAP authentication, and
    [FakeBackend] (backend.go) behind the health check and the proxy's reading of query
    ids. The LDAP library's own filtering of a search result is a parameter. *)
From S2P Require Import Prelude GoStrings Json Codec HttpModel Config Routing Cookie Forward ClusterStats Auth Monitor Wire WireForms.

#[local] Open Scope Z_scope.

(** ** The LDAP server *)
Record LDAPUser : Type := mkLDAPUser { DN : string; Password : string; u_MemberOf : list string }.
Record ldapHandler : Type := mkLdapHandler { bindDN : string; bindPass : string; users : list LDAPUser }.
Record LDAPServer : Type := mkLDAPServer { addr : string; userBase : string; ls_handler : ldapHandler }.

Definition ldapDefaultUserBase : string := "ou=users,dc=example,dc=com".
Definition ldapDefaultBindDN : string := "cn=service,dc=example,dc=com".
Definition ldapDefaultBindPass : string := "service-secret".

(** [ln] is the address of the listener, or its error, which fails the test. *)
Definition NewLDAPServer (ln : go_result string) (us : list LDAPUser) : go_result LDAPServer :=
  match ln with
  | Err e => Err ("testutil: ldap: listen: " +:+ e)
  | Ok a => Ok (mkLDAPServer a ldapDefaultUserBase (mkLdapHandler ldapDefaultBindDN ldapDefaultBindPass us))
  end.
Definition ls_Addr (s : LDAPServer) : string := addr s.
Definition ls_BindDN (s : LDAPServer) : string := bindDN (ls_handler s).
Definition ls_BindPassword (s : LDAPServer) : string := bindPass (ls_handler s).
Definition ls_UserBase (s : LDAPServer) : string := userBase s.

Inductive LDAPResultCode : Type := LDAPResultSuccess | LDAPResultInvalidCredentials.
#[global] Instance LDAPResultCode_eq_dec : EqDecision LDAPResultCode.
Proof. solve_decision. Defined.

(** Names are compared without case, on ASCII text. *)
Definition ldap_Bind (h : ldapHandler) (dn pw : string) : LDAPResultCode :=
  if (dn =?s "") && (pw =?s "") then LDAPResultSuccess
  else if equal_fold_ascii dn (bindDN h) && (pw =?s bindPass h) then LDAPResultSuccess
  else if existsb (λ u, equal_fold_ascii (DN u) dn && (Password u =?s pw)) (users h) then LDAPResultSuccess
  else LDAPResultInvalidCredentials.

Definition uidFromDN (dn : string) : string :=
  let first := trim_space (fst (from_opt (dn, "") (cut_byte "," dn))) in
  from_opt "" ((λ p, str_drop (String.length p) first) <$> find_first (λ p, has_prefix p first) ["uid="; "cn="; "UID="; "CN="]).

Record ldap_entry : Type := mkLdapEntry { le_DN : string; le_Attributes : list (string * list string) }.
Definition user_entry (u : LDAPUser) : ldap_entry :=
  let uid := uidFromDN (DN u) in
  mkLdapEntry (DN u) ([("dn", [DN u]); ("uid", [uid]); ("cn", [uid])]
    ++ match u_MemberOf u with [] => [] | l => [("memberOf", l)] end).
Definition ldap_Search (h : ldapHandler) : list ldap_entry := user_entry <$> users h.

(** *** Behind the gateway *)

(** LDAP equality matching: an attribute of the name has the value, both without case. *)
Definition attr_equals (attr v : string) (e : ldap_entry) : bool :=
  existsb (λ '(n, vs), equal_fold_ascii n attr && existsb (equal_fold_ascii v) vs) (le_Attributes e).
Definition memberOf_values (e : ldap_entry) : list string :=
  from_opt [] (snd <$> find_first (λ nv, fst nv =?s "memberOf") (le_Attributes e)).

Section directory.
(** [EnforceLDAP]: what the library leaves of the entries a handler returns, for the base
    and the filter of a search with size limit 1; and the client's filter escaping. *)
Context (enforce : string → string → list ldap_entry → list ldap_entry) (escape : string → string).
Context (Henforce : ∀ base v es, Forall (λ e, has_suffix base (le_DN e) = true) es →
  enforce base ("(uid=" +:+ escape v +:+ ")") es = take 1 (List.filter (attr_equals "uid" v) es)).

Definition server_directory (s : LDAPServer) : directory :=
  mkDirectory (λ url, if url =?s "ldap://" +:+ ls_Addr s then None else Some "connection refused")
    (λ dn pw, match ldap_Bind (ls_handler s) dn pw with LDAPResultSuccess => None | _ => Some "LDAP Result Code 49: Invalid Credentials" end)
    (λ base flt, Ok ((λ e, mkEntry (le_DN e) (memberOf_values e)) <$> enforce base flt (ldap_Search (ls_handler s)))) escape.

(** The configuration the tests give the gateway. *)
Definition config_for (s : LDAPServer) : LDAPConfig := mkLDAPConfig ("ldap://" +:+ ls_Addr s) (ls_BindDN s) (ls_BindPassword s) (ls_UserBase s) "uid".

Definition user_named (us : list LDAPUser) (name : string) : option LDAPUser := find_first (λ u, equal_fold_ascii name (uidFromDN (DN u))) us.

Lemma filter_head {A} (p : A → bool) l : take 1 (List.filter p l) = match find_first p l with Some x => [x] | None => [] end.
Proof using Type. induction l as [|x l IH]; [done|]. cbn [List.filter find_first]. by destruct (p x). Qed.
Lemma find_first_fmap {A B} (f : A → B) p l : find_first p (f <$> l) = f <$> find_first (λ x, p (f x)) l.
Proof using Type. induction l as [|x l IH]; [done|]. rewrite fmap_cons. cbn [find_first]. by destruct (p (f x)). Qed.
Lemma find_first_ext' {A} (p q : A → bool) l : (∀ x, p x = q x) → find_first p l = find_first q l.
Proof using Type. intros Hp. induction l as [|x l IH]; [done|]. cbn [find_first]. rewrite Hp. by destruct (q x). Qed.

Lemma user_entry_uid name u : attr_equals "uid" name (user_entry u) = equal_fold_ascii name (uidFromDN (DN u)).
Proof using Type. unfold attr_equals, user_entry. cbn [le_Attributes]. destruct (u_MemberOf u); cbn; by rewrite !orb_false_r. Qed.
Lemma user_entry_groups u : memberOf_values (user_entry u) = u_MemberOf u.
Proof using Type. unfold memberOf_values, user_entry. cbn [le_Attributes]. by destruct (u_MemberOf u). Qed.

Lemma search_finds s name : Forall (λ u, has_suffix (userBase s) (DN u) = true) (users (ls_handler s)) →
  Search (server_directory s) (userBase s) (user_filter (server_directory s) (config_for s) name)
  = Ok (match user_named (users (ls_handler s)) name with Some u => [mkEntry (DN u) (u_MemberOf u)] | None => [] end).
Proof using Henforce.
  intros Hb. unfold user_filter. cbn [Search EscapeFilter server_directory UserAttr config_for]. change ("uid" =?s "") with false. cbv iota.
  change ("(" +:+ "uid" +:+ "=" +:+ ?x) with ("(uid=" +:+ x). rewrite Henforce by (unfold ldap_Search; by apply Forall_fmap). rewrite filter_head. unfold ldap_Search, user_named. rewrite find_first_fmap.
  rewrite (find_first_ext' _ (λ u, equal_fold_ascii name (uidFromDN (DN u)))) by (intros; apply user_entry_uid).
  destruct (find_first _ _) as [u|]; cbn; [by rewrite user_entry_groups|done].
Qed.

(** A bind as one of the users, when names are distinct and none is the service account. *)
Lemma user_bind s u pw : u ∈ users (ls_handler s) → pw ≠ "" → NoDup ((λ u, to_lower (DN u)) <$> users (ls_handler s)) →
  equal_fold_ascii (DN u) (bindDN (ls_handler s)) = false →
  ldap_Bind (ls_handler s) (DN u) pw = if Password u =?s pw then LDAPResultSuccess else LDAPResultInvalidCredentials.
Proof using Type.
  intros Hu Hpw Hnd Hsvc. unfold ldap_Bind. rewrite Hsvc. cbn [andb]. apply seqb_neq in Hpw as ->. rewrite andb_false_r.
  assert (He : existsb (λ u0, equal_fold_ascii (DN u0) (DN u) && (Password u0 =?s pw)) (users (ls_handler s)) = (Password u =?s pw)); [|by rewrite He].
  apply eq_true_iff_eq. rewrite existsb_exists. split.
  - intros (u0 & Hin%list_elem_of_In & [Hd Hp]%andb_true_iff). enough (u0 = u) as -> by done. unfold equal_fold_ascii in Hd. seqb_simpl.
    apply list_elem_of_lookup in Hin as [i Hi], Hu as [j Hj]. assert (i = j) as ->; [|congruence].
    apply (NoDup_lookup _ i j (to_lower (DN u)) Hnd); rewrite list_lookup_fmap; [rewrite Hi|rewrite Hj]; cbn; congruence.
  - intros Hp. exists u. split; [by apply list_elem_of_In|]. unfold equal_fold_ascii. by rewrite seqb_refl, Hp.
Qed.

(** The gateway lets a user in exactly with the password the directory has for the name,
    and takes the first of the user's groups. *)
Theorem ldap_login_exact s name pw :
  Forall (λ u, has_suffix (userBase s) (DN u) = true) (users (ls_handler s)) → NoDup ((λ u, to_lower (DN u)) <$> users (ls_handler s)) →
  Forall (λ u, equal_fold_ascii (DN u) (ls_BindDN s) = false) (users (ls_handler s)) → ls_BindDN s ≠ "" → pw ≠ "" →
  authenticate (server_directory s) (config_for s) name pw
  = match user_named (users (ls_handler s)) name with
    | None => Err "auth: ldap: user not found"
    | Some u => if Password u =?s pw then Ok (from_opt "" (head_opt (u_MemberOf u)))
                else Err "auth: ldap: user bind: LDAP Result Code 49: Invalid Credentials"
    end.
Proof using Henforce.
  intros Hbase Hnd Hsvc Hdn Hpw. unfold authenticate. cbn [DialURL server_directory ldap_URL config_for]. rewrite seqb_refl.
  change (BindDN (config_for s)) with (ls_BindDN s). change (BindPass (config_for s)) with (ls_BindPassword s).
  apply seqb_neq in Hdn as Hdn'. rewrite Hdn'. cbn [Bind server_directory].
  assert (Hs : ldap_Bind (ls_handler s) (ls_BindDN s) (ls_BindPassword s) = LDAPResultSuccess).
  { unfold ldap_Bind, ls_BindDN, ls_BindPassword, equal_fold_ascii. rewrite !seqb_refl. cbn [andb]. by destruct (_ && _). }
  rewrite Hs. change (UserBase (config_for s)) with (userBase s). rewrite search_finds by done.
  destruct (user_named _ name) as [u|] eqn:Eu; [|done]. cbn [e_DN e_memberOf Bind server_directory].
  apply find_first_Some in Eu as [Hin _]. rewrite (user_bind s u pw); [|done..|by rewrite Forall_forall in Hsvc; apply Hsvc].
  by destruct (Password u =?s pw).
Qed.
End directory.

Module DemoLdap.
Definition enforce (base flt : string) (es : list ldap_entry) : list ldap_entry :=
  take 1 (List.filter (λ e, has_suffix base (le_DN e) && attr_equals "uid" (trim_suffix ")" (trim_prefix "(uid=" flt)) e) es).
Definition alice : LDAPUser := mkLDAPUser "uid=alice,ou=users,dc=example,dc=com" "wonder" ["cn=admins,dc=example,dc=com"; "cn=users,dc=example,dc=com"].
Definition bob : LDAPUser := mkLDAPUser "uid=bob,ou=users,dc=example,dc=com" "builder" [].
Definition server : LDAPServer := mkLDAPServer "127.0.0.1:389" ldapDefaultUserBase (mkLdapHandler ldapDefaultBindDN ldapDefaultBindPass [alice; bob]).

Lemma enforce_ok base v es : Forall (λ e, has_suffix base (le_DN e) = true) es →
  enforce base ("(uid=" +:+ v +:+ ")") es = take 1 (List.filter (attr_equals "uid" v) es).
Proof.
  intros Hb. unfold enforce. f_equal. replace (trim_suffix ")" (trim_prefix "(uid=" ("(uid=" +:+ v +:+ ")"))) with v.
  - induction Hb as [|e es He _ IH]; [done|]. cbn [List.filter]. rewrite He, IH. done.
  - unfold trim_prefix. rewrite has_prefix_app, str_drop_app. unfold trim_suffix, has_suffix. rewrite str_rev_app_distr, has_prefix_app, str_length_app.
    cbn [String.length]. rewrite Nat.add_sub. by rewrite str_take_app.
Qed.
End DemoLdap.

Lemma ldap_login_exact_witness :
  authenticate (server_directory DemoLdap.enforce (λ v, v) DemoLdap.server) (config_for DemoLdap.server) "Alice" "wonder"
  = Ok "cn=admins,dc=example,dc=com".
Proof.
  rewrite (ldap_login_exact DemoLdap.enforce (λ v, v) DemoLdap.enforce_ok DemoLdap.server "Alice" "wonder"); [by vm_compute| | | | |done].
  - by repeat constructor.
  - apply (bool_decide_unpack _). by vm_compute.
  - by repeat constructor.
  - done.
Defined.

(** ** The configurable backend (backend.go) *)
Record fakeBackendConfig : Type := mkFakeBackendConfig { latency : Z; statusCode : Z; fb_body : string; redirectTo : string; queryID : string }.
Definition FakeBackendOption : Type := fakeBackendConfig → fakeBackendConfig.
Definition WithLatency (d : Z) : FakeBackendOption := λ c, mkFakeBackendConfig d (statusCode c) (fb_body c) (redirectTo c) (queryID c).
Definition WithStatusCode (code : Z) : FakeBackendOption := λ c, mkFakeBackendConfig (latency c) code (fb_body c) (redirectTo c) (queryID c).
Definition WithBody (body : string) : FakeBackendOption := λ c, mkFakeBackendConfig (latency c) (statusCode c) body (redirectTo c) (queryID c).
Definition WithRedirectTo (url : string) : FakeBackendOption := λ c, mkFakeBackendConfig (latency c) (statusCode c) (fb_body c) url (queryID c).
Definition WithQueryIDInResponse (id : string) : FakeBackendOption := λ c, mkFakeBackendConfig (latency c) (statusCode c) (fb_body c) (redirectTo c) id.

Record FakeBackend : Type := mkFakeBackend { fb_cfg : fakeBackendConfig; reqs : list request }.
(** The options in order. *)
Definition NewFakeBackend (opts : list FakeBackendOption) : FakeBackend :=
  mkFakeBackend (foldl (λ c o, o c) (mkFakeBackendConfig 0 0 "" "" "q_test_01") opts) [].
Definition Requests (fb : FakeBackend) : list request := reqs fb.
Definition fb_record (r : request) (fb : FakeBackend) : FakeBackend := mkFakeBackend (fb_cfg fb) (reqs fb ++ [r]).

Section backend.
Context (url_parse : string → option url).

(** The time slept and, when an option takes the response over, the answer. *)
Definition applyOptions (c : fakeBackendConfig) (r : request) : Z * option answer :=
  (Z.max 0 (latency c),
   if negb (redirectTo c =?s "") then Some (redirect_found url_parse r (redirectTo c))
   else if negb (statusCode c =? 0) then Some (Response (statusCode c) ∅ (fb_body c) None, [])
   else if negb (fb_body c =?s "") then Some (Response 200 ∅ (fb_body c) None, [])
   else None).

Definition fb_handleInfo (r : request) : ST FakeBackend (Z * answer) := λ fb,
  let fb := fb_record r fb in
  let '(slept, handled) := applyOptions (fb_cfg fb) r in
  ((slept, from_opt (Response 200 json_header (print_json (JObj [("starting", JBool false)])) None, []) handled), fb).

Definition fb_statement_json (host qid : string) : json :=
  JObj [("id", JStr qid); ("nextUri", JStr ("http://" +:+ host +:+ "/v1/statement/" +:+ qid +:+ "/1"))].
Definition fb_handleStatement (r : request) : ST FakeBackend (Z * answer) := λ fb,
  let fb := fb_record r fb in
  let '(slept, handled) := applyOptions (fb_cfg fb) r in
  ((slept, from_opt (json_answer (fb_statement_json (req_host r) (queryID (fb_cfg fb)))) handled), fb).

(** The routes [NewFakeBackend] registers. *)
Definition serve_backend (r : request) : ST FakeBackend (Z * answer) := λ fb,
  let path := url_path (req_url r) in
  if path =?s "/v1/info" then fb_handleInfo r fb
  else if path =?s "/v1/statement" then fb_handleStatement r fb
  else ((0, not_found), fb).

(** The health check's client, with its timeout, when the backend listens at [h]. *)
Definition backend_call (timeout : Z) (h : string) (fb : FakeBackend) (o : out_request) : call_result response :=
  match deliver "" (λ _, []) o with
  | None => CErr (mkCallError "unsupported protocol scheme" false)
  | Some (host, r) =>
      if negb (host =?s h) then CErr (mkCallError "connection refused" false)
      else let '((slept, (resp, _)), _) := serve_backend r fb in
           if timeout <=? slept then CErr (mkCallError "context deadline exceeded" true) else COk resp
  end.

(** What the health check makes of a body. *)
Definition verdict_of_body (body : string) : Status :=
  let '(info, bad) := decode_stream set_info (mkInfo false) body in
  if bad : bool then Unhealthy else if Starting info then Pending else Healthy.

(** A backend that does not redirect is healthy when it answers in time with status 200
    and a body that says it is not starting; without options it is. *)
Theorem backend_verdict timeout h fb : plain_host h = true → redirectTo (fb_cfg fb) = "" → 0 < timeout →
  let c := fb_cfg fb in
  checkOne (λ _, true) (backend_call timeout h fb) ("http://" +:+ h)
  = if timeout <=? latency c then Unhealthy
    else if (statusCode c =? 0) && (fb_body c =?s "") then Healthy
    else if (statusCode c =? 0) || (statusCode c =? 200) then verdict_of_body (fb_body c) else Unhealthy.
Proof using Type.
  intros Hh Hr Ht c. unfold checkOne. cbn [negb]. unfold backend_call.
  pose proof (deliver_plain "" (λ _, []) "GET" h "v1/info" "" ∅ (Ok "") Hh eq_refl eq_refl) as Hd. change ("" =?s "") with true in Hd. cbv iota in Hd.
  rewrite str_app_nil_r in Hd. rewrite str_app_assoc. rewrite Hd, seqb_refl. cbn [negb]. unfold serve_backend. cbn [req_url url_path]. cbn [String.eqb Ascii.eqb Bool.eqb].
  unfold fb_handleInfo, applyOptions. cbn [fb_record fb_cfg]. fold c. fold c in Hr. rewrite Hr. change ("" =?s "") with true. cbn [negb].
  assert (Hl : (timeout <=? Z.max 0 (latency c)) = (timeout <=? latency c)) by (apply eq_true_iff_eq; rewrite !Z.leb_le; lia).
  destruct (statusCode c =? 0) eqn:Es; [destruct (fb_body c =?s "") eqn:Eb|]; cbn [negb from_opt andb orb]; rewrite Hl; destruct (timeout <=? latency c); try done.
  cbn [resp_status]. by destruct (statusCode c =? 200).
Qed.

(** The proxy reads the configured query id from the statement response. *)
Lemma backend_statement_id r fb : redirectTo (fb_cfg fb) = "" → statusCode (fb_cfg fb) = 0 → fb_body (fb_cfg fb) = "" →
  all_ascii (req_host r) = true → all_ascii (queryID (fb_cfg fb)) = true →
  extractQueryIDFromBody (resp_body (fst (snd (fst (fb_handleStatement r fb))))) = queryID (fb_cfg fb).
Proof using Type.
  intros Hr Hs Hb Ha Hq. unfold fb_handleStatement, applyOptions. cbn [fb_record fb_cfg]. rewrite Hr, Hs, Hb. cbn [negb String.eqb Z.eqb from_opt fst snd json_answer resp_body].
  unfold extractQueryIDFromBody, unmarshal. rewrite unmarshal_print_nl; [reflexivity| |by vm_compute].
  unfold fb_statement_json. cbn [wf_json forallb fst snd]. unfold all_ascii in *. rewrite !str_forallb_app, Ha, Hq. by vm_compute.
Qed.
End backend.
