(* ===== verification/MockRouters.v ===== *)
(** * The mock external routers (cmd/mock-external-router, cmd/mock-external-router-grpc)

    The two development servers, with what they print, and the gateway's external
    selectors connected to them. The clock's text, the protocol buffers' JSON form and
    the listeners are parameters. *)
From S2P Require Import Prelude GoStrings Json Codec HttpModel GoFlags Config Lru RouterPb KillQuery Routing ClusterStats Auth Wire.

#[local] Open Scope Z_scope.

(** ** [json.Indent] with the indent of two blanks *)
Definition indent_newline (depth : nat) : string := nl +:+ String.concat "" (repeat "  " depth).

(** In a string literal after an optional backslash, or outside of one with whether an
    opened bracket still waits for its first element; [depth] counts the brackets whose
    content has begun, [opened] all open ones, and [seen] tells leading blanks apart. *)
Inductive lit_state : Type := InLit (escaped : bool) | OutLit (need : bool).
Fixpoint indent_go (st : lit_state) (depth opened : nat) (seen : bool) (s : string) : string :=
  match s with
  | EmptyString => ""
  | String c r =>
      match st with
      | InLit esc =>
          String c (indent_go (if esc then InLit false else if Ascii.eqb c "\" then InLit true else if Ascii.eqb c dquote then OutLit false else InLit false)
                      depth opened true r)
      | OutLit need =>
          if is_ws c then
            (if seen && (opened =? 0)%nat then String c (indent_go st depth opened seen r) else indent_go st depth opened seen r)
          else if Ascii.eqb c "}" || Ascii.eqb c "]" then
            if need then String c (indent_go (OutLit false) depth (opened - 1) true r)
            else indent_newline (depth - 1) +:+ String c (indent_go (OutLit false) (depth - 1) (opened - 1) true r)
          else
            let depth' := if need then Datatypes.S depth else depth in
            (if need then indent_newline depth' else "")
            +:+ (if Ascii.eqb c "{" || Ascii.eqb c "[" then String c (indent_go (OutLit true) depth' (Datatypes.S opened) true r)
                 else if Ascii.eqb c "," then String c (indent_newline depth' +:+ indent_go (OutLit false) depth' opened true r)
                 else if Ascii.eqb c ":" then String c (String " " (indent_go (OutLit false) depth' opened true r))
                 else String c (indent_go (if Ascii.eqb c dquote then InLit false else OutLit false) depth' opened true r))
      end
  end.
Definition json_indent (src : string) : option string :=
  _ ← unmarshal_ast src; Some (indent_go (OutLit false) 0 0 false src).

(** ** The HTTP router *)
Definition mock_json (group : string) : json :=
  JObj [("routingGroup", JStr group); ("errors", JArr []); ("externalHeaders", JObj [])].

(** What the handler prints and answers; a request whose body cannot be read gets the
    empty 200 of a handler that wrote nothing. *)
Definition mock_handler (group now : string) (r : request) : string * answer :=
  match req_body r with
  | Err e => ("failed to read request body: " +:+ e +:+ nl, (Response 200 ∅ "" None, []))
  | Ok body =>
      (now +:+ "  " +:+ req_method r +:+ " " +:+ url_path (req_url r) +:+ nl
       +:+ from_opt body (json_indent body) +:+ nl +:+ nl,
       (Response 200 json_header (print_json (mock_json group)) None, []))
  end.

(** The command line, and the exit status when serving ends ([serve] gives the error of
    [ListenAndServe]); [int_of] is [strconv.ParseInt(s, 0, 64)]. *)
Definition mock_flags : flag_set := [("port", FUint); ("group", FString)].
Definition mock_http_main (int_of : string → option Z) (serve : string → string → string) (args : list string) : Z :=
  match parse_flags (λ s, match int_of s with Some _ => true | None => false end) mock_flags ∅ args with
  | Help => 0
  | BadFlags => 2
  | Parsed v _ =>
      let port := from_opt 9000 (s ← v !! "port"; int_of s) in
      let group := from_opt "default" (v !! "group") in
      if serve (":" +:+ z_to_dec port) group =?s "" then 0 else 1
  end.

(** ** The gRPC router *)
Definition mock_Route (marshal : RouteRequest → go_result string) (group now : string) (req : RouteRequest) : string * RouteResponse :=
  (match marshal req with
   | Err e => "failed to marshal RouteRequest: " +:+ e +:+ nl
   | Ok body => now +:+ "  /trino.gateway.v1.TrinoGatewayRouter/Route" +:+ nl +:+ body +:+ nl +:+ nl
   end, mkRouteResponse group [] ∅).

Definition mock_grpc_flags : flag_set := [("addr", FString); ("group", FString)].
Definition mock_grpc_main (listen : string → option string) (serve : string → string) (args : list string) : Z :=
  match parse_flags (λ _, true) mock_grpc_flags ∅ args with
  | Help => 0
  | BadFlags => 2
  | Parsed v _ =>
      match listen (from_opt ":9001" (v !! "addr")) with
      | Some _ => 1
      | None => if serve (from_opt "default" (v !! "group")) =?s "" then 0 else 1
      end
  end.

Example json_indent_ex :
  json_indent (" {" +:+ String dquote "a" +:+ String dquote ":[1,{}],")  = None
  ∧ json_indent (" [1,[ ],{}] ") = Some ("[" +:+ nl +:+ "  1," +:+ nl +:+ "  []," +:+ nl +:+ "  {}" +:+ nl +:+ "] ").
Proof. vm_compute. done. Qed.

(** ** Behind the gateway *)
Section mocks.
Context {C : Type} `{LRU C} (cfg : RoutingConfig) (h http_group grpc_group now : string) (marshal : RouteRequest → go_result string).
Context (Hh : plain_host h = true) (Hascii : all_ascii http_group = true).

(** The output of the two servers. *)
Definition mock_call (_ : Z) (o : out_request) : ST string (call_result response) := λ out,
  match deliver "" (λ _, []) o with
  | None => (CErr (mkCallError "unsupported protocol scheme" false), out)
  | Some (host, r) =>
      if negb (host =?s h) then (CErr (mkCallError "connection refused" false), out)
      else let '(text, (resp, _)) := mock_handler http_group now r in (COk resp, out +:+ text)
  end.
Definition mock_stub (_ : Z) (req : RouteRequest) : ST string (call_result RouteResponse) := λ out,
  let '(text, resp) := mock_Route marshal grpc_group now req in (COk resp, out +:+ text).

Definition has_stub {W} (svc : services W) : bool := match grpc_route svc with Some _ => true | None => false end.

Lemma mock_decoded : decode_stream set_err_field (mkERR None None None) (print_json (mock_json http_group)) = (mkERR (Some http_group) (Some []) (Some ∅), false).
Proof using Hascii.
  unfold decode_stream. rewrite decode_print; [reflexivity| |by vm_compute]. cbn [wf_json mock_json forallb fst snd]. by rewrite Hascii.
Qed.

(** The gateway takes the mock's group, with no headers and no errors: from the gRPC mock
    when it has a stub, otherwise from the HTTP mock; and the mock has been called once. *)
Theorem mock_selects (svc : services string) req path (s : router_state C string) :
  ext_client_do svc = mock_call → (∀ m u, new_request_ok svc m u = true) →
  ext_URL (External cfg) = "http://" +:+ h +:+ String "/" path → str_forallb path_byte path = true →
  (grpc_route svc = None ∨ grpc_route svc = Some mock_stub) →
  let '((sel, err), s') := callExternal svc cfg req s in
  err = None ∧ sel = (if has_stub svc then grpc_group else http_group, ∅, [])
  ∧ rs_metrics s' = rs_metrics s ++ [RouterCall (if has_stub svc then TransportGRPC else TransportHTTP) "ok"].
Proof using Hh Hascii.
  intros Hdo Hnew Hurl Hpath Hg.
  assert (Hfilter : filterExcludedHeaders cfg ∅ = ∅) by (unfold filterExcludedHeaders; destruct (ExcludeHeaders _); [done|apply map_filter_empty]).
  assert (Hhttp : ∃ out, call_http svc cfg req s = (((http_group, ∅, []), None), mkRouterState (rs_cache s) out (rs_metrics s ++ [RouterCall TransportHTTP "ok"]))).
  { unfold call_http, http_selectGroup, mbind, R_bind. rewrite Hurl. change ("http://" +:+ h +:+ String "/" path =?s "") with false. cbv iota.
    rewrite Hnew. cbn [negb]. unfold world. rewrite Hdo. unfold mock_call.
    pose proof (deliver_plain "" (λ _, []) "POST" h path "" (forward_headers ({["Content-Length"]} ∪ buildExcludeSet (ExcludeHeaders (External cfg))) (Headers req)
      (hdr_set "Content-Type" "application/json; charset=utf-8" ∅)) (Ok (print_json (external_body_json (buildExternalBody req)))) Hh Hpath eq_refl) as Hd.
    change ("" =?s "") with true in Hd. cbv iota in Hd. rewrite str_app_nil_r in Hd. rewrite Hd, seqb_refl. cbn [negb mock_handler req_body].
    cbn [resp_status resp_body Z.eqb Pos.eqb negb]. rewrite mock_decoded. eexists. cbn. by rewrite Hfilter. }
  unfold callExternal, has_stub. destruct Hg as [Hg | Hg]; rewrite Hg.
  - destruct Hhttp as [out ->]. done.
  - unfold grpc_selectGroup, mbind, R_bind, world, mock_stub, mock_Route. cbn. rewrite Hfilter. done.
Qed.
End mocks.
