(* ===== verification/ScriptSource.v ===== *)
(** * The script provider's own reader of its configuration (extractSource, splitLines,
      joinLines and parseYAMLLine of internal/engine/providers/script/provider.go)

    The script provider has its own copy of the functions the expression provider reads
    its configuration with. They are transcribed here with their indices and loop
    variables, and shown to be the functions of [Providers]. *)
From S2P Require Import Prelude GoStrings Engine Providers.

(** The text from [a] up to [b]. *)
Definition slice (a b : nat) (s : string) : string := str_take (b - a) (str_drop a s).

(** [for i := range len(s)]; [rest] is the text from [i] on. *)
Fixpoint script_split (s rest : string) (i start : nat) (lines : list string) : list string :=
  match rest with
  | EmptyString => if (start <? String.length s)%nat then lines ++ [slice start (String.length s) s] else lines
  | String c r =>
      if Ascii.eqb c newline then script_split s r (i + 1) (i + 1) (lines ++ [slice start i s])
      else script_split s r (i + 1) start lines
  end.
Definition script_splitLines (s : string) : list string := script_split s s 0 0 [].

Fixpoint script_join (i : nat) (lines : list string) (result : string) : string :=
  match lines with
  | [] => result
  | l :: ls => script_join (i + 1) ls ((if (0 <? i)%nat then result +:+ nl else result) +:+ l)
  end.
Definition script_joinLines (lines : list string) : string := script_join 0 lines "".

Fixpoint script_key (line rest : string) (i : nat) : string * string :=
  match rest with
  | EmptyString => ("", "")
  | String c r =>
      if Ascii.eqb c ":" then
        (slice 0 i line,
         if (i + 1 <? String.length line)%nat then
           let v := str_drop (i + 1) line in
           match v with String d v' => if Ascii.eqb d " " then v' else v | EmptyString => v end
         else "")
      else script_key line r (i + 1)
  end.
Definition script_parseYAMLLine (line : string) : string * string := script_key line line 0.

(** The loop's four variables. *)
Record script_vars : Type := mkVars { v_program : string; v_file : string; v_inBlock : bool; v_blockLines : list string }.
Definition script_line (st : script_vars) (line : string) : script_vars :=
  match (if v_inBlock st then indented line else None) with
  | Some r => mkVars (v_program st) (v_file st) true (v_blockLines st ++ [r])
  | None =>
      let st := if v_inBlock st then mkVars (script_joinLines (v_blockLines st)) (v_file st) false (v_blockLines st) else st in
      let '(key, val) := script_parseYAMLLine line in
      if key =?s "program" then
        if val =?s "|" then mkVars (v_program st) (v_file st) true [] else mkVars val (v_file st) (v_inBlock st) (v_blockLines st)
      else if key =?s "file" then mkVars (v_program st) val (v_inBlock st) (v_blockLines st)
      else st
  end.

Section source.
Context {W : Type} (readFile : string → ST W (go_result string)).
Definition script_extractSource (raw : string) : ST W (go_result string) :=
  let st := foldl script_line (mkVars "" "" false []) (script_splitLines raw) in
  let program := if v_inBlock st then script_joinLines (v_blockLines st) else v_program st in
  if negb (program =?s "") then mret (Ok program)
  else if negb (v_file st =?s "") then
    r ← readFile (v_file st);
    mret match r with Ok src => Ok src | Err e => Err ("read file: " +:+ e) end
  else mret (Err "config must specify program or file").
End source.

(** ** The copies agree *)
Definition with_pending (p : string) (ls : list string) : list string :=
  match ls with [] => if p =?s "" then [] else [p] | l :: ls => (p +:+ l) :: ls end.

Lemma str_drop_nil n : str_drop n "" = "".
Proof. by destruct n. Qed.
Lemma str_drop_drop a b s : str_drop a (str_drop b s) = str_drop (b + a) s.
Proof. revert s. induction b as [|b IH]; intros s; [by rewrite str_drop_0|]. destruct s as [|c s]; [by rewrite !str_drop_nil|]. cbn. apply IH. Qed.
Lemma str_take_succ n s c r : str_drop n s = String c r → str_take (n + 1) s = str_take n s +:+ String c "".
Proof.
  revert s. induction n as [|n IH]; intros s Hd.
  - rewrite str_drop_0 in Hd. by subst s.
  - destruct s as [|x s]; [done|]. cbn in Hd |- *. by rewrite (IH _ Hd).
Qed.
Lemma slice_succ a b s c r : (a ≤ b)%nat → str_drop b s = String c r → slice a (b + 1) s = slice a b s +:+ String c "".
Proof.
  intros Hab Hd. unfold slice. replace (b + 1 - a)%nat with (b - a + 1)%nat by lia. eapply str_take_succ.
  rewrite str_drop_drop. by replace (a + (b - a))%nat with b by lia.
Qed.
Lemma str_drop_next b s c r : str_drop b s = String c r → str_drop (b + 1) s = r.
Proof. intros Hd. by rewrite <- str_drop_drop, Hd. Qed.
Lemma str_drop_end b s : str_drop b s = "" → (String.length s ≤ b)%nat.
Proof. revert s. induction b as [|b IH]; intros s Hd; [by rewrite str_drop_0 in Hd; subst s|]. destruct s as [|c s]; cbn in *; [lia|]. apply IH in Hd. lia. Qed.
Lemma str_drop_lt b s c r : str_drop b s = String c r → (b < String.length s)%nat.
Proof. revert s. induction b as [|b IH]; intros s Hd; [rewrite str_drop_0 in Hd; subst s; cbn; lia|]. destruct s as [|x s]; [done|]. cbn in *. apply IH in Hd. lia. Qed.
Lemma slice_all a b s : (String.length s ≤ b)%nat → slice a b s = str_drop a s.
Proof.
  intros Hb. unfold slice. assert (Ht : ∀ n t, (String.length t ≤ n)%nat → str_take n t = t).
  { intros n t. revert n. induction t as [|c t IH]; intros n Hn; [by destruct n|]. destruct n; cbn in *; [lia|]. rewrite IH by lia. done. }
  apply Ht. assert (Hl : ∀ k t, String.length (str_drop k t) = (String.length t - k)%nat).
  { intros k. induction k as [|k IH]; intros [|c t]; cbn; rewrite ?IH; lia. }
  rewrite Hl. lia.
Qed.

Lemma script_split_spec s rest i start lines : str_drop i s = rest → (start ≤ i)%nat → (i ≤ String.length s)%nat →
  script_split s rest i start lines = lines ++ with_pending (slice start i s) (splitLines rest).
Proof.
  revert i start lines. induction rest as [|c r IH]; intros i start lines Hd Hs Hi; cbn [script_split splitLines].
  - apply str_drop_end in Hd as Hle. cbn [with_pending]. destruct (Nat.ltb_spec start (String.length s)) as [Hlt|Hge].
    + replace i with (String.length s) in * by lia. assert (Hne : (slice start (String.length s) s =?s "") = false); [|by rewrite Hne].
      apply seqb_neq. rewrite slice_all by lia. intros He. apply str_drop_end in He. lia.
    + replace start with i in * by lia. unfold slice. rewrite Nat.sub_diag. cbn. by rewrite app_nil_r.
  - pose proof (str_drop_lt _ _ _ _ Hd). destruct (Ascii.eqb c newline) eqn:Ec.
    + rewrite IH; [|by eapply str_drop_next|lia|lia]. unfold slice at 2. rewrite Nat.sub_diag. cbn [str_take with_pending].
      replace (str_take 0 (str_drop (i + 1) s)) with "" by (by destruct (str_drop (i + 1) s)). rewrite <- app_assoc. cbn [app].
      rewrite str_app_nil_r. f_equal. f_equal. by destruct (splitLines r).
    + rewrite IH; [|by eapply str_drop_next|lia|lia]. rewrite (slice_succ start i s c r) by done. f_equal.
      destruct (splitLines r) as [|l ls]; cbn [with_pending].
      * assert (Hne : (slice start i s +:+ String c "" =?s "") = false); [|by rewrite Hne]. by destruct (slice start i s).
      * by rewrite str_app_assoc.
Qed.
Lemma script_splitLines_eq s : script_splitLines s = splitLines s.
Proof.
  unfold script_splitLines. rewrite script_split_spec; [|apply str_drop_0|lia|lia]. unfold slice. cbn [Nat.sub app]. rewrite str_drop_0.
  replace (str_take 0 s) with "" by (by destruct s). by destruct (splitLines s).
Qed.

Lemma script_join_spec i lines result : (0 < i)%nat → lines ≠ [] → script_join i lines result = result +:+ nl +:+ join nl lines.
Proof.
  revert i result. induction lines as [|l ls IH]; intros i result Hi Hne; [done|]. cbn [script_join]. rewrite (proj2 (Nat.ltb_lt _ _)) by lia.
  destruct ls as [|l' ls]; [cbn [script_join join]; by rewrite str_app_assoc|]. rewrite IH by (done || lia). cbn [join]. by rewrite !str_app_assoc.
Qed.
Lemma script_joinLines_eq lines : script_joinLines lines = joinLines lines.
Proof.
  unfold script_joinLines, joinLines. destruct lines as [|l ls]; [done|]. cbn [script_join]. rewrite str_app_nil_l.
  destruct ls as [|l' ls]; [done|]. rewrite script_join_spec by (done || lia). reflexivity.
Qed.

Lemma script_key_spec line rest i : str_drop i line = rest →
  script_key line rest i = match cut_byte ":" rest with
                           | None => ("", "")
                           | Some (k, v) => (slice 0 i line +:+ k, match v with String c r => if Ascii.eqb c " " then r else v | EmptyString => v end)
                           end.
Proof.
  revert i. induction rest as [|c r IH]; intros i Hd; cbn [script_key cut_byte]; [done|]. destruct (Ascii.eqb c ":") eqn:Ec.
  - rewrite str_app_nil_r, (str_drop_next _ _ _ _ Hd). f_equal. destruct (Nat.ltb_spec (i + 1) (String.length line)) as [|Hge]; [done|].
    destruct r as [|d r]; [done|]. exfalso. pose proof (str_drop_lt (i + 1) line d r (str_drop_next _ _ _ _ Hd)). lia.
  - rewrite IH by (by eapply str_drop_next). rewrite (slice_succ 0 i line c r) by (done || lia). destruct (cut_byte ":" r) as [[k v]|]; [|done].
    by rewrite str_app_assoc.
Qed.
Lemma script_parseYAMLLine_eq line : script_parseYAMLLine line = parseYAMLLine line.
Proof.
  unfold script_parseYAMLLine, parseYAMLLine. rewrite script_key_spec by apply str_drop_0. unfold slice. rewrite str_drop_0.
  replace (str_take (0 - 0) line) with "" by (by destruct line). destruct (cut_byte ":" line) as [[k v]|]; [|done]. by rewrite str_app_nil_l.
Qed.

(** The flag and the lines of the one are the optional block of the other. *)
Definition same_vars (a : script_vars) (b : ext_state) : Prop :=
  v_file a = x_file b ∧ x_block b = (if v_inBlock a then Some (v_blockLines a) else None) ∧ (v_inBlock a = false → v_program a = x_program b).
Lemma script_line_same a b line : same_vars a b → same_vars (script_line a line) (ext_line line b).
Proof.
  destruct a as [pa fa ia ba], b as [pb fb bb]. unfold same_vars, script_line, ext_line, ext_key. cbn. intros (-> & -> & Hp).
  rewrite script_parseYAMLLine_eq. destruct ia; cbn.
  - destruct (indented line) as [r|]; cbn; [done|]. rewrite <- ?script_joinLines_eq. destruct (parseYAMLLine line) as [k v]. case_bools; done.
  - rewrite (Hp eq_refl). destruct (parseYAMLLine line) as [k v]. case_bools; done.
Qed.

(** Both providers take the same source from a configuration text. *)
Theorem providers_read_same_source {W} (readFile : string → ST W (go_result string)) raw w :
  script_extractSource readFile raw w = extractSource readFile raw w.
Proof.
  unfold script_extractSource, extractSource. rewrite script_splitLines_eq.
  assert (Hs : same_vars (foldl script_line (mkVars "" "" false []) (splitLines raw)) (ext_loop (splitLines raw) (mkExt "" "" None))).
  { generalize (splitLines raw). assert (H0 : same_vars (mkVars "" "" false []) (mkExt "" "" None)) by done. revert H0.
    generalize (mkVars "" "" false []) (mkExt "" "" None). intros a b H0 l. revert a b H0. induction l as [|x l IH]; intros a b H0; [done|].
    cbn [foldl ext_loop]. by apply IH, script_line_same. }
  destruct Hs as (Hf & Hb & Hp). unfold ext_program. rewrite Hb, Hf. destruct (v_inBlock _); [by rewrite script_joinLines_eq|by rewrite Hp].
Qed.
