(* ===== verification/TickLoops.v ===== *)
(** * The loops around a ticker (Monitor.run, Start and Stop in internal/monitor/monitor.go;
      the key-set refresher and Stop in internal/auth/oidc.go)

    Both components run a goroutine that works whenever its ticker fires until its
    context is done, and a Stop that cancels the context and waits for the goroutine's
    end. One step relation has both, over what a round of work does; steps of the program
    are told apart from those of the surroundings (ticks, the parent context, the bound of
    Stop's own context, calls from other goroutines). *)
From S2P Require Import Prelude GoStrings GoNumeric Json HttpModel Config Routing ClusterStats Auth Monitor.

#[local] Open Scope Z_scope.

(** Not started, in a round, in the select, returned, or crashed in [time.NewTicker]. *)
Inductive loop_pc : Type := NotStarted | Working | Waiting | Ended | Panicked.
(** A call of Stop: none yet, waiting, returned with an optional error. *)
Inductive stop_pc : Type := NoStop | Stopping | Stopped (err : option string).

Section loop.
Context {St In : Type}.
(** One round on the answers [In] of its requests; what other goroutines may do to the
    state; whether a round precedes the first select; the ticker's period; and what Stop
    returns when its context ends first, if it has one. *)
Context (work : In → St → St) (others : St → St → Prop) (immediate : bool) (period : Z) (bound : option string).

Record tloop : Type := mkTLoop {
  lp_pc : loop_pc; lp_state : St; lp_rounds : list In;
  lp_tick : bool; lp_cancelled : bool; lp_stop : stop_pc; lp_expired : bool }.
Definition loop_init (st : St) : tloop := mkTLoop NotStarted st [] false false NoStop false.

Definition set_loop pc st rs tick (s : tloop) : tloop := mkTLoop pc st rs tick (lp_cancelled s) (lp_stop s) (lp_expired s).
Definition set_stop c p e (s : tloop) : tloop := mkTLoop (lp_pc s) (lp_state s) (lp_rounds s) (lp_tick s) c p e.

Definition running (pc : loop_pc) : bool := match pc with Working | Waiting => true | _ => false end.

(** [time.NewTicker] panics on a period that is not positive. *)
Definition first_pc : loop_pc := if period <=? 0 then Panicked else if immediate then Working else Waiting.

Inductive loop_step : tloop → tloop → Prop :=
(* the work of a round returns *)
| l_round s i : lp_pc s = Working → loop_step s (set_loop Waiting (work i (lp_state s)) (lp_rounds s ++ [i]) (lp_tick s) s)
(* the two cases of the select *)
| l_tick s : lp_pc s = Waiting → lp_tick s = true → loop_step s (set_loop Working (lp_state s) (lp_rounds s) false s)
| l_done s : lp_pc s = Waiting → lp_cancelled s = true → loop_step s (set_loop Ended (lp_state s) (lp_rounds s) (lp_tick s) s)
(* the two cases of Stop's select *)
| l_stopped s : lp_stop s = Stopping → lp_pc s = Ended → loop_step s (set_stop (lp_cancelled s) (Stopped None) (lp_expired s) s)
| l_gave_up s e : lp_stop s = Stopping → lp_expired s = true → bound = Some e →
    loop_step s (set_stop (lp_cancelled s) (Stopped (Some e)) (lp_expired s) s).

Inductive loop_env : tloop → tloop → Prop :=
| l_start s : lp_pc s = NotStarted → loop_env s (set_loop first_pc (lp_state s) (lp_rounds s) (lp_tick s) s)
| l_fire s : running (lp_pc s) = true → loop_env s (set_loop (lp_pc s) (lp_state s) (lp_rounds s) true s)
| l_other s st : others (lp_state s) st → loop_env s (set_loop (lp_pc s) st (lp_rounds s) (lp_tick s) s)
| l_parent s : loop_env s (set_stop true (lp_stop s) (lp_expired s) s)
(* Stop cancels the context made by Start; before Start there is none *)
| l_stop s : lp_stop s = NoStop →
    loop_env s (set_stop (lp_cancelled s || match lp_pc s with NotStarted => false | _ => true end) Stopping (lp_expired s) s)
| l_expire s : loop_env s (set_stop (lp_cancelled s) (lp_stop s) true s).

Inductive loop_run (s0 : tloop) : tloop → Prop :=
| lr_init : loop_run s0 s0
| lr_prog s s' : loop_run s0 s → loop_step s s' → loop_run s0 s'
| lr_env s s' : loop_run s0 s → loop_env s s' → loop_run s0 s'.

(** *** Invariants *)

(** What holds of the state at first and is kept by a round and by the others holds
    throughout. *)
Lemma loop_invariant (P : St → Prop) st s :
  P st → (∀ i x, P x → P (work i x)) → (∀ x y, P x → others x y → P y) → loop_run (loop_init st) s → P (lp_state s).
Proof using Type.
  intros H0 Hw Ho. induction 1 as [|s s' _ IH Hst|s s' _ IH Hst]; [done|..]; destruct Hst; cbn; eauto.
Qed.

(** When nothing else changes the state, it is the rounds' work in order. *)
Lemma loop_rounds st s : (∀ x y, others x y → y = x) → loop_run (loop_init st) s → lp_state s = foldl (λ x i, work i x) st (lp_rounds s).
Proof using Type.
  intros Ho. induction 1 as [|s s' _ IH Hst|s s' _ IH Hst]; [done|..]; destruct Hst; cbn; try done.
  - by rewrite foldl_app, <- IH.
  - by rewrite <- IH; apply Ho.
Qed.

(** Once Stop has returned without an error the goroutine has ended, and it stays so: no
    further round, whatever happens. *)
Definition stop_sound (s : tloop) : Prop := lp_stop s = Stopped None → lp_pc s = Ended.
Lemma stop_sound_run st s : loop_run (loop_init st) s → stop_sound s.
Proof using Type.
  unfold stop_sound. induction 1 as [|s s' _ IH Hst|s s' _ IH Hst]; [done|..]; destruct Hst; cbn; intros Hs; try done;
    try (by rewrite IH in *); try (by specialize (IH Hs); congruence); by auto.
Qed.
Lemma ended_stays s s' : lp_pc s = Ended → loop_run s s' → lp_pc s' = Ended ∧ lp_rounds s' = lp_rounds s.
Proof using Type.
  intros He. induction 1 as [|s1 s2 _ [IH1 IH2] Hst|s1 s2 _ [IH1 IH2] Hst]; [done|..]; destruct Hst; cbn; by try congruence.
Qed.

(** Stop on a loop that was never started gets nothing but its own context's error. *)
Lemma stop_before_start st s : lp_pc s = NotStarted → loop_run (loop_init st) s → lp_stop s ≠ Stopped None.
Proof using Type. intros Hpc Hr Hs. apply stop_sound_run in Hr. rewrite Hr in Hpc by done. done. Qed.

(** *** The loop ends *)

(** Steps the program can still take on its own: a round in progress or announced by the
    ticker, the end of the loop, and the return of Stop. *)
Definition todo (s : tloop) : nat :=
  match lp_pc s with
  | Working => (2 + if lp_tick s then 2 else 0)
  | Waiting => (1 + if lp_tick s then 2 else 0)
  | _ => 0
  end + match lp_stop s with Stopping => 1 | _ => 0 end.

Lemma step_decreases s s' : loop_step s s' → (todo s' < todo s)%nat.
Proof using Type.
  intros Hst. unfold todo. destruct Hst; cbn; repeat match goal with H : _ = _ |- _ => rewrite H; clear H end; try destruct (lp_tick _); lia.
Qed.

Inductive prog_steps : nat → tloop → tloop → Prop :=
| ps_nil s : prog_steps 0 s s
| ps_cons n s s1 s2 : loop_step s s1 → prog_steps n s1 s2 → prog_steps (Datatypes.S n) s s2.

Lemma loop_steps_bound n s s' : prog_steps n s s' → (n + todo s' ≤ todo s)%nat.
Proof using Type. induction 1 as [s|n s s1 s2 Hst _ IH]; [lia|]. apply step_decreases in Hst. lia. Qed.
Lemma todo_bound s : (todo s ≤ 5)%nat.
Proof using Type. unfold todo. destruct (lp_pc s), (lp_stop s), (lp_tick s); lia. Qed.
Lemma cancelled_stays s s' : loop_step s s' → lp_cancelled s' = lp_cancelled s.
Proof using Type. by destruct 1. Qed.

(** A running loop whose context is done can always go on (its rounds return). *)
Lemma loop_progress (i : In) s : lp_cancelled s = true → running (lp_pc s) = true → ∃ s', loop_step s s'.
Proof using Type.
  intros Hc Hr. destruct (lp_pc s) eqn:Epc; try done; eexists; [by apply (l_round s i)|by apply l_done].
Qed.

Definition alive (s : tloop) : Prop := running (lp_pc s) = true ∨ lp_pc s = Ended.
Lemma alive_steps n s s' : prog_steps n s s' → lp_cancelled s = true → alive s → lp_cancelled s' = true ∧ alive s'.
Proof using Type.
  induction 1 as [s|n s s1 s2 Hst _ IH]; [done|]. intros Hc Ha. apply IH; [by rewrite (cancelled_stays _ _ Hst)|].
  unfold alive in *. destruct Hst; cbn; by auto.
Qed.

(** After the context of a started loop is cancelled, at most five steps of the program
    follow a tick; they end the loop, and a waiting Stop returns; nothing remains to be
    done but that. *)
Theorem loop_stops (i : In) n s s' :
  lp_cancelled s = true → running (lp_pc s) = true → prog_steps n s s' → (∀ s'', ¬ loop_step s' s'') →
  (n ≤ 5)%nat ∧ lp_pc s' = Ended ∧ lp_stop s' ≠ Stopping.
Proof using Type.
  intros Hc Hr Hrun Hend. split; [pose proof (loop_steps_bound _ _ _ Hrun); pose proof (todo_bound s); lia|].
  assert (Hinv := alive_steps _ _ _ Hrun Hc (or_introl Hr)).
  destruct Hinv as [Hc' [Hr' | He]].
  - destruct (loop_progress i s' Hc' Hr') as [s'' Hst]. by destruct (Hend s'').
  - split; [done|]. intros Hs. eapply Hend. by apply l_stopped.
Qed.

(** The ticker's period decides whether starting crashes. *)
Lemma start_panics : first_pc = Panicked ↔ period ≤ 0.
Proof using Type. unfold first_pc. destruct (Z.leb_spec period 0); [split; [lia|done]|]. destruct immediate; split; by try lia. Qed.
End loop.
#[global] Arguments tloop : clear implicits.

(** ** The health monitor *)
Section monitor_loop.
(** The collaborators that are set, and a round's answers: the health endpoint's replies,
    what the collector does, and the order in which goroutines finish. *)
Context (has_observer has_stats has_first_tick : bool) {N : Type}.
Record round_answers : Type := mkRound {
  ra_ok : string → bool; ra_do : out_request → call_result response;
  ra_collect : (string → Status) → Backend → ST N ClusterStats; ra_order : list Backend → list Backend }.
Definition monitor_round (a : round_answers) (st : Monitor * N) : Monitor * N :=
  probe has_observer has_stats has_first_tick (ra_ok a) (ra_do a) (ra_collect a) (ra_order a) st.1 st.2.
(** Between rounds other goroutines change the backend set or a status. *)
Inductive monitor_others : Monitor * N → Monitor * N → Prop :=
| mo_backends m n bs : monitor_others (m, n) (SetBackends has_observer bs m, n)
| mo_status m n url s : monitor_others (m, n) (SetBackendStatus has_observer url s m, n).

Definition monitor_run (cfg : MonitorConfig) : tloop (Monitor * N) round_answers → tloop (Monitor * N) round_answers → Prop :=
  loop_run monitor_round monitor_others true (Interval cfg) (Some "monitor: stop: context deadline exceeded").
Definition monitor_step : tloop (Monitor * N) round_answers → tloop (Monitor * N) round_answers → Prop :=
  loop_step monitor_round (Some "monitor: stop: context deadline exceeded").

(** The readiness callback runs at most once, however often the loop probes. *)
Definition count_first (l : list observation) : nat := length (List.filter (λ o, match o with FirstTick => true | _ => false end) l).
Definition first_once (m : Monitor) : Prop := count_first (observed m) = (if firstTickDone m && has_first_tick then 1 else 0)%nat.

Lemma count_first_snoc l o : count_first (l ++ [o]) = (count_first l + match o with FirstTick => 1 | _ => 0 end)%nat.
Proof using Type. unfold count_first. rewrite List.filter_app, length_app. by destruct o. Qed.
Lemma first_once_notify m : first_once m → first_once (notifyObserver has_observer m).
Proof using Type.
  unfold notifyObserver. destruct has_observer; [|done]. unfold first_once. cbn [observe observed firstTickDone]. rewrite count_first_snoc. lia.
Qed.
Lemma first_once_tick m : first_once m → first_once (first_tick has_first_tick m).
Proof using Type.
  unfold first_tick. destruct (firstTickDone m) eqn:Ef; [done|]. unfold first_once. rewrite Ef. cbn [observed firstTickDone andb].
  destruct has_first_tick; [rewrite count_first_snoc; lia|by rewrite app_nil_r].
Qed.
Lemma first_once_round a st : first_once st.1 → first_once (monitor_round a st).1.
Proof using Type.
  destruct st as [m n]. unfold monitor_round, probe. cbn [fst snd]. intros Hf. destruct (backends m) as [|b bs]; [by apply first_once_tick|].
  set (m1 := notifyObserver _ _). assert (H1 : first_once m1) by (apply first_once_notify; exact Hf).
  unfold collectStats, mbind, ST_bind. destruct has_stats; [|by apply first_once_tick].
  destruct (collect_all _ _ _ _ n) as [snap n']. cbn [fst mret ST_ret]. apply first_once_tick.
  unfold first_once in *. cbn [observe observed firstTickDone]. rewrite count_first_snoc. lia.
Qed.

Lemma first_tick_once cfg m n s :
  first_once m → monitor_run cfg (loop_init (m, n)) s → first_once (lp_state s).1.
Proof using Type.
  intros H0 Hrun. apply (loop_invariant monitor_round monitor_others true (Interval cfg) (Some "monitor: stop: context deadline exceeded")
    (λ st, first_once st.1) (m, n) s); [done|intros; by apply first_once_round| |done].
  intros x y Hx Ho. destruct Ho; cbn in *; by apply first_once_notify.
Qed.

(** A configuration [Start] accepts crashes the process when its interval is negative. *)
Lemma start_accepts_negative cfg : Interval cfg < 0 → CheckTimeout cfg ≠ 0 → Monitor.Start cfg = Ok tt ∧ first_pc true (Interval cfg) = Panicked.
Proof using Type.
  intros Hi Hc. split; [|apply start_panics; lia]. unfold Monitor.Start. rewrite (proj2 (Z.eqb_neq _ _)) by lia. by rewrite (proj2 (Z.eqb_neq _ _)).
Qed.
End monitor_loop.

(** ** The key-set refresher *)
Section refresher_loop.
Context {K : Type}.
Definition refresh_round (fetched : go_result (K * go_result nat)) (jwks : option K) : option K := (refresh fetched jwks).1.2.
(** The period [NewOIDC] gives the ticker. *)
Definition refresh_period (cfg : OIDCConfig) : Z :=
  let ttl := wrap64 (JWKSTTLSecs cfg * 1000000000) in if ttl =? 0 then 300 * 1000000000 else ttl.
Definition refresher_run (cfg : OIDCConfig) :=
  loop_run refresh_round (λ _ _, False) false (refresh_period cfg) None.
Definition refresher_step := loop_step refresh_round None.

(** What the middleware verifies with is what [Auth.refresher] computes from the fetches
    so far. *)
Lemma refresher_state cfg jwks s : refresher_run cfg (loop_init jwks) s → lp_state s = refresher (lp_rounds s) jwks.
Proof using Type. intros Hr. by apply (loop_rounds refresh_round (λ _ _, False) false (refresh_period cfg) None) in Hr. Qed.
End refresher_loop.
