(* ===== verification/Entry.v ===== *)
(** * Entry points: the proxy's handler chain, the router's construction, command lines

    [setupRoutes] of internal/proxy/proxy.go puts the authentication middleware in front
    of the two routes; [New] of internal/routing/router.go chooses the external selectors;
    [main] of cmd/trino-goway, cmd/routing-service and cmd/goway-diff-harness read their
    flags and turn results into exit statuses. *)
From S2P Require Import Prelude GoStrings Json HttpModel GoFlags Config RouterPb Lru Routing Cookie Forward Auth TrinoFake Fleet.

#[local] Open Scope Z_scope.

(** ** The proxy's handler chain *)
Section chain.
Context {S : Type} `{RouterOps S} {V : Type} (env : proxy_env V).
#[local] Abbreviation pstate := (proxy_state S V).

(** What the client is sent; the status 0 stands for a connection that is dropped. *)
Definition sent_reply (es : list event) : reply :=
  match rev es with
  | EvWrite b :: EvWriteHeader st h cs :: _ => mkReply st h cs (BText b)
  | _ => mkReply 0 ∅ [] (BText "")
  end.

(** The routes as a handler; the principal is not looked at. *)
Definition proxy_routes : handler pstate := λ _ r s,
  let '(_, s') := ServeHTTP env r s in ((sent_reply (ps_events s'), []), s').

(** [AuthMW] when it is set. The metrics middleware around it only observes. *)
Definition setupRoutes (authMW : option (Middleware pstate)) : handler pstate :=
  match authMW with Some mw => mw proxy_routes | None => proxy_routes end.

(** With a middleware installed, a request it does not authenticate is answered with 401 and
    changes nothing; any other request is handed to the routes, once. *)
Theorem proxy_requires_auth (mw : Middleware pstate) who `{!Authenticates mw who} p r s :
  let '((rep, _), s') := setupRoutes (Some mw) p r s in
  match who r with
  | None => rp_status rep = 401 ∧ s' = s
  | Some _ => s' = snd (ServeHTTP env r s) ∧ rep = sent_reply (ps_events s')
  end.
Proof.
  unfold setupRoutes. destruct (who r) as [pr|] eqn:Ew.
  - destruct (auth_runs proxy_routes p r pr s Ew) as [ty ->]. unfold count, proxy_routes, mbind, ST_bind. by destruct (ServeHTTP env r s) as [[] s'].
  - destruct (auth_denies proxy_routes p r s Ew) as (ty & msg & ->). done.
Qed.
End chain.

(** ** The router's construction *)
Section router_new.
Context {W : Type}.
(** [grpc.NewClient] and the stub on its connection. *)
Context (dial : string → go_result (Z → RouteRequest → ST W (call_result RouteResponse))).

(** No selector without an address. *)
Definition newExternalGRPCSelector (cfg : ExternalConfig) : go_result (option (Z → RouteRequest → ST W (call_result RouteResponse))) :=
  if GRPCAddr cfg =?s "" then Ok None else
  match dial (GRPCAddr cfg) with
  | Err e => Err ("routing: grpc: dial " +:+ e)
  | Ok stub => Ok (Some stub)
  end.

(** The collaborators handed to [New]. *)
Record router_config : Type := mkRouterConfig {
  rc_ListActive : ST W (go_result (list ActiveBackend)); rc_Lookup : string → ST W (string * option string);
  rc_ExternalClient : Z → out_request → ST W (call_result response); rc_ProbeClient : out_request → ST W (call_result response) }.

Definition router_New (cfg : RoutingConfig) (c : router_config) (new_request_ok : string → string → bool)
    (order : list ActiveBackend → list ActiveBackend) : go_result (services W) :=
  match newExternalGRPCSelector (External cfg) with
  | Err e => Err e
  | Ok stub => Ok (mkServices W (rc_ListActive c) (rc_Lookup c) new_request_ok (rc_ExternalClient c) (rc_ProbeClient c) stub order)
  end.

(** Without a gRPC address only HTTP is asked; with one, the stub on it. *)
Lemma router_New_transport cfg c ok order svc : router_New cfg c ok order = Ok svc →
  (GRPCAddr (External cfg) = "" ∧ grpc_route svc = None)
  ∨ (∃ stub, GRPCAddr (External cfg) ≠ "" ∧ dial (GRPCAddr (External cfg)) = Ok stub ∧ grpc_route svc = Some stub).
Proof using Type.
  unfold router_New, newExternalGRPCSelector. destruct (GRPCAddr (External cfg) =?s "") eqn:E; seqb_simpl.
  - intros [= <-]. by left.
  - destruct (dial _) as [stub|e]; [|done]. intros [= <-]. right. by exists stub.
Qed.
End router_new.

(** ** Command lines *)

(** An [ExitOnError] flag set, and the default one: 0 when asked for help, 2 on a bad
    command line. *)
Definition on_flags {A} (usage : Z → A) (fs : flag_set) (args : list string) (k : flag_values → A) : A :=
  match parse_flags (λ _, true) fs ∅ args with
  | Help => usage 0
  | BadFlags => usage 2
  | Parsed v _ => k v
  end.
Definition flag_or (v : flag_values) (name default : string) : string := from_opt default (v !! name).

(** cmd/trino-goway: [run] and [runMigrate] give their error, if any. *)
Definition gateway_flags : flag_set := [("config", FString); ("migrate-only", FBool)].
Definition gateway_main (run runMigrate : string → option string) (args : list string) : Z :=
  on_flags id gateway_flags args (λ v,
    let path := flag_or v "config" "config.yml" in
    match (if flag_bool v "migrate-only" then runMigrate path else run path) with Some _ => 1 | None => 0 end).

(** cmd/routing-service, up to the configuration. *)
Inductive level : Type := LevelDebug | LevelInfo | LevelWarn | LevelError.
Definition parseLogLevel (s : string) : level :=
  if s =?s "debug" then LevelDebug else if s =?s "warn" then LevelWarn else if s =?s "error" then LevelError else LevelInfo.
Definition service_flags : flag_set := [("config", FString); ("log-level", FString)].
Definition service_main (serve : string → level → Z) (args : list string) : Z :=
  on_flags id service_flags args (λ v,
    let path := flag_or v "config" "" in
    if path =?s "" then 1 else serve path (parseLogLevel (flag_or v "log-level" "info"))).

(** cmd/goway-diff-harness. *)
Record commonFlags : Type := mkCommon { scenariosDir : string; cf_format : string }.
Definition common_flags : flag_set := [("scenarios", FString); ("format", FString)].
Definition bindCommonFlags (v : flag_values) : commonFlags :=
  mkCommon (flag_or v "scenarios" "cmd/goway-diff-harness/testdata/scenarios") (flag_or v "format" "text").
Definition defaultGoldens : string := "cmd/goway-diff-harness/testdata/golden".

Section diff_main.
Context {A : Type} (exit : Z → A).
(** The commands behind their flags. *)
Context (live : commonFlags → string → string → A) (record : commonFlags → string → string → A)
        (replay : commonFlags → string → string → A) (report : string → string → A).

Definition live_cmd (args : list string) : A :=
  on_flags exit (common_flags ++ [("java-url", FString); ("go-url", FString)]) args (λ v,
    live (bindCommonFlags v) (flag_or v "java-url" "") (flag_or v "go-url" "")).
Definition record_cmd (args : list string) : A :=
  on_flags exit (common_flags ++ [("java-url", FString); ("goldens", FString)]) args (λ v,
    record (bindCommonFlags v) (flag_or v "java-url" "") (flag_or v "goldens" defaultGoldens)).
Definition replay_cmd (args : list string) : A :=
  on_flags exit (common_flags ++ [("go-url", FString); ("goldens", FString)]) args (λ v,
    replay (bindCommonFlags v) (flag_or v "go-url" "") (flag_or v "goldens" defaultGoldens)).
Definition report_cmd (args : list string) : A :=
  on_flags exit [("input", FString); ("format", FString)] args (λ v, report (flag_or v "input" "") (flag_or v "format" "text")).

Definition harness_main (args : list string) : A :=
  match args with
  | [] => exit 2
  | cmd :: rest =>
      if cmd =?s "replay" then replay_cmd rest
      else if cmd =?s "record" then record_cmd rest
      else if cmd =?s "live" then live_cmd rest
      else if cmd =?s "report" then report_cmd rest
      else if existsb (String.eqb cmd) ["help"; "-h"; "--help"] then exit 0
      else exit 2
  end.
End diff_main.

Example harness_main_ex :
  harness_main (λ z, inl z) (λ c j g, inr (cf_format c, j, g)) (λ _ _ _, inl 9) (λ _ _ _, inl 9) (λ _ _, inl 9)
    ["live"; "--java-url=http://a"; "-go-url"; "http://b"; "--format"; "json"] = inr ("json", "http://a", "http://b")
  ∧ harness_main (λ z, inl z) (λ _ _ _, inr ()) (λ _ _ _, inl 9) (λ _ _ _, inl 9) (λ _ _, inl 9) ["live"; "--x"] = inl 2.
Proof. vm_compute. done. Qed.

(** ** Witness: a request without a token at the gateway of [Fleet] *)
Import FleetDemo.
Lemma proxy_requires_auth_witness :
  let mw := OIDC_Handler (K := unit) (λ _ _, None) (Some tt) in
  rp_status (fst (fst (setupRoutes FleetDemo.env (Some mw) None w_post FleetDemo.start))) = 401
  ∧ snd (setupRoutes FleetDemo.env (Some mw) None w_post FleetDemo.start) = FleetDemo.start.
Proof.
  pose proof (proxy_requires_auth FleetDemo.env (OIDC_Handler (K := unit) (λ _ _, None) (Some tt)) (oidc_principal (λ _ _, None) (Some tt))
    None w_post FleetDemo.start) as H.
  cbv zeta. destruct (setupRoutes _ _ _ _ _) as [[rep es] s']. exact H.
Defined.
