(* ===== verification/TestTB.v ===== *)
(** * A Go test and what it must give back

    What the helpers under internal/ use of [testing.TB]: [Fatalf] ends the test,
    [Cleanup] registers work that runs when the test ends, the latest first. The outside is
    a state [W]; a logic of what is open and not yet registered proves that helpers leave
    nothing behind, wherever they stop. *)
From S2P Require Import Prelude GoStrings.

(** What a test owns: handles are those of the library that made it. *)
Inductive resource : Type :=
| Network
| Container (c : nat)
| DBPool (d : nat)
| Process (p : nat)
| Ctx (k : nat)
| GrpcConn (k : nat)
| Listener (l : nat).
#[global] Instance resource_eq_dec : EqDecision resource.
Proof. solve_decision. Defined.

Section tb.
Context {W : Type}.

(** The test: the outside and what it has registered for cleanup, the latest first. *)
Record tb : Type := mkTB { tb_world : W; tb_cleanups : list resource }.
Definition T (A : Type) : Type := ST tb (go_result A).
#[global] Instance T_ret : MRet T := λ A a s, (Ok a, s).
#[global] Instance T_bind : MBind T := λ A B f m s, match m s with (Ok a, s') => f a s' | (Err e, s') => (Err e, s') end.

Definition fatal {A} (msg : string) : T A := λ s, (Err msg, s).
(** A call whose error is fatal, with its message. *)
Definition lift {A} (msg : string) (m : ST W (go_result A)) : T A := λ s,
  let '(r, w) := m (tb_world s) in
  (match r with Ok a => Ok a | Err e => Err (msg +:+ ": " +:+ e) end, mkTB w (tb_cleanups s)).
(** A call that cannot fail, or whose error is the caller's business. *)
Definition call {A} (m : ST W A) : T A := λ s, let '(a, w) := m (tb_world s) in (Ok a, mkTB w (tb_cleanups s)).
(** [t.Cleanup] of giving these back, in order. *)
Definition owns (rs : list resource) : T unit := λ s, (Ok tt, mkTB (tb_world s) (rs ++ tb_cleanups s)).

(** Giving back before the end of the test what is registered: its cleanup finds that it
    was done. *)
Fixpoint remove_first (r : resource) (rs : list resource) : list resource :=
  match rs with [] => [] | x :: rs => if decide (x = r) then rs else x :: remove_first r rs end.
Definition disown {A} (r : resource) (m : ST W A) : T A := λ s,
  let '(a, w) := m (tb_world s) in (Ok a, mkTB w (remove_first r (tb_cleanups s))).
Lemma remove_first_perm r rs k : rs ≡ₚ r :: k → k ≡ₚ remove_first r rs.
Proof using Type.
  revert k. induction rs as [|x rs IH]; intros k Hk; [by apply Permutation_nil_l in Hk|]. cbn. destruct (decide (x = r)) as [->|Hne].
  - by apply (inj (r ::.)) in Hk.
  - assert (x ∈ k) as Hx. { assert (x ∈ r :: k) as Hin by (rewrite <- Hk; left). by apply elem_of_cons in Hin as [->|]. }
    apply elem_of_Permutation in Hx as [k' Hk']. rewrite Hk'. f_equiv. apply IH. apply (inj (x ::.)). rewrite Hk, Hk'. by apply perm_swap.
Qed.

(** The end of the test. The error of a release is reported ([t.Errorf]) or dropped, and
    the next one is made. *)
Definition give_back (release : resource → ST W (go_result unit)) (rs : list resource) (w : W) : W :=
  foldl (λ w r, snd (release r w)) w rs.
Definition finish (release : resource → ST W (go_result unit)) (s : tb) : W := give_back release (tb_cleanups s) (tb_world s).

(** ** What is open

    [open] is what has been made and for which no release has been called, in any order. *)
Section open.
Context (open : W → list resource).
Definition makes {A} (rs : A → list resource) (m : ST W (go_result A)) : Prop :=
  ∀ w, open (snd (m w)) ≡ₚ (match fst (m w) with Ok a => rs a | Err _ => [] end) ++ open w.
Definition quiet {A} (m : ST W A) : Prop := ∀ w, open (snd (m w)) ≡ₚ open w.
Definition gives {A} (r : resource) (m : ST W A) : Prop := ∀ w rest, open w ≡ₚ r :: rest → open (snd (m w)) ≡ₚ rest.
Lemma quiet_makes {A} (m : ST W (go_result A)) : quiet m → makes (λ _, []) m.
Proof using Type. intros Hm w. rewrite (Hm w). by destruct (fst (m w)). Qed.

(** [p] is open beyond what is registered. *)
Definition pending (p : list resource) (s : tb) : Prop := open (tb_world s) ≡ₚ p ++ tb_cleanups s.
(** [m] starts with [p] pending and returns with [q a] pending; if it ends the test,
    nothing is. *)
Definition holds {A} (p : list resource) (m : T A) (q : A → list resource) : Prop := ∀ s,
  pending p s → match fst (m s) with Ok a => pending (q a) (snd (m s)) | Err _ => pending [] (snd (m s)) end.

Lemma holds_ret {A} q (a : A) : holds (q a) (mret a) q.
Proof using Type. by intros s. Qed.
Lemma holds_done {A} (a : A) : holds [] (mret a) (λ _, []).
Proof using Type. by intros s. Qed.
Lemma holds_fatal {A} msg (q : A → list resource) : holds [] (fatal msg) q.
Proof using Type. by intros s. Qed.
Lemma holds_bind {A B} p (m : T A) q (f : A → T B) r : holds p m q → (∀ a, holds (q a) (f a) r) → holds p (m ≫= f) r.
Proof using Type. intros Hm Hf s Hs. unfold mbind, T_bind. specialize (Hm s Hs). destruct (m s) as [[a|e] s1]; [by apply Hf|done]. Qed.
Lemma holds_lift {A} msg (m : ST W (go_result A)) rs : makes rs m → holds [] (lift msg m) rs.
Proof using Type.
  intros Hm s Hs. unfold pending, lift in *. specialize (Hm (tb_world s)). destruct (m (tb_world s)) as [[a|e] w]; cbn in *; by rewrite Hm, Hs.
Qed.
(** A call with something pending, that may make more. *)
Lemma holds_make {A} p (m : ST W (go_result A)) rs : makes rs m → holds p (call m) (λ r, (match r with Ok a => rs a | Err _ => [] end) ++ p).
Proof using Type.
  intros Hm s Hs. unfold pending, call in *. specialize (Hm (tb_world s)). destruct (m (tb_world s)) as [r w]. cbn in *. by rewrite Hm, Hs, app_assoc.
Qed.
Lemma holds_call {A} p (m : ST W A) : quiet m → holds p (call m) (λ _, p).
Proof using Type. intros Hm s Hs. unfold pending, call in *. specialize (Hm (tb_world s)). destruct (m (tb_world s)) as [a w]. cbn in *. by rewrite Hm, Hs. Qed.
Lemma holds_give {A} r p (m : ST W A) : gives r m → holds (r :: p) (call m) (λ _, p).
Proof using Type.
  intros Hm s Hs. unfold pending, call in *. specialize (Hm (tb_world s) (p ++ tb_cleanups s) Hs). by destruct (m (tb_world s)) as [a w].
Qed.
Lemma holds_owns p : holds p (owns p) (λ _, []).
Proof using Type. by intros s Hs. Qed.
(** Giving back early what is registered. *)
Lemma holds_disown {A} r (m : ST W A) s : gives r m → pending [] s → r ∈ tb_cleanups s → pending [] (snd (disown r m s)).
Proof using Type.
  intros Hm Hs Hin. unfold pending, disown in *. apply elem_of_Permutation in Hin as [k Hk].
  specialize (Hm (tb_world s) k). cbn in *. destruct (m (tb_world s)) as [a w]. cbn in *. rewrite Hm by (by rewrite Hs). by apply remove_first_perm.
Qed.

(** A test that ends with nothing pending gives everything back. *)
Context (release : resource → ST W (go_result unit)) (Hrelease : ∀ r, gives r (release r)).
Lemma give_back_all rs w rest : open w ≡ₚ rs ++ rest → open (give_back release rs w) ≡ₚ rest.
Proof using Hrelease. revert w. induction rs as [|r rs IH]; intros w Hw; [done|]. cbn. apply IH. by eapply Hrelease. Qed.
Lemma finish_tidy {A} (m : T A) w : holds [] m (λ _, []) → open w = [] → open (finish release (snd (m (mkTB w [])))) = [].
Proof using Hrelease.
  intros Hm Hw. assert (pending [] (mkTB w [])) as Hp by (unfold pending; cbn; by rewrite Hw). specialize (Hm _ Hp).
  apply Permutation_nil_r, give_back_all. rewrite app_nil_r. by destruct (fst (m (mkTB w []))).
Qed.
End open.
End tb.
Arguments tb W : clear implicits.
Arguments T W A : clear implicits.

Create HintDb tidy.
#[export] Hint Resolve holds_done holds_fatal quiet_makes holds_lift holds_call holds_give holds_owns : tidy.
(** One step of a helper: its first call, or a case of what it answered. *)
Ltac tidy_step :=
  first [ solve [eauto with tidy]
        | eapply holds_bind; [solve [eauto with tidy]|intros ?]
        | match goal with |- holds _ _ (match ?x with _ => _ end) _ => destruct x end ].
Ltac tidy := repeat tidy_step.
