(* ===== verification/TestContainers.v ===== *)
(** * Database containers and free ports for tests (internal/testutil: postgres.go,
      mysql.go, portalloc.go)

    The container library, [sqlx] and [net.Listen] are parameters over the state [W] of
    what is outside. *)
From S2P Require Import Prelude GoStrings GoNumeric TestTB.

#[local] Open Scope Z_scope.

(** A container request: image, network alias, files (path in the container and content
    or file on the host), environment, and how readiness is told. *)
Inductive wait_for : Type :=
| ForLog (text : string) (occurrence : nat) (startupTimeout : option Z)
| ForHTTP (path port : string) (startupTimeout : option Z)
| ForListeningPort (port : string) (startupTimeout : option Z)
| ForAll (l : list wait_for).
Record container_request : Type := mkContainerRequest {
  cr_Image : string; cr_ExposedPorts : list string; cr_Env : list (string * string); cr_Alias : string;
  cr_Files : list (string * string); cr_WaitingFor : wait_for }.

Section containers.
Context {W : Type}.
(** [GenericContainer] (a handle or an error), its mapped port and host, [Terminate];
    [sqlx.Open] of a driver and a DSN, [PingContext] and [Close]; [net.Listen] on a port of
    the system's choice with the port it got, and the listener's [Close]. *)
Context (generic_container : container_request → ST W (go_result nat)) (mapped_port : nat → string → ST W (go_result string))
        (host_of : nat → ST W (go_result string)) (terminate : nat → ST W (go_result unit))
        (sql_open : string → string → ST W (go_result nat)) (ping close_db : nat → ST W (go_result unit))
        (listen : ST W (go_result (nat * Z))) (close_listener : nat → ST W (go_result unit)).

(** What the two functions have in common. *)
Record db_image : Type := mkDbImage {
  di_name : string; di_request : container_request; di_port : string; di_driver : string; di_dsn : string → string → string }.

Definition dbContainer (i : db_image) (openDB : bool) : T W (option nat * string) :=
  let msg m := "testutil: " +:+ di_name i +:+ ": " +:+ m in
  c ← lift (msg "start container") (generic_container (di_request i));
  port ← call (mapped_port c (di_port i));
  match port with
  | Err e => _ ← call (terminate c); fatal (msg "mapped port: " +:+ e)
  | Ok port =>
      host ← call (host_of c);
      match host with
      | Err e => _ ← call (terminate c); fatal (msg "host: " +:+ e)
      | Ok host =>
          let dsn := di_dsn i host port in
          if negb openDB then _ ← owns [Container c]; mret (None, dsn) else
          db ← call (sql_open (di_driver i) dsn);
          match db with
          | Err e => _ ← call (terminate c); fatal (msg "open db: " +:+ e)
          | Ok db =>
              r ← call (ping db);
              match r with
              | Err e => _ ← call (close_db db); _ ← call (terminate c); fatal (msg "ping: " +:+ e)
              | Ok _ => _ ← owns [DBPool db; Container c]; mret (Some db, dsn)
              end
          end
      end
  end.

Definition postgres_image : db_image :=
  mkDbImage "PostgresContainer"
    (mkContainerRequest "postgres:16-alpine" ["5432/tcp"]
       [("POSTGRES_USER", "testuser"); ("POSTGRES_PASSWORD", "testpass"); ("POSTGRES_DB", "testdb")] "" []
       (ForAll [ForLog "database system is ready to accept connections" 2 None; ForListeningPort "5432/tcp" (Some (60 * Second))]))
    "5432" "postgres"
    (λ host port, "host=" +:+ host +:+ " port=" +:+ port +:+ " user=testuser password=testpass dbname=testdb sslmode=disable").
Definition postgresContainer : bool → T W (option nat * string) := dbContainer postgres_image.
Definition PostgresContainer : T W (option nat) := '(db, _) ← postgresContainer true; mret db.
Definition PostgresContainerDSN : T W string := '(_, dsn) ← postgresContainer false; mret dsn.

Definition mysql_image : db_image :=
  mkDbImage "MySQLContainer"
    (mkContainerRequest "mysql:8-debian" ["3306/tcp"]
       [("MYSQL_ROOT_PASSWORD", "testpass"); ("MYSQL_DATABASE", "testdb"); ("MYSQL_USER", "testuser"); ("MYSQL_PASSWORD", "testpass")] "" []
       (ForLog "ready for connections" 1 None))
    "3306" "mysql"
    (λ host port, "testuser:testpass@tcp(" +:+ host +:+ ":" +:+ port +:+ ")/testdb?parseTime=true").
Definition mysqlContainer : bool → T W (option nat * string) := dbContainer mysql_image.
Definition MySQLContainer : T W (option nat) := '(db, _) ← mysqlContainer true; mret db.
Definition MySQLContainerDSN : T W string := '(_, dsn) ← mysqlContainer false; mret dsn.

Definition FreePort : T W Z :=
  '(l, port) ← lift "testutil: FreePort: listen" listen;
  r ← call (close_listener l);
  match r with Err e => fatal ("testutil: FreePort: close: " +:+ e) | Ok _ => mret port end.

(** ** Nothing is left behind *)
Section tidy.
Context (open : W → list resource).
Context (Hcont : ∀ req, makes open (λ c, [Container c]) (generic_container req)) (Hport : ∀ c p, quiet open (mapped_port c p))
        (Hhost : ∀ c, quiet open (host_of c)) (Hterm : ∀ c, gives open (Container c) (terminate c))
        (Hopen : ∀ d s, makes open (λ db, [DBPool db]) (sql_open d s)) (Hping : ∀ d, quiet open (ping d))
        (Hclose : ∀ d, gives open (DBPool d) (close_db d))
        (Hlisten : makes open (λ lp, [Listener lp.1]) listen) (Hlclose : ∀ l, gives open (Listener l) (close_listener l)).

#[local] Hint Resolve holds_make : tidy.
(** However far it comes, everything it has opened is registered or given back. *)
Lemma db_container_tidy i b : holds open [] (dbContainer i b) (λ _, []).
Proof using Hcont Hport Hhost Hterm Hopen Hping Hclose.
  unfold dbContainer. tidy.
Qed.

Lemma dsn_tidy : holds open [] PostgresContainerDSN (λ _, []).
Proof using Hcont Hport Hhost Hterm Hopen Hping Hclose.
  unfold PostgresContainerDSN. eapply holds_bind; [apply db_container_tidy|]. intros [db dsn]. tidy.
Qed.
Lemma free_port_tidy : holds open [] FreePort (λ _, []).
Proof using Hlisten Hlclose.
  unfold FreePort. tidy.
Qed.
End tidy.
End containers.
