(* ===== verification/GoTemplate.v ===== *)
(** * The part of Go's text/template the configuration templates use

    Texts with actions in double braces: a field of the data or the dot itself, [if] with a
    field or with [eq] or [gt] of a field and a literal, [range] over a list of strings,
    [end]; a left brace pair followed by a dash drops the white space before it. *)
From S2P Require Import Prelude GoStrings GoNumeric.

Inductive tval : Type :=
| TInt (z : Z) | TDur (d : Z) | TBool (b : bool) | TStr (s : string) | TList (l : list string)
| TMap (m : list (string * tval)).

Inductive tcond : Type := CField (f : string) | CEq (f lit : string) | CGt (f : string) (z : Z).
Inductive tnode : Type :=
| NText (s : string)
| NField (f : string)
| NDot
| NIf (c : tcond) (body : list tnode)
| NRange (f : string) (body : list tnode).

(** ** Lexing *)
Inductive ttok : Type := KText (s : string) | KAction (s : string).

(** The text before and after the first occurrence. *)
Fixpoint cut_str (sep s : string) : option (string * string) :=
  if has_prefix sep s then Some ("", str_drop (String.length sep) s) else
  match s with
  | "" => None
  | String c r => match cut_str sep r with Some (a, b) => Some (String c a, b) | None => None end
  end.
Definition is_blank (c : ascii) : bool := Ascii.eqb c " " || in_rng 9 10 c || (byte_n c =? 13)%N.
Definition trim_right_blank (s : string) : string := str_rev (drop_while is_blank (str_rev s)).
Definition trim_blank (s : string) : string := drop_while is_blank (trim_right_blank s).

Fixpoint lex (fuel : nat) (s : string) : go_result (list ttok) :=
  match fuel with
  | O => Err "fuel"
  | S fuel =>
      match cut_str "{{" s with
      | None => Ok [KText s]
      | Some (a, r) =>
          let trimmed := has_prefix "- " r in
          match cut_str "}}" (if trimmed then str_drop 2 r else r) with
          | None => Err "unclosed action"
          | Some (act, rest) =>
              match lex fuel rest with
              | Ok l => Ok (KText (if trimmed then trim_right_blank a else a) :: KAction (trim_blank act) :: l)
              | Err e => Err e
              end
          end
      end
  end.

(** ** Parsing *)
Inductive taction : Type := AField (f : string) | ADot | AIf (c : tcond) | ARange (f : string) | AEnd.

Definition field_name (w : string) : option string :=
  match w with String "." (String _ _ as f) => Some f | _ => None end.
Definition parse_action (s : string) : option taction :=
  match split_on " " s with
  | ["."] => Some ADot
  | ["end"] => Some AEnd
  | [w] => AField <$> field_name w
  | ["if"; w] => AIf ∘ CField <$> field_name w
  | ["if"; "eq"; w; lit] =>
      f ← field_name w;
      match lit with
      | String q r => if Ascii.eqb q dquote && has_suffix (String dquote "") r
                      then Some (AIf (CEq f (trim_suffix (String dquote "") r))) else None
      | "" => None
      end
  | ["if"; "gt"; w; n] => f ← field_name w; z ← parse_int n; Some (AIf (CGt f z))
  | ["range"; w] => ARange <$> field_name w
  | _ => None
  end.

(** The nodes up to the end of the text or of the block, and what follows. *)
Fixpoint parse_nodes (fuel : nat) (ts : list ttok) : go_result (list tnode * option (list ttok)) :=
  match fuel with
  | O => Err "fuel"
  | S fuel =>
      let next n ts := match parse_nodes fuel ts with Ok (ns, r) => Ok (n :: ns, r) | Err e => Err e end in
      let block f ts :=
        match parse_nodes fuel ts with
        | Ok (body, Some r) => next (f body) r
        | Ok (_, None) => Err "unexpected EOF"
        | Err e => Err e
        end in
      match ts with
      | [] => Ok ([], None)
      | KText s :: ts => next (NText s) ts
      | KAction s :: ts =>
          match parse_action s with
          | None => Err "unexpected action"
          | Some AEnd => Ok ([], Some ts)
          | Some (AField f) => next (NField f) ts
          | Some ADot => next NDot ts
          | Some (AIf c) => block (NIf c) ts
          | Some (ARange f) => block (NRange f) ts
          end
      end
  end.

Definition template_parse (text : string) : go_result (list tnode) :=
  match lex (S (String.length text)) text with
  | Err e => Err e
  | Ok ts =>
      match parse_nodes (S (length ts)) ts with
      | Ok (ns, None) => Ok ns
      | Ok (_, Some _) => Err "unexpected {{end}}"
      | Err e => Err e
      end
  end.

(** ** Execution *)
Definition truth (v : tval) : bool :=
  match v with
  | TInt z | TDur z => negb (z =? 0)%Z
  | TBool b => b
  | TStr s => negb (s =?s "")
  | TList l => negb (bool_decide (l = []))
  | TMap m => match m with [] => false | _ => true end
  end.
Definition show (v : tval) : go_result string :=
  match v with
  | TInt z => Ok (z_to_dec z)
  | TDur d => Ok (duration_string d)
  | TBool b => Ok (if b then "true" else "false")
  | TStr s => Ok s
  | TList l => Ok ("[" +:+ join " " l +:+ "]")
  | TMap _ => Err "map printed"
  end.

(** A field of the dot, which must be a map; a key it does not have is no value. *)
Definition field (f : string) (dot : tval) : go_result (option tval) :=
  match dot with TMap m => Ok (assoc_str f m) | _ => Err ("can't evaluate field " +:+ f) end.

Definition test (c : tcond) (dot : tval) : go_result bool :=
  match c with
  | CField f => from_opt false ∘ fmap truth <$> field f dot
  | CEq f lit =>
      match field f dot with
      | Ok (Some (TStr s)) => Ok (s =?s lit)
      | Ok _ => Err "incompatible types for comparison"
      | Err e => Err e
      end
  | CGt f z =>
      match field f dot with
      | Ok (Some (TInt n)) => Ok (z <? n)%Z
      | Ok _ => Err "incompatible types for comparison"
      | Err e => Err e
      end
  end.

Definition cat (a b : go_result string) : go_result string :=
  match a, b with Ok x, Ok y => Ok (x +:+ y) | Err e, _ | Ok _, Err e => Err e end.

Fixpoint exec (n : tnode) (dot : tval) {struct n} : go_result string :=
  let all := fix all (ns : list tnode) (dot : tval) : go_result string :=
    match ns with [] => Ok "" | n :: ns => cat (exec n dot) (all ns dot) end in
  match n with
  | NText s => Ok s
  | NDot => show dot
  | NField f =>
      match field f dot with Ok (Some v) => show v | Ok None => Ok "<no value>" | Err e => Err e end
  | NIf c body => match test c dot with Ok true => all body dot | Ok false => Ok "" | Err e => Err e end
  | NRange f body =>
      match field f dot with
      | Ok (Some (TList l)) => foldr (λ s out, cat (all body (TStr s)) out) (Ok "") l
      | Ok _ => Err "range can't iterate"
      | Err e => Err e
      end
  end.
Definition execute (ns : list tnode) (dot : tval) : go_result string := foldr (λ n out, cat (exec n dot) out) (Ok "") ns.

Definition render (text : string) (dot : tval) : go_result string :=
  match template_parse text with Ok ns => execute ns dot | Err e => Err e end.

(** ** The fuel is enough *)
Lemma cut_str_length sep s a b : cut_str sep s = Some (a, b) → (String.length b + String.length sep ≤ String.length s)%nat.
Proof.
  revert a b. induction s as [|c s IH]; intros a b; cbn [cut_str].
  - destruct (has_prefix sep "") eqn:Ep; [|done]. apply has_prefix_spec in Ep as [r Hr]. destruct sep; [|done]. intros [= <- <-]. cbn. lia.
  - destruct (has_prefix sep (String c s)) eqn:Ep.
    + apply has_prefix_spec in Ep as [r Hr]. rewrite Hr, str_drop_app. intros [= <- <-]. rewrite str_length_app. lia.
    + destruct (cut_str sep s) as [[a' b']|] eqn:Ec; [|done]. intros [= <- <-]. specialize (IH _ _ eq_refl). cbn [String.length]. lia.
Qed.
Lemma lex_fuel_enough fuel s : (String.length s < fuel)%nat → lex fuel s ≠ Err "fuel".
Proof.
  revert s. induction fuel as [|fuel IH]; intros s Hf; [lia|]. cbn [lex]. destruct (cut_str "{{" s) as [[a r]|] eqn:E1; [|done].
  destruct (cut_str "}}" _) as [[act rest]|] eqn:E2; [|done]. apply cut_str_length in E1, E2. cbn [String.length] in E1, E2.
  assert (String.length rest < fuel)%nat as Hr by (destruct (has_prefix "- " r) eqn:Ep; [pose proof (str_drop_length 2 r)|]; lia).
  specialize (IH rest Hr). destruct (lex fuel rest) as [l|e]; [done|]. by intros [= ->].
Qed.

Lemma parse_nodes_rest fuel ts ns r : parse_nodes fuel ts = Ok (ns, Some r) → (length r < length ts)%nat.
Proof.
  revert ts ns r. induction fuel as [|fuel IH]; intros ts ns r; [done|]. cbn [parse_nodes].
  assert (Hnext : ∀ n ts, (match parse_nodes fuel ts with Ok (ns, r) => Ok (n :: ns, r) | Err e => Err e end) = Ok (ns, Some r) → (length r < length ts)%nat).
  { intros n ts' Hn. destruct (parse_nodes fuel ts') as [[ns' r']|e] eqn:E; [|done]. injection Hn as <- ->. by eapply IH. }
  destruct ts as [|[s|s] ts]; [done| |].
  - intros Hn. apply Hnext in Hn. cbn. lia.
  - destruct (parse_action s) as [[f| |c|f|]|]; [| | | |intros [= <- <-]; cbn; lia|done].
    1,2: intros Hn; apply Hnext in Hn; cbn; lia.
    1,2: destruct (parse_nodes fuel ts) as [[body [r'|]]|e] eqn:E; try done; intros Hn; apply Hnext in Hn; apply IH in E; cbn; lia.
Qed.
Lemma parse_nodes_enough fuel ts : (length ts < fuel)%nat → parse_nodes fuel ts ≠ Err "fuel".
Proof.
  revert ts. induction fuel as [|fuel IH]; intros ts Hf; [lia|]. cbn [parse_nodes].
  assert (Hnext : ∀ n ts, (length ts < fuel)%nat →
    (match parse_nodes fuel ts with Ok (ns, r) => Ok (n :: ns, r) | Err e => Err e end) ≠ (Err "fuel" : go_result (list tnode * option (list ttok)))).
  { intros n ts' Hl. specialize (IH ts' Hl). destruct (parse_nodes fuel ts') as [[ns r]|e]; [done|]. by intros [= ->]. }
  destruct ts as [|[s|s] ts]; [done| |]; cbn in Hf.
  - apply Hnext. lia.
  - destruct (parse_action s) as [[f| |c|f|]|]; try done; try (apply Hnext; lia).
    1,2: assert (length ts < fuel)%nat as Hl by lia; pose proof (IH ts Hl) as H1;
      destruct (parse_nodes fuel ts) as [[body [r'|]]|e] eqn:E; [|done|by intros [= ->]]; apply Hnext; apply parse_nodes_rest in E; lia.
Qed.
(** [template_parse] never runs out of fuel. *)
Lemma template_parse_ends text : template_parse text ≠ Err "fuel".
Proof.
  unfold template_parse. pose proof (lex_fuel_enough (S (String.length text)) text (Nat.lt_succ_diag_r _)) as Hl.
  destruct (lex _ text) as [ts|e]; [|by intros [= ->]]. pose proof (parse_nodes_enough (S (length ts)) ts (Nat.lt_succ_diag_r _)) as Hp.
  destruct (parse_nodes _ ts) as [[ns [r|]]|e]; [done|done|by intros [= ->]].
Qed.

(** ** What a template renders *)
Section renders.
Context (dot : tval).
Lemma exec_all body d :
  (fix all (ns : list tnode) (dot : tval) : go_result string := match ns with [] => Ok "" | n :: ns => cat (exec n dot) (all ns dot) end) body d
  = execute body d.
Proof. unfold execute. induction body as [|n ns IH]; [done|]. cbn [foldr]. by rewrite IH. Qed.
Lemma exec_if c body : exec (NIf c body) dot = match test c dot with Ok true => execute body dot | Ok false => Ok "" | Err e => Err e end.
Proof. cbn [exec]. by rewrite exec_all. Qed.
Lemma exec_range f body : exec (NRange f body) dot =
  match field f dot with
  | Ok (Some (TList l)) => foldr (λ s out, cat (execute body (TStr s)) out) (Ok "") l
  | Ok _ => Err "range can't iterate"
  | Err e => Err e
  end.
Proof.
  cbn [exec]. destruct (field f dot) as [[[]|]|e]; try done. induction l as [|s l IH]; [done|]. cbn [foldr]. by rewrite IH, exec_all.
Qed.

Lemma renders_nil : execute [] dot = Ok "".
Proof. done. Qed.
Lemma renders_text s ns r : execute ns dot = Ok r → execute (NText s :: ns) dot = Ok (s +:+ r).
Proof. intros Hr. unfold execute in *. cbn [foldr exec]. by rewrite Hr. Qed.
Lemma renders_dot ns s r : dot = TStr s → execute ns dot = Ok r → execute (NDot :: ns) dot = Ok (s +:+ r).
Proof. intros -> Hr. unfold execute in *. cbn [foldr exec show]. by rewrite Hr. Qed.
Lemma renders_field f v x ns r : field f dot = Ok (Some v) → show v = Ok x → execute ns dot = Ok r → execute (NField f :: ns) dot = Ok (x +:+ r).
Proof. intros Hf Hx Hr. unfold execute in *. cbn [foldr exec]. by rewrite Hf, Hx, Hr. Qed.
Lemma renders_if c b body s ns r : test c dot = Ok b → execute body dot = Ok s → execute ns dot = Ok r →
  execute (NIf c body :: ns) dot = Ok ((if b then s else "") +:+ r).
Proof. intros Hc Hb Hr. unfold execute at 1. cbn [foldr]. rewrite exec_if, Hc, Hb. fold (execute ns dot). rewrite Hr. by destruct b. Qed.
Lemma renders_range f l body g ns r : field f dot = Ok (Some (TList l)) → (∀ s, execute body (TStr s) = Ok (g s)) → execute ns dot = Ok r →
  execute (NRange f body :: ns) dot = Ok (concat_str (g <$> l) +:+ r).
Proof.
  intros Hf Hb Hr. unfold execute at 1. cbn [foldr]. rewrite exec_range, Hf. fold (execute ns dot). rewrite Hr.
  enough (foldr (λ s out, cat (execute body (TStr s)) out) (Ok "") l = Ok (concat_str (g <$> l))) as -> by done.
  clear Hf. induction l as [|s l IH]; [done|]. cbn [foldr fmap list_fmap concat_str]. by rewrite IH, Hb.
Qed.
End renders.

(** Renders a parsed template over known data: the text is found on the way. *)
Ltac renders :=
  repeat first
    [ apply renders_nil
    | apply renders_text
    | eapply renders_dot; [reflexivity|]
    | eapply renders_field; [reflexivity|reflexivity|]
    | eapply renders_if; [reflexivity| |]
    | eapply renders_range; [reflexivity|intros ?|] ].
