(* ===== verification/Bootstrap.v ===== *)
(** * Booting the containers of the differential harness (internal/diffharness/bootstrap.go)

    The order in which network, containers, configuration, backend registration and
    readiness probe follow each other, with the cleanups a test has registered when it
    stops. Containers, files, templates and HTTP are parameters over the state [W] of
    what is outside; durations are nanoseconds. *)
From S2P Require Import Prelude GoStrings GoNumeric Json HttpModel Routing TestTB TestContainers.

#[local] Open Scope Z_scope.

Definition javaGatewayImage : string := "trinodb/trino-gateway:19".
Definition trinoImage : string := "trinodb/trino:476".
Definition postgresImage : string := "postgres:17-alpine".
Definition gatewayDBName : string := "trino_gateway_db".
Definition gatewayDBUser : string := "trino_gateway_db_admin".
Definition gatewayDBPass : string := "P0stG&es".

Record Containers : Type := mkContainers { JavaURL : string; TrinoURL : string }.

Section bootstrap.
Context {W : Type}.
(** [tcnetwork.New]; [GenericContainer] (a handle or an error); its host and mapped port;
    writing the rendered configuration (its path); [client.Do]; [ctx.Done] at a select;
    how long a request took; and the content of the embedded properties file. *)
Context (new_network : ST W (go_result unit)) (generic_container : container_request → ST W (go_result nat))
        (host_of : nat → ST W (go_result string)) (mapped_port : nat → string → ST W (go_result string)) (render_config : list (string * string) → ST W (go_result string))
        (new_request_ok : string → string → bool) (Do : out_request → ST W (call_result response)) (ctx_done : ST W bool)
        (took : W → Z) (trinoConfigProperties : string) (goq : string → string).

#[local] Abbreviation T := (T W).
Definition dh (msg : string) : string := "diffharness: " +:+ msg.

Definition startContainer (req : container_request) : T nat :=
  c ← lift (dh ("start " +:+ cr_Image req)) (generic_container req);
  _ ← owns [Container c];
  mret c.

(** Port 8080 is asked for whatever [port] says. *)
Definition containerBaseURL (c : nat) (port : string) : T string :=
  host ← lift (dh "container host") (host_of c);
  mapped ← lift (dh ("container mapped port " +:+ port)) (mapped_port c "8080");
  mret ("http://" +:+ host +:+ ":" +:+ mapped).

Definition writeJavaGatewayConfig : T string :=
  lift (dh "config") (render_config [("DBName", gatewayDBName); ("DBUser", gatewayDBUser); ("DBPass", gatewayDBPass)]).

Definition register_payload (name backendURL : string) : string :=
  "{" +:+ nl +:+ "  " +:+ goq "name" +:+ ": " +:+ goq name +:+ "," +:+ nl +:+ "  " +:+ goq "proxyTo" +:+ ": " +:+ goq backendURL +:+ "," +:+ nl
  +:+ "  " +:+ goq "active" +:+ ": true," +:+ nl +:+ "  " +:+ goq "routingGroup" +:+ ": " +:+ goq "adhoc" +:+ "," +:+ nl
  +:+ "  " +:+ goq "externalUrl" +:+ ": " +:+ goq backendURL +:+ nl +:+ "}".
Definition registerBackend (gatewayURL name backendURL : string) : T unit :=
  let url := gatewayURL +:+ "/entity?entityType=GATEWAY_BACKEND" in
  if negb (new_request_ok "POST" url) then fatal (dh "build register-backend request") else
  resp ← lift (dh "register backend") (λ w, match Do (OutRequest "POST" url (hdr_set "Content-Type" "application/json" ∅) (Ok (register_payload name backendURL))) w with
                                       | (COk r, w') => (Ok r, w') | (CErr e, w') => (Err (ce_msg e), w') end);
  if 300 <=? resp_status resp then fatal (dh ("register backend: status " +:+ z_to_dec (resp_status resp) +:+ ": " +:+ resp_body resp)) else mret tt.

(** The readiness loop at time [t] with the deadline [end_]; [None] when the fuel ends. A
    failed attempt waits for the interval. *)
Definition deadline : Z := 90 * Second.
Definition interval : Z := 1 * Second.
Definition probe_request (gatewayURL : string) : out_request :=
  OutRequest "POST" (gatewayURL +:+ "/v1/statement")
    (hdr_set "X-Trino-User" "diff-harness-readiness" (hdr_set "Content-Type" "text/plain" ∅)) (Ok "SELECT 1").
Fixpoint wait_loop (fuel : nat) (gatewayURL : string) (t end_ : Z) : ST W (option (go_result unit)) :=
  match fuel with
  | O => mret None
  | S fuel =>
      if negb (t <? end_) then mret (Some (Err "diffharness: gateway not routable within 1m30s")) else
      if negb (new_request_ok "POST" (gatewayURL +:+ "/v1/statement")) then mret (Some (Err "diffharness: build readiness request")) else
      λ w0, let '(r, w) := Do (probe_request gatewayURL) w0 in
           let t' := t + Z.max 0 (took w) in
           if match r with COk resp => (200 <=? resp_status resp) && (resp_status resp <? 300) | CErr _ => false end
           then (Some (Ok tt), w)
           else let '(c, w') := ctx_done w in
                if c : bool then (Some (Err "diffharness: gateway readiness cancelled"), w')
                else wait_loop fuel gatewayURL (t' + interval) end_ w'
  end.
(** Every turn takes at least the interval. *)
Definition wait_fuel : nat := 91.
Definition waitGatewayRoutable (gatewayURL : string) : T unit :=
  r ← call (wait_loop wait_fuel gatewayURL 0 deadline);
  match r with Some (Ok _) => mret tt | Some (Err e) => fatal e | None => fatal "" end.

Definition postgres_request : container_request :=
  mkContainerRequest postgresImage ["5432/tcp"]
    [("POSTGRES_DB", gatewayDBName); ("POSTGRES_USER", gatewayDBUser); ("POSTGRES_PASSWORD", gatewayDBPass)] "postgres" []
    (ForLog "database system is ready to accept connections" 2 (Some (60 * Second))).
Definition trino_request : container_request :=
  mkContainerRequest trinoImage ["8080/tcp"] [] "trino" [("/etc/trino/config.properties", trinoConfigProperties)]
    (ForHTTP "/v1/info" "8080/tcp" (Some (120 * Second))).
Definition java_request (configPath : string) : container_request :=
  mkContainerRequest javaGatewayImage ["8080/tcp"] [] "gateway" [("/etc/trino-gateway/config.yaml", configPath)]
    (ForHTTP "/trino-gateway/livez" "8080/tcp" (Some (120 * Second))).

Definition BootstrapContainers : T Containers :=
  _ ← lift (dh "create network") new_network;
  _ ← owns [Network];
  _ ← startContainer postgres_request;
  trinoC ← startContainer trino_request;
  configPath ← writeJavaGatewayConfig;
  javaC ← startContainer (java_request configPath);
  javaURL ← containerBaseURL javaC "8080";
  trinoURL ← containerBaseURL trinoC "8080";
  _ ← registerBackend javaURL "trino-shared" "http://trino:8080";
  _ ← waitGatewayRoutable javaURL;
  mret (mkContainers javaURL trinoURL).

(** ** The readiness loop ends *)
Lemma wait_loop_ends fuel url t end_ w : end_ - t ≤ (Z.of_nat fuel - 1) * interval → (0 < fuel)%nat → ∃ r, fst (wait_loop fuel url t end_ w) = Some r.
Proof using Type.
  revert t w. induction fuel as [|fuel IH]; intros t w Hf Hpos; [lia|]. cbn [wait_loop].
  destruct (Z.ltb_spec t end_) as [Hlt|Hge]; cbn [negb]; [|by eexists]. destruct (negb _); [by eexists|].
  destruct (Do (probe_request url) w) as [r w1]. destruct (match r with COk _ => _ | CErr _ => _ end); [by eexists|].
  destruct (ctx_done w1) as [[|] w2]; [by eexists|]. apply IH; unfold interval, Second in *; lia.
Qed.

(** The probe gives a verdict after at most 91 turns: the fuel is never used up. *)
Theorem readiness_probe_ends url w : ∃ r, fst (wait_loop wait_fuel url 0 deadline w) = Some r.
Proof using Type. apply wait_loop_ends; unfold wait_fuel, deadline, interval; lia. Qed.

(** ** Nothing is left behind *)
Section cleanup.
Context (open : W → list resource).
Context (Hnet : makes open (λ _, [Network]) new_network) (Hcont : ∀ req, makes open (λ c, [Container c]) (generic_container req))
        (Hhost : ∀ c, quiet open (host_of c)) (Hport : ∀ c p, quiet open (mapped_port c p)) (Hconf : ∀ kv, quiet open (render_config kv))
        (HDo : ∀ o, quiet open (Do o)) (Hctx : quiet open ctx_done).

Lemma wait_loop_quiet fuel url t end_ : quiet open (wait_loop fuel url t end_).
Proof using HDo Hctx.
  intros w. revert t w. induction fuel as [|fuel IH]; intros t w; cbn [wait_loop]; [done|]. destruct (negb _); [done|]. destruct (negb _); [done|].
  pose proof (HDo (probe_request url) w) as H1. destruct (Do (probe_request url) w) as [r w1]. destruct (match r with COk _ => _ | CErr _ => _ end); [done|].
  pose proof (Hctx w1) as H2. destruct (ctx_done w1) as [[|] w2]; cbn in *; [by rewrite H2|]. by rewrite IH, H2.
Qed.
Lemma register_quiet o : quiet open (λ w, match Do o w with (COk r, w') => (Ok r, w') | (CErr e, w') => (Err (ce_msg e) : go_result response, w') end).
Proof using HDo. intros w. pose proof (HDo o w) as H1. by destruct (Do o w) as [[r|e] w1]. Qed.
#[local] Hint Resolve wait_loop_quiet register_quiet : tidy.

Lemma start_tidy req : holds open [] (startContainer req) (λ _, []).
Proof using Hcont. unfold startContainer. tidy. Qed.
Lemma base_url_tidy c port : holds open [] (containerBaseURL c port) (λ _, []).
Proof using Hhost Hport. unfold containerBaseURL. tidy. Qed.
Lemma config_tidy : holds open [] writeJavaGatewayConfig (λ _, []).
Proof using Hconf. unfold writeJavaGatewayConfig. tidy. Qed.
Lemma register_tidy g n b : holds open [] (registerBackend g n b) (λ _, []).
Proof using HDo. unfold registerBackend. tidy. Qed.
Lemma wait_tidy url : holds open [] (waitGatewayRoutable url) (λ _, []).
Proof using HDo Hctx. unfold waitGatewayRoutable. tidy. Qed.
#[local] Hint Resolve start_tidy base_url_tidy config_tidy register_tidy wait_tidy : tidy.

(** However far the boot comes, the test's cleanups are exactly the network and the
    containers that exist, the latest first. *)
Theorem bootstrap_tidy : holds open [] BootstrapContainers (λ _, []).
Proof using Hnet Hcont Hhost Hport Hconf HDo Hctx. unfold BootstrapContainers. tidy. Qed.
End cleanup.
End bootstrap.
