(* ===== verification/System.v ===== *)
(** * The gateway as one system

    The two listeners, the refresh of the monitor's backends, the health monitor and
    restarts, over one database: what [run] of cmd/trino-goway/main.go puts together. A
    run is a sequence of whole requests and rounds in any order; requests that overlap are
    represented by their order. The theorems are about every such run: where traffic can
    go, who decides that, and what a restart keeps. *)
From S2P Require Import Prelude GoStrings GoNumeric Json HttpModel Config Lru KillQuery RouterPb Routing Cookie Forward ClusterStats Monitor Auth AdminAuth Sql Persistence Store AdminApi StaticUI AdminServe Gateway TickLoops Wire TrinoFake Fleet Entry.

#[local] Open Scope Z_scope.

(** ** What the proxy can be relied on to do with a router

    If the router keeps an invariant and selects only URLs that satisfy [P], then so do all
    URLs the proxy sends requests to, caches or records. *)
Section vouched.
Context {S : Type} `{RouterOps S} {V : Type} (env : proxy_env V) (I : S → Prop) (P : string → Prop).

Class VouchingRouter : Prop := {
  vr_route req s : I s → I (snd (r_Route req s))
    ∧ match fst (r_Route req s) with Ok r => BackendURL r = "" ∨ P (BackendURL r) | Err _ => True end;
  vr_write q b s : I s → P b → I (snd (r_WriteCache q b s)) }.
Context `{!VouchingRouter}.

(** The upstream URL of a request at a backend. *)
Definition upstream_at (b : string) (r : request) (url : string) : Prop :=
  ∃ t, px_url_parse env b = Some t
    ∧ url = url_string (Url (url_scheme t) (url_opaque t) (url_user t) (url_host t) (url_path (req_url r)) (url_rawpath t)
              (url_rawquery (req_url r)) (url_forcequery t) (url_fragment t)).
Definition vouched_event (r : request) (e : event) : Prop :=
  match e with
  | EvUpstream up => ∃ b, P b ∧ upstream_at b r (or_url up)
  | EvCacheWrite _ b | EvHistoryInsert _ b _ _ => P b
  | _ => True
  end.

Definition vouches {A} (r : request) (m : Forward.P A) (Q : A → Prop) : Prop := ∀ s : proxy_state S V,
  I (ps_router s) → I (ps_router (snd (m s))) ∧ Q (fst (m s))
  ∧ ∃ es, ps_events (snd (m s)) = ps_events s ++ es ∧ Forall (vouched_event r) es.

Lemma vouches_ret {A} r (a : A) (Q : A → Prop) : Q a → vouches r (mret a) Q.
Proof. intros Hq s Hs. split_and!; [done|done|]. exists []. by rewrite app_nil_r. Qed.
Lemma vouches_bind {A B} r (m : Forward.P A) (f : A → Forward.P B) Q R :
  vouches r m Q → (∀ a, Q a → vouches r (f a) R) → vouches r (m ≫= f) R.
Proof.
  intros Hm Hf s Hs. destruct (Hm s Hs) as (H1 & H2 & es & He & Hes). unfold mbind, P_bind. destruct (m s) as [a s1]. cbn in *.
  destruct (Hf a H2 s1 H1) as (H3 & H4 & es' & He' & Hes'). split_and!; [done..|]. exists (es ++ es').
  split; [by rewrite He', He, app_assoc|by apply Forall_app].
Qed.
Lemma vouches_emit r e : vouched_event r e → vouches r (emit e) (λ _, True).
Proof. intros He s Hs. split_and!; [done..|]. exists [e]. by split; [|repeat constructor]. Qed.
Lemma vouches_lift {A} r (m : ST S A) (Q : A → Prop) : (∀ s, I s → I (snd (m s)) ∧ Q (fst (m s))) → vouches r (lift m) Q.
Proof.
  intros Hm s Hs. unfold lift. destruct (Hm _ Hs) as [? ?]. destruct (m (ps_router s)). split_and!; [done..|]. exists []. by rewrite app_nil_r.
Qed.
Lemma vouches_outside {A} r (m : ST V A) : vouches r (outside m) (λ _, True).
Proof. intros s Hs. unfold outside. destruct (m (ps_world s)). split_and!; [done..|]. exists []. by rewrite app_nil_r. Qed.
Lemma vouches_set_header r f : vouches r (set_header f) (λ _, True).
Proof. intros s Hs. split_and!; [done..|]. exists []. by cbn; rewrite app_nil_r. Qed.
Lemma vouches_respond r st cs b : vouches r (respond st cs b) (λ _, True).
Proof. intros s Hs. split_and!; [done..|]. eexists. split; [reflexivity|]. by repeat constructor. Qed.
Lemma vouches_metric r e : vouched_event r e → vouches r (metric env e) (λ _, True).
Proof. intros He. unfold metric. destruct (px_metrics env); [by apply vouches_emit|by apply vouches_ret]. Qed.

#[local] Hint Resolve vouches_outside vouches_set_header vouches_respond : core.
Ltac vouch :=
  repeat first
    [ solve [auto]
    | apply vouches_ret; done
    | apply vouches_emit; done
    | apply vouches_metric; done
    | apply (vouches_bind _ _ _ (λ _, True)); [|intros ? _]
    | match goal with |- vouches _ (match ?x with _ => _ end) _ => destruct x eqn:? end ].

Lemma vouches_error r msg code : vouches r (http_error msg code) (λ _, True).
Proof. unfold http_error. vouch. Qed.
#[local] Hint Resolve vouches_error : core.
Lemma vouches_finish r result resp body : vouches r (finish env r result resp body) (λ _, True).
Proof. unfold finish, recordRequest. vouch. Qed.
#[local] Hint Resolve vouches_finish : core.

Lemma vouches_route r input : vouches r (lift (r_Route input)) (λ x, match x with Ok r => BackendURL r = "" ∨ P (BackendURL r) | Err _ => True end).
Proof. apply vouches_lift. intros s. apply vr_route. Qed.
Lemma vouches_write r q b : P b → vouches r (write_cache q b) (λ _, True).
Proof.
  intros Hb. unfold write_cache. eapply vouches_bind; [by apply vouches_emit|]. intros _ _. apply vouches_lift. intros s Hs.
  split; [by apply vr_write|done].
Qed.
Lemma vouches_insert r q b u src : P b → vouches r (insert_history env q b u src) (λ _, True).
Proof. intros Hb. unfold insert_history. vouch. Qed.
#[local] Hint Resolve vouches_write vouches_insert : core.

Lemma vouches_upstream r result body up :
  P (BackendURL result) → buildUpstreamRequest env (BackendURL result) r body = Some up →
  vouches r (upstream env (OutRequest (or_method up) (or_url up) (injectHeaders (or_header up) r (ExternalHeaders result)) (or_body up))) (λ _, True).
Proof.
  intros Hb Hu. unfold upstream. eapply vouches_bind; [|intros; apply vouches_outside]. apply vouches_emit. exists (BackendURL result). split; [done|].
  unfold buildUpstreamRequest in Hu. destruct (px_url_parse env (BackendURL result)) as [t|] eqn:Et; [|done]. cbn in Hu.
  destruct (px_new_request_ok _ _ _); [|done]. injection Hu as <-. by exists t.
Qed.

Lemma vouches_statement_response r result resp : P (BackendURL result) → vouches r (statement_response env r result resp) (λ _, True).
Proof.
  intros Hb. unfold statement_response, recordUpstreamDuration, recordOversized, recordRequest, recordCacheWrite. vouch.
Qed.

Lemma vouches_serve r : vouches r (ServeHTTP env r) (λ _, True).
Proof.
  unfold ServeHTTP. destruct (negb _); [auto|]. destruct (_ && _).
  - unfold Forward.handleStatement, recordRequest. destruct (req_body r) as [body|e]; [|auto].
    eapply vouches_bind; [apply vouches_route|]. intros [result|e] Hr; [|vouch].
    destruct (BackendURL result =?s "") eqn:En; [vouch|]. apply seqb_neq in En. assert (P (BackendURL result)) as Hb by (by destruct Hr).
    destruct (if PropagateErrors _ then _ else _); [|vouch]. destruct (buildUpstreamRequest _ _ _ _) as [up|] eqn:Eb; [|vouch].
    eapply vouches_bind; [by eapply vouches_upstream|]. intros [resp|e] _; [by apply vouches_statement_response|vouch].
  - destruct (has_prefix _ _); [|auto].
    unfold handleStream, recordRequest, recordUpstreamDuration. eapply vouches_bind; [apply vouches_route|]. intros [result|e] Hr; [|vouch].
    destruct (BackendURL result =?s "") eqn:En; [vouch|]. apply seqb_neq in En. assert (P (BackendURL result)) as Hb by (by destruct Hr).
    destruct (buildUpstreamRequest _ _ _ _) as [up|] eqn:Eb; [|vouch].
    eapply vouches_bind; [by eapply vouches_upstream|]. intros [resp|e] _; vouch.
Qed.
End vouched.

(** ** The system *)
Section system.
Context {S X V W N K C : Type} `{StoreOps S} `{LRU C}.
(** The proxy: its configuration, its client, the clock of a request in the event. *)
Context (pcfg : ProxyConfig) (cookie : CookieConfig) (client_do : out_request → ST V (go_result response)) (metrics : bool)
  (url_parse : string → option url) (new_request_ok : string → string → bool) (more_methods : string → bool).
(** The router: external services, probes and their order. *)
Context (rcfg : RoutingConfig) (ext : Z → out_request → ST X (call_result response)) (probe_do : out_request → ST X (call_result response))
  (grpc : option (Z → RouteRequest → ST X (call_result RouteResponse))) (order : list ActiveBackend → list ActiveBackend).
(** The admin API: its environment at a time, the login's collaborators, the embedded UI. *)
Context (aenv : Z → api_env) (ParseWithClaims : K → string → option (gmap string json))
  (Do : out_request → ST W (call_result response)) (wl : option (OIDCWebLogin (K := K)))
  (draws : request → option string * option string) (UIFS : option (string → option ui_file))
  (ServeContent : request → string → string → reply) (metrics_handler : request → reply) (metrics_path : option string).
(** The monitor's collaborators. *)
Context (has_observer has_stats has_first_tick : bool).

#[local] Abbreviation rstate := (router_state C (S * X)).
#[local] Abbreviation svc := (router_services (S := S) (X := X) new_request_ok ext probe_do grpc order).
#[local] Instance sys_router : RouterOps rstate := Router_ops svc rcfg.

(** The authentication middleware, once for each listener. *)
Context (mwp : Middleware (proxy_state rstate V)) (mwa : Middleware (admin_state S * W)).

(** The proxy's environment. The history's error is only logged, and nothing after the
    record of a query reads the database; the record itself is written below. *)
Definition penv (now : Z) : proxy_env V :=
  mkProxyEnv _ pcfg cookie client_do (Some (λ _ _ _ _ v, (None, v))) metrics url_parse new_request_ok now more_methods.

Record sys : Type := mkSys {
  y_store : S; y_cache : C; y_rmetrics : list metric_event; y_x : X; y_v : V; y_w : W; y_n : N;
  y_mon : Monitor; y_stats : gmap string ClusterStats; y_ready : bool }.

(** The records a request writes, in order. *)
Definition insert_of (e : event) : option (string * string * string * string) :=
  match e with EvHistoryInsert q b u src => Some (q, b, u, src) | _ => None end.
Definition inserts_of (es : list event) : list (string * string * string * string) := omap insert_of es.

Definition client_request (now : Z) (r : request) (y : sys) : (reply * list event) * sys :=
  let ps := mkProxyState (mkRouterState (y_cache y) (y_store y, y_x y) (y_rmetrics y)) (y_v y) ∅ [] in
  let '((rep, _), ps') := setupRoutes (penv now) (Some mwp) None r ps in
  let rs := ps_router ps' in
  let '(_, st) := record_all (inserts_of (ps_events ps')) (rs_world rs).1 in
  ((rep, ps_events ps'),
   mkSys st (rs_cache rs) (rs_metrics rs) (rs_world rs).2 (ps_world ps') (y_w y) (y_n y) (y_mon y) (y_stats y) (y_ready y)).

Definition admin_request (t : Z) (reg : registration) (r : request) (y : sys) : reply * sys :=
  let env := aenv t in
  let run := handle env ParseWithClaims new_request_ok Do wl draws UIFS ServeContent metrics_handler in
  let '((rep, _), (a, w)) := serve (en_match env) (Authorization (en_auth env)) (Some mwa) run reg None r
                               (mkAdmin (y_store y) (y_mon y) (y_stats y) (y_ready y), y_w y) in
  (rep, mkSys (ad_store a) (y_cache y) (y_rmetrics y) (y_x y) (y_v y) w (y_n y) (ad_monitor a) (ad_stats a) (ad_ready a)).

Definition backend_refresh (y : sys) : sys :=
  let '(_, s) := refreshBackends has_observer (mkRefresh (y_store y) (y_mon y) []) in
  mkSys (rf_store s) (y_cache y) (y_rmetrics y) (y_x y) (y_v y) (y_w y) (y_n y) (rf_mon s) (y_stats y) (y_ready y).

Definition health_round (a : round_answers (N := N)) (y : sys) : sys :=
  let '(m, n) := monitor_round has_observer has_stats has_first_tick a (y_mon y, y_n y) in
  mkSys (y_store y) (y_cache y) (y_rmetrics y) (y_x y) (y_v y) (y_w y) n m (y_stats y) (y_ready y).

(** A new process on the same database: an empty cache, a new monitor. *)
Definition restart (c : C) (y : sys) : sys :=
  mkSys (y_store y) c [] (y_x y) (y_v y) (y_w y) (y_n y) New ∅ false.

Inductive label : Type :=
| Client (now : Z) (r : request) (answer : reply) (es : list event)
| Admin (t : Z) (reg : registration) (r : request) (answer : reply)
| Refresh | Health (a : round_answers (N := N)) | Restart.

Inductive sys_step : sys → label → sys → Prop :=
| y_client now r y answer es y' : client_request now r y = ((answer, es), y') → sys_step y (Client now r answer es) y'
| y_admin t reg r y answer y' : reg ∈ buildRouter metrics_path → admin_request t reg r y = (answer, y') →
    sys_step y (Admin t reg r answer) y'
| y_refresh y : sys_step y Refresh (backend_refresh y)
| y_health a y : sys_step y (Health a) (health_round a y)
| y_restart y n c : lru_new n = Some c → sys_step y Restart (restart c y).

Lemma client_step now r y : let x := client_request now r y in sys_step y (Client now r x.1.1 x.1.2) x.2.
Proof. intros x. apply y_client. fold x. by destruct x as [[? ?] ?]. Qed.
Lemma admin_step t reg r y : reg ∈ buildRouter metrics_path → let x := admin_request t reg r y in sys_step y (Admin t reg r x.1) x.2.
Proof. intros Hreg x. apply y_admin; [done|]. fold x. by destruct x. Qed.

Inductive sys_run (y0 : sys) : list label → sys → Prop :=
| run_start : sys_run y0 [] y0
| run_step tr y l y' : sys_run y0 tr y → sys_step y l y' → sys_run y0 (tr ++ [l]) y'.

(** ** Which URLs are known *)
Context (who : request → option Principal).

(** A request the admin listener takes from an operator: its principal holds the role of
    the route. *)
Definition from_operator (t : Z) (reg : registration) (r : request) : Prop :=
  ∃ pr role, who r = Some pr ∧ reg_access reg = WithRole role ∧ role ∈ [RoleAPI; RoleAdmin]
    ∧ HasRole (en_match (aenv t)) (Some pr) role (Authorization (en_auth (aenv t))) = true.
(** An operator has posted a backend with this URL. *)
Definition registered (tr : list label) (u : string) : Prop :=
  ∃ t reg r answer pb, Admin t reg r answer ∈ tr ∧ from_operator t reg r ∧ decode_proxy r = Some pb ∧ u = pb_ProxyTo pb.
Definition known (st0 : store) (tr : list label) (u : string) : Prop :=
  u ∈ b_URL <$> st_backends st0 ∨ u ∈ q_BackendURL <$> st_history st0 ∨ registered tr u.

Context (rep : S → store → Prop) (up dates : Prop) (round : Z → Z) `{!StoreSpec S rep up dates round}.
Context (Horder : ∀ l, order l ≡ₚ l) `{!Authenticates mwp who} `{!Authenticates mwa who}.

(** The database, the history and the cache name only URLs that satisfy [P]. *)
Definition store_knows (P : string → Prop) (st : store) : Prop :=
  Forall (λ b, P (b_URL b)) (st_backends st) ∧ Forall (λ q, P (q_BackendURL q)) (st_history st).
Definition sys_knows (P : string → Prop) (st : store) (y : sys) : Prop :=
  rep (y_store y) st ∧ store_knows P st ∧ Forall (λ e, P (snd e)) (lru_items (y_cache y)).
Definition router_knows (st : store) (P : string → Prop) (s : rstate) : Prop :=
  rep (rs_world s).1 st ∧ store_knows P st ∧ cache_good P s.

Lemma sys_knows_mono P Q st y : (∀ u, P u → Q u) → sys_knows P st y → sys_knows Q st y.
Proof. intros Hpq (Hr & [Hb Hh] & Hc). split_and!; [done|split|]; eapply Forall_impl; eauto. Qed.

Lemma router_world {A} st (m : ST (S * X) A) (P : string → Prop) (Q : A → Prop) :
  (∀ w, rep w.1 st → store_knows P st → rep (m w).2.1 st ∧ Q (m w).1) → triple (router_knows st P) (world m) Q.
Proof.
  intros Hm s (Hr & Hk & Hc). unfold world. destruct (Hm (rs_world s) Hr Hk) as [Hr' Hq]. by destruct (m (rs_world s)) as [a w].
Qed.
Lemma router_right {A} st (m : ST X A) P : triple (router_knows st P) (world (in_right m)) (λ _, True).
Proof. apply router_world. intros [a x] Hr _. cbn in *. by destruct (m x). Qed.

Lemma sys_picks st P : picks_ok svc P (router_knows st P).
Proof using Horder StoreSpec0.
  split; [by intros e s Hs| |intros; apply router_right|intros; apply router_right| |exact Horder].
  - apply router_world. intros [a x] Hr [Hk _]. cbn [list_active router_services]. unfold in_left, activeBackendAdapter_ListActive, mbind, ST_bind.
    cbn in Hr. pose proof (spec_ListActive (rep := rep) a st Hr) as Hl. destruct (so_ListActive a) as [[bs|e] a']; cbn in *; [|by split; [apply Hl|]].
    destruct Hl as [Hl Hr']. split; [done|]. apply Forall_fmap, Forall_forall. intros b Hb. rewrite Hl in Hb.
    apply list_elem_of_In, filter_In in Hb as [Hb _]. apply list_elem_of_In in Hb. rewrite Forall_forall in Hk. by apply Hk.
  - intros call t r Hc. cbn in Hc. destruct grpc as [g|]; [|done]. injection Hc as <-. apply router_right.
Qed.

Lemma sys_recovers st P : recovers_ok svc P (router_knows st P).
Proof using StoreSpec0.
  split.
  - intros q. apply router_world. intros [a x] Hr [_ Hk]. cbn [lookup_by_query_id router_services]. unfold in_left, history_lookup, mbind, ST_bind.
    cbn in Hr. pose proof (spec_LookupByQueryID (rep := rep) q a st Hr) as Hl. destruct (so_LookupByQueryID q a) as [[u|e] a']; cbn in *; destruct Hl as [Hl Hr'];
      (split; [done|]); [|by left]. subst u. destruct (find_first _ _) as [rec|] eqn:E; cbn; [right|by left].
    apply find_first_Some in E as [Hin _]. rewrite Forall_forall in Hk. by apply Hk.
  - intros k s (Hr & Hk & Hc). destruct (triple_cacheGet P k s Hc) as [Hc' Hq]. split; [|done]. split_and!; [|done..].
    unfold cacheGet in *. by destruct (cache_get k (rs_cache s)).
Qed.

#[local] Instance sys_vouching st P : VouchingRouter (S := rstate) (router_knows st P) P.
Proof using Horder StoreSpec0.
  split.
  - intros req s Hs. cbn. destruct (Route_url svc rcfg P _ (sys_picks st P) (sys_recovers st P) req s Hs) as [H1 H2].
    destruct (Route svc rcfg req s) as [r s']. by split.
  - intros q b s (Hr & Hk & Hc) Hb. split_and!; [done..|]. unfold cache_good. cbn. unfold cache_set. rewrite lru_add_items. apply Forall_take.
    constructor; [done|by apply drop_key_Forall].
Qed.

(** ** What a step does to the database *)
Lemma insert_any q b u src s st : rep s st →
  ∃ st', rep (historyAdapter_Insert q b u src s).2 st' ∧ (st' = st ∨ ∃ x, st' = st_insert (kept round (recorded q b x u src)) st).
Proof using StoreSpec0.
  intros Hr. unfold historyAdapter_Insert, mbind, ST_bind.
  pose proof (spec_LookupExternalURL (rep := rep) b s st Hr) as Hl. destruct (so_LookupExternalURL b s) as [r s1].
  assert (rep s1 st) as Hr1 by (destruct r; apply Hl). set (x := match r with Ok u => u | Err _ => b end).
  pose proof (spec_Insert (rep := rep) (recorded q b x u src) s1 st Hr1) as Hi. cbn beta in Hi.
  destruct (so_Insert _ s1) as [[[[]|e] m] s2]; cbn; [by eauto|]. exists st. split; [apply Hi|by left].
Qed.

(** The first record of a query stays the first. *)
Definition keeps_records (st st' : store) : Prop :=
  ∀ q rec, find_first (has_id q) (st_history st) = Some rec → find_first (has_id q) (st_history st') = Some rec.

Lemma insert_keeps_records q b x u src st : keeps_records st (st_insert (kept round (recorded q b x u src)) st).
Proof using Type.
  intros i rec Hi. cbn. destruct (existsb _ _); [done|]. by rewrite find_first_app, Hi.
Qed.

Lemma record_all_effect P qs s st : rep s st → store_knows P st → Forall (λ x, P x.1.1.2) qs →
  ∃ st', rep (record_all qs s).2 st' ∧ store_knows P st' ∧ keeps_records st st'.
Proof using StoreSpec0.
  revert s st. induction qs as [|[[[q b] u] src] qs IH]; intros s st Hr Hk Hqs; [exists st; split_and!; [done..|by intros q rec]|].
  apply Forall_cons in Hqs as [Hb Hqs]. cbn [record_all]. unfold mbind, ST_bind. destruct (insert_any q b u src s st Hr) as (st1 & Hr1 & Hc).
  destruct (historyAdapter_Insert q b u src s) as [res s1]. cbn in Hr1, Hb.
  assert (store_knows P st1 ∧ keeps_records st st1) as [Hk1 Hkr].
  { destruct Hc as [->|[x ->]]; [split; [done|by intros i rec]|]. split; [|apply insert_keeps_records]. destruct Hk as [Hk1 Hk2]. split; [done|]. cbn.
    destruct (existsb _ _); [done|]. apply Forall_app. split; [done|]. by repeat constructor. }
  destruct (IH s1 st1 Hr1 Hk1 Hqs) as (st2 & H2 & H3 & H4). exists st2. split_and!; [done..|]. intros i rec Hi. by apply H4, Hkr.
Qed.

Lemma inserts_vouched env P r es : Forall (vouched_event (V := V) env P r) es → Forall (λ x, P x.1.1.2) (inserts_of es).
Proof using Type. induction 1 as [|e es He _ IH]; [done|]. unfold inserts_of. cbn. destruct e; cbn; try done. by constructor. Qed.

(** A request of a client: nothing but a denial unless it is authenticated; otherwise every
    URL that is used is known, and stays so. *)
Lemma client_effect P now r y answer es y' st :
  client_request now r y = ((answer, es), y') → sys_knows P st y →
  (es ≠ [] → who r ≠ None) ∧ Forall (vouched_event (penv now) P r) es
  ∧ ∃ st', sys_knows P st' y' ∧ keeps_records st st'.
Proof using All.
  unfold client_request. set (ps := mkProxyState _ _ ∅ []). intros Hreq (Hr & Hk & Hc).
  assert (HI : router_knows st P (ps_router ps)) by done.
  unfold setupRoutes in Hreq. destruct (who r) as [pr|] eqn:Ew.
  - destruct (auth_runs (proxy_routes (penv now)) None r pr ps Ew) as [ty Ha]. rewrite Ha in Hreq.
    unfold count, proxy_routes, mbind, ST_bind, mret, ST_ret in Hreq.
    destruct (vouches_serve (penv now) (router_knows st P) P r ps HI) as ((Hr1 & _ & Hc1) & _ & es0 & He & Hv).
    destruct (ServeHTTP (penv now) r ps) as [u ps']. cbn in *. subst es0.
    destruct (record_all_effect P (inserts_of (ps_events ps')) (rs_world (ps_router ps')).1 st Hr1 Hk) as (st' & Hr' & Hk' & Hkr);
      [by eapply inserts_vouched|].
    destruct (record_all _ _) as [v s2]. injection Hreq as <- <- <-. cbn in *. split_and!; [done|done|]. by exists st'.
  - destruct (auth_denies (proxy_routes (penv now)) None r ps Ew) as (ty & msg & Ha). rewrite Ha in Hreq. cbn in Hreq.
    injection Hreq as <- <- <-. cbn. split_and!; [done|constructor|]. exists st. split; [done|by intros q rec].
Qed.

(** A request to the admin listener: the database is as it was, or an operator's request
    has changed it, and the only new URL is the one its body names. *)
Lemma admin_effect P t reg r y answer y' st :
  admin_request t reg r y = (answer, y') → reg ∈ buildRouter metrics_path → rep (y_store y) st → store_knows P st →
  y_cache y' = y_cache y ∧ ∃ st', rep (y_store y') st' ∧ keeps_records st st'
  ∧ store_knows (λ u, P u ∨ from_operator t reg r ∧ ∃ pb, decode_proxy r = Some pb ∧ u = pb_ProxyTo pb) st'.
Proof using All.
  unfold admin_request. intros Hreq Hreg Hr Hk.
  set (a := mkAdmin (y_store y) (y_mon y) (y_stats y) (y_ready y)) in *.
  pose proof (serve_effect rep up dates round (aenv t) ParseWithClaims new_request_ok Do wl draws UIFS ServeContent metrics_handler
    mwa who metrics_path reg r a (y_w y) st Hreg Hr) as He. cbv zeta in He. clear Hreg.
  destruct (serve _ _ _ _ reg None r (a, y_w y)) as [[rep0 evs] [a' w']]. injection Hreq as <- <-. cbn in *. split; [done|].
  destruct He as [He|(pr & role & st' & Hw & Hacc & Hrole & Hhas & Hch & Hh & He)].
  - exists st. split_and!; [done|by intros q rec|]. destruct Hk. split; eapply Forall_impl; eauto.
  - exists st'. split_and!; [done|intros q rec; by rewrite Hh|]. destruct Hk as [Hb Hq].
    split; [|rewrite Hh; eapply Forall_impl; eauto].
    apply Forall_forall. intros b Hin. rewrite Forall_forall in Hb.
    enough ((∃ b0, b0 ∈ st_backends st ∧ b_URL b = b_URL b0) ∨ ∃ pb, decode_proxy r = Some pb ∧ b_URL b = pb_ProxyTo pb) as [(b0 & H1 & ->)|Hpb];
      [left; by apply Hb|right; split; [by exists pr, role|done]|].
    destruct Hch as [pb st Hpb|n st|n act st]; cbn in Hin.
    + destruct (existsb _ _).
      * apply list_elem_of_fmap in Hin as (b0 & -> & Hb0). destruct (_ =?s b_Name b0); [right; by exists pb|left; by exists b0].
      * apply elem_of_app in Hin as [Hin| ->%list_elem_of_singleton]; [left; by exists b|right; by exists pb].
    + apply list_elem_of_In, filter_In in Hin as [Hin%list_elem_of_In _]. left. by exists b.
    + apply list_elem_of_fmap in Hin as (b0 & -> & Hb0). left. exists b0. by destruct (has_name n b0).
Qed.

(** ** The invariant of every run *)
Lemma step_knows P y l y' st : sys_step y l y' → sys_knows P st y →
  ∃ st', sys_knows (λ u, P u ∨ registered [l] u) st' y' ∧ keeps_records st st'.
Proof using All.
  intros Hs HK. pose proof HK as (Hr & Hk & Hc).
  assert (Hsame : ∀ y2, rep (y_store y2) st → (∀ e, e ∈ lru_items (y_cache y2) → P (snd e)) →
    ∃ st', sys_knows (λ u, P u ∨ registered [l] u) st' y2 ∧ keeps_records st st').
  { intros y2 Hr2 Hc2. exists st. split; [|by intros q rec]. apply (sys_knows_mono P); [by left|]. split_and!; [done..|by apply Forall_forall]. }
  rewrite Forall_forall in Hc. destruct Hs as [now r y answer es y' Hq|t reg r y answer y' Hreg Hq|y|a y|y n c Hn].
  - destruct (client_effect P now r y answer es y' st Hq HK) as (_ & _ & st' & H1 & H2).
    exists st'. split; [|done]. eapply sys_knows_mono; [|exact H1]. by left.
  - destruct (admin_effect P t reg r y answer y' st Hq Hreg Hr Hk) as (Hcache & st' & Hr' & Hkr & Hk'). exists st'. split; [|done].
    split_and!; [done| |rewrite Hcache; apply Forall_forall; intros; left; by apply Hc].
    assert (Hmono : ∀ u, P u ∨ from_operator t reg r ∧ (∃ pb, decode_proxy r = Some pb ∧ u = pb_ProxyTo pb) → P u ∨ registered [Admin t reg r answer] u).
    { intros u [Hu|(Hop & pb & Hpb & Hu)]; [by left|right]. exists t, reg, r, answer, pb. split_and!; try done. by apply list_elem_of_singleton. }
    destruct Hk' as [H1 H2]. split; eapply Forall_impl; eauto.
  - apply Hsame; unfold backend_refresh, refreshBackends; pose proof (spec_ListActive (rep := rep) (y_store y) st Hr) as Hl; cbn [rf_store].
    + destruct (so_ListActive (y_store y)) as [[bs|e] s']; apply Hl.
    + by destruct (so_ListActive (y_store y)) as [[bs|e] s'].
  - apply Hsame; unfold health_round; by destruct (monitor_round _ _ _ _ _) as [mm nn].
  - apply Hsame; [done|]. pose proof (lru_new_spec n) as Hnew. rewrite Hn in Hnew. destruct Hnew as (_ & _ & Hi). cbn. rewrite Hi.
    by intros e ?%elem_of_nil.
Qed.

Lemma registered_app tr tr' u : registered (tr ++ tr') u ↔ registered tr u ∨ registered tr' u.
Proof using Type.
  unfold registered. split.
  - intros (t & reg & r & answer & pb & Hin & Hrest). apply elem_of_app in Hin as [Hin|Hin]; [left|right]; by exists t, reg, r, answer, pb.
  - intros [(t & reg & r & answer & pb & Hin & Hrest)|(t & reg & r & answer & pb & Hin & Hrest)]; exists t, reg, r, answer, pb;
      (split; [apply elem_of_app; auto|done]).
Qed.

Lemma run_knows y0 st0 tr y : sys_run y0 tr y → rep (y_store y0) st0 → lru_items (y_cache y0) = [] →
  ∃ st, sys_knows (known st0 tr) st y ∧ keeps_records st0 st.
Proof using All.
  intros Hrun Hr Hc. induction Hrun as [|tr y l y' Hrun (st & IH & Hkr) Hs].
  - exists st0. split; [|by intros q rec]. split_and!; [done| |by rewrite Hc].
    split; apply Forall_forall; intros x Hx; [left|right; left]; by apply list_elem_of_fmap_2.
  - destruct (step_knows _ y l y' st Hs IH) as (st' & HK & Hkr'). exists st'. split; [|intros q rec Hq; by apply Hkr', Hkr].
    eapply sys_knows_mono; [|exact HK]. unfold known. setoid_rewrite registered_app. tauto.
Qed.

Lemma run_split y0 tr1 l tr2 y : sys_run y0 (tr1 ++ l :: tr2) y → ∃ y1 y2, sys_run y0 tr1 y1 ∧ sys_step y1 l y2.
Proof using Type.
  remember (tr1 ++ l :: tr2) as tr eqn:Htr. intros Hrun. revert tr2 Htr. induction Hrun as [|tr y l' y' Hrun IH Hs]; intros tr2 Htr.
  - symmetry in Htr. by apply app_nil in Htr as [_ ?].
  - destruct tr2 as [|l2 tr2 _] using rev_ind.
    + apply app_inj_tail in Htr as [-> ->]. by exists y, y'.
    + rewrite app_comm_cons, app_assoc in Htr. apply app_inj_tail in Htr as [-> _]. by eapply IH.
Qed.

(** C3: In every run of the gateway, whatever clients, operators, backends and routing
    services do and however often the process restarts, a request that leaves for a
    backend was sent by an authenticated client, and goes to a URL that was in the
    database at the start or that an operator has registered before: a request on the
    admin listener whose principal holds the role of its route named it. *)
Theorem traffic_only_to_registered y0 st0 tr y tr1 now r answer es tr2 out :
  rep (y_store y0) st0 → lru_items (y_cache y0) = [] → sys_run y0 tr y →
  tr = tr1 ++ Client now r answer es :: tr2 → EvUpstream out ∈ es →
  who r ≠ None ∧ ∃ u, known st0 tr1 u ∧ upstream_at (penv now) u r (or_url out).
Proof using All.
  intros Hr Hc Hrun -> Hin. destruct (run_split _ _ _ _ _ Hrun) as (y1 & y2 & Hrun1 & Hs).
  destruct (run_knows y0 st0 tr1 y1 Hrun1 Hr Hc) as (st & HK & _). inversion Hs; subst.
  destruct (client_effect (known st0 tr1) now r y1 answer es y2 st) as (Hw & Hv & _); [done..|].
  split; [apply Hw; intros ->; by apply elem_of_nil in Hin|]. rewrite Forall_forall in Hv. by apply (Hv _ Hin).
Qed.

(** ** After a restart *)
Definition in_group (g : string) (b : Persistence.Backend) : bool := b_Active b && (b_RoutingGroup b =?s g).

Definition at_store (st : store) (s : rstate) : Prop := rep (rs_world s).1 st.

Lemma at_left {A} st (m : ST S A) (Q : A → Prop) : (∀ a, rep a st → rep (m a).2 st ∧ Q (m a).1) → triple (at_store st) (world (in_left m)) Q.
Proof using Type. intros Hm s Hs. unfold world, in_left, at_store in *. destruct (rs_world s) as [a x]. cbn in *. specialize (Hm a Hs). by destruct (m a). Qed.

Lemma list_active_at st : up → triple (at_store st) (world (list_active svc)) (λ r, ∃ bs, r = Ok (active_of <$> bs) ∧ bs ≡ₚ List.filter b_Active (st_backends st)).
Proof using StoreSpec0.
  intros Hup. apply at_left. intros a Hr. unfold activeBackendAdapter_ListActive, mbind, ST_bind. pose proof (spec_ListActive (rep := rep) a st Hr) as Hl.
  destruct (so_ListActive a) as [[bs|e] a']; [|by destruct Hl]. destruct Hl as [Hl Hr']. split; [done|]. by exists bs.
Qed.

(** The group names an active backend, or none. *)
Lemma resolve_at st g : up → triple (at_store st) (resolveGroup svc g) (λ r, ∃ u, r = Ok u
  ∧ if existsb (in_group g) (st_backends st) then ∃ b, b ∈ st_backends st ∧ in_group g b = true ∧ u = b_URL b else u = "").
Proof using StoreSpec0.
  intros Hup. unfold resolveGroup. eapply triple_bind; [by apply list_active_at|]. intros r (bs & -> & Hbs). apply triple_ret. eexists. split; [done|].
  destruct (find_first _ _) as [ab|] eqn:E.
  - apply find_first_Some in E as [Hin Hg]. apply list_elem_of_fmap in Hin as (b & -> & Hb). cbn in Hg. rewrite Hbs in Hb.
    apply list_elem_of_In, filter_In in Hb as [Hb Ha]. assert (in_group g b = true) as Hin by (unfold in_group; by rewrite Ha, Hg).
    rewrite (proj2 (existsb_exists _ _)); [|by exists b]. apply list_elem_of_In in Hb. by exists b.
  - apply find_first_None in E. destruct (existsb _ _) eqn:Ex; [|done]. apply existsb_exists in Ex as (b & Hb & Hg). exfalso.
    unfold in_group in Hg. apply andb_prop in Hg as [Ha Hg]. rewrite Forall_fmap, Forall_forall in E. specialize (E b). cbn in E. rewrite Hg in E.
    cut (true = false); [done|]. apply E. rewrite Hbs. apply list_elem_of_In, filter_In. done.
Qed.

Lemma recover_at st q rec : up → find_first (has_id q) (st_history st) = Some rec → q_BackendURL rec ≠ "" →
  triple (at_store st) (recoverBackend svc q) (λ u, u = q_BackendURL rec).
Proof using StoreSpec0.
  intros Hup Hf Hne. unfold recoverBackend. eapply triple_bind with (P := λ x, fst x = q_BackendURL rec).
  - apply at_left. intros a Hr. unfold history_lookup, mbind, ST_bind. pose proof (spec_LookupByQueryID (rep := rep) q a st Hr) as Hl.
    destruct (so_LookupByQueryID q a) as [[u|e] a']; [|by destruct Hl]. destruct Hl as [-> Hr']. cbn. by rewrite Hf.
  - intros [u e] Hu. cbn in Hu. subst u. apply seqb_neq in Hne as ->. cbn [negb]. eapply triple_bind with (P := λ _, True); [by intros s Hs|].
    intros _ _. by apply triple_ret.
Qed.

(** Where a poll for a recorded query can go when the cache does not have it. *)
Definition poll_target (st : store) (g : string) (rec : QueryRecord) (u : string) : Prop :=
  if existsb (in_group g) (st_backends st) then ∃ b, b ∈ st_backends st ∧ in_group g b = true ∧ u = b_URL b
  else u = q_BackendURL rec.

Lemma external_at st q rec req : up → find_first (has_id q) (st_history st) = Some rec → q_BackendURL rec ≠ "" →
  grpc = None → ext_URL (External rcfg) = "" → extractQueryID req = q → q ≠ "" → (∀ b, b ∈ st_backends st → b_URL b ≠ "") →
  triple (at_store st) (route_external svc rcfg req) (λ r, poll_target st (DefaultGroup rcfg) rec (BackendURL r)).
Proof using StoreSpec0.
  intros Hup Hf Hne Hg Hx Hqid Hq Hurl. unfold route_external. eapply triple_bind with (P := λ x, x.1.1.1 = "").
  { unfold callExternal. cbn [grpc_route router_services]. rewrite Hg. cbn. unfold call_http, http_selectGroup. rewrite Hx. by intros s Hs. }
  intros [[[grp hs] errs] e] Hgrp. cbn in Hgrp. subst grp. rewrite seqb_refl.
  eapply triple_bind; [by apply resolve_at|]. intros res (u & -> & Hu). unfold poll_target. destruct (existsb _ _).
  - destruct Hu as (b & Hb & Hin & ->). pose proof (Hurl b Hb) as Hb'. apply seqb_neq in Hb' as ->. apply triple_ret. cbn. by exists b.
  - subst u. rewrite seqb_refl. cbn [negb]. unfold recover_or_first. rewrite Hqid. apply seqb_neq in Hq as Hq'. rewrite Hq'.
    eapply triple_bind; [by apply (recover_at st q rec)|]. intros u ->. apply seqb_neq in Hne as ->. by apply triple_ret.
Qed.

Lemma miss_at st q rec rest req c s x :
  rep s st → up → find_first (has_id q) (st_history st) = Some rec → q_BackendURL rec ≠ "" →
  grpc = None → ext_URL (External rcfg) = "" → lru_items c = [] →
  q ≠ "" → str_forallb id_byte q = true → match rest with String c _ => id_byte c = false | "" => True end →
  RequestURI req = queryPrefix +:+ q +:+ rest → extractKillQueryID (Routing.Body req) = "" →
  (∀ b, b ∈ st_backends st → b_URL b ≠ "") →
  poll_target st (DefaultGroup rcfg) rec (BackendURL (Route svc rcfg req (mkRouterState c (s, x) [])).1).
Proof using StoreSpec0.
  intros Hr Hup Hf Hne Hg Hx Hc Hq Hid Hrest Hu Hk Hurl.
  pose proof (extractQueryID_path req q rest Hq Hid Hrest Hu) as Hqid.
  unfold Route, route_kill, route_cached, cacheGet, mbind, R_bind. rewrite Hk, seqb_refl. cbn [mret R_ret].
  rewrite Hqid. apply seqb_neq in Hq as Hq'. rewrite Hq'. cbn [rs_cache].
  pose proof (lru_get_res q c) as Hget. unfold cache_get. destruct (lru_get q c) as [v c']. cbn in Hget. rewrite Hc in Hget. subst v.
  by apply (external_at st q rec).
Qed.

(** C9: The history outlives the process: once a query is recorded, then after any run of the
    gateway and a restart its record is still the first one. A poll for it is then sent to
    the recorded backend if the default group has no active backend, and otherwise to an
    active backend of the default group, whatever the record says. *)
Theorem poll_after_restart y0 st0 tr y n c q rec rest req :
  rep (y_store y0) st0 → find_first (has_id q) (st_history st0) = Some rec → q_BackendURL rec ≠ "" →
  sys_run y0 tr y → lru_new n = Some c → up → grpc = None → ext_URL (External rcfg) = "" →
  q ≠ "" → str_forallb id_byte q = true → match rest with String c _ => id_byte c = false | "" => True end →
  RequestURI req = queryPrefix +:+ q +:+ rest → extractKillQueryID (Routing.Body req) = "" →
  let y' := restart c y in
  ∃ st, rep (y_store y') st ∧ find_first (has_id q) (st_history st) = Some rec
  ∧ ((∀ b, b ∈ st_backends st → b_URL b ≠ "") →
     poll_target st (DefaultGroup rcfg) rec
       (BackendURL (Route svc rcfg req (mkRouterState (y_cache y') (y_store y', y_x y') (y_rmetrics y'))).1)).
Proof using All.
  intros Hr Hf Hne Hrun Hn Hup Hg Hx Hq Hid Hrest Hu Hk. cbn [restart y_store y_cache y_x y_rmetrics].
  assert (∃ st, sys_knows (λ _, True) st y ∧ keeps_records st0 st) as (st & (Hr' & _) & Hkr).
  { clear -Hrun Hr StoreSpec0 Authenticates0 Authenticates1 Horder. induction Hrun as [|tr y l y' Hrun (st & IH & Hkr) Hs].
    - exists st0. split; [|by intros q rec]. split_and!; [done|split|]; by apply Forall_forall.
    - destruct (step_knows _ y l y' st Hs IH) as (st' & HK & Hkr'). exists st'. split; [|intros q rec Hq; by apply Hkr', Hkr].
      by eapply sys_knows_mono; [|exact HK]. }
  exists st. split_and!; [done|by apply Hkr|]. intros Hurl. pose proof (lru_new_spec n) as Hnew. rewrite Hn in Hnew. destruct Hnew as (_ & _ & Hi).
  eapply miss_at; eauto.
Qed.
End system.

(** ** Witnesses: PostgreSQL with the backends b1 (adhoc, active) and b2 (etl, inactive) *)
Module SystemDemo.
Import StoreDemo.
Definition pg : engine := eng "postgres".
#[export] Instance pg_ops : StoreOps database := dao_ops pg.
#[export] Instance pg_spec : StoreSpec database dao_rep (dao_up pg) (dao_dates pg) id := dao_spec pg (or_introl eq_refl).
Definition pcfg : ProxyConfig := mkProxyConfig 8080 1048576 0 true.
Definition cookie : CookieConfig := mkCookieConfig "" 0 true.
Definition answers (_ : out_request) (v : unit) : go_result response * unit := (Ok w_answer, v).
Definition no_call (_ : out_request) (x : unit) : call_result response * unit := (CErr (mkCallError "down" false), x).
Definition who (_ : request) : option Principal := Some (mkPrincipal "anonymous" "").
Definition rcfg (group : string) : RoutingConfig := mkRoutingConfig group "" (mkExternalConfig "" "" 0 []).
(** Every principal has the API role. *)
Definition aenv (_ : Z) : api_env :=
  mkApiEnv (mkAuthConfig "NOOP" AdminAuth.Demo.cfg (mkLDAPConfig "" "" "" "" "") (mkAuthorizationConfig "" "" ".*" ∅))
    (λ p s, Some ((p =?s ".*") || (p =?s s))) (λ r _, url_path (req_url r)) id (λ _, "0") true true false [] 0 500000000000.
Definition start : sys := mkSys db (ListLru 4096 []) [] tt tt tt tt New ∅ true.

(** An operator adds the backend b3 of group new. *)
Definition add : registration := mkReg "POST" "/gateway/backend/modify/add" (WithRole RoleAPI) h_addBackend.
Definition add_b3 : request := ApiDemo.post "" (print_json (proxy_json (mkProxyBackend "b3" "http://b3:8080" "" true "new"))).

#[local] Abbreviation adds := (admin_request (λ _ _, true) aenv AdminAuth.Demo.verify AdminAuth.Demo.Do None (λ _, (None, None)) None
  (λ _ _ _, NotFound) (λ _, NotFound) Noop 0 add add_b3 start).
#[local] Abbreviation asks := (client_request pcfg cookie answers true parse_http (λ _ _, true) (λ _, false) (rcfg "new")
  (λ _, no_call) no_call None id Noop 0 w_post adds.2).
#[local] Abbreviation runs group := (sys_run pcfg cookie answers true parse_http (λ _ _, true) (λ _, false) (rcfg group) (λ _, no_call) no_call None id
  aenv AdminAuth.Demo.verify AdminAuth.Demo.Do None (λ _, (None, None)) None (λ _ _ _, NotFound) (λ _, NotFound) None true true true
  Noop Noop start).

Definition trace : list (label (N := unit)) := [Admin 0 add add_b3 adds.1; Client 0 w_post asks.1.1 asks.1.2].
Definition asked : sys := asks.2.

Lemma run_demo : runs "new" trace asked.
Proof.
  change trace with (([] ++ [Admin (N := unit) 0 add add_b3 adds.1]) ++ [Client 0 w_post asks.1.1 asks.1.2]).
  eapply run_step; [eapply run_step; [apply run_start|]|].
  - apply admin_step. do 19 right. left.
  - apply client_step.
Qed.

Definition upstream_urls (es : list event) : list string := omap (λ e, match e with EvUpstream o => Some (or_url o) | _ => None end) es.
Lemma upstream_urls_in u es : u ∈ upstream_urls es → ∃ o, EvUpstream o ∈ es ∧ or_url o = u.
Proof. intros (e & He & Hu)%list_elem_of_omap. destruct e; try discriminate. injection Hu as <-. eauto. Qed.
Lemma sent : upstream_urls asks.1.2 = ["http://b3:8080/v1/statement"].
Proof. vm_compute. reflexivity. Qed.
End SystemDemo.
Import SystemDemo.

Lemma traffic_only_to_registered_witness :
  ∃ out, or_url out = "http://b3:8080/v1/statement"
  ∧ (∃ u, known aenv SystemDemo.who StoreDemo.st (take 1 trace) u
      ∧ upstream_at (penv SystemDemo.pcfg SystemDemo.cookie answers true parse_http (λ _ _, true) (λ _, false) 0) u w_post (or_url out)).
Proof.
  destruct (upstream_urls_in "http://b3:8080/v1/statement" _ ltac:(rewrite sent; left)) as (out & Hin & Hout). exists out. split; [exact Hout|].
  eapply (traffic_only_to_registered (H := pg_ops) SystemDemo.pcfg SystemDemo.cookie answers true parse_http (λ _ _, true) (λ _, false) (SystemDemo.rcfg "new")
    (λ _, no_call) no_call None id SystemDemo.aenv AdminAuth.Demo.verify AdminAuth.Demo.Do None (λ _, (None, None)) None (λ _ _ _, NotFound)
    (λ _, NotFound) None true true true Noop Noop SystemDemo.who dao_rep (dao_up pg) (dao_dates pg) id (λ l, reflexivity l)
    SystemDemo.start StoreDemo.st trace _ (take 1 trace) 0 w_post _ _ []).
  - apply StoreDemo.db_rep.
  - reflexivity.
  - apply run_demo.
  - reflexivity.
  - exact Hin.
Defined.

(** The record of q2 says b2; the poll for it goes to b3. *)
Lemma poll_after_restart_witness :
  let y' := restart (ListLru 4096 []) SystemDemo.asked in
  let url := BackendURL (Route (router_services (λ _ _, true) (λ _, no_call) no_call None id) (SystemDemo.rcfg "new") (w_req "/v1/query/q2/1")
          (mkRouterState (y_cache y') (y_store y', y_x y') (y_rmetrics y'))).1 in
  (∃ st, dao_rep (y_store y') st ∧ find_first (has_id "q2") (st_history st) = Some StoreDemo.q2
   ∧ ((∀ b, b ∈ st_backends st → b_URL b ≠ "") → poll_target st "new" StoreDemo.q2 url))
  ∧ q_BackendURL StoreDemo.q2 = "http://b2:8080" ∧ url = "http://b3:8080".
Proof.
  split; [|split; [reflexivity|vm_compute; reflexivity]].
  apply (poll_after_restart (H := pg_ops) SystemDemo.pcfg SystemDemo.cookie answers true parse_http (λ _ _, true) (λ _, false) (SystemDemo.rcfg "new")
    (λ _, no_call) no_call None id SystemDemo.aenv AdminAuth.Demo.verify AdminAuth.Demo.Do None (λ _, (None, None)) None (λ _ _ _, NotFound)
    (λ _, NotFound) None true true true Noop Noop SystemDemo.who dao_rep (dao_up pg) (dao_dates pg) id (λ l, reflexivity l)
    SystemDemo.start StoreDemo.st trace SystemDemo.asked 4096 (ListLru 4096 []) "q2" StoreDemo.q2 "/1"); try reflexivity.
  - apply StoreDemo.db_rep.
  - discriminate.
  - apply run_demo.
  - apply StoreDemo.eng_up.
  - discriminate.
Defined.
