(* ===== verification/HarnessConfig.v ===== *)
(** * The configuration of the end-to-end harness (internal/e2e/harness/harness.go)

    The options a test can set, the template of the configuration file, rendered by
    [GoTemplate], and what the gateway reads from it: the file is a block document whose
    decoding ([ConfigYaml]) gives what the test has asked for. Durations are nanoseconds. *)
From S2P Require Import Prelude GoStrings GoNumeric Config YamlBlock ConfigYaml ConfigMigration GoTemplate.

#[local] Open Scope Z_scope.
#[local] Set Warnings "-register-all".

(** ** Options

    The fields of [harnessConfig], grouped. *)
Record monitor_options : Type := mkMonitorOptions { monitorInterval : Z; monitorTimeout : Z; refreshInterval : Z }.
Record external_options : Type := mkExternalOptions {
  externalHTTPURL : string; externalGRPCAddr : string; externalTimeout : Z; excludeHeaders : list string }.
Record auth_options : Type := mkAuthOptions {
  authType : string; oidcJWKSURL : string; jwksTTLSecs : Z; ldapURL : string; ldapBindDN : string; ldapBindPW : string; ldapBase : string }.
Record role_options : Type := mkRoleOptions { adminRoleRegex : string; userRoleRegex : string; apiRoleRegex : string }.
Record stats_options : Type := mkStatsOptions {
  clusterStatsType : string; backendStateUsername : string; backendStatePassword : string }.
Record harnessConfig : Type := mkHarnessConfig {
  proxyPort : Z; adminPort : Z; dbDSN : string; responseSize : Z;
  hc_monitor : monitor_options; hc_external : external_options; hc_auth : auth_options; hc_roles : role_options; hc_stats : stats_options;
  skipReadyzWait : bool; cookieSecret : string; propagateErrors : bool; disableMetrics : bool }.

Definition set_monitor (f : monitor_options → monitor_options) (c : harnessConfig) : harnessConfig :=
  mkHarnessConfig (proxyPort c) (adminPort c) (dbDSN c) (responseSize c) (f (hc_monitor c)) (hc_external c) (hc_auth c) (hc_roles c) (hc_stats c)
    (skipReadyzWait c) (cookieSecret c) (propagateErrors c) (disableMetrics c).
Definition set_external (f : external_options → external_options) (c : harnessConfig) : harnessConfig :=
  mkHarnessConfig (proxyPort c) (adminPort c) (dbDSN c) (responseSize c) (hc_monitor c) (f (hc_external c)) (hc_auth c) (hc_roles c) (hc_stats c)
    (skipReadyzWait c) (cookieSecret c) (propagateErrors c) (disableMetrics c).
Definition set_auth (f : auth_options → auth_options) (c : harnessConfig) : harnessConfig :=
  mkHarnessConfig (proxyPort c) (adminPort c) (dbDSN c) (responseSize c) (hc_monitor c) (hc_external c) (f (hc_auth c)) (hc_roles c) (hc_stats c)
    (skipReadyzWait c) (cookieSecret c) (propagateErrors c) (disableMetrics c).
Definition set_roles (f : role_options → role_options) (c : harnessConfig) : harnessConfig :=
  mkHarnessConfig (proxyPort c) (adminPort c) (dbDSN c) (responseSize c) (hc_monitor c) (hc_external c) (hc_auth c) (f (hc_roles c)) (hc_stats c)
    (skipReadyzWait c) (cookieSecret c) (propagateErrors c) (disableMetrics c).
Definition set_endpoints (proxy admin : Z) (dsn : string) (c : harnessConfig) : harnessConfig :=
  mkHarnessConfig proxy admin dsn (responseSize c) (hc_monitor c) (hc_external c) (hc_auth c) (hc_roles c) (hc_stats c)
    (skipReadyzWait c) (cookieSecret c) (propagateErrors c) (disableMetrics c).

Definition Option : Type := harnessConfig → harnessConfig.
Definition WithExternalHTTPRouter (url : string) : Option :=
  set_external (λ e, mkExternalOptions url (externalGRPCAddr e) (externalTimeout e) (excludeHeaders e)).
Definition WithExternalGRPCRouter (addr : string) : Option :=
  set_external (λ e, mkExternalOptions (externalHTTPURL e) addr (externalTimeout e) (excludeHeaders e)).
Definition WithExternalTimeout (d : Z) : Option :=
  set_external (λ e, mkExternalOptions (externalHTTPURL e) (externalGRPCAddr e) d (excludeHeaders e)).
Definition WithExcludeHeaders (headers : list string) : Option :=
  set_external (λ e, mkExternalOptions (externalHTTPURL e) (externalGRPCAddr e) (externalTimeout e) headers).
Definition WithCookieSecret (secret : string) : Option := λ c,
  mkHarnessConfig (proxyPort c) (adminPort c) (dbDSN c) (responseSize c) (hc_monitor c) (hc_external c) (hc_auth c) (hc_roles c) (hc_stats c)
    (skipReadyzWait c) secret (propagateErrors c) (disableMetrics c).
Definition WithMonitorInterval (d : Z) : Option := set_monitor (λ m, mkMonitorOptions d (monitorTimeout m) (refreshInterval m)).
Definition WithBackendRefreshInterval (d : Z) : Option := set_monitor (λ m, mkMonitorOptions (monitorInterval m) (monitorTimeout m) d).
Definition WithMetricsDisabled : Option := λ c,
  mkHarnessConfig (proxyPort c) (adminPort c) (dbDSN c) (responseSize c) (hc_monitor c) (hc_external c) (hc_auth c) (hc_roles c) (hc_stats c)
    (skipReadyzWait c) (cookieSecret c) (propagateErrors c) true.
Definition WithSkipReadyzWait : Option := λ c,
  mkHarnessConfig (proxyPort c) (adminPort c) (dbDSN c) (responseSize c) (hc_monitor c) (hc_external c) (hc_auth c) (hc_roles c) (hc_stats c)
    true (cookieSecret c) (propagateErrors c) (disableMetrics c).
Definition WithResponseSize (bytes : Z) : Option := λ c,
  mkHarnessConfig (proxyPort c) (adminPort c) (dbDSN c) bytes (hc_monitor c) (hc_external c) (hc_auth c) (hc_roles c) (hc_stats c)
    (skipReadyzWait c) (cookieSecret c) (propagateErrors c) (disableMetrics c).
Definition WithAuthNOOP : Option :=
  set_auth (λ a, mkAuthOptions "NOOP" (oidcJWKSURL a) (jwksTTLSecs a) (ldapURL a) (ldapBindDN a) (ldapBindPW a) (ldapBase a)).
Definition WithAuthOIDC (jwksURL : string) : Option :=
  set_auth (λ a, mkAuthOptions "OIDC" jwksURL (jwksTTLSecs a) (ldapURL a) (ldapBindDN a) (ldapBindPW a) (ldapBase a)).
Definition WithJWKSTTL (secs : Z) : Option :=
  set_auth (λ a, mkAuthOptions (authType a) (oidcJWKSURL a) secs (ldapURL a) (ldapBindDN a) (ldapBindPW a) (ldapBase a)).
Definition WithAuthLDAP (addr bindDN bindPW userBase : string) : Option :=
  set_auth (λ a, mkAuthOptions "LDAP" (oidcJWKSURL a) (jwksTTLSecs a) addr bindDN bindPW userBase).
Definition WithAdminRoleRegex (regex : string) : Option := set_roles (λ r, mkRoleOptions regex (userRoleRegex r) (apiRoleRegex r)).
Definition WithUserRoleRegex (regex : string) : Option := set_roles (λ r, mkRoleOptions (adminRoleRegex r) regex (apiRoleRegex r)).
Definition WithAPIRoleRegex (regex : string) : Option := set_roles (λ r, mkRoleOptions (adminRoleRegex r) (userRoleRegex r) regex).
Definition WithPropagateErrors (v : bool) : Option := λ c,
  mkHarnessConfig (proxyPort c) (adminPort c) (dbDSN c) (responseSize c) (hc_monitor c) (hc_external c) (hc_auth c) (hc_roles c) (hc_stats c)
    (skipReadyzWait c) (cookieSecret c) v (disableMetrics c).
Definition WithClusterStats (monitorType user pass : string) : Option := λ c,
  mkHarnessConfig (proxyPort c) (adminPort c) (dbDSN c) (responseSize c) (hc_monitor c) (hc_external c) (hc_auth c) (hc_roles c)
    (mkStatsOptions monitorType user pass) (skipReadyzWait c) (cookieSecret c) (propagateErrors c) (disableMetrics c).

(** The defaults of [New], and the options applied in order. *)
Definition harness_defaults : harnessConfig :=
  mkHarnessConfig 0 0 "" (1024 * 1024) (mkMonitorOptions (2 * Second) (1 * Second) (1 * Second)) (mkExternalOptions "" "" 0 [])
    (mkAuthOptions "NOOP" "" 0 "" "" "" "") (mkRoleOptions ".*" ".*" ".*") (mkStatsOptions "" "" "") false "" false false.
Definition apply_options (opts : list Option) : harnessConfig := foldl (λ c opt, opt c) harness_defaults opts.

(** ** The configuration file *)
Definition configTemplate : string := text_lines [
  "proxy:";
  "  port: {{.ProxyPort}}";
  "  responseSize: {{.ResponseSize}}B";
  "  requestTimeout: 30s";
  "  propagateErrors: {{.PropagateErrors}}";
  "admin:";
  "  port: {{.AdminPort}}";
  "monitor:";
  "  interval: {{.MonitorInterval}}";
  "  checkTimeout: {{.MonitorTimeout}}";
  "  refreshInterval: {{.RefreshInterval}}";
  "{{- if .ClusterStatsType}}";
  "  statsTimeout: 10s";
  "  retries: 0";
  "  metricsEndpoint: /metrics";
  "  runningQueriesMetricName: trino_execution_name_QueryManager_RunningQueries";
  "  queuedQueriesMetricName: trino_execution_name_QueryManager_QueuedQueries";
  "  metricMinimumValues:";
  "    trino_metadata_name_DiscoveryNodeManager_ActiveNodeCount: 1";
  "{{- end}}";
  "db:";
  "  driver: postgres";
  "  dsn: " +:+ in_quotes "{{.DBDSN}}";
  "routing:";
  "  defaultGroup: default";
  "  type: EXTERNAL";
  "  external:";
  "{{- if .ExternalHTTPURL}}";
  "    url: " +:+ in_quotes "{{.ExternalHTTPURL}}";
  "{{- end}}";
  "{{- if .ExternalGRPCAddr}}";
  "    grpcAddr: " +:+ in_quotes "{{.ExternalGRPCAddr}}";
  "{{- end}}";
  "    timeout: {{.ExternalTimeout}}";
  "{{- if .ExcludeHeaders}}";
  "    excludeHeaders:";
  "{{- range .ExcludeHeaders}}";
  "      - " +:+ in_quotes "{{.}}";
  "{{- end}}";
  "{{- end}}";
  "auth:";
  "  type: {{.AuthType}}";
  "{{- if eq .AuthType " +:+ in_quotes "OIDC" +:+ "}}";
  "  oidc:";
  "    jwksUrl: " +:+ in_quotes "{{.OIDCJWKSURL}}";
  "{{- if gt .JWKSTTLSecs 0}}";
  "    jwksTtlSecs: {{.JWKSTTLSecs}}";
  "{{- end}}";
  "{{- end}}";
  "{{- if eq .AuthType " +:+ in_quotes "LDAP" +:+ "}}";
  "  ldap:";
  "    url: " +:+ in_quotes "{{.LDAPURL}}";
  "    bindDn: " +:+ in_quotes "{{.LDAPBindDN}}";
  "    bindPassword: " +:+ in_quotes "{{.LDAPBindPW}}";
  "    userBase: " +:+ in_quotes "{{.LDAPBase}}";
  "{{- end}}";
  "  authorization:";
  "{{- if .AdminRoleRegex}}";
  "    admin: " +:+ in_quotes "{{.AdminRoleRegex}}";
  "{{- end}}";
  "{{- if .UserRoleRegex}}";
  "    user: " +:+ in_quotes "{{.UserRoleRegex}}";
  "{{- end}}";
  "{{- if .APIRoleRegex}}";
  "    api: " +:+ in_quotes "{{.APIRoleRegex}}";
  "{{- end}}";
  "cookie:";
  "{{- if .CookieSecret}}";
  "  secret: " +:+ in_quotes "{{.CookieSecret}}";
  "{{- end}}";
  "  wireCompat: true";
  "{{- if .DisableMetrics}}";
  "metrics:";
  "  enabled: false";
  "{{- end}}";
  "{{- if .ClusterStatsType}}";
  "clusterStats:";
  "  monitorType: {{.ClusterStatsType}}";
  "backendState:";
  "  username: " +:+ in_quotes "{{.BackendStateUser}}";
  "  password: " +:+ in_quotes "{{.BackendStatePass}}";
  "{{- end}}"].

Definition template_data (c : harnessConfig) : tval :=
  let e := hc_external c in let a := hc_auth c in let m := hc_monitor c in let r := hc_roles c in let s := hc_stats c in
  TMap [
    ("ProxyPort", TInt (proxyPort c)); ("AdminPort", TInt (adminPort c)); ("DBDSN", TStr (dbDSN c)); ("ResponseSize", TInt (responseSize c));
    ("MonitorInterval", TDur (monitorInterval m)); ("MonitorTimeout", TDur (monitorTimeout m)); ("RefreshInterval", TDur (refreshInterval m));
    ("ExternalHTTPURL", TStr (externalHTTPURL e)); ("ExternalGRPCAddr", TStr (externalGRPCAddr e));
    ("ExternalTimeout", TDur (if externalTimeout e =? 0 then 500 * Millisecond else externalTimeout e));
    ("ExcludeHeaders", TList (excludeHeaders e)); ("PropagateErrors", TBool (propagateErrors c)); ("CookieSecret", TStr (cookieSecret c));
    ("AuthType", TStr (authType a)); ("OIDCJWKSURL", TStr (oidcJWKSURL a)); ("JWKSTTLSecs", TInt (jwksTTLSecs a));
    ("LDAPURL", TStr (ldapURL a)); ("LDAPBindDN", TStr (ldapBindDN a)); ("LDAPBindPW", TStr (ldapBindPW a)); ("LDAPBase", TStr (ldapBase a));
    ("AdminRoleRegex", TStr (adminRoleRegex r)); ("UserRoleRegex", TStr (userRoleRegex r)); ("APIRoleRegex", TStr (apiRoleRegex r));
    ("DisableMetrics", TBool (disableMetrics c)); ("ClusterStatsType", TStr (clusterStatsType s));
    ("BackendStateUser", TStr (backendStateUsername s)); ("BackendStatePass", TStr (backendStatePassword s))].

Definition buildConfig (c : harnessConfig) : go_result string :=
  match template_parse configTemplate with
  | Err e => Err ("harness: parse template: " +:+ e)
  | Ok ns => match execute ns (template_data c) with Err e => Err ("harness: execute template: " +:+ e) | Ok out => Ok out end
  end.

(** ** The file as a document *)
Definition some_str (s : string) : bool := negb (s =?s "").
Definition show_bool (b : bool) : string := if b then "true" else "false".

Section tree.
Context (c : harnessConfig).
#[local] Abbreviation e := (hc_external c).
#[local] Abbreviation a := (hc_auth c).
#[local] Abbreviation m := (hc_monitor c).
#[local] Abbreviation r := (hc_roles c).
#[local] Abbreviation s := (hc_stats c).
#[local] Abbreviation stats := (some_str (clusterStatsType s)).
Definition y_proxy : list (string * ytree) :=
  [("port", YPlain (z_to_dec (proxyPort c))); ("responseSize", YPlain (z_to_dec (responseSize c) +:+ "B"));
   ("requestTimeout", YPlain "30s"); ("propagateErrors", YPlain (show_bool (propagateErrors c)))].
Definition y_monitor : list (string * ytree) :=
  [("interval", YPlain (duration_string (monitorInterval m))); ("checkTimeout", YPlain (duration_string (monitorTimeout m)));
   ("refreshInterval", YPlain (duration_string (refreshInterval m)))]
  ++ given stats [("statsTimeout", YPlain "10s"); ("retries", YPlain "0"); ("metricsEndpoint", YPlain "/metrics");
       ("runningQueriesMetricName", YPlain "trino_execution_name_QueryManager_RunningQueries");
       ("queuedQueriesMetricName", YPlain "trino_execution_name_QueryManager_QueuedQueries");
       ("metricMinimumValues", YMap [("trino_metadata_name_DiscoveryNodeManager_ActiveNodeCount", YPlain "1")])].
Definition y_external : list (string * ytree) :=
  given (some_str (externalHTTPURL e)) [("url", YQuoted (externalHTTPURL e))]
  ++ given (some_str (externalGRPCAddr e)) [("grpcAddr", YQuoted (externalGRPCAddr e))]
  ++ [("timeout", YPlain (duration_string (if externalTimeout e =? 0 then 500 * Millisecond else externalTimeout e)))]
  ++ given (negb (bool_decide (excludeHeaders e = []))) [("excludeHeaders", YSeq (excludeHeaders e))].
Definition y_authorization : list (string * ytree) :=
  given (some_str (adminRoleRegex r)) [("admin", YQuoted (adminRoleRegex r))]
  ++ given (some_str (userRoleRegex r)) [("user", YQuoted (userRoleRegex r))]
  ++ given (some_str (apiRoleRegex r)) [("api", YQuoted (apiRoleRegex r))].
Definition y_auth : list (string * ytree) :=
  [("type", YPlain (authType a))]
  ++ given (authType a =?s "OIDC") [("oidc", YMap ([("jwksUrl", YQuoted (oidcJWKSURL a))]
       ++ given (0 <? jwksTTLSecs a) [("jwksTtlSecs", YPlain (z_to_dec (jwksTTLSecs a)))]))]
  ++ given (authType a =?s "LDAP") [("ldap", YMap [("url", YQuoted (ldapURL a)); ("bindDn", YQuoted (ldapBindDN a));
       ("bindPassword", YQuoted (ldapBindPW a)); ("userBase", YQuoted (ldapBase a))])]
  ++ [("authorization", YMap y_authorization)].
Definition y_cookie : list (string * ytree) :=
  given (some_str (cookieSecret c)) [("secret", YQuoted (cookieSecret c))] ++ [("wireCompat", YPlain "true")].
Definition harness_tree : list (string * ytree) :=
  [("proxy", YMap y_proxy);
   ("admin", YMap [("port", YPlain (z_to_dec (adminPort c)))]);
   ("monitor", YMap y_monitor);
   ("db", YMap [("driver", YPlain "postgres"); ("dsn", YQuoted (dbDSN c))]);
   ("routing", YMap [("defaultGroup", YPlain "default"); ("type", YPlain "EXTERNAL"); ("external", YMap y_external)]);
   ("auth", YMap y_auth);
   ("cookie", YMap y_cookie)]
  ++ given (disableMetrics c) [("metrics", YMap [("enabled", YPlain "false")])]
  ++ given stats [("clusterStats", YMap [("monitorType", YPlain (clusterStatsType s))]);
       ("backendState", YMap [("username", YQuoted (backendStateUsername s)); ("password", YQuoted (backendStatePassword s))])].
End tree.

(** *** Rendering *)
Definition config_nodes : list tnode := Eval vm_compute in match template_parse configTemplate with Ok ns => ns | Err _ => [] end.
Lemma config_nodes_parsed : template_parse configTemplate = Ok config_nodes.
Proof. vm_compute. reflexivity. Qed.

(** The file is the document of the options: whatever the test asks for. *)
Lemma build_config_tree c : buildConfig c = Ok (yaml_text (harness_tree c)).
Proof.
  unfold buildConfig. rewrite config_nodes_parsed.
  enough (execute config_nodes (template_data c) = Ok (yaml_text (harness_tree c))) as -> by done.
  assert (Hinj : ∀ x y, nl +:+ x = nl +:+ y → x = y) by (by intros x y [= ?]).
  eassert (Hex : execute config_nodes (template_data c) = Ok _) by (unfold config_nodes; renders).
  eassert (Hw : entries "" (harness_tree c) +:+ nl = _) by (unfold harness_tree, y_proxy, y_monitor, y_external, y_auth, y_authorization, y_cookie; writes).
  rewrite Hex. f_equal. apply Hinj. rewrite yaml_text_entries, Hw, (str_app_assoc (z_to_dec (responseSize c))). reflexivity.
Qed.

(** ** What the test has asked for *)
Definition wanted (c : harnessConfig) : Config :=
  let d := defaultConfig in let m := hc_monitor c in let a := hc_auth c in let e := hc_external c in let r := hc_roles c in let s := hc_stats c in
  let oidc := authType a =?s "OIDC" in let ldap := authType a =?s "LDAP" in let stats := some_str (clusterStatsType s) in
  mkConfig
    (mkProxyConfig (proxyPort c) (responseSize c) (30 * Second) (propagateErrors c))
    (mkAdminConfig (adminPort c))
    (mkMonitorConfig (monitorInterval m) (monitorTimeout m) (refreshInterval m) (10 * Second) 0 "/metrics"
       defaultRunningQueriesMetricName defaultQueuedQueriesMetricName
       (if stats then Some {[defaultActiveNodeCountMetric := f64_of_Z 1]} else None) None)
    (mkDBConfig "postgres" (dbDSN c) true)
    (mkRoutingConfig "default" "EXTERNAL"
       (mkExternalConfig (externalHTTPURL e) (externalGRPCAddr e) (if externalTimeout e =? 0 then 500 * Millisecond else externalTimeout e)
          (excludeHeaders e)))
    (mkAuthConfig (authType a)
       (mkOIDCConfig "" "" "" (if oidc then oidcJWKSURL a else "") (if oidc && (0 <? jwksTTLSecs a) then jwksTTLSecs a else 300) [] "" "" "")
       (if ldap then mkLDAPConfig (ldapURL a) (ldapBindDN a) (ldapBindPW a) (ldapBase a) "uid" else LDAP (Auth d))
       (mkAuthorizationConfig (adminRoleRegex r) (userRoleRegex r) (apiRoleRegex r) ∅))
    (mkCookieConfig (cookieSecret c) (10 * Minute) true)
    (mkMetricsConfig (negb (disableMetrics c)) "/metrics")
    (UI d)
    (mkClusterStatsConfig (if stats then clusterStatsType s else "INFO_API"))
    (if stats then mkBackendStateConfig (backendStateUsername s) (backendStatePassword s) false false else BackendState d).

(** Numbers and durations the scalars of internal/config read back. *)
Definition reads_back (d : Z) : Prop := parse_duration (duration_string d) = Some d.
Record readable (c : harnessConfig) : Prop := {
  rd_plain : plain_doc (harness_tree c) = true;
  rd_ports : in_int64 (proxyPort c) ∧ in_int64 (adminPort c);
  rd_size : 0 < responseSize c < 2 ^ 53;
  rd_monitor : reads_back (monitorInterval (hc_monitor c)) ∧ reads_back (monitorTimeout (hc_monitor c)) ∧ reads_back (refreshInterval (hc_monitor c));
  rd_external : reads_back (if externalTimeout (hc_external c) =? 0 then 500 * Millisecond else externalTimeout (hc_external c));
  rd_ttl : in_int64 (jwksTTLSecs (hc_auth c)) }.

(** *** Reading the fields *)
Lemma d_int_dec k m z old : in_int64 z → d_int k ((k, YPlain (z_to_dec z)) :: m) old = Ok z.
Proof. intros Hz. unfold d_int. cbn [assoc_str]. by rewrite seqb_refl, parse_int_dec. Qed.
Lemma d_dur_back k m d old : reads_back d → d_dur k ((k, YPlain (duration_string d)) :: m) old = Ok d.
Proof. intros Hd. unfold d_dur, d_scalar. cbn [assoc_str]. rewrite seqb_refl. unfold Duration_UnmarshalYAML. by rewrite Hd. Qed.
Lemma d_size_back k m n old : 0 < n < 2 ^ 53 → d_scalar DataSize_UnmarshalYAML k ((k, YPlain (z_to_dec n +:+ "B")) :: m) old = Ok n.
Proof.
  intros Hn. unfold d_scalar. cbn [assoc_str]. rewrite seqb_refl, (data_size_exact n "B" 0 SU_B Hn); [by rewrite Z.pow_0_r, Z.mul_1_r|].
  unfold int64_max. lia.
Qed.
Lemma d_bool_back k m b old : d_bool k ((k, YPlain (show_bool b)) :: m) old = Ok b.
Proof. unfold d_bool. cbn [assoc_str]. rewrite seqb_refl. by destruct b. Qed.
(** A field that is written if it is not empty, over an empty old value. *)
Lemma given_back k s m : assoc_str k m = None → d_str k (given (some_str s) [(k, YQuoted s)] ++ m) "" = Ok s.
Proof.
  intros Hm. unfold d_str, some_str. destruct (s =?s "") eqn:E; cbn [negb given app assoc_str]; [seqb_simpl; by rewrite Hm, E|by rewrite seqb_refl].
Qed.
Lemma given_skip k k' s b (m : list (string * ytree)) : (k' =?s k) = false → assoc_str k (given b [(k', s)] ++ m) = assoc_str k m.
Proof. intros Hk. destruct b; cbn [given app assoc_str]; [by rewrite Hk|done]. Qed.

(** A field whose key is not the first. *)
Ltac skip_keys := repeat first [rewrite assoc_skip by reflexivity | rewrite given_skip by reflexivity].

Section sections.
Context (c : harnessConfig) (Hc : readable c).
Lemma decode_wanted_proxy : decode_proxy_config (y_proxy c) (Proxy defaultConfig) = Ok (Proxy (wanted c)).
Proof using Hc.
  destruct Hc as [_ [Hp1 Hp2] Hs _ _ _]. unfold decode_proxy_config, y_proxy. rewrite d_int_dec by done. cbn [mbind go_result_bind].
  change (d_scalar DataSize_UnmarshalYAML "responseSize" (_ :: ?m) ?o) with (d_scalar DataSize_UnmarshalYAML "responseSize" m o).
  rewrite d_size_back by done. cbn [mbind go_result_bind].
  change (d_bool "propagateErrors" (_ :: _ :: _ :: ?m) ?o) with (d_bool "propagateErrors" m o). rewrite d_bool_back. reflexivity.
Qed.
Lemma decode_wanted_monitor : decode_monitor (y_monitor c) (Monitor defaultConfig) = Ok (Monitor (wanted c)).
Proof using Hc.
  destruct Hc as [_ _ _ (Hm1 & Hm2 & Hm3) _ _]. unfold decode_monitor, y_monitor. cbn [app].
  rewrite d_dur_back by done. cbn [mbind go_result_bind].
  change (d_dur "checkTimeout" (_ :: ?m) ?o) with (d_dur "checkTimeout" m o). rewrite d_dur_back by done. cbn [mbind go_result_bind].
  change (d_dur "refreshInterval" (_ :: _ :: ?m) ?o) with (d_dur "refreshInterval" m o). rewrite d_dur_back by done. cbn [mbind go_result_bind].
  unfold wanted. cbv zeta. destruct (some_str (clusterStatsType (hc_stats c))); reflexivity.
Qed.
Lemma decode_wanted_routing :
  decode_routing [("defaultGroup", YPlain "default"); ("type", YPlain "EXTERNAL"); ("external", YMap (y_external c))] (Routing defaultConfig)
  = Ok (Routing (wanted c)).
Proof using Hc.
  destruct Hc as [_ _ _ _ He _]. unfold decode_routing, y_external. set (e := hc_external c) in *. set (x := given (negb _) [("excludeHeaders", _)]).
  set (m := given (some_str (externalHTTPURL e)) _ ++ _). change (d_sub "external" _) with (Ok m). cbn [mbind go_result_bind].
  assert (Hx : ∀ k, k ≠ "excludeHeaders" → assoc_str k x = None).
  { intros k Hk. unfold x. destruct (negb _); [|done]. cbn [given assoc_str]. by rewrite (proj2 (seqb_neq "excludeHeaders" k)). }
  unfold m. cbn [app]. change (ext_URL _) with "". rewrite given_back by (skip_keys; by apply Hx). cbn [mbind go_result_bind].
  unfold d_str at 1. skip_keys. fold (d_str "grpcAddr" (given (some_str (externalGRPCAddr e)) [("grpcAddr", YQuoted (externalGRPCAddr e))] ++ ("timeout", YPlain (duration_string (if externalTimeout e =? 0 then 500 * Millisecond else externalTimeout e))) :: x) (GRPCAddr (External (Routing defaultConfig)))).
  change (GRPCAddr _) with "". rewrite given_back by (skip_keys; by apply Hx). cbn [mbind go_result_bind].
  unfold d_dur, d_scalar. skip_keys. cbn [assoc_str]. rewrite seqb_refl. unfold Duration_UnmarshalYAML. rewrite He. cbn [mbind go_result_bind].
  unfold d_list. skip_keys. unfold x. destruct (excludeHeaders e) eqn:El; cbn; unfold wanted; cbv zeta; fold e; by rewrite El.
Qed.
Lemma decode_wanted_authorization : decode_authorization (y_authorization c) (Authorization (Auth defaultConfig)) = Ok (Authorization (Auth (wanted c))).
Proof using Type.
  unfold decode_authorization, y_authorization, some_str. set (r := hc_roles c). unfold wanted. cbv zeta. fold r. cbn [Auth Authorization].
  destruct (adminRoleRegex r =?s "") eqn:E1, (userRoleRegex r =?s "") eqn:E2, (apiRoleRegex r =?s "") eqn:E3; seqb_simpl; rewrite ?E1, ?E2, ?E3; reflexivity.
Qed.
Lemma decode_wanted_auth : decode_auth (y_auth c) (Auth defaultConfig) = Ok (Auth (wanted c)).
Proof using Hc.
  pose proof decode_wanted_authorization as Haz. destruct Hc as [_ _ _ _ _ Ht].
  assert (Hd : d_sub "authorization" (y_auth c) = Ok (y_authorization c)) by (unfold d_sub, y_auth; cbn [app]; skip_keys; done).
  unfold decode_auth. rewrite Hd. cbn [mbind go_result_bind]. rewrite Haz. clear Hd Haz. unfold wanted, y_auth. cbv zeta. set (a := hc_auth c) in *.
  destruct (authType a =?s "OIDC") eqn:E1, (authType a =?s "LDAP") eqn:E2; [by seqb_simpl; congruence|..|reflexivity|reflexivity]; cbn [given app andb].
  destruct (0 <? jwksTTLSecs a); [|reflexivity]. cbn -[d_int z_to_dec].
  change (d_int "jwksTtlSecs" (_ :: ?m) ?o) with (d_int "jwksTtlSecs" m o). rewrite (d_int_dec "jwksTtlSecs") by done. reflexivity.
Qed.
Lemma decode_wanted_cookie : decode_cookie (y_cookie c) (Cookie defaultConfig) = Ok (Cookie (wanted c)).
Proof using Type. unfold decode_cookie, y_cookie. change (Secret (Cookie defaultConfig)) with "". rewrite given_back by done. by destruct (some_str _). Qed.

Lemma decode_wanted : decode_config (harness_tree c) defaultConfig = Ok (wanted c).
Proof using Hc.
  unfold decode_config. change (d_sub "proxy" (harness_tree c)) with (Ok (y_proxy c)). change (d_sub "monitor" (harness_tree c)) with (Ok (y_monitor c)).
  change (d_sub "auth" (harness_tree c)) with (Ok (y_auth c)). change (d_sub "cookie" (harness_tree c)) with (Ok (y_cookie c)).
  change (d_sub "routing" (harness_tree c)) with (Ok [("defaultGroup", YPlain "default"); ("type", YPlain "EXTERNAL"); ("external", YMap (y_external c))]).
  change (d_sub "admin" (harness_tree c)) with (Ok [("port", YPlain (z_to_dec (adminPort c)))]).
  cbn [mbind go_result_bind]. rewrite decode_wanted_proxy, decode_wanted_monitor, decode_wanted_routing, decode_wanted_auth, decode_wanted_cookie.
  cbn [mbind go_result_bind]. rewrite d_int_dec by (by destruct Hc as [_ [] _ _ _ _]). unfold harness_tree, wanted. cbv zeta.
  destruct (disableMetrics c), (some_str (clusterStatsType (hc_stats c))); reflexivity.
Qed.
End sections.

(** What the gateway's validation asks of the options. *)
Record runnable (c : harnessConfig) : Prop := {
  ru_ports : 0 < proxyPort c ∧ 0 < adminPort c ∧ proxyPort c ≠ adminPort c;
  ru_oidc : authType (hc_auth c) = "OIDC" → oidcJWKSURL (hc_auth c) ≠ "";
  ru_ldap : authType (hc_auth c) = "LDAP" → ldapURL (hc_auth c) ≠ "" ∧ ldapBase (hc_auth c) ≠ "";
  ru_stats : clusterStatsType (hc_stats c) ∈ [""; "NOOP"; "INFO_API"; "UI_API"; "METRICS"];
  ru_user : clusterStatsType (hc_stats c) ∈ ["UI_API"; "METRICS"] → backendStateUsername (hc_stats c) ≠ "";
  ru_refresh : 0 ≤ refreshInterval (hc_monitor c) }.

Lemma wanted_valid c : readable c → runnable c → Validate (applyDefaults (wanted c)) = Ok tt.
Proof.
  intros [_ _ Hs _ _ _] [(Hp1 & Hp2 & Hp3) Ho Hl Ht Hu Hr]. apply Validate_ok. unfold wanted. cbv zeta. set (a := hc_auth c) in *. set (s := hc_stats c) in *.
  split; cbn -[zor sor].
  - unfold zor. by destruct (Z.eqb_spec (proxyPort c) 0), (Z.eqb_spec (adminPort c) 0); lia.
  - unfold zor. destruct (Z.eqb_spec (responseSize c) 0); lia.
  - right. left.
  - done.
  - intros Hty. assert (authType a = "OIDC") as E. { unfold sor in Hty. by destruct (authType a =?s ""). }
    rewrite E. cbn. by apply Ho.
  - done.
  - intros Hty. assert (authType a = "LDAP") as E. { unfold sor in Hty. by destruct (authType a =?s ""). }
    rewrite E. cbn. by apply Hl.
  - unfold some_str, sor. destruct (clusterStatsType s =?s "") eqn:E; cbn; [by right; right; left|]. by rewrite E.
  - unfold some_str, sor. destruct (clusterStatsType s =?s "") eqn:E; cbn; [by intros Hin; apply (bool_decide_pack _) in Hin|]. by rewrite E.
  - done.
  - unfold zor. destruct (Z.eqb_spec (refreshInterval (hc_monitor c)) 0); [done|lia].
  - done.
Qed.

(** C35: Take options whose texts can stand in YAML as they are and whose numbers and
    durations the scalars of internal/config read back ([readable]), with two different
    positive ports and settings the gateway's validation accepts: a JWKS URL for OIDC, a server
    and a base for LDAP, a known statistics type with a user where it needs one, a
    refresh interval that is not negative ([runnable]). Then the configuration file is
    rendered, and the gateway loads from it exactly what the test has asked for, over the
    defaults. *)
Theorem harness_config_loads unmarshal `{!YamlLibrary unmarshal} c path : readable c → runnable c →
  ∃ text, buildConfig c = Ok text ∧ Load (λ _, Ok text) unmarshal path = Ok (applyDefaults (wanted c)).
Proof.
  intros Hrd Hru. exists (yaml_text (harness_tree c)). split; [apply build_config_tree|]. unfold Load.
  rewrite yaml_decodes, decode_wanted by (done || apply Hrd). by rewrite wanted_valid.
Qed.

Module HarnessDemo.
Definition config : harnessConfig :=
  set_endpoints 40001 40002 "host=localhost port=5433 user=testuser password=testpass dbname=testdb sslmode=disable"
    (apply_options [WithExternalGRPCRouter "127.0.0.1:9080"; WithExcludeHeaders ["X-Internal"; "Cookie"]; WithAuthOIDC "http://127.0.0.1:5000/jwks";
                    WithJWKSTTL 1; WithClusterStats "UI_API" "admin" ""; WithMonitorInterval (3 * Second); WithCookieSecret "s3cret"]).
End HarnessDemo.

Lemma harness_config_loads_witness :
  ∃ text, buildConfig HarnessDemo.config = Ok text
  ∧ Load (λ _, Ok text) (λ text c, decode_config (read_doc text) c) "config.yaml" = Ok (applyDefaults (wanted HarnessDemo.config)).
Proof.
  apply (harness_config_loads _ HarnessDemo.config "config.yaml").
  - split; [vm_compute; reflexivity|split; split; vm_compute; discriminate|split; vm_compute; reflexivity|split_and!; vm_compute; reflexivity
           |vm_compute; reflexivity|split; vm_compute; discriminate].
  - split; [split_and!; vm_compute; (reflexivity || discriminate)|discriminate|discriminate|apply (bool_decide_unpack _); vm_compute; exact I
           |discriminate|vm_compute; discriminate].
Defined.
