(* ===== verification/E2EHarness.v ===== *)
(** * The end-to-end harness (internal/e2e/harness: harness.go, routing_service.go,
      mock_router.go)

    Starting and stopping the processes under test, waiting for them, registering backends
    over the admin API, and the lines of output passed to the test's log. Processes, files,
    HTTP, gRPC and the clock are parameters over the state [W] of what is outside;
    durations are nanoseconds. The configuration file is [HarnessConfig]'s. *)
From S2P Require Import Prelude GoStrings GoNumeric Json HttpModel Routing TestTB TestContainers HarnessConfig.

#[local] Open Scope Z_scope.

(** ** Output lines

    [logWriter]: the buffer, and what has been logged. *)
Record logWriter : Type := mkLogWriter { lw_buf : string; lw_logged : list string }.

(** The loop of [Write] on the buffer; a line without its end is put back. *)
Fixpoint log_lines (fuel : nat) (prefix buf : string) : list string * string :=
  match fuel with
  | O => ([], buf)
  | S fuel =>
      match cut_byte newline buf with
      | Some (line, rest) =>
          let '(ls, r) := log_lines fuel prefix rest in
          ((prefix +:+ ": " +:+ trim_right_byte newline (line +:+ nl)) :: ls, r)
      | None => ([], buf)
      end
  end.
Definition lw_Write (prefix p : string) (l : logWriter) : logWriter :=
  let buf := lw_buf l +:+ p in
  let '(ls, r) := log_lines (S (String.length buf)) prefix buf in mkLogWriter r (lw_logged l ++ ls).

(** ** Waiting *)
Section waiting.
Context {W : Type} (took : W → Z) (tie : ST W bool).

(** [for { attempt; select { ctx.Done: give up; time.After(interval): } }] with a context
    that ends at [end_]; [None] when the fuel ends. If both are ready at once either is
    taken. *)
Fixpoint poll_ctx (fuel : nat) (attempt : ST W bool) (interval t end_ : Z) : ST W (option bool) :=
  match fuel with
  | O => mret None
  | S fuel => λ w,
      let '(ok, w1) := attempt w in
      let t' := t + Z.max 0 (took w1) + interval in
      if ok : bool then (Some true, w1)
      else if end_ <? t' then (Some false, w1)
      else if t' <? end_ then poll_ctx fuel attempt interval t' end_ w1
      else let '(b, w2) := tie w1 in if b : bool then (Some false, w2) else poll_ctx fuel attempt interval t' end_ w2
  end.
(** [for time.Now().Before(end) { attempt; time.Sleep(interval) }]. *)
Fixpoint poll_before (fuel : nat) (attempt : ST W bool) (interval t end_ : Z) : ST W (option bool) :=
  match fuel with
  | O => mret None
  | S fuel =>
      if negb (t <? end_) then mret (Some false) else λ w,
      let '(ok, w1) := attempt w in
      if ok : bool then (Some true, w1) else poll_before fuel attempt interval (t + Z.max 0 (took w1) + interval) end_ w1
  end.
(** The turns that are enough. *)
Definition turns (deadline interval : Z) : nat := S (S (Z.to_nat (deadline / interval))).
End waiting.

Lemma poll_before_first {W} (took : W → Z) fuel attempt interval t end_ w w' :
  attempt w = (true, w') → t < end_ → poll_before took (S fuel) attempt interval t end_ w = (Some true, w').
Proof. intros Ha Ht. cbn. apply Z.ltb_lt in Ht. rewrite Ht. cbn. by rewrite Ha. Qed.

Section harness.
Context {W : Type}.
Context (took : W → Z) (tie : ST W bool).
(** Databases and ports as in [TestContainers]. *)
Context (generic_container : container_request → ST W (go_result nat)) (mapped_port : nat → string → ST W (go_result string))
        (host_of : nat → ST W (go_result string)) (terminate : nat → ST W (go_result unit))
        (sql_open : string → string → ST W (go_result nat)) (ping close_db : nat → ST W (go_result unit))
        (listen : ST W (go_result (nat * Z))) (close_listener : nat → ST W (go_result unit)).
(** [os.Getenv], whether [os.Stat] finds a path, [os.Getwd]; [t.TempDir], [os.WriteFile];
    [go build] of a package in a directory. *)
Context (getenv : string → string) (exists_ : string → bool) (getwd : go_result string)
        (temp_dir : ST W string) (write_file : string → string → ST W (go_result unit))
        (go_build : string → string → string → ST W (go_result unit)).
(** [context.WithCancel] and its cancel; starting a program with arguments in its own
    process group; SIGTERM; waiting for the end with a timer (the error text of [Wait], or
    [None] if the timer was first); SIGKILL and waiting. *)
Context (new_ctx : ST W nat) (cancel : nat → ST W unit) (start : nat → string → list string → ST W (go_result nat))
        (sigterm : nat → ST W unit) (wait_for_exit : nat → Z → ST W (option (option string))) (kill_and_wait : nat → ST W unit).
(** HTTP from the test, and the address of a new fake backend. *)
Context (http_do : Z → out_request → ST W (call_result response)).

#[local] Abbreviation T := (T W).
#[local] Abbreviation FreePort := (FreePort listen close_listener).
#[local] Abbreviation PostgresContainerDSN := (PostgresContainerDSN generic_container mapped_port host_of terminate sql_open ping close_db).

(** ** Ports, programs and processes *)

(** A port unlike those taken, drawn again while it is one of them. *)
Fixpoint fresh_port (fuel : nat) (taken : list Z) : T (option Z) :=
  match fuel with
  | O => mret None
  | S fuel => p ← FreePort; if existsb (Z.eqb p) taken then fresh_port fuel taken else mret (Some p)
  end.

(** [filepath.Dir] and [filepath.Join] on clean absolute paths. *)
Definition path_dir (p : string) : string :=
  match last_index_byte "/" p with Some O => "/" | Some i => str_take i p | None => "." end.
Definition path_join (dir name : string) : string := if dir =?s "/" then "/" +:+ name else dir +:+ "/" +:+ name.

Fixpoint find_root (fuel : nat) (dir : string) : option (go_result string) :=
  match fuel with
  | O => None
  | S fuel =>
      if exists_ (path_join dir "go.mod") then Some (Ok dir) else
      let parent := path_dir dir in
      if parent =?s dir then Some (Err "harness: project root (go.mod) not found") else find_root fuel parent
  end.
Definition projectRoot : T string :=
  match getwd with
  | Err e => fatal ("harness: getwd: " +:+ e)
  | Ok dir => match find_root (S (String.length dir)) dir with Some (Ok d) => mret d | Some (Err e) => fatal e | None => fatal "" end
  end.

(** A program named by the environment, or built from source: [places] are the directory of
    its module and a temporary one. *)
Definition built (what env out pkg : string) (places : T (string * string)) : T string :=
  let bin := getenv env in
  if negb (bin =?s "") then if exists_ bin then mret bin else fatal (what +:+ ": " +:+ env +:+ "=" +:+ bin)
  else
    '(dir, tmp) ← places;
    _ ← lift (what +:+ ": build") (go_build dir (path_join tmp out) pkg);
    mret (path_join tmp out).
Definition at_root : T (string * string) := tmp ← call temp_dir; root ← projectRoot; mret (root, tmp).
Definition BinaryPath : T string := built "harness" "TRINO_GOWAY_BIN" "trino-goway" "./cmd/trino-goway" at_root.
Definition mockGRPCRouterBinaryPath : T string :=
  built "mock-router" "TRINO_GOWAY_MOCK_ROUTER_BIN" "mock-external-router-grpc" "./cmd/mock-external-router-grpc" at_root.
Definition RoutingServiceBinaryPath : T string :=
  built "routing-service" "TRINO_GOWAY_ROUTING_SERVICE_BIN" "routing-service" "./cmd/routing-service"
    (root ← projectRoot;
     let moduleDir := path_join root "routing-service" in
     if exists_ (path_join moduleDir "go.mod") then tmp ← call temp_dir; mret (moduleDir, tmp)
     else fatal ("routing-service: module not found at " +:+ moduleDir)).

Definition isExpectedExit (err : option string) : bool :=
  match err with None => true | Some msg => contains "signal: terminated" msg || contains "signal: killed" msg end.
(** The line it logs, if any. *)
Definition shutdown (p : nat) : ST W (option string) :=
  _ ← sigterm p;
  r ← wait_for_exit p (5 * Second);
  match r with
  | Some err => mret (if isExpectedExit err then None else Some ("harness: subprocess exited with: " +:+ from_opt "" err))
  | None => _ ← kill_and_wait p; mret (Some "harness: subprocess did not exit within 5s of SIGTERM; SIGKILL sent")
  end.

(** Starting a program: its context is cancelled if it does not start, and its cleanup
    registered if it does. *)
Definition launch (what bin : string) (args : list string) : T nat :=
  ctx ← call new_ctx;
  p ← call (start ctx bin args);
  match p with
  | Err e => _ ← call (cancel ctx); fatal (what +:+ ": start binary " +:+ bin +:+ ": " +:+ e)
  | Ok p => _ ← owns [Process p; Ctx ctx]; mret p
  end.
Definition await (msg : string) (m : ST W (option bool)) : T unit :=
  r ← call m;
  match r with Some true => mret tt | _ => fatal msg end.

(** ** The gateway under test *)
Record Harness : Type := mkHarness { ProxyURL : string; AdminURL : string; h_cfg : harnessConfig; h_cmd : nat; binPath : string }.
Definition DBDSN (h : Harness) : string := dbDSN (h_cfg h).

Definition get (timeout : Z) (url : string) : ST W (call_result response) := http_do timeout (OutRequest "GET" url ∅ (Ok "")).
Definition waitReady (adminURL : string) (deadline : Z) : ST W (option bool) :=
  poll_ctx took tie (turns deadline (200 * Millisecond))
    (r ← get (2 * Second) (adminURL +:+ "/trino-gateway/readyz"); mret match r with COk resp => resp_status resp =? 200 | CErr _ => false end)
    (200 * Millisecond) 0 deadline.
Definition waitListening (adminURL : string) (deadline : Z) : ST W (option bool) :=
  poll_ctx took tie (turns deadline (100 * Millisecond))
    (r ← get (2 * Second) (adminURL +:+ "/trino-gateway/livez"); mret match r with COk _ => true | CErr _ => false end)
    (100 * Millisecond) 0 deadline.

Definition local_url (port : Z) : string := "http://127.0.0.1:" +:+ z_to_dec port.
Definition local_addr (port : Z) : string := "127.0.0.1:" +:+ z_to_dec port.

(** [None]: the port was drawn again more often than the fuel allows. *)
Definition New (fuel : nat) (opts : list Option) : T (option Harness) :=
  let cfg := apply_options opts in
  dsn ← PostgresContainerDSN;
  proxy ← FreePort;
  admin ← fresh_port fuel [proxy];
  match admin with
  | None => mret None
  | Some admin =>
      let cfg := set_endpoints proxy admin dsn cfg in
      match buildConfig cfg with
      | Err e => fatal ("harness: render config: " +:+ e)
      | Ok yaml =>
          dir ← call temp_dir;
          let cfgPath := path_join dir "config.yaml" in
          _ ← lift "harness: write config" (write_file cfgPath yaml);
          bin ← BinaryPath;
          p ← launch "harness" bin ["--config"; cfgPath];
          let h := mkHarness (local_url proxy) (local_url admin) cfg p bin in
          _ ← (if skipReadyzWait cfg then await "harness: admin listener did not accept connections within 10s" (waitListening (AdminURL h) (10 * Second))
               else await "harness: readyz did not become ready within 30s" (waitReady (AdminURL h) (30 * Second)));
          mret (Some h)
      end
  end.

(** The clients. Only the admin client with a token adds a header, to a copy of the
    request. *)
Definition bearer_RoundTrip (token : string) (base : out_request → ST W (call_result response)) (o : out_request) : ST W (call_result response) :=
  base (OutRequest (or_method o) (or_url o) (hdr_set "Authorization" ("Bearer " +:+ token) (or_header o)) (or_body o)).
Definition AdminClient (bearerToken : string) : out_request → ST W (call_result response) :=
  if bearerToken =?s "" then http_do (30 * Second) else bearer_RoundTrip bearerToken (http_do (30 * Second)).

(** *** Backends *)
Definition set_visible_field (key : string) (v : json) (b : string * string) : (string * string) * bool :=
  if field_is "name" key then let '(s, e) := dec_string b.1 v in ((s, b.2), e)
  else if field_is "status" key then let '(s, e) := dec_string b.2 v in ((b.1, s), e) else (b, false).
Definition named_in (name : string) (body : string) : bool :=
  match decode_ast body with
  | Some (JArr l) =>
      let bs := dec_struct set_visible_field ("", "") <$> l in
      negb (existsb snd bs) && existsb (λ b, b.1.1 =?s name) bs
  | _ => false
  end.
Definition backendVisible (do : out_request → ST W (call_result response)) (adminURL name : string) : ST W bool :=
  r ← do (OutRequest "GET" (adminURL +:+ "/gateway/backend/all") ∅ (Ok ""));
  mret match r with
       | COk resp => (resp_status resp =? 200) && named_in name (resp_body resp)
       | CErr _ => false
       end.
Definition backend_body (name group url : string) : json :=
  JObj [("active", JBool true); ("name", JStr name); ("proxyTo", JStr url); ("routingGroup", JStr group)].
(** [fake] is the URL of the backend it has started. *)
Definition AddBackend (h : Harness) (name group fake : string) : T unit :=
  let post := OutRequest "POST" (AdminURL h +:+ "/entity?entityType=GATEWAY_BACKEND") (hdr_set "Content-Type" "application/json" ∅)
                (Ok (print_json (backend_body name group fake))) in
  resp ← lift "harness: POST /entity" (λ w, match AdminClient "" post w with (COk r, w') => (Ok r, w') | (CErr e, w') => (Err (ce_msg e), w') end);
  if negb (resp_status resp =? 200) then fatal "harness: POST /entity status"
  else await ("harness: backend " +:+ name +:+ " not visible via /gateway/backend/all within 15s")
         (poll_before took (turns (15 * Second) (200 * Millisecond)) (backendVisible (AdminClient "") (AdminURL h) name) (200 * Millisecond) 0 (15 * Second)).

(** ** The routing service under test

    [grpc.NewClient] and [Close], the health service, [DisableMethod], and Go's [%q]. *)
Context (grpc_dial : string → ST W (go_result nat)) (grpc_close : nat → ST W unit) (health_serving : nat → Z → ST W bool)
        (disable_method : nat → Z → string → ST W (go_result unit)) (dial_tcp : string → Z → ST W bool) (goq : string → string).

Record MethodConfig : Type := mkMethod { m_Type : string; m_Program : string }.
Definition ExprMethod (program : string) : MethodConfig := mkMethod "expr" program.
Record routingServiceConfig : Type := mkRsConfig {
  rc_Addr : string; rc_AdminAddr : string; rc_MetricsAddr : string; rc_DefaultGroup : string; rc_Methods : list MethodConfig }.

Definition split_lines (s : string) : list string :=
  let ls := split_on newline s in
  match last ls with Some "" => removelast ls | _ => ls end.
Definition method_text (m : MethodConfig) : string :=
  "  - type: " +:+ m_Type m +:+ nl +:+ "    program: |" +:+ nl +:+ concat_str ((λ l, "      " +:+ l +:+ nl) <$> split_lines (m_Program m)).
Definition renderRoutingServiceConfig (c : routingServiceConfig) : string :=
  "addr: " +:+ goq (rc_Addr c) +:+ nl +:+ "adminAddr: " +:+ goq (rc_AdminAddr c) +:+ nl +:+ "metricsAddr: " +:+ goq (rc_MetricsAddr c) +:+ nl
  +:+ "tracingEndpoint: " +:+ goq "" +:+ nl +:+ "defaultRoutingGroup: " +:+ goq (rc_DefaultGroup c) +:+ nl +:+ "methods:" +:+ nl
  +:+ concat_str (method_text <$> rc_Methods c).

Record RoutingService : Type := mkRs { rs_GRPCAddr : string; rs_AdminAddr : string; rs_MetricsAddr : string; rs_cmd : nat; rs_stopped : bool }.

Definition waitServing (rs : RoutingService) (deadline : Z) : T unit :=
  conn ← lift "routing-service: dial data-plane for health" (grpc_dial (rs_GRPCAddr rs));
  r ← call (poll_ctx took tie (turns deadline (150 * Millisecond)) (health_serving conn (2 * Second)) (150 * Millisecond) 0 deadline);
  _ ← call (grpc_close conn);
  match r with Some true => mret tt | _ => fatal "routing-service: data-plane did not report SERVING within 30s" end.

Definition StartRoutingService (fuel : nat) (defaultGroup : string) (methods : list MethodConfig) : T (option RoutingService) :=
  data ← FreePort;
  admin ← fresh_port fuel [data];
  match admin with
  | None => mret None
  | Some admin =>
      metrics ← fresh_port fuel [data; admin];
      match metrics with
      | None => mret None
      | Some metrics =>
          let yaml := renderRoutingServiceConfig (mkRsConfig (local_addr data) (local_addr admin) (local_addr metrics) defaultGroup methods) in
          dir ← call temp_dir;
          let cfgPath := path_join dir "routing-service.yaml" in
          _ ← lift "routing-service: write config" (write_file cfgPath yaml);
          bin ← RoutingServiceBinaryPath;
          p ← launch "routing-service" bin ["--config"; cfgPath];
          let rs := mkRs (local_addr data) (local_addr admin) (local_addr metrics) p false in
          _ ← waitServing rs (30 * Second);
          mret (Some rs)
      end
  end.

(** Stopping it early; the cleanup then leaves the process alone. *)
Definition rs_Stop (rs : RoutingService) : T RoutingService :=
  if rs_stopped rs then mret rs else
  _ ← disown (Process (rs_cmd rs)) (shutdown (rs_cmd rs));
  mret (mkRs (rs_GRPCAddr rs) (rs_AdminAddr rs) (rs_MetricsAddr rs) (rs_cmd rs) true).

Definition rs_AdminClient (rs : RoutingService) : T nat :=
  conn ← lift "routing-service: dial admin" (grpc_dial (rs_AdminAddr rs));
  _ ← owns [GrpcConn conn];
  mret conn.
Definition rs_DisableMethod (rs : RoutingService) (methodType : string) : T unit :=
  client ← rs_AdminClient rs;
  lift ("routing-service: DisableMethod(" +:+ goq methodType +:+ ")") (disable_method client (5 * Second) methodType).

(** ** The mock router under test *)
Definition waitTCPAccept (addr : string) (deadline : Z) : ST W (option bool) :=
  poll_before took (turns deadline (100 * Millisecond)) (dial_tcp addr (1 * Second)) (100 * Millisecond) 0 deadline.
Definition StartMockGRPCRouter (group : string) : T (string * nat) :=
  port ← FreePort;
  let addr := local_addr port in
  bin ← mockGRPCRouterBinaryPath;
  p ← launch "mock-router" bin ["--addr"; addr; "--group"; group];
  _ ← await ("mock-router: " +:+ addr +:+ " did not accept connections within 30s") (waitTCPAccept addr (30 * Second));
  mret (addr, p).

(** ** Nothing is left behind *)
Section tidy.
Context (open : W → list resource).
Context (Hcont : ∀ req, makes open (λ c, [Container c]) (generic_container req)) (Hport : ∀ c p, quiet open (mapped_port c p))
        (Hhost : ∀ c, quiet open (host_of c)) (Hterm : ∀ c, gives open (Container c) (terminate c))
        (Hopen : ∀ d s, makes open (λ db, [DBPool db]) (sql_open d s)) (Hping : ∀ d, quiet open (ping d))
        (Hclose : ∀ d, gives open (DBPool d) (close_db d))
        (Hlisten : makes open (λ lp, [Listener lp.1]) listen) (Hlclose : ∀ l, gives open (Listener l) (close_listener l)).
Context (Htie : quiet open tie) (Htemp : quiet open temp_dir) (Hwrite : ∀ p c, quiet open (write_file p c)) (Hbuild : ∀ d o p, quiet open (go_build d o p))
        (Hhttp : ∀ t o, quiet open (http_do t o)) (Hctx : ∀ w, open (new_ctx w).2 ≡ₚ Ctx (new_ctx w).1 :: open w) (Hcancel : ∀ k, gives open (Ctx k) (cancel k))
        (Hstart : ∀ k b a, makes open (λ p, [Process p]) (start k b a)).
(** A process is gone when [Wait] has returned. *)
Context (Hsig : ∀ p, quiet open (sigterm p)) (Hkill : ∀ p, gives open (Process p) (kill_and_wait p))
        (Hwait : ∀ p d w rest, open w ≡ₚ Process p :: rest →
           open (wait_for_exit p d w).2 ≡ₚ (if wait_for_exit p d w is (None, _) then [Process p] else []) ++ rest).
Context (Hdial : ∀ a, makes open (λ c, [GrpcConn c]) (grpc_dial a)) (Hgclose : ∀ c, gives open (GrpcConn c) (grpc_close c))
        (Hhealth : ∀ c d, quiet open (health_serving c d)) (Hdis : ∀ c d m, quiet open (disable_method c d m)) (Htcp : ∀ a d, quiet open (dial_tcp a d)).

Lemma poll_ctx_quiet fuel attempt interval t end_ : quiet open attempt → quiet open (poll_ctx took tie fuel attempt interval t end_).
Proof using Htie.
  intros Ha. revert t. induction fuel as [|fuel IH]; intros t w; [done|]. cbn [poll_ctx]. pose proof (Ha w) as H1. destruct (attempt w) as [[|] w1]; [done|].
  cbn in H1. destruct (_ <? _); [done|]. destruct (_ <? _); [by rewrite IH|]. pose proof (Htie w1) as H2. destruct (tie w1) as [[|] w2]; cbn in H2.
  - cbn. by rewrite H2.
  - by rewrite IH, H2.
Qed.
Lemma poll_before_quiet fuel attempt interval t end_ : quiet open attempt → quiet open (poll_before took fuel attempt interval t end_).
Proof using Type.
  intros Ha. revert t. induction fuel as [|fuel IH]; intros t w; [done|]. cbn [poll_before]. destruct (negb _); [done|].
  pose proof (Ha w) as H1. destruct (attempt w) as [[|] w1]; [done|]. cbn in H1. by rewrite IH.
Qed.
Lemma bind_quiet {A B} (m : ST W A) (f : A → ST W B) : quiet open m → (∀ a, quiet open (f a)) → quiet open (m ≫= f).
Proof using Type. intros Hm Hf w. unfold mbind, ST_bind. pose proof (Hm w) as H1. destruct (m w) as [a w1]. cbn in H1. by rewrite (Hf a w1). Qed.
Lemma ret_quiet {A} (a : A) : quiet open (mret a : ST W A).
Proof using Type. by intros w. Qed.

Lemma shutdown_gives p : gives open (Process p) (shutdown p).
Proof using Hsig Hkill Hwait.
  intros w rest Hw. unfold shutdown, mbind, ST_bind. pose proof (Hsig p w) as H1. destruct (sigterm p w) as [u w1]. cbn in H1. rewrite Hw in H1.
  pose proof (Hwait p (5 * Second) w1 rest H1) as H2. destruct (wait_for_exit p (5 * Second) w1) as [[e|] w2]; cbn in *; [done|].
  pose proof (Hkill p w2 rest H2) as H3. by destruct (kill_and_wait p w2) as [v w3].
Qed.
#[local] Hint Resolve poll_ctx_quiet poll_before_quiet ret_quiet shutdown_gives holds_make free_port_tidy dsn_tidy : tidy.

Lemma fresh_port_tidy fuel taken : holds open [] (fresh_port fuel taken) (λ _, []).
Proof using Hlisten Hlclose. induction fuel as [|fuel IH]; cbn [fresh_port]; tidy. Qed.
Lemma project_root_tidy : holds open [] projectRoot (λ _, []).
Proof using Type. unfold projectRoot. tidy. Qed.
#[local] Hint Resolve fresh_port_tidy project_root_tidy : tidy.
Lemma at_root_tidy : holds open [] at_root (λ _, []).
Proof using Htemp. unfold at_root. tidy. Qed.
Lemma built_tidy what env out pkg places : holds open [] places (λ _, []) → holds open [] (built what env out pkg places) (λ _, []).
Proof using Hbuild. intros Hp. unfold built. tidy. Qed.
Lemma new_ctx_tidy : holds open [] (call new_ctx) (λ k, [Ctx k]).
Proof using Hctx. intros s Hs. unfold pending, call in *. pose proof (Hctx (tb_world s)) as H1. destruct (new_ctx (tb_world s)) as [k w]. cbn in *. by rewrite H1, Hs. Qed.
#[local] Hint Resolve at_root_tidy built_tidy new_ctx_tidy : tidy.
Lemma launch_tidy what bin args : holds open [] (launch what bin args) (λ _, []).
Proof using Hctx Hcancel Hstart. unfold launch. tidy. Qed.
Lemma await_tidy msg m : quiet open m → holds open [] (await msg m) (λ _, []).
Proof using Type. intros Hm. unfold await. tidy. Qed.
Lemma binary_path_tidy : holds open [] BinaryPath (λ _, []).
Proof using Hbuild Htemp. unfold BinaryPath. tidy. Qed.
Lemma mock_binary_path_tidy : holds open [] mockGRPCRouterBinaryPath (λ _, []).
Proof using Hbuild Htemp. unfold mockGRPCRouterBinaryPath. tidy. Qed.
Lemma service_binary_path_tidy : holds open [] RoutingServiceBinaryPath (λ _, []).
Proof using Hbuild Htemp. unfold RoutingServiceBinaryPath. apply built_tidy. tidy. Qed.
Lemma get_quiet {A} d url (f : call_result response → A) : quiet open (r ← get d url; mret (f r)).
Proof using Hhttp. apply bind_quiet; [apply Hhttp|]. intros r. apply ret_quiet. Qed.
#[local] Hint Resolve launch_tidy await_tidy binary_path_tidy mock_binary_path_tidy service_binary_path_tidy get_quiet : tidy.

(** Wherever starting the gateway stops, and wherever the readiness wait ends, what is open
    is registered for cleanup. *)
Lemma new_tidy fuel opts : holds open [] (New fuel opts) (λ _, []).
Proof using Hcont Hport Hhost Hterm Hopen Hping Hclose Hlisten Hlclose Htie Htemp Hwrite Hbuild Hhttp Hctx Hcancel Hstart.
  unfold New. eapply holds_bind; [by eauto with tidy|]. intros dsn. eapply holds_bind; [by eauto with tidy|]. intros proxy.
  eapply holds_bind; [by eauto with tidy|]. intros [admin|]; [|tidy]. destruct (buildConfig _); [|tidy].
  tidy. unfold waitReady, waitListening. eapply holds_bind; [destruct (skipReadyzWait _)|]; tidy.
Qed.
Lemma wait_serving_tidy rs d : holds open [] (waitServing rs d) (λ _, []).
Proof using Htie Hdial Hgclose Hhealth. unfold waitServing. tidy. Qed.
#[local] Hint Resolve wait_serving_tidy : tidy.
Lemma start_service_tidy fuel group methods : holds open [] (StartRoutingService fuel group methods) (λ _, []).
Proof using Hlisten Hlclose Htie Htemp Hwrite Hbuild Hctx Hcancel Hstart Hdial Hgclose Hhealth.
  unfold StartRoutingService. eapply holds_bind; [by eauto with tidy|]. intros data. eapply holds_bind; [by eauto with tidy|]. intros [admin|]; [|tidy].
  eapply holds_bind; [by eauto with tidy|]. intros [metrics|]; tidy.
Qed.
Lemma disable_method_tidy rs ty : holds open [] (rs_DisableMethod rs ty) (λ _, []).
Proof using Hdial Hdis. unfold rs_DisableMethod, rs_AdminClient. eapply holds_bind; tidy. Qed.
Lemma start_mock_tidy group : holds open [] (StartMockGRPCRouter group) (λ _, []).
Proof using Hlisten Hlclose Htemp Hbuild Hctx Hcancel Hstart Htcp. unfold StartMockGRPCRouter, waitTCPAccept. tidy. Qed.
Lemma admin_client_quiet token o : quiet open (AdminClient token o).
Proof using Hhttp. unfold AdminClient, bearer_RoundTrip. destruct (token =?s ""); apply Hhttp. Qed.
Lemma backend_visible_quiet url name : quiet open (backendVisible (AdminClient "") url name).
Proof using Hhttp. unfold backendVisible. apply bind_quiet; [apply admin_client_quiet|]. intros r. apply ret_quiet. Qed.
Lemma post_quiet o :
  quiet open (λ w, match AdminClient "" o w with (COk r, w') => (Ok r, w') | (CErr e, w') => (Err (ce_msg e) : go_result response, w') end).
Proof using Hhttp. intros w. pose proof (admin_client_quiet "" o w) as H1. by destruct (AdminClient "" o w) as [[r|e] w1]. Qed.
#[local] Hint Resolve backend_visible_quiet post_quiet : tidy.
Lemma add_backend_tidy h name group fake : holds open [] (AddBackend h name group fake) (λ _, []).
Proof using Hhttp. unfold AddBackend. tidy. Qed.
(** Stopping the routing service early leaves nothing to its cleanup. *)
Lemma stop_tidy rs s : pending open [] s → (rs_stopped rs = false → Process (rs_cmd rs) ∈ tb_cleanups s) → pending open [] (snd (rs_Stop rs s)).
Proof using Hsig Hkill Hwait.
  intros Hs Hin. unfold rs_Stop. destruct (rs_stopped rs); [done|]. unfold mbind, T_bind.
  pose proof (holds_disown open _ (shutdown (rs_cmd rs)) s (shutdown_gives _) Hs (Hin eq_refl)) as Hd.
  unfold disown in *. by destruct (shutdown (rs_cmd rs) (tb_world s)) as [a w].
Qed.
End tidy.
End harness.

(** ** Waiting ends *)
Section waits.
Context {W : Type} (took : W → Z) (tie : ST W bool) (attempt : ST W bool) (interval : Z) (Hi : 0 < interval).

Lemma turns_enough deadline : 0 ≤ deadline → deadline - 0 ≤ (Z.of_nat (turns deadline interval) - 1) * interval.
Proof using Hi.
  intros Hd. unfold turns. rewrite !Nat2Z.inj_succ, Z2Nat.id by (by apply Z.div_pos). pose proof (Z.mod_pos_bound deadline interval Hi) as Hm.
  pose proof (Z.div_mod deadline interval ltac:(lia)) as Hdm. lia.
Qed.
Lemma poll_ctx_ends fuel t end_ w : (0 < fuel)%nat → end_ - t ≤ (Z.of_nat fuel - 1) * interval →
  ∃ b, (poll_ctx took tie fuel attempt interval t end_ w).1 = Some b.
Proof using Hi.
  revert t w. induction fuel as [|fuel IH]; intros t w Hp Hf; [lia|]. cbn [poll_ctx]. destruct (attempt w) as [[|] w1]; [by eexists|].
  set (t' := t + Z.max 0 (took w1) + interval). assert (end_ - t' ≤ (Z.of_nat fuel - 1) * interval) as Ht by (unfold t'; lia).
  destruct (Z.ltb_spec end_ t'); [by eexists|]. assert (0 < fuel)%nat by (destruct fuel; [cbn in Ht; lia|lia]).
  destruct (t' <? end_); [by apply IH|]. destruct (tie w1) as [[|] w2]; [by eexists|by apply IH].
Qed.
Lemma poll_before_ends fuel t end_ w : (0 < fuel)%nat → end_ - t ≤ (Z.of_nat fuel - 1) * interval →
  ∃ b, (poll_before took fuel attempt interval t end_ w).1 = Some b.
Proof using Hi.
  revert t w. induction fuel as [|fuel IH]; intros t w Hp Hf; [lia|]. cbn [poll_before]. destruct (Z.ltb_spec t end_); cbn [negb]; [|by eexists].
  destruct (attempt w) as [[|] w1]; [by eexists|]. apply IH; [destruct fuel; [cbn in Hf; lia|lia]|lia].
Qed.
(** A wait that reports success ended with an attempt that succeeded. *)
Lemma poll_ctx_true fuel t end_ w w' : poll_ctx took tie fuel attempt interval t end_ w = (Some true, w') → ∃ w0, attempt w0 = (true, w').
Proof using Type.
  revert t w. induction fuel as [|fuel IH]; intros t w; [done|]. cbn [poll_ctx]. destruct (attempt w) as [[|] w1] eqn:Ea; [intros [= <-]; by exists w|].
  destruct (_ <? _); [done|]. destruct (_ <? _); [apply IH|]. destruct (tie w1) as [[|] w2]; [done|apply IH].
Qed.
Lemma poll_before_true fuel t end_ w w' : poll_before took fuel attempt interval t end_ w = (Some true, w') → ∃ w0, attempt w0 = (true, w').
Proof using Type.
  revert t w. induction fuel as [|fuel IH]; intros t w; [done|]. cbn [poll_before]. destruct (negb _); [done|].
  destruct (attempt w) as [[|] w1] eqn:Ea; [intros [= <-]; by exists w|]. apply IH.
Qed.
End waits.

(** ** The log shows complete lines *)
Lemma cut_newline_split s : match cut_byte newline s with
  | Some (a, r) => mem_byte newline a = false ∧ s = a +:+ nl +:+ r
  | None => mem_byte newline s = false
  end.
Proof.
  induction s as [|c s IH]; [done|]. cbn [cut_byte]. destruct (Ascii.eqb_spec c newline) as [->|Hc]; [done|].
  destruct (cut_byte newline s) as [[a r]|]; cbn [mem_byte].
  - destruct IH as [IH ->]. split; [|done]. rewrite IH. by destruct (Ascii.eqb_spec newline c); [congruence|].
  - rewrite IH. by destruct (Ascii.eqb_spec newline c); [congruence|].
Qed.
Lemma mem_byte_rev b s : mem_byte b (str_rev s) = mem_byte b s.
Proof. induction s as [|c s IH]; [done|]. rewrite str_rev_cons, mem_byte_app, IH. cbn. by rewrite orb_false_r, orb_comm. Qed.
Lemma trim_right_newline a : mem_byte newline a = false → trim_right_byte newline (a +:+ nl) = a.
Proof.
  intros Ha. unfold trim_right_byte. rewrite str_rev_app_distr. change (str_rev nl +:+ ?r) with (String newline r).
  cbn [drop_while]. rewrite Ascii.eqb_refl. rewrite <- mem_byte_rev in Ha.
  assert (drop_while (Ascii.eqb newline) (str_rev a) = str_rev a) as ->; [|apply str_rev_involutive].
  destruct (str_rev a) as [|c s]; [done|]. cbn in Ha |- *. by apply orb_false_iff in Ha as [-> _].
Qed.

(** The complete lines of a text and what follows the last of them. *)
Definition complete (s : string) : list string := removelast (split_on newline s).
Definition partial (s : string) : string := from_opt "" (last (split_on newline s)).
Lemma split_complete s : split_on newline s = complete s ++ [partial s].
Proof.
  unfold complete, partial. pose proof (split_on_nonempty newline s) as Hn. destruct (split_on newline s) as [|l ls _] using rev_ind; [done|].
  by rewrite removelast_last, last_snoc.
Qed.
Lemma log_lines_complete fuel prefix s : (String.length s < fuel)%nat →
  log_lines fuel prefix s = ((λ l, prefix +:+ ": " +:+ l) <$> complete s, partial s).
Proof.
  revert s. induction fuel as [|fuel IH]; intros s Hf; [lia|]. cbn [log_lines]. pose proof (cut_newline_split s) as Hc.
  destruct (cut_byte newline s) as [[a r]|].
  - destruct Hc as [Ha ->]. rewrite !str_length_app in Hf. cbn in Hf. rewrite IH by lia. rewrite trim_right_newline by done.
    unfold complete, partial. change (a +:+ nl +:+ r) with (a +:+ String newline r). rewrite split_on_app by done.
    pose proof (split_on_nonempty newline r). by destruct (split_on newline r).
  - unfold complete, partial. by rewrite split_on_single.
Qed.
Lemma split_on_more s p : split_on newline (s +:+ p) = complete s ++ split_on newline (partial s +:+ p).
Proof.
  remember (String.length s) as n eqn:Hn. revert s Hn. induction n as [n IH] using lt_wf_ind. intros s ->. pose proof (cut_newline_split s) as Hc.
  destruct (cut_byte newline s) as [[a r]|].
  - destruct Hc as [Ha ->]. assert (String.length r < String.length (a +:+ nl +:+ r))%nat as Hlt by (rewrite !str_length_app; cbn; lia).
    specialize (IH _ Hlt r eq_refl). unfold complete, partial in *. rewrite !str_app_assoc. change (nl +:+ ?x) with (String newline x).
    rewrite !split_on_app, IH by done. pose proof (split_on_nonempty newline r) as Hne. by destruct (split_on newline r).
  - unfold complete, partial. by rewrite (split_on_single newline s).
Qed.

(** However the output of a process is cut into writes, the log shows its complete lines,
    each once and in order, and the buffer holds what follows. *)
Theorem log_shows_lines prefix ps :
  foldl (λ l p, lw_Write prefix p l) (mkLogWriter "" []) ps
  = mkLogWriter (partial (concat_str ps)) ((λ l, prefix +:+ ": " +:+ l) <$> complete (concat_str ps)).
Proof.
  assert (Hgen : ∀ t, foldl (λ l p, lw_Write prefix p l) (mkLogWriter (partial t) ((λ l, prefix +:+ ": " +:+ l) <$> complete t)) ps
    = mkLogWriter (partial (t +:+ concat_str ps)) ((λ l, prefix +:+ ": " +:+ l) <$> complete (t +:+ concat_str ps))).
  { induction ps as [|p ps IH]; intros t; cbn [foldl concat_str]; [by rewrite str_app_nil_r|].
    rewrite <- str_app_assoc, <- IH. f_equal. unfold lw_Write. cbn [lw_buf lw_logged]. rewrite log_lines_complete by lia.
    assert (Hs : complete (t +:+ p) = complete t ++ complete (partial t +:+ p) ∧ partial (t +:+ p) = partial (partial t +:+ p)).
    { pose proof (split_on_more t p) as Hm. rewrite (split_complete (t +:+ p)), (split_complete (partial t +:+ p)), app_assoc in Hm.
      by apply app_inj_tail in Hm as [-> ->]. }
    destruct Hs as [-> ->]. by rewrite fmap_app. }
  apply (Hgen "").
Qed.

(** ** The project's root *)
Fixpoint ancestors (fuel : nat) (dir : string) : list string :=
  match fuel with O => [] | S fuel => dir :: (if path_dir dir =?s dir then [] else ancestors fuel (path_dir dir)) end.
Lemma last_index_bound b s i : last_index_byte b s = Some i → (i < String.length s)%nat.
Proof.
  revert i. induction s as [|c s IH]; intros i; [done|]. cbn. destruct (last_index_byte b s) as [j|]; [intros [= <-]; specialize (IH j eq_refl); lia|].
  destruct (Ascii.eqb c b); [intros [= <-]; lia|done].
Qed.
Lemma path_dir_shorter dir : has_prefix "/" dir = true → path_dir dir ≠ dir →
  has_prefix "/" (path_dir dir) = true ∧ (String.length (path_dir dir) < String.length dir)%nat.
Proof.
  intros Hp Hne. apply has_prefix_spec in Hp as [r ->]. unfold path_dir in *. destruct (last_index_byte "/" ("/" +:+ r)) as [[|i]|] eqn:E.
  - split; [done|]. destruct r; [done|]. rewrite str_length_app. cbn [String.length]. lia.
  - apply last_index_bound in E. split; [done|]. rewrite str_take_length; lia.
  - exfalso. change (last_index_byte "/" ("/" +:+ r)) with (match last_index_byte "/" r with Some i => Some (S i) | None => Some O end) in E.
    by destruct (last_index_byte "/" r).
Qed.
(** The nearest directory with a go.mod, from the working directory upwards. *)
Lemma find_root_nearest exists_ fuel dir : has_prefix "/" dir = true → (String.length dir < fuel)%nat →
  find_root exists_ fuel dir
  = Some match find_first (λ d, exists_ (path_join d "go.mod")) (ancestors fuel dir) with
         | Some d => Ok d
         | None => Err "harness: project root (go.mod) not found"
         end.
Proof.
  revert dir. induction fuel as [|fuel IH]; intros dir Hp Hf; [lia|]. cbn [find_root ancestors find_first]. destruct (exists_ _); [done|].
  destruct (path_dir dir =?s dir) eqn:E; [done|]. apply seqb_neq in E. destruct (path_dir_shorter dir Hp E). apply IH; [done|lia].
Qed.

(** ** Ports *)
Section ports.
Context {W : Type} (listen : ST W (go_result (nat * Z))) (close_listener : nat → ST W (go_result unit)).
Lemma fresh_port_new fuel taken s p s' : fresh_port listen close_listener fuel taken s = (Ok (Some p), s') → p ∉ taken.
Proof using Type.
  revert s. induction fuel as [|fuel IH]; intros s; [done|]. cbn [fresh_port]. unfold mbind at 1, T_bind at 1.
  destruct (FreePort listen close_listener s) as [[q|e] s1]; [|done]. destruct (existsb (Z.eqb q) taken) eqn:E; [apply IH|]. intros [= <- <-] Hin.
  apply not_true_iff_false in E. apply E, existsb_exists. exists q. split; [by apply list_elem_of_In|apply Z.eqb_refl].
Qed.
End ports.
