(* ===== verification/HarnessApi.v ===== *)
(** * The end-to-end harness against the admin API

    [AddBackend] of internal/e2e/harness/harness.go with the admin listener of a gateway at
    the other end: its requests are delivered as net/http delivers them ([Wire]), matched to
    a route, and served by the handlers of internal/admin behind the no-op authentication
    ([AdminServe]) over the store of internal/persistence. *)
From S2P Require Import Prelude GoStrings GoNumeric Json HttpModel Config Routing ClusterStats Monitor Auth AdminAuth Sql Persistence Store AdminApi StaticUI AdminProps AdminServe Wire TestTB HarnessConfig E2EHarness.

#[local] Open Scope Z_scope.

(** What chi promises of a route without parameters: a request with its method and path is
    handed to it. *)
Definition static_pattern (p : string) : bool := negb (mem_byte "{" p) && negb (mem_byte "*" p).
Class ChiMux (table : list registration) (route : request → option registration) : Prop :=
  chi_static reg r : reg ∈ table → static_pattern (reg_pattern reg) = true →
    req_method r = reg_method reg → url_path (req_url r) = reg_pattern reg → route r = Some reg.

(** The text of a reply: [json.NewEncoder(w).Encode] ends with a newline. *)
Definition body_text (b : body) : string := match b with BText s => s | BJson j => print_json j +:+ nl end.
Definition received (r : reply) : response := Response (rp_status r) (rp_header r) (body_text (rp_body r)) None.

Lemma entity_routed metrics : mkReg "POST" "/entity" (WithRole RoleAdmin) h_upsertEntity ∈ buildRouter metrics.
Proof. apply list_elem_of_In. unfold buildRouter. rewrite !in_app_iff. cbn. tauto. Qed.
Lemma listing_routed metrics : mkReg "GET" "/gateway/backend/all" (WithRole RoleAPI) h_listAllBackends ∈ buildRouter metrics.
Proof. apply list_elem_of_In. unfold buildRouter. rewrite !in_app_iff. cbn. tauto. Qed.

Lemma existsb_perm {A} (f : A → bool) (l k : list A) : l ≡ₚ k → existsb f l = existsb f k.
Proof. induction 1; cbn; [done|by f_equal|by rewrite !orb_assoc, (orb_comm (f y))|by etrans]. Qed.

Section listener.
Context {S X K : Type} `{StoreOps S} (env : api_env).
Context (ParseWithClaims : K → string → option (gmap string json)) (new_request_ok : string → string → bool)
  (Do : out_request → ST X (call_result response)) (wl : option (OIDCWebLogin (K := K)))
  (draws : request → option string * option string) (UIFS : option (string → option ui_file))
  (ServeContent : request → string → string → reply) (metrics_handler : request → reply).
(** The matching of routes, the address of the test, and what a refused connection says. *)
Context (route : request → option registration) (remote : string) (refused : call_error).

#[local] Abbreviation world := (admin_state S * X)%type.
#[local] Abbreviation run := (handle env ParseWithClaims new_request_ok Do wl draws UIFS ServeContent metrics_handler).

(** The client of the test, with the gateway's admin listener at the other end. *)
Definition admin_http (addr : string) (timeout : Z) (o : out_request) : ST world (call_result response) := λ w,
  match deliver remote (λ _, []) o with
  | Some (host, r) =>
      if negb (host =?s addr) then (CErr refused, w) else
      match route r with
      | Some reg =>
          let '((rep, _), w') := serve (en_match env) (Authorization (en_auth env)) (Some Noop) run reg None r w in
          (COk (as_received (or_method o) (received rep)), w')
      | None => (COk (fst not_found), w)
      end
  | None => (CErr refused, w)
  end.

Context (rep : S → store → Prop) (up dates : Prop) (round : Z → Z) `{!StoreSpec S rep up dates round}.
Context (metrics : option string) `{!ChiMux (buildRouter metrics) route}.
(** The regular expressions of the harness admit everybody. *)
Context (c : harnessConfig) (Hroles : hc_roles c = hc_roles harness_defaults)
  (Hauth : Authorization (en_auth env) = Authorization (Auth (wanted c))) (Hmatch : en_match env ".*" "" = Some true).

Lemma anonymous_has_role role : role ∈ [RoleAPI; RoleAdmin] →
  HasRole (en_match env) (Some (mkPrincipal "anonymous" "")) role (Authorization (en_auth env)) = true.
Proof using Hroles Hauth Hmatch.
  intros Hr. rewrite Hauth. unfold wanted. rewrite Hroles. cbn.
  rewrite !elem_of_cons in Hr. destruct Hr as [-> | [-> | []%elem_of_nil]]; cbn; by rewrite Hmatch.
Qed.

Lemma local_host port : plain_host (local_addr port) = true.
Proof using Type.
  unfold local_addr, plain_host. change ("127.0.0.1:" +:+ z_to_dec port =?s "") with false. cbn [negb andb].
  rewrite str_forallb_app. cbn [str_forallb andb]. eapply str_forallb_impl; [|apply z_to_dec_chars].
  intros a Ha. assert (H0 : implb (digit_or_minus a) (host_byte a) = true).
  { clear Ha. revert a. apply (ascii_forall (λ c, implb (digit_or_minus c) (host_byte c))). by vm_compute. }
  by rewrite Ha in H0.
Qed.

(** A request of the test to a route of an operator runs its handler. *)
Lemma admin_http_runs port t meth p q hd body reg role w :
  reg ∈ buildRouter metrics → static_pattern (reg_pattern reg) = true → reg_access reg = WithRole role → role ∈ [RoleAPI; RoleAdmin] →
  meth = reg_method reg → meth ≠ "HEAD" → reg_pattern reg = String "/" p → str_forallb path_byte p = true → mem_byte "#" q = false →
  let r := Request meth (Url "" "" "" "" (String "/" p) "" q false "") (local_addr port) remote false hd ∅ [] body in
  admin_http (local_addr port) t
    (OutRequest meth (local_url port +:+ String "/" p +:+ (if q =?s "" then "" else String "?" q)) hd body) w
  = let x := run (reg_handler reg) (Some (mkPrincipal "anonymous" "")) r w in (COk (received x.1.1), x.2).
Proof using All.
  intros Hin Hst Hacc Hrole Hm Hh Hp Hpb Hq r. unfold admin_http.
  change (local_url port) with ("http://" +:+ local_addr port). rewrite !str_app_assoc.
  rewrite deliver_plain by (done || apply local_host). fold r. rewrite seqb_refl. cbn [negb].
  rewrite (chi_static reg) by (done || by rewrite Hp). unfold serve. rewrite Hacc. cbn [from_opt]. unfold Noop, RequireRole, count.
  rewrite anonymous_has_role by done. unfold mbind, ST_bind. destruct (run _ _ r w) as [[rp es] w']. cbn. unfold as_received.
  destruct (meth =?s "HEAD") eqn:E; [by seqb_simpl|done].
Qed.

(** ** A backend that is added is shown *)

(** Names and URLs in ASCII. *)
Definition shown_plainly (b : Persistence.Backend) : Prop := wf_json (proxy_json (proxyBackendFromPersistence b)) = true.

Lemma listing_depth (bs : list Persistence.Backend) : (jheight (JArr ((proxy_json ∘ proxyBackendFromPersistence) <$> bs)) ≤ 2)%nat.
Proof using Type. cbn. induction bs as [|b bs IH]; cbn in *; lia. Qed.

Lemma named_in_listing name (bs : list Persistence.Backend) : Forall shown_plainly bs →
  named_in name (print_json (JArr ((proxy_json ∘ proxyBackendFromPersistence) <$> bs)) +:+ nl) = existsb (λ b, b_Name b =?s name) bs.
Proof using Type.
  intros Hb. unfold named_in. rewrite decode_print_nl.
  - cbn iota. rewrite <- list_fmap_compose.
    assert (Hd : ∀ b, (dec_struct set_visible_field ("", "") ∘ (proxy_json ∘ proxyBackendFromPersistence)) b = ((b_Name b, ""), false)) by done.
    rewrite (list_fmap_ext _ (λ b, ((b_Name b, ""), false)) bs) by (intros; apply Hd). clear.
    assert (Hs : existsb snd ((λ b, (b_Name b, "", false)) <$> bs) = false) by (by induction bs).
    rewrite Hs. cbn [negb andb]. clear Hs. induction bs as [|b bs IH]; [done|]. rewrite fmap_cons. cbn [existsb fst]. by rewrite IH.
  - cbn [wf_json]. apply forallb_forall. intros j Hj. apply list_elem_of_In, list_elem_of_fmap in Hj as (b & -> & Hin).
    rewrite Forall_forall in Hb. by apply Hb.
  - pose proof (listing_depth bs). unfold max_nesting_depth. lia.
Qed.

Lemma decode_backend_body r name group url :
  req_body r = Ok (print_json (backend_body name group url)) → wf_json (backend_body name group url) = true →
  Z.of_nat (String.length (print_json (backend_body name group url))) < 2 ^ 20 →
  decode_proxy r = Some (mkProxyBackend name url "" true group).
Proof using Type.
  intros Hb Hw Hlen. unfold decode_proxy, decodeJSON, decode_body. rewrite Hb.
  replace (2 ^ 20 <=? _) with false by (symmetry; apply Z.leb_gt; lia).
  unfold unmarshal. rewrite unmarshal_print; [done|done|by vm_compute].
Qed.

Context (took : admin_state S * X → Z).
#[local] Abbreviation http addr := (admin_http addr).

Lemma visible_listed port name s x st : rep (ad_store s) st → up → Forall shown_plainly (st_backends st) →
  ∃ s', backendVisible (AdminClient (http (local_addr port)) "") (local_url port) name (s, x)
        = (existsb (λ b, b_Name b =?s name) (st_backends st), (s', x)) ∧ rep (ad_store s') st.
Proof using All.
  intros Hr Hup Hpl. unfold backendVisible, mbind, ST_bind.
  change (AdminClient (http (local_addr port)) "") with (http (local_addr port) (30 * Second)).
  pose proof (admin_http_runs port (30 * Second) "GET" "gateway/backend/all" "" ∅ (Ok "")
    (mkReg "GET" "/gateway/backend/all" (WithRole RoleAPI) h_listAllBackends) RoleAPI (s, x)) as E.
  cbn zeta in E. rewrite str_app_nil_r in E. rewrite E by (done || apply listing_routed || left). clear E.
  cbn [reg_handler handle on_api]. unfold listAllBackends, mbind, ST_bind.
  destruct (in_store_reads rep _ _ s _ (spec_List (rep := rep)) Hr) as (s2 & Hr2 & Hs2 & Hl).
  destruct (in_store so_List s) as [[l|e] a2]; cbn [fst snd] in *; [|done]. subst a2.
  eexists (mkAdmin s2 _ _ _). split; [|exact Hr2]. cbn [fst snd mret ST_ret]. unfold backends_reply, writeJSON, received. cbn [rp_status rp_body rp_header resp_status resp_body body_text fst snd].
  f_equal. change (200 =? 200) with true. cbn [andb]. rewrite named_in_listing by (by rewrite Hl). by apply existsb_perm.
Qed.

Lemma posted_backend port name group fake s x st : rep (ad_store s) st → up →
  wf_json (backend_body name group fake) = true → Z.of_nat (String.length (print_json (backend_body name group fake))) < 2 ^ 20 →
  ∃ resp s', http (local_addr port) (30 * Second)
      (OutRequest "POST" (local_url port +:+ "/entity?entityType=GATEWAY_BACKEND") (hdr_set "Content-Type" "application/json" ∅)
         (Ok (print_json (backend_body name group fake)))) (s, x) = (COk resp, (s', x))
    ∧ resp_status resp = 200
    ∧ rep (ad_store s') (st_upsert (kept_backend round (Persistence.mkBackend name fake "" group true (en_now env) (en_now env))) st).
Proof using All.
  pose proof (admin_http_runs port (30 * Second) "POST" "entity" "entityType=GATEWAY_BACKEND" (hdr_set "Content-Type" "application/json" ∅)
    (Ok (print_json (backend_body name group fake))) (mkReg "POST" "/entity" (WithRole RoleAdmin) h_upsertEntity) RoleAdmin (s, x)) as E.
  cbn zeta in E. change (String "/" "entity" +:+ _) with "/entity?entityType=GATEWAY_BACKEND" in E.
  specialize (E (entity_routed _) eq_refl eq_refl ltac:(right; left) eq_refl ltac:(done) eq_refl eq_refl eq_refl).
  intros Hr Hup Hw Hlen. rewrite E. clear E. cbn [reg_handler handle on_api]. set (r := Request _ _ _ _ _ _ _ _ _).
  unfold upsertEntity. change (query_get _ _) with "GATEWAY_BACKEND". change (negb _) with false. cbn iota.
  rewrite (decode_backend_body r name group fake) by done. unfold mbind, ST_bind.
  destruct (in_store_writes rep up _ _ s st (spec_Upsert (rep := rep) (persistenceBackendFromProxy (en_now env) (mkProxyBackend name fake "" true group))) Hr Hup)
    as (s1 & Hs1 & ->).
  destruct (en_has_status_mut env); cbn; eexists _, _; (split; [reflexivity|]); split; [done|exact Hs1|done|exact Hs1].
Qed.

Lemma body_plain name group fake :
  wf_json (backend_body name group fake) = all_ascii name && (all_ascii fake && all_ascii group).
Proof using Type.
  unfold backend_body. cbn [wf_json forallb fst snd]. change (all_ascii "active") with true. change (all_ascii "name") with true.
  change (all_ascii "proxyTo") with true. change (all_ascii "routingGroup") with true. cbn [andb]. by rewrite andb_true_r.
Qed.
Lemma shown_plain name group fake a t1 t2 :
  all_ascii name && (all_ascii fake && all_ascii group) = true → shown_plainly (Persistence.mkBackend name fake "" group a t1 t2).
Proof using Type.
  intros [Hn [Hf Hg]%andb_true_iff]%andb_true_iff. unfold shown_plainly. cbn -[all_ascii]. by rewrite Hn, Hf, Hg.
Qed.

Lemma upsert_plainly name group fake t1 t2 st : Forall shown_plainly (st_backends st) → wf_json (backend_body name group fake) = true →
  Forall shown_plainly (st_backends (st_upsert (kept_backend round (Persistence.mkBackend name fake "" group true t1 t2)) st)).
Proof using Type.
  rewrite body_plain. intros Hpl Hw. unfold st_upsert. cbn [st_backends]. destruct (existsb _ _).
  - apply Forall_fmap. eapply Forall_impl; [exact Hpl|]. intros old Ho. unfold compose. destruct (has_name _ old) eqn:E; [|done].
    unfold has_name in E. apply seqb_eq in E. cbn in E. unfold overwrite. rewrite <- E. by apply shown_plain.
  - apply Forall_app. split; [done|]. constructor; [by apply shown_plain|done].
Qed.

(** C17: Against the admin API of a gateway that runs with the harness's configuration and whose
    database is up, [AddBackend] ends without an error and without waiting: the request to
    register the backend passes authentication and roles and stores exactly that backend,
    and the first look at the list of all backends shows it. *)
Theorem added_backend_visible h port name group fake s x cl st :
  AdminURL h = local_url port → rep (ad_store s) st → up → Forall shown_plainly (st_backends st) →
  wf_json (backend_body name group fake) = true → Z.of_nat (String.length (print_json (backend_body name group fake))) < 2 ^ 20 →
  ∃ s', AddBackend took (http (local_addr port)) h name group fake (mkTB (s, x) cl) = (Ok tt, mkTB (s', x) cl)
    ∧ rep (ad_store s') (st_upsert (kept_backend round (Persistence.mkBackend name fake "" group true (en_now env) (en_now env))) st).
Proof using All.
  intros Hh Hr Hup Hpl Hw Hlen. unfold AddBackend. rewrite Hh.
  destruct (posted_backend port name group fake s x st Hr Hup Hw Hlen) as (resp & s1 & Hp & Hst & Hr1).
  set (b := kept_backend _ _) in *.
  assert (Hpl1 : Forall shown_plainly (st_backends (st_upsert b st))) by (by apply upsert_plainly).
  destruct (visible_listed port name s1 x _ Hr1 Hup Hpl1) as (s2 & Hv & Hr2).
  assert (Hin : existsb (λ b, b_Name b =?s name) (st_backends (st_upsert b st)) = true).
  { destruct (upsert_finds b st) as (b' & Hin & Hs). apply existsb_exists. exists b'. split; [by apply list_elem_of_In|].
    apply seqb_eq. apply Hs. }
  rewrite Hin in Hv. exists s2. split; [|done].
  change (AdminClient (http (local_addr port)) "") with (http (local_addr port) (30 * Second)) in *.
  unfold mbind, T_bind, TestTB.lift, await, call. cbn [tb_world tb_cleanups]. rewrite Hp. cbn beta iota. rewrite Hst.
  change (negb (200 =? 200)) with false. cbn beta iota. unfold mbind, T_bind. cbn [tb_world tb_cleanups].
  unfold turns. rewrite (poll_before_first took _ _ _ _ _ _ _ Hv) by done. done.
Qed.
End listener.

Module HarnessApiDemo.
Definition config : harnessConfig := set_endpoints 40001 40002 "host=localhost" (apply_options [WithMetricsDisabled]).
Definition env : api_env :=
  mkApiEnv (Auth (wanted config)) (λ p s, Some ((p =?s ".*") || (p =?s s))) (λ _ _, "") id (λ _, "0") true true false [] 0 500000000000.
Definition route (r : request) : option registration :=
  find_first (λ reg, static_pattern (reg_pattern reg) && (reg_method reg =?s req_method r) && (reg_pattern reg =?s url_path (req_url r)))
    (buildRouter None).
#[global] Instance route_mux : ChiMux (buildRouter None) route.
Proof.
  intros reg r Hin Hst Hm Hp. unfold route. rewrite Hm, Hp. apply list_elem_of_In in Hin. vm_compute in Hin.
  repeat destruct Hin as [<- | Hin]; (reflexivity || (vm_compute in Hst; discriminate Hst) || destruct Hin).
Qed.
Definition h : Harness := mkHarness (local_url 40001) (local_url 40002) config 0 "/tmp/trino-goway".
End HarnessApiDemo.

Lemma added_backend_visible_witness :
  let e := StoreDemo.eng "postgres" in let env := HarnessApiDemo.env in
  ∃ s', AddBackend (λ _, 0)
          (admin_http (H := dao_ops e) env AdminAuth.Demo.verify (λ _ _, true) AdminAuth.Demo.Do None (λ _, (None, None)) None (λ _ _ _, NotFound)
             (λ _, NotFound) HarnessApiDemo.route "127.0.0.1:50000" (mkCallError "refused" false) "127.0.0.1:40002")
          HarnessApiDemo.h "b3" "etl" "http://127.0.0.1:41000" (mkTB (ApiDemo.state, tt) []) = (Ok tt, mkTB (s', tt) [])
    ∧ dao_rep (ad_store s') (st_upsert (kept_backend id (Persistence.mkBackend "b3" "http://127.0.0.1:41000" "" "etl" true (en_now env) (en_now env))) StoreDemo.st).
Proof.
  cbn zeta.
  apply (added_backend_visible (H := dao_ops (StoreDemo.eng "postgres")) HarnessApiDemo.env AdminAuth.Demo.verify (λ _ _, true) AdminAuth.Demo.Do None
    (λ _, (None, None)) None (λ _ _ _, NotFound) (λ _, NotFound) HarnessApiDemo.route "127.0.0.1:50000" (mkCallError "refused" false)
    dao_rep (dao_up (StoreDemo.eng "postgres")) (dao_dates (StoreDemo.eng "postgres")) id
    (StoreSpec0 := dao_spec (StoreDemo.eng "postgres") (or_introl eq_refl)) None HarnessApiDemo.config eq_refl eq_refl eq_refl (λ _, 0)
    HarnessApiDemo.h 40002).
  - reflexivity.
  - apply StoreDemo.db_rep.
  - apply StoreDemo.eng_up.
  - repeat constructor.
  - vm_compute. reflexivity.
  - vm_compute. reflexivity.
Defined.
