(* ===== verification/GoldenFiles.v ===== *)
(** * Recordings on disk (WriteGolden and GoldenPath of internal/diffharness/golden.go, the
      record command of cmd/goway-diff-harness)

    Recording writes one file for each scenario, replaying reads them. The disk has
    directories and files, and faults that depend on the path. Of encoding/json's
    indentation it is only used that the file is read back with the same settings and the
    same JSON document; a document that is null is written as the word. *)
From S2P Require Import Prelude GoStrings GoNumeric Json HttpModel Cookie Wire DiffHarness E2EHarness.

#[local] Open Scope Z_scope.

Record disk : Type := mkDisk { d_dirs : gset string; d_files : gmap string string }.

(** What [json.MarshalIndent] and [json.Unmarshal] do with a recording of plain text. *)
Definition plain_golden (g : Golden) : bool :=
  all_ascii (g_Scenario g) && (0 <=? g_StatusCode g) && (g_StatusCode g <? 1000) && (g_Version g =? goldenFileVersion)
  && forallb (λ '(k, vs), all_ascii k && forallb all_ascii vs) (map_to_list (g_Headers g)) && all_ascii (g_Body g) && json_valid (g_Body g).
Class GoldenFormat (marshal : Golden → go_result string) (parse : string → go_result Golden) : Prop :=
  golden_read_back g : plain_golden g = true → ∃ text g',
    marshal g = Ok text ∧ parse (text +:+ nl) = Ok g'
    ∧ g_Version g' = g_Version g ∧ g_Scenario g' = g_Scenario g ∧ g_StatusCode g' = g_StatusCode g ∧ g_Headers g' = g_Headers g
    ∧ unmarshal_ast (g_Body g') = unmarshal_ast (g_Body g) ∧ (unmarshal_ast (g_Body g) = Some JNull → g_Body g' = "null").

Section files.
Context (marshal : Golden → go_result string) (parse : string → go_result Golden).
Context (mkdir_fails write_fails : string → option string).

Definition MkdirAll (dir : string) : ST disk (go_result unit) := λ d,
  match mkdir_fails dir with Some e => (Err e, d) | None => (Ok tt, mkDisk ({[dir]} ∪ d_dirs d) (d_files d)) end.
Definition WriteFile (path data : string) : ST disk (go_result unit) := λ d,
  if negb (bool_decide (path_dir path ∈ d_dirs d)) then (Err "no such file or directory", d) else
  match write_fails path with Some e => (Err e, d) | None => (Ok tt, mkDisk (d_dirs d) (<[path := data]> (d_files d))) end.
Definition ReadFile (path : string) (d : disk) : go_result string :=
  match d_files d !! path with Some data => Ok data | None => Err "no such file or directory" end.

Definition GoldenPath (dir scenarioName : string) : string := path_join dir (scenarioName +:+ ".json").
Definition WriteGolden (path : string) (g : Golden) : ST disk (go_result unit) :=
  r ← MkdirAll (path_dir path);
  match r with
  | Err e => mret (Err ("golden: mkdir: " +:+ e))
  | Ok _ =>
      match marshal g with
      | Err e => mret (Err ("golden: marshal: " +:+ e))
      | Ok data =>
          r ← WriteFile path (data +:+ nl);
          mret match r with Err e => Err ("golden: write: " +:+ e) | Ok _ => Ok tt end
      end
  end.
(** What the replay command finds for a scenario. *)
Definition goldens_on (dir : string) (d : disk) (name : string) : go_result Golden := ReadGolden (ReadFile (GoldenPath dir name) d) parse.

Context (fmt_json fmt_g : f64 → string) (url_parse : string → option url) (new_request_ok : string → string → bool).
Context {W : Type} (DoJava : out_request → ST W (go_result response)) (java : Target).
#[local] Abbreviation record := (RecordScenario fmt_json fmt_g url_parse new_request_ok DoJava java).

(** The loop of [runRecord]: the number of scenarios that failed. *)
Fixpoint record_each (dir : string) (ss : list Scenario) : ST (conn (W := W) * disk) Z :=
  match ss with
  | [] => mret 0
  | s :: ss => λ '(c, d),
      let '(r, c) := record s c in
      let '(failed, d) := match r with
                          | Err _ => (1, d)
                          | Ok g => let '(w, d) := WriteGolden (GoldenPath dir (sc_Name s)) g d in (match w with Ok _ => 0 | Err _ => 1 end, d)
                          end in
      let '(n, cd) := record_each dir ss (c, d) in (failed + n, cd)
  end.
Definition runRecord (dir : string) (files : go_result (list (string * bool * go_result Scenario))) : ST (conn (W := W) * disk) Z :=
  if BaseURL java =?s "" then mret 2
  else with_scenarios files (λ ss, failed ← record_each dir ss; mret (if 0 <? failed then 1 else 0)).

(** The recordings, in order, of a run in which every scenario is answered. *)
Fixpoint recorded (ss : list Scenario) (c : conn (W := W)) : option (list Golden) :=
  match ss with
  | [] => Some []
  | s :: ss => match record s c with (Ok g, c) => gs ← recorded ss c; Some (g :: gs) | (Err _, _) => None end
  end.

(** ** Lemmas *)
Lemma write_golden_files path g d : ∃ d' r, WriteGolden path g d = (r, d')
  ∧ match r with
    | Ok _ => ∃ text, marshal g = Ok text ∧ d_files d' = <[path := text +:+ nl]> (d_files d)
    | Err _ => d_files d' = d_files d
    end.
Proof using Type.
  unfold WriteGolden, MkdirAll, WriteFile, mbind, ST_bind. destruct (mkdir_fails _); [by eexists _, _|].
  destruct (marshal g) as [text|e]; [|by eexists _, _]. cbn [d_dirs].
  rewrite bool_decide_eq_true_2 by (apply elem_of_union_l; by apply elem_of_singleton). cbn [negb]. destruct (write_fails path); eexists _, _; (split; [reflexivity|]); [done|by exists text].
Qed.

Lemma golden_path_inj dir a b : GoldenPath dir a = GoldenPath dir b → a = b.
Proof using Type.
  unfold GoldenPath, path_join. intros H. apply (app_cancel_r ".json"). destruct (dir =?s "/"); [by apply app_cancel_l in H|].
  by do 2 apply app_cancel_l in H.
Qed.

(** The file of a scenario holds its recording. *)
Definition on_disk (dir : string) (d : disk) (s : Scenario) (g : Golden) : Prop :=
  ∃ text, marshal g = Ok text ∧ d_files d !! GoldenPath dir (sc_Name s) = Some (text +:+ nl).

Lemma record_each_spec dir ss c d n c' d' : record_each dir ss (c, d) = (n, (c', d')) →
  0 ≤ n ∧ (∀ name, name ∉ sc_Name <$> ss → d_files d' !! GoldenPath dir name = d_files d !! GoldenPath dir name)
  ∧ (n = 0 → NoDup (sc_Name <$> ss) → ∃ gs, recorded ss c = Some gs ∧ Forall2 (on_disk dir d') ss gs).
Proof using Type.
  revert c d n. induction ss as [|s ss IH]; intros c d n.
  { intros [= <- <- <-]. split_and!; [done|done|]. intros _ _. by exists []. }
  cbn [record_each recorded]. destruct (record s c) as [[g|e] c1].
  2: { destruct (record_each dir ss (c1, d)) as [n1 [c2 d2]] eqn:E. intros [= <- <- <-]. destruct (IH _ _ _ E) as (H1 & H2 & _).
       split_and!; [lia| |lia]. intros name [_ Hn]%not_elem_of_cons. by apply H2. }
  destruct (write_golden_files (GoldenPath dir (sc_Name s)) g d) as (d1 & r & -> & Hr).
  destruct (record_each dir ss (c1, d1)) as [n1 [c2 d2]] eqn:E. intros [= <- <- <-]. destruct (IH _ _ _ E) as (H1 & H2 & H3).
  split_and!.
  - destruct r; lia.
  - intros name [Hne Hn]%not_elem_of_cons. rewrite H2 by done. destruct r as [[]|e]; [|by rewrite Hr]. destruct Hr as (text & _ & ->).
    rewrite lookup_insert_ne; [done|]. intros Hp%golden_path_inj. by subst name.
  - intros Hz Hnd. rewrite fmap_cons, NoDup_cons in Hnd. destruct Hnd as [Hs Hnd]. destruct r as [[]|e]; [|lia].
    destruct Hr as (text & Hm & Hf). destruct H3 as (gs & -> & Hall); [lia|done|]. exists (g :: gs). split; [done|].
    constructor; [|done]. exists text. split; [done|]. by rewrite (H2 _ Hs), Hf, lookup_insert_eq.
Qed.
End files.

(** ** Through the disk and back

    A recording whose body is empty, or a document other than null that equals itself (JSON
    has no NaN). *)
Definition storable (g : Golden) : bool :=
  plain_golden g
  && ((g_Body g =?s "null") || match decode_any (g_Body g) with Some ANull | None => false | Some x => any_eqb x x end).

Section replayed.
Context (cmp_docs : any → any → string) (cmp_text : string → string → string).
Context (Hdocs : ∀ a b, cmp_docs a b = "" ↔ any_eqb a b = true) (Htext : ∀ a b, cmp_text a b = "" ↔ a = b).
Context (marshal : Golden → go_result string) (parse : string → go_result Golden) `{!GoldenFormat marshal parse}.

(** Two recordings that no response tells apart. *)
Definition alike (g g' : Golden) : Prop :=
  g_Scenario g' = g_Scenario g ∧ ∀ r, rs_Verdict (Diff cmp_docs cmp_text (toResponse g') r) = rs_Verdict (Diff cmp_docs cmp_text (toResponse g) r).

Lemma verdict_by_pass a b r :
  (rs_Verdict (Diff cmp_docs cmp_text a r) = VerdictPass ↔ rs_Verdict (Diff cmp_docs cmp_text b r) = VerdictPass) →
  rs_Verdict (Diff cmp_docs cmp_text a r) = rs_Verdict (Diff cmp_docs cmp_text b r).
Proof using Type. unfold Diff. cbn [rs_Verdict]. destruct (_ || _), (_ || _); [done| | |done]; intros [H1 H2]; [by apply H2|symmetry; by apply H1]. Qed.

Lemma bodies_alike a a' x b : decode_any a = Some x → decode_any a' = Some x → any_eqb x x = true → bodies_agree a b → bodies_agree a' b.
Proof using Type. intros Ha Ha' Hx [-> | (y & z & Hy & Hz & E)]; right; exists x; [by exists x|]. exists z. split_and!; [done|done|]. by simplify_eq. Qed.

Lemma read_back_alike g text : storable g = true → marshal g = Ok text →
  ∃ g', ReadGolden (Ok (text +:+ nl)) parse = Ok g' ∧ alike g g'.
Proof using All.
  intros [Hp Hb]%andb_true_iff Hm. destruct (golden_read_back g Hp) as (text' & g' & Hm' & Hread & Ev & Es & Ec & Eh & Eb & En).
  rewrite Hm in Hm'. injection Hm' as <-. exists g'. assert (Hv : (g_Version g =? goldenFileVersion) = true) by (unfold plain_golden in Hp; repeat (apply andb_true_iff in Hp as [Hp ?]); done).
  unfold ReadGolden. rewrite Hread, Ev, Hv. split; [done|]. split; [done|].
  intros r. apply verdict_by_pass. rewrite !diff_pass by done. unfold toResponse. cbn [StatusCode rs_Headers rs_Body]. rewrite Ec, Eh.
  destruct (decide (g_Body g = "null")) as [E0|E0].
  { rewrite E0 in *. by rewrite (En eq_refl). }
  apply seqb_neq in E0. rewrite E0 in Hb. cbn [orb] in Hb. clear E0.
  destruct (decode_any (g_Body g)) as [x|] eqn:Ed; [|done].
  assert (Hd' : decode_any (g_Body g') = Some x) by (unfold decode_any in *; by rewrite Eb).
  assert (Hx : x ≠ ANull) by (by intros ->). assert (Hxx : any_eqb x x = true) by (destruct x; first done; exact Hb).
  assert (Hne : ∀ t, decode_any t = Some x → (t =?s "") || (t =?s "null") = false).
  { intros t Ht. apply orb_false_iff. split; apply seqb_neq; intros ->; vm_compute in Ht; congruence. }
  rewrite (Hne _ Ed), (Hne _ Hd'). split; intros (H1 & H2 & H3); (split_and!; [done|done|]);
    [by apply (bodies_alike (g_Body g') (g_Body g) x)|by apply (bodies_alike (g_Body g) (g_Body g') x)].
Qed.

Context (mkdir_fails write_fails : string → option string).
Context (fmt_json fmt_g : f64 → string) (url_parse : string → option url) (new_request_ok : string → string → bool).
Context {W V : Type} (DoJava : out_request → ST W (go_result response)) (DoGo : out_request → ST V (go_result response)) (java go : Target).
#[local] Abbreviation replay := (replay_all fmt_json fmt_g cmp_docs cmp_text url_parse new_request_ok DoGo go).

(** Replays of alike recordings have the same verdicts. *)
Lemma replay_alike gs gs' ss c :
  Forall (λ s, ∃ g g', gs (sc_Name s) = Ok g ∧ gs' (sc_Name s) = Ok g' ∧ alike g g') ss →
  rs_Verdict <$> (replay gs' ss c).1 = rs_Verdict <$> (replay gs ss c).1 ∧ (replay gs' ss c).2 = (replay gs ss c).2.
Proof using Type.
  intros Hall. revert c. induction Hall as [|s ss (g & g' & Hg & Hg' & Es & Hv) _ IH]; intros c; [done|].
  cbn [replay_all]. unfold mbind, ST_bind, replay_one. rewrite Hg, Hg'. unfold ReplayScenario. rewrite Es. destruct (negb _).
  { cbn [mret ST_ret]. destruct (IH c) as [H1 H2]. destruct (replay gs' ss c), (replay gs ss c). cbn in *. by rewrite H1, H2. }
  unfold mbind, ST_bind. destruct (Run _ _ _ DoGo go s c) as [res c1]. cbn [mret ST_ret]. destruct (IH c1) as [H1 H2].
  destruct (replay gs' ss c1), (replay gs ss c1). cbn in H1, H2 |- *. rewrite H1, H2. split; [|done]. f_equal. destruct res; [exact (Hv _)|done].
Qed.

(** What was recorded under a name. *)
Definition kept (ss : list Scenario) (gs : list Golden) (name : string) : go_result Golden :=
  match find_first (λ p, sc_Name p.1 =?s name) (zip ss gs) with Some (_, g) => Ok g | None => Err "" end.

Lemma kept_at ss gs i s g : NoDup (sc_Name <$> ss) → ss !! i = Some s → gs !! i = Some g → length ss = length gs →
  kept ss gs (sc_Name s) = Ok g.
Proof using Type.
  intros Hnd Hs Hg Hlen. unfold kept. revert gs i Hs Hg Hlen. induction ss as [|s0 ss IH]; intros [|g0 gs] i Hs Hg Hlen; try done.
  rewrite fmap_cons, NoDup_cons in Hnd. destruct Hnd as [Hn Hnd]. cbn [zip_with find_first fst]. destruct i as [|i]; cbn in Hs, Hg.
  - injection Hs as ->. injection Hg as ->. by rewrite seqb_refl.
  - replace (sc_Name s0 =?s sc_Name s) with false; [by apply (IH Hnd gs i); [..|cbn in Hlen; lia]|].
    symmetry. apply seqb_neq. intros E. apply Hn. rewrite E. apply list_elem_of_fmap. exists s. split; [done|]. by eapply list_elem_of_lookup_2.
Qed.

(** If the record command ends with status zero, every scenario was answered, and replaying
    from the files it wrote gives, against any gateway, the verdicts that the recordings
    themselves would give: neither the file format nor the order of writing loses one. *)
Theorem recordings_survive_disk dir files ss cj cj' d0 d :
  found files ss → NoDup (sc_Name <$> ss) →
  runRecord marshal mkdir_fails write_fails fmt_json fmt_g url_parse new_request_ok DoJava java dir files (cj, d0) = (0, (cj', d)) →
  ∃ gs, recorded fmt_json fmt_g url_parse new_request_ok DoJava java ss cj = Some gs
    ∧ (Forall (λ g, storable g = true) gs →
       ∀ cg, rs_Verdict <$> (replay (goldens_on parse dir d) ss cg).1 = rs_Verdict <$> (replay (kept ss gs) ss cg).1).
Proof using All.
  intros Hf Hnd. unfold runRecord. destruct (BaseURL java =?s ""); [done|]. unfold with_scenarios, found in *.
  destruct files as [fs|e]; [|done]. destruct Hf as [-> Hne]. destruct ss as [|s0 ss0]; [done|]. set (ss := s0 :: ss0) in *.
  unfold mbind, ST_bind. destruct (record_each _ _ _ _ _ _ _ _ _ dir ss (cj, d0)) as [n [c1 d1]] eqn:E.
  destruct (record_each_spec _ _ _ _ _ _ _ _ _ _ _ _ _ _ _ _ E) as (Hn & _ & Hall).
  destruct (0 <? n) eqn:En; [done|]. unfold mret, ST_ret. intros [= <- <-]. apply Z.ltb_ge in En. destruct Hall as (gs & Hgs & Hall); [lia|done|].
  exists gs. split; [done|]. intros Hst cg. apply (replay_alike (kept ss gs)). apply Forall_forall. intros s Hs.
  apply list_elem_of_lookup in Hs as [i Hi]. destruct (Forall2_lookup_l _ _ _ _ _ Hall Hi) as (g & Hg & text & Hm & Hd).
  rewrite Forall_forall in Hst. destruct (read_back_alike g text) as (g' & Hread & Hal); [by apply Hst; eapply list_elem_of_lookup_2|done|].
  exists g, g'. split_and!; [|by unfold goldens_on, ReadFile; rewrite Hd|done].
  eapply kept_at; [done|exact Hi|exact Hg|by eapply Forall2_length].
Qed.
End replayed.

(** A format for the examples: the fields as JSON, the body as a string. *)
Module GoldenDemo.
Definition headers_json (h : header) : json := JObj ((λ '(k, vs), (k, jstrs vs)) <$> map_to_list h).
Definition doc (g : Golden) : json :=
  JObj [("version", jint (g_Version g)); ("scenario", JStr (g_Scenario g)); ("statusCode", jint (g_StatusCode g));
        ("headers", headers_json (g_Headers g)); ("body", JStr (match unmarshal_ast (g_Body g) with Some JNull => "null" | _ => g_Body g end))].
Definition marshal (g : Golden) : go_result string := Ok (print_json (doc g)).
Definition text_of (v : json) : option string := match v with JStr s => Some s | _ => None end.
Definition texts_of (v : json) : option (list string) := match v with JArr l => mapM text_of l | _ => None end.
Definition parse (text : string) : go_result Golden :=
  match unmarshal_ast text with
  | Some (JObj [(_, JNum v); (_, JStr s); (_, JNum c); (_, JObj h); (_, JStr b)]) =>
      match parse_int v, parse_int c, mapM (λ '(k, vs), vs' ← texts_of vs; Some (k, vs')) h with
      | Some v, Some c, Some h => Ok (mkGolden v s c (list_to_map h) b)
      | _, _, _ => Err "bad recording"
      end
  | _ => Err "bad recording"
  end.

Lemma headers_wf h : forallb (λ '(k, vs), all_ascii k && forallb all_ascii vs) (map_to_list h) = true →
  wf_json (headers_json h) = true ∧ (jheight (headers_json h) ≤ 2)%nat
  ∧ mapM (λ '(k, vs), vs' ← texts_of vs; Some (k, vs')) ((λ '(k, vs), (k, jstrs vs)) <$> map_to_list h) = Some (map_to_list h).
Proof.
  unfold headers_json. generalize (map_to_list h). intros l. induction l as [|[k vs] l IH]; [cbn; auto with lia|].
  cbn [forallb]. intros [[Hk Hvs]%andb_true_iff Hl]%andb_true_iff. destruct (IH Hl) as (H1 & H2 & H3).
  assert (Hm : mapM text_of (map JStr vs) = Some vs).
  { apply mapM_Some. clear. induction vs; constructor; done. }
  split_and!.
  - rewrite fmap_cons. cbn [wf_json forallb fst snd] in *. rewrite Hk, H1. cbn [andb jstrs wf_json]. rewrite andb_true_r.
    apply forallb_forall. intros j Hj. apply in_map_iff in Hj as (t & <- & Ht). cbn. rewrite forallb_forall in Hvs. by apply Hvs.
  - rewrite fmap_cons. cbn [jheight foldr snd] in *. assert (foldr (λ v n, Nat.max (jheight v) n) 0 (map JStr vs) = 0)%nat.
    { clear. induction vs; [done|]. cbn. by rewrite IHvs. } cbn [jstrs jheight]. lia.
  - rewrite fmap_cons. cbn [mapM]. change (texts_of (jstrs vs)) with (mapM text_of (map JStr vs)). rewrite Hm. cbn. by rewrite H3.
Qed.

#[global] Instance format_ok : GoldenFormat marshal parse.
Proof.
  intros g Hp. unfold plain_golden in Hp. repeat (apply andb_true_iff in Hp as [Hp ?]).
  assert (Hv : g_Version g = 1) by (by apply Z.eqb_eq). destruct (headers_wf (g_Headers g)) as (Hh1 & Hh2 & Hh3); [done|].
  assert (Hc : in_int64 (g_StatusCode g)) by (unfold in_int64, int64_min, int64_max; lia).
  set (b := match unmarshal_ast (g_Body g) with Some JNull => "null" | _ => g_Body g end).
  assert (Hb : all_ascii b = true) by (unfold b; by destruct (unmarshal_ast (g_Body g)) as [[]|]).
  exists (print_json (doc g)), (mkGolden 1 (g_Scenario g) (g_StatusCode g) (g_Headers g) b). split; [done|]. split.
  - unfold parse. rewrite unmarshal_print_nl.
    + unfold doc, headers_json, jint. fold b. cbv beta iota. rewrite Hv, !parse_int_dec, Hh3 by done. by rewrite list_to_map_to_list.
    + unfold doc. fold b. cbn [wf_json forallb fst snd]. rewrite Hv, wf_jint, wf_jint, Hp, Hb by done.
      change (wf_json (JObj ?l)) with (wf_json (headers_json (g_Headers g))). by rewrite Hh1.
    + assert (jheight (doc g) ≤ 3)%nat; [|unfold max_nesting_depth; lia]. unfold doc, jint. cbn [jheight foldr snd] in *. lia.
  - cbn [g_Version g_Scenario g_StatusCode g_Headers g_Body]. split_and!; [done..| |].
    + unfold b. destruct (unmarshal_ast (g_Body g)) as [[]|] eqn:E; by rewrite ?E.
    + intros E. unfold b. by rewrite E.
Qed.
End GoldenDemo.

Module GoldenRun.
Definition scenario (name : string) : Scenario :=
  mkScenario name "" [mkStep "GET" "/v1/info" "" ∅ "" ∅ None] (mkPolicy [] [] false).
Definition files : go_result (list (string * bool * go_result Scenario)) :=
  Ok [("a.yaml", false, Ok (scenario "info")); ("b.yml", false, Ok (scenario "again"))].
Definition Do (body : string) : out_request → ST unit (go_result response) := λ _ s, (Ok (Response 200 ∅ body None), s).
Definition java : Target := mkTarget "java" "http://java".
Definition url_parse (s : string) : option url := Some (Url "http" "" "" "java" "" "" "" false "").
Definition start : conn (W := unit) := mkConn tt [].
Definition body : string := "[1," +:+ print_json (JStr "x") +:+ "]".
Definition run : Z * (conn (W := unit) * disk) :=
  runRecord GoldenDemo.marshal (λ _, None) (λ _, None) (λ _, "") (λ _, "") url_parse (λ _ _, true) (Do body) java "golden" files
    (start, mkDisk ∅ ∅).
End GoldenRun.

Lemma recordings_survive_disk_witness :
  let ss := [GoldenRun.scenario "info"; GoldenRun.scenario "again"] in let d := snd (snd GoldenRun.run) in
  fst GoldenRun.run = 0 ∧
  ∃ gs, recorded (λ _, "") (λ _, "") GoldenRun.url_parse (λ _ _, true) (GoldenRun.Do GoldenRun.body) GoldenRun.java ss GoldenRun.start = Some gs
    ∧ (Forall (λ g, storable g = true) gs →
       ∀ cg : conn (W := unit),
         let replay gs := replay_all (λ _, "") (λ _, "") cmp_docs_example cmp_text_example GoldenRun.url_parse (λ _ _, true)
                            (GoldenRun.Do "[ 1, 2]") GoldenRun.java gs ss cg in
         rs_Verdict <$> fst (replay (goldens_on GoldenDemo.parse "golden" d)) = rs_Verdict <$> fst (replay (kept ss gs))).
Proof.
  cbn zeta. split; [vm_compute; reflexivity|].
  apply (recordings_survive_disk cmp_docs_example cmp_text_example cmp_docs_example_ok cmp_text_example_ok GoldenDemo.marshal GoldenDemo.parse
    (λ _, None) (λ _, None) (λ _, "") (λ _, "") GoldenRun.url_parse (λ _ _, true) (GoldenRun.Do GoldenRun.body) (GoldenRun.Do "[ 1, 2]")
    GoldenRun.java GoldenRun.java "golden" GoldenRun.files [GoldenRun.scenario "info"; GoldenRun.scenario "again"] GoldenRun.start
    (fst (snd GoldenRun.run)) (mkDisk ∅ ∅)).
  - vm_compute. split; [reflexivity|discriminate].
  - apply (bool_decide_unpack _). vm_compute. exact I.
  - vm_compute. reflexivity.
Defined.

(** The recordings of the example can be stored. *)
Example stored_example :
  forallb storable
    (from_opt [] (recorded (λ _, "") (λ _, "") GoldenRun.url_parse (λ _ _, true) (GoldenRun.Do GoldenRun.body) GoldenRun.java
       [GoldenRun.scenario "info"; GoldenRun.scenario "again"] GoldenRun.start)) = true.
Proof. vm_compute. reflexivity. Qed.
